(* ===== verification/_CoqProject ===== *)
-Q . S2P
Prelude.v
Errors.v
Cluster.v
GoMonad.v
Wire.v
Options.v
Conn.v
Types.v
Uri.v
Convert.v
ConvertFacts.v
PartName.v
Formats.v
Client.v
Demo.v
ClientFacts.v
Failover.v
DbOps.v
TableOps.v
PartitionOps.v
TxnOps.v
OpsFacts.v
Pool.v
PoolLaws.v
PoolFacts.v
PoolRefine.v
Transport.v
Sasl.v
SaslFacts.v
SaslTotal.v
Thrift.v
ThriftFacts.v
CodecTable.v
CodecTableFacts.v
DeepCopy.v
CodecStats.v
CodecStatsFacts.v
CodecReq.v
CodecReqFacts.v
CodecAcid.v
CodecAcidFacts.v
Krb.v
KrbFacts.v
Gssapi.v
GssFacts.v
Deadline.v
Budget.v
Dial.v
Http.v
FakeAcid.v
Fake.v
FakeFacts.v
FakeServer.v
EndToEnd.v
TableStore.v
FakeStart.v
Rpc.v
RpcHandler.v
RpcCatalog.v
RpcTable.v
RpcPartition.v
RpcTxn.v
CodecValues.v
RpcFacts.v
RpcCatalogFacts.v
RpcTableFacts.v
RpcPartitionFacts.v
RpcTxnFacts.v
RpcWire.v
FakeWire.v
TableWire.v
Hmsrecord.v
