(* ===== verification/Prelude.v ===== *)
(** * hms-client-go: a model of the Hive Metastore client

    src/ is a Go client of the Hive Metastore's Thrift service: it keeps pools of
    connections to several endpoints, fails over between them, converts between
    the generated Thrift structs and its own exported types, and hides the
    differences between the Hive versions it supports. hmstest/ is an in-process
    fake metastore for tests. This library is a shallow embedding of both, and
    the theorems that say what they promise.

    ** How the code is modelled

    A Go function becomes a Rocq function of the same name. Functions that
    change state have type [M S A] ([GoMonad]): they take the state and return
    it with an error or a value; an error path keeps the changes made before it.
    Errors are the trees [errors.Is] and [errors.As] walk ([Errors.goerr]). Go
    integers are [Z], with the conversions that wrap or saturate written out
    ([int16], [int32], [int64]). A nil slice and an empty one differ, and so do
    maps: [slice] and [gomap] are options. A dereference of nil in code that
    could reach it is the error [nil_dereference]. Wire strings are byte
    strings.

    ** The files

    - Prelude, GoMonad: integers, slices, the error monad, the chunked loops.
    - Errors: src/errors.go. The sentinels, [classify], [wrapError], [Message].
    - Cluster: src/internal/ha/cluster.go. Pick order, cooldowns and backoff;
      the clock and the random draw of a call are arguments.
    - Wire: the generated structs (src/gen/hive_metastore) the client uses; its
      constructors carry the IDL's defaults.
    - Types: the exported types (src/types.go and the types of acid.go, stats.go,
      notification.go), [ParseHiveVersion] with [strconv.Atoi].
    - Options: src/options.go and the options of src/observe.go; [clamp].
    - Uri: src/internal/transport/uri.go.
    - Conn: src/conn.go. One connection, the request/legacy fallback and the
      catalog support cache; the body of an RPC runs on [bst], which holds the
      conn, the world, the client's warehouse roots and the Go variables the
      closure captures.
    - Convert, ConvertFacts: src/convert.go, with the snapshot of the wire fields
      the exported types lack, and the interning of column lists, whose sharing
      is an explicit address.
    - PartName: src/partname.go. Formats: src/formats.go.
    - Client, Demo, ClientFacts: src/client.go and [newConn]. The state [St] is
      the client, the world, the log and the observer's records. The world is
      any type with an [Env]: the context, the clock, the random source, the
      dialers and the Kerberos session. Here calls run one after another.
    - Failover: the client's retry loop over the cluster's ring of endpoints.
    - Pool, PoolLaws, PoolFacts, PoolRefine: the same pools under concurrency. A
      goroutine is a program counter, a step is one atomic action of the source
      (a lock, an atomic add, a channel operation, a dial returning), and a run
      is any interleaving. PoolRefine ties the two: the sequential [acquire] and
      [release] are what the concurrent steps do undisturbed.
    - DbOps, TableOps, PartitionOps, TxnOps, OpsFacts: the exported calls of
      src/client.go, table.go, partition.go, acid.go, stats.go, notification.go.
      An iterator takes its consumer as a function that may itself use the
      client.
    - Transport, Sasl, SaslFacts, SaslTotal: src/internal/transport/sasl.go over
      any inner transport ([TTransport]); the stream instance delivers its bytes
      in arbitrary pieces.
    - Krb, KrbFacts: of src/internal/transport/gssapi.go, the shared session (one
      call at a time, and as steps of goroutines) and the token formats. Gssapi,
      GssFacts: its mechanism, an instance of [saslMech], over the operations of
      gokrb5 ([GoKrb5]).
    - Deadline: src/internal/transport/ctxclient.go, and the dial handshake, as
      users of one socket deadline whose cancellation callbacks run on goroutines
      of their own. Dial: binary.go. Budget: budget.go. Http: http.go and
      src/version.go.
    - Thrift, ThriftFacts: the shapes the generated encoders and decoders are made
      of, over any [TProtocol], and what they owe each other: [writes] and [reads]
      relate a struct to the tokens of its encoding. CodecTable, CodecStats,
      CodecReq, CodecAcid (and their Facts): Read and Write of 60 generated structs
      of src/gen/hive_metastore. CodecValues: each is a value, which a peer can
      skip. DeepCopy: [deepCopyThrift] of src/convert.go, by those codecs.
    - Rpc, RpcFacts: what a stub, a processor's method and Process are, whatever
      the method; a connection between a client and a server's processor is the
      record [link]. RpcHandler: the interface ThriftHiveMetastore. RpcCatalog,
      RpcTable, RpcPartition, RpcTxn (and their Facts): of each of the 43 RPCs the
      client binds, the argument and result structs with their codecs, the stub
      ([Stub]) and the processor's method ([Processor]) of
      src/gen/hive_metastore/hive_metastore.go and src/gen/fb303/fb303.go. RpcWire:
      the processor map, and newConn's func fields bound to the stubs ([bound]).
    - FakeAcid, Fake, FakeFacts: src/hmstest/acid.go and handler.go. FakeServer:
      src/hmstest/server.go, its accept loop, handlers and Stop as steps of
      goroutines. FakeStart: its [NewServer], options and seeds.
    - EndToEnd: the calls of the client against the handlers of the fake. TableStore:
      an abstract store of tables, which the client's calls refine over a network that
      loses requests and replies; what a world owes the client for that is the class
      [Serves]. FakeWire: the handlers behind the generated code, which answer the
      same. TableWire: [Serves] for a world whose conns are connections to that
      server, so that the client refines the store through the generated code.
    - Hmsrecord: src/internal/cmd/hmsrecord/main.go, the recording proxy; the
      library's reader is any program that reads ([prog]).

    ** What the theorems show

    - The retry loop: a call that is not idempotent reaches a server at most
      once; what becomes of the conn, the endpoint and the loop after an RPC; no
      conn leaks; the observer sees every attempt; errors are classified.
    - The pools under any schedule: a conn is in one place, the counts are
      exact, Close leaves nothing behind and does not get stuck.
    - Failover: the pick order, its well-formedness, the backoff policy; a call that
      may be retried gets the answer of the one endpoint that is up, whatever the
      others do ([Failover.failover_answers]).
    - The store: any sequence of calls on tables is a run of an atomic store, where a
      change reported as unavailable was made once or not at all
      ([TableStore.client_refines_store]), the generated code between client and
      server included ([TableWire.client_over_wire_refines_store]). It supposes that a
      lost request is never carried out later, that a dial fails only for want of a
      host, and names without the characters the catalog prefix uses.
    - Configuration and start: every configuration is usable once clamped; New
      dials in order and its result is one of three.
    - Conversions: an unchanged table is altered to itself, fields the client
      does not know survive, interning shares only what is equal, times saturate.
    - Calls: the fallback to legacy RPCs, batches, streams, database locations,
      the not-found contract of drops, partition names.
    - Transports: SASL negotiation and framing, and that neither ever hangs on a
      finite stream; a Kerberos handshake that succeeds has authenticated the
      server, and the credentials are destroyed once, after their last user; a
      failed dial leaves no socket, and a call's deadline is its own; an HTTP
      request has one value per header, and its body's cap hides nothing from the
      response budget.
    - Codecs: what the client writes it reads back, whatever fields a newer server
      adds; a lock request reaches the server as the caller built it.
    - Remote calls: a call of any of the 43 RPCs runs the metastore's handler once
      and comes back with its answer, or with its exception, and the connection is
      good for the next ([FakeWire.wire_delivers]); so [EndToEnd.fakeRpcs], on which
      the theorems about the client on the fake rest, is what the fake does behind
      its wire ([FakeWire.wire_agrees]).
    - The recording proxy: bytes are forwarded unchanged whatever they are; the
      calls are recorded in order, and the summary counts them ([Hmsrecord.summary_spec]).
    - The fake: its lock table, transactions and partition drops; the client on
      it, end to end, on each version, a new server included; Stop returns without a client's help, and then
      no handler runs and no conn it accepted in time is open; exactly so many
      requests are dropped as were asked for.
    - Defects: some theorems and examples show where the code does not do what
      it or its comments say ([Uri.ipv6_default_port_broken],
      [ClientFacts.probe_exceeds_pool_size], [PoolFacts.discard_strands_waiter],
      [FakeFacts.drop_partitions_corrupts], [FakeFacts.rename_strands_partitions], [ConvertFacts.columnKey_collision],
      [Deadline.handshake_flips_next_call], [FakeServer.stop_before_reject],
      [Hmsrecord.server_hangup_noted], [Hmsrecord.truncated_message_by_chunks]).

    ** Fuel

    Loops that are not structural take fuel: the chunk loops the length of their
    list, the retry loop [maxRetries], New's loop the number of endpoints, all of
    them the code's own bounds. The reads of the SASL and budget transports take
    fuel because the network may deliver empty reads for ever;
    [SaslTotal.sasl_terminates] says how much is enough for a stream that
    delivers, and that more changes nothing. The decoders take one unit for each field
    of an encoding; no struct here has more than 28, and [msg_fuel] is enough for any
    message. The proxy's loops take a unit for each byte and chunk of the stream.

    ** Parameters

    [UrlLib] (net/url), [UnicodeLower] (strings.ToLower outside ASCII),
    [Env] (contexts, clock, randomness, dialers, as the client sees them),
    [AppendGrowth] (the capacity Go's append leaves io.ReadAll), [ByteReader] and
    the other optional interfaces of package io, [GoKrb5] and [KrbLoaders]
    (gokrb5), [GoNet] (the socket of a dial), [THttp] (thrift's HTTP client),
    [TProtocol] and [TSerializer] (thrift's protocols), [Substructs] (the codecs of
    the struct fields the client keeps opaque), [TStandardClient] and
    [TProcessorLib] (thrift's client and its TApplicationException), [TBinaryReader]
    and [JsonEncoder] (of the proxy), [MapRange] (the order of a map),
    and path.Match and the %q verb as arguments. Each is instantiated by a
    concrete one in a witness. Convert's [DeepCopy] is a class too, which the file
    DeepCopy implements.

    ** Not modelled

    The bytes of a thrift protocol, of TLS, of HTTP and of Kerberos messages belong
    to libraries: an encoding is a list of tokens. The IDL has about 240 more RPCs,
    which the client does not call, and their structs; the generator makes their
    code by the templates modelled here. Equals, String and Validate of the generated
    structs are not modelled, nor is the server's connectivity check, whose outcome
    is the argument [cause] of a processor. A handler's panic, which closes the
    connection, is left out of [wire_agrees]: it supposes the pointers given that
    the client always gives. The commands' main functions parse flags. Tests and
    examples are left out. *)

From Stdlib Require Export ZArith Ascii Lia Permutation.
From stdpp Require Export base numbers list list_numbers gmap sets strings option.
Export ListNotations.

#[global] Open Scope Z_scope.

(** ** Automation *)

(** Case analysis on the scrutinee of a [match] in the goal or in a
    hypothesis, keeping the equation. *)
Ltac split_match :=
  match goal with
  | |- context [match ?x with _ => _ end] => let E := fresh "E" in destruct x eqn:E
  end.

Ltac split_match_in H :=
  match type of H with
  | context [match ?x with _ => _ end] => let E := fresh "E" in destruct x eqn:E
  end.

Ltac inv_clear H := inversion H; subst; clear H.

Create HintDb hms discriminated.
Create Rewrite HintDb hms_rw.

(** ** Machine integers *)

Definition MaxInt16 : Z := 32767.
Definition MaxInt32 : Z := 2147483647.
Definition MinInt32 : Z := -2147483648.
Definition MaxInt64 : Z := 9223372036854775807.
Definition MinInt64 : Z := -9223372036854775808.

Definition in_int16 (z : Z) : Prop := -32768 <= z <= MaxInt16.
Definition in_int32 (z : Z) : Prop := MinInt32 <= z <= MaxInt32.
Definition in_int64 (z : Z) : Prop := MinInt64 <= z <= MaxInt64.

(** [wrap w z] is the two's-complement reading of [z] in [w] bits: what a Go
    conversion to a signed [w]-bit type does. *)
Definition wrap (w z : Z) : Z :=
  let m := z mod 2 ^ w in
  if m <? 2 ^ (w - 1) then m else m - 2 ^ w.

Definition int16 := wrap 16.
Definition int32 := wrap 32.
Definition int64 := wrap 64.

Lemma wrap_id w z : 0 < w -> - 2 ^ (w - 1) <= z < 2 ^ (w - 1) -> wrap w z = z.
Proof.
  intros Hw Hz. unfold wrap.
  assert (H2 : 2 ^ w = 2 * 2 ^ (w - 1)).
  { rewrite <- (Z.pow_succ_r 2 (w - 1)) by lia. f_equal. lia. }
  destruct (decide (0 <= z)).
  - rewrite Z.mod_small by lia. destruct (Z.ltb_spec z (2 ^ (w - 1))); lia.
  - rewrite <- (Z.mod_add z 1 (2 ^ w)) by lia.
    rewrite Z.mod_small by lia.
    destruct (Z.ltb_spec (z + 1 * 2 ^ w) (2 ^ (w - 1))); lia.
Qed.

Lemma int16_id z : in_int16 z -> int16 z = z.
Proof. unfold in_int16, MaxInt16. intros. apply wrap_id; simpl; lia. Qed.
Lemma int32_id z : in_int32 z -> int32 z = z.
Proof. unfold in_int32, MaxInt32, MinInt32. intros. apply wrap_id; simpl; lia. Qed.
Lemma int64_id z : in_int64 z -> int64 z = z.
Proof. unfold in_int64, MaxInt64, MinInt64. intros. apply wrap_id; simpl; lia. Qed.

#[export] Hint Rewrite int16_id int32_id int64_id using (unfold in_int16, in_int32, in_int64 in *; lia) : hms_rw.

(** ** Go slices and maps

    A Go slice or map is nil or present; a nil one has length 0 and no
    elements, exactly like a present empty one, and [== nil] tells the two
    apart. *)

Definition slice (A : Type) : Type := option (list A).
Definition gomap (V : Type) : Type := option (gmap string V).

Definition elems {A} (s : slice A) : list A := default [] s.
Definition len {A} (s : slice A) : nat := length (elems s).
Definition entries {V} (m : gomap V) : gmap string V := default ∅ m.

(** [nil_if_empty] is the shape every [copy...] helper of convert.go returns. *)
Definition norm_slice {A} (s : slice A) : slice A :=
  match elems s with [] => None | l => Some l end.
Definition norm_map {V} (m : gomap V) : gomap V :=
  if decide (entries m = ∅) then None else Some (entries m).

Lemma elems_norm_slice {A} (s : slice A) : elems (norm_slice s) = elems s.
Proof. by destruct s as [[|]|]. Qed.
Lemma norm_slice_idem {A} (s : slice A) : norm_slice (norm_slice s) = norm_slice s.
Proof. by destruct s as [[|]|]. Qed.
Lemma entries_norm_map {V} (m : gomap V) : entries (norm_map m) = entries m.
Proof. unfold norm_map. by case_decide as H; [rewrite H|]. Qed.
Lemma norm_map_idem {V} (m : gomap V) : norm_map (norm_map m) = norm_map m.
Proof.
  unfold norm_map at 1 3. rewrite entries_norm_map. done.
Qed.

#[export] Hint Rewrite @elems_norm_slice @norm_slice_idem @entries_norm_map @norm_map_idem : hms_rw.

(** [slice_map] is the [if len(s) == 0 { return nil }; out := make(...);
    for i, v := range s { out[i] = f(v) }] loop of the converters. *)
Definition slice_map {A B} (f : A -> B) (s : slice A) : slice B :=
  match elems s with [] => None | l => Some (map f l) end.

Lemma elems_slice_map {A B} (f : A -> B) (s : slice A) : elems (slice_map f s) = map f (elems s).
Proof. by destruct s as [[|]|]. Qed.
Lemma slice_map_compose {A B C} (f : A -> B) (g : B -> C) (s : slice A) :
  slice_map g (slice_map f s) = slice_map (fun x => g (f x)) s.
Proof. destruct s as [[|]|]; try done. unfold slice_map; simpl. by rewrite map_map. Qed.
Lemma slice_map_id {A} (f : A -> A) (s : slice A) :
  (forall x, f x = x) -> slice_map f s = norm_slice s.
Proof.
  intros Hf. destruct s as [[|x l]|]; try done. unfold slice_map, norm_slice; simpl.
  rewrite Hf. f_equal. f_equal. rewrite (map_ext f id Hf). apply map_id.
Qed.

(** ** The order of strings, byte by byte *)

Lemma compare_trans a : forall b c, String.compare a b = Lt -> String.compare b c = Lt -> String.compare a c = Lt.
Proof.
  induction a as [|x a IH]; intros [|y b] [|z c]; simpl; try done.
  unfold Ascii.compare. destruct (N.compare_spec (N_of_ascii x) (N_of_ascii y)) as [Hxy|Hxy|Hxy]; try done;
    destruct (N.compare_spec (N_of_ascii y) (N_of_ascii z)) as [Hyz|Hyz|Hyz]; try done; intros H1 H2.
  - rewrite Hxy, Hyz, N.compare_refl. by eapply IH.
  - rewrite Hxy. by apply N.compare_lt_iff in Hyz as ->.
  - rewrite <- Hyz. by apply N.compare_lt_iff in Hxy as ->.
  - assert (N_of_ascii x < N_of_ascii z)%N as Hxz by lia. by apply N.compare_lt_iff in Hxz as ->.
Qed.

(** ** Sums over a list: of what the goroutines of a system hold *)

Definition total {A} (f : A -> Z) (ts : list A) : Z := foldr Z.add 0 (map f ts).

Lemma total_insert {A} (f : A -> Z) ts t p p' : ts !! t = Some p -> total f (<[t := p']> ts) = total f ts - f p + f p'.
Proof.
  unfold total. revert t. induction ts as [|q ts IH]; intros [|t] H; [done|done|injection H as ->|]; simpl.
  - lia.
  - rewrite (IH t H). lia.
Qed.
Lemma total_nonneg {A} (f : A -> Z) ts : (forall p, 0 <= f p) -> 0 <= total f ts.
Proof. intros Hf. unfold total. induction ts as [|p ts IH]; simpl; [lia|]. specialize (Hf p). lia. Qed.
Lemma total_le {A} (f : A -> Z) ts t p : (forall p, 0 <= f p) -> ts !! t = Some p -> f p <= total f ts.
Proof.
  intros Hf. unfold total. revert t. induction ts as [|q ts IH]; intros [|t] H; [done|done|injection H as ->|]; simpl.
  - pose proof (total_nonneg f ts Hf). unfold total in *. lia.
  - specialize (IH t H). specialize (Hf q). lia.
Qed.
Lemma total_bound {A} (f : A -> Z) ts : (forall p, f p <= 1) -> total f ts <= Z.of_nat (length ts).
Proof. intros Hf. unfold total. induction ts as [|p ts IH]; cbn [map foldr length]; [lia|]. specialize (Hf p). lia. Qed.
Lemma total_pos {A} (f : A -> Z) ts : 0 < total f ts -> exists t p, ts !! t = Some p /\ 0 < f p.
Proof.
  unfold total. induction ts as [|p ts IH]; simpl; [lia|]. intros H.
  destruct (decide (0 < f p)); [by exists 0%nat, p|]. destruct IH as (t & q & Hq & Hf); [lia|]. by exists (Datatypes.S t), q.
Qed.

Lemma total_zero {A} (f : A -> Z) ts t p : (forall p, 0 <= f p) -> total f ts = 0 -> ts !! t = Some p -> f p = 0.
Proof. intros Hf H0 Hp. pose proof (total_le f ts t p Hf Hp). specialize (Hf p). lia. Qed.
Lemma total_replicate {A} (f : A -> Z) n x : f x = 0 -> total f (replicate n x) = 0.
Proof. intros H. unfold total. induction n; simpl; [done|]. rewrite H. simpl. done. Qed.

(** ** Runs of a partial step function *)

Fixpoint orun {S E} (step : E -> S -> option S) (es : list E) (s : S) : option S :=
  match es with
  | [] => Some s
  | e :: es => match step e s with Some s => orun step es s | None => None end
  end.

Lemma orun_app {S E} (step : E -> S -> option S) es es' s s' :
  orun step es s = Some s' -> orun step (es ++ es') s = orun step es' s'.
Proof.
  revert s. induction es as [|e es IH]; intros s; simpl; [by intros [= ->]|]. destruct (step e s) as [s1|]; [apply IH|done].
Qed.

(** What every step keeps, a run keeps. *)
Lemma orun_inv {S E} (step : E -> S -> option S) (P : S -> Prop) es s s' :
  (forall e s s', P s -> step e s = Some s' -> P s') -> P s -> orun step es s = Some s' -> P s'.
Proof.
  intros Hs. revert s. induction es as [|e es IH]; intros s HP; simpl; [by intros [= <-]|].
  destruct (step e s) as [s1|] eqn:E1; [|done]. apply IH. by eapply Hs.
Qed.
