(* ===== verification/Errors.v ===== *)
(** * Errors: errors.go

    Go error values as trees, [errors.Is]/[errors.As] as a depth-first search
    of the tree, and the mapping of every error to one of the six exported
    sentinels ([classify], [wrapError], [wrapAs], [Message]). *)

From S2P Require Import Prelude.

(** ** Error values *)

(** The exported sentinels: [errors.New] values compared by identity. *)
Inductive sentinel :=
  | ErrNotFound | ErrAlreadyExists | ErrInvalidOperation
  | ErrMeta | ErrUnavailable | ErrNotSupported.

#[export] Instance sentinel_eq_dec : EqDecision sentinel.
Proof. solve_decision. Defined.

(** The generated exception types: those [classify] and [Message] know, and the one more
    that an RPC of the client declares. *)
Inductive thrift_exn :=
  | NoSuchObjectException | AlreadyExistsException | InvalidOperationException
  | InvalidObjectException | InvalidInputException | MetaException
  | NoSuchTxnException | TxnAbortedException | TxnOpenException
  | NoSuchLockException | ConfigValSecurityException | UnknownDBException.

#[export] Instance thrift_exn_eq_dec : EqDecision thrift_exn.
Proof. solve_decision. Defined.

(** [TApplicationException.TypeId()]. *)
Inductive app_type :=
  | UNKNOWN_METHOD | BAD_SEQUENCE_ID | INVALID_MESSAGE_TYPE_EXCEPTION
  | PROTOCOL_ERROR | WRONG_METHOD_NAME | APP_OTHER (id : Z).

#[export] Instance app_type_eq_dec : EqDecision app_type.
Proof. solve_decision. Defined.
Definition MISSING_RESULT : app_type := APP_OTHER 5.
Definition INTERNAL_ERROR : app_type := APP_OTHER 6.

(** An error value: what [errors.As] can find in it, and what it unwraps to.
    [EText] is [errors.New] or [fmt.Errorf] without [%w]; [EWrap] is
    [fmt.Errorf] with one [%w]; [EClosed] is the package variable [errClosed]
    of client.go, [fmt.Errorf("hms: client closed: %w", ErrUnavailable)];
    [EHms] is [*hmsError]. *)
Inductive goerr :=
  | EThrift (k : thrift_exn) (message : string)
  | EApp (typeId : app_type) (text : string)
  | EProtocol (text : string) (inner : option goerr)
  | ETransport (text : string) (inner : option goerr)
  | ENet (text : string) (inner : option goerr)
  | ETLS (text : string)
  | EEOF | EUnexpectedEOF
  | EDeadlineExceeded | ECanceled
  | ESentinel (s : sentinel)
  | EClosed
  | EText (text : string)
  | EWrap (text : string) (inner : goerr)
  | EJoin (errs : list goerr)
  | EHms (op : string) (sent : sentinel) (cause : goerr).

(** The pre-order traversal [errors.Is] and [errors.As] make: the error
    itself, then what [Unwrap] returns, depth first. *)
Fixpoint nodes (e : goerr) : list goerr :=
  e :: match e with
       | EProtocol _ i | ETransport _ i | ENet _ i =>
           match i with Some i => nodes i | None => [] end
       | EWrap _ i => nodes i
       | EJoin es => flat_map nodes es
       | EClosed => [ESentinel ErrUnavailable]
       | EHms _ s c => ESentinel s :: nodes c
       | _ => []
       end.

Definition as_find {A} (f : goerr -> option A) (e : goerr) : option A :=
  head (omap f (nodes e)).

Definition as_thrift (k : thrift_exn) : goerr -> option string :=
  as_find (fun n => match n with
                    | EThrift k' m => if decide (k = k') then Some m else None
                    | _ => None end).

Definition as_app : goerr -> option (app_type * string) :=
  as_find (fun n => match n with EApp t s => Some (t, s) | _ => None end).

Definition as_hms : goerr -> option (string * sentinel * goerr) :=
  as_find (fun n => match n with EHms o s c => Some (o, s, c) | _ => None end).

(** [errors.Is(err, s)] for a sentinel, and the other identity tests. *)
Definition is_sentinel (s : sentinel) (e : goerr) : bool :=
  existsb (fun n => match n with ESentinel s' => bool_decide (s = s') | _ => false end) (nodes e).

Definition is_closed (e : goerr) : bool :=
  existsb (fun n => match n with EClosed => true | _ => false end) (nodes e).

Definition is_io (e : goerr) : bool :=
  existsb (fun n => match n with
                    | EEOF | EUnexpectedEOF | EDeadlineExceeded | ECanceled
                    | ETransport _ _ | ENet _ _ | ETLS _ => true
                    | _ => false end) (nodes e).

(** [TException.TExceptionType()], for the errors that have it. *)
Inductive texception_type := TCompiled | TApplication | TProtocol | TTransport.

Definition texception (n : goerr) : option texception_type :=
  match n with
  | EThrift _ _ => Some TCompiled
  | EApp _ _ => Some TApplication
  | EProtocol _ _ => Some TProtocol
  | ETransport _ _ => Some TTransport
  | _ => None
  end.

Definition isUnknownMethod (e : goerr) : bool :=
  match as_app e with Some (UNKNOWN_METHOD, _) => true | _ => false end.

Definition isProtocolError (e : goerr) : bool :=
  match as_find texception e with Some TProtocol => true | _ => false end.

Definition isDesyncError (e : goerr) : bool :=
  match as_app e with
  | Some ((BAD_SEQUENCE_ID | INVALID_MESSAGE_TYPE_EXCEPTION | PROTOCOL_ERROR | WRONG_METHOD_NAME), _) => true
  | _ => false
  end.

(** [errors.As(err, &x)] as a boolean. *)
Definition has (k : thrift_exn) (e : goerr) : bool :=
  match as_thrift k e with Some _ => true | None => false end.

(** The last cases of [classify]'s switch: an error that already is, or wraps,
    one of the package's own sentinels passes through unchanged. *)
Definition pass_through (e : goerr) : sentinel :=
  if is_sentinel ErrNotFound e then ErrNotFound
  else if is_sentinel ErrAlreadyExists e then ErrAlreadyExists
  else if is_sentinel ErrInvalidOperation e then ErrInvalidOperation
  else if is_sentinel ErrNotSupported e then ErrNotSupported
  else if is_sentinel ErrUnavailable e then ErrUnavailable
  else if is_sentinel ErrMeta e then ErrMeta
  else ErrMeta.

Definition classify (e : goerr) : sentinel :=
  if has NoSuchObjectException e then ErrNotFound
  else if has AlreadyExistsException e then ErrAlreadyExists
  else if has InvalidOperationException e || has InvalidObjectException e
          || has InvalidInputException e then ErrInvalidOperation
  else if has MetaException e then ErrMeta
  else if has NoSuchTxnException e || has NoSuchLockException e then ErrNotFound
  else if has TxnAbortedException e || has TxnOpenException e then ErrInvalidOperation
  else if has ConfigValSecurityException e then ErrInvalidOperation
  else if isUnknownMethod e then ErrNotSupported
  else if isDesyncError e then ErrUnavailable
  else if (match as_app e with Some _ => true | None => false end) then ErrMeta
  else if is_io e then ErrUnavailable
  else pass_through e.

(** ** Texts *)

Definition sentinel_text (s : sentinel) : string :=
  match s with
  | ErrNotFound => "hms: object not found"
  | ErrAlreadyExists => "hms: object already exists"
  | ErrInvalidOperation => "hms: invalid operation"
  | ErrMeta => "hms: metastore error"
  | ErrUnavailable => "hms: metastore unavailable"
  | ErrNotSupported => "hms: not supported by this metastore"
  end.

(** The first [Some] of a [switch] over [errors.As] targets. *)
Fixpoint first_thrift (ks : list thrift_exn) (e : goerr) : option string :=
  match ks with
  | [] => None
  | k :: ks => match as_thrift k e with Some m => Some m | None => first_thrift ks e end
  end.

Definition message_order : list thrift_exn :=
  [NoSuchObjectException; AlreadyExistsException; InvalidOperationException;
   InvalidObjectException; InvalidInputException; MetaException; NoSuchTxnException;
   TxnAbortedException; TxnOpenException; NoSuchLockException; ConfigValSecurityException].

Definition thrift_name (k : thrift_exn) : string :=
  match k with
  | NoSuchObjectException => "NoSuchObjectException"
  | AlreadyExistsException => "AlreadyExistsException"
  | InvalidOperationException => "InvalidOperationException"
  | InvalidObjectException => "InvalidObjectException"
  | InvalidInputException => "InvalidInputException"
  | MetaException => "MetaException"
  | NoSuchTxnException => "NoSuchTxnException"
  | TxnAbortedException => "TxnAbortedException"
  | TxnOpenException => "TxnOpenException"
  | NoSuchLockException => "NoSuchLockException"
  | ConfigValSecurityException => "ConfigValSecurityException"
  | UnknownDBException => "UnknownDBException"
  end.

Definition newline : string := String (ascii_of_nat 10) EmptyString.

(** [err.Error()]. [hmsError.Error()] is ["<op>: " ++ Message(cause)], and
    [Message] falls back to [Error()], so the two are one recursion: the
    [message] of an error with no Thrift exception in its tree is its text. *)
Fixpoint error_text (e : goerr) : string :=
  match e with
  | EThrift k m => thrift_name k +:+ "({Message:" +:+ m +:+ "})"
  | EApp _ t | EProtocol t _ | ETransport t _ | ENet t _ | ETLS t | EText t | EWrap t _ => t
  | EEOF => "EOF"
  | EUnexpectedEOF => "unexpected EOF"
  | EDeadlineExceeded => "context deadline exceeded"
  | ECanceled => "context canceled"
  | ESentinel s => sentinel_text s
  | EClosed => "hms: client closed: hms: metastore unavailable"
  | EJoin es => String.concat newline (map error_text es)
  | EHms op _ c =>
      op +:+ ": " +:+
      match first_thrift message_order c with
      | Some m => m
      | None => match as_app c with
                | Some (_, t) => t
                | None => error_text c
                end
      end
  end.

Definition Message (e : option goerr) : string :=
  match e with
  | None => ""
  | Some e =>
      match first_thrift message_order e with
      | Some m => m
      | None => match as_app e with
                | Some (_, t) => t
                | None => error_text e
                end
      end
  end.

(** ** Wrapping *)

Definition wrapError (op : string) (e : option goerr) : option goerr :=
  match e with
  | None => None
  | Some e =>
      match as_hms e with
      | Some _ => Some e
      | None => Some (EHms op (classify e) e)
      end
  end.

Definition wrapAs (op : string) (s : sentinel) (e : option goerr) : option goerr :=
  match e with
  | None => None
  | Some e => Some (EHms op s e)
  end.

(** [errors.Join]: nil arguments are dropped, and a join of nothing is nil. *)
Definition errors_Join (es : list (option goerr)) : option goerr :=
  match omap id es with [] => None | l => Some (EJoin l) end.

(** ** Lemmas on the traversal *)

Lemma as_find_transparent {A} (f : goerr -> option A) e e' :
  nodes e' = e' :: nodes e -> f e' = None -> as_find f e' = as_find f e.
Proof. intros Hn Hf. unfold as_find. rewrite Hn. simpl. by rewrite Hf. Qed.

Lemma as_find_app {A} (f : goerr -> option A) e pre post :
  nodes e = pre ++ post -> omap f pre = [] -> as_find f e = head (omap f post).
Proof. intros Hn Hp. unfold as_find. by rewrite Hn, omap_app, Hp. Qed.

(** [transparent pre]: error values that neither [errors.As] nor the I/O test
    of [classify] can stop at. *)
Definition opaque_node (n : goerr) : bool :=
  match n with
  | EWrap _ _ | EJoin _ | EHms _ _ _ | ESentinel _ | EText _ | EClosed => true
  | _ => false
  end.

Section prefix.
Context (e e' : goerr) (pre : list goerr).
Hypothesis Hnodes : nodes e' = pre ++ nodes e.
Hypothesis Hpre : forallb opaque_node pre = true.

Lemma omap_opaque {A} (f : goerr -> option A) :
  (forall n, opaque_node n = true -> f n = None) -> omap f pre = [].
Proof.
  intros Hf. clear Hnodes. induction pre as [|n l IH]; [done|].
  simpl in *. apply andb_prop in Hpre as [Hn Hl].
  rewrite (Hf n Hn). auto.
Qed.

Lemma as_thrift_prefix k : as_thrift k e' = as_thrift k e.
Proof. unfold as_thrift. erewrite as_find_app; [done|done|]. by apply omap_opaque; intros []. Qed.

Lemma has_prefix k : has k e' = has k e.
Proof. unfold has. by rewrite as_thrift_prefix. Qed.

Lemma as_app_prefix : as_app e' = as_app e.
Proof. unfold as_app. erewrite as_find_app; [done|done|]. by apply omap_opaque; intros []. Qed.

Lemma isUnknownMethod_prefix : isUnknownMethod e' = isUnknownMethod e.
Proof. unfold isUnknownMethod. by rewrite as_app_prefix. Qed.

Lemma isDesyncError_prefix : isDesyncError e' = isDesyncError e.
Proof. unfold isDesyncError. by rewrite as_app_prefix. Qed.

Lemma isProtocolError_prefix : isProtocolError e' = isProtocolError e.
Proof.
  unfold isProtocolError. erewrite (as_find_app texception e'); [done|done|].
  by apply omap_opaque; intros [].
Qed.

Lemma existsb_prefix (p : goerr -> bool) :
  existsb p (nodes e') = existsb p pre || existsb p (nodes e).
Proof. by rewrite Hnodes, existsb_app. Qed.

Lemma is_io_prefix : is_io e' = is_io e.
Proof.
  unfold is_io. rewrite existsb_prefix. replace (existsb _ pre) with false; [done|].
  clear Hnodes. symmetry. induction pre as [|n l IH]; [done|]. simpl in *.
  apply andb_prop in Hpre as [Hn Hl]. destruct n; try discriminate; simpl; auto.
Qed.

Lemma first_thrift_prefix ks : first_thrift ks e' = first_thrift ks e.
Proof.
  induction ks as [|k ks IH]; [done|]. simpl. by rewrite as_thrift_prefix, IH.
Qed.

Definition in_pre (s : sentinel) : bool :=
  existsb (fun n => match n with ESentinel s' => bool_decide (s = s') | _ => false end) pre.

Lemma is_sentinel_prefix s : is_sentinel s e' = in_pre s || is_sentinel s e.
Proof. apply existsb_prefix. Qed.

Lemma pass_through_prefix :
  (forall s, in_pre s = true -> s = pass_through e) -> pass_through e' = pass_through e.
Proof.
  unfold pass_through. rewrite !is_sentinel_prefix. intros Hs.
  destruct (is_sentinel ErrNotFound e), (is_sentinel ErrAlreadyExists e),
    (is_sentinel ErrInvalidOperation e), (is_sentinel ErrNotSupported e),
    (is_sentinel ErrUnavailable e), (is_sentinel ErrMeta e); simpl in *;
  repeat (match goal with
    | |- context [in_pre ?s] =>
        let E := fresh "E" in destruct (in_pre s) eqn:E; [apply Hs in E; done|]
    end; simpl); done.
Qed.

(** Adding only nodes that carry no sentinel, or the sentinel [e] already
    classifies as, leaves the classification alone. *)
Lemma classify_prefix :
  (forall s, in_pre s = true -> s = classify e) -> classify e' = classify e.
Proof.
  unfold classify. rewrite !has_prefix, isUnknownMethod_prefix, isDesyncError_prefix,
    as_app_prefix, is_io_prefix. intros Hs.
  repeat (case_match; [done|]). by apply pass_through_prefix.
Qed.
End prefix.

(** ** Wrapping laws *)

Lemma nodes_hms op s c : nodes (EHms op s c) = [EHms op s c; ESentinel s] ++ nodes c.
Proof. done. Qed.
Lemma nodes_wrap t c : nodes (EWrap t c) = [EWrap t c] ++ nodes c.
Proof. done. Qed.

Lemma classify_EHms op e : classify (EHms op (classify e) e) = classify e.
Proof.
  apply (classify_prefix e _ _ (nodes_hms _ _ _)); [done|].
  intros s. unfold in_pre; simpl. rewrite orb_false_r. by intros ?%bool_decide_eq_true.
Qed.

Lemma classify_EWrap t e : classify (EWrap t e) = classify e.
Proof. apply (classify_prefix e _ _ (nodes_wrap _ _)); [done|]. by unfold in_pre; simpl. Qed.

Lemma is_sentinel_EHms op s c : is_sentinel s (EHms op s c) = true.
Proof. unfold is_sentinel; simpl. by rewrite bool_decide_eq_true_2. Qed.

Lemma is_sentinel_wrapError op e e' s :
  wrapError op (Some e) = Some e' -> is_sentinel s e = true -> is_sentinel s e' = true.
Proof.
  unfold wrapError. case_match; intros [= <-]; [done|]. intros Hs.
  unfold is_sentinel. simpl. change (existsb _ (nodes e)) with (is_sentinel s e).
  rewrite Hs. by rewrite orb_true_r.
Qed.

#[export] Hint Rewrite classify_EHms classify_EWrap is_sentinel_EHms : hms_rw.

Lemma wrapError_spec op e :
  exists e', wrapError op (Some e) = Some e' /\
    is_Some (as_hms e') /\ (forall op', wrapError op' (Some e') = Some e') /\
    (forall s, is_sentinel s e = true -> is_sentinel s e' = true) /\
    (forall k, as_thrift k e' = as_thrift k e) /\ as_app e' = as_app e /\
    classify e' = classify e /\
    (as_hms e = None -> as_hms e' = Some (op, classify e, e) /\
       is_sentinel (classify e) e' = true /\ error_text e' = op +:+ ": " +:+ Message (Some e)).
Proof.
  destruct (as_hms e) as [h|] eqn:E.
  - exists e. unfold wrapError. rewrite E. split_and!; try done; by eauto.
  - exists (EHms op (classify e) e).
    split_and!; [by unfold wrapError; rewrite E|by eexists|done| | | | |].
    + intros s Hs. eapply (is_sentinel_wrapError op e); [by unfold wrapError; rewrite E|done].
    + intros k. by apply (as_thrift_prefix e _ _ (nodes_hms _ _ _)).
    + by apply (as_app_prefix e _ _ (nodes_hms _ _ _)).
    + apply classify_EHms.
    + intros _. split_and!; [done|apply is_sentinel_EHms|done].
Qed.

Lemma join_spec op last :
  exists e', wrapError op (errors_Join [Some (ESentinel ErrUnavailable); last]) = Some e' /\
    is_sentinel ErrUnavailable e' = true /\
    forall e, last = Some e ->
      (forall s, is_sentinel s e = true -> is_sentinel s e' = true) /\
      forall k m, as_thrift k e = Some m -> as_thrift k e' = Some m.
Proof.
  set (j := EJoin (ESentinel ErrUnavailable :: match last with Some e => [e] | None => [] end)).
  assert (errors_Join [Some (ESentinel ErrUnavailable); last] = Some j) as -> by by destruct last.
  destruct (wrapError_spec op j) as (e' & -> & _ & _ & Hs & Hk & _).
  assert (is_sentinel ErrUnavailable j = true) as Hj by done.
  exists e'. split_and!; [done|by apply Hs|]. intros e ->.
  assert (nodes j = [j; ESentinel ErrUnavailable] ++ nodes e) as Hn by (unfold j; simpl; by rewrite app_nil_r).
  split.
  - intros s Hse. apply Hs. erewrite (is_sentinel_prefix e j) by done. by rewrite Hse, orb_true_r.
  - intros k m. rewrite Hk. by rewrite (as_thrift_prefix e j _ Hn).
Qed.

(** ** The properties of the component *)

(** C26: [wrapError] loses nothing and wraps once: the result is an [*hmsError]
    that a second [wrapError] leaves alone, every sentinel and every server
    exception found in the error is still found (with its message), an error
    not wrapped before is also its classification's sentinel, classifies the
    same, and prints as "op: " and the server's message. *)
Theorem wrapError_faithful op e :
  exists e', wrapError op (Some e) = Some e' /\
    is_Some (as_hms e') /\ (forall op', wrapError op' (Some e') = Some e') /\
    (forall s, is_sentinel s e = true -> is_sentinel s e' = true) /\
    (forall k, as_thrift k e' = as_thrift k e) /\ as_app e' = as_app e /\
    classify e' = classify e /\
    (as_hms e = None -> as_hms e' = Some (op, classify e, e) /\
       is_sentinel (classify e) e' = true /\ error_text e' = op +:+ ": " +:+ Message (Some e)).
Proof. apply wrapError_spec. Qed.

(** [errors.Join(ErrUnavailable, last)], what a call returns when every
    endpoint is cooling and what [New] returns when every dial failed, is
    [ErrUnavailable] to [errors.Is] whatever [last] was, and still carries
    everything [last] does. *)
Theorem join_unavailable op last :
  exists e', wrapError op (errors_Join [Some (ESentinel ErrUnavailable); last]) = Some e' /\
    is_sentinel ErrUnavailable e' = true /\
    forall e, last = Some e ->
      (forall s, is_sentinel s e = true -> is_sentinel s e' = true) /\
      forall k m, as_thrift k e = Some m -> as_thrift k e' = Some m.
Proof. apply join_spec. Qed.
