(* ===== verification/Cluster.v ===== *)
(** * Cluster: internal/ha/cluster.go

    The sticky-active endpoint selection with jittered exponential backoff.
    Times and durations are nanoseconds in [Z]; the zero [time.Time] is
    [None]. [now] is what [c.now()] answered under the lock of the call, and a
    [draw] is what [crypto/rand] answered: [None] for an error, [Some v] for
    entropy whose reduction modulo [n] is the uniform value in [0, n). *)

From S2P Require Import Prelude.

Definition Second : Z := 1000000000.
Definition minBackoff : Z := Second.
Definition maxBackoff : Z := 30 * Second.

Definition cryptoRandInt63n (draw : option Z) (n : Z) : Z :=
  if n <=? 0 then 0
  else match draw with
       | None => 0
       | Some v => v mod n
       end.

Lemma cryptoRandInt63n_range draw n : 0 < n -> 0 <= cryptoRandInt63n draw n < n.
Proof.
  unfold cryptoRandInt63n. destruct (Z.leb_spec n 0); [lia|].
  destruct draw; [|lia]. intros. by apply Z.mod_pos_bound.
Qed.

Record Cluster := mkCluster {
  order : list nat;
  posOf : list nat;
  pos : nat;
  coolUntil : list (option Z);
  level : list Z;
}.

(** ** New *)

(** [order[i], order[j] = order[j], order[i]] *)
Definition swap (i j : nat) (l : list nat) : list nat :=
  <[i := l !!! j]> (<[j := l !!! i]> l).

(** [for i := n-1; i > 0; i--] with [k] the index of the next draw. *)
Fixpoint shuffle (draws : nat -> option Z) (i : nat) (l : list nat) : list nat :=
  match i with
  | O => l
  | S i' =>
      let j := Z.to_nat (cryptoRandInt63n (draws i) (Z.of_nat i + 1)) in
      shuffle draws i' (swap i j l)
  end.

(** [for p, idx := range order { posOf[idx] = p }] *)
Fixpoint invert (p : nat) (l : list nat) (acc : list nat) : list nat :=
  match l with
  | [] => acc
  | idx :: l => invert (S p) l (<[idx := p]> acc)
  end.

Definition New (n : nat) (random : bool) (draws : nat -> option Z) : Cluster :=
  let order := seq 0 n in
  let order := if random then shuffle draws (n - 1) order else order in
  {| order := order;
     posOf := invert 0 order (replicate n 0%nat);
     pos := 0;
     coolUntil := replicate n None;
     level := replicate n 0 |}.

(** ** Operations *)

Definition coolingAt (c : Cluster) (idx : nat) (now : Z) : bool :=
  match coolUntil c !!! idx with
  | None => false
  | Some u => now <? u
  end.

(** The first position, in pick order from [p0 + i], whose endpoint is not
    cooling; [n] positions are looked at. *)
Fixpoint scan (c : Cluster) (now : Z) (p0 i n : nat) : option nat :=
  match n with
  | O => None
  | S n =>
      let p := ((p0 + i) mod length (order c))%nat in
      if coolingAt c (order c !!! p) now then scan c now p0 (S i) n else Some p
  end.

Definition set_pos (p : nat) (c : Cluster) : Cluster :=
  {| order := order c; posOf := posOf c; pos := p;
     coolUntil := coolUntil c; level := level c |}.

Definition Pick (c : Cluster) (now : Z) : option nat * Cluster :=
  match scan c now (pos c) 0 (length (order c)) with
  | Some p => (Some (order c !!! p), set_pos p c)
  | None => (None, c)
  end.

Definition next_ceiling (level : Z) : Z :=
  if level <=? 0 then minBackoff
  else let c := level * 2 in if maxBackoff <? c then maxBackoff else c.

Definition MarkFailed (c : Cluster) (idx : nat) (now : Z) (draw : option Z) : bool * Cluster :=
  let transitioned := negb (coolingAt c idx now) in
  let ceiling := next_ceiling (level c !!! idx) in
  let jitter := cryptoRandInt63n draw ceiling in
  let c1 := {| order := order c; posOf := posOf c; pos := pos c;
               coolUntil := <[idx := Some (now + jitter)]> (coolUntil c);
               level := <[idx := ceiling]> (level c) |} in
  match scan c1 now (posOf c !!! idx) 1 (length (order c)) with
  | Some p => (transitioned, set_pos p c1)
  | None => (transitioned, c1)
  end.

Definition MarkHealthy (c : Cluster) (idx : nat) (now : Z) : bool * Cluster :=
  let transitioned := coolingAt c idx now in
  (transitioned,
   {| order := order c; posOf := posOf c; pos := pos c;
      coolUntil := <[idx := None]> (coolUntil c);
      level := <[idx := 0]> (level c) |}).

(** The indexes are collected in ascending order, so [sort.Ints] keeps them. *)
Definition Cooling (c : Cluster) (now : Z) : list nat :=
  filter (fun idx => coolingAt c idx now = true) (seq 0 (length (coolUntil c))).

(** ** Well-formedness: [order] is a permutation of the indexes and [posOf]
    its inverse *)

Record wf (n : nat) (c : Cluster) : Prop := {
  wf_order : Permutation (order c) (seq 0 n);
  wf_posOf : forall p idx, order c !! p = Some idx -> posOf c !! idx = Some p;
  wf_pos : (0 < n -> pos c < n)%nat;
  wf_cool : length (coolUntil c) = n;
  wf_level : length (level c) = n;
}.

Lemma wf_length n c : wf n c -> length (order c) = n.
Proof. intros W. rewrite (Permutation_length (wf_order _ _ W)). apply length_seq. Qed.

Lemma wf_order_lt n c p : wf n c -> (p < n)%nat -> (order c !!! p < n)%nat.
Proof.
  intros W Hp. rewrite <- (wf_length _ _ W) in Hp.
  destruct (lookup_lt_is_Some_2 (order c) p Hp) as [e He].
  rewrite (list_lookup_total_correct _ _ _ He).
  assert (In e (seq 0 n)) as Hin.
  { rewrite <- (wf_order _ _ W). apply list_elem_of_In. eapply list_elem_of_lookup_2; eauto. }
  apply in_seq in Hin. lia.
Qed.

Lemma wf_order_surj n c idx :
  wf n c -> (idx < n)%nat -> exists p, (p < n)%nat /\ order c !!! p = idx /\ posOf c !!! idx = p.
Proof.
  intros W Hi.
  assert (In idx (order c)) as Hin.
  { rewrite (wf_order _ _ W). apply in_seq. lia. }
  apply list_elem_of_In, list_elem_of_lookup in Hin as [p Hp].
  exists p. split; [rewrite <- (wf_length _ _ W); by eapply lookup_lt_Some|]. split.
  - by apply list_lookup_total_correct.
  - by apply list_lookup_total_correct, (wf_posOf _ _ W).
Qed.

Lemma swap_Permutation i j l : (i < length l)%nat -> (j < length l)%nat -> Permutation (swap i j l) l.
Proof.
  intros Hi Hj. unfold swap.
  by apply Permutation_insert_swap; apply list_lookup_lookup_total_lt.
Qed.

Lemma shuffle_Permutation draws i l : (i < length l)%nat -> Permutation (shuffle draws i l) l.
Proof.
  revert l; induction i as [|i IH]; intros l Hi; [done|]. cbn [shuffle].
  set (j := Z.to_nat _).
  assert (j < length l)%nat as Hj.
  { pose proof (cryptoRandInt63n_range (draws (S i)) (Z.of_nat (S i) + 1)). subst j. lia. }
  assert (Permutation (swap (S i) j l) l) as Hs by by apply swap_Permutation.
  rewrite IH; [done|]. rewrite (Permutation_length Hs). lia.
Qed.

Lemma length_invert p l acc : length (invert p l acc) = length acc.
Proof. revert p acc; induction l; intros; simpl; [done|]. rewrite IHl. apply length_insert. Qed.

Lemma invert_not_in p l acc i : i ∉ l -> invert p l acc !! i = acc !! i.
Proof.
  revert p acc; induction l as [|x l IH]; intros p acc Hi; simpl; [done|].
  apply not_elem_of_cons in Hi as [Hne Hi]. rewrite IH by done. by rewrite list_lookup_insert_ne.
Qed.

Lemma invert_spec p l acc k idx :
  NoDup l -> Forall (fun i => (i < length acc)%nat) l ->
  l !! k = Some idx -> invert p l acc !! idx = Some (p + k)%nat.
Proof.
  revert p acc k; induction l as [|x l IH]; intros p acc k Hnd Hb Hk; [done|].
  apply list.NoDup_cons in Hnd as [Hx Hnd]. apply Forall_cons_1 in Hb as [Hlt Hb]. simpl.
  destruct k as [|k]; simpl in Hk; simplify_eq.
  - rewrite invert_not_in by done. rewrite list_lookup_insert_eq by done. f_equal. lia.
  - replace (p + S k)%nat with (S p + k)%nat by lia. apply IH; [done| |done].
    revert Hb. apply List.Forall_impl. intros i. by rewrite length_insert.
Qed.

Lemma New_wf n random draws : wf n (New n random draws).
Proof.
  assert (Permutation (order (New n random draws)) (seq 0 n)) as HP.
  { unfold New; destruct random; simpl; [|done]. destruct n; [done|].
    rewrite shuffle_Permutation; [done|]. rewrite length_seq. lia. }
  split; [done| |simpl; lia|simpl; apply length_replicate|simpl; apply length_replicate].
  intros p idx Hp. change (posOf (New n random draws))
    with (invert 0 (order (New n random draws)) (replicate n 0%nat)).
  rewrite (invert_spec 0 _ _ p); [done| | |done].
  - rewrite HP. apply NoDup_ListNoDup, seq_NoDup.
  - rewrite HP. rewrite length_replicate. apply list.Forall_forall. intros i Hi%elem_of_seq. lia.
Qed.

(** ** The scan *)

Lemma scan_Some c now p0 i n p :
  length (order c) <> 0%nat -> scan c now p0 i n = Some p ->
  coolingAt c (order c !!! p) now = false /\ (p < length (order c))%nat /\
  exists k, (i <= k < i + n)%nat /\ p = ((p0 + k) mod length (order c))%nat /\
    forall k', (i <= k' < k)%nat ->
      coolingAt c (order c !!! ((p0 + k') mod length (order c))%nat) now = true.
Proof.
  intros Hn. revert i; induction n as [|n IH]; intros i; simpl; [done|].
  destruct (coolingAt c (order c !!! ((p0 + i) mod length (order c))%nat) now) eqn:E.
  - intros (Hc & Hlt & k & Hk & Hp & Hbefore)%IH. split_and!; [done|done|].
    exists k. split_and!; [lia|lia|done|]. intros k' Hk'.
    destruct (decide (k' = i)) as [->|]; [done|]. apply Hbefore. lia.
  - intros [= <-]. split_and!; [done|by apply Nat.mod_upper_bound|].
    exists i. split_and!; [lia|lia|done|]. lia.
Qed.

Lemma scan_None c now p0 i n :
  scan c now p0 i n = None <->
  forall k, (i <= k < i + n)%nat ->
    coolingAt c (order c !!! ((p0 + k) mod length (order c))%nat) now = true.
Proof.
  revert i; induction n as [|n IH]; intros i; simpl; [split; [lia|done]|].
  destruct (coolingAt c (order c !!! ((p0 + i) mod length (order c))%nat) now) eqn:E.
  - rewrite IH. split; intros H k Hk.
    + destruct (decide (k = i)) as [->|]; [done|]. apply H. lia.
    + apply H. lia.
  - split; [done|]. intros H. rewrite H in E by lia. done.
Qed.

Lemma scan_ext c c' now p0 i n :
  order c = order c' -> coolUntil c = coolUntil c' -> scan c now p0 i n = scan c' now p0 i n.
Proof.
  intros Ho Hc. revert i; induction n as [|n IH]; intros i; [done|].
  cbn [scan]. unfold coolingAt. by rewrite Ho, Hc, IH.
Qed.

(** A full turn from any start visits every position. *)
Lemma full_turn n p0 p : (p < n)%nat -> exists k, (k < n)%nat /\ ((p0 + k) mod n)%nat = p.
Proof.
  intros Hp. exists ((p + n - p0 mod n) mod n)%nat. split; [apply Nat.mod_upper_bound; lia|].
  rewrite Nat.Div0.add_mod_idemp_r.
  rewrite (Nat.div_mod_eq p0 n) at 1.
  pose proof (Nat.mod_upper_bound p0 n ltac:(lia)).
  replace (n * (p0 / n) + p0 mod n + (p + n - p0 mod n))%nat with (p + (1 + p0 / n) * n)%nat by lia.
  rewrite Nat.Div0.mod_add. by apply Nat.mod_small.
Qed.

Lemma scan_None_all n c now p0 i :
  wf n c -> scan c now p0 i n = None <-> forall idx, (idx < n)%nat -> coolingAt c idx now = true.
Proof.
  intros W. rewrite scan_None, (wf_length _ _ W). split.
  - intros H idx Hi. destruct (wf_order_surj _ _ _ W Hi) as (p & Hp & <- & _).
    destruct (full_turn n (p0 + i) p Hp) as (k & Hk & <-).
    replace (p0 + i + k)%nat with (p0 + (i + k))%nat by lia. apply H. lia.
  - intros H k Hk. apply H. apply wf_order_lt; [done|]. apply Nat.mod_upper_bound. lia.
Qed.

(** ** Every operation preserves well-formedness *)

Lemma set_pos_wf n c p : wf n c -> (p < n)%nat -> wf n (set_pos p c).
Proof. intros []; intros; split; simpl; auto. Qed.

Lemma scan_wf n c now p0 i p : wf n c -> (0 < n)%nat -> scan c now p0 i n = Some p -> (p < n)%nat.
Proof.
  intros W Hn Hs. pose proof (wf_length _ _ W) as Hl.
  apply scan_Some in Hs as (_ & Hlt & _); lia.
Qed.

Lemma Pick_wf n c now : wf n c -> wf n (snd (Pick c now)).
Proof.
  intros W. unfold Pick. rewrite (wf_length _ _ W).
  destruct (scan c now (pos c) 0 n) as [p|] eqn:E; [|done].
  destruct n; [done|]. apply set_pos_wf; [done|]. eapply scan_wf; eauto. lia.
Qed.

Definition cool_state (c : Cluster) (i : nat) (u : option Z) (l : Z) : Cluster :=
  {| order := order c; posOf := posOf c; pos := pos c;
     coolUntil := <[i := u]> (coolUntil c); level := <[i := l]> (level c) |}.

Lemma cool_state_wf n c i u l : wf n c -> wf n (cool_state c i u l).
Proof. intros []; split; simpl; rewrite ?length_insert; auto. Qed.

Lemma MarkFailed_wf n c idx now draw : wf n c -> wf n (snd (MarkFailed c idx now draw)).
Proof.
  intros W. unfold MarkFailed. rewrite (wf_length _ _ W).
  set (ceil := next_ceiling _).
  set (c1 := {| order := _; posOf := _; pos := _; coolUntil := _; level := _ |}).
  assert (wf n c1) as W1 by by apply (cool_state_wf n c idx).
  destruct (scan c1 now _ 1 n) as [p|] eqn:E; [|done]. simpl.
  destruct n; [done|]. apply set_pos_wf; [done|]. eapply scan_wf; eauto. lia.
Qed.

Lemma MarkHealthy_wf n c idx now : wf n c -> wf n (snd (MarkHealthy c idx now)).
Proof. apply cool_state_wf. Qed.

#[export] Hint Resolve New_wf Pick_wf MarkFailed_wf MarkHealthy_wf : hms.

(** ** Reading the fields after an operation *)

Lemma Pick_state c now :
  coolUntil (snd (Pick c now)) = coolUntil c /\ level (snd (Pick c now)) = level c /\
  order (snd (Pick c now)) = order c /\ posOf (snd (Pick c now)) = posOf c.
Proof. unfold Pick. by case_match. Qed.

Lemma MarkFailed_state c idx now draw :
  coolUntil (snd (MarkFailed c idx now draw)) =
    <[idx := Some (now + cryptoRandInt63n draw (next_ceiling (level c !!! idx)))]> (coolUntil c) /\
  level (snd (MarkFailed c idx now draw)) = <[idx := next_ceiling (level c !!! idx)]> (level c) /\
  order (snd (MarkFailed c idx now draw)) = order c /\
  posOf (snd (MarkFailed c idx now draw)) = posOf c.
Proof. unfold MarkFailed. by case_match. Qed.

Lemma coolingAt_ext c c' i now :
  coolUntil c = coolUntil c' -> coolingAt c i now = coolingAt c' i now.
Proof. unfold coolingAt. by intros ->. Qed.

Lemma coolingAt_MarkFailed_ne c idx now draw j now' :
  idx <> j -> coolingAt (snd (MarkFailed c idx now draw)) j now' = coolingAt c j now'.
Proof.
  intros Hne. unfold coolingAt. destruct (MarkFailed_state c idx now draw) as (-> & _).
  by rewrite list_lookup_total_insert_ne.
Qed.

Lemma coolingAt_MarkHealthy n c idx now now' :
  wf n c -> (idx < n)%nat -> coolingAt (snd (MarkHealthy c idx now)) idx now' = false.
Proof.
  intros W Hi. unfold coolingAt; simpl. rewrite list_lookup_total_insert_eq; [done|].
  by rewrite (wf_cool _ _ W).
Qed.

(** ** Pick *)

Lemma Pick_Some n c now e c' :
  wf n c -> (0 < n)%nat -> Pick c now = (Some e, c') ->
  (e < n)%nat /\ coolingAt c e now = false /\ (pos c' < n)%nat /\
  order c !!! pos c' = e /\ c' = set_pos (pos c') c.
Proof.
  intros W Hn. unfold Pick. rewrite (wf_length _ _ W).
  destruct (scan c now (pos c) 0 n) as [p|] eqn:E; [|done]. intros [= <- <-].
  pose proof (scan_wf _ _ _ _ _ _ W Hn E) as Hp. simpl. split_and!; try done.
  - by apply wf_order_lt.
  - pose proof (wf_length _ _ W). apply scan_Some in E as (? & _); [done|lia].
Qed.

Lemma Pick_None_iff n c now :
  wf n c -> fst (Pick c now) = None <-> forall idx, (idx < n)%nat -> coolingAt c idx now = true.
Proof.
  intros W. rewrite <- (scan_None_all n c now (pos c) 0 W). unfold Pick.
  rewrite (wf_length _ _ W). by destruct (scan c now (pos c) 0 n).
Qed.

Lemma Pick_None_state c now : fst (Pick c now) = None -> snd (Pick c now) = c.
Proof. unfold Pick. by case_match. Qed.

(** The active endpoint stays active while it is not cooling. *)
Lemma Pick_active n c now :
  wf n c -> (0 < n)%nat -> coolingAt c (order c !!! pos c) now = false ->
  Pick c now = (Some (order c !!! pos c), c).
Proof.
  intros W Hn Hc. unfold Pick. rewrite (wf_length _ _ W).
  destruct n as [|n]; [lia|]. cbn [scan]. rewrite Nat.add_0_r, (wf_length _ _ W).
  rewrite Nat.mod_small by by apply (wf_pos _ _ W). rewrite Hc. by destruct c.
Qed.

(** ** Traces of operations, and the failure streak of an endpoint *)

Inductive op :=
  | OPick (now : Z)
  | OFail (idx : nat) (now : Z) (draw : option Z)
  | OHealthy (idx : nat) (now : Z).

Definition step (c : Cluster) (o : op) : Cluster :=
  match o with
  | OPick now => snd (Pick c now)
  | OFail idx now draw => snd (MarkFailed c idx now draw)
  | OHealthy idx now => snd (MarkHealthy c idx now)
  end.

Definition run : Cluster -> list op -> Cluster := foldl step.

Lemma run_snoc c os o : run c (os ++ [o]) = step (run c os) o.
Proof. apply foldl_snoc. Qed.

Lemma step_wf n c o : wf n c -> wf n (step c o).
Proof. destruct o; unfold step; auto with hms. Qed.

Lemma run_wf n c os : wf n c -> wf n (run c os).
Proof. revert c; induction os; intros; simpl; auto using step_wf. Qed.

(** The number of failures of [idx] since its last [MarkHealthy]. *)
Definition streak_step (idx : nat) (k : nat) (o : op) : nat :=
  match o with
  | OPick _ => k
  | OFail i _ _ => if decide (i = idx) then S k else k
  | OHealthy i _ => if decide (i = idx) then 0%nat else k
  end.

Definition streak (idx : nat) : list op -> nat := foldl (streak_step idx) 0%nat.

(** The documented ceiling: 1 s, doubling per consecutive failure, at most 30 s. *)
Definition ceiling_of (k : nat) : Z :=
  match k with O => 0 | S k => Z.min (minBackoff * 2 ^ Z.of_nat k) maxBackoff end.

Lemma ceiling_of_S k : next_ceiling (ceiling_of k) = ceiling_of (S k).
Proof.
  destruct k as [|k]; [done|].
  unfold ceiling_of. rewrite Nat2Z.inj_succ, Z.pow_succ_r by lia.
  assert (0 < 2 ^ Z.of_nat k) by (apply Z.pow_pos_nonneg; lia).
  unfold next_ceiling, minBackoff, maxBackoff, Second in *.
  destruct (Z.leb_spec (Z.min (1000000000 * 2 ^ Z.of_nat k) (30 * 1000000000)) 0); [lia|].
  case_match eqn:E; [apply Z.ltb_lt in E | apply Z.ltb_ge in E]; lia.
Qed.

Lemma ceiling_of_range k : (0 < k)%nat -> minBackoff <= ceiling_of k <= maxBackoff.
Proof.
  destruct k as [|k]; [lia|]. intros _. unfold ceiling_of, minBackoff, maxBackoff, Second.
  assert (0 < 2 ^ Z.of_nat k) by (apply Z.pow_pos_nonneg; lia). lia.
Qed.

Lemma level_run n random draws os idx :
  (idx < n)%nat -> level (run (New n random draws) os) !!! idx = ceiling_of (streak idx os).
Proof.
  intros Hi. induction os as [|o os IH] using rev_ind.
  - simpl. by apply lookup_total_replicate_2.
  - rewrite run_snoc. unfold streak. rewrite foldl_snoc.
    change (foldl (streak_step idx) 0%nat os) with (streak idx os).
    pose proof (run_wf n _ os (New_wf n random draws)) as W.
    pose proof (wf_level _ _ W) as Hl. destruct o as [now|i now draw|i now]; simpl.
    + by destruct (Pick_state (run (New n random draws) os) now) as (_ & -> & _).
    + destruct (MarkFailed_state (run (New n random draws) os) i now draw) as (_ & -> & _).
      case_decide as Hd.
      * subst. rewrite list_lookup_total_insert_eq by lia. rewrite IH. apply ceiling_of_S.
      * by rewrite list_lookup_total_insert_ne.
    + case_decide as Hd.
      * subst. by rewrite list_lookup_total_insert_eq by lia.
      * by rewrite list_lookup_total_insert_ne.
Qed.

(** Where [MarkFailed] leaves the active position. *)
Lemma markFailed_pos n c idx now draw :
  wf n c -> (idx < n)%nat ->
  let c' := snd (MarkFailed c idx now draw) in
  pos c' = default (pos c) (scan c' now (posOf c !!! idx) 1 n) /\ wf n c'.
Proof.
  intros W Hi c'. split; [|by apply MarkFailed_wf].
  set (ceil := next_ceiling (level c !!! idx)).
  destruct (MarkFailed_state c idx now draw) as (Hc & _ & Ho & _). fold c' in Ho, Hc.
  pose proof (scan_ext c' (cool_state c idx (Some (now + cryptoRandInt63n draw ceil)) ceil)
    now (posOf c !!! idx) 1 n Ho Hc) as Hs.
  rewrite Hs. unfold c', MarkFailed, cool_state, ceil. cbv zeta.
  rewrite (wf_length _ _ W). by split_match.
Qed.

(** ** The properties of the component *)

(** C25: whatever the random draws, [New] builds a permutation of the endpoint
    indexes with [posOf] its inverse, and every sequence of [Pick],
    [MarkFailed] and [MarkHealthy] calls keeps that well-formedness. *)
Theorem cluster_wf_reachable n random draws os : wf n (run (New n random draws) os).
Proof. apply run_wf, New_wf. Qed.

(** C23: [Pick] answers an endpoint that is not cooling, the first one in pick
    order from the active position, makes it active and keeps answering it
    while it is not cooling (sticky); it answers [ok = false], with the state
    unchanged, exactly when every endpoint is cooling. *)
Theorem pick_correct n c now :
  wf n c -> (0 < n)%nat ->
  match Pick c now with
  | (Some e, c') =>
      (e < n)%nat /\ coolingAt c e now = false /\ order c' !!! pos c' = e /\
      (exists k, (k < n)%nat /\ pos c' = ((pos c + k) mod n)%nat /\
         forall k', (k' < k)%nat -> coolingAt c (order c !!! ((pos c + k') mod n)%nat) now = true) /\
      forall now', coolingAt c' e now' = false -> Pick c' now' = (Some e, c')
  | (None, c') => c' = c /\ forall idx, (idx < n)%nat -> coolingAt c idx now = true
  end.
Proof.
  intros W Hn. destruct (Pick c now) as [[e|] c'] eqn:E.
  - destruct (Pick_Some n c now e c' W Hn E) as (He & Hc & Hp & Hord & Hc').
    assert (order c' = order c) as Hoc by by rewrite Hc'.
    split_and!; [done|done|by rewrite Hoc| |].
    + revert E. unfold Pick. rewrite (wf_length _ _ W).
      destruct (scan c now (pos c) 0 n) as [p|] eqn:Es; [|done]. intros [= _ <-].
      pose proof (wf_length _ _ W) as Hl.
      apply scan_Some in Es as (_ & _ & k & Hk & Hpk & Hb); [|lia].
      rewrite Hl in *. exists k. split_and!; [lia|done|]. intros k' Hk'. apply Hb. lia.
    + intros now' Hnow'. assert (wf n c') as W' by (rewrite Hc'; by apply set_pos_wf).
      rewrite <- Hord, <- Hoc. apply (Pick_active n); [done|done|]. by rewrite Hoc, Hord.
  - pose proof (f_equal fst E) as E1. pose proof (f_equal snd E) as E2. simpl in *.
    split; [by rewrite <- E2, Pick_None_state|]. by apply (Pick_None_iff n c now W).
Qed.

Definition demo : Cluster := run (New 3 false (fun _ => None)) [OFail 0 100 (Some 5)].

Lemma demo_wf : wf 3 demo.
Proof. apply run_wf, New_wf. Qed.

Example pick_correct_witness :
  Pick demo 102 = (Some 1%nat, demo) /\ coolingAt demo 0 102 = true /\
  match Pick demo 102 with
  | (Some e, c') =>
      (e < 3)%nat /\ coolingAt demo e 102 = false /\ order c' !!! pos c' = e /\
      (exists k, (k < 3)%nat /\ pos c' = ((pos demo + k) mod 3)%nat /\
         forall k', (k' < k)%nat -> coolingAt demo (order demo !!! ((pos demo + k') mod 3)%nat) 102 = true) /\
      forall now', coolingAt c' e now' = false -> Pick c' now' = (Some e, c')
  | (None, c') => c' = demo /\ forall idx, (idx < 3)%nat -> coolingAt demo idx 102 = true
  end.
Proof.
  split; [vm_compute; reflexivity|]. split; [vm_compute; reflexivity|].
  apply (pick_correct 3 demo 102); [apply demo_wf | lia].
Defined.

(** C24: the backoff policy: after any history, the ceiling of an endpoint is
    1 s doubled once per consecutive failure since its last [MarkHealthy],
    capped at 30 s, and a failure cools it for a time inside [0, ceiling). *)
Theorem backoff_policy n random draws os idx now draw :
  (idx < n)%nat ->
  let c := run (New n random draws) os in
  let c' := snd (MarkFailed c idx now draw) in
  let ceiling := ceiling_of (S (streak idx os)) in
  minBackoff <= ceiling <= maxBackoff /\
  level c' !!! idx = ceiling /\
  (exists until, coolUntil c' !!! idx = Some until /\ now <= until < now + ceiling) /\
  coolingAt c' idx (now + ceiling) = false.
Proof.
  intros Hi c c' ceiling. pose proof (ceiling_of_range (S (streak idx os)) ltac:(lia)) as Hr.
  pose proof (run_wf n _ os (New_wf n random draws)) as W. fold c in W.
  destruct (MarkFailed_state c idx now draw) as (Hcool & Hlev & _).
  assert (next_ceiling (level c !!! idx) = ceiling) as Hnext.
  { unfold c. rewrite level_run by done. apply ceiling_of_S. }
  rewrite Hnext in *.
  pose proof (cryptoRandInt63n_range draw ceiling) as Hj.
  unfold minBackoff, Second in Hr.
  assert (coolUntil c' !!! idx = Some (now + cryptoRandInt63n draw ceiling)) as Hu.
  { unfold c'. rewrite Hcool. apply list_lookup_total_insert_eq. by rewrite (wf_cool _ _ W). }
  refine (conj Hr (conj _ (conj _ _))).
  - unfold c'. rewrite Hlev. apply list_lookup_total_insert_eq. by rewrite (wf_level _ _ W).
  - eexists. split; [done|]. unfold ceiling in *. lia.
  - unfold coolingAt. rewrite Hu. apply Z.ltb_ge. unfold ceiling in *. lia.
Qed.

Example backoff_policy_witness :
  (0 < 2)%nat /\
  let os := [OFail 0 0 (Some 7); OFail 0 10 (Some 7); OFail 1 20 None; OFail 0 30 (Some 9)] in
  let c := run (New 2 false (fun _ => None)) os in
  let c' := snd (MarkFailed c 0 40 (Some 3)) in
  let ceiling := ceiling_of (S (streak 0 os)) in
  ceiling = 8 * Second /\
  (minBackoff <= ceiling <= maxBackoff /\
  level c' !!! 0%nat = ceiling /\
  (exists until, coolUntil c' !!! 0%nat = Some until /\ 40 <= until < 40 + ceiling) /\
  coolingAt c' 0 (40 + ceiling) = false).
Proof.
  split; [lia|]. split; [vm_compute; reflexivity|].
  apply (backoff_policy 2 false (fun _ => None)
    [OFail 0 0 (Some 7); OFail 0 10 (Some 7); OFail 1 20 None; OFail 0 30 (Some 9)] 0 40 (Some 3)). lia.
Defined.

(** [MarkFailed] reports a transition exactly when the endpoint was not
    cooling, leaves every other endpoint's cooldown alone, and moves the
    active endpoint to the first one after the failed one, in pick order, that
    is not cooling, so the next [Pick] answers it; when all are cooling the
    active position is left unchanged. *)
Theorem markFailed_failover n c idx now draw :
  wf n c -> (idx < n)%nat ->
  let c' := snd (MarkFailed c idx now draw) in
  fst (MarkFailed c idx now draw) = negb (coolingAt c idx now) /\
  (forall j now', j <> idx -> coolingAt c' j now' = coolingAt c j now') /\
  match scan c' now (posOf c !!! idx) 1 n with
  | Some p => pos c' = p /\ Pick c' now = (Some (order c !!! p), c')
  | None => pos c' = pos c /\ fst (Pick c' now) = None
  end.
Proof.
  intros W Hi c'. pose proof (MarkFailed_wf n c idx now draw W) as W'. fold c' in W'.
  split_and!.
  - unfold MarkFailed. by case_match.
  - intros j now' Hj. by apply coolingAt_MarkFailed_ne.
  - destruct (MarkFailed_state c idx now draw) as (_ & _ & Ho & _). fold c' in Ho.
    destruct (markFailed_pos n c idx now draw W Hi) as [Hpos _]. fold c' in Hpos.
    destruct (scan c' now (posOf c !!! idx) 1 n) as [p|] eqn:E; simpl in Hpos.
    + split; [done|]. rewrite <- Hpos, <- Ho.
      apply (Pick_active n); [done|lia|]. rewrite Hpos.
      pose proof (wf_length _ _ W'). apply scan_Some in E as (Hnc & _); [done|lia].
    + split; [done|]. by apply (Pick_None_iff n), (scan_None_all n c' now (posOf c !!! idx) 1).
Qed.

Example markFailed_failover_witness :
  let c := New 3 false (fun _ => None) in
  let c' := snd (MarkFailed c 0 100 (Some 5)) in
  Pick c' 100 = (Some 1%nat, c') /\
  (fst (MarkFailed c 0 100 (Some 5)) = negb (coolingAt c 0 100) /\
  (forall j now', j <> 0%nat -> coolingAt c' j now' = coolingAt c j now') /\
  match scan c' 100 (posOf c !!! 0%nat) 1 3 with
  | Some p => pos c' = p /\ Pick c' 100 = (Some (order c !!! p), c')
  | None => pos c' = pos c /\ fst (Pick c' 100) = None
  end).
Proof.
  split; [vm_compute; reflexivity|].
  apply (markFailed_failover 3 (New 3 false (fun _ => None)) 0 100 (Some 5)); [apply New_wf | lia].
Defined.
