(* ===== verification/GoMonad.v ===== *)
(** * GoMonad: state and error

    Go code that can fail and changes state is a function
    [S -> S * (goerr + A)]: the state reached is kept when an error is
    returned, as it is in Go. *)

From S2P Require Import Prelude Errors.

Definition M (S A : Type) : Type := S -> S * (goerr + A).

Declare Scope go_scope.
Delimit Scope go_scope with go.

Definition ret {S A} (a : A) : M S A := fun s => (s, inr a).
Definition throw {S A} (e : goerr) : M S A := fun s => (s, inl e).
Definition bind {S A B} (m : M S A) (k : A -> M S B) : M S B :=
  fun s => match m s with
           | (s', inl e) => (s', inl e)
           | (s', inr a) => k a s'
           end.
Definition get {S} : M S S := fun s => (s, inr s).
Definition modify {S} (f : S -> S) : M S unit := fun s => (f s, inr tt).
(** [if err := m(); err != nil { return h(err) }]: [h] decides. *)
Definition catch {S A} (m : M S A) (h : goerr -> M S A) : M S A :=
  fun s => match m s with
           | (s', inl e) => h e s'
           | r => r
           end.

Notation "x <- m ;; k" := (bind m (fun x => k))
  (at level 100, m at next level, right associativity) : go_scope.
Notation "m ;;; k" := (bind m (fun _ => k))
  (at level 100, right associativity) : go_scope.

(** [x, err := m()], and [f(x)] where there is no error. *)
Definition map_answer {S A B} (f : A -> B) (m : M S A) : M S B := bind m (fun x => ret (f x)).

(** [for _, x := range l { if err := f(x); err != nil { return err } }] *)
Fixpoint forM {S A} (l : list A) (f : A -> M S unit) : M S unit :=
  match l with
  | [] => ret tt
  | x :: l => bind (f x) (fun _ => forM l f)
  end.

(** [err] of a result, nil when there is none. *)
Definition err_of {A} (r : goerr + A) : option goerr :=
  match r with inl e => Some e | inr _ => None end.

Section laws.
Context {S : Type}.

Lemma bind_ret {A B} (a : A) (k : A -> M S B) s : bind (ret a) k s = k a s.
Proof. done. Qed.
Lemma bind_throw {A B} e (k : A -> M S B) s : bind (throw e) k s = (s, inl e).
Proof. done. Qed.
Lemma bind_assoc {A B C} (m : M S A) (k : A -> M S B) (h : B -> M S C) s :
  bind (bind m k) h s = bind m (fun a => bind (k a) h) s.
Proof. unfold bind. destruct (m s) as [s' [e|a]]; done. Qed.

Lemma map_answer_id {A} (m : M S A) s : m s = map_answer id m s.
Proof. unfold map_answer, bind, ret. by destruct (m s) as [s' [e|a]]. Qed.

Lemma forM_app {A} (l1 l2 : list A) (f : A -> M S unit) s :
  forM (l1 ++ l2) f s = bind (forM l1 f) (fun _ => forM l2 f) s.
Proof.
  revert s; induction l1 as [|x l1 IH]; intros s; simpl; [done|].
  rewrite bind_assoc. unfold bind at 1 2. destruct (f x s) as [s' [e|[]]]; [done|]. apply IH.
Qed.

(** An invariant of every iteration is an invariant of the loop. *)
Lemma forM_inv {A} (P : S -> Prop) (l : list A) (f : A -> M S unit) s :
  P s -> (forall x s, In x l -> P s -> P (fst (f x s))) -> P (fst (forM l f s)).
Proof.
  revert s; induction l as [|x l IH]; intros s Hs Hf; simpl; [done|].
  unfold bind. pose proof (Hf x s (or_introl eq_refl) Hs) as Hx.
  destruct (f x s) as [s' [e|[]]]; [done|]. apply IH; [done|]. intros; apply Hf; [by right|done].
Qed.
End laws.

(** ** Chunking

    [for i := 0; i < len(l); i += size { end := min(i+size, len(l)); l[i:end] }].
    The loop needs [size >= 1], which [config.clamp] guarantees; [length l]
    iterations are then enough, and are the fuel. *)

Fixpoint chunks_fuel {A} (fuel size : nat) (l : list A) : list (list A) :=
  match fuel, l with
  | _, [] | O, _ => []
  | S fuel, _ => take size l :: chunks_fuel fuel size (drop size l)
  end.

Definition chunks {A} (size : nat) (l : list A) : list (list A) := chunks_fuel (length l) size l.

Section chunks.
Context {A : Type} (size : nat) (Hsize : (0 < size)%nat).

Lemma chunks_fuel_concat fuel (l : list A) :
  (length l <= fuel)%nat -> concat (chunks_fuel fuel size l) = l.
Proof using Hsize.
  revert l; induction fuel as [|fuel IH]; intros [|x l] Hl; simpl in *; try done; [lia|].
  destruct size as [|k] eqn:E; [lia|]. simpl. f_equal.
  rewrite IH; [apply take_drop|]. rewrite length_drop. lia.
Qed.

Lemma chunks_concat (l : list A) : concat (chunks size l) = l.
Proof using Hsize. by apply chunks_fuel_concat. Qed.

Lemma chunks_fuel_size fuel (l : list A) c :
  In c (chunks_fuel fuel size l) -> (0 < length c <= size)%nat.
Proof using Hsize.
  revert l; induction fuel as [|fuel IH]; intros [|x l]; simpl; try done.
  intros [<-|Hin]; [|by eapply IH].
  destruct size as [|k] eqn:E; [lia|]. simpl. rewrite length_take. lia.
Qed.

Lemma chunks_size (l : list A) c : In c (chunks size l) -> (0 < length c <= size)%nat.
Proof using Hsize. apply chunks_fuel_size. Qed.

(** Every chunk but the last is full, so the number of requests is the
    ceiling of the quotient. *)
Lemma chunks_fuel_count fuel (l : list A) :
  (length l <= fuel)%nat ->
  (length (chunks_fuel fuel size l) = (length l + size - 1) / size)%nat.
Proof using Hsize.
  revert l; induction fuel as [|fuel IH]; intros [|x l] Hl; cbn [chunks_fuel length] in *;
    try (rewrite Nat.div_small; lia); try lia.
  rewrite IH by (rewrite length_drop; simpl; lia). rewrite length_drop. cbn [length].
  set (m := S (length l)) in *.
  destruct (decide (size <= m)%nat).
  - replace (m + size - 1)%nat with (m - size + size - 1 + 1 * size)%nat by lia.
    rewrite Nat.div_add by lia. lia.
  - replace (m - size)%nat with 0%nat by lia.
    rewrite (Nat.div_small (0 + size - 1)) by lia.
    replace (m + size - 1)%nat with (m - 1 + 1 * size)%nat by lia.
    rewrite Nat.div_add by lia. rewrite Nat.div_small by lia. lia.
Qed.

(** Every chunk that another one follows is full. *)
Lemma chunks_fuel_full fuel (l : list A) : forall pre b c post,
  chunks_fuel fuel size l = pre ++ b :: c :: post -> length b = size.
Proof using Hsize.
  revert l; induction fuel as [|fuel IH]; intros l pre b c post; [by destruct l, pre|].
  destruct l as [|x l]; [by destruct pre|]. cbn [chunks_fuel]. destruct pre as [|p pre]; simpl; intros [= <- Hr].
  - destruct (drop size (x :: l)) as [|y r] eqn:E; [by destruct fuel|].
    assert (length (drop size (x :: l)) = S (length r)) as Hl by by rewrite E.
    rewrite length_drop in Hl. rewrite length_take. lia.
  - by eapply IH.
Qed.
End chunks.
