(* ===== verification/Wire.v ===== *)
(** * Wire: the generated Thrift structs the client reads and writes

    One [Record wX] per [type X struct] of gen/hive_metastore/hive_metastore.go,
    fields in declaration order, and [NewX] with the defaults of the generated
    constructor. A [*T] field is an [option], a slice or map field may be nil
    ([slice], [gomap]), an enum or integer field is its value in [Z], a
    [float64] its bit pattern, and a sub-structure the client never looks into
    is an uninterpreted [blob]. *)

From S2P Require Import Prelude.

Definition blob : Type := string.
Definition float64 : Type := Z.

(** ** Enum values *)

Definition PrincipalType_USER : Z := 1.
Definition LockLevel_DB : Z := 1.
Definition LockLevel_TABLE : Z := 2.
Definition LockLevel_PARTITION : Z := 3.
Definition LockState_ACQUIRED : Z := 1.
Definition LockState_WAITING : Z := 2.
Definition LockState_ABORT : Z := 3.
Definition LockState_NOT_ACQUIRED : Z := 4.
Definition wLockType_SHARED_READ : Z := 1.
Definition wLockType_SHARED_WRITE : Z := 2.
Definition wLockType_EXCLUSIVE : Z := 3.
Definition wLockType_EXCL_WRITE : Z := 4.
Definition DataOperationType_SELECT : Z := 1.
Definition DataOperationType_INSERT : Z := 2.
Definition DataOperationType_UPDATE : Z := 3.
Definition DataOperationType_DELETE : Z := 4.
Definition DataOperationType_UNSET : Z := 5.
Definition DataOperationType_NO_TXN : Z := 6.

(** ** Structs *)

Record wFieldSchema := mk_wFieldSchema {
  wFieldSchema_Name : string;
  wFieldSchema_Type : string;
  wFieldSchema_Comment : string;
}.

Definition NewFieldSchema : wFieldSchema :=
  {| wFieldSchema_Name := ""; wFieldSchema_Type := ""; wFieldSchema_Comment := "" |}.

Record wOrder := mk_wOrder {
  wOrder_Col : string;
  wOrder_Order : Z;
}.

Definition NewOrder : wOrder :=
  {| wOrder_Col := ""; wOrder_Order := 0 |}.

Record wSerDeInfo := mk_wSerDeInfo {
  wSerDeInfo_Name : string;
  wSerDeInfo_SerializationLib : string;
  wSerDeInfo_Parameters : gomap string;
  wSerDeInfo_Description : option string;
  wSerDeInfo_SerializerClass : option string;
  wSerDeInfo_DeserializerClass : option string;
  wSerDeInfo_SerdeType : option Z;
}.

Definition NewSerDeInfo : wSerDeInfo :=
  {| wSerDeInfo_Name := ""; wSerDeInfo_SerializationLib := ""; wSerDeInfo_Parameters := None; wSerDeInfo_Description := None; wSerDeInfo_SerializerClass := None; wSerDeInfo_DeserializerClass := None; wSerDeInfo_SerdeType := None |}.

Record wSkewedInfo := mk_wSkewedInfo {
  wSkewedInfo_SkewedColNames : slice string;
  wSkewedInfo_SkewedColValues : slice (slice string);
  wSkewedInfo_SkewedColValueLocationMaps : slice (slice string * string);
}.

Definition NewSkewedInfo : wSkewedInfo :=
  {| wSkewedInfo_SkewedColNames := None; wSkewedInfo_SkewedColValues := None; wSkewedInfo_SkewedColValueLocationMaps := None |}.

Record wStorageDescriptor := mk_wStorageDescriptor {
  wStorageDescriptor_Cols : slice (option wFieldSchema);
  wStorageDescriptor_Location : string;
  wStorageDescriptor_InputFormat : string;
  wStorageDescriptor_OutputFormat : string;
  wStorageDescriptor_Compressed : bool;
  wStorageDescriptor_NumBuckets : Z;
  wStorageDescriptor_SerdeInfo : option wSerDeInfo;
  wStorageDescriptor_BucketCols : slice string;
  wStorageDescriptor_SortCols : slice (option wOrder);
  wStorageDescriptor_Parameters : gomap string;
  wStorageDescriptor_SkewedInfo : option wSkewedInfo;
  wStorageDescriptor_StoredAsSubDirectories : option bool;
}.

Definition NewStorageDescriptor : wStorageDescriptor :=
  {| wStorageDescriptor_Cols := None; wStorageDescriptor_Location := ""; wStorageDescriptor_InputFormat := ""; wStorageDescriptor_OutputFormat := ""; wStorageDescriptor_Compressed := false; wStorageDescriptor_NumBuckets := 0; wStorageDescriptor_SerdeInfo := None; wStorageDescriptor_BucketCols := None; wStorageDescriptor_SortCols := None; wStorageDescriptor_Parameters := None; wStorageDescriptor_SkewedInfo := None; wStorageDescriptor_StoredAsSubDirectories := None |}.

Record wCatalog := mk_wCatalog {
  wCatalog_Name : string;
  wCatalog_Description : option string;
  wCatalog_LocationUri : string;
  wCatalog_CreateTime : option Z;
  wCatalog_Parameters : gomap string;
}.

Definition NewCatalog : wCatalog :=
  {| wCatalog_Name := ""; wCatalog_Description := None; wCatalog_LocationUri := ""; wCatalog_CreateTime := None; wCatalog_Parameters := None |}.

Record wDatabase := mk_wDatabase {
  wDatabase_Name : string;
  wDatabase_Description : string;
  wDatabase_LocationUri : string;
  wDatabase_Parameters : gomap string;
  wDatabase_Privileges : option blob;
  wDatabase_OwnerName : option string;
  wDatabase_OwnerType : option Z;
  wDatabase_CatalogName : option string;
  wDatabase_CreateTime : option Z;
  wDatabase_ManagedLocationUri : option string;
  wDatabase_Type : option Z;
  wDatabase_ConnectorName : option string;
  wDatabase_RemoteDbname : option string;
}.

Definition NewDatabase : wDatabase :=
  {| wDatabase_Name := ""; wDatabase_Description := ""; wDatabase_LocationUri := ""; wDatabase_Parameters := None; wDatabase_Privileges := None; wDatabase_OwnerName := None; wDatabase_OwnerType := None; wDatabase_CatalogName := None; wDatabase_CreateTime := None; wDatabase_ManagedLocationUri := None; wDatabase_Type := None; wDatabase_ConnectorName := None; wDatabase_RemoteDbname := None |}.

Record wTable := mk_wTable {
  wTable_TableName : string;
  wTable_DbName : string;
  wTable_Owner : string;
  wTable_CreateTime : Z;
  wTable_LastAccessTime : Z;
  wTable_Retention : Z;
  wTable_Sd : option wStorageDescriptor;
  wTable_PartitionKeys : slice (option wFieldSchema);
  wTable_Parameters : gomap string;
  wTable_ViewOriginalText : string;
  wTable_ViewExpandedText : string;
  wTable_TableType : string;
  wTable_Privileges : option blob;
  wTable_Temporary : bool;
  wTable_RewriteEnabled : option bool;
  wTable_CreationMetadata : option blob;
  wTable_CatName : option string;
  wTable_OwnerType : Z;
  wTable_WriteId : Z;
  wTable_IsStatsCompliant : option bool;
  wTable_ColStats : option blob;
  wTable_AccessType : option Z;
  wTable_RequiredReadCapabilities : slice string;
  wTable_RequiredWriteCapabilities : slice string;
  wTable_ID : option Z;
  wTable_FileMetadata : option blob;
  wTable_Dictionary : option blob;
  wTable_TxnId : option Z;
}.

Definition NewTable : wTable :=
  {| wTable_TableName := ""; wTable_DbName := ""; wTable_Owner := ""; wTable_CreateTime := 0; wTable_LastAccessTime := 0; wTable_Retention := 0; wTable_Sd := None; wTable_PartitionKeys := None; wTable_Parameters := None; wTable_ViewOriginalText := ""; wTable_ViewExpandedText := ""; wTable_TableType := ""; wTable_Privileges := None; wTable_Temporary := false; wTable_RewriteEnabled := None; wTable_CreationMetadata := None; wTable_CatName := None; wTable_OwnerType := 1; wTable_WriteId := (-1); wTable_IsStatsCompliant := None; wTable_ColStats := None; wTable_AccessType := None; wTable_RequiredReadCapabilities := None; wTable_RequiredWriteCapabilities := None; wTable_ID := None; wTable_FileMetadata := None; wTable_Dictionary := None; wTable_TxnId := None |}.

Record wPartition := mk_wPartition {
  wPartition_Values : slice string;
  wPartition_DbName : string;
  wPartition_TableName : string;
  wPartition_CreateTime : Z;
  wPartition_LastAccessTime : Z;
  wPartition_Sd : option wStorageDescriptor;
  wPartition_Parameters : gomap string;
  wPartition_Privileges : option blob;
  wPartition_CatName : option string;
  wPartition_WriteId : Z;
  wPartition_IsStatsCompliant : option bool;
  wPartition_ColStats : option blob;
  wPartition_FileMetadata : option blob;
}.

Definition NewPartition : wPartition :=
  {| wPartition_Values := None; wPartition_DbName := ""; wPartition_TableName := ""; wPartition_CreateTime := 0; wPartition_LastAccessTime := 0; wPartition_Sd := None; wPartition_Parameters := None; wPartition_Privileges := None; wPartition_CatName := None; wPartition_WriteId := (-1); wPartition_IsStatsCompliant := None; wPartition_ColStats := None; wPartition_FileMetadata := None |}.

Record wNotificationEvent := mk_wNotificationEvent {
  wNotificationEvent_EventId : Z;
  wNotificationEvent_EventTime : Z;
  wNotificationEvent_EventType : string;
  wNotificationEvent_DbName : option string;
  wNotificationEvent_TableName : option string;
  wNotificationEvent_Message : string;
  wNotificationEvent_MessageFormat : option string;
  wNotificationEvent_CatName : option string;
}.

Definition NewNotificationEvent : wNotificationEvent :=
  {| wNotificationEvent_EventId := 0; wNotificationEvent_EventTime := 0; wNotificationEvent_EventType := ""; wNotificationEvent_DbName := None; wNotificationEvent_TableName := None; wNotificationEvent_Message := ""; wNotificationEvent_MessageFormat := None; wNotificationEvent_CatName := None |}.

Record wDecimal := mk_wDecimal {
  wDecimal_Unscaled : slice Z;
  wDecimal_Scale : Z;
}.

Definition NewDecimal : wDecimal :=
  {| wDecimal_Unscaled := None; wDecimal_Scale := 0 |}.

Record wDate := mk_wDate {
  wDate_DaysSinceEpoch : Z;
}.

Definition NewDate : wDate :=
  {| wDate_DaysSinceEpoch := 0 |}.

Record wTimestamp := mk_wTimestamp {
  wTimestamp_SecondsSinceEpoch : Z;
}.

Definition NewTimestamp : wTimestamp :=
  {| wTimestamp_SecondsSinceEpoch := 0 |}.

Record wBooleanColumnStatsData := mk_wBooleanColumnStatsData {
  wBooleanColumnStatsData_NumTrues : Z;
  wBooleanColumnStatsData_NumFalses : Z;
  wBooleanColumnStatsData_NumNulls : Z;
  wBooleanColumnStatsData_BitVectors : slice Z;
}.

Definition NewBooleanColumnStatsData : wBooleanColumnStatsData :=
  {| wBooleanColumnStatsData_NumTrues := 0; wBooleanColumnStatsData_NumFalses := 0; wBooleanColumnStatsData_NumNulls := 0; wBooleanColumnStatsData_BitVectors := None |}.

Record wLongColumnStatsData := mk_wLongColumnStatsData {
  wLongColumnStatsData_LowValue : option Z;
  wLongColumnStatsData_HighValue : option Z;
  wLongColumnStatsData_NumNulls : Z;
  wLongColumnStatsData_NumDVs : Z;
  wLongColumnStatsData_BitVectors : slice Z;
  wLongColumnStatsData_Histogram : slice Z;
}.

Definition NewLongColumnStatsData : wLongColumnStatsData :=
  {| wLongColumnStatsData_LowValue := None; wLongColumnStatsData_HighValue := None; wLongColumnStatsData_NumNulls := 0; wLongColumnStatsData_NumDVs := 0; wLongColumnStatsData_BitVectors := None; wLongColumnStatsData_Histogram := None |}.

Record wDoubleColumnStatsData := mk_wDoubleColumnStatsData {
  wDoubleColumnStatsData_LowValue : option float64;
  wDoubleColumnStatsData_HighValue : option float64;
  wDoubleColumnStatsData_NumNulls : Z;
  wDoubleColumnStatsData_NumDVs : Z;
  wDoubleColumnStatsData_BitVectors : slice Z;
  wDoubleColumnStatsData_Histogram : slice Z;
}.

Definition NewDoubleColumnStatsData : wDoubleColumnStatsData :=
  {| wDoubleColumnStatsData_LowValue := None; wDoubleColumnStatsData_HighValue := None; wDoubleColumnStatsData_NumNulls := 0; wDoubleColumnStatsData_NumDVs := 0; wDoubleColumnStatsData_BitVectors := None; wDoubleColumnStatsData_Histogram := None |}.

Record wStringColumnStatsData := mk_wStringColumnStatsData {
  wStringColumnStatsData_MaxColLen : Z;
  wStringColumnStatsData_AvgColLen : float64;
  wStringColumnStatsData_NumNulls : Z;
  wStringColumnStatsData_NumDVs : Z;
  wStringColumnStatsData_BitVectors : slice Z;
}.

Definition NewStringColumnStatsData : wStringColumnStatsData :=
  {| wStringColumnStatsData_MaxColLen := 0; wStringColumnStatsData_AvgColLen := 0; wStringColumnStatsData_NumNulls := 0; wStringColumnStatsData_NumDVs := 0; wStringColumnStatsData_BitVectors := None |}.

Record wBinaryColumnStatsData := mk_wBinaryColumnStatsData {
  wBinaryColumnStatsData_MaxColLen : Z;
  wBinaryColumnStatsData_AvgColLen : float64;
  wBinaryColumnStatsData_NumNulls : Z;
  wBinaryColumnStatsData_BitVectors : slice Z;
}.

Definition NewBinaryColumnStatsData : wBinaryColumnStatsData :=
  {| wBinaryColumnStatsData_MaxColLen := 0; wBinaryColumnStatsData_AvgColLen := 0; wBinaryColumnStatsData_NumNulls := 0; wBinaryColumnStatsData_BitVectors := None |}.

Record wDecimalColumnStatsData := mk_wDecimalColumnStatsData {
  wDecimalColumnStatsData_LowValue : option wDecimal;
  wDecimalColumnStatsData_HighValue : option wDecimal;
  wDecimalColumnStatsData_NumNulls : Z;
  wDecimalColumnStatsData_NumDVs : Z;
  wDecimalColumnStatsData_BitVectors : slice Z;
  wDecimalColumnStatsData_Histogram : slice Z;
}.

Definition NewDecimalColumnStatsData : wDecimalColumnStatsData :=
  {| wDecimalColumnStatsData_LowValue := None; wDecimalColumnStatsData_HighValue := None; wDecimalColumnStatsData_NumNulls := 0; wDecimalColumnStatsData_NumDVs := 0; wDecimalColumnStatsData_BitVectors := None; wDecimalColumnStatsData_Histogram := None |}.

Record wDateColumnStatsData := mk_wDateColumnStatsData {
  wDateColumnStatsData_LowValue : option wDate;
  wDateColumnStatsData_HighValue : option wDate;
  wDateColumnStatsData_NumNulls : Z;
  wDateColumnStatsData_NumDVs : Z;
  wDateColumnStatsData_BitVectors : slice Z;
  wDateColumnStatsData_Histogram : slice Z;
}.

Definition NewDateColumnStatsData : wDateColumnStatsData :=
  {| wDateColumnStatsData_LowValue := None; wDateColumnStatsData_HighValue := None; wDateColumnStatsData_NumNulls := 0; wDateColumnStatsData_NumDVs := 0; wDateColumnStatsData_BitVectors := None; wDateColumnStatsData_Histogram := None |}.

Record wTimestampColumnStatsData := mk_wTimestampColumnStatsData {
  wTimestampColumnStatsData_LowValue : option wTimestamp;
  wTimestampColumnStatsData_HighValue : option wTimestamp;
  wTimestampColumnStatsData_NumNulls : Z;
  wTimestampColumnStatsData_NumDVs : Z;
  wTimestampColumnStatsData_BitVectors : slice Z;
  wTimestampColumnStatsData_Histogram : slice Z;
}.

Definition NewTimestampColumnStatsData : wTimestampColumnStatsData :=
  {| wTimestampColumnStatsData_LowValue := None; wTimestampColumnStatsData_HighValue := None; wTimestampColumnStatsData_NumNulls := 0; wTimestampColumnStatsData_NumDVs := 0; wTimestampColumnStatsData_BitVectors := None; wTimestampColumnStatsData_Histogram := None |}.

Record wColumnStatisticsData := mk_wColumnStatisticsData {
  wColumnStatisticsData_BooleanStats : option wBooleanColumnStatsData;
  wColumnStatisticsData_LongStats : option wLongColumnStatsData;
  wColumnStatisticsData_DoubleStats : option wDoubleColumnStatsData;
  wColumnStatisticsData_StringStats : option wStringColumnStatsData;
  wColumnStatisticsData_BinaryStats : option wBinaryColumnStatsData;
  wColumnStatisticsData_DecimalStats : option wDecimalColumnStatsData;
  wColumnStatisticsData_DateStats : option wDateColumnStatsData;
  wColumnStatisticsData_TimestampStats : option wTimestampColumnStatsData;
}.

Definition NewColumnStatisticsData : wColumnStatisticsData :=
  {| wColumnStatisticsData_BooleanStats := None; wColumnStatisticsData_LongStats := None; wColumnStatisticsData_DoubleStats := None; wColumnStatisticsData_StringStats := None; wColumnStatisticsData_BinaryStats := None; wColumnStatisticsData_DecimalStats := None; wColumnStatisticsData_DateStats := None; wColumnStatisticsData_TimestampStats := None |}.

Record wColumnStatisticsObj := mk_wColumnStatisticsObj {
  wColumnStatisticsObj_ColName : string;
  wColumnStatisticsObj_ColType : string;
  wColumnStatisticsObj_StatsData : option wColumnStatisticsData;
}.

Definition NewColumnStatisticsObj : wColumnStatisticsObj :=
  {| wColumnStatisticsObj_ColName := ""; wColumnStatisticsObj_ColType := ""; wColumnStatisticsObj_StatsData := None |}.

Record wGetCatalogRequest := mk_wGetCatalogRequest {
  wGetCatalogRequest_Name : string;
}.

Definition NewGetCatalogRequest : wGetCatalogRequest :=
  {| wGetCatalogRequest_Name := "" |}.

Record wGetCatalogResponse := mk_wGetCatalogResponse {
  wGetCatalogResponse_Catalog : option wCatalog;
}.

Definition NewGetCatalogResponse : wGetCatalogResponse :=
  {| wGetCatalogResponse_Catalog := None |}.

Record wGetCatalogsResponse := mk_wGetCatalogsResponse {
  wGetCatalogsResponse_Names : slice string;
}.

Definition NewGetCatalogsResponse : wGetCatalogsResponse :=
  {| wGetCatalogsResponse_Names := None |}.

Record wCreateCatalogRequest := mk_wCreateCatalogRequest {
  wCreateCatalogRequest_Catalog : option wCatalog;
}.

Definition NewCreateCatalogRequest : wCreateCatalogRequest :=
  {| wCreateCatalogRequest_Catalog := None |}.

Record wDropCatalogRequest := mk_wDropCatalogRequest {
  wDropCatalogRequest_Name : string;
  wDropCatalogRequest_IfExists : bool;
}.

Definition NewDropCatalogRequest : wDropCatalogRequest :=
  {| wDropCatalogRequest_Name := ""; wDropCatalogRequest_IfExists := true |}.

Record wGetTableRequest := mk_wGetTableRequest {
  wGetTableRequest_DbName : string;
  wGetTableRequest_TblName : string;
  wGetTableRequest_Capabilities : option blob;
  wGetTableRequest_CatName : option string;
  wGetTableRequest_ValidWriteIdList : option string;
  wGetTableRequest_GetColumnStats : option bool;
  wGetTableRequest_ProcessorCapabilities : slice string;
  wGetTableRequest_ProcessorIdentifier : option string;
  wGetTableRequest_Engine : string;
  wGetTableRequest_ID : Z;
}.

Definition NewGetTableRequest : wGetTableRequest :=
  {| wGetTableRequest_DbName := ""; wGetTableRequest_TblName := ""; wGetTableRequest_Capabilities := None; wGetTableRequest_CatName := None; wGetTableRequest_ValidWriteIdList := None; wGetTableRequest_GetColumnStats := None; wGetTableRequest_ProcessorCapabilities := None; wGetTableRequest_ProcessorIdentifier := None; wGetTableRequest_Engine := "hive"; wGetTableRequest_ID := (-1) |}.

Record wGetTableResult_ := mk_wGetTableResult_ {
  wGetTableResult__Table : option wTable;
  wGetTableResult__IsStatsCompliant : option bool;
}.

Definition NewGetTableResult_ : wGetTableResult_ :=
  {| wGetTableResult__Table := None; wGetTableResult__IsStatsCompliant := None |}.

Record wGetTablesRequest := mk_wGetTablesRequest {
  wGetTablesRequest_DbName : string;
  wGetTablesRequest_TblNames : slice string;
  wGetTablesRequest_Capabilities : option blob;
  wGetTablesRequest_CatName : option string;
  wGetTablesRequest_ProcessorCapabilities : slice string;
  wGetTablesRequest_ProcessorIdentifier : option string;
  wGetTablesRequest_ProjectionSpec : option blob;
  wGetTablesRequest_TablesPattern : option string;
}.

Definition NewGetTablesRequest : wGetTablesRequest :=
  {| wGetTablesRequest_DbName := ""; wGetTablesRequest_TblNames := None; wGetTablesRequest_Capabilities := None; wGetTablesRequest_CatName := None; wGetTablesRequest_ProcessorCapabilities := None; wGetTablesRequest_ProcessorIdentifier := None; wGetTablesRequest_ProjectionSpec := None; wGetTablesRequest_TablesPattern := None |}.

Record wGetTablesResult_ := mk_wGetTablesResult_ {
  wGetTablesResult__Tables : slice (option wTable);
}.

Definition NewGetTablesResult_ : wGetTablesResult_ :=
  {| wGetTablesResult__Tables := None |}.

Record wPartitionsRequest := mk_wPartitionsRequest {
  wPartitionsRequest_CatName : option string;
  wPartitionsRequest_DbName : string;
  wPartitionsRequest_TblName : string;
  wPartitionsRequest_MaxParts : Z;
  wPartitionsRequest_ValidWriteIdList : option string;
  wPartitionsRequest_ID : Z;
  wPartitionsRequest_SkipColumnSchemaForPartition : option bool;
  wPartitionsRequest_IncludeParamKeyPattern : option string;
  wPartitionsRequest_ExcludeParamKeyPattern : option string;
}.

Definition NewPartitionsRequest : wPartitionsRequest :=
  {| wPartitionsRequest_CatName := None; wPartitionsRequest_DbName := ""; wPartitionsRequest_TblName := ""; wPartitionsRequest_MaxParts := (-1); wPartitionsRequest_ValidWriteIdList := None; wPartitionsRequest_ID := (-1); wPartitionsRequest_SkipColumnSchemaForPartition := None; wPartitionsRequest_IncludeParamKeyPattern := None; wPartitionsRequest_ExcludeParamKeyPattern := None |}.

Record wPartitionsResponse := mk_wPartitionsResponse {
  wPartitionsResponse_Partitions : slice (option wPartition);
}.

Definition NewPartitionsResponse : wPartitionsResponse :=
  {| wPartitionsResponse_Partitions := None |}.

Record wAddPartitionsRequest := mk_wAddPartitionsRequest {
  wAddPartitionsRequest_DbName : string;
  wAddPartitionsRequest_TblName : string;
  wAddPartitionsRequest_Parts : slice (option wPartition);
  wAddPartitionsRequest_IfNotExists : bool;
  wAddPartitionsRequest_NeedResult_ : bool;
  wAddPartitionsRequest_CatName : option string;
  wAddPartitionsRequest_ValidWriteIdList : option string;
  wAddPartitionsRequest_SkipColumnSchemaForPartition : option bool;
  wAddPartitionsRequest_PartitionColSchema : slice (option wFieldSchema);
  wAddPartitionsRequest_EnvironmentContext : option blob;
}.

Definition NewAddPartitionsRequest : wAddPartitionsRequest :=
  {| wAddPartitionsRequest_DbName := ""; wAddPartitionsRequest_TblName := ""; wAddPartitionsRequest_Parts := None; wAddPartitionsRequest_IfNotExists := false; wAddPartitionsRequest_NeedResult_ := true; wAddPartitionsRequest_CatName := None; wAddPartitionsRequest_ValidWriteIdList := None; wAddPartitionsRequest_SkipColumnSchemaForPartition := None; wAddPartitionsRequest_PartitionColSchema := None; wAddPartitionsRequest_EnvironmentContext := None |}.

Record wAddPartitionsResult_ := mk_wAddPartitionsResult_ {
  wAddPartitionsResult__Partitions : slice (option wPartition);
  wAddPartitionsResult__IsStatsCompliant : option bool;
  wAddPartitionsResult__PartitionColSchema : slice (option wFieldSchema);
}.

Definition NewAddPartitionsResult_ : wAddPartitionsResult_ :=
  {| wAddPartitionsResult__Partitions := None; wAddPartitionsResult__IsStatsCompliant := None; wAddPartitionsResult__PartitionColSchema := None |}.

Record wAlterPartitionsRequest := mk_wAlterPartitionsRequest {
  wAlterPartitionsRequest_CatName : option string;
  wAlterPartitionsRequest_DbName : string;
  wAlterPartitionsRequest_TableName : string;
  wAlterPartitionsRequest_Partitions : slice (option wPartition);
  wAlterPartitionsRequest_EnvironmentContext : option blob;
  wAlterPartitionsRequest_WriteId : Z;
  wAlterPartitionsRequest_ValidWriteIdList : option string;
  wAlterPartitionsRequest_SkipColumnSchemaForPartition : option bool;
  wAlterPartitionsRequest_PartitionColSchema : slice (option wFieldSchema);
}.

Definition NewAlterPartitionsRequest : wAlterPartitionsRequest :=
  {| wAlterPartitionsRequest_CatName := None; wAlterPartitionsRequest_DbName := ""; wAlterPartitionsRequest_TableName := ""; wAlterPartitionsRequest_Partitions := None; wAlterPartitionsRequest_EnvironmentContext := None; wAlterPartitionsRequest_WriteId := (-1); wAlterPartitionsRequest_ValidWriteIdList := None; wAlterPartitionsRequest_SkipColumnSchemaForPartition := None; wAlterPartitionsRequest_PartitionColSchema := None |}.

Record wRequestPartsSpec := mk_wRequestPartsSpec {
  wRequestPartsSpec_Names : slice string;
  wRequestPartsSpec_Exprs : slice (option blob);
}.

Definition NewRequestPartsSpec : wRequestPartsSpec :=
  {| wRequestPartsSpec_Names := None; wRequestPartsSpec_Exprs := None |}.

Record wDropPartitionsRequest := mk_wDropPartitionsRequest {
  wDropPartitionsRequest_DbName : string;
  wDropPartitionsRequest_TblName : string;
  wDropPartitionsRequest_Parts : option wRequestPartsSpec;
  wDropPartitionsRequest_DeleteData : option bool;
  wDropPartitionsRequest_IfExists : bool;
  wDropPartitionsRequest_IgnoreProtection : option bool;
  wDropPartitionsRequest_EnvironmentContext : option blob;
  wDropPartitionsRequest_NeedResult_ : bool;
  wDropPartitionsRequest_CatName : option string;
  wDropPartitionsRequest_SkipColumnSchemaForPartition : option bool;
}.

Definition NewDropPartitionsRequest : wDropPartitionsRequest :=
  {| wDropPartitionsRequest_DbName := ""; wDropPartitionsRequest_TblName := ""; wDropPartitionsRequest_Parts := None; wDropPartitionsRequest_DeleteData := None; wDropPartitionsRequest_IfExists := true; wDropPartitionsRequest_IgnoreProtection := None; wDropPartitionsRequest_EnvironmentContext := None; wDropPartitionsRequest_NeedResult_ := true; wDropPartitionsRequest_CatName := None; wDropPartitionsRequest_SkipColumnSchemaForPartition := None |}.

Record wGetPartitionsByNamesRequest := mk_wGetPartitionsByNamesRequest {
  wGetPartitionsByNamesRequest_DbName : string;
  wGetPartitionsByNamesRequest_TblName : string;
  wGetPartitionsByNamesRequest_Names : slice string;
  wGetPartitionsByNamesRequest_GetColStats : option bool;
  wGetPartitionsByNamesRequest_ProcessorCapabilities : slice string;
  wGetPartitionsByNamesRequest_ProcessorIdentifier : option string;
  wGetPartitionsByNamesRequest_Engine : string;
  wGetPartitionsByNamesRequest_ValidWriteIdList : option string;
  wGetPartitionsByNamesRequest_GetFileMetadata : option bool;
  wGetPartitionsByNamesRequest_ID : Z;
  wGetPartitionsByNamesRequest_SkipColumnSchemaForPartition : option bool;
  wGetPartitionsByNamesRequest_IncludeParamKeyPattern : option string;
  wGetPartitionsByNamesRequest_ExcludeParamKeyPattern : option string;
}.

Definition NewGetPartitionsByNamesRequest : wGetPartitionsByNamesRequest :=
  {| wGetPartitionsByNamesRequest_DbName := ""; wGetPartitionsByNamesRequest_TblName := ""; wGetPartitionsByNamesRequest_Names := None; wGetPartitionsByNamesRequest_GetColStats := None; wGetPartitionsByNamesRequest_ProcessorCapabilities := None; wGetPartitionsByNamesRequest_ProcessorIdentifier := None; wGetPartitionsByNamesRequest_Engine := "hive"; wGetPartitionsByNamesRequest_ValidWriteIdList := None; wGetPartitionsByNamesRequest_GetFileMetadata := None; wGetPartitionsByNamesRequest_ID := (-1); wGetPartitionsByNamesRequest_SkipColumnSchemaForPartition := None; wGetPartitionsByNamesRequest_IncludeParamKeyPattern := None; wGetPartitionsByNamesRequest_ExcludeParamKeyPattern := None |}.

Record wGetPartitionsByNamesResult_ := mk_wGetPartitionsByNamesResult_ {
  wGetPartitionsByNamesResult__Partitions : slice (option wPartition);
  wGetPartitionsByNamesResult__Dictionary : option blob;
}.

Definition NewGetPartitionsByNamesResult_ : wGetPartitionsByNamesResult_ :=
  {| wGetPartitionsByNamesResult__Partitions := None; wGetPartitionsByNamesResult__Dictionary := None |}.

Record wGetPartitionNamesPsRequest := mk_wGetPartitionNamesPsRequest {
  wGetPartitionNamesPsRequest_CatName : option string;
  wGetPartitionNamesPsRequest_DbName : string;
  wGetPartitionNamesPsRequest_TblName : string;
  wGetPartitionNamesPsRequest_PartValues : slice string;
  wGetPartitionNamesPsRequest_MaxParts : Z;
  wGetPartitionNamesPsRequest_ValidWriteIdList : option string;
  wGetPartitionNamesPsRequest_ID : Z;
}.

Definition NewGetPartitionNamesPsRequest : wGetPartitionNamesPsRequest :=
  {| wGetPartitionNamesPsRequest_CatName := None; wGetPartitionNamesPsRequest_DbName := ""; wGetPartitionNamesPsRequest_TblName := ""; wGetPartitionNamesPsRequest_PartValues := None; wGetPartitionNamesPsRequest_MaxParts := (-1); wGetPartitionNamesPsRequest_ValidWriteIdList := None; wGetPartitionNamesPsRequest_ID := (-1) |}.

Record wGetPartitionNamesPsResponse := mk_wGetPartitionNamesPsResponse {
  wGetPartitionNamesPsResponse_Names : slice string;
}.

Definition NewGetPartitionNamesPsResponse : wGetPartitionNamesPsResponse :=
  {| wGetPartitionNamesPsResponse_Names := None |}.

Record wTableStatsRequest := mk_wTableStatsRequest {
  wTableStatsRequest_DbName : string;
  wTableStatsRequest_TblName : string;
  wTableStatsRequest_ColNames : slice string;
  wTableStatsRequest_CatName : option string;
  wTableStatsRequest_ValidWriteIdList : option string;
  wTableStatsRequest_Engine : string;
  wTableStatsRequest_ID : Z;
}.

Definition NewTableStatsRequest : wTableStatsRequest :=
  {| wTableStatsRequest_DbName := ""; wTableStatsRequest_TblName := ""; wTableStatsRequest_ColNames := None; wTableStatsRequest_CatName := None; wTableStatsRequest_ValidWriteIdList := None; wTableStatsRequest_Engine := "hive"; wTableStatsRequest_ID := (-1) |}.

Record wTableStatsResult_ := mk_wTableStatsResult_ {
  wTableStatsResult__TableStats : slice (option wColumnStatisticsObj);
  wTableStatsResult__IsStatsCompliant : option bool;
}.

Definition NewTableStatsResult_ : wTableStatsResult_ :=
  {| wTableStatsResult__TableStats := None; wTableStatsResult__IsStatsCompliant := None |}.

Record wNotificationEventRequest := mk_wNotificationEventRequest {
  wNotificationEventRequest_LastEvent : Z;
  wNotificationEventRequest_MaxEvents : option Z;
  wNotificationEventRequest_EventTypeSkipList : slice string;
  wNotificationEventRequest_CatName : option string;
  wNotificationEventRequest_DbName : option string;
  wNotificationEventRequest_TableNames : slice string;
  wNotificationEventRequest_EventTypeList : slice string;
}.

Definition NewNotificationEventRequest : wNotificationEventRequest :=
  {| wNotificationEventRequest_LastEvent := 0; wNotificationEventRequest_MaxEvents := None; wNotificationEventRequest_EventTypeSkipList := None; wNotificationEventRequest_CatName := None; wNotificationEventRequest_DbName := None; wNotificationEventRequest_TableNames := None; wNotificationEventRequest_EventTypeList := None |}.

Record wNotificationEventResponse := mk_wNotificationEventResponse {
  wNotificationEventResponse_Events : slice (option wNotificationEvent);
}.

Definition NewNotificationEventResponse : wNotificationEventResponse :=
  {| wNotificationEventResponse_Events := None |}.

Record wCurrentNotificationEventId := mk_wCurrentNotificationEventId {
  wCurrentNotificationEventId_EventId : Z;
}.

Definition NewCurrentNotificationEventId : wCurrentNotificationEventId :=
  {| wCurrentNotificationEventId_EventId := 0 |}.

Record wOpenTxnRequest := mk_wOpenTxnRequest {
  wOpenTxnRequest_NumTxns : Z;
  wOpenTxnRequest_User : string;
  wOpenTxnRequest_Hostname : string;
  wOpenTxnRequest_AgentInfo : string;
  wOpenTxnRequest_ReplPolicy : option string;
  wOpenTxnRequest_ReplSrcTxnIds : slice Z;
  wOpenTxnRequest_TxnType : Z;
}.

Definition NewOpenTxnRequest : wOpenTxnRequest :=
  {| wOpenTxnRequest_NumTxns := 0; wOpenTxnRequest_User := ""; wOpenTxnRequest_Hostname := ""; wOpenTxnRequest_AgentInfo := "Unknown"; wOpenTxnRequest_ReplPolicy := None; wOpenTxnRequest_ReplSrcTxnIds := None; wOpenTxnRequest_TxnType := 0 |}.

Record wOpenTxnsResponse := mk_wOpenTxnsResponse {
  wOpenTxnsResponse_TxnIds : slice Z;
}.

Definition NewOpenTxnsResponse : wOpenTxnsResponse :=
  {| wOpenTxnsResponse_TxnIds := None |}.

Record wCommitTxnRequest := mk_wCommitTxnRequest {
  wCommitTxnRequest_Txnid : Z;
  wCommitTxnRequest_ReplPolicy : option string;
  wCommitTxnRequest_WriteEventInfos : slice (option blob);
  wCommitTxnRequest_ReplLastIdInfo : option blob;
  wCommitTxnRequest_KeyValue : option blob;
  wCommitTxnRequest_ExclWriteEnabled : bool;
  wCommitTxnRequest_TxnType : option Z;
}.

Definition NewCommitTxnRequest : wCommitTxnRequest :=
  {| wCommitTxnRequest_Txnid := 0; wCommitTxnRequest_ReplPolicy := None; wCommitTxnRequest_WriteEventInfos := None; wCommitTxnRequest_ReplLastIdInfo := None; wCommitTxnRequest_KeyValue := None; wCommitTxnRequest_ExclWriteEnabled := true; wCommitTxnRequest_TxnType := None |}.

Record wAbortTxnRequest := mk_wAbortTxnRequest {
  wAbortTxnRequest_Txnid : Z;
  wAbortTxnRequest_ReplPolicy : option string;
  wAbortTxnRequest_TxnType : option Z;
  wAbortTxnRequest_ErrorCode : option Z;
}.

Definition NewAbortTxnRequest : wAbortTxnRequest :=
  {| wAbortTxnRequest_Txnid := 0; wAbortTxnRequest_ReplPolicy := None; wAbortTxnRequest_TxnType := None; wAbortTxnRequest_ErrorCode := None |}.

Record wHeartbeatRequest := mk_wHeartbeatRequest {
  wHeartbeatRequest_Lockid : option Z;
  wHeartbeatRequest_Txnid : option Z;
}.

Definition NewHeartbeatRequest : wHeartbeatRequest :=
  {| wHeartbeatRequest_Lockid := None; wHeartbeatRequest_Txnid := None |}.

Record wLockComponent := mk_wLockComponent {
  wLockComponent_Type : Z;
  wLockComponent_Level : Z;
  wLockComponent_Dbname : string;
  wLockComponent_Tablename : option string;
  wLockComponent_Partitionname : option string;
  wLockComponent_OperationType : Z;
  wLockComponent_IsTransactional : bool;
  wLockComponent_IsDynamicPartitionWrite : bool;
}.

Definition NewLockComponent : wLockComponent :=
  {| wLockComponent_Type := 0; wLockComponent_Level := 0; wLockComponent_Dbname := ""; wLockComponent_Tablename := None; wLockComponent_Partitionname := None; wLockComponent_OperationType := 5; wLockComponent_IsTransactional := false; wLockComponent_IsDynamicPartitionWrite := false |}.

Record wLockRequest := mk_wLockRequest {
  wLockRequest_Component : slice (option wLockComponent);
  wLockRequest_Txnid : option Z;
  wLockRequest_User : string;
  wLockRequest_Hostname : string;
  wLockRequest_AgentInfo : string;
  wLockRequest_ZeroWaitReadEnabled : bool;
  wLockRequest_ExclusiveCTAS : bool;
  wLockRequest_LocklessReadsEnabled : bool;
}.

Definition NewLockRequest : wLockRequest :=
  {| wLockRequest_Component := None; wLockRequest_Txnid := None; wLockRequest_User := ""; wLockRequest_Hostname := ""; wLockRequest_AgentInfo := "Unknown"; wLockRequest_ZeroWaitReadEnabled := false; wLockRequest_ExclusiveCTAS := false; wLockRequest_LocklessReadsEnabled := false |}.

Record wLockResponse := mk_wLockResponse {
  wLockResponse_Lockid : Z;
  wLockResponse_State : Z;
  wLockResponse_ErrorMessage : option string;
}.

Definition NewLockResponse : wLockResponse :=
  {| wLockResponse_Lockid := 0; wLockResponse_State := 0; wLockResponse_ErrorMessage := None |}.

Record wCheckLockRequest := mk_wCheckLockRequest {
  wCheckLockRequest_Lockid : Z;
  wCheckLockRequest_Txnid : option Z;
  wCheckLockRequest_ElapsedMs : option Z;
}.

Definition NewCheckLockRequest : wCheckLockRequest :=
  {| wCheckLockRequest_Lockid := 0; wCheckLockRequest_Txnid := None; wCheckLockRequest_ElapsedMs := None |}.

Record wUnlockRequest := mk_wUnlockRequest {
  wUnlockRequest_Lockid : Z;
}.

Definition NewUnlockRequest : wUnlockRequest :=
  {| wUnlockRequest_Lockid := 0 |}.
