(* ===== verification/Options.v ===== *)
(** * Options: options.go, and the RPCInfo of observe.go

    The [config] every [Option] edits, its defaults, the clamping [New] applies
    after the options have run, and the identity rules of [set_ugi]. The
    [http.Client], [tls.Config] and [slog.Logger] values a caller hands over are
    opaque. *)

From S2P Require Import Prelude Errors.

(** observe.go: one attempt of one RPC. *)
Record RPCInfo := mkRPCInfo {
  info_Method : string;
  info_Endpoint : string;
  info_Attempt : nat;
  info_Duration : Z;
  info_Err : option goerr;
}.

Definition Millisecond : Z := 1000000.
Definition defaultCatalog : string := "hive".
Definition defaultTimeout : Z := 30 * 1000 * Millisecond.
Definition defaultMaxRetries : Z := 3.
Definition defaultPoolSize : Z := 4.
Definition defaultProbeInterval : Z := 30 * 1000 * Millisecond.
Definition defaultChunkSize : Z := 1000.
Definition defaultPartitionBatchSize : Z := 1000.
Definition minProbeInterval : Z := Millisecond.

(** [observer f] returns [Some r] when the caller's function panics with [r]. *)
Record config := mkConfig {
  cfg_catalog : string;
  cfg_timeout : Z;
  cfg_connectTimeout : Z;
  cfg_maxRetries : Z;
  cfg_randomOrder : bool;
  cfg_poolSize : Z;
  cfg_probeInterval : Z;
  cfg_chunkSize : Z;
  cfg_partitionBatchSize : Z;
  cfg_maxResponseBytes : Z;
  cfg_httpClient : option string;
  cfg_httpHeaders : gomap string;
  cfg_bearerToken : string;
  cfg_user : string;
  cfg_userGroups : slice string;
  cfg_withoutUGI : bool;
  cfg_ugiUser : string;
  cfg_plainUser : string;
  cfg_plainPassword : string;
  cfg_kerberos : bool;
  cfg_krbPrincipal : string;
  cfg_krbKeytab : string;
  cfg_krbCCache : string;
  cfg_krbService : string;
  cfg_krbConf : string;
  cfg_tlsConfig : option string;
  cfg_logger : string;
  cfg_observer : option (RPCInfo -> option string);
}.

(** [slog.New(slog.DiscardHandler)] *)
Definition discard_logger : string := "discard".

Definition newConfig : config := {|
  cfg_catalog := defaultCatalog; cfg_timeout := defaultTimeout; cfg_connectTimeout := 0;
  cfg_maxRetries := defaultMaxRetries; cfg_randomOrder := false; cfg_poolSize := defaultPoolSize;
  cfg_probeInterval := defaultProbeInterval; cfg_chunkSize := defaultChunkSize;
  cfg_partitionBatchSize := defaultPartitionBatchSize; cfg_maxResponseBytes := 0;
  cfg_httpClient := None; cfg_httpHeaders := None; cfg_bearerToken := ""; cfg_user := "";
  cfg_userGroups := None; cfg_withoutUGI := false; cfg_ugiUser := ""; cfg_plainUser := "";
  cfg_plainPassword := ""; cfg_kerberos := false; cfg_krbPrincipal := ""; cfg_krbKeytab := "";
  cfg_krbCCache := ""; cfg_krbService := ""; cfg_krbConf := ""; cfg_tlsConfig := None;
  cfg_logger := discard_logger; cfg_observer := None |}.

(** [cfg.clamp()] *)
Definition clamp (cfg : config) : config :=
  {| cfg_catalog := cfg_catalog cfg; cfg_timeout := cfg_timeout cfg;
     cfg_connectTimeout := (if cfg_connectTimeout cfg =? 0 then cfg_timeout cfg else cfg_connectTimeout cfg);
     cfg_maxRetries := (if cfg_maxRetries cfg <? 1 then 1 else cfg_maxRetries cfg);
     cfg_randomOrder := cfg_randomOrder cfg;
     cfg_poolSize := (if cfg_poolSize cfg <? 1 then 1 else cfg_poolSize cfg);
     cfg_probeInterval := (if cfg_probeInterval cfg <? minProbeInterval then minProbeInterval else cfg_probeInterval cfg);
     cfg_chunkSize := (if cfg_chunkSize cfg <? 1 then 1 else cfg_chunkSize cfg);
     cfg_partitionBatchSize := (if cfg_partitionBatchSize cfg <? 1 then 1 else cfg_partitionBatchSize cfg);
     cfg_maxResponseBytes := cfg_maxResponseBytes cfg; cfg_httpClient := cfg_httpClient cfg;
     cfg_httpHeaders := cfg_httpHeaders cfg; cfg_bearerToken := cfg_bearerToken cfg;
     cfg_user := cfg_user cfg; cfg_userGroups := cfg_userGroups cfg;
     cfg_withoutUGI := cfg_withoutUGI cfg; cfg_ugiUser := cfg_ugiUser cfg;
     cfg_plainUser := cfg_plainUser cfg; cfg_plainPassword := cfg_plainPassword cfg;
     cfg_kerberos := cfg_kerberos cfg; cfg_krbPrincipal := cfg_krbPrincipal cfg;
     cfg_krbKeytab := cfg_krbKeytab cfg; cfg_krbCCache := cfg_krbCCache cfg;
     cfg_krbService := cfg_krbService cfg; cfg_krbConf := cfg_krbConf cfg;
     cfg_tlsConfig := cfg_tlsConfig cfg; cfg_logger := cfg_logger cfg;
     cfg_observer := cfg_observer cfg |}.

(** ** Identity *)

Definition wantsSetUgi (cfg : config) : bool :=
  negb (cfg_withoutUGI cfg) && String.eqb (cfg_plainUser cfg) "" && negb (cfg_kerberos cfg).

(** [os] is what [user.Current()] answered: the username, or an error. *)
Definition defaultOSUser (os : option string) : string :=
  match os with
  | Some u => if String.eqb u "" then "hms-client-go" else u
  | None => "hms-client-go"
  end.

Definition resolveUgiUser (os : option string) (cfg : config) : config :=
  let u := if String.eqb (cfg_user cfg) "" then defaultOSUser os else cfg_user cfg in
  {| cfg_catalog := cfg_catalog cfg; cfg_timeout := cfg_timeout cfg;
     cfg_connectTimeout := cfg_connectTimeout cfg; cfg_maxRetries := cfg_maxRetries cfg;
     cfg_randomOrder := cfg_randomOrder cfg; cfg_poolSize := cfg_poolSize cfg;
     cfg_probeInterval := cfg_probeInterval cfg; cfg_chunkSize := cfg_chunkSize cfg;
     cfg_partitionBatchSize := cfg_partitionBatchSize cfg;
     cfg_maxResponseBytes := cfg_maxResponseBytes cfg; cfg_httpClient := cfg_httpClient cfg;
     cfg_httpHeaders := cfg_httpHeaders cfg; cfg_bearerToken := cfg_bearerToken cfg;
     cfg_user := cfg_user cfg; cfg_userGroups := cfg_userGroups cfg;
     cfg_withoutUGI := cfg_withoutUGI cfg; cfg_ugiUser := u; cfg_plainUser := cfg_plainUser cfg;
     cfg_plainPassword := cfg_plainPassword cfg; cfg_kerberos := cfg_kerberos cfg;
     cfg_krbPrincipal := cfg_krbPrincipal cfg; cfg_krbKeytab := cfg_krbKeytab cfg;
     cfg_krbCCache := cfg_krbCCache cfg; cfg_krbService := cfg_krbService cfg;
     cfg_krbConf := cfg_krbConf cfg; cfg_tlsConfig := cfg_tlsConfig cfg;
     cfg_logger := cfg_logger cfg; cfg_observer := cfg_observer cfg |}.

(** ** Options *)

Definition Option : Type := config -> config.

Definition WithCatalog (name : string) : Option := fun c =>
  {| cfg_catalog := name; cfg_timeout := cfg_timeout c;
     cfg_connectTimeout := cfg_connectTimeout c; cfg_maxRetries := cfg_maxRetries c;
     cfg_randomOrder := cfg_randomOrder c; cfg_poolSize := cfg_poolSize c;
     cfg_probeInterval := cfg_probeInterval c; cfg_chunkSize := cfg_chunkSize c;
     cfg_partitionBatchSize := cfg_partitionBatchSize c;
     cfg_maxResponseBytes := cfg_maxResponseBytes c; cfg_httpClient := cfg_httpClient c;
     cfg_httpHeaders := cfg_httpHeaders c; cfg_bearerToken := cfg_bearerToken c;
     cfg_user := cfg_user c; cfg_userGroups := cfg_userGroups c;
     cfg_withoutUGI := cfg_withoutUGI c; cfg_ugiUser := cfg_ugiUser c;
     cfg_plainUser := cfg_plainUser c; cfg_plainPassword := cfg_plainPassword c;
     cfg_kerberos := cfg_kerberos c; cfg_krbPrincipal := cfg_krbPrincipal c;
     cfg_krbKeytab := cfg_krbKeytab c; cfg_krbCCache := cfg_krbCCache c;
     cfg_krbService := cfg_krbService c; cfg_krbConf := cfg_krbConf c;
     cfg_tlsConfig := cfg_tlsConfig c; cfg_logger := cfg_logger c;
     cfg_observer := cfg_observer c |}.

Definition WithTimeout (d : Z) : Option := fun c =>
  {| cfg_catalog := cfg_catalog c; cfg_timeout := d; cfg_connectTimeout := cfg_connectTimeout c;
     cfg_maxRetries := cfg_maxRetries c; cfg_randomOrder := cfg_randomOrder c;
     cfg_poolSize := cfg_poolSize c; cfg_probeInterval := cfg_probeInterval c;
     cfg_chunkSize := cfg_chunkSize c; cfg_partitionBatchSize := cfg_partitionBatchSize c;
     cfg_maxResponseBytes := cfg_maxResponseBytes c; cfg_httpClient := cfg_httpClient c;
     cfg_httpHeaders := cfg_httpHeaders c; cfg_bearerToken := cfg_bearerToken c;
     cfg_user := cfg_user c; cfg_userGroups := cfg_userGroups c;
     cfg_withoutUGI := cfg_withoutUGI c; cfg_ugiUser := cfg_ugiUser c;
     cfg_plainUser := cfg_plainUser c; cfg_plainPassword := cfg_plainPassword c;
     cfg_kerberos := cfg_kerberos c; cfg_krbPrincipal := cfg_krbPrincipal c;
     cfg_krbKeytab := cfg_krbKeytab c; cfg_krbCCache := cfg_krbCCache c;
     cfg_krbService := cfg_krbService c; cfg_krbConf := cfg_krbConf c;
     cfg_tlsConfig := cfg_tlsConfig c; cfg_logger := cfg_logger c;
     cfg_observer := cfg_observer c |}.

Definition WithConnectTimeout (d : Z) : Option := fun c =>
  {| cfg_catalog := cfg_catalog c; cfg_timeout := cfg_timeout c; cfg_connectTimeout := d;
     cfg_maxRetries := cfg_maxRetries c; cfg_randomOrder := cfg_randomOrder c;
     cfg_poolSize := cfg_poolSize c; cfg_probeInterval := cfg_probeInterval c;
     cfg_chunkSize := cfg_chunkSize c; cfg_partitionBatchSize := cfg_partitionBatchSize c;
     cfg_maxResponseBytes := cfg_maxResponseBytes c; cfg_httpClient := cfg_httpClient c;
     cfg_httpHeaders := cfg_httpHeaders c; cfg_bearerToken := cfg_bearerToken c;
     cfg_user := cfg_user c; cfg_userGroups := cfg_userGroups c;
     cfg_withoutUGI := cfg_withoutUGI c; cfg_ugiUser := cfg_ugiUser c;
     cfg_plainUser := cfg_plainUser c; cfg_plainPassword := cfg_plainPassword c;
     cfg_kerberos := cfg_kerberos c; cfg_krbPrincipal := cfg_krbPrincipal c;
     cfg_krbKeytab := cfg_krbKeytab c; cfg_krbCCache := cfg_krbCCache c;
     cfg_krbService := cfg_krbService c; cfg_krbConf := cfg_krbConf c;
     cfg_tlsConfig := cfg_tlsConfig c; cfg_logger := cfg_logger c;
     cfg_observer := cfg_observer c |}.

Definition WithMaxRetries (n : Z) : Option := fun c =>
  {| cfg_catalog := cfg_catalog c; cfg_timeout := cfg_timeout c;
     cfg_connectTimeout := cfg_connectTimeout c; cfg_maxRetries := n;
     cfg_randomOrder := cfg_randomOrder c; cfg_poolSize := cfg_poolSize c;
     cfg_probeInterval := cfg_probeInterval c; cfg_chunkSize := cfg_chunkSize c;
     cfg_partitionBatchSize := cfg_partitionBatchSize c;
     cfg_maxResponseBytes := cfg_maxResponseBytes c; cfg_httpClient := cfg_httpClient c;
     cfg_httpHeaders := cfg_httpHeaders c; cfg_bearerToken := cfg_bearerToken c;
     cfg_user := cfg_user c; cfg_userGroups := cfg_userGroups c;
     cfg_withoutUGI := cfg_withoutUGI c; cfg_ugiUser := cfg_ugiUser c;
     cfg_plainUser := cfg_plainUser c; cfg_plainPassword := cfg_plainPassword c;
     cfg_kerberos := cfg_kerberos c; cfg_krbPrincipal := cfg_krbPrincipal c;
     cfg_krbKeytab := cfg_krbKeytab c; cfg_krbCCache := cfg_krbCCache c;
     cfg_krbService := cfg_krbService c; cfg_krbConf := cfg_krbConf c;
     cfg_tlsConfig := cfg_tlsConfig c; cfg_logger := cfg_logger c;
     cfg_observer := cfg_observer c |}.

Definition WithPoolSize (n : Z) : Option := fun c =>
  {| cfg_catalog := cfg_catalog c; cfg_timeout := cfg_timeout c;
     cfg_connectTimeout := cfg_connectTimeout c; cfg_maxRetries := cfg_maxRetries c;
     cfg_randomOrder := cfg_randomOrder c; cfg_poolSize := n;
     cfg_probeInterval := cfg_probeInterval c; cfg_chunkSize := cfg_chunkSize c;
     cfg_partitionBatchSize := cfg_partitionBatchSize c;
     cfg_maxResponseBytes := cfg_maxResponseBytes c; cfg_httpClient := cfg_httpClient c;
     cfg_httpHeaders := cfg_httpHeaders c; cfg_bearerToken := cfg_bearerToken c;
     cfg_user := cfg_user c; cfg_userGroups := cfg_userGroups c;
     cfg_withoutUGI := cfg_withoutUGI c; cfg_ugiUser := cfg_ugiUser c;
     cfg_plainUser := cfg_plainUser c; cfg_plainPassword := cfg_plainPassword c;
     cfg_kerberos := cfg_kerberos c; cfg_krbPrincipal := cfg_krbPrincipal c;
     cfg_krbKeytab := cfg_krbKeytab c; cfg_krbCCache := cfg_krbCCache c;
     cfg_krbService := cfg_krbService c; cfg_krbConf := cfg_krbConf c;
     cfg_tlsConfig := cfg_tlsConfig c; cfg_logger := cfg_logger c;
     cfg_observer := cfg_observer c |}.

Definition withProbeInterval (d : Z) : Option := fun c =>
  {| cfg_catalog := cfg_catalog c; cfg_timeout := cfg_timeout c;
     cfg_connectTimeout := cfg_connectTimeout c; cfg_maxRetries := cfg_maxRetries c;
     cfg_randomOrder := cfg_randomOrder c; cfg_poolSize := cfg_poolSize c;
     cfg_probeInterval := d; cfg_chunkSize := cfg_chunkSize c;
     cfg_partitionBatchSize := cfg_partitionBatchSize c;
     cfg_maxResponseBytes := cfg_maxResponseBytes c; cfg_httpClient := cfg_httpClient c;
     cfg_httpHeaders := cfg_httpHeaders c; cfg_bearerToken := cfg_bearerToken c;
     cfg_user := cfg_user c; cfg_userGroups := cfg_userGroups c;
     cfg_withoutUGI := cfg_withoutUGI c; cfg_ugiUser := cfg_ugiUser c;
     cfg_plainUser := cfg_plainUser c; cfg_plainPassword := cfg_plainPassword c;
     cfg_kerberos := cfg_kerberos c; cfg_krbPrincipal := cfg_krbPrincipal c;
     cfg_krbKeytab := cfg_krbKeytab c; cfg_krbCCache := cfg_krbCCache c;
     cfg_krbService := cfg_krbService c; cfg_krbConf := cfg_krbConf c;
     cfg_tlsConfig := cfg_tlsConfig c; cfg_logger := cfg_logger c;
     cfg_observer := cfg_observer c |}.

Definition WithChunkSize (n : Z) : Option := fun c =>
  {| cfg_catalog := cfg_catalog c; cfg_timeout := cfg_timeout c;
     cfg_connectTimeout := cfg_connectTimeout c; cfg_maxRetries := cfg_maxRetries c;
     cfg_randomOrder := cfg_randomOrder c; cfg_poolSize := cfg_poolSize c;
     cfg_probeInterval := cfg_probeInterval c; cfg_chunkSize := n;
     cfg_partitionBatchSize := cfg_partitionBatchSize c;
     cfg_maxResponseBytes := cfg_maxResponseBytes c; cfg_httpClient := cfg_httpClient c;
     cfg_httpHeaders := cfg_httpHeaders c; cfg_bearerToken := cfg_bearerToken c;
     cfg_user := cfg_user c; cfg_userGroups := cfg_userGroups c;
     cfg_withoutUGI := cfg_withoutUGI c; cfg_ugiUser := cfg_ugiUser c;
     cfg_plainUser := cfg_plainUser c; cfg_plainPassword := cfg_plainPassword c;
     cfg_kerberos := cfg_kerberos c; cfg_krbPrincipal := cfg_krbPrincipal c;
     cfg_krbKeytab := cfg_krbKeytab c; cfg_krbCCache := cfg_krbCCache c;
     cfg_krbService := cfg_krbService c; cfg_krbConf := cfg_krbConf c;
     cfg_tlsConfig := cfg_tlsConfig c; cfg_logger := cfg_logger c;
     cfg_observer := cfg_observer c |}.

Definition WithPartitionBatchSize (n : Z) : Option := fun c =>
  {| cfg_catalog := cfg_catalog c; cfg_timeout := cfg_timeout c;
     cfg_connectTimeout := cfg_connectTimeout c; cfg_maxRetries := cfg_maxRetries c;
     cfg_randomOrder := cfg_randomOrder c; cfg_poolSize := cfg_poolSize c;
     cfg_probeInterval := cfg_probeInterval c; cfg_chunkSize := cfg_chunkSize c;
     cfg_partitionBatchSize := n; cfg_maxResponseBytes := cfg_maxResponseBytes c;
     cfg_httpClient := cfg_httpClient c; cfg_httpHeaders := cfg_httpHeaders c;
     cfg_bearerToken := cfg_bearerToken c; cfg_user := cfg_user c;
     cfg_userGroups := cfg_userGroups c; cfg_withoutUGI := cfg_withoutUGI c;
     cfg_ugiUser := cfg_ugiUser c; cfg_plainUser := cfg_plainUser c;
     cfg_plainPassword := cfg_plainPassword c; cfg_kerberos := cfg_kerberos c;
     cfg_krbPrincipal := cfg_krbPrincipal c; cfg_krbKeytab := cfg_krbKeytab c;
     cfg_krbCCache := cfg_krbCCache c; cfg_krbService := cfg_krbService c;
     cfg_krbConf := cfg_krbConf c; cfg_tlsConfig := cfg_tlsConfig c; cfg_logger := cfg_logger c;
     cfg_observer := cfg_observer c |}.

Definition WithMaxResponseBytes (n : Z) : Option := fun c =>
  {| cfg_catalog := cfg_catalog c; cfg_timeout := cfg_timeout c;
     cfg_connectTimeout := cfg_connectTimeout c; cfg_maxRetries := cfg_maxRetries c;
     cfg_randomOrder := cfg_randomOrder c; cfg_poolSize := cfg_poolSize c;
     cfg_probeInterval := cfg_probeInterval c; cfg_chunkSize := cfg_chunkSize c;
     cfg_partitionBatchSize := cfg_partitionBatchSize c; cfg_maxResponseBytes := n;
     cfg_httpClient := cfg_httpClient c; cfg_httpHeaders := cfg_httpHeaders c;
     cfg_bearerToken := cfg_bearerToken c; cfg_user := cfg_user c;
     cfg_userGroups := cfg_userGroups c; cfg_withoutUGI := cfg_withoutUGI c;
     cfg_ugiUser := cfg_ugiUser c; cfg_plainUser := cfg_plainUser c;
     cfg_plainPassword := cfg_plainPassword c; cfg_kerberos := cfg_kerberos c;
     cfg_krbPrincipal := cfg_krbPrincipal c; cfg_krbKeytab := cfg_krbKeytab c;
     cfg_krbCCache := cfg_krbCCache c; cfg_krbService := cfg_krbService c;
     cfg_krbConf := cfg_krbConf c; cfg_tlsConfig := cfg_tlsConfig c; cfg_logger := cfg_logger c;
     cfg_observer := cfg_observer c |}.

Definition WithHTTPClient (hc : option string) : Option := fun c =>
  {| cfg_catalog := cfg_catalog c; cfg_timeout := cfg_timeout c;
     cfg_connectTimeout := cfg_connectTimeout c; cfg_maxRetries := cfg_maxRetries c;
     cfg_randomOrder := cfg_randomOrder c; cfg_poolSize := cfg_poolSize c;
     cfg_probeInterval := cfg_probeInterval c; cfg_chunkSize := cfg_chunkSize c;
     cfg_partitionBatchSize := cfg_partitionBatchSize c;
     cfg_maxResponseBytes := cfg_maxResponseBytes c; cfg_httpClient := hc;
     cfg_httpHeaders := cfg_httpHeaders c; cfg_bearerToken := cfg_bearerToken c;
     cfg_user := cfg_user c; cfg_userGroups := cfg_userGroups c;
     cfg_withoutUGI := cfg_withoutUGI c; cfg_ugiUser := cfg_ugiUser c;
     cfg_plainUser := cfg_plainUser c; cfg_plainPassword := cfg_plainPassword c;
     cfg_kerberos := cfg_kerberos c; cfg_krbPrincipal := cfg_krbPrincipal c;
     cfg_krbKeytab := cfg_krbKeytab c; cfg_krbCCache := cfg_krbCCache c;
     cfg_krbService := cfg_krbService c; cfg_krbConf := cfg_krbConf c;
     cfg_tlsConfig := cfg_tlsConfig c; cfg_logger := cfg_logger c;
     cfg_observer := cfg_observer c |}.

Definition WithHTTPHeaders (h : gomap string) : Option := fun c =>
  {| cfg_catalog := cfg_catalog c; cfg_timeout := cfg_timeout c;
     cfg_connectTimeout := cfg_connectTimeout c; cfg_maxRetries := cfg_maxRetries c;
     cfg_randomOrder := cfg_randomOrder c; cfg_poolSize := cfg_poolSize c;
     cfg_probeInterval := cfg_probeInterval c; cfg_chunkSize := cfg_chunkSize c;
     cfg_partitionBatchSize := cfg_partitionBatchSize c;
     cfg_maxResponseBytes := cfg_maxResponseBytes c; cfg_httpClient := cfg_httpClient c;
     cfg_httpHeaders := h; cfg_bearerToken := cfg_bearerToken c; cfg_user := cfg_user c;
     cfg_userGroups := cfg_userGroups c; cfg_withoutUGI := cfg_withoutUGI c;
     cfg_ugiUser := cfg_ugiUser c; cfg_plainUser := cfg_plainUser c;
     cfg_plainPassword := cfg_plainPassword c; cfg_kerberos := cfg_kerberos c;
     cfg_krbPrincipal := cfg_krbPrincipal c; cfg_krbKeytab := cfg_krbKeytab c;
     cfg_krbCCache := cfg_krbCCache c; cfg_krbService := cfg_krbService c;
     cfg_krbConf := cfg_krbConf c; cfg_tlsConfig := cfg_tlsConfig c; cfg_logger := cfg_logger c;
     cfg_observer := cfg_observer c |}.

Definition WithBearerToken (token : string) : Option := fun c =>
  {| cfg_catalog := cfg_catalog c; cfg_timeout := cfg_timeout c;
     cfg_connectTimeout := cfg_connectTimeout c; cfg_maxRetries := cfg_maxRetries c;
     cfg_randomOrder := cfg_randomOrder c; cfg_poolSize := cfg_poolSize c;
     cfg_probeInterval := cfg_probeInterval c; cfg_chunkSize := cfg_chunkSize c;
     cfg_partitionBatchSize := cfg_partitionBatchSize c;
     cfg_maxResponseBytes := cfg_maxResponseBytes c; cfg_httpClient := cfg_httpClient c;
     cfg_httpHeaders := cfg_httpHeaders c; cfg_bearerToken := token; cfg_user := cfg_user c;
     cfg_userGroups := cfg_userGroups c; cfg_withoutUGI := cfg_withoutUGI c;
     cfg_ugiUser := cfg_ugiUser c; cfg_plainUser := cfg_plainUser c;
     cfg_plainPassword := cfg_plainPassword c; cfg_kerberos := cfg_kerberos c;
     cfg_krbPrincipal := cfg_krbPrincipal c; cfg_krbKeytab := cfg_krbKeytab c;
     cfg_krbCCache := cfg_krbCCache c; cfg_krbService := cfg_krbService c;
     cfg_krbConf := cfg_krbConf c; cfg_tlsConfig := cfg_tlsConfig c; cfg_logger := cfg_logger c;
     cfg_observer := cfg_observer c |}.

Definition WithUser (name : string) : Option := fun c =>
  {| cfg_catalog := cfg_catalog c; cfg_timeout := cfg_timeout c;
     cfg_connectTimeout := cfg_connectTimeout c; cfg_maxRetries := cfg_maxRetries c;
     cfg_randomOrder := cfg_randomOrder c; cfg_poolSize := cfg_poolSize c;
     cfg_probeInterval := cfg_probeInterval c; cfg_chunkSize := cfg_chunkSize c;
     cfg_partitionBatchSize := cfg_partitionBatchSize c;
     cfg_maxResponseBytes := cfg_maxResponseBytes c; cfg_httpClient := cfg_httpClient c;
     cfg_httpHeaders := cfg_httpHeaders c; cfg_bearerToken := cfg_bearerToken c;
     cfg_user := name; cfg_userGroups := cfg_userGroups c; cfg_withoutUGI := cfg_withoutUGI c;
     cfg_ugiUser := cfg_ugiUser c; cfg_plainUser := cfg_plainUser c;
     cfg_plainPassword := cfg_plainPassword c; cfg_kerberos := cfg_kerberos c;
     cfg_krbPrincipal := cfg_krbPrincipal c; cfg_krbKeytab := cfg_krbKeytab c;
     cfg_krbCCache := cfg_krbCCache c; cfg_krbService := cfg_krbService c;
     cfg_krbConf := cfg_krbConf c; cfg_tlsConfig := cfg_tlsConfig c; cfg_logger := cfg_logger c;
     cfg_observer := cfg_observer c |}.

Definition WithKerberosServicePrincipal (spn : string) : Option := fun c =>
  {| cfg_catalog := cfg_catalog c; cfg_timeout := cfg_timeout c;
     cfg_connectTimeout := cfg_connectTimeout c; cfg_maxRetries := cfg_maxRetries c;
     cfg_randomOrder := cfg_randomOrder c; cfg_poolSize := cfg_poolSize c;
     cfg_probeInterval := cfg_probeInterval c; cfg_chunkSize := cfg_chunkSize c;
     cfg_partitionBatchSize := cfg_partitionBatchSize c;
     cfg_maxResponseBytes := cfg_maxResponseBytes c; cfg_httpClient := cfg_httpClient c;
     cfg_httpHeaders := cfg_httpHeaders c; cfg_bearerToken := cfg_bearerToken c;
     cfg_user := cfg_user c; cfg_userGroups := cfg_userGroups c;
     cfg_withoutUGI := cfg_withoutUGI c; cfg_ugiUser := cfg_ugiUser c;
     cfg_plainUser := cfg_plainUser c; cfg_plainPassword := cfg_plainPassword c;
     cfg_kerberos := cfg_kerberos c; cfg_krbPrincipal := cfg_krbPrincipal c;
     cfg_krbKeytab := cfg_krbKeytab c; cfg_krbCCache := cfg_krbCCache c; cfg_krbService := spn;
     cfg_krbConf := cfg_krbConf c; cfg_tlsConfig := cfg_tlsConfig c; cfg_logger := cfg_logger c;
     cfg_observer := cfg_observer c |}.

Definition WithKrb5Config (path : string) : Option := fun c =>
  {| cfg_catalog := cfg_catalog c; cfg_timeout := cfg_timeout c;
     cfg_connectTimeout := cfg_connectTimeout c; cfg_maxRetries := cfg_maxRetries c;
     cfg_randomOrder := cfg_randomOrder c; cfg_poolSize := cfg_poolSize c;
     cfg_probeInterval := cfg_probeInterval c; cfg_chunkSize := cfg_chunkSize c;
     cfg_partitionBatchSize := cfg_partitionBatchSize c;
     cfg_maxResponseBytes := cfg_maxResponseBytes c; cfg_httpClient := cfg_httpClient c;
     cfg_httpHeaders := cfg_httpHeaders c; cfg_bearerToken := cfg_bearerToken c;
     cfg_user := cfg_user c; cfg_userGroups := cfg_userGroups c;
     cfg_withoutUGI := cfg_withoutUGI c; cfg_ugiUser := cfg_ugiUser c;
     cfg_plainUser := cfg_plainUser c; cfg_plainPassword := cfg_plainPassword c;
     cfg_kerberos := cfg_kerberos c; cfg_krbPrincipal := cfg_krbPrincipal c;
     cfg_krbKeytab := cfg_krbKeytab c; cfg_krbCCache := cfg_krbCCache c;
     cfg_krbService := cfg_krbService c; cfg_krbConf := path; cfg_tlsConfig := cfg_tlsConfig c;
     cfg_logger := cfg_logger c; cfg_observer := cfg_observer c |}.

Definition WithTLS (t : option string) : Option := fun c =>
  {| cfg_catalog := cfg_catalog c; cfg_timeout := cfg_timeout c;
     cfg_connectTimeout := cfg_connectTimeout c; cfg_maxRetries := cfg_maxRetries c;
     cfg_randomOrder := cfg_randomOrder c; cfg_poolSize := cfg_poolSize c;
     cfg_probeInterval := cfg_probeInterval c; cfg_chunkSize := cfg_chunkSize c;
     cfg_partitionBatchSize := cfg_partitionBatchSize c;
     cfg_maxResponseBytes := cfg_maxResponseBytes c; cfg_httpClient := cfg_httpClient c;
     cfg_httpHeaders := cfg_httpHeaders c; cfg_bearerToken := cfg_bearerToken c;
     cfg_user := cfg_user c; cfg_userGroups := cfg_userGroups c;
     cfg_withoutUGI := cfg_withoutUGI c; cfg_ugiUser := cfg_ugiUser c;
     cfg_plainUser := cfg_plainUser c; cfg_plainPassword := cfg_plainPassword c;
     cfg_kerberos := cfg_kerberos c; cfg_krbPrincipal := cfg_krbPrincipal c;
     cfg_krbKeytab := cfg_krbKeytab c; cfg_krbCCache := cfg_krbCCache c;
     cfg_krbService := cfg_krbService c; cfg_krbConf := cfg_krbConf c; cfg_tlsConfig := t;
     cfg_logger := cfg_logger c; cfg_observer := cfg_observer c |}.

Definition WithRPCObserver (f : option (RPCInfo -> option string)) : Option := fun c =>
  {| cfg_catalog := cfg_catalog c; cfg_timeout := cfg_timeout c;
     cfg_connectTimeout := cfg_connectTimeout c; cfg_maxRetries := cfg_maxRetries c;
     cfg_randomOrder := cfg_randomOrder c; cfg_poolSize := cfg_poolSize c;
     cfg_probeInterval := cfg_probeInterval c; cfg_chunkSize := cfg_chunkSize c;
     cfg_partitionBatchSize := cfg_partitionBatchSize c;
     cfg_maxResponseBytes := cfg_maxResponseBytes c; cfg_httpClient := cfg_httpClient c;
     cfg_httpHeaders := cfg_httpHeaders c; cfg_bearerToken := cfg_bearerToken c;
     cfg_user := cfg_user c; cfg_userGroups := cfg_userGroups c;
     cfg_withoutUGI := cfg_withoutUGI c; cfg_ugiUser := cfg_ugiUser c;
     cfg_plainUser := cfg_plainUser c; cfg_plainPassword := cfg_plainPassword c;
     cfg_kerberos := cfg_kerberos c; cfg_krbPrincipal := cfg_krbPrincipal c;
     cfg_krbKeytab := cfg_krbKeytab c; cfg_krbCCache := cfg_krbCCache c;
     cfg_krbService := cfg_krbService c; cfg_krbConf := cfg_krbConf c;
     cfg_tlsConfig := cfg_tlsConfig c; cfg_logger := cfg_logger c; cfg_observer := f |}.

Definition WithRandomEndpointOrder : Option := fun c =>
  {| cfg_catalog := cfg_catalog c; cfg_timeout := cfg_timeout c;
     cfg_connectTimeout := cfg_connectTimeout c; cfg_maxRetries := cfg_maxRetries c;
     cfg_randomOrder := true; cfg_poolSize := cfg_poolSize c;
     cfg_probeInterval := cfg_probeInterval c; cfg_chunkSize := cfg_chunkSize c;
     cfg_partitionBatchSize := cfg_partitionBatchSize c;
     cfg_maxResponseBytes := cfg_maxResponseBytes c; cfg_httpClient := cfg_httpClient c;
     cfg_httpHeaders := cfg_httpHeaders c; cfg_bearerToken := cfg_bearerToken c;
     cfg_user := cfg_user c; cfg_userGroups := cfg_userGroups c;
     cfg_withoutUGI := cfg_withoutUGI c; cfg_ugiUser := cfg_ugiUser c;
     cfg_plainUser := cfg_plainUser c; cfg_plainPassword := cfg_plainPassword c;
     cfg_kerberos := cfg_kerberos c; cfg_krbPrincipal := cfg_krbPrincipal c;
     cfg_krbKeytab := cfg_krbKeytab c; cfg_krbCCache := cfg_krbCCache c;
     cfg_krbService := cfg_krbService c; cfg_krbConf := cfg_krbConf c;
     cfg_tlsConfig := cfg_tlsConfig c; cfg_logger := cfg_logger c;
     cfg_observer := cfg_observer c |}.

Definition WithoutUGI : Option := fun c =>
  {| cfg_catalog := cfg_catalog c; cfg_timeout := cfg_timeout c;
     cfg_connectTimeout := cfg_connectTimeout c; cfg_maxRetries := cfg_maxRetries c;
     cfg_randomOrder := cfg_randomOrder c; cfg_poolSize := cfg_poolSize c;
     cfg_probeInterval := cfg_probeInterval c; cfg_chunkSize := cfg_chunkSize c;
     cfg_partitionBatchSize := cfg_partitionBatchSize c;
     cfg_maxResponseBytes := cfg_maxResponseBytes c; cfg_httpClient := cfg_httpClient c;
     cfg_httpHeaders := cfg_httpHeaders c; cfg_bearerToken := cfg_bearerToken c;
     cfg_user := cfg_user c; cfg_userGroups := cfg_userGroups c; cfg_withoutUGI := true;
     cfg_ugiUser := cfg_ugiUser c; cfg_plainUser := cfg_plainUser c;
     cfg_plainPassword := cfg_plainPassword c; cfg_kerberos := cfg_kerberos c;
     cfg_krbPrincipal := cfg_krbPrincipal c; cfg_krbKeytab := cfg_krbKeytab c;
     cfg_krbCCache := cfg_krbCCache c; cfg_krbService := cfg_krbService c;
     cfg_krbConf := cfg_krbConf c; cfg_tlsConfig := cfg_tlsConfig c; cfg_logger := cfg_logger c;
     cfg_observer := cfg_observer c |}.

(** [append(c.userGroups, groups...)]: appending nothing to nil stays nil. *)
Definition go_append {A} (s : slice A) (l : list A) : slice A :=
  match s, l with None, [] => None | _, _ => Some (elems s ++ l) end.

Definition WithUserGroups (groups : list string) : Option := fun c =>
  {| cfg_catalog := cfg_catalog c; cfg_timeout := cfg_timeout c;
     cfg_connectTimeout := cfg_connectTimeout c; cfg_maxRetries := cfg_maxRetries c;
     cfg_randomOrder := cfg_randomOrder c; cfg_poolSize := cfg_poolSize c;
     cfg_probeInterval := cfg_probeInterval c; cfg_chunkSize := cfg_chunkSize c;
     cfg_partitionBatchSize := cfg_partitionBatchSize c;
     cfg_maxResponseBytes := cfg_maxResponseBytes c; cfg_httpClient := cfg_httpClient c;
     cfg_httpHeaders := cfg_httpHeaders c; cfg_bearerToken := cfg_bearerToken c;
     cfg_user := cfg_user c; cfg_userGroups := go_append (cfg_userGroups c) groups;
     cfg_withoutUGI := cfg_withoutUGI c; cfg_ugiUser := cfg_ugiUser c;
     cfg_plainUser := cfg_plainUser c; cfg_plainPassword := cfg_plainPassword c;
     cfg_kerberos := cfg_kerberos c; cfg_krbPrincipal := cfg_krbPrincipal c;
     cfg_krbKeytab := cfg_krbKeytab c; cfg_krbCCache := cfg_krbCCache c;
     cfg_krbService := cfg_krbService c; cfg_krbConf := cfg_krbConf c;
     cfg_tlsConfig := cfg_tlsConfig c; cfg_logger := cfg_logger c;
     cfg_observer := cfg_observer c |}.

Definition WithPlainAuth (user password : string) : Option := fun c =>
  {| cfg_catalog := cfg_catalog c; cfg_timeout := cfg_timeout c;
     cfg_connectTimeout := cfg_connectTimeout c; cfg_maxRetries := cfg_maxRetries c;
     cfg_randomOrder := cfg_randomOrder c; cfg_poolSize := cfg_poolSize c;
     cfg_probeInterval := cfg_probeInterval c; cfg_chunkSize := cfg_chunkSize c;
     cfg_partitionBatchSize := cfg_partitionBatchSize c;
     cfg_maxResponseBytes := cfg_maxResponseBytes c; cfg_httpClient := cfg_httpClient c;
     cfg_httpHeaders := cfg_httpHeaders c; cfg_bearerToken := cfg_bearerToken c;
     cfg_user := cfg_user c; cfg_userGroups := cfg_userGroups c;
     cfg_withoutUGI := cfg_withoutUGI c; cfg_ugiUser := cfg_ugiUser c; cfg_plainUser := user;
     cfg_plainPassword := password; cfg_kerberos := cfg_kerberos c;
     cfg_krbPrincipal := cfg_krbPrincipal c; cfg_krbKeytab := cfg_krbKeytab c;
     cfg_krbCCache := cfg_krbCCache c; cfg_krbService := cfg_krbService c;
     cfg_krbConf := cfg_krbConf c; cfg_tlsConfig := cfg_tlsConfig c; cfg_logger := cfg_logger c;
     cfg_observer := cfg_observer c |}.

(** [strings.HasSuffix] *)
Definition HasSuffix (s suffix : string) : bool :=
  let n := String.length s in let k := String.length suffix in
  (k <=? n)%nat && String.eqb (String.substring (n - k) k s) suffix.

Definition WithKerberos (principal : string) (keytabOrCCache : list string) : Option := fun c =>
  let '(keytab, ccache) :=
    match keytabOrCCache with
    | p :: _ => if String.eqb p "" then ("", "")
                else if HasSuffix p ".keytab" then (p, "") else ("", p)
    | [] => ("", "")
    end in
  {| cfg_catalog := cfg_catalog c; cfg_timeout := cfg_timeout c;
     cfg_connectTimeout := cfg_connectTimeout c; cfg_maxRetries := cfg_maxRetries c;
     cfg_randomOrder := cfg_randomOrder c; cfg_poolSize := cfg_poolSize c;
     cfg_probeInterval := cfg_probeInterval c; cfg_chunkSize := cfg_chunkSize c;
     cfg_partitionBatchSize := cfg_partitionBatchSize c;
     cfg_maxResponseBytes := cfg_maxResponseBytes c; cfg_httpClient := cfg_httpClient c;
     cfg_httpHeaders := cfg_httpHeaders c; cfg_bearerToken := cfg_bearerToken c;
     cfg_user := cfg_user c; cfg_userGroups := cfg_userGroups c;
     cfg_withoutUGI := cfg_withoutUGI c; cfg_ugiUser := cfg_ugiUser c;
     cfg_plainUser := cfg_plainUser c; cfg_plainPassword := cfg_plainPassword c;
     cfg_kerberos := true; cfg_krbPrincipal := principal; cfg_krbKeytab := keytab;
     cfg_krbCCache := ccache; cfg_krbService := cfg_krbService c; cfg_krbConf := cfg_krbConf c;
     cfg_tlsConfig := cfg_tlsConfig c; cfg_logger := cfg_logger c;
     cfg_observer := cfg_observer c |}.

(** observe.go *)
Definition WithLogger (l : option string) : Option := fun c =>
  {| cfg_catalog := cfg_catalog c; cfg_timeout := cfg_timeout c;
     cfg_connectTimeout := cfg_connectTimeout c; cfg_maxRetries := cfg_maxRetries c;
     cfg_randomOrder := cfg_randomOrder c; cfg_poolSize := cfg_poolSize c;
     cfg_probeInterval := cfg_probeInterval c; cfg_chunkSize := cfg_chunkSize c;
     cfg_partitionBatchSize := cfg_partitionBatchSize c;
     cfg_maxResponseBytes := cfg_maxResponseBytes c; cfg_httpClient := cfg_httpClient c;
     cfg_httpHeaders := cfg_httpHeaders c; cfg_bearerToken := cfg_bearerToken c;
     cfg_user := cfg_user c; cfg_userGroups := cfg_userGroups c;
     cfg_withoutUGI := cfg_withoutUGI c; cfg_ugiUser := cfg_ugiUser c;
     cfg_plainUser := cfg_plainUser c; cfg_plainPassword := cfg_plainPassword c;
     cfg_kerberos := cfg_kerberos c; cfg_krbPrincipal := cfg_krbPrincipal c;
     cfg_krbKeytab := cfg_krbKeytab c; cfg_krbCCache := cfg_krbCCache c;
     cfg_krbService := cfg_krbService c; cfg_krbConf := cfg_krbConf c;
     cfg_tlsConfig := cfg_tlsConfig c; cfg_logger := default discard_logger l;
     cfg_observer := cfg_observer c |}.

(** ** Per-call options *)

Record catalogOpts := mkCatalogOpts { co_catalog : string }.
Definition CatalogOption : Type := catalogOpts -> catalogOpts.
Definition InCatalog (name : string) : CatalogOption := fun _ => mkCatalogOpts name.

Definition apply_catalogOpts (opts : list CatalogOption) : catalogOpts :=
  foldl (fun o f => f o) (mkCatalogOpts "") opts.

(** The configuration [New] dials with. *)
Definition effective_config (os : option string) (opts : list Option) : config :=
  resolveUgiUser os (clamp (foldl (fun c o => o c) newConfig opts)).

(** ** The properties of the component *)

(** Whatever options a caller passes, in whatever order and with whatever
    numbers, the configuration New dials with is usable: at least one attempt,
    one pooled conn, one name per chunk and one partition per batch, a probe
    period of at least a millisecond, a non-empty set_ugi user, and a connect
    timeout unless the call timeout was zeroed. *)
Theorem effective_config_usable os opts :
  let c := effective_config os opts in
  1 <= cfg_maxRetries c /\ 1 <= cfg_poolSize c /\ 1 <= cfg_chunkSize c /\ 1 <= cfg_partitionBatchSize c /\
  minProbeInterval <= cfg_probeInterval c /\ cfg_ugiUser c <> "" /\
  (cfg_connectTimeout c <> 0 \/ cfg_timeout c = 0).
Proof.
  unfold effective_config. set (c0 := foldl _ _ _). simpl.
  split_and!; [case_match; lia|case_match; lia|case_match; lia|case_match; lia|case_match; lia| |].
  - destruct (String.eqb_spec (cfg_user c0) ""); [|done]. unfold defaultOSUser.
    destruct os as [u|]; [|done]. by destruct (String.eqb_spec u "").
  - destruct (Z.eqb_spec (cfg_connectTimeout c0) 0); lia.
Qed.
