(* ===== verification/Conn.v ===== *)
(** * Conn: conn.go, and the catalog resolution of client.go

    A [conn] is the record of bound RPCs ([rpcs], the func fields of Go's
    [conn]), the two caches it keeps about its server, and its closer. The
    world [W] is everything outside the client: servers, sockets, the caller's
    context. A closure passed to [call] or [read] runs in [bst]: the conn it was
    given, the world, the client's warehouse-root cache, and the variables [L]
    it captured, which survive a retry. *)

From S2P Require Import Prelude Errors GoMonad Wire Options.

(** ** Bound RPCs *)

Record rpcs (W : Type) := mkRpcs {
  getCatalogs : M W wGetCatalogsResponse;
  getCatalog : wGetCatalogRequest -> M W wGetCatalogResponse;
  createCatalog : wCreateCatalogRequest -> M W unit;
  dropCatalog : wDropCatalogRequest -> M W unit;
  getAllDatabases : M W (slice string);
  getDatabases : string -> M W (slice string);
  getDatabase : string -> M W wDatabase;
  createDatabase : option wDatabase -> M W unit;
  dropDatabase : string -> bool -> bool -> M W unit;
  getAllTables : string -> M W (slice string);
  getTableReq : wGetTableRequest -> M W wGetTableResult_;
  getTableObjectsByNameReq : wGetTablesRequest -> M W wGetTablesResult_;
  createTable : option wTable -> M W unit;
  alterTable : string -> string -> option wTable -> M W unit;
  dropTable : string -> string -> bool -> M W unit;
  getPartitions : string -> string -> Z -> M W (slice (option wPartition));
  getPartitionsReq : wPartitionsRequest -> M W wPartitionsResponse;
  getPartitionNames : string -> string -> Z -> M W (slice string);
  addPartitionsReq : wAddPartitionsRequest -> M W wAddPartitionsResult_;
  alterPartitions : string -> string -> slice (option wPartition) -> M W unit;
  alterPartitionsReq : wAlterPartitionsRequest -> M W unit;
  dropPartition : string -> string -> slice string -> bool -> M W bool;
  dropPartitionsReq : wDropPartitionsRequest -> M W unit;
  getConfigValue : string -> string -> M W string;
  getStatus : M W Z;
  getVersion : M W string;
  (** The extra timeout newConn puts on the call's context, when it does. *)
  setUgi : option Z -> string -> slice string -> M W (slice string);
  alterDatabase : string -> option wDatabase -> M W unit;
  getPartitionsByNames : string -> string -> slice string -> M W (slice (option wPartition));
  getPartitionsByNamesReq : wGetPartitionsByNamesRequest -> M W wGetPartitionsByNamesResult_;
  getPartitionsByFilter : string -> string -> string -> Z -> M W (slice (option wPartition));
  getPartitionNamesPs : string -> string -> slice string -> Z -> M W (slice string);
  getPartitionNamesPsReq : wGetPartitionNamesPsRequest -> M W wGetPartitionNamesPsResponse;
  getNextNotification : wNotificationEventRequest -> M W wNotificationEventResponse;
  getCurrentNotificationEventId : M W wCurrentNotificationEventId;
  getTableStatisticsReq : wTableStatsRequest -> M W wTableStatsResult_;
  openTxns : wOpenTxnRequest -> M W wOpenTxnsResponse;
  commitTxn : wCommitTxnRequest -> M W unit;
  abortTxn : wAbortTxnRequest -> M W unit;
  heartbeat : wHeartbeatRequest -> M W unit;
  lock : wLockRequest -> M W (option wLockResponse);
  checkLock : wCheckLockRequest -> M W (option wLockResponse);
  unlock : wUnlockRequest -> M W unit;
}.

Arguments getCatalogs {W}. Arguments getCatalog {W}. Arguments createCatalog {W}.
Arguments dropCatalog {W}. Arguments getAllDatabases {W}. Arguments getDatabases {W}.
Arguments getDatabase {W}. Arguments createDatabase {W}. Arguments dropDatabase {W}.
Arguments getAllTables {W}. Arguments getTableReq {W}. Arguments getTableObjectsByNameReq {W}.
Arguments createTable {W}. Arguments alterTable {W}. Arguments dropTable {W}.
Arguments getPartitions {W}. Arguments getPartitionsReq {W}. Arguments getPartitionNames {W}.
Arguments addPartitionsReq {W}. Arguments alterPartitions {W}. Arguments alterPartitionsReq {W}.
Arguments dropPartition {W}. Arguments dropPartitionsReq {W}. Arguments getConfigValue {W}.
Arguments getStatus {W}. Arguments getVersion {W}. Arguments setUgi {W}. Arguments alterDatabase {W}.
Arguments getPartitionsByNames {W}. Arguments getPartitionsByNamesReq {W}.
Arguments getPartitionsByFilter {W}. Arguments getPartitionNamesPs {W}.
Arguments getPartitionNamesPsReq {W}. Arguments getNextNotification {W}.
Arguments getCurrentNotificationEventId {W}. Arguments getTableStatisticsReq {W}.
Arguments openTxns {W}. Arguments commitTxn {W}. Arguments abortTxn {W}. Arguments heartbeat {W}.
Arguments lock {W}. Arguments checkLock {W}. Arguments unlock {W}.

Inductive catalogSupport := catalogUnknown | catalogYes | catalogNo.

#[export] Instance catalogSupport_eq_dec : EqDecision catalogSupport.
Proof. solve_decision. Defined.

Record conn (W : Type) := mkConn {
  close : M W unit;
  rpc : rpcs W;
  fallback : gmap string bool;
  catalogs : catalogSupport;
}.
Arguments mkConn {W}. Arguments close {W}. Arguments rpc {W}.
Arguments fallback {W}. Arguments catalogs {W}.

Record bst (W L : Type) := mkBst {
  b_conn : conn W;
  b_world : W;
  b_roots : gmap string string;
  b_loc : L;
}.
Arguments mkBst {W L}. Arguments b_conn {W L}. Arguments b_world {W L}.
Arguments b_roots {W L}. Arguments b_loc {W L}.

Section body.
Context {W L : Type}.
Local Abbreviation Body := (M (bst W L)).

Definition set_world (w : W) (s : bst W L) : bst W L := mkBst (b_conn s) w (b_roots s) (b_loc s).
Definition set_conn (c : conn W) (s : bst W L) : bst W L := mkBst c (b_world s) (b_roots s) (b_loc s).
Definition set_loc (l : L) (s : bst W L) : bst W L := mkBst (b_conn s) (b_world s) (b_roots s) l.
Definition set_roots (r : gmap string string) (s : bst W L) : bst W L :=
  mkBst (b_conn s) (b_world s) r (b_loc s).

(** [cn.f(ctx, ...)] *)
Definition rpcM {A} (f : rpcs W -> M W A) : Body A :=
  fun s => let '(w, r) := f (rpc (b_conn s)) (b_world s) in (set_world w s, r).

(** Assignment to a captured variable. *)
Definition assign (f : L -> L) : Body unit := modify (fun s => set_loc (f (b_loc s)) s).

(** ** Fallbacks *)

Definition useLegacy (c : conn W) (method : string) : bool :=
  match fallback c !! method with Some b => b | None => false end.

Definition markLegacy (c : conn W) (method : string) : conn W :=
  mkConn (close c) (rpc c) (<[method := true]> (fallback c)) (catalogs c).

Definition set_catalogs (v : catalogSupport) (c : conn W) : conn W :=
  mkConn (close c) (rpc c) (fallback c) v.

Definition tryReq {A} (method : string) (req legacy : Body A) : Body A :=
  fun s =>
    if useLegacy (b_conn s) method then legacy s
    else match req s with
         | (s', inl e) =>
             if isUnknownMethod e
             then legacy (set_conn (markLegacy (b_conn s') method) s')
             else (s', inl e)
         | r => r
         end.

Definition supportsCatalogs : Body bool :=
  fun s =>
    match catalogs (b_conn s) with
    | catalogYes => (s, inr true)
    | catalogNo => (s, inr false)
    | catalogUnknown =>
        match rpcM getCatalogs s with
        | (s', inr _) => (set_conn (set_catalogs catalogYes (b_conn s')) s', inr true)
        | (s', inl e) =>
            if isUnknownMethod e
            then (set_conn (set_catalogs catalogNo (b_conn s')) s', inr false)
            else (s', inl e)
        end
    end.

(** ** Catalog resolution (client.go) *)

Definition effectiveCatalog (cfg : config) (structCat : string) (opts : list CatalogOption) : string :=
  let co := apply_catalogOpts opts in
  let effective := cfg_catalog cfg in
  let effective := if String.eqb structCat "" then effective else structCat in
  let effective := if String.eqb (co_catalog co) "" then effective else co_catalog co in
  if String.eqb effective "" then defaultCatalog else effective.

Definition resolveCatFor (cfg : config) (structCat : string) (opts : list CatalogOption)
    : Body (option string) :=
  (let effective := effectiveCatalog cfg structCat opts in
   support <- supportsCatalogs;;
   if String.eqb effective defaultCatalog
   then (if negb support then ret None else ret (Some defaultCatalog))
   else if negb support then throw (ESentinel ErrNotSupported)
   else ret (Some effective))%go.

Definition resolveCat (cfg : config) (opts : list CatalogOption) : Body (option string) :=
  resolveCatFor cfg "" opts.
End body.

Definition qualifyDBName (cat : option string) (name : string) : string :=
  match cat with
  | Some c => if String.eqb c defaultCatalog then name else "@" +:+ c +:+ "#" +:+ name
  | None => name
  end.

(** ** The properties of the component *)

(** A body that never forgets a recorded fallback. *)
Definition keeps_fallback {W L A} (m : M (bst W L) A) : Prop :=
  forall s k, fallback (b_conn s) !! k = Some true -> fallback (b_conn (fst (m s))) !! k = Some true.

Lemma rpcM_conn {W L A} (f : rpcs W -> M W A) (s : bst W L) : b_conn (fst (rpcM f s)) = b_conn s.
Proof. unfold rpcM. by destruct (f _ _). Qed.

Lemma keeps_fallback_rpcM {W L A} (f : rpcs W -> M W A) : keeps_fallback (rpcM (L := L) f).
Proof. intros s k Hk. by rewrite rpcM_conn. Qed.
Lemma keeps_fallback_ret {W L A} (a : A) : keeps_fallback (ret (S := bst W L) a).
Proof. by intros s k. Qed.
Lemma keeps_fallback_assign {W L} (f : L -> L) : keeps_fallback (assign (W := W) f).
Proof. by intros s k. Qed.
Lemma keeps_fallback_bind {W L A B} (m : M (bst W L) A) (k : A -> M (bst W L) B) :
  keeps_fallback m -> (forall a, keeps_fallback (k a)) -> keeps_fallback (bind m k).
Proof.
  intros Hm Hk s x Hx. unfold bind. pose proof (Hm s x Hx) as H1.
  destruct (m s) as [s' [e|a]]; [done|]. by apply Hk.
Qed.
#[export] Hint Resolve keeps_fallback_rpcM keeps_fallback_ret keeps_fallback_assign keeps_fallback_bind : hms.

(** The request-variant fallback: an UNKNOWN_METHOD answer runs the legacy
    form in its place and is remembered, so from then on every call of that
    method on the conn goes straight to its legacy form; any other answer, an
    error included, is returned as it is and nothing is recorded. *)
Theorem tryReq_fallback {W L A} method (req legacy : M (bst W L) A) (s : bst W L) :
  useLegacy (b_conn s) method = false -> keeps_fallback legacy ->
  match req s with
  | (s1, inl e) =>
      if isUnknownMethod e then
        tryReq method req legacy s = legacy (set_conn (markLegacy (b_conn s1) method) s1) /\
        forall B (req' legacy' : M (bst W L) B),
          tryReq method req' legacy' (fst (tryReq method req legacy s)) = legacy' (fst (tryReq method req legacy s))
      else tryReq method req legacy s = (s1, inl e)
  | (s1, inr a) => tryReq method req legacy s = (s1, inr a)
  end.
Proof.
  intros Hu Hk. pose proof (eq_refl (tryReq method req legacy s)) as E. unfold tryReq in E at 2.
  rewrite Hu in E. destruct (req s) as [s1 [e|a]] eqn:Er; [|done].
  destruct (isUnknownMethod e) eqn:Eu; [|done]. split; [done|]. intros B req' legacy'.
  rewrite E. unfold tryReq, useLegacy. rewrite (Hk _ method); [done|]. simpl. by rewrite lookup_insert_eq.
Qed.

(** Catalog support is probed at most once per conn: an answer is cached and
    every later question is answered without an RPC, UNKNOWN_METHOD meaning no;
    any other error is reported and nothing is cached. *)
Theorem supportsCatalogs_cached {W L} (s : bst W L) :
  match supportsCatalogs s with
  | (s', inr b) => catalogs (b_conn s') = (if b then catalogYes else catalogNo) /\
                   supportsCatalogs s' = (s', inr b)
  | (s', inl e) => isUnknownMethod e = false /\ catalogs (b_conn s') = catalogUnknown /\
                   s' = fst (rpcM getCatalogs s)
  end.
Proof.
  unfold supportsCatalogs at 1. destruct (catalogs (b_conn s)) eqn:Ec.
  - pose proof (rpcM_conn getCatalogs s) as Hc.
    destruct (rpcM getCatalogs s) as [s' [e|r]]; simpl in Hc.
    + destruct (isUnknownMethod e) eqn:Eu; [done|]. by rewrite Hc, Ec.
    + done.
  - split; [done|]. unfold supportsCatalogs. by rewrite Ec.
  - split; [done|]. unfold supportsCatalogs. by rewrite Ec.
Qed.

Lemma supportsCatalogs_catalogs {W L} (s : bst W L) :
  match supportsCatalogs s with
  | (s', inr b) => catalogs (b_conn s') = if b then catalogYes else catalogNo
  | (s', inl e) => True
  end.
Proof.
  unfold supportsCatalogs. destruct (catalogs (b_conn s)) eqn:Ec; [|done|done].
  destruct (rpcM getCatalogs s) as [s' [e|r]]; [|done]. by destruct (isUnknownMethod e).
Qed.

(** The catalog a call resolves to: a name is put on the wire only for a
    server that supports catalogs, and it is the effective one; a server that
    does not gets none for the default catalog and the call fails with
    [ErrNotSupported] for any other. *)
Theorem resolveCatFor_safe {W L} cfg structCat opts (s : bst W L) :
  let effective := effectiveCatalog cfg structCat opts in
  match resolveCatFor cfg structCat opts s with
  | (s', inr (Some c)) => c = effective /\ catalogs (b_conn s') = catalogYes
  | (s', inr None) => effective = defaultCatalog /\ catalogs (b_conn s') = catalogNo
  | (s', inl e) => (e = ESentinel ErrNotSupported /\ effective <> defaultCatalog /\
                    catalogs (b_conn s') = catalogNo) \/ supportsCatalogs s = (s', inl e)
  end.
Proof.
  unfold resolveCatFor, bind. pose proof (supportsCatalogs_catalogs s) as H.
  destruct (supportsCatalogs s) as [s' [e|b]]; [by right|].
  destruct (String.eqb_spec (effectiveCatalog cfg structCat opts) defaultCatalog) as [->|Hne];
    destruct b; simpl; try done. by left.
Qed.
