(* ===== verification/Types.v ===== *)
(** * Types: types.go, stats.go, notification.go and the enums of acid.go

    The exported data types. A [*T] is an [option T]; [time.Time] is seconds and
    nanoseconds since the Unix epoch; the unexported [raw] snapshot of
    Database, Table and Partition is a field, as it is in Go. *)

From S2P Require Import Prelude Errors GoMonad Wire.

(** ** time.Time *)

Definition Time : Type := Z * Z.
(** January 1, year 1, 00:00:00 UTC. *)
Definition zeroTime : Time := (-62135596800, 0).
Definition IsZero (t : Time) : bool := bool_decide (t = zeroTime).
Definition time_Unix (sec : Z) : Time := (sec, 0).
Definition Unix (t : Time) : Z := fst t.

(** ** Enumerations *)

(** The decimal text [strconv.Itoa] and [%d] print. *)
Fixpoint decimal_digits (fuel : nat) (n : N) (acc : string) : string :=
  match fuel with
  | O => acc
  | S fuel =>
      let acc := String (ascii_of_N (48 + N.modulo n 10)) acc in
      if N.ltb n 10 then acc else decimal_digits fuel (N.div n 10) acc
  end.
Definition decimal (n : N) : string := decimal_digits (S (N.to_nat (N.size n))) n "".
Definition Itoa (z : Z) : string :=
  if z <? 0 then "-" +:+ decimal (Z.abs_N z) else decimal (Z.to_N z).

Definition PrincipalUser : Z := 1.
Definition PrincipalRole : Z := 2.
Definition PrincipalGroup : Z := 3.

Definition PrincipalType_String (t : Z) : string :=
  if t =? PrincipalUser then "USER"
  else if t =? PrincipalRole then "ROLE"
  else if t =? PrincipalGroup then "GROUP"
  else "PrincipalType(" +:+ Itoa t +:+ ")".

Definition TableTypeManaged : string := "MANAGED_TABLE".
Definition TableTypeExternal : string := "EXTERNAL_TABLE".
Definition TableTypeVirtualView : string := "VIRTUAL_VIEW".
Definition TableTypeMaterializedView : string := "MATERIALIZED_VIEW".

Definition LockLevelDB : Z := 1.
Definition LockLevelTable : Z := 2.
Definition LockLevelPartition : Z := 3.
Definition LockLevel_String (l : Z) : string :=
  if l =? LockLevelDB then "DB" else if l =? LockLevelTable then "TABLE"
  else if l =? LockLevelPartition then "PARTITION" else "LockLevel(" +:+ Itoa l +:+ ")".

Definition LockTypeSharedRead : Z := 1.
Definition LockTypeSharedWrite : Z := 2.
Definition LockTypeExclusive : Z := 3.
Definition LockTypeExclWrite : Z := 4.
Definition LockType_String (t : Z) : string :=
  if t =? LockTypeSharedRead then "SHARED_READ" else if t =? LockTypeSharedWrite then "SHARED_WRITE"
  else if t =? LockTypeExclusive then "EXCLUSIVE" else if t =? LockTypeExclWrite then "EXCL_WRITE"
  else "LockType(" +:+ Itoa t +:+ ")".

Definition LockStateAcquired : Z := 1.
Definition LockStateWaiting : Z := 2.
Definition LockStateAbort : Z := 3.
Definition LockStateNotAcquired : Z := 4.
Definition LockState_String (s : Z) : string :=
  if s =? LockStateAcquired then "ACQUIRED" else if s =? LockStateWaiting then "WAITING"
  else if s =? LockStateAbort then "ABORT" else if s =? LockStateNotAcquired then "NOT_ACQUIRED"
  else "LockState(" +:+ Itoa s +:+ ")".

(** ** Metadata objects *)

Record Catalog := mkCatalog {
  Catalog_Name : string; Catalog_Description : string; Catalog_LocationURI : string }.

Record Database := mkDatabase {
  Database_CatalogName : string;
  Database_Name : string;
  Database_Description : string;
  Database_LocationURI : string;
  Database_Parameters : gomap string;
  Database_OwnerName : string;
  Database_OwnerType : Z;
  Database_CreateTime : Time;
  Database_raw : option wDatabase }.

Record FieldSchema := mkFieldSchema {
  FieldSchema_Name : string; FieldSchema_Type : string; FieldSchema_Comment : string }.

Record SerDeInfo := mkSerDeInfo {
  SerDeInfo_Name : string; SerDeInfo_SerializationLib : string; SerDeInfo_Parameters : gomap string }.

Record Order := mkOrder { Order_Column : string; Order_Order : Z }.

Record SkewedLocation := mkSkewedLocation {
  SkewedLocation_Values : slice string; SkewedLocation_Location : string }.

Record SkewedInfo := mkSkewedInfo {
  SkewedInfo_ColumnNames : slice string;
  SkewedInfo_ColumnValues : slice (slice string);
  SkewedInfo_ColumnValueLocations : slice SkewedLocation }.

Record StorageDescriptor := mkStorageDescriptor {
  StorageDescriptor_Columns : slice (option FieldSchema);
  (** The identity of the interned slice [Columns] is, when it is one: two
      descriptors with the same identity share one backing array. *)
  StorageDescriptor_ColumnsAddr : option nat;
  StorageDescriptor_Location : string;
  StorageDescriptor_InputFormat : string;
  StorageDescriptor_OutputFormat : string;
  StorageDescriptor_Compressed : bool;
  StorageDescriptor_NumBuckets : Z;
  StorageDescriptor_SerDe : option SerDeInfo;
  StorageDescriptor_BucketColumns : slice string;
  StorageDescriptor_SortColumns : slice (option Order);
  StorageDescriptor_Parameters : gomap string;
  StorageDescriptor_StoredAsSubDirectories : bool;
  StorageDescriptor_Skewed : option SkewedInfo }.

Record Table := mkTable {
  Table_CatalogName : string;
  Table_DatabaseName : string;
  Table_TableName : string;
  Table_Owner : string;
  Table_OwnerType : Z;
  Table_CreateTime : Time;
  Table_LastAccessTime : Time;
  Table_Retention : Z;
  Table_Storage : option StorageDescriptor;
  Table_PartitionKeys : slice (option FieldSchema);
  Table_Parameters : gomap string;
  Table_ViewOriginalText : string;
  Table_ViewExpandedText : string;
  Table_TableType : string;
  Table_raw : option wTable }.

Record Partition := mkPartition {
  Partition_CatalogName : string;
  Partition_DatabaseName : string;
  Partition_TableName : string;
  Partition_Values : slice string;
  Partition_CreateTime : Time;
  Partition_Storage : option StorageDescriptor;
  Partition_Parameters : gomap string;
  Partition_raw : option wPartition }.

Record NotificationEvent := mkNotificationEvent {
  NotificationEvent_ID : Z;
  NotificationEvent_Time : Time;
  NotificationEvent_Type : string;
  NotificationEvent_CatalogName : string;
  NotificationEvent_DatabaseName : string;
  NotificationEvent_TableName : string;
  NotificationEvent_Message : string;
  NotificationEvent_MessageFormat : string }.

(** ** Column statistics (stats.go) *)

Record BooleanColumnStats := mkBooleanColumnStats {
  Boolean_NumTrues : Z; Boolean_NumFalses : Z; Boolean_NumNulls : Z }.
Record LongColumnStats := mkLongColumnStats {
  Long_LowValue : option Z; Long_HighValue : option Z; Long_NumNulls : Z; Long_NumDistinct : Z }.
Record DoubleColumnStats := mkDoubleColumnStats {
  Double_LowValue : option float64; Double_HighValue : option float64;
  Double_NumNulls : Z; Double_NumDistinct : Z }.
Record StringColumnStats := mkStringColumnStats {
  String_MaxColLen : Z; String_AvgColLen : float64; String_NumNulls : Z; String_NumDistinct : Z }.
Record BinaryColumnStats := mkBinaryColumnStats {
  Binary_MaxColLen : Z; Binary_AvgColLen : float64; Binary_NumNulls : Z }.
Record Decimal := mkDecimal { Decimal_Unscaled : slice Z; Decimal_Scale : Z }.
Record DecimalColumnStats := mkDecimalColumnStats {
  Decimal_LowValue : option Decimal; Decimal_HighValue : option Decimal;
  Decimal_NumNulls : Z; Decimal_NumDistinct : Z }.
Record DateColumnStats := mkDateColumnStats {
  Date_LowValue : option Time; Date_HighValue : option Time; Date_NumNulls : Z; Date_NumDistinct : Z }.
Record TimestampColumnStats := mkTimestampColumnStats {
  Timestamp_LowValue : option Time; Timestamp_HighValue : option Time;
  Timestamp_NumNulls : Z; Timestamp_NumDistinct : Z }.

Record ColumnStatistics := mkColumnStatistics {
  ColumnStatistics_ColumnName : string;
  ColumnStatistics_ColumnType : string;
  ColumnStatistics_Boolean : option BooleanColumnStats;
  ColumnStatistics_Long : option LongColumnStats;
  ColumnStatistics_Double : option DoubleColumnStats;
  ColumnStatistics_String : option StringColumnStats;
  ColumnStatistics_Binary : option BinaryColumnStats;
  ColumnStatistics_Decimal : option DecimalColumnStats;
  ColumnStatistics_Date : option DateColumnStats;
  ColumnStatistics_Timestamp : option TimestampColumnStats }.

(** ** Locks (acid.go) *)

Record LockComponent := mkLockComponent {
  LockComponent_Type : Z; LockComponent_Level : Z; LockComponent_Database : string;
  LockComponent_Table : string; LockComponent_Partition : string }.
Record LockRequest := mkLockRequest {
  LockRequest_Components : list LockComponent; LockRequest_TxnID : Z;
  LockRequest_User : string; LockRequest_Host : string }.
Record LockResponse := mkLockResponse {
  LockResponse_LockID : Z; LockResponse_State : Z; LockResponse_ErrorMessage : string }.

(** ** HiveVersion *)

Record HiveVersion := mkHiveVersion {
  Major : Z; Minor : Z; Patch : Z; Raw : string }.
Definition HiveVersion_zero : HiveVersion := mkHiveVersion 0 0 0 "".
Definition HiveVersion_String (v : HiveVersion) : string := Raw v.

(** [strings.Cut(s, sep)] and [strings.Split(s, sep)] for a one-byte separator. *)
Fixpoint cut (sep : ascii) (s : string) : string * string * bool :=
  match s with
  | EmptyString => ("", "", false)
  | String c s =>
      if Ascii.eqb c sep then ("", s, true)
      else let '(before, after, ok) := cut sep s in (String c before, after, ok)
  end.

Fixpoint split (sep : ascii) (s : string) : list string :=
  match s with
  | EmptyString => [""]
  | String c s =>
      if Ascii.eqb c sep then "" :: split sep s
      else match split sep s with
           | [] => [String c ""]
           | p :: ps => String c p :: ps
           end
  end.

(** [strconv.Atoi]: an optional sign, then one or more decimal digits, in the
    range of [int]. *)
Fixpoint parse_digits (s : string) (acc : Z) : option Z :=
  match s with
  | EmptyString => Some acc
  | String c s =>
      let n := Z.of_N (N_of_ascii c) in
      if (48 <=? n) && (n <=? 57) then parse_digits s (10 * acc + (n - 48)) else None
  end.

(** [%q]: double quotes around the text, with Go's escapes for the ASCII
    characters that need one. *)
Definition dquote : string := String (ascii_of_nat 34) "".
Definition backslash : string := String (ascii_of_nat 92) "".
Definition lower_hex (n : N) : string :=
  String (ascii_of_N (if N.ltb n 10 then 48 + n else 87 + n)) "".
Definition quote_char (c : ascii) : string :=
  let n := N_of_ascii c in
  if N.eqb n 34 then backslash +:+ dquote
  else if N.eqb n 92 then backslash +:+ backslash
  else if N.eqb n 7 then backslash +:+ "a" else if N.eqb n 8 then backslash +:+ "b"
  else if N.eqb n 12 then backslash +:+ "f" else if N.eqb n 10 then backslash +:+ "n"
  else if N.eqb n 13 then backslash +:+ "r" else if N.eqb n 9 then backslash +:+ "t"
  else if N.eqb n 11 then backslash +:+ "v"
  else if N.ltb n 32 || N.eqb n 127
       then backslash +:+ "x" +:+ lower_hex (N.div n 16) +:+ lower_hex (N.modulo n 16)
  else String c "".
Fixpoint quote_body (s : string) : string :=
  match s with EmptyString => "" | String c s => quote_char c +:+ quote_body s end.
Definition go_quote (s : string) : string := dquote +:+ quote_body s +:+ dquote.

Definition num_error (s why : string) : goerr :=
  EText ("strconv.Atoi: parsing " +:+ go_quote s +:+ ": " +:+ why).

Definition Atoi (s : string) : goerr + Z :=
  let '(neg, digits) :=
    match s with
    | String "-" d => (true, d)
    | String "+" d => (false, d)
    | d => (false, d)
    end in
  match digits with
  | EmptyString => inl (num_error s "invalid syntax")
  | _ => match parse_digits digits 0 with
         | Some n => let v := if neg : bool then - n else n in
                     if (MinInt64 <=? v) && (v <=? MaxInt64) then inr v
                     else inl (num_error s "value out of range")
         | None => inl (num_error s "invalid syntax")
         end
  end.

(** [for i := range want { n, err := strconv.Atoi(parts[i]); ... }] *)
Fixpoint atoi_all (s : string) (parts : list string) : goerr + list Z :=
  match parts with
  | [] => inr []
  | p :: ps =>
      match Atoi p with
      | inl e => inl (EWrap ("hms: invalid Hive version " +:+ go_quote s +:+ ": " +:+ error_text e) e)
      | inr n => match atoi_all s ps with inl e => inl e | inr ns => inr (n :: ns) end
      end
  end.

Definition ParseHiveVersion (s : string) : goerr + HiveVersion :=
  let '(numeric, _, _) := cut "-" s in
  let parts := split "." numeric in
  if (length parts <? 2)%nat
  then inl (EText ("hms: invalid Hive version " +:+ go_quote s +:+
                   ": expected at least 2 dot-separated components"))
  else
    let want := Nat.min (length parts) 3 in
    match atoi_all s (take want parts) with
    | inl e => inl e
    | inr nums =>
        inr (mkHiveVersion (nth 0 nums 0) (nth 1 nums 0)
               (if (want =? 3)%nat then nth 2 nums 0 else 0) s)
    end.

Example version_vendor : ParseHiveVersion "3.1.3000.7.1.7.0-551" =
  inr (mkHiveVersion 3 1 3000 "3.1.3000.7.1.7.0-551").
Proof. reflexivity. Qed.
