(* ===== verification/Uri.v ===== *)
(** * Uri: internal/transport/uri.go

    The endpoint list [New] is given. [net/url]'s parser is a parameter (the
    record [UrlLib]: what the source reads and sets of a [*url.URL]); the
    splitting, trimming and host:port functions of the standard library are
    modelled. *)

From S2P Require Import Prelude Errors Types.

(** ** net and strings *)

(** Every string [strings.TrimSpace] trims: the ASCII spaces and the UTF-8
    encodings of the other [unicode.IsSpace] code points. *)
Definition bytes_string (l : list nat) : string := fold_right (fun n s => String (ascii_of_nat n) s) "" l.
Definition spaces : list string :=
  map bytes_string
    ([[9]; [10]; [11]; [12]; [13]; [32]; [194; 133]; [194; 160]; [225; 154; 128];
      [226; 128; 168]; [226; 128; 169]; [226; 128; 175]; [226; 129; 159]; [227; 128; 128]]
     ++ map (fun k => [226; 128; 128 + k]) (seq 0 11))%nat.

Fixpoint strip_prefix (p s : string) : option string :=
  match p, s with
  | EmptyString, _ => Some s
  | String a p, String b s => if Ascii.eqb a b then strip_prefix p s else None
  | String _ _, EmptyString => None
  end.
Definition strip_any (ps : list string) (s : string) : option string :=
  head (omap (fun p => strip_prefix p s) ps).
Fixpoint trim_fuel (fuel : nat) (ps : list string) (s : string) : string :=
  match fuel with
  | O => s
  | S fuel => match strip_any ps s with Some s => trim_fuel fuel ps s | None => s end
  end.
Definition TrimLeft (ps : list string) (s : string) : string := trim_fuel (String.length s) ps s.
(** Trimming the right end is trimming the left end of the reversed bytes. *)
Definition TrimSpace (s : string) : string :=
  String.rev (TrimLeft (map String.rev spaces) (String.rev (TrimLeft spaces s))).

Fixpoint contains_byte (c : ascii) (s : string) : bool :=
  match s with EmptyString => false | String d s => Ascii.eqb d c || contains_byte c s end.
(** What follows the last [c], and what precedes it. *)
Fixpoint cut_last (c : ascii) (s : string) : option (string * string) :=
  match s with
  | EmptyString => None
  | String d s =>
      match cut_last c s with
      | Some (before, after) => Some (String d before, after)
      | None => if Ascii.eqb d c then Some ("", s) else None
      end
  end.

Definition addr_err (addr why : string) : goerr :=
  EText ("address " +:+ addr +:+ ": " +:+ why).

(** [net.SplitHostPort] *)
Definition SplitHostPort (hostport : string) : goerr + (string * string) :=
  match cut_last ":" hostport with
  | None => inl (addr_err hostport "missing port in address")
  | Some (host, port) =>
      match hostport with
      | String "[" rest =>
          let '(inner, after, found) := cut "]" rest in
          if negb found then inl (addr_err hostport "missing ']' in address")
          else match after with
               | EmptyString => inl (addr_err hostport "missing port in address")
               | String d after' =>
                   if Ascii.eqb d ":" && negb (contains_byte ":" after') then
                     if contains_byte "[" rest then inl (addr_err hostport "unexpected '[' in address")
                     else if contains_byte "]" after then inl (addr_err hostport "unexpected ']' in address")
                     else inr (inner, after')
                   else if Ascii.eqb d ":" then inl (addr_err hostport "too many colons in address")
                   else inl (addr_err hostport "missing port in address")
               end
      | _ =>
          if contains_byte ":" host then inl (addr_err hostport "too many colons in address")
          else if contains_byte "[" hostport then inl (addr_err hostport "unexpected '[' in address")
          else if contains_byte "]" hostport then inl (addr_err hostport "unexpected ']' in address")
          else inr (host, port)
      end
  end.

(** [net.JoinHostPort] *)
Definition JoinHostPort (host port : string) : string :=
  if contains_byte ":" host then "[" +:+ host +:+ "]:" +:+ port else host +:+ ":" +:+ port.

(** ** Endpoints *)

Record Endpoint := mkEndpoint {
  Endpoint_Scheme : string;
  Endpoint_Host : string;
  Endpoint_URL : string }.
#[export] Instance Endpoint_inhabited : Inhabited Endpoint := populate (mkEndpoint "" "" "").

Definition SchemeThrift : string := "thrift".
Definition SchemeHTTP : string := "http".
Definition SchemeHTTPS : string := "https".
Definition DefaultBinaryPort : string := "9083".
Definition DefaultHTTPPath : string := "/metastore".

(** What the source uses of [net/url]. A parse error is the cause
    [*url.Error] carries, the part the client keeps. *)
Class UrlLib := {
  url : Type;
  url_Parse : string -> goerr + url;
  url_Scheme : url -> string;
  url_Host : url -> string;
  url_Path : url -> string;
  url_setPath : string -> url -> url;
  url_String : url -> string;
  url_Redacted : url -> string;
}.

Section endpoints.
Context {U : UrlLib}.

Definition Redacted (e : Endpoint) : string :=
  if String.eqb (Endpoint_URL e) "" then Endpoint_Host e
  else match url_Parse (Endpoint_URL e) with
       | inl _ => Endpoint_Host e
       | inr u => url_Redacted u
       end.

(** The body of the loop for one non-empty element, [i] its position. *)
Definition parse_one (i : nat) (raw : string) : goerr + Endpoint :=
  match url_Parse raw with
  | inl err => inl (EWrap ("hms: parse endpoint #" +:+ Itoa (Z.of_nat (i + 1)) +:+ ": " +:+ error_text err) err)
  | inr u =>
      if String.eqb (url_Scheme u) SchemeThrift then
        inr (mkEndpoint (url_Scheme u)
               (match SplitHostPort (url_Host u) with
                | inl _ => JoinHostPort (url_Host u) DefaultBinaryPort
                | inr _ => url_Host u
                end) "")
      else if String.eqb (url_Scheme u) SchemeHTTP || String.eqb (url_Scheme u) SchemeHTTPS then
        let u' := if String.eqb (url_Path u) "" || String.eqb (url_Path u) "/"
                  then url_setPath DefaultHTTPPath u else u in
        inr (mkEndpoint (url_Scheme u) (url_Host u) (url_String u'))
      else inl (EText ("hms: unsupported scheme " +:+ go_quote (url_Scheme u) +:+ " in " +:+
                       go_quote (url_Redacted u)))
  end.

Fixpoint parse_all (i : nat) (raws : list string) (out : list Endpoint) : goerr + list Endpoint :=
  match raws with
  | [] => inr out
  | raw :: raws =>
      let raw := TrimSpace raw in
      if String.eqb raw "" then parse_all (S i) raws out
      else match parse_one i raw with
           | inl e => inl e
           | inr ep =>
               match out with
               | o :: _ =>
                   if negb (String.eqb (Endpoint_Scheme o) (Endpoint_Scheme ep))
                   then inl (EText ("hms: mixed schemes in endpoint list (" +:+ Endpoint_Scheme o +:+
                                    " and " +:+ Endpoint_Scheme ep +:+ ")"))
                   else parse_all (S i) raws (out ++ [ep])
               | [] => parse_all (S i) raws (out ++ [ep])
               end
           end
  end.

Definition ParseEndpoints (uris : string) : goerr + list Endpoint :=
  match parse_all 0 (split "," uris) [] with
  | inl e => inl e
  | inr out => if (length out =? 0)%nat then inl (EText "hms: empty endpoint list") else inr out
  end.

(** ** Theorems *)

Definition valid_scheme (s : string) : Prop := s = SchemeThrift \/ s = SchemeHTTP \/ s = SchemeHTTPS.

Lemma parse_one_scheme i raw ep : parse_one i raw = inr ep -> valid_scheme (Endpoint_Scheme ep).
Proof.
  unfold parse_one, valid_scheme. destruct (url_Parse raw) as [|u]; [done|].
  destruct (String.eqb_spec (url_Scheme u) SchemeThrift); [intros [= <-]; by left|].
  destruct (String.eqb_spec (url_Scheme u) SchemeHTTP); simpl; [intros [= <-]; auto|].
  destruct (String.eqb_spec (url_Scheme u) SchemeHTTPS); simpl; [intros [= <-]; auto|done].
Qed.

Lemma parse_all_spec raws : forall i out eps,
  parse_all i raws out = inr eps ->
  Forall (fun e => valid_scheme (Endpoint_Scheme e) /\
                   Endpoint_Scheme e = Endpoint_Scheme (out !!! 0%nat)) out ->
  Forall (fun e => valid_scheme (Endpoint_Scheme e) /\
                   Endpoint_Scheme e = Endpoint_Scheme (eps !!! 0%nat)) eps /\
  (out `prefix_of` eps) /\
  length eps = (length out + length (filter (fun r => TrimSpace r <> "") raws))%nat.
Proof.
  induction raws as [|raw raws IH]; simpl; intros i out eps.
  - intros [= <-] Hout. split_and!; [done|done|lia].
  - destruct (String.eqb_spec (TrimSpace raw) "") as [E|E].
    + rewrite filter_cons_False by tauto. apply IH.
    + rewrite filter_cons_True by done.
      destruct (parse_one i (TrimSpace raw)) as [|ep] eqn:Ep; [done|].
      apply parse_one_scheme in Ep. simpl.
      intros Hp Hout.
      assert (parse_all (S i) raws (out ++ [ep]) = inr eps /\
              Endpoint_Scheme ep = Endpoint_Scheme ((out ++ [ep]) !!! 0%nat)) as [Hp' Hs].
      { destruct out as [|o out]; [done|].
        destruct (String.eqb_spec (Endpoint_Scheme o) (Endpoint_Scheme ep)); by simpl in Hp. }
      destruct (IH _ _ _ Hp') as (H1 & H2 & H3).
      { apply Forall_app; split; [|by constructor].
        destruct out as [|o out]; [constructor|]. done. }
      split_and!; [done| |rewrite H3, length_app; simpl; lia].
      etrans; [by apply prefix_app_r|done].
Qed.
End endpoints.

(** A parsed endpoint list is non-empty, has one endpoint per non-blank
    element, in order, and all of them carry one and the same supported scheme. *)
Theorem parse_endpoints_uniform `{UrlLib} uris eps :
  ParseEndpoints uris = inr eps ->
  eps <> [] /\
  length eps = length (filter (fun r => TrimSpace r <> "") (split "," uris)) /\
  Forall (fun e => valid_scheme (Endpoint_Scheme e) /\
                   Endpoint_Scheme e = Endpoint_Scheme (eps !!! 0%nat)) eps.
Proof.
  unfold ParseEndpoints. destruct (parse_all _ _ _) as [|out] eqn:E; [done|].
  destruct (Nat.eqb_spec (length out) 0); [done|]. intros [= ->].
  destruct (parse_all_spec _ _ _ _ E) as (H1 & _ & H3); [constructor|].
  split_and!; [by intros ->|done|done].
Qed.

(** A [net/url] of the demonstrations: ["scheme://host"] with no path. *)
Definition demoUrl : UrlLib := {|
  url := string * string * string;
  url_Parse := fun s =>
    let '(scheme, rest, ok) := cut ":" s in
    if ok then match strip_prefix "//" rest with
               | Some host => inr (scheme, host, "")
               | None => inl (EText "missing protocol scheme")
               end
    else inl (EText "missing protocol scheme");
  url_Scheme := fun u => fst (fst u);
  url_Host := fun u => snd (fst u);
  url_Path := fun u => snd u;
  url_setPath := fun p u => (fst u, p);
  url_String := fun u => fst (fst u) +:+ "://" +:+ snd (fst u) +:+ snd u;
  url_Redacted := fun u => fst (fst u) +:+ "://" +:+ snd (fst u) +:+ snd u |}.

Example parse_endpoints_uniform_witness :
  let eps := [mkEndpoint "thrift" "a:9083" ""; mkEndpoint "thrift" "b:9999" ""] in
  @ParseEndpoints demoUrl " thrift://a, ,thrift://b:9999" = inr eps /\
  (eps <> [] /\
   length eps = length (filter (fun r => TrimSpace r <> "") (split "," " thrift://a, ,thrift://b:9999")) /\
   Forall (fun e => valid_scheme (Endpoint_Scheme e) /\
                    Endpoint_Scheme e = Endpoint_Scheme (eps !!! 0%nat)) eps).
Proof.
  split; [vm_compute; reflexivity|].
  apply (@parse_endpoints_uniform demoUrl " thrift://a, ,thrift://b:9999"). vm_compute; reflexivity.
Defined.

Lemma contains_byte_app c s t : contains_byte c (s +:+ t) = contains_byte c s || contains_byte c t.
Proof. induction s as [|d s IH]; simpl; [done|]. by rewrite IH, orb_assoc. Qed.

Lemma cut_last_app c s t :
  contains_byte c t = false -> cut_last c (s +:+ String c t) = Some (s, t).
Proof.
  intros Ht. assert (cut_last c t = None) as E.
  { induction t as [|d t IH]; simpl in *; [done|]. apply orb_false_elim in Ht as [Hd Ht].
    by rewrite IH, Hd. }
  induction s as [|d s IH]; simpl; [by rewrite E, Ascii.eqb_refl|]. by rewrite IH.
Qed.
Lemma cut_last_None c s : contains_byte c s = false -> cut_last c s = None.
Proof.
  induction s as [|d s IH]; simpl; [done|]. intros [Hd Hs]%orb_false_elim. by rewrite IH, Hd.
Qed.

(** A thrift:// host without a port gets the default one: what is dialed
    splits back into the host and "9083". *)
Theorem thrift_default_port `{UrlLib} i raw u h :
  url_Parse raw = inr u -> url_Scheme u = SchemeThrift -> url_Host u = h ->
  contains_byte ":" h = false -> contains_byte "[" h = false -> contains_byte "]" h = false ->
  exists ep, parse_one i raw = inr ep /\ SplitHostPort (Endpoint_Host ep) = inr (h, DefaultBinaryPort).
Proof.
  intros Hu Hs Hh H1 H2 H3. unfold parse_one. rewrite Hu, Hs, Hh. simpl.
  eexists. split; [done|]. simpl.
  unfold SplitHostPort at 2. rewrite (cut_last_None _ _ H1).
  unfold JoinHostPort. rewrite H1. change (":" +:+ ?p) with (String ":" p).
  unfold SplitHostPort. rewrite cut_last_app by done.
  assert (forall c, contains_byte c h = false -> c = "["%char \/ c = "]"%char ->
            contains_byte c (h +:+ String ":" DefaultBinaryPort) = false) as Hc.
  { intros c Hc [->| ->]; by rewrite contains_byte_app, Hc. }
  assert (contains_byte "[" (h +:+ String ":" DefaultBinaryPort) = false) as E1 by auto.
  assert (contains_byte "]" (h +:+ String ":" DefaultBinaryPort) = false) as E2 by auto.
  rewrite H1, E1, E2.
  destruct h as [|d h]; [done|]. simpl in *. apply orb_false_elim in H2 as [Hd _].
  destruct (Ascii.eqb_spec d "["%char) as [->|Hne]; [done|].
  destruct d as [[] [] [] [] [] [] [] []]; done.
Qed.

Example thrift_default_port_witness :
  exists ep, @parse_one demoUrl 0 "thrift://hms-1.example" = inr ep /\
    SplitHostPort (Endpoint_Host ep) = inr ("hms-1.example", DefaultBinaryPort).
Proof.
  apply (@thrift_default_port demoUrl 0 "thrift://hms-1.example" ("thrift", "hms-1.example", "") "hms-1.example");
    vm_compute; reflexivity.
Defined.

(** An IPv6 literal without a port is given the default port with its
    brackets doubled, an address [SplitHostPort] (so the dialer) rejects. *)
Theorem ipv6_default_port_broken `{UrlLib} i raw u :
  url_Parse raw = inr u -> url_Scheme u = SchemeThrift -> url_Host u = "[::1]" ->
  exists ep e, parse_one i raw = inr ep /\ Endpoint_Host ep = "[[::1]]:9083" /\
    SplitHostPort (Endpoint_Host ep) = inl e.
Proof.
  intros Hu Hs Hh. unfold parse_one. rewrite Hu, Hs, Hh.
  eexists _, _. split; [reflexivity|]. split; vm_compute; reflexivity.
Qed.

Example ipv6_default_port_broken_witness :
  exists ep e, @parse_one demoUrl 0 "thrift://[::1]" = inr ep /\ Endpoint_Host ep = "[[::1]]:9083" /\
    SplitHostPort (Endpoint_Host ep) = inl e.
Proof.
  apply (@ipv6_default_port_broken demoUrl 0 "thrift://[::1]" ("thrift", "[::1]", ""));
    vm_compute; reflexivity.
Defined.
