(* ===== verification/Convert.v ===== *)
(** * Convert: convert.go

    The conversions between the exported types and the generated Thrift
    structs, the round-trip fidelity snapshot, and the request builders'
    clamping of times and states.

    [deepCopyThrift] runs the Thrift library's serializer, so a deep copy is
    the interface [DeepCopy]: three partial functions with the documented
    behaviour that a copy that succeeds carries over every field the client has
    no equivalent for. DeepCopy.v implements it by the generated codecs. *)

From S2P Require Import Prelude Errors GoMonad Wire Options Types.

(** ** Small helpers *)

Definition ptr (s : string) : option string := Some s.
Definition deref (p : option string) : string := match p with None => "" | Some s => s end.

Definition copyStringMap (m : gomap string) : gomap string :=
  if decide (size (entries m) = 0%nat) then None else Some (entries m).
Definition copyStrings (s : slice string) : slice string :=
  if decide (len s = 0%nat) then None else Some (elems s).
Definition copyStringSlices (s : slice (slice string)) : slice (slice string) :=
  if decide (len s = 0%nat) then None else Some (map copyStrings (elems s)).

Definition timeFromUnix32 (s : Z) : Time := if s =? 0 then zeroTime else time_Unix s.
Definition timeFromUnix32Ptr (p : option Z) : Time :=
  match p with None => zeroTime | Some s => timeFromUnix32 s end.
Definition unix32FromTime (t : Time) : Z :=
  if IsZero t then 0
  else let u := Unix t in
       let u := if MaxInt32 <? u then MaxInt32 else if u <? MinInt32 then MinInt32 else u in
       int32 u.

(** ** The snapshot *)

(** The fields of a wire struct that the exported type has no equivalent for. *)
Definition serde_unmodelled (s : wSerDeInfo) :=
  (wSerDeInfo_Description s, wSerDeInfo_SerializerClass s, wSerDeInfo_DeserializerClass s,
   wSerDeInfo_SerdeType s).
Definition sd_serde (sd : option wStorageDescriptor) : option wSerDeInfo :=
  sd ≫= wStorageDescriptor_SerdeInfo.
Definition table_unmodelled (t : wTable) :=
  (wTable_Privileges t, wTable_Temporary t, wTable_RewriteEnabled t, wTable_CreationMetadata t,
   wTable_WriteId t, wTable_IsStatsCompliant t, wTable_ColStats t, wTable_AccessType t,
   wTable_RequiredReadCapabilities t, wTable_RequiredWriteCapabilities t, wTable_ID t,
   wTable_FileMetadata t, wTable_Dictionary t, wTable_TxnId t).
Definition partition_unmodelled (p : wPartition) :=
  (wPartition_LastAccessTime p, wPartition_Privileges p, wPartition_WriteId p,
   wPartition_IsStatsCompliant p, wPartition_ColStats p, wPartition_FileMetadata p).
Definition database_unmodelled (d : wDatabase) :=
  (wDatabase_Privileges d, wDatabase_CreateTime d, wDatabase_ManagedLocationUri d,
   wDatabase_Type d, wDatabase_ConnectorName d, wDatabase_RemoteDbname d).

Class DeepCopy := {
  deepCopyTable : wTable -> option wTable;
  deepCopyPartition : wPartition -> option wPartition;
  deepCopyDatabase : wDatabase -> option wDatabase;
}.

(** The enums of the fields the client does not model are encoded in 32 bits. *)
Definition sd_ranged (sd : option wStorageDescriptor) : Prop := forall s z,
  sd_serde sd = Some s -> wSerDeInfo_SerdeType s = Some z -> in_int32 z.
Definition database_ranged (d : wDatabase) : Prop := forall z, wDatabase_Type d = Some z -> in_int32 z.

(** The documented behaviour: a copy that succeeds carries over the fields the
    client does not model, down to the SerDe. *)
Class DeepCopyLaws `{DeepCopy} : Prop := {
  deepCopyTable_ok t t' : deepCopyTable t = Some t' -> sd_ranged (wTable_Sd t) ->
    table_unmodelled t' = table_unmodelled t /\
    serde_unmodelled <$> sd_serde (wTable_Sd t') = serde_unmodelled <$> sd_serde (wTable_Sd t);
  deepCopyPartition_ok p p' : deepCopyPartition p = Some p' -> sd_ranged (wPartition_Sd p) ->
    partition_unmodelled p' = partition_unmodelled p /\
    serde_unmodelled <$> sd_serde (wPartition_Sd p') = serde_unmodelled <$> sd_serde (wPartition_Sd p);
  deepCopyDatabase_ok d d' : deepCopyDatabase d = Some d' -> database_ranged d ->
    database_unmodelled d' = database_unmodelled d;
}.

(** ** Columns, orders, SerDe, skew *)

Definition fieldSchemaFromThrift (f : option wFieldSchema) : option FieldSchema :=
  match f with
  | None => None
  | Some f => Some (mkFieldSchema (wFieldSchema_Name f) (wFieldSchema_Type f) (wFieldSchema_Comment f))
  end.
Definition fieldSchemaToThrift (f : option FieldSchema) : option wFieldSchema :=
  match f with
  | None => None
  | Some f => Some (mk_wFieldSchema (FieldSchema_Name f) (FieldSchema_Type f) (FieldSchema_Comment f))
  end.
Definition fieldSchemasFromThrift : slice (option wFieldSchema) -> slice (option FieldSchema) :=
  slice_map fieldSchemaFromThrift.
Definition fieldSchemasToThrift : slice (option FieldSchema) -> slice (option wFieldSchema) :=
  slice_map fieldSchemaToThrift.

Definition orderFromThrift (o : option wOrder) : option Order :=
  match o with None => None | Some o => Some (mkOrder (wOrder_Col o) (wOrder_Order o)) end.
Definition orderToThrift (o : option Order) : option wOrder :=
  match o with None => None | Some o => Some (mk_wOrder (Order_Column o) (Order_Order o)) end.
Definition ordersFromThrift : slice (option wOrder) -> slice (option Order) := slice_map orderFromThrift.
Definition ordersToThrift : slice (option Order) -> slice (option wOrder) := slice_map orderToThrift.

Definition serDeFromThrift (s : option wSerDeInfo) : option SerDeInfo :=
  match s with
  | None => None
  | Some s => Some (mkSerDeInfo (wSerDeInfo_Name s) (wSerDeInfo_SerializationLib s)
                      (copyStringMap (wSerDeInfo_Parameters s)))
  end.
Definition serDeToThrift (s : option SerDeInfo) (base : option wSerDeInfo) : option wSerDeInfo :=
  match s with
  | None => None
  | Some s =>
      let out := match base with None => NewSerDeInfo | Some b => b end in
      Some {| wSerDeInfo_Name := SerDeInfo_Name s;
              wSerDeInfo_SerializationLib := SerDeInfo_SerializationLib s;
              wSerDeInfo_Parameters := copyStringMap (SerDeInfo_Parameters s);
              wSerDeInfo_Description := wSerDeInfo_Description out;
              wSerDeInfo_SerializerClass := wSerDeInfo_SerializerClass out;
              wSerDeInfo_DeserializerClass := wSerDeInfo_DeserializerClass out;
              wSerDeInfo_SerdeType := wSerDeInfo_SerdeType out |}
  end.

Definition skewedLocationsFromThrift : slice (slice string * string) -> slice SkewedLocation :=
  slice_map (fun e => mkSkewedLocation (copyStrings (fst e)) (snd e)).
Definition skewedLocationsToThrift : slice SkewedLocation -> slice (slice string * string) :=
  slice_map (fun e => (copyStrings (SkewedLocation_Values e), SkewedLocation_Location e)).
Definition skewedInfoFromThrift (si : option wSkewedInfo) : option SkewedInfo :=
  match si with
  | None => None
  | Some si => Some (mkSkewedInfo (copyStrings (wSkewedInfo_SkewedColNames si))
                       (copyStringSlices (wSkewedInfo_SkewedColValues si))
                       (skewedLocationsFromThrift (wSkewedInfo_SkewedColValueLocationMaps si)))
  end.
Definition skewedInfoToThrift (si : option SkewedInfo) : option wSkewedInfo :=
  match si with
  | None => None
  | Some si => Some (mk_wSkewedInfo (copyStrings (SkewedInfo_ColumnNames si))
                       (copyStringSlices (SkewedInfo_ColumnValues si))
                       (skewedLocationsToThrift (SkewedInfo_ColumnValueLocations si)))
  end.

(** ** Column interning

    [columnIntern] maps a [columnKey] to the converted slice it cached. A cached
    slice carries the identity it was allocated with ([i_next] is the
    allocator), so that sharing is visible in the results. *)

Definition NUL : ascii := ascii_of_nat 0.
Definition SOH : ascii := ascii_of_nat 1.

Record columnIntern := mkColumnIntern {
  i_map : gmap string (nat * slice (option FieldSchema));
  i_next : nat;
}.
Definition newColumnIntern (next : nat) : columnIntern := mkColumnIntern ∅ next.

Definition nil_dereference : goerr :=
  EText "runtime error: invalid memory address or nil pointer dereference".

(** [f.Name] of a nil [f] panics; the decoder never produces one. *)
Fixpoint columnKey (fs : list (option wFieldSchema)) : option string :=
  match fs with
  | [] => Some ""
  | None :: _ => None
  | Some f :: fs =>
      match columnKey fs with
      | None => None
      | Some k => Some (wFieldSchema_Name f +:+ String NUL (wFieldSchema_Type f +:+
                          String NUL (wFieldSchema_Comment f +:+ String SOH k)))
      end
  end.

Definition intern (fs : slice (option wFieldSchema))
    : M columnIntern (slice (option FieldSchema) * option nat) :=
  fun st =>
    if decide (len fs = 0%nat) then (st, inr (None, None))
    else match columnKey (elems fs) with
         | None => (st, inl nil_dereference)
         | Some key =>
             match i_map st !! key with
             | Some (addr, cached) => (st, inr (cached, Some addr))
             | None =>
                 let out := fieldSchemasFromThrift fs in
                 (mkColumnIntern (<[key := (i_next st, out)]> (i_map st)) (S (i_next st)),
                  inr (out, Some (i_next st)))
             end
         end.

(** ** Storage descriptors *)

Definition storageFill (cols : slice (option FieldSchema) * option nat) (sd : wStorageDescriptor)
    : StorageDescriptor :=
  {| StorageDescriptor_Columns := fst cols;
     StorageDescriptor_ColumnsAddr := snd cols;
     StorageDescriptor_Location := wStorageDescriptor_Location sd;
     StorageDescriptor_InputFormat := wStorageDescriptor_InputFormat sd;
     StorageDescriptor_OutputFormat := wStorageDescriptor_OutputFormat sd;
     StorageDescriptor_Compressed := wStorageDescriptor_Compressed sd;
     StorageDescriptor_NumBuckets := wStorageDescriptor_NumBuckets sd;
     StorageDescriptor_SerDe := serDeFromThrift (wStorageDescriptor_SerdeInfo sd);
     StorageDescriptor_BucketColumns := copyStrings (wStorageDescriptor_BucketCols sd);
     StorageDescriptor_SortColumns := ordersFromThrift (wStorageDescriptor_SortCols sd);
     StorageDescriptor_Parameters := copyStringMap (wStorageDescriptor_Parameters sd);
     StorageDescriptor_StoredAsSubDirectories :=
       default false (wStorageDescriptor_StoredAsSubDirectories sd);
     StorageDescriptor_Skewed := skewedInfoFromThrift (wStorageDescriptor_SkewedInfo sd) |}.

(** [interned = false] is the nil interner. *)
Definition storageFromThriftIntern (interned : bool) (sd : option wStorageDescriptor)
    : M columnIntern (option StorageDescriptor) :=
  match sd with
  | None => ret None
  | Some sd =>
      bind (if interned then intern (wStorageDescriptor_Cols sd)
            else ret (fieldSchemasFromThrift (wStorageDescriptor_Cols sd), None))
           (fun cols => ret (Some (storageFill cols sd)))
  end.

Definition storageFromThrift (sd : option wStorageDescriptor) : option StorageDescriptor :=
  (fun sd => storageFill (fieldSchemasFromThrift (wStorageDescriptor_Cols sd), None) sd) <$> sd.

(** Every field of the generated struct is overwritten, so the copy of [base]
    only matters for its SerDe. *)
Definition storageToThrift (sd : option StorageDescriptor) (base : option wStorageDescriptor)
    : option wStorageDescriptor :=
  match sd with
  | None => None
  | Some sd =>
      let baseSerde := match base with None => None | Some b => wStorageDescriptor_SerdeInfo b end in
      Some {| wStorageDescriptor_Cols := fieldSchemasToThrift (StorageDescriptor_Columns sd);
              wStorageDescriptor_Location := StorageDescriptor_Location sd;
              wStorageDescriptor_InputFormat := StorageDescriptor_InputFormat sd;
              wStorageDescriptor_OutputFormat := StorageDescriptor_OutputFormat sd;
              wStorageDescriptor_Compressed := StorageDescriptor_Compressed sd;
              wStorageDescriptor_NumBuckets := StorageDescriptor_NumBuckets sd;
              wStorageDescriptor_SerdeInfo := serDeToThrift (StorageDescriptor_SerDe sd) baseSerde;
              wStorageDescriptor_BucketCols := copyStrings (StorageDescriptor_BucketColumns sd);
              wStorageDescriptor_SortCols := ordersToThrift (StorageDescriptor_SortColumns sd);
              wStorageDescriptor_Parameters := copyStringMap (StorageDescriptor_Parameters sd);
              wStorageDescriptor_SkewedInfo := skewedInfoToThrift (StorageDescriptor_Skewed sd);
              wStorageDescriptor_StoredAsSubDirectories :=
                if StorageDescriptor_StoredAsSubDirectories sd then Some true else None |}
  end.

(** ** Catalogs *)

Definition catalogFromThrift (c : option wCatalog) : option Catalog :=
  match c with
  | None => None
  | Some c => Some (mkCatalog (wCatalog_Name c) (deref (wCatalog_Description c)) (wCatalog_LocationUri c))
  end.
Definition catalogToThrift (cat : option Catalog) : option wCatalog :=
  match cat with
  | None => None
  | Some cat =>
      Some {| wCatalog_Name := Catalog_Name cat;
              wCatalog_Description :=
                if String.eqb (Catalog_Description cat) "" then None else ptr (Catalog_Description cat);
              wCatalog_LocationUri := Catalog_LocationURI cat;
              wCatalog_CreateTime := None;
              wCatalog_Parameters := None |}
  end.

(** The [CatalogName] of a converted object: the wire value, else "hive". *)
Definition catOrDefault (c : option string) : string :=
  match c with Some c => c | None => defaultCatalog end.

(** ** Filling a wire struct from an exported value *)

Definition fillDatabase (out : wDatabase) (db : Database) (cat : option string) : wDatabase :=
  {| wDatabase_Name := Database_Name db;
     wDatabase_Description := Database_Description db;
     wDatabase_LocationUri := Database_LocationURI db;
     wDatabase_Parameters := copyStringMap (Database_Parameters db);
     wDatabase_Privileges := wDatabase_Privileges out;
     wDatabase_OwnerName := (if String.eqb (Database_OwnerName db) "" then None else ptr (Database_OwnerName db));
     wDatabase_OwnerType := (if Database_OwnerType db =? 0 then None else Some (Database_OwnerType db));
     wDatabase_CatalogName := cat;
     wDatabase_CreateTime := wDatabase_CreateTime out;
     wDatabase_ManagedLocationUri := wDatabase_ManagedLocationUri out;
     wDatabase_Type := wDatabase_Type out;
     wDatabase_ConnectorName := wDatabase_ConnectorName out;
     wDatabase_RemoteDbname := wDatabase_RemoteDbname out |}.

Definition fillTable (out : wTable) (t : Table) (cat : option string) : wTable :=
  {| wTable_TableName := Table_TableName t;
     wTable_DbName := Table_DatabaseName t;
     wTable_Owner := Table_Owner t;
     wTable_CreateTime := unix32FromTime (Table_CreateTime t);
     wTable_LastAccessTime := unix32FromTime (Table_LastAccessTime t);
     wTable_Retention := Table_Retention t;
     wTable_Sd := storageToThrift (Table_Storage t) (wTable_Sd out);
     wTable_PartitionKeys := fieldSchemasToThrift (Table_PartitionKeys t);
     wTable_Parameters := copyStringMap (Table_Parameters t);
     wTable_ViewOriginalText := Table_ViewOriginalText t;
     wTable_ViewExpandedText := Table_ViewExpandedText t;
     wTable_TableType := Table_TableType t;
     wTable_Privileges := wTable_Privileges out;
     wTable_Temporary := wTable_Temporary out;
     wTable_RewriteEnabled := wTable_RewriteEnabled out;
     wTable_CreationMetadata := wTable_CreationMetadata out;
     wTable_CatName := cat;
     wTable_OwnerType := (if Table_OwnerType t =? 0 then PrincipalType_USER else Table_OwnerType t);
     wTable_WriteId := wTable_WriteId out;
     wTable_IsStatsCompliant := wTable_IsStatsCompliant out;
     wTable_ColStats := wTable_ColStats out;
     wTable_AccessType := wTable_AccessType out;
     wTable_RequiredReadCapabilities := wTable_RequiredReadCapabilities out;
     wTable_RequiredWriteCapabilities := wTable_RequiredWriteCapabilities out;
     wTable_ID := wTable_ID out;
     wTable_FileMetadata := wTable_FileMetadata out;
     wTable_Dictionary := wTable_Dictionary out;
     wTable_TxnId := wTable_TxnId out |}.

Definition fillPartition (out : wPartition) (p : Partition) (cat : option string)
    (dbName tableName : string) : wPartition :=
  {| wPartition_Values := copyStrings (Partition_Values p);
     wPartition_DbName := dbName;
     wPartition_TableName := tableName;
     wPartition_CreateTime := unix32FromTime (Partition_CreateTime p);
     wPartition_LastAccessTime := wPartition_LastAccessTime out;
     wPartition_Sd := storageToThrift (Partition_Storage p) (wPartition_Sd out);
     wPartition_Parameters := copyStringMap (Partition_Parameters p);
     wPartition_Privileges := wPartition_Privileges out;
     wPartition_CatName := cat;
     wPartition_WriteId := wPartition_WriteId out;
     wPartition_IsStatsCompliant := wPartition_IsStatsCompliant out;
     wPartition_ColStats := wPartition_ColStats out;
     wPartition_FileMetadata := wPartition_FileMetadata out |}.

(** A create starts from the bare constructor, whatever [raw] holds. *)
Definition databaseToThrift (db : option Database) (cat : option string) : option wDatabase :=
  match db with None => None | Some db => Some (fillDatabase NewDatabase db cat) end.
Definition tableToThrift (t : option Table) (cat : option string) : option wTable :=
  match t with None => None | Some t => Some (fillTable NewTable t cat) end.
Definition partitionToThrift (p : option Partition) (cat : option string) (dbName tableName : string)
    : option wPartition :=
  match p with None => None | Some p => Some (fillPartition NewPartition p cat dbName tableName) end.

(** ** Column statistics and notifications *)

Definition notificationFromThrift (e : wNotificationEvent) : NotificationEvent := {|
  NotificationEvent_ID := wNotificationEvent_EventId e;
  NotificationEvent_Time := time_Unix (wNotificationEvent_EventTime e);
  NotificationEvent_Type := wNotificationEvent_EventType e;
  NotificationEvent_CatalogName := catOrDefault (wNotificationEvent_CatName e);
  NotificationEvent_DatabaseName := deref (wNotificationEvent_DbName e);
  NotificationEvent_TableName := deref (wNotificationEvent_TableName e);
  NotificationEvent_Message := wNotificationEvent_Message e;
  NotificationEvent_MessageFormat := deref (wNotificationEvent_MessageFormat e) |}.

Definition decimalFromThrift (d : option wDecimal) : option Decimal :=
  match d with
  | None => None
  | Some d => Some (mkDecimal (Some (elems (wDecimal_Unscaled d))) (wDecimal_Scale d))
  end.

Definition secondsPerDay : Z := 24 * 60 * 60.

Definition copyPtr {T} (p : option T) : option T := match p with None => None | Some v => Some v end.

(** [d.DaysSinceEpoch*secondsPerDay] is an int64 product. *)
Definition dateFromThrift (d : option wDate) : option Time :=
  match d with
  | None => None
  | Some d => Some (time_Unix (int64 (wDate_DaysSinceEpoch d * secondsPerDay)))
  end.
Definition timestampFromThrift (ts : option wTimestamp) : option Time :=
  match ts with None => None | Some ts => Some (time_Unix (wTimestamp_SecondsSinceEpoch ts)) end.

(** A statistics record with no arm set. *)
Definition noStats (name typ : string) : ColumnStatistics :=
  mkColumnStatistics name typ None None None None None None None None.

Definition columnStatisticsFromThrift (o : wColumnStatisticsObj) : ColumnStatistics :=
  let n := wColumnStatisticsObj_ColName o in
  let t := wColumnStatisticsObj_ColType o in
  match wColumnStatisticsObj_StatsData o with
  | None => noStats n t
  | Some d =>
    match wColumnStatisticsData_BooleanStats d with
    | Some s => mkColumnStatistics n t
        (Some (mkBooleanColumnStats (wBooleanColumnStatsData_NumTrues s)
                 (wBooleanColumnStatsData_NumFalses s) (wBooleanColumnStatsData_NumNulls s)))
        None None None None None None None
    | None =>
    match wColumnStatisticsData_LongStats d with
    | Some s => mkColumnStatistics n t None
        (Some (mkLongColumnStats (copyPtr (wLongColumnStatsData_LowValue s))
                 (copyPtr (wLongColumnStatsData_HighValue s)) (wLongColumnStatsData_NumNulls s)
                 (wLongColumnStatsData_NumDVs s)))
        None None None None None None
    | None =>
    match wColumnStatisticsData_DoubleStats d with
    | Some s => mkColumnStatistics n t None None
        (Some (mkDoubleColumnStats (copyPtr (wDoubleColumnStatsData_LowValue s))
                 (copyPtr (wDoubleColumnStatsData_HighValue s)) (wDoubleColumnStatsData_NumNulls s)
                 (wDoubleColumnStatsData_NumDVs s)))
        None None None None None
    | None =>
    match wColumnStatisticsData_StringStats d with
    | Some s => mkColumnStatistics n t None None None
        (Some (mkStringColumnStats (wStringColumnStatsData_MaxColLen s)
                 (wStringColumnStatsData_AvgColLen s) (wStringColumnStatsData_NumNulls s)
                 (wStringColumnStatsData_NumDVs s)))
        None None None None
    | None =>
    match wColumnStatisticsData_BinaryStats d with
    | Some s => mkColumnStatistics n t None None None None
        (Some (mkBinaryColumnStats (wBinaryColumnStatsData_MaxColLen s)
                 (wBinaryColumnStatsData_AvgColLen s) (wBinaryColumnStatsData_NumNulls s)))
        None None None
    | None =>
    match wColumnStatisticsData_DecimalStats d with
    | Some s => mkColumnStatistics n t None None None None None
        (Some (mkDecimalColumnStats (decimalFromThrift (wDecimalColumnStatsData_LowValue s))
                 (decimalFromThrift (wDecimalColumnStatsData_HighValue s))
                 (wDecimalColumnStatsData_NumNulls s) (wDecimalColumnStatsData_NumDVs s)))
        None None
    | None =>
    match wColumnStatisticsData_DateStats d with
    | Some s => mkColumnStatistics n t None None None None None None
        (Some (mkDateColumnStats (dateFromThrift (wDateColumnStatsData_LowValue s))
                 (dateFromThrift (wDateColumnStatsData_HighValue s))
                 (wDateColumnStatsData_NumNulls s) (wDateColumnStatsData_NumDVs s)))
        None
    | None =>
    match wColumnStatisticsData_TimestampStats d with
    | Some s => mkColumnStatistics n t None None None None None None None
        (Some (mkTimestampColumnStats (timestampFromThrift (wTimestampColumnStatsData_LowValue s))
                 (timestampFromThrift (wTimestampColumnStatsData_HighValue s))
                 (wTimestampColumnStatsData_NumNulls s) (wTimestampColumnStatsData_NumDVs s)))
    | None => noStats n t
    end end end end end end end end
  end.

Definition columnStatisticsListFromThrift : slice wColumnStatisticsObj -> slice ColumnStatistics :=
  slice_map columnStatisticsFromThrift.

(** ** Reading from the wire, with the snapshot *)

Section snapshot.
Context `{DeepCopy}.

Definition rawTable (t : wTable) : option wTable := deepCopyTable t.
Definition rawPartition (p : wPartition) : option wPartition := deepCopyPartition p.
Definition rawDatabase (d : wDatabase) : option wDatabase := deepCopyDatabase d.

Definition rawTableOrNew (raw : option wTable) : wTable :=
  match raw with
  | None => NewTable
  | Some raw => match deepCopyTable raw with Some out => out | None => NewTable end
  end.
Definition rawPartitionOrNew (raw : option wPartition) : wPartition :=
  match raw with
  | None => NewPartition
  | Some raw => match deepCopyPartition raw with Some out => out | None => NewPartition end
  end.
Definition rawDatabaseOrNew (raw : option wDatabase) : wDatabase :=
  match raw with
  | None => NewDatabase
  | Some raw => match deepCopyDatabase raw with Some out => out | None => NewDatabase end
  end.

Definition databaseFromThrift (d : option wDatabase) (cat : option string) : option Database :=
  match d with
  | None => None
  | Some d =>
      Some {| Database_CatalogName :=
                match cat with
                | Some c => c
                | None => catOrDefault (wDatabase_CatalogName d)
                end;
              Database_Name := wDatabase_Name d;
              Database_Description := wDatabase_Description d;
              Database_LocationURI := wDatabase_LocationUri d;
              Database_Parameters := copyStringMap (wDatabase_Parameters d);
              Database_OwnerName := deref (wDatabase_OwnerName d);
              Database_OwnerType := default 0 (wDatabase_OwnerType d);
              Database_CreateTime := timeFromUnix32Ptr (wDatabase_CreateTime d);
              Database_raw := rawDatabase d |}
  end.

Definition tableFill (sd : option StorageDescriptor) (t : wTable) : Table :=
  {| Table_CatalogName := catOrDefault (wTable_CatName t);
     Table_DatabaseName := wTable_DbName t;
     Table_TableName := wTable_TableName t;
     Table_Owner := wTable_Owner t;
     Table_OwnerType := wTable_OwnerType t;
     Table_CreateTime := timeFromUnix32 (wTable_CreateTime t);
     Table_LastAccessTime := timeFromUnix32 (wTable_LastAccessTime t);
     Table_Retention := wTable_Retention t;
     Table_Storage := sd;
     Table_PartitionKeys := fieldSchemasFromThrift (wTable_PartitionKeys t);
     Table_Parameters := copyStringMap (wTable_Parameters t);
     Table_ViewOriginalText := wTable_ViewOriginalText t;
     Table_ViewExpandedText := wTable_ViewExpandedText t;
     Table_TableType := wTable_TableType t;
     Table_raw := rawTable t |}.
Definition tableFromThriftIntern (interned : bool) (t : option wTable)
    : M columnIntern (option Table) :=
  match t with
  | None => ret None
  | Some t => bind (storageFromThriftIntern interned (wTable_Sd t))
                   (fun sd => ret (Some (tableFill sd t)))
  end.
Definition tableFromThrift (t : option wTable) : option Table :=
  (fun t => tableFill (storageFromThrift (wTable_Sd t)) t) <$> t.

Definition partitionFill (sd : option StorageDescriptor) (p : wPartition) : Partition :=
  {| Partition_CatalogName := catOrDefault (wPartition_CatName p);
     Partition_DatabaseName := wPartition_DbName p;
     Partition_TableName := wPartition_TableName p;
     Partition_Values := copyStrings (wPartition_Values p);
     Partition_CreateTime := timeFromUnix32 (wPartition_CreateTime p);
     Partition_Storage := sd;
     Partition_Parameters := copyStringMap (wPartition_Parameters p);
     Partition_raw := rawPartition p |}.
Definition partitionFromThriftIntern (interned : bool) (p : option wPartition)
    : M columnIntern (option Partition) :=
  match p with
  | None => ret None
  | Some p => bind (storageFromThriftIntern interned (wPartition_Sd p))
                   (fun sd => ret (Some (partitionFill sd p)))
  end.
Definition partitionFromThrift (p : option wPartition) : option Partition :=
  (fun p => partitionFill (storageFromThrift (wPartition_Sd p)) p) <$> p.

Fixpoint internAll {A B} (f : A -> M columnIntern B) (l : list A) : M columnIntern (list B) :=
  match l with
  | [] => ret []
  | x :: l => bind (f x) (fun y => bind (internAll f l) (fun ys => ret (y :: ys)))
  end.
Definition partitionsFromThriftIntern (ps : slice (option wPartition))
    : M columnIntern (slice (option Partition)) :=
  if decide (len ps = 0%nat) then ret None
  else bind (internAll (partitionFromThriftIntern true) (elems ps)) (fun l => ret (Some l)).
Definition partitionsFromThrift (next : nat) (ps : slice (option wPartition))
    : goerr + slice (option Partition) :=
  if decide (len ps = 0%nat) then inr None
  else snd (partitionsFromThriftIntern ps (newColumnIntern next)).

(** An alter starts from a fresh copy of the snapshot when there is one. *)
Definition databaseToThriftFrom (db : option Database) (cat : option string) : option wDatabase :=
  match db with
  | None => None
  | Some db => Some (fillDatabase (rawDatabaseOrNew (Database_raw db)) db cat)
  end.
Definition tableToThriftFrom (t : option Table) (cat : option string) : option wTable :=
  match t with
  | None => None
  | Some t => Some (fillTable (rawTableOrNew (Table_raw t)) t cat)
  end.
Definition partitionToThriftFrom (p : option Partition) (cat : option string)
    (dbName tableName : string) : option wPartition :=
  match p with
  | None => None
  | Some p => Some (fillPartition (rawPartitionOrNew (Partition_raw p)) p cat dbName tableName)
  end.

Definition partitionsToThriftWith
    (conv : option Partition -> option string -> string -> string -> option wPartition)
    (ps : slice (option Partition)) (cat : option string) (dbName tableName : string)
    : slice (option wPartition) :=
  slice_map (fun p => conv p cat dbName tableName) ps.
Definition partitionsToThrift := partitionsToThriftWith partitionToThrift.
Definition partitionsToThriftFrom := partitionsToThriftWith partitionToThriftFrom.
End snapshot.
