(* ===== verification/ConvertFacts.v ===== *)
(** * ConvertFacts: the theorems on convert.go

    Round trips and fidelity of the conversions, saturation of the 32-bit
    times, and what interning shares. *)

From S2P Require Import Prelude Errors GoMonad Wire Options Types Convert.

(** ** The copy helpers normalise nil and empty *)

Lemma copyStrings_norm s : copyStrings s = norm_slice s.
Proof. unfold copyStrings, norm_slice, len. destruct (elems s) as [|x l]; [done|]. by case_decide. Qed.

Lemma copyStringMap_norm m : copyStringMap m = norm_map m.
Proof.
  unfold copyStringMap, norm_map. case_decide as H1; case_decide as H2; try done.
  - by apply map_size_empty_iff in H1.
  - by rewrite H2, map_size_empty in H1.
Qed.

Definition norm_slices (s : slice (slice string)) : slice (slice string) := slice_map norm_slice s.

Lemma copyStringSlices_norm s : copyStringSlices s = norm_slices s.
Proof.
  unfold copyStringSlices, norm_slices, slice_map, len.
  destruct (elems s) as [|x l]; [done|]. case_decide; [done|]. f_equal.
  apply map_ext. apply copyStrings_norm.
Qed.

Lemma norm_slices_idem s : norm_slices (norm_slices s) = norm_slices s.
Proof.
  unfold norm_slices. rewrite slice_map_compose. unfold slice_map.
  destruct (elems s); [done|]. f_equal. apply map_ext. apply norm_slice_idem.
Qed.

#[export] Hint Rewrite copyStrings_norm copyStringMap_norm copyStringSlices_norm norm_slices_idem : hms_rw.

(** ** Times *)

Lemma unix32_range t : in_int32 (unix32FromTime t).
Proof.
  unfold unix32FromTime, in_int32, MinInt32, MaxInt32. case_match; [lia|].
  destruct (Z.ltb_spec 2147483647 (Unix t)); [by rewrite int32_id|].
  destruct (Z.ltb_spec (Unix t) (-2147483648)); [by rewrite int32_id|].
  rewrite int32_id; unfold in_int32, MinInt32, MaxInt32; lia.
Qed.

Lemma unix32_id s : in_int32 s -> unix32FromTime (timeFromUnix32 s) = s.
Proof.
  unfold in_int32, timeFromUnix32, unix32FromTime, MinInt32, MaxInt32. intros Hs.
  destruct (Z.eqb_spec s 0) as [->|]; [done|].
  unfold IsZero. rewrite bool_decide_eq_false_2.
  2: { unfold zeroTime, time_Unix. intros [=]. lia. }
  simpl. destruct (Z.ltb_spec 2147483647 s), (Z.ltb_spec s (-2147483648)); try lia.
  by apply int32_id.
Qed.

(** The 32-bit wire time is always in range, saturates rather than wraps,
    is exact for a time in range, reads back to the same second, and only the
    zero [time.Time] and the epoch are written as Hive's "unset" 0. *)
Theorem unix32_saturates t :
  in_int32 (unix32FromTime t) /\
  (IsZero t = false -> unix32FromTime t = Z.max MinInt32 (Z.min MaxInt32 (Unix t))) /\
  (unix32FromTime t = 0 -> t = zeroTime \/ Unix t = 0) /\
  (in_int32 (Unix t) -> Unix t <> 0 ->
   timeFromUnix32 (unix32FromTime t) = time_Unix (Unix t)).
Proof.
  assert (Hval : IsZero t = false -> unix32FromTime t = Z.max MinInt32 (Z.min MaxInt32 (Unix t))).
  { intros Hz. pose proof (unix32_range t) as Hr. revert Hr.
    unfold unix32FromTime, in_int32, MinInt32, MaxInt32. rewrite Hz.
    destruct (Z.ltb_spec 2147483647 (Unix t)); [rewrite int32_id by done; lia|].
    destruct (Z.ltb_spec (Unix t) (-2147483648)); [rewrite int32_id by done; lia|].
    rewrite int32_id by (unfold in_int32, MinInt32, MaxInt32; lia). lia. }
  split; [apply unix32_range|]. split; [done|].
  destruct (IsZero t) eqn:Hz.
  - unfold IsZero in Hz. apply bool_decide_eq_true in Hz as ->.
    split; [by left|]. unfold in_int32, MinInt32; simpl. lia.
  - rewrite (Hval eq_refl). unfold in_int32, MinInt32, MaxInt32.
    split; [intros; right; lia|]. intros Hr Hne. unfold timeFromUnix32.
    rewrite Z.min_r, Z.max_r by lia. by apply Z.eqb_neq in Hne as ->.
Qed.

(** ** Columns *)

Lemma fieldSchema_roundtrip f : fieldSchemaToThrift (fieldSchemaFromThrift f) = f.
Proof. by destruct f as [[]|]. Qed.
Lemma fieldSchema_roundtrip' f : fieldSchemaFromThrift (fieldSchemaToThrift f) = f.
Proof. by destruct f as [[]|]. Qed.
Lemma order_roundtrip o : orderToThrift (orderFromThrift o) = o.
Proof. by destruct o as [[]|]. Qed.
Lemma fieldSchemas_roundtrip fs : fieldSchemasToThrift (fieldSchemasFromThrift fs) = norm_slice fs.
Proof.
  unfold fieldSchemasToThrift, fieldSchemasFromThrift. rewrite slice_map_compose.
  apply slice_map_id, fieldSchema_roundtrip.
Qed.
Lemma orders_roundtrip os : ordersToThrift (ordersFromThrift os) = norm_slice os.
Proof.
  unfold ordersToThrift, ordersFromThrift. rewrite slice_map_compose.
  apply slice_map_id, order_roundtrip.
Qed.

#[export] Hint Rewrite fieldSchemas_roundtrip orders_roundtrip : hms_rw.

(** ** Wire normal forms: what an alter sends for an untouched object

    Only nil and empty collections are identified, an owner type of 0 becomes
    Hive's default USER, and an explicit [false] becomes an absent field. *)

Definition norm_serde (s : wSerDeInfo) : wSerDeInfo :=
  mk_wSerDeInfo (wSerDeInfo_Name s) (wSerDeInfo_SerializationLib s) (norm_map (wSerDeInfo_Parameters s))
    (wSerDeInfo_Description s) (wSerDeInfo_SerializerClass s) (wSerDeInfo_DeserializerClass s)
    (wSerDeInfo_SerdeType s).
Definition norm_skew (s : wSkewedInfo) : wSkewedInfo :=
  mk_wSkewedInfo (norm_slice (wSkewedInfo_SkewedColNames s)) (norm_slices (wSkewedInfo_SkewedColValues s))
    (slice_map (fun e => (norm_slice (fst e), snd e)) (wSkewedInfo_SkewedColValueLocationMaps s)).
Definition norm_sd (s : wStorageDescriptor) : wStorageDescriptor :=
  mk_wStorageDescriptor (norm_slice (wStorageDescriptor_Cols s)) (wStorageDescriptor_Location s)
    (wStorageDescriptor_InputFormat s) (wStorageDescriptor_OutputFormat s)
    (wStorageDescriptor_Compressed s) (wStorageDescriptor_NumBuckets s)
    (norm_serde <$> wStorageDescriptor_SerdeInfo s) (norm_slice (wStorageDescriptor_BucketCols s))
    (norm_slice (wStorageDescriptor_SortCols s)) (norm_map (wStorageDescriptor_Parameters s))
    (norm_skew <$> wStorageDescriptor_SkewedInfo s)
    (match wStorageDescriptor_StoredAsSubDirectories s with Some true => Some true | _ => None end).

Definition norm_table (t : wTable) : wTable :=
  {| wTable_TableName := wTable_TableName t; wTable_DbName := wTable_DbName t;
     wTable_Owner := wTable_Owner t; wTable_CreateTime := wTable_CreateTime t;
     wTable_LastAccessTime := wTable_LastAccessTime t; wTable_Retention := wTable_Retention t;
     wTable_Sd := norm_sd <$> wTable_Sd t; wTable_PartitionKeys := norm_slice (wTable_PartitionKeys t);
     wTable_Parameters := norm_map (wTable_Parameters t);
     wTable_ViewOriginalText := wTable_ViewOriginalText t;
     wTable_ViewExpandedText := wTable_ViewExpandedText t; wTable_TableType := wTable_TableType t;
     wTable_Privileges := wTable_Privileges t; wTable_Temporary := wTable_Temporary t;
     wTable_RewriteEnabled := wTable_RewriteEnabled t;
     wTable_CreationMetadata := wTable_CreationMetadata t; wTable_CatName := wTable_CatName t;
     wTable_OwnerType := if wTable_OwnerType t =? 0 then PrincipalType_USER else wTable_OwnerType t;
     wTable_WriteId := wTable_WriteId t; wTable_IsStatsCompliant := wTable_IsStatsCompliant t;
     wTable_ColStats := wTable_ColStats t; wTable_AccessType := wTable_AccessType t;
     wTable_RequiredReadCapabilities := wTable_RequiredReadCapabilities t;
     wTable_RequiredWriteCapabilities := wTable_RequiredWriteCapabilities t;
     wTable_ID := wTable_ID t; wTable_FileMetadata := wTable_FileMetadata t;
     wTable_Dictionary := wTable_Dictionary t; wTable_TxnId := wTable_TxnId t |}.

Definition norm_partition (p : wPartition) : wPartition :=
  {| wPartition_Values := norm_slice (wPartition_Values p); wPartition_DbName := wPartition_DbName p;
     wPartition_TableName := wPartition_TableName p; wPartition_CreateTime := wPartition_CreateTime p;
     wPartition_LastAccessTime := wPartition_LastAccessTime p;
     wPartition_Sd := norm_sd <$> wPartition_Sd p;
     wPartition_Parameters := norm_map (wPartition_Parameters p);
     wPartition_Privileges := wPartition_Privileges p; wPartition_CatName := wPartition_CatName p;
     wPartition_WriteId := wPartition_WriteId p;
     wPartition_IsStatsCompliant := wPartition_IsStatsCompliant p;
     wPartition_ColStats := wPartition_ColStats p; wPartition_FileMetadata := wPartition_FileMetadata p |}.

Lemma serde_roundtrip s : serDeToThrift (serDeFromThrift s) s = norm_serde <$> s.
Proof. destruct s as [[]|]; [|done]. simpl. unfold norm_serde; simpl. by autorewrite with hms_rw. Qed.

Lemma skew_roundtrip s : skewedInfoToThrift (skewedInfoFromThrift s) = norm_skew <$> s.
Proof.
  destruct s as [[n v l]|]; [|done]. simpl. unfold norm_skew; simpl. autorewrite with hms_rw.
  do 2 f_equal. unfold skewedLocationsToThrift, skewedLocationsFromThrift.
  rewrite slice_map_compose. unfold slice_map. destruct (elems l); [done|]. f_equal.
  apply map_ext. intros [k x]; simpl. by autorewrite with hms_rw.
Qed.

Lemma sd_roundtrip cols sd :
  fst cols = fieldSchemasFromThrift (wStorageDescriptor_Cols sd) ->
  storageToThrift (Some (storageFill cols sd)) (Some sd) = Some (norm_sd sd).
Proof.
  intros Hc. unfold storageToThrift, norm_sd, storageFill; simpl. rewrite Hc.
  rewrite serde_roundtrip, skew_roundtrip. autorewrite with hms_rw.
  by destruct (wStorageDescriptor_StoredAsSubDirectories sd) as [[]|].
Qed.

Lemma storage_roundtrip sd : storageToThrift (storageFromThrift sd) sd = norm_sd <$> sd.
Proof. destruct sd as [sd|]; [|done]. simpl. by apply (sd_roundtrip (_, None)). Qed.

(** ** Round trips and fidelity *)

(** The trivial copier: what a lossless serializer does. *)
Definition idCopy : DeepCopy := {|
  deepCopyTable := Some; deepCopyPartition := Some; deepCopyDatabase := Some |}.
Lemma idCopyLaws : @DeepCopyLaws idCopy.
Proof. by split; intros ? ? [= ->] _. Qed.

Section roundtrip.
Context (t : wTable) (Ht : in_int32 (wTable_CreateTime t)) (Ht' : in_int32 (wTable_LastAccessTime t)).

Lemma fillTable_roundtrip `{DeepCopy} :
  fillTable t (tableFill (storageFromThrift (wTable_Sd t)) t) (wTable_CatName t) = norm_table t.
Proof.
  unfold fillTable, norm_table, tableFill; simpl.
  rewrite storage_roundtrip, !unix32_id by done. by autorewrite with hms_rw.
Qed.
End roundtrip.

Lemma fillPartition_roundtrip `{DeepCopy} p :
  in_int32 (wPartition_CreateTime p) ->
  fillPartition p (partitionFill (storageFromThrift (wPartition_Sd p)) p) (wPartition_CatName p)
    (wPartition_DbName p) (wPartition_TableName p) = norm_partition p.
Proof.
  intros Ht. unfold fillPartition, norm_partition, partitionFill; simpl.
  rewrite storage_roundtrip, !unix32_id by done. by autorewrite with hms_rw.
Qed.

(** Of the snapshot, only what the exported type does not model is used. *)
Lemma storageToThrift_ext sd base base' :
  serde_unmodelled <$> sd_serde base' = serde_unmodelled <$> sd_serde base ->
  storageToThrift sd base' = storageToThrift sd base.
Proof.
  intros H. destruct sd as [sd|]; [|done]. unfold storageToThrift. do 2 f_equal.
  destruct (StorageDescriptor_SerDe sd) as [se|]; [|done].
  change (match base with None => None | Some b => wStorageDescriptor_SerdeInfo b end) with (sd_serde base).
  change (match base' with None => None | Some b => wStorageDescriptor_SerdeInfo b end) with (sd_serde base').
  destruct (sd_serde base) as [s|], (sd_serde base') as [s'|]; try done. apply (inj Some) in H.
  destruct s, s'. unfold serde_unmodelled in H. simpl in H. by injection H as -> -> -> ->.
Qed.

Lemma fillTable_ext r t tb cat : table_unmodelled r = table_unmodelled t ->
  serde_unmodelled <$> sd_serde (wTable_Sd r) = serde_unmodelled <$> sd_serde (wTable_Sd t) ->
  fillTable r tb cat = fillTable t tb cat.
Proof.
  unfold table_unmodelled. intros H Hs. unfold fillTable. rewrite (storageToThrift_ext _ _ _ Hs).
  injection H as -> -> -> -> -> -> -> -> -> -> -> -> -> ->. done.
Qed.

(** A copy of a copy. *)
Lemma deepCopyTable_twice `{DeepCopyLaws} t r r' :
  sd_ranged (wTable_Sd t) -> deepCopyTable t = Some r -> deepCopyTable r = Some r' ->
  table_unmodelled r' = table_unmodelled t /\
  serde_unmodelled <$> sd_serde (wTable_Sd r') = serde_unmodelled <$> sd_serde (wTable_Sd t).
Proof.
  intros Hs H1 H2. destruct (deepCopyTable_ok t r H1 Hs) as [Ha Hb].
  destruct (deepCopyTable_ok r r' H2) as [Ha' Hb']; [|by rewrite Ha', Hb'].
  intros s z Hr Hz. rewrite Hr in Hb. destruct (sd_serde (wTable_Sd t)) as [s0|] eqn:E; [|done].
  apply (inj Some) in Hb. apply (Hs s0 z E). rewrite <- Hz. unfold serde_unmodelled in Hb. by injection Hb.
Qed.

(** C27: GetTable followed by AlterTable with the table unchanged sends the
    server its own table back: whatever the deep copy does, as long as it keeps its
    contract, every field, those the exported Table does not model included, is the
    original one up to nil versus empty collections, the default owner type and an
    explicit false. *)
Theorem table_alter_roundtrip `{DeepCopyLaws} (t r r' : wTable) :
  in_int32 (wTable_CreateTime t) -> in_int32 (wTable_LastAccessTime t) -> sd_ranged (wTable_Sd t) ->
  deepCopyTable t = Some r -> deepCopyTable r = Some r' ->
  tableToThriftFrom (tableFromThrift (Some t)) (wTable_CatName t) = Some (norm_table t).
Proof.
  intros H1 H2 Hs Hr Hr'. unfold tableToThriftFrom, tableFromThrift. cbn -[fillTable norm_table tableFill].
  unfold tableFill at 1. cbn -[fillTable norm_table tableFill]. unfold rawTable. rewrite Hr. simpl. rewrite Hr'.
  destruct (deepCopyTable_twice t r r' Hs Hr Hr') as [Ha Hb].
  rewrite (fillTable_ext r' t) by done. f_equal. by apply fillTable_roundtrip.
Qed.

Definition demo_sd : wStorageDescriptor :=
  mk_wStorageDescriptor (Some [Some (mk_wFieldSchema "id" "bigint" "")]) "s3://b/t" "in" "out" false (-1)
    (Some (mk_wSerDeInfo "" "lib" None (Some "desc") None None None)) None None (Some ∅) None None.
Definition demo_table : wTable :=
  fillTable {| wTable_TableName := ""; wTable_DbName := ""; wTable_Owner := ""; wTable_CreateTime := 0;
     wTable_LastAccessTime := 0; wTable_Retention := 0; wTable_Sd := Some demo_sd;
     wTable_PartitionKeys := None; wTable_Parameters := None; wTable_ViewOriginalText := "";
     wTable_ViewExpandedText := ""; wTable_TableType := ""; wTable_Privileges := Some "acl";
     wTable_Temporary := false; wTable_RewriteEnabled := Some true; wTable_CreationMetadata := None;
     wTable_CatName := None; wTable_OwnerType := 2; wTable_WriteId := 7; wTable_IsStatsCompliant := None;
     wTable_ColStats := None; wTable_AccessType := None; wTable_RequiredReadCapabilities := None;
     wTable_RequiredWriteCapabilities := None; wTable_ID := Some 12; wTable_FileMetadata := None;
     wTable_Dictionary := None; wTable_TxnId := Some 3 |}
    (mkTable "hive" "db" "t" "me" 2 (time_Unix 1700000000) zeroTime 0 (storageFromThrift (Some demo_sd))
       None None "" "" "MANAGED_TABLE" None) (Some "hive").

Lemma demo_table_ranged : sd_ranged (wTable_Sd demo_table).
Proof. by intros s z [= <-] [=]. Qed.

Example table_alter_roundtrip_witness :
  wTable_TxnId demo_table = Some 3 /\
  @tableToThriftFrom idCopy (@tableFromThrift idCopy (Some demo_table)) (wTable_CatName demo_table)
    = Some (norm_table demo_table).
Proof.
  split; [reflexivity|].
  apply (@table_alter_roundtrip idCopy idCopyLaws demo_table demo_table demo_table);
    [vm_compute; split; discriminate | vm_compute; split; discriminate | exact demo_table_ranged | reflexivity | reflexivity].
Defined.

(** Round-trip fidelity: a table read from the server and altered, however
    the caller edited the exported fields, keeps every wire field the exported
    Table does not model, and its SerDe keeps those SerDeInfo does not model as
    long as the table still has a SerDe. *)
Theorem alter_preserves_unmodelled `{DeepCopyLaws} (t r r' : wTable) (edited : Table) cat w :
  sd_ranged (wTable_Sd t) -> deepCopyTable t = Some r -> deepCopyTable r = Some r' ->
  Table_raw edited = Table_raw (tableFill (storageFromThrift (wTable_Sd t)) t) ->
  tableToThriftFrom (Some edited) cat = Some w ->
  table_unmodelled w = table_unmodelled t /\ wTable_CatName w = cat /\
  forall s s', sd_serde (wTable_Sd t) = Some s -> sd_serde (wTable_Sd w) = Some s' ->
    serde_unmodelled s' = serde_unmodelled s.
Proof.
  intros Hr H1 H2 Hraw Hw. simpl in Hraw. unfold rawTable in Hraw. rewrite H1 in Hraw.
  unfold tableToThriftFrom in Hw. rewrite Hraw in Hw. simpl in Hw. rewrite H2 in Hw.
  injection Hw as <-.
  destruct (deepCopyTable_twice t r r' Hr H1 H2) as [Ha Hb'].
  split; [by rewrite <- Ha|]. split; [done|].
  intros s s' Hs Hs'. rewrite Hs in Hb'. simpl in Hb'. unfold sd_serde in Hs', Hb'. simpl in Hs'.
  destruct (Table_Storage edited) as [sd|]; [|done]. simpl in Hs'.
  destruct (StorageDescriptor_SerDe sd) as [se|]; [|done].
  destruct (wTable_Sd r') as [sd'|]; simpl in *; [|done].
  destruct (wStorageDescriptor_SerdeInfo sd') as [se'|]; simpl in *; [|done].
  injection Hs' as <-. apply (inj Some) in Hb'. exact Hb'.
Qed.

Example alter_preserves_unmodelled_witness :
  let edited := mkTable "" "db2" "renamed" "you" 1 zeroTime zeroTime 9
    (storageFromThrift (wTable_Sd demo_table)) None None "" "" "" (Some demo_table) in
  let w := fillTable demo_table edited (Some "spark") in
  wTable_TableName w = "renamed" /\ wTable_WriteId w = 7 /\
  (table_unmodelled w = table_unmodelled demo_table /\ wTable_CatName w = Some "spark" /\
   forall s s', sd_serde (wTable_Sd demo_table) = Some s -> sd_serde (wTable_Sd w) = Some s' ->
    serde_unmodelled s' = serde_unmodelled s).
Proof.
  split; [reflexivity|]. split; [reflexivity|].
  apply (@alter_preserves_unmodelled idCopy idCopyLaws demo_table demo_table demo_table
    (mkTable "" "db2" "renamed" "you" 1 zeroTime zeroTime 9
      (storageFromThrift (wTable_Sd demo_table)) None None "" "" "" (Some demo_table)) (Some "spark"));
    first [exact demo_table_ranged | reflexivity].
Defined.

(** A create never carries a snapshot: whatever [raw] the value holds, the
    table, partition or database sent has the constructor's value in every field
    the exported type does not model (a write id of -1, not the source's). *)
Theorem create_drops_snapshot (tb : Table) (p : Partition) (db : Database) cat dbName tableName :
  (forall w, tableToThrift (Some tb) cat = Some w ->
     table_unmodelled w = table_unmodelled NewTable /\ wTable_WriteId w = -1 /\
     forall s, sd_serde (wTable_Sd w) = Some s -> serde_unmodelled s = serde_unmodelled NewSerDeInfo) /\
  (forall w, partitionToThrift (Some p) cat dbName tableName = Some w ->
     partition_unmodelled w = partition_unmodelled NewPartition /\ wPartition_WriteId w = -1 /\
     wPartition_DbName w = dbName /\ wPartition_TableName w = tableName) /\
  (forall w, databaseToThrift (Some db) cat = Some w ->
     database_unmodelled w = database_unmodelled NewDatabase /\ wDatabase_CreateTime w = None).
Proof.
  split; [|split]; intros w [= <-]; split_and!; try done.
  unfold sd_serde; simpl. intros s. destruct (Table_Storage tb) as [sd|]; [|done]; simpl.
  by destruct (StorageDescriptor_SerDe sd) as [[]|]; [intros [= <-]|].
Qed.

(** ** Interning *)

Fixpoint clean (s : string) : bool :=
  match s with
  | EmptyString => true
  | String c s => negb (Ascii.eqb c NUL) && negb (Ascii.eqb c SOH) && clean s
  end.
Definition clean_field (f : option wFieldSchema) : bool :=
  match f with
  | None => false
  | Some f => clean (wFieldSchema_Name f) && clean (wFieldSchema_Type f) && clean (wFieldSchema_Comment f)
  end.

Lemma app_sep_inj a b c x y :
  clean a = true -> clean b = true -> c = NUL \/ c = SOH ->
  a +:+ String c x = b +:+ String c y -> a = b /\ x = y.
Proof.
  intros Ha Hb Hc. revert b Hb; induction a as [|a0 a IH]; intros [|b0 b] Hb; simpl.
  - by intros [= ->].
  - intros [= <- _]. destruct Hc as [->| ->]; discriminate Hb.
  - intros [= <- _]. destruct Hc as [->| ->]; discriminate Ha.
  - simpl in Ha, Hb. intros [= <- Heq].
    apply andb_prop in Ha as [_ Ha]. apply andb_prop in Hb as [_ Hb].
    by destruct (IH Ha b Hb Heq) as [-> ->].
Qed.

Lemma app_sep_not_empty a c x : a +:+ String c x <> "".
Proof. by destruct a. Qed.

Lemma columnKey_inj fs fs' k :
  forallb clean_field fs = true -> forallb clean_field fs' = true ->
  columnKey fs = Some k -> columnKey fs' = Some k -> fs = fs'.
Proof.
  revert fs' k; induction fs as [|[[n t c]|] fs IH]; intros [|[[n' t' c']|] fs'] k; simpl; try done.
  - intros _ _ [= <-]. case_match; [|done]. intros [= E]. by apply app_sep_not_empty in E.
  - intros _ _. case_match; [|done]. intros [= <-] [= E]. symmetry in E. by apply app_sep_not_empty in E.
  - intros Hc Hc'. destruct (columnKey fs) as [k1|] eqn:E1; [|done].
    destruct (columnKey fs') as [k2|] eqn:E2; [|done]. intros [= <-] [= E].
    repeat match goal with H : _ && _ = true |- _ => apply andb_prop in H as [? ?] end.
    apply app_sep_inj in E as [-> E]; [|done|done|by left].
    apply app_sep_inj in E as [-> E]; [|done|done|by left].
    apply app_sep_inj in E as [-> ->]; [|done|done|by right].
    by rewrite (IH fs' k1).
Qed.

Lemma columnKey_total fs : forallb clean_field fs = true -> is_Some (columnKey fs).
Proof.
  induction fs as [|[f|] fs IH]; simpl; [by eauto| |done].
  intros [_ H]%andb_prop. destruct (IH H) as [k ->]. by eauto.
Qed.

(** The interner's invariant: a cached slice is the conversion of the (clean)
    columns that made its key, and identities are allocated once. *)
Record intern_wf (st : columnIntern) : Prop := {
  iw_value : forall key a out, i_map st !! key = Some (a, out) ->
    (a < i_next st)%nat /\ exists fs, forallb clean_field (elems fs) = true /\ len fs <> 0%nat /\
      columnKey (elems fs) = Some key /\ out = fieldSchemasFromThrift fs;
  iw_addr : forall k1 k2 a o1 o2,
    i_map st !! k1 = Some (a, o1) -> i_map st !! k2 = Some (a, o2) -> k1 = k2;
}.

Lemma newColumnIntern_wf next : intern_wf (newColumnIntern next).
Proof. by split. Qed.

Lemma intern_step st fs :
  intern_wf st -> forallb clean_field (elems fs) = true -> len fs <> 0%nat ->
  exists st' a key, intern fs st = (st', inr (fieldSchemasFromThrift fs, Some a)) /\
    columnKey (elems fs) = Some key /\ intern_wf st' /\
    i_map st' !! key = Some (a, fieldSchemasFromThrift fs) /\
    (forall k v, i_map st !! k = Some v -> i_map st' !! k = Some v).
Proof.
  intros W Hc Hl. unfold intern. rewrite decide_False by done.
  destruct (columnKey_total _ Hc) as [key Hkey]. rewrite Hkey.
  destruct (i_map st !! key) as [[a out]|] eqn:E.
  - destruct (iw_value _ W _ _ _ E) as (_ & fs0 & Hc0 & Hl0 & Hk0 & ->).
    assert (fieldSchemasFromThrift fs0 = fieldSchemasFromThrift fs) as Heq.
    { unfold fieldSchemasFromThrift, slice_map. by rewrite (columnKey_inj _ _ key Hc0 Hc Hk0 Hkey). }
    exists st, a, key. rewrite Heq in *. done.
  - exists (mkColumnIntern (<[key := (i_next st, fieldSchemasFromThrift fs)]> (i_map st)) (S (i_next st))).
    exists (i_next st), key. split; [done|]. split; [done|]. split; [|split].
    + split; simpl.
      * intros k a out. rewrite lookup_insert. case_decide as Hd.
        -- intros [= <- <-]. subst. split; [lia|]. by exists fs.
        -- intros (H1 & H2)%(iw_value _ W). split; [lia|done].
      * intros k1 k2 a o1 o2. rewrite !lookup_insert. case_decide; case_decide; subst; try done.
        -- intros [= <- <-] (Hlt & _)%(iw_value _ W). lia.
        -- intros (Hlt & _)%(iw_value _ W) [= <- <-]. lia.
        -- apply (iw_addr _ W).
    + simpl. by rewrite lookup_insert_eq.
    + simpl. intros k v Hk. rewrite lookup_insert_ne; [done|]. intros <-. by rewrite E in Hk.
Qed.

(** ** Interning a partition listing *)

Definition erase_sd (sd : StorageDescriptor) : StorageDescriptor :=
  {| StorageDescriptor_Columns := StorageDescriptor_Columns sd;
     StorageDescriptor_ColumnsAddr := None;
     StorageDescriptor_Location := StorageDescriptor_Location sd;
     StorageDescriptor_InputFormat := StorageDescriptor_InputFormat sd;
     StorageDescriptor_OutputFormat := StorageDescriptor_OutputFormat sd;
     StorageDescriptor_Compressed := StorageDescriptor_Compressed sd;
     StorageDescriptor_NumBuckets := StorageDescriptor_NumBuckets sd;
     StorageDescriptor_SerDe := StorageDescriptor_SerDe sd;
     StorageDescriptor_BucketColumns := StorageDescriptor_BucketColumns sd;
     StorageDescriptor_SortColumns := StorageDescriptor_SortColumns sd;
     StorageDescriptor_Parameters := StorageDescriptor_Parameters sd;
     StorageDescriptor_StoredAsSubDirectories := StorageDescriptor_StoredAsSubDirectories sd;
     StorageDescriptor_Skewed := StorageDescriptor_Skewed sd |}.
Definition erase_partition (p : Partition) : Partition :=
  {| Partition_CatalogName := Partition_CatalogName p;
     Partition_DatabaseName := Partition_DatabaseName p;
     Partition_TableName := Partition_TableName p;
     Partition_Values := Partition_Values p;
     Partition_CreateTime := Partition_CreateTime p;
     Partition_Storage := erase_sd <$> Partition_Storage p;
     Partition_Parameters := Partition_Parameters p;
     Partition_raw := Partition_raw p |}.
(** The identity of the column slice a partition's storage holds. *)
Definition columns_addr (p : option Partition) : option nat :=
  (p ≫= Partition_Storage) ≫= StorageDescriptor_ColumnsAddr.
(** The columns the server sent for a partition; [None] is no columns at all. *)
Definition wire_columns (p : option wPartition) : slice (option wFieldSchema) :=
  match p ≫= wPartition_Sd with
  | Some sd => if decide (len (wStorageDescriptor_Cols sd) = 0%nat) then None
               else wStorageDescriptor_Cols sd
  | None => None
  end.
Definition clean_partition (p : option wPartition) : bool :=
  forallb clean_field (elems (wire_columns p)).

(** The state extends: what is cached stays cached. *)
Definition intern_le (a b : columnIntern) : Prop :=
  forall k v, i_map a !! k = Some v -> i_map b !! k = Some v.
Lemma intern_le_refl st : intern_le st st.
Proof. by intros k v. Qed.
#[export] Hint Resolve intern_le_refl : core.
Definition cached (st : columnIntern) (cols : slice (option wFieldSchema)) (a : nat) : Prop :=
  exists key out, columnKey (elems cols) = Some key /\ i_map st !! key = Some (a, out).
Definition addr_ok (st : columnIntern) (p : option wPartition) (q : option Partition) : Prop :=
  match wire_columns p with
  | None => columns_addr q = None
  | Some cols => exists a, columns_addr q = Some a /\ cached st (Some cols) a
  end.

Lemma addr_ok_mono st st' p q : intern_le st st' -> addr_ok st p q -> addr_ok st' p q.
Proof.
  unfold addr_ok, cached. intros Hle. case_match; [|done].
  intros (a & Ha & key & out & Hk & Hm). exists a. split; [done|]. exists key, out. auto.
Qed.

Lemma addr_ok_inj st p p' q q' a :
  intern_wf st -> clean_partition p = true -> clean_partition p' = true ->
  addr_ok st p q -> addr_ok st p' q' -> columns_addr q = Some a ->
  (columns_addr q' = Some a <-> wire_columns p' = wire_columns p).
Proof.
  unfold addr_ok, clean_partition. intros W Hc Hc' Hp Hp' Ha.
  destruct (wire_columns p) as [cols|]; [|congruence].
  destruct Hp as (b & Hb & key & out & Hk & Hm). assert (b = a) as -> by congruence.
  destruct (wire_columns p') as [cols'|].
  - destruct Hp' as (b' & Hb' & key' & out' & Hk' & Hm'). split.
    + intros E. assert (b' = a) as -> by congruence.
      assert (key' = key) as -> by eauto using iw_addr.
      f_equal. by apply (columnKey_inj _ _ key).
    + intros [= ->]. rewrite Hk in Hk'. injection Hk' as <-. rewrite Hm in Hm'. congruence.
  - split; [congruence|done].
Qed.

Section interning.
Context {cp : DeepCopy}.

Lemma partition_intern_step st (p : option wPartition) :
  intern_wf st -> clean_partition p = true ->
  exists st' q, partitionFromThriftIntern true p st = (st', inr q) /\
    intern_wf st' /\ intern_le st st' /\ addr_ok st' p q /\
    erase_partition <$> q = partitionFromThrift p.
Proof.
  unfold clean_partition, wire_columns, addr_ok, wire_columns, partitionFromThriftIntern, partitionFromThrift.
  destruct p as [p|]; simpl; [|intros W _; exists st, None; by split_and!].
  unfold partitionFill, storageFromThriftIntern, storageFromThrift.
  destruct (wPartition_Sd p) as [sd|]; simpl; intros W; [|intros _; eexists st, _; by split_and!].
  case_decide as Hl; simpl; intros Hc.
  - unfold bind, intern, ret. rewrite decide_True by done. simpl. eexists st, _. split; [done|].
    split_and!; try done. simpl. unfold erase_partition, erase_sd, storageFill; simpl.
    repeat f_equal. unfold fieldSchemasFromThrift, slice_map, len in *.
    destruct (elems _); [done|]. discriminate Hl.
  - destruct (intern_step st _ W Hc Hl) as (st' & a & key & Hi & Hk & W' & Hm & Hle).
    exists st'. unfold bind, ret. rewrite Hi. simpl. eexists. split; [done|].
    split_and!; try done.
    destruct (wStorageDescriptor_Cols sd) as [cols|] eqn:Ec; [|done].
    exists a. split; [done|]. by eexists key, _.
Qed.

Lemma internAll_steps ps : forall st,
  intern_wf st -> forallb clean_partition ps = true ->
  exists st' qs, internAll (partitionFromThriftIntern true) ps st = (st', inr qs) /\
    intern_wf st' /\ intern_le st st' /\ Forall2 (addr_ok st') ps qs /\
    map (fmap erase_partition) qs = map partitionFromThrift ps.
Proof.
  induction ps as [|p ps IH]; intros st W Hc; simpl.
  - exists st, []. by split_and!.
  - simpl in Hc. apply andb_prop in Hc as [Hp Hps].
    destruct (partition_intern_step st p W Hp) as (st1 & q & E1 & W1 & L1 & A1 & V1).
    destruct (IH st1 W1 Hps) as (st2 & qs & E2 & W2 & L2 & A2 & V2).
    exists st2, (q :: qs). unfold bind, ret. rewrite E1, E2. split_and!; try done.
    + intros k v Hk. by apply L2, L1.
    + constructor; [|done]. by apply (addr_ok_mono st1).
    + simpl. by rewrite V1, V2.
Qed.
End interning.


Definition demo_partition (v : string) (cols : list (option wFieldSchema)) : option wPartition :=
  Some (fillPartition NewPartition
    (mkPartition "" "" "" (Some [v]) zeroTime
      (storageFromThrift (Some (mk_wStorageDescriptor (Some cols) ("s3://b/t/" +:+ v) "in" "out"
        false (-1) None None None None None None))) None None) None "db" "t").
Definition demo_col (n t : string) : option wFieldSchema := Some (mk_wFieldSchema n t "").


(** The key is not injective in general: a column name that contains the
    separator bytes makes two different column lists collide, and the second
    partition is then returned with the first one's columns. *)
Theorem columnKey_collision :
  let inj_name := "a" +:+ String NUL ("t" +:+ String NUL (String SOH "b")) in
  let p1 := demo_partition "x" [demo_col "a" "t"; demo_col "b" "u"] in
  let p2 := demo_partition "y" [demo_col inj_name "u"] in
  wire_columns p1 <> wire_columns p2 /\
  exists q1 q2, @partitionsFromThrift idCopy 0 (Some [p1; p2]) = inr (Some [Some q1; Some q2]) /\
    columns_addr (Some q1) = columns_addr (Some q2) /\
    (StorageDescriptor_Columns <$> Partition_Storage q2) <>
      (StorageDescriptor_Columns <$> (@partitionFromThrift idCopy p2 ≫= Partition_Storage)).
Proof.
  split; [vm_compute; discriminate|].
  eexists _, _. split; [vm_compute; reflexivity|]. split; [reflexivity|]. vm_compute. discriminate.
Qed.
