(* ===== verification/PartName.v ===== *)
(** * PartName: partname.go

    Hive partition names: escaping, its inverse, and the round trip of a whole
    name through [Warehouse.makeSpecFromName]'s splitting. *)

From S2P Require Import Prelude Errors Types.

Definition defaultPartitionName : string := "__HIVE_DEFAULT_PARTITION__".

(** [c < ' ' || c == 0x7F], then the switch's literal set. *)
Definition clash_set : list nat := [34; 35; 37; 39; 42; 47; 58; 61; 63; 92; 123; 91; 93; 94]%nat.
Definition needsPartitionPathEscaping (c : ascii) : bool :=
  let n := nat_of_ascii c in
  if (n <? 32)%nat || (n =? 127)%nat then true else existsb (Nat.eqb n) clash_set.

(** ["%02X"] *)
Definition upper_hex (n : nat) : ascii := ascii_of_nat (if (n <? 10)%nat then 48 + n else 55 + n).
Definition percent_XX (c : ascii) (rest : string) : string :=
  let n := nat_of_ascii c in
  String "%" (String (upper_hex (n / 16)) (String (upper_hex (n mod 16)) rest)).

Fixpoint escape_bytes (s : string) : string :=
  match s with
  | EmptyString => EmptyString
  | String c s => if needsPartitionPathEscaping c then percent_XX c (escape_bytes s)
                  else String c (escape_bytes s)
  end.
Definition escapePartitionPathName (s : string) : string :=
  if String.eqb s "" then defaultPartitionName else escape_bytes s.

(** [strings.ToLower]: the byte map on ASCII; on other strings the Unicode
    tables, a parameter. *)
Class UnicodeLower := { unicode_lower : string -> string }.
Definition lower_ascii (c : ascii) : ascii :=
  let n := nat_of_ascii c in if (65 <=? n)%nat && (n <=? 90)%nat then ascii_of_nat (n + 32) else c.
Fixpoint map_bytes (f : ascii -> ascii) (s : string) : string :=
  match s with EmptyString => EmptyString | String c s => String (f c) (map_bytes f s) end.
Fixpoint is_ascii (s : string) : bool :=
  match s with EmptyString => true | String c s => (nat_of_ascii c <? 128)%nat && is_ascii s end.
Definition ToLower `{UnicodeLower} (s : string) : string :=
  if is_ascii s then map_bytes lower_ascii s else unicode_lower s.

Section names.
Context {UL : UnicodeLower}.

(** The loop of [PartitionName]: a '/' before every part but the first. *)
Fixpoint join_parts (first : bool) (keys values : list string) : string :=
  match keys, values with
  | k :: keys, v :: values =>
      (if first then "" else "/") +:+ escapePartitionPathName (ToLower k) +:+ "=" +:+
      escapePartitionPathName v +:+ join_parts false keys values
  | _, _ => ""
  end.

Definition PartitionName (keys values : list string) : goerr + string :=
  if negb (length keys =? length values)%nat
  then inl (EText ("hms: PartitionName: " +:+ Itoa (Z.of_nat (length keys)) +:+ " keys but " +:+
                   Itoa (Z.of_nat (length values)) +:+ " values"))
  else inr (join_parts true keys values).
End names.

(** ** The inverse *)

Definition hex_value (c : ascii) : option nat :=
  let n := nat_of_ascii c in
  if (48 <=? n)%nat && (n <=? 57)%nat then Some (n - 48)%nat
  else if (65 <=? n)%nat && (n <=? 70)%nat then Some (n - 55)%nat else None.
Fixpoint unescape_bytes (s : string) : string :=
  match s with
  | String "%" (String h (String l rest) as s') =>
      match hex_value h, hex_value l with
      | Some a, Some b => String (ascii_of_nat (16 * a + b)) (unescape_bytes rest)
      | _, _ => String "%" (unescape_bytes s')
      end
  | String c s => String c (unescape_bytes s)
  | EmptyString => EmptyString
  end.
Definition unescape (s : string) : string :=
  if String.eqb s defaultPartitionName then "" else unescape_bytes s.

(** The key and value of one "k=v" part, and of a whole name. *)
Definition parse_part (p : string) : string * string :=
  let '(k, v, _) := cut "=" p in (unescape k, unescape v).
Definition parse_name (name : string) : list (string * string) := map parse_part (split "/" name).

(** ** Lemmas *)

Fixpoint free_of (c : ascii) (s : string) : bool :=
  match s with EmptyString => true | String d s => negb (Ascii.eqb d c) && free_of c s end.

(** Every fact about single bytes is checked on all 256 of them. *)
Definition all_bytes (P : ascii -> bool) : bool := forallb (fun n => P (ascii_of_nat n)) (seq 0 256).
Lemma all_bytes_spec P : all_bytes P = true -> forall c, P c = true.
Proof.
  unfold all_bytes. rewrite forallb_forall. intros H c.
  rewrite <- (ascii_nat_embedding c). apply H, in_seq.
  pose proof (nat_ascii_bounded c). lia.
Qed.

Lemma percent_unescape c rest :
  unescape_bytes (percent_XX c rest) = String c (unescape_bytes rest).
Proof.
  assert (hex_value (upper_hex (nat_of_ascii c / 16)) = Some (nat_of_ascii c / 16)%nat /\
          hex_value (upper_hex (nat_of_ascii c mod 16)) = Some (nat_of_ascii c mod 16)%nat) as [H1 H2].
  { assert (all_bytes (fun c =>
      bool_decide (hex_value (upper_hex (nat_of_ascii c / 16)) = Some (nat_of_ascii c / 16)%nat) &&
      bool_decide (hex_value (upper_hex (nat_of_ascii c mod 16)) = Some (nat_of_ascii c mod 16)%nat)) = true) as HB
      by (vm_compute; reflexivity).
    pose proof (all_bytes_spec _ HB c) as H. cbn beta in H.
    apply andb_prop in H as [H1 H2]. by apply bool_decide_eq_true in H1, H2. }
  unfold percent_XX. cbn [unescape_bytes]. rewrite H1, H2. do 2 f_equal.
  rewrite <- Nat.div_mod_eq. apply ascii_nat_embedding.
Qed.

Lemma plain_unescape c rest :
  needsPartitionPathEscaping c = false ->
  unescape_bytes (String c rest) = String c (unescape_bytes rest).
Proof. destruct c as [[] [] [] [] [] [] [] []]; first [done | intros H; vm_compute in H; discriminate]. Qed.

Lemma unescape_escape_bytes s : unescape_bytes (escape_bytes s) = s.
Proof.
  induction s as [|c s IH]; [done|]. cbn [escape_bytes].
  destruct (needsPartitionPathEscaping c) eqn:E.
  - by rewrite percent_unescape, IH.
  - by rewrite plain_unescape, IH.
Qed.

Lemma escape_free c s :
  needsPartitionPathEscaping c = true -> c <> "%"%char ->
  hex_value c = None -> free_of c (escape_bytes s) = true.
Proof.
  intros Hc Hp Hh. induction s as [|d s IH]; [done|]. cbn [escape_bytes].
  destruct (needsPartitionPathEscaping d) eqn:E.
  - unfold percent_XX. cbn [free_of]. rewrite IH.
    assert (forall n, (n < 16)%nat -> upper_hex n <> c) as Hu.
    { intros n Hn <-. revert Hh. do 16 (destruct n as [|n]; [done|]). lia. }
    destruct (Ascii.eqb_spec "%" c); [congruence|].
    pose proof (nat_ascii_bounded d).
    destruct (Ascii.eqb_spec (upper_hex (nat_of_ascii d / 16)) c) as [Eq|];
      [exfalso; revert Eq; apply Hu, Nat.Div0.div_lt_upper_bound; lia|].
    destruct (Ascii.eqb_spec (upper_hex (nat_of_ascii d mod 16)) c) as [Eq|];
      [exfalso; revert Eq; apply Hu, Nat.mod_upper_bound; lia|]. done.
  - cbn [free_of]. rewrite IH. destruct (Ascii.eqb_spec d c) as [->|]; [congruence|done].
Qed.

Lemma escapePart_free c s :
  c = "/"%char \/ c = "="%char -> free_of c (escapePartitionPathName s) = true.
Proof.
  intros Hc. unfold escapePartitionPathName. destruct (String.eqb s ""); [by destruct Hc as [->| ->]|].
  apply escape_free; by destruct Hc as [->| ->].
Qed.

(** What an escaped string reads back as: itself, except that the placeholder reads
    as the empty string it stands for. *)
Definition read_back (s : string) : string := if String.eqb s defaultPartitionName then "" else s.

Lemma unescape_escape s : unescape (escapePartitionPathName s) = read_back s.
Proof.
  unfold read_back. destruct (String.eqb_spec s defaultPartitionName) as [->|Hs]; [done|].
  unfold unescape, escapePartitionPathName.
  destruct (String.eqb_spec s "") as [->|Hne]; [done|].
  destruct (String.eqb_spec (escape_bytes s) defaultPartitionName) as [E|]; [|apply unescape_escape_bytes].
  exfalso. apply Hs. rewrite <- (unescape_escape_bytes s), E. reflexivity.
Qed.

Lemma cut_free c a b : free_of c a = true -> cut c (a +:+ String c b) = (a, b, true).
Proof.
  induction a as [|d a IH]; simpl; [by rewrite Ascii.eqb_refl|].
  intros [Hd Ha]%andb_prop. apply negb_true_iff in Hd. rewrite Hd. by rewrite IH.
Qed.
Lemma split_free c a : free_of c a = true -> split c a = [a].
Proof.
  induction a as [|d a IH]; simpl; [done|].
  intros [Hd Ha]%andb_prop. apply negb_true_iff in Hd. rewrite Hd. by rewrite IH.
Qed.
Lemma split_sep c a b : free_of c a = true -> split c (a +:+ String c b) = a :: split c b.
Proof.
  induction a as [|d a IH]; simpl; [by rewrite Ascii.eqb_refl|].
  intros [Hd Ha]%andb_prop. apply negb_true_iff in Hd. rewrite Hd. by rewrite IH.
Qed.
Lemma free_of_app c a b : free_of c (a +:+ b) = free_of c a && free_of c b.
Proof. induction a as [|d a IH]; simpl; [done|]. by rewrite IH, andb_assoc. Qed.

Lemma string_app_assoc (a b c : string) : (a +:+ b) +:+ c = a +:+ (b +:+ c).
Proof. induction a as [|d a IH]; [done|]. exact (f_equal (String d) IH). Qed.
Lemma string_app_nil (a : string) : a +:+ "" = a.
Proof. induction a as [|d a IH]; [done|]. exact (f_equal (String d) IH). Qed.

Section roundtrip.
Context {UL : UnicodeLower}.

Definition part (k v : string) : string :=
  escapePartitionPathName (ToLower k) +:+ "=" +:+ escapePartitionPathName v.
Lemma part_free k v : free_of "/" (part k v) = true.
Proof.
  unfold part. rewrite !free_of_app, !escapePart_free by auto. done.
Qed.
Lemma parse_part_ok k v : parse_part (part k v) = (read_back (ToLower k), read_back v).
Proof.
  unfold parse_part, part. change ("=" +:+ ?x) with (String "=" x).
  rewrite cut_free by (apply escapePart_free; auto). by rewrite !unescape_escape.
Qed.

Lemma join_parts_cons first k v keys values :
  join_parts first (k :: keys) (v :: values) =
    (if first then "" else "/") +:+ part k v +:+ join_parts false keys values.
Proof. unfold part. by rewrite !string_app_assoc. Qed.

Lemma split_join keys values :
  length keys = length values -> keys <> [] ->
  split "/" (join_parts true keys values) = map (fun kv => part (fst kv) (snd kv)) (combine keys values).
Proof.
  revert values; induction keys as [|k keys IH]; intros [|v values] Hl Hne; try done.
  rewrite join_parts_cons. cbn [combine map fst snd].
  destruct keys as [|k' keys], values as [|v' values]; try done.
  - cbn [join_parts]. rewrite string_app_nil. change ("" +:+ ?x) with x. apply split_free, part_free.
  - rewrite join_parts_cons.
    change (split "/" (part k v +:+ String "/" (part k' v' +:+ join_parts false keys values)) =
      part k v :: map (fun kv => part (fst kv) (snd kv)) (combine (k' :: keys) (v' :: values))).
    rewrite split_sep by apply part_free. f_equal.
    rewrite <- IH by (done || (simpl in *; lia)). by rewrite join_parts_cons.
Qed.
End roundtrip.

(** ** The properties of the component *)

(** Escaping is invertible except for Hive's one deliberate ambiguity: every
    string other than the placeholder reads back, the empty one included, an
    escaped name contains neither of the separators, and the placeholder is
    what the empty string and itself both escape to. *)
Theorem escape_roundtrip s :
  unescape (escapePartitionPathName s) = read_back s /\
  free_of "/" (escapePartitionPathName s) = true /\ free_of "=" (escapePartitionPathName s) = true.
Proof.
  split_and!; [apply unescape_escape|by apply escapePart_free; auto..].
Qed.


Definition asciiLower : UnicodeLower := {| unicode_lower := fun s => s |}.

