(* ===== verification/Formats.v ===== *)
(** * Formats: formats.go

    The table builders for Iceberg, Delta Lake and Hudi, and the update of an
    Iceberg table's metadata location. *)

From S2P Require Import Prelude Errors Types.

Definition IcebergStorageHandler : string := "org.apache.iceberg.mr.hive.HiveIcebergStorageHandler".
Definition IcebergSerDe : string := "org.apache.iceberg.mr.hive.HiveIcebergSerDe".
Definition IcebergInputFormat : string := "org.apache.iceberg.mr.hive.HiveIcebergInputFormat".
Definition IcebergOutputFormat : string := "org.apache.iceberg.mr.hive.HiveIcebergOutputFormat".
Definition ParamMetadataLocation : string := "metadata_location".
Definition ParamPreviousMetadataLocation : string := "previous_metadata_location".
Definition ParamTableType : string := "table_type".
Definition ParamStorageHandler : string := "storage_handler".
Definition ParamIcebergCatalog : string := "iceberg.catalog".
Definition DeltaStorageHandler : string := "io.delta.hive.DeltaStorageHandler".
Definition DeltaSerDe : string := "org.apache.hadoop.hive.serde2.lazy.LazySimpleSerDe".
Definition HudiInputFormat : string := "org.apache.hudi.hadoop.HoodieParquetInputFormat".
Definition HudiOutputFormat : string := "org.apache.hadoop.hive.ql.io.parquet.MapredParquetOutputFormat".
Definition HudiSerDe : string := "org.apache.hadoop.hive.ql.io.parquet.serde.ParquetHiveSerDe".
Definition ParamSparkProvider : string := "spark.sql.sources.provider".
Definition ParamExternal : string := "EXTERNAL".
Definition ParamSerializationFormat : string := "serialization.format".
Definition ParamPath : string := "path".

(** [&Table{...}] with the fields a builder sets; the rest are zero. *)
Definition built_table (dbName tableName : string) (keys : slice (option FieldSchema))
    (sd : StorageDescriptor) (params : gmap string string) : Table := {|
  Table_CatalogName := ""; Table_DatabaseName := dbName; Table_TableName := tableName;
  Table_Owner := ""; Table_OwnerType := 0; Table_CreateTime := zeroTime;
  Table_LastAccessTime := zeroTime; Table_Retention := 0; Table_Storage := Some sd;
  Table_PartitionKeys := keys; Table_Parameters := Some params; Table_ViewOriginalText := "";
  Table_ViewExpandedText := ""; Table_TableType := TableTypeExternal; Table_raw := None |}.
Definition built_storage (location : string) (cols : slice (option FieldSchema))
    (input output : string) (serde : string) (serdeParams : gmap string string) : StorageDescriptor := {|
  StorageDescriptor_Columns := cols; StorageDescriptor_ColumnsAddr := None;
  StorageDescriptor_Location := location; StorageDescriptor_InputFormat := input;
  StorageDescriptor_OutputFormat := output; StorageDescriptor_Compressed := false;
  StorageDescriptor_NumBuckets := 0;
  StorageDescriptor_SerDe := Some (mkSerDeInfo "" serde (Some serdeParams));
  StorageDescriptor_BucketColumns := None; StorageDescriptor_SortColumns := None;
  StorageDescriptor_Parameters := Some ∅; StorageDescriptor_StoredAsSubDirectories := false;
  StorageDescriptor_Skewed := None |}.

Definition NewIcebergTable (dbName tableName location metadataLocation : string)
    (cols : slice (option FieldSchema)) : Table :=
  built_table dbName tableName (Some [])
    (built_storage location cols IcebergInputFormat IcebergOutputFormat IcebergSerDe ∅)
    (list_to_map [(ParamStorageHandler, IcebergStorageHandler); (ParamTableType, "ICEBERG");
                  (ParamMetadataLocation, metadataLocation); (ParamExternal, "TRUE");
                  (ParamIcebergCatalog, "location_based_table")]).

Definition NewDeltaTable (dbName tableName location : string) (cols : slice (option FieldSchema)) : Table :=
  built_table dbName tableName (Some [])
    (built_storage location cols "" "" DeltaSerDe
       (list_to_map [(ParamSerializationFormat, "1"); (ParamPath, location)]))
    (list_to_map [(ParamSparkProvider, "delta"); (ParamTableType, "DELTA");
                  (ParamStorageHandler, DeltaStorageHandler); (ParamExternal, "TRUE")]).

Definition NewHudiTable (dbName tableName location : string)
    (cols partitionKeys : slice (option FieldSchema)) : Table :=
  built_table dbName tableName partitionKeys
    (built_storage location cols HudiInputFormat HudiOutputFormat HudiSerDe
       (list_to_map [(ParamPath, location)]))
    (list_to_map [(ParamSparkProvider, "hudi"); (ParamExternal, "TRUE")]).

(** The map of the table is updated in place: the result is the table after. *)
Definition set_parameters (p : gomap string) (t : Table) : Table := {|
  Table_CatalogName := Table_CatalogName t; Table_DatabaseName := Table_DatabaseName t;
  Table_TableName := Table_TableName t; Table_Owner := Table_Owner t;
  Table_OwnerType := Table_OwnerType t; Table_CreateTime := Table_CreateTime t;
  Table_LastAccessTime := Table_LastAccessTime t; Table_Retention := Table_Retention t;
  Table_Storage := Table_Storage t; Table_PartitionKeys := Table_PartitionKeys t;
  Table_Parameters := p; Table_ViewOriginalText := Table_ViewOriginalText t;
  Table_ViewExpandedText := Table_ViewExpandedText t; Table_TableType := Table_TableType t;
  Table_raw := Table_raw t |}.

Definition SetIcebergMetadataLocation (t : Table) (newLocation : string) : Table :=
  let m := entries (Table_Parameters t) in
  let m := match m !! ParamMetadataLocation with
           | Some current => <[ParamPreviousMetadataLocation := current]> m
           | None => m
           end in
  set_parameters (Some (<[ParamMetadataLocation := newLocation]> m)) t.

(** A history of commits to an Iceberg table. *)
Definition commit_all (t : Table) (locs : list string) : Table := foldl SetIcebergMetadataLocation t locs.

Lemma commit_all_last t locs l :
  entries (Table_Parameters (commit_all t (locs ++ [l]))) !! ParamMetadataLocation = Some l.
Proof. unfold commit_all. rewrite foldl_snoc. simpl. by rewrite lookup_insert_eq. Qed.

(** Iceberg's commit chain: from any table (its parameter map may be nil),
    after a series of two or more updates the current location is the last one
    written and the previous one the last but one; a first update keeps whatever
    location the table had as the previous one; no other parameter and no other
    field of the table changes. *)
Theorem iceberg_commit_chain t locs l1 l2 :
  let t' := commit_all t (locs ++ [l1; l2]) in
  entries (Table_Parameters t') !! ParamMetadataLocation = Some l2 /\
  entries (Table_Parameters t') !! ParamPreviousMetadataLocation = Some l1 /\
  (entries (Table_Parameters (SetIcebergMetadataLocation t l1)) !! ParamPreviousMetadataLocation =
     match entries (Table_Parameters t) !! ParamMetadataLocation with
     | Some current => Some current
     | None => entries (Table_Parameters t) !! ParamPreviousMetadataLocation
     end) /\
  (forall k, entries (Table_Parameters t') !! k = entries (Table_Parameters t) !! k \/
             k = ParamMetadataLocation \/ k = ParamPreviousMetadataLocation) /\
  set_parameters (Table_Parameters t) t' = t.
Proof.
  assert (Hprev : forall s l, entries (Table_Parameters (SetIcebergMetadataLocation s l)) !! ParamPreviousMetadataLocation =
     match entries (Table_Parameters s) !! ParamMetadataLocation with
     | Some current => Some current
     | None => entries (Table_Parameters s) !! ParamPreviousMetadataLocation
     end).
  { intros s l. simpl. rewrite lookup_insert_ne by done. case_match; [by rewrite lookup_insert_eq|done]. }
  assert (Hother : forall ls, (forall k, k <> ParamMetadataLocation -> k <> ParamPreviousMetadataLocation ->
     entries (Table_Parameters (commit_all t ls)) !! k = entries (Table_Parameters t) !! k) /\
     set_parameters (Table_Parameters t) (commit_all t ls) = t).
  { intros ls. induction ls as [|l ls IH] using rev_ind; [split; [done|by destruct t]|].
    destruct IH as [IH1 IH2]. unfold commit_all in *. rewrite foldl_snoc.
    split; [|by etrans; [|exact IH2]].
    intros k H1 H2. simpl. rewrite lookup_insert_ne by done. rewrite <- IH1 by done.
    case_match; [by rewrite lookup_insert_ne|done]. }
  intros t'. assert (t' = commit_all t ((locs ++ [l1]) ++ [l2])) as Et by (unfold t'; by rewrite <- app_assoc).
  split_and!; [rewrite Et; apply commit_all_last| |apply Hprev| |apply Hother].
  - rewrite Et. unfold commit_all. rewrite foldl_snoc, Hprev. fold (commit_all t (locs ++ [l1])).
    by rewrite commit_all_last.
  - intros k. destruct (decide (k = ParamMetadataLocation)); [auto|].
    destruct (decide (k = ParamPreviousMetadataLocation)); [auto|]. left. by apply Hother.
Qed.

(** Every built table is an external table at its location: EXTERNAL=TRUE, the
    location in the storage descriptor (and as the SerDe's path for Delta and
    Hudi), the caller's columns, and non-nil parameter maps. *)
Theorem built_tables_external db tb loc meta cols keys :
  Forall (fun t =>
    Table_TableType t = TableTypeExternal /\ Table_DatabaseName t = db /\ Table_TableName t = tb /\
    entries (Table_Parameters t) !! ParamExternal = Some "TRUE" /\
    (exists sd, Table_Storage t = Some sd /\ StorageDescriptor_Location sd = loc /\
       StorageDescriptor_Columns sd = cols /\ is_Some (StorageDescriptor_Parameters sd)))
    [NewIcebergTable db tb loc meta cols; NewDeltaTable db tb loc cols; NewHudiTable db tb loc cols keys] /\
  entries (Table_Parameters (NewIcebergTable db tb loc meta cols)) !! ParamMetadataLocation = Some meta /\
  Forall (fun t => ((Table_Storage t ≫= StorageDescriptor_SerDe) ≫=
                      (fun se => entries (SerDeInfo_Parameters se) !! ParamPath)) = Some loc)
    [NewDeltaTable db tb loc cols; NewHudiTable db tb loc cols keys].
Proof.
  split_and!.
  - repeat constructor; try done; by eexists.
  - done.
  - repeat constructor.
Qed.
