(* ===== verification/Client.v ===== *)
(** * Client: client.go, and the dialing half of conn.go

    The connection pool, the retry loop and the health bookkeeping of a Client,
    as one caller sees them: the state of the Client and the world outside it
    are passed from call to call. What other goroutines may do while a caller is
    blocked is the parameter [env_wait]; the interleavings themselves are the
    subject of [Pool]. *)

From S2P Require Import Prelude Errors Cluster GoMonad Wire Options Conn Types Uri.

(** ** State *)

Record endpointPool (W : Type) := mkPool {
  idle : list (conn W);
  live : Z;
}.
Arguments mkPool {W}. Arguments idle {W}. Arguments live {W}.

(** [krbSession]: nil, or a session that [Close] has or has not released. *)
Inductive session := SessionOpen | SessionClosed.

Record Client (W : Type) := mkClient {
  c_cfg : config;
  c_krbSession : option session;
  c_endpoints : list Endpoint;
  c_cluster : Cluster;
  c_pools : list (endpointPool W);
  c_closed : bool;
  c_warehouseRoots : gmap string string;
}.
Arguments mkClient {W}. Arguments c_cfg {W}. Arguments c_krbSession {W}. Arguments c_endpoints {W}.
Arguments c_cluster {W}. Arguments c_pools {W}. Arguments c_closed {W}. Arguments c_warehouseRoots {W}.

(** A record sent to the configured logger. *)
Inductive attr := AStr (key value : string) | AErr (key : string) (err : goerr).
Inductive log_level := LevelDebug | LevelInfo | LevelWarn | LevelError.
Record logrec := mkLog { log_level_of : log_level; log_msg : string; log_attrs : list attr }.

(** The Client, the world, what was logged, and what the observer saw. *)
Record St (W : Type) := mkSt {
  st_client : Client W;
  st_world : W;
  st_log : list logrec;
  st_obs : list RPCInfo;
}.
Arguments mkSt {W}. Arguments st_client {W}. Arguments st_world {W}. Arguments st_log {W}. Arguments st_obs {W}.

(** What a dial returns: a transport to close, and a generated client on it. *)
Record tconn (W : Type) := mkTconn { t_close : M W unit; t_client : rpcs W }.
Arguments mkTconn {W}. Arguments t_close {W}. Arguments t_client {W}.

(** Which case of [acquire]'s final select was taken. *)
Inductive selected (W : Type) := SelIdle (cn : conn W) | SelClosed | SelDone.
Arguments SelIdle {W}. Arguments SelClosed {W}. Arguments SelDone {W}.

(** The world: the caller's context, the clock, the random source, the
    transports of internal/transport, the Kerberos library, and the other
    goroutines. *)
Record Env (W : Type) := mkEnv {
  env_ctxErr : W -> option goerr;
  env_ctxDeadline : W -> bool;
  env_now : W -> Z;
  env_draw : W -> W * option Z;
  env_shuffle : W -> nat -> option Z;
  env_osUser : W -> option string;
  env_dialHook : W -> W;
  env_DialBinary : string -> config -> option session -> M W (tconn W);
  env_NewHTTP : string -> config -> M W (tconn W);
  env_krbValidate : config -> W -> option goerr;
  env_NewKerberosSession : config -> M W unit;
  env_wait : nat -> St W -> St W * selected W;
}.
Arguments env_ctxErr {W}. Arguments env_ctxDeadline {W}. Arguments env_now {W}. Arguments env_draw {W}.
Arguments env_shuffle {W}. Arguments env_osUser {W}. Arguments env_dialHook {W}.
Arguments env_DialBinary {W}. Arguments env_NewHTTP {W}. Arguments env_krbValidate {W}.
Arguments env_NewKerberosSession {W}. Arguments env_wait {W}.

#[export] Instance endpointPool_inhabited W : Inhabited (endpointPool W) := populate (mkPool [] 0).

(** ** Field updates *)

Section updates.
Context {W : Type}.
Implicit Types s : St W.

Definition set_client (c : Client W) s : St W := mkSt c (st_world s) (st_log s) (st_obs s).
Definition set_w (w : W) s : St W := mkSt (st_client s) w (st_log s) (st_obs s).
Definition log (l : log_level) (msg : string) (attrs : list attr) s : St W :=
  mkSt (st_client s) (st_world s) (st_log s ++ [mkLog l msg attrs]) (st_obs s).
Definition upd_client (f : Client W -> Client W) s : St W := set_client (f (st_client s)) s.
Definition set_cluster (k : Cluster) (c : Client W) : Client W :=
  mkClient (c_cfg c) (c_krbSession c) (c_endpoints c) k (c_pools c) (c_closed c) (c_warehouseRoots c).
Definition set_pools (ps : list (endpointPool W)) (c : Client W) : Client W :=
  mkClient (c_cfg c) (c_krbSession c) (c_endpoints c) (c_cluster c) ps (c_closed c) (c_warehouseRoots c).
Definition set_closed (c : Client W) : Client W :=
  mkClient (c_cfg c) (c_krbSession c) (c_endpoints c) (c_cluster c) (c_pools c) true (c_warehouseRoots c).
Definition set_krb (k : option session) (c : Client W) : Client W :=
  mkClient (c_cfg c) k (c_endpoints c) (c_cluster c) (c_pools c) (c_closed c) (c_warehouseRoots c).
Definition set_warehouseRoots (r : gmap string string) (c : Client W) : Client W :=
  mkClient (c_cfg c) (c_krbSession c) (c_endpoints c) (c_cluster c) (c_pools c) (c_closed c) r.

Definition pool (idx : nat) (c : Client W) : endpointPool W := c_pools c !!! idx.
Definition upd_pool (idx : nat) (f : endpointPool W -> endpointPool W) s : St W :=
  upd_client (fun c => set_pools (alter f idx (c_pools c)) c) s.
Definition live_add (d : Z) (p : endpointPool W) : endpointPool W := mkPool (idle p) (live p + d).
Definition set_idle (l : list (conn W)) (p : endpointPool W) : endpointPool W := mkPool l (live p).
(** [p.idle <- cn] *)
Definition send_idle (cn : conn W) (p : endpointPool W) : endpointPool W := mkPool (idle p ++ [cn]) (live p).

(** [_ = cn.close()], and [cn.close()] itself. *)
Definition closeErr (cn : conn W) s : St W * option goerr :=
  let '(w, r) := close cn (st_world s) in (set_w w s, err_of r).
Definition close_conn (cn : conn W) s : St W := fst (closeErr cn s).
End updates.

Section client.
Context {W : Type} {U : UrlLib} (env : Env W).
Implicit Types s : St W.

Definition endpointURI (ep : Endpoint) : string := Redacted ep.
Definition uri_of (idx : nat) s : string := endpointURI (c_endpoints (st_client s) !!! idx).

(** ** Configuration checks (conn.go) *)

Definition hasBinaryEndpoint (eps : list Endpoint) : bool :=
  existsb (fun ep => String.eqb (Endpoint_Scheme ep) SchemeThrift) eps.

(** [krbConfig(cfg) != nil]; the fields it copies are those of [cfg]. *)
Definition krbConfig (cfg : config) : option config :=
  if negb (cfg_kerberos cfg) then None else Some cfg.

Definition validateAuth (cfg : config) (eps : list Endpoint) (w : W) : option goerr :=
  if negb (hasBinaryEndpoint eps) then None
  else if negb (String.eqb (cfg_plainUser cfg) "") && cfg_kerberos cfg
  then Some (EText "hms: WithPlainAuth and WithKerberos are mutually exclusive")
  else match krbConfig cfg with
       | Some krb => env_krbValidate env krb w
       | None => None
       end.

Definition validateTransport (cfg : config) (eps : list Endpoint) : option goerr :=
  match cfg_tlsConfig cfg, cfg_httpClient cfg with
  | Some _, Some _ =>
      if existsb (fun ep => String.eqb (Endpoint_Scheme ep) SchemeHTTPS) eps
      then Some (EText "hms: WithTLS cannot be combined with WithHTTPClient; set TLSClientConfig on the supplied client's Transport instead")
      else None
  | _, _ => None
  end.

Definition warnCleartext (cfg : config) (eps : list Endpoint) : list logrec :=
  let scheme := Endpoint_Scheme (eps !!! 0%nat) in
  if String.eqb scheme SchemeThrift then
    (if negb (String.eqb (cfg_plainUser cfg) "") && negb (bool_decide (is_Some (cfg_tlsConfig cfg)))
     then [mkLog LevelWarn "WithPlainAuth sends the password without TLS; set WithTLS to encrypt it" []]
     else [])
  else if String.eqb scheme SchemeHTTP then
    (if negb (String.eqb (cfg_bearerToken cfg) "")
     then [mkLog LevelWarn "WithBearerToken sends the token over http://; use an https:// endpoint to encrypt it" []]
     else [])
  else [].

Definition newKerberosSession (cfg : config) (eps : list Endpoint) : M W (option session) :=
  match krbConfig cfg with
  | Some krb =>
      if negb (hasBinaryEndpoint eps) then ret None
      else bind (env_NewKerberosSession env krb) (fun _ => ret (Some SessionOpen))
  | None => ret None
  end.

(** [krbSession.Close()], a no-op on nil and on a closed session. *)
Definition close_session (k : option session) : option session :=
  match k with Some _ => Some SessionClosed | None => None end.

(** ** Dialing (conn.go, newConn) *)

Definition dial (ep : Endpoint) (cfg : config) (krb : option session) : M W (tconn W) :=
  if String.eqb (Endpoint_Scheme ep) SchemeThrift
  then env_DialBinary env (Endpoint_Host ep) cfg krb
  else env_NewHTTP env (Endpoint_URL ep) cfg.

(** The extra timeout [set_ugi]'s context gets. *)
Definition ugiTimeout (cfg : config) (w : W) : option Z :=
  if negb (env_ctxDeadline env w) && (0 <? cfg_connectTimeout cfg)
  then Some (cfg_connectTimeout cfg) else None.

Definition newConn_raw (ep : Endpoint) (cfg : config) (krb : option session) : M W (conn W) :=
  (_ <- modify (env_dialHook env);;
   tc <- dial ep cfg krb;;
   let cn := mkConn (t_close tc) (t_client tc) ∅ catalogUnknown in
   if String.eqb (Endpoint_Scheme ep) SchemeThrift && wantsSetUgi cfg then
     catch (w <- get;;
            _ <- setUgi (rpc cn) (ugiTimeout cfg w) (cfg_ugiUser cfg) (cfg_userGroups cfg);;
            ret cn)
           (fun err w => let '(w, _) := close cn w in (w, inl err))
   else ret cn)%go.

Definition newConn (ep : Endpoint) (cfg : config) (krb : option session) : M (St W) (conn W) :=
  fun s =>
    match newConn_raw ep cfg krb (st_world s) with
    | (w, inl err) =>
        (log LevelDebug "dial failed" [AStr "endpoint" (endpointURI ep); AErr "err" err] (set_w w s), inl err)
    | (w, inr cn) =>
        (log LevelDebug "dial succeeded" [AStr "endpoint" (endpointURI ep)] (set_w w s), inr cn)
    end.

(** ** Health *)

Definition markFailed (idx : nat) (reason : string) s : St W :=
  let ep := uri_of idx s in
  let '(w, draw) := env_draw env (st_world s) in
  let '(transitioned, k) := MarkFailed (c_cluster (st_client s)) idx (env_now env (st_world s)) draw in
  let s := upd_client (set_cluster k) (set_w w s) in
  if transitioned : bool
  then log LevelInfo "endpoint marked failed" [AStr "endpoint" ep; AStr "reason" reason] s
  else log LevelDebug "endpoint still failed" [AStr "endpoint" ep; AStr "reason" reason] s.

Definition markHealthy (idx : nat) (reason : string) s : St W :=
  let ep := uri_of idx s in
  let '(transitioned, k) := MarkHealthy (c_cluster (st_client s)) idx (env_now env (st_world s)) in
  let s := upd_client (set_cluster k) s in
  if transitioned : bool
  then log LevelInfo "endpoint marked healthy" [AStr "endpoint" ep; AStr "reason" reason] s
  else s.

Definition pick s : St W * option nat :=
  let '(r, k) := Pick (c_cluster (st_client s)) (env_now env (st_world s)) in
  (upd_client (set_cluster k) s, r).

Definition observe (op : string) (idx attempt : nat) (dur : Z) (err : option goerr) s : St W :=
  match cfg_observer (c_cfg (st_client s)) with
  | None => s
  | Some f =>
      let info := mkRPCInfo op (uri_of idx s) attempt dur err in
      let s := mkSt (st_client s) (st_world s) (st_log s) (st_obs s ++ [info]) in
      match f info with
      | None => s
      | Some r => log LevelError "observer panicked" [AStr "method" op; AStr "recovered" r] s
      end
  end.

(** ** The pool *)

(** [<-p.idle] *)
Definition take_idle (idx : nat) s : option (conn W * St W) :=
  match idle (pool idx (st_client s)) with
  | [] => None
  | cn :: rest => Some (cn, upd_pool idx (set_idle rest) s)
  end.

(** A dial that grows the pool: [live] is taken before, and given back when
    it fails. *)
Definition grow (idx : nat) : M (St W) (conn W) := fun s =>
  let s := upd_pool idx (live_add 1) s in
  if c_closed (st_client s) then (upd_pool idx (live_add (-1)) s, inl EClosed)
  else
    match newConn (c_endpoints (st_client s) !!! idx) (c_cfg (st_client s)) (c_krbSession (st_client s)) s with
    | (s, inl err) => (upd_pool idx (live_add (-1)) s, inl err)
    | (s, inr cn) => (s, inr cn)
    end.

(** [ctx.Err()] of a context whose [Done] fired. *)
Definition ctx_error s : goerr := default ECanceled (env_ctxErr env (st_world s)).

Definition acquire (idx : nat) : M (St W) (conn W) := fun s =>
  if c_closed (st_client s) then (s, inl EClosed)
  else
    match take_idle idx s with
    | Some (cn, s) => (s, inr cn)
    | None =>
        if live (pool idx (st_client s)) <? cfg_poolSize (c_cfg (st_client s)) then grow idx s
        else match env_wait env idx s with
             | (s, SelIdle cn) => (s, inr cn)
             | (s, SelClosed) => (s, inl EClosed)
             | (s, SelDone) => (s, inl (ctx_error s))
             end
    end.

Definition discardWith (idx : nat) (cn : conn W) (reason : string) s : St W :=
  log LevelDebug "conn discarded" [AStr "endpoint" (uri_of idx s); AStr "reason" reason]
    (upd_pool idx (live_add (-1)) (close_conn cn s)).
Definition discard (idx : nat) (cn : conn W) s : St W := discardWith idx cn "unavailable" s.

(** The buffer of [p.idle] has [cfg.poolSize] slots. *)
Definition idle_full (idx : nat) s : bool :=
  cfg_poolSize (c_cfg (st_client s)) <=? Z.of_nat (length (idle (pool idx (st_client s)))).

Definition release (idx : nat) (cn : conn W) s : St W :=
  if c_closed (st_client s) then discardWith idx cn "client closed" s
  else if negb (idle_full idx s) then
    log LevelDebug "conn released" [AStr "endpoint" (uri_of idx s)] (upd_pool idx (send_idle cn) s)
  else discardWith idx cn "pool full" s.

Fixpoint drain_conns (idx : nat) (cns : list (conn W)) (errs : list (option goerr)) s
    : St W * list (option goerr) :=
  match cns with
  | [] => (s, errs)
  | cn :: cns =>
      let s := upd_pool idx (set_idle cns) s in
      let '(s, err) := closeErr cn s in
      let errs := match err with Some e => errs ++ [Some e] | None => errs end in
      drain_conns idx cns errs
        (log LevelDebug "conn closed" [AStr "endpoint" (uri_of idx s)] (upd_pool idx (live_add (-1)) s))
  end.
Definition drainPool (idx : nat) (errs : list (option goerr)) s : St W * list (option goerr) :=
  drain_conns idx (idle (pool idx (st_client s))) errs s.
Fixpoint drain_all (idxs : list nat) (errs : list (option goerr)) s : St W * list (option goerr) :=
  match idxs with
  | [] => (s, errs)
  | idx :: idxs => let '(s, errs) := drainPool idx errs s in drain_all idxs errs s
  end.

Definition Close s : St W * option goerr :=
  if c_closed (st_client s) then (s, None)
  else
    let s := upd_client set_closed s in
    let '(s, errs) := drain_all (seq 0 (length (c_pools (st_client s)))) [] s in
    (upd_client (fun c => set_krb (close_session (c_krbSession c)) c) s, errors_Join errs).

(** ** The retry loop *)

Definition unavailable (e : goerr) : bool := bool_decide (classify e = ErrUnavailable).

(** [fn(ctx, cn)] on the conn just acquired: the conn, the world, the
    client's warehouse roots and the captured variables it leaves. *)
Definition run_fn {L} (fn : M (bst W L) unit) (cn : conn W) (l : L) s
    : St W * conn W * L * option goerr :=
  let '(b, r) := fn (mkBst cn (st_world s) (c_warehouseRoots (st_client s)) l) in
  (upd_client (set_warehouseRoots (b_roots b)) (set_w (b_world b) s), b_conn b, b_loc b, err_of r).

Definition retry_log (op : string) (idx : nat) (err : goerr) s : St W :=
  log LevelDebug "retrying on next endpoint"
    [AStr "method" op; AStr "endpoint" (uri_of idx s); AErr "err" err] s.

(** What follows [fn]: the conn's fate, the endpoint's, and whether the loop
    goes on ([inr last]) or returns ([inl err]). *)
Definition after_fn (op : string) (idempotent : bool) (idx : nat) (cn : conn W)
    (err : option goerr) (last : option goerr) s : St W * (option goerr + option goerr) :=
  match err with
  | None => (markHealthy idx op (release idx cn s), inl None)
  | Some e =>
      if unavailable e then
        let s := discard idx cn s in
        match env_ctxErr env (st_world s) with
        | None =>
            let s := markFailed idx op s in
            if idempotent then (retry_log op idx e s, inr (Some e)) else (s, inl (wrapError op (Some e)))
        | Some _ => (s, inl (wrapError op (Some e)))
        end
      else
        let s := if isProtocolError e then discardWith idx cn "protocol error" s else release idx cn s in
        (markHealthy idx op s, inl (wrapError op (Some e)))
  end.

Definition elapsed (start s : St W) : Z := env_now env (st_world s) - env_now env (st_world start).

(** [n] attempts are left, [attempt] is the number of this one. *)
Fixpoint do_loop {L} (op : string) (idempotent : bool) (fn : M (bst W L) unit) (n attempt : nat)
    (last : option goerr) (l : L) s : St W * (L * option goerr) :=
  match n with
  | O => (s, (l, wrapError op last))
  | S n =>
      match pick s with
      | (s, None) => (s, (l, wrapError op (errors_Join [Some (ESentinel ErrUnavailable); last])))
      | (s0, Some idx) =>
          match acquire idx s0 with
          | (s, inl err) =>
              let s := observe op idx attempt (elapsed s0 s) (Some err) s in
              if bool_decide (is_Some (env_ctxErr env (st_world s))) || is_closed err
              then (s, (l, wrapError op (Some err)))
              else
                do_loop op idempotent fn n (S attempt) (Some err) l
                  (retry_log op idx err (markFailed idx "dial" s))
          | (s1, inr cn) =>
              let '(s, cn, l, err) := run_fn fn cn l s1 in
              let s := observe op idx attempt (elapsed s1 s) err s in
              match after_fn op idempotent idx cn err last s with
              | (s, inl r) => (s, (l, r))
              | (s, inr last) => do_loop op idempotent fn n (S attempt) last l s
              end
          end
      end
  end.

Definition do {L} (op : string) (idempotent : bool) (fn : M (bst W L) unit) (l : L) s
    : St W * (L * option goerr) :=
  do_loop op idempotent fn (Z.to_nat (cfg_maxRetries (c_cfg (st_client s)))) 1 None l s.

Definition call {L} (op : string) (fn : M (bst W L) unit) (l : L) s := do op false fn l s.
Definition read {L} (op : string) (fn : M (bst W L) unit) (l : L) s := do op true fn l s.

(** ** New *)

Fixpoint new_loop (n : nat) (last : option goerr) s : St W * (option goerr + unit) :=
  match n with
  | O => (s, inl last)
  | S n =>
      match pick s with
      | (s, None) => (s, inl last)
      | (s, Some idx) =>
          match newConn (c_endpoints (st_client s) !!! idx) (c_cfg (st_client s)) (c_krbSession (st_client s)) s with
          | (s, inl err) => new_loop n (Some err) (markFailed idx "dial" s)
          | (s, inr cn) => (upd_pool idx (fun p => send_idle cn (live_add 1 p)) s, inr tt)
          end
      end
  end.

(** The Client New dials with. *)
Definition initial_client (cfg : config) (krb : option session) (eps : list Endpoint)
    (draws : nat -> option Z) : Client W :=
  mkClient cfg krb eps (Cluster.New (length eps) (cfg_randomOrder cfg) draws)
    (replicate (length eps) (mkPool [] 0)) false ∅.

Definition connect (s : St W) : St W * option goerr :=
  match new_loop (length (c_endpoints (st_client s))) None s with
  | (s, inr _) => (s, None)
  | (s, inl last) =>
      (upd_client (fun c => set_krb (close_session (c_krbSession c)) c) s,
       wrapError "New" (errors_Join [Some (ESentinel ErrUnavailable); last]))
  end.

(** The state, when the dial loop was reached, and before that what was logged; and New's
    error. *)
Definition New (uris : string) (opts : list Option) (w : W) : W * ((list logrec + St W) * option goerr) :=
  let cfg := effective_config (env_osUser env w) opts in
  match ParseEndpoints uris with
  | inl err => (w, (inl [], wrapAs "New" ErrInvalidOperation (Some err)))
  | inr eps =>
      match validateAuth cfg eps w with
      | Some err => (w, (inl [], wrapAs "New" ErrInvalidOperation (Some err)))
      | None =>
          match validateTransport cfg eps with
          | Some err => (w, (inl [], wrapAs "New" ErrInvalidOperation (Some err)))
          | None =>
              match newKerberosSession cfg eps w with
              | (w, inl err) => (w, (inl (warnCleartext cfg eps), wrapAs "New" ErrInvalidOperation (Some err)))
              | (w, inr krb) =>
                  let s := mkSt (initial_client cfg krb eps (env_shuffle env w)) w (warnCleartext cfg eps) [] in
                  let '(s, err) := connect s in (st_world s, (inr s, err))
              end
          end
      end
  end.

(** ** Recovery probe *)

Definition probe_one (idx : nat) s : St W :=
  let ep := uri_of idx s in
  match newConn (c_endpoints (st_client s) !!! idx) (c_cfg (st_client s)) (c_krbSession (st_client s)) s with
  | (s, inl err) => log LevelDebug "probe failed" [AStr "endpoint" ep; AErr "err" err] s
  | (s, inr cn) =>
      match getStatus (rpc cn) (st_world s) with
      | (w, inl err) =>
          log LevelDebug "probe failed" [AStr "endpoint" ep; AErr "err" err] (close_conn cn (set_w w s))
      | (w, inr _) =>
          let s := log LevelDebug "probe succeeded" [AStr "endpoint" ep] (set_w w s) in
          let s := markHealthy idx "probe" s in
          if c_closed (st_client s) then close_conn cn s
          else
            let s := upd_pool idx (live_add 1) s in
            if negb (idle_full idx s) then upd_pool idx (send_idle cn) s
            else upd_pool idx (live_add (-1)) (close_conn cn s)
      end
  end.

Definition probeCooling s : St W :=
  foldl (fun s idx => probe_one idx s) s (Cooling (c_cluster (st_client s)) (env_now env (st_world s))).

(** One tick of [recoveryProbe]'s loop, until Close cancels its context. *)
Definition recoveryProbe_tick s : St W :=
  if c_closed (st_client s) then s else probeCooling s.
End client.
