(* ===== verification/Demo.v ===== *)
(** * Demo: a small concrete world

    The world the witnesses of the client's theorems run in: a trace of the
    events that reached it, a clock that ticks once per event, hosts that refuse
    connections when their name starts with "down", and servers whose RPCs all
    answer UNKNOWN_METHOD except a few: two tables can be listed and fetched, and
    partitions added and dropped, except the one named p=3. *)

From S2P Require Import Prelude Errors Cluster GoMonad Wire Options Conn Types Uri Convert Client.

Definition trace : Type := list string.

Definition event (e : string) : M trace unit := fun w => (w ++ [e], inr tt).
Definition unknown_method {A} (name : string) : M trace A :=
  fun w => (w ++ [name], inl (EApp UNKNOWN_METHOD ("unknown method " +:+ name))).

Definition demoRpcs : rpcs trace := {|
  getCatalogs := unknown_method "get_catalogs";
  getCatalog := fun _ => unknown_method "get_catalog";
  createCatalog := fun _ => unknown_method "create_catalog";
  dropCatalog := fun _ => unknown_method "drop_catalog";
  getAllDatabases := fun w => (w ++ ["get_all_databases"], inr (Some ["default"]));
  getDatabases := fun _ => unknown_method "get_databases";
  getDatabase := fun _ => unknown_method "get_database";
  createDatabase := fun _ => event "create_database";
  dropDatabase := fun _ _ _ => unknown_method "drop_database";
  getAllTables := fun _ w => (w ++ ["get_all_tables"], inr (Some ["a"; "b"]));
  getTableReq := fun _ => unknown_method "get_table_req";
  getTableObjectsByNameReq := fun r w =>
    (w ++ ["get_table_objects_by_name_req"],
     inr (mk_wGetTablesResult_ (Some (map (fun _ => Some NewTable) (elems (wGetTablesRequest_TblNames r))))));
  createTable := fun _ => unknown_method "create_table";
  alterTable := fun _ _ _ => unknown_method "alter_table";
  dropTable := fun _ _ _ => unknown_method "drop_table";
  getPartitions := fun _ _ _ => unknown_method "get_partitions";
  getPartitionsReq := fun _ => unknown_method "get_partitions_req";
  getPartitionNames := fun _ _ _ => unknown_method "get_partition_names";
  addPartitionsReq := fun r w =>
    (w ++ ["add_partitions_req " +:+ Itoa (Z.of_nat (length (elems (wAddPartitionsRequest_Parts r))))], inr NewAddPartitionsResult_);
  alterPartitions := fun _ _ _ => unknown_method "alter_partitions";
  alterPartitionsReq := fun _ => unknown_method "alter_partitions_req";
  dropPartition := fun _ _ _ _ => unknown_method "drop_partition";
  dropPartitionsReq := fun r w =>
    let names := match wDropPartitionsRequest_Parts r with Some p => elems (wRequestPartsSpec_Names p) | None => [] end in
    (w ++ ["drop_partitions_req " +:+ String.concat "," names],
     if existsb (String.eqb "p=3") names then inl (EApp INTERNAL_ERROR "p=3 is in use") else inr tt);
  getConfigValue := fun _ d w => (w ++ ["get_config_value"], inr d);
  getStatus := fun w => (w ++ ["getStatus"], inr 2);
  getVersion := fun w => (w ++ ["getVersion"], inr "3.0");
  setUgi := fun t u gs w => (w ++ ["set_ugi " +:+ u], inr gs);
  alterDatabase := fun _ _ => unknown_method "alter_database";
  getPartitionsByNames := fun _ _ _ => unknown_method "get_partitions_by_names";
  getPartitionsByNamesReq := fun _ => unknown_method "get_partitions_by_names_req";
  getPartitionsByFilter := fun _ _ _ _ => unknown_method "get_partitions_by_filter";
  getPartitionNamesPs := fun _ _ _ _ => unknown_method "get_partition_names_ps";
  getPartitionNamesPsReq := fun _ => unknown_method "get_partition_names_ps_req";
  getNextNotification := fun _ => unknown_method "get_next_notification";
  getCurrentNotificationEventId := unknown_method "get_current_notificationEventId";
  getTableStatisticsReq := fun _ => unknown_method "get_table_statistics_req";
  openTxns := fun _ => unknown_method "open_txns";
  commitTxn := fun _ => unknown_method "commit_txn";
  abortTxn := fun _ => unknown_method "abort_txn";
  heartbeat := fun _ => unknown_method "heartbeat";
  lock := fun _ => unknown_method "lock";
  checkLock := fun _ => unknown_method "check_lock";
  unlock := fun _ => unknown_method "unlock" |}.

Definition refused (host : string) : goerr := ENet ("dial tcp " +:+ host +:+ ": connect: connection refused") None.

Definition demoDial (host : string) : M trace (tconn trace) := fun w =>
  match strip_prefix "down" host with
  | Some _ => (w ++ ["refused " +:+ host], inl (refused host))
  | None => (w ++ ["dial " +:+ host], inr (mkTconn (event ("close " +:+ host)) demoRpcs))
  end.

Definition demoEnv : Env trace := {|
  env_ctxErr := fun _ => None;
  env_ctxDeadline := fun _ => false;
  env_now := fun w => Z.of_nat (length w) * Second;
  env_draw := fun w => (w, Some (Second / 2));
  env_shuffle := fun _ _ => None;
  env_osUser := fun _ => Some "me";
  env_dialHook := fun w => w;
  env_DialBinary := fun host _ _ => demoDial host;
  env_NewHTTP := fun url _ => demoDial url;
  env_krbValidate := fun _ _ => None;
  env_NewKerberosSession := fun _ => ret tt;
  env_wait := fun _ s => (s, SelDone) |}.

(** A client on two endpoints, the first of which is down, with an observer. *)
Definition demoClient : list logrec + St trace :=
  fst (snd (@New trace demoUrl demoEnv "thrift://down1,thrift://up1"
              [WithRPCObserver (Some (fun _ => None)); WithPoolSize 1] [])).
Definition demoSt : St trace :=
  match demoClient with
  | inr s => s
  | inl _ => mkSt (mkClient newConfig None [] (Cluster.New 0 false (fun _ => None)) [] false ∅) [] [] []
  end.

Definition demoConn : conn trace := mkConn (event "close up1:9083") demoRpcs ∅ catalogUnknown.
Definition demoBst {L} (l : L) : bst trace L := mkBst demoConn [] ∅ l.

Example tryReq_fallback_witness :
  let req := bind (rpcM (W := trace) (fun r => getPartitionsReq r NewPartitionsRequest))
               (fun _ => assign (fun _ => 1%nat)) in
  let legacy := bind (rpcM getAllDatabases) (fun _ => assign (fun _ => 2%nat)) in
  let once := tryReq "get_partitions_req" req legacy (demoBst 0%nat) in
  b_loc (fst once) = 2%nat /\
  forall B (req' legacy' : M (bst trace nat) B),
    tryReq "get_partitions_req" req' legacy' (fst once) = legacy' (fst once).
Proof.
  split; [vm_compute; reflexivity|].
  apply (tryReq_fallback "get_partitions_req"
    (bind (rpcM (W := trace) (fun r => getPartitionsReq r NewPartitionsRequest))
               (fun _ => assign (fun _ => 1%nat)))
    (bind (rpcM getAllDatabases) (fun _ => assign (fun _ => 2%nat))) (demoBst 0%nat) eq_refl).
  auto with hms.
Defined.
