(* ===== verification/ClientFacts.v ===== *)
(** * ClientFacts: the theorems on client.go

    The retry loop ([do], [call], [read]), what it does to the pool and to the
    endpoints' health, [New]'s dial loop, and [Close]. *)

From S2P Require Import Prelude Errors Cluster GoMonad Wire Options Conn Types Uri Client Demo.

(** ** Shape of a state *)

(** The index spaces agree: cluster, pools and endpoints. *)
Record inv {W} (n : nat) (s : St W) : Prop := {
  inv_wf : wf n (c_cluster (st_client s));
  inv_pools : length (c_pools (st_client s)) = n;
  inv_eps : length (c_endpoints (st_client s)) = n;
}.

(** Conns of pool [idx] that are dialed and not idle. *)
Definition loan {W} (idx : nat) (s : St W) : Z :=
  live (pool idx (st_client s)) - Z.of_nat (length (idle (pool idx (st_client s)))).

(** Nobody else is using the pools: [k idx] conns of pool [idx] are on loan,
    and every idle buffer is within its capacity. *)
Record settled {W} (n : nat) (k : nat -> Z) (s : St W) : Prop := {
  q_inv : inv n s;
  q_size : 1 <= cfg_poolSize (c_cfg (st_client s));
  q_loan : forall j, (j < n)%nat -> loan j s = k j;
  q_idle : forall j, (j < n)%nat ->
    Z.of_nat (length (idle (pool j (st_client s)))) <= cfg_poolSize (c_cfg (st_client s));
  q_closed : c_closed (st_client s) = true ->
    forall j, (j < n)%nat -> idle (pool j (st_client s)) = [];
}.

(** No conn is on loan; one of pool [idx] is. *)
Definition none : nat -> Z := fun _ => 0.
Definition one (idx : nat) : nat -> Z := fun j => if decide (j = idx) then 1 else 0.
Definition quiet {W} (n : nat) (s : St W) : Prop := settled n none s.

Section facts.
Context {W : Type} {U : UrlLib}.
Implicit Types (s : St W) (env : Env W).

(** ** Projections of the updates *)

Lemma st_client_log l m a s : st_client (log l m a s) = st_client s.
Proof. done. Qed.
Lemma st_world_log l m a s : st_world (log l m a s) = st_world s.
Proof. done. Qed.

Lemma pool_upd_eq n idx f s :
  inv n s -> (idx < n)%nat -> pool idx (st_client (upd_pool idx f s)) = f (pool idx (st_client s)).
Proof.
  intros I Hi. unfold pool; simpl. rewrite list_lookup_total_alter, decide_True; [done|].
  by rewrite (inv_pools _ _ I).
Qed.
Lemma pool_upd_ne idx j f s : j <> idx -> pool j (st_client (upd_pool idx f s)) = pool j (st_client s).
Proof. intros Hne. unfold pool; simpl. rewrite list_lookup_total_alter, decide_False; [done|]. by intros [-> _]. Qed.

Lemma inv_upd_pool n idx f s : inv n s -> inv n (upd_pool idx f s).
Proof. intros []; split; simpl; rewrite ?length_alter; done. Qed.
Lemma inv_log n l m a s : inv n s -> inv n (log l m a s).
Proof. intros []; by split. Qed.
Lemma inv_cluster n k s : inv n s -> wf n k -> inv n (upd_client (set_cluster k) s).
Proof. intros []; by split. Qed.

Lemma inv_markFailed env n idx r s : inv n s -> inv n (markFailed env idx r s).
Proof.
  intros I. unfold markFailed. destruct (env_draw env (st_world s)) as [w d].
  destruct (MarkFailed _ _ _ _) as [b k] eqn:E.
  assert (wf n k) by (change k with (snd (b, k)); rewrite <- E; apply MarkFailed_wf, I).
  destruct I. by destruct b; split.
Qed.
Lemma inv_markHealthy env n idx r s : inv n s -> inv n (markHealthy env idx r s).
Proof.
  intros I. unfold markHealthy. destruct (MarkHealthy _ _ _) as [b k] eqn:E.
  assert (wf n k) by (change k with (snd (b, k)); rewrite <- E; apply MarkHealthy_wf, I).
  destruct I. by destruct b; split.
Qed.
Lemma inv_pick env n s s' r : inv n s -> pick env s = (s', r) -> inv n s'.
Proof.
  unfold pick. intros I. destruct (Pick _ _) as [o k] eqn:E. intros [= <- _].
  apply inv_cluster; [done|]. change k with (snd (o, k)). rewrite <- E. apply Pick_wf, I.
Qed.
Lemma pick_lt env n s s' idx : inv n s -> pick env s = (s', Some idx) -> (idx < n)%nat.
Proof.
  unfold pick. intros I. destruct (Pick _ _) as [o k] eqn:E. intros [= _ ->].
  destruct n as [|n].
  - unfold Pick in E. rewrite (wf_length _ _ (inv_wf _ _ I)) in E. done.
  - by destruct (Pick_Some (S n) _ _ _ _ (inv_wf _ _ I) ltac:(lia) E) as (? & _).
Qed.

(** What the health bookkeeping, the observer and the picks leave alone. *)
Definition same_pools s s' : Prop :=
  c_pools (st_client s') = c_pools (st_client s) /\ c_cfg (st_client s') = c_cfg (st_client s) /\
  c_closed (st_client s') = c_closed (st_client s) /\
  c_endpoints (st_client s') = c_endpoints (st_client s) /\
  c_krbSession (st_client s') = c_krbSession (st_client s).

Lemma same_pools_refl s : same_pools s s.
Proof. done. Qed.
Lemma same_pools_trans s1 s2 s3 : same_pools s1 s2 -> same_pools s2 s3 -> same_pools s1 s3.
Proof. unfold same_pools. intros (-> & -> & -> & -> & ->) (-> & -> & -> & -> & ->). done. Qed.
Lemma same_markFailed env idx r s : same_pools s (markFailed env idx r s).
Proof.
  unfold markFailed. destruct (env_draw env (st_world s)) as [w d].
  destruct (MarkFailed _ _ _ _) as [[] k]; done.
Qed.
Lemma same_markHealthy env idx r s : same_pools s (markHealthy env idx r s).
Proof. unfold markHealthy. destruct (MarkHealthy _ _ _) as [[] k]; done. Qed.
Lemma same_observe op idx a d e s : same_pools s (observe op idx a d e s).
Proof. unfold observe. do 2 (case_match; try done). Qed.
Lemma same_pick env s s' r : pick env s = (s', r) -> same_pools s s'.
Proof. unfold pick. destruct (Pick _ _) as [o k]. by intros [= <- _]. Qed.
Lemma same_newConn env ep cfg krb s s' r : newConn env ep cfg krb s = (s', r) -> same_pools s s'.
Proof. unfold newConn. destruct (newConn_raw _ _ _ _ _) as [w [e|cn]]; by intros [= <- _]. Qed.
Lemma same_run_fn {L} (fn : M (bst W L) unit) cn l s s' cn' l' e :
  run_fn fn cn l s = (s', cn', l', e) -> same_pools s s'.
Proof. unfold run_fn. destruct (fn _) as [b r]. by intros [= <- _ _ _]. Qed.

Lemma inv_same n s s' :
  inv n s -> same_pools s s' -> wf n (c_cluster (st_client s')) -> inv n s'.
Proof. intros I (Hp & _ & _ & He & _) Hw. split; [done|by rewrite Hp; apply I|by rewrite He; apply I]. Qed.
Lemma same_loan j s s' : same_pools s s' -> loan j s' = loan j s.
Proof. unfold loan, pool. by intros (-> & _). Qed.
Lemma settled_same n k s s' :
  settled n k s -> same_pools s s' -> wf n (c_cluster (st_client s')) -> settled n k s'.
Proof.
  intros Q S Hw. pose proof (inv_same _ _ _ (q_inv _ _ _ Q) S Hw) as I. split; [done| | | |];
    try (intros j Hj; rewrite (same_loan j _ _ S); by apply Q); destruct S as (Hp & Hc & Hcl & _);
    unfold pool; rewrite ?Hp, ?Hc, ?Hcl; apply Q.
Qed.
Lemma wf_observe n op idx a d e s :
  wf n (c_cluster (st_client s)) -> wf n (c_cluster (st_client (observe op idx a d e s))).
Proof. unfold observe. do 2 (case_match; try done). Qed.
Lemma wf_newConn n env ep cfg krb s s' r :
  newConn env ep cfg krb s = (s', r) -> wf n (c_cluster (st_client s)) -> wf n (c_cluster (st_client s')).
Proof. unfold newConn. destruct (newConn_raw _ _ _ _ _) as [w [e|cn]]; by intros [= <- _]. Qed.
Lemma wf_run_fn {L} n (fn : M (bst W L) unit) cn l s s' cn' l' e :
  run_fn fn cn l s = (s', cn', l', e) -> wf n (c_cluster (st_client s)) -> wf n (c_cluster (st_client s')).
Proof. unfold run_fn. destruct (fn _) as [b r]. by intros [= <- _ _ _]. Qed.

Lemma same_close_conn cn s : same_pools s (close_conn cn s).
Proof. unfold close_conn, closeErr. by destruct (close cn (st_world s)). Qed.
Lemma wf_close_conn n cn s :
  wf n (c_cluster (st_client s)) -> wf n (c_cluster (st_client (close_conn cn s))).
Proof. unfold close_conn, closeErr. by destruct (close cn (st_world s)). Qed.

(** ** One pool operation *)

Lemma settled_ext n k k' s : (forall j, (j < n)%nat -> k j = k' j) -> settled n k s -> settled n k' s.
Proof.
  intros E Q. split; try apply Q. intros j Hj. rewrite <- E by done. by apply Q.
Qed.

Lemma settled_upd n k idx f d s :
  settled n k s -> (idx < n)%nat ->
  let p := pool idx (st_client s) in
  live (f p) - Z.of_nat (length (idle (f p))) = live p - Z.of_nat (length (idle p)) + d ->
  Z.of_nat (length (idle (f p))) <= cfg_poolSize (c_cfg (st_client s)) ->
  (c_closed (st_client s) = true -> idle (f p) = []) ->
  settled n (fun j => k j + if decide (j = idx) then d else 0) (upd_pool idx f s).
Proof.
  intros Q Hi p Hl Hs Hc. pose proof (q_inv _ _ _ Q) as I.
  split; [by apply inv_upd_pool|apply Q|intros j Hj|intros j Hj|intros Hcl j Hj]; unfold loan;
    (destruct (decide (j = idx)) as [->|Hne];
     [rewrite (pool_upd_eq n) by done|rewrite pool_upd_ne by done]).
  - fold p. rewrite Hl. unfold p. pose proof (q_loan _ _ _ Q idx Hj) as E. unfold loan in E. lia.
  - pose proof (q_loan _ _ _ Q j Hj) as E. unfold loan in E. lia.
  - done.
  - by apply Q.
  - by apply Hc.
  - by apply Q.
Qed.

Lemma take_idle_settled n k idx cn s s' :
  settled n k s -> (idx < n)%nat -> take_idle idx s = Some (cn, s') ->
  settled n (fun j => k j + one idx j) s'.
Proof.
  intros Q Hi. unfold take_idle. destruct (idle (pool idx (st_client s))) as [|c rest] eqn:E; [done|].
  intros [= <- <-]. apply settled_upd; try done; simpl; rewrite ?E; simpl.
  - lia.
  - pose proof (q_idle _ _ _ Q idx Hi) as H. rewrite E in H. simpl in H. lia.
  - intros Hc. pose proof (q_closed _ _ _ Q Hc idx Hi) as H. congruence.
Qed.

Lemma live_settled n k idx d s :
  settled n k s -> (idx < n)%nat ->
  settled n (fun j => k j + if decide (j = idx) then d else 0) (upd_pool idx (live_add d) s).
Proof.
  intros Q Hi. apply settled_upd; try done; simpl; [lia|by apply Q|]. intros Hc. by apply Q.
Qed.

(** An empty pool nobody else uses has room for a dial. *)
Lemma quiet_room n idx s : quiet n s -> (idx < n)%nat -> take_idle idx s = None ->
  live (pool idx (st_client s)) < cfg_poolSize (c_cfg (st_client s)).
Proof.
  intros Q Hi Et. pose proof (q_loan _ _ _ Q idx Hi) as E. pose proof (q_size _ _ _ Q).
  unfold take_idle in Et. destruct (idle _) eqn:Ei; [|done].
  unfold loan, none in E. rewrite Ei in E. simpl in E. lia.
Qed.

Lemma grow_settled env n idx s s' r :
  quiet n s -> (idx < n)%nat -> grow env idx s = (s', r) ->
  settled n (match r with inr _ => one idx | inl _ => none end) s'.
Proof.
  intros Q Hi. unfold grow.
  pose proof (live_settled n none idx 1 s Q Hi) as Q1. set (s1 := upd_pool _ _ s) in *.
  destruct (c_closed (st_client s1)) eqn:Ec.
  - intros [= <- <-]. eapply settled_ext; [|apply (live_settled n _ idx (-1) s1 Q1 Hi)].
    intros j _. unfold none. simpl. case_decide; lia.
  - destruct (newConn _ _ _ _ _) as [s2 r2] eqn:En.
    pose proof (settled_same n _ s1 s2 Q1 (same_newConn _ _ _ _ _ _ _ En)
      (wf_newConn _ _ _ _ _ _ _ _ En (inv_wf _ _ (q_inv _ _ _ Q1)))) as Q2.
    destruct r2 as [e|cn]; intros [= <- <-].
    + eapply settled_ext; [|apply (live_settled n _ idx (-1) s2 Q2 Hi)].
      intros j _. unfold none. simpl. case_decide; lia.
    + eapply settled_ext; [|exact Q2]. intros j _. unfold none, one. case_decide; lia.
Qed.

(** With nothing on loan, [acquire] never blocks. *)
Lemma acquire_settled env n idx s s' r :
  quiet n s -> (idx < n)%nat -> acquire env idx s = (s', r) ->
  settled n (match r with inr _ => one idx | inl _ => none end) s'.
Proof.
  intros Q Hi. unfold acquire. destruct (c_closed (st_client s)) eqn:Ec; [by intros [= <- <-]|].
  destruct (take_idle idx s) as [[cn s1]|] eqn:Et.
  - intros [= <- <-]. eapply settled_ext; [|exact (take_idle_settled n none idx cn s s1 Q Hi Et)].
    intros j _; unfold none; lia.
  - destruct (Z.ltb_spec (live (pool idx (st_client s))) (cfg_poolSize (c_cfg (st_client s)))) as [|Hge];
      [by apply grow_settled|].
    pose proof (quiet_room n idx s Q Hi Et). lia.
Qed.

Lemma discardWith_settled n idx cn r s :
  settled n (one idx) s -> (idx < n)%nat -> quiet n (discardWith idx cn r s).
Proof.
  intros Q Hi. unfold discardWith.
  pose proof (settled_same n _ s (close_conn cn s) Q (same_close_conn cn s)
    (wf_close_conn n cn s (inv_wf _ _ (q_inv _ _ _ Q)))) as Q1.
  pose proof (live_settled n _ idx (-1) _ Q1 Hi) as Q2.
  eapply settled_same with (s := upd_pool idx (live_add (-1)) (close_conn cn s)); [|done|apply Q2].
  eapply settled_ext; [|exact Q2]. intros j _. unfold one, none. simpl. case_decide; lia.
Qed.

Lemma release_settled n idx cn s :
  settled n (one idx) s -> (idx < n)%nat -> quiet n (release idx cn s).
Proof.
  intros Q Hi. unfold release. destruct (c_closed (st_client s)) eqn:Ec; [by apply discardWith_settled|].
  destruct (idle_full idx s) eqn:Ef; simpl; [by apply discardWith_settled|].
  unfold idle_full in Ef. apply Z.leb_gt in Ef.
  eapply settled_same with (s := upd_pool idx (send_idle cn) s); [|done|apply Q].
  eapply settled_ext; [|apply (settled_upd n (one idx) idx (send_idle cn) (-1) s Q Hi)].
  - intros j _. unfold one, none. case_decide; lia.
  - simpl. rewrite length_app. simpl. lia.
  - simpl. rewrite length_app. simpl. lia.
  - by rewrite Ec.
Qed.

Lemma after_fn_settled env op idem n idx cn err last s s' r :
  settled n (one idx) s -> (idx < n)%nat ->
  after_fn env op idem idx cn err last s = (s', r) -> quiet n s'.
Proof.
  intros Q Hi. unfold after_fn.
  assert (forall s0 rs, quiet n s0 -> quiet n (markHealthy env idx rs s0)) as Hh.
  { intros s0 rs Q0. eapply settled_same; [exact Q0|apply same_markHealthy|].
    apply (inv_markHealthy env n idx rs s0), Q0. }
  assert (forall s0 rs, quiet n s0 -> quiet n (markFailed env idx rs s0)) as Hf.
  { intros s0 rs Q0. eapply settled_same; [exact Q0|apply same_markFailed|].
    apply (inv_markFailed env n idx rs s0), Q0. }
  destruct err as [e|]; [|intros [= <- _]; by apply Hh, release_settled].
  destruct (unavailable e).
  - pose proof (discardWith_settled n idx cn "unavailable" s Q Hi) as Qd.
    unfold discard. destruct (env_ctxErr env _); [by intros [= <- _]|].
    destruct idem; intros [= <- _]; [|by apply Hf].
    eapply settled_same with (s := markFailed env idx op (discardWith idx cn "unavailable" s));
      [by apply Hf|done|]. apply (inv_markFailed env n idx op _ (q_inv _ _ _ Qd)).
  - destruct (isProtocolError e); intros [= <- _];
      [by apply Hh, discardWith_settled|by apply Hh, release_settled].
Qed.

(** ** The loop *)

Lemma quiet_markFailed env n idx r s : quiet n s -> quiet n (markFailed env idx r s).
Proof.
  intros Q. eapply settled_same; [exact Q|apply same_markFailed|].
  apply (inv_markFailed env n idx r s), Q.
Qed.
Lemma settled_observe n k op idx a d e s :
  settled n k s -> settled n k (observe op idx a d e s).
Proof.
  intros Q. eapply settled_same; [exact Q|apply same_observe|apply wf_observe, Q].
Qed.
Lemma settled_run_fn {L} n k (fn : M (bst W L) unit) cn l s s' cn' l' e :
  settled n k s -> run_fn fn cn l s = (s', cn', l', e) -> settled n k s'.
Proof.
  intros Q E. eapply settled_same; [exact Q|by eapply same_run_fn|eapply wf_run_fn; [done|apply Q]].
Qed.
Lemma quiet_pick env n s s' r : quiet n s -> pick env s = (s', r) -> quiet n s'.
Proof.
  intros Q E. eapply settled_same; [exact Q|by eapply same_pick|]. by apply (inv_pick env n s s' r), E; apply Q.
Qed.

Lemma do_loop_quiet {L} env n op idem (fn : M (bst W L) unit) m : forall attempt last l s s' r,
  quiet n s -> do_loop env op idem fn m attempt last l s = (s', r) -> quiet n s'.
Proof.
  induction m as [|m IH]; intros attempt last l s s' r Q; cbn [do_loop]; [by intros [= <- _]|].
  destruct (pick env s) as [s0 [idx|]] eqn:Ep; [|intros [= <- _]; by eapply quiet_pick].
  pose proof (quiet_pick _ _ _ _ _ Q Ep) as Q0.
  pose proof (pick_lt _ _ _ _ _ (q_inv _ _ _ Q) Ep) as Hi.
  destruct (acquire env idx s0) as [s1 [e|cn]] eqn:Ea;
    pose proof (acquire_settled _ _ _ _ _ _ Q0 Hi Ea) as Q1; cbn iota in Q1.
  - pose proof (settled_observe n none op idx attempt (elapsed env s0 s1) (Some e) s1 Q1) as Q2.
    destruct (_ || _); [by intros [= <- _]|]. apply IH.
    eapply settled_same; [apply (quiet_markFailed env n idx "dial"), Q2|done|].
    apply (inv_markFailed env n idx "dial"), Q2.
  - destruct (run_fn fn cn l s1) as [[[s2 cn'] l'] err] eqn:Er.
    pose proof (settled_run_fn _ _ _ _ _ _ _ _ _ _ Q1 Er) as Q2.
    apply (settled_observe n _ op idx attempt (elapsed env s1 s2) err) in Q2.
    destruct (after_fn _ _ _ _ _ _ _ _) as [s3 [res|last']] eqn:Ef;
      pose proof (after_fn_settled _ _ _ _ _ _ _ _ _ _ _ Q2 Hi Ef) as Q3; [by intros [= <- _]|].
    by apply IH.
Qed.

Definition set_wait env (wait : nat -> St W -> St W * selected W) : Env W :=
  mkEnv W (env_ctxErr env) (env_ctxDeadline env) (env_now env) (env_draw env) (env_shuffle env)
    (env_osUser env) (env_dialHook env) (env_DialBinary env) (env_NewHTTP env) (env_krbValidate env)
    (env_NewKerberosSession env) wait.

Lemma acquire_wait env wait n idx s :
  quiet n s -> (idx < n)%nat -> acquire (set_wait env wait) idx s = acquire env idx s.
Proof.
  intros Q Hi. unfold acquire. case_match; [done|]. destruct (take_idle idx s) as [[cn s1]|] eqn:Et; [done|].
  destruct (Z.ltb_spec (live (pool idx (st_client s))) (cfg_poolSize (c_cfg (st_client s)))) as [|Hge]; [done|].
  pose proof (quiet_room n idx s Q Hi Et). lia.
Qed.

Lemma do_loop_wait {L} env wait n op idem (fn : M (bst W L) unit) m : forall attempt last l s,
  quiet n s -> do_loop (set_wait env wait) op idem fn m attempt last l s = do_loop env op idem fn m attempt last l s.
Proof.
  induction m as [|m IH]; intros attempt last l s Q; cbn [do_loop]; [done|].
  change (pick (set_wait env wait) s) with (pick env s).
  destruct (pick env s) as [s0 [idx|]] eqn:Ep; [|done].
  pose proof (quiet_pick _ _ _ _ _ Q Ep) as Q0.
  pose proof (pick_lt _ _ _ _ _ (q_inv _ _ _ Q) Ep) as Hi.
  rewrite (acquire_wait env wait n idx s0 Q0 Hi).
  destruct (acquire env idx s0) as [s1 [e|cn]] eqn:Ea;
    pose proof (acquire_settled _ _ _ _ _ _ Q0 Hi Ea) as Q1; cbn iota in Q1.
  - pose proof (settled_observe n none op idx attempt (elapsed env s0 s1) (Some e) s1 Q1) as Q2.
    change (elapsed (set_wait env wait) s0 s1) with (elapsed env s0 s1).
    change (env_ctxErr (set_wait env wait)) with (env_ctxErr env).
    destruct (_ || _); [done|]. apply IH.
    eapply settled_same; [apply (quiet_markFailed env n idx "dial"), Q2|done|].
    apply (inv_markFailed env n idx "dial"), Q2.
  - destruct (run_fn fn cn l s1) as [[[s2 cn'] l'] err] eqn:Er.
    pose proof (settled_run_fn _ _ _ _ _ _ _ _ _ _ Q1 Er) as Q2.
    change (elapsed (set_wait env wait) s1 s2) with (elapsed env s1 s2).
    apply (settled_observe n _ op idx attempt (elapsed env s1 s2) err) in Q2.
    change (after_fn (set_wait env wait)) with (after_fn env).
    destruct (after_fn _ _ _ _ _ _ _ _) as [s3 [res|last']] eqn:Ef;
      pose proof (after_fn_settled _ _ _ _ _ _ _ _ _ _ _ Q2 Hi Ef) as Q3; [done|].
    by apply IH.
Qed.

Lemma after_fn_call env op idx cn err last s :
  snd (after_fn env op false idx cn err last s) = inl (wrapError op err).
Proof. unfold after_fn. destruct err as [e|]; [|done]. by repeat case_match. Qed.

(** What [call] does with the conn once [fn] returned. *)
Definition settle_call env (op : string) (idx attempt : nat) (s1 : St W) (cn : conn W)
    (err : option goerr) (s2 : St W) : St W :=
  fst (after_fn env op false idx cn err None (observe op idx attempt (elapsed env s1 s2) err s2)).

Lemma after_fn_last env op idx cn err last last' s :
  after_fn env op false idx cn err last s = after_fn env op false idx cn err last' s.
Proof. done. Qed.

(** The loop of a non-idempotent RPC never runs [fn], or runs it once. *)
Definition runs_at_most_once env (op : string) (m attempt : nat) (last : option goerr) (s : St W) : Prop :=
  (exists s' e, forall L (fn : M (bst W L) unit) l,
     do_loop env op false fn m attempt last l s = (s', (l, Some e))) \/
  (exists s0 idx s1 cn a, acquire env idx s0 = (s1, inr cn) /\
     forall L (fn : M (bst W L) unit) l,
       do_loop env op false fn m attempt last l s =
         let '(s2, cn', l', err) := run_fn fn cn l s1 in
         (settle_call env op idx a s1 cn' err s2, (l', wrapError op err))).

Lemma wrapError_Some op e : exists e', wrapError op (Some e) = Some e'.
Proof. unfold wrapError. case_match; eauto. Qed.

Lemma call_loop_once env op m : forall attempt last s,
  (m = 0%nat -> last <> None) -> runs_at_most_once env op m attempt last s.
Proof.
  induction m as [|m IH]; intros attempt last s Hm.
  - left. destruct last as [e|]; [|by destruct Hm]. destruct (wrapError_Some op e) as [e' E].
    exists s, e'. intros. cbn [do_loop]. by rewrite E.
  - destruct (pick env s) as [s0 [idx|]] eqn:Ep.
    + destruct (acquire env idx s0) as [s1 [e|cn]] eqn:Ea.
      * set (s2 := observe op idx attempt (elapsed env s0 s1) (Some e) s1).
        destruct (bool_decide (is_Some (env_ctxErr env (st_world s2))) || is_closed e) eqn:Eg.
        -- left. destruct (wrapError_Some op e) as [e' E]. exists s2, e'. intros. cbn [do_loop].
           rewrite Ep, Ea. fold s2. by rewrite Eg, E.
        -- destruct (IH (S attempt) (Some e) (retry_log op idx e (markFailed env idx "dial" s2)) ltac:(done))
             as [(s' & e' & H)|(s0' & idx' & s1' & cn & a & Ha & H)]; [left|right].
           ++ exists s', e'. intros. cbn [do_loop]. rewrite Ep, Ea. fold s2. by rewrite Eg, H.
           ++ exists s0', idx', s1', cn, a. split; [done|]. intros. cbn [do_loop].
              rewrite Ep, Ea. fold s2. by rewrite Eg, H.
      * right. exists s0, idx, s1, cn, attempt. split; [done|]. intros. cbn [do_loop]. rewrite Ep, Ea.
        destruct (run_fn fn cn l s1) as [[[s2 cn'] l'] err].
        unfold settle_call. rewrite (after_fn_last _ _ _ _ _ None last).
        pose proof (after_fn_call env op idx cn' err last (observe op idx attempt (elapsed env s1 s2) err s2)) as E.
        destruct (after_fn _ _ _ _ _ _ _ _) as [s3 res]. simpl in *. by rewrite E.
    + left. assert (exists e, wrapError op (errors_Join [Some (ESentinel ErrUnavailable); last]) = Some e) as [e E].
      { destruct last; apply wrapError_Some. }
      exists s0, e. intros. cbn [do_loop]. by rewrite Ep, E.
Qed.
End facts.

(** ** What the loop reports *)

(** While a caller is blocked, the other goroutines change neither the (immutable)
    configuration nor what this call has observed. *)
Class WaitLaws {W} (env : Env W) : Prop := {
  wait_cfg idx s : c_cfg (st_client (fst (env_wait env idx s))) = c_cfg (st_client s);
  wait_obs idx s : st_obs (fst (env_wait env idx s)) = st_obs s;
}.

(** [infos] is what a call starting at attempt [a] reported, and [r] its result:
    consecutive attempt numbers, every attempt but the last failed, and the call
    succeeded exactly if its last attempt did. *)
Record reported (op : string) (a : nat) (infos : list RPCInfo) (r : option goerr) : Prop := {
  rep_attempt : map info_Attempt infos = seq a (length infos);
  rep_method : Forall (fun i => info_Method i = op) infos;
  rep_failed : forall i, In i (removelast infos) -> info_Err i <> None;
  rep_result : r = None <-> exists i, list.last infos = Some i /\ info_Err i = None;
}.

Lemma reported_cons op a i infos r :
  info_Attempt i = a -> info_Method i = op -> info_Err i <> None -> infos <> [] \/ r <> None ->
  reported op (S a) infos r -> reported op a (i :: infos) r.
Proof.
  intros Ha Hm He Hne [R1 R2 R3 R4]. split; simpl.
  - by rewrite Ha, R1.
  - by constructor.
  - destruct infos as [|j infos]; [done|]. intros k [<-|Hk]; [done|]. by apply R3.
  - destruct infos as [|j infos]; [|exact R4]. destruct Hne as [|Hne]; [done|]. split; [done|].
    intros (k & [= <-] & Hk). done.
Qed.

Lemma reported_one op a i r :
  info_Attempt i = a -> info_Method i = op -> (r = None <-> info_Err i = None) -> reported op a [i] r.
Proof. intros Ha Hm Hr. split; simpl; [by rewrite Ha|by constructor|done|]. rewrite Hr. naive_solver. Qed.

Section observed.
Context {W : Type} {U : UrlLib} (env : Env W) {HW : WaitLaws env} (f : RPCInfo -> option string).
Implicit Types s : St W.

Definition obs_cfg s : Prop := cfg_observer (c_cfg (st_client s)) = Some f.

Lemma observe_obs op idx a d e s : obs_cfg s ->
  exists i, st_obs (observe op idx a d e s) = st_obs s ++ [i] /\
    info_Attempt i = a /\ info_Method i = op /\ info_Err i = e.
Proof. unfold obs_cfg, observe. intros ->. case_match; eexists; split_and!; done. Qed.
Lemma obs_cfg_same s s' : same_pools s s' -> obs_cfg s -> obs_cfg s'.
Proof. unfold obs_cfg. by intros (_ & -> & _). Qed.
Lemma newConn_obs ep cfg krb s s' r : newConn env ep cfg krb s = (s', r) -> st_obs s' = st_obs s.
Proof. unfold newConn. destruct (newConn_raw _ _ _ _ _) as [w [e|cn]]; by intros [= <- _]. Qed.
Lemma pick_obs s s' r : pick env s = (s', r) -> st_obs s' = st_obs s.
Proof. unfold pick. destruct (Pick _ _) as [o k]. by intros [= <- _]. Qed.
Lemma markFailed_obs idx r s : st_obs (markFailed env idx r s) = st_obs s.
Proof. unfold markFailed. destruct (env_draw env _). destruct (MarkFailed _ _ _ _) as [[] k]; done. Qed.
Lemma markHealthy_obs idx r s : st_obs (markHealthy env idx r s) = st_obs s.
Proof. unfold markHealthy. destruct (MarkHealthy _ _ _) as [[] k]; done. Qed.
Lemma closeErr_obs (cn : conn W) s : st_obs (close_conn cn s) = st_obs s.
Proof. unfold close_conn, closeErr. by destruct (close cn _). Qed.
Lemma discardWith_obs idx (cn : conn W) r s : st_obs (discardWith idx cn r s) = st_obs s.
Proof. apply closeErr_obs. Qed.
Lemma release_obs idx (cn : conn W) s : st_obs (release idx cn s) = st_obs s.
Proof. unfold release. case_match; [apply discardWith_obs|]. case_match; [done|apply discardWith_obs]. Qed.

Lemma acquire_obs idx s s' r : acquire env idx s = (s', r) ->
  st_obs s' = st_obs s /\ (obs_cfg s -> obs_cfg s').
Proof.
  unfold acquire, grow, take_idle, obs_cfg. destruct (c_closed (st_client s)) eqn:Ec; [by intros [= <- _]|].
  destruct (idle _) as [|c0 rest]; [|by intros [= <- _]].
  destruct (_ <? _).
  - destruct (c_closed _); [by intros [= <- _]|]. destruct (newConn _ _ _ _ _) as [s1 [e|cn]] eqn:En;
      pose proof (newConn_obs _ _ _ _ _ _ En) as Ho; apply same_newConn in En as (_ & Hc & _);
      intros [= <- _]; simpl in *; rewrite Ho, Hc; done.
  - pose proof (wait_cfg idx s) as Hc. pose proof (wait_obs idx s) as Ho.
    destruct (env_wait env idx s) as [s1 []]; intros [= <- _]; simpl in *; rewrite Hc, Ho; done.
Qed.

Lemma after_fn_obs op idem idx (cn : conn W) err last s s' r :
  after_fn env op idem idx cn err last s = (s', r) ->
  st_obs s' = st_obs s /\ (obs_cfg s -> obs_cfg s') /\
  match r with
  | inl r => r = wrapError op err
  | inr last' => err <> None /\ last' = err
  end.
Proof.
  assert (Hcfg : forall s0, c_cfg (st_client s0) = c_cfg (st_client s) -> obs_cfg s -> obs_cfg s0)
    by (unfold obs_cfg; intros s0 ->; done).
  assert (Hd : forall r0, c_cfg (st_client (discardWith idx cn r0 s)) = c_cfg (st_client s)).
  { intros r0. simpl. by destruct (same_close_conn cn s) as (_ & -> & _). }
  assert (Hrel : c_cfg (st_client (release idx cn s)) = c_cfg (st_client s)).
  { unfold release. case_match; [apply Hd|]. case_match; [done|apply Hd]. }
  assert (Hmh : forall r0 s0, c_cfg (st_client (markHealthy env idx r0 s0)) = c_cfg (st_client s0))
    by (intros r0 s0; by destruct (same_markHealthy env idx r0 s0) as (_ & -> & _)).
  assert (Hmf : forall r0 s0, c_cfg (st_client (markFailed env idx r0 s0)) = c_cfg (st_client s0))
    by (intros r0 s0; by destruct (same_markFailed env idx r0 s0) as (_ & -> & _)).
  unfold after_fn, discard. destruct err as [e|].
  - destruct (unavailable e).
    + destruct (env_ctxErr env _).
      * intros [= <- <-]. split_and!; [apply discardWith_obs|by apply Hcfg|done].
      * destruct idem; intros [= <- <-].
        -- split_and!; [simpl; by rewrite markFailed_obs, discardWith_obs| |done|done].
           apply Hcfg. simpl. by rewrite Hmf, Hd.
        -- split_and!; [by rewrite markFailed_obs, discardWith_obs| |done].
           apply Hcfg. by rewrite Hmf, Hd.
    + destruct (isProtocolError e); intros [= <- <-]; split_and!; try done;
        rewrite ?markHealthy_obs, ?discardWith_obs, ?release_obs; try done;
        apply Hcfg; by rewrite Hmh.
  - intros [= <- <-]. split_and!; [by rewrite markHealthy_obs, release_obs| |done].
    apply Hcfg. by rewrite Hmh.
Qed.

Lemma wrapError_None op e : wrapError op e = None <-> e = None.
Proof. destruct e as [e|]; [|done]. destruct (wrapError_Some op e) as [e' ->]. done. Qed.

#[local] Opaque wrapError.
Lemma do_loop_reported {L} op idem (fn : M (bst W L) unit) m : forall a last l s s' l' r,
  obs_cfg s -> (m = 0%nat -> last <> None) ->
  do_loop env op idem fn m a last l s = (s', (l', r)) ->
  exists infos, st_obs s' = st_obs s ++ infos /\ (length infos <= m)%nat /\
    reported op a infos r /\ (infos = [] -> r <> None).
Proof.
  induction m as [|m IH]; intros a last l s s' l' r Hf Hm; cbn [do_loop].
  - intros [= <- <- <-]. exists []. rewrite app_nil_r. split_and!; [done|done| |].
    + split; [done|constructor|done|]. rewrite wrapError_None. split; [by intros ->; destruct Hm|naive_solver].
    + intros _. rewrite wrapError_None. auto.
  - destruct (pick env s) as [s0 [idx|]] eqn:Ep.
    2:{ intros [= <- <- <-]. exists []. rewrite app_nil_r, (pick_obs _ _ _ Ep).
        assert (wrapError op (errors_Join [Some (ESentinel ErrUnavailable); last]) <> None)
          by (rewrite wrapError_None; by destruct last).
        split_and!; [done|simpl; lia| |done]. split; [done|constructor|done|]. naive_solver. }
    pose proof (obs_cfg_same _ _ (same_pick _ _ _ _ Ep) Hf) as Hf0. rewrite <- (pick_obs _ _ _ Ep).
    destruct (acquire env idx s0) as [s1 [e|cn]] eqn:Ea; destruct (acquire_obs _ _ _ _ Ea) as [Ho Hf1];
      specialize (Hf1 Hf0); rewrite <- Ho.
    + set (s2 := observe op idx a (elapsed env s0 s1) (Some e) s1).
      destruct (observe_obs op idx a (elapsed env s0 s1) (Some e) s1 Hf1) as (i & Hi & Hi1 & Hi2 & Hi3).
      fold s2 in Hi. destruct (_ || _).
      * intros [= <- <- <-]. exists [i]. split_and!; [done|simpl; lia| |done].
        apply reported_one; [done|done|]. by rewrite wrapError_None, Hi3.
      * intros Hloop. apply IH in Hloop as (infos & Hinf & Hlen & R & Hne); [| |done].
        2:{ apply (obs_cfg_same s2); [apply same_markFailed|]. by apply (obs_cfg_same s1), Hf1; apply same_observe. }
        exists (i :: infos). split_and!; [|simpl; lia| |done].
        -- rewrite Hinf. simpl. rewrite markFailed_obs, Hi. by rewrite <- app_assoc.
        -- apply reported_cons; try done; [by rewrite Hi3|]. destruct infos; [right; by apply Hne|by left].
    + destruct (run_fn fn cn l s1) as [[[s2 cn'] l2] err] eqn:Er.
      assert (st_obs s2 = st_obs s1) as Ho2.
      { revert Er. unfold run_fn. destruct (fn _). by intros [= <- _ _ _]. }
      pose proof (obs_cfg_same _ _ (same_run_fn _ _ _ _ _ _ _ _ Er) Hf1) as Hf2.
      destruct (observe_obs op idx a (elapsed env s1 s2) err s2 Hf2) as (i & Hi & Hi1 & Hi2 & Hi3).
      pose proof (obs_cfg_same _ _ (same_observe op idx a (elapsed env s1 s2) err s2) Hf2) as Hf3.
      set (s3 := observe op idx a (elapsed env s1 s2) err s2) in *.
      destruct (after_fn env op idem idx cn' err last s3) as [s4 r4] eqn:Ef.
      destruct (after_fn_obs _ _ _ _ _ _ _ _ _ Ef) as (Ho4 & Hf4 & Hr4). specialize (Hf4 Hf3).
      destruct r4 as [res|last'].
      * intros [= <- <- <-]. exists [i]. split_and!; [by rewrite Ho4, Hi, Ho2|simpl; lia| |done].
        apply reported_one; [done|done|]. by rewrite Hr4, wrapError_None, Hi3.
      * intros Hloop. destruct Hr4 as [Herr ->]. apply IH in Hloop as (infos & Hinf & Hlen & R & Hne); [|done|done].
        exists (i :: infos). split_and!; [|simpl; lia| |done].
        -- rewrite Hinf, Ho4, Hi, Ho2. by rewrite <- app_assoc.
        -- apply reported_cons; try done; [by rewrite Hi3|]. destruct infos; [right; by apply Hne|by left].
Qed.
End observed.

(** ** New's dial loop *)

(** The reference: dial each endpoint of a list, in order, until one answers. *)
Fixpoint dial_in_order {W} `{UrlLib} (env : Env W) (idxs : list nat) (last : option goerr) (s : St W)
    : St W * (option goerr + unit) :=
  match idxs with
  | [] => (s, inl last)
  | idx :: idxs =>
      match newConn env (c_endpoints (st_client s) !!! idx) (c_cfg (st_client s)) (c_krbSession (st_client s)) s with
      | (s, inl err) => dial_in_order env idxs (Some err) (markFailed env idx "dial" s)
      | (s, inr cn) => (upd_pool idx (fun p => send_idle cn (live_add 1 p)) s, inr tt)
      end
  end.

(** Position [k] is active and nothing from it on has failed yet. *)
Definition fresh_from (n k : nat) (c : Cluster) : Prop :=
  wf n c /\ pos c = k /\ forall p, (k <= p < n)%nat -> coolUntil c !!! (order c !!! p) = None.

Lemma fresh_pick n k c now :
  fresh_from n k c -> (k < n)%nat -> Pick c now = (Some (order c !!! k), c).
Proof.
  intros (Hw & <- & Hf) Hk. apply (Pick_active n); [done|lia|].
  unfold coolingAt. by rewrite Hf by lia.
Qed.

Lemma fresh_fail n k c now draw :
  fresh_from n k c -> (S k < n)%nat ->
  fresh_from n (S k) (snd (MarkFailed c (order c !!! k) now draw)) /\
  order (snd (MarkFailed c (order c !!! k) now draw)) = order c.
Proof.
  intros (Hw & Hp & Hf) Hk. set (idx := order c !!! k). set (c' := snd _).
  pose proof (MarkFailed_wf n c idx now draw Hw) as Hw'. fold c' in Hw'.
  destruct (MarkFailed_state c idx now draw) as (Hc & _ & Ho & _). fold c' in Hc, Ho.
  assert (Hidx : (idx < n)%nat) by (apply wf_order_lt; [done|lia]).
  assert (Hpo : posOf c !!! idx = k).
  { apply list_lookup_total_correct, (wf_posOf _ _ Hw). apply list_lookup_lookup_total_lt.
    rewrite (wf_length _ _ Hw). lia. }
  assert (Hne : forall p, (k < p < n)%nat -> coolUntil c' !!! (order c' !!! p) = None).
  { intros p Hp'. rewrite Hc, Ho, list_lookup_total_insert_ne; [apply Hf; lia|].
    intros Heq. assert (posOf c !!! (order c !!! p) = p) as E.
    { apply list_lookup_total_correct, (wf_posOf _ _ Hw). apply list_lookup_lookup_total_lt.
      rewrite (wf_length _ _ Hw). lia. }
    rewrite <- Heq in E. fold idx in E. lia. }
  split; [|done]. split_and!; [done| |intros p Hp'; apply Hne; lia].
  destruct (markFailed_pos n c idx now draw Hw Hidx) as [Hs _]. fold c' in Hs.
  rewrite Hpo in Hs. destruct n as [|m]; [lia|]. cbn [scan] in Hs.
  rewrite (wf_length _ _ Hw'), Nat.mod_small in Hs by lia.
  replace (k + 1)%nat with (S k) in Hs by lia.
  unfold coolingAt in Hs. rewrite Hne in Hs by lia. done.
Qed.

Section new.
Context {W : Type} {U : UrlLib} (env : Env W).
Implicit Types s : St W.

Lemma newConn_cluster ep cfg krb s s' r :
  newConn env ep cfg krb s = (s', r) -> c_cluster (st_client s') = c_cluster (st_client s).
Proof. unfold newConn. destruct (newConn_raw _ _ _ _ _) as [w [e|cn]]; by intros [= <- _]. Qed.
Lemma markFailed_cluster idx r s :
  exists draw, c_cluster (st_client (markFailed env idx r s)) =
    snd (MarkFailed (c_cluster (st_client s)) idx (env_now env (st_world s)) draw).
Proof.
  unfold markFailed. destruct (env_draw env (st_world s)) as [w d]. exists d.
  destruct (MarkFailed _ _ _ _) as [[] k]; done.
Qed.
Lemma markFailed_world idx r s : st_world (markFailed env idx r s) = fst (env_draw env (st_world s)).
Proof. unfold markFailed. destruct (env_draw env (st_world s)) as [w d]. by destruct (MarkFailed _ _ _ _) as [[] k]. Qed.
Lemma upd_cluster_same s k : c_cluster (st_client s) = k -> upd_client (set_cluster k) s = s.
Proof. destruct s as [[] ? ? ?]; simpl. by intros <-. Qed.

Lemma new_loop_order n : forall m k last s,
  inv n s -> (m = n - k)%nat -> (k <= n)%nat ->
  ((k < n)%nat -> fresh_from n k (c_cluster (st_client s))) ->
  new_loop env m last s = dial_in_order env (drop k (order (c_cluster (st_client s)))) last s.
Proof.
  induction m as [|m IH]; intros k last s I Hm Hk Hf; cbn [new_loop].
  - rewrite drop_ge; [done|]. rewrite (wf_length _ _ (inv_wf _ _ I)). lia.
  - assert (k < n)%nat as Hlt by lia. specialize (Hf Hlt).
    unfold pick. rewrite (fresh_pick n k) by done. cbn.
    rewrite upd_cluster_same by done.
    assert (order (c_cluster (st_client s)) !! k = Some (order (c_cluster (st_client s)) !!! k)) as Ho.
    { apply list_lookup_lookup_total_lt. rewrite (wf_length _ _ (inv_wf _ _ I)). lia. }
    rewrite (drop_S _ _ _ Ho). cbn [dial_in_order]. set (idx := _ !!! k) in *.
    destruct (newConn _ _ _ _ s) as [s1 [err|cn]] eqn:En; [|done].
    pose proof (newConn_cluster _ _ _ _ _ _ En) as Hc.
    assert (inv n s1) as I1.
    { eapply inv_same; [exact I|by eapply same_newConn|]. rewrite Hc. apply I. }
    destruct (markFailed_cluster idx "dial" s1) as [d Hd]. rewrite Hc in Hd.
    assert (order (c_cluster (st_client (markFailed env idx "dial" s1))) = order (c_cluster (st_client s))) as Hord.
    { rewrite Hd. by destruct (MarkFailed_state (c_cluster (st_client s)) idx (env_now env (st_world s1)) d) as (_ & _ & -> & _). }
    rewrite (IH (S k) (Some err)); [by rewrite Hord| |lia|lia|].
    + by apply inv_markFailed.
    + intros Hlt'. rewrite Hd. by apply fresh_fail.
Qed.

(** What the loop leaves: nothing dialed, or exactly one idle conn. *)
Lemma dial_in_order_pools n idxs : forall last s s' r,
  quiet n s -> c_closed (st_client s) = false -> Forall (fun i => (i < n)%nat) idxs ->
  (forall j, (j < n)%nat -> idle (pool j (st_client s)) = []) ->
  dial_in_order env idxs last s = (s', r) ->
  quiet n s' /\ c_closed (st_client s') = false /\
  match r with
  | inl _ => forall j, (j < n)%nat -> idle (pool j (st_client s')) = []
  | inr _ => exists idx cn, In idx idxs /\ idle (pool idx (st_client s')) = [cn] /\
               forall j, (j < n)%nat -> j <> idx -> idle (pool j (st_client s')) = []
  end.
Proof.
  induction idxs as [|idx idxs IH]; intros last s s' r Q Hcl Hlt He; cbn [dial_in_order].
  - by intros [= <- <-].
  - apply Forall_cons_1 in Hlt as [Hi Hlt].
    destruct (newConn _ _ _ _ s) as [s1 [err|cn]] eqn:En;
      pose proof (same_newConn _ _ _ _ _ _ _ En) as S1;
      pose proof (settled_same _ _ _ _ Q S1 (wf_newConn _ _ _ _ _ _ _ _ En (inv_wf _ _ (q_inv _ _ _ Q)))) as Q1;
      destruct S1 as (Hp & _ & Hc & _).
    + intros Hd. apply IH in Hd as (Q2 & Hc2 & Hr); [| | |done|].
      * split_and!; [done|done|]. destruct r as [|[]]; [done|]. naive_solver.
      * by apply quiet_markFailed.
      * destruct (same_markFailed env idx "dial" s1) as (_ & _ & -> & _). by rewrite Hc.
      * intros j Hj. unfold pool. destruct (same_markFailed env idx "dial" s1) as (-> & _). rewrite Hp. by apply He.
    + intros [= <- <-]. assert (idle (pool idx (st_client s1)) = []) as Ee by (unfold pool; rewrite Hp; by apply He).
      assert (quiet n (upd_pool idx (fun p => send_idle cn (live_add 1 p)) s1)) as Q2.
      { eapply settled_ext; [|apply (settled_upd n none idx _ 0 s1 Q1 Hi)]; simpl; rewrite ?Ee; simpl.
        - intros j _. by case_decide.
        - lia.
        - pose proof (q_size _ _ _ Q1). lia.
        - by rewrite Hc, Hcl. }
      split_and!; [exact Q2|simpl; by rewrite Hc|]. exists idx, cn. split_and!; [by left| |].
      * rewrite (pool_upd_eq n) by (try apply Q1; done). simpl. by rewrite Ee.
      * intros j Hj Hne. rewrite pool_upd_ne by done. unfold pool. rewrite Hp. by apply He.
Qed.

Lemma initial_fresh cfg krb eps draws w lg ob :
  eps <> [] -> 1 <= cfg_poolSize cfg ->
  let s := mkSt (initial_client cfg krb eps draws) w lg ob in
  quiet (length eps) s /\ fresh_from (length eps) 0 (c_cluster (st_client s)) /\
  (forall j, (j < length eps)%nat -> idle (pool (W := W) j (st_client s)) = []).
Proof.
  intros He Hps s.
  assert (forall j, (j < length eps)%nat -> pool (W := W) j (st_client s) = mkPool [] 0) as Hpool.
  { intros j Hj. unfold pool; simpl. by apply lookup_total_replicate_2. }
  split_and!.
  - split; [split; simpl; [apply New_wf|apply length_replicate|done]|done| | |done].
    + intros j Hj. unfold loan. by rewrite Hpool.
    + intros j Hj. rewrite Hpool by done. simpl in *. lia.
  - split_and!; [apply New_wf|done|]. intros p Hp. simpl. apply lookup_total_replicate_2.
    pose proof (wf_order_lt _ _ p (New_wf (length eps) (cfg_randomOrder cfg) draws)). simpl in *. lia.
  - intros j Hj. by rewrite Hpool.
Qed.
End new.

(** ** A closed client, and the fate of a conn *)

Section fate.
Context {W : Type} {U : UrlLib} (env : Env W).
Implicit Types s : St W.

Lemma is_hms_wrapError op e e' : wrapError op (Some e) = Some e' -> is_Some (as_hms e').
Proof. unfold wrapError. case_match; intros [= <-]; by eauto. Qed.
Lemma wrapError_hms op x e : wrapError op x = Some e -> is_Some (as_hms e).
Proof. destruct x as [x|]; [apply is_hms_wrapError|done]. Qed.

#[local] Opaque wrapError.
Lemma after_fn_hms op idem idx cn err last s s' e :
  after_fn env op idem idx cn err last s = (s', inl (Some e)) -> is_Some (as_hms e).
Proof.
  unfold after_fn. destruct err as [x|]; [|done].
  repeat case_match; intros [= _ E]; by apply is_hms_wrapError in E.
Qed.

Lemma do_loop_hms {L} op idem (fn : M (bst W L) unit) m : forall a last l s s' l' e,
  do_loop env op idem fn m a last l s = (s', (l', Some e)) -> is_Some (as_hms e).
Proof.
  induction m as [|m IH]; intros a last l s s' l' e; cbn [do_loop].
  - intros [= _ _ E]. by apply wrapError_hms in E.
  - destruct (pick env s) as [s0 [idx|]]; [|intros [= _ _ E]; by apply wrapError_hms in E].
    destruct (acquire env idx s0) as [s1 [x|cn]].
    + destruct (_ || _); [intros [= _ _ E]; by apply is_hms_wrapError in E|]. apply IH.
    + destruct (run_fn fn cn l s1) as [[[s2 cn'] l2] err].
      destruct (after_fn _ _ _ _ _ _ _ _) as [s3 [res|last']] eqn:Ef; [|apply IH].
      intros [= _ _ ->]. by apply after_fn_hms in Ef.
Qed.

(** What an RPC on a closed client may change: nothing but the observer's
    log and the active position. *)
Lemma do_closed {L} op idem (fn : M (bst W L) unit) l s :
  c_closed (st_client s) = true -> 1 <= cfg_maxRetries (c_cfg (st_client s)) ->
  exists s' e, do env op idem fn l s = (s', (l, Some e)) /\
    is_sentinel ErrUnavailable e = true /\ same_pools s s' /\ st_world s' = st_world s /\
    coolUntil (c_cluster (st_client s')) = coolUntil (c_cluster (st_client s)) /\
    level (c_cluster (st_client s')) = level (c_cluster (st_client s)).
Proof.
  intros Hc Hr. unfold do. destruct (Z.to_nat _) as [|m] eqn:E; [lia|]. cbn [do_loop].
  pose proof (Pick_state (c_cluster (st_client s)) (env_now env (st_world s))) as (H1 & H2 & _).
  unfold pick. destruct (Pick _ _) as [o k]. simpl in H1, H2. destruct o as [idx|].
  - cbn. unfold acquire. cbn. rewrite Hc. cbn. rewrite orb_true_r.
    destruct (wrapError_Some op EClosed) as [e' He]. rewrite He.
    eexists _, e'. split; [reflexivity|].
    set (s1 := observe _ _ _ _ _ _).
    assert (same_pools (upd_client (set_cluster k) s) s1 /\ st_world s1 = st_world s /\
            c_cluster (st_client s1) = k) as (Hs & Hw & Hk).
    { unfold s1, observe. do 2 (case_match; try done). }
    split_and!; [by eapply is_sentinel_wrapError|exact Hs|done|by rewrite Hk|by rewrite Hk].
  - cbn. destruct (join_spec op None) as (e' & He & Hu & _). cbn in He. rewrite He.
    eexists _, e'. split_and!; done.
Qed.

Lemma discardWith_pool n idx cn r s :
  inv n s -> (idx < n)%nat ->
  let s' := discardWith idx cn r s in
  idle (pool idx (st_client s')) = idle (pool idx (st_client s)) /\
  live (pool idx (st_client s')) = live (pool idx (st_client s)) - 1 /\
  st_world s' = fst (close cn (st_world s)) /\ c_cluster (st_client s') = c_cluster (st_client s).
Proof.
  intros I Hi s'. unfold s', discardWith.
  assert (inv n (close_conn cn s)) as I1
    by (eapply inv_same; [exact I|apply same_close_conn|apply wf_close_conn, I]).
  rewrite !st_client_log, !(pool_upd_eq n) by done.
  unfold close_conn, closeErr. destruct (close cn (st_world s)) as [w r0]. simpl. split_and!; try done.
Qed.

Lemma release_pool n idx cn s :
  inv n s -> (idx < n)%nat -> c_closed (st_client s) = false -> idle_full idx s = false ->
  let s' := release idx cn s in
  idle (pool idx (st_client s')) = idle (pool idx (st_client s)) ++ [cn] /\
  live (pool idx (st_client s')) = live (pool idx (st_client s)) /\
  st_world s' = st_world s /\ c_cluster (st_client s') = c_cluster (st_client s).
Proof.
  intros I Hi Hc Hf s'. unfold s', release. rewrite Hc, Hf. simpl negb. cbv iota.
  rewrite !st_client_log, !(pool_upd_eq n) by done. done.
Qed.
End fate.

(** ** Close *)

(** Closing each of a list of conns once, in order: the world, and the errors. *)
Fixpoint close_all {W} (cns : list (conn W)) (w : W) : W * list (option goerr) :=
  match cns with
  | [] => (w, [])
  | cn :: cns =>
      let '(w, r) := close cn w in
      let '(w, errs) := close_all cns w in
      (w, match err_of r with Some e => Some e :: errs | None => errs end)
  end.

Section close.
Context {W : Type} {U : UrlLib}.
Implicit Types s : St W.

Lemma close_all_app (a b : list (conn W)) w :
  close_all (a ++ b) w =
    let '(w1, e1) := close_all a w in let '(w2, e2) := close_all b w1 in (w2, e1 ++ e2).
Proof.
  revert w; induction a as [|cn a IH]; intros w; simpl; [by destruct (close_all b w)|].
  destruct (close cn w) as [w1 r]. rewrite IH. destruct (close_all a w1) as [w2 e2].
  destruct (close_all b w2) as [w3 e3]. by destruct (err_of r).
Qed.

(** What draining leaves: the pools [drained] are empty and count only the
    conns on loan, the others are as they were. *)
Record drained_to (n : nat) (drained : nat -> bool) (s s' : St W) : Prop := {
  dr_inv : inv n s';
  dr_closed : c_closed (st_client s') = c_closed (st_client s);
  dr_krb : c_krbSession (st_client s') = c_krbSession (st_client s);
  dr_pool : forall j, (j < n)%nat ->
    if drained j then idle (pool j (st_client s')) = [] /\ live (pool j (st_client s')) = loan j s
    else pool j (st_client s') = pool j (st_client s);
}.

Lemma drain_conns_spec n idx cns : forall errs s,
  inv n s -> (idx < n)%nat -> idle (pool idx (st_client s)) = cns ->
  let '(s', errs') := drain_conns idx cns errs s in
  drained_to n (fun j => bool_decide (j = idx)) s s' /\
  (st_world s', errs') = (fst (close_all cns (st_world s)), errs ++ snd (close_all cns (st_world s))).
Proof.
  induction cns as [|cn cns IH]; intros errs s I Hi Hidle; cbn [drain_conns close_all].
  - rewrite app_nil_r. split; [|done]. split; try done. intros j Hj. case_bool_decide as Hd; [|done].
    subst j. split; [done|]. unfold loan. rewrite Hidle. simpl. lia.
  - set (s1 := upd_pool idx (set_idle cns) s).
    assert (inv n s1) as I1 by by apply inv_upd_pool.
    destruct (closeErr cn s1) as [s2 err] eqn:Ec. simpl.
    assert (same_pools s1 s2 /\ inv n s2 /\ st_world s2 = fst (close cn (st_world s)) /\
            err = err_of (snd (close cn (st_world s)))) as (S2 & I2 & Hw & ->).
    { revert Ec. unfold closeErr, s1. simpl. destruct (close cn (st_world s)) as [w r]. intros [= <- <-].
      split_and!; try done. destruct I1; by split. }
    destruct (close cn (st_world s)) as [w r] eqn:Ecl. simpl in Hw.
    set (s3 := log _ _ _ (upd_pool idx (live_add (-1)) s2)).
    assert (inv n s3) as I3 by by apply inv_log, inv_upd_pool.
    assert (pool idx (st_client s3) = mkPool cns (live (pool idx (st_client s)) - 1)) as Hp3.
    { unfold s3. rewrite st_client_log, (pool_upd_eq n) by done.
      replace (pool idx (st_client s2)) with (pool idx (st_client s1)) by (unfold pool; by destruct S2 as (-> & _)).
      unfold s1. by rewrite (pool_upd_eq n). }
    specialize (IH (match err_of r with Some e => errs ++ [Some e] | None => errs end) s3 I3 Hi).
    rewrite Hp3 in IH. specialize (IH eq_refl).
    destruct (drain_conns idx cns _ s3) as [s' errs'] eqn:Ed. destruct IH as [[Di Dc Dk Dp] IHe].
    assert (Ed' : drain_conns idx cns (match err_of r with Some e => errs ++ [Some e] | None => errs end) s3 = (s', errs')) by done.
    split.
    + pose proof S2 as (_ & _ & Hc2 & _ & Hk2). split; [done|by rewrite Dc; simpl; rewrite Hc2|by rewrite Dk; simpl; rewrite Hk2|].
      intros j Hj. specialize (Dp j Hj). case_bool_decide as Hd.
      * subst j. destruct Dp as [-> ->]. split; [done|]. unfold loan. rewrite Hp3, Hidle. simpl. lia.
      * rewrite Dp. unfold s3. rewrite st_client_log, pool_upd_ne by done.
        replace (pool j (st_client s2)) with (pool j (st_client s1)) by (unfold pool; by destruct S2 as (-> & _)).
        unfold s1. by rewrite pool_upd_ne.
    + rewrite IHe. simpl. rewrite Hw. destruct (close_all cns w) as [w' e']. simpl.
      destruct (err_of r); [by rewrite <- app_assoc|done].
Qed.

Lemma drain_all_spec n idxs : forall errs s,
  inv n s -> Forall (fun i => (i < n)%nat) idxs -> NoDup idxs ->
  let cns := concat (map (fun i => idle (pool i (st_client s))) idxs) in
  let '(s', errs') := drain_all idxs errs s in
  drained_to n (fun j => bool_decide (j ∈ idxs)) s s' /\
  (st_world s', errs') = (fst (close_all cns (st_world s)), errs ++ snd (close_all cns (st_world s))).
Proof.
  induction idxs as [|idx idxs IH]; intros errs s I Hlt Hnd; cbn [drain_all].
  - simpl. rewrite app_nil_r. split; [|done]. split; try done.
  - apply Forall_cons_1 in Hlt as [Hi Hlt]. apply list.NoDup_cons in Hnd as [Hnin Hnd].
    unfold drainPool. pose proof (drain_conns_spec n idx _ errs s I Hi eq_refl) as H1.
    destruct (drain_conns _ _ errs s) as [s1 errs1]. destruct H1 as [[Di Dc Dk Dp] He].
    specialize (IH errs1 s1 Di Hlt Hnd). cbn zeta in IH.
    assert (map (fun i => idle (pool i (st_client s1))) idxs = map (fun i => idle (pool i (st_client s))) idxs) as Hm.
    { apply map_ext_in. intros j Hj. assert (j <> idx) by (intros ->; by apply Hnin, list_elem_of_In).
      assert (j < n)%nat as Hj' by (rewrite List.Forall_forall in Hlt; by apply Hlt).
      specialize (Dp j Hj'). rewrite bool_decide_eq_false_2 in Dp by done. by rewrite Dp. }
    rewrite Hm in IH. destruct (drain_all idxs errs1 s1) as [s' errs']. destruct IH as [[Ei Ec Ek Ep] IHe].
    simpl map. simpl concat. cbv zeta. rewrite close_all_app.
    injection He as Hw ->. rewrite Hw in IHe.
    destruct (close_all (idle (pool idx (st_client s))) (st_world s)) as [w1 e1]. simpl in *.
    destruct (close_all _ w1) as [w2 e2]. simpl in *. split; [|by rewrite app_assoc].
    split; [done|by rewrite Ec|by rewrite Ek|]. intros j Hj. specialize (Ep j Hj). specialize (Dp j Hj).
    destruct (decide (j ∈ idx :: idxs)) as [Hd|Hd];
      [rewrite (bool_decide_eq_true_2 (j ∈ idx :: idxs)) by done
      |rewrite (bool_decide_eq_false_2 (j ∈ idx :: idxs)) by done].
    + rewrite list_elem_of_In in Hd. simpl in Hd. destruct Hd as [<-|Hd].
      * rewrite bool_decide_eq_false_2 in Ep by done. rewrite bool_decide_eq_true_2 in Dp by done. by rewrite Ep.
      * rewrite bool_decide_eq_true_2 in Ep by by rewrite list_elem_of_In.
        assert (j <> idx) by (intros ->; by apply Hnin, list_elem_of_In).
        rewrite bool_decide_eq_false_2 in Dp by done. unfold loan in *. by rewrite Dp in Ep.
    + rewrite not_elem_of_cons in Hd. destruct Hd as [Hd1 Hd2].
      rewrite bool_decide_eq_false_2 in Ep by done. rewrite bool_decide_eq_false_2 in Dp by done. by rewrite Ep.
Qed.
End close.

(** ** The demonstration client *)

Lemma demoSt_quiet : quiet 2 demoSt.
Proof.
  assert (c_cluster (st_client demoSt) =
    run (Cluster.New 2 false (fun _ => None)) [OFail 0 Second (Some (Second / 2))]) as Hc
    by (vm_compute; reflexivity).
  split; [split|..]; try (vm_compute; reflexivity); try (vm_compute; discriminate).
  - rewrite Hc. apply run_wf, New_wf.
  - intros [|[|j]] Hj; [vm_compute; reflexivity..|lia].
  - intros [|[|j]] Hj; [vm_compute; discriminate..|lia].
Qed.
#[export] Instance demoEnv_waits : WaitLaws demoEnv.
Proof. by split. Qed.

(** The body of GetAllDatabases's call, without the catalog resolution. *)
Definition demo_fn : M (bst trace nat) unit :=
  bind (rpcM getAllDatabases) (fun dbs => assign (fun _ => length (elems dbs))).
Definition demo_timeout : M (bst trace nat) unit :=
  bind (rpcM getAllDatabases) (fun _ => throw (ETransport "i/o timeout" (Some EDeadlineExceeded))).

(** ** The properties *)

(** C3: a non-idempotent RPC reaches a server at most once: [call] either
    returns an error without running [fn] at all, the same one for every [fn],
    or acquires one conn, runs [fn] exactly once on it and returns [fn]'s own
    (wrapped) result and captured variables, whatever that result is. *)
Theorem call_at_most_once {W} `{UrlLib} (env : Env W) (op : string) (s : St W) :
  1 <= cfg_maxRetries (c_cfg (st_client s)) ->
  (exists s' e, forall L (fn : M (bst W L) unit) l, call env op fn l s = (s', (l, Some e))) \/
  (exists s0 idx s1 cn a, acquire env idx s0 = (s1, inr cn) /\
     forall L (fn : M (bst W L) unit) l,
       call env op fn l s =
         let '(s2, cn', l', err) := run_fn fn cn l s1 in
         (settle_call env op idx a s1 cn' err s2, (l', wrapError op err))).
Proof.
  intros Hr. apply (call_loop_once env op (Z.to_nat (cfg_maxRetries (c_cfg (st_client s)))) 1 None s). lia.
Qed.

Example call_at_most_once_witness :
  snd (@call trace demoUrl demoEnv nat "create_database" demo_timeout 0%nat demoSt) =
    (0%nat, Some (EHms "create_database" ErrUnavailable (ETransport "i/o timeout" (Some EDeadlineExceeded)))) /\
  ((exists s' e, forall L (fn : M (bst trace L) unit) l,
      call (U := demoUrl) demoEnv "create_database" fn l demoSt = (s', (l, Some e))) \/
  (exists s0 idx s1 cn a, acquire (U := demoUrl) demoEnv idx s0 = (s1, inr cn) /\
     forall L (fn : M (bst trace L) unit) l,
       call (U := demoUrl) demoEnv "create_database" fn l demoSt =
         let '(s2, cn', l', err) := run_fn fn cn l s1 in
         (settle_call (U := demoUrl) demoEnv "create_database" idx a s1 cn' err s2,
          (l', wrapError "create_database" err)))).
Proof.
  split; [vm_compute; reflexivity|].
  apply (@call_at_most_once trace demoUrl demoEnv "create_database" demoSt). vm_compute. discriminate.
Defined.

(** C12: nothing leaks and nothing blocks: on a client nobody else is using,
    every RPC, whatever [fn] does and however it ends, leaves every conn of
    every pool idle (live = idle, within the pool size), and never consults
    [acquire]'s blocking select. *)
Theorem do_no_leak {W L} `{UrlLib} (env : Env W) n op idem (fn : M (bst W L) unit) (l : L) (s : St W) :
  quiet n s ->
  quiet n (fst (do env op idem fn l s)) /\
  forall wait, do (set_wait env wait) op idem fn l s = do env op idem fn l s.
Proof.
  intros Q. split; [|intros wait; by apply (do_loop_wait env wait n)].
  destruct (do env op idem fn l s) as [s' r] eqn:E. by apply (do_loop_quiet env n) in E.
Qed.

Example do_no_leak_witness :
  snd (@do trace demoUrl demoEnv nat "get_all_databases" true demo_fn 0%nat demoSt) = (1%nat, None) /\
  (quiet 2 (fst (@do trace demoUrl demoEnv nat "get_all_databases" true demo_fn 0%nat demoSt)) /\
   forall wait, @do trace demoUrl (set_wait demoEnv wait) nat "get_all_databases" true demo_fn 0%nat demoSt =
     @do trace demoUrl demoEnv nat "get_all_databases" true demo_fn 0%nat demoSt).
Proof.
  split; [vm_compute; reflexivity|].
  apply (@do_no_leak trace nat demoUrl demoEnv 2). apply demoSt_quiet.
Defined.

(** The observer sees every attempt of an RPC, once and in order: at most
    [maxRetries] records, numbered 1, 2, ... and named after the RPC, all but
    the last of them failures, and the RPC succeeds exactly when its last
    attempt did; a panicking observer changes none of this. *)
Theorem do_observed {W L} `{UrlLib} (env : Env W) `{!WaitLaws env} f op idem
    (fn : M (bst W L) unit) (l : L) (s s' : St W) l' r :
  cfg_observer (c_cfg (st_client s)) = Some f -> 1 <= cfg_maxRetries (c_cfg (st_client s)) ->
  do env op idem fn l s = (s', (l', r)) ->
  exists infos, st_obs s' = st_obs s ++ infos /\
    Z.of_nat (length infos) <= cfg_maxRetries (c_cfg (st_client s)) /\
    reported op 1 infos r /\ (infos = [] -> r <> None).
Proof.
  intros Hf Hr Hdo. apply (do_loop_reported env f) in Hdo as (infos & H1 & H2 & H3 & H4); [|done|lia].
  exists infos. split_and!; [done|lia|done|done].
Qed.

Example do_observed_witness :
  let '(s', (l', r)) := @do trace demoUrl demoEnv nat "get_all_databases" true demo_timeout 0%nat demoSt in
  map info_Endpoint (st_obs s') = ["up1:9083"; "down1:9083"; "up1:9083"] /\
  exists infos, st_obs s' = st_obs demoSt ++ infos /\
    Z.of_nat (length infos) <= cfg_maxRetries (c_cfg (st_client demoSt)) /\
    reported "get_all_databases" 1 infos r /\ (infos = [] -> r <> None).
Proof.
  destruct (@do trace demoUrl demoEnv nat "get_all_databases" true demo_timeout 0%nat demoSt) as [s' [l' r]] eqn:E.
  split.
  - change s' with (fst (s', (l', r))). rewrite <- E. vm_compute. reflexivity.
  - refine (do_observed (H := demoUrl) demoEnv (fun _ => None) "get_all_databases" true demo_timeout 0%nat demoSt s' l' r _ _ E);
      [reflexivity|vm_compute; discriminate].
Defined.

(** Every error an RPC returns is an [*hmsError]; and once the client is
    closed every RPC fails as [ErrUnavailable] without running its body, dialing,
    or marking any endpoint, whatever the endpoints' health. *)
Theorem do_errors_and_closed {W L} `{UrlLib} (env : Env W) op idem (fn : M (bst W L) unit) (l : L) (s : St W) :
  (forall s' l' e, do env op idem fn l s = (s', (l', Some e)) -> is_Some (as_hms e)) /\
  (c_closed (st_client s) = true -> 1 <= cfg_maxRetries (c_cfg (st_client s)) ->
   exists s' e, do env op idem fn l s = (s', (l, Some e)) /\
     is_sentinel ErrUnavailable e = true /\ same_pools s s' /\ st_world s' = st_world s /\
     coolUntil (c_cluster (st_client s')) = coolUntil (c_cluster (st_client s)) /\
     level (c_cluster (st_client s')) = level (c_cluster (st_client s))).
Proof. split; [intros s' l' e; apply do_loop_hms|apply do_closed]. Qed.

Example do_errors_and_closed_witness :
  let closed := fst (Close (U := demoUrl) demoSt) in
  exists s' e, @do trace demoUrl demoEnv nat "get_all_databases" true demo_fn 0%nat closed = (s', (0%nat, Some e)) /\
    is_sentinel ErrUnavailable e = true /\ same_pools closed s' /\ st_world s' = st_world closed /\
    coolUntil (c_cluster (st_client s')) = coolUntil (c_cluster (st_client closed)) /\
    level (c_cluster (st_client s')) = level (c_cluster (st_client closed)).
Proof.
  apply (@do_errors_and_closed trace nat demoUrl demoEnv "get_all_databases" true demo_fn 0%nat);
    vm_compute; [reflexivity|discriminate].
Defined.

(** What MarkHealthy leaves: the endpoint not cooling and its backoff reset. *)
Lemma markHealthy_effect {W} `{UrlLib} (env : Env W) n op idx (s : St W) :
  inv n s -> (idx < n)%nat ->
  let s' := markHealthy env idx op s in
  coolingAt (c_cluster (st_client s')) idx (env_now env (st_world s')) = false /\
  level (c_cluster (st_client s')) !!! idx = 0 /\
  st_world s' = st_world s /\ c_pools (st_client s') = c_pools (st_client s).
Proof.
  intros I Hi.
  pose proof (coolingAt_MarkHealthy n (c_cluster (st_client s)) idx (env_now env (st_world s))
    (env_now env (st_world s)) (inv_wf _ _ I) Hi) as Hcool.
  assert (level (snd (MarkHealthy (c_cluster (st_client s)) idx (env_now env (st_world s)))) !!! idx = 0) as Hlev.
  { apply list_lookup_total_insert_eq. by rewrite (wf_level _ _ (inv_wf _ _ I)). }
  unfold markHealthy. destruct (MarkHealthy _ _ _) as [[] k]; done.
Qed.

Lemma release_inv {W} `{UrlLib} n idx cn (s : St W) :
  inv n s -> c_closed (st_client s) = false -> idle_full idx s = false -> inv n (release idx cn s).
Proof. intros I Hc Hf. unfold release. rewrite Hc, Hf. by apply inv_log, inv_upd_pool. Qed.

(** C13: after [fn]: the conn goes back to its pool, still open, exactly when [fn]
    succeeded or failed with an answer that was read to its end; when the failure is
    [ErrUnavailable] or a decoding error it is uncounted, and closing it, once, is all
    that happens outside the client, but for the random draw of a cooldown; an
    endpoint that answered is healthy; one that did not is marked failed only
    while the caller's context is alive; and only an idempotent RPC is retried,
    in that same case. The client is open and has room for the conn, as it has when
    the conn was acquired from it. *)
Theorem after_fn_policy {W} `{UrlLib} (env : Env W) n op idem idx cn err last (s : St W) :
  inv n s -> (idx < n)%nat -> c_closed (st_client s) = false -> idle_full idx s = false ->
  let '(s', r) := after_fn env op idem idx cn err last s in
  let down := match err with Some e => unavailable e | None => false end in
  let unread := match err with Some e => isProtocolError e | None => false end in
  let p := pool idx (st_client s) in let p' := pool idx (st_client s') in
  let w1 := if down || unread then fst (close cn (st_world s)) else st_world s in
  let gave_up := bool_decide (is_Some (env_ctxErr env w1)) in
  (idle p' = (if down || unread then idle p else idle p ++ [cn])) /\
  (live p' = (if down || unread then live p - 1 else live p)) /\
  st_world s' = (if down && negb gave_up then fst (env_draw env w1) else w1) /\
  (down = false -> coolingAt (c_cluster (st_client s')) idx (env_now env (st_world s')) = false /\
                   level (c_cluster (st_client s')) !!! idx = 0) /\
  (down = true -> gave_up = true -> c_cluster (st_client s') = c_cluster (st_client s)) /\
  (down = true -> gave_up = false ->
     level (c_cluster (st_client s')) !!! idx = next_ceiling (level (c_cluster (st_client s)) !!! idx)) /\
  (r = if down && idem && negb gave_up then inr err else inl (wrapError op err)).
Proof.
  intros I Hi Hc Hf. unfold after_fn.
  destruct err as [e|]; cbn zeta.
  - destruct (unavailable e) eqn:Hu; cbn [orb andb negb].
    + destruct (discardWith_pool n idx cn "unavailable" s I Hi) as (H1 & H2 & H3 & H4).
      set (s1 := discardWith idx cn "unavailable" s) in *.
      assert (Hmf : c_pools (st_client (markFailed env idx op s1)) = c_pools (st_client s1))
        by apply same_markFailed.
      assert (Hlev : level (c_cluster (st_client (markFailed env idx op s1))) !!! idx =
                next_ceiling (level (c_cluster (st_client s)) !!! idx)).
      { destruct (markFailed_cluster env idx op s1) as [d ->]. rewrite H4.
        destruct (MarkFailed_state (c_cluster (st_client s)) idx (env_now env (st_world s1)) d) as (_ & -> & _).
        apply list_lookup_total_insert_eq. by rewrite (wf_level _ _ (inv_wf _ _ I)). }
      unfold discard; fold s1. rewrite <- H3. destruct (env_ctxErr env (st_world s1)) as [ce|] eqn:Ece.
      * rewrite bool_decide_eq_true_2 by eauto. cbn [negb]; rewrite andb_false_r. split_and!; done.
      * rewrite bool_decide_eq_false_2 by exact is_Some_None.
        destruct idem; cbn [orb andb negb]; unfold retry_log, pool in *; rewrite ?st_client_log, ?Hmf; split_and!; first [done|apply markFailed_world].
    + destruct (isProtocolError e) eqn:Hp; cbn [orb andb negb].
      * destruct (discardWith_pool n idx cn "protocol error" s I Hi) as (H1 & H2 & H3 & _).
        assert (inv n (discardWith idx cn "protocol error" s)) as I1.
        { eapply inv_log, inv_upd_pool, inv_same; [exact I|apply same_close_conn|apply wf_close_conn, I]. }
        destruct (markHealthy_effect env n op idx _ I1 Hi) as (Ha & Hb & Hw & Hd). unfold pool in *. rewrite Hd. split_and!; first [done|by rewrite Hw].
      * destruct (release_pool n idx cn s I Hi Hc Hf) as (H1 & H2 & H3 & _).
        destruct (markHealthy_effect env n op idx _ (release_inv n idx cn s I Hc Hf) Hi) as (Ha & Hb & Hw & Hd). unfold pool in *. rewrite Hd. split_and!; first [done|by rewrite Hw].
  - destruct (release_pool n idx cn s I Hi Hc Hf) as (H1 & H2 & H3 & _).
    destruct (markHealthy_effect env n op idx _ (release_inv n idx cn s I Hc Hf) Hi) as (Ha & Hb & Hw & Hd). unfold pool in *. rewrite Hd. split_and!; first [done|by rewrite Hw].
Qed.

Example after_fn_policy_witness :
  let '(s1, cn) := match acquire (U := demoUrl) demoEnv 1 demoSt with
                   | (s, inr cn) => (s, cn)
                   | (s, inl _) => (s, mkConn (ret tt) demoRpcs ∅ catalogUnknown)
                   end in
  let err := ETransport "i/o timeout" (Some EDeadlineExceeded) in
  let '(s', r) := after_fn (U := demoUrl) demoEnv "drop_table" false 1 cn (Some err) None s1 in
  live (pool 1 (st_client s')) = 0 /\ st_world s' = st_world s1 ++ ["close up1:9083"] /\
  r = inl (wrapError "drop_table" (Some err)).
Proof.
  destruct (acquire (U := demoUrl) demoEnv 1 demoSt) as [s1 [e|cn]] eqn:E; [vm_compute in E; discriminate|].
  cbv zeta. pose proof (acquire_settled (U := demoUrl) demoEnv 2 1 demoSt s1 (inr cn) demoSt_quiet ltac:(lia) E) as Q.
  assert (c_closed (st_client s1) = false /\ idle_full 1 s1 = false /\ live (pool 1 (st_client s1)) = 1 /\
          fst (close cn (st_world s1)) = st_world s1 ++ ["close up1:9083"]) as (H1 & H2 & H3 & H4).
  { vm_compute in E. injection E as <- <-. vm_compute. done. }
  pose proof (after_fn_policy (H := demoUrl) demoEnv 2 "drop_table" false 1 cn
    (Some (ETransport "i/o timeout" (Some EDeadlineExceeded))) None s1 (q_inv _ _ _ Q) ltac:(lia) H1 H2) as P.
  destruct (after_fn (U := demoUrl) demoEnv "drop_table" false 1 cn _ None s1) as [s' r] eqn:Ef.
  destruct P as (_ & Hl & _ & _ & _ & _ & Hr).
  split; [refine (eq_trans Hl _); change (live (pool 1 (st_client s1)) - 1 = 0); by rewrite H3|].
  split; [|exact Hr].
  rewrite <- H4. revert Ef. vm_compute in E. injection E as <- <-. vm_compute. by intros [= <- _].
Defined.

(** New dials each endpoint at most once and in pick order (list order, or
    the shuffled order), stopping at the first that answers: its loop over the
    failing-over cluster is a plain loop over a permutation of the endpoints,
    whatever the clock and the backoff draws. *)
Theorem new_dials_in_order {W} `{UrlLib} (env : Env W) cfg krb eps draws w lg ob :
  let s := mkSt (initial_client cfg krb eps draws) w lg ob in
  let picks := order (c_cluster (st_client s)) in
  new_loop env (length eps) None s = dial_in_order env picks None s /\
  Permutation picks (seq 0 (length eps)) /\
  (if cfg_randomOrder cfg then True else picks = seq 0 (length eps)).
Proof.
  intros s picks. pose proof (New_wf (length eps) (cfg_randomOrder cfg) draws) as Hw.
  split_and!; [|apply Hw|].
  - rewrite (new_loop_order env (length eps) (length eps) 0); [done| |lia|lia|].
    + split; [done|apply length_replicate|done].
    + intros Hlt. split_and!; [done|done|]. intros p Hp. apply lookup_total_replicate_2.
      pose proof (wf_order_lt _ _ p Hw). simpl in *. lia.
  - unfold picks, s; simpl. by destruct (cfg_randomOrder cfg).
Qed.

(** What New returns: a ready client (open, one idle conn in one pool,
    nothing on loan) without an error; or a caller mistake as
    [ErrInvalidOperation] before anything was dialed; or, when every endpoint
    refused, [ErrUnavailable] with the Kerberos session released. *)
Theorem new_outcome {W} `{UrlLib} (env : Env W) uris opts w :
  let '(w', (st, err)) := New env uris opts w in
  match err, st with
  | None, inr s =>
      st_world s = w' /\ quiet (length (c_endpoints (st_client s))) s /\ c_closed (st_client s) = false /\
      exists idx cn, idle (pool idx (st_client s)) = [cn] /\
        forall j, (j < length (c_endpoints (st_client s)))%nat -> j <> idx -> idle (pool j (st_client s)) = []
  | None, inl _ => False
  | Some e, inl _ => is_Some (as_hms e) /\ is_sentinel ErrInvalidOperation e = true
  | Some e, inr s => is_Some (as_hms e) /\ is_sentinel ErrUnavailable e = true /\
      c_krbSession (st_client s) <> Some SessionOpen
  end.
Proof.
  unfold New. set (cfg := effective_config _ _).
  assert (forall e, is_Some (as_hms (EHms "New" ErrInvalidOperation e)) /\
    is_sentinel ErrInvalidOperation (EHms "New" ErrInvalidOperation e) = true) as Hinv.
  { intros e. split; [by eexists|apply is_sentinel_EHms]. }
  destruct (ParseEndpoints uris) as [e|eps] eqn:Ep; [apply Hinv|].
  destruct (validateAuth env cfg eps w) as [e|]; [apply Hinv|].
  destruct (validateTransport cfg eps) as [e|]; [apply Hinv|].
  destruct (newKerberosSession env cfg eps w) as [w1 [e|krb]]; [apply Hinv|].
  assert (eps <> []) as Hne.
  { unfold ParseEndpoints in Ep. destruct (parse_all _ _ _) as [|out]; [done|].
    destruct (Nat.eqb_spec (length out) 0); [done|]. injection Ep as ->. by intros ->. }
  assert (1 <= cfg_poolSize cfg) as Hps.
  { unfold cfg, effective_config, resolveUgiUser, clamp. simpl. case_match; lia. }
  set (s := mkSt _ _ _ _).
  destruct (initial_fresh (W := W) cfg krb eps (env_shuffle env w1) w1 (warnCleartext cfg eps) [] Hne Hps)
    as (Q & F & Hidle).
  fold s in Q, F, Hidle. unfold connect.
  change (length (c_endpoints (st_client s))) with (length eps).
  rewrite (new_loop_order env (length eps) (length eps) 0 None s (q_inv _ _ _ Q) ltac:(lia) ltac:(lia) (fun _ => F)).
  rewrite drop_0. destruct (dial_in_order env _ None s) as [s' r] eqn:Ed.
  destruct (dial_in_order_pools env (length eps) (order (c_cluster (st_client s))) None s s' r Q)
    as (Q' & Hc & Hr); [done| |done|done|].
  { rewrite (wf_order _ _ (inv_wf _ _ (q_inv _ _ _ Q))). apply List.Forall_forall.
    intros i Hi. apply in_seq in Hi. lia. }
  destruct r as [last|[]].
  - destruct (join_spec "New" last) as (e & He & Hu & _). rewrite He.
    split_and!; [by apply wrapError_hms in He|done|]. simpl. by destruct (c_krbSession _).
  - destruct Hr as (idx & cn & _ & H1 & H2).
    assert (length (c_endpoints (st_client s')) = length eps) as -> by apply Q'.
    split_and!; [done|done|done|by exists idx, cn].
Qed.

(** Close closes every idle conn exactly once, in endpoint order, reports
    the joined close errors, leaves every pool empty and counting exactly its
    conns on loan, releases the Kerberos session, and is idempotent. *)
Theorem close_drains {W} `{UrlLib} n (s : St W) :
  inv n s -> c_closed (st_client s) = false ->
  let cns := concat (map idle (c_pools (st_client s))) in
  let '(s', err) := Close s in
  c_closed (st_client s') = true /\ c_krbSession (st_client s') <> Some SessionOpen /\
  (forall j, (j < n)%nat -> idle (pool j (st_client s')) = [] /\ live (pool j (st_client s')) = loan j s) /\
  st_world s' = fst (close_all cns (st_world s)) /\
  err = errors_Join (snd (close_all cns (st_world s))) /\
  Close s' = (s', None).
Proof.
  intros I Hc. unfold Close at 1. rewrite Hc. set (s1 := upd_client set_closed s).
  assert (inv n s1) as I1 by (destruct I; by split).
  change (c_pools (st_client s)) with (c_pools (st_client s1)). rewrite (inv_pools _ _ I1).
  pose proof (drain_all_spec n (seq 0 n) [] s1 I1) as HD. cbv zeta in HD.
  assert (map (fun i => idle (pool i (st_client s1))) (seq 0 n) = map idle (c_pools (st_client s1))) as Hm.
  { apply (list_eq_same_length _ _ n); rewrite ?length_map, ?length_seq; [by rewrite (inv_pools _ _ I1)|done|].
    intros i x y Hi Hx Hy. change (map idle ?l) with (idle <$> l) in Hy.
    rewrite list_lookup_fmap in Hx. rewrite list_lookup_fmap in Hy. rewrite lookup_seq_lt in Hx by done.
    simpl in Hx. injection Hx as <-. destruct (c_pools (st_client s1) !! i) as [p|] eqn:Ep; [|done].
    injection Hy as <-. unfold pool. by rewrite (list_lookup_total_correct _ _ _ Ep). }
  rewrite Hm in HD.
  destruct (drain_all (seq 0 n) [] s1) as [s2 errs]. destruct HD as [[Di Dc Dk Dp] He].
  { apply List.Forall_forall. intros i Hi. apply in_seq in Hi. lia. }
  { apply NoDup_seq. }
  injection He as Hw ->. cbn -[close_all]. split_and!; try done.
  - simpl. by destruct (c_krbSession (st_client s2)).
  - intros j Hj. specialize (Dp j Hj). rewrite bool_decide_eq_true_2 in Dp; [exact Dp|]. apply elem_of_seq. lia.
  - unfold Close. simpl. by rewrite Dc.
Qed.

Example close_drains_witness :
  let '(s', err) := Close (U := demoUrl) demoSt in
  st_world s' = ["refused down1:9083"; "dial up1:9083"; "set_ugi me"; "close up1:9083"] /\ err = None /\
  Close (U := demoUrl) s' = (s', None).
Proof.
  pose proof (@close_drains trace demoUrl 2 demoSt (q_inv _ _ _ demoSt_quiet) eq_refl) as P. cbv zeta in P.
  destruct (Close (U := demoUrl) demoSt) as [s' err]. destruct P as (_ & _ & _ & Hw & He & Hc).
  split; [rewrite Hw; vm_compute; reflexivity|]. split; [rewrite He; vm_compute; reflexivity|exact Hc].
Defined.

(** A successful recovery probe ignores the pool's capacity: with every
    slot of a pool of size 1 on loan it still adds its own conn, so two conns are
    open where [WithPoolSize] promises at most one. *)
Theorem probe_exceeds_pool_size :
  let s1 := fst (acquire (U := demoUrl) demoEnv 1 demoSt) in
  let s2 := probeCooling (U := demoUrl) demoEnv (markFailed (U := demoUrl) demoEnv 1 "get_table" s1) in
  cfg_poolSize (c_cfg (st_client s2)) = 1 /\ live (pool 1 (st_client s1)) = 1 /\
  live (pool 1 (st_client s2)) = 2 /\ length (idle (pool 1 (st_client s2))) = 1%nat.
Proof. split_and!; vm_compute; reflexivity. Qed.

(** The set_ugi call of a dial is not always bounded: with the call timeout
    zeroed the clamped connect timeout is zero too, and a context without a
    deadline then gets none. *)
Theorem set_ugi_unbounded os (w : trace) :
  cfg_connectTimeout (effective_config os [WithTimeout 0]) = 0 /\
  ugiTimeout demoEnv (effective_config os [WithTimeout 0]) w = None.
Proof. done. Qed.
