(* ===== verification/Failover.v ===== *)
(** * Failover: a live endpoint is found

    Each attempt of the retry loop takes the endpoint the cluster picks, and each
    failure moves the cluster's position forward in its ring. So an endpoint that
    answers is reached before the ring closes, whatever the others do: that is
    [failover_answers]. *)

From S2P Require Import Prelude Errors Cluster GoMonad Options Conn Types Uri Client Demo ClientFacts.

(** ** The ring *)

(** Endpoint [up] is [k] positions ahead of the active one. *)
Definition ahead (n up k : nat) (c : Cluster) : Prop :=
  (k < n)%nat /\ order c !!! ((pos c + k) mod n)%nat = up.

Lemma ahead_exists n up c : wf n c -> (up < n)%nat -> exists k, ahead n up k c.
Proof.
  intros Hw Hu. destruct (wf_order_surj n c up Hw Hu) as (p & Hp & Ho & _).
  destruct (full_turn n (pos c) p Hp) as (k & Hk & E). exists k. split; [done|]. by rewrite E.
Qed.

Lemma mod_ahead n p j k : (j <= k)%nat -> (((p + j) mod n + (k - j)) mod n = (p + k) mod n)%nat.
Proof. intros H. rewrite Nat.Div0.add_mod_idemp_l. f_equal. lia. Qed.

(** A scan that starts no further than [up] does not go past it. *)
Lemma scan_ahead n up k c now i : wf n c -> ahead n up k c -> (i <= k)%nat -> coolingAt c up now = false ->
  exists j, (i <= j <= k)%nat /\ scan c now (pos c) i n = Some ((pos c + j) mod n)%nat.
Proof.
  intros Hw [Hk Hup] Hi Hc. pose proof (wf_length n c Hw) as Hl.
  destruct (scan c now (pos c) i n) as [p|] eqn:E.
  - apply scan_Some in E as (_ & _ & j & Hj & -> & Hb); [|lia]. rewrite Hl in *. exists j. split; [|done].
    destruct (decide (k < j)%nat) as [Hlt|]; [|lia]. specialize (Hb k ltac:(lia)). rewrite Hup in Hb. congruence.
  - rewrite scan_None, Hl in E. specialize (E k ltac:(lia)). rewrite Hup in E. congruence.
Qed.

Lemma Pick_ahead n up k c now : wf n c -> ahead n up k c -> coolingAt c up now = false ->
  exists idx c' k', Pick c now = (Some idx, c') /\ (k' <= k)%nat /\ ahead n up k' c' /\ order c' !!! pos c' = idx /\ (idx < n)%nat.
Proof.
  intros Hw Ha Hc. destruct (scan_ahead n up k c now 0 Hw Ha ltac:(lia) Hc) as (j & Hj & E).
  unfold Pick. rewrite (wf_length n c Hw), E. eexists _, _, (k - j)%nat. split; [done|].
  destruct Ha as [Hk Hup]. split_and!; [lia| |done|].
  - split; [lia|]. simpl. rewrite mod_ahead by lia. done.
  - apply (wf_order_lt n c); [done|]. apply Nat.mod_upper_bound. lia.
Qed.

(** A failure of the active endpoint moves past it. *)
Lemma MarkFailed_ahead n up k c now draw : wf n c -> ahead n up k c -> coolingAt c up now = false ->
  let idx := order c !!! pos c in
  idx <> up ->
  exists k', (k' < k)%nat /\ ahead n up k' (snd (MarkFailed c idx now draw)).
Proof.
  intros Hw Ha Hc idx Hne. pose proof Ha as [Hk Hup].
  destruct k as [|k]; [exfalso; apply Hne; unfold idx; rewrite <- Hup, Nat.add_0_r, Nat.mod_small; [done|]; apply Hw; lia|].
  assert ((pos c < n)%nat) as Hpos by (apply Hw; lia).
  assert (posOf c !!! idx = pos c) as Hpo.
  { apply list_lookup_total_correct, (wf_posOf _ _ Hw), list_lookup_lookup_total_lt. by rewrite (wf_length n c Hw). }
  unfold MarkFailed. rewrite Hpo, (wf_length n c Hw).
  set (c1 := {| order := _; posOf := _; pos := _; coolUntil := _; level := _ |}).
  assert (wf n c1) as Hw1 by by apply (cool_state_wf n c idx).
  assert (coolingAt c1 up now = false) as Hc1.
  { unfold coolingAt, c1; simpl. by rewrite list_lookup_total_insert_ne. }
  destruct (scan_ahead n up (S k) c1 now 1 Hw1 (conj Hk Hup) ltac:(lia) Hc1) as (j & Hj & E).
  change (pos c) with (pos c1). rewrite E. simpl. exists (S k - j)%nat. split; [lia|]. split; [lia|].
  simpl. change (pos c1) with (pos c). rewrite mod_ahead by lia. done.
Qed.

(** ** What one operation does to the idle conns *)

Section steps.
Context {W : Type} {U : UrlLib} (env : Env W).
Implicit Types s : St W.

Definition idle_of (j : nat) s : list (conn W) := idle (pool j (st_client s)).

(** The parts of a state a step leaves alone. *)
Record fixed s s' : Prop := {
  fx_cfg : c_cfg (st_client s') = c_cfg (st_client s);
  fx_eps : c_endpoints (st_client s') = c_endpoints (st_client s);
  fx_krb : c_krbSession (st_client s') = c_krbSession (st_client s);
  fx_closed : c_closed (st_client s') = c_closed (st_client s);
}.

Lemma fixed_refl s : fixed s s.
Proof. by split. Qed.
Lemma fixed_trans s1 s2 s3 : fixed s1 s2 -> fixed s2 s3 -> fixed s1 s3.
Proof. intros [] []. split; congruence. Qed.
Lemma same_fixed s s' : same_pools s s' -> fixed s s'.
Proof. intros (? & ? & ? & ? & ?). by split. Qed.
Lemma same_idle s s' j : same_pools s s' -> idle_of j s' = idle_of j s.
Proof. intros (H & _). unfold idle_of, pool. by rewrite H. Qed.
Lemma fixed_upd_pool idx f s : fixed s (upd_pool idx f s).
Proof. by split. Qed.

Lemma idle_upd_pool n idx f s j : inv n s -> (idx < n)%nat ->
  (forall p, exists l, idle (f p) = l /\ (l = idle p)) -> idle_of j (upd_pool idx f s) = idle_of j s.
Proof.
  intros I Hi Hf. unfold idle_of. destruct (decide (j = idx)) as [->|].
  - rewrite (pool_upd_eq n) by done. by destruct (Hf (pool idx (st_client s))) as (l & -> & ->).
  - by rewrite pool_upd_ne.
Qed.
Lemma idle_live_add n idx d s j : inv n s -> (idx < n)%nat -> idle_of j (upd_pool idx (live_add d) s) = idle_of j s.
Proof. intros I Hi. apply (idle_upd_pool n); [done|done|]. intros p. by exists (idle p). Qed.

(** A dial, as [newConn] and [grow] report it. *)
Definition dials (idx : nat) s s' (r : goerr + conn W) : Prop :=
  newConn_raw env (c_endpoints (st_client s) !!! idx) (c_cfg (st_client s)) (c_krbSession (st_client s)) (st_world s)
    = (st_world s', r).

Lemma newConn_dials idx s s' r :
  newConn env (c_endpoints (st_client s) !!! idx) (c_cfg (st_client s)) (c_krbSession (st_client s)) s = (s', r) ->
  dials idx s s' r /\ same_pools s s' /\ c_cluster (st_client s') = c_cluster (st_client s).
Proof. unfold newConn, dials. destruct (newConn_raw _ _ _ _ _) as [w [e|cn]]; by intros [= <- <-]. Qed.

(** What [acquire] comes to when nobody else holds a conn: one of the idle conns, or a dial. *)
Record acquired (n idx : nat) s s' (r : goerr + conn W) : Prop := {
  aq_fixed : fixed s s';
  aq_cluster : c_cluster (st_client s') = c_cluster (st_client s);
  aq_idle j : (j < n)%nat -> idle_of j s' ⊆ idle_of j s;
  aq_from : match r with
            | inr cn => (cn ∈ idle_of idx s /\ st_world s' = st_world s) \/ dials idx s s' r
            | inl e => (c_closed (st_client s) = true /\ e = EClosed /\ st_world s' = st_world s) \/ dials idx s s' r
            end;
}.

Lemma grow_acquired n idx s s' r : quiet n s -> (idx < n)%nat -> c_closed (st_client s) = false ->
  grow env idx s = (s', r) -> acquired n idx s s' r.
Proof.
  intros Q Hi Hc. unfold grow. set (s1 := upd_pool idx (live_add 1) s).
  pose proof (q_inv _ _ _ Q) as I. assert (inv n s1) as I1 by by apply inv_upd_pool.
  change (c_closed (st_client s1)) with (c_closed (st_client s)). rewrite Hc.
  destruct (newConn _ _ _ _ s1) as [s2 r2] eqn:En.
  apply (newConn_dials idx s1) in En as (Hd & Hs & Hk).
  assert (inv n s2) as I2 by (apply (inv_same n s1); [done|done|rewrite Hk; apply I1]).
  destruct r2 as [e|cn]; intros [= <- <-]; (split; [..|by right]).
  - eapply fixed_trans; [apply (fixed_upd_pool idx (live_add 1))|]. fold s1.
    eapply fixed_trans; [by apply same_fixed|]. apply fixed_upd_pool.
  - exact Hk.
  - intros j _. rewrite (idle_live_add n) by done. rewrite (same_idle _ _ _ Hs). unfold s1. by rewrite (idle_live_add n).
  - eapply fixed_trans; [apply (fixed_upd_pool idx (live_add 1))|]. by apply same_fixed.
  - exact Hk.
  - intros j _. rewrite (same_idle _ _ _ Hs). unfold s1. by rewrite (idle_live_add n).
Qed.

Lemma acquire_acquired n idx s s' r : quiet n s -> (idx < n)%nat ->
  acquire env idx s = (s', r) -> acquired n idx s s' r.
Proof.
  intros Q Hi. unfold acquire. destruct (c_closed (st_client s)) eqn:Hc.
  { intros [= <- <-]. split; [apply fixed_refl|done|done|by left]. }
  destruct (take_idle idx s) as [[cn s1]|] eqn:Et.
  - intros [= <- <-]. unfold take_idle in Et. destruct (idle (pool idx (st_client s))) as [|c rest] eqn:E; [done|].
    injection Et as -> <-. split; [by split|done| |].
    + intros j Hj. unfold idle_of. destruct (decide (j = idx)) as [->|]; [|by rewrite pool_upd_ne].
      rewrite (pool_upd_eq n) by (try apply Q; done). rewrite E. simpl. set_solver.
    + left. split; [|done]. unfold idle_of. rewrite E. set_solver.
  - destruct (Z.ltb_spec (live (pool idx (st_client s))) (cfg_poolSize (c_cfg (st_client s)))) as [|Hge];
      [by apply grow_acquired|].
    pose proof (quiet_room n idx s Q Hi Et). lia.
Qed.

(** Closing a conn that was taken out. *)
Lemma discard_idle n idx cn reason s j : inv n s -> (idx < n)%nat ->
  let s' := discardWith idx cn reason s in
  idle_of j s' = idle_of j s /\ fixed s s' /\ c_cluster (st_client s') = c_cluster (st_client s) /\
  st_world s' = fst (close cn (st_world s)).
Proof.
  intros I Hi s'. unfold s', discardWith. assert (inv n (close_conn cn s)) as I1
    by (eapply inv_same; [exact I|apply same_close_conn|apply wf_close_conn, I]).
  unfold idle_of. rewrite st_client_log. split_and!.
  - change (idle_of j (upd_pool idx (live_add (-1)) (close_conn cn s)) = idle_of j s).
    rewrite (idle_live_add n) by done. apply same_idle, same_close_conn.
  - pose proof (same_fixed _ _ (same_close_conn cn s)) as []. by split.
  - unfold close_conn, closeErr. by destruct (close cn (st_world s)).
  - unfold close_conn, closeErr. by destruct (close cn (st_world s)).
Qed.

Lemma same_client s s' : st_client s' = st_client s -> same_pools s s'.
Proof. unfold same_pools. by intros ->. Qed.

Lemma observe_fields op idx a d e s :
  st_world (observe op idx a d e s) = st_world s /\ st_client (observe op idx a d e s) = st_client s.
Proof. unfold observe. by repeat case_match. Qed.

Lemma run_fn_fields {L} (fn : M (bst W L) unit) cn l s b r :
  fn (mkBst cn (st_world s) (c_warehouseRoots (st_client s)) l) = (b, r) ->
  exists s', run_fn fn cn l s = (s', b_conn b, b_loc b, err_of r) /\ st_world s' = b_world b /\
    same_pools s s' /\ c_cluster (st_client s') = c_cluster (st_client s).
Proof. intros H. unfold run_fn. rewrite H. eexists. by repeat split. Qed.

(** A client that has not dialed yet. *)
Lemma initial_idle cfg krb eps draws w lg ob j : (j < length eps)%nat ->
  idle_of j (mkSt (initial_client cfg krb eps draws) w lg ob) = [].
Proof. intros Hj. unfold idle_of, pool. simpl. by rewrite lookup_total_replicate_2. Qed.
Lemma initial_quiet cfg krb eps draws w lg ob : 1 <= cfg_poolSize cfg ->
  quiet (length eps) (mkSt (W := W) (initial_client cfg krb eps draws) w lg ob).
Proof.
  intros Hs. split; [split; [apply New_wf|apply length_replicate|done]|done|..].
  - intros j Hj. unfold loan, pool. simpl. by rewrite lookup_total_replicate_2.
  - intros j Hj. unfold pool. simpl. rewrite lookup_total_replicate_2 by done. simpl. lia.
  - done.
Qed.
End steps.

(** ** An endpoint that answers *)

Lemma Forall_sub {A} (P : A -> Prop) (l k : list A) : l ⊆ k -> Forall P k -> Forall P l.
Proof. rewrite !list.Forall_forall. set_solver. Qed.

Section failover.
Context {W L : Type} {U : UrlLib} (env : Env W) (fn : M (bst W L) unit).
Context (cfg : config) (krb : option session) (eps : list Endpoint) (up : nat).
(** The worlds met while the call runs, and the conns: any of the client's, and those to
    endpoint [up]. *)
Context (I : W -> Prop) (C G : conn W -> Prop).
Implicit Types s : St W.
Local Abbreviation n := (length eps).

(** The caller does not give up, other endpoints do what they like, and [up] accepts
    conns and answers on them. *)
Record endpoint_up : Prop := {
  up_in : (up < n)%nat;
  up_ctx w : I w -> env_ctxErr env w = None;
  up_draw w : I w -> I (fst (env_draw env w));
  up_close cn w : C cn -> I w -> I (fst (close cn w));
  up_dial idx w : I w ->
    let '(w', r) := newConn_raw env (eps !!! idx) cfg krb w in
    I w' /\ match r with inr cn => C cn /\ (idx = up -> G cn) | inl e => idx <> up /\ is_closed e = false end;
  up_fn b : C (b_conn b) -> I (b_world b) ->
    let '(b', r) := fn b in
    C (b_conn b') /\ I (b_world b') /\
    (G (b_conn b) -> match r with inl e => unavailable e = false | inr _ => True end);
}.

(** A client nobody else uses, open, whose conns to [up] are good and whose cluster does
    not hold [up] back. *)
Record searching s : Prop := {
  se_quiet : quiet n s;
  se_cfg : c_cfg (st_client s) = cfg;
  se_krb : c_krbSession (st_client s) = krb;
  se_eps : c_endpoints (st_client s) = eps;
  se_open : c_closed (st_client s) = false;
  se_world : I (st_world s);
  se_idle j : (j < n)%nat -> Forall C (idle_of j s);
  se_up : Forall G (idle_of up s);
  se_warm w : I w -> coolingAt (c_cluster (st_client s)) up (env_now env w) = false;
}.

Lemma searching_step s s' : searching s -> quiet n s' -> fixed s s' -> I (st_world s') ->
  (forall j, (j < n)%nat -> idle_of j s' ⊆ idle_of j s) -> (up < n)%nat ->
  (forall w, I w -> coolingAt (c_cluster (st_client s')) up (env_now env w) = false) -> searching s'.
Proof.
  intros S Q F Hw Hi Hu Hc. destruct S, F. split; try done; try congruence.
  - intros j Hj. apply (Forall_sub _ _ (idle_of j s)); auto.
  - apply (Forall_sub _ _ (idle_of up s)); auto.
Qed.

(** What the health bookkeeping leaves of a search. *)
Lemma searching_same s s' : searching s -> same_pools s s' -> wf n (c_cluster (st_client s')) -> I (st_world s') ->
  (up < n)%nat -> (forall w, I w -> coolingAt (c_cluster (st_client s')) up (env_now env w) = false) -> searching s'.
Proof.
  intros S P Hw Hi Hu Hc. apply (searching_step s); try done.
  - apply (settled_same n none s); [apply S|done|done].
  - by apply same_fixed.
  - intros j _. by rewrite (same_idle _ _ _ P).
Qed.

Lemma searching_log s lv m a : (up < n)%nat -> searching s -> searching (log lv m a s).
Proof. intros Hu S. by apply (searching_same s); [| |apply S|apply S| |apply S]. Qed.

(** A failed attempt, its conn discarded: the next one starts closer to [up]. *)
Lemma searching_failed s idx reason k : endpoint_up -> searching s -> (idx < n)%nat -> idx <> up ->
  order (c_cluster (st_client s)) !!! pos (c_cluster (st_client s)) = idx -> ahead n up k (c_cluster (st_client s)) ->
  let s' := markFailed env idx reason s in
  searching s' /\ exists k', (k' < k)%nat /\ ahead n up k' (c_cluster (st_client s')).
Proof.
  intros U0 S Hi Hne Hidx Ha s'. pose proof (se_quiet _ S) as Q. pose proof (inv_wf _ _ (q_inv _ _ _ Q)) as Hw.
  assert (exists w d, env_draw env (st_world s) = (w, d) /\ st_world s' = w /\
    c_cluster (st_client s') = snd (MarkFailed (c_cluster (st_client s)) idx (env_now env (st_world s)) d)) as (w & d & Hd & Hsw & Hsc).
  { unfold s', markFailed. destruct (env_draw env (st_world s)) as [w d]. destruct (MarkFailed _ _ _ _) as [[] c] eqn:E; exists w, d; by rewrite E. }
  split.
  - apply (searching_same s); [done|apply same_markFailed| | |apply U0|].
    + rewrite Hsc. by apply MarkFailed_wf.
    + rewrite Hsw. pose proof (up_draw U0 _ (se_world _ S)) as H. by rewrite Hd in H.
    + intros w' Hw'. rewrite Hsc, coolingAt_MarkFailed_ne by done. by apply S.
  - rewrite Hsc, <- Hidx. apply (MarkFailed_ahead n up k); [done|done|apply S, S|by rewrite Hidx].
Qed.

(** What a call that reached a server comes to: what [fn] answered there, wrapped. *)
Definition answered (op : string) (idem : bool) (res : L * option goerr) : Prop :=
  exists b b' r, C (b_conn b) /\ I (b_world b) /\ fn b = (b', r) /\ res = (b_loc b', wrapError op (err_of r)) /\
    (idem = true -> match r with inl e => unavailable e = false | inr _ => True end).

Lemma searching_pick s k : endpoint_up -> searching s -> ahead n up k (c_cluster (st_client s)) ->
  exists s' idx k', pick env s = (s', Some idx) /\ searching s' /\ (k' <= k)%nat /\ (idx < n)%nat /\
    ahead n up k' (c_cluster (st_client s')) /\ order (c_cluster (st_client s')) !!! pos (c_cluster (st_client s')) = idx.
Proof.
  intros U0 S Ha. pose proof (inv_wf _ _ (q_inv _ _ _ (se_quiet _ S))) as Hw.
  destruct (Pick_ahead n up k _ (env_now env (st_world s)) Hw Ha ltac:(apply S, S)) as (idx & c' & k' & E & Hk & Ha' & Ho & Hi).
  eexists _, idx, k'. unfold pick. rewrite E. split; [done|]. split_and!; try done.
  pose proof (Pick_wf n _ (env_now env (st_world s)) Hw) as Hw'. pose proof (Pick_state (c_cluster (st_client s)) (env_now env (st_world s))) as Hst.
  rewrite E in Hw', Hst. apply (searching_same s); [done|done|exact Hw'|apply S|apply U0|].
  intros w Iw. erewrite coolingAt_ext; [by apply (se_warm _ S)|]. apply Hst.
Qed.

(** A dial or an idle conn, taken while searching. *)
Lemma searching_acquire s idx s' r : endpoint_up -> searching s -> (idx < n)%nat -> acquire env idx s = (s', r) ->
  I (st_world s') /\ fixed s s' /\ c_cluster (st_client s') = c_cluster (st_client s) /\
  (forall j, (j < n)%nat -> idle_of j s' ⊆ idle_of j s) /\
  match r with
  | inr cn => settled n (one idx) s' /\ C cn /\ (idx = up -> G cn)
  | inl e => searching s' /\ idx <> up /\ is_closed e = false
  end.
Proof.
  intros U0 S Hi Ha. pose proof (se_quiet _ S) as Q.
  pose proof (acquire_settled _ _ _ _ _ _ Q Hi Ha) as Q'. apply (acquire_acquired _ n) in Ha as [F K Hidle Hfrom]; [|done|done].
  assert (forall r', dials env idx s s' r' -> I (st_world s') /\
    match r' with inr cn => C cn /\ (idx = up -> G cn) | inl e => idx <> up /\ is_closed e = false end) as Hdial.
  { intros r' Hd. unfold dials in Hd. rewrite (se_eps _ S), (se_cfg _ S), (se_krb _ S) in Hd.
    pose proof (up_dial U0 idx _ (se_world _ S)) as H. by rewrite Hd in H. }
  assert (I (st_world s')) as Iw.
  { destruct r as [e|cn]; destruct Hfrom as [H|H]; try (by apply Hdial in H as [? _]);
      [destruct H as (_ & _ & ->)|destruct H as (_ & ->)]; apply S. }
  split_and!; [done|done|done|done|]. destruct r as [e|cn].
  - destruct Hfrom as [(Hc & _)|Hd]; [by rewrite (se_open _ S) in Hc|]. apply Hdial in Hd as (_ & Hne & Hcl). split_and!; [|done|done].
    apply (searching_step s); [done|done|done|done|done|apply U0|]. rewrite K. apply S.
  - split; [done|]. destruct Hfrom as [(Hin & _)|Hd]; [|by apply Hdial in Hd as (_ & ? & ?)]. split.
    + pose proof (se_idle _ S idx Hi) as H. rewrite list.Forall_forall in H. by apply H.
    + intros ->. pose proof (se_up _ S) as H. rewrite list.Forall_forall in H. by apply H.
Qed.

(** The failed attempts before: a conn taken from an endpoint that is not [up], discarded,
    leaves the search where it was. *)
Lemma searching_discard s s1 idx cn : endpoint_up -> searching s -> (idx < n)%nat -> settled n (one idx) s1 ->
  fixed s s1 -> c_cluster (st_client s1) = c_cluster (st_client s) -> (forall j, (j < n)%nat -> idle_of j s1 ⊆ idle_of j s) ->
  C cn -> I (st_world s1) -> let s' := discard idx cn s1 in
  searching s' /\ c_cluster (st_client s') = c_cluster (st_client s).
Proof.
  intros U0 S Hi Q F K Hidle HC Iw s'. unfold s', discard.
  pose proof (q_inv _ _ _ Q) as I1.
  pose proof (fun j => discard_idle n idx cn "unavailable" s1 j I1 Hi) as Hd. cbv zeta in Hd.
  destruct (Hd 0%nat) as (_ & Fd & Kd & Wd). split; [|by rewrite Kd].
  apply (searching_step s); [done|by apply discardWith_settled|by eapply fixed_trans|rewrite Wd; by apply U0| |apply U0|].
  - intros j Hj. destruct (Hd j) as (-> & _). by apply Hidle.
  - rewrite Kd, K. apply S.
Qed.

(** One attempt that got a conn: it answers, or the search goes on closer to [up]. *)
Lemma search_run op idem idx cn attempt last l s s1 k : endpoint_up -> searching s ->
  ahead n up k (c_cluster (st_client s)) -> (idx < n)%nat ->
  order (c_cluster (st_client s)) !!! pos (c_cluster (st_client s)) = idx ->
  settled n (one idx) s1 -> fixed s s1 -> c_cluster (st_client s1) = c_cluster (st_client s) ->
  (forall j, (j < n)%nat -> idle_of j s1 ⊆ idle_of j s) -> I (st_world s1) -> C cn -> (idx = up -> G cn) ->
  let '(s2, cn', l', err) := run_fn fn cn l s1 in
  match after_fn env op idem idx cn' err last (observe op idx attempt (elapsed env s1 s2) err s2) with
  | (s', inl r) => answered op idem (l', r)
  | (s', inr _) => searching s' /\ exists k', (k' < k)%nat /\ ahead n up k' (c_cluster (st_client s'))
  end.
Proof.
  intros U0 S Ha Hi Hidx Q1 F K Hidle Iw HC HG.
  set (b0 := mkBst cn (st_world s1) (c_warehouseRoots (st_client s1)) l). destruct (fn b0) as [b r] eqn:Ef.
  destruct (run_fn_fields fn cn l s1 b r Ef) as (s2 & -> & Wr & Pr & Kr).
  pose proof (up_fn U0 b0 HC Iw) as Hfn. rewrite Ef in Hfn. destruct Hfn as (HC' & Iw' & Hg).
  set (s3 := observe _ _ _ _ _ _).
  destruct (observe_fields op idx attempt (elapsed env s1 s2) (err_of r) s2) as [Ow Oc]. fold s3 in Ow, Oc.
  assert ((forall e, r = inl e -> unavailable e = false \/ idem = false) ->
    answered op idem (b_loc b, wrapError op (err_of r))) as Hend.
  { intros Hr. exists b0, b, r. split_and!; [done|done|done|done|]. intros Hidem.
    destruct r as [e|]; [|done]. destruct (Hr e eq_refl); [done|congruence]. }
  destruct r as [e|[]]; cbn [err_of after_fn]; [|by apply Hend].
  destruct (unavailable e) eqn:Eu; [|apply Hend; intros ? [= <-]; by left].
  assert (idx <> up) as Hne by (intros ->; specialize (Hg (HG eq_refl)); simpl in Hg; congruence).
  assert (same_pools s1 s3) as P3 by (eapply same_pools_trans; [exact Pr|by apply same_client]).
  destruct (searching_discard s s3 idx (b_conn b) U0 S Hi) as [S4 K4]; try done.
  - apply (settled_same n _ s1); [done|done|rewrite Oc, Kr; apply Q1].
  - eapply fixed_trans; [exact F|by apply same_fixed].
  - by rewrite Oc, Kr.
  - intros j Hj. rewrite (same_idle _ _ _ P3). by apply Hidle.
  - by rewrite Ow, Wr.
  - rewrite (up_ctx U0) by apply S4. destruct idem; [|apply Hend; by right].
    destruct (searching_failed (discard idx (b_conn b) s3) idx op k U0 S4 Hi Hne) as (S5 & k2 & Hk2 & Ha5);
      [by rewrite K4|by rewrite K4|].
    split; [apply searching_log; [apply U0|exact S5]|by exists k2].
Qed.

Lemma search_loop op idem m : forall k attempt last l s, endpoint_up -> searching s ->
  ahead n up k (c_cluster (st_client s)) -> (k < m)%nat ->
  answered op idem (snd (do_loop env op idem fn m attempt last l s)).
Proof.
  induction m as [|m IH]; intros k attempt last l s U0 S Ha Hk; [lia|]. cbn [do_loop].
  destruct (searching_pick s k U0 S Ha) as (s0 & idx & k' & -> & S0 & Hk' & Hi & Ha0 & Hidx).
  destruct (acquire env idx s0) as [s1 r] eqn:Eq.
  destruct (searching_acquire s0 idx s1 r U0 S0 Hi Eq) as (Iw & F & K & Hidle & Hr). destruct r as [e|cn].
  - destruct Hr as (S1 & Hne & Hcl). set (s2 := observe _ _ _ _ _ _).
    destruct (observe_fields op idx attempt (elapsed env s0 s1) (Some e) s1) as [Ow Oc]. fold s2 in Ow, Oc.
    rewrite Ow, (up_ctx U0), Hcl by done. cbn [orb bool_decide].
    assert (searching s2) as S2.
    { apply (searching_same s1); [done|by apply same_client|rewrite Oc; apply S1|by rewrite Ow|apply U0|rewrite Oc; apply S1]. }
    destruct (searching_failed s2 idx "dial" k' U0 S2 Hi Hne) as (S3 & k2 & Hk2 & Ha3); [by rewrite Oc, K|by rewrite Oc, K|].
    apply (IH k2); [done| |exact Ha3|lia].
    apply searching_log; [apply U0|exact S3].
  - destruct Hr as (Q1 & HC & HG).
    pose proof (search_run op idem idx cn attempt last l s0 s1 k' U0 S0 Ha0 Hi Hidx Q1 F K Hidle Iw HC HG) as H.
    destruct (run_fn fn cn l s1) as [[[s2 cn'] l'] err].
    destruct (after_fn _ _ _ _ _ _ _ _) as [s4 [r|last']]; [exact H|].
    destruct H as (S4 & k2 & Hk2 & Ha4). apply (IH k2); [done|done|done|lia].
Qed.
End failover.

(** ** The property *)

(** C11: a call finds a live endpoint: on a client nobody else is using, with an endpoint
    that accepts conns, answers on them and is not cooling, and at least as many attempts
    as there are endpoints, every call reaches [fn] whatever the other endpoints do, as
    long as the caller does not give up; and an idempotent one comes back with an answer,
    a success or an error of the server, never with ErrUnavailable. *)
Theorem failover_answers {W L} `{UrlLib} (env : Env W) (fn : M (bst W L) unit) cfg krb eps up
    (I : W -> Prop) (C G : conn W -> Prop) op idem (l : L) (s : St W) :
  endpoint_up env fn cfg krb eps up I C G -> searching env cfg krb eps up I C G s ->
  Z.of_nat (length eps) <= cfg_maxRetries cfg ->
  answered fn I C op idem (snd (do env op idem fn l s)).
Proof.
  intros U0 S Hm. pose proof (inv_wf _ _ (q_inv _ _ _ (se_quiet _ _ _ _ _ _ _ _ _ S))) as Hw.
  destruct (ahead_exists (length eps) up _ Hw (up_in _ _ _ _ _ _ _ _ _ U0)) as (k & Ha).
  eapply (search_loop env fn cfg krb eps up I C G op idem _ k); [done|done|done|].
  rewrite (se_cfg _ _ _ _ _ _ _ _ _ S). destruct Ha. lia.
Qed.

(** A client on the two endpoints of Demo before it has dialed: the first one is down. *)
Definition demo_eps : list Endpoint := Eval vm_compute in c_endpoints (st_client demoSt).
Definition demo_cfg : config := Eval vm_compute in c_cfg (st_client demoSt).
Definition demo_undialed : St trace := mkSt (initial_client demo_cfg None demo_eps (fun _ => None)) [] [] [].
Definition demo_good (cn : conn trace) : Prop := rpc cn = demoRpcs.

Lemma demo_endpoint_up : @endpoint_up trace nat demoEnv demo_fn demo_cfg None demo_eps 1 (fun _ => True) demo_good demo_good.
Proof.
  split.
  - simpl. lia.
  - by intros w _.
  - by intros w _.
  - by intros cn w _ _.
  - intros idx w _.
    assert (exists w' r, newConn_raw demoEnv (demo_eps !!! idx) demo_cfg None w = (w', r) /\
      match r with inr cn => demo_good cn | inl e => idx <> 1%nat /\ is_closed e = false end) as (w' & r & -> & H).
    { destruct idx as [|[|idx]].
      - eexists _, _. split; [vm_compute; reflexivity|by vm_compute].
      - eexists _, _. split; [cbn; reflexivity|by vm_compute].
      - eexists _, _. split; [cbn; reflexivity|by vm_compute]. }
    split; [done|]. by destruct r.
  - intros b HC _. unfold demo_fn, bind, rpcM. rewrite HC. by split_and!.
Qed.

Lemma demo_searching : @searching trace demoEnv demo_cfg None demo_eps 1 (fun _ => True) demo_good demo_good demo_undialed.
Proof.
  split; [by apply (initial_quiet demo_cfg None demo_eps)|reflexivity..| | | |].
  - done.
  - intros j Hj. unfold demo_undialed. by rewrite (initial_idle demo_cfg None demo_eps).
  - constructor.
  - intros w _. reflexivity.
Qed.

Lemma failover_answers_witness :
  let res := @do trace demoUrl demoEnv nat "get_all_databases" true demo_fn 0%nat demo_undialed in
  answered demo_fn (fun _ => True) demo_good "get_all_databases" true (snd res) /\
  st_world (fst res) = ["refused down1:9083"; "dial up1:9083"; "set_ugi me"; "get_all_databases"] /\ snd (snd res) = None.
Proof.
  split; [|vm_compute; by split].
  apply (@failover_answers trace nat demoUrl demoEnv demo_fn demo_cfg None demo_eps 1 (fun _ => True) demo_good demo_good
           "get_all_databases" true 0%nat demo_undialed).
  - exact demo_endpoint_up.
  - exact demo_searching.
  - vm_compute; discriminate.
Defined.
