(* ===== verification/DbOps.v ===== *)
(** * DbOps: the configuration, version, catalog and database calls of client.go

    Every exported method is a body run by [call] or [read], with the variables
    it captured as the local state [L]; a method's results are what its captured
    variables hold when the loop returns, next to the error, as in Go. *)

From S2P Require Import Prelude Errors Cluster GoMonad Wire Options Conn Types Uri Convert PartName Client.

Definition api (W A : Type) : Type := St W -> St W * (A * option goerr).

(** [if err != nil { return err }] on a pure result. A panic (the nil
    dereference of a converter) is an error here; the decoder never hands a
    converter the nil elements that cause one. *)
Definition lift {W L A} (r : goerr + A) : M (bst W L) A := fun s => (s, r).
(** [err := m()], [err] kept as a value. *)
Definition attempt {W L A} (m : M (bst W L) A) : M (bst W L) (goerr + A) :=
  fun s => let '(s, r) := m s in (s, inr r).
Definition get_roots {W L} : M (bst W L) (gmap string string) := fun s => (s, inr (b_roots s)).
Definition store_root {W L} (key base : string) : M (bst W L) unit :=
  modify (fun s => set_roots (<[key := base]> (b_roots s)) s).
Definition store_catalogs {W L} (v : catalogSupport) : M (bst W L) unit :=
  modify (fun s => set_conn (set_catalogs v (b_conn s)) s).

(** [strings.TrimRight(s, cutset)] for a one-byte cutset. *)
Fixpoint TrimRight (c : ascii) (s : string) : string :=
  match s with
  | EmptyString => EmptyString
  | String d s =>
      match TrimRight c s with
      | EmptyString => if Ascii.eqb d c then EmptyString else String d EmptyString
      | t => String d t
      end
  end.

Definition not_found (e : goerr) : bool := bool_decide (classify e = ErrNotFound).

Section ops.
Context {W : Type} {U : UrlLib} {UL : UnicodeLower} {cp : DeepCopy} (env : Env W).

(** [c.cfg] of a running client: it never changes. *)
Definition cfg_of (s : St W) : config := c_cfg (st_client s).

(** ** Configuration values and the server's version *)

Definition GetConfigValue (name defaultValue : string) : api W string := fun s =>
  read env "get_config_value"
    (v <- rpcM (fun r => getConfigValue r name defaultValue);; assign (fun _ => v))%go "" s.

Record version_vars := mkVersionVars { vv_v : string; vv_catalogs : bool; vv_have : bool }.

Definition getVersion_body : M (bst W version_vars) unit :=
  (s <- rpcM getVersion;;
   assign (fun l => mkVersionVars s (vv_catalogs l) (vv_have l));;;
   match ParseHiveVersion s with
   | inr hv =>
       if Major hv <? 4 then
         (ok <- supportsCatalogs;; assign (fun l => mkVersionVars (vv_v l) ok true))
       else ret tt
   | inl _ => ret tt
   end)%go.

(** The last steps of ServerVersion, on the version text found. *)
Definition finish_version (catalogs have : bool) (v : string) : HiveVersion * option goerr :=
  if String.eqb v "" then
    (HiveVersion_zero,
     Some (EWrap "hms: server reported no metastore version: hms: not supported by this metastore"
             (ESentinel ErrNotSupported)))
  else match ParseHiveVersion v with
       | inl e => (HiveVersion_zero, Some e)
       | inr hv =>
           if have && (Major hv <? 4) then
             (if catalogs then mkHiveVersion 3 0 0 (Raw hv) else mkHiveVersion 2 3 0 (Raw hv), None)
           else (hv, None)
       end.

(** [if v == "" { v, err = c.GetConfigValue(...); if err != nil { return } }] *)
Definition or_config (name v : string) (s : St W) : St W * (string * option goerr) :=
  if String.eqb v "" then GetConfigValue name "" s else (s, (v, None)).

Definition ServerVersion : api W HiveVersion := fun s =>
  let '(s, (l, err)) := read env "getVersion" getVersion_body (mkVersionVars "" false false) s in
  if match err with Some e => negb (isUnknownMethod e) | None => false end
  then (s, (HiveVersion_zero, err))
  else
    match or_config "hive.metastore.version" (vv_v l) s with
    | (s, (_, Some e)) => (s, (HiveVersion_zero, Some e))
    | (s, (v, None)) =>
        match or_config "metastore.version" v s with
        | (s, (_, Some e)) => (s, (HiveVersion_zero, Some e))
        | (s, (v, None)) => (s, finish_version (vv_catalogs l) (vv_have l) v)
        end
    end.

(** ** Catalogs *)

Definition GetCatalogs : api W (slice string) := fun s =>
  read env "get_catalogs"
    (r <- attempt (rpcM getCatalogs);;
     match r with
     | inl e => (if isUnknownMethod e then store_catalogs catalogNo else ret tt);;; throw e
     | inr resp => store_catalogs catalogYes;;; assign (fun _ => wGetCatalogsResponse_Names resp)
     end)%go None s.

Definition GetCatalog (name : string) : api W (option Catalog) := fun s =>
  read env "get_catalog"
    (resp <- rpcM (fun r => getCatalog r (mk_wGetCatalogRequest name));;
     assign (fun _ => catalogFromThrift (wGetCatalogResponse_Catalog resp)))%go None s.

Definition CreateCatalog (cat : option Catalog) (s : St W) : St W * option goerr :=
  let '(s, (_, err)) := call env "create_catalog"
    (rpcM (fun r => createCatalog r (mk_wCreateCatalogRequest (catalogToThrift cat)))) tt s in (s, err).

(** [if err != nil && ifExists && classify(err) == ErrNotFound { return nil }] *)
Definition if_exists {L} (ifExists : bool) (m : M (bst W L) unit) : M (bst W L) unit :=
  catch m (fun e => if ifExists && not_found e then ret tt else throw e).

Definition DropCatalog (name : string) (ifExists : bool) (s : St W) : St W * option goerr :=
  let '(s, (_, err)) := call env "drop_catalog"
    (if_exists ifExists (rpcM (fun r => dropCatalog r (mk_wDropCatalogRequest name false)))) tt s in (s, err).

(** ** Databases *)

Definition GetAllDatabases (opts : list CatalogOption) : api W (slice string) := fun s =>
  read env "get_all_databases"
    (cat <- resolveCat (cfg_of s) opts;;
     list <- match cat with
             | Some c => if String.eqb c defaultCatalog then rpcM getAllDatabases
                         else rpcM (fun r => getDatabases r (qualifyDBName cat "*"))
             | None => rpcM getAllDatabases
             end;;
     assign (fun _ => list))%go None s.

Definition GetDatabase (name : string) (opts : list CatalogOption) : api W (option Database) := fun s =>
  read env "get_database"
    (cat <- resolveCat (cfg_of s) opts;;
     d <- rpcM (fun r => getDatabase r (qualifyDBName cat name));;
     assign (fun _ => databaseFromThrift (Some d) cat))%go None s.

Definition warehouseRoot {L} (cat : option string) : M (bst W L) string :=
  (let key := match cat with Some c => c | None => "" end in
   roots <- get_roots;;
   match roots !! key with
   | Some v => ret v
   | None =>
       base <- match cat with
               | Some c =>
                   resp <- rpcM (fun r => getCatalog r (mk_wGetCatalogRequest c));;
                   ret (match wGetCatalogResponse_Catalog resp with
                        | Some k => wCatalog_LocationUri k
                        | None => ""
                        end)
               | None => rpcM (fun r => getConfigValue r "hive.metastore.warehouse.dir" "")
               end;;
       let base := TrimRight "/" base in
       if String.eqb base "" then ret base else store_root key base;;; ret base
   end)%go.

Definition set_location (loc : string) (db : Database) : Database :=
  mkDatabase (Database_CatalogName db) (Database_Name db) (Database_Description db) loc
    (Database_Parameters db) (Database_OwnerName db) (Database_OwnerType db) (Database_CreateTime db)
    (Database_raw db).

Definition unknown_warehouse : goerr :=
  EHms "create_database" ErrInvalidOperation
    (EText "hms: LocationURI is empty and the metastore warehouse dir is unknown").

(** The wire database the RPC is given. *)
Definition database_to_create (cfg : config) (db : Database) : M (bst W unit) (option wDatabase) :=
  (cat <- resolveCatFor cfg (Database_CatalogName db) [];;
   toCreate <- (if String.eqb (Database_LocationURI db) "" then
                  base <- warehouseRoot cat;;
                  if String.eqb base "" then throw unknown_warehouse
                  else ret (set_location (base +:+ "/" +:+ ToLower (Database_Name db) +:+ ".db") db)
                else ret db);;
   ret (databaseToThrift (Some toCreate) cat))%go.

Definition create_database_body (cfg : config) (db : Database) : M (bst W unit) unit :=
  (d <- database_to_create cfg db;; rpcM (fun r => createDatabase r d))%go.

Definition CreateDatabase (db : Database) (s : St W) : St W * option goerr :=
  let '(s, (_, err)) := call env "create_database" (create_database_body (cfg_of s) db) tt s in (s, err).

Definition AlterDatabase (name : string) (db : Database) (opts : list CatalogOption) (s : St W)
    : St W * option goerr :=
  let '(s, (_, err)) := call env "alter_database"
    (cat <- resolveCatFor (cfg_of s) (Database_CatalogName db) opts;;
     rpcM (fun r => alterDatabase r (qualifyDBName cat name) (databaseToThriftFrom (Some db) cat)))%go tt s in
  (s, err).

(** The error of a failed drop_database, after the get_database follow-up. *)
Definition drop_database_error {L} (qname : string) (err : goerr) : M (bst W L) goerr :=
  (if negb (not_found err) && negb (isProtocolError err) then
     g <- attempt (rpcM (fun r => getDatabase r qname));;
     ret (match g with inl gerr => if not_found gerr then gerr else err | inr _ => err end)
   else ret err)%go.

Definition drop_database_rpc {L} (qname : string) (deleteData cascade ifExists : bool) : M (bst W L) unit :=
  catch (rpcM (fun r => dropDatabase r qname deleteData cascade))
    (fun err =>
       err <- drop_database_error qname err;;
       if ifExists && not_found err then ret tt else throw err)%go.

Definition drop_database_body (cfg : config) (name : string) (deleteData cascade ifExists : bool)
    (opts : list CatalogOption) : M (bst W unit) unit :=
  (cat <- resolveCat cfg opts;;
   drop_database_rpc (qualifyDBName cat name) deleteData cascade ifExists)%go.

Definition DropDatabase (name : string) (deleteData cascade ifExists : bool) (opts : list CatalogOption)
    (s : St W) : St W * option goerr :=
  let '(s, (_, err)) := call env "drop_database"
    (drop_database_body (cfg_of s) name deleteData cascade ifExists opts) tt s in (s, err).
End ops.
