(* ===== verification/TableOps.v ===== *)
(** * TableOps: table.go

    The table calls, the chunked GetTables and its streaming form. A consumer of
    a stream is a function of what is yielded to it, the state of the client
    (which it may use between two items) and its own state; it answers whether
    to go on. *)

From S2P Require Import Prelude Errors Cluster GoMonad Wire Options Conn Types Uri Convert PartName Client DbOps.

(** [func(yield func(A, error) bool)]'s consumer. *)
Definition consumer (W C A : Type) : Type := A -> option goerr -> St W * C -> (St W * C) * bool.

(** How far a stream got: it can go on with the interner it reached, or it is
    over, because the consumer stopped, an error was yielded, or a converter
    panicked. *)
Inductive progress := Going (next : columnIntern) | Over.

Section yielding.
Context {W C A B : Type} (yield : consumer W C B) (conv : A -> M columnIntern B).

(** [for _, x := range items { if !yield(conv(x, in), nil) { return } }] *)
Fixpoint yield_all (items : list A) (st : columnIntern) (sc : St W * C) : (St W * C) * progress :=
  match items with
  | [] => (sc, Going st)
  | x :: items =>
      match conv x st with
      | (_, inl _) => (sc, Over)
      | (st, inr b) =>
          let '(sc, more) := yield b None sc in
          if more : bool then yield_all items st sc else (sc, Over)
      end
  end.
End yielding.

Section ops.
Context {W : Type} {U : UrlLib} {UL : UnicodeLower} {cp : DeepCopy} (env : Env W).

Definition GetAllTables (dbName : string) (opts : list CatalogOption) : api W (slice string) := fun s =>
  read env "get_all_tables"
    (cat <- resolveCat (cfg_of s) opts;;
     list <- rpcM (fun r => getAllTables r (qualifyDBName cat dbName));;
     assign (fun _ => list))%go None s.

Definition newGetTableRequest (dbName tableName : string) (cat : option string) : wGetTableRequest :=
  let req := NewGetTableRequest in
  {| wGetTableRequest_DbName := dbName;
     wGetTableRequest_TblName := tableName;
     wGetTableRequest_Capabilities := wGetTableRequest_Capabilities req;
     wGetTableRequest_CatName := cat;
     wGetTableRequest_ValidWriteIdList := wGetTableRequest_ValidWriteIdList req;
     wGetTableRequest_GetColumnStats := wGetTableRequest_GetColumnStats req;
     wGetTableRequest_ProcessorCapabilities := wGetTableRequest_ProcessorCapabilities req;
     wGetTableRequest_ProcessorIdentifier := wGetTableRequest_ProcessorIdentifier req;
     wGetTableRequest_Engine := wGetTableRequest_Engine req;
     wGetTableRequest_ID := wGetTableRequest_ID req |}.

Definition get_table_body (cfg : config) (dbName tableName : string) (opts : list CatalogOption)
    : M (bst W (option Table)) unit :=
  (cat <- resolveCat cfg opts;;
   res <- rpcM (fun r => getTableReq r (newGetTableRequest dbName tableName cat));;
   assign (fun _ => tableFromThrift (wGetTableResult__Table res)))%go.

Definition GetTable (dbName tableName : string) (opts : list CatalogOption) : api W (option Table) := fun s =>
  read env "get_table_req" (get_table_body (cfg_of s) dbName tableName opts) None s.

(** The bare struct literal of GetTables and GetTablesSeq. *)
Definition get_tables_request (dbName : string) (chunk : list string) (cat : option string) : wGetTablesRequest :=
  {| wGetTablesRequest_DbName := dbName; wGetTablesRequest_TblNames := Some chunk;
     wGetTablesRequest_Capabilities := None; wGetTablesRequest_CatName := cat;
     wGetTablesRequest_ProcessorCapabilities := None; wGetTablesRequest_ProcessorIdentifier := None;
     wGetTablesRequest_ProjectionSpec := None; wGetTablesRequest_TablesPattern := None |}.

(** [f(x, in)] run on the interner a body carries, and appended to a result. *)
Definition intern_into {L A B} (get_in : L -> columnIntern) (set_in : columnIntern -> B -> L -> L)
    (m : A -> M columnIntern B) (x : A) : M (bst W L) unit := fun s =>
  match m x (get_in (b_loc s)) with
  | (_, inl e) => (s, inl e)
  | (st, inr b) => (set_loc (set_in st b (b_loc s)) s, inr tt)
  end.

(** The variables of GetTables' body: [out], and [tables] and [in], which each
    attempt starts afresh. *)
Record tables_vars := mkTablesVars {
  tv_out : slice (option Table); tv_tables : slice (option Table); tv_in : columnIntern }.

Definition append_table (st : columnIntern) (t : option Table) (l : tables_vars) : tables_vars :=
  mkTablesVars (tv_out l) (Some (elems (tv_tables l) ++ [t])) st.

Definition get_tables_body (cfg : config) (dbName : string) (tableNames : list string)
    (opts : list CatalogOption) : M (bst W tables_vars) unit :=
  (cat <- resolveCat cfg opts;;
   assign (fun l => mkTablesVars (tv_out l) None (newColumnIntern 0));;;
   forM (chunks (Z.to_nat (cfg_chunkSize cfg)) tableNames) (fun chunk =>
     res <- rpcM (fun r => getTableObjectsByNameReq r (get_tables_request dbName chunk cat));;
     forM (elems (wGetTablesResult__Tables res))
       (intern_into tv_in append_table (tableFromThriftIntern true)));;;
   assign (fun l => mkTablesVars (tv_tables l) (tv_tables l) (tv_in l)))%go.

Definition GetTables (dbName : string) (tableNames : list string) (opts : list CatalogOption)
    : api W (slice (option Table)) := fun s =>
  let '(s, (l, err)) := read env "get_table_objects_by_name_req"
    (get_tables_body (cfg_of s) dbName tableNames opts) (mkTablesVars None None (newColumnIntern 0)) s in
  (s, (tv_out l, err)).

(** One chunk's RPC of the stream: the raw tables, or the error to yield. *)
Definition fetch_tables (dbName : string) (chunk : list string) (opts : list CatalogOption)
    : api W (slice (option wTable)) := fun s =>
  read env "get_table_objects_by_name_req"
    (cat <- resolveCat (cfg_of s) opts;;
     res <- rpcM (fun r => getTableObjectsByNameReq r (get_tables_request dbName chunk cat));;
     assign (fun _ => wGetTablesResult__Tables res))%go None s.

(** The chunk loop shared by the two streams. *)
Fixpoint stream_chunks {C A B} (op : string) (yield : consumer W C (option B))
    (fetch : list string -> api W (slice A)) (conv : A -> M columnIntern (option B))
    (cs : list (list string)) (st : columnIntern) (sc : St W * C) : St W * C :=
  match cs with
  | [] => sc
  | chunk :: cs =>
      let '(s, c) := sc in
      match env_ctxErr env (st_world s) with
      | Some err => fst (yield None (wrapError op (Some err)) (s, c))
      | None =>
          match fetch chunk s with
          | (s, (_, Some err)) => fst (yield None (Some err) (s, c))
          | (s, (items, None)) =>
              match yield_all yield conv (elems items) st (s, c) with
              | (sc, Going st) => stream_chunks op yield fetch conv cs st sc
              | (sc, Over) => sc
              end
          end
      end
  end.

(** A stream: a names lookup, then the chunk loop. *)
Definition stream {C A B} (op : string) (lookup : api W (slice string))
    (fetch : list string -> api W (slice A)) (conv : A -> M columnIntern (option B))
    (yield : consumer W C (option B)) (sc : St W * C) : St W * C :=
  let '(s, c) := sc in
  match lookup s with
  | (s, (_, Some err)) => fst (yield None (Some err) (s, c))
  | (s, (names, None)) =>
      stream_chunks op yield fetch conv
        (chunks (Z.to_nat (cfg_chunkSize (cfg_of s))) (elems names)) (newColumnIntern 0) (s, c)
  end.

Definition GetTablesSeq {C} (dbName : string) (opts : list CatalogOption)
    (yield : consumer W C (option Table)) (sc : St W * C) : St W * C :=
  stream "get_table_objects_by_name_req" (GetAllTables dbName opts)
    (fun chunk => fetch_tables dbName chunk opts) (tableFromThriftIntern true) yield sc.

Definition create_table_body {L} (cfg : config) (table : Table) : M (bst W L) unit :=
  (cat <- resolveCatFor cfg (Table_CatalogName table) [];;
   rpcM (fun r => createTable r (tableToThrift (Some table) cat)))%go.

Definition CreateTable (table : Table) (s : St W) : St W * option goerr :=
  let '(s, (_, err)) := call env "create_table" (create_table_body (cfg_of s) table) tt s in (s, err).

Definition alter_table_body {L} (cfg : config) (dbName tableName : string) (newTable : Table)
    (opts : list CatalogOption) : M (bst W L) unit :=
  (cat <- resolveCatFor cfg (Table_CatalogName newTable) opts;;
   rpcM (fun r => alterTable r (qualifyDBName cat dbName) tableName (tableToThriftFrom (Some newTable) cat)))%go.

Definition AlterTable (dbName tableName : string) (newTable : Table) (opts : list CatalogOption)
    (s : St W) : St W * option goerr :=
  let '(s, (_, err)) := call env "alter_table" (alter_table_body (cfg_of s) dbName tableName newTable opts) tt s in
  (s, err).

Definition drop_table_body {L} (cfg : config) (dbName tableName : string) (deleteData ifExists : bool)
    (opts : list CatalogOption) : M (bst W L) unit :=
  (cat <- resolveCat cfg opts;;
   if_exists ifExists (rpcM (fun r => dropTable r (qualifyDBName cat dbName) tableName deleteData)))%go.

Definition DropTable (dbName tableName : string) (deleteData ifExists : bool) (opts : list CatalogOption)
    (s : St W) : St W * option goerr :=
  let '(s, (_, err)) := call env "drop_table"
    (drop_table_body (cfg_of s) dbName tableName deleteData ifExists opts) tt s in (s, err).
End ops.
