(* ===== verification/PartitionOps.v ===== *)
(** * PartitionOps: partition.go

    Partition listings, their request builders and legacy fallbacks, the
    batched mutations, and the streaming listing. *)

From S2P Require Import Prelude Errors Cluster GoMonad Wire Options Conn Types Uri Convert PartName Client DbOps TableOps.

(** [int] is 64-bit; the result is the i16 of the wire. *)
Definition max_parts_message (op : string) (maxParts : Z) : string :=
  "hms: maxParts " +:+ Itoa maxParts +:+ " exceeds Hive metastore limit of " +:+ Itoa MaxInt16 +:+
  " (math.MaxInt16); use -1 for all partitions" +:+
  (if String.eqb op "get_partitions_req" then " or GetPartitionsSeq to stream" else "").

Definition checkMaxParts (op : string) (maxParts : Z) : goerr + Z :=
  if MaxInt16 <? maxParts then
    inl (EHms op ErrInvalidOperation (EText (max_parts_message op maxParts)))
  else if maxParts <? 0 then inr (-1)
  else inr (int16 maxParts).

Definition newPartitionsRequest (dbName tableName : string) (cat : option string) (maxParts : Z)
    : wPartitionsRequest :=
  let req := NewPartitionsRequest in
  {| wPartitionsRequest_CatName := cat;
     wPartitionsRequest_DbName := dbName;
     wPartitionsRequest_TblName := tableName;
     wPartitionsRequest_MaxParts := maxParts;
     wPartitionsRequest_ValidWriteIdList := wPartitionsRequest_ValidWriteIdList req;
     wPartitionsRequest_ID := wPartitionsRequest_ID req;
     wPartitionsRequest_SkipColumnSchemaForPartition := wPartitionsRequest_SkipColumnSchemaForPartition req;
     wPartitionsRequest_IncludeParamKeyPattern := wPartitionsRequest_IncludeParamKeyPattern req;
     wPartitionsRequest_ExcludeParamKeyPattern := wPartitionsRequest_ExcludeParamKeyPattern req |}.

Definition newAlterPartitionsRequest (dbName tableName : string) (cat : option string)
    (partitions : slice (option wPartition)) : wAlterPartitionsRequest :=
  let req := NewAlterPartitionsRequest in
  {| wAlterPartitionsRequest_CatName := cat;
     wAlterPartitionsRequest_DbName := dbName;
     wAlterPartitionsRequest_TableName := tableName;
     wAlterPartitionsRequest_Partitions := partitions;
     wAlterPartitionsRequest_EnvironmentContext := wAlterPartitionsRequest_EnvironmentContext req;
     wAlterPartitionsRequest_WriteId := wAlterPartitionsRequest_WriteId req;
     wAlterPartitionsRequest_ValidWriteIdList := wAlterPartitionsRequest_ValidWriteIdList req;
     wAlterPartitionsRequest_SkipColumnSchemaForPartition :=
       wAlterPartitionsRequest_SkipColumnSchemaForPartition req;
     wAlterPartitionsRequest_PartitionColSchema := wAlterPartitionsRequest_PartitionColSchema req |}.

Definition newGetPartitionsByNamesRequest (dbName tableName : string) (cat : option string)
    (names : slice string) : wGetPartitionsByNamesRequest :=
  let req := NewGetPartitionsByNamesRequest in
  {| wGetPartitionsByNamesRequest_DbName := qualifyDBName cat dbName;
     wGetPartitionsByNamesRequest_TblName := tableName;
     wGetPartitionsByNamesRequest_Names := names;
     wGetPartitionsByNamesRequest_GetColStats := wGetPartitionsByNamesRequest_GetColStats req;
     wGetPartitionsByNamesRequest_ProcessorCapabilities :=
       wGetPartitionsByNamesRequest_ProcessorCapabilities req;
     wGetPartitionsByNamesRequest_ProcessorIdentifier :=
       wGetPartitionsByNamesRequest_ProcessorIdentifier req;
     wGetPartitionsByNamesRequest_Engine := wGetPartitionsByNamesRequest_Engine req;
     wGetPartitionsByNamesRequest_ValidWriteIdList := wGetPartitionsByNamesRequest_ValidWriteIdList req;
     wGetPartitionsByNamesRequest_GetFileMetadata := wGetPartitionsByNamesRequest_GetFileMetadata req;
     wGetPartitionsByNamesRequest_ID := wGetPartitionsByNamesRequest_ID req;
     wGetPartitionsByNamesRequest_SkipColumnSchemaForPartition :=
       wGetPartitionsByNamesRequest_SkipColumnSchemaForPartition req;
     wGetPartitionsByNamesRequest_IncludeParamKeyPattern :=
       wGetPartitionsByNamesRequest_IncludeParamKeyPattern req;
     wGetPartitionsByNamesRequest_ExcludeParamKeyPattern :=
       wGetPartitionsByNamesRequest_ExcludeParamKeyPattern req |}.

Definition newGetPartitionNamesPsRequest (dbName tableName : string) (cat : option string)
    (partialValues : slice string) (maxParts : Z) : wGetPartitionNamesPsRequest :=
  let req := NewGetPartitionNamesPsRequest in
  {| wGetPartitionNamesPsRequest_CatName := cat;
     wGetPartitionNamesPsRequest_DbName := dbName;
     wGetPartitionNamesPsRequest_TblName := tableName;
     wGetPartitionNamesPsRequest_PartValues := partialValues;
     wGetPartitionNamesPsRequest_MaxParts := maxParts;
     wGetPartitionNamesPsRequest_ValidWriteIdList := wGetPartitionNamesPsRequest_ValidWriteIdList req;
     wGetPartitionNamesPsRequest_ID := wGetPartitionNamesPsRequest_ID req |}.

Definition newDropPartitionsRequest (dbName tableName : string) (cat : option string)
    (names : slice string) (deleteData ifExists : bool) : wDropPartitionsRequest :=
  let req := NewDropPartitionsRequest in
  {| wDropPartitionsRequest_DbName := dbName;
     wDropPartitionsRequest_TblName := tableName;
     wDropPartitionsRequest_Parts := Some (mk_wRequestPartsSpec names None);
     wDropPartitionsRequest_DeleteData := Some deleteData;
     wDropPartitionsRequest_IfExists := ifExists;
     wDropPartitionsRequest_IgnoreProtection := wDropPartitionsRequest_IgnoreProtection req;
     wDropPartitionsRequest_EnvironmentContext := wDropPartitionsRequest_EnvironmentContext req;
     wDropPartitionsRequest_NeedResult_ := false;
     wDropPartitionsRequest_CatName := cat;
     wDropPartitionsRequest_SkipColumnSchemaForPartition :=
       wDropPartitionsRequest_SkipColumnSchemaForPartition req |}.

(** AddPartitions' bare struct literal. *)
Definition add_partitions_request (dbName tableName : string) (cat : option string)
    (parts : slice (option wPartition)) (ifNotExists : bool) : wAddPartitionsRequest :=
  {| wAddPartitionsRequest_DbName := dbName;
     wAddPartitionsRequest_TblName := tableName;
     wAddPartitionsRequest_Parts := parts;
     wAddPartitionsRequest_IfNotExists := ifNotExists;
     wAddPartitionsRequest_NeedResult_ := false;
     wAddPartitionsRequest_CatName := cat;
     wAddPartitionsRequest_ValidWriteIdList := None;
     wAddPartitionsRequest_SkipColumnSchemaForPartition := None;
     wAddPartitionsRequest_PartitionColSchema := None;
     wAddPartitionsRequest_EnvironmentContext := None |}.

Section ops.
Context {W : Type} {U : UrlLib} {UL : UnicodeLower} {cp : DeepCopy} (env : Env W).

(** A call whose maxParts is checked first. *)
Definition with_max_parts {A} (op : string) (maxParts : Z) (zero : A) (k : Z -> api W A) : api W A := fun s =>
  match checkMaxParts op maxParts with
  | inl err => (s, (zero, Some err))
  | inr mp => k mp s
  end.

Definition get_partitions_body (cfg : config) (dbName tableName : string) (mp : Z) (opts : list CatalogOption)
    : M (bst W (slice (option Partition))) unit :=
  (cat <- resolveCat cfg opts;;
   tryReq "get_partitions_req"
     (resp <- rpcM (fun r => getPartitionsReq r (newPartitionsRequest dbName tableName cat mp));;
      ps <- lift (partitionsFromThrift 0 (wPartitionsResponse_Partitions resp));;
      assign (fun _ => ps))
     (parts <- rpcM (fun r => getPartitions r (qualifyDBName cat dbName) tableName mp);;
      ps <- lift (partitionsFromThrift 0 parts);;
      assign (fun _ => ps)))%go.

Definition GetPartitions (dbName tableName : string) (maxParts : Z) (opts : list CatalogOption)
    : api W (slice (option Partition)) :=
  with_max_parts "get_partitions_req" maxParts None (fun mp s =>
    read env "get_partitions_req" (get_partitions_body (cfg_of s) dbName tableName mp opts) None s).

Definition GetPartitionNames (dbName tableName : string) (maxParts : Z) (opts : list CatalogOption)
    : api W (slice string) :=
  with_max_parts "get_partition_names" maxParts None (fun mp s =>
    read env "get_partition_names"
      (cat <- resolveCat (cfg_of s) opts;;
       names <- rpcM (fun r => getPartitionNames r (qualifyDBName cat dbName) tableName mp);;
       assign (fun _ => names))%go None s).

(** One chunk's RPC of GetPartitionsSeq. *)
Definition fetch_partitions (dbName tableName : string) (chunk : list string) (opts : list CatalogOption)
    : api W (slice (option wPartition)) := fun s =>
  read env "get_partitions_by_names_req"
    (cat <- resolveCat (cfg_of s) opts;;
     tryReq "get_partitions_by_names_req"
       (resp <- rpcM (fun r => getPartitionsByNamesReq r
                                 (newGetPartitionsByNamesRequest dbName tableName cat (Some chunk)));;
        assign (fun _ => wGetPartitionsByNamesResult__Partitions resp))
       (ps <- rpcM (fun r => getPartitionsByNames r (qualifyDBName cat dbName) tableName (Some chunk));;
        assign (fun _ => ps)))%go None s.

Definition GetPartitionsSeq {C} (dbName tableName : string) (opts : list CatalogOption)
    (yield : consumer W C (option Partition)) (sc : St W * C) : St W * C :=
  stream env "get_partitions_by_names_req"
    (fun s => read env "get_partition_names"
       (cat <- resolveCat (cfg_of s) opts;;
        names <- rpcM (fun r => getPartitionNames r (qualifyDBName cat dbName) tableName (-1));;
        assign (fun _ => names))%go None s)
    (fun chunk => fetch_partitions dbName tableName chunk opts) (partitionFromThriftIntern true) yield sc.

(** One batch of AddPartitions. *)
Definition add_batch {L} (dbName tableName : string) (cat : option string) (ifNotExists : bool)
    (batch : list (option Partition)) : M (bst W L) unit :=
  (_ <- rpcM (fun r => addPartitionsReq r (add_partitions_request dbName tableName cat
          (partitionsToThrift (Some batch) cat dbName tableName) ifNotExists));; ret tt)%go.

Definition AddPartitions (dbName tableName : string) (partitions : list (option Partition))
    (ifNotExists : bool) (opts : list CatalogOption) (s : St W) : St W * option goerr :=
  let '(s, (_, err)) := call env "add_partitions_req"
    (cat <- resolveCat (cfg_of s) opts;;
     forM (chunks (Z.to_nat (cfg_partitionBatchSize (cfg_of s))) partitions)
       (add_batch dbName tableName cat ifNotExists))%go tt s in (s, err).

(** One batch of AlterPartitions. *)
Definition alter_batch {L} (dbName tableName : string) (cat : option string)
    (chunk : list (option Partition)) : M (bst W L) unit :=
  tryReq "alter_partitions_req"
    (rpcM (fun r => alterPartitionsReq r (newAlterPartitionsRequest dbName tableName cat
       (partitionsToThriftFrom (Some chunk) cat dbName tableName))))
    (rpcM (fun r => alterPartitions r (qualifyDBName cat dbName) tableName
       (partitionsToThriftFrom (Some chunk) cat dbName tableName))).

Definition AlterPartitions (dbName tableName : string) (partitions : list (option Partition))
    (opts : list CatalogOption) (s : St W) : St W * option goerr :=
  let '(s, (_, err)) := call env "alter_partitions_req"
    (cat <- resolveCat (cfg_of s) opts;;
     forM (chunks (Z.to_nat (cfg_partitionBatchSize (cfg_of s))) partitions)
       (alter_batch dbName tableName cat))%go tt s in (s, err).

(** The variables of GetPartitionsByNames' body. *)
Record parts_vars := mkPartsVars {
  pv_out : slice (option Partition); pv_parts : slice (option Partition); pv_in : columnIntern }.

(** [append(parts, xs...)]: appending nothing to nil leaves nil. *)
Definition append_parts (st : columnIntern) (ps : slice (option Partition)) (l : parts_vars) : parts_vars :=
  mkPartsVars (pv_out l) (match elems ps with [] => pv_parts l | xs => Some (elems (pv_parts l) ++ xs) end) st.

Definition by_names_batch (dbName tableName : string) (cat : option string) (chunk : list string)
    : M (bst W parts_vars) unit :=
  tryReq "get_partitions_by_names_req"
    (resp <- rpcM (fun r => getPartitionsByNamesReq r
                              (newGetPartitionsByNamesRequest dbName tableName cat (Some chunk)));;
     intern_into pv_in append_parts partitionsFromThriftIntern (wGetPartitionsByNamesResult__Partitions resp))%go
    (ps <- rpcM (fun r => getPartitionsByNames r (qualifyDBName cat dbName) tableName (Some chunk));;
     intern_into pv_in append_parts partitionsFromThriftIntern ps)%go.

Definition get_partitions_by_names_body (cfg : config) (dbName tableName : string) (names : list string)
    (opts : list CatalogOption) : M (bst W parts_vars) unit :=
  (cat <- resolveCat cfg opts;;
   assign (fun l => mkPartsVars (pv_out l) None (newColumnIntern 0));;;
   forM (chunks (Z.to_nat (cfg_chunkSize cfg)) names) (by_names_batch dbName tableName cat);;;
   assign (fun l => mkPartsVars (pv_parts l) (pv_parts l) (pv_in l)))%go.

Definition GetPartitionsByNames (dbName tableName : string) (names : list string)
    (opts : list CatalogOption) : api W (slice (option Partition)) := fun s =>
  let '(s, (l, err)) := read env "get_partitions_by_names_req"
    (get_partitions_by_names_body (cfg_of s) dbName tableName names opts)
    (mkPartsVars None None (newColumnIntern 0)) s in
  (s, (pv_out l, err)).

Definition GetPartitionsByFilter (dbName tableName filter : string) (maxParts : Z)
    (opts : list CatalogOption) : api W (slice (option Partition)) :=
  with_max_parts "get_partitions_by_filter" maxParts None (fun mp s =>
    read env "get_partitions_by_filter"
      (cat <- resolveCat (cfg_of s) opts;;
       parts <- rpcM (fun r => getPartitionsByFilter r (qualifyDBName cat dbName) tableName filter mp);;
       ps <- lift (partitionsFromThrift 0 parts);;
       assign (fun _ => ps))%go None s).

Definition GetPartitionNamesByValues (dbName tableName : string) (partialValues : slice string)
    (maxParts : Z) (opts : list CatalogOption) : api W (slice string) :=
  with_max_parts "get_partition_names_ps_req" maxParts None (fun mp s =>
    read env "get_partition_names_ps_req"
      (cat <- resolveCat (cfg_of s) opts;;
       tryReq "get_partition_names_ps_req"
         (resp <- rpcM (fun r => getPartitionNamesPsReq r
                          (newGetPartitionNamesPsRequest dbName tableName cat partialValues mp));;
          assign (fun _ => wGetPartitionNamesPsResponse_Names resp))
         (names <- rpcM (fun r => getPartitionNamesPs r (qualifyDBName cat dbName) tableName partialValues mp);;
          assign (fun _ => names)))%go None s).

Definition DropPartition (dbName tableName : string) (partVals : slice string) (deleteData ifExists : bool)
    (opts : list CatalogOption) (s : St W) : St W * option goerr :=
  let '(s, (_, err)) := call env "drop_partition"
    (cat <- resolveCat (cfg_of s) opts;;
     if_exists ifExists
       (_ <- rpcM (fun r => dropPartition r (qualifyDBName cat dbName) tableName partVals deleteData);;
        ret tt))%go tt s in (s, err).

(** One batch of DropPartitionsByNames: with ifExists a not-found answer skips
    the whole batch it was sent in. *)
Definition drop_batch {L} (dbName tableName : string) (cat : option string) (deleteData ifExists : bool)
    (chunk : list string) : M (bst W L) unit :=
  if_exists ifExists
    (rpcM (fun r => dropPartitionsReq r
       (newDropPartitionsRequest dbName tableName cat (Some chunk) deleteData ifExists))).

Definition DropPartitionsByNames (dbName tableName : string) (names : list string)
    (deleteData ifExists : bool) (opts : list CatalogOption) (s : St W) : St W * option goerr :=
  let '(s, (_, err)) := call env "drop_partitions_req"
    (cat <- resolveCat (cfg_of s) opts;;
     forM (chunks (Z.to_nat (cfg_partitionBatchSize (cfg_of s))) names)
       (drop_batch dbName tableName cat deleteData ifExists))%go tt s in (s, err).

(** [for i, vals := range partVals { name, err := PartitionName(keys, vals) ... }] *)
Fixpoint partition_names (keys : list string) (partVals : list (list string)) : goerr + list string :=
  match partVals with
  | [] => inr []
  | vals :: partVals =>
      match PartitionName keys vals with
      | inl err => inl err
      | inr name =>
          match partition_names keys partVals with
          | inl err => inl err
          | inr names => inr (name :: names)
          end
      end
  end.

(** A nil key column panics in Go; the decoder never produces one. *)
Definition key_names (keys : slice (option FieldSchema)) : list string :=
  map (fun k => match k with Some f => FieldSchema_Name f | None => "" end) (elems keys).

(** A nil table (a server that answered with neither a table nor an exception)
    panics here: [None]. *)
Definition DropPartitions (dbName tableName : string) (partVals : list (list string))
    (deleteData ifExists : bool) (opts : list CatalogOption) (s : St W) : option (St W * option goerr) :=
  match GetTable env dbName tableName opts s with
  | (s, (_, Some err)) => Some (s, Some err)
  | (s, (None, None)) => None
  | (s, (Some tbl, None)) =>
      match partition_names (key_names (Table_PartitionKeys tbl)) partVals with
      | inl err => Some (s, wrapAs "drop_partitions_req" ErrInvalidOperation (Some err))
      | inr names => Some (DropPartitionsByNames dbName tableName names deleteData ifExists opts s)
      end
  end.
End ops.
