(* ===== verification/TxnOps.v ===== *)
(** * TxnOps: acid.go, stats.go and notification.go

    Transactions and locks, column statistics, and the notification log. *)

From S2P Require Import Prelude Errors Cluster GoMonad Wire Options Conn Types Uri Convert PartName Client DbOps TableOps.

(** ** acid.go: requests *)

Definition newOpenTxnRequest (user host : string) : wOpenTxnRequest :=
  let req := NewOpenTxnRequest in
  {| wOpenTxnRequest_NumTxns := 1; wOpenTxnRequest_User := user; wOpenTxnRequest_Hostname := host;
     wOpenTxnRequest_AgentInfo := "hms-client-go";
     wOpenTxnRequest_ReplPolicy := wOpenTxnRequest_ReplPolicy req;
     wOpenTxnRequest_ReplSrcTxnIds := wOpenTxnRequest_ReplSrcTxnIds req;
     wOpenTxnRequest_TxnType := wOpenTxnRequest_TxnType req |}.

Definition newCommitTxnRequest (txnID : Z) : wCommitTxnRequest :=
  let req := NewCommitTxnRequest in
  {| wCommitTxnRequest_Txnid := txnID;
     wCommitTxnRequest_ReplPolicy := wCommitTxnRequest_ReplPolicy req;
     wCommitTxnRequest_WriteEventInfos := wCommitTxnRequest_WriteEventInfos req;
     wCommitTxnRequest_ReplLastIdInfo := wCommitTxnRequest_ReplLastIdInfo req;
     wCommitTxnRequest_KeyValue := wCommitTxnRequest_KeyValue req;
     wCommitTxnRequest_ExclWriteEnabled := wCommitTxnRequest_ExclWriteEnabled req;
     wCommitTxnRequest_TxnType := wCommitTxnRequest_TxnType req |}.

Definition newAbortTxnRequest (txnID : Z) : wAbortTxnRequest :=
  let req := NewAbortTxnRequest in
  {| wAbortTxnRequest_Txnid := txnID;
     wAbortTxnRequest_ReplPolicy := wAbortTxnRequest_ReplPolicy req;
     wAbortTxnRequest_TxnType := wAbortTxnRequest_TxnType req;
     wAbortTxnRequest_ErrorCode := wAbortTxnRequest_ErrorCode req |}.

Definition newHeartbeatRequest (txnID lockID : Z) : wHeartbeatRequest :=
  let req := NewHeartbeatRequest in
  {| wHeartbeatRequest_Lockid := (if negb (lockID =? 0) then Some lockID else wHeartbeatRequest_Lockid req);
     wHeartbeatRequest_Txnid := (if negb (txnID =? 0) then Some txnID else wHeartbeatRequest_Txnid req) |}.


Definition lockOperationType (t : Z) : Z :=
  if t =? LockTypeSharedRead then DataOperationType_SELECT
  else if t =? LockTypeSharedWrite then DataOperationType_INSERT
  else if t =? LockTypeExclWrite then DataOperationType_UPDATE
  else DataOperationType_NO_TXN.

Definition newLockComponent (lc : LockComponent) : wLockComponent :=
  let out := NewLockComponent in
  {| wLockComponent_Type := LockComponent_Type lc;
     wLockComponent_Level := LockComponent_Level lc;
     wLockComponent_Dbname := LockComponent_Database lc;
     wLockComponent_Tablename :=
       (if String.eqb (LockComponent_Table lc) "" then wLockComponent_Tablename out
        else Some (LockComponent_Table lc));
     wLockComponent_Partitionname :=
       (if String.eqb (LockComponent_Partition lc) "" then wLockComponent_Partitionname out
        else Some (LockComponent_Partition lc));
     wLockComponent_OperationType := lockOperationType (LockComponent_Type lc);
     wLockComponent_IsTransactional := wLockComponent_IsTransactional out;
     wLockComponent_IsDynamicPartitionWrite := wLockComponent_IsDynamicPartitionWrite out |}.

Definition newLockRequest (req : LockRequest) : wLockRequest :=
  let out := NewLockRequest in
  {| wLockRequest_Component := Some (map (fun lc => Some (newLockComponent lc)) (LockRequest_Components req));
     wLockRequest_Txnid := (if 0 <? LockRequest_TxnID req then Some (LockRequest_TxnID req)
                            else wLockRequest_Txnid out);
     wLockRequest_User := LockRequest_User req;
     wLockRequest_Hostname := LockRequest_Host req;
     wLockRequest_AgentInfo := wLockRequest_AgentInfo out;
     wLockRequest_ZeroWaitReadEnabled := wLockRequest_ZeroWaitReadEnabled out;
     wLockRequest_ExclusiveCTAS := wLockRequest_ExclusiveCTAS out;
     wLockRequest_LocklessReadsEnabled := wLockRequest_LocklessReadsEnabled out |}.

Definition newCheckLockRequest (lockID : Z) : wCheckLockRequest :=
  let req := NewCheckLockRequest in
  {| wCheckLockRequest_Lockid := lockID;
     wCheckLockRequest_Txnid := wCheckLockRequest_Txnid req;
     wCheckLockRequest_ElapsedMs := wCheckLockRequest_ElapsedMs req |}.

Definition newUnlockRequest (lockID : Z) : wUnlockRequest := mk_wUnlockRequest lockID.

(** The wire enum is an i64 in the generated code; the exported one an int32. *)
Definition lockStateFromThrift (v : Z) : Z :=
  int32 (if MaxInt32 <? v then MaxInt32 else if v <? MinInt32 then MinInt32 else v).

Definition checkID (op name : string) (id : Z) : option goerr :=
  if id <? 0
  then wrapAs op ErrInvalidOperation
         (Some (EText ("hms: " +:+ name +:+ " must not be negative, got " +:+ Itoa id)))
  else None.

Definition LockResponse_zero : LockResponse := mkLockResponse 0 0 "".
Definition lockResponseFromThrift (r : option wLockResponse) : LockResponse :=
  match r with
  | None => LockResponse_zero
  | Some r => mkLockResponse (wLockResponse_Lockid r) (lockStateFromThrift (wLockResponse_State r))
                (default "" (wLockResponse_ErrorMessage r))
  end.

(** ** notification.go and stats.go: requests *)

Definition newNotificationEventRequest (lastEventID max : Z) (eventTypes : list string)
    : wNotificationEventRequest :=
  let req := NewNotificationEventRequest in
  {| wNotificationEventRequest_LastEvent := lastEventID;
     wNotificationEventRequest_MaxEvents :=
       (if 0 <? max then Some (int32 (if MaxInt32 <? max then MaxInt32 else max))
        else wNotificationEventRequest_MaxEvents req);
     wNotificationEventRequest_EventTypeSkipList := wNotificationEventRequest_EventTypeSkipList req;
     wNotificationEventRequest_CatName := wNotificationEventRequest_CatName req;
     wNotificationEventRequest_DbName := wNotificationEventRequest_DbName req;
     wNotificationEventRequest_TableNames := wNotificationEventRequest_TableNames req;
     wNotificationEventRequest_EventTypeList :=
       (match eventTypes with [] => wNotificationEventRequest_EventTypeList req | _ => Some eventTypes end) |}.

Definition newTableStatsRequest (dbName tblName : string) (cat : option string) (columns : list string)
    (engine : string) : wTableStatsRequest :=
  let req := NewTableStatsRequest in
  {| wTableStatsRequest_DbName := dbName;
     wTableStatsRequest_TblName := tblName;
     wTableStatsRequest_ColNames := Some columns;
     wTableStatsRequest_CatName := cat;
     wTableStatsRequest_ValidWriteIdList := wTableStatsRequest_ValidWriteIdList req;
     wTableStatsRequest_Engine := (if String.eqb engine "" then wTableStatsRequest_Engine req else engine);
     wTableStatsRequest_ID := wTableStatsRequest_ID req |}.

(** A nil element would panic in the converters; the decoder produces none. *)
Fixpoint deref_all {A} (l : list (option A)) : goerr + list A :=
  match l with
  | [] => inr []
  | None :: _ => inl nil_dereference
  | Some a :: l => match deref_all l with inl e => inl e | inr l => inr (a :: l) end
  end.

(** The events of a response, converted, of the wanted types: nil when none. *)
Definition wanted (eventTypes : list string) (ev : NotificationEvent) : bool :=
  match eventTypes with
  | [] => true
  | _ => existsb (String.eqb (NotificationEvent_Type ev)) eventTypes
  end.
Definition collect_events (eventTypes : list string) (events : list wNotificationEvent)
    : slice NotificationEvent :=
  match List.filter (wanted eventTypes) (map notificationFromThrift events) with
  | [] => None
  | l => Some l
  end.

Section ops.
Context {W : Type} {U : UrlLib} {cp : DeepCopy} (env : Env W).

(** ** Transactions *)

Definition OpenTransaction (user host : string) : api W Z := fun s =>
  call env "open_txns"
    (resp <- rpcM (fun r => openTxns r (newOpenTxnRequest user host));;
     match elems (wOpenTxnsResponse_TxnIds resp) with
     | [] => throw (EText "hms: open_txns returned no transaction ids")
     | id :: _ => assign (fun _ => id)
     end)%go 0 s.

(** [if err := checkID(...); err != nil { return err }] before a call. *)
Definition checked (err : option goerr) (k : St W -> St W * option goerr) (s : St W) : St W * option goerr :=
  match err with Some e => (s, Some e) | None => k s end.
Definition call_unit (op : string) (f : rpcs W -> M W unit) (s : St W) : St W * option goerr :=
  let '(s, (_, err)) := call env op (rpcM f) tt s in (s, err).

Definition CommitTransaction (txnID : Z) : St W -> St W * option goerr :=
  checked (checkID "commit_txn" "txnID" txnID)
    (call_unit "commit_txn" (fun r => commitTxn r (newCommitTxnRequest txnID))).

Definition AbortTransaction (txnID : Z) : St W -> St W * option goerr :=
  checked (checkID "abort_txn" "txnID" txnID)
    (call_unit "abort_txn" (fun r => abortTxn r (newAbortTxnRequest txnID))).

Definition Heartbeat (txnID lockID : Z) : St W -> St W * option goerr :=
  checked (checkID "heartbeat" "txnID" txnID)
    (checked (checkID "heartbeat" "lockID" lockID)
       (checked (if (txnID =? 0) && (lockID =? 0)
                 then wrapAs "heartbeat" ErrInvalidOperation
                        (Some (EText "hms: txnID and lockID are both 0; nothing to heartbeat"))
                 else None)
          (call_unit "heartbeat" (fun r => heartbeat r (newHeartbeatRequest txnID lockID))))).

(** ** Locks *)

Definition Lock (req : LockRequest) : api W LockResponse := fun s =>
  match checkID "lock" "TxnID" (LockRequest_TxnID req) with
  | Some e => (s, (LockResponse_zero, Some e))
  | None =>
      call env "lock"
        (resp <- rpcM (fun r => lock r (newLockRequest req));;
         assign (fun _ => lockResponseFromThrift resp))%go LockResponse_zero s
  end.

Definition CheckLock (lockID : Z) : api W LockResponse := fun s =>
  match checkID "check_lock" "lockID" lockID with
  | Some e => (s, (LockResponse_zero, Some e))
  | None =>
      call env "check_lock"
        (resp <- rpcM (fun r => checkLock r (newCheckLockRequest lockID));;
         assign (fun _ => lockResponseFromThrift resp))%go LockResponse_zero s
  end.

Definition Unlock (lockID : Z) : St W -> St W * option goerr :=
  checked (checkID "unlock" "lockID" lockID)
    (call_unit "unlock" (fun r => unlock r (newUnlockRequest lockID))).

(** ** Column statistics *)

Definition getTableColumnStatistics (db tbl : string) (columns : list string) (engine : string)
    (opts : list CatalogOption) : api W (slice ColumnStatistics) := fun s =>
  match columns with
  | [] => (s, (None, None))
  | _ =>
      read env "get_table_statistics_req"
        (cat <- resolveCat (cfg_of s) opts;;
         resp <- rpcM (fun r => getTableStatisticsReq r (newTableStatsRequest db tbl cat columns engine));;
         stats <- lift (deref_all (elems (wTableStatsResult__TableStats resp)));;
         assign (fun _ => columnStatisticsListFromThrift (Some stats)))%go None s
  end.

Definition GetTableColumnStatistics (db tbl : string) (columns : list string) (opts : list CatalogOption)
    : api W (slice ColumnStatistics) := getTableColumnStatistics db tbl columns "" opts.

Definition GetTableColumnStatisticsForEngine (db tbl engine : string) (columns : list string)
    (opts : list CatalogOption) : api W (slice ColumnStatistics) := fun s =>
  if String.eqb engine "" then
    (s, (None, wrapAs "get_table_statistics_req" ErrInvalidOperation
      (Some (EText ("hms: engine must not be empty; use GetTableColumnStatistics for the default " +:+
                    dquote +:+ "hive" +:+ dquote +:+ " engine")))))
  else getTableColumnStatistics db tbl columns engine opts s.

(** ** Notifications *)

Definition CurrentNotificationID : api W Z := fun s =>
  read env "get_current_notificationEventId"
    (resp <- rpcM getCurrentNotificationEventId;;
     assign (fun _ => wCurrentNotificationEventId_EventId resp))%go 0 s.

Definition GetNextNotifications (lastEventID max : Z) (eventTypes : list string)
    : api W (slice NotificationEvent) := fun s =>
  read env "get_next_notification"
    (resp <- rpcM (fun r => getNextNotification r (newNotificationEventRequest lastEventID max eventTypes));;
     events <- lift (deref_all (elems (wNotificationEventResponse_Events resp)));;
     assign (fun _ => collect_events eventTypes events))%go None s.
End ops.
