(* ===== verification/OpsFacts.v ===== *)
(** * OpsFacts: the theorems on the client's calls

    Bounds checked before anything is sent, batching, streaming, the location of
    a created database, the not-found contract of a dropped one, and the shape
    of the transaction, lock and notification requests. *)

From S2P Require Import Prelude Errors Cluster GoMonad Wire Options Conn Types Uri Convert PartName Client DbOps TableOps PartitionOps TxnOps ConvertFacts ClientFacts Demo.

(** ** Batches *)

Definition is_ok {A} (r : goerr + A) : bool := match r with inr _ => true | inl _ => false end.

(** [split_at_error f l s s' r]: [f] was run on [done] in order, successfully,
    and then, unless the list was finished, on one more element, whose error is
    [r]; nothing after it was run. *)
Inductive ran {S A} (f : A -> M S unit) : list A -> S -> list A -> S -> goerr + unit -> Prop :=
  | ran_nil s : ran f [] s [] s (inr tt)
  | ran_err x l s s' e : f x s = (s', inl e) -> ran f (x :: l) s [x] s' (inl e)
  | ran_ok x l s s1 xs s' r : f x s = (s1, inr tt) -> ran f l s1 xs s' r -> ran f (x :: l) s (x :: xs) s' r.

Lemma forM_ran {S A} (f : A -> M S unit) l : forall s, exists xs,
  ran f l s xs (fst (forM l f s)) (snd (forM l f s)).
Proof.
  induction l as [|x l IH]; intros s; [exists []; constructor|]. cbn [forM]. unfold bind.
  destruct (f x s) as [s1 [e|[]]] eqn:E; [exists [x]; by constructor|].
  destruct (IH s1) as [xs H]. exists (x :: xs). by econstructor.
Qed.

Lemma ran_prefix {S A} (f : A -> M S unit) l s xs s' r :
  ran f l s xs s' r -> (xs `prefix_of` l) /\ (is_ok r = true -> xs = l).
Proof.
  induction 1 as [|x l s s' e|x l s s1 xs s' r _ _ [IH1 IH2]].
  - done.
  - split; [by apply prefix_cons, prefix_nil|done].
  - split; [by apply prefix_cons|]. intros Hr. by rewrite IH2.
Qed.

(** [l] cut, in order, into batches of [size], of which only the last may be shorter. *)
Definition batches_of {A} (size : Z) (l : list A) (bs : list (list A)) : Prop :=
  concat bs = l /\
  (forall b, In b bs -> (0 < length b)%nat /\ Z.of_nat (length b) <= size) /\
  (forall pre b c post, bs = pre ++ b :: c :: post -> Z.of_nat (length b) = size) /\
  Z.of_nat (length bs) = (Z.of_nat (length l) + size - 1) / size.

Lemma chunks_batches {A} size (l : list A) : 1 <= size -> batches_of size l (chunks (Z.to_nat size) l).
Proof.
  intros Hb. set (n := Z.to_nat size). assert (0 < n)%nat as Hn by lia. split_and!.
  - by apply chunks_concat.
  - intros b Hin. apply chunks_size in Hin; [|done]. lia.
  - intros pre b c post E. apply chunks_fuel_full in E; [lia|done].
  - unfold chunks. rewrite chunks_fuel_count by lia. rewrite Nat2Z.inj_div. f_equal; lia.
Qed.

(** ** The properties *)

(** What the mutation [op] of [l] does and answers, [send] being one batch's RPC: either
    no conn is had, and it is [call]'s error without anything sent; or [call] runs a
    body once, on [cn], from [s1]: the catalog is resolved there, and then the batches
    are sent one after the other, up to and including the first that fails, and none
    after it; [b] and [r] are what is left and returned. *)
Definition sends_batches {W A} `{UrlLib} (env : Env W) (op : string) (opts : list CatalogOption) (l : list A)
    (send : option string -> list A -> M (bst W unit) unit) (s : St W) (result : St W * option goerr) : Prop :=
  exists bs, batches_of (cfg_partitionBatchSize (cfg_of s)) l bs /\
  ((exists s' e, (forall L (fn : M (bst W L) unit) x, call env op fn x s = (s', (x, Some e))) /\ result = (s', Some e)) \/
   (exists idx s1 cn a b r,
      (forall L (fn : M (bst W L) unit) x,
         call env op fn x s =
           let '(s2, cn', x', err) := run_fn fn cn x s1 in
           (settle_call env op idx a s1 cn' err s2, (x', wrapError op err))) /\
      match resolveCat (cfg_of s) opts (mkBst cn (st_world s1) (c_warehouseRoots (st_client s1)) tt) with
      | (b0, inl e) => b = b0 /\ r = inl e
      | (b0, inr cat) =>
          exists sent, ran (send cat) bs b0 sent b r /\ (sent `prefix_of` bs) /\ (is_ok r = true -> sent = bs)
      end /\
      result = (let '(s2, cn', _, err) := run_fn (fun _ => (b, r)) cn tt s1 in
                (settle_call env op idx a s1 cn' err s2, wrapError op err)))).

Lemma batches_sent {W A} `{UrlLib} (env : Env W) op opts (l : list A) (send : option string -> list A -> M (bst W unit) unit) s :
  1 <= cfg_maxRetries (cfg_of s) -> 1 <= cfg_partitionBatchSize (cfg_of s) ->
  sends_batches env op opts l send s
    (let '(s', (_, err)) := call env op
       (cat <- resolveCat (cfg_of s) opts;;
        forM (chunks (Z.to_nat (cfg_partitionBatchSize (cfg_of s))) l) (send cat))%go tt s in (s', err)).
Proof.
  intros Hr Hb. exists (chunks (Z.to_nat (cfg_partitionBatchSize (cfg_of s))) l). split; [by apply chunks_batches|].
  set (bs := chunks _ _). set (body := bind _ _).
  destruct (call_loop_once env op (Z.to_nat (cfg_maxRetries (cfg_of s))) 1 None s) as
    [(s' & e & Hc)|(s0 & idx & s1 & cn & a & _ & Hc)]; [lia|left|right].
  - exists s', e. split; [exact Hc|]. unfold call, do. change (c_cfg (st_client s)) with (cfg_of s). by rewrite Hc.
  - set (b0 := mkBst cn (st_world s1) (c_warehouseRoots (st_client s1)) tt).
    destruct (body b0) as [b r] eqn:Eb. exists idx, s1, cn, a, b, r. split_and!; [exact Hc| |].
    + subst body. unfold bind in Eb. fold b0. destruct (resolveCat (cfg_of s) opts b0) as [b1 [e|cat]]; [by injection Eb as <- <-|].
      destruct (forM_ran (send cat) bs b1) as [sent Hran]. rewrite Eb in Hran. exists sent. split; [done|].
      exact (ran_prefix _ _ _ _ _ _ Hran).
    + unfold call, do. change (c_cfg (st_client s)) with (cfg_of s). rewrite Hc. unfold run_fn. fold b0. by rewrite Eb.
Qed.

(** C30: on a client whose configuration New made, AddPartitions, AlterPartitions and
    DropPartitionsByNames send their input in batches of the partition batch size: in
    order, all of it, only the last one shorter; one request per batch, for this table
    and the resolved catalog, with one wire partition (or name) per partition of the
    batch; one after the other on one connection, up to and including the first that
    fails, whose error is returned, and none after it; with nothing sent when there is
    no connection or the catalog is refused. AlterPartitions sends a batch by the
    legacy method where the server has no other, and with ifExists a batch of
    DropPartitionsByNames that names nothing is not a failure. *)
Theorem batches_sequential {W} `{UrlLib} `{DeepCopy} (env : Env W) os cfg_opts db tb opts
    (partitions : list (option Partition)) (names : list string) ifNotExists deleteData ifExists (s : St W) :
  c_cfg (st_client s) = effective_config os cfg_opts ->
  sends_batches env "add_partitions_req" opts partitions
    (fun cat batch s => map_answer (fun _ => tt)
       (rpcM (fun r => addPartitionsReq r (add_partitions_request db tb cat
          (slice_map (fun p => partitionToThrift p cat db tb) (Some batch)) ifNotExists))) s)
    s (AddPartitions env db tb partitions ifNotExists opts s) /\
  sends_batches env "alter_partitions_req" opts partitions
    (fun cat batch =>
       let ps := slice_map (fun p => partitionToThriftFrom p cat db tb) (Some batch) in
       tryReq "alter_partitions_req"
         (rpcM (fun r => alterPartitionsReq r (newAlterPartitionsRequest db tb cat ps)))
         (rpcM (fun r => alterPartitions r (qualifyDBName cat db) tb ps)))
    s (AlterPartitions env db tb partitions opts s) /\
  sends_batches env "drop_partitions_req" opts names
    (fun cat batch => if_exists ifExists
       (rpcM (fun r => dropPartitionsReq r (newDropPartitionsRequest db tb cat (Some batch) deleteData ifExists))))
    s (DropPartitionsByNames env db tb names deleteData ifExists opts s) /\
  (forall cat ps,
     let add := add_partitions_request db tb cat ps ifNotExists in
     let alt := newAlterPartitionsRequest db tb cat ps in
     let drop := fun batch => newDropPartitionsRequest db tb cat batch deleteData ifExists in
     (wAddPartitionsRequest_CatName add, wAddPartitionsRequest_DbName add, wAddPartitionsRequest_TblName add,
      wAddPartitionsRequest_Parts add, wAddPartitionsRequest_IfNotExists add) = (cat, db, tb, ps, ifNotExists) /\
     (wAlterPartitionsRequest_CatName alt, wAlterPartitionsRequest_DbName alt, wAlterPartitionsRequest_TableName alt,
      wAlterPartitionsRequest_Partitions alt) = (cat, db, tb, ps) /\
     forall batch,
     (wDropPartitionsRequest_CatName (drop batch), wDropPartitionsRequest_DbName (drop batch), wDropPartitionsRequest_TblName (drop batch),
      wDropPartitionsRequest_Parts (drop batch), wDropPartitionsRequest_DeleteData (drop batch), wDropPartitionsRequest_IfExists (drop batch)) =
     (cat, db, tb, Some (mk_wRequestPartsSpec batch None), Some deleteData, ifExists)).
Proof.
  intros Hc. destruct (effective_config_usable os cfg_opts) as (Hr & _ & _ & Hb & _).
  rewrite <- Hc in Hr, Hb. change (c_cfg (st_client s)) with (cfg_of s) in Hr, Hb.
  split_and!; [by apply batches_sent..|done].
Qed.

(** A client whose batches hold two partitions. Five to add, then five names to drop,
    of which the third is refused. *)
Definition batch_opts : list Options.Option := [WithPartitionBatchSize 2].
Definition batchSt : St trace :=
  match fst (snd (@New trace demoUrl demoEnv "thrift://up1" batch_opts [])) with inr s => s | inl _ => demoSt end.
Definition batch_partitions : list (option Partition) := replicate 5 None.
Definition batch_names : list string := ["p=1"; "p=2"; "p=3"; "p=4"; "p=5"].

Example batches_sequential_witness :
  let added := AddPartitions (U := demoUrl) demoEnv "db" "t" batch_partitions false [] batchSt in
  let dropped := DropPartitionsByNames (U := demoUrl) demoEnv "db" "t" batch_names true true [] batchSt in
  let since s := skipn (length (st_world batchSt)) (st_world s) in
  (since (fst added), snd added) =
    (["get_catalogs"; "add_partitions_req 2"; "add_partitions_req 2"; "add_partitions_req 1"], None) /\
  (since (fst dropped), bool_decide (is_Some (snd dropped))) =
    (["get_catalogs"; "drop_partitions_req p=1,p=2"; "drop_partitions_req p=3,p=4"], true) /\
  sends_batches (H := demoUrl) demoEnv "drop_partitions_req" [] batch_names
    (fun cat batch => if_exists true
       (rpcM (fun r => dropPartitionsReq r (newDropPartitionsRequest "db" "t" cat (Some batch) true true))))
    batchSt dropped.
Proof.
  split; [vm_compute; reflexivity|]. split; [vm_compute; reflexivity|].
  assert (c_cfg (st_client batchSt) = effective_config (Some "me") batch_opts) as Hc by (vm_compute; reflexivity).
  exact (proj1 (proj2 (proj2 (@batches_sequential trace demoUrl idCopy demoEnv (Some "me") batch_opts "db" "t" []
    batch_partitions batch_names false true true batchSt Hc)))).
Defined.

(** A partition limit is never truncated: one above 32767 is refused as
    [ErrInvalidOperation] before anything is acquired, sent or observed, every
    other one reaches the i16 wire field as itself, and every negative one as -1. *)
Theorem max_parts_exact {W} `{UrlLib} `{UnicodeLower} `{DeepCopy} (env : Env W) db tb maxParts opts (s : St W) :
  match checkMaxParts "get_partitions_req" maxParts with
  | inl e => MaxInt16 < maxParts /\ is_sentinel ErrInvalidOperation e = true /\
             GetPartitions env db tb maxParts opts s = (s, (None, Some e))
  | inr mp => maxParts <= MaxInt16 /\ in_int16 mp /\
              mp = (if maxParts <? 0 then -1 else maxParts)
  end.
Proof.
  unfold GetPartitions, with_max_parts. unfold checkMaxParts.
  destruct (Z.ltb_spec MaxInt16 maxParts); [split_and!; [done|apply is_sentinel_EHms|done]|].
  destruct (Z.ltb_spec maxParts 0); [done|].
  rewrite int16_id by (unfold in_int16, MaxInt16 in *; lia). unfold in_int16, MaxInt16 in *. lia.
Qed.

(** ** Databases *)

(** Every cached warehouse root is usable as it is. *)
Definition roots_ok (roots : gmap string string) : Prop :=
  forall k base, roots !! k = Some base -> base <> "" /\ TrimRight "/" base = base.

Lemma TrimRight_idem c s : TrimRight c (TrimRight c s) = TrimRight c s.
Proof.
  induction s as [|d s IH]; [done|]. simpl. destruct (TrimRight c s) as [|d' s'] eqn:E.
  - destruct (Ascii.eqb d c) eqn:Ed; [done|]. simpl. by rewrite Ed.
  - simpl in *. rewrite IH. done.
Qed.

Lemma rpcM_roots {W L A} (f : rpcs W -> M W A) (s : bst W L) : b_roots (fst (rpcM f s)) = b_roots s.
Proof. unfold rpcM. by destruct (f _ _). Qed.

Lemma warehouse_lookup {W L} cat (s : bst W L) :
  match warehouseRoot cat s with
  | (s', inr base) =>
      TrimRight "/" base = base /\ (base = "" -> b_roots s' = b_roots s) /\
      (base <> "" -> b_roots s' = <[default "" cat := base]> (b_roots s) \/
                     (b_roots s' = b_roots s /\ b_roots s !! default "" cat = Some base))
  | (s', inl e) => b_roots s' = b_roots s
  end \/ exists base, b_roots s !! default "" cat = Some base /\ warehouseRoot cat s = (s, inr base).
Proof.
  unfold warehouseRoot, get_roots, bind. cbn zeta.
  replace (match cat with Some c => c | None => "" end) with (default "" cat) by by destruct cat.
  destruct (b_roots s !! default "" cat) as [base|] eqn:E; [right; by exists base|]. left.
  set (m := match cat with Some c => _ | None => _ end).
  assert (b_roots (fst (m s)) = b_roots s) as Hm.
  { unfold m. destruct cat as [c|]; [|apply rpcM_roots].
    pose proof (rpcM_roots (fun r => getCatalog r (mk_wGetCatalogRequest c)) s) as H.
    destruct (rpcM _ s) as [s1 [e|r]]; done. }
  destruct (m s) as [s1 [e|raw]]; [done|]. simpl in Hm.
  destruct (String.eqb_spec (TrimRight "/" raw) "") as [Eb|Eb].
  - split_and!; [by rewrite TrimRight_idem|done|by rewrite Eb].
  - simpl. split_and!; [apply TrimRight_idem|done|]. intros _. left. by rewrite Hm.
Qed.

(** The warehouse root of a catalog is asked for at most once: once it is
    known, every later CreateDatabase on this client, on whatever connection,
    uses the cached root without an RPC; an unknown (empty) root is not cached. *)
Theorem warehouseRoot_cached {W L} cat (s : bst W L) :
  match warehouseRoot cat s with
  | (s', inr base) =>
      if String.eqb base "" then b_roots s' = b_roots s \/ b_roots s !! default "" cat = Some ""
      else forall s2 : bst W L,
        warehouseRoot cat (set_roots (b_roots s') s2) = (set_roots (b_roots s') s2, inr base)
  | (s', inl _) => b_roots s' = b_roots s
  end.
Proof.
  assert (forall (s2 : bst W L) base, b_roots s2 !! default "" cat = Some base ->
            warehouseRoot cat s2 = (s2, inr base)) as Hhit.
  { intros s2 base H. unfold warehouseRoot, get_roots, bind. cbn zeta.
    replace (match cat with Some c => c | None => "" end) with (default "" cat) by by destruct cat.
    by rewrite H. }
  destruct (warehouse_lookup cat s) as [H|(base & E & ->)].
  - destruct (warehouseRoot cat s) as [s' [e|base]]; [done|]. destruct H as (_ & H1 & H2).
    destruct (String.eqb_spec base "") as [Eb|Eb]; [left; by apply H1|].
    intros s2. apply Hhit. simpl. destruct (H2 Eb) as [->|[-> H]]; [apply lookup_insert_eq|done].
  - destruct (String.eqb_spec base "") as [->|Eb]; [by left|]. intros s2. by apply Hhit.
Qed.

Lemma string_app_last (a : string) b c : a +:+ String b c <> "".
Proof. by destruct a. Qed.

Lemma resolveCatFor_roots {W L} cfg sc opts (s : bst W L) :
  b_roots (fst (resolveCatFor cfg sc opts s)) = b_roots s.
Proof.
  unfold resolveCatFor, bind. assert (b_roots (fst (supportsCatalogs s)) = b_roots s) as H.
  { unfold supportsCatalogs. pose proof (rpcM_roots getCatalogs s) as Hr.
    destruct (catalogs (b_conn s)); [|done|done].
    destruct (rpcM getCatalogs s) as [s' [e|r]]; simpl in *; [|done]. by case_match. }
  destruct (supportsCatalogs s) as [s' [e|b]]; simpl in *; [done|]. by repeat case_match.
Qed.

(** CreateDatabase never asks for a database at an empty location: whatever
    the caller left empty, the database it sends is at the caller's location
    when there is one, and otherwise at "root/name.db" (name lowercased) under a
    non-empty warehouse root without a trailing slash, with nothing else changed;
    and what it caches keeps that true of later calls. *)
Theorem create_database_located {W} `{UnicodeLower} cfg db (s : bst W unit) :
  roots_ok (b_roots s) ->
  match database_to_create cfg db s with
  | (s', inr w) =>
      roots_ok (b_roots s') /\
      exists d loc cat, w = Some d /\ d = fillDatabase NewDatabase (set_location loc db) cat /\ loc <> "" /\
        (loc = Database_LocationURI db \/
         (Database_LocationURI db = "" /\ exists base, base <> "" /\ TrimRight "/" base = base /\
           loc = base +:+ "/" +:+ ToLower (Database_Name db) +:+ ".db"))
  | (s', inl _) => roots_ok (b_roots s')
  end.
Proof.
  intros Hok. unfold database_to_create, bind.
  pose proof (resolveCatFor_roots cfg (Database_CatalogName db) [] s) as Hr.
  destruct (resolveCatFor _ _ _ s) as [s1 [e|cat]]; simpl in Hr; [by rewrite Hr|].
  destruct (String.eqb_spec (Database_LocationURI db) "") as [El|El].
  - rewrite <- Hr in Hok. destruct (warehouse_lookup cat s1) as [Hw|(base & E & ->)].
    + destruct (warehouseRoot cat s1) as [s2 [e|base]]; [by rewrite Hw|]. destruct Hw as (Ht & Hr1 & Hr2).
      destruct (String.eqb_spec base "") as [Eb|Eb]; simpl; [by rewrite Hr1|]. split.
      * destruct (Hr2 Eb) as [->|[-> _]]; [|done]. intros k b Hk. rewrite lookup_insert in Hk.
        case_decide; [by injection Hk as <-|by eapply Hok].
      * eexists _, _, _. split_and!; [done|done|by destruct base|]. right. split; [done|]. by exists base.
    + destruct (Hok _ _ E) as [Hb Ht]. destruct (String.eqb_spec base "") as [Eb|Eb]; [done|].
      simpl. split; [done|]. eexists _, _, _. split_and!; [done|done|by destruct base|]. right.
      split; [done|]. by exists base.
  - simpl. split; [by rewrite Hr|]. exists (fillDatabase NewDatabase db cat), (Database_LocationURI db), cat.
    split_and!; [done|by destruct db|done|by left].
Qed.

Example create_database_located_witness :
  let s : bst trace unit := mkBst demoConn [] {["" := "s3://wh"]} tt in
  let db := mkDatabase "" "Sales" "" "" None "" 0 zeroTime None in
  match @database_to_create trace asciiLower newConfig db s with
  | (s', inr w) => roots_ok (b_roots s') /\ option_map wDatabase_LocationUri w = Some "s3://wh/sales.db"
  | (_, inl _) => False
  end.
Proof.
  cbn zeta. set (s := mkBst demoConn [] {["" := "s3://wh"]} tt). set (db := mkDatabase _ _ _ _ _ _ _ _ _).
  assert (roots_ok (b_roots s)) as Hok.
  { intros k base Hk. unfold s, b_roots in Hk. rewrite lookup_singleton in Hk.
    case_decide; [by injection Hk as <-|done]. }
  pose proof (create_database_located (H := asciiLower) newConfig db s Hok) as Hl.
  assert (option_map wDatabase_LocationUri
            (default None (match snd (@database_to_create trace asciiLower newConfig db s) with
                           | inr w => Some w | inl _ => None end)) = Some "s3://wh/sales.db") as Hc
    by (vm_compute; reflexivity).
  destruct (database_to_create newConfig db s) as [s' [e|w]]; [discriminate|].
  destruct Hl as [Hl _]. exact (conj Hl Hc).
Defined.

(** The not-found contract of DropDatabase on every supported version: a
    successful drop costs one RPC; when the server reports the database missing,
    or answers otherwise but get_database on the same connection reports it
    missing (Hive 3.1's bare MetaException), the caller gets that not-found
    error, or nil with ifExists; any other failure is returned as it was; and a
    reply that could not be decoded is never followed by another RPC. *)
Theorem drop_database_contract {W L} qname (deleteData cascade ifExists : bool) (s : bst W L) :
  match rpcM (fun r => dropDatabase r qname deleteData cascade) s with
  | (s1, inr _) => drop_database_rpc qname deleteData cascade ifExists s = (s1, inr tt)
  | (s1, inl e) =>
      let missing (s2 : bst W L) (g : goerr) : bst W L * (goerr + unit) :=
        (s2, if ifExists then inr tt else inl g) in
      drop_database_rpc qname deleteData cascade ifExists s =
        if not_found e then missing s1 e
        else if isProtocolError e then (s1, inl e)
        else match rpcM (fun r => getDatabase r qname) s1 with
             | (s2, inl g) => if not_found g then missing s2 g else (s2, inl e)
             | (s2, inr _) => (s2, inl e)
             end
  end.
Proof.
  unfold drop_database_rpc, catch, drop_database_error.
  destruct (rpcM (fun r => dropDatabase r qname deleteData cascade) s) as [s1 [e|[]]] eqn:E1; [|done].
  unfold bind, attempt. destruct (not_found e) eqn:Ee; simpl; [by rewrite Ee; destruct ifExists|].
  destruct (isProtocolError e); simpl; [by rewrite Ee, andb_false_r|].
  destruct (rpcM (fun r => getDatabase r qname) s1) as [s2 [g|d]]; simpl.
  - destruct (not_found g) eqn:Eg; simpl; [by rewrite Eg; destruct ifExists|by rewrite Ee, andb_false_r].
  - by rewrite Ee, andb_false_r.
Qed.

(** ** Streams *)

Section streams.
Context {W A B : Type}.
Local Abbreviation item := (option B * option goerr)%type.
Context (g : option B -> option goerr -> St W -> St W) (more : list item -> bool).

(** A consumer that remembers what it was yielded, may use the client in between
    ([g]), and decides from its whole history whether to go on. *)
Definition recorder : consumer W (list item) (option B) := fun b e sc =>
  let '(s, h) := sc in ((g b e s, h ++ [(b, e)]), more (h ++ [(b, e)])).

(** Every item of [h] but the last was a value the consumer accepted. *)
Definition well_yielded (h : list item) : Prop :=
  forall k x, h !! k = Some x -> (S k < length h)%nat -> snd x = None /\ more (take (S k) h) = true.
Definition all_accepted (h : list item) : Prop :=
  forall k x, h !! k = Some x -> snd x = None /\ more (take (S k) h) = true.
(** After a refusal nothing else happened. *)
Definition stopped_at_refusal (s : St W) (h : list item) : Prop :=
  h <> [] -> more h = false -> exists s0 h0 b e, h = h0 ++ [(b, e)] /\ s = g b e s0.

Lemma accepted_well h : all_accepted h -> well_yielded h.
Proof. intros H k x Hk _. by apply H. Qed.
Lemma accepted_snoc_well h x : all_accepted h -> well_yielded (h ++ [x]).
Proof.
  intros H k y Hk Hlt. rewrite length_app in Hlt. simpl in Hlt.
  rewrite lookup_app_l in Hk by lia. destruct (H k y Hk) as [H1 H2]. split; [done|].
  by rewrite take_app_le by lia.
Qed.
Lemma accepted_snoc h b : all_accepted h -> more (h ++ [(b, None)]) = true -> all_accepted (h ++ [(b, None)]).
Proof.
  intros H Hm k y Hk. destruct (decide (k < length h)%nat) as [Hlt|Hge].
  - rewrite lookup_app_l in Hk by lia. destruct (H k y Hk). split; [done|]. by rewrite take_app_le by lia.
  - assert (k = length h) as ->.
    { apply lookup_lt_Some in Hk. rewrite length_app in Hk. simpl in Hk. lia. }
    rewrite list_lookup_middle in Hk by done. injection Hk as <-. split; [done|].
    rewrite firstn_all2; [done|]. rewrite length_app. simpl. lia.
Qed.
Lemma accepted_more h : all_accepted h -> h <> [] -> more h = true.
Proof.
  intros H Hne. destruct (exists_last Hne) as (h0 & x & ->).
  destruct (H (length h0) x) as [_ Hm]; [by apply list_lookup_middle|].
  rewrite firstn_all2 in Hm; [done|]. rewrite length_app. simpl. lia.
Qed.
Lemma recorder_last s h b e : stopped_at_refusal (g b e s) (h ++ [(b, e)]).
Proof. intros _ _. by exists s, h, b, e. Qed.

Lemma yield_all_protocol (conv : A -> M columnIntern (option B)) items : forall st s h s' h' p,
  all_accepted h -> yield_all recorder conv items st (s, h) = ((s', h'), p) ->
  match p with
  | Going _ => all_accepted h'
  | Over => well_yielded h' /\ stopped_at_refusal s' h'
  end.
Proof.
  induction items as [|x items IH]; intros st s h s' h' p Hh; cbn [yield_all].
  - by intros [= <- <- <-].
  - destruct (conv x st) as [st1 [e|b]].
    + intros [= <- <- <-]. split; [by apply accepted_well|]. intros Hne Hm.
      by rewrite (accepted_more h Hh Hne) in Hm.
    + simpl. destruct (more (h ++ [(b, None)])) eqn:Em.
      * apply IH. by apply accepted_snoc.
      * intros [= <- <- <-]. split; [by apply accepted_snoc_well|apply recorder_last].
Qed.

Lemma stream_chunks_protocol (env : Env W) op fetch (conv : A -> M columnIntern (option B)) cs :
  forall st s h s' h', all_accepted h ->
  stream_chunks env op recorder fetch conv cs st (s, h) = (s', h') ->
  well_yielded h' /\ stopped_at_refusal s' h'.
Proof.
  induction cs as [|chunk cs IH]; intros st s h s' h' Hh; cbn [stream_chunks].
  - intros [= <- <-]. split; [by apply accepted_well|]. intros Hne Hm.
    by rewrite (accepted_more h Hh Hne) in Hm.
  - destruct (env_ctxErr env (st_world s)).
    { simpl. intros [= <- <-]. split; [by apply accepted_snoc_well|apply recorder_last]. }
    destruct (fetch chunk s) as [s1 [items [err|]]].
    { simpl. intros [= <- <-]. split; [by apply accepted_snoc_well|apply recorder_last]. }
    destruct (yield_all recorder conv (elems items) st (s1, h)) as [[s2 h2] p] eqn:Ey.
    apply yield_all_protocol in Ey; [|done]. destruct p; [by apply IH|]. by intros [= <- <-].
Qed.
End streams.

(** C31: the streaming contract of GetPartitionsSeq and GetTablesSeq, for every
    consumer (one that uses the client inside its loop included): an error is
    only ever the last thing yielded, so at most one is; nothing is yielded after
    the consumer said stop; and after that nothing at all happens, no further RPC
    in particular: the final state is the one the refusing consumer left. *)
Theorem stream_protocol {W} `{UrlLib} `{DeepCopy} (env : Env W) db tb opts s :
  (forall g more,
     let '(s', h) := GetPartitionsSeq env db tb opts (recorder g more) (s, []) in
     well_yielded more h /\ stopped_at_refusal g more s' h) /\
  (forall g more,
     let '(s', h) := GetTablesSeq env db opts (recorder g more) (s, []) in
     well_yielded more h /\ stopped_at_refusal g more s' h).
Proof.
  assert (forall A B op lookup fetch (conv : A -> M columnIntern (option B)) g more s' h,
    stream env op lookup fetch conv (recorder g more) (s, []) = (s', h) ->
    well_yielded more h /\ stopped_at_refusal g more s' h) as Hs.
  { intros A B op lookup fetch conv g more s' h. unfold stream.
    assert (all_accepted more []) as Hnil by (intros k x; by rewrite lookup_nil).
    destruct (lookup s) as [s1 [names [err|]]].
    - simpl. intros [= <- <-]. split; [by apply (accepted_snoc_well more [])|apply (recorder_last g more s1 [])].
    - by apply stream_chunks_protocol. }
  split; intros g more.
  - destruct (GetPartitionsSeq _ _ _ _ _ _) as [s' h] eqn:E. exact (Hs _ _ _ _ _ _ _ _ _ _ E).
  - destruct (GetTablesSeq _ _ _ _ _) as [s' h] eqn:E. exact (Hs _ _ _ _ _ _ _ _ _ _ E).
Qed.

(** A consumer that stops after the first table gets that one and nothing else;
    one that never stops gets both. *)
Example stream_demo :
  let run more := length (snd (@GetTablesSeq trace demoUrl idCopy demoEnv _ "db" [] (recorder (fun _ _ s => s) more) (demoSt, []))) in
  run (fun h => false) = 1%nat /\ run (fun h => true) = 2%nat.
Proof. by vm_compute. Qed.

(** ** Transactions and locks *)

(** Refused as [ErrInvalidOperation] with nothing acquired, sent or observed. *)
Definition refused {W} (k : St W -> St W * option goerr) (s : St W) : Prop :=
  exists e, k s = (s, Some e) /\ is_sentinel ErrInvalidOperation e = true.

Lemma checked_id {W} op name id (k : St W -> St W * option goerr) s :
  if id <? 0 then refused (checked (checkID op name id) k) s
  else checked (checkID op name id) k s = k s.
Proof.
  unfold checked, checkID, refused. destruct (id <? 0); [|done].
  eexists. split; [done|]. apply is_sentinel_EHms.
Qed.

(** What reaches the wire of the transaction and lock calls: a negative id is
    refused before anything is sent, and so is a heartbeat that names nothing; a
    heartbeat or lock request carries exactly the non-zero ids; and every lock
    component keeps its type, level, database, table and partition and declares
    an operation, never the UNSET the server rejects. *)
Theorem txn_requests {W} `{UrlLib} (env : Env W) txnID lockID (req : LockRequest) (s : St W) :
  (if txnID <? 0 then refused (CommitTransaction env txnID) s /\ refused (AbortTransaction env txnID) s
   else CommitTransaction env txnID s = call_unit env "commit_txn" (fun r => commitTxn r (newCommitTxnRequest txnID)) s /\
        AbortTransaction env txnID s = call_unit env "abort_txn" (fun r => abortTxn r (newAbortTxnRequest txnID)) s) /\
  (if (txnID <? 0) || (lockID <? 0) || ((txnID =? 0) && (lockID =? 0)) then refused (Heartbeat env txnID lockID) s
   else Heartbeat env txnID lockID s = call_unit env "heartbeat" (fun r => heartbeat r (newHeartbeatRequest txnID lockID)) s) /\
  wHeartbeatRequest_Txnid (newHeartbeatRequest txnID lockID) = (if txnID =? 0 then None else Some txnID) /\
  wHeartbeatRequest_Lockid (newHeartbeatRequest txnID lockID) = (if lockID =? 0 then None else Some lockID) /\
  (if LockRequest_TxnID req <? 0 then
     exists e, Lock env req s = (s, (LockResponse_zero, Some e)) /\ is_sentinel ErrInvalidOperation e = true
   else wLockRequest_Txnid (newLockRequest req) =
          if LockRequest_TxnID req =? 0 then None else Some (LockRequest_TxnID req)) /\
  Forall2 (fun lc c => exists w, c = Some w /\ wLockComponent_Type w = LockComponent_Type lc /\
      wLockComponent_Level w = LockComponent_Level lc /\ wLockComponent_Dbname w = LockComponent_Database lc /\
      default "" (wLockComponent_Tablename w) = LockComponent_Table lc /\
      default "" (wLockComponent_Partitionname w) = LockComponent_Partition lc /\
      wLockComponent_OperationType w <> DataOperationType_UNSET)
    (LockRequest_Components req) (elems (wLockRequest_Component (newLockRequest req))).
Proof.
  split_and!.
  - pose proof (fun op k => checked_id op "txnID" txnID k s) as Hid.
    unfold CommitTransaction, AbortTransaction. destruct (txnID <? 0); split; apply Hid.
  - unfold Heartbeat.
    match goal with |- context [refused (checked _ ?k) s] =>
      pose proof (checked_id "heartbeat" "txnID" txnID k s) as H1 end.
    destruct (txnID <? 0); [done|]. simpl orb. unfold refused in *. rewrite H1.
    match goal with |- context [checked (checkID _ _ lockID) ?k s] =>
      pose proof (checked_id "heartbeat" "lockID" lockID k s) as H2 end.
    destruct (lockID <? 0); [exact H2|]. simpl orb. rewrite H2.
    destruct ((txnID =? 0) && (lockID =? 0)); [|done].
    eexists. split; [done|]. apply is_sentinel_EHms.
  - unfold newHeartbeatRequest; simpl. by destruct (txnID =? 0).
  - unfold newHeartbeatRequest; simpl. by destruct (lockID =? 0).
  - unfold Lock, checkID. destruct (Z.ltb_spec (LockRequest_TxnID req) 0).
    + eexists. split; [done|]. apply is_sentinel_EHms.
    + simpl. destruct (Z.ltb_spec 0 (LockRequest_TxnID req)), (Z.eqb_spec (LockRequest_TxnID req) 0); done || lia.
  - simpl. induction (LockRequest_Components req) as [|lc l IH]; [constructor|]. simpl. constructor; [|done].
    eexists. split; [done|]. unfold newLockComponent; simpl. split_and!; try done.
    + by destruct (String.eqb_spec (LockComponent_Table lc) "").
    + by destruct (String.eqb_spec (LockComponent_Partition lc) "").
    + unfold lockOperationType. by repeat case_match.
Qed.

(** ** Notifications *)

(** GetNextNotifications' local filter: what a response is turned into is
    exactly its events of the wanted types (all of them when no type is named),
    converted and in the server's order, nil when there are none; and the limit
    on the wire is absent for [max <= 0] and otherwise [max] clamped into an i32. *)
Theorem notifications_filtered lastEventID max types (events : list wNotificationEvent) :
  match collect_events types events with
  | Some l => l <> [] /\ l = List.filter (wanted types) (map notificationFromThrift events)
  | None => forall e, In e events -> wanted types (notificationFromThrift e) = false
  end /\
  match wNotificationEventRequest_MaxEvents (newNotificationEventRequest lastEventID max types) with
  | Some m => 0 < max /\ m = Z.min max MaxInt32 /\ in_int32 m
  | None => max <= 0
  end.
Proof.
  split.
  - unfold collect_events. destruct (List.filter _ _) as [|x l] eqn:E; [|done].
    intros e He. destruct (wanted types (notificationFromThrift e)) eqn:Ew; [|done].
    assert (In (notificationFromThrift e) []) as []. rewrite <- E. apply filter_In. split; [|done]. by apply in_map.
  - simpl. destruct (Z.ltb_spec 0 max); [|done]. split; [done|].
    assert (in_int32 (Z.min max MaxInt32)) as Hr by (unfold in_int32, MinInt32, MaxInt32; lia).
    destruct (Z.ltb_spec MaxInt32 max).
    + rewrite int32_id by (unfold in_int32, MinInt32, MaxInt32; lia). split; [lia|]. unfold in_int32, MinInt32, MaxInt32. lia.
    + rewrite Z.min_l in * by lia. by rewrite int32_id.
Qed.
