(* ===== verification/Pool.v ===== *)
(** * Pool: the connection pools of client.go under concurrency

    Any number of goroutines share a Client: callers ([acquire], [release],
    [discard]), callers of [Close], and the recovery probe. Every access to
    shared memory is one step: taking [mu], a [select] on a channel, an atomic
    operation on [live], [inFlightDials], [close(cn)]. What a goroutine has left
    to do is its [pc]; an execution is any interleaving of their steps. Conns are
    numbered in the order they were dialed. *)

From S2P Require Import Prelude.

Abbreviation cid := nat (only parsing).
Abbreviation gid := nat (only parsing).

(** ** State *)

(** One [endpointPool]: the buffer of [idle], oldest first, and [live]. *)
Record cpool := mkCpool { p_idle : list cid; p_live : Z }.

(** What the goroutines share. [g_shut] lists the conns closed, in order, and
    [g_fresh] is the number of conns ever dialed. *)
Record shared := mkShared {
  g_cap : nat;
  g_mu : option gid;
  g_closed : bool;
  g_closeCh : bool;
  g_pools : list cpool;
  g_inflight : Z;
  g_cancelled : bool;
  g_probeDone : bool;
  g_krb : bool;
  g_fresh : cid;
  g_shut : list cid;
}.

Definition set_mu (m : option gid) (g : shared) : shared :=
  mkShared (g_cap g) m (g_closed g) (g_closeCh g) (g_pools g) (g_inflight g) (g_cancelled g)
    (g_probeDone g) (g_krb g) (g_fresh g) (g_shut g).
Definition set_closed (g : shared) : shared :=
  mkShared (g_cap g) (g_mu g) true (g_closeCh g) (g_pools g) (g_inflight g) (g_cancelled g)
    (g_probeDone g) (g_krb g) (g_fresh g) (g_shut g).
Definition close_closeCh (g : shared) : shared :=
  mkShared (g_cap g) (g_mu g) (g_closed g) true (g_pools g) (g_inflight g) (g_cancelled g)
    (g_probeDone g) (g_krb g) (g_fresh g) (g_shut g).
Definition set_pools (ps : list cpool) (g : shared) : shared :=
  mkShared (g_cap g) (g_mu g) (g_closed g) (g_closeCh g) ps (g_inflight g) (g_cancelled g)
    (g_probeDone g) (g_krb g) (g_fresh g) (g_shut g).
Definition inflight_add (d : Z) (g : shared) : shared :=
  mkShared (g_cap g) (g_mu g) (g_closed g) (g_closeCh g) (g_pools g) (g_inflight g + d) (g_cancelled g)
    (g_probeDone g) (g_krb g) (g_fresh g) (g_shut g).
Definition cancel_probe (g : shared) : shared :=
  mkShared (g_cap g) (g_mu g) (g_closed g) (g_closeCh g) (g_pools g) (g_inflight g) true
    (g_probeDone g) (g_krb g) (g_fresh g) (g_shut g).
Definition probe_exited (g : shared) : shared :=
  mkShared (g_cap g) (g_mu g) (g_closed g) (g_closeCh g) (g_pools g) (g_inflight g) (g_cancelled g)
    true (g_krb g) (g_fresh g) (g_shut g).
Definition close_krb (g : shared) : shared :=
  mkShared (g_cap g) (g_mu g) (g_closed g) (g_closeCh g) (g_pools g) (g_inflight g) (g_cancelled g)
    (g_probeDone g) false (g_fresh g) (g_shut g).
(** [newConn] returned a conn. *)
Definition dialed (g : shared) : shared :=
  mkShared (g_cap g) (g_mu g) (g_closed g) (g_closeCh g) (g_pools g) (g_inflight g) (g_cancelled g)
    (g_probeDone g) (g_krb g) (S (g_fresh g)) (g_shut g).
(** [cn.close()] *)
Definition shut (cn : cid) (g : shared) : shared :=
  mkShared (g_cap g) (g_mu g) (g_closed g) (g_closeCh g) (g_pools g) (g_inflight g) (g_cancelled g)
    (g_probeDone g) (g_krb g) (g_fresh g) (g_shut g ++ [cn]).

Definition put_pool (i : nat) (p : cpool) (g : shared) : shared := set_pools (<[i := p]> (g_pools g)) g.
(** [p.live.Add(d)] on pool [i]. *)
Definition live_add (i : nat) (d : Z) (g : shared) : shared :=
  match g_pools g !! i with
  | Some p => put_pool i (mkCpool (p_idle p) (p_live p + d)) g
  | None => g
  end.
(** [<-p.idle] and [p.idle <- cn], as a [select] with a default tries them. *)
Definition recv (i : nat) (g : shared) : option (cid * shared) :=
  match g_pools g !! i with
  | Some p => match p_idle p with
              | cn :: rest => Some (cn, put_pool i (mkCpool rest (p_live p)) g)
              | [] => None
              end
  | None => None
  end.
Definition send (i : nat) (cn : cid) (g : shared) : option shared :=
  match g_pools g !! i with
  | Some p => if bool_decide (length (p_idle p) < g_cap g)%nat
              then Some (put_pool i (mkCpool (p_idle p ++ [cn]) (p_live p)) g) else None
  | None => None
  end.
Definition load (i : nat) (g : shared) : Z := p_live (default (mkCpool [] 0) (g_pools g !! i)).

(** ** Where a goroutine is *)

Inductive pc :=
  | Rest                                            (* in no call on the client *)
  (* acquire *)
  | AcqEnter (i : nat) | AcqPoll (i : nat) | AcqLoad (i : nat) | AcqCas (i : nat) (cur : Z)
  | AcqGate (i : nat) | AcqUndo (i : nat) | AcqDial (i : nat) | AcqDialed (i : nat) (cn : cid)
  | AcqFailed (i : nat) | AcqWait (i : nat)
  | Held (i : nat) (cn : cid)                       (* running fn *)
  (* release, discard *)
  | RelEnter (i : nat) (cn : cid) | RelSend (i : nat) (cn : cid) | RelUnlock
  | RelUnlockFull (i : nat) (cn : cid) | DisClose (i : nat) (cn : cid) | DisLive (i : nat)
  (* recoveryProbe, probeCooling *)
  | ProbeIdle | ProbeNext (todo : list nat) | ProbeDial (i : nat) (todo : list nat)
  | ProbeStatus (i : nat) (cn : cid) (todo : list nat) | ProbeDrop (cn : cid) (todo : list nat)
  | ProbeEnter (i : nat) (cn : cid) (todo : list nat) | ProbeLive (i : nat) (cn : cid) (todo : list nat)
  | ProbeSend (i : nat) (cn : cid) (todo : list nat) | ProbeUnlock (todo : list nat)
  | ProbeUnlockFull (i : nat) (cn : cid) (todo : list nat) | ProbeClose (i : nat) (cn : cid) (todo : list nat)
  | ProbeUndo (i : nat) (todo : list nat) | ProbeExited
  (* Close, drainPool *)
  | CloseEnter | CloseChan | Drain (rest : list nat) | DrainClose (i : nat) (cn : cid) (rest : list nat)
  | DrainLive (i : nat) (rest : list nat) | CloseCancel | CloseWaitProbe | CloseWaitDials
  | CloseSession | CloseAgain.

#[export] Instance pc_eq_dec : EqDecision pc.
Proof. solve_decision. Defined.

(** What decides a step that the code leaves open: a call made, the outcome of a
    dial or an RPC, which ready case of a [select] runs. *)
Inductive choice :=
  | Go | CallAcquire (i : nat) | CallClose | CallRelease | CallDiscard
  | DialErr | CtxDone | CloseFired | Tick (cooling : list nat).

(** ** The steps *)

Section steps.
Context (t : gid).

(** A step that needs [mu] to be free. *)
Definition locking (g : shared) (r : pc * shared) : option (pc * shared) :=
  match g_mu g with None => Some r | Some _ => None end.

Definition acquire_step (c : choice) (p : pc) (g : shared) : option (pc * shared) :=
  match p, c with
  | Rest, CallAcquire i =>
      if bool_decide (i < length (g_pools g))%nat then Some (AcqEnter i, g) else None
  | AcqEnter i, Go => locking g (if g_closed g then Rest else AcqPoll i, g)
  | AcqPoll i, Go =>
      match recv i g with Some (cn, g) => Some (Held i cn, g) | None => Some (AcqLoad i, g) end
  | AcqLoad i, Go =>
      let cur := load i g in
      if Z.of_nat (g_cap g) <=? cur then Some (AcqWait i, g) else Some (AcqCas i cur, g)
  | AcqCas i cur, Go =>
      if load i g =? cur then Some (AcqGate i, live_add i 1 g) else Some (AcqLoad i, g)
  | AcqGate i, Go =>
      locking g (if g_closed g then (AcqUndo i, g) else (AcqDial i, inflight_add 1 g))
  | AcqUndo i, Go => Some (Rest, live_add i (-1) g)
  | AcqDial i, Go => Some (AcqDialed i (g_fresh g), dialed g)
  | AcqDial i, DialErr => Some (AcqFailed i, inflight_add (-1) g)
  | AcqDialed i cn, Go => Some (Held i cn, inflight_add (-1) g)
  | AcqFailed i, Go => Some (Rest, live_add i (-1) g)
  | AcqWait i, Go => match recv i g with Some (cn, g) => Some (Held i cn, g) | None => None end
  | AcqWait i, CloseFired => if g_closeCh g then Some (Rest, g) else None
  | AcqWait i, CtxDone => Some (Rest, g)
  | _, _ => None
  end.

Definition release_step (c : choice) (p : pc) (g : shared) : option (pc * shared) :=
  match p, c with
  | Held i cn, CallRelease => Some (RelEnter i cn, g)
  | Held i cn, CallDiscard => Some (DisClose i cn, g)
  | RelEnter i cn, Go =>
      locking g (if g_closed g then (DisClose i cn, g) else (RelSend i cn, set_mu (Some t) g))
  | RelSend i cn, Go =>
      match send i cn g with Some g => Some (RelUnlock, g) | None => Some (RelUnlockFull i cn, g) end
  | RelUnlock, Go => Some (Rest, set_mu None g)
  | RelUnlockFull i cn, Go => Some (DisClose i cn, set_mu None g)
  | DisClose i cn, Go => Some (DisLive i, shut cn g)
  | DisLive i, Go => Some (Rest, live_add i (-1) g)
  | _, _ => None
  end.

Definition probe_step (c : choice) (p : pc) (g : shared) : option (pc * shared) :=
  match p, c with
  | ProbeIdle, Tick cooling =>
      if forallb (fun i => bool_decide (i < length (g_pools g))%nat) cooling
      then Some (ProbeNext cooling, g) else None
  | ProbeIdle, CtxDone => if g_cancelled g then Some (ProbeExited, probe_exited g) else None
  | ProbeNext [], Go => Some (ProbeIdle, g)
  | ProbeNext (i :: todo), Go => Some (ProbeDial i todo, g)
  | ProbeDial i todo, Go => Some (ProbeStatus i (g_fresh g) todo, dialed g)
  | ProbeDial i todo, DialErr => Some (ProbeNext todo, g)
  | ProbeStatus i cn todo, Go => Some (ProbeEnter i cn todo, g)
  | ProbeStatus i cn todo, DialErr => Some (ProbeDrop cn todo, g)
  | ProbeDrop cn todo, Go => Some (ProbeNext todo, shut cn g)
  | ProbeEnter i cn todo, Go =>
      locking g (if g_closed g then (ProbeDrop cn todo, g) else (ProbeLive i cn todo, set_mu (Some t) g))
  | ProbeLive i cn todo, Go => Some (ProbeSend i cn todo, live_add i 1 g)
  | ProbeSend i cn todo, Go =>
      match send i cn g with
      | Some g => Some (ProbeUnlock todo, g)
      | None => Some (ProbeUnlockFull i cn todo, g)
      end
  | ProbeUnlock todo, Go => Some (ProbeNext todo, set_mu None g)
  | ProbeUnlockFull i cn todo, Go => Some (ProbeClose i cn todo, set_mu None g)
  | ProbeClose i cn todo, Go => Some (ProbeUndo i todo, shut cn g)
  | ProbeUndo i todo, Go => Some (ProbeNext todo, live_add i (-1) g)
  | _, _ => None
  end.

Definition close_step (c : choice) (p : pc) (g : shared) : option (pc * shared) :=
  match p, c with
  | Rest, CallClose => Some (CloseEnter, g)
  | CloseEnter, Go =>
      locking g (if g_closed g then (CloseAgain, g) else (CloseChan, set_mu (Some t) (set_closed g)))
  | CloseAgain, Go => if g_probeDone g then Some (Rest, g) else None
  | CloseChan, Go => Some (Drain (seq 0 (length (g_pools g))), close_closeCh g)
  | Drain (i :: rest), Go =>
      match recv i g with
      | Some (cn, g) => Some (DrainClose i cn (i :: rest), g)
      | None => Some (Drain rest, g)
      end
  | DrainClose i cn rest, Go => Some (DrainLive i rest, shut cn g)
  | DrainLive i rest, Go => Some (Drain rest, live_add i (-1) g)
  | Drain [], Go => Some (CloseCancel, set_mu None g)
  | CloseCancel, Go => Some (CloseWaitProbe, cancel_probe g)
  | CloseWaitProbe, Go => if g_probeDone g then Some (CloseWaitDials, g) else None
  | CloseWaitDials, Go => if g_inflight g =? 0 then Some (CloseSession, g) else None
  | CloseSession, Go => Some (Rest, close_krb g)
  | _, _ => None
  end.

(** At most one of the four moves. *)
Definition pstep (c : choice) (p : pc) (g : shared) : option (pc * shared) :=
  match acquire_step c p g with
  | Some r => Some r
  | None => match release_step c p g with
            | Some r => Some r
            | None => match probe_step c p g with Some r => Some r | None => close_step c p g end
            end
  end.
End steps.

(** ** The system *)

Record system := mkSystem { sys_shared : shared; sys_threads : list pc }.

Definition sys_step (t : gid) (c : choice) (s : system) : option system :=
  match sys_threads s !! t with
  | Some p => match pstep t c p (sys_shared s) with
              | Some (p, g) => Some (mkSystem g (<[t := p]> (sys_threads s)))
              | None => None
              end
  | None => None
  end.

Fixpoint run (sched : list (gid * choice)) (s : system) : option system :=
  match sched with
  | [] => Some s
  | (t, c) :: sched => match sys_step t c s with Some s => run sched s | None => None end
  end.

(** What [New] leaves: one conn, in the pool of the endpoint that answered; the
    probe goroutine is goroutine 0. *)
Definition init (cap eps first callers : nat) : system :=
  mkSystem
    (mkShared cap None false false (<[first := mkCpool [0%nat] 1]> (replicate eps (mkCpool [] 0))) 0 false
       false true 1 [])
    (ProbeIdle :: replicate callers Rest).

Inductive reachable (cap : nat) : system -> Prop :=
  | reach_init eps first callers :
      (first < eps)%nat -> reachable cap (init cap eps first callers)
  | reach_step s t c s' : reachable cap s -> sys_step t c s = Some s' -> reachable cap s'.
