(* ===== verification/PoolLaws.v ===== *)
(** * PoolLaws: one step of one goroutine

    Each law is a conservation between what the goroutines share and the [pc] of
    the one that moves; [PoolFacts] sums them over all goroutines. *)

From S2P Require Import Prelude Pool.

(** ** Effects of the channel and counter operations *)

Definition idle_at (i : nat) (g : shared) : list cid := p_idle (default (mkCpool [] 0) (g_pools g !! i)).
Definition idles (g : shared) : list cid := flat_map p_idle (g_pools g).

Lemma flat_map_insert {A B} (f : A -> list B) (l : list A) i x y :
  l !! i = Some x -> f y ++ flat_map f l ≡ₚ f x ++ flat_map f (<[i := y]> l).
Proof.
  revert i. induction l as [|z l IH]; intros [|i] H; [done|done|injection H as ->|]; simpl.
  - rewrite !app_assoc. apply Permutation_app_tail, Permutation_app_comm.
  - specialize (IH i H). rewrite !app_assoc, (Permutation_app_comm (f y)), <- app_assoc, IH.
    rewrite !app_assoc. apply Permutation_app_tail, Permutation_app_comm.
Qed.

(** Same everything but the pools. *)
Definition same_ctl (g g' : shared) : Prop :=
  g_cap g' = g_cap g /\ g_mu g' = g_mu g /\ g_closed g' = g_closed g /\ g_closeCh g' = g_closeCh g /\
  length (g_pools g') = length (g_pools g) /\ g_inflight g' = g_inflight g /\
  g_cancelled g' = g_cancelled g /\ g_probeDone g' = g_probeDone g /\ g_krb g' = g_krb g /\
  g_fresh g' = g_fresh g /\ g_shut g' = g_shut g.

Lemma put_pool_at i p g k : (i < length (g_pools g))%nat ->
  g_pools (put_pool i p g) !! k = if decide (k = i) then Some p else g_pools g !! k.
Proof.
  intros Hi. unfold put_pool, set_pools; simpl. case_decide as Hk.
  - subst. by apply list_lookup_insert_eq.
  - by apply list_lookup_insert_ne.
Qed.
Lemma put_pool_ctl i p g : same_ctl g (put_pool i p g).
Proof. unfold same_ctl, put_pool, set_pools; simpl. rewrite length_insert. by split_and!. Qed.

Lemma recv_spec i g cn g' : recv i g = Some (cn, g') ->
  same_ctl g g' /\ (forall k, load k g' = load k g) /\ idles g ≡ₚ cn :: idles g' /\
  (forall k, idle_at k g = if decide (k = i) then cn :: idle_at k g' else idle_at k g').
Proof.
  unfold recv. destruct (g_pools g !! i) as [p|] eqn:Ep; [|done].
  destruct (p_idle p) as [|c rest] eqn:Ei; [done|]. intros [= <- <-].
  assert (i < length (g_pools g))%nat as Hi by by apply lookup_lt_Some in Ep.
  split; [apply put_pool_ctl|]. unfold load, idle_at. split_and!.
  - intros k. rewrite put_pool_at by done. case_decide; [by subst; rewrite Ep|done].
  - pose proof (flat_map_insert p_idle _ i p (mkCpool rest (p_live p)) Ep) as HP.
    simpl in HP. rewrite Ei in HP. unfold idles, put_pool, set_pools; simpl.
    apply (Permutation_app_inv_l rest). by rewrite HP, <- Permutation_middle.
  - intros k. rewrite put_pool_at by done. case_decide; [subst; by rewrite Ep|done].
Qed.

Lemma recv_None i g : recv i g = None -> idle_at i g = [].
Proof.
  unfold recv, idle_at. destruct (g_pools g !! i) as [p|]; [|done]. simpl. by destruct (p_idle p).
Qed.

Lemma send_spec i cn g g' : send i cn g = Some g' ->
  same_ctl g g' /\ (forall k, load k g' = load k g) /\ idles g' ≡ₚ cn :: idles g /\
  (length (idle_at i g) < g_cap g)%nat /\
  (forall k, idle_at k g' = if decide (k = i) then idle_at k g ++ [cn] else idle_at k g).
Proof.
  unfold send. destruct (g_pools g !! i) as [p|] eqn:Ep; [|done]. case_bool_decide as Hc; [|done].
  intros [= <-]. assert (i < length (g_pools g))%nat as Hi by by apply lookup_lt_Some in Ep.
  split; [apply put_pool_ctl|]. unfold load, idle_at. split_and!.
  - intros k. rewrite put_pool_at by done. case_decide; [by subst; rewrite Ep|done].
  - pose proof (flat_map_insert p_idle _ i p (mkCpool (p_idle p ++ [cn]) (p_live p)) Ep) as HP.
    simpl in HP. unfold idles, put_pool, set_pools; simpl.
    apply (Permutation_app_inv_l (p_idle p)). rewrite <- HP, <- app_assoc. done.
  - by rewrite Ep.
  - intros k. rewrite put_pool_at by done. case_decide; [subst; by rewrite Ep|done].
Qed.

Lemma live_add_spec i d g : (i < length (g_pools g))%nat ->
  same_ctl g (live_add i d g) /\ idles (live_add i d g) = idles g /\
  (forall k, idle_at k (live_add i d g) = idle_at k g) /\
  (forall k, load k (live_add i d g) = load k g + (if decide (k = i) then d else 0)).
Proof.
  intros Hi. unfold live_add. destruct (lookup_lt_is_Some_2 _ _ Hi) as [p Ep]. rewrite Ep.
  split; [apply put_pool_ctl|]. unfold load, idle_at. split_and!.
  - unfold idles, put_pool, set_pools; simpl. clear Hi. revert i Ep. generalize (g_pools g) as l.
    induction l as [|q l IH]; intros [|i] Ep; [done|done|by injection Ep as ->|]. simpl. f_equal. by apply IH.
  - intros k. rewrite put_pool_at by done. case_decide; [by subst; rewrite Ep|done].
  - intros k. rewrite put_pool_at by done. case_decide; [subst; by rewrite Ep|]. lia.
Qed.

(** ** What a goroutine accounts for *)

(** The conns it owns, alone. *)
Definition own (p : pc) : list cid :=
  match p with
  | AcqDialed _ cn | Held _ cn | RelEnter _ cn | RelSend _ cn | RelUnlockFull _ cn | DisClose _ cn
  | ProbeStatus _ cn _ | ProbeDrop cn _ | ProbeEnter _ cn _ | ProbeLive _ cn _ | ProbeSend _ cn _
  | ProbeUnlockFull _ cn _ | ProbeClose _ cn _ | DrainClose _ cn _ => [cn]
  | _ => []
  end.

(** The endpoint whose [live] counts a conn that this goroutine is dialing, uses
    or is about to discount. *)
Definition counted (p : pc) : option nat :=
  match p with
  | AcqGate i | AcqUndo i | AcqDial i | AcqDialed i _ | AcqFailed i | Held i _ | RelEnter i _ | RelSend i _
  | RelUnlockFull i _ | DisClose i _ | DisLive i | ProbeSend i _ _ | ProbeUnlockFull i _ _
  | ProbeClose i _ _ | ProbeUndo i _ | DrainClose i _ _ | DrainLive i _ => Some i
  | _ => None
  end.
Definition counts (i : nat) (p : pc) : Z := if decide (counted p = Some i) then 1 else 0.

(** In [inFlightDials]. *)
Definition dialing (p : pc) : Z := match p with AcqDial _ | AcqDialed _ _ => 1 | _ => 0 end.

(** Inside a critical section of [mu]. *)
Definition holds_mu (p : pc) : bool :=
  match p with
  | RelSend _ _ | RelUnlock | RelUnlockFull _ _ | ProbeLive _ _ _ | ProbeSend _ _ _ | ProbeUnlock _
  | ProbeUnlockFull _ _ _ | CloseChan | Drain _ | DrainClose _ _ _ | DrainLive _ _ => true
  | _ => false
  end.

(** The [Close] that closes. *)
Definition closer (p : pc) : Z :=
  match p with
  | CloseChan | Drain _ | DrainClose _ _ _ | DrainLive _ _ | CloseCancel | CloseWaitProbe | CloseWaitDials
  | CloseSession => 1
  | _ => 0
  end.

Definition is_probe (p : pc) : bool :=
  match p with
  | ProbeIdle | ProbeNext _ | ProbeDial _ _ | ProbeStatus _ _ _ | ProbeDrop _ _ | ProbeEnter _ _ _
  | ProbeLive _ _ _ | ProbeSend _ _ _ | ProbeUnlock _ | ProbeUnlockFull _ _ _ | ProbeClose _ _ _
  | ProbeUndo _ _ | ProbeExited => true
  | _ => false
  end.

(** Every endpoint it names exists. *)
Definition in_range (n : nat) (p : pc) : Prop :=
  match p with
  | AcqEnter i | AcqPoll i | AcqLoad i | AcqCas i _ | AcqGate i | AcqUndo i | AcqDial i | AcqDialed i _
  | AcqFailed i | AcqWait i | Held i _ | RelEnter i _ | RelSend i _ | RelUnlockFull i _ | DisClose i _
  | DisLive i => (i < n)%nat
  | ProbeNext todo | ProbeDrop _ todo | ProbeUnlock todo => Forall (fun i => i < n)%nat todo
  | ProbeDial i todo | ProbeStatus i _ todo | ProbeEnter i _ todo | ProbeLive i _ todo
  | ProbeSend i _ todo | ProbeUnlockFull i _ todo | ProbeClose i _ todo | ProbeUndo i todo =>
      (i < n)%nat /\ Forall (fun i => i < n)%nat todo
  | Drain rest => Forall (fun i => i < n)%nat rest
  | DrainClose i _ rest | DrainLive i rest => (i < n)%nat /\ Forall (fun i => i < n)%nat rest
  | _ => True
  end.

(** ** One step of one goroutine *)

Ltac step_cases H :=
  match type of H with
  | pstep _ ?c ?p _ = _ =>
      destruct p, c; cbv [pstep acquire_step release_step probe_step close_step locking] in H;
      try discriminate H
  end;
  repeat (match type of H with
          | context [match ?x with _ => _ end] =>
              lazymatch x with
              | context [match _ with _ => _ end] => fail
              | _ => destruct x eqn:?; try discriminate H
              end
          end);
  injection H as <- <-; subst.

(** What is known of a [recv], a [send] or a [live_add] in the context. *)
Ltac effects :=
  unfold same_ctl in *;
  repeat match goal with
  | H : recv _ _ = Some _ |- _ =>
      apply recv_spec in H as ((? & ? & ? & ? & ? & ? & ? & ? & ? & ? & ?) & ? & ? & ?)
  | H : recv _ _ = None |- _ => apply recv_None in H
  | H : send _ _ _ = Some _ |- _ =>
      apply send_spec in H as ((? & ? & ? & ? & ? & ? & ? & ? & ? & ? & ?) & ? & ? & ? & ?)
  | H : send _ _ _ = None |- _ => clear H
  | |- context [live_add ?i ?d ?g] =>
      destruct (live_add_spec i d g) as ((? & ? & ? & ? & ? & ? & ? & ? & ? & ? & ?) & ? & ? & ?);
      [tauto|generalize dependent (live_add i d g); intros]
  end;
  unfold idles, load, idle_at in *;
  cbn [g_cap g_mu g_closed g_closeCh g_pools g_inflight g_cancelled g_probeDone g_krb g_fresh g_shut
       set_mu set_closed close_closeCh inflight_add cancel_probe probe_exited close_krb dialed shut] in *.

Lemma in_range_step t c p g p' g' : pstep t c p g = Some (p', g') ->
  in_range (length (g_pools g)) p ->
  in_range (length (g_pools g)) p' /\ length (g_pools g') = length (g_pools g).
Proof.
  intros H Hr. step_cases H. all: cbn [in_range] in *. all: effects. all: try tauto.
  all: split; [|done].
  - by apply bool_decide_eq_true in Heqb.
  - rewrite forallb_forall in Heqb. apply Forall_forall. intros i Hi.
    by eapply bool_decide_eq_true_1, Heqb.
  - exact (Forall_cons_1 _ _ _ Hr).
  - apply Forall_forall. intros i Hi%in_seq. lia.
  - split; [exact (proj1 (Forall_cons_1 _ _ _ Hr))|done].
  - exact (proj2 (Forall_cons_1 _ _ _ Hr)).
Qed.

(** A per-endpoint equation after a [step_cases]. *)
Ltac at_endpoint i :=
  repeat match goal with
  | H : forall k : nat, _ = _ |- _ => specialize (H i)
  end;
  repeat match goal with
  | H : _ = p_idle (default _ (_ !! i)) |- _ => apply (f_equal length) in H
  | H : p_idle (default _ (_ !! i)) = _ |- _ => apply (f_equal length) in H
  end;
  repeat case_decide; simplify_eq; rewrite ?length_app in *; cbn [length] in *; lia.

(** [live] minus the idle conns minus the ones this goroutine accounts for is
    left as it was. *)
Lemma counts_step t c p g p' g' i : pstep t c p g = Some (p', g') ->
  in_range (length (g_pools g)) p ->
  load i g' - Z.of_nat (length (idle_at i g')) - counts i p' =
  load i g - Z.of_nat (length (idle_at i g)) - counts i p.
Proof.
  intros H Hr. step_cases H. all: cbn [in_range] in Hr. all: unfold counts; cbn [counted]. all: effects.
  all: solve [lia|at_endpoint i].
Qed.

(** A conn is idle, owned or shut, and stays exactly one of them; a dial adds
    one, with the next number. *)
Lemma own_step t c p g p' g' : pstep t c p g = Some (p', g') -> in_range (length (g_pools g)) p ->
  (g_fresh g <= g_fresh g')%nat /\
  idles g' ++ own p' ++ g_shut g' ≡ₚ
    idles g ++ own p ++ g_shut g ++ seq (g_fresh g) (g_fresh g' - g_fresh g).
Proof.
  intros H Hr. step_cases H. all: cbn [in_range] in Hr. all: cbn [own]. all: effects.
  all: repeat match goal with H : g_fresh _ = _ |- _ => rewrite H | H : g_shut _ = _ |- _ => rewrite H end.
  all: repeat match goal with H : flat_map _ _ = _ |- _ => rewrite H | H : flat_map _ _ ≡ₚ _ |- _ => rewrite H end.
  all: rewrite ?Nat.sub_diag, ?Nat.sub_succ_l, ?Nat.sub_diag by done; cbn [seq]; rewrite ?app_nil_r.
  all: split; [lia|]. all: try solve_Permutation.
Qed.

(** [inFlightDials], and [closed] once it is set. *)
Lemma dialing_step t c p g p' g' : pstep t c p g = Some (p', g') -> in_range (length (g_pools g)) p ->
  g_inflight g' - dialing p' = g_inflight g - dialing p /\
  (g_closed g = true -> g_inflight g' <= g_inflight g).
Proof.
  intros H Hr. step_cases H. all: cbn [in_range] in Hr. all: cbn [dialing]. all: effects.
  all: try (split; [lia|intros; try lia; congruence]).
Qed.

(** [mu] is taken and given back by its holder only. *)
Lemma mu_step t c p g p' g' : pstep t c p g = Some (p', g') -> in_range (length (g_pools g)) p ->
  if holds_mu p
  then g_mu g = Some t -> g_mu g' = if holds_mu p' then Some t else None
  else if holds_mu p' then g_mu g = None /\ g_mu g' = Some t else g_mu g' = g_mu g.
Proof.
  intros H Hr. step_cases H. all: cbn [in_range] in Hr. all: cbn [holds_mu]. all: effects.
  all: first [done|intros; congruence|split; congruence].
Qed.

(** Who may change the flags. *)
Lemma flags_step t c p g p' g' : pstep t c p g = Some (p', g') -> in_range (length (g_pools g)) p ->
  g_cap g' = g_cap g /\
  (g_closed g = true -> g_closed g' = true) /\ (g_closed g' <> g_closed g -> g_mu g = None) /\
  (g_closeCh g = true -> g_closeCh g' = true) /\ (g_cancelled g = true -> g_cancelled g' = true) /\
  (g_probeDone g = true -> g_probeDone g' = true) /\
  (g_probeDone g' <> g_probeDone g -> is_probe p = true) /\
  (g_krb g' <> g_krb g -> p = CloseSession) /\ is_probe p' = is_probe p.
Proof.
  intros H Hr. step_cases H. all: cbn [in_range] in Hr. all: cbn [is_probe]. all: effects.
  all: split_and!; first [done|intros; congruence].
Qed.

Lemma closer_step t c p g p' g' : pstep t c p g = Some (p', g') -> in_range (length (g_pools g)) p ->
  (p = CloseSession -> g_krb g = true) ->
  Z.b2z (g_closed g') - Z.b2z (negb (g_krb g')) - closer p' =
  Z.b2z (g_closed g) - Z.b2z (negb (g_krb g)) - closer p.
Proof.
  intros H Hr Hk. step_cases H. all: cbn [in_range] in Hr. all: cbn [closer]. all: effects.
  all: repeat match goal with H : g_closed _ = _ |- _ => rewrite H | H : g_krb _ = _ |- _ => rewrite H end.
  all: try rewrite Hk by done; simpl; try lia.
Qed.

(** A closed client's pools only get emptier. *)
Lemma idle_step t c p g p' g' i : pstep t c p g = Some (p', g') -> in_range (length (g_pools g)) p ->
  (length (idle_at i g) <= g_cap g -> length (idle_at i g') <= g_cap g)%nat /\
  (match p with RelSend _ _ | ProbeSend _ _ _ => False | _ => True end ->
   idle_at i g = [] -> idle_at i g' = []).
Proof.
  intros H Hr. step_cases H. all: cbn [in_range] in Hr. all: effects.
  all: split; [intros; at_endpoint i|intros Hp Hi].
  all: try done.
  all: repeat match goal with H : forall k : nat, _ = _ |- _ => specialize (H i) end.
  all: repeat case_decide; congruence.
Qed.

(** ** What a goroutine knows where it is *)

Definition all_empty (g : shared) : Prop := forall i, idle_at i g = [].

Definition knows (g : shared) (p : pc) : Prop :=
  match p with
  | RelSend _ _ | ProbeLive _ _ _ | ProbeSend _ _ _ => g_closed g = false
  | CloseChan => g_closed g = true
  | Drain rest | DrainClose _ _ rest | DrainLive _ rest =>
      g_closed g = true /\ g_closeCh g = true /\ forall i, ~ In i rest -> idle_at i g = []
  | CloseCancel => g_closed g = true /\ g_closeCh g = true /\ all_empty g
  | CloseWaitProbe => g_closed g = true /\ g_closeCh g = true /\ all_empty g /\ g_cancelled g = true
  | CloseWaitDials => g_closed g = true /\ g_closeCh g = true /\ all_empty g /\ g_probeDone g = true
  | CloseSession =>
      g_closed g = true /\ g_closeCh g = true /\ all_empty g /\ g_probeDone g = true /\ g_inflight g = 0
  | ProbeExited => g_probeDone g = true
  | _ => True
  end.

Lemma idle_at_beyond i g : (length (g_pools g) <= i)%nat -> idle_at i g = [].
Proof. intros H. unfold idle_at. by rewrite lookup_ge_None_2. Qed.

Lemma knows_self t c p g p' g' : pstep t c p g = Some (p', g') -> in_range (length (g_pools g)) p ->
  knows g p -> knows g' p'.
Proof.
  intros H Hr. step_cases H. all: cbn [in_range] in Hr. all: cbn [knows].
  all: intros Hk; try done. all: effects. all: try congruence.
  - split_and!; [done|done|]. intros i Hi. apply idle_at_beyond. rewrite in_seq in Hi. lia.
  - destruct Hk as (? & ? & Hk). split_and!; [done|done|]. intros i. apply Hk. intros [].
  - destruct Hk as (? & ? & Hk). split_and!; [congruence|congruence|]. intros i Hi. specialize (Hk i Hi).
    rewrite H12 in Hk. by case_decide.
  - destruct Hk as (? & ? & Hk). split_and!; [done|done|]. intros i Hi.
    destruct (decide (i = n)) as [->|Hn]; [done|]. apply Hk. intros [->|?]; done.
  - destruct Hk as (? & ? & Hk). split_and!; [congruence|congruence|]. intros k Hi. rewrite H11. by apply Hk.
  - destruct Hk as (? & ? & Hk). split_and!; done.
  - tauto.
  - split_and!; [tauto..|]. by apply Z.eqb_eq.
Qed.

(** What another goroutine's step leaves of what [q] knows. *)
Lemma knows_other t u c p g p' g' q : pstep t c p g = Some (p', g') -> in_range (length (g_pools g)) p ->
  knows g p -> knows g q -> (holds_mu q = true -> g_mu g = Some u) -> (g_closed g = true -> 0 <= g_inflight g') ->
  knows g' q.
Proof.
  intros H Hr Hp Hq Hmu Hif.
  destruct (flags_step _ _ _ _ _ _ H Hr) as (_ & Hc & Hc' & Hch & Hca & Hpd & _).
  destruct (dialing_step _ _ _ _ _ _ H Hr) as [_ Hd].
  assert (g_closed g = true -> forall i, idle_at i g = [] -> idle_at i g' = []) as Hi.
  { intros Hcl i. apply (idle_step _ _ _ _ _ _ i H Hr). destruct p; try done; simpl in Hp; congruence. }
  assert (holds_mu q = true -> g_closed g = false -> g_closed g' = false) as Hf.
  { intros Hq' Hcl. destruct (g_closed g') eqn:E; [|done].
    specialize (Hmu Hq'). rewrite Hc' in Hmu by congruence. done. }
  destruct q; cbn [knows holds_mu] in *; auto; unfold all_empty in *;
    destruct Hq as (H1 & H2 & H3); try destruct H3 as [H3 H4]; try destruct H4 as [H4 H5];
    split_and!; eauto.
  specialize (Hd H1). specialize (Hif H1). lia.
Qed.

(** ** Sums over the goroutines *)

Lemma total_init f n : f ProbeIdle = 0 -> f Rest = 0 -> total f (ProbeIdle :: replicate n Rest) = 0.
Proof. intros H1 H2. unfold total. simpl. rewrite H1. induction n; simpl; [done|]. by rewrite H2. Qed.
