(* ===== verification/PoolFacts.v ===== *)
(** * PoolFacts: what holds of the pools under every interleaving

    For any number of goroutines and any schedule: where every conn is, how
    [live] relates to it, and what [Close] waits for. *)

From S2P Require Import Prelude Pool PoolLaws.

(** ** Induction over executions *)

Lemma in_range_reachable cap s : reachable cap s ->
  Forall (in_range (length (g_pools (sys_shared s)))) (sys_threads s).
Proof.
  induction 1 as [eps first callers Hf|s t c s' _ IH Hs].
  - simpl. constructor; [done|]. apply Forall_replicate. done.
  - unfold sys_step in Hs. destruct (sys_threads s !! t) as [p|] eqn:Ep; [|done].
    destruct (pstep t c p (sys_shared s)) as [[p' g']|] eqn:E; [|done]. injection Hs as <-. simpl.
    assert (in_range (length (g_pools (sys_shared s))) p) as Hp by by eapply (Forall_lookup_1 _ _ _ _ IH).
    destruct (in_range_step _ _ _ _ _ _ E Hp) as [Hp' ->]. by apply Forall_insert.
Qed.

Lemma reachable_inv cap (P : system -> Prop) :
  (forall eps first callers, (first < eps)%nat -> P (init cap eps first callers)) ->
  (forall g ts t c p p' g', reachable cap (mkSystem g ts) -> P (mkSystem g ts) -> ts !! t = Some p ->
     pstep t c p g = Some (p', g') -> in_range (length (g_pools g)) p ->
     P (mkSystem g' (<[t := p']> ts))) ->
  forall s, reachable cap s -> P s.
Proof.
  intros Hi Hs s. induction 1 as [eps first callers Hf|[g ts] t c s' Hr IH Hst]; [by apply Hi|].
  unfold sys_step in Hst; simpl in Hst. destruct (ts !! t) as [p|] eqn:Ep; [|done].
  destruct (pstep t c p g) as [[p' g']|] eqn:E; [|done]. injection Hst as <-.
  eapply Hs; eauto. apply in_range_reachable in Hr. by eapply (Forall_lookup_1 _ _ _ _ Hr).
Qed.

(** ** The invariants *)

(** [mu] is held by exactly the goroutine inside a critical section. *)
Definition mutex (s : system) : Prop :=
  (forall t p, sys_threads s !! t = Some p -> holds_mu p = true -> g_mu (sys_shared s) = Some t) /\
  (forall t, g_mu (sys_shared s) = Some t -> exists p, sys_threads s !! t = Some p /\ holds_mu p = true).

Lemma mutex_inv cap s : reachable cap s -> mutex s.
Proof.
  apply reachable_inv.
  - intros eps first callers _. split; [|done]. simpl. intros [|t] p; simpl; [by intros [= <-]|].
    intros Hp%lookup_replicate_1. by destruct Hp as [-> _].
  - intros g ts t c p p' g' _ [H1 H2] Hp Hst Hr. simpl in *.
    pose proof (mu_step _ _ _ _ _ _ Hst Hr) as Hm. specialize (H1 t p Hp) as Ht.
    assert (t < length ts)%nat as Hlt by by apply lookup_lt_Some in Hp. split.
    + simpl. intros u q Hq Hh. apply list_lookup_insert_Some in Hq as [(-> & <- & _)|[Hu Hq]].
      * destruct (holds_mu p); [rewrite Hh in Hm; by apply Hm, Ht|]. rewrite Hh in Hm. apply Hm.
      * pose proof (H1 u q Hq Hh) as Hmu.
        destruct (holds_mu p); [specialize (Ht eq_refl); congruence|].
        destruct (holds_mu p'); [destruct Hm; congruence|by rewrite Hm].
    + simpl. intros u Hu. destruct (decide (u = t)) as [->|Hne].
      * exists p'. split; [by apply list_lookup_insert_eq|].
        destruct (holds_mu p') eqn:E'; [done|]. destruct (holds_mu p) eqn:E.
        -- rewrite Hm in Hu by by apply Ht. done.
        -- rewrite Hm in Hu. destruct (H2 t Hu) as (q & Hq & Hh). congruence.
      * rewrite list_lookup_insert_ne by done. apply H2.
        destruct (holds_mu p); [specialize (Hm (Ht eq_refl)); rewrite Hm in Hu; destruct (holds_mu p'); congruence|].
        destruct (holds_mu p'); [destruct Hm; congruence|congruence].
Qed.

(** [live] is the idle conns plus the ones being dialed, used or discounted. *)
Definition live_accounted (s : system) : Prop := forall i,
  load i (sys_shared s) = Z.of_nat (length (idle_at i (sys_shared s))) + total (counts i) (sys_threads s) /\
  (length (idle_at i (sys_shared s)) <= g_cap (sys_shared s))%nat.

Lemma init_pool eps first i : (first < eps)%nat ->
  (<[first := mkCpool [0%nat] 1]> (replicate eps (mkCpool [] 0)) !! i) =
    if decide (i = first) then Some (mkCpool [0%nat] 1) else replicate eps (mkCpool [] 0) !! i.
Proof.
  intros Hf. case_decide as Hi.
  - subst. apply list_lookup_insert_eq. by rewrite length_replicate.
  - by apply list_lookup_insert_ne.
Qed.

Lemma init_other eps i : default (mkCpool [] 0) (replicate eps (mkCpool [] 0) !! i) = mkCpool [] 0.
Proof. destruct (_ !! i) as [p|] eqn:E; [|done]. apply lookup_replicate_1 in E as [-> _]. done. Qed.

Lemma live_inv cap s : (1 <= cap)%nat -> reachable cap s -> live_accounted s /\ g_cap (sys_shared s) = cap.
Proof.
  intros Hcap. apply (reachable_inv cap (fun s => live_accounted s /\ g_cap (sys_shared s) = cap)).
  - intros eps first callers Hf. split; [|done]. intros i. unfold load, idle_at, init; simpl.
    rewrite init_pool by done. rewrite total_init by done. case_decide; simpl; [lia|].
    rewrite init_other. simpl. lia.
  - intros g ts t c p p' g' _ [H Hc] Hp Hst Hr. simpl in *.
    destruct (flags_step _ _ _ _ _ _ Hst Hr) as [Hc' _]. split; [|congruence]. intros i. simpl.
    specialize (H i). simpl in H. rewrite (total_insert _ _ _ _ _ Hp).
    pose proof (counts_step _ _ _ _ _ _ i Hst Hr).
    destruct (idle_step _ _ _ _ _ _ i Hst Hr) as [Hcap' _]. rewrite Hc'. split; [lia|]. apply Hcap', H.
Qed.

(** Every conn ever dialed is idle, owned by one goroutine, or shut: exactly
    once in all. *)
Definition conns_accounted (s : system) : Prop :=
  idles (sys_shared s) ++ flat_map own (sys_threads s) ++ g_shut (sys_shared s) ≡ₚ
  seq 0 (g_fresh (sys_shared s)).

Lemma flat_map_own_init n : flat_map own (replicate n Rest) = [].
Proof. by induction n. Qed.
Lemma idles_init eps first : (first < eps)%nat ->
  flat_map p_idle (<[first := mkCpool [0%nat] 1]> (replicate eps (mkCpool [] 0))) = [0%nat].
Proof.
  revert first. induction eps as [|eps IH]; intros [|first] Hf; [lia|lia| |].
  - simpl. f_equal. clear. by induction eps.
  - simpl. apply IH. lia.
Qed.

Lemma conns_inv cap s : reachable cap s -> conns_accounted s.
Proof.
  apply reachable_inv.
  - intros eps first callers Hf. unfold conns_accounted, idles; simpl. rewrite idles_init by done.
    by rewrite flat_map_own_init.
  - intros g ts t c p p' g' _ H Hp Hst Hr. unfold conns_accounted in *; simpl in *.
    destruct (own_step _ _ _ _ _ _ Hst Hr) as [Hf Ho].
    pose proof (flat_map_insert own ts t p p' Hp) as Hi.
    apply (Permutation_app_inv_l (own p)).
    transitivity (own p ++ seq 0 (g_fresh g) ++ seq (g_fresh g) (g_fresh g' - g_fresh g)).
    2: { by rewrite <- seq_app, Nat.add_sub_assoc, Nat.add_comm, Nat.add_sub by done. }
    rewrite <- H. trans ((idles g' ++ own p' ++ g_shut g') ++ flat_map own ts).
    { transitivity (idles g' ++ (own p ++ flat_map own (<[t:=p']> ts)) ++ g_shut g'); [solve_Permutation|].
      rewrite <- Hi. solve_Permutation. }
    rewrite Ho. solve_Permutation.
Qed.

(** Goroutine 0 is the recovery probe, and it alone; [probeDone] is closed when
    it has returned. *)
Definition one_probe (s : system) : Prop :=
  (forall t p, sys_threads s !! t = Some p -> is_probe p = bool_decide (t = 0%nat)) /\
  (g_probeDone (sys_shared s) = true -> sys_threads s !! 0%nat = Some ProbeExited).

Lemma probe_done_by t c p g p' g' : pstep t c p g = Some (p', g') -> in_range (length (g_pools g)) p ->
  p <> ProbeExited /\ (g_probeDone g' <> g_probeDone g -> p' = ProbeExited).
Proof.
  intros H Hr. step_cases H. all: cbn [in_range] in Hr. all: effects. all: split; first [done|congruence].
Qed.

Lemma probe_inv cap s : reachable cap s -> one_probe s.
Proof.
  apply reachable_inv.
  - intros eps first callers _. split; [|done]. simpl. intros [|t] p; simpl; [by intros [= <-]|].
    by intros [-> _]%lookup_replicate_1.
  - intros g ts t c p p' g' _ [H1 H2] Hp Hst Hr. simpl in *.
    destruct (flags_step _ _ _ _ _ _ Hst Hr) as (_ & _ & _ & _ & _ & _ & Hd & _ & Hrole).
    destruct (probe_done_by _ _ _ _ _ _ Hst Hr) as [Hne Hex].
    assert (t < length ts)%nat as Hlt by by apply lookup_lt_Some in Hp. split; simpl.
    + intros u q [(-> & <- & _)|[_ Hq]]%list_lookup_insert_Some; [rewrite Hrole; by apply H1|by apply H1].
    + intros Hdone. destruct (g_probeDone g) eqn:E.
      * specialize (H2 eq_refl). rewrite list_lookup_insert_ne; [done|]. intros ->. congruence.
      * assert (g_probeDone g' <> false) as Hch by congruence. rewrite Hex by done.
        specialize (H1 t p Hp). rewrite Hd in H1 by done. symmetry in H1.
        apply bool_decide_eq_true_1 in H1 as ->. by apply list_lookup_insert_eq.
Qed.

(** What closing means, as far as it has got. *)
Record closing (s : system) : Prop := {
  cl_knows : Forall (knows (sys_shared s)) (sys_threads s);
  cl_inflight : g_inflight (sys_shared s) = total dialing (sys_threads s);
  cl_closer : Z.b2z (g_closed (sys_shared s)) =
    Z.b2z (negb (g_krb (sys_shared s))) + total closer (sys_threads s);
  cl_krb : g_krb (sys_shared s) = false ->
    g_closeCh (sys_shared s) = true /\ all_empty (sys_shared s) /\ g_probeDone (sys_shared s) = true /\
    g_inflight (sys_shared s) = 0;
}.

Lemma closer_nonneg p : 0 <= closer p.
Proof. by destruct p. Qed.
Lemma dialing_nonneg p : 0 <= dialing p.
Proof. by destruct p. Qed.
#[export] Hint Resolve closer_nonneg dialing_nonneg : hms.

Lemma closing_inv cap s : reachable cap s -> closing s.
Proof.
  apply reachable_inv.
  - intros eps first callers _. split; simpl.
    + constructor; [done|]. by apply Forall_replicate.
    + by rewrite total_init.
    + by rewrite total_init.
    + done.
  - intros g ts t c p p' g' Hreach [Hk Hi Hc Hb] Hp Hst Hr. simpl in *.
    pose proof (mutex_inv _ _ Hreach) as [Hm _]. simpl in Hm.
    assert (knows g p) as Hkp by by eapply (Forall_lookup_1 _ _ _ _ Hk).
    destruct (dialing_step _ _ _ _ _ _ Hst Hr) as [Hdial Hdial'].
    destruct (flags_step _ _ _ _ _ _ Hst Hr) as (_ & Hcl & _ & Hch & _ & Hpd & _ & Hkrb & _).
    assert (g_inflight g' = total dialing (<[t := p']> ts)) as Hinf
      by (rewrite (total_insert _ _ _ _ _ Hp); lia).
    assert (0 <= g_inflight g') as Hpos by (rewrite Hinf; apply total_nonneg; auto with hms).
    assert (p = CloseSession -> g_krb g = true) as Hopen.
    { intros ->. pose proof (total_le closer ts t CloseSession closer_nonneg Hp). simpl in *.
      destruct (g_closed g), (g_krb g); simpl in *; lia. }
    split; simpl.
    + apply Forall_insert; [|by eapply knows_self].
      apply Forall_lookup_2. intros u q Hq. eapply (knows_other t u); eauto.
      by eapply (Forall_lookup_1 _ _ _ _ Hk).
    + done.
    + pose proof (closer_step _ _ _ _ _ _ Hst Hr Hopen). rewrite (total_insert _ _ _ _ _ Hp). lia.
    + intros Hkf. destruct (g_krb g) eqn:E.
      * rewrite Hkrb in * by congruence. simpl in Hkp. destruct Hkp as (? & ? & He & ? & ?).
        split_and!; [auto| |auto|specialize (Hdial' ltac:(done)); lia].
        intros i. by apply (idle_step _ _ _ _ _ _ i Hst Hr).
      * destruct (Hb eq_refl) as (Hco & He & Hd & H0). assert (g_closed g = true) as Hgc.
        { pose proof (total_nonneg closer ts closer_nonneg). destruct (g_closed g); simpl in *; [done|lia]. }
        split_and!; [auto| |auto|specialize (Hdial' Hgc); lia].
        intros i. apply (idle_step _ _ _ _ _ _ i Hst Hr); [|apply He].
        destruct p; try done; simpl in Hkp; congruence.
Qed.

Lemma closed_when_released s : closing s -> g_krb (sys_shared s) = false -> g_closed (sys_shared s) = true.
Proof.
  intros [_ _ Hc _] Hk. rewrite Hk in Hc. pose proof (total_nonneg closer (sys_threads s) closer_nonneg).
  destruct (g_closed _); simpl in *; [done|lia].
Qed.

(** ** Witness runs *)

Lemma run_reachable cap sched : forall s s', reachable cap s -> run sched s = Some s' -> reachable cap s'.
Proof.
  induction sched as [|[t c] sched IH]; intros s s' Hs; simpl; [by intros [= <-]|].
  destruct (sys_step t c s) as [s1|] eqn:E; [|done]. apply IH. by eapply reach_step.
Qed.

Definition demo_run (cap eps callers : nat) (sched : list (gid * choice)) : system :=
  default (init cap eps 0 callers) (run sched (init cap eps 0 callers)).

Lemma demo_reachable cap eps callers sched : (0 < eps)%nat -> reachable cap (demo_run cap eps callers sched).
Proof.
  intros He. unfold demo_run. destruct (run _ _) eqn:E; simpl; [|by apply reach_init].
  eapply run_reachable; [|done]. by apply reach_init.
Qed.

(** Goroutine [t] does [n] steps on its own. *)
Definition go (t : gid) (n : nat) : list (gid * choice) := replicate n (t, Go).

(** ** The properties *)

(** C4: whatever the schedule, every conn ever dialed is in exactly one place: in
    one pool's [idle], owned by exactly one goroutine, or closed. So no conn is
    lost, no two goroutines ever use the same conn, none is used or handed out
    after it was closed, and none is closed twice. *)
Theorem conns_owned_once cap s :
  reachable cap s ->
  let g := sys_shared s in
  idles g ++ flat_map own (sys_threads s) ++ g_shut g ≡ₚ seq 0 (g_fresh g) /\
  (forall t p cn, sys_threads s !! t = Some p -> In cn (own p) ->
     ~ In cn (idles g) /\ ~ In cn (g_shut g) /\
     forall u q, u <> t -> sys_threads s !! u = Some q -> ~ In cn (own q)).
Proof.
  intros Hs g. pose proof (conns_inv cap s Hs) as H. unfold conns_accounted in H. fold g in H. split; [done|].
  intros t p cn Hp Hcn. set (others := <[t := Rest]> (sys_threads s)).
  assert (own p ++ (idles g ++ flat_map own others ++ g_shut g) ≡ₚ seq 0 (g_fresh g)) as HP.
  { rewrite <- H. pose proof (flat_map_insert own _ t p Rest Hp) as Hi. simpl in Hi. rewrite Hi. fold others.
    solve_Permutation. }
  assert (~ In cn (idles g ++ flat_map own others ++ g_shut g)) as Hout.
  { assert (NoDup (own p ++ (idles g ++ flat_map own others ++ g_shut g))) as Hnd
      by (rewrite HP; apply NoDup_seq).
    apply list.NoDup_app in Hnd as (_ & Hd & _). rewrite <- list_elem_of_In. apply Hd. by apply list_elem_of_In. }
  rewrite !in_app_iff in Hout. split_and!; [tauto|tauto|]. intros u q Hu Hq Hin. apply Hout. right; left.
  apply in_flat_map. exists q. split; [|done]. apply list_elem_of_In, (list_elem_of_lookup_2 _ u).
  unfold others. by rewrite list_lookup_insert_ne.
Qed.

Example conns_owned_once_witness :
  let s := demo_run 1 1 2 [(1%nat, CallAcquire 0); (1%nat, Go); (1%nat, Go)] in
  sys_threads s !! 1%nat = Some (Held 0 0) /\
  ~ In 0%nat (idles (sys_shared s)) /\ ~ In 0%nat (g_shut (sys_shared s)).
Proof.
  set (s := demo_run _ _ _ _).
  assert (sys_threads s !! 1%nat = Some (Held 0 0)) as Hp by (vm_compute; reflexivity).
  split; [exact Hp|].
  destruct (proj2 (conns_owned_once 1 s (demo_reachable 1 1 2 _ (le_n 1))) 1%nat (Held 0 0) 0%nat Hp (or_introl eq_refl))
    as (H1 & H2 & _).
  exact (conj H1 H2).
Defined.

(** C14: [live] is exactly the conns of the endpoint that are idle, in use, being
    dialed, or closed and about to be discounted; [idle] never holds more than
    the pool size; and [live] stays between 0 and the pool size plus the number
    of goroutines, so its int32 cannot overflow before that sum does. *)
Theorem live_counts cap s i :
  (1 <= cap)%nat -> reachable cap s ->
  let g := sys_shared s in
  load i g = Z.of_nat (length (idle_at i g)) + total (counts i) (sys_threads s) /\
  (length (idle_at i g) <= cap)%nat /\
  0 <= load i g <= Z.of_nat (cap + length (sys_threads s)).
Proof.
  intros Hcap Hs g. destruct (live_inv cap s Hcap Hs) as [H Hc]. destruct (H i) as [Hl Hi]. fold g in Hl, Hi, Hc.
  assert (forall p, 0 <= counts i p /\ counts i p <= 1) as Hb by (intros p; unfold counts; case_decide; lia).
  pose proof (total_nonneg (counts i) (sys_threads s) (fun p => proj1 (Hb p))).
  pose proof (total_bound (counts i) (sys_threads s) (fun p => proj2 (Hb p))).
  rewrite Hc in Hi. split_and!; [done|done|lia|lia].
Qed.

Example live_counts_witness :
  let s := demo_run 2 1 2 ((1%nat, CallAcquire 0) :: go 1 2 ++ (2%nat, CallAcquire 0) :: go 2 5) in
  load 0 (sys_shared s) = 2 /\ total (counts 0) (sys_threads s) = 2 /\ idle_at 0 (sys_shared s) = [].
Proof.
  set (s := demo_run _ _ _ _).
  destruct (live_counts 2 s 0 (le_S _ _ (le_n 1)) (demo_reachable 2 1 2 _ (le_n 1))) as [H _].
  assert (idle_at 0 (sys_shared s) = []) as Hi by (vm_compute; reflexivity).
  assert (total (counts 0) (sys_threads s) = 2) as Ht by (vm_compute; reflexivity).
  rewrite Hi, Ht in H. split_and!; [exact H|exact Ht|exact Hi].
Defined.

(** ** The pool size *)

(** Executions in which the recovery probe never probes. *)
Inductive reachable_unprobed (cap : nat) : system -> Prop :=
  | unprobed_init eps first callers : (first < eps)%nat -> reachable_unprobed cap (init cap eps first callers)
  | unprobed_step s t c s' :
      reachable_unprobed cap s -> sys_step t c s = Some s' -> (forall l, c <> Tick l) -> reachable_unprobed cap s'.

Definition unprobed (cap : nat) (p : pc) : Prop :=
  match p with
  | AcqCas _ cur => cur < Z.of_nat cap
  | ProbeIdle | ProbeExited => True
  | _ => is_probe p = false
  end.

Lemma load_step t c p g p' g' i : pstep t c p g = Some (p', g') -> in_range (length (g_pools g)) p ->
  (forall l, c <> Tick l) -> unprobed (g_cap g) p ->
  unprobed (g_cap g) p' /\ load i g' <= Z.max (load i g) (Z.of_nat (g_cap g)).
Proof.
  intros H Hr Hc Hu. step_cases H. all: cbn [in_range] in Hr. all: cbn [unprobed is_probe] in *.
  all: repeat match goal with
       | H : (_ <=? _) = _ |- _ => first [apply Z.leb_le in H|apply Z.leb_gt in H]
       | H : (_ =? _) = true |- _ => apply Z.eqb_eq in H
       end.
  all: effects. all: try discriminate. all: try (by destruct (Hc _ eq_refl)).
  all: split; [done|].
  all: repeat match goal with H : forall k : nat, p_live _ = _ |- _ => rewrite H end.
  all: try lia.
  all: case_decide; subst; lia.
Qed.

Lemma unprobed_reachable cap s : reachable_unprobed cap s -> reachable cap s.
Proof. induction 1; [by apply reach_init|by eapply reach_step]. Qed.

(** C15: as long as the recovery probe's ticker does not fire, WithPoolSize holds: in an
    execution without a probe tick, no endpoint ever has more than that many conns idle,
    in use, being dialed or being closed, whatever the callers do and however their
    steps interleave. *)
Theorem pool_size_respected cap s i :
  (1 <= cap)%nat -> reachable_unprobed cap s ->
  Z.of_nat (length (idle_at i (sys_shared s))) + total (counts i) (sys_threads s) <= Z.of_nat cap.
Proof.
  intros Hcap Hs. destruct (live_inv cap s Hcap (unprobed_reachable _ _ Hs)) as [Hl _].
  rewrite <- (proj1 (Hl i)). clear Hl.
  assert (g_cap (sys_shared s) = cap /\ Forall (unprobed cap) (sys_threads s) /\
          forall i, load i (sys_shared s) <= Z.of_nat cap) as (_ & _ & H); [|done].
  induction Hs as [eps first callers Hf|[g ts] t c s' Hs IH Hst Hc].
  - split_and!; [done| |].
    + simpl. constructor; [done|]. by apply Forall_replicate.
    + intros k. unfold load, init; simpl. rewrite init_pool by done. case_decide; simpl; [lia|].
      rewrite init_other. simpl. lia.
  - unfold sys_step in Hst; simpl in Hst. destruct (ts !! t) as [p|] eqn:Ep; [|done].
    destruct (pstep t c p g) as [[p' g']|] eqn:E; [|done]. injection Hst as <-. simpl in *.
    destruct IH as (Hg & Hu & Hl).
    assert (in_range (length (g_pools g)) p) as Hr.
    { eapply (Forall_lookup_1 _ ts); [|done]. by apply (in_range_reachable cap (mkSystem g ts)), unprobed_reachable. }
    assert (unprobed cap p) as Hp by by eapply (Forall_lookup_1 _ _ _ _ Hu).
    destruct (flags_step _ _ _ _ _ _ E Hr) as [Hcap' _].
    rewrite <- Hg in Hp. split_and!; [congruence| |].
    + apply Forall_insert; [done|]. rewrite <- Hg. by eapply (load_step _ _ _ _ _ _ 0%nat).
    + intros k. destruct (load_step _ _ _ _ _ _ k E Hr Hc Hp) as [_ H]. specialize (Hl k). lia.
Qed.

(** C5: once Close has released the Kerberos session, its last action before it
    returns, nothing is left behind and nothing can start: the client is closed,
    every pool is empty, the probe goroutine has exited, no goroutine is inside
    a dial (which would read the session), and every conn ever dialed is closed
    unless a caller still has it in hand. When every goroutine is at rest, every
    conn was closed, exactly once. *)
Theorem close_complete cap s :
  reachable cap s ->
  let g := sys_shared s in
  g_krb g = false ->
  g_closed g = true /\ idles g = [] /\ sys_threads s !! 0%nat = Some ProbeExited /\
  (forall t p, sys_threads s !! t = Some p ->
     match p with AcqDial _ | ProbeDial _ _ => False | _ => True end) /\
  flat_map own (sys_threads s) ++ g_shut g ≡ₚ seq 0 (g_fresh g) /\
  (Forall (fun p => p = Rest \/ p = ProbeExited) (sys_threads s) -> g_shut g ≡ₚ seq 0 (g_fresh g)).
Proof.
  intros Hs g Hk. pose proof (closing_inv cap s Hs) as Hc. pose proof (closed_when_released s Hc Hk) as Hcl.
  destruct Hc as [Hkn Hin _ Hb]. destruct (Hb Hk) as (_ & He & Hd & H0). fold g in Hin, Hcl, He, Hd, H0.
  destruct (probe_inv cap s Hs) as [Hrole Hex]. specialize (Hex Hd).
  assert (idles g = []) as Hi.
  { unfold idles. assert (forall i p, g_pools g !! i = Some p -> p_idle p = []) as Hp.
    { intros i p Hp. specialize (He i). unfold idle_at in He. by rewrite Hp in He. }
    clear -Hp. induction (g_pools g) as [|p ps IH]; [done|]. simpl. rewrite (Hp 0%nat p eq_refl). simpl.
    apply IH. intros i q Hq. by apply (Hp (S i)). }
  pose proof (conns_inv cap s Hs) as Hcn. unfold conns_accounted in Hcn. fold g in Hcn. rewrite Hi in Hcn.
  split_and!; [done|done|done| |done|].
  - intros t p Hp. rewrite H0 in Hin. symmetry in Hin.
    pose proof (total_zero dialing _ t p dialing_nonneg Hin Hp) as Hz.
    destruct p; try done. pose proof (Hrole t _ Hp) as Hr. simpl in Hr. symmetry in Hr.
    apply bool_decide_eq_true_1 in Hr as ->. congruence.
  - intros Hrest. replace (flat_map own (sys_threads s)) with (@nil cid) in Hcn; [done|].
    symmetry. clear -Hrest. induction Hrest as [|p ts Hp _ IH]; [done|]. destruct Hp as [-> | ->]; done.
Qed.

(** Acquire twice, release one, close with one in hand, the probe exits, and the
    last one is released to a closed client. *)
Definition demo_close : list (gid * choice) :=
  (1%nat, CallAcquire 0) :: go 1 2 ++ (2%nat, CallAcquire 0) :: go 2 7 ++
  (1%nat, CallRelease) :: go 1 3 ++ (3%nat, CallClose) :: go 3 8 ++ (0%nat, CtxDone) :: go 3 3.

Example close_complete_witness :
  let s := demo_run 2 1 3 demo_close in
  g_krb (sys_shared s) = false /\ idles (sys_shared s) = [] /\ g_shut (sys_shared s) = [0%nat] /\
  flat_map own (sys_threads s) ++ g_shut (sys_shared s) ≡ₚ seq 0 2.
Proof.
  set (s := demo_run _ _ _ _).
  assert (g_krb (sys_shared s) = false) as Hk by (vm_compute; reflexivity).
  destruct (close_complete 2 s (demo_reachable 2 1 3 _ (le_n 1)) Hk) as (_ & Hi & _ & _ & Hp & _).
  assert (g_shut (sys_shared s) = [0%nat]) as Hs by (vm_compute; reflexivity).
  split_and!; [exact Hk|exact Hi|exact Hs|exact Hp].
Defined.

Example pool_size_respected_witness :
  let s := demo_run 1 1 2 ((1%nat, CallAcquire 0) :: go 1 2) in
  Z.of_nat (length (idle_at 0 (sys_shared s))) + total (counts 0) (sys_threads s) <= 1.
Proof.
  set (s := demo_run _ _ _ _).
  apply (pool_size_respected 1 s 0 (le_n 1)).
  assert (forall sched s0 s1, (forall t l, In (t, Tick l) sched -> False) -> reachable_unprobed 1 s0 ->
            run sched s0 = Some s1 -> reachable_unprobed 1 s1) as Hrun.
  { induction sched as [|[t c] sched IH]; intros s0 s1 Hno Hs0; simpl; [by intros [= <-]|].
    destruct (sys_step t c s0) as [s2|] eqn:E; [|done]. apply IH.
    - intros u l Hin. by apply (Hno u l); right.
    - eapply unprobed_step; [done|done|]. intros l ->. by apply (Hno t l); left. }
  apply (Hrun ((1%nat, CallAcquire 0) :: go 1 2) (init 1 1 0 2)).
  - intros t l Hin. simpl in Hin. destruct Hin as [H|[H|[H|H]]]; [discriminate..|done].
  - apply unprobed_init. exact (le_n 1).
  - vm_compute. reflexivity.
Defined.

(** ** Progress *)

(** In the middle of a call on the client, or of the probe. *)
Definition busy (p : pc) : Prop := match p with Rest | Held _ _ | ProbeExited => False | _ => True end.
(** Steps that wait for nothing but the client itself: no new call, no tick, no
    caller's context that may never be cancelled. *)
Definition unaided (p : pc) (c : choice) : Prop :=
  match c with Go | CloseFired => True | CtxDone => is_probe p = true | _ => False end.

Definition can_move (s : system) : Prop :=
  exists t p c, sys_threads s !! t = Some p /\ unaided p c /\ is_Some (sys_step t c s).

Lemma can_move_intro s t p c : sys_threads s !! t = Some p -> unaided p c ->
  is_Some (pstep t c p (sys_shared s)) -> can_move s.
Proof.
  intros Hp Hc [[p' g'] E]. exists t, p, c. split_and!; [done|done|]. unfold sys_step. rewrite Hp, E. by eexists.
Qed.

(** A step whose outcome does not matter. *)
Ltac runs :=
  cbv [pstep acquire_step release_step probe_step close_step locking];
  repeat match goal with
  | E : ?x = _ |- context [match ?x with _ => _ end] => rewrite E
  | |- context [match ?x with _ => _ end] =>
      lazymatch x with
      | context [match _ with _ => _ end] => fail
      | _ => destruct x eqn:?
      end
  end; try (eexists; reflexivity).

Lemma holder_moves t p g : holds_mu p = true -> is_Some (pstep t Go p g).
Proof. destruct p; try done; intros _; runs. Qed.

(** Where a goroutine can be stuck, and on what. *)
Definition blocked (p : pc) (g : shared) : Prop :=
  match p with
  | AcqEnter _ | AcqGate _ | RelEnter _ _ | ProbeEnter _ _ _ | CloseEnter => g_mu g <> None
  | AcqWait _ => g_closeCh g = false
  | ProbeIdle => g_cancelled g = false
  | CloseAgain | CloseWaitProbe => g_probeDone g = false
  | CloseWaitDials => g_inflight g <> 0
  | _ => False
  end.

Lemma busy_moves t p g : busy p -> blocked p g \/ exists c, unaided p c /\ is_Some (pstep t c p g).
Proof.
  destruct p; try done; intros _; cbn [blocked];
    try (right; exists Go; split; [done|runs]; fail).
  all: try (destruct (g_mu g) eqn:E; [left; discriminate|]; right; exists Go; split; [done|runs]; fail).
  - destruct (g_closeCh g) eqn:E; [|by left]. right. exists CloseFired. split; [done|]. runs.
  - destruct (g_cancelled g) eqn:E; [|by left]. right. exists CtxDone. split; [done|]. runs.
  - destruct (g_probeDone g) eqn:E; [|by left]. right. exists Go. split; [done|]. runs.
  - destruct (Z.eqb_spec (g_inflight g) 0) as [E|E]; [|by left]. right. exists Go. split; [done|].
    cbv [pstep acquire_step release_step probe_step close_step]. rewrite E. simpl. by eexists.
  - destruct (g_probeDone g) eqn:E; [|by left]. right. exists Go. split; [done|]. runs.
Qed.

(** A goroutine that is busy in a closed client, or something it waits for, can
    move. *)
Lemma busy_or_waiting s t p : sys_threads s !! t = Some p -> busy p ->
  can_move s \/ blocked p (sys_shared s).
Proof.
  intros Hp Hb. destruct (busy_moves t p (sys_shared s) Hb) as [H|(c & Hc & H)]; [by right|left].
  by eapply can_move_intro.
Qed.

Lemma held_mu_moves s : mutex s -> g_mu (sys_shared s) <> None -> can_move s.
Proof.
  intros [_ H] Hm. destruct (g_mu (sys_shared s)) as [t|] eqn:E; [|done].
  destruct (H t eq_refl) as (p & Hp & Hh). eapply (can_move_intro s t p Go Hp); [done|]. by apply holder_moves.
Qed.

Lemma inflight_moves s : closing s -> g_inflight (sys_shared s) <> 0 -> can_move s.
Proof.
  intros [_ Hi _ _] Hne. pose proof (total_nonneg dialing (sys_threads s) dialing_nonneg).
  destruct (total_pos dialing (sys_threads s)) as (t & p & Hp & Hd); [lia|].
  destruct p; try done; (eapply (can_move_intro s t _ Go Hp); [done|runs]).
Qed.

(** A cancelled probe runs to its end. *)
Lemma probe_moves s t p : mutex s -> closing s -> one_probe s -> sys_threads s !! t = Some p ->
  g_cancelled (sys_shared s) = true -> g_probeDone (sys_shared s) = false -> can_move s.
Proof.
  intros Hm [Hkn _ _ _] [Hrole _] Ht Hca Hpd.
  assert (0 < length (sys_threads s))%nat as [p0 Hp0]%lookup_lt_is_Some_2 by (apply lookup_lt_Some in Ht; lia).
  pose proof (Hrole _ _ Hp0) as Hr. rewrite bool_decide_eq_true_2 in Hr by done.
  assert (knows (sys_shared s) p0) as Hkp by by eapply (Forall_lookup_1 _ _ _ _ Hkn).
  assert (busy p0) as Hb by (destruct p0; try done; simpl in Hkp; congruence).
  destruct (busy_or_waiting s _ _ Hp0 Hb) as [H|Hbl]; [done|].
  destruct p0; try done; simpl in Hbl; [congruence|by apply held_mu_moves].
Qed.

(** The [Close] that closes the client can move, or what it waits for can. *)
Lemma closer_moves s : mutex s -> closing s -> one_probe s ->
  g_closed (sys_shared s) = true -> g_krb (sys_shared s) = true -> can_move s.
Proof.
  intros Hm Hc Hpr Hcl Hk. pose proof Hc as [Hkn _ Hsum _]. rewrite Hcl, Hk in Hsum. simpl in Hsum.
  destruct (total_pos closer (sys_threads s)) as (t & p & Hp & Hcp); [lia|].
  assert (busy p) as Hb by by destruct p.
  destruct (busy_or_waiting s t p Hp Hb) as [H|Hbl]; [done|].
  assert (knows (sys_shared s) p) as Hkp by by eapply (Forall_lookup_1 _ _ _ _ Hkn).
  destruct p; try done; simpl in Hbl, Hkp; [|by apply inflight_moves].
  destruct Hkp as (_ & _ & _ & Hca). by eapply probe_moves.
Qed.

(** C16: a closed client cannot deadlock: as long as any goroutine is in the middle
    of acquire, release, discard, a probe or Close, some goroutine can take a step
    that waits for nothing outside the client: the holder of the mutex, a dial in
    flight, the probe, or a Close. In particular a Close in progress never waits
    for something that is stuck. *)
Theorem close_never_stuck cap s t p :
  reachable cap s -> g_closed (sys_shared s) = true ->
  sys_threads s !! t = Some p -> busy p -> can_move s.
Proof.
  intros Hs Hcl Hp Hb. pose proof (mutex_inv _ _ Hs) as Hm. pose proof (closing_inv _ _ Hs) as Hc.
  pose proof (probe_inv _ _ Hs) as Hpr.
  destruct (g_krb (sys_shared s)) eqn:Hk; [by apply closer_moves|].
  pose proof Hc as [_ _ _ Hrel]. destruct (Hrel Hk) as (Hch & _ & Hd & H0).
  destruct (busy_or_waiting s t p Hp Hb) as [H|Hbl]; [done|].
  destruct p; try done; simpl in Hbl; try (by apply held_mu_moves); try congruence.
  pose proof (proj2 Hpr Hd) as Hex. pose proof (proj1 Hpr _ _ Hp) as Hrole. symmetry in Hrole.
  apply bool_decide_eq_true_1 in Hrole as ->. congruence.
Qed.

Example close_never_stuck_witness :
  can_move (demo_run 1 1 2 ((1%nat, CallClose) :: go 1 3)).
Proof.
  apply (close_never_stuck 1 (demo_run 1 1 2 ((1%nat, CallClose) :: go 1 3)) 1 (DrainClose 0 0 [0%nat])).
  - apply demo_reachable. exact (le_n 1).
  - vm_compute. reflexivity.
  - vm_compute. reflexivity.
  - exact I.
Defined.

(** An open client can strand a waiter: with a pool of one, a caller waits in
    acquire's final select for the only conn; its holder discards it instead of
    releasing it; then the endpoint has no conn at all ([live] is 0, under the
    pool size), yet no goroutine can move without a new call, a probe, or the end
    of the waiter's own context: nothing ever tells the waiter it may dial. *)
Theorem discard_strands_waiter :
  let s := demo_run 1 1 2 ((1%nat, CallAcquire 0) :: go 1 2 ++ (2%nat, CallAcquire 0) :: go 2 3 ++
                           (1%nat, CallDiscard) :: go 1 2) in
  sys_threads s !! 2%nat = Some (AcqWait 0) /\ load 0 (sys_shared s) = 0 /\
  idle_at 0 (sys_shared s) = [] /\ g_closed (sys_shared s) = false /\
  forallb (fun t => forallb (fun c => match sys_step t c s with None => true | Some _ => false end) [Go; CloseFired; DialErr; CallRelease; CallDiscard])
    (seq 0 3) = true.
Proof. vm_compute. split_and!; reflexivity. Qed.
