(* ===== verification/PoolRefine.v ===== *)
(** * PoolRefine: the sequential pool operations are executions of the concurrent ones

    [Client]'s [acquire], [release] and [discardWith] describe what one caller
    sees; [Pool] breaks the same code into the steps other goroutines can come
    between. Run by one goroutine without interruption, those steps have exactly
    the sequential effect on every pool. *)

From S2P Require Import Prelude Pool PoolLaws Errors Cluster GoMonad Wire Options Conn Types Uri Client Demo.

(** Steps of one goroutine alone. *)
Fixpoint solo (t : gid) (cs : list choice) (p : pc) (g : shared) : option (pc * shared) :=
  match cs with
  | [] => Some (p, g)
  | c :: cs => match pstep t c p g with Some (p, g) => solo t cs p g | None => None end
  end.

Definition same_pool {W} (q : cpool) (p : endpointPool W) : Prop :=
  length (p_idle q) = length (idle p) /\ p_live q = live p.

Lemma solo_acquire t c cs p g p1 g1 : acquire_step c p g = Some (p1, g1) -> solo t (c :: cs) p g = solo t cs p1 g1.
Proof. intros H. cbn [solo]. unfold pstep. by rewrite H. Qed.

(** No goroutine is in a critical section, and every pool looks the same. *)
Record sim {W} (g : shared) (s : St W) : Prop := {
  sim_mu : g_mu g = None;
  sim_cap : Z.of_nat (g_cap g) = cfg_poolSize (c_cfg (st_client s));
  sim_closed : g_closed g = c_closed (st_client s);
  sim_pools : Forall2 same_pool (g_pools g) (c_pools (st_client s));
}.

Section refine.
Context {W : Type} {U : UrlLib} (env : Env W).
Implicit Types s : St W.

Lemma sim_log g l m a s : sim g s -> sim g (log l m a s).
Proof. by intros []. Qed.
Lemma sim_world g w s : sim g s -> sim g (set_w w s).
Proof. by intros []. Qed.
Lemma sim_close_conn g cn s : sim g s -> sim g (close_conn cn s).
Proof. unfold close_conn, closeErr. destruct (close cn _) as [w r]. apply sim_world. Qed.
Lemma sim_shut g cn s : sim g s -> sim (shut cn g) s.
Proof. by intros []. Qed.
Lemma sim_dialed g s : sim g s -> sim (dialed g) s.
Proof. by intros []. Qed.
Lemma sim_inflight g d s : sim g s -> sim (inflight_add d g) s.
Proof. by intros []. Qed.

Lemma sim_pool g s i : sim g s -> (i < length (g_pools g))%nat ->
  exists q, g_pools g !! i = Some q /\ same_pool q (pool i (st_client s)).
Proof.
  intros [_ _ _ H] Hi. destruct (lookup_lt_is_Some_2 _ _ Hi) as [q Hq]. exists q. split; [done|].
  destruct (Forall2_lookup_l _ _ _ _ _ H Hq) as (p & Hp & Hs). unfold pool.
  by rewrite (list_lookup_total_correct _ _ _ Hp).
Qed.

(** An update of one pool on both sides. *)
Lemma sim_upd g s i q f : sim g s -> (i < length (g_pools g))%nat ->
  same_pool q (f (pool i (st_client s))) -> sim (put_pool i q g) (upd_pool i f s).
Proof.
  intros Hs Hi Hq. pose proof Hs as [Hm Hc Hcl Hp]. destruct (lookup_lt_is_Some_2 _ _ Hi) as [q0 Hq0].
  destruct (Forall2_lookup_l _ _ _ _ _ Hp Hq0) as (p & Hpi & _). split; try done. simpl.
  unfold pool in Hq. rewrite (list_lookup_total_correct _ _ _ Hpi) in Hq.
  replace (alter f i (c_pools (st_client s))) with (<[i := f p]> (c_pools (st_client s))).
  - by apply Forall2_insert.
  - symmetry. apply list_eq. intros k. destruct (decide (k = i)) as [->|Hk].
    + rewrite list_lookup_alter_eq, Hpi. simpl. rewrite list_lookup_insert_eq; [done|]. by apply lookup_lt_Some in Hpi.
    + by rewrite list_lookup_alter_ne, list_lookup_insert_ne.
Qed.

Lemma sim_live_add g s i d : sim g s -> (i < length (g_pools g))%nat ->
  sim (Pool.live_add i d g) (upd_pool i (live_add d) s).
Proof.
  intros Hs Hi. destruct (sim_pool _ _ _ Hs Hi) as (q & Hq & Hl & Hv). unfold Pool.live_add. rewrite Hq.
  apply sim_upd; [done|done|]. split; simpl; [done|lia].
Qed.

Lemma sim_send g s i cn c : sim g s -> (i < length (g_pools g))%nat ->
  match send i cn g with
  | Some g' => idle_full i s = false /\ sim g' (upd_pool i (send_idle c) s)
  | None => idle_full i s = true
  end.
Proof.
  intros Hs Hi. pose proof (sim_cap _ _ Hs) as Hc. destruct (sim_pool _ _ _ Hs Hi) as (q & Hq & Hl & Hv).
  unfold send, idle_full. rewrite Hq, <- Hc, <- Hl. case_bool_decide.
  - split; [lia|]. apply sim_upd; [done|done|]. split; simpl; [|done]. rewrite !length_app. simpl. lia.
  - lia.
Qed.

Lemma sim_recv g s i : sim g s -> (i < length (g_pools g))%nat ->
  match take_idle i s with
  | Some (_, s') => exists cn g', recv i g = Some (cn, g') /\ sim g' s'
  | None => recv i g = None
  end.
Proof.
  intros Hs Hi. destruct (sim_pool _ _ _ Hs Hi) as (q & Hq & Hl & Hv). unfold take_idle, recv. rewrite Hq.
  destruct (idle (pool i (st_client s))) as [|c rest], (p_idle q) as [|cn rest']; try done.
  eexists _, _. split; [done|]. apply sim_upd; [done|done|]. split; simpl in *; [lia|done].
Qed.

Lemma live_add_pools i d g : length (g_pools (Pool.live_add i d g)) = length (g_pools g).
Proof.
  unfold Pool.live_add. destruct (g_pools g !! i); [|done]. apply put_pool_ctl.
Qed.

Lemma sim_newConn g ep cfg krb s s' r : sim g s -> newConn env ep cfg krb s = (s', r) -> sim g s'.
Proof.
  intros Hs. unfold newConn. destruct (newConn_raw _ _ _ _ _) as [w [err|cn]]; intros [= <- <-];
    by apply sim_log, sim_world.
Qed.

(** C18: release and discard, as the retry loop of client.go uses them one at a
    time, are what the concurrent steps of [Pool] do when no other goroutine comes
    in between: from a matching state they end at rest, in a matching state. *)
Theorem release_refines t g s i cn c reason :
  sim g s -> (i < length (g_pools g))%nat ->
  (exists cs g', solo t cs (RelEnter i cn) g = Some (Rest, g') /\ sim g' (release i c s)) /\
  (exists cs g', solo t cs (DisClose i cn) g = Some (Rest, g') /\ sim g' (discardWith i c reason s)).
Proof.
  intros Hs Hi.
  assert (forall g0 r, sim g0 s -> length (g_pools g0) = length (g_pools g) ->
    solo t [Go; Go] (DisClose i cn) g0 = Some (Rest, Pool.live_add i (-1) (shut cn g0)) /\
    sim (Pool.live_add i (-1) (shut cn g0)) (discardWith i c r s)) as Hd.
  { intros g0 r Hg0 Hl. split; [done|]. unfold discardWith. apply sim_log, sim_live_add; [|simpl; lia].
    by apply sim_shut, sim_close_conn. }
  split; [|eexists _, _; by apply Hd]. unfold release. pose proof Hs as [Hm _ Hcl _].
  destruct (c_closed (st_client s)).
  - destruct (Hd g "client closed" Hs eq_refl) as [Hr Hsim]. exists [Go; Go; Go]. eexists. split; [|exact Hsim].
    cbn [solo]. unfold pstep at 1, acquire_step at 1, release_step at 1, locking. by rewrite Hm, Hcl.
  - assert (sim (set_mu None (set_mu (Some t) g)) s) as Hs' by (destruct Hs; by split).
    pose proof (sim_send (set_mu None (set_mu (Some t) g)) s i cn c Hs' Hi) as Hsend.
    unfold send in Hsend. simpl in Hsend.
    destruct (g_pools g !! i) as [q|] eqn:Eq; [|by apply lookup_ge_None in Eq; lia].
    destruct (bool_decide (length (p_idle q) < g_cap g)%nat) eqn:Eb.
    + destruct Hsend as [-> Hsim]. cbn [negb]. exists [Go; Go; Go]. eexists. split; [|apply sim_log, Hsim].
      cbn [solo]. unfold pstep at 1, acquire_step at 1, release_step at 1, locking. rewrite Hm, Hcl.
      unfold pstep at 1, acquire_step at 1, release_step at 1, send. simpl. by rewrite Eq, Eb.
    + rewrite Hsend. cbn [negb]. destruct (Hd _ "pool full" Hs' eq_refl) as [Hr Hsim].
      exists [Go; Go; Go; Go; Go]. eexists. split; [|exact Hsim].
      cbn [solo]. unfold pstep at 1, acquire_step at 1, release_step at 1, locking. rewrite Hm, Hcl.
      unfold pstep at 1, acquire_step at 1, release_step at 1, send. simpl. by rewrite Eq, Eb.
Qed.

(** What the dialer answers for endpoint [i], its slot being counted. *)
Definition dial_of (i : nat) s : goerr + conn W :=
  snd (newConn env (c_endpoints (st_client s) !!! i) (c_cfg (st_client s)) (c_krbSession (st_client s)) (upd_pool i (live_add 1) s)).

(** The steps of an acquire nobody comes in between, a dial ending as the dialer
    answers. *)
Definition undisturbed (i : nat) s : list choice :=
  if c_closed (st_client s) then [Go]
  else match take_idle i s with
       | Some _ => [Go; Go]
       | None => [Go; Go; Go; Go; Go] ++ match dial_of i s with inl _ => [DialErr; Go] | inr _ => [Go; Go] end
       end.

(** C17: acquire refines the same way, up to the point where it would wait: run alone,
    with dials that end as the environment's dialer answers, the concurrent steps end
    holding a conn exactly when acquire hands one out, and at rest when it fails, the
    [live] taken for a dial that failed given back; the pools match again. What acquire
    hands out is the first idle conn or, with none idle, the dialed one, and its error is
    the closed client's or the dial's. *)
Theorem acquire_refines t g s i :
  sim g s -> (i < length (g_pools g))%nat ->
  match take_idle i s with None => live (pool i (st_client s)) < cfg_poolSize (c_cfg (st_client s)) | Some _ => True end \/
    c_closed (st_client s) = true ->
  let '(s', r) := acquire env i s in
  r = (if c_closed (st_client s) then inl EClosed
       else match take_idle i s with Some (c, _) => inr c | None => dial_of i s end) /\
  exists p g', solo t (undisturbed i s) (AcqEnter i) g = Some (p, g') /\ sim g' s' /\
    match r with inl _ => p = Rest | inr _ => exists cn, p = Held i cn end.
Proof.
  intros Hs Hi Hroom. unfold acquire, undisturbed. pose proof Hs as [Hm Hc Hcl _].
  assert (acquire_step Go (AcqEnter i) g = Some (if g_closed g then Rest else AcqPoll i, g)) as Henter
    by (cbn; unfold locking; by rewrite Hm).
  destruct (c_closed (st_client s)) eqn:Ecl; rewrite Hcl in Henter.
  { split; [done|]. exists Rest, g. split; [|done]. by rewrite (solo_acquire _ _ _ _ _ _ _ Henter). }
  destruct Hroom as [Hroom|]; [|done]. pose proof (sim_recv g s i Hs Hi) as Hrecv.
  destruct (take_idle i s) as [[c s1]|].
  { destruct Hrecv as (cn & g1 & Hr & Hs1). split; [done|]. exists (Held i cn), g1. split; [|split; [done|by exists cn]].
    rewrite (solo_acquire _ _ _ _ _ _ _ Henter). erewrite solo_acquire; [done|]. cbn. by rewrite Hr. }
  destruct (Z.ltb_spec (live (pool i (st_client s))) (cfg_poolSize (c_cfg (st_client s)))); [|lia].
  assert (load i g = live (pool i (st_client s))) as Hload.
  { destruct (sim_pool _ _ _ Hs Hi) as (q & Hq & _ & Hv). unfold load. by rewrite Hq. }
  set (g1 := Pool.live_add i 1 g). set (s1 := upd_pool i (live_add 1) s).
  assert (sim g1 s1) as Hs1 by by apply sim_live_add.
  assert (forall cs, solo t ([Go; Go; Go; Go; Go] ++ cs) (AcqEnter i) g = solo t cs (AcqDial i) (inflight_add 1 g1)) as Hgo.
  { intros cs. cbn [app]. rewrite (solo_acquire _ _ _ _ _ _ _ Henter).
    erewrite solo_acquire by (cbn; by rewrite Hrecv).
    erewrite solo_acquire by (cbn; destruct (Z.leb_spec (Z.of_nat (g_cap g)) (load i g)); [lia|reflexivity]).
    erewrite solo_acquire by (cbn; rewrite Z.eqb_refl; reflexivity). fold g1.
    erewrite solo_acquire; [done|]. cbn. unfold locking. rewrite (sim_mu _ _ Hs1), (sim_closed _ _ Hs1).
    unfold s1. simpl. by rewrite Ecl. }
  unfold grow, dial_of. fold s1. change (c_closed (st_client s1)) with (c_closed (st_client s)). rewrite Ecl.
  change (c_endpoints (st_client s1)) with (c_endpoints (st_client s)). change (c_cfg (st_client s1)) with (c_cfg (st_client s)).
  change (c_krbSession (st_client s1)) with (c_krbSession (st_client s)).
  destruct (newConn env _ _ _ s1) as [s2 [err|c]] eqn:En; apply (sim_newConn _ _ _ _ _ _ _ Hs1) in En as Hs2; (split; [done|]);
    cbn [snd]; eexists _, _; (split; [rewrite Hgo; done|]).
  - split; [|done]. apply sim_live_add; [by do 2 apply sim_inflight|]. unfold g1. simpl. by rewrite live_add_pools.
  - split; [by apply sim_inflight, sim_dialed, sim_inflight|]. by eexists.
Qed.
End refine.

(** The demo client after New: the second endpoint's pool has the one conn. *)
Definition demo_shared : shared :=
  mkShared 1 None false false [mkCpool [] 0; mkCpool [0%nat] 1] 0 false false true 1 [].

Lemma demo_sim : sim demo_shared demoSt.
Proof. split; [reflexivity..|]. vm_compute. repeat constructor. Qed.

Example acquire_refines_witness :
  let '(s', r) := @acquire trace demoUrl demoEnv 1 demoSt in
  match r with inr _ => True | inl _ => False end /\
  exists p g', solo 1 [Go; Go] (AcqEnter 1) demo_shared = Some (p, g') /\ sim g' s' /\ exists cn, p = Held 1 cn.
Proof.
  assert (undisturbed (U := demoUrl) demoEnv 1 demoSt = [Go; Go]) as Hu by (vm_compute; reflexivity).
  assert (match take_idle 1 demoSt with None => live (pool 1 (st_client demoSt)) < cfg_poolSize (c_cfg (st_client demoSt)) | Some _ => True end)
    as Hroom by (vm_compute; reflexivity).
  assert (match snd (@acquire trace demoUrl demoEnv 1 demoSt) with inr _ => true | inl _ => false end = true) as Ha
    by (vm_compute; reflexivity).
  pose proof (@acquire_refines trace demoUrl demoEnv 1%nat demo_shared demoSt 1%nat demo_sim (le_n 2) (or_introl Hroom)) as H.
  destruct (@acquire trace demoUrl demoEnv 1 demoSt) as [s' [e|c]]; [discriminate Ha|].
  rewrite Hu in H. exact (conj I (proj2 H)).
Defined.

Example release_refines_witness :
  exists cs g', solo 1 cs (RelEnter 0 7) demo_shared = Some (Rest, g') /\ sim g' (@release trace demoUrl 0 demoConn demoSt).
Proof.
  exact (proj1 (@release_refines trace demoUrl 1%nat demo_shared demoSt 0%nat 7%nat demoConn "unavailable" demo_sim
    (le_S _ _ (le_n 1)))).
Defined.
