(* ===== verification/Transport.v ===== *)
(** * Transport: byte transports, and the readers of package io

    [thrift.TTransport], which internal/transport wraps, is an interface: a class
    of operations on a state of its own. [io.ReadFull] and
    [io.ReadAll(io.LimitReader(..))] are loops over its [Read]; a reader may
    return nothing for ever, so they take fuel, and [None] says that it ran out. *)

From Stdlib Require Import Strings.Byte.
From S2P Require Import Prelude Errors GoMonad.

Definition bytes : Type := list byte.

(** ** Big-endian u32 *)

Definition byte_of_Z (z : Z) : byte := match of_N (Z.to_N (Z.land z 255)) with Some b => b | None => x00 end.
Definition Z_of_byte (b : byte) : Z := Z.of_N (to_N b).

(** [binary.BigEndian.PutUint32] and [Uint32]. *)
Definition PutUint32 (n : Z) : bytes :=
  [byte_of_Z (Z.shiftr n 24); byte_of_Z (Z.shiftr n 16); byte_of_Z (Z.shiftr n 8); byte_of_Z n].
Definition Uint32 (b : bytes) : Z :=
  match b with
  | [b0; b1; b2; b3] =>
      Z.lor (Z_of_byte b3) (Z.lor (Z.shiftl (Z_of_byte b2) 8)
        (Z.lor (Z.shiftl (Z_of_byte b1) 16) (Z.shiftl (Z_of_byte b0) 24)))
  | _ => 0
  end.

Lemma Z_of_byte_of_Z z : Z_of_byte (byte_of_Z z) = Z.land z 255.
Proof.
  unfold Z_of_byte, byte_of_Z. assert (0 <= Z.land z 255 < 256) as H.
  { replace 255 with (Z.ones 8) by done. rewrite Z.land_ones by lia. apply Z.mod_pos_bound. lia. }
  destruct (of_N (Z.to_N (Z.land z 255))) as [b|] eqn:E.
  - apply to_of_N in E. rewrite E. lia.
  - apply of_N_None_iff in E. lia.
Qed.

Lemma lor_add a b k : 0 <= k -> 0 <= b < 2 ^ k -> Z.lor (Z.shiftl a k) b = a * 2 ^ k + b.
Proof.
  intros Hk Hb. rewrite <- Z.shiftl_mul_pow2 by done. symmetry.
  assert (Z.land (Z.shiftl a k) b = 0) as Hl.
  { apply Z.bits_inj'. intros i Hi. rewrite Z.land_spec, Z.bits_0, Z.shiftl_spec by lia.
    destruct (decide (i < k)); [by rewrite (Z.testbit_neg_r _ (i - k)) by lia|].
    rewrite <- (Z.mod_small b (2 ^ k)), Z.mod_pow2_bits_high by lia. by rewrite andb_false_r. }
  rewrite <- Z.lxor_lor by done. by apply Z.add_nocarry_lxor.
Qed.

Lemma Z_of_byte_range b : 0 <= Z_of_byte b < 256.
Proof. destruct b; vm_compute; done. Qed.

Lemma byte_of_Z_mod n : Z_of_byte (byte_of_Z n) = n mod 256.
Proof. rewrite Z_of_byte_of_Z. replace 255 with (Z.ones 8) by done. by rewrite Z.land_ones. Qed.

Lemma octet_testbit n s k : 0 <= s -> 0 <= k ->
  Z.testbit (Z.shiftl (Z.land (Z.shiftr n s) 255) s) k = (s <=? k) && (k <? s + 8) && Z.testbit n k.
Proof.
  intros Hs Hk. replace 255 with (Z.ones 8) by done. rewrite Z.shiftl_spec, Z.land_spec by lia.
  destruct (Z.leb_spec s k); simpl; [|by rewrite Z.testbit_neg_r by lia].
  rewrite Z.shiftr_spec by lia. replace (k - s + s) with k by lia.
  destruct (Z.ltb_spec k (s + 8)); [rewrite Z.ones_spec_low by lia|rewrite Z.ones_spec_high by lia];
    simpl; by rewrite ?andb_true_r, ?andb_false_r.
Qed.

Lemma Uint32_PutUint32 n : 0 <= n < 2 ^ 32 -> Uint32 (PutUint32 n) = n.
Proof.
  intros Hn. unfold Uint32, PutUint32. rewrite !Z_of_byte_of_Z. apply Z.bits_inj'. intros k Hk.
  rewrite !Z.lor_spec, !octet_testbit by lia.
  pose proof (octet_testbit n 0 k (Z.le_refl 0) Hk) as H0. rewrite Z.shiftr_0_r, Z.shiftl_0_r in H0. rewrite H0.
  assert (32 <= k -> Z.testbit n k = false) as Hhi.
  { intros. rewrite <- (Z.mod_small n (2 ^ 32)) by done. apply Z.mod_pow2_bits_high. lia. }
  repeat match goal with
  | |- context [?a <=? ?b] => destruct (Z.leb_spec a b)
  | |- context [?a <? ?b] => destruct (Z.ltb_spec a b)
  end; try lia; simpl; rewrite ?orb_false_r; try done; rewrite Hhi by lia; done.
Qed.

Lemma Uint32_value b0 b1 b2 b3 :
  Uint32 [b0; b1; b2; b3] = ((Z_of_byte b0 * 256 + Z_of_byte b1) * 256 + Z_of_byte b2) * 256 + Z_of_byte b3.
Proof.
  pose proof (Z_of_byte_range b0); pose proof (Z_of_byte_range b1);
    pose proof (Z_of_byte_range b2); pose proof (Z_of_byte_range b3).
  unfold Uint32. rewrite (Z.lor_comm (Z.shiftl (Z_of_byte b1) 16)), (lor_add _ _ 24), (Z.lor_comm (Z.shiftl _ 8)).
  2-3: rewrite ?Z.shiftl_mul_pow2 by lia; lia.
  replace (Z_of_byte b0 * 2 ^ 24 + Z.shiftl (Z_of_byte b1) 16) with (Z.shiftl (Z_of_byte b0 * 256 + Z_of_byte b1) 16)
    by (rewrite !Z.shiftl_mul_pow2 by lia; lia).
  rewrite (lor_add _ _ 16) by (rewrite ?Z.shiftl_mul_pow2 by lia; lia). rewrite Z.lor_comm.
  replace ((Z_of_byte b0 * 256 + Z_of_byte b1) * 2 ^ 16 + Z.shiftl (Z_of_byte b2) 8)
    with (Z.shiftl ((Z_of_byte b0 * 256 + Z_of_byte b1) * 256 + Z_of_byte b2) 8)
    by (rewrite !Z.shiftl_mul_pow2 by lia; lia).
  rewrite (lor_add _ _ 8) by lia. lia.
Qed.

Lemma byte_of_Z_of_byte b n : n mod 256 = Z_of_byte b -> byte_of_Z n = b.
Proof.
  intros Hn. pose proof (byte_of_Z_mod n) as H. rewrite Hn in H. unfold Z_of_byte in H.
  apply N2Z.inj in H. assert (of_N (to_N (byte_of_Z n)) = of_N (to_N b)) as H' by congruence.
  rewrite !of_to_N in H'. by injection H'.
Qed.

Lemma PutUint32_Uint32 b : length b = 4%nat -> PutUint32 (Uint32 b) = b.
Proof.
  destruct b as [|b0 [|b1 [|b2 [|b3 [|]]]]]; try done. intros _. rewrite Uint32_value.
  pose proof (Z_of_byte_range b0); pose proof (Z_of_byte_range b1);
    pose proof (Z_of_byte_range b2); pose proof (Z_of_byte_range b3).
  unfold PutUint32. rewrite !Z.shiftr_div_pow2 by lia.
  repeat f_equal; apply byte_of_Z_of_byte; Z.to_euclidean_division_equations; lia.
Qed.

Lemma length_PutUint32 n : length (PutUint32 n) = 4%nat.
Proof. done. Qed.

(** ** thrift.TTransport *)

(** [Read] answers at most as many bytes as it is asked for, with or without an
    error. *)
Class TTransport (T : Type) := {
  t_Read : nat -> T -> T * (bytes * option goerr);
  t_Write : bytes -> M T unit;
  t_Flush : M T unit;
  t_IsOpen : T -> bool;
  t_Open : M T unit;
  t_Close : M T unit;
  t_RemainingBytes : T -> Z;
}.

(** ** Computations that may run out of fuel *)

Definition MF (S A : Type) : Type := S -> option (S * (goerr + A)).
Definition liftF {S A} (m : M S A) : MF S A := fun s => Some (m s).
Definition bindF {S A B} (m : MF S A) (k : A -> MF S B) : MF S B := fun s =>
  match m s with
  | None => None
  | Some (s, inl e) => Some (s, inl e)
  | Some (s, inr a) => k a s
  end.
Notation "x <-- m ;; k" := (bindF m (fun x => k))
  (at level 100, m at next level, right associativity) : go_scope.

(** ** package io *)

(** How much room [io.ReadAll]'s buffer has left after [n] bytes: the growth of
    [append] is not specified, but there always is some. *)
Class AppendGrowth := { room : nat -> nat; room_pos : forall n, (1 <= room n)%nat }.

Section io.
Context {T : Type} `{TTransport T} `{AppendGrowth}.

(** [io.ReadFull(r, buf)], [want] bytes still missing and [got] read. *)
Fixpoint ReadFull (fuel want : nat) (got : bytes) : MF T bytes := fun t =>
  match want with
  | O => Some (t, inr got)
  | S _ =>
      match fuel with
      | O => None
      | S fuel =>
          let '(t, (b, err)) := t_Read want t in
          if bool_decide (want <= length b)%nat then Some (t, inr (got ++ b))
          else match err with
               | None => ReadFull fuel (want - length b) (got ++ b) t
               | Some EEOF => match got ++ b with
                              | [] => Some (t, inl EEOF)
                              | _ => Some (t, inl EUnexpectedEOF)
                              end
               | Some e => Some (t, inl e)
               end
      end
  end.

(** [io.ReadAll(io.LimitReader(r, left))], after [got] was read. *)
Fixpoint ReadAllLimit (fuel left : nat) (got : bytes) : MF T bytes := fun t =>
  match fuel with
  | O => None
  | S fuel =>
      match left with
      | O => Some (t, inr got)
      | S _ =>
          let '(t, (b, err)) := t_Read (Nat.min left (room (length got))) t in
          match err with
          | None => ReadAllLimit fuel (left - length b) (got ++ b) t
          | Some EEOF => Some (t, inr (got ++ b))
          | Some e => Some (t, inl e)
          end
      end
  end.
End io.

(** ** A peer: a byte stream delivered in arbitrary pieces *)

(** What is left to read, in pieces of one more byte than [s_pieces] says (of one
    byte when it runs out), what was written, and whether it is open. *)
Record stream := mkStream { s_in : bytes; s_pieces : list nat; s_out : bytes; s_open : bool }.

Definition stream_read (n : nat) (s : stream) : stream * (bytes * option goerr) :=
  match n, s_in s with
  | O, _ => (s, ([], None))
  | _, [] => (s, ([], Some EEOF))
  | _, l => let k := Nat.min n (S (hd 0%nat (s_pieces s))) in
            (mkStream (drop k l) (tl (s_pieces s)) (s_out s) (s_open s), (take k l, None))
  end.

#[export] Instance stream_transport : TTransport stream := {|
  t_Read := stream_read;
  t_Write := fun b s => (mkStream (s_in s) (s_pieces s) (s_out s ++ b) (s_open s), inr tt);
  t_Flush := ret tt;
  t_IsOpen := s_open;
  t_Open := fun s => (mkStream (s_in s) (s_pieces s) (s_out s) true, inr tt);
  t_Close := fun s => (mkStream (s_in s) (s_pieces s) (s_out s) false, inr tt);
  t_RemainingBytes := fun s => 2 ^ 64 - 1 |}.

(** Reading consumes the input in order and touches nothing else. *)
Definition reads (b : bytes) (s s' : stream) : Prop :=
  s_in s = b ++ s_in s' /\ s_out s' = s_out s /\ s_open s' = s_open s.

Lemma reads_trans b1 b2 s1 s2 s3 : reads b1 s1 s2 -> reads b2 s2 s3 -> reads (b1 ++ b2) s1 s3.
Proof. intros (H1 & H2 & H3) (H4 & H5 & H6). split_and!; [by rewrite H1, H4, app_assoc|congruence..]. Qed.

Lemma stream_read_spec n s : (0 < n)%nat -> s_in s <> [] ->
  exists b s', stream_read n s = (s', (b, None)) /\ (0 < length b <= n)%nat /\ reads b s s'.
Proof.
  intros Hn Hs. unfold stream_read. destruct n as [|n]; [lia|]. destruct (s_in s) as [|x l] eqn:E; [done|].
  eexists _, _. split; [done|]. split.
  - rewrite length_take. simpl. lia.
  - split_and!; simpl; [|done|done]. by rewrite E, <- (take_drop (Nat.min (S n) (S (hd 0%nat (s_pieces s)))) (x :: l)).
Qed.

Section streams.
Context `{AppendGrowth}.

Lemma ReadFull_enough fuel : forall want got s,
  (want <= fuel)%nat -> (want <= length (s_in s))%nat ->
  exists s', ReadFull fuel want got s = Some (s', inr (got ++ take want (s_in s))) /\ reads (take want (s_in s)) s s'.
Proof.
  induction fuel as [|fuel IH]; intros [|want] got s Hf Hl; try lia.
  - exists s. simpl. by rewrite app_nil_r.
  - exists s. simpl. by rewrite app_nil_r.
  - cbn [ReadFull]. destruct (stream_read_spec (S want) s) as (b & s1 & Hr & Hb & Hrd); [lia|by destruct (s_in s); simpl in *; [lia|]|].
    change (t_Read (S want) s) with (stream_read (S want) s). rewrite Hr. pose proof Hrd as (Hin & _ & _).
    case_bool_decide as Hd.
    + exists s1. assert (length b = S want) as Hlb by lia. rewrite Hin, <- Hlb, take_app_length.
      split; [done|]. split_and!; [done|apply Hrd|apply Hrd].
    + destruct (IH (S want - length b)%nat (got ++ b) s1) as (s' & -> & Hs').
      { lia. } { rewrite Hin, length_app in Hl. lia. }
      exists s'. rewrite Hin, take_app_ge by lia. split; [by rewrite app_assoc|]. by eapply reads_trans.
Qed.

Lemma ReadFull_short fuel : forall want got s,
  (want <= fuel)%nat -> (length (s_in s) < want)%nat ->
  exists s', ReadFull fuel want got s =
      Some (s', inl (match got ++ s_in s with [] => EEOF | _ => EUnexpectedEOF end)) /\ reads (s_in s) s s'.
Proof.
  induction fuel as [|fuel IH]; intros [|want] got s Hf Hl; try lia.
  cbn [ReadFull]. change (t_Read (S want) s) with (stream_read (S want) s).
  destruct (decide (s_in s = [])) as [Hin|Hin].
  - unfold stream_read. rewrite Hin. simpl. exists s. rewrite app_nil_r. split; [by destruct got|].
    split_and!; [by rewrite Hin|done|done].
  - destruct (stream_read_spec (S want) s) as (b & s1 & -> & Hb & Hrd); [lia|done|]. pose proof Hrd as (Hi & _ & _).
    case_bool_decide as Hd; [rewrite Hi, length_app in Hl; lia|].
    destruct (IH (S want - length b)%nat (got ++ b) s1) as (s' & -> & Hs').
    { lia. } { rewrite Hi, length_app in Hl. lia. }
    exists s'. rewrite Hi, app_assoc. split; [done|]. by eapply reads_trans.
Qed.

Lemma ReadAllLimit_stream fuel : forall left got s,
  (Nat.min left (length (s_in s)) < fuel)%nat ->
  exists s', ReadAllLimit fuel left got s = Some (s', inr (got ++ take left (s_in s))) /\ reads (take left (s_in s)) s s'.
Proof.
  induction fuel as [|fuel IH]; intros [|left] got s Hf; try lia; cbn [ReadAllLimit].
  - exists s. by rewrite app_nil_r.
  - pose proof (room_pos (length got)) as Hroom. set (n := Nat.min (S left) (room (length got))).
    change (t_Read n s) with (stream_read n s).
    destruct (decide (s_in s = [])) as [Hin|Hin].
    + unfold stream_read. rewrite Hin. destruct n as [|n'] eqn:En; [lia|]. exists s.
      rewrite take_nil. split; [done|]. split_and!; done.
    + destruct (stream_read_spec n s) as (b & s1 & -> & Hb & Hrd); [lia|done|]. pose proof Hrd as (Hi & _ & _).
      destruct (IH (S left - length b)%nat (got ++ b) s1) as (s' & -> & Hs'); [rewrite Hi, length_app in Hf; lia|].
      exists s'. rewrite Hi, take_app_ge by lia. split; [by rewrite app_assoc|]. by eapply reads_trans.
Qed.
End streams.
