(* ===== verification/Sasl.v ===== *)
(** * Sasl: internal/transport/sasl.go

    The SASL negotiation and the framing after it, for any mechanism and any
    inner transport. *)

From Stdlib Require Import Strings.Byte.
From S2P Require Import Prelude Errors GoMonad Wire Types Transport.

Definition saslStart : Z := 1.
Definition saslOK : Z := 2.
Definition saslBad : Z := 3.
Definition saslError : Z := 4.
Definition saslComplete : Z := 5.
Definition saslMaxFrame : Z := 67108864.

(** ** Mechanisms *)

(** [Step]'s first argument is nil on the first call; it answers the response
    and whether that is the mechanism's last token. *)
Class saslMech (K : Type) := {
  Name : K -> string;
  Step : option bytes -> M K (bytes * bool);
  Complete : K -> bool;
}.

Record plainMech := mkPlainMech { pm_user : string; pm_password : string; pm_sent : bool }.

Definition zero_byte : string := String "000"%char EmptyString.
Definition plain_response (user password : string) : bytes :=
  String.list_byte_of_string (zero_byte +:+ user +:+ zero_byte +:+ password).

Definition plainMech_Step (challenge : option bytes) : M plainMech (bytes * bool) := fun m =>
  match challenge with
  | Some _ => (m, inl (EText "hms: sasl plain: unexpected challenge from the server"))
  | None => (mkPlainMech (pm_user m) (pm_password m) true,
             inr (plain_response (pm_user m) (pm_password m), false))
  end.

#[export] Instance plain_mech : saslMech plainMech := {|
  Name := fun _ => "PLAIN"; Step := plainMech_Step; Complete := pm_sent |}.

(** ** The transport *)

Record saslTransport (T K : Type) := mkSasl {
  sa_inner : T; sa_mech : K; sa_wbuf : bytes; sa_rbuf : bytes; sa_open : bool }.
Arguments mkSasl {T K}. Arguments sa_inner {T K}. Arguments sa_mech {T K}.
Arguments sa_wbuf {T K}. Arguments sa_rbuf {T K}. Arguments sa_open {T K}.

Section sasl.
Context {T K : Type} `{TTransport T} `{saslMech K} `{AppendGrowth}.
(** [%q] of a rejection's payload. *)
Context (quote : bytes -> string).
Implicit Types s : saslTransport T K.
Local Abbreviation S := (saslTransport T K).

Definition set_inner (t : T) s : S := mkSasl t (sa_mech s) (sa_wbuf s) (sa_rbuf s) (sa_open s).
Definition set_mech (k : K) s : S := mkSasl (sa_inner s) k (sa_wbuf s) (sa_rbuf s) (sa_open s).
Definition set_wbuf (b : bytes) s : S := mkSasl (sa_inner s) (sa_mech s) b (sa_rbuf s) (sa_open s).
Definition set_rbuf (b : bytes) s : S := mkSasl (sa_inner s) (sa_mech s) (sa_wbuf s) b (sa_open s).
Definition set_open (o : bool) s : S := mkSasl (sa_inner s) (sa_mech s) (sa_wbuf s) (sa_rbuf s) o.

Definition on_inner {A} (m : M T A) : M S A := fun s =>
  let '(t, r) := m (sa_inner s) in (set_inner t s, r).
Definition on_innerF {A} (m : MF T A) : MF S A := fun s =>
  match m (sa_inner s) with Some (t, r) => Some (set_inner t s, r) | None => None end.
Definition on_mech {A} (m : M K A) : M S A := fun s =>
  let '(k, r) := m (sa_mech s) in (set_mech k s, r).

(** ** Frames *)

Definition frame_too_large : goerr := EText "hms: sasl frame too large".

Definition statusFor (done : bool) : Z := if done then saslComplete else saslOK.

Definition sendNegotiate (status : Z) (payload : bytes) : M S unit :=
  let n := Z.of_nat (length payload) in
  if (n <? 0) || (saslMaxFrame <? n) then throw frame_too_large
  else (on_inner (t_Write (byte_of_Z status :: PutUint32 n));;;
        on_inner (t_Write payload);;;
        on_inner t_Flush)%go.

Definition readFrame (fuel : nat) (n : Z) : MF T bytes :=
  (b <-- ReadAllLimit fuel (Z.to_nat n) [];;
   liftF (if Z.of_nat (length b) <? n then throw EUnexpectedEOF else ret b))%go.

Definition recvNegotiate (fuel : nat) : MF S (Z * bytes) :=
  (hdr <-- on_innerF (ReadFull fuel 5 []);;
   let n := Uint32 (tl hdr) in
   if saslMaxFrame <? n then liftF (throw frame_too_large)
   else payload <-- on_innerF (readFrame fuel n);;
        liftF (ret (Z_of_byte (hd x00 hdr), payload)))%go.

(** ** The handshake *)

Definition get_mech : M S K := fun s => (s, inr (sa_mech s)).

(** The challenge and response loop, one round per unit of fuel. *)
Fixpoint negotiate (fuel rounds : nat) (name : string) (done : bool) : MF S unit :=
  match rounds with
  | O => fun _ => None
  | Datatypes.S rounds =>
      (sp <-- recvNegotiate fuel;;
       let '(status, payload) := sp in
       if status =? saslComplete then
         k <-- liftF get_mech;;
         if negb (Complete k)
         then liftF (throw (EText ("hms: sasl " +:+ name +:+ ": server completed before the mechanism finished")))
         else liftF (modify (set_open true))
       else if (status =? saslBad) || (status =? saslError) then
         liftF (throw (EText ("hms: sasl " +:+ name +:+ " rejected: " +:+ quote payload)))
       else if status =? saslOK then
         if done then
           liftF (throw (EText ("hms: sasl " +:+ name +:+ ": server sent a challenge after the mechanism completed")))
         else
           rd <-- liftF (on_mech (Step (Some payload)));;
           _ <-- liftF (sendNegotiate (statusFor (snd rd)) (fst rd));;
           negotiate fuel rounds name (snd rd)
       else liftF (throw (EText ("hms: unexpected sasl status " +:+ Itoa status))))%go
  end.

Definition open_inner : M S unit := fun s =>
  if t_IsOpen (sa_inner s) then (s, inr tt) else on_inner t_Open s.

Definition OpenContext (fuel : nat) : MF S unit :=
  (_ <-- liftF open_inner;;
   k <-- liftF get_mech;;
   _ <-- liftF (sendNegotiate saslStart (String.list_byte_of_string (Name k)));;
   rd <-- liftF (on_mech (Step None));;
   _ <-- liftF (sendNegotiate (statusFor (snd rd)) (fst rd));;
   negotiate fuel fuel (Name k) (snd rd))%go.

Definition IsOpen s : bool := sa_open s && t_IsOpen (sa_inner s).
Definition Close : M S unit := fun s => on_inner t_Close (set_open false s).

(** ** Data frames *)

(** Reads frames until one is not empty: at most one per unit of fuel. *)
Fixpoint fill (fuel rounds : nat) : MF S unit := fun s =>
  match sa_rbuf s with
  | _ :: _ => Some (s, inr tt)
  | [] =>
      match rounds with
      | O => None
      | Datatypes.S rounds =>
          (hdr <-- on_innerF (ReadFull fuel 4 []);;
           let n := Uint32 hdr in
           if saslMaxFrame <? n then liftF (throw frame_too_large)
           else frame <-- on_innerF (readFrame fuel n);;
                _ <-- liftF (modify (set_rbuf frame));;
                fill fuel rounds)%go s
      end
  end.

(** The [n] bytes asked for are taken from the current frame only. *)
Definition Read (fuel n : nat) : MF S bytes := fun s =>
  match n with
  | O => Some (s, inr [])
  | _ => bindF (fill fuel fuel)
           (fun _ s => Some (set_rbuf (drop n (sa_rbuf s)) s, inr (take n (sa_rbuf s)))) s
  end.

Definition Write (p : bytes) : M S unit := modify (fun s => set_wbuf (sa_wbuf s ++ p) s).

Definition Flush : M S unit := fun s =>
  let n := Z.of_nat (length (sa_wbuf s)) in
  if (n <? 0) || (saslMaxFrame <? n) then (s, inl frame_too_large)
  else if n =? 0 then on_inner t_Flush s
  else (on_inner (t_Write (PutUint32 n));;;
        on_inner (t_Write (sa_wbuf s));;;
        modify (set_wbuf []);;;
        on_inner t_Flush)%go s.

Definition RemainingBytes s : Z := Z.of_nat (length (sa_rbuf s)).
End sasl.

Definition NewSaslPlain {T} (inner : T) (user password : string) : saslTransport T plainMech :=
  mkSasl inner (mkPlainMech user password false) [] [] false.
