(* ===== verification/SaslFacts.v ===== *)
(** * SaslFacts: when a SASL transport opens, and what its framing carries *)

From Stdlib Require Import Strings.Byte.
From S2P Require Import Prelude Errors GoMonad Wire Types Transport Sasl.

(** ** Opening, for any mechanism and any inner transport *)

Section open.
Context {T K : Type} {TT : TTransport T} {KM : saslMech K} {AG : AppendGrowth} (quote : bytes -> string).
Implicit Types s : saslTransport T K.

(** Nothing but the end of the handshake sets [open]. *)
Definition opens_at {A} (m : MF (saslTransport T K) A) : Prop := forall s s' r,
  m s = Some (s', r) -> sa_open s' = sa_open s.

Lemma opens_bind {A B} (m : MF _ A) (k : A -> MF _ B) :
  opens_at m -> (forall a, opens_at (k a)) -> opens_at (bindF m k).
Proof.
  intros Hm Hk s s' r. unfold bindF. destruct (m s) as [[s1 [e|a]]|] eqn:E; [|intros Hs|done].
  - intros [= <- <-]. by eapply Hm.
  - rewrite <- (Hm _ _ _ E). by eapply Hk.
Qed.
Lemma opens_inner {A} (m : M T A) : opens_at (liftF (on_inner m)).
Proof. intros s s' r. unfold liftF, on_inner. destruct (m (sa_inner s)). by intros [= <- <-]. Qed.
Lemma opens_innerF {A} (m : MF T A) : opens_at (on_innerF m).
Proof. intros s s' r. unfold on_innerF. destruct (m (sa_inner s)) as [[t x]|]; [|done]. by intros [= <- <-]. Qed.
Lemma opens_mech {A} (m : M K A) : opens_at (liftF (on_mech m)).
Proof. intros s s' r. unfold liftF, on_mech. destruct (m (sa_mech s)). by intros [= <- <-]. Qed.
Lemma opens_throw {A} e : opens_at (liftF (throw (A := A) e)).
Proof. intros s s' r. by intros [= <- <-]. Qed.
Lemma opens_ret {A} (a : A) : opens_at (liftF (ret a)).
Proof. intros s s' r. by intros [= <- <-]. Qed.

Lemma opens_send st p : opens_at (liftF (sendNegotiate (T := T) (K := K) st p)).
Proof.
  unfold sendNegotiate. case_match; [apply opens_throw|]. intros s s' r. unfold liftF, bind.
  pose proof (opens_inner (t_Write (byte_of_Z st :: PutUint32 (Z.of_nat (length p)))) s) as H1. unfold liftF in H1.
  destruct (on_inner (t_Write (byte_of_Z st :: _)) s) as [s1 [e|[]]]; [intros [= <- <-]; by eapply H1|].
  pose proof (opens_inner (t_Write p) s1) as H2. unfold liftF in H2.
  destruct (on_inner (t_Write p) s1) as [s2 [e|[]]];
    [intros [= <- <-]; rewrite (H2 _ _ eq_refl); by eapply H1|].
  intros Hf. rewrite (opens_inner t_Flush s2 s' r Hf), (H2 _ _ eq_refl). by eapply H1.
Qed.

Lemma opens_recv fuel : opens_at (recvNegotiate (T := T) (K := K) fuel).
Proof.
  unfold recvNegotiate. apply opens_bind; [apply opens_innerF|]. intros hdr. cbv zeta. case_match; [apply opens_throw|].
  apply opens_bind; [apply opens_innerF|]. intros p. apply opens_ret.
Qed.

(** What a finished handshake shows. *)
Definition opened s s' (r : goerr + unit) : Prop :=
  match r with
  | inr _ => sa_open s' = true /\ Complete (sa_mech s') = true
  | inl _ => sa_open s' = sa_open s
  end.

Lemma opened_bind {A} (m : MF _ A) (k : A -> MF _ unit) s s' r :
  opens_at m -> (forall a s1 s' r, k a s1 = Some (s', r) -> opened s1 s' r) ->
  bindF m k s = Some (s', r) -> opened s s' r.
Proof.
  intros Hm Hk. unfold bindF. destruct (m s) as [[s1 [e|a]]|] eqn:E; [|intros Hs|done].
  - intros [= <- <-]. by eapply Hm.
  - specialize (Hk _ _ _ _ Hs). destruct r; simpl in *; [|done]. rewrite Hk. by eapply Hm.
Qed.

Lemma negotiate_opens fuel rounds : forall name fin s s' r,
  negotiate quote fuel rounds name fin s = Some (s', r) -> opened s s' r.
Proof.
  induction rounds as [|rounds IH]; intros name fin s s' r; [done|]. cbn [negotiate].
  apply opened_bind; [apply opens_recv|]. intros [status payload] s1 s2 r2.
  destruct (status =? saslComplete).
  - unfold bindF, liftF, get_mech. simpl. destruct (Complete (sa_mech s1)) eqn:Ec; by intros [= <- <-].
  - destruct ((status =? saslBad) || (status =? saslError)); [by intros [= <- <-]|].
    destruct (status =? saslOK); [|by intros [= <- <-]]. destruct fin; [by intros [= <- <-]|].
    apply opened_bind; [apply opens_mech|]. intros rd s3 s4 r4. apply opened_bind; [apply opens_send|].
    intros _ s5 s6 r6. apply IH.
Qed.

Lemma OpenContext_opens fuel s s' r : OpenContext quote fuel s = Some (s', r) -> opened s s' r.
Proof.
  unfold OpenContext.
  apply opened_bind.
  { intros s1 s2 r2. unfold liftF, open_inner. destruct (t_IsOpen (sa_inner s1)); [by intros [= <- <-]|].
    apply (opens_inner t_Open s1 s2 r2). }
  intros _ s1 s2 r2. apply opened_bind; [intros ? ? ? [= <- <-]; done|].
  intros k s3 s4 r4. apply opened_bind; [apply opens_send|].
  intros _ s5 s6 r6. apply opened_bind; [apply opens_mech|].
  intros rd s7 s8 r8. apply opened_bind; [apply opens_send|]. intros _ ? ? ?. apply negotiate_opens.
Qed.
(** A SASL transport opens only by completing: whatever the mechanism, the
    inner transport and the bytes the server sends, OpenContext succeeds only
    when the server said COMPLETE at a moment the mechanism itself had finished
    (so a server cannot cut mutual authentication short), and then the transport
    is open; on every error it is left as it was. *)
Theorem sasl_open_requires_completion fuel s :
  match OpenContext quote fuel s with
  | Some (s', inr _) => sa_open s' = true /\ Complete (sa_mech s') = true
  | Some (s', inl _) => sa_open s' = sa_open s
  | None => True
  end.
Proof.
  destruct (OpenContext quote fuel s) as [[s' r]|] eqn:E; [|done]. apply OpenContext_opens in E. by destruct r.
Qed.
End open.

(** ** Frames on a byte stream *)

Definition frame (p : bytes) : bytes := PutUint32 (Z.of_nat (length p)) ++ p.
Definition negotiation_frame (status : Z) (p : bytes) : bytes := byte_of_Z status :: frame p.
Definition fits (p : bytes) : Prop := Z.of_nat (length p) <= saslMaxFrame.

Lemma Uint32_length p : fits p -> Uint32 (PutUint32 (Z.of_nat (length p))) = Z.of_nat (length p).
Proof. unfold fits, saslMaxFrame. intros. apply Uint32_PutUint32. lia. Qed.

Section on_stream.
Context {K : Type} {KM : saslMech K} {AG : AppendGrowth} (quote : bytes -> string).
Implicit Types s : saslTransport stream K.

(** The same transport on another inner stream. *)
Definition wrote (b : bytes) (t t' : stream) : Prop :=
  s_in t' = s_in t /\ s_pieces t' = s_pieces t /\ s_out t' = s_out t ++ b /\ s_open t' = s_open t.

Lemma send_stream status p s : fits p -> exists t',
  sendNegotiate status p s = (set_inner t' s, inr tt) /\ wrote (negotiation_frame status p) (sa_inner s) t'.
Proof.
  intros Hp. unfold sendNegotiate. unfold fits in Hp.
  destruct (Z.ltb_spec (Z.of_nat (length p)) 0); [lia|].
  destruct (Z.ltb_spec saslMaxFrame (Z.of_nat (length p))); [lia|]. simpl orb. cbv iota.
  eexists. split; [reflexivity|]. unfold wrote, negotiation_frame, frame; simpl.
  rewrite <- !app_assoc. by split_and!.
Qed.

Lemma readFrame_stream fuel p rest t : (length p < fuel)%nat -> s_in t = p ++ rest ->
  exists t', readFrame fuel (Z.of_nat (length p)) t = Some (t', inr p) /\ reads p t t'.
Proof.
  intros Hf Ht. unfold readFrame, bindF. rewrite Nat2Z.id.
  destruct (ReadAllLimit_stream fuel (length p) [] t) as (t' & -> & Hr); [lia|].
  rewrite Ht, take_app_length in *. exists t'. split; [|done]. simpl.
  by rewrite Z.ltb_irrefl.
Qed.

Lemma recv_stream fuel status p rest s :
  fits p -> 0 <= status < 256 -> (length p + 5 < fuel)%nat -> s_in (sa_inner s) = negotiation_frame status p ++ rest ->
  exists t', recvNegotiate fuel s = Some (set_inner t' s, inr (status, p)) /\
    reads (negotiation_frame status p) (sa_inner s) t'.
Proof.
  intros Hp Hst Hf Hin. unfold recvNegotiate, bindF at 1, on_innerF at 1.
  destruct (ReadFull_enough fuel 5 [] (sa_inner s)) as (t1 & -> & Hr1); [lia|rewrite Hin; simpl; lia|].
  rewrite Hin in Hr1 |- *. unfold negotiation_frame, frame in *. simpl in Hr1.
  assert (s_in t1 = p ++ rest) as Ht1.
  { destruct Hr1 as (Hr1 & _ & _). rewrite Hin in Hr1. simpl in Hr1. by injection Hr1. }
  cbn [take app tl hd]. cbv zeta.
  replace (Uint32 _) with (Z.of_nat (length p)) by (symmetry; apply (Uint32_length p Hp)).
  destruct (Z.ltb_spec saslMaxFrame (Z.of_nat (length p))); [unfold fits in Hp; lia|].
  unfold bindF, on_innerF. cbn [sa_inner set_inner].
  destruct (readFrame_stream fuel p rest t1) as (t2 & -> & Hr2); [lia|done|].
  exists t2. split; [|by apply (reads_trans _ _ _ _ _ Hr1 Hr2)].
  unfold liftF, ret. rewrite Z_of_byte_of_Z. replace 255 with (Z.ones 8) by done.
  rewrite Z.land_ones, Z.mod_small by (simpl; lia). done.
Qed.
End on_stream.

(** The PLAIN handshake on the wire (RFC 4616 in the Java TSaslTransport
    framing): the client sends exactly START "PLAIN" and one OK frame with NUL user
    NUL password, reads exactly one frame, and opens if and only if its status is
    COMPLETE; a rejection, a challenge (PLAIN has one round) and an unknown status
    are errors. It always answers, given fuel for the frame it reads. *)
Theorem sasl_plain_handshake {AG : AppendGrowth} quote fuel user password status payload rest pieces out opened0 :
  let creds := plain_response user password in
  fits creds -> fits payload -> 0 <= status < 256 -> (length payload + 5 < fuel)%nat ->
  let t := mkStream (negotiation_frame status payload ++ rest) pieces out opened0 in
  exists s' r, OpenContext quote fuel (NewSaslPlain t user password) = Some (s', r) /\
    s_out (sa_inner s') =
      out ++ negotiation_frame saslStart (String.list_byte_of_string "PLAIN") ++ negotiation_frame saslOK creds /\
    s_in (sa_inner s') = rest /\ IsOpen s' = (status =? saslComplete) /\
    match r with
    | inr _ => status = saslComplete
    | inl e => e = if (status =? saslBad) || (status =? saslError)
                   then EText ("hms: sasl PLAIN rejected: " +:+ quote payload)
                   else if status =? saslOK
                   then EText "hms: sasl plain: unexpected challenge from the server"
                   else EText ("hms: unexpected sasl status " +:+ Itoa status)
    end.
Proof.
  intros creds Hc Hp Hst Hf t.
  set (s0 := NewSaslPlain t user password).
  assert (exists t0, open_inner s0 = (set_inner t0 s0, inr tt) /\ s_in t0 = s_in t /\ s_out t0 = out /\ s_open t0 = true)
    as (t0 & Ho & Hi0 & Ho0 & Hop0).
  { unfold open_inner. simpl. destruct opened0; [exists t|eexists]; by split_and!. }
  unfold OpenContext, bindF at 1, liftF at 1. rewrite Ho.
  unfold bindF at 1, liftF at 1, get_mech.
  change (Name (sa_mech (set_inner t0 s0))) with "PLAIN".
  destruct (send_stream saslStart (String.list_byte_of_string "PLAIN") (set_inner t0 s0)) as (t1 & H1 & W1); [done|].
  unfold bindF at 1, liftF at 1. rewrite H1.
  unfold bindF at 1, liftF at 1, on_mech. cbn [Step plain_mech plainMech_Step sa_mech set_inner].
  set (s1 := set_mech _ _).
  destruct (send_stream saslOK creds s1) as (t2 & H2 & W2); [done|].
  unfold bindF at 1, liftF at 1. cbn [fst snd statusFor].
  change (plain_response (pm_user (sa_mech s0)) (pm_password (sa_mech s0))) with creds. rewrite H2.
  destruct W1 as (Wi1 & _ & Wo1 & Wp1), W2 as (Wi2 & _ & Wo2 & Wp2). simpl in Wi1, Wo1, Wp1, Wi2, Wo2, Wp2.
  destruct (recv_stream fuel status payload rest (set_inner t2 s1)) as (t3 & H3 & Hr); [done..| |].
  { simpl. by rewrite Wi2, Wi1, Hi0. }
  destruct Hr as (Hri & Hro & Hrp). cbn [sa_inner set_inner] in Hri, Hro, Hrp.
  assert (s_in t3 = rest) as Hrest.
  { rewrite Wi2, Wi1, Hi0 in Hri. symmetry. by apply (app_inv_head (negotiation_frame status payload)). }
  assert (s_out t3 = out ++ negotiation_frame saslStart (String.list_byte_of_string "PLAIN") ++
            negotiation_frame saslOK creds) as Hout by by rewrite Hro, Wo2, Wo1, Ho0, app_assoc.
  assert (s_open t3 = true) as Hopen by congruence.
  destruct fuel as [|fuel]; [lia|]. cbn [negotiate]. unfold bindF at 1. rewrite H3.
  destruct (Z.eqb_spec status saslComplete) as [->|Hnc].
  { eexists _, _. split; [reflexivity|]. simpl. unfold IsOpen. simpl. by rewrite Hopen. }
  assert (forall e, exists s' r, Some (set_inner t3 (set_inner t2 s1), inl e : goerr + unit) = Some (s', r) /\
    s_out (sa_inner s') = out ++ negotiation_frame saslStart (String.list_byte_of_string "PLAIN") ++
      negotiation_frame saslOK creds /\
    s_in (sa_inner s') = rest /\ IsOpen s' = false /\
    match r with inr _ => status = saslComplete | inl e' => e' = e end) as Herr.
  { intros e. by eexists _, _. }
  destruct ((status =? saslBad) || (status =? saslError)); [apply Herr|].
  destruct (status =? saslOK); apply Herr.
Qed.

Definition demo_growth : AppendGrowth.
Proof. exact {| room := fun _ => 512%nat; room_pos := fun _ => le_n_S _ _ (Nat.le_0_l 511) |}. Defined.

Example sasl_plain_handshake_witness :
  exists s' r, @OpenContext stream plainMech _ _ demo_growth (fun _ => "") 10
    (NewSaslPlain (mkStream (negotiation_frame saslComplete [] ++ [x01]) [] [] false) "me" "secret") = Some (s', r) /\
    s_in (sa_inner s') = [x01] /\ IsOpen s' = true.
Proof.
  destruct (@sasl_plain_handshake demo_growth (fun _ => "") 10 "me" "secret" saslComplete [] [x01] [] [] false)
    as (s' & r & H & _ & Hi & Ho & _); [vm_compute; discriminate|vm_compute; discriminate|split; [discriminate|reflexivity]|
      exact (le_S _ _ (le_S _ _ (le_S _ _ (le_S _ _ (le_n 6)))))|].
  exists s', r. exact (conj H (conj Hi Ho)).
Defined.

(** ** Data frames *)

(** One message: written, then flushed. *)
Definition send {T K} `{TTransport T} (p : bytes) : M (saslTransport T K) unit :=
  (Write p;;; Flush)%go.

(** Reads of the given sizes, until one fails. *)
Fixpoint read_all {T K} `{TTransport T} `{AppendGrowth} (fuel : nat) (ks : list nat) (s : saslTransport T K)
    : option (list bytes * option goerr) :=
  match ks with
  | [] => Some ([], None)
  | k :: ks =>
      match Read fuel k s with
      | None => None
      | Some (_, inl e) => Some ([], Some e)
      | Some (s, inr b) =>
          match read_all fuel ks s with
          | Some (bs, e) => Some (b :: bs, e)
          | None => None
          end
      end
  end.

Section data.
Context {K : Type} {AG : AppendGrowth}.
Implicit Types s : saslTransport stream K.

(** What a flush puts on the wire: no frame when nothing was written. *)
Definition flushed (p : bytes) : bytes := match p with [] => [] | _ => frame p end.

Lemma send_out p s : fits p -> sa_wbuf s = [] -> exists s',
  send p s = (s', inr tt) /\ sa_wbuf s' = [] /\ s_out (sa_inner s') = s_out (sa_inner s) ++ flushed p.
Proof.
  intros Hp Hw. unfold send, bind, Write, modify. unfold Flush. simpl. rewrite Hw. simpl.
  unfold fits in Hp. destruct (Z.ltb_spec (Z.of_nat (length p)) 0); [lia|].
  destruct (Z.ltb_spec saslMaxFrame (Z.of_nat (length p))); [lia|]. simpl orb. cbv iota.
  destruct p as [|x p]; simpl.
  - eexists. split; [reflexivity|]. simpl. by rewrite app_nil_r.
  - eexists. split; [reflexivity|]. simpl. unfold frame. simpl. by rewrite <- !app_assoc.
Qed.

Lemma send_all ps : forall s, Forall fits ps -> sa_wbuf s = [] -> exists s',
  forM ps send s = (s', inr tt) /\ s_out (sa_inner s') = s_out (sa_inner s) ++ concat (map flushed ps).
Proof.
  induction ps as [|p ps IH]; intros s Hf Hw; cbn [forM map concat].
  - exists s. by rewrite app_nil_r.
  - apply Forall_cons_1 in Hf as [Hp Hf]. destruct (send_out p s Hp Hw) as (s1 & H1 & Hw1 & Ho1).
    unfold bind. rewrite H1. destruct (IH s1 Hf Hw1) as (s' & H' & Ho'). exists s'.
    by rewrite H', Ho', Ho1, app_assoc.
Qed.

(** The bytes a receiver has not handed out yet. *)
Definition incoming (fs : list bytes) s : Prop := s_in (sa_inner s) = concat (map frame fs) /\ Forall fits fs.

Lemma fill_stream fuel rounds : forall fs s,
  incoming fs s -> Forall (fun f => length f < fuel)%nat fs -> (4 <= fuel)%nat -> (length fs < rounds)%nat ->
  exists s' r fs', fill fuel rounds s = Some (s', r) /\ incoming fs' s' /\ (exists gs, fs = gs ++ fs') /\
    sa_rbuf s ++ concat fs = sa_rbuf s' ++ concat fs' /\
    match r with
    | inr _ => sa_rbuf s' <> []
    | inl e => e = EEOF /\ sa_rbuf s' = [] /\ concat fs' = []
    end.
Proof.
  induction rounds as [|rounds IH]; intros fs s [Hin Hfit] Hlen Hfuel Hr; [lia|]. cbn [fill].
  destruct (sa_rbuf s) as [|x l] eqn:Eb.
  2: { exists s, (inr tt), fs. split_and!; [done|done|by exists []|by rewrite Eb|by rewrite Eb]. }
  unfold bindF at 1, on_innerF at 1. destruct fs as [|f fs].
  - destruct (ReadFull_short fuel 4 [] (sa_inner s)) as (t' & -> & Hrd); [done|rewrite Hin; simpl; lia|].
    rewrite Hin in Hrd |- *. simpl. eexists _, _, []. split; [reflexivity|]. simpl. rewrite Eb.
    split_and!; [|by exists []|done|done|done|done]. split; [|done].
    destruct Hrd as (Hrd & _ & _). by rewrite Hin in Hrd.
  - apply Forall_cons_1 in Hfit as [Hf Hfit]. apply Forall_cons_1 in Hlen as [Hlf Hlen].
    assert (s_in (sa_inner s) = PutUint32 (Z.of_nat (length f)) ++ f ++ concat (map frame fs)) as Hi
      by (rewrite Hin; cbn [map concat]; unfold frame; by rewrite <- app_assoc).
    destruct (ReadFull_enough fuel 4 [] (sa_inner s)) as (t1 & H1 & Hr1); [done|rewrite Hi; simpl; lia|].
    rewrite H1, Hi. rewrite Hi in Hr1. change (take 4 (PutUint32 ?z ++ ?l)) with (PutUint32 z) in *.
    cbn [app]. cbv zeta. rewrite Uint32_length by done.
    destruct (Z.ltb_spec saslMaxFrame (Z.of_nat (length f))); [unfold fits in Hf; lia|].
    assert (s_in t1 = f ++ concat (map frame fs)) as Ht1.
    { destruct Hr1 as (Hr1 & _ & _). rewrite Hi in Hr1. by apply app_inv_head in Hr1. }
    unfold bindF at 1, on_innerF at 1. cbn [sa_inner set_inner].
    destruct (readFrame_stream fuel f (concat (map frame fs)) t1) as (t2 & -> & Hr2); [done|done|].
    unfold bindF at 1, liftF at 1, modify.
    edestruct (IH fs (set_rbuf f (set_inner t2 (set_inner t1 s)))) as (s' & r & fs' & H' & Hi' & [gs Hgs] & Hc & Hres);
      [|done|done|simpl in Hr; lia|].
    { split; [|done]. simpl. destruct Hr2 as (Hr2 & _ & _). rewrite Ht1 in Hr2. by apply app_inv_head in Hr2. }
    exists s', r, fs'. split_and!; [done|done|exists (f :: gs); by rewrite Hgs|by rewrite <- Hc|done].
Qed.

Lemma Read_stream fuel k fs s :
  incoming fs s -> Forall (fun f => length f < fuel)%nat fs -> (4 <= fuel)%nat -> (length fs < fuel)%nat -> (0 < k)%nat ->
  exists s' r fs', Read fuel k s = Some (s', r) /\ incoming fs' s' /\ (exists gs, fs = gs ++ fs') /\
    match r with
    | inr b => (0 < length b <= k)%nat /\ sa_rbuf s ++ concat fs = b ++ sa_rbuf s' ++ concat fs'
    | inl e => e = EEOF /\ sa_rbuf s ++ concat fs = []
    end.
Proof.
  intros Hin Hlen H4 Hfuel Hk. unfold Read. destruct k as [|k]; [lia|]. unfold bindF.
  destruct (fill_stream fuel fuel fs s Hin Hlen H4 Hfuel) as (s1 & r & fs' & -> & Hi & Hg & Hc & Hr).
  destruct r as [e|[]].
  - destruct Hr as (-> & Hb & Hc'). exists s1, (inl EEOF), fs'. rewrite Hc, Hb, Hc'. by split_and!.
  - eexists _, _, fs'. split; [reflexivity|]. split; [done|]. split; [done|].
    rewrite Hc. simpl. split.
    + destruct (sa_rbuf s1); [done|]. simpl. rewrite length_take. lia.
    + by rewrite app_assoc, take_drop.
Qed.

Lemma read_all_stream fuel ks : forall fs s,
  incoming fs s -> Forall (fun f => length f < fuel)%nat fs -> (4 <= fuel)%nat -> (length fs < fuel)%nat ->
  Forall (fun k => 0 < k)%nat ks ->
  exists cs e, read_all fuel ks s = Some (cs, e) /\
    Forall (fun c => c <> []) cs /\
    match e with
    | None => Forall2 (fun c k => length c <= k)%nat cs ks /\ exists rest, concat cs ++ rest = sa_rbuf s ++ concat fs
    | Some e => e = EEOF /\ concat cs = sa_rbuf s ++ concat fs
    end.
Proof.
  induction ks as [|k ks IH]; intros fs s Hin Hlen H4 Hfuel Hks; cbn [read_all].
  - exists [], None. split_and!; [done|done|done|]. by eexists.
  - apply Forall_cons_1 in Hks as [Hk Hks].
    destruct (Read_stream fuel k fs s Hin Hlen H4 Hfuel Hk) as (s1 & r & fs' & -> & Hi & [gs Hg] & Hr).
    destruct r as [e|b].
    + destruct Hr as [-> Hr]. exists [], (Some EEOF). split_and!; [done|done|done|]. by rewrite Hr.
    + destruct Hr as [Hb Hc]. subst fs. apply Forall_app in Hlen as [_ Hlen]. rewrite length_app in Hfuel.
      destruct (IH fs' s1 Hi Hlen H4) as (cs & e & -> & Hne & He); [lia|done|].
      exists (b :: cs), e. split; [done|]. split; [constructor; [by destruct b; simpl in *; [lia|]|done]|].
      rewrite Hc. destruct e as [e|].
      * destruct He as [-> He]. simpl. by rewrite He.
      * destruct He as [He [rest Hrest]]. split; [constructor; [lia|done]|]. exists rest. simpl.
        by rewrite <- app_assoc, Hrest.
Qed.
End data.

(** C33: once open, the SASL framing is invisible: whatever messages one side
    flushes (none above 64 MiB), whatever pieces the network delivers them in and
    whatever sizes the other side asks for, the reads return the written bytes in
    order, no more than asked for and at least one each time, and report EOF only
    when every byte was returned. Frame boundaries and empty flushes leave no
    trace, and the reads do return given fuel for the longest frame. *)
Theorem sasl_framing_transparent {K} {AG : AppendGrowth} (mech mech' : K) fuel pieces ps ks :
  Forall fits ps -> Forall (fun p => length p < fuel)%nat ps -> (4 <= fuel)%nat -> (length ps < fuel)%nat ->
  Forall (fun k => 0 < k)%nat ks ->
  exists sender cs e,
    forM ps send (mkSasl (mkStream [] [] [] true) mech [] [] true) = (sender, inr tt) /\
    read_all fuel ks (mkSasl (mkStream (s_out (sa_inner sender)) pieces [] true) mech' [] [] true) = Some (cs, e) /\
    Forall (fun c => c <> []) cs /\
    match e with
    | None => Forall2 (fun c k => length c <= k)%nat cs ks /\ exists rest, concat cs ++ rest = concat ps
    | Some e => e = EEOF /\ concat cs = concat ps
    end.
Proof.
  intros Hfit Hlen H4 Hn Hks.
  destruct (send_all ps (mkSasl (mkStream [] [] [] true) mech [] [] true) Hfit eq_refl) as (sender & Hs & Ho).
  assert (exists fs, concat (map flushed ps) = concat (map frame fs) /\ concat fs = concat ps /\
    Forall fits fs /\ Forall (fun f => length f < fuel)%nat fs /\ (length fs <= length ps)%nat) as (fs & Hfs & Hc & H1 & H2 & H3).
  { clear -Hfit Hlen. induction ps as [|p ps IH]; [by exists []|].
    apply Forall_cons_1 in Hfit as [Hp Hfit]. apply Forall_cons_1 in Hlen as [Hl Hlen].
    destruct (IH Hfit Hlen) as (fs & E1 & E2 & E3 & E4 & E5). destruct p as [|x p].
    - exists fs. split_and!; try done. simpl. lia.
    - exists ((x :: p) :: fs). cbn [map concat flushed]. rewrite E1, E2.
      split_and!; [done|done|by constructor|by constructor|simpl; lia]. }
  destruct (read_all_stream fuel ks fs (mkSasl (mkStream (s_out (sa_inner sender)) pieces [] true) mech' [] [] true))
    as (cs & e & Hr & Hne & He); [|done|done|lia|done|].
  { split; [|done]. simpl. by rewrite Ho. }
  exists sender, cs, e. split_and!; [done|done|done|]. simpl in He. by rewrite Hc in He.
Qed.

Example sasl_framing_transparent_witness :
  let m := mkPlainMech "me" "secret" true in
  let ps := [[x01; x02]; []; [x03]] in
  exists sender cs e,
    forM ps send (mkSasl (mkStream [] [] [] true) m [] [] true) = (sender, inr tt) /\
    @read_all _ _ _ demo_growth 10 [1; 5; 5; 5]%nat (mkSasl (mkStream (s_out (sa_inner sender)) [0; 3]%nat [] true) m [] [] true) =
      Some (cs, e) /\ Forall (fun c => c <> []) cs.
Proof.
  destruct (@sasl_framing_transparent plainMech demo_growth (mkPlainMech "me" "secret" true) (mkPlainMech "me" "secret" true)
              10 [0; 3]%nat [[x01; x02]; []; [x03]] [1; 5; 5; 5]%nat) as (sender & cs & e & H1 & H2 & H3 & _);
    [repeat constructor; vm_compute; discriminate|repeat (constructor; [simpl; lia|]); constructor|lia|simpl; lia|
     repeat constructor|].
  exists sender, cs, e. exact (conj H1 (conj H2 H3)).
Defined.

Example framing_demo :
  let m := mkPlainMech "me" "secret" true in
  let sender := fst (forM [[x01; x02]; []; [x03]] send (mkSasl (mkStream [] [] [] true) m [] [] true)) in
  @read_all _ _ _ demo_growth 10 [1; 5; 5; 5]%nat (mkSasl (mkStream (s_out (sa_inner sender)) [0; 3]%nat [] true) m [] [] true) =
    Some ([[x01]; [x02]; [x03]], Some EEOF).
Proof. by vm_compute. Qed.
