(* ===== verification/SaslTotal.v ===== *)
(** * SaslTotal: the SASL transport always answers

    More fuel never changes an answer, whatever the inner transport; and on a
    finite stream there is always enough: every frame read consumes input. *)

From Stdlib Require Import Strings.Byte.
From S2P Require Import Prelude Errors GoMonad Wire Types Transport Sasl SaslFacts.

(** ** Fuel only decides whether there is an answer *)

Definition steady {S A} (m : nat -> MF S A) : Prop := forall f f' s x,
  m f s = Some x -> (f <= f')%nat -> m f' s = Some x.

Lemma steady_const {S A} (m : MF S A) : steady (fun _ => m).
Proof. by intros f f' s x. Qed.
(** The step of every proof below. *)
Lemma bind_more {S A B} (m m' : MF S A) (k k' : A -> MF S B) s x :
  bindF m k s = Some x -> (forall y, m s = Some y -> m' s = Some y) ->
  (forall a s1, k a s1 = Some x -> k' a s1 = Some x) -> bindF m' k' s = Some x.
Proof.
  unfold bindF. intros H Hm Hk. destruct (m s) as [[s1 r]|] eqn:E; [|done]. rewrite (Hm _ eq_refl).
  destruct r as [e|a]; [done|]. by apply Hk.
Qed.
Lemma steady_bind {S A B} (m : nat -> MF S A) (k : nat -> A -> MF S B) :
  steady m -> (forall a, steady (fun f => k f a)) -> steady (fun f => bindF (m f) (k f)).
Proof.
  intros Hm Hk f f' s x H Hf. eapply bind_more; [exact H|intros y Hy; by eapply Hm|].
  intros a s1 Ha. by eapply (Hk a f).
Qed.

Section steady.
Context {T K : Type} {TT : TTransport T} {KM : saslMech K} {AG : AppendGrowth} (quote : bytes -> string).

Lemma steady_ReadFull want got : steady (fun f => ReadFull (T := T) f want got).
Proof.
  intros f. revert want got. induction f as [|f IH]; intros [|want] got [|f'] t x; simpl; try done; try lia.
  destruct (t_Read (S want) t) as [t' [b err]]. case_bool_decide; [done|].
  destruct err as [e|]; [done|]. intros Hx Hf. apply (IH _ _ f'); [done|lia].
Qed.

Lemma steady_ReadAllLimit left got : steady (fun f => ReadAllLimit (T := T) f left got).
Proof.
  intros f. revert left got. induction f as [|f IH]; intros [|left] got [|f'] t x; simpl; try done; try lia.
  destruct (t_Read _ t) as [t' [b err]]. destruct err as [e|]; [done|].
  intros Hx Hf. apply (IH _ _ f'); [done|lia].
Qed.

Lemma steady_inner {A} (m : nat -> MF T A) : steady m -> steady (fun f => on_innerF (K := K) (m f)).
Proof.
  intros Hm f f' s x. unfold on_innerF. destruct (m f (sa_inner s)) as [[t r]|] eqn:E; [|done].
  intros Hx Hf. by rewrite (Hm _ _ _ _ E Hf).
Qed.

Lemma steady_readFrame n : steady (fun f => readFrame (T := T) f n).
Proof. apply steady_bind; [apply steady_ReadAllLimit|intros b; apply steady_const]. Qed.

Lemma steady_recv : steady (fun f => recvNegotiate (T := T) (K := K) f).
Proof.
  apply steady_bind; [apply steady_inner, steady_ReadFull|]. intros hdr. cbv zeta.
  destruct (saslMaxFrame <? _); [apply steady_const|].
  apply steady_bind; [apply steady_inner, steady_readFrame|intros p; apply steady_const].
Qed.

Lemma steady_negotiate rounds : forall name fin s x f f' rounds',
  negotiate (T := T) (K := K) quote f rounds name fin s = Some x -> (f <= f')%nat -> (rounds <= rounds')%nat ->
  negotiate quote f' rounds' name fin s = Some x.
Proof.
  induction rounds as [|rounds IH]; intros name fin s x f f' [|rounds']; cbn [negotiate]; try done; try lia.
  intros H Hf Hr. eapply bind_more; [exact H|intros y Hy; by eapply steady_recv|]. intros [status payload] s1.
  destruct (status =? saslComplete); [done|]. destruct (_ || _); [done|]. destruct (status =? saslOK); [|done].
  destruct fin; [done|]. intros H1. eapply bind_more; [exact H1|done|]. intros rd s2 H2.
  eapply bind_more; [exact H2|done|]. intros ? s3 Hx. apply (IH _ _ _ _ f); [done|done|lia].
Qed.

Lemma steady_open : steady (fun f => OpenContext (T := T) (K := K) quote f).
Proof.
  repeat (apply steady_bind; [apply steady_const|intros ?]). intros f f' s x H Hf.
  by apply (steady_negotiate f _ _ _ _ f f').
Qed.

Lemma steady_fill rounds : forall s x f f' rounds',
  fill (T := T) (K := K) f rounds s = Some x -> (f <= f')%nat -> (rounds <= rounds')%nat ->
  fill f' rounds' s = Some x.
Proof.
  induction rounds as [|rounds IH]; intros s x f f' [|rounds']; cbn [fill]; destruct (sa_rbuf s); try done; try lia.
  intros H Hf Hr. eapply bind_more; [exact H|intros y Hy; exact (steady_inner _ (steady_ReadFull 4 []) _ _ _ _ Hy Hf)|].
  intros hdr s1. cbv beta zeta. destruct (saslMaxFrame <? _); [done|]. intros H1.
  eapply bind_more; [exact H1|intros y Hy; exact (steady_inner _ (steady_readFrame _) _ _ _ _ Hy Hf)|].
  intros p s2 H2. eapply bind_more; [exact H2|done|]. intros ? s3 Hx. apply (IH _ _ f); [done|done|lia].
Qed.

Lemma steady_Read n : steady (fun f => Read (T := T) (K := K) f n).
Proof.
  intros f f' s x. unfold Read. destruct n; [done|]. intros H Hf.
  eapply bind_more; [exact H|intros y Hy; by eapply steady_fill|done].
Qed.
End steady.

(** ** Enough fuel on a finite stream *)

Section total.
Context {K : Type} {KM : saslMech K} {AG : AppendGrowth} (quote : bytes -> string).
Implicit Types s : saslTransport stream K.

Lemma readFrame_total fuel n t : 0 <= n -> (length (s_in t) < fuel)%nat ->
  exists t', readFrame fuel n t =
      Some (t', (if Z.of_nat (length (s_in t)) <? n then inl EUnexpectedEOF else inr (take (Z.to_nat n) (s_in t)))) /\
    reads (take (Z.to_nat n) (s_in t)) t t'.
Proof.
  intros Hn Hf. unfold readFrame, bindF.
  destruct (ReadAllLimit_stream fuel (Z.to_nat n) [] t) as (t' & -> & Hr); [lia|]. exists t'. split; [|done].
  unfold liftF. rewrite app_nil_l, length_take.
  destruct (Z.ltb_spec (Z.of_nat (length (s_in t))) n);
    [rewrite (proj2 (Z.ltb_lt _ _)) by lia; done|rewrite (proj2 (Z.ltb_ge _ _)) by lia; done].
Qed.

(** Reading a frame: whole, from the front of the input; or an error. *)
Lemma recv_total fuel s : (length (s_in (sa_inner s)) + 5 < fuel)%nat ->
  exists t' b r, recvNegotiate fuel s = Some (set_inner t' s, r) /\ reads b (sa_inner s) t' /\
    match r with
    | inr (st, p) => b = negotiation_frame st p /\ 0 <= st < 256
    | inl _ => True
    end.
Proof.
  intros Hf. unfold recvNegotiate. unfold bindF at 1, on_innerF at 1.
  destruct (decide (5 <= length (s_in (sa_inner s)))%nat) as [H5|H5].
  2: { destruct (ReadFull_short fuel 5 [] (sa_inner s)) as (t1 & -> & Hr); [lia..|]. by eexists t1, _, _. }
  destruct (ReadFull_enough fuel 5 [] (sa_inner s)) as (t1 & -> & Hr1); [lia..|].
  pose proof Hr1 as (Hi1 & _ & _).
  destruct (s_in (sa_inner s)) as [|b0 [|b1 [|b2 [|b3 [|b4 l]]]]] eqn:Ein; simpl in H5; try lia. clear H5.
  cbn [take app tl hd] in *. simpl in Hi1. injection Hi1 as Hi1. cbv zeta. change (take 0 l) with (@nil byte) in *.
  pose proof (Uint32_value b1 b2 b3 b4) as Hv.
  pose proof (Z_of_byte_range b1); pose proof (Z_of_byte_range b2); pose proof (Z_of_byte_range b3);
    pose proof (Z_of_byte_range b4).
  set (n := Uint32 [b1; b2; b3; b4]) in *.
  destruct (Z.ltb_spec saslMaxFrame n); [eexists t1, _, _; split; [done|split; [exact Hr1|done]]|].
  unfold bindF, on_innerF. cbn [sa_inner set_inner].
  destruct (readFrame_total fuel n t1) as (t2 & -> & Hr2); [lia|rewrite <- Hi1; simpl in Hf; lia|].
  destruct (Z.ltb_spec (Z.of_nat (length (s_in t1))) n).
  { eexists t2, _, _. split; [done|]. split; [exact (reads_trans _ _ _ _ _ Hr1 Hr2)|done]. }
  eexists t2, _, _. split; [done|]. split; [exact (reads_trans _ _ _ _ _ Hr1 Hr2)|]. split; [|apply Z_of_byte_range].
  unfold negotiation_frame, frame. rewrite length_take, Nat.min_l, Z2Nat.id by lia. unfold n.
  rewrite PutUint32_Uint32 by done. simpl. f_equal. symmetry. apply byte_of_Z_of_byte.
  rewrite Z.mod_small by apply Z_of_byte_range. done.
Qed.

Lemma send_total st p s : exists t' r, sendNegotiate st p s = (set_inner t' s, r) /\
  s_in t' = s_in (sa_inner s) /\
  match r with
  | inr _ => s_out t' = s_out (sa_inner s) ++ negotiation_frame st p
  | inl _ => True
  end.
Proof.
  destruct (decide (fits p)) as [Hp|Hp].
  - destruct (send_stream st p s Hp) as (t' & -> & (Hi & _ & Ho & _)). by eexists t', _.
  - exists (sa_inner s), (inl frame_too_large). split; [|done]. unfold sendNegotiate, fits in *.
    rewrite (proj2 (Z.ltb_lt saslMaxFrame _)), orb_true_r by lia. by destruct s.
Qed.

Lemma negotiate_total fuel rounds : forall name fin s,
  (length (s_in (sa_inner s)) < rounds)%nat -> (length (s_in (sa_inner s)) + 5 < fuel)%nat ->
  exists s' r, negotiate quote fuel rounds name fin s = Some (s', r).
Proof.
  induction rounds as [|rounds IH]; intros name fin s Hr Hf; [lia|]. cbn [negotiate]. unfold bindF at 1.
  destruct (recv_total fuel s Hf) as (t' & b & r & -> & (Hi & _ & _) & Hb). destruct r as [e|[st p]]; [by eexists _, _|].
  destruct Hb as [-> _]. rewrite Hi, length_app in Hr, Hf. unfold negotiation_frame, frame in Hr, Hf. simpl in Hr, Hf.
  destruct (st =? saslComplete); [unfold bindF, liftF; simpl; destruct (negb _); by eexists _, _|].
  destruct (_ || _); [by eexists _, _|]. destruct (st =? saslOK); [|by eexists _, _].
  destruct fin; [by eexists _, _|]. unfold bindF at 1, liftF at 1, on_mech.
  destruct (Step (Some p) (sa_mech (set_inner t' s))) as [k [e|rd]]; [by eexists _, _|].
  unfold bindF, liftF. destruct (send_total (statusFor rd.2) rd.1 (set_mech k (set_inner t' s))) as (t2 & r2 & -> & Hi2 & _).
  destruct r2 as [e|[]]; [by eexists _, _|]. simpl in Hi2. apply IH; simpl; rewrite Hi2; lia.
Qed.

Lemma open_total fuel s : (length (s_in (sa_inner s)) + 5 < fuel)%nat ->
  exists s' r, OpenContext quote fuel s = Some (s', r).
Proof.
  intros Hf. unfold OpenContext. unfold bindF at 1, liftF at 1.
  assert (exists t, open_inner s = (set_inner t s, inr tt) /\ s_in t = s_in (sa_inner s)) as (t & -> & Ht).
  { unfold open_inner. destruct (t_IsOpen (sa_inner s)); [exists (sa_inner s); by destruct s|by eexists]. }
  unfold bindF at 1, liftF at 1, get_mech. unfold bindF at 1, liftF at 1.
  destruct (send_total saslStart (String.list_byte_of_string (Name (sa_mech (set_inner t s)))) (set_inner t s))
    as (t1 & r1 & -> & Hi1 & _). destruct r1 as [e|[]]; [by eexists _, _|].
  unfold bindF at 1, liftF at 1, on_mech.
  destruct (Step None _) as [k [e|rd]]; [by eexists _, _|]. unfold bindF, liftF.
  destruct (send_total (statusFor rd.2) rd.1 (set_mech k (set_inner t1 (set_inner t s)))) as (t2 & r2 & -> & Hi2 & _).
  destruct r2 as [e|[]]; [by eexists _, _|]. simpl in *. apply negotiate_total; simpl; rewrite Hi2, Hi1, Ht; lia.
Qed.

(** *** A handshake that succeeds, round by round *)

Lemma negotiate_ok fuel rounds name fin s s' :
  negotiate quote fuel rounds name fin s = Some (s', inr tt) -> (length (s_in (sa_inner s)) + 5 < fuel)%nat ->
  exists rounds' st p t1, rounds = S rounds' /\ reads (negotiation_frame st p) (sa_inner s) t1 /\
    ((st = saslComplete /\ Complete (sa_mech s) = true /\ s' = set_open true (set_inner t1 s)) \/
     (st = saslOK /\ fin = false /\ exists k rd t2,
        Step (Some p) (sa_mech s) = (k, inr rd) /\ s_in t2 = s_in t1 /\
        s_out t2 = s_out t1 ++ negotiation_frame (statusFor (snd rd)) (fst rd) /\
        negotiate quote fuel rounds' name (snd rd) (set_inner t2 (set_mech k (set_inner t1 s))) = Some (s', inr tt))).
Proof.
  intros H Hf. destruct rounds as [|rounds]; [done|]. cbn [negotiate] in H. unfold bindF at 1 in H.
  destruct (recv_total fuel s Hf) as (t1 & b & r & Hrecv & Hr & Hb). rewrite Hrecv in H.
  destruct r as [e|[st p]]; [done|]. destruct Hb as [-> _]. exists rounds, st, p, t1. split; [done|]. split; [done|].
  destruct (Z.eqb_spec st saslComplete) as [->|_].
  - left. split; [done|]. unfold bindF, liftF, get_mech in H. simpl in H.
    destruct (Complete (sa_mech s)); [|done]. by injection H as <-.
  - destruct (_ || _); [done|]. destruct (Z.eqb_spec st saslOK) as [->|]; [|done]. destruct fin; [done|].
    right. split; [done|]. split; [done|]. unfold bindF at 1, liftF at 1, on_mech in H. cbn [sa_mech set_inner] in H.
    destruct (Step (Some p) (sa_mech s)) as [k [e|rd]]; [done|]. unfold bindF, liftF in H.
    destruct (send_total (statusFor rd.2) rd.1 (set_mech k (set_inner t1 s))) as (t2 & r2 & Hsend & Hi & Ho).
    rewrite Hsend in H. destruct r2 as [e|[]]; [done|]. exists k, rd, t2. by split_and!.
Qed.

Lemma open_ok fuel s s' :
  OpenContext quote fuel s = Some (s', inr tt) ->
  exists k rd t, Step None (sa_mech s) = (k, inr rd) /\ s_in t = s_in (sa_inner s) /\
    s_out t = s_out (sa_inner s) ++
      negotiation_frame saslStart (String.list_byte_of_string (Name (sa_mech s))) ++
      negotiation_frame (statusFor (snd rd)) (fst rd) /\
    negotiate quote fuel fuel (Name (sa_mech s)) (snd rd) (set_inner t (set_mech k s)) = Some (s', inr tt).
Proof.
  unfold OpenContext. unfold bindF at 1, liftF at 1.
  assert (exists t, open_inner s = (set_inner t s, inr tt) /\ s_in t = s_in (sa_inner s) /\ s_out t = s_out (sa_inner s))
    as (t & -> & Ht & Hto).
  { unfold open_inner. destruct (t_IsOpen (sa_inner s)); [exists (sa_inner s); by destruct s|by eexists]. }
  unfold bindF at 1, liftF at 1, get_mech. unfold bindF at 1, liftF at 1.
  destruct (send_total saslStart (String.list_byte_of_string (Name (sa_mech (set_inner t s)))) (set_inner t s))
    as (t1 & r1 & -> & Hi1 & Ho1). destruct r1 as [e|[]]; [done|].
  unfold bindF at 1, liftF at 1, on_mech. cbn [sa_mech set_inner sa_inner] in *.
  destruct (Step None (sa_mech s)) as [k [e|rd]]; [done|]. unfold bindF, liftF.
  destruct (send_total (statusFor rd.2) rd.1 (set_mech k (set_inner t1 (set_inner t s)))) as (t2 & r2 & -> & Hi2 & Ho2).
  destruct r2 as [e|[]]; [done|]. intros H. exists k, rd, t2. simpl in *. split_and!; [done|congruence| |exact H].
  by rewrite Ho2, Ho1, Hto, <- app_assoc.
Qed.

Lemma fill_total fuel rounds : forall s,
  (length (s_in (sa_inner s)) < rounds)%nat -> (length (s_in (sa_inner s)) + 5 < fuel)%nat ->
  exists s' r, fill fuel rounds s = Some (s', r).
Proof.
  induction rounds as [|rounds IH]; intros s Hr Hf; [lia|]. cbn [fill].
  destruct (sa_rbuf s) as [|x l]; [|by eexists _, _]. unfold bindF at 1, on_innerF at 1.
  destruct (decide (4 <= length (s_in (sa_inner s)))%nat) as [H4|H4].
  2: { destruct (ReadFull_short fuel 4 [] (sa_inner s)) as (t1 & -> & _); [lia..|]. by eexists _, _. }
  destruct (ReadFull_enough fuel 4 [] (sa_inner s)) as (t1 & -> & Hr1); [lia..|]. cbv zeta.
  destruct Hr1 as (Hi1 & _ & _). pose proof (f_equal length Hi1) as Hl1.
  rewrite length_app, length_take, Nat.min_l in Hl1 by done.
  destruct (Z.ltb_spec saslMaxFrame (Uint32 ([] ++ take 4 (s_in (sa_inner s))))); [by eexists _, _|].
  unfold bindF at 1, on_innerF at 1. cbn [sa_inner set_inner].
  destruct (readFrame_total fuel (Uint32 ([] ++ take 4 (s_in (sa_inner s)))) t1) as (t2 & -> & (Hi2 & _ & _)).
  { destruct (s_in (sa_inner s)) as [|b1 [|b2 [|b3 [|b4 l]]]]; simpl in H4; try lia.
    cbn [take app]. rewrite Uint32_value. pose proof (Z_of_byte_range b1); pose proof (Z_of_byte_range b2);
      pose proof (Z_of_byte_range b3); pose proof (Z_of_byte_range b4). lia. }
  { lia. }
  destruct (_ <? _); [by eexists _, _|]. unfold bindF, liftF, modify.
  pose proof (f_equal length Hi2) as Hl2. rewrite length_app in Hl2.
  apply IH; simpl; lia.
Qed.

(** C20: the SASL transport terminates: on a server that ends its stream after any
    bytes whatever, in any pieces, opening and reading return for every mechanism
    as soon as the fuel exceeds the input by six, each frame using some up
    (thousands of empty frames included); and fuel decides nothing else: over any
    inner transport whatever, a stream or not, with much fuel or little, an answer of
    opening or of reading is also the answer for any more fuel. *)
Theorem sasl_terminates fuel s :
  (length (s_in (sa_inner s)) + 5 < fuel)%nat ->
  (exists s' r, forall fuel', (fuel <= fuel')%nat -> OpenContext quote fuel' s = Some (s', r)) /\
  (forall n, exists s' r, forall fuel', (fuel <= fuel')%nat -> Read fuel' n s = Some (s', r)) /\
  (forall (T : Type) (TT : TTransport T) (t : saslTransport T K) few more, (few <= more)%nat ->
     (forall x, OpenContext quote few t = Some x -> OpenContext quote more t = Some x) /\
     (forall n x, Read few n t = Some x -> Read more n t = Some x)).
Proof.
  intros Hf. split_and!.
  - destruct (open_total fuel s Hf) as (s' & r & H). exists s', r. intros f' Hf'. by apply (steady_open quote fuel f').
  - intros n. assert (exists s' r, Read fuel n s = Some (s', r)) as (s' & r & H).
    { unfold Read. destruct n; [by eexists _, _|]. unfold bindF.
      destruct (fill_total fuel fuel s) as (s' & r & ->); [lia|lia|]. destruct r; by eexists _, _. }
    exists s', r. intros f' Hf'. by apply (steady_Read n fuel f').
  - intros T TT t few more Hm. split; [intros x H; by apply (steady_open quote few more)|intros n x H; by apply (steady_Read n few more)].
Qed.
End total.

Example sasl_terminates_witness :
  let s := NewSaslPlain (mkStream [x02; x00; x00; xff; xff; x61] [] [] false) "me" "secret" in
  exists s' r, forall fuel', (12 <= fuel')%nat -> @OpenContext stream plainMech _ _ demo_growth (fun _ => "") fuel' s = Some (s', r).
Proof.
  exact (proj1 (@sasl_terminates plainMech _ demo_growth (fun _ => "") 12
    (NewSaslPlain (mkStream [x02; x00; x00; xff; xff; x61] [] [] false) "me" "secret") (le_n 12))).
Defined.
