(* ===== verification/Thrift.v ===== *)
(** * Thrift: the protocol under the generated codecs

    [thrift.TProtocol] is an interface of the Thrift library: a class of
    operations on a state of its own, whose laws say that what is written is
    read back in order. Over it, the shapes every generated Write and Read of
    gen/hive_metastore/hive_metastore.go is made of, and what they write and
    read as sequences of tokens. *)

From S2P Require Import Prelude Errors GoMonad Types Transport Wire.

(** ** Types and tokens *)

(** [thrift.TType] *)
Definition STOP : Z := 0.
Definition BOOL : Z := 2.
Definition BYTE : Z := 3.
Definition DOUBLE : Z := 4.
Definition I16 : Z := 6.
Definition I32 : Z := 8.
Definition I64 : Z := 10.
Definition STRING : Z := 11.
Definition STRUCT : Z := 12.
Definition MAP : Z := 13.
Definition LIST : Z := 15.

(** [thrift.TMessageType] *)
Definition CALL : Z := 1.
Definition REPLY : Z := 2.
Definition EXCEPTION : Z := 3.

(** What one call writes; field and struct names are not carried. *)
Inductive tok :=
  | KMessage (name : string) (ty seq : Z) | KMessageEnd
  | KStruct | KStructEnd
  | KField (ty id : Z) | KFieldEnd | KStop
  | KList (ty n : Z) | KListEnd
  | KMap (k v n : Z) | KMapEnd
  | KBool (b : bool) | KByte (z : Z) | KI16 (z : Z) | KI32 (z : Z) | KI64 (z : Z) | KDouble (d : float64)
  | KString (s : string) | KBinary (l : list Z).

(** ** The protocol *)

Class TProtocol (P : Type) := {
  WriteMessageBegin : string -> Z -> Z -> M P unit;
  WriteMessageEnd : M P unit;
  WriteStructBegin : string -> M P unit;
  WriteStructEnd : M P unit;
  WriteFieldBegin : string -> Z -> Z -> M P unit;
  WriteFieldEnd : M P unit;
  WriteFieldStop : M P unit;
  WriteListBegin : Z -> Z -> M P unit;
  WriteListEnd : M P unit;
  WriteMapBegin : Z -> Z -> Z -> M P unit;
  WriteMapEnd : M P unit;
  WriteBool : bool -> M P unit;
  WriteByte : Z -> M P unit;
  WriteI16 : Z -> M P unit;
  WriteI32 : Z -> M P unit;
  WriteI64 : Z -> M P unit;
  WriteDouble : float64 -> M P unit;
  WriteString : string -> M P unit;
  WriteBinary : list Z -> M P unit;
  Flush : M P unit;
  ReadMessageBegin : M P (string * Z * Z);
  ReadMessageEnd : M P unit;
  ReadStructBegin : M P unit;
  ReadStructEnd : M P unit;
  (** The type and the id it answers, with an error or not. *)
  ReadFieldBegin : P -> P * (Z * Z * option goerr);
  ReadFieldEnd : M P unit;
  ReadListBegin : M P (Z * Z);
  ReadListEnd : M P unit;
  ReadMapBegin : M P (Z * Z * Z);
  ReadMapEnd : M P unit;
  ReadBool : M P bool;
  ReadByte : M P Z;
  ReadI16 : M P Z;
  ReadI32 : M P Z;
  ReadI64 : M P Z;
  ReadDouble : M P float64;
  ReadString : M P string;
  ReadBinary : M P (list Z);
  Skip : Z -> M P unit;
  (** [thrift.CheckRecursionDepth] and [DecrementRecursionDepth], whose counter
      is in the context. *)
  CheckRecursionDepth : M P unit;
  DecrementRecursionDepth : P -> P;
  PrependError : string -> goerr -> goerr;
}.

(** A Go map is ranged over in any order. *)
Class MapRange := {
  range : gmap string string -> list (string * string);
  range_perm m : range m ≡ₚ map_to_list m;
}.

(** ** The shapes of the generated code *)

Section shapes.
Context {P : Type} {TP : TProtocol P} {MR : MapRange}.

(** [if err := m; err != nil { return thrift.PrependError(text, err) }] *)
Definition prefix {A} (text : string) (m : M P A) : M P A := fun p =>
  match m p with (p, inl e) => (p, inl (PrependError text e)) | r => r end.
Definition prefixF {A} (text : string) (m : MF P A) : MF P A := fun p =>
  match m p with Some (p, inl e) => Some (p, inl (PrependError text e)) | r => r end.

(** [ctx, err := thrift.CheckRecursionDepth(ctx); ...; defer thrift.DecrementRecursionDepth(ctx)] *)
Definition nested {A} (m : M P A) : M P A := fun p =>
  match CheckRecursionDepth p with
  | (p, inl e) => (p, inl e)
  | (p, inr _) => let '(p, r) := m p in (DecrementRecursionDepth p, r)
  end.
Definition nestedF {A} (m : MF P A) : MF P A := fun p =>
  match CheckRecursionDepth p with
  | (p, inl e) => Some (p, inl e)
  | (p, inr _) => match m p with Some (p, r) => Some (DecrementRecursionDepth p, r) | None => None end
  end.

(** *** Writing *)

(** [T] is [%T] of the struct's pointer. *)
Definition write_field (T name : string) (ty id : Z) (w : M P unit) : M P unit :=
  (prefix (T +:+ " write field begin error " +:+ Itoa id +:+ ":" +:+ name +:+ ": ") (WriteFieldBegin name ty id);;;
   w;;;
   prefix (T +:+ " write field end error " +:+ Itoa id +:+ ":" +:+ name +:+ ": ") WriteFieldEnd)%go.

(** [if p.IsSetX() { ... }], of a condition and of a pointer that is not nil. *)
Definition when (b : bool) (m : M P unit) : M P unit := if b then m else ret tt.
Definition opt {A} (o : option A) (w : A -> M P unit) : M P unit :=
  match o with Some v => w v | None => ret tt end.

Definition write_scalar (T name : string) (id : Z) (w : M P unit) : M P unit :=
  prefix (T +:+ "." +:+ name +:+ " (" +:+ Itoa id +:+ ") field write error: ") w.

Definition write_sub (T : string) (w : M P unit) : M P unit := prefix (T +:+ " error writing struct: ") w.

Definition write_list {A} (ty : Z) (w : A -> M P unit) (l : slice A) : M P unit :=
  (prefix "error writing list begin: " (WriteListBegin ty (Z.of_nat (len l)));;;
   forM (elems l) w;;;
   prefix "error writing list end: " WriteListEnd)%go.

Definition write_string_map (T : string) (m : gomap string) : M P unit :=
  (prefix "error writing map begin: " (WriteMapBegin STRING STRING (Z.of_nat (size (entries m))));;;
   forM (range (entries m)) (fun kv =>
     write_scalar T "" 0 (WriteString (fst kv));;;
     write_scalar T "" 0 (WriteString (snd kv)));;;
   prefix "error writing map end: " WriteMapEnd)%go.

(** The maps whose keys are lists are slices of entries, whose keys must differ. *)
Definition keys_equal (tgt src : slice string) : bool := bool_decide (elems tgt = elems src).
Fixpoint unique_keys (l : list (slice string * string)) : bool :=
  match l with
  | [] => true
  | e :: l => forallb (fun e' => negb (keys_equal (fst e) (fst e'))) l && unique_keys l
  end.

Definition write_strings (T : string) (l : slice string) : M P unit :=
  write_list STRING (fun v => write_scalar T "" 0 (WriteString v)) l.

Definition write_locations (T field : string) (l : slice (slice string * string)) : M P unit :=
  (prefix "error writing map begin: " (WriteMapBegin LIST STRING (Z.of_nat (len l)));;;
   (if unique_keys (elems l) then ret tt
    else let text := "[]thrift.MapEntry[[]string,string] error writing map field " +:+ go_quote field +:+ ": keys are not unique" in
         throw (EProtocol text (Some (EText text))));;;
   forM (elems l) (fun e => write_strings T (fst e);;; write_scalar T "" 0 (WriteString (snd e)));;;
   prefix "error writing map end: " WriteMapEnd)%go.

(** [fields] is nil when the receiver is. *)
Definition write_struct (T name : string) (fields : option (list (M P unit))) : M P unit :=
  nested
    (prefix (T +:+ " write struct begin error: ") (WriteStructBegin name);;;
     match fields with Some ws => forM ws id | None => ret tt end;;;
     prefix "write field stop error: " WriteFieldStop;;;
     prefix "write struct stop error: " WriteStructEnd)%go.

(** A union's Write: [count] is its CountSetFields. *)
Definition write_union (T name : string) (count : Z) (fields : option (list (M P unit))) : M P unit :=
  nested
    ((if count =? 1 then ret tt
      else let text := T +:+ " write union: exactly one field must be set (" +:+ Itoa count +:+ " set)" in
           throw (EProtocol text (Some (EText text))));;;
     prefix (T +:+ " write struct begin error: ") (WriteStructBegin name);;;
     match fields with Some ws => forM ws id | None => ret tt end;;;
     prefix "write field stop error: " WriteFieldStop;;;
     prefix "write struct stop error: " WriteStructEnd)%go.

(** *** Reading *)

Definition read_scalar {A} (id : Z) (r : M P A) : MF P A :=
  prefixF ("error reading field " +:+ Itoa id +:+ ": ") (liftF r).

Definition read_sub {X} (T : string) (r : MF P X) : MF P X := prefixF (T +:+ " error reading struct: ") r.

Fixpoint read_elems {A} (n : nat) (r : MF P A) : MF P (list A) :=
  match n with
  | O => liftF (ret [])
  | S n => (a <-- r;; l <-- read_elems n r;; liftF (ret (a :: l)))%go
  end.

Definition read_list {A} (r : MF P A) : MF P (slice A) :=
  (h <-- prefixF "error reading list begin: " (liftF ReadListBegin);;
   l <-- read_elems (Z.to_nat (snd h)) r;;
   _ <-- prefixF "error reading list end: " (liftF ReadListEnd);;
   liftF (ret (Some l)))%go.

(** The entries of a map, in the order they come. *)
Definition read_entries {K V} (k : MF P K) (v : MF P V) : MF P (list (K * V)) :=
  (h <-- prefixF "error reading map begin: " (liftF ReadMapBegin);;
   l <-- read_elems (Z.to_nat (snd h)) (a <-- k;; b <-- v;; liftF (ret (a, b)));;
   _ <-- prefixF "error reading map end: " (liftF ReadMapEnd);;
   liftF (ret l))%go.

(** [p.M[key] = val], one entry after the other. *)
Definition read_string_map : MF P (gomap string) :=
  (l <-- read_entries (read_scalar 0 ReadString) (read_scalar 0 ReadString);;
   liftF (ret (Some (foldl (fun m kv => <[kv.1 := kv.2]> m) (∅ : gmap string string) l))))%go.

Definition read_strings : MF P (slice string) := read_list (read_scalar 0 ReadString).
Definition read_locations : MF P (slice (slice string * string)) :=
  (l <-- read_entries read_strings (read_scalar 0 ReadString);; liftF (ret (Some l)))%go.

(** [p.F = v], the value read; a failed Read's struct is dropped by its callers. *)
Definition assign {X A} (r : MF P A) (set : A -> X -> X) (x : X) : MF P X :=
  (v <-- r;; liftF (ret (set v x)))%go.

(** The switch of a Read: the type of a field it knows, and its reader. *)
Definition switch (X : Type) : Type := Z -> option (Z * (X -> MF P X)).

(** The loop of a Read, and the ids it read. *)
Fixpoint read_fields {X} (T : string) (sw : switch X) (fuel : nat) (seen : list Z) (x : X) : MF P (X * list Z) :=
  fun p =>
    match fuel with
    | O => None
    | S fuel =>
        let '(p, (ty, id, err)) := ReadFieldBegin p in
        match err with
        | Some e => Some (p, inl (PrependError (T +:+ " field " +:+ Itoa id +:+ " read error: ") e))
        | None =>
            if ty =? STOP then Some (p, inr (x, seen))
            else
              (r <-- match sw id with
                     | Some (ty', rd) =>
                         if ty =? ty' then (x' <-- rd x;; liftF (ret (x', id :: seen)))
                         else (_ <-- liftF (Skip ty);; liftF (ret (x, seen)))
                     | None => _ <-- liftF (Skip ty);; liftF (ret (x, seen))
                     end;;
               _ <-- liftF ReadFieldEnd;;
               read_fields T sw fuel (snd r) (fst r))%go p
        end
    end.

(** [if !issetX { return ... "Required field X is not set" }], one after the other. *)
Fixpoint check_required (required : list (Z * string)) (seen : list Z) : M P unit :=
  match required with
  | [] => ret tt
  | (id, name) :: required =>
      if bool_decide (id ∈ seen) then check_required required seen
      else let text := "Required field " +:+ name +:+ " is not set" in throw (EProtocol text (Some (EText text)))
  end.

Definition read_struct {X} (T : string) (required : list (Z * string)) (sw : switch X) (fuel : nat) (x : X) : MF P X :=
  nestedF
    (_ <-- prefixF (T +:+ " read error: ") (liftF ReadStructBegin);;
     r <-- read_fields T sw fuel [] x;;
     _ <-- prefixF (T +:+ " read struct end error: ") (liftF ReadStructEnd);;
     _ <-- liftF (check_required required (snd r));;
     liftF (ret (fst r)))%go.
End shapes.

(** ** Structs the client never looks into *)

(** The Write and Read of a generated struct whose value is a [blob], by name. *)
Class Substructs (P : Type) := {
  sub_Write : string -> option blob -> M P unit;
  sub_Read : string -> nat -> MF P blob;
}.
