(* ===== verification/ThriftFacts.v ===== *)
(** * ThriftFacts: what the shapes of the generated code write and read

    [writes strict d m ts]: [m] appends the tokens [ts], nesting at most [d] structs;
    [reads d m ts a]: [m] consumes [ts] and answers [a]. Both fail only on a token
    the protocol cannot carry; when [strict] is false, [writes] says nothing of a
    failure. *)

From S2P Require Import Prelude Errors GoMonad Types Transport Wire Thrift.

(** ** Values, as sequences of tokens *)

(** A field on the wire: id, type, tokens of its value. *)
Definition wfield : Type := Z * Z * list tok.

Definition field_toks (f : wfield) : list tok :=
  let '(id, ty, ts) := f in KField ty id :: ts ++ [KFieldEnd].
Definition struct_toks (fs : list wfield) : list tok :=
  KStruct :: concat (map field_toks fs) ++ [KStop; KStructEnd].

(** What a field that may be left out writes. *)
Definition opt_part {A} (o : option A) (f : A -> wfield) : list wfield :=
  match o with Some v => [f v] | None => [] end.
Definition when_part (b : bool) (f : wfield) : list wfield := if b then [f] else [].

(** The tokens of a value of a type, nesting at most [k] containers. *)
Inductive value : nat -> Z -> list tok -> Prop :=
  | value_bool k b : value k BOOL [KBool b]
  | value_byte k z : value k BYTE [KByte z]
  | value_i16 k z : value k I16 [KI16 z]
  | value_i32 k z : value k I32 [KI32 z]
  | value_i64 k z : value k I64 [KI64 z]
  | value_double k d : value k DOUBLE [KDouble d]
  | value_string k s : value k STRING [KString s]
  | value_binary k l : value k STRING [KBinary l]
  | value_list k ty es : Forall (value k ty) es ->
      value (S k) LIST (KList ty (Z.of_nat (length es)) :: concat es ++ [KListEnd])
  | value_map k kt vt es : Forall (fun e => value k kt (fst e) /\ value k vt (snd e)) es ->
      value (S k) MAP (KMap kt vt (Z.of_nat (length es)) :: concat (map (fun e => fst e ++ snd e) es) ++ [KMapEnd])
  | value_struct k fs : Forall (fun f : wfield => snd (fst f) <> STOP /\ value k (snd (fst f)) (snd f)) fs ->
      value (S k) STRUCT (struct_toks fs).

(** *** Building them *)

Lemma value_le k : forall k' ty ts, value k ty ts -> (k <= k')%nat -> value k' ty ts.
Proof.
  induction k as [|k IH]; intros k' ty ts Hv Hk; inversion Hv; subst; try constructor; destruct k' as [|k']; try lia;
    constructor; (eapply Forall_impl; [|eassumption]); simpl.
  - intros e He. apply (IH _ _ _ He). lia.
  - intros e [H1 H2]. split; [apply (IH _ _ _ H1)|apply (IH _ _ _ H2)]; lia.
  - intros f [H1 H2]. split; [done|]. apply (IH _ _ _ H2). lia.
Qed.

Definition field_ok (k : nat) (f : wfield) : Prop := snd (fst f) <> STOP /\ value k (snd (fst f)) (snd f).
Lemma value_fields k (fss : list (list wfield)) : Forall (Forall (field_ok k)) fss -> value (S k) STRUCT (struct_toks (concat fss)).
Proof. intros H. apply value_struct. by apply Forall_concat. Qed.
Lemma field_ok_one k id ty ts : ty <> STOP -> value k ty ts -> Forall (field_ok k) [(id, ty, ts)].
Proof. repeat constructor; done. Qed.
Lemma field_ok_opt {A} k (o : option A) f : (forall v, Forall (field_ok k) [f v]) -> Forall (field_ok k) (opt_part o f).
Proof. intros H. destruct o; [apply H|constructor]. Qed.
Lemma field_ok_when k b f : Forall (field_ok k) [f] -> Forall (field_ok k) (when_part b f).
Proof. by destruct b. Qed.

(** ** The laws of a protocol *)

Section calls.
Context {P : Type} {TP : TProtocol P}.

(** Which call writes which token. *)
Inductive writer : M P unit -> tok -> Prop :=
  | w_message name ty seq : writer (WriteMessageBegin name ty seq) (KMessage name ty seq)
  | w_message_end : writer WriteMessageEnd KMessageEnd
  | w_struct name : writer (WriteStructBegin name) KStruct
  | w_struct_end : writer WriteStructEnd KStructEnd
  | w_field name ty id : writer (WriteFieldBegin name ty id) (KField ty id)
  | w_field_end : writer WriteFieldEnd KFieldEnd
  | w_stop : writer WriteFieldStop KStop
  | w_list ty n : writer (WriteListBegin ty n) (KList ty n)
  | w_list_end : writer WriteListEnd KListEnd
  | w_map kt vt n : writer (WriteMapBegin kt vt n) (KMap kt vt n)
  | w_map_end : writer WriteMapEnd KMapEnd
  | w_bool b : writer (WriteBool b) (KBool b)
  | w_byte z : writer (WriteByte z) (KByte z)
  | w_i16 z : writer (WriteI16 z) (KI16 z)
  | w_i32 z : writer (WriteI32 z) (KI32 z)
  | w_i64 z : writer (WriteI64 z) (KI64 z)
  | w_double d : writer (WriteDouble d) (KDouble d)
  | w_string s : writer (WriteString s) (KString s)
  | w_binary l : writer (WriteBinary l) (KBinary l).

(** Which call reads which token, and its answer. *)
Inductive reader : forall A, M P A -> tok -> A -> Prop :=
  | r_message name ty seq : reader (string * Z * Z) ReadMessageBegin (KMessage name ty seq) (name, ty, seq)
  | r_message_end : reader unit ReadMessageEnd KMessageEnd tt
  | r_struct : reader unit ReadStructBegin KStruct tt
  | r_struct_end : reader unit ReadStructEnd KStructEnd tt
  | r_field_end : reader unit ReadFieldEnd KFieldEnd tt
  | r_list ty n : reader (Z * Z) ReadListBegin (KList ty n) (ty, n)
  | r_list_end : reader unit ReadListEnd KListEnd tt
  | r_map kt vt n : reader (Z * Z * Z) ReadMapBegin (KMap kt vt n) (kt, vt, n)
  | r_map_end : reader unit ReadMapEnd KMapEnd tt
  | r_bool b : reader bool ReadBool (KBool b) b
  | r_byte z : reader Z ReadByte (KByte z) z
  | r_i16 z : reader Z ReadI16 (KI16 z) z
  | r_i32 z : reader Z ReadI32 (KI32 z) z
  | r_i64 z : reader Z ReadI64 (KI64 z) z
  | r_double d : reader float64 ReadDouble (KDouble d) d
  | r_string s : reader string ReadString (KString s) s
  | r_binary l : reader (list Z) ReadBinary (KBinary l) l.
End calls.

Arguments reader {P TP A}.

(** [holds p n l]: [l] was written and not yet read, and [n] more structs may
    nest. A call fails only on a token that does not fit (a string over the size
    limit, say); Skip takes values up to a depth of its own. *)
Class TProtocolLaws (P : Type) {TP : TProtocol P} := {
  holds : P -> nat -> list tok -> Prop;
  fits : tok -> Prop;
  skip_depth : nat;
  law_write w t p n l : writer w t -> holds p n l ->
    match w p with (p', inr _) => holds p' n (l ++ [t]) | (_, inl _) => ~ fits t end;
  law_read A (m : M P A) t a p n l : reader m t a -> holds p n (t :: l) ->
    match m p with (p', inr a') => a' = a /\ holds p' n l | (_, inl _) => ~ fits t end;
  law_field p n l ty id : holds p n (KField ty id :: l) ->
    match ReadFieldBegin p with
    | (p', (ty', id', None)) => ty' = ty /\ id' = id /\ holds p' n l
    | (_, (_, _, Some _)) => ~ fits (KField ty id)
    end;
  law_stop p n l : holds p n (KStop :: l) ->
    match ReadFieldBegin p with
    | (p', (ty', _, None)) => ty' = STOP /\ holds p' n l
    | (_, (_, _, Some _)) => ~ fits KStop
    end;
  law_skip k ty ts p n l : value k ty ts -> (k <= skip_depth)%nat -> holds p n (ts ++ l) ->
    match Skip ty p with (p', inr _) => holds p' n l | (_, inl _) => ~ Forall fits ts end;
  law_flush p n l : holds p n l -> exists p', Flush p = (p', inr tt) /\ holds p' n l;
  law_enter p n l : holds p (S n) l -> exists p', CheckRecursionDepth p = (p', inr tt) /\ holds p' n l;
  law_leave p n l : holds p n l -> holds (DecrementRecursionDepth p) (S n) l;
}.

Section facts.
Context {P : Type} {TP : TProtocol P} {TL : TProtocolLaws P} {MR : MapRange}.

Definition writes (strict : Prop) (d : nat) (m : M P unit) (ts : list tok) : Prop := forall p n l,
  holds p (d + n) l ->
  match m p with (p', inr _) => holds p' (d + n) (l ++ ts) | (_, inl _) => strict -> ~ Forall fits ts end.

Definition reads {A} (d : nat) (m : MF P A) (ts : list tok) (a : A) : Prop := forall p n l,
  holds p (d + n) (ts ++ l) ->
  match m p with
  | Some (p', inr a') => a' = a /\ holds p' (d + n) l
  | Some (_, inl _) => ~ Forall fits ts
  | None => False
  end.

(** ** Writing *)

Section writing.
Context (strict : Prop).

Lemma writes_tok d w t : writer w t -> writes strict d w [t].
Proof.
  intros Hw p n l Hp. pose proof (law_write w t p (d + n) l Hw Hp) as H. destruct (w p) as [p' [e|a]]; [|done].
  intros _ Hf. apply H. by inversion Hf.
Qed.
Lemma writes_ret d : writes strict d (ret tt) [].
Proof. intros p n l Hp. simpl. by rewrite app_nil_r. Qed.
Lemma writes_bind d (m : M P unit) (k : unit -> M P unit) t1 t2 :
  writes strict d m t1 -> (forall u, writes strict d (k u) t2) -> writes strict d (bind m k) (t1 ++ t2).
Proof.
  intros Hm Hk p n l Hp. unfold bind. specialize (Hm p n l Hp). destruct (m p) as [p1 [e|u]].
  - intros Hs [? _]%Forall_app. by apply Hm.
  - specialize (Hk u p1 n _ Hm). destruct (k u p1) as [p2 [e|a]]; [|by rewrite app_assoc].
    intros Hs [_ ?]%Forall_app. by apply Hk.
Qed.
Lemma writes_prefix d text m ts : writes strict d m ts -> writes strict d (prefix text m) ts.
Proof. intros Hm p n l Hp. specialize (Hm p n l Hp). unfold prefix. by destruct (m p) as [p' [e|a]]. Qed.
Lemma writes_forM {A} d (l : list A) (f : A -> M P unit) (g : A -> list tok) :
  (forall a, a ∈ l -> writes strict d (f a) (g a)) -> writes strict d (forM l f) (concat (map g l)).
Proof.
  induction l as [|a l IH]; intros Hf; simpl; [apply writes_ret|].
  apply writes_bind; [apply Hf; left|]. intros _. apply IH. intros b Hb. apply Hf. by right.
Qed.
Lemma writes_nested d m ts : writes strict d m ts -> writes strict (S d) (nested m) ts.
Proof.
  intros Hm p n l Hp. unfold nested. destruct (law_enter p (d + n) l Hp) as (p1 & -> & H1).
  specialize (Hm p1 n l H1). destruct (m p1) as [p2 [e|a]]; [done|]. by apply law_leave.
Qed.
Lemma writes_le d d' m ts : writes strict d m ts -> (d <= d')%nat -> writes strict d' m ts.
Proof.
  intros Hm Hd p n l Hp. replace (d' + n)%nat with (d + (d' - d + n))%nat in * by lia. by apply Hm.
Qed.

Lemma writes_field d T name ty id w ts : writes strict d w ts -> writes strict d (write_field T name ty id w) (field_toks (id, ty, ts)).
Proof.
  intros Hw. unfold write_field, field_toks. change (KField ty id :: ts ++ [KFieldEnd]) with ([KField ty id] ++ ts ++ [KFieldEnd]).
  apply writes_bind; [apply writes_prefix, writes_tok; constructor|]. intros _.
  apply writes_bind; [done|]. intros _. apply writes_prefix, writes_tok. constructor.
Qed.
Lemma writes_scalar d T name id w t : writer w t -> writes strict d (write_scalar T name id w) [t].
Proof. intros. by apply writes_prefix, writes_tok. Qed.

Definition list_toks {A} (ty : Z) (f : A -> list tok) (l : slice A) : list tok :=
  KList ty (Z.of_nat (len l)) :: concat (map f (elems l)) ++ [KListEnd].
Lemma writes_list {A} d ty (w : A -> M P unit) (f : A -> list tok) (l : slice A) :
  (forall a, a ∈ elems l -> writes strict d (w a) (f a)) -> writes strict d (write_list ty w l) (list_toks ty f l).
Proof.
  intros Hw. unfold write_list, list_toks.
  change (KList ty ?n :: ?b ++ ?c) with ([KList ty n] ++ b ++ c).
  apply writes_bind; [apply writes_prefix, writes_tok; constructor|]. intros _.
  apply writes_bind; [by apply writes_forM|]. intros _. apply writes_prefix, writes_tok. constructor.
Qed.

Lemma list_toks_value {A} k ty (f : A -> list tok) l : (forall a, value k ty (f a)) -> value (S k) LIST (list_toks ty f l).
Proof.
  intros Hf. unfold list_toks, len. rewrite <- (length_map f (elems l)). apply value_list.
  apply Forall_map, Forall_true. exact Hf.
Qed.

Definition map_toks (m : gomap string) : list tok :=
  KMap STRING STRING (Z.of_nat (size (entries m))) ::
  concat (map (fun kv : string * string => [KString (fst kv)] ++ [KString (snd kv)]) (range (entries m))) ++ [KMapEnd].
Lemma writes_string_map d T m : writes strict d (write_string_map T m) (map_toks m).
Proof.
  unfold write_string_map, map_toks. change (KMap ?a ?b ?n :: ?l ++ ?c) with ([KMap a b n] ++ l ++ c).
  apply writes_bind; [apply writes_prefix, writes_tok; constructor|]. intros _.
  apply writes_bind; [|intros _; apply writes_prefix, writes_tok; constructor].
  apply writes_forM. intros kv _. apply writes_bind; [apply writes_scalar; constructor|].
  intros _. apply writes_scalar. constructor.
Qed.

Lemma map_toks_value m : value 1 MAP (map_toks m).
Proof.
  unfold map_toks. pose proof (Permutation_length (range_perm (entries m))) as Hl. rewrite length_map_to_list in Hl. rewrite <- Hl.
  pose proof (value_map 0 STRING STRING
    (map (fun kv : string * string => ([KString (fst kv)], [KString (snd kv)])) (range (entries m)))) as H.
  rewrite length_map, map_map in H. apply H. apply Forall_map, Forall_true. intros kv. split; constructor.
Qed.

Definition strings_toks (l : slice string) : list tok := list_toks STRING (fun s => [KString s]) l.
Lemma strings_toks_value l : value 1 LIST (strings_toks l).
Proof. apply list_toks_value. constructor. Qed.
Lemma writes_strings d T l : writes strict d (write_strings T l) (strings_toks l).
Proof. apply writes_list. intros s _. apply writes_scalar. constructor. Qed.

Definition locations_toks (l : slice (slice string * string)) : list tok :=
  KMap LIST STRING (Z.of_nat (len l)) ::
  concat (map (fun e => strings_toks (fst e) ++ [KString (snd e)]) (elems l)) ++ [KMapEnd].
Lemma locations_toks_value l : value 2 MAP (locations_toks l).
Proof.
  pose proof (value_map 1 LIST STRING (map (fun e => (strings_toks (fst e), [KString (snd e)])) (elems l))) as H.
  rewrite length_map, map_map in H. apply H. apply Forall_map, Forall_true. intros e. split; [apply strings_toks_value|constructor].
Qed.
Lemma writes_locations d T field l : (strict -> unique_keys (elems l) = true) ->
  writes strict d (write_locations T field l) (locations_toks l).
Proof.
  intros Hu. unfold write_locations, locations_toks. change (KMap ?a ?b ?n :: ?l ++ ?c) with ([KMap a b n] ++ [] ++ l ++ c).
  apply writes_bind; [apply writes_prefix, writes_tok; constructor|]. intros _.
  apply writes_bind; [|intros _; apply writes_bind; [|intros _; apply writes_prefix, writes_tok; constructor]].
  - destruct (unique_keys (elems l)); [apply writes_ret|]. intros p n l' Hp. simpl. intros Hs _. by specialize (Hu Hs).
  - apply writes_forM. intros e _. apply writes_bind; [apply writes_strings|]. intros _. apply writes_scalar. constructor.
Qed.

Lemma writes_body d T name ws fs :
  Forall2 (fun w ps => writes strict d w (concat (map field_toks ps))) ws fs ->
  writes strict d
    (prefix (T +:+ " write struct begin error: ") (WriteStructBegin name);;;
     forM ws id;;;
     prefix "write field stop error: " WriteFieldStop;;;
     prefix "write struct stop error: " WriteStructEnd)%go (struct_toks (concat fs)).
Proof.
  intros Hws. unfold struct_toks.
  change (KStruct :: ?a ++ [KStop; KStructEnd]) with ([KStruct] ++ a ++ [KStop] ++ [KStructEnd]).
  apply writes_bind; [apply writes_prefix, writes_tok; constructor|]. intros _.
  apply writes_bind; [|intros _; apply writes_bind; [|intros _]; apply writes_prefix, writes_tok; constructor].
  induction Hws as [|w ps ws fs Hw _ IH]; simpl; [apply writes_ret|].
  rewrite map_app, concat_app. apply writes_bind; [exact Hw|]. intros _. exact IH.
Qed.
(** The fields of a struct: each field writes its part. *)
Lemma writes_struct d T name ws fs :
  Forall2 (fun w ps => writes strict d w (concat (map field_toks ps))) ws fs ->
  writes strict (S d) (write_struct T name (Some ws)) (struct_toks (concat fs)).
Proof.
  intros Hws. apply writes_nested. by apply writes_body.
Qed.
Lemma writes_struct_nil d T name : writes strict (S d) (write_struct T name None) (struct_toks []).
Proof. exact (writes_struct d T name [] [] (Forall2_nil _)). Qed.

(** A union with one field set. *)
Lemma writes_union d T name count ws fs : (strict -> count = 1) ->
  Forall2 (fun w ps => writes strict d w (concat (map field_toks ps))) ws fs ->
  writes strict (S d) (write_union T name count (Some ws)) (struct_toks (concat fs)).
Proof.
  intros Hc Hws. apply writes_nested. change (struct_toks (concat fs)) with ([] ++ struct_toks (concat fs)).
  apply writes_bind; [|intros _; by apply writes_body].
  destruct (Z.eqb_spec count 1) as [Hc1|Hc1]; [apply writes_ret|]. intros p n l Hp Hs. by specialize (Hc Hs).
Qed.
Lemma writes_union_nil d T name ts : (strict -> False) -> writes strict (S d) (write_union T name 0 None) ts.
Proof.
  intros Hs p n l Hp. unfold write_union, nested.
  destruct (law_enter p (d + n) l Hp) as (p1 & -> & _). simpl. by intros ?%Hs.
Qed.
Lemma writes_one d w f : writes strict d w (field_toks f) -> writes strict d w (concat (map field_toks [f])).
Proof. simpl. by rewrite app_nil_r. Qed.
Lemma writes_when d b w f : writes strict d w (field_toks f) ->
  writes strict d (when b w) (concat (map field_toks (when_part b f))).
Proof. intros Hw. destruct b; [by apply writes_one|apply writes_ret]. Qed.
Lemma writes_opt {A} d (o : option A) (w : A -> M P unit) (f : A -> wfield) :
  (forall v, o = Some v -> writes strict d (w v) (field_toks (f v))) ->
  writes strict d (opt o w) (concat (map field_toks (opt_part o f))).
Proof. intros Hw. destruct o as [v|]; [apply writes_one; by apply Hw|apply writes_ret]. Qed.
End writing.

(** ** Reading *)

Lemma reads_tok {A} d (m : M P A) t a : reader m t a -> reads d (liftF m) [t] a.
Proof.
  intros Hr p n l Hp. pose proof (law_read A m t a p (d + n) l Hr Hp) as H. unfold liftF.
  destruct (m p) as [p' [e|a']]; [|done]. intros Hf. apply H. by inversion Hf.
Qed.
Lemma reads_ret {A} d (a : A) : reads d (liftF (ret a)) [] a.
Proof. intros p n l Hp. done. Qed.
Lemma reads_bind {A B} d (m : MF P A) (k : A -> MF P B) t1 t2 a b :
  reads d m t1 a -> reads d (k a) t2 b -> reads d (bindF m k) (t1 ++ t2) b.
Proof.
  intros Hm Hk p n l Hp. unfold bindF. rewrite <- app_assoc in Hp. specialize (Hm p n _ Hp).
  destruct (m p) as [[p1 [e|a']]|]; [|destruct Hm as [-> Hm]|done].
  - intros [? _]%Forall_app. done.
  - specialize (Hk p1 n _ Hm). destruct (k a p1) as [[p2 [e|b']]|]; [|done|done]. intros [_ ?]%Forall_app. done.
Qed.
Lemma reads_prefix {A} d text (m : MF P A) ts a : reads d m ts a -> reads d (prefixF text m) ts a.
Proof. intros Hm p n l Hp. specialize (Hm p n l Hp). unfold prefixF. by destruct (m p) as [[p' [e|a']]|]. Qed.
Lemma reads_nested {A} d (m : MF P A) ts a : reads d m ts a -> reads (S d) (nestedF m) ts a.
Proof.
  intros Hm p n l Hp. unfold nestedF. destruct (law_enter p (d + n) _ Hp) as (p1 & -> & H1).
  specialize (Hm p1 n l H1). destruct (m p1) as [[p2 [e|a']]|]; [done| |done]. destruct Hm as [-> Hm].
  split; [done|]. by apply law_leave.
Qed.
Lemma reads_le {A} d d' (m : MF P A) ts a : reads d m ts a -> (d <= d')%nat -> reads d' m ts a.
Proof.
  intros Hm Hd p n l Hp. replace (d' + n)%nat with (d + (d' - d + n))%nat in * by lia. by apply Hm.
Qed.
Lemma reads_map {A B} d (m : MF P A) (f : A -> B) ts a :
  reads d m ts a -> reads d (bindF m (fun a => liftF (ret (f a)))) ts (f a).
Proof. intros Hm. rewrite <- (app_nil_r ts). eapply reads_bind; [exact Hm|apply reads_ret]. Qed.

Lemma reads_scalar {A} d id (m : M P A) t a : reader m t a -> reads d (read_scalar id m) [t] a.
Proof. intros. by apply reads_prefix, reads_tok. Qed.

Lemma reads_elems {A B} d (r : MF P B) (f : A -> list tok) (g : A -> B) (l : list A) :
  (forall a, a ∈ l -> reads d r (f a) (g a)) -> reads d (read_elems (length l) r) (concat (map f l)) (map g l).
Proof.
  induction l as [|a l IH]; intros Hr; simpl; [apply reads_ret|].
  eapply reads_bind; [apply Hr; left|]. apply (reads_map _ _ (fun l => g a :: l)). apply IH. intros b Hb. apply Hr. by right.
Qed.

Lemma reads_list {A B} d ty (r : MF P B) (f : A -> list tok) (g : A -> B) (l : slice A) :
  (forall a, a ∈ elems l -> reads d r (f a) (g a)) -> reads d (read_list r) (list_toks ty f l) (Some (map g (elems l))).
Proof.
  intros Hr. unfold read_list, list_toks.
  change (KList ty ?n :: ?b ++ ?c) with ([KList ty n] ++ b ++ c).
  eapply reads_bind; [apply reads_prefix, reads_tok; constructor|]. cbn [snd]. unfold len. rewrite Nat2Z.id.
  eapply reads_bind; [by apply reads_elems|].
  rewrite <- (app_nil_r [KListEnd]). eapply reads_bind; [apply reads_prefix, reads_tok; constructor|apply reads_ret].
Qed.

Lemma reads_entries {A K V} d (k : MF P K) (v : MF P V) (fk fv : A -> list tok) (gk : A -> K) (gv : A -> V) kt vt (l : list A) :
  (forall a, a ∈ l -> reads d k (fk a) (gk a)) -> (forall a, a ∈ l -> reads d v (fv a) (gv a)) ->
  reads d (read_entries k v)
    (KMap kt vt (Z.of_nat (length l)) :: concat (map (fun a => fk a ++ fv a) l) ++ [KMapEnd]) (map (fun a => (gk a, gv a)) l).
Proof.
  intros Hk Hv. unfold read_entries. change (KMap kt vt ?n :: ?b ++ ?c) with ([KMap kt vt n] ++ b ++ c).
  eapply reads_bind; [apply reads_prefix, reads_tok; constructor|]. cbn [snd]. rewrite Nat2Z.id.
  eapply reads_bind.
  - apply (reads_elems _ _ (fun a => fk a ++ fv a) (fun a => (gk a, gv a))). intros a Ha.
    eapply reads_bind; [by apply Hk|]. apply (reads_map _ _ (fun b => (gk a, b))). by apply Hv.
  - rewrite <- (app_nil_r [KMapEnd]). eapply reads_bind; [apply reads_prefix, reads_tok; constructor|apply reads_ret].
Qed.

(** Assigning the entries of a map in any order rebuilds it. *)
Lemma insert_range (m : gmap string string) :
  foldl (fun acc kv => <[kv.1 := kv.2]> acc) (∅ : gmap string string) (range m) = m.
Proof.
  assert (forall l (acc : gmap string string), NoDup l.*1 ->
    foldl (fun acc kv => <[kv.1 := kv.2]> acc) acc l = list_to_map l ∪ acc) as H.
  { induction l as [|[k v] l IH]; intros acc Hnd; simpl; [by rewrite (left_id_L ∅ _)|].
    apply list.NoDup_cons in Hnd as [Hk Hnd]. rewrite IH by done. simpl.
    rewrite <- insert_union_r by by apply not_elem_of_list_to_map_1. by rewrite <- insert_union_l. }
  assert (NoDup (range m).*1) as Hnd by (rewrite range_perm; apply NoDup_fst_map_to_list).
  rewrite H, (right_id_L ∅ _) by done. rewrite <- (list_to_map_to_list m) at 2.
  by apply list_to_map_proper, range_perm.
Qed.

Lemma reads_string_map d m : reads d read_string_map (map_toks m) (Some (entries m)).
Proof.
  unfold read_string_map. rewrite <- (insert_range (entries m)).
  pose proof (Permutation_length (range_perm (entries m))) as Hl. rewrite length_map_to_list in Hl.
  unfold map_toks. rewrite <- Hl.
  replace (range (entries m)) with (map (fun kv : string * string => (kv.1, kv.2)) (range (entries m))) at 3
    by (rewrite (map_ext _ id) by (by intros [??]); apply map_id).
  apply (reads_map _ _ (fun l => Some (foldl (fun m kv => <[kv.1 := kv.2]> m) (∅ : gmap string string) l))).
  apply (reads_entries d _ _ (fun kv => [KString (fst kv)]) (fun kv => [KString (snd kv)]));
    intros kv _; apply reads_scalar; constructor.
Qed.

Lemma reads_scalars {A} d ty (m : M P A) (k : A -> tok) (l : slice A) : (forall a, reader m (k a) a) ->
  reads d (read_list (read_scalar 0 m)) (list_toks ty (fun v => [k v]) l) (Some (elems l)).
Proof.
  intros Hr. rewrite <- (map_id (elems l)). apply (reads_list d ty _ (fun v => [k v]) id).
  intros a _. by apply reads_scalar.
Qed.

Definition own_strings (l : slice string) : slice string := Some (elems l).
Lemma reads_strings d l : reads d read_strings (strings_toks l) (own_strings l).
Proof.
  unfold own_strings. rewrite <- (map_id (elems l)). apply (reads_list d STRING _ (fun s => [KString s]) id).
  intros s _. apply reads_scalar. constructor.
Qed.

Definition own_locations (l : slice (slice string * string)) : slice (slice string * string) :=
  Some (map (fun e => (own_strings (fst e), snd e)) (elems l)).
Lemma reads_locations d l : reads d read_locations (locations_toks l) (own_locations l).
Proof.
  apply (reads_map _ _ Some). apply (reads_entries d _ _ (fun e => strings_toks (fst e)) (fun e => [KString (snd e)])).
  - intros e _. apply reads_strings.
  - intros e _. apply reads_scalar. constructor.
Qed.

(** ** The loop of a Read *)

(** A field that the switch does not know, or knows with another type. *)
Definition unknown {X} (sw : switch (P := P) X) (f : wfield) : Prop :=
  let '(id, ty, ts) := f in
  ty <> STOP /\ (forall rd, sw id <> Some (ty, rd)) /\ exists k, value k ty ts /\ (k <= skip_depth)%nat.

(** [runs d sw fs x x' ids]: reading the fields [fs] into [x] gives [x'], [ids]
    being those the switch knows. *)
Inductive runs {X} (d : nat) (sw : switch (P := P) X) : list wfield -> X -> X -> list Z -> Prop :=
  | runs_nil x : runs d sw [] x x []
  | runs_known id ty ts fs rd x x1 x2 ids :
      ty <> STOP -> sw id = Some (ty, rd) -> reads d (rd x) ts x1 -> runs d sw fs x1 x2 ids ->
      runs d sw ((id, ty, ts) :: fs) x x2 (id :: ids)
  | runs_unknown f fs x x2 ids : unknown sw f -> runs d sw fs x x2 ids -> runs d sw (f :: fs) x x2 ids.

Lemma runs_app {X} d (sw : switch (P := P) X) fs1 fs2 x x1 x2 ids1 ids2 :
  runs d sw fs1 x x1 ids1 -> runs d sw fs2 x1 x2 ids2 -> runs d sw (fs1 ++ fs2) x x2 (ids1 ++ ids2).
Proof. induction 1; intros Hr; simpl; [done|by econstructor; eauto|by constructor; auto]. Qed.

(** [fs'] is [fs] with unknown fields here and there. *)
Inductive extends {X} (sw : switch (P := P) X) : list wfield -> list wfield -> Prop :=
  | extends_nil : extends sw [] []
  | extends_same f fs fs' : extends sw fs fs' -> extends sw (f :: fs) (f :: fs')
  | extends_more f fs fs' : unknown sw f -> extends sw fs fs' -> extends sw fs (f :: fs').

Lemma runs_one {X} d (sw : switch (P := P) X) id ty ts rd x x1 :
  ty <> STOP -> sw id = Some (ty, rd) -> reads d (rd x) ts x1 -> runs d sw [(id, ty, ts)] x x1 [id].
Proof. intros. by econstructor; eauto using runs_nil. Qed.
Lemma runs_empty {X} d (sw : switch (P := P) X) (x x' : X) : x = x' -> runs d sw [] x x' [].
Proof. intros <-. constructor. Qed.
Lemma reads_assign {X A} d (r : MF P A) (set : A -> X -> X) x ts a :
  reads d r ts a -> reads d (assign r set x) ts (set a x).
Proof. intros Hr. exact (reads_map d r (fun v => set v x) ts a Hr). Qed.
(** A field left out keeps what [x] has. *)
Lemma runs_opt {X A B} d (sw : switch (P := P) X) id ty (ts : A -> list tok) rd x (set : option B -> X) (g : A -> B) (o : option A) :
  set None = x -> ty <> STOP -> sw id = Some (ty, rd) ->
  (forall v, o = Some v -> reads d (rd x) (ts v) (set (Some (g v)))) ->
  runs d sw (opt_part o (fun v => (id, ty, ts v))) x (set (g <$> o)) (match o with Some _ => [id] | None => [] end).
Proof. intros Hx Hty Hsw Hr. destruct o as [v|]; simpl; [eapply runs_one; eauto|rewrite Hx; constructor]. Qed.
Lemma runs_opt_same {X A} d (sw : switch (P := P) X) id ty (ts : A -> list tok) rd x (set : option A -> X) (o : option A) :
  set None = x -> ty <> STOP -> sw id = Some (ty, rd) ->
  (forall v, o = Some v -> reads d (rd x) (ts v) (set (Some v))) ->
  runs d sw (opt_part o (fun v => (id, ty, ts v))) x (set o) (match o with Some _ => [id] | None => [] end).
Proof. intros. rewrite <- (option_fmap_id o) at 2. by eapply (runs_opt _ _ _ _ _ _ _ set (fun v => v)). Qed.
(** A slice or a map that is left out when nil. *)
Lemma runs_slice {X A B} d (sw : switch (P := P) X) id ty ts rd x (set : option B -> X) (g : A -> B) (o : option A) :
  set None = x -> ty <> STOP -> sw id = Some (ty, rd) ->
  (forall v, o = Some v -> reads d (rd x) ts (set (Some (g v)))) ->
  runs d sw (when_part (bool_decide (is_Some o)) (id, ty, ts)) x (set (g <$> o)) (match o with Some _ => [id] | None => [] end).
Proof. intros Hx Hty Hsw Hr. destruct o as [v|]; simpl; [eapply runs_one; eauto|rewrite Hx; constructor]. Qed.
Lemma runs_slice_same {X A} d (sw : switch (P := P) X) id ty ts rd x (set : option A -> X) (o : option A) :
  set None = x -> ty <> STOP -> sw id = Some (ty, rd) ->
  (forall v, o = Some v -> reads d (rd x) ts (set (Some v))) ->
  runs d sw (when_part (bool_decide (is_Some o)) (id, ty, ts)) x (set o) (match o with Some _ => [id] | None => [] end).
Proof.
  intros Hx Hty Hsw Hr. pose proof (runs_slice d sw id ty ts rd x set (fun v => v) o Hx Hty Hsw Hr) as H.
  by rewrite option_fmap_id in H.
Qed.
Lemma runs_when {X A} d (sw : switch (P := P) X) id ty ts rd x (set : A -> X) (v dflt : A) (b : bool) :
  set dflt = x -> (b = false -> v = dflt) -> ty <> STOP -> sw id = Some (ty, rd) -> reads d (rd x) ts (set v) ->
  runs d sw (when_part b (id, ty, ts)) x (set v) (if b then [id] else []).
Proof.
  intros Hx Hb Hty Hsw Hr. destruct b; simpl; [by eapply runs_one|]. rewrite Hb, Hx by done. constructor.
Qed.

Lemma runs_extends {X} d (sw : switch (P := P) X) fs fs' x x' ids :
  extends sw fs fs' -> runs d sw fs x x' ids -> runs d sw fs' x x' ids.
Proof.
  intros He. revert x ids. induction He as [|f fs fs' _ IH|f fs fs' Hf _ IH]; intros x ids Hr; [done| |].
  - inversion Hr; subst; [by econstructor; eauto|constructor; auto].
  - constructor; auto.
Qed.

(** A codec is right on the values that are [ok]: Write appends their tokens, and
    Read, starting from the constructor's value, gives back the canonical form of
    what was written, however many fields it does not know come with it. *)
Definition roundtrips {X} (d nf : nat) (ok : X -> Prop) (wire : X -> list (list wfield)) (new : X) (canon : X -> X)
    (write : option X -> M P unit) (sw : nat -> switch (P := P) X) (read : nat -> X -> MF P X) : Prop :=
  forall x fuel p n l, ok x -> (nf <= fuel)%nat ->
  (holds p (d + n) l -> Forall fits (struct_toks (concat (wire x))) ->
   exists p', write (Some x) p = (p', inr tt) /\ holds p' (d + n) (l ++ struct_toks (concat (wire x)))) /\
  (forall fs, extends (sw fuel) (concat (wire x)) fs -> (length fs < fuel)%nat ->
   holds p (d + n) (struct_toks fs ++ l) -> Forall fits (struct_toks fs) ->
   exists p', read fuel new p = Some (p', inr (canon x)) /\ holds p' (d + n) l).

Lemma app_field (ty id : Z) ts rest : (KField ty id :: ts ++ [KFieldEnd]) ++ rest = KField ty id :: (ts ++ KFieldEnd :: rest).
Proof. simpl. by rewrite <- app_assoc. Qed.

Lemma not_fits_mid a ts rest : ~ Forall fits ts -> ~ Forall fits (a :: ts ++ rest).
Proof. intros Hf H. inversion H as [|? ? _ H']; subst. by apply Forall_app in H' as [H' _]. Qed.

Lemma read_fields_runs {X} d T (sw : switch (P := P) X) fs x x' ids : runs d sw fs x x' ids -> forall fuel seen,
  (length fs < fuel)%nat ->
  reads d (read_fields T sw fuel seen x) (concat (map field_toks fs) ++ [KStop]) (x', rev ids ++ seen).
Proof.
  induction 1 as [x|id ty ts fs rd x x1 x2 ids Hty Hsw Hrd _ IH|[[id ty] ts] fs x x2 ids (Hty & Hsw & k & Hv & Hk) _ IH];
    intros [|fuel] seen Hf; simpl in Hf; try lia; intros p n l Hp; cbn [read_fields].
  - simpl in Hp. pose proof (law_stop p _ _ Hp) as H. destruct (ReadFieldBegin p) as [p' [[ty id] [e|]]].
    + intros Hfit. by inversion Hfit.
    + destruct H as [-> H]. by rewrite Z.eqb_refl.
  - cbn [map concat field_toks] in Hp |- *. rewrite <- !app_assoc, app_field in Hp.
    pose proof (law_field p _ _ _ _ Hp) as H. destruct (ReadFieldBegin p) as [p1 [[ty' id'] [e|]]].
    { intros Hfit. inversion Hfit. done. }
    destruct H as (-> & -> & H1). destruct (Z.eqb_spec ty STOP); [done|]. rewrite Hsw, Z.eqb_refl.
    assert (reads d (r <-- (x' <-- rd x;; liftF (ret (x', id :: seen)));; _ <-- liftF ReadFieldEnd;;
              read_fields T sw fuel (snd r) (fst r))%go (ts ++ [KFieldEnd] ++ concat (map field_toks fs) ++ [KStop])
              (x2, rev (id :: ids) ++ seen)) as Hrec.
    { eapply reads_bind; [exact (reads_map d (rd x) (fun x' => (x', id :: seen)) ts x1 Hrd)|].
      eapply reads_bind; [apply reads_tok; constructor|]. simpl. rewrite <- app_assoc. apply IH. lia. }
    specialize (Hrec p1 n l). rewrite <- !app_assoc in Hrec. specialize (Hrec H1).
    destruct (bindF _ _ p1) as [[p2 [e|r]]|]; [|done|done].
    intros Hfit. apply Hrec. inversion Hfit as [|? ? _ Hfit']; subst. rewrite <- !app_assoc in Hfit'. exact Hfit'.
  - cbn [map concat field_toks] in Hp |- *. rewrite <- !app_assoc, app_field in Hp.
    pose proof (law_field p _ _ _ _ Hp) as H. destruct (ReadFieldBegin p) as [p1 [[ty' id'] [e|]]].
    { intros Hfit. inversion Hfit. done. }
    destruct H as (-> & -> & H1). destruct (Z.eqb_spec ty STOP); [done|].
    set (skip := (_ <-- liftF (Skip ty);; liftF (ret (x, seen)))%go).
    match goal with |- context [bindF ?m _ p1] => replace m with skip end.
    2: { destruct (sw id) as [[ty' rd]|] eqn:E; [|done]. destruct (Z.eqb_spec ty ty') as [->|]; [by edestruct Hsw|done]. }
    assert (reads d (r <-- skip;; _ <-- liftF ReadFieldEnd;;
              read_fields T sw fuel (snd r) (fst r))%go (ts ++ [KFieldEnd] ++ concat (map field_toks fs) ++ [KStop])
              (x2, rev ids ++ seen)) as Hrec.
    { eapply (reads_bind _ _ _ _ _ (x, seen)); [|eapply reads_bind; [apply reads_tok; constructor|apply IH; lia]].
      unfold skip. rewrite <- (app_nil_r ts). eapply (reads_bind _ _ _ _ _ tt); [|apply reads_ret].
      intros q m r Hq. pose proof (law_skip k ty ts q _ _ Hv Hk Hq) as Hs. unfold liftF.
      destruct (Skip ty q) as [q' [e|[]]]; [done|by split]. }
    specialize (Hrec p1 n l). rewrite <- !app_assoc in Hrec. specialize (Hrec H1).
    destruct (bindF _ _ p1) as [[p2 [e|r]]|]; [|done|done].
    intros Hfit. apply Hrec. inversion Hfit as [|? ? _ Hfit']; subst. rewrite <- !app_assoc in Hfit'. exact Hfit'.
Qed.

Lemma check_required_ok required seen (p : P) :
  Forall (fun r : Z * string => r.1 ∈ seen) required -> check_required required seen p = (p, inr tt : goerr + unit).
Proof.
  induction required as [|[id name] required IH]; intros H; [done|]. apply Forall_cons_1 in H as [Hid H]. simpl in *.
  rewrite bool_decide_eq_true_2 by done. by apply IH.
Qed.

Lemma reads_struct {X} d T required (sw : switch (P := P) X) fuel fs x x' ids :
  runs d sw fs x x' ids -> (length fs < fuel)%nat -> Forall (fun r : Z * string => r.1 ∈ ids) required ->
  reads (S d) (read_struct T required sw fuel x) (struct_toks fs) x'.
Proof.
  intros Hr Hf Hreq. unfold read_struct, struct_toks. apply reads_nested.
  replace (KStruct :: concat (map field_toks fs) ++ [KStop; KStructEnd])
    with ([KStruct] ++ (concat (map field_toks fs) ++ [KStop]) ++ [KStructEnd] ++ []) by (by rewrite <- app_assoc).
  eapply reads_bind; [apply reads_prefix, reads_tok; constructor|].
  eapply reads_bind; [by eapply read_fields_runs|].
  eapply reads_bind; [apply reads_prefix, reads_tok; constructor|]. cbn [fst snd].
  change (@nil tok) with (@nil tok ++ []). eapply (reads_bind _ _ _ _ _ tt); [|apply reads_ret].
  intros p n l Hp. unfold liftF. rewrite check_required_ok; [by split|].
  eapply Forall_impl; [|exact Hreq]. intros r Hin. rewrite app_nil_r. apply list_elem_of_In, in_rev. rewrite rev_involutive. by apply list_elem_of_In.
Qed.
(** A struct that lacks a required field is refused, whatever else it holds. *)
Lemma check_required_missing required seen (p : P) : (exists r, r ∈ required /\ r.1 ∉ seen) ->
  exists name, name ∈ required.*2 /\
    check_required required seen p =
      (p, inl (EProtocol ("Required field " +:+ name +:+ " is not set") (Some (EText ("Required field " +:+ name +:+ " is not set"))))).
Proof.
  induction required as [|[id name] required IH]; intros ([id' name'] & Hin & Hnot); [by apply not_elem_of_nil in Hin|].
  cbn [check_required]. case_bool_decide as Hid; [|exists name; split; [left|done]].
  destruct IH as (nm & Hnm & Hc).
  { exists (id', name'). split; [|done]. apply elem_of_cons in Hin as [[= -> ->]|Hin]; [done|exact Hin]. }
  exists nm. split; [by right|exact Hc].
Qed.

Lemma reads_struct_missing {X} d T required (sw : switch (P := P) X) fuel fs x x' ids p n l :
  runs d sw fs x x' ids -> (length fs < fuel)%nat -> (exists r, r ∈ required /\ r.1 ∉ ids) ->
  holds p (S d + n) (struct_toks fs ++ l) -> Forall fits (struct_toks fs) ->
  exists p' name text, text = "Required field " +:+ name +:+ " is not set" /\ name ∈ required.*2 /\
    read_struct T required sw fuel x p = Some (p', inl (EProtocol text (Some (EText text)))).
Proof.
  intros Hr Hf Hmiss Hp Hfit.
  assert (reads d (_ <-- prefixF (T +:+ " read error: ") (liftF ReadStructBegin);;
      r <-- read_fields T sw fuel [] x;;
      _ <-- prefixF (T +:+ " read struct end error: ") (liftF ReadStructEnd);; liftF (ret r))%go
    (struct_toks fs) (x', rev ids ++ [])) as Hread.
  { unfold struct_toks.
    replace (KStruct :: concat (map field_toks fs) ++ [KStop; KStructEnd])
      with ([KStruct] ++ (concat (map field_toks fs) ++ [KStop]) ++ [KStructEnd] ++ []) by (by rewrite <- app_assoc).
    eapply reads_bind; [apply reads_prefix, reads_tok; constructor|].
    eapply reads_bind; [by eapply read_fields_runs|].
    eapply reads_bind; [apply reads_prefix, reads_tok; constructor|apply reads_ret]. }
  unfold read_struct, nestedF. destruct (law_enter p (d + n) _ Hp) as (p1 & -> & H1).
  specialize (Hread p1 n l H1). revert Hread. unfold bindF.
  destruct (prefixF _ (liftF ReadStructBegin) p1) as [[p2 [e|u]]|]; [done| |done].
  destruct (read_fields T sw fuel [] x p2) as [[p3 [e|r]]|]; [done| |done].
  destruct (prefixF _ (liftF ReadStructEnd) p3) as [[p4 [e|u']]|]; [done| |done].
  unfold liftF, ret. intros [-> _]. cbn [snd fst].
  destruct (check_required_missing required (rev ids ++ []) p4) as (name & Hn & ->).
  { destruct Hmiss as (r & Hin & Hnot). exists r. split; [done|]. rewrite app_nil_r.
    intros H. apply Hnot. apply list_elem_of_In, in_rev. by apply list_elem_of_In. }
  by eexists _, name, _.
Qed.

Lemma roundtrips_intro {X} d nf (ok : X -> Prop) wire new canon write sw T required :
  (forall x, ok x -> writes True (S d) (write (Some x)) (struct_toks (concat (wire x)))) ->
  (forall x fuel, ok x -> (nf <= fuel)%nat -> exists ids, runs d (sw fuel) (concat (wire x)) new (canon x) ids /\
     Forall (fun r : Z * string => r.1 ∈ ids) required) ->
  roundtrips (S d) nf ok wire new canon write sw (fun fuel => read_struct (P := P) T required (sw fuel) fuel).
Proof.
  intros Hw Hr x fuel p n l Hok Hf. split.
  - intros Hp Hfit. specialize (Hw x Hok p n l Hp). destruct (write (Some x) p) as [p' [e|[]]]; [by edestruct Hw|eauto].
  - intros fs He Hl Hp Hfit. destruct (Hr x fuel Hok Hf) as (ids & Hruns & Hreq).
    pose proof (reads_struct d T required (sw fuel) fuel fs new (canon x) ids) as H.
    specialize (H (runs_extends _ _ _ _ _ _ _ He Hruns) Hl Hreq p n l Hp).
    destruct (read_struct T required (sw fuel) fuel new p) as [[p' [e|x']]|]; [done|destruct H as [-> H]; eauto|done].
Qed.
End facts.

(** Round trips of the structs that are blobs, which nest at most [sub_depth]. *)
Class SubstructLaws (P : Type) {TP : TProtocol P} {TL : TProtocolLaws P} {SB : Substructs P} := {
  sub_depth : nat;
  sub_fuel : nat;
  sub_toks : string -> option blob -> list tok;
  sub_writes strict d name b : (sub_depth <= d)%nat -> writes strict d (sub_Write name b) (sub_toks name b);
  sub_nest : nat;
  sub_value name b : value sub_nest STRUCT (sub_toks name b);
  sub_reads d name fuel b : (sub_depth <= d)%nat -> (sub_fuel <= fuel)%nat ->
    reads d (sub_Read name fuel) (sub_toks name (Some b)) b;
}.

(** ** Automation

    The codec of a struct is proved field by field: [write_fields] for its Write,
    [run_one], [run_opt] and [run_when] for the fields of its Read. The lemmas on
    the structs it contains are in the hint database [wire]. *)

Create HintDb wire discriminated.
Create HintDb wire_value discriminated.

Lemma length_opt_part {A} (o : option A) f : (length (opt_part o f) <= 1)%nat.
Proof. by destruct o; simpl; lia. Qed.
Lemma length_when_part b f : (length (when_part b f) <= 1)%nat.
Proof. destruct b; simpl; lia. Qed.
Lemma length_parts (fs : list (list wfield)) :
  Forall (fun f => length f <= 1)%nat fs -> (length (concat fs) <= length fs)%nat.
Proof. induction 1; simpl; [lia|]. rewrite length_app. lia. Qed.

Ltac wire_length :=
  eapply Nat.le_lt_trans; [apply length_parts|simpl; lia];
  repeat (apply Forall_cons; [first [apply length_opt_part | apply length_when_part | simpl; lia]|]);
  apply Forall_nil.

#[export] Hint Resolve sub_writes sub_reads : wire.
#[export] Hint Resolve sub_value : wire_value.

(** That the tokens of a struct are a value, field by field. *)
Ltac value_of :=
  first [ constructor; fail
        | eapply value_le; [apply strings_toks_value|lia]
        | eapply value_le; [apply map_toks_value|lia]
        | eapply value_le; [apply locations_toks_value|lia]
        | eapply value_le; [solve [eauto with wire_value]|lia]
        | apply list_toks_value; intros ?; value_of ].
Ltac struct_value :=
  apply value_fields;
  repeat (apply Forall_cons; [first [apply field_ok_opt; intros ? | apply field_ok_when | idtac];
                              apply field_ok_one; [discriminate|value_of]|]);
  apply Forall_nil.
#[export] Hint Extern 1 (_ <= _)%nat => lia : wire.
(** The validity of a struct, from the one that contains it. *)
Ltac write_valid :=
  intros ? ? [= <-];
  match goal with
  | H : ?s -> forall _, Some _ = Some _ -> _, Hs : ?s |- _ => exact (H Hs _ eq_refl _ ltac:(eassumption))
  end.
(** The same, when the container is known to be valid. *)
Ltac write_valid_in :=
  let Hs := fresh in let Hv := fresh in
  intros Hs ? Hv;
  match goal with H : ?s -> _, Hs' : ?s |- _ => specialize (H Hs'); destruct_and? H end;
  match goal with
  | H : forall _, _ = Some _ -> ?ok _ |- ?ok _ => apply H; first [eassumption | by rewrite <- Hv]
  | H : ?A |- ?A => exact H
  | H : Forall _ (elems ?l), Hin : _ ∈ elems ?l |- _ => exact (proj1 (list.Forall_forall _ _) H _ Hin _ Hv)
  end.
#[export] Hint Extern 2 => first [write_valid | write_valid_in] : wire.

Ltac write_value :=
  first [ apply writes_scalar; constructor
        | apply writes_strings
        | apply writes_string_map
        | apply writes_locations; match goal with H : ?s -> forall _, Some _ = Some _ -> _ |- _ =>
            let Hs := fresh in intros Hs; exact (H Hs _ eq_refl) end
        | apply writes_list; intros ? ?; write_value
        | apply writes_prefix; eauto with wire ].
Ltac write_field_part :=
  first [ apply writes_opt; intros ? ?; apply writes_field; write_value
        | apply writes_when; apply writes_field; write_value
        | apply writes_one, writes_field; write_value ].
Ltac write_fields := repeat (apply Forall2_cons; [write_field_part|]); apply Forall2_nil.

Ltac read_value :=
  first [ apply reads_scalar; constructor
        | apply reads_strings
        | apply reads_string_map
        | apply reads_locations
        | eapply reads_scalars; intros; constructor
        | eapply (reads_map _ _ Some); apply reads_scalar; constructor
        | eapply reads_list; intros ? _; read_value
        | eapply reads_prefix; eauto with wire
        | eapply (reads_map _ _ Some); eapply reads_prefix; eauto with wire ].
Ltac run_one :=
  eapply runs_app; [eapply runs_one; [discriminate|reflexivity|eapply reads_assign; read_value]|].
Ltac run_read := refine (reads_assign _ _ _ _ _ _ _); read_value.
Ltac run_opt set g :=
  match goal with |- runs _ _ _ ?x _ _ =>
    eapply runs_app;
    [eapply (runs_opt _ _ _ _ _ _ x (fun o => set o x) g); [reflexivity|discriminate|reflexivity|intros ? ?; run_read]|]
  end.
Ltac run_opt_same set :=
  match goal with |- runs _ _ _ ?x _ _ =>
    eapply runs_app;
    [eapply (runs_opt_same _ _ _ _ _ _ x (fun o => set o x)); [reflexivity|discriminate|reflexivity|intros ? ?; run_read]|]
  end.
Ltac run_slice set g :=
  match goal with |- runs _ _ _ ?x _ _ =>
    eapply runs_app;
    [eapply (runs_slice _ _ _ _ _ _ x (fun o => set o x) g);
     [reflexivity|discriminate|reflexivity|let H := fresh in intros ? H; rewrite H; run_read]|]
  end.
Ltac run_slice_same set :=
  match goal with |- runs _ _ _ ?x _ _ =>
    eapply runs_app;
    [eapply (runs_slice_same _ _ _ _ _ _ x (fun o => set o x));
     [reflexivity|discriminate|reflexivity|let H := fresh in intros ? H; rewrite H; run_read]|]
  end.
Ltac when_default :=
  let Hb := fresh in intros Hb; apply negb_false_iff in Hb;
  first [apply Z.eqb_eq in Hb | apply String.eqb_eq in Hb | apply eqb_prop in Hb]; rewrite Hb; reflexivity.
Ltac run_when set v dflt :=
  match goal with |- runs _ _ _ ?x _ _ =>
    eapply runs_app;
    [eapply (runs_when _ _ _ _ _ _ x (fun a => set a x) v dflt);
     [reflexivity|when_default|discriminate|reflexivity|run_read]|]
  end.
(** Lists whose elements must not be nil. *)
Ltac read_full g :=
  eapply (reads_list _ _ _ _ g); let o := fresh in let Ho := fresh in intros o Ho;
  match goal with H : context [is_Some] |- _ =>
    let v := fresh "v" in
    assert (exists v, o = Some v) as [v ->] by
      (first [destruct H as [H _]; exact (proj1 (list.Forall_forall _ _) H o Ho) | exact (proj1 (list.Forall_forall _ _) H o Ho)
             | exact (proj1 (list.Forall_forall _ _) (proj2 H) o Ho)])
  end; eapply (reads_map _ _ Some); eapply reads_prefix; eauto with wire.
(** Lists whose elements are there, and readable. *)
Ltac read_full_in g :=
  eapply (reads_list _ _ _ _ g); let o := fresh in let Ho := fresh in intros o Ho;
  match goal with H : Forall _ (elems _) |- _ =>
    let v := fresh "v" in let Hv := fresh in destruct (proj1 (list.Forall_forall _ _) H o Ho) as (v & -> & Hv)
  end; eapply (reads_map _ _ Some); eapply reads_prefix; eauto with wire.
Ltac run_full_in g :=
  eapply runs_app; [eapply runs_one; [discriminate|reflexivity|eapply reads_assign; read_full_in g]|].
Ltac run_slice_full_in set g :=
  match goal with |- runs _ _ _ ?x _ _ =>
    eapply runs_app;
    [eapply (runs_slice _ _ _ _ _ _ x (fun o => set o x) (map g));
     [reflexivity|discriminate|reflexivity|
      let H := fresh in intros ? H; rewrite H in *; refine (reads_assign _ _ _ _ _ _ _); read_full_in g]|]
  end.
(** A pointer that is always written, and must be there. *)
Ltac run_there g :=
  match goal with H : exists _, _ = Some _ /\ _ |- _ =>
    let v := fresh "v" in let E := fresh "E" in let Hv := fresh in destruct H as (v & E & Hv); rewrite E
  end; run_one.
Ltac run_full g :=
  eapply runs_app; [eapply runs_one; [discriminate|reflexivity|eapply reads_assign; read_full g]|].
Ltac run_end := apply runs_empty; reflexivity.

(** *** A struct's proofs *)

(** Into a struct's Write, past the nil one. *)
Ltac enter_struct :=
  intros; lazymatch goal with |- writes _ ?d (_ ?p) _ =>
    destruct d as [|d]; [lia|]; destruct p as [p|]; [|apply writes_struct_nil]
  end; apply writes_struct.
(** The same, of a struct that is only written when it is valid. *)
Ltac enter_valid ok :=
  intros; lazymatch goal with |- writes _ ?d (_ ?p) _ =>
    destruct d as [|d]; [lia|]; destruct p as [p|]; [|apply writes_struct_nil]
  end;
  lazymatch goal with |- writes ?strict _ (_ (Some ?p)) _ =>
    match goal with Hv : _ |- _ =>
      assert (strict -> ok p) as Hok by (let Hs := fresh in intros Hs; exact (Hv Hs _ eq_refl)); clear Hv
    end
  end;
  let h := get_head ok in unfold h in *; apply writes_struct.
(** A struct's Read, from what its fields do. *)
Tactic Notation "struct_reads" open_constr(runs) reference(wire) :=
  intros;
  lazymatch goal with |- reads ?d (_ ?fuel _) (_ (Some ?p)) _ =>
    destruct d as [|d]; [lia|]; destruct (runs d fuel p) as [ids Hr]; [first [lia|done]..|]
  end;
  destruct_and?; eapply reads_struct; [eassumption|unfold wire; wire_length|repeat constructor; done].
Tactic Notation "struct_is_value" reference(toks) reference(wire) :=
  lazymatch goal with |- value _ _ (_ ?p) => destruct p as [p|]; [|apply (value_fields _ []); constructor] end;
  unfold toks, wire; struct_value.
