(* ===== verification/CodecTable.v ===== *)
(** * CodecTable: the generated Write and Read of tables, partitions, databases

    Of gen/hive_metastore/hive_metastore.go, one definition per method, from the
    struct of a column up to Table, Partition, Database and Catalog. A setter
    [X_set_F] is the assignment [p.F = v] of the method that reads the field; a
    struct the client never looks into is written and read by [Substructs]. *)

From S2P Require Import Prelude Errors GoMonad Types Transport Wire Thrift.

Section codec.
Context {P : Type} {TP : TProtocol P} {MR : MapRange} {SB : Substructs P}.

(** ** FieldSchema *)

Local Abbreviation T_FieldSchema := "*hive_metastore.FieldSchema".
Definition FieldSchema_set_Name v '(mk_wFieldSchema _ x2 x3) : wFieldSchema :=
  mk_wFieldSchema v x2 x3.
Definition FieldSchema_set_Type v '(mk_wFieldSchema x1 _ x3) : wFieldSchema :=
  mk_wFieldSchema x1 v x3.
Definition FieldSchema_set_Comment v '(mk_wFieldSchema x1 x2 _) : wFieldSchema :=
  mk_wFieldSchema x1 x2 v.

Definition FieldSchema_writeField1 (p : wFieldSchema) : M P unit :=
  (write_field T_FieldSchema "name" STRING 1 (write_scalar T_FieldSchema "name" 1 (WriteString (wFieldSchema_Name p))))%go.
Definition FieldSchema_ReadField1 : wFieldSchema -> MF P wFieldSchema :=
  assign (read_scalar 1 ReadString)%go FieldSchema_set_Name.
Definition FieldSchema_writeField2 (p : wFieldSchema) : M P unit :=
  (write_field T_FieldSchema "type" STRING 2 (write_scalar T_FieldSchema "type" 2 (WriteString (wFieldSchema_Type p))))%go.
Definition FieldSchema_ReadField2 : wFieldSchema -> MF P wFieldSchema :=
  assign (read_scalar 2 ReadString)%go FieldSchema_set_Type.
Definition FieldSchema_writeField3 (p : wFieldSchema) : M P unit :=
  (write_field T_FieldSchema "comment" STRING 3 (write_scalar T_FieldSchema "comment" 3 (WriteString (wFieldSchema_Comment p))))%go.
Definition FieldSchema_ReadField3 : wFieldSchema -> MF P wFieldSchema :=
  assign (read_scalar 3 ReadString)%go FieldSchema_set_Comment.
Definition FieldSchema_Write (p : option wFieldSchema) : M P unit :=
  write_struct T_FieldSchema "FieldSchema" ((fun p => [FieldSchema_writeField1 p; FieldSchema_writeField2 p; FieldSchema_writeField3 p]) <$> p).
Definition FieldSchema_switch : switch wFieldSchema := fun fieldId =>
  match fieldId with
  | 1 => Some (STRING, FieldSchema_ReadField1)
  | 2 => Some (STRING, FieldSchema_ReadField2)
  | 3 => Some (STRING, FieldSchema_ReadField3)
  | _ => None
  end.
Definition FieldSchema_Read (fuel : nat) : wFieldSchema -> MF P wFieldSchema :=
  read_struct T_FieldSchema [] FieldSchema_switch fuel.

(** ** Order *)

Local Abbreviation T_Order := "*hive_metastore.Order".
Definition Order_set_Col v '(mk_wOrder _ x2) : wOrder :=
  mk_wOrder v x2.
Definition Order_set_Order v '(mk_wOrder x1 _) : wOrder :=
  mk_wOrder x1 v.

Definition Order_writeField1 (p : wOrder) : M P unit :=
  (write_field T_Order "col" STRING 1 (write_scalar T_Order "col" 1 (WriteString (wOrder_Col p))))%go.
Definition Order_ReadField1 : wOrder -> MF P wOrder :=
  assign (read_scalar 1 ReadString)%go Order_set_Col.
Definition Order_writeField2 (p : wOrder) : M P unit :=
  (write_field T_Order "order" I32 2 (write_scalar T_Order "order" 2 (WriteI32 (wOrder_Order p))))%go.
Definition Order_ReadField2 : wOrder -> MF P wOrder :=
  assign (read_scalar 2 ReadI32)%go Order_set_Order.
Definition Order_Write (p : option wOrder) : M P unit :=
  write_struct T_Order "Order" ((fun p => [Order_writeField1 p; Order_writeField2 p]) <$> p).
Definition Order_switch : switch wOrder := fun fieldId =>
  match fieldId with
  | 1 => Some (STRING, Order_ReadField1)
  | 2 => Some (I32, Order_ReadField2)
  | _ => None
  end.
Definition Order_Read (fuel : nat) : wOrder -> MF P wOrder :=
  read_struct T_Order [] Order_switch fuel.

(** ** SerDeInfo *)

Local Abbreviation T_SerDeInfo := "*hive_metastore.SerDeInfo".
Definition SerDeInfo_set_Name v '(mk_wSerDeInfo _ x2 x3 x4 x5 x6 x7) : wSerDeInfo :=
  mk_wSerDeInfo v x2 x3 x4 x5 x6 x7.
Definition SerDeInfo_set_SerializationLib v '(mk_wSerDeInfo x1 _ x3 x4 x5 x6 x7) : wSerDeInfo :=
  mk_wSerDeInfo x1 v x3 x4 x5 x6 x7.
Definition SerDeInfo_set_Parameters v '(mk_wSerDeInfo x1 x2 _ x4 x5 x6 x7) : wSerDeInfo :=
  mk_wSerDeInfo x1 x2 v x4 x5 x6 x7.
Definition SerDeInfo_set_Description v '(mk_wSerDeInfo x1 x2 x3 _ x5 x6 x7) : wSerDeInfo :=
  mk_wSerDeInfo x1 x2 x3 v x5 x6 x7.
Definition SerDeInfo_set_SerializerClass v '(mk_wSerDeInfo x1 x2 x3 x4 _ x6 x7) : wSerDeInfo :=
  mk_wSerDeInfo x1 x2 x3 x4 v x6 x7.
Definition SerDeInfo_set_DeserializerClass v '(mk_wSerDeInfo x1 x2 x3 x4 x5 _ x7) : wSerDeInfo :=
  mk_wSerDeInfo x1 x2 x3 x4 x5 v x7.
Definition SerDeInfo_set_SerdeType v '(mk_wSerDeInfo x1 x2 x3 x4 x5 x6 _) : wSerDeInfo :=
  mk_wSerDeInfo x1 x2 x3 x4 x5 x6 v.

Definition SerDeInfo_writeField1 (p : wSerDeInfo) : M P unit :=
  (write_field T_SerDeInfo "name" STRING 1 (write_scalar T_SerDeInfo "name" 1 (WriteString (wSerDeInfo_Name p))))%go.
Definition SerDeInfo_ReadField1 : wSerDeInfo -> MF P wSerDeInfo :=
  assign (read_scalar 1 ReadString)%go SerDeInfo_set_Name.
Definition SerDeInfo_writeField2 (p : wSerDeInfo) : M P unit :=
  (write_field T_SerDeInfo "serializationLib" STRING 2 (write_scalar T_SerDeInfo "serializationLib" 2 (WriteString (wSerDeInfo_SerializationLib p))))%go.
Definition SerDeInfo_ReadField2 : wSerDeInfo -> MF P wSerDeInfo :=
  assign (read_scalar 2 ReadString)%go SerDeInfo_set_SerializationLib.
Definition SerDeInfo_writeField3 (p : wSerDeInfo) : M P unit :=
  (write_field T_SerDeInfo "parameters" MAP 3 (write_string_map T_SerDeInfo (wSerDeInfo_Parameters p)))%go.
Definition SerDeInfo_ReadField3 : wSerDeInfo -> MF P wSerDeInfo :=
  assign (read_string_map)%go SerDeInfo_set_Parameters.
Definition SerDeInfo_writeField4 (p : wSerDeInfo) : M P unit :=
  (opt (wSerDeInfo_Description p) (fun v =>
    write_field T_SerDeInfo "description" STRING 4 (write_scalar T_SerDeInfo "description" 4 (WriteString v))))%go.
Definition SerDeInfo_ReadField4 : wSerDeInfo -> MF P wSerDeInfo :=
  assign (read_scalar 4 ReadString)%go (fun v => SerDeInfo_set_Description (Some v)).
Definition SerDeInfo_writeField5 (p : wSerDeInfo) : M P unit :=
  (opt (wSerDeInfo_SerializerClass p) (fun v =>
    write_field T_SerDeInfo "serializerClass" STRING 5 (write_scalar T_SerDeInfo "serializerClass" 5 (WriteString v))))%go.
Definition SerDeInfo_ReadField5 : wSerDeInfo -> MF P wSerDeInfo :=
  assign (read_scalar 5 ReadString)%go (fun v => SerDeInfo_set_SerializerClass (Some v)).
Definition SerDeInfo_writeField6 (p : wSerDeInfo) : M P unit :=
  (opt (wSerDeInfo_DeserializerClass p) (fun v =>
    write_field T_SerDeInfo "deserializerClass" STRING 6 (write_scalar T_SerDeInfo "deserializerClass" 6 (WriteString v))))%go.
Definition SerDeInfo_ReadField6 : wSerDeInfo -> MF P wSerDeInfo :=
  assign (read_scalar 6 ReadString)%go (fun v => SerDeInfo_set_DeserializerClass (Some v)).
Definition SerDeInfo_writeField7 (p : wSerDeInfo) : M P unit :=
  (opt (wSerDeInfo_SerdeType p) (fun v =>
    write_field T_SerDeInfo "serdeType" I32 7 (write_scalar T_SerDeInfo "serdeType" 7 (WriteI32 (int32 v)))))%go.
Definition SerDeInfo_ReadField7 : wSerDeInfo -> MF P wSerDeInfo :=
  assign (read_scalar 7 ReadI32)%go (fun v => SerDeInfo_set_SerdeType (Some v)).
Definition SerDeInfo_Write (p : option wSerDeInfo) : M P unit :=
  write_struct T_SerDeInfo "SerDeInfo" ((fun p => [SerDeInfo_writeField1 p; SerDeInfo_writeField2 p; SerDeInfo_writeField3 p; SerDeInfo_writeField4 p; SerDeInfo_writeField5 p; SerDeInfo_writeField6 p; SerDeInfo_writeField7 p]) <$> p).
Definition SerDeInfo_switch : switch wSerDeInfo := fun fieldId =>
  match fieldId with
  | 1 => Some (STRING, SerDeInfo_ReadField1)
  | 2 => Some (STRING, SerDeInfo_ReadField2)
  | 3 => Some (MAP, SerDeInfo_ReadField3)
  | 4 => Some (STRING, SerDeInfo_ReadField4)
  | 5 => Some (STRING, SerDeInfo_ReadField5)
  | 6 => Some (STRING, SerDeInfo_ReadField6)
  | 7 => Some (I32, SerDeInfo_ReadField7)
  | _ => None
  end.
Definition SerDeInfo_Read (fuel : nat) : wSerDeInfo -> MF P wSerDeInfo :=
  read_struct T_SerDeInfo [] SerDeInfo_switch fuel.

(** ** SkewedInfo *)

Local Abbreviation T_SkewedInfo := "*hive_metastore.SkewedInfo".
Definition SkewedInfo_set_SkewedColNames v '(mk_wSkewedInfo _ x2 x3) : wSkewedInfo :=
  mk_wSkewedInfo v x2 x3.
Definition SkewedInfo_set_SkewedColValues v '(mk_wSkewedInfo x1 _ x3) : wSkewedInfo :=
  mk_wSkewedInfo x1 v x3.
Definition SkewedInfo_set_SkewedColValueLocationMaps v '(mk_wSkewedInfo x1 x2 _) : wSkewedInfo :=
  mk_wSkewedInfo x1 x2 v.

Definition SkewedInfo_writeField1 (p : wSkewedInfo) : M P unit :=
  (write_field T_SkewedInfo "skewedColNames" LIST 1 (write_strings T_SkewedInfo (wSkewedInfo_SkewedColNames p)))%go.
Definition SkewedInfo_ReadField1 : wSkewedInfo -> MF P wSkewedInfo :=
  assign (read_strings)%go SkewedInfo_set_SkewedColNames.
Definition SkewedInfo_writeField2 (p : wSkewedInfo) : M P unit :=
  (write_field T_SkewedInfo "skewedColValues" LIST 2 (write_list LIST (fun v => write_strings T_SkewedInfo v) (wSkewedInfo_SkewedColValues p)))%go.
Definition SkewedInfo_ReadField2 : wSkewedInfo -> MF P wSkewedInfo :=
  assign (read_list read_strings)%go SkewedInfo_set_SkewedColValues.
Definition SkewedInfo_writeField3 (p : wSkewedInfo) : M P unit :=
  (write_field T_SkewedInfo "skewedColValueLocationMaps" MAP 3 (write_locations T_SkewedInfo "p.SkewedColValueLocationMaps" (wSkewedInfo_SkewedColValueLocationMaps p)))%go.
Definition SkewedInfo_ReadField3 : wSkewedInfo -> MF P wSkewedInfo :=
  assign (read_locations)%go SkewedInfo_set_SkewedColValueLocationMaps.
Definition SkewedInfo_Write (p : option wSkewedInfo) : M P unit :=
  write_struct T_SkewedInfo "SkewedInfo" ((fun p => [SkewedInfo_writeField1 p; SkewedInfo_writeField2 p; SkewedInfo_writeField3 p]) <$> p).
Definition SkewedInfo_switch : switch wSkewedInfo := fun fieldId =>
  match fieldId with
  | 1 => Some (LIST, SkewedInfo_ReadField1)
  | 2 => Some (LIST, SkewedInfo_ReadField2)
  | 3 => Some (MAP, SkewedInfo_ReadField3)
  | _ => None
  end.
Definition SkewedInfo_Read (fuel : nat) : wSkewedInfo -> MF P wSkewedInfo :=
  read_struct T_SkewedInfo [] SkewedInfo_switch fuel.

(** ** StorageDescriptor *)

Local Abbreviation T_StorageDescriptor := "*hive_metastore.StorageDescriptor".
Definition StorageDescriptor_set_Cols v '(mk_wStorageDescriptor _ x2 x3 x4 x5 x6 x7 x8 x9 x10 x11 x12) : wStorageDescriptor :=
  mk_wStorageDescriptor v x2 x3 x4 x5 x6 x7 x8 x9 x10 x11 x12.
Definition StorageDescriptor_set_Location v '(mk_wStorageDescriptor x1 _ x3 x4 x5 x6 x7 x8 x9 x10 x11 x12) : wStorageDescriptor :=
  mk_wStorageDescriptor x1 v x3 x4 x5 x6 x7 x8 x9 x10 x11 x12.
Definition StorageDescriptor_set_InputFormat v '(mk_wStorageDescriptor x1 x2 _ x4 x5 x6 x7 x8 x9 x10 x11 x12) : wStorageDescriptor :=
  mk_wStorageDescriptor x1 x2 v x4 x5 x6 x7 x8 x9 x10 x11 x12.
Definition StorageDescriptor_set_OutputFormat v '(mk_wStorageDescriptor x1 x2 x3 _ x5 x6 x7 x8 x9 x10 x11 x12) : wStorageDescriptor :=
  mk_wStorageDescriptor x1 x2 x3 v x5 x6 x7 x8 x9 x10 x11 x12.
Definition StorageDescriptor_set_Compressed v '(mk_wStorageDescriptor x1 x2 x3 x4 _ x6 x7 x8 x9 x10 x11 x12) : wStorageDescriptor :=
  mk_wStorageDescriptor x1 x2 x3 x4 v x6 x7 x8 x9 x10 x11 x12.
Definition StorageDescriptor_set_NumBuckets v '(mk_wStorageDescriptor x1 x2 x3 x4 x5 _ x7 x8 x9 x10 x11 x12) : wStorageDescriptor :=
  mk_wStorageDescriptor x1 x2 x3 x4 x5 v x7 x8 x9 x10 x11 x12.
Definition StorageDescriptor_set_SerdeInfo v '(mk_wStorageDescriptor x1 x2 x3 x4 x5 x6 _ x8 x9 x10 x11 x12) : wStorageDescriptor :=
  mk_wStorageDescriptor x1 x2 x3 x4 x5 x6 v x8 x9 x10 x11 x12.
Definition StorageDescriptor_set_BucketCols v '(mk_wStorageDescriptor x1 x2 x3 x4 x5 x6 x7 _ x9 x10 x11 x12) : wStorageDescriptor :=
  mk_wStorageDescriptor x1 x2 x3 x4 x5 x6 x7 v x9 x10 x11 x12.
Definition StorageDescriptor_set_SortCols v '(mk_wStorageDescriptor x1 x2 x3 x4 x5 x6 x7 x8 _ x10 x11 x12) : wStorageDescriptor :=
  mk_wStorageDescriptor x1 x2 x3 x4 x5 x6 x7 x8 v x10 x11 x12.
Definition StorageDescriptor_set_Parameters v '(mk_wStorageDescriptor x1 x2 x3 x4 x5 x6 x7 x8 x9 _ x11 x12) : wStorageDescriptor :=
  mk_wStorageDescriptor x1 x2 x3 x4 x5 x6 x7 x8 x9 v x11 x12.
Definition StorageDescriptor_set_SkewedInfo v '(mk_wStorageDescriptor x1 x2 x3 x4 x5 x6 x7 x8 x9 x10 _ x12) : wStorageDescriptor :=
  mk_wStorageDescriptor x1 x2 x3 x4 x5 x6 x7 x8 x9 x10 v x12.
Definition StorageDescriptor_set_StoredAsSubDirectories v '(mk_wStorageDescriptor x1 x2 x3 x4 x5 x6 x7 x8 x9 x10 x11 _) : wStorageDescriptor :=
  mk_wStorageDescriptor x1 x2 x3 x4 x5 x6 x7 x8 x9 x10 x11 v.

Definition StorageDescriptor_writeField1 (p : wStorageDescriptor) : M P unit :=
  (write_field T_StorageDescriptor "cols" LIST 1 (write_list STRUCT (fun v => write_sub "*hive_metastore.FieldSchema" (FieldSchema_Write v)) (wStorageDescriptor_Cols p)))%go.
Definition StorageDescriptor_ReadField1 (fuel : nat) : wStorageDescriptor -> MF P wStorageDescriptor :=
  assign (read_list (v <-- read_sub "*hive_metastore.FieldSchema" (FieldSchema_Read fuel NewFieldSchema);; liftF (ret (Some v))))%go StorageDescriptor_set_Cols.
Definition StorageDescriptor_writeField2 (p : wStorageDescriptor) : M P unit :=
  (write_field T_StorageDescriptor "location" STRING 2 (write_scalar T_StorageDescriptor "location" 2 (WriteString (wStorageDescriptor_Location p))))%go.
Definition StorageDescriptor_ReadField2 : wStorageDescriptor -> MF P wStorageDescriptor :=
  assign (read_scalar 2 ReadString)%go StorageDescriptor_set_Location.
Definition StorageDescriptor_writeField3 (p : wStorageDescriptor) : M P unit :=
  (write_field T_StorageDescriptor "inputFormat" STRING 3 (write_scalar T_StorageDescriptor "inputFormat" 3 (WriteString (wStorageDescriptor_InputFormat p))))%go.
Definition StorageDescriptor_ReadField3 : wStorageDescriptor -> MF P wStorageDescriptor :=
  assign (read_scalar 3 ReadString)%go StorageDescriptor_set_InputFormat.
Definition StorageDescriptor_writeField4 (p : wStorageDescriptor) : M P unit :=
  (write_field T_StorageDescriptor "outputFormat" STRING 4 (write_scalar T_StorageDescriptor "outputFormat" 4 (WriteString (wStorageDescriptor_OutputFormat p))))%go.
Definition StorageDescriptor_ReadField4 : wStorageDescriptor -> MF P wStorageDescriptor :=
  assign (read_scalar 4 ReadString)%go StorageDescriptor_set_OutputFormat.
Definition StorageDescriptor_writeField5 (p : wStorageDescriptor) : M P unit :=
  (write_field T_StorageDescriptor "compressed" BOOL 5 (write_scalar T_StorageDescriptor "compressed" 5 (WriteBool (wStorageDescriptor_Compressed p))))%go.
Definition StorageDescriptor_ReadField5 : wStorageDescriptor -> MF P wStorageDescriptor :=
  assign (read_scalar 5 ReadBool)%go StorageDescriptor_set_Compressed.
Definition StorageDescriptor_writeField6 (p : wStorageDescriptor) : M P unit :=
  (write_field T_StorageDescriptor "numBuckets" I32 6 (write_scalar T_StorageDescriptor "numBuckets" 6 (WriteI32 (wStorageDescriptor_NumBuckets p))))%go.
Definition StorageDescriptor_ReadField6 : wStorageDescriptor -> MF P wStorageDescriptor :=
  assign (read_scalar 6 ReadI32)%go StorageDescriptor_set_NumBuckets.
Definition StorageDescriptor_writeField7 (p : wStorageDescriptor) : M P unit :=
  (opt (wStorageDescriptor_SerdeInfo p) (fun v =>
    write_field T_StorageDescriptor "serdeInfo" STRUCT 7 (write_sub "*hive_metastore.SerDeInfo" (SerDeInfo_Write (Some v)))))%go.
Definition StorageDescriptor_ReadField7 (fuel : nat) : wStorageDescriptor -> MF P wStorageDescriptor :=
  assign (read_sub "*hive_metastore.SerDeInfo" (SerDeInfo_Read fuel NewSerDeInfo))%go (fun v => StorageDescriptor_set_SerdeInfo (Some v)).
Definition StorageDescriptor_writeField8 (p : wStorageDescriptor) : M P unit :=
  (write_field T_StorageDescriptor "bucketCols" LIST 8 (write_strings T_StorageDescriptor (wStorageDescriptor_BucketCols p)))%go.
Definition StorageDescriptor_ReadField8 : wStorageDescriptor -> MF P wStorageDescriptor :=
  assign (read_strings)%go StorageDescriptor_set_BucketCols.
Definition StorageDescriptor_writeField9 (p : wStorageDescriptor) : M P unit :=
  (write_field T_StorageDescriptor "sortCols" LIST 9 (write_list STRUCT (fun v => write_sub "*hive_metastore.Order" (Order_Write v)) (wStorageDescriptor_SortCols p)))%go.
Definition StorageDescriptor_ReadField9 (fuel : nat) : wStorageDescriptor -> MF P wStorageDescriptor :=
  assign (read_list (v <-- read_sub "*hive_metastore.Order" (Order_Read fuel NewOrder);; liftF (ret (Some v))))%go StorageDescriptor_set_SortCols.
Definition StorageDescriptor_writeField10 (p : wStorageDescriptor) : M P unit :=
  (write_field T_StorageDescriptor "parameters" MAP 10 (write_string_map T_StorageDescriptor (wStorageDescriptor_Parameters p)))%go.
Definition StorageDescriptor_ReadField10 : wStorageDescriptor -> MF P wStorageDescriptor :=
  assign (read_string_map)%go StorageDescriptor_set_Parameters.
Definition StorageDescriptor_writeField11 (p : wStorageDescriptor) : M P unit :=
  (opt (wStorageDescriptor_SkewedInfo p) (fun v =>
    write_field T_StorageDescriptor "skewedInfo" STRUCT 11 (write_sub "*hive_metastore.SkewedInfo" (SkewedInfo_Write (Some v)))))%go.
Definition StorageDescriptor_ReadField11 (fuel : nat) : wStorageDescriptor -> MF P wStorageDescriptor :=
  assign (read_sub "*hive_metastore.SkewedInfo" (SkewedInfo_Read fuel NewSkewedInfo))%go (fun v => StorageDescriptor_set_SkewedInfo (Some v)).
Definition StorageDescriptor_writeField12 (p : wStorageDescriptor) : M P unit :=
  (opt (wStorageDescriptor_StoredAsSubDirectories p) (fun v =>
    write_field T_StorageDescriptor "storedAsSubDirectories" BOOL 12 (write_scalar T_StorageDescriptor "storedAsSubDirectories" 12 (WriteBool v))))%go.
Definition StorageDescriptor_ReadField12 : wStorageDescriptor -> MF P wStorageDescriptor :=
  assign (read_scalar 12 ReadBool)%go (fun v => StorageDescriptor_set_StoredAsSubDirectories (Some v)).
Definition StorageDescriptor_Write (p : option wStorageDescriptor) : M P unit :=
  write_struct T_StorageDescriptor "StorageDescriptor" ((fun p => [StorageDescriptor_writeField1 p; StorageDescriptor_writeField2 p; StorageDescriptor_writeField3 p; StorageDescriptor_writeField4 p; StorageDescriptor_writeField5 p; StorageDescriptor_writeField6 p; StorageDescriptor_writeField7 p; StorageDescriptor_writeField8 p; StorageDescriptor_writeField9 p; StorageDescriptor_writeField10 p; StorageDescriptor_writeField11 p; StorageDescriptor_writeField12 p]) <$> p).
Definition StorageDescriptor_switch (fuel : nat) : switch wStorageDescriptor := fun fieldId =>
  match fieldId with
  | 1 => Some (LIST, StorageDescriptor_ReadField1 fuel)
  | 2 => Some (STRING, StorageDescriptor_ReadField2)
  | 3 => Some (STRING, StorageDescriptor_ReadField3)
  | 4 => Some (STRING, StorageDescriptor_ReadField4)
  | 5 => Some (BOOL, StorageDescriptor_ReadField5)
  | 6 => Some (I32, StorageDescriptor_ReadField6)
  | 7 => Some (STRUCT, StorageDescriptor_ReadField7 fuel)
  | 8 => Some (LIST, StorageDescriptor_ReadField8)
  | 9 => Some (LIST, StorageDescriptor_ReadField9 fuel)
  | 10 => Some (MAP, StorageDescriptor_ReadField10)
  | 11 => Some (STRUCT, StorageDescriptor_ReadField11 fuel)
  | 12 => Some (BOOL, StorageDescriptor_ReadField12)
  | _ => None
  end.
Definition StorageDescriptor_Read (fuel : nat) : wStorageDescriptor -> MF P wStorageDescriptor :=
  read_struct T_StorageDescriptor [] (StorageDescriptor_switch fuel) fuel.

(** ** Catalog *)

Local Abbreviation T_Catalog := "*hive_metastore.Catalog".
Definition Catalog_set_Name v '(mk_wCatalog _ x2 x3 x4 x5) : wCatalog :=
  mk_wCatalog v x2 x3 x4 x5.
Definition Catalog_set_Description v '(mk_wCatalog x1 _ x3 x4 x5) : wCatalog :=
  mk_wCatalog x1 v x3 x4 x5.
Definition Catalog_set_LocationUri v '(mk_wCatalog x1 x2 _ x4 x5) : wCatalog :=
  mk_wCatalog x1 x2 v x4 x5.
Definition Catalog_set_CreateTime v '(mk_wCatalog x1 x2 x3 _ x5) : wCatalog :=
  mk_wCatalog x1 x2 x3 v x5.
Definition Catalog_set_Parameters v '(mk_wCatalog x1 x2 x3 x4 _) : wCatalog :=
  mk_wCatalog x1 x2 x3 x4 v.

Definition Catalog_writeField1 (p : wCatalog) : M P unit :=
  (write_field T_Catalog "name" STRING 1 (write_scalar T_Catalog "name" 1 (WriteString (wCatalog_Name p))))%go.
Definition Catalog_ReadField1 : wCatalog -> MF P wCatalog :=
  assign (read_scalar 1 ReadString)%go Catalog_set_Name.
Definition Catalog_writeField2 (p : wCatalog) : M P unit :=
  (opt (wCatalog_Description p) (fun v =>
    write_field T_Catalog "description" STRING 2 (write_scalar T_Catalog "description" 2 (WriteString v))))%go.
Definition Catalog_ReadField2 : wCatalog -> MF P wCatalog :=
  assign (read_scalar 2 ReadString)%go (fun v => Catalog_set_Description (Some v)).
Definition Catalog_writeField3 (p : wCatalog) : M P unit :=
  (write_field T_Catalog "locationUri" STRING 3 (write_scalar T_Catalog "locationUri" 3 (WriteString (wCatalog_LocationUri p))))%go.
Definition Catalog_ReadField3 : wCatalog -> MF P wCatalog :=
  assign (read_scalar 3 ReadString)%go Catalog_set_LocationUri.
Definition Catalog_writeField4 (p : wCatalog) : M P unit :=
  (opt (wCatalog_CreateTime p) (fun v =>
    write_field T_Catalog "createTime" I32 4 (write_scalar T_Catalog "createTime" 4 (WriteI32 v))))%go.
Definition Catalog_ReadField4 : wCatalog -> MF P wCatalog :=
  assign (read_scalar 4 ReadI32)%go (fun v => Catalog_set_CreateTime (Some v)).
Definition Catalog_writeField5 (p : wCatalog) : M P unit :=
  (when (bool_decide (is_Some (wCatalog_Parameters p)))
    (write_field T_Catalog "parameters" MAP 5 (write_string_map T_Catalog (wCatalog_Parameters p))))%go.
Definition Catalog_ReadField5 : wCatalog -> MF P wCatalog :=
  assign (read_string_map)%go Catalog_set_Parameters.
Definition Catalog_Write (p : option wCatalog) : M P unit :=
  write_struct T_Catalog "Catalog" ((fun p => [Catalog_writeField1 p; Catalog_writeField2 p; Catalog_writeField3 p; Catalog_writeField4 p; Catalog_writeField5 p]) <$> p).
Definition Catalog_switch : switch wCatalog := fun fieldId =>
  match fieldId with
  | 1 => Some (STRING, Catalog_ReadField1)
  | 2 => Some (STRING, Catalog_ReadField2)
  | 3 => Some (STRING, Catalog_ReadField3)
  | 4 => Some (I32, Catalog_ReadField4)
  | 5 => Some (MAP, Catalog_ReadField5)
  | _ => None
  end.
Definition Catalog_Read (fuel : nat) : wCatalog -> MF P wCatalog :=
  read_struct T_Catalog [] Catalog_switch fuel.

(** ** Database *)

Local Abbreviation T_Database := "*hive_metastore.Database".
Definition Database_set_Name v '(mk_wDatabase _ x2 x3 x4 x5 x6 x7 x8 x9 x10 x11 x12 x13) : wDatabase :=
  mk_wDatabase v x2 x3 x4 x5 x6 x7 x8 x9 x10 x11 x12 x13.
Definition Database_set_Description v '(mk_wDatabase x1 _ x3 x4 x5 x6 x7 x8 x9 x10 x11 x12 x13) : wDatabase :=
  mk_wDatabase x1 v x3 x4 x5 x6 x7 x8 x9 x10 x11 x12 x13.
Definition Database_set_LocationUri v '(mk_wDatabase x1 x2 _ x4 x5 x6 x7 x8 x9 x10 x11 x12 x13) : wDatabase :=
  mk_wDatabase x1 x2 v x4 x5 x6 x7 x8 x9 x10 x11 x12 x13.
Definition Database_set_Parameters v '(mk_wDatabase x1 x2 x3 _ x5 x6 x7 x8 x9 x10 x11 x12 x13) : wDatabase :=
  mk_wDatabase x1 x2 x3 v x5 x6 x7 x8 x9 x10 x11 x12 x13.
Definition Database_set_Privileges v '(mk_wDatabase x1 x2 x3 x4 _ x6 x7 x8 x9 x10 x11 x12 x13) : wDatabase :=
  mk_wDatabase x1 x2 x3 x4 v x6 x7 x8 x9 x10 x11 x12 x13.
Definition Database_set_OwnerName v '(mk_wDatabase x1 x2 x3 x4 x5 _ x7 x8 x9 x10 x11 x12 x13) : wDatabase :=
  mk_wDatabase x1 x2 x3 x4 x5 v x7 x8 x9 x10 x11 x12 x13.
Definition Database_set_OwnerType v '(mk_wDatabase x1 x2 x3 x4 x5 x6 _ x8 x9 x10 x11 x12 x13) : wDatabase :=
  mk_wDatabase x1 x2 x3 x4 x5 x6 v x8 x9 x10 x11 x12 x13.
Definition Database_set_CatalogName v '(mk_wDatabase x1 x2 x3 x4 x5 x6 x7 _ x9 x10 x11 x12 x13) : wDatabase :=
  mk_wDatabase x1 x2 x3 x4 x5 x6 x7 v x9 x10 x11 x12 x13.
Definition Database_set_CreateTime v '(mk_wDatabase x1 x2 x3 x4 x5 x6 x7 x8 _ x10 x11 x12 x13) : wDatabase :=
  mk_wDatabase x1 x2 x3 x4 x5 x6 x7 x8 v x10 x11 x12 x13.
Definition Database_set_ManagedLocationUri v '(mk_wDatabase x1 x2 x3 x4 x5 x6 x7 x8 x9 _ x11 x12 x13) : wDatabase :=
  mk_wDatabase x1 x2 x3 x4 x5 x6 x7 x8 x9 v x11 x12 x13.
Definition Database_set_Type v '(mk_wDatabase x1 x2 x3 x4 x5 x6 x7 x8 x9 x10 _ x12 x13) : wDatabase :=
  mk_wDatabase x1 x2 x3 x4 x5 x6 x7 x8 x9 x10 v x12 x13.
Definition Database_set_ConnectorName v '(mk_wDatabase x1 x2 x3 x4 x5 x6 x7 x8 x9 x10 x11 _ x13) : wDatabase :=
  mk_wDatabase x1 x2 x3 x4 x5 x6 x7 x8 x9 x10 x11 v x13.
Definition Database_set_RemoteDbname v '(mk_wDatabase x1 x2 x3 x4 x5 x6 x7 x8 x9 x10 x11 x12 _) : wDatabase :=
  mk_wDatabase x1 x2 x3 x4 x5 x6 x7 x8 x9 x10 x11 x12 v.

Definition Database_writeField1 (p : wDatabase) : M P unit :=
  (write_field T_Database "name" STRING 1 (write_scalar T_Database "name" 1 (WriteString (wDatabase_Name p))))%go.
Definition Database_ReadField1 : wDatabase -> MF P wDatabase :=
  assign (read_scalar 1 ReadString)%go Database_set_Name.
Definition Database_writeField2 (p : wDatabase) : M P unit :=
  (write_field T_Database "description" STRING 2 (write_scalar T_Database "description" 2 (WriteString (wDatabase_Description p))))%go.
Definition Database_ReadField2 : wDatabase -> MF P wDatabase :=
  assign (read_scalar 2 ReadString)%go Database_set_Description.
Definition Database_writeField3 (p : wDatabase) : M P unit :=
  (write_field T_Database "locationUri" STRING 3 (write_scalar T_Database "locationUri" 3 (WriteString (wDatabase_LocationUri p))))%go.
Definition Database_ReadField3 : wDatabase -> MF P wDatabase :=
  assign (read_scalar 3 ReadString)%go Database_set_LocationUri.
Definition Database_writeField4 (p : wDatabase) : M P unit :=
  (write_field T_Database "parameters" MAP 4 (write_string_map T_Database (wDatabase_Parameters p)))%go.
Definition Database_ReadField4 : wDatabase -> MF P wDatabase :=
  assign (read_string_map)%go Database_set_Parameters.
Definition Database_writeField5 (p : wDatabase) : M P unit :=
  (opt (wDatabase_Privileges p) (fun v =>
    write_field T_Database "privileges" STRUCT 5 (write_sub "*hive_metastore.PrincipalPrivilegeSet" (sub_Write "PrincipalPrivilegeSet" (Some v)))))%go.
Definition Database_ReadField5 (fuel : nat) : wDatabase -> MF P wDatabase :=
  assign (read_sub "*hive_metastore.PrincipalPrivilegeSet" (sub_Read "PrincipalPrivilegeSet" fuel))%go (fun v => Database_set_Privileges (Some v)).
Definition Database_writeField6 (p : wDatabase) : M P unit :=
  (opt (wDatabase_OwnerName p) (fun v =>
    write_field T_Database "ownerName" STRING 6 (write_scalar T_Database "ownerName" 6 (WriteString v))))%go.
Definition Database_ReadField6 : wDatabase -> MF P wDatabase :=
  assign (read_scalar 6 ReadString)%go (fun v => Database_set_OwnerName (Some v)).
Definition Database_writeField7 (p : wDatabase) : M P unit :=
  (opt (wDatabase_OwnerType p) (fun v =>
    write_field T_Database "ownerType" I32 7 (write_scalar T_Database "ownerType" 7 (WriteI32 (int32 v)))))%go.
Definition Database_ReadField7 : wDatabase -> MF P wDatabase :=
  assign (read_scalar 7 ReadI32)%go (fun v => Database_set_OwnerType (Some v)).
Definition Database_writeField8 (p : wDatabase) : M P unit :=
  (opt (wDatabase_CatalogName p) (fun v =>
    write_field T_Database "catalogName" STRING 8 (write_scalar T_Database "catalogName" 8 (WriteString v))))%go.
Definition Database_ReadField8 : wDatabase -> MF P wDatabase :=
  assign (read_scalar 8 ReadString)%go (fun v => Database_set_CatalogName (Some v)).
Definition Database_writeField9 (p : wDatabase) : M P unit :=
  (opt (wDatabase_CreateTime p) (fun v =>
    write_field T_Database "createTime" I32 9 (write_scalar T_Database "createTime" 9 (WriteI32 v))))%go.
Definition Database_ReadField9 : wDatabase -> MF P wDatabase :=
  assign (read_scalar 9 ReadI32)%go (fun v => Database_set_CreateTime (Some v)).
Definition Database_writeField10 (p : wDatabase) : M P unit :=
  (opt (wDatabase_ManagedLocationUri p) (fun v =>
    write_field T_Database "managedLocationUri" STRING 10 (write_scalar T_Database "managedLocationUri" 10 (WriteString v))))%go.
Definition Database_ReadField10 : wDatabase -> MF P wDatabase :=
  assign (read_scalar 10 ReadString)%go (fun v => Database_set_ManagedLocationUri (Some v)).
Definition Database_writeField11 (p : wDatabase) : M P unit :=
  (opt (wDatabase_Type p) (fun v =>
    write_field T_Database "type" I32 11 (write_scalar T_Database "type" 11 (WriteI32 (int32 v)))))%go.
Definition Database_ReadField11 : wDatabase -> MF P wDatabase :=
  assign (read_scalar 11 ReadI32)%go (fun v => Database_set_Type (Some v)).
Definition Database_writeField12 (p : wDatabase) : M P unit :=
  (opt (wDatabase_ConnectorName p) (fun v =>
    write_field T_Database "connector_name" STRING 12 (write_scalar T_Database "connector_name" 12 (WriteString v))))%go.
Definition Database_ReadField12 : wDatabase -> MF P wDatabase :=
  assign (read_scalar 12 ReadString)%go (fun v => Database_set_ConnectorName (Some v)).
Definition Database_writeField13 (p : wDatabase) : M P unit :=
  (opt (wDatabase_RemoteDbname p) (fun v =>
    write_field T_Database "remote_dbname" STRING 13 (write_scalar T_Database "remote_dbname" 13 (WriteString v))))%go.
Definition Database_ReadField13 : wDatabase -> MF P wDatabase :=
  assign (read_scalar 13 ReadString)%go (fun v => Database_set_RemoteDbname (Some v)).
Definition Database_Write (p : option wDatabase) : M P unit :=
  write_struct T_Database "Database" ((fun p => [Database_writeField1 p; Database_writeField2 p; Database_writeField3 p; Database_writeField4 p; Database_writeField5 p; Database_writeField6 p; Database_writeField7 p; Database_writeField8 p; Database_writeField9 p; Database_writeField10 p; Database_writeField11 p; Database_writeField12 p; Database_writeField13 p]) <$> p).
Definition Database_switch (fuel : nat) : switch wDatabase := fun fieldId =>
  match fieldId with
  | 1 => Some (STRING, Database_ReadField1)
  | 2 => Some (STRING, Database_ReadField2)
  | 3 => Some (STRING, Database_ReadField3)
  | 4 => Some (MAP, Database_ReadField4)
  | 5 => Some (STRUCT, Database_ReadField5 fuel)
  | 6 => Some (STRING, Database_ReadField6)
  | 7 => Some (I32, Database_ReadField7)
  | 8 => Some (STRING, Database_ReadField8)
  | 9 => Some (I32, Database_ReadField9)
  | 10 => Some (STRING, Database_ReadField10)
  | 11 => Some (I32, Database_ReadField11)
  | 12 => Some (STRING, Database_ReadField12)
  | 13 => Some (STRING, Database_ReadField13)
  | _ => None
  end.
Definition Database_Read (fuel : nat) : wDatabase -> MF P wDatabase :=
  read_struct T_Database [] (Database_switch fuel) fuel.

(** ** Table *)

Local Abbreviation T_Table := "*hive_metastore.Table".
Definition Table_set_TableName v '(mk_wTable _ x2 x3 x4 x5 x6 x7 x8 x9 x10 x11 x12 x13 x14 x15 x16 x17 x18 x19 x20 x21 x22 x23 x24 x25 x26 x27 x28) : wTable :=
  mk_wTable v x2 x3 x4 x5 x6 x7 x8 x9 x10 x11 x12 x13 x14 x15 x16 x17 x18 x19 x20 x21 x22 x23 x24 x25 x26 x27 x28.
Definition Table_set_DbName v '(mk_wTable x1 _ x3 x4 x5 x6 x7 x8 x9 x10 x11 x12 x13 x14 x15 x16 x17 x18 x19 x20 x21 x22 x23 x24 x25 x26 x27 x28) : wTable :=
  mk_wTable x1 v x3 x4 x5 x6 x7 x8 x9 x10 x11 x12 x13 x14 x15 x16 x17 x18 x19 x20 x21 x22 x23 x24 x25 x26 x27 x28.
Definition Table_set_Owner v '(mk_wTable x1 x2 _ x4 x5 x6 x7 x8 x9 x10 x11 x12 x13 x14 x15 x16 x17 x18 x19 x20 x21 x22 x23 x24 x25 x26 x27 x28) : wTable :=
  mk_wTable x1 x2 v x4 x5 x6 x7 x8 x9 x10 x11 x12 x13 x14 x15 x16 x17 x18 x19 x20 x21 x22 x23 x24 x25 x26 x27 x28.
Definition Table_set_CreateTime v '(mk_wTable x1 x2 x3 _ x5 x6 x7 x8 x9 x10 x11 x12 x13 x14 x15 x16 x17 x18 x19 x20 x21 x22 x23 x24 x25 x26 x27 x28) : wTable :=
  mk_wTable x1 x2 x3 v x5 x6 x7 x8 x9 x10 x11 x12 x13 x14 x15 x16 x17 x18 x19 x20 x21 x22 x23 x24 x25 x26 x27 x28.
Definition Table_set_LastAccessTime v '(mk_wTable x1 x2 x3 x4 _ x6 x7 x8 x9 x10 x11 x12 x13 x14 x15 x16 x17 x18 x19 x20 x21 x22 x23 x24 x25 x26 x27 x28) : wTable :=
  mk_wTable x1 x2 x3 x4 v x6 x7 x8 x9 x10 x11 x12 x13 x14 x15 x16 x17 x18 x19 x20 x21 x22 x23 x24 x25 x26 x27 x28.
Definition Table_set_Retention v '(mk_wTable x1 x2 x3 x4 x5 _ x7 x8 x9 x10 x11 x12 x13 x14 x15 x16 x17 x18 x19 x20 x21 x22 x23 x24 x25 x26 x27 x28) : wTable :=
  mk_wTable x1 x2 x3 x4 x5 v x7 x8 x9 x10 x11 x12 x13 x14 x15 x16 x17 x18 x19 x20 x21 x22 x23 x24 x25 x26 x27 x28.
Definition Table_set_Sd v '(mk_wTable x1 x2 x3 x4 x5 x6 _ x8 x9 x10 x11 x12 x13 x14 x15 x16 x17 x18 x19 x20 x21 x22 x23 x24 x25 x26 x27 x28) : wTable :=
  mk_wTable x1 x2 x3 x4 x5 x6 v x8 x9 x10 x11 x12 x13 x14 x15 x16 x17 x18 x19 x20 x21 x22 x23 x24 x25 x26 x27 x28.
Definition Table_set_PartitionKeys v '(mk_wTable x1 x2 x3 x4 x5 x6 x7 _ x9 x10 x11 x12 x13 x14 x15 x16 x17 x18 x19 x20 x21 x22 x23 x24 x25 x26 x27 x28) : wTable :=
  mk_wTable x1 x2 x3 x4 x5 x6 x7 v x9 x10 x11 x12 x13 x14 x15 x16 x17 x18 x19 x20 x21 x22 x23 x24 x25 x26 x27 x28.
Definition Table_set_Parameters v '(mk_wTable x1 x2 x3 x4 x5 x6 x7 x8 _ x10 x11 x12 x13 x14 x15 x16 x17 x18 x19 x20 x21 x22 x23 x24 x25 x26 x27 x28) : wTable :=
  mk_wTable x1 x2 x3 x4 x5 x6 x7 x8 v x10 x11 x12 x13 x14 x15 x16 x17 x18 x19 x20 x21 x22 x23 x24 x25 x26 x27 x28.
Definition Table_set_ViewOriginalText v '(mk_wTable x1 x2 x3 x4 x5 x6 x7 x8 x9 _ x11 x12 x13 x14 x15 x16 x17 x18 x19 x20 x21 x22 x23 x24 x25 x26 x27 x28) : wTable :=
  mk_wTable x1 x2 x3 x4 x5 x6 x7 x8 x9 v x11 x12 x13 x14 x15 x16 x17 x18 x19 x20 x21 x22 x23 x24 x25 x26 x27 x28.
Definition Table_set_ViewExpandedText v '(mk_wTable x1 x2 x3 x4 x5 x6 x7 x8 x9 x10 _ x12 x13 x14 x15 x16 x17 x18 x19 x20 x21 x22 x23 x24 x25 x26 x27 x28) : wTable :=
  mk_wTable x1 x2 x3 x4 x5 x6 x7 x8 x9 x10 v x12 x13 x14 x15 x16 x17 x18 x19 x20 x21 x22 x23 x24 x25 x26 x27 x28.
Definition Table_set_TableType v '(mk_wTable x1 x2 x3 x4 x5 x6 x7 x8 x9 x10 x11 _ x13 x14 x15 x16 x17 x18 x19 x20 x21 x22 x23 x24 x25 x26 x27 x28) : wTable :=
  mk_wTable x1 x2 x3 x4 x5 x6 x7 x8 x9 x10 x11 v x13 x14 x15 x16 x17 x18 x19 x20 x21 x22 x23 x24 x25 x26 x27 x28.
Definition Table_set_Privileges v '(mk_wTable x1 x2 x3 x4 x5 x6 x7 x8 x9 x10 x11 x12 _ x14 x15 x16 x17 x18 x19 x20 x21 x22 x23 x24 x25 x26 x27 x28) : wTable :=
  mk_wTable x1 x2 x3 x4 x5 x6 x7 x8 x9 x10 x11 x12 v x14 x15 x16 x17 x18 x19 x20 x21 x22 x23 x24 x25 x26 x27 x28.
Definition Table_set_Temporary v '(mk_wTable x1 x2 x3 x4 x5 x6 x7 x8 x9 x10 x11 x12 x13 _ x15 x16 x17 x18 x19 x20 x21 x22 x23 x24 x25 x26 x27 x28) : wTable :=
  mk_wTable x1 x2 x3 x4 x5 x6 x7 x8 x9 x10 x11 x12 x13 v x15 x16 x17 x18 x19 x20 x21 x22 x23 x24 x25 x26 x27 x28.
Definition Table_set_RewriteEnabled v '(mk_wTable x1 x2 x3 x4 x5 x6 x7 x8 x9 x10 x11 x12 x13 x14 _ x16 x17 x18 x19 x20 x21 x22 x23 x24 x25 x26 x27 x28) : wTable :=
  mk_wTable x1 x2 x3 x4 x5 x6 x7 x8 x9 x10 x11 x12 x13 x14 v x16 x17 x18 x19 x20 x21 x22 x23 x24 x25 x26 x27 x28.
Definition Table_set_CreationMetadata v '(mk_wTable x1 x2 x3 x4 x5 x6 x7 x8 x9 x10 x11 x12 x13 x14 x15 _ x17 x18 x19 x20 x21 x22 x23 x24 x25 x26 x27 x28) : wTable :=
  mk_wTable x1 x2 x3 x4 x5 x6 x7 x8 x9 x10 x11 x12 x13 x14 x15 v x17 x18 x19 x20 x21 x22 x23 x24 x25 x26 x27 x28.
Definition Table_set_CatName v '(mk_wTable x1 x2 x3 x4 x5 x6 x7 x8 x9 x10 x11 x12 x13 x14 x15 x16 _ x18 x19 x20 x21 x22 x23 x24 x25 x26 x27 x28) : wTable :=
  mk_wTable x1 x2 x3 x4 x5 x6 x7 x8 x9 x10 x11 x12 x13 x14 x15 x16 v x18 x19 x20 x21 x22 x23 x24 x25 x26 x27 x28.
Definition Table_set_OwnerType v '(mk_wTable x1 x2 x3 x4 x5 x6 x7 x8 x9 x10 x11 x12 x13 x14 x15 x16 x17 _ x19 x20 x21 x22 x23 x24 x25 x26 x27 x28) : wTable :=
  mk_wTable x1 x2 x3 x4 x5 x6 x7 x8 x9 x10 x11 x12 x13 x14 x15 x16 x17 v x19 x20 x21 x22 x23 x24 x25 x26 x27 x28.
Definition Table_set_WriteId v '(mk_wTable x1 x2 x3 x4 x5 x6 x7 x8 x9 x10 x11 x12 x13 x14 x15 x16 x17 x18 _ x20 x21 x22 x23 x24 x25 x26 x27 x28) : wTable :=
  mk_wTable x1 x2 x3 x4 x5 x6 x7 x8 x9 x10 x11 x12 x13 x14 x15 x16 x17 x18 v x20 x21 x22 x23 x24 x25 x26 x27 x28.
Definition Table_set_IsStatsCompliant v '(mk_wTable x1 x2 x3 x4 x5 x6 x7 x8 x9 x10 x11 x12 x13 x14 x15 x16 x17 x18 x19 _ x21 x22 x23 x24 x25 x26 x27 x28) : wTable :=
  mk_wTable x1 x2 x3 x4 x5 x6 x7 x8 x9 x10 x11 x12 x13 x14 x15 x16 x17 x18 x19 v x21 x22 x23 x24 x25 x26 x27 x28.
Definition Table_set_ColStats v '(mk_wTable x1 x2 x3 x4 x5 x6 x7 x8 x9 x10 x11 x12 x13 x14 x15 x16 x17 x18 x19 x20 _ x22 x23 x24 x25 x26 x27 x28) : wTable :=
  mk_wTable x1 x2 x3 x4 x5 x6 x7 x8 x9 x10 x11 x12 x13 x14 x15 x16 x17 x18 x19 x20 v x22 x23 x24 x25 x26 x27 x28.
Definition Table_set_AccessType v '(mk_wTable x1 x2 x3 x4 x5 x6 x7 x8 x9 x10 x11 x12 x13 x14 x15 x16 x17 x18 x19 x20 x21 _ x23 x24 x25 x26 x27 x28) : wTable :=
  mk_wTable x1 x2 x3 x4 x5 x6 x7 x8 x9 x10 x11 x12 x13 x14 x15 x16 x17 x18 x19 x20 x21 v x23 x24 x25 x26 x27 x28.
Definition Table_set_RequiredReadCapabilities v '(mk_wTable x1 x2 x3 x4 x5 x6 x7 x8 x9 x10 x11 x12 x13 x14 x15 x16 x17 x18 x19 x20 x21 x22 _ x24 x25 x26 x27 x28) : wTable :=
  mk_wTable x1 x2 x3 x4 x5 x6 x7 x8 x9 x10 x11 x12 x13 x14 x15 x16 x17 x18 x19 x20 x21 x22 v x24 x25 x26 x27 x28.
Definition Table_set_RequiredWriteCapabilities v '(mk_wTable x1 x2 x3 x4 x5 x6 x7 x8 x9 x10 x11 x12 x13 x14 x15 x16 x17 x18 x19 x20 x21 x22 x23 _ x25 x26 x27 x28) : wTable :=
  mk_wTable x1 x2 x3 x4 x5 x6 x7 x8 x9 x10 x11 x12 x13 x14 x15 x16 x17 x18 x19 x20 x21 x22 x23 v x25 x26 x27 x28.
Definition Table_set_ID v '(mk_wTable x1 x2 x3 x4 x5 x6 x7 x8 x9 x10 x11 x12 x13 x14 x15 x16 x17 x18 x19 x20 x21 x22 x23 x24 _ x26 x27 x28) : wTable :=
  mk_wTable x1 x2 x3 x4 x5 x6 x7 x8 x9 x10 x11 x12 x13 x14 x15 x16 x17 x18 x19 x20 x21 x22 x23 x24 v x26 x27 x28.
Definition Table_set_FileMetadata v '(mk_wTable x1 x2 x3 x4 x5 x6 x7 x8 x9 x10 x11 x12 x13 x14 x15 x16 x17 x18 x19 x20 x21 x22 x23 x24 x25 _ x27 x28) : wTable :=
  mk_wTable x1 x2 x3 x4 x5 x6 x7 x8 x9 x10 x11 x12 x13 x14 x15 x16 x17 x18 x19 x20 x21 x22 x23 x24 x25 v x27 x28.
Definition Table_set_Dictionary v '(mk_wTable x1 x2 x3 x4 x5 x6 x7 x8 x9 x10 x11 x12 x13 x14 x15 x16 x17 x18 x19 x20 x21 x22 x23 x24 x25 x26 _ x28) : wTable :=
  mk_wTable x1 x2 x3 x4 x5 x6 x7 x8 x9 x10 x11 x12 x13 x14 x15 x16 x17 x18 x19 x20 x21 x22 x23 x24 x25 x26 v x28.
Definition Table_set_TxnId v '(mk_wTable x1 x2 x3 x4 x5 x6 x7 x8 x9 x10 x11 x12 x13 x14 x15 x16 x17 x18 x19 x20 x21 x22 x23 x24 x25 x26 x27 _) : wTable :=
  mk_wTable x1 x2 x3 x4 x5 x6 x7 x8 x9 x10 x11 x12 x13 x14 x15 x16 x17 x18 x19 x20 x21 x22 x23 x24 x25 x26 x27 v.

Definition Table_writeField1 (p : wTable) : M P unit :=
  (write_field T_Table "tableName" STRING 1 (write_scalar T_Table "tableName" 1 (WriteString (wTable_TableName p))))%go.
Definition Table_ReadField1 : wTable -> MF P wTable :=
  assign (read_scalar 1 ReadString)%go Table_set_TableName.
Definition Table_writeField2 (p : wTable) : M P unit :=
  (write_field T_Table "dbName" STRING 2 (write_scalar T_Table "dbName" 2 (WriteString (wTable_DbName p))))%go.
Definition Table_ReadField2 : wTable -> MF P wTable :=
  assign (read_scalar 2 ReadString)%go Table_set_DbName.
Definition Table_writeField3 (p : wTable) : M P unit :=
  (write_field T_Table "owner" STRING 3 (write_scalar T_Table "owner" 3 (WriteString (wTable_Owner p))))%go.
Definition Table_ReadField3 : wTable -> MF P wTable :=
  assign (read_scalar 3 ReadString)%go Table_set_Owner.
Definition Table_writeField4 (p : wTable) : M P unit :=
  (write_field T_Table "createTime" I32 4 (write_scalar T_Table "createTime" 4 (WriteI32 (wTable_CreateTime p))))%go.
Definition Table_ReadField4 : wTable -> MF P wTable :=
  assign (read_scalar 4 ReadI32)%go Table_set_CreateTime.
Definition Table_writeField5 (p : wTable) : M P unit :=
  (write_field T_Table "lastAccessTime" I32 5 (write_scalar T_Table "lastAccessTime" 5 (WriteI32 (wTable_LastAccessTime p))))%go.
Definition Table_ReadField5 : wTable -> MF P wTable :=
  assign (read_scalar 5 ReadI32)%go Table_set_LastAccessTime.
Definition Table_writeField6 (p : wTable) : M P unit :=
  (write_field T_Table "retention" I32 6 (write_scalar T_Table "retention" 6 (WriteI32 (wTable_Retention p))))%go.
Definition Table_ReadField6 : wTable -> MF P wTable :=
  assign (read_scalar 6 ReadI32)%go Table_set_Retention.
Definition Table_writeField7 (p : wTable) : M P unit :=
  (opt (wTable_Sd p) (fun v =>
    write_field T_Table "sd" STRUCT 7 (write_sub "*hive_metastore.StorageDescriptor" (StorageDescriptor_Write (Some v)))))%go.
Definition Table_ReadField7 (fuel : nat) : wTable -> MF P wTable :=
  assign (read_sub "*hive_metastore.StorageDescriptor" (StorageDescriptor_Read fuel NewStorageDescriptor))%go (fun v => Table_set_Sd (Some v)).
Definition Table_writeField8 (p : wTable) : M P unit :=
  (write_field T_Table "partitionKeys" LIST 8 (write_list STRUCT (fun v => write_sub "*hive_metastore.FieldSchema" (FieldSchema_Write v)) (wTable_PartitionKeys p)))%go.
Definition Table_ReadField8 (fuel : nat) : wTable -> MF P wTable :=
  assign (read_list (v <-- read_sub "*hive_metastore.FieldSchema" (FieldSchema_Read fuel NewFieldSchema);; liftF (ret (Some v))))%go Table_set_PartitionKeys.
Definition Table_writeField9 (p : wTable) : M P unit :=
  (write_field T_Table "parameters" MAP 9 (write_string_map T_Table (wTable_Parameters p)))%go.
Definition Table_ReadField9 : wTable -> MF P wTable :=
  assign (read_string_map)%go Table_set_Parameters.
Definition Table_writeField10 (p : wTable) : M P unit :=
  (write_field T_Table "viewOriginalText" STRING 10 (write_scalar T_Table "viewOriginalText" 10 (WriteString (wTable_ViewOriginalText p))))%go.
Definition Table_ReadField10 : wTable -> MF P wTable :=
  assign (read_scalar 10 ReadString)%go Table_set_ViewOriginalText.
Definition Table_writeField11 (p : wTable) : M P unit :=
  (write_field T_Table "viewExpandedText" STRING 11 (write_scalar T_Table "viewExpandedText" 11 (WriteString (wTable_ViewExpandedText p))))%go.
Definition Table_ReadField11 : wTable -> MF P wTable :=
  assign (read_scalar 11 ReadString)%go Table_set_ViewExpandedText.
Definition Table_writeField12 (p : wTable) : M P unit :=
  (write_field T_Table "tableType" STRING 12 (write_scalar T_Table "tableType" 12 (WriteString (wTable_TableType p))))%go.
Definition Table_ReadField12 : wTable -> MF P wTable :=
  assign (read_scalar 12 ReadString)%go Table_set_TableType.
Definition Table_writeField13 (p : wTable) : M P unit :=
  (opt (wTable_Privileges p) (fun v =>
    write_field T_Table "privileges" STRUCT 13 (write_sub "*hive_metastore.PrincipalPrivilegeSet" (sub_Write "PrincipalPrivilegeSet" (Some v)))))%go.
Definition Table_ReadField13 (fuel : nat) : wTable -> MF P wTable :=
  assign (read_sub "*hive_metastore.PrincipalPrivilegeSet" (sub_Read "PrincipalPrivilegeSet" fuel))%go (fun v => Table_set_Privileges (Some v)).
Definition Table_writeField14 (p : wTable) : M P unit :=
  (when (negb (Bool.eqb (wTable_Temporary p) false))
    (write_field T_Table "temporary" BOOL 14 (write_scalar T_Table "temporary" 14 (WriteBool (wTable_Temporary p)))))%go.
Definition Table_ReadField14 : wTable -> MF P wTable :=
  assign (read_scalar 14 ReadBool)%go Table_set_Temporary.
Definition Table_writeField15 (p : wTable) : M P unit :=
  (opt (wTable_RewriteEnabled p) (fun v =>
    write_field T_Table "rewriteEnabled" BOOL 15 (write_scalar T_Table "rewriteEnabled" 15 (WriteBool v))))%go.
Definition Table_ReadField15 : wTable -> MF P wTable :=
  assign (read_scalar 15 ReadBool)%go (fun v => Table_set_RewriteEnabled (Some v)).
Definition Table_writeField16 (p : wTable) : M P unit :=
  (opt (wTable_CreationMetadata p) (fun v =>
    write_field T_Table "creationMetadata" STRUCT 16 (write_sub "*hive_metastore.CreationMetadata" (sub_Write "CreationMetadata" (Some v)))))%go.
Definition Table_ReadField16 (fuel : nat) : wTable -> MF P wTable :=
  assign (read_sub "*hive_metastore.CreationMetadata" (sub_Read "CreationMetadata" fuel))%go (fun v => Table_set_CreationMetadata (Some v)).
Definition Table_writeField17 (p : wTable) : M P unit :=
  (opt (wTable_CatName p) (fun v =>
    write_field T_Table "catName" STRING 17 (write_scalar T_Table "catName" 17 (WriteString v))))%go.
Definition Table_ReadField17 : wTable -> MF P wTable :=
  assign (read_scalar 17 ReadString)%go (fun v => Table_set_CatName (Some v)).
Definition Table_writeField18 (p : wTable) : M P unit :=
  (when (negb (wTable_OwnerType p =? 1))
    (write_field T_Table "ownerType" I32 18 (write_scalar T_Table "ownerType" 18 (WriteI32 (int32 (wTable_OwnerType p))))))%go.
Definition Table_ReadField18 : wTable -> MF P wTable :=
  assign (read_scalar 18 ReadI32)%go Table_set_OwnerType.
Definition Table_writeField19 (p : wTable) : M P unit :=
  (when (negb (wTable_WriteId p =? (-1)))
    (write_field T_Table "writeId" I64 19 (write_scalar T_Table "writeId" 19 (WriteI64 (wTable_WriteId p)))))%go.
Definition Table_ReadField19 : wTable -> MF P wTable :=
  assign (read_scalar 19 ReadI64)%go Table_set_WriteId.
Definition Table_writeField20 (p : wTable) : M P unit :=
  (opt (wTable_IsStatsCompliant p) (fun v =>
    write_field T_Table "isStatsCompliant" BOOL 20 (write_scalar T_Table "isStatsCompliant" 20 (WriteBool v))))%go.
Definition Table_ReadField20 : wTable -> MF P wTable :=
  assign (read_scalar 20 ReadBool)%go (fun v => Table_set_IsStatsCompliant (Some v)).
Definition Table_writeField21 (p : wTable) : M P unit :=
  (opt (wTable_ColStats p) (fun v =>
    write_field T_Table "colStats" STRUCT 21 (write_sub "*hive_metastore.ColumnStatistics" (sub_Write "ColumnStatistics" (Some v)))))%go.
Definition Table_ReadField21 (fuel : nat) : wTable -> MF P wTable :=
  assign (read_sub "*hive_metastore.ColumnStatistics" (sub_Read "ColumnStatistics" fuel))%go (fun v => Table_set_ColStats (Some v)).
Definition Table_writeField22 (p : wTable) : M P unit :=
  (opt (wTable_AccessType p) (fun v =>
    write_field T_Table "accessType" BYTE 22 (write_scalar T_Table "accessType" 22 (WriteByte v))))%go.
Definition Table_ReadField22 : wTable -> MF P wTable :=
  assign (read_scalar 22 ReadByte)%go (fun v => Table_set_AccessType (Some v)).
Definition Table_writeField23 (p : wTable) : M P unit :=
  (when (bool_decide (is_Some (wTable_RequiredReadCapabilities p)))
    (write_field T_Table "requiredReadCapabilities" LIST 23 (write_strings T_Table (wTable_RequiredReadCapabilities p))))%go.
Definition Table_ReadField23 : wTable -> MF P wTable :=
  assign (read_strings)%go Table_set_RequiredReadCapabilities.
Definition Table_writeField24 (p : wTable) : M P unit :=
  (when (bool_decide (is_Some (wTable_RequiredWriteCapabilities p)))
    (write_field T_Table "requiredWriteCapabilities" LIST 24 (write_strings T_Table (wTable_RequiredWriteCapabilities p))))%go.
Definition Table_ReadField24 : wTable -> MF P wTable :=
  assign (read_strings)%go Table_set_RequiredWriteCapabilities.
Definition Table_writeField25 (p : wTable) : M P unit :=
  (opt (wTable_ID p) (fun v =>
    write_field T_Table "id" I64 25 (write_scalar T_Table "id" 25 (WriteI64 v))))%go.
Definition Table_ReadField25 : wTable -> MF P wTable :=
  assign (read_scalar 25 ReadI64)%go (fun v => Table_set_ID (Some v)).
Definition Table_writeField26 (p : wTable) : M P unit :=
  (opt (wTable_FileMetadata p) (fun v =>
    write_field T_Table "fileMetadata" STRUCT 26 (write_sub "*hive_metastore.FileMetadata" (sub_Write "FileMetadata" (Some v)))))%go.
Definition Table_ReadField26 (fuel : nat) : wTable -> MF P wTable :=
  assign (read_sub "*hive_metastore.FileMetadata" (sub_Read "FileMetadata" fuel))%go (fun v => Table_set_FileMetadata (Some v)).
Definition Table_writeField27 (p : wTable) : M P unit :=
  (opt (wTable_Dictionary p) (fun v =>
    write_field T_Table "dictionary" STRUCT 27 (write_sub "*hive_metastore.ObjectDictionary" (sub_Write "ObjectDictionary" (Some v)))))%go.
Definition Table_ReadField27 (fuel : nat) : wTable -> MF P wTable :=
  assign (read_sub "*hive_metastore.ObjectDictionary" (sub_Read "ObjectDictionary" fuel))%go (fun v => Table_set_Dictionary (Some v)).
Definition Table_writeField28 (p : wTable) : M P unit :=
  (opt (wTable_TxnId p) (fun v =>
    write_field T_Table "txnId" I64 28 (write_scalar T_Table "txnId" 28 (WriteI64 v))))%go.
Definition Table_ReadField28 : wTable -> MF P wTable :=
  assign (read_scalar 28 ReadI64)%go (fun v => Table_set_TxnId (Some v)).
Definition Table_Write (p : option wTable) : M P unit :=
  write_struct T_Table "Table" ((fun p => [Table_writeField1 p; Table_writeField2 p; Table_writeField3 p; Table_writeField4 p; Table_writeField5 p; Table_writeField6 p; Table_writeField7 p; Table_writeField8 p; Table_writeField9 p; Table_writeField10 p; Table_writeField11 p; Table_writeField12 p; Table_writeField13 p; Table_writeField14 p; Table_writeField15 p; Table_writeField16 p; Table_writeField17 p; Table_writeField18 p; Table_writeField19 p; Table_writeField20 p; Table_writeField21 p; Table_writeField22 p; Table_writeField23 p; Table_writeField24 p; Table_writeField25 p; Table_writeField26 p; Table_writeField27 p; Table_writeField28 p]) <$> p).
Definition Table_switch (fuel : nat) : switch wTable := fun fieldId =>
  match fieldId with
  | 1 => Some (STRING, Table_ReadField1)
  | 2 => Some (STRING, Table_ReadField2)
  | 3 => Some (STRING, Table_ReadField3)
  | 4 => Some (I32, Table_ReadField4)
  | 5 => Some (I32, Table_ReadField5)
  | 6 => Some (I32, Table_ReadField6)
  | 7 => Some (STRUCT, Table_ReadField7 fuel)
  | 8 => Some (LIST, Table_ReadField8 fuel)
  | 9 => Some (MAP, Table_ReadField9)
  | 10 => Some (STRING, Table_ReadField10)
  | 11 => Some (STRING, Table_ReadField11)
  | 12 => Some (STRING, Table_ReadField12)
  | 13 => Some (STRUCT, Table_ReadField13 fuel)
  | 14 => Some (BOOL, Table_ReadField14)
  | 15 => Some (BOOL, Table_ReadField15)
  | 16 => Some (STRUCT, Table_ReadField16 fuel)
  | 17 => Some (STRING, Table_ReadField17)
  | 18 => Some (I32, Table_ReadField18)
  | 19 => Some (I64, Table_ReadField19)
  | 20 => Some (BOOL, Table_ReadField20)
  | 21 => Some (STRUCT, Table_ReadField21 fuel)
  | 22 => Some (BYTE, Table_ReadField22)
  | 23 => Some (LIST, Table_ReadField23)
  | 24 => Some (LIST, Table_ReadField24)
  | 25 => Some (I64, Table_ReadField25)
  | 26 => Some (STRUCT, Table_ReadField26 fuel)
  | 27 => Some (STRUCT, Table_ReadField27 fuel)
  | 28 => Some (I64, Table_ReadField28)
  | _ => None
  end.
Definition Table_Read (fuel : nat) : wTable -> MF P wTable :=
  read_struct T_Table [] (Table_switch fuel) fuel.

(** ** Partition *)

Local Abbreviation T_Partition := "*hive_metastore.Partition".
Definition Partition_set_Values v '(mk_wPartition _ x2 x3 x4 x5 x6 x7 x8 x9 x10 x11 x12 x13) : wPartition :=
  mk_wPartition v x2 x3 x4 x5 x6 x7 x8 x9 x10 x11 x12 x13.
Definition Partition_set_DbName v '(mk_wPartition x1 _ x3 x4 x5 x6 x7 x8 x9 x10 x11 x12 x13) : wPartition :=
  mk_wPartition x1 v x3 x4 x5 x6 x7 x8 x9 x10 x11 x12 x13.
Definition Partition_set_TableName v '(mk_wPartition x1 x2 _ x4 x5 x6 x7 x8 x9 x10 x11 x12 x13) : wPartition :=
  mk_wPartition x1 x2 v x4 x5 x6 x7 x8 x9 x10 x11 x12 x13.
Definition Partition_set_CreateTime v '(mk_wPartition x1 x2 x3 _ x5 x6 x7 x8 x9 x10 x11 x12 x13) : wPartition :=
  mk_wPartition x1 x2 x3 v x5 x6 x7 x8 x9 x10 x11 x12 x13.
Definition Partition_set_LastAccessTime v '(mk_wPartition x1 x2 x3 x4 _ x6 x7 x8 x9 x10 x11 x12 x13) : wPartition :=
  mk_wPartition x1 x2 x3 x4 v x6 x7 x8 x9 x10 x11 x12 x13.
Definition Partition_set_Sd v '(mk_wPartition x1 x2 x3 x4 x5 _ x7 x8 x9 x10 x11 x12 x13) : wPartition :=
  mk_wPartition x1 x2 x3 x4 x5 v x7 x8 x9 x10 x11 x12 x13.
Definition Partition_set_Parameters v '(mk_wPartition x1 x2 x3 x4 x5 x6 _ x8 x9 x10 x11 x12 x13) : wPartition :=
  mk_wPartition x1 x2 x3 x4 x5 x6 v x8 x9 x10 x11 x12 x13.
Definition Partition_set_Privileges v '(mk_wPartition x1 x2 x3 x4 x5 x6 x7 _ x9 x10 x11 x12 x13) : wPartition :=
  mk_wPartition x1 x2 x3 x4 x5 x6 x7 v x9 x10 x11 x12 x13.
Definition Partition_set_CatName v '(mk_wPartition x1 x2 x3 x4 x5 x6 x7 x8 _ x10 x11 x12 x13) : wPartition :=
  mk_wPartition x1 x2 x3 x4 x5 x6 x7 x8 v x10 x11 x12 x13.
Definition Partition_set_WriteId v '(mk_wPartition x1 x2 x3 x4 x5 x6 x7 x8 x9 _ x11 x12 x13) : wPartition :=
  mk_wPartition x1 x2 x3 x4 x5 x6 x7 x8 x9 v x11 x12 x13.
Definition Partition_set_IsStatsCompliant v '(mk_wPartition x1 x2 x3 x4 x5 x6 x7 x8 x9 x10 _ x12 x13) : wPartition :=
  mk_wPartition x1 x2 x3 x4 x5 x6 x7 x8 x9 x10 v x12 x13.
Definition Partition_set_ColStats v '(mk_wPartition x1 x2 x3 x4 x5 x6 x7 x8 x9 x10 x11 _ x13) : wPartition :=
  mk_wPartition x1 x2 x3 x4 x5 x6 x7 x8 x9 x10 x11 v x13.
Definition Partition_set_FileMetadata v '(mk_wPartition x1 x2 x3 x4 x5 x6 x7 x8 x9 x10 x11 x12 _) : wPartition :=
  mk_wPartition x1 x2 x3 x4 x5 x6 x7 x8 x9 x10 x11 x12 v.

Definition Partition_writeField1 (p : wPartition) : M P unit :=
  (write_field T_Partition "values" LIST 1 (write_strings T_Partition (wPartition_Values p)))%go.
Definition Partition_ReadField1 : wPartition -> MF P wPartition :=
  assign (read_strings)%go Partition_set_Values.
Definition Partition_writeField2 (p : wPartition) : M P unit :=
  (write_field T_Partition "dbName" STRING 2 (write_scalar T_Partition "dbName" 2 (WriteString (wPartition_DbName p))))%go.
Definition Partition_ReadField2 : wPartition -> MF P wPartition :=
  assign (read_scalar 2 ReadString)%go Partition_set_DbName.
Definition Partition_writeField3 (p : wPartition) : M P unit :=
  (write_field T_Partition "tableName" STRING 3 (write_scalar T_Partition "tableName" 3 (WriteString (wPartition_TableName p))))%go.
Definition Partition_ReadField3 : wPartition -> MF P wPartition :=
  assign (read_scalar 3 ReadString)%go Partition_set_TableName.
Definition Partition_writeField4 (p : wPartition) : M P unit :=
  (write_field T_Partition "createTime" I32 4 (write_scalar T_Partition "createTime" 4 (WriteI32 (wPartition_CreateTime p))))%go.
Definition Partition_ReadField4 : wPartition -> MF P wPartition :=
  assign (read_scalar 4 ReadI32)%go Partition_set_CreateTime.
Definition Partition_writeField5 (p : wPartition) : M P unit :=
  (write_field T_Partition "lastAccessTime" I32 5 (write_scalar T_Partition "lastAccessTime" 5 (WriteI32 (wPartition_LastAccessTime p))))%go.
Definition Partition_ReadField5 : wPartition -> MF P wPartition :=
  assign (read_scalar 5 ReadI32)%go Partition_set_LastAccessTime.
Definition Partition_writeField6 (p : wPartition) : M P unit :=
  (opt (wPartition_Sd p) (fun v =>
    write_field T_Partition "sd" STRUCT 6 (write_sub "*hive_metastore.StorageDescriptor" (StorageDescriptor_Write (Some v)))))%go.
Definition Partition_ReadField6 (fuel : nat) : wPartition -> MF P wPartition :=
  assign (read_sub "*hive_metastore.StorageDescriptor" (StorageDescriptor_Read fuel NewStorageDescriptor))%go (fun v => Partition_set_Sd (Some v)).
Definition Partition_writeField7 (p : wPartition) : M P unit :=
  (write_field T_Partition "parameters" MAP 7 (write_string_map T_Partition (wPartition_Parameters p)))%go.
Definition Partition_ReadField7 : wPartition -> MF P wPartition :=
  assign (read_string_map)%go Partition_set_Parameters.
Definition Partition_writeField8 (p : wPartition) : M P unit :=
  (opt (wPartition_Privileges p) (fun v =>
    write_field T_Partition "privileges" STRUCT 8 (write_sub "*hive_metastore.PrincipalPrivilegeSet" (sub_Write "PrincipalPrivilegeSet" (Some v)))))%go.
Definition Partition_ReadField8 (fuel : nat) : wPartition -> MF P wPartition :=
  assign (read_sub "*hive_metastore.PrincipalPrivilegeSet" (sub_Read "PrincipalPrivilegeSet" fuel))%go (fun v => Partition_set_Privileges (Some v)).
Definition Partition_writeField9 (p : wPartition) : M P unit :=
  (opt (wPartition_CatName p) (fun v =>
    write_field T_Partition "catName" STRING 9 (write_scalar T_Partition "catName" 9 (WriteString v))))%go.
Definition Partition_ReadField9 : wPartition -> MF P wPartition :=
  assign (read_scalar 9 ReadString)%go (fun v => Partition_set_CatName (Some v)).
Definition Partition_writeField10 (p : wPartition) : M P unit :=
  (when (negb (wPartition_WriteId p =? (-1)))
    (write_field T_Partition "writeId" I64 10 (write_scalar T_Partition "writeId" 10 (WriteI64 (wPartition_WriteId p)))))%go.
Definition Partition_ReadField10 : wPartition -> MF P wPartition :=
  assign (read_scalar 10 ReadI64)%go Partition_set_WriteId.
Definition Partition_writeField11 (p : wPartition) : M P unit :=
  (opt (wPartition_IsStatsCompliant p) (fun v =>
    write_field T_Partition "isStatsCompliant" BOOL 11 (write_scalar T_Partition "isStatsCompliant" 11 (WriteBool v))))%go.
Definition Partition_ReadField11 : wPartition -> MF P wPartition :=
  assign (read_scalar 11 ReadBool)%go (fun v => Partition_set_IsStatsCompliant (Some v)).
Definition Partition_writeField12 (p : wPartition) : M P unit :=
  (opt (wPartition_ColStats p) (fun v =>
    write_field T_Partition "colStats" STRUCT 12 (write_sub "*hive_metastore.ColumnStatistics" (sub_Write "ColumnStatistics" (Some v)))))%go.
Definition Partition_ReadField12 (fuel : nat) : wPartition -> MF P wPartition :=
  assign (read_sub "*hive_metastore.ColumnStatistics" (sub_Read "ColumnStatistics" fuel))%go (fun v => Partition_set_ColStats (Some v)).
Definition Partition_writeField13 (p : wPartition) : M P unit :=
  (opt (wPartition_FileMetadata p) (fun v =>
    write_field T_Partition "fileMetadata" STRUCT 13 (write_sub "*hive_metastore.FileMetadata" (sub_Write "FileMetadata" (Some v)))))%go.
Definition Partition_ReadField13 (fuel : nat) : wPartition -> MF P wPartition :=
  assign (read_sub "*hive_metastore.FileMetadata" (sub_Read "FileMetadata" fuel))%go (fun v => Partition_set_FileMetadata (Some v)).
Definition Partition_Write (p : option wPartition) : M P unit :=
  write_struct T_Partition "Partition" ((fun p => [Partition_writeField1 p; Partition_writeField2 p; Partition_writeField3 p; Partition_writeField4 p; Partition_writeField5 p; Partition_writeField6 p; Partition_writeField7 p; Partition_writeField8 p; Partition_writeField9 p; Partition_writeField10 p; Partition_writeField11 p; Partition_writeField12 p; Partition_writeField13 p]) <$> p).
Definition Partition_switch (fuel : nat) : switch wPartition := fun fieldId =>
  match fieldId with
  | 1 => Some (LIST, Partition_ReadField1)
  | 2 => Some (STRING, Partition_ReadField2)
  | 3 => Some (STRING, Partition_ReadField3)
  | 4 => Some (I32, Partition_ReadField4)
  | 5 => Some (I32, Partition_ReadField5)
  | 6 => Some (STRUCT, Partition_ReadField6 fuel)
  | 7 => Some (MAP, Partition_ReadField7)
  | 8 => Some (STRUCT, Partition_ReadField8 fuel)
  | 9 => Some (STRING, Partition_ReadField9)
  | 10 => Some (I64, Partition_ReadField10)
  | 11 => Some (BOOL, Partition_ReadField11)
  | 12 => Some (STRUCT, Partition_ReadField12 fuel)
  | 13 => Some (STRUCT, Partition_ReadField13 fuel)
  | _ => None
  end.
Definition Partition_Read (fuel : nat) : wPartition -> MF P wPartition :=
  read_struct T_Partition [] (Partition_switch fuel) fuel.
End codec.
