(* ===== verification/CodecTableFacts.v ===== *)
(** * CodecTableFacts: what the codecs of CodecTable write, and that they read it back *)

From S2P Require Import Prelude Errors GoMonad Types Transport Wire Thrift ThriftFacts CodecTable.

Section facts.
Context {P : Type} {TP : TProtocol P} {TL : TProtocolLaws P} {MR : MapRange} {SB : Substructs P} {SL : SubstructLaws P}.

(** ** FieldSchema *)

Definition FieldSchema_wire (p : wFieldSchema) : list (list wfield) :=
  [[(1, STRING, [KString (wFieldSchema_Name p)])];
   [(2, STRING, [KString (wFieldSchema_Type p)])];
   [(3, STRING, [KString (wFieldSchema_Comment p)])]].
Definition FieldSchema_toks (p : option wFieldSchema) : list tok :=
  struct_toks (match p with Some p => concat (FieldSchema_wire p) | None => [] end).
Definition FieldSchema_canon (p : wFieldSchema) : wFieldSchema :=
  mk_wFieldSchema (wFieldSchema_Name p)
    (wFieldSchema_Type p)
    (wFieldSchema_Comment p).
Definition FieldSchema_own (p : option wFieldSchema) : wFieldSchema := match p with Some p => FieldSchema_canon p | None => NewFieldSchema end.

Lemma FieldSchema_writes strict d p : (1 <= d)%nat -> 
  writes strict d (FieldSchema_Write p) (FieldSchema_toks p).
Proof. enter_struct. unfold FieldSchema_wire, FieldSchema_writeField1, FieldSchema_writeField2, FieldSchema_writeField3. write_fields. Qed.
Lemma FieldSchema_runs d fuel p : (0 <= d)%nat -> (4 <= fuel)%nat -> 
  exists ids, runs d FieldSchema_switch (concat (FieldSchema_wire p)) NewFieldSchema (FieldSchema_canon p) ids.
Proof.
  intros Hd Hf. unfold FieldSchema_wire. eexists.
  cbn [concat]. run_one.
  run_one.
  run_one.
  run_end.
Qed.
Lemma FieldSchema_reads d fuel p : (1 <= d)%nat -> (4 <= fuel)%nat -> 
  reads d (FieldSchema_Read fuel NewFieldSchema) (FieldSchema_toks (Some p)) (FieldSchema_canon p).
Proof. struct_reads FieldSchema_runs FieldSchema_wire. Qed.
Lemma FieldSchema_own_reads d fuel p : (1 <= d)%nat -> (4 <= fuel)%nat ->
  reads d (FieldSchema_Read fuel NewFieldSchema) (FieldSchema_toks p) (FieldSchema_own p).
Proof.
  intros Hd Hf. destruct p as [p|]; [by apply FieldSchema_reads|]. destruct d as [|d]; [lia|].
  apply (reads_struct d _ _ _ fuel [] NewFieldSchema NewFieldSchema []); [constructor|simpl; lia|constructor].
Qed.
#[local] Hint Resolve FieldSchema_writes FieldSchema_reads FieldSchema_own_reads : wire.

(** ** Order *)

Definition Order_wire (p : wOrder) : list (list wfield) :=
  [[(1, STRING, [KString (wOrder_Col p)])];
   [(2, I32, [KI32 (wOrder_Order p)])]].
Definition Order_toks (p : option wOrder) : list tok :=
  struct_toks (match p with Some p => concat (Order_wire p) | None => [] end).
Definition Order_canon (p : wOrder) : wOrder :=
  mk_wOrder (wOrder_Col p)
    (wOrder_Order p).
Definition Order_own (p : option wOrder) : wOrder := match p with Some p => Order_canon p | None => NewOrder end.

Lemma Order_writes strict d p : (1 <= d)%nat -> 
  writes strict d (Order_Write p) (Order_toks p).
Proof. enter_struct. unfold Order_wire, Order_writeField1, Order_writeField2. write_fields. Qed.
Lemma Order_runs d fuel p : (0 <= d)%nat -> (3 <= fuel)%nat -> 
  exists ids, runs d Order_switch (concat (Order_wire p)) NewOrder (Order_canon p) ids.
Proof.
  intros Hd Hf. unfold Order_wire. eexists.
  cbn [concat]. run_one.
  run_one.
  run_end.
Qed.
Lemma Order_reads d fuel p : (1 <= d)%nat -> (3 <= fuel)%nat -> 
  reads d (Order_Read fuel NewOrder) (Order_toks (Some p)) (Order_canon p).
Proof. struct_reads Order_runs Order_wire. Qed.
Lemma Order_own_reads d fuel p : (1 <= d)%nat -> (3 <= fuel)%nat ->
  reads d (Order_Read fuel NewOrder) (Order_toks p) (Order_own p).
Proof.
  intros Hd Hf. destruct p as [p|]; [by apply Order_reads|]. destruct d as [|d]; [lia|].
  apply (reads_struct d _ _ _ fuel [] NewOrder NewOrder []); [constructor|simpl; lia|constructor].
Qed.
#[local] Hint Resolve Order_writes Order_reads Order_own_reads : wire.

(** ** SerDeInfo *)

Definition SerDeInfo_wire (p : wSerDeInfo) : list (list wfield) :=
  [[(1, STRING, [KString (wSerDeInfo_Name p)])];
   [(2, STRING, [KString (wSerDeInfo_SerializationLib p)])];
   [(3, MAP, map_toks (wSerDeInfo_Parameters p))];
   opt_part (wSerDeInfo_Description p) (fun v => (4, STRING, [KString v]));
   opt_part (wSerDeInfo_SerializerClass p) (fun v => (5, STRING, [KString v]));
   opt_part (wSerDeInfo_DeserializerClass p) (fun v => (6, STRING, [KString v]));
   opt_part (wSerDeInfo_SerdeType p) (fun v => (7, I32, [KI32 (int32 v)]))].
Definition SerDeInfo_toks (p : option wSerDeInfo) : list tok :=
  struct_toks (match p with Some p => concat (SerDeInfo_wire p) | None => [] end).
Definition SerDeInfo_canon (p : wSerDeInfo) : wSerDeInfo :=
  mk_wSerDeInfo (wSerDeInfo_Name p)
    (wSerDeInfo_SerializationLib p)
    (Some (entries (wSerDeInfo_Parameters p)))
    (wSerDeInfo_Description p)
    (wSerDeInfo_SerializerClass p)
    (wSerDeInfo_DeserializerClass p)
    (int32 <$> wSerDeInfo_SerdeType p).

Lemma SerDeInfo_writes strict d p : (1 <= d)%nat -> 
  writes strict d (SerDeInfo_Write p) (SerDeInfo_toks p).
Proof. enter_struct. unfold SerDeInfo_wire, SerDeInfo_writeField1, SerDeInfo_writeField2, SerDeInfo_writeField3, SerDeInfo_writeField4, SerDeInfo_writeField5, SerDeInfo_writeField6, SerDeInfo_writeField7. write_fields. Qed.
Lemma SerDeInfo_runs d fuel p : (0 <= d)%nat -> (8 <= fuel)%nat -> 
  exists ids, runs d SerDeInfo_switch (concat (SerDeInfo_wire p)) NewSerDeInfo (SerDeInfo_canon p) ids.
Proof.
  intros Hd Hf. unfold SerDeInfo_wire. eexists.
  cbn [concat]. run_one.
  run_one.
  run_one.
  run_opt_same SerDeInfo_set_Description.
  run_opt_same SerDeInfo_set_SerializerClass.
  run_opt_same SerDeInfo_set_DeserializerClass.
  run_opt SerDeInfo_set_SerdeType int32.
  run_end.
Qed.
Lemma SerDeInfo_reads d fuel p : (1 <= d)%nat -> (8 <= fuel)%nat -> 
  reads d (SerDeInfo_Read fuel NewSerDeInfo) (SerDeInfo_toks (Some p)) (SerDeInfo_canon p).
Proof. struct_reads SerDeInfo_runs SerDeInfo_wire. Qed.
#[local] Hint Resolve SerDeInfo_writes SerDeInfo_reads : wire.

(** ** SkewedInfo *)

Definition SkewedInfo_wire (p : wSkewedInfo) : list (list wfield) :=
  [[(1, LIST, strings_toks (wSkewedInfo_SkewedColNames p))];
   [(2, LIST, list_toks LIST strings_toks (wSkewedInfo_SkewedColValues p))];
   [(3, MAP, locations_toks (wSkewedInfo_SkewedColValueLocationMaps p))]].
Definition SkewedInfo_toks (p : option wSkewedInfo) : list tok :=
  struct_toks (match p with Some p => concat (SkewedInfo_wire p) | None => [] end).
Definition SkewedInfo_canon (p : wSkewedInfo) : wSkewedInfo :=
  mk_wSkewedInfo (own_strings (wSkewedInfo_SkewedColNames p))
    (Some (map own_strings (elems (wSkewedInfo_SkewedColValues p))))
    (own_locations (wSkewedInfo_SkewedColValueLocationMaps p)).
Definition SkewedInfo_ok (p : wSkewedInfo) : Prop := unique_keys (elems (wSkewedInfo_SkewedColValueLocationMaps p)) = true.

Lemma SkewedInfo_writes strict d p : (1 <= d)%nat -> (strict -> forall p0, p = Some p0 -> SkewedInfo_ok p0) -> 
  writes strict d (SkewedInfo_Write p) (SkewedInfo_toks p).
Proof. enter_struct. unfold SkewedInfo_wire, SkewedInfo_writeField1, SkewedInfo_writeField2, SkewedInfo_writeField3. write_fields. Qed.
Lemma SkewedInfo_runs d fuel p : (0 <= d)%nat -> (4 <= fuel)%nat -> 
  exists ids, runs d SkewedInfo_switch (concat (SkewedInfo_wire p)) NewSkewedInfo (SkewedInfo_canon p) ids.
Proof.
  intros Hd Hf. unfold SkewedInfo_wire. eexists.
  cbn [concat]. run_one.
  run_one.
  run_one.
  run_end.
Qed.
Lemma SkewedInfo_reads d fuel p : (1 <= d)%nat -> (4 <= fuel)%nat -> 
  reads d (SkewedInfo_Read fuel NewSkewedInfo) (SkewedInfo_toks (Some p)) (SkewedInfo_canon p).
Proof. struct_reads SkewedInfo_runs SkewedInfo_wire. Qed.
#[local] Hint Resolve SkewedInfo_writes SkewedInfo_reads : wire.

(** ** StorageDescriptor *)

Definition StorageDescriptor_wire (p : wStorageDescriptor) : list (list wfield) :=
  [[(1, LIST, list_toks STRUCT FieldSchema_toks (wStorageDescriptor_Cols p))];
   [(2, STRING, [KString (wStorageDescriptor_Location p)])];
   [(3, STRING, [KString (wStorageDescriptor_InputFormat p)])];
   [(4, STRING, [KString (wStorageDescriptor_OutputFormat p)])];
   [(5, BOOL, [KBool (wStorageDescriptor_Compressed p)])];
   [(6, I32, [KI32 (wStorageDescriptor_NumBuckets p)])];
   opt_part (wStorageDescriptor_SerdeInfo p) (fun v => (7, STRUCT, SerDeInfo_toks (Some v)));
   [(8, LIST, strings_toks (wStorageDescriptor_BucketCols p))];
   [(9, LIST, list_toks STRUCT Order_toks (wStorageDescriptor_SortCols p))];
   [(10, MAP, map_toks (wStorageDescriptor_Parameters p))];
   opt_part (wStorageDescriptor_SkewedInfo p) (fun v => (11, STRUCT, SkewedInfo_toks (Some v)));
   opt_part (wStorageDescriptor_StoredAsSubDirectories p) (fun v => (12, BOOL, [KBool v]))].
Definition StorageDescriptor_toks (p : option wStorageDescriptor) : list tok :=
  struct_toks (match p with Some p => concat (StorageDescriptor_wire p) | None => [] end).
Definition StorageDescriptor_canon (p : wStorageDescriptor) : wStorageDescriptor :=
  mk_wStorageDescriptor (Some (map (fun v => Some (FieldSchema_own v)) (elems (wStorageDescriptor_Cols p))))
    (wStorageDescriptor_Location p)
    (wStorageDescriptor_InputFormat p)
    (wStorageDescriptor_OutputFormat p)
    (wStorageDescriptor_Compressed p)
    (wStorageDescriptor_NumBuckets p)
    (SerDeInfo_canon <$> wStorageDescriptor_SerdeInfo p)
    (own_strings (wStorageDescriptor_BucketCols p))
    (Some (map (fun v => Some (Order_own v)) (elems (wStorageDescriptor_SortCols p))))
    (Some (entries (wStorageDescriptor_Parameters p)))
    (SkewedInfo_canon <$> wStorageDescriptor_SkewedInfo p)
    (wStorageDescriptor_StoredAsSubDirectories p).
Definition StorageDescriptor_ok (p : wStorageDescriptor) : Prop := forall v, wStorageDescriptor_SkewedInfo p = Some v -> SkewedInfo_ok v.

Lemma StorageDescriptor_writes strict d p : (2 <= d)%nat -> (strict -> forall p0, p = Some p0 -> StorageDescriptor_ok p0) -> 
  writes strict d (StorageDescriptor_Write p) (StorageDescriptor_toks p).
Proof. enter_struct. unfold StorageDescriptor_wire, StorageDescriptor_writeField1, StorageDescriptor_writeField2, StorageDescriptor_writeField3, StorageDescriptor_writeField4, StorageDescriptor_writeField5, StorageDescriptor_writeField6, StorageDescriptor_writeField7, StorageDescriptor_writeField8, StorageDescriptor_writeField9, StorageDescriptor_writeField10, StorageDescriptor_writeField11, StorageDescriptor_writeField12. write_fields. Qed.
Lemma StorageDescriptor_runs d fuel p : (1 <= d)%nat -> (13 <= fuel)%nat -> 
  exists ids, runs d (StorageDescriptor_switch fuel) (concat (StorageDescriptor_wire p)) NewStorageDescriptor (StorageDescriptor_canon p) ids.
Proof.
  intros Hd Hf. unfold StorageDescriptor_wire. eexists.
  cbn [concat]. run_one.
  run_one.
  run_one.
  run_one.
  run_one.
  run_one.
  run_opt StorageDescriptor_set_SerdeInfo SerDeInfo_canon.
  run_one.
  run_one.
  run_one.
  run_opt StorageDescriptor_set_SkewedInfo SkewedInfo_canon.
  run_opt_same StorageDescriptor_set_StoredAsSubDirectories.
  run_end.
Qed.
Lemma StorageDescriptor_reads d fuel p : (2 <= d)%nat -> (13 <= fuel)%nat -> 
  reads d (StorageDescriptor_Read fuel NewStorageDescriptor) (StorageDescriptor_toks (Some p)) (StorageDescriptor_canon p).
Proof. struct_reads StorageDescriptor_runs StorageDescriptor_wire. Qed.
#[local] Hint Resolve StorageDescriptor_writes StorageDescriptor_reads : wire.

(** ** Catalog *)

Definition Catalog_wire (p : wCatalog) : list (list wfield) :=
  [[(1, STRING, [KString (wCatalog_Name p)])];
   opt_part (wCatalog_Description p) (fun v => (2, STRING, [KString v]));
   [(3, STRING, [KString (wCatalog_LocationUri p)])];
   opt_part (wCatalog_CreateTime p) (fun v => (4, I32, [KI32 v]));
   when_part (bool_decide (is_Some (wCatalog_Parameters p))) (5, MAP, map_toks (wCatalog_Parameters p))].
Definition Catalog_toks (p : option wCatalog) : list tok :=
  struct_toks (match p with Some p => concat (Catalog_wire p) | None => [] end).
Definition Catalog_canon (p : wCatalog) : wCatalog :=
  mk_wCatalog (wCatalog_Name p)
    (wCatalog_Description p)
    (wCatalog_LocationUri p)
    (wCatalog_CreateTime p)
    (wCatalog_Parameters p).

Lemma Catalog_writes strict d p : (1 <= d)%nat -> 
  writes strict d (Catalog_Write p) (Catalog_toks p).
Proof. enter_struct. unfold Catalog_wire, Catalog_writeField1, Catalog_writeField2, Catalog_writeField3, Catalog_writeField4, Catalog_writeField5. write_fields. Qed.
Lemma Catalog_runs d fuel p : (0 <= d)%nat -> (6 <= fuel)%nat -> 
  exists ids, runs d Catalog_switch (concat (Catalog_wire p)) NewCatalog (Catalog_canon p) ids.
Proof.
  intros Hd Hf. unfold Catalog_wire. eexists.
  cbn [concat]. run_one.
  run_opt_same Catalog_set_Description.
  run_one.
  run_opt_same Catalog_set_CreateTime.
  run_slice_same Catalog_set_Parameters.
  run_end.
Qed.
Lemma Catalog_reads d fuel p : (1 <= d)%nat -> (6 <= fuel)%nat -> 
  reads d (Catalog_Read fuel NewCatalog) (Catalog_toks (Some p)) (Catalog_canon p).
Proof. struct_reads Catalog_runs Catalog_wire. Qed.
#[local] Hint Resolve Catalog_writes Catalog_reads : wire.

(** ** Database *)

Definition Database_wire (p : wDatabase) : list (list wfield) :=
  [[(1, STRING, [KString (wDatabase_Name p)])];
   [(2, STRING, [KString (wDatabase_Description p)])];
   [(3, STRING, [KString (wDatabase_LocationUri p)])];
   [(4, MAP, map_toks (wDatabase_Parameters p))];
   opt_part (wDatabase_Privileges p) (fun v => (5, STRUCT, sub_toks "PrincipalPrivilegeSet" (Some v)));
   opt_part (wDatabase_OwnerName p) (fun v => (6, STRING, [KString v]));
   opt_part (wDatabase_OwnerType p) (fun v => (7, I32, [KI32 (int32 v)]));
   opt_part (wDatabase_CatalogName p) (fun v => (8, STRING, [KString v]));
   opt_part (wDatabase_CreateTime p) (fun v => (9, I32, [KI32 v]));
   opt_part (wDatabase_ManagedLocationUri p) (fun v => (10, STRING, [KString v]));
   opt_part (wDatabase_Type p) (fun v => (11, I32, [KI32 (int32 v)]));
   opt_part (wDatabase_ConnectorName p) (fun v => (12, STRING, [KString v]));
   opt_part (wDatabase_RemoteDbname p) (fun v => (13, STRING, [KString v]))].
Definition Database_toks (p : option wDatabase) : list tok :=
  struct_toks (match p with Some p => concat (Database_wire p) | None => [] end).
Definition Database_canon (p : wDatabase) : wDatabase :=
  mk_wDatabase (wDatabase_Name p)
    (wDatabase_Description p)
    (wDatabase_LocationUri p)
    (Some (entries (wDatabase_Parameters p)))
    (wDatabase_Privileges p)
    (wDatabase_OwnerName p)
    (int32 <$> wDatabase_OwnerType p)
    (wDatabase_CatalogName p)
    (wDatabase_CreateTime p)
    (wDatabase_ManagedLocationUri p)
    (int32 <$> wDatabase_Type p)
    (wDatabase_ConnectorName p)
    (wDatabase_RemoteDbname p).

Lemma Database_writes strict d p : (1 <= d)%nat -> (S sub_depth <= d)%nat -> 
  writes strict d (Database_Write p) (Database_toks p).
Proof. enter_struct. unfold Database_wire, Database_writeField1, Database_writeField2, Database_writeField3, Database_writeField4, Database_writeField5, Database_writeField6, Database_writeField7, Database_writeField8, Database_writeField9, Database_writeField10, Database_writeField11, Database_writeField12, Database_writeField13. write_fields. Qed.
Lemma Database_runs d fuel p : (0 <= d)%nat -> (sub_depth <= d)%nat -> (14 <= fuel)%nat -> (sub_fuel <= fuel)%nat -> 
  exists ids, runs d (Database_switch fuel) (concat (Database_wire p)) NewDatabase (Database_canon p) ids.
Proof.
  intros Hd Hs Hf Hsf. unfold Database_wire. eexists.
  cbn [concat]. run_one.
  run_one.
  run_one.
  run_one.
  run_opt_same Database_set_Privileges.
  run_opt_same Database_set_OwnerName.
  run_opt Database_set_OwnerType int32.
  run_opt_same Database_set_CatalogName.
  run_opt_same Database_set_CreateTime.
  run_opt_same Database_set_ManagedLocationUri.
  run_opt Database_set_Type int32.
  run_opt_same Database_set_ConnectorName.
  run_opt_same Database_set_RemoteDbname.
  run_end.
Qed.
Lemma Database_reads d fuel p : (1 <= d)%nat -> (S sub_depth <= d)%nat -> (14 <= fuel)%nat -> (sub_fuel <= fuel)%nat -> 
  reads d (Database_Read fuel NewDatabase) (Database_toks (Some p)) (Database_canon p).
Proof. struct_reads Database_runs Database_wire. Qed.
#[local] Hint Resolve Database_writes Database_reads : wire.

(** ** Table *)

Definition Table_wire (p : wTable) : list (list wfield) :=
  [[(1, STRING, [KString (wTable_TableName p)])];
   [(2, STRING, [KString (wTable_DbName p)])];
   [(3, STRING, [KString (wTable_Owner p)])];
   [(4, I32, [KI32 (wTable_CreateTime p)])];
   [(5, I32, [KI32 (wTable_LastAccessTime p)])];
   [(6, I32, [KI32 (wTable_Retention p)])];
   opt_part (wTable_Sd p) (fun v => (7, STRUCT, StorageDescriptor_toks (Some v)));
   [(8, LIST, list_toks STRUCT FieldSchema_toks (wTable_PartitionKeys p))];
   [(9, MAP, map_toks (wTable_Parameters p))];
   [(10, STRING, [KString (wTable_ViewOriginalText p)])];
   [(11, STRING, [KString (wTable_ViewExpandedText p)])];
   [(12, STRING, [KString (wTable_TableType p)])];
   opt_part (wTable_Privileges p) (fun v => (13, STRUCT, sub_toks "PrincipalPrivilegeSet" (Some v)));
   when_part (negb (Bool.eqb (wTable_Temporary p) false)) (14, BOOL, [KBool (wTable_Temporary p)]);
   opt_part (wTable_RewriteEnabled p) (fun v => (15, BOOL, [KBool v]));
   opt_part (wTable_CreationMetadata p) (fun v => (16, STRUCT, sub_toks "CreationMetadata" (Some v)));
   opt_part (wTable_CatName p) (fun v => (17, STRING, [KString v]));
   when_part (negb (wTable_OwnerType p =? 1)) (18, I32, [KI32 (int32 (wTable_OwnerType p))]);
   when_part (negb (wTable_WriteId p =? (-1))) (19, I64, [KI64 (wTable_WriteId p)]);
   opt_part (wTable_IsStatsCompliant p) (fun v => (20, BOOL, [KBool v]));
   opt_part (wTable_ColStats p) (fun v => (21, STRUCT, sub_toks "ColumnStatistics" (Some v)));
   opt_part (wTable_AccessType p) (fun v => (22, BYTE, [KByte v]));
   when_part (bool_decide (is_Some (wTable_RequiredReadCapabilities p))) (23, LIST, strings_toks (wTable_RequiredReadCapabilities p));
   when_part (bool_decide (is_Some (wTable_RequiredWriteCapabilities p))) (24, LIST, strings_toks (wTable_RequiredWriteCapabilities p));
   opt_part (wTable_ID p) (fun v => (25, I64, [KI64 v]));
   opt_part (wTable_FileMetadata p) (fun v => (26, STRUCT, sub_toks "FileMetadata" (Some v)));
   opt_part (wTable_Dictionary p) (fun v => (27, STRUCT, sub_toks "ObjectDictionary" (Some v)));
   opt_part (wTable_TxnId p) (fun v => (28, I64, [KI64 v]))].
Definition Table_toks (p : option wTable) : list tok :=
  struct_toks (match p with Some p => concat (Table_wire p) | None => [] end).
Definition Table_canon (p : wTable) : wTable :=
  mk_wTable (wTable_TableName p)
    (wTable_DbName p)
    (wTable_Owner p)
    (wTable_CreateTime p)
    (wTable_LastAccessTime p)
    (wTable_Retention p)
    (StorageDescriptor_canon <$> wTable_Sd p)
    (Some (map (fun v => Some (FieldSchema_own v)) (elems (wTable_PartitionKeys p))))
    (Some (entries (wTable_Parameters p)))
    (wTable_ViewOriginalText p)
    (wTable_ViewExpandedText p)
    (wTable_TableType p)
    (wTable_Privileges p)
    (wTable_Temporary p)
    (wTable_RewriteEnabled p)
    (wTable_CreationMetadata p)
    (wTable_CatName p)
    (int32 (wTable_OwnerType p))
    (wTable_WriteId p)
    (wTable_IsStatsCompliant p)
    (wTable_ColStats p)
    (wTable_AccessType p)
    (wTable_RequiredReadCapabilities p)
    (wTable_RequiredWriteCapabilities p)
    (wTable_ID p)
    (wTable_FileMetadata p)
    (wTable_Dictionary p)
    (wTable_TxnId p).
Definition Table_ok (p : wTable) : Prop := forall v, wTable_Sd p = Some v -> StorageDescriptor_ok v.

Lemma Table_writes strict d p : (3 <= d)%nat -> (S sub_depth <= d)%nat -> (strict -> forall p0, p = Some p0 -> Table_ok p0) -> 
  writes strict d (Table_Write p) (Table_toks p).
Proof. enter_struct. unfold Table_wire, Table_writeField1, Table_writeField2, Table_writeField3, Table_writeField4, Table_writeField5, Table_writeField6, Table_writeField7, Table_writeField8, Table_writeField9, Table_writeField10, Table_writeField11, Table_writeField12, Table_writeField13, Table_writeField14, Table_writeField15, Table_writeField16, Table_writeField17, Table_writeField18, Table_writeField19, Table_writeField20, Table_writeField21, Table_writeField22, Table_writeField23, Table_writeField24, Table_writeField25, Table_writeField26, Table_writeField27, Table_writeField28. write_fields. Qed.
Lemma Table_runs d fuel p : (2 <= d)%nat -> (sub_depth <= d)%nat -> (29 <= fuel)%nat -> (sub_fuel <= fuel)%nat -> 
  exists ids, runs d (Table_switch fuel) (concat (Table_wire p)) NewTable (Table_canon p) ids.
Proof.
  intros Hd Hs Hf Hsf. unfold Table_wire. eexists.
  cbn [concat]. run_one.
  run_one.
  run_one.
  run_one.
  run_one.
  run_one.
  run_opt Table_set_Sd StorageDescriptor_canon.
  run_one.
  run_one.
  run_one.
  run_one.
  run_one.
  run_opt_same Table_set_Privileges.
  run_when Table_set_Temporary (wTable_Temporary p) false.
  run_opt_same Table_set_RewriteEnabled.
  run_opt_same Table_set_CreationMetadata.
  run_opt_same Table_set_CatName.
  run_when Table_set_OwnerType (int32 (wTable_OwnerType p)) 1.
  run_when Table_set_WriteId (wTable_WriteId p) (-1).
  run_opt_same Table_set_IsStatsCompliant.
  run_opt_same Table_set_ColStats.
  run_opt_same Table_set_AccessType.
  run_slice_same Table_set_RequiredReadCapabilities.
  run_slice_same Table_set_RequiredWriteCapabilities.
  run_opt_same Table_set_ID.
  run_opt_same Table_set_FileMetadata.
  run_opt_same Table_set_Dictionary.
  run_opt_same Table_set_TxnId.
  run_end.
Qed.
Lemma Table_reads d fuel p : (3 <= d)%nat -> (S sub_depth <= d)%nat -> (29 <= fuel)%nat -> (sub_fuel <= fuel)%nat -> 
  reads d (Table_Read fuel NewTable) (Table_toks (Some p)) (Table_canon p).
Proof. struct_reads Table_runs Table_wire. Qed.
#[local] Hint Resolve Table_writes Table_reads : wire.

(** ** Partition *)

Definition Partition_wire (p : wPartition) : list (list wfield) :=
  [[(1, LIST, strings_toks (wPartition_Values p))];
   [(2, STRING, [KString (wPartition_DbName p)])];
   [(3, STRING, [KString (wPartition_TableName p)])];
   [(4, I32, [KI32 (wPartition_CreateTime p)])];
   [(5, I32, [KI32 (wPartition_LastAccessTime p)])];
   opt_part (wPartition_Sd p) (fun v => (6, STRUCT, StorageDescriptor_toks (Some v)));
   [(7, MAP, map_toks (wPartition_Parameters p))];
   opt_part (wPartition_Privileges p) (fun v => (8, STRUCT, sub_toks "PrincipalPrivilegeSet" (Some v)));
   opt_part (wPartition_CatName p) (fun v => (9, STRING, [KString v]));
   when_part (negb (wPartition_WriteId p =? (-1))) (10, I64, [KI64 (wPartition_WriteId p)]);
   opt_part (wPartition_IsStatsCompliant p) (fun v => (11, BOOL, [KBool v]));
   opt_part (wPartition_ColStats p) (fun v => (12, STRUCT, sub_toks "ColumnStatistics" (Some v)));
   opt_part (wPartition_FileMetadata p) (fun v => (13, STRUCT, sub_toks "FileMetadata" (Some v)))].
Definition Partition_toks (p : option wPartition) : list tok :=
  struct_toks (match p with Some p => concat (Partition_wire p) | None => [] end).
Definition Partition_canon (p : wPartition) : wPartition :=
  mk_wPartition (own_strings (wPartition_Values p))
    (wPartition_DbName p)
    (wPartition_TableName p)
    (wPartition_CreateTime p)
    (wPartition_LastAccessTime p)
    (StorageDescriptor_canon <$> wPartition_Sd p)
    (Some (entries (wPartition_Parameters p)))
    (wPartition_Privileges p)
    (wPartition_CatName p)
    (wPartition_WriteId p)
    (wPartition_IsStatsCompliant p)
    (wPartition_ColStats p)
    (wPartition_FileMetadata p).
Definition Partition_ok (p : wPartition) : Prop := forall v, wPartition_Sd p = Some v -> StorageDescriptor_ok v.

Lemma Partition_writes strict d p : (3 <= d)%nat -> (S sub_depth <= d)%nat -> (strict -> forall p0, p = Some p0 -> Partition_ok p0) -> 
  writes strict d (Partition_Write p) (Partition_toks p).
Proof. enter_struct. unfold Partition_wire, Partition_writeField1, Partition_writeField2, Partition_writeField3, Partition_writeField4, Partition_writeField5, Partition_writeField6, Partition_writeField7, Partition_writeField8, Partition_writeField9, Partition_writeField10, Partition_writeField11, Partition_writeField12, Partition_writeField13. write_fields. Qed.
Lemma Partition_runs d fuel p : (2 <= d)%nat -> (sub_depth <= d)%nat -> (14 <= fuel)%nat -> (sub_fuel <= fuel)%nat -> 
  exists ids, runs d (Partition_switch fuel) (concat (Partition_wire p)) NewPartition (Partition_canon p) ids.
Proof.
  intros Hd Hs Hf Hsf. unfold Partition_wire. eexists.
  cbn [concat]. run_one.
  run_one.
  run_one.
  run_one.
  run_one.
  run_opt Partition_set_Sd StorageDescriptor_canon.
  run_one.
  run_opt_same Partition_set_Privileges.
  run_opt_same Partition_set_CatName.
  run_when Partition_set_WriteId (wPartition_WriteId p) (-1).
  run_opt_same Partition_set_IsStatsCompliant.
  run_opt_same Partition_set_ColStats.
  run_opt_same Partition_set_FileMetadata.
  run_end.
Qed.
Lemma Partition_reads d fuel p : (3 <= d)%nat -> (S sub_depth <= d)%nat -> (14 <= fuel)%nat -> (sub_fuel <= fuel)%nat -> 
  reads d (Partition_Read fuel NewPartition) (Partition_toks (Some p)) (Partition_canon p).
Proof. struct_reads Partition_runs Partition_wire. Qed.
#[local] Hint Resolve Partition_writes Partition_reads : wire.

End facts.

#[export] Hint Resolve FieldSchema_writes FieldSchema_reads FieldSchema_own_reads Order_writes Order_reads
  Order_own_reads SerDeInfo_writes SerDeInfo_reads SkewedInfo_writes SkewedInfo_reads
  StorageDescriptor_writes StorageDescriptor_reads Catalog_writes Catalog_reads Database_writes
  Database_reads Table_writes Table_reads Partition_writes Partition_reads : wire.
