(* ===== verification/DeepCopy.v ===== *)
(** * DeepCopy: deepCopyThrift of convert.go, by the generated codecs

    A table, partition or database written and read back is its canonical form
    ([Table_canon]), unknown fields or not; so the deep copies of the snapshot
    keep their contract ([DeepCopyLaws]), which the theorems of ConvertFacts take
    as a hypothesis. *)

From S2P Require Import Prelude Errors GoMonad Types Transport Wire Convert ConvertFacts Thrift ThriftFacts CodecTable CodecTableFacts.

(** ** The serializer pools *)

(** A TSerializer's empty buffer, and its bytes given to a TDeserializer. *)
Class TSerializer (P : Type) := {
  ser_fresh : P;
  ser_deliver : P -> goerr + P;
  ser_fuel : nat;
}.

Class TSerializerLaws (P : Type) {TP : TProtocol P} {TL : TProtocolLaws P} {SB : Substructs P} {SL : SubstructLaws P}
    {TS : TSerializer P} := {
  ser_levels : nat;
  ser_levels_enough : (3 <= ser_levels)%nat /\ (S sub_depth <= ser_levels)%nat;
  ser_fuel_enough : (30 <= ser_fuel)%nat /\ (sub_fuel <= ser_fuel)%nat;
  ser_fresh_holds : holds ser_fresh ser_levels [];
  ser_deliver_ok p n l : holds p n l ->
    match ser_deliver p with inr p' => holds p' n l | inl _ => ~ Forall fits l end;
}.

Section copy.
Context {P : Type} {TP : TProtocol P} {MR : MapRange} {SB : Substructs P} {TS : TSerializer P}.

Definition deepCopyThrift {X} (write : option X -> M P unit) (read : X -> MF P X) (src dst : X) : option X :=
  match write (Some src) ser_fresh with
  | (_, inl _) => None
  | (p, inr _) =>
      match ser_deliver p with
      | inl _ => None
      | inr p => match read dst p with Some (_, inr out) => Some out | _ => None end
      end
  end.

#[export] Instance codecCopy : DeepCopy := {|
  deepCopyTable := fun t => deepCopyThrift Table_Write (Table_Read ser_fuel) t NewTable;
  deepCopyPartition := fun p => deepCopyThrift Partition_Write (Partition_Read ser_fuel) p NewPartition;
  deepCopyDatabase := fun d => deepCopyThrift Database_Write (Database_Read ser_fuel) d NewDatabase;
|}.
End copy.

Section laws.
Context {P : Type} {TP : TProtocol P} {TL : TProtocolLaws P} {MR : MapRange} {SB : Substructs P} {SL : SubstructLaws P}.
Context {TS : TSerializer P} {TSL : TSerializerLaws P}.

Lemma deepCopy_spec {X} strict (write : option X -> M P unit) read (src dst : X) ts c :
  writes strict ser_levels (write (Some src)) ts -> reads ser_levels (read dst) ts c ->
  match deepCopyThrift write read src dst with
  | Some out => out = c
  | None => strict -> ~ Forall fits ts
  end.
Proof.
  intros Hw Hr. unfold deepCopyThrift. specialize (Hw ser_fresh 0%nat []). rewrite Nat.add_0_r in Hw.
  specialize (Hw ser_fresh_holds). destruct (write (Some src) ser_fresh) as [p1 [e|u]]; [done|].
  pose proof (ser_deliver_ok p1 _ _ Hw) as Hd. destruct (ser_deliver p1) as [e|p2]; [done|].
  specialize (Hr p2 0%nat []). rewrite Nat.add_0_r, app_nil_r in Hr. specialize (Hr Hd).
  destruct (read dst p2) as [[p3 [e|out]]|]; [done|by destruct Hr|done].
Qed.

Ltac sized := pose proof ser_levels_enough; pose proof ser_fuel_enough; intuition lia.

Lemma deepCopyTable_spec (strict : Prop) t : (strict -> Table_ok t) ->
  match deepCopyTable t with
  | Some out => out = Table_canon t
  | None => strict -> ~ Forall fits (Table_toks (Some t))
  end.
Proof.
  intros Hok. apply (deepCopy_spec strict); [apply Table_writes; try sized|apply Table_reads; sized].
  intros Hs p [= <-]. by apply Hok.
Qed.
Lemma deepCopyPartition_spec (strict : Prop) p : (strict -> Partition_ok p) ->
  match deepCopyPartition p with
  | Some out => out = Partition_canon p
  | None => strict -> ~ Forall fits (Partition_toks (Some p))
  end.
Proof.
  intros Hok. apply (deepCopy_spec strict); [apply Partition_writes; try sized|apply Partition_reads; sized].
  intros Hs q [= <-]. by apply Hok.
Qed.
Lemma deepCopyDatabase_spec d :
  match deepCopyDatabase d with
  | Some out => out = Database_canon d
  | None => ~ Forall fits (Database_toks (Some d))
  end.
Proof.
  pose proof (deepCopy_spec True Database_Write (Database_Read ser_fuel) d NewDatabase
    (Database_toks (Some d)) (Database_canon d)) as H.
  assert (deepCopyDatabase d = deepCopyThrift Database_Write (Database_Read ser_fuel) d NewDatabase) as -> by done.
  destruct (deepCopyThrift _ _ d NewDatabase); [apply H|apply H; [| |done]];
    first [apply Database_writes; sized | apply Database_reads; sized].
Qed.

Lemma sd_canon_serde sd : sd_ranged sd ->
  serde_unmodelled <$> sd_serde (StorageDescriptor_canon <$> sd) = serde_unmodelled <$> sd_serde sd.
Proof.
  intros Hr. destruct sd as [sd|]; [|done]. unfold sd_ranged, sd_serde in *. simpl in *.
  destruct (wStorageDescriptor_SerdeInfo sd) as [s|]; [|done]. simpl. f_equal. unfold serde_unmodelled. simpl.
  destruct (wSerDeInfo_SerdeType s) as [z|] eqn:E; [|done]. simpl. by rewrite int32_id by by eapply Hr.
Qed.

Lemma extends_refl {X} (sw : switch (P := P) X) fs : extends sw fs fs.
Proof. induction fs; by constructor. Qed.

(** C8: the generated codecs of the structs the client edits are right: a Table, a
    Partition or a Database written by one side is read by the other as itself, nil
    collections become empty ones and enums are cut to 32 bits ([Table_canon]), the
    defaults of fields left out are restored, and whatever fields of other Hive
    versions stand between its own, of unknown id or of another type, are skipped;
    the write fails only on a string the protocol refuses, or on two skewed
    locations of equal values. *)
Theorem table_codecs_roundtrip :
  let d := S (S (S sub_depth)) in let nf := (30 + sub_fuel)%nat in
  roundtrips d nf Table_ok Table_wire NewTable Table_canon Table_Write Table_switch Table_Read /\
  roundtrips d nf Partition_ok Partition_wire NewPartition Partition_canon Partition_Write Partition_switch Partition_Read /\
  roundtrips d nf (fun _ => True) Database_wire NewDatabase Database_canon Database_Write Database_switch Database_Read.
Proof.
  cbv zeta. split; [|split]; apply roundtrips_intro.
  - intros x Hok. apply (Table_writes True _ (Some x)); [lia..|]. by intros _ ? [= <-].
  - intros x fuel _ Hf. destruct (Table_runs (S (S sub_depth)) fuel x) as [ids Hr]; [lia..|]. by exists ids.
  - intros x Hok. apply (Partition_writes True _ (Some x)); [lia..|]. by intros _ ? [= <-].
  - intros x fuel _ Hf. destruct (Partition_runs (S (S sub_depth)) fuel x) as [ids Hr]; [lia..|]. by exists ids.
  - intros x _. apply (Database_writes True _ (Some x)); lia.
  - intros x fuel _ Hf. destruct (Database_runs (S (S sub_depth)) fuel x) as [ids Hr]; [lia..|]. by exists ids.
Qed.

(** The snapshots behind an alter are complete: copying a table, partition or
    database through the real codecs succeeds whenever its strings fit the protocol
    (and its skewed locations have distinct values), and gives it back field by
    field in canonical form, so that the copy of the copy keeps every field the
    exported type does not model. *)
Theorem snapshot_total t p d :
  (Table_ok t -> Forall fits (Table_toks (Some t)) -> rawTable t = Some (Table_canon t)) /\
  (Partition_ok p -> Forall fits (Partition_toks (Some p)) -> rawPartition p = Some (Partition_canon p)) /\
  (Forall fits (Database_toks (Some d)) -> rawDatabase d = Some (Database_canon d)) /\
  table_unmodelled (Table_canon t) = table_unmodelled t /\
  partition_unmodelled (Partition_canon p) = partition_unmodelled p.
Proof.
  split_and!; [| | |done|done].
  - intros Hok Hf. unfold rawTable. pose proof (deepCopyTable_spec True t (fun _ => Hok)) as H.
    destruct (deepCopyTable t); [by rewrite H|by edestruct H].
  - intros Hok Hf. unfold rawPartition. pose proof (deepCopyPartition_spec True p (fun _ => Hok)) as H.
    destruct (deepCopyPartition p); [by rewrite H|by edestruct H].
  - intros Hf. unfold rawDatabase. pose proof (deepCopyDatabase_spec d) as H.
    destruct (deepCopyDatabase d); [by rewrite H|done].
Qed.

(** The copies keep their contract. *)
#[export] Instance codecCopyLaws : DeepCopyLaws.
Proof.
  split.
  - intros t t' Ht Hr. pose proof (deepCopyTable_spec False t ltac:(done)) as H. rewrite Ht in H. subst.
    split; [done|]. by apply sd_canon_serde.
  - intros p p' Hp Hr. pose proof (deepCopyPartition_spec False p ltac:(done)) as H. rewrite Hp in H. subst.
    split; [done|]. by apply sd_canon_serde.
  - intros d d' Hd Hr. pose proof (deepCopyDatabase_spec d) as H. rewrite Hd in H. subst.
    unfold database_unmodelled. simpl. destruct (wDatabase_Type d) as [z|] eqn:E; [|done]. simpl.
    by rewrite int32_id by by apply Hr.
Qed.
End laws.

(** ** A protocol: a queue of tokens *)

Module Queue.

Record queue := mkQueue { q_toks : list tok; q_levels : nat }.

Definition push (t : tok) : M queue unit := fun q => (mkQueue (q_toks q ++ [t]) (q_levels q), inr tt).
Definition unexpected : goerr := EText "unexpected token".
Definition pop {A} (f : tok -> option A) : M queue A := fun q =>
  match q_toks q with
  | t :: l => match f t with Some a => (mkQueue l (q_levels q), inr a) | None => (q, inl unexpected) end
  | [] => (q, inl EEOF)
  end.
Definition popfield (q : queue) : queue * (Z * Z * option goerr) :=
  match q_toks q with
  | KField ty id :: l => (mkQueue l (q_levels q), (ty, id, None))
  | KStop :: l => (mkQueue l (q_levels q), (STOP, 0, None))
  | _ => (q, (0, 0, Some unexpected))
  end.

(** What is left after one value, [nest] containers being open. *)
Fixpoint drop_value (nest : nat) (l : list tok) : option (list tok) :=
  match l with
  | [] => None
  | t :: l =>
      let nest' := match t with
                   | KStruct | KList _ _ | KMap _ _ _ => S nest
                   | KStructEnd | KListEnd | KMapEnd => pred nest
                   | _ => nest
                   end in
      match nest' with O => Some l | _ => drop_value nest' l end
  end.
Definition skip (ty : Z) : M queue unit := fun q =>
  match drop_value 0 (q_toks q) with
  | Some l => (mkQueue l (q_levels q), inr tt)
  | None => (q, inl EEOF)
  end.

#[export] Instance protocol : TProtocol queue := {|
  WriteMessageBegin := fun name ty seq => push (KMessage name ty seq); WriteMessageEnd := push KMessageEnd;
  WriteStructBegin := fun _ => push KStruct; WriteStructEnd := push KStructEnd;
  WriteFieldBegin := fun _ ty id => push (KField ty id); WriteFieldEnd := push KFieldEnd; WriteFieldStop := push KStop;
  WriteListBegin := fun ty n => push (KList ty n); WriteListEnd := push KListEnd;
  WriteMapBegin := fun k v n => push (KMap k v n); WriteMapEnd := push KMapEnd;
  WriteBool := fun b => push (KBool b); WriteByte := fun z => push (KByte z); WriteI16 := fun z => push (KI16 z);
  WriteI32 := fun z => push (KI32 z); WriteI64 := fun z => push (KI64 z); WriteDouble := fun z => push (KDouble z);
  WriteString := fun s => push (KString s); WriteBinary := fun l => push (KBinary l); Flush := ret tt;
  ReadMessageBegin := pop (fun t => match t with KMessage name ty seq => Some (name, ty, seq) | _ => None end);
  ReadMessageEnd := pop (fun t => match t with KMessageEnd => Some tt | _ => None end);
  ReadStructBegin := pop (fun t => match t with KStruct => Some tt | _ => None end);
  ReadStructEnd := pop (fun t => match t with KStructEnd => Some tt | _ => None end);
  ReadFieldBegin := popfield;
  ReadFieldEnd := pop (fun t => match t with KFieldEnd => Some tt | _ => None end);
  ReadListBegin := pop (fun t => match t with KList ty n => Some (ty, n) | _ => None end);
  ReadListEnd := pop (fun t => match t with KListEnd => Some tt | _ => None end);
  ReadMapBegin := pop (fun t => match t with KMap k v n => Some (k, v, n) | _ => None end);
  ReadMapEnd := pop (fun t => match t with KMapEnd => Some tt | _ => None end);
  ReadBool := pop (fun t => match t with KBool b => Some b | _ => None end);
  ReadByte := pop (fun t => match t with KByte z => Some z | _ => None end);
  ReadI16 := pop (fun t => match t with KI16 z => Some z | _ => None end);
  ReadI32 := pop (fun t => match t with KI32 z => Some z | _ => None end);
  ReadI64 := pop (fun t => match t with KI64 z => Some z | _ => None end);
  ReadDouble := pop (fun t => match t with KDouble z => Some z | _ => None end);
  ReadString := pop (fun t => match t with KString s => Some s | _ => None end);
  ReadBinary := pop (fun t => match t with KBinary l => Some l | _ => None end);
  Skip := skip;
  CheckRecursionDepth := fun q =>
    match q_levels q with
    | O => (q, inl (EProtocol "max recursion depth exceeded" None))
    | S n => (mkQueue (q_toks q) n, inr tt)
    end;
  DecrementRecursionDepth := fun q => mkQueue (q_toks q) (S (q_levels q));
  PrependError := fun text e => EWrap (text +:+ error_text e) e;
|}.

Lemma drop_elems ts es nest :
  Forall (fun e => forall l, drop_value (S nest) (e ++ l) = drop_value (S nest) l) es ->
  drop_value (S nest) (concat es ++ ts) = drop_value (S nest) ts.
Proof. induction 1 as [|e es He _ IH]; simpl; [done|]. by rewrite <- app_assoc, He. Qed.

Lemma drop_value_ok k : forall ty ts, value k ty ts -> forall nest l,
  drop_value nest (ts ++ l) = match nest with O => Some l | _ => drop_value nest l end.
Proof.
  induction k as [|k IH]; intros ty ts Hv nest l; inversion Hv; subst; try (by destruct nest);
    simpl; rewrite <- app_assoc, drop_elems; try (by destruct nest).
  - eapply Forall_impl; [|eassumption]. intros e He l'. by rewrite (IH _ _ He).
  - apply Forall_map. eapply Forall_impl; [|eassumption]. intros [a b] [Ha Hb] l'. simpl in *.
    by rewrite <- app_assoc, (IH _ _ Ha), (IH _ _ Hb).
  - apply Forall_map. eapply Forall_impl; [|eassumption]. intros [[id ty] ts] [_ Ht] l'. simpl in *.
    by rewrite <- app_assoc, (IH _ _ Ht).
Qed.

#[export] Instance protocol_laws : TProtocolLaws queue.
Proof.
  refine {| holds := fun q n l => q_toks q = l /\ q_levels q = n; fits := fun _ => True; skip_depth := 64 |}.
  - intros w t q n l Hw [<- <-]. by destruct Hw.
  - intros A m t a q n l Hr [Hq Hn]. destruct q as [ts lv]. simpl in Hq, Hn. subst. by destruct Hr.
  - intros q n l ty id [Hq Hn]. simpl. unfold popfield. by rewrite Hq.
  - intros q n l [Hq Hn]. simpl. unfold popfield. by rewrite Hq.
  - intros k ty ts q n l Hv _ [Hq Hn]. simpl. unfold skip. by rewrite Hq, (drop_value_ok _ _ _ Hv).
  - intros q n l Hq. by exists q.
  - intros q n l [Hq Hn]. simpl. rewrite Hn. by eexists.
  - intros q n l [<- <-]. by split.
Defined.

(** A blob is a struct of one string. *)
Definition blob_Write (name : string) (b : option blob) : M queue unit :=
  write_struct name name ((fun b => [write_field name "blob" STRING 1 (write_scalar name "blob" 1 (WriteString b))]) <$> b).
Definition blob_switch : switch (P := queue) blob := fun id =>
  match id with 1 => Some (STRING, fun _ => read_scalar 1 ReadString) | _ => None end.
Definition blob_toks (b : option blob) : list tok :=
  struct_toks (match b with Some b => [(1, STRING, [KString b])] | None => [] end).

#[export] Instance blobs : Substructs queue := {|
  sub_Write := blob_Write;
  sub_Read := fun name fuel => read_struct name [] blob_switch fuel EmptyString;
|}.

#[export] Instance blob_laws : SubstructLaws queue.
Proof.
  refine {| sub_depth := 1; sub_fuel := 2; sub_toks := fun _ => blob_toks; sub_nest := 1 |}.
  - intros strict [|d] name b Hd; [lia|]. simpl. unfold blob_Write, blob_toks.
    destruct b as [b|]; [|apply writes_struct_nil].
    apply (writes_struct strict d name name _ [[(1, STRING, [KString b])]]). write_fields.
  - intros name [b|]; unfold blob_toks; apply value_struct; repeat constructor; done.
  - intros [|d] name fuel b Hd Hf; [lia|].
    apply (reads_struct d _ _ _ fuel [(1, STRING, [KString b])] "" b [1]); [|simpl; lia|constructor].
    eapply runs_one; [discriminate|reflexivity|]. apply reads_scalar. constructor.
Defined.

#[export] Instance ranges : MapRange := {| range := map_to_list; range_perm := fun m => reflexivity _ |}.

#[export] Instance serializer : TSerializer queue := {|
  ser_fresh := mkQueue [] 64; ser_deliver := inr; ser_fuel := 64 |}.
#[export] Instance serializer_laws : TSerializerLaws queue.
Proof.
  refine {| ser_levels := 64 |}; [simpl; lia|simpl; lia|done|done].
Defined.

(** Fields of a server to come: an id the client does not know, and one it knows as
    another type. *)
Definition extra_fields : list wfield :=
  [(77, LIST, [KList STRUCT 1; KStruct; KField I32 1; KI32 5; KFieldEnd; KStop; KStructEnd; KListEnd]);
   (1, I64, [KI64 9])].
Lemma extra_extend fuel fs : extends (Table_switch fuel) fs (extra_fields ++ fs).
Proof.
  assert (value 0 I32 [KI32 5]) by constructor.
  unfold extra_fields. simpl. constructor; [|constructor; [|apply extends_refl]].
  - split; [discriminate|]. split; [done|]. exists 2%nat. split; [|simpl; lia].
    apply (value_list 1 STRUCT [struct_toks [(1, I32, [KI32 5])]]).
    constructor; [|constructor]. apply (value_struct 0 [(1, I32, [KI32 5])]). by repeat constructor.
  - split; [discriminate|]. split; [done|]. exists 0%nat. split; [constructor|simpl; lia].
Qed.
End Queue.

Import Queue.

Example table_codecs_roundtrip_witness :
  exists q, Table_Read 64 NewTable (mkQueue (struct_toks (extra_fields ++ concat (Table_wire demo_table))) 4) =
    Some (q, inr (Table_canon demo_table)) /\ q_toks q = [].
Proof.
  destruct (table_codecs_roundtrip (P := queue)) as [H _].
  destruct (H demo_table 64%nat (mkQueue (struct_toks (extra_fields ++ concat (Table_wire demo_table))) 4) 0%nat [])
    as [_ Hr]; [by intros v [= <-]|simpl; lia|].
  destruct (Hr (extra_fields ++ concat (Table_wire demo_table)) (extra_extend 64 _)) as (q & Hq & Hq2 & _);
    [vm_compute; lia|split; [rewrite app_nil_r; reflexivity|reflexivity]|by apply Forall_true|].
  exists q. exact (conj Hq Hq2).
Defined.

Example snapshot_total_witness :
  wTable_TxnId demo_table = Some 3 /\ rawTable demo_table = Some (Table_canon demo_table).
Proof.
  split; [reflexivity|].
  apply (proj1 (snapshot_total (P := queue) demo_table NewPartition NewDatabase)); [by intros v [= <-]|by apply Forall_true].
Defined.

(** The round trip of ConvertFacts, on this serializer. *)
Example alter_through_codecs :
  tableToThriftFrom (tableFromThrift (Some demo_table)) (wTable_CatName demo_table) = Some (norm_table demo_table).
Proof. vm_compute. reflexivity. Qed.
