(* ===== verification/CodecStats.v ===== *)
(** * CodecStats: the generated Write and Read of column statistics

    As CodecTable; a union is written only with exactly one field set, and bytes have
    a call of their own. *)

From S2P Require Import Prelude Errors GoMonad Types Transport Wire Thrift.

Section codec.
Context {P : Type} {TP : TProtocol P} {MR : MapRange} {SB : Substructs P}.

(** ** Decimal *)

Local Abbreviation T_Decimal := "*hive_metastore.Decimal".
Definition Decimal_set_Unscaled v '(mk_wDecimal _ x2) : wDecimal :=
  mk_wDecimal v x2.
Definition Decimal_set_Scale v '(mk_wDecimal x1 _) : wDecimal :=
  mk_wDecimal x1 v.

Definition Decimal_writeField1 (p : wDecimal) : M P unit :=
  (write_field T_Decimal "unscaled" STRING 1 (write_scalar T_Decimal "unscaled" 1 (WriteBinary (elems (wDecimal_Unscaled p)))))%go.
Definition Decimal_ReadField1 : wDecimal -> MF P wDecimal :=
  assign (l <-- read_scalar 1 ReadBinary;; liftF (ret (Some l)))%go Decimal_set_Unscaled.
Definition Decimal_writeField3 (p : wDecimal) : M P unit :=
  (write_field T_Decimal "scale" I16 3 (write_scalar T_Decimal "scale" 3 (WriteI16 (wDecimal_Scale p))))%go.
Definition Decimal_ReadField3 : wDecimal -> MF P wDecimal :=
  assign (read_scalar 3 ReadI16)%go Decimal_set_Scale.
Definition Decimal_Write (p : option wDecimal) : M P unit :=
  write_struct T_Decimal "Decimal" ((fun p => [Decimal_writeField1 p; Decimal_writeField3 p]) <$> p).
Definition Decimal_switch : switch wDecimal := fun fieldId =>
  match fieldId with
  | 1 => Some (STRING, Decimal_ReadField1)
  | 3 => Some (I16, Decimal_ReadField3)
  | _ => None
  end.
Definition Decimal_Read (fuel : nat) : wDecimal -> MF P wDecimal :=
  read_struct T_Decimal [(3, "Scale"); (1, "Unscaled")] Decimal_switch fuel.

(** ** Date *)

Local Abbreviation T_Date := "*hive_metastore.Date".
Definition Date_set_DaysSinceEpoch v (_ : wDate) : wDate := mk_wDate v.

Definition Date_writeField1 (p : wDate) : M P unit :=
  (write_field T_Date "daysSinceEpoch" I64 1 (write_scalar T_Date "daysSinceEpoch" 1 (WriteI64 (wDate_DaysSinceEpoch p))))%go.
Definition Date_ReadField1 : wDate -> MF P wDate :=
  assign (read_scalar 1 ReadI64)%go Date_set_DaysSinceEpoch.
Definition Date_Write (p : option wDate) : M P unit :=
  write_struct T_Date "Date" ((fun p => [Date_writeField1 p]) <$> p).
Definition Date_switch : switch wDate := fun fieldId =>
  match fieldId with
  | 1 => Some (I64, Date_ReadField1)
  | _ => None
  end.
Definition Date_Read (fuel : nat) : wDate -> MF P wDate :=
  read_struct T_Date [(1, "DaysSinceEpoch")] Date_switch fuel.

(** ** Timestamp *)

Local Abbreviation T_Timestamp := "*hive_metastore.Timestamp".
Definition Timestamp_set_SecondsSinceEpoch v (_ : wTimestamp) : wTimestamp := mk_wTimestamp v.

Definition Timestamp_writeField1 (p : wTimestamp) : M P unit :=
  (write_field T_Timestamp "secondsSinceEpoch" I64 1 (write_scalar T_Timestamp "secondsSinceEpoch" 1 (WriteI64 (wTimestamp_SecondsSinceEpoch p))))%go.
Definition Timestamp_ReadField1 : wTimestamp -> MF P wTimestamp :=
  assign (read_scalar 1 ReadI64)%go Timestamp_set_SecondsSinceEpoch.
Definition Timestamp_Write (p : option wTimestamp) : M P unit :=
  write_struct T_Timestamp "Timestamp" ((fun p => [Timestamp_writeField1 p]) <$> p).
Definition Timestamp_switch : switch wTimestamp := fun fieldId =>
  match fieldId with
  | 1 => Some (I64, Timestamp_ReadField1)
  | _ => None
  end.
Definition Timestamp_Read (fuel : nat) : wTimestamp -> MF P wTimestamp :=
  read_struct T_Timestamp [(1, "SecondsSinceEpoch")] Timestamp_switch fuel.

(** ** BooleanColumnStatsData *)

Local Abbreviation T_BooleanColumnStatsData := "*hive_metastore.BooleanColumnStatsData".
Definition BooleanColumnStatsData_set_NumTrues v '(mk_wBooleanColumnStatsData _ x2 x3 x4) : wBooleanColumnStatsData :=
  mk_wBooleanColumnStatsData v x2 x3 x4.
Definition BooleanColumnStatsData_set_NumFalses v '(mk_wBooleanColumnStatsData x1 _ x3 x4) : wBooleanColumnStatsData :=
  mk_wBooleanColumnStatsData x1 v x3 x4.
Definition BooleanColumnStatsData_set_NumNulls v '(mk_wBooleanColumnStatsData x1 x2 _ x4) : wBooleanColumnStatsData :=
  mk_wBooleanColumnStatsData x1 x2 v x4.
Definition BooleanColumnStatsData_set_BitVectors v '(mk_wBooleanColumnStatsData x1 x2 x3 _) : wBooleanColumnStatsData :=
  mk_wBooleanColumnStatsData x1 x2 x3 v.

Definition BooleanColumnStatsData_writeField1 (p : wBooleanColumnStatsData) : M P unit :=
  (write_field T_BooleanColumnStatsData "numTrues" I64 1 (write_scalar T_BooleanColumnStatsData "numTrues" 1 (WriteI64 (wBooleanColumnStatsData_NumTrues p))))%go.
Definition BooleanColumnStatsData_ReadField1 : wBooleanColumnStatsData -> MF P wBooleanColumnStatsData :=
  assign (read_scalar 1 ReadI64)%go BooleanColumnStatsData_set_NumTrues.
Definition BooleanColumnStatsData_writeField2 (p : wBooleanColumnStatsData) : M P unit :=
  (write_field T_BooleanColumnStatsData "numFalses" I64 2 (write_scalar T_BooleanColumnStatsData "numFalses" 2 (WriteI64 (wBooleanColumnStatsData_NumFalses p))))%go.
Definition BooleanColumnStatsData_ReadField2 : wBooleanColumnStatsData -> MF P wBooleanColumnStatsData :=
  assign (read_scalar 2 ReadI64)%go BooleanColumnStatsData_set_NumFalses.
Definition BooleanColumnStatsData_writeField3 (p : wBooleanColumnStatsData) : M P unit :=
  (write_field T_BooleanColumnStatsData "numNulls" I64 3 (write_scalar T_BooleanColumnStatsData "numNulls" 3 (WriteI64 (wBooleanColumnStatsData_NumNulls p))))%go.
Definition BooleanColumnStatsData_ReadField3 : wBooleanColumnStatsData -> MF P wBooleanColumnStatsData :=
  assign (read_scalar 3 ReadI64)%go BooleanColumnStatsData_set_NumNulls.
Definition BooleanColumnStatsData_writeField4 (p : wBooleanColumnStatsData) : M P unit :=
  (when (bool_decide (is_Some (wBooleanColumnStatsData_BitVectors p)))
    (write_field T_BooleanColumnStatsData "bitVectors" STRING 4 (write_scalar T_BooleanColumnStatsData "bitVectors" 4 (WriteBinary (elems (wBooleanColumnStatsData_BitVectors p))))))%go.
Definition BooleanColumnStatsData_ReadField4 : wBooleanColumnStatsData -> MF P wBooleanColumnStatsData :=
  assign (l <-- read_scalar 4 ReadBinary;; liftF (ret (Some l)))%go BooleanColumnStatsData_set_BitVectors.
Definition BooleanColumnStatsData_Write (p : option wBooleanColumnStatsData) : M P unit :=
  write_struct T_BooleanColumnStatsData "BooleanColumnStatsData" ((fun p => [BooleanColumnStatsData_writeField1 p;
     BooleanColumnStatsData_writeField2 p; BooleanColumnStatsData_writeField3 p;
     BooleanColumnStatsData_writeField4 p]) <$> p).
Definition BooleanColumnStatsData_switch : switch wBooleanColumnStatsData := fun fieldId =>
  match fieldId with
  | 1 => Some (I64, BooleanColumnStatsData_ReadField1)
  | 2 => Some (I64, BooleanColumnStatsData_ReadField2)
  | 3 => Some (I64, BooleanColumnStatsData_ReadField3)
  | 4 => Some (STRING, BooleanColumnStatsData_ReadField4)
  | _ => None
  end.
Definition BooleanColumnStatsData_Read (fuel : nat) : wBooleanColumnStatsData -> MF P wBooleanColumnStatsData :=
  read_struct T_BooleanColumnStatsData [(1, "NumTrues"); (2, "NumFalses");
     (3, "NumNulls")] BooleanColumnStatsData_switch fuel.

(** ** LongColumnStatsData *)

Local Abbreviation T_LongColumnStatsData := "*hive_metastore.LongColumnStatsData".
Definition LongColumnStatsData_set_LowValue v '(mk_wLongColumnStatsData _ x2 x3 x4 x5 x6) : wLongColumnStatsData :=
  mk_wLongColumnStatsData v x2 x3 x4 x5 x6.
Definition LongColumnStatsData_set_HighValue v '(mk_wLongColumnStatsData x1 _ x3 x4 x5 x6) : wLongColumnStatsData :=
  mk_wLongColumnStatsData x1 v x3 x4 x5 x6.
Definition LongColumnStatsData_set_NumNulls v '(mk_wLongColumnStatsData x1 x2 _ x4 x5 x6) : wLongColumnStatsData :=
  mk_wLongColumnStatsData x1 x2 v x4 x5 x6.
Definition LongColumnStatsData_set_NumDVs v '(mk_wLongColumnStatsData x1 x2 x3 _ x5 x6) : wLongColumnStatsData :=
  mk_wLongColumnStatsData x1 x2 x3 v x5 x6.
Definition LongColumnStatsData_set_BitVectors v '(mk_wLongColumnStatsData x1 x2 x3 x4 _ x6) : wLongColumnStatsData :=
  mk_wLongColumnStatsData x1 x2 x3 x4 v x6.
Definition LongColumnStatsData_set_Histogram v '(mk_wLongColumnStatsData x1 x2 x3 x4 x5 _) : wLongColumnStatsData :=
  mk_wLongColumnStatsData x1 x2 x3 x4 x5 v.

Definition LongColumnStatsData_writeField1 (p : wLongColumnStatsData) : M P unit :=
  (opt (wLongColumnStatsData_LowValue p) (fun v =>
    write_field T_LongColumnStatsData "lowValue" I64 1 (write_scalar T_LongColumnStatsData "lowValue" 1 (WriteI64 v))))%go.
Definition LongColumnStatsData_ReadField1 : wLongColumnStatsData -> MF P wLongColumnStatsData :=
  assign (read_scalar 1 ReadI64)%go (fun v => LongColumnStatsData_set_LowValue (Some v)).
Definition LongColumnStatsData_writeField2 (p : wLongColumnStatsData) : M P unit :=
  (opt (wLongColumnStatsData_HighValue p) (fun v =>
    write_field T_LongColumnStatsData "highValue" I64 2 (write_scalar T_LongColumnStatsData "highValue" 2 (WriteI64 v))))%go.
Definition LongColumnStatsData_ReadField2 : wLongColumnStatsData -> MF P wLongColumnStatsData :=
  assign (read_scalar 2 ReadI64)%go (fun v => LongColumnStatsData_set_HighValue (Some v)).
Definition LongColumnStatsData_writeField3 (p : wLongColumnStatsData) : M P unit :=
  (write_field T_LongColumnStatsData "numNulls" I64 3 (write_scalar T_LongColumnStatsData "numNulls" 3 (WriteI64 (wLongColumnStatsData_NumNulls p))))%go.
Definition LongColumnStatsData_ReadField3 : wLongColumnStatsData -> MF P wLongColumnStatsData :=
  assign (read_scalar 3 ReadI64)%go LongColumnStatsData_set_NumNulls.
Definition LongColumnStatsData_writeField4 (p : wLongColumnStatsData) : M P unit :=
  (write_field T_LongColumnStatsData "numDVs" I64 4 (write_scalar T_LongColumnStatsData "numDVs" 4 (WriteI64 (wLongColumnStatsData_NumDVs p))))%go.
Definition LongColumnStatsData_ReadField4 : wLongColumnStatsData -> MF P wLongColumnStatsData :=
  assign (read_scalar 4 ReadI64)%go LongColumnStatsData_set_NumDVs.
Definition LongColumnStatsData_writeField5 (p : wLongColumnStatsData) : M P unit :=
  (when (bool_decide (is_Some (wLongColumnStatsData_BitVectors p)))
    (write_field T_LongColumnStatsData "bitVectors" STRING 5 (write_scalar T_LongColumnStatsData "bitVectors" 5 (WriteBinary (elems (wLongColumnStatsData_BitVectors p))))))%go.
Definition LongColumnStatsData_ReadField5 : wLongColumnStatsData -> MF P wLongColumnStatsData :=
  assign (l <-- read_scalar 5 ReadBinary;; liftF (ret (Some l)))%go LongColumnStatsData_set_BitVectors.
Definition LongColumnStatsData_writeField6 (p : wLongColumnStatsData) : M P unit :=
  (when (bool_decide (is_Some (wLongColumnStatsData_Histogram p)))
    (write_field T_LongColumnStatsData "histogram" STRING 6 (write_scalar T_LongColumnStatsData "histogram" 6 (WriteBinary (elems (wLongColumnStatsData_Histogram p))))))%go.
Definition LongColumnStatsData_ReadField6 : wLongColumnStatsData -> MF P wLongColumnStatsData :=
  assign (l <-- read_scalar 6 ReadBinary;; liftF (ret (Some l)))%go LongColumnStatsData_set_Histogram.
Definition LongColumnStatsData_Write (p : option wLongColumnStatsData) : M P unit :=
  write_struct T_LongColumnStatsData "LongColumnStatsData" ((fun p => [LongColumnStatsData_writeField1 p;
     LongColumnStatsData_writeField2 p; LongColumnStatsData_writeField3 p; LongColumnStatsData_writeField4 p;
     LongColumnStatsData_writeField5 p; LongColumnStatsData_writeField6 p]) <$> p).
Definition LongColumnStatsData_switch : switch wLongColumnStatsData := fun fieldId =>
  match fieldId with
  | 1 => Some (I64, LongColumnStatsData_ReadField1)
  | 2 => Some (I64, LongColumnStatsData_ReadField2)
  | 3 => Some (I64, LongColumnStatsData_ReadField3)
  | 4 => Some (I64, LongColumnStatsData_ReadField4)
  | 5 => Some (STRING, LongColumnStatsData_ReadField5)
  | 6 => Some (STRING, LongColumnStatsData_ReadField6)
  | _ => None
  end.
Definition LongColumnStatsData_Read (fuel : nat) : wLongColumnStatsData -> MF P wLongColumnStatsData :=
  read_struct T_LongColumnStatsData [(3, "NumNulls"); (4, "NumDVs")] LongColumnStatsData_switch fuel.

(** ** DoubleColumnStatsData *)

Local Abbreviation T_DoubleColumnStatsData := "*hive_metastore.DoubleColumnStatsData".
Definition DoubleColumnStatsData_set_LowValue v '(mk_wDoubleColumnStatsData _ x2 x3 x4 x5 x6) : wDoubleColumnStatsData :=
  mk_wDoubleColumnStatsData v x2 x3 x4 x5 x6.
Definition DoubleColumnStatsData_set_HighValue v '(mk_wDoubleColumnStatsData x1 _ x3 x4 x5 x6) : wDoubleColumnStatsData :=
  mk_wDoubleColumnStatsData x1 v x3 x4 x5 x6.
Definition DoubleColumnStatsData_set_NumNulls v '(mk_wDoubleColumnStatsData x1 x2 _ x4 x5 x6) : wDoubleColumnStatsData :=
  mk_wDoubleColumnStatsData x1 x2 v x4 x5 x6.
Definition DoubleColumnStatsData_set_NumDVs v '(mk_wDoubleColumnStatsData x1 x2 x3 _ x5 x6) : wDoubleColumnStatsData :=
  mk_wDoubleColumnStatsData x1 x2 x3 v x5 x6.
Definition DoubleColumnStatsData_set_BitVectors v '(mk_wDoubleColumnStatsData x1 x2 x3 x4 _ x6) : wDoubleColumnStatsData :=
  mk_wDoubleColumnStatsData x1 x2 x3 x4 v x6.
Definition DoubleColumnStatsData_set_Histogram v '(mk_wDoubleColumnStatsData x1 x2 x3 x4 x5 _) : wDoubleColumnStatsData :=
  mk_wDoubleColumnStatsData x1 x2 x3 x4 x5 v.

Definition DoubleColumnStatsData_writeField1 (p : wDoubleColumnStatsData) : M P unit :=
  (opt (wDoubleColumnStatsData_LowValue p) (fun v =>
    write_field T_DoubleColumnStatsData "lowValue" DOUBLE 1 (write_scalar T_DoubleColumnStatsData "lowValue" 1 (WriteDouble v))))%go.
Definition DoubleColumnStatsData_ReadField1 : wDoubleColumnStatsData -> MF P wDoubleColumnStatsData :=
  assign (read_scalar 1 ReadDouble)%go (fun v => DoubleColumnStatsData_set_LowValue (Some v)).
Definition DoubleColumnStatsData_writeField2 (p : wDoubleColumnStatsData) : M P unit :=
  (opt (wDoubleColumnStatsData_HighValue p) (fun v =>
    write_field T_DoubleColumnStatsData "highValue" DOUBLE 2 (write_scalar T_DoubleColumnStatsData "highValue" 2 (WriteDouble v))))%go.
Definition DoubleColumnStatsData_ReadField2 : wDoubleColumnStatsData -> MF P wDoubleColumnStatsData :=
  assign (read_scalar 2 ReadDouble)%go (fun v => DoubleColumnStatsData_set_HighValue (Some v)).
Definition DoubleColumnStatsData_writeField3 (p : wDoubleColumnStatsData) : M P unit :=
  (write_field T_DoubleColumnStatsData "numNulls" I64 3 (write_scalar T_DoubleColumnStatsData "numNulls" 3 (WriteI64 (wDoubleColumnStatsData_NumNulls p))))%go.
Definition DoubleColumnStatsData_ReadField3 : wDoubleColumnStatsData -> MF P wDoubleColumnStatsData :=
  assign (read_scalar 3 ReadI64)%go DoubleColumnStatsData_set_NumNulls.
Definition DoubleColumnStatsData_writeField4 (p : wDoubleColumnStatsData) : M P unit :=
  (write_field T_DoubleColumnStatsData "numDVs" I64 4 (write_scalar T_DoubleColumnStatsData "numDVs" 4 (WriteI64 (wDoubleColumnStatsData_NumDVs p))))%go.
Definition DoubleColumnStatsData_ReadField4 : wDoubleColumnStatsData -> MF P wDoubleColumnStatsData :=
  assign (read_scalar 4 ReadI64)%go DoubleColumnStatsData_set_NumDVs.
Definition DoubleColumnStatsData_writeField5 (p : wDoubleColumnStatsData) : M P unit :=
  (when (bool_decide (is_Some (wDoubleColumnStatsData_BitVectors p)))
    (write_field T_DoubleColumnStatsData "bitVectors" STRING 5 (write_scalar T_DoubleColumnStatsData "bitVectors" 5 (WriteBinary (elems (wDoubleColumnStatsData_BitVectors p))))))%go.
Definition DoubleColumnStatsData_ReadField5 : wDoubleColumnStatsData -> MF P wDoubleColumnStatsData :=
  assign (l <-- read_scalar 5 ReadBinary;; liftF (ret (Some l)))%go DoubleColumnStatsData_set_BitVectors.
Definition DoubleColumnStatsData_writeField6 (p : wDoubleColumnStatsData) : M P unit :=
  (when (bool_decide (is_Some (wDoubleColumnStatsData_Histogram p)))
    (write_field T_DoubleColumnStatsData "histogram" STRING 6 (write_scalar T_DoubleColumnStatsData "histogram" 6 (WriteBinary (elems (wDoubleColumnStatsData_Histogram p))))))%go.
Definition DoubleColumnStatsData_ReadField6 : wDoubleColumnStatsData -> MF P wDoubleColumnStatsData :=
  assign (l <-- read_scalar 6 ReadBinary;; liftF (ret (Some l)))%go DoubleColumnStatsData_set_Histogram.
Definition DoubleColumnStatsData_Write (p : option wDoubleColumnStatsData) : M P unit :=
  write_struct T_DoubleColumnStatsData "DoubleColumnStatsData" ((fun p => [DoubleColumnStatsData_writeField1 p;
     DoubleColumnStatsData_writeField2 p; DoubleColumnStatsData_writeField3 p; DoubleColumnStatsData_writeField4 p;
     DoubleColumnStatsData_writeField5 p; DoubleColumnStatsData_writeField6 p]) <$> p).
Definition DoubleColumnStatsData_switch : switch wDoubleColumnStatsData := fun fieldId =>
  match fieldId with
  | 1 => Some (DOUBLE, DoubleColumnStatsData_ReadField1)
  | 2 => Some (DOUBLE, DoubleColumnStatsData_ReadField2)
  | 3 => Some (I64, DoubleColumnStatsData_ReadField3)
  | 4 => Some (I64, DoubleColumnStatsData_ReadField4)
  | 5 => Some (STRING, DoubleColumnStatsData_ReadField5)
  | 6 => Some (STRING, DoubleColumnStatsData_ReadField6)
  | _ => None
  end.
Definition DoubleColumnStatsData_Read (fuel : nat) : wDoubleColumnStatsData -> MF P wDoubleColumnStatsData :=
  read_struct T_DoubleColumnStatsData [(3, "NumNulls"); (4, "NumDVs")] DoubleColumnStatsData_switch fuel.

(** ** StringColumnStatsData *)

Local Abbreviation T_StringColumnStatsData := "*hive_metastore.StringColumnStatsData".
Definition StringColumnStatsData_set_MaxColLen v '(mk_wStringColumnStatsData _ x2 x3 x4 x5) : wStringColumnStatsData :=
  mk_wStringColumnStatsData v x2 x3 x4 x5.
Definition StringColumnStatsData_set_AvgColLen v '(mk_wStringColumnStatsData x1 _ x3 x4 x5) : wStringColumnStatsData :=
  mk_wStringColumnStatsData x1 v x3 x4 x5.
Definition StringColumnStatsData_set_NumNulls v '(mk_wStringColumnStatsData x1 x2 _ x4 x5) : wStringColumnStatsData :=
  mk_wStringColumnStatsData x1 x2 v x4 x5.
Definition StringColumnStatsData_set_NumDVs v '(mk_wStringColumnStatsData x1 x2 x3 _ x5) : wStringColumnStatsData :=
  mk_wStringColumnStatsData x1 x2 x3 v x5.
Definition StringColumnStatsData_set_BitVectors v '(mk_wStringColumnStatsData x1 x2 x3 x4 _) : wStringColumnStatsData :=
  mk_wStringColumnStatsData x1 x2 x3 x4 v.

Definition StringColumnStatsData_writeField1 (p : wStringColumnStatsData) : M P unit :=
  (write_field T_StringColumnStatsData "maxColLen" I64 1 (write_scalar T_StringColumnStatsData "maxColLen" 1 (WriteI64 (wStringColumnStatsData_MaxColLen p))))%go.
Definition StringColumnStatsData_ReadField1 : wStringColumnStatsData -> MF P wStringColumnStatsData :=
  assign (read_scalar 1 ReadI64)%go StringColumnStatsData_set_MaxColLen.
Definition StringColumnStatsData_writeField2 (p : wStringColumnStatsData) : M P unit :=
  (write_field T_StringColumnStatsData "avgColLen" DOUBLE 2 (write_scalar T_StringColumnStatsData "avgColLen" 2 (WriteDouble (wStringColumnStatsData_AvgColLen p))))%go.
Definition StringColumnStatsData_ReadField2 : wStringColumnStatsData -> MF P wStringColumnStatsData :=
  assign (read_scalar 2 ReadDouble)%go StringColumnStatsData_set_AvgColLen.
Definition StringColumnStatsData_writeField3 (p : wStringColumnStatsData) : M P unit :=
  (write_field T_StringColumnStatsData "numNulls" I64 3 (write_scalar T_StringColumnStatsData "numNulls" 3 (WriteI64 (wStringColumnStatsData_NumNulls p))))%go.
Definition StringColumnStatsData_ReadField3 : wStringColumnStatsData -> MF P wStringColumnStatsData :=
  assign (read_scalar 3 ReadI64)%go StringColumnStatsData_set_NumNulls.
Definition StringColumnStatsData_writeField4 (p : wStringColumnStatsData) : M P unit :=
  (write_field T_StringColumnStatsData "numDVs" I64 4 (write_scalar T_StringColumnStatsData "numDVs" 4 (WriteI64 (wStringColumnStatsData_NumDVs p))))%go.
Definition StringColumnStatsData_ReadField4 : wStringColumnStatsData -> MF P wStringColumnStatsData :=
  assign (read_scalar 4 ReadI64)%go StringColumnStatsData_set_NumDVs.
Definition StringColumnStatsData_writeField5 (p : wStringColumnStatsData) : M P unit :=
  (when (bool_decide (is_Some (wStringColumnStatsData_BitVectors p)))
    (write_field T_StringColumnStatsData "bitVectors" STRING 5 (write_scalar T_StringColumnStatsData "bitVectors" 5 (WriteBinary (elems (wStringColumnStatsData_BitVectors p))))))%go.
Definition StringColumnStatsData_ReadField5 : wStringColumnStatsData -> MF P wStringColumnStatsData :=
  assign (l <-- read_scalar 5 ReadBinary;; liftF (ret (Some l)))%go StringColumnStatsData_set_BitVectors.
Definition StringColumnStatsData_Write (p : option wStringColumnStatsData) : M P unit :=
  write_struct T_StringColumnStatsData "StringColumnStatsData" ((fun p => [StringColumnStatsData_writeField1 p;
     StringColumnStatsData_writeField2 p; StringColumnStatsData_writeField3 p; StringColumnStatsData_writeField4 p;
     StringColumnStatsData_writeField5 p]) <$> p).
Definition StringColumnStatsData_switch : switch wStringColumnStatsData := fun fieldId =>
  match fieldId with
  | 1 => Some (I64, StringColumnStatsData_ReadField1)
  | 2 => Some (DOUBLE, StringColumnStatsData_ReadField2)
  | 3 => Some (I64, StringColumnStatsData_ReadField3)
  | 4 => Some (I64, StringColumnStatsData_ReadField4)
  | 5 => Some (STRING, StringColumnStatsData_ReadField5)
  | _ => None
  end.
Definition StringColumnStatsData_Read (fuel : nat) : wStringColumnStatsData -> MF P wStringColumnStatsData :=
  read_struct T_StringColumnStatsData [(1, "MaxColLen"); (2, "AvgColLen"); (3, "NumNulls");
     (4, "NumDVs")] StringColumnStatsData_switch fuel.

(** ** BinaryColumnStatsData *)

Local Abbreviation T_BinaryColumnStatsData := "*hive_metastore.BinaryColumnStatsData".
Definition BinaryColumnStatsData_set_MaxColLen v '(mk_wBinaryColumnStatsData _ x2 x3 x4) : wBinaryColumnStatsData :=
  mk_wBinaryColumnStatsData v x2 x3 x4.
Definition BinaryColumnStatsData_set_AvgColLen v '(mk_wBinaryColumnStatsData x1 _ x3 x4) : wBinaryColumnStatsData :=
  mk_wBinaryColumnStatsData x1 v x3 x4.
Definition BinaryColumnStatsData_set_NumNulls v '(mk_wBinaryColumnStatsData x1 x2 _ x4) : wBinaryColumnStatsData :=
  mk_wBinaryColumnStatsData x1 x2 v x4.
Definition BinaryColumnStatsData_set_BitVectors v '(mk_wBinaryColumnStatsData x1 x2 x3 _) : wBinaryColumnStatsData :=
  mk_wBinaryColumnStatsData x1 x2 x3 v.

Definition BinaryColumnStatsData_writeField1 (p : wBinaryColumnStatsData) : M P unit :=
  (write_field T_BinaryColumnStatsData "maxColLen" I64 1 (write_scalar T_BinaryColumnStatsData "maxColLen" 1 (WriteI64 (wBinaryColumnStatsData_MaxColLen p))))%go.
Definition BinaryColumnStatsData_ReadField1 : wBinaryColumnStatsData -> MF P wBinaryColumnStatsData :=
  assign (read_scalar 1 ReadI64)%go BinaryColumnStatsData_set_MaxColLen.
Definition BinaryColumnStatsData_writeField2 (p : wBinaryColumnStatsData) : M P unit :=
  (write_field T_BinaryColumnStatsData "avgColLen" DOUBLE 2 (write_scalar T_BinaryColumnStatsData "avgColLen" 2 (WriteDouble (wBinaryColumnStatsData_AvgColLen p))))%go.
Definition BinaryColumnStatsData_ReadField2 : wBinaryColumnStatsData -> MF P wBinaryColumnStatsData :=
  assign (read_scalar 2 ReadDouble)%go BinaryColumnStatsData_set_AvgColLen.
Definition BinaryColumnStatsData_writeField3 (p : wBinaryColumnStatsData) : M P unit :=
  (write_field T_BinaryColumnStatsData "numNulls" I64 3 (write_scalar T_BinaryColumnStatsData "numNulls" 3 (WriteI64 (wBinaryColumnStatsData_NumNulls p))))%go.
Definition BinaryColumnStatsData_ReadField3 : wBinaryColumnStatsData -> MF P wBinaryColumnStatsData :=
  assign (read_scalar 3 ReadI64)%go BinaryColumnStatsData_set_NumNulls.
Definition BinaryColumnStatsData_writeField4 (p : wBinaryColumnStatsData) : M P unit :=
  (when (bool_decide (is_Some (wBinaryColumnStatsData_BitVectors p)))
    (write_field T_BinaryColumnStatsData "bitVectors" STRING 4 (write_scalar T_BinaryColumnStatsData "bitVectors" 4 (WriteBinary (elems (wBinaryColumnStatsData_BitVectors p))))))%go.
Definition BinaryColumnStatsData_ReadField4 : wBinaryColumnStatsData -> MF P wBinaryColumnStatsData :=
  assign (l <-- read_scalar 4 ReadBinary;; liftF (ret (Some l)))%go BinaryColumnStatsData_set_BitVectors.
Definition BinaryColumnStatsData_Write (p : option wBinaryColumnStatsData) : M P unit :=
  write_struct T_BinaryColumnStatsData "BinaryColumnStatsData" ((fun p => [BinaryColumnStatsData_writeField1 p;
     BinaryColumnStatsData_writeField2 p; BinaryColumnStatsData_writeField3 p;
     BinaryColumnStatsData_writeField4 p]) <$> p).
Definition BinaryColumnStatsData_switch : switch wBinaryColumnStatsData := fun fieldId =>
  match fieldId with
  | 1 => Some (I64, BinaryColumnStatsData_ReadField1)
  | 2 => Some (DOUBLE, BinaryColumnStatsData_ReadField2)
  | 3 => Some (I64, BinaryColumnStatsData_ReadField3)
  | 4 => Some (STRING, BinaryColumnStatsData_ReadField4)
  | _ => None
  end.
Definition BinaryColumnStatsData_Read (fuel : nat) : wBinaryColumnStatsData -> MF P wBinaryColumnStatsData :=
  read_struct T_BinaryColumnStatsData [(1, "MaxColLen"); (2, "AvgColLen");
     (3, "NumNulls")] BinaryColumnStatsData_switch fuel.

(** ** DecimalColumnStatsData *)

Local Abbreviation T_DecimalColumnStatsData := "*hive_metastore.DecimalColumnStatsData".
Definition DecimalColumnStatsData_set_LowValue v '(mk_wDecimalColumnStatsData _ x2 x3 x4 x5 x6) : wDecimalColumnStatsData :=
  mk_wDecimalColumnStatsData v x2 x3 x4 x5 x6.
Definition DecimalColumnStatsData_set_HighValue v '(mk_wDecimalColumnStatsData x1 _ x3 x4 x5 x6) : wDecimalColumnStatsData :=
  mk_wDecimalColumnStatsData x1 v x3 x4 x5 x6.
Definition DecimalColumnStatsData_set_NumNulls v '(mk_wDecimalColumnStatsData x1 x2 _ x4 x5 x6) : wDecimalColumnStatsData :=
  mk_wDecimalColumnStatsData x1 x2 v x4 x5 x6.
Definition DecimalColumnStatsData_set_NumDVs v '(mk_wDecimalColumnStatsData x1 x2 x3 _ x5 x6) : wDecimalColumnStatsData :=
  mk_wDecimalColumnStatsData x1 x2 x3 v x5 x6.
Definition DecimalColumnStatsData_set_BitVectors v '(mk_wDecimalColumnStatsData x1 x2 x3 x4 _ x6) : wDecimalColumnStatsData :=
  mk_wDecimalColumnStatsData x1 x2 x3 x4 v x6.
Definition DecimalColumnStatsData_set_Histogram v '(mk_wDecimalColumnStatsData x1 x2 x3 x4 x5 _) : wDecimalColumnStatsData :=
  mk_wDecimalColumnStatsData x1 x2 x3 x4 x5 v.

Definition DecimalColumnStatsData_writeField1 (p : wDecimalColumnStatsData) : M P unit :=
  (opt (wDecimalColumnStatsData_LowValue p) (fun v =>
    write_field T_DecimalColumnStatsData "lowValue" STRUCT 1 (write_sub "*hive_metastore.Decimal" (Decimal_Write (Some v)))))%go.
Definition DecimalColumnStatsData_ReadField1 (fuel : nat) : wDecimalColumnStatsData -> MF P wDecimalColumnStatsData :=
  assign (read_sub "*hive_metastore.Decimal" (Decimal_Read fuel NewDecimal))%go (fun v => DecimalColumnStatsData_set_LowValue (Some v)).
Definition DecimalColumnStatsData_writeField2 (p : wDecimalColumnStatsData) : M P unit :=
  (opt (wDecimalColumnStatsData_HighValue p) (fun v =>
    write_field T_DecimalColumnStatsData "highValue" STRUCT 2 (write_sub "*hive_metastore.Decimal" (Decimal_Write (Some v)))))%go.
Definition DecimalColumnStatsData_ReadField2 (fuel : nat) : wDecimalColumnStatsData -> MF P wDecimalColumnStatsData :=
  assign (read_sub "*hive_metastore.Decimal" (Decimal_Read fuel NewDecimal))%go (fun v => DecimalColumnStatsData_set_HighValue (Some v)).
Definition DecimalColumnStatsData_writeField3 (p : wDecimalColumnStatsData) : M P unit :=
  (write_field T_DecimalColumnStatsData "numNulls" I64 3 (write_scalar T_DecimalColumnStatsData "numNulls" 3 (WriteI64 (wDecimalColumnStatsData_NumNulls p))))%go.
Definition DecimalColumnStatsData_ReadField3 : wDecimalColumnStatsData -> MF P wDecimalColumnStatsData :=
  assign (read_scalar 3 ReadI64)%go DecimalColumnStatsData_set_NumNulls.
Definition DecimalColumnStatsData_writeField4 (p : wDecimalColumnStatsData) : M P unit :=
  (write_field T_DecimalColumnStatsData "numDVs" I64 4 (write_scalar T_DecimalColumnStatsData "numDVs" 4 (WriteI64 (wDecimalColumnStatsData_NumDVs p))))%go.
Definition DecimalColumnStatsData_ReadField4 : wDecimalColumnStatsData -> MF P wDecimalColumnStatsData :=
  assign (read_scalar 4 ReadI64)%go DecimalColumnStatsData_set_NumDVs.
Definition DecimalColumnStatsData_writeField5 (p : wDecimalColumnStatsData) : M P unit :=
  (when (bool_decide (is_Some (wDecimalColumnStatsData_BitVectors p)))
    (write_field T_DecimalColumnStatsData "bitVectors" STRING 5 (write_scalar T_DecimalColumnStatsData "bitVectors" 5 (WriteBinary (elems (wDecimalColumnStatsData_BitVectors p))))))%go.
Definition DecimalColumnStatsData_ReadField5 : wDecimalColumnStatsData -> MF P wDecimalColumnStatsData :=
  assign (l <-- read_scalar 5 ReadBinary;; liftF (ret (Some l)))%go DecimalColumnStatsData_set_BitVectors.
Definition DecimalColumnStatsData_writeField6 (p : wDecimalColumnStatsData) : M P unit :=
  (when (bool_decide (is_Some (wDecimalColumnStatsData_Histogram p)))
    (write_field T_DecimalColumnStatsData "histogram" STRING 6 (write_scalar T_DecimalColumnStatsData "histogram" 6 (WriteBinary (elems (wDecimalColumnStatsData_Histogram p))))))%go.
Definition DecimalColumnStatsData_ReadField6 : wDecimalColumnStatsData -> MF P wDecimalColumnStatsData :=
  assign (l <-- read_scalar 6 ReadBinary;; liftF (ret (Some l)))%go DecimalColumnStatsData_set_Histogram.
Definition DecimalColumnStatsData_Write (p : option wDecimalColumnStatsData) : M P unit :=
  write_struct T_DecimalColumnStatsData "DecimalColumnStatsData" ((fun p => [DecimalColumnStatsData_writeField1 p;
     DecimalColumnStatsData_writeField2 p; DecimalColumnStatsData_writeField3 p;
     DecimalColumnStatsData_writeField4 p; DecimalColumnStatsData_writeField5 p;
     DecimalColumnStatsData_writeField6 p]) <$> p).
Definition DecimalColumnStatsData_switch (fuel : nat) : switch wDecimalColumnStatsData := fun fieldId =>
  match fieldId with
  | 1 => Some (STRUCT, DecimalColumnStatsData_ReadField1 fuel)
  | 2 => Some (STRUCT, DecimalColumnStatsData_ReadField2 fuel)
  | 3 => Some (I64, DecimalColumnStatsData_ReadField3)
  | 4 => Some (I64, DecimalColumnStatsData_ReadField4)
  | 5 => Some (STRING, DecimalColumnStatsData_ReadField5)
  | 6 => Some (STRING, DecimalColumnStatsData_ReadField6)
  | _ => None
  end.
Definition DecimalColumnStatsData_Read (fuel : nat) : wDecimalColumnStatsData -> MF P wDecimalColumnStatsData :=
  read_struct T_DecimalColumnStatsData [(3, "NumNulls"); (4, "NumDVs")] (DecimalColumnStatsData_switch fuel) fuel.

(** ** DateColumnStatsData *)

Local Abbreviation T_DateColumnStatsData := "*hive_metastore.DateColumnStatsData".
Definition DateColumnStatsData_set_LowValue v '(mk_wDateColumnStatsData _ x2 x3 x4 x5 x6) : wDateColumnStatsData :=
  mk_wDateColumnStatsData v x2 x3 x4 x5 x6.
Definition DateColumnStatsData_set_HighValue v '(mk_wDateColumnStatsData x1 _ x3 x4 x5 x6) : wDateColumnStatsData :=
  mk_wDateColumnStatsData x1 v x3 x4 x5 x6.
Definition DateColumnStatsData_set_NumNulls v '(mk_wDateColumnStatsData x1 x2 _ x4 x5 x6) : wDateColumnStatsData :=
  mk_wDateColumnStatsData x1 x2 v x4 x5 x6.
Definition DateColumnStatsData_set_NumDVs v '(mk_wDateColumnStatsData x1 x2 x3 _ x5 x6) : wDateColumnStatsData :=
  mk_wDateColumnStatsData x1 x2 x3 v x5 x6.
Definition DateColumnStatsData_set_BitVectors v '(mk_wDateColumnStatsData x1 x2 x3 x4 _ x6) : wDateColumnStatsData :=
  mk_wDateColumnStatsData x1 x2 x3 x4 v x6.
Definition DateColumnStatsData_set_Histogram v '(mk_wDateColumnStatsData x1 x2 x3 x4 x5 _) : wDateColumnStatsData :=
  mk_wDateColumnStatsData x1 x2 x3 x4 x5 v.

Definition DateColumnStatsData_writeField1 (p : wDateColumnStatsData) : M P unit :=
  (opt (wDateColumnStatsData_LowValue p) (fun v =>
    write_field T_DateColumnStatsData "lowValue" STRUCT 1 (write_sub "*hive_metastore.Date" (Date_Write (Some v)))))%go.
Definition DateColumnStatsData_ReadField1 (fuel : nat) : wDateColumnStatsData -> MF P wDateColumnStatsData :=
  assign (read_sub "*hive_metastore.Date" (Date_Read fuel NewDate))%go (fun v => DateColumnStatsData_set_LowValue (Some v)).
Definition DateColumnStatsData_writeField2 (p : wDateColumnStatsData) : M P unit :=
  (opt (wDateColumnStatsData_HighValue p) (fun v =>
    write_field T_DateColumnStatsData "highValue" STRUCT 2 (write_sub "*hive_metastore.Date" (Date_Write (Some v)))))%go.
Definition DateColumnStatsData_ReadField2 (fuel : nat) : wDateColumnStatsData -> MF P wDateColumnStatsData :=
  assign (read_sub "*hive_metastore.Date" (Date_Read fuel NewDate))%go (fun v => DateColumnStatsData_set_HighValue (Some v)).
Definition DateColumnStatsData_writeField3 (p : wDateColumnStatsData) : M P unit :=
  (write_field T_DateColumnStatsData "numNulls" I64 3 (write_scalar T_DateColumnStatsData "numNulls" 3 (WriteI64 (wDateColumnStatsData_NumNulls p))))%go.
Definition DateColumnStatsData_ReadField3 : wDateColumnStatsData -> MF P wDateColumnStatsData :=
  assign (read_scalar 3 ReadI64)%go DateColumnStatsData_set_NumNulls.
Definition DateColumnStatsData_writeField4 (p : wDateColumnStatsData) : M P unit :=
  (write_field T_DateColumnStatsData "numDVs" I64 4 (write_scalar T_DateColumnStatsData "numDVs" 4 (WriteI64 (wDateColumnStatsData_NumDVs p))))%go.
Definition DateColumnStatsData_ReadField4 : wDateColumnStatsData -> MF P wDateColumnStatsData :=
  assign (read_scalar 4 ReadI64)%go DateColumnStatsData_set_NumDVs.
Definition DateColumnStatsData_writeField5 (p : wDateColumnStatsData) : M P unit :=
  (when (bool_decide (is_Some (wDateColumnStatsData_BitVectors p)))
    (write_field T_DateColumnStatsData "bitVectors" STRING 5 (write_scalar T_DateColumnStatsData "bitVectors" 5 (WriteBinary (elems (wDateColumnStatsData_BitVectors p))))))%go.
Definition DateColumnStatsData_ReadField5 : wDateColumnStatsData -> MF P wDateColumnStatsData :=
  assign (l <-- read_scalar 5 ReadBinary;; liftF (ret (Some l)))%go DateColumnStatsData_set_BitVectors.
Definition DateColumnStatsData_writeField6 (p : wDateColumnStatsData) : M P unit :=
  (when (bool_decide (is_Some (wDateColumnStatsData_Histogram p)))
    (write_field T_DateColumnStatsData "histogram" STRING 6 (write_scalar T_DateColumnStatsData "histogram" 6 (WriteBinary (elems (wDateColumnStatsData_Histogram p))))))%go.
Definition DateColumnStatsData_ReadField6 : wDateColumnStatsData -> MF P wDateColumnStatsData :=
  assign (l <-- read_scalar 6 ReadBinary;; liftF (ret (Some l)))%go DateColumnStatsData_set_Histogram.
Definition DateColumnStatsData_Write (p : option wDateColumnStatsData) : M P unit :=
  write_struct T_DateColumnStatsData "DateColumnStatsData" ((fun p => [DateColumnStatsData_writeField1 p;
     DateColumnStatsData_writeField2 p; DateColumnStatsData_writeField3 p; DateColumnStatsData_writeField4 p;
     DateColumnStatsData_writeField5 p; DateColumnStatsData_writeField6 p]) <$> p).
Definition DateColumnStatsData_switch (fuel : nat) : switch wDateColumnStatsData := fun fieldId =>
  match fieldId with
  | 1 => Some (STRUCT, DateColumnStatsData_ReadField1 fuel)
  | 2 => Some (STRUCT, DateColumnStatsData_ReadField2 fuel)
  | 3 => Some (I64, DateColumnStatsData_ReadField3)
  | 4 => Some (I64, DateColumnStatsData_ReadField4)
  | 5 => Some (STRING, DateColumnStatsData_ReadField5)
  | 6 => Some (STRING, DateColumnStatsData_ReadField6)
  | _ => None
  end.
Definition DateColumnStatsData_Read (fuel : nat) : wDateColumnStatsData -> MF P wDateColumnStatsData :=
  read_struct T_DateColumnStatsData [(3, "NumNulls"); (4, "NumDVs")] (DateColumnStatsData_switch fuel) fuel.

(** ** TimestampColumnStatsData *)

Local Abbreviation T_TimestampColumnStatsData := "*hive_metastore.TimestampColumnStatsData".
Definition TimestampColumnStatsData_set_LowValue v '(mk_wTimestampColumnStatsData _ x2 x3 x4 x5 x6) : wTimestampColumnStatsData :=
  mk_wTimestampColumnStatsData v x2 x3 x4 x5 x6.
Definition TimestampColumnStatsData_set_HighValue v '(mk_wTimestampColumnStatsData x1 _ x3 x4 x5 x6) : wTimestampColumnStatsData :=
  mk_wTimestampColumnStatsData x1 v x3 x4 x5 x6.
Definition TimestampColumnStatsData_set_NumNulls v '(mk_wTimestampColumnStatsData x1 x2 _ x4 x5 x6) : wTimestampColumnStatsData :=
  mk_wTimestampColumnStatsData x1 x2 v x4 x5 x6.
Definition TimestampColumnStatsData_set_NumDVs v '(mk_wTimestampColumnStatsData x1 x2 x3 _ x5 x6) : wTimestampColumnStatsData :=
  mk_wTimestampColumnStatsData x1 x2 x3 v x5 x6.
Definition TimestampColumnStatsData_set_BitVectors v '(mk_wTimestampColumnStatsData x1 x2 x3 x4 _ x6) : wTimestampColumnStatsData :=
  mk_wTimestampColumnStatsData x1 x2 x3 x4 v x6.
Definition TimestampColumnStatsData_set_Histogram v '(mk_wTimestampColumnStatsData x1 x2 x3 x4 x5 _) : wTimestampColumnStatsData :=
  mk_wTimestampColumnStatsData x1 x2 x3 x4 x5 v.

Definition TimestampColumnStatsData_writeField1 (p : wTimestampColumnStatsData) : M P unit :=
  (opt (wTimestampColumnStatsData_LowValue p) (fun v =>
    write_field T_TimestampColumnStatsData "lowValue" STRUCT 1 (write_sub "*hive_metastore.Timestamp" (Timestamp_Write (Some v)))))%go.
Definition TimestampColumnStatsData_ReadField1 (fuel : nat) : wTimestampColumnStatsData -> MF P wTimestampColumnStatsData :=
  assign (read_sub "*hive_metastore.Timestamp" (Timestamp_Read fuel NewTimestamp))%go (fun v => TimestampColumnStatsData_set_LowValue (Some v)).
Definition TimestampColumnStatsData_writeField2 (p : wTimestampColumnStatsData) : M P unit :=
  (opt (wTimestampColumnStatsData_HighValue p) (fun v =>
    write_field T_TimestampColumnStatsData "highValue" STRUCT 2 (write_sub "*hive_metastore.Timestamp" (Timestamp_Write (Some v)))))%go.
Definition TimestampColumnStatsData_ReadField2 (fuel : nat) : wTimestampColumnStatsData -> MF P wTimestampColumnStatsData :=
  assign (read_sub "*hive_metastore.Timestamp" (Timestamp_Read fuel NewTimestamp))%go (fun v => TimestampColumnStatsData_set_HighValue (Some v)).
Definition TimestampColumnStatsData_writeField3 (p : wTimestampColumnStatsData) : M P unit :=
  (write_field T_TimestampColumnStatsData "numNulls" I64 3 (write_scalar T_TimestampColumnStatsData "numNulls" 3 (WriteI64 (wTimestampColumnStatsData_NumNulls p))))%go.
Definition TimestampColumnStatsData_ReadField3 : wTimestampColumnStatsData -> MF P wTimestampColumnStatsData :=
  assign (read_scalar 3 ReadI64)%go TimestampColumnStatsData_set_NumNulls.
Definition TimestampColumnStatsData_writeField4 (p : wTimestampColumnStatsData) : M P unit :=
  (write_field T_TimestampColumnStatsData "numDVs" I64 4 (write_scalar T_TimestampColumnStatsData "numDVs" 4 (WriteI64 (wTimestampColumnStatsData_NumDVs p))))%go.
Definition TimestampColumnStatsData_ReadField4 : wTimestampColumnStatsData -> MF P wTimestampColumnStatsData :=
  assign (read_scalar 4 ReadI64)%go TimestampColumnStatsData_set_NumDVs.
Definition TimestampColumnStatsData_writeField5 (p : wTimestampColumnStatsData) : M P unit :=
  (when (bool_decide (is_Some (wTimestampColumnStatsData_BitVectors p)))
    (write_field T_TimestampColumnStatsData "bitVectors" STRING 5 (write_scalar T_TimestampColumnStatsData "bitVectors" 5 (WriteBinary (elems (wTimestampColumnStatsData_BitVectors p))))))%go.
Definition TimestampColumnStatsData_ReadField5 : wTimestampColumnStatsData -> MF P wTimestampColumnStatsData :=
  assign (l <-- read_scalar 5 ReadBinary;; liftF (ret (Some l)))%go TimestampColumnStatsData_set_BitVectors.
Definition TimestampColumnStatsData_writeField6 (p : wTimestampColumnStatsData) : M P unit :=
  (when (bool_decide (is_Some (wTimestampColumnStatsData_Histogram p)))
    (write_field T_TimestampColumnStatsData "histogram" STRING 6 (write_scalar T_TimestampColumnStatsData "histogram" 6 (WriteBinary (elems (wTimestampColumnStatsData_Histogram p))))))%go.
Definition TimestampColumnStatsData_ReadField6 : wTimestampColumnStatsData -> MF P wTimestampColumnStatsData :=
  assign (l <-- read_scalar 6 ReadBinary;; liftF (ret (Some l)))%go TimestampColumnStatsData_set_Histogram.
Definition TimestampColumnStatsData_Write (p : option wTimestampColumnStatsData) : M P unit :=
  write_struct T_TimestampColumnStatsData "TimestampColumnStatsData" ((fun p => [TimestampColumnStatsData_writeField1 p; TimestampColumnStatsData_writeField2 p; TimestampColumnStatsData_writeField3 p; TimestampColumnStatsData_writeField4 p; TimestampColumnStatsData_writeField5 p; TimestampColumnStatsData_writeField6 p]) <$> p).
Definition TimestampColumnStatsData_switch (fuel : nat) : switch wTimestampColumnStatsData := fun fieldId =>
  match fieldId with
  | 1 => Some (STRUCT, TimestampColumnStatsData_ReadField1 fuel)
  | 2 => Some (STRUCT, TimestampColumnStatsData_ReadField2 fuel)
  | 3 => Some (I64, TimestampColumnStatsData_ReadField3)
  | 4 => Some (I64, TimestampColumnStatsData_ReadField4)
  | 5 => Some (STRING, TimestampColumnStatsData_ReadField5)
  | 6 => Some (STRING, TimestampColumnStatsData_ReadField6)
  | _ => None
  end.
Definition TimestampColumnStatsData_Read (fuel : nat) : wTimestampColumnStatsData -> MF P wTimestampColumnStatsData :=
  read_struct T_TimestampColumnStatsData [(3, "NumNulls"); (4, "NumDVs")] (TimestampColumnStatsData_switch fuel) fuel.

(** ** ColumnStatisticsData *)

Local Abbreviation T_ColumnStatisticsData := "*hive_metastore.ColumnStatisticsData".
Definition ColumnStatisticsData_set_BooleanStats v '(mk_wColumnStatisticsData _ x2 x3 x4 x5 x6 x7 x8) : wColumnStatisticsData :=
  mk_wColumnStatisticsData v x2 x3 x4 x5 x6 x7 x8.
Definition ColumnStatisticsData_set_LongStats v '(mk_wColumnStatisticsData x1 _ x3 x4 x5 x6 x7 x8) : wColumnStatisticsData :=
  mk_wColumnStatisticsData x1 v x3 x4 x5 x6 x7 x8.
Definition ColumnStatisticsData_set_DoubleStats v '(mk_wColumnStatisticsData x1 x2 _ x4 x5 x6 x7 x8) : wColumnStatisticsData :=
  mk_wColumnStatisticsData x1 x2 v x4 x5 x6 x7 x8.
Definition ColumnStatisticsData_set_StringStats v '(mk_wColumnStatisticsData x1 x2 x3 _ x5 x6 x7 x8) : wColumnStatisticsData :=
  mk_wColumnStatisticsData x1 x2 x3 v x5 x6 x7 x8.
Definition ColumnStatisticsData_set_BinaryStats v '(mk_wColumnStatisticsData x1 x2 x3 x4 _ x6 x7 x8) : wColumnStatisticsData :=
  mk_wColumnStatisticsData x1 x2 x3 x4 v x6 x7 x8.
Definition ColumnStatisticsData_set_DecimalStats v '(mk_wColumnStatisticsData x1 x2 x3 x4 x5 _ x7 x8) : wColumnStatisticsData :=
  mk_wColumnStatisticsData x1 x2 x3 x4 x5 v x7 x8.
Definition ColumnStatisticsData_set_DateStats v '(mk_wColumnStatisticsData x1 x2 x3 x4 x5 x6 _ x8) : wColumnStatisticsData :=
  mk_wColumnStatisticsData x1 x2 x3 x4 x5 x6 v x8.
Definition ColumnStatisticsData_set_TimestampStats v '(mk_wColumnStatisticsData x1 x2 x3 x4 x5 x6 x7 _) : wColumnStatisticsData :=
  mk_wColumnStatisticsData x1 x2 x3 x4 x5 x6 x7 v.

Definition ColumnStatisticsData_writeField1 (p : wColumnStatisticsData) : M P unit :=
  (opt (wColumnStatisticsData_BooleanStats p) (fun v =>
    write_field T_ColumnStatisticsData "booleanStats" STRUCT 1 (write_sub "*hive_metastore.BooleanColumnStatsData" (BooleanColumnStatsData_Write (Some v)))))%go.
Definition ColumnStatisticsData_ReadField1 (fuel : nat) : wColumnStatisticsData -> MF P wColumnStatisticsData :=
  assign (read_sub "*hive_metastore.BooleanColumnStatsData" (BooleanColumnStatsData_Read fuel NewBooleanColumnStatsData))%go (fun v => ColumnStatisticsData_set_BooleanStats (Some v)).
Definition ColumnStatisticsData_writeField2 (p : wColumnStatisticsData) : M P unit :=
  (opt (wColumnStatisticsData_LongStats p) (fun v =>
    write_field T_ColumnStatisticsData "longStats" STRUCT 2 (write_sub "*hive_metastore.LongColumnStatsData" (LongColumnStatsData_Write (Some v)))))%go.
Definition ColumnStatisticsData_ReadField2 (fuel : nat) : wColumnStatisticsData -> MF P wColumnStatisticsData :=
  assign (read_sub "*hive_metastore.LongColumnStatsData" (LongColumnStatsData_Read fuel NewLongColumnStatsData))%go (fun v => ColumnStatisticsData_set_LongStats (Some v)).
Definition ColumnStatisticsData_writeField3 (p : wColumnStatisticsData) : M P unit :=
  (opt (wColumnStatisticsData_DoubleStats p) (fun v =>
    write_field T_ColumnStatisticsData "doubleStats" STRUCT 3 (write_sub "*hive_metastore.DoubleColumnStatsData" (DoubleColumnStatsData_Write (Some v)))))%go.
Definition ColumnStatisticsData_ReadField3 (fuel : nat) : wColumnStatisticsData -> MF P wColumnStatisticsData :=
  assign (read_sub "*hive_metastore.DoubleColumnStatsData" (DoubleColumnStatsData_Read fuel NewDoubleColumnStatsData))%go (fun v => ColumnStatisticsData_set_DoubleStats (Some v)).
Definition ColumnStatisticsData_writeField4 (p : wColumnStatisticsData) : M P unit :=
  (opt (wColumnStatisticsData_StringStats p) (fun v =>
    write_field T_ColumnStatisticsData "stringStats" STRUCT 4 (write_sub "*hive_metastore.StringColumnStatsData" (StringColumnStatsData_Write (Some v)))))%go.
Definition ColumnStatisticsData_ReadField4 (fuel : nat) : wColumnStatisticsData -> MF P wColumnStatisticsData :=
  assign (read_sub "*hive_metastore.StringColumnStatsData" (StringColumnStatsData_Read fuel NewStringColumnStatsData))%go (fun v => ColumnStatisticsData_set_StringStats (Some v)).
Definition ColumnStatisticsData_writeField5 (p : wColumnStatisticsData) : M P unit :=
  (opt (wColumnStatisticsData_BinaryStats p) (fun v =>
    write_field T_ColumnStatisticsData "binaryStats" STRUCT 5 (write_sub "*hive_metastore.BinaryColumnStatsData" (BinaryColumnStatsData_Write (Some v)))))%go.
Definition ColumnStatisticsData_ReadField5 (fuel : nat) : wColumnStatisticsData -> MF P wColumnStatisticsData :=
  assign (read_sub "*hive_metastore.BinaryColumnStatsData" (BinaryColumnStatsData_Read fuel NewBinaryColumnStatsData))%go (fun v => ColumnStatisticsData_set_BinaryStats (Some v)).
Definition ColumnStatisticsData_writeField6 (p : wColumnStatisticsData) : M P unit :=
  (opt (wColumnStatisticsData_DecimalStats p) (fun v =>
    write_field T_ColumnStatisticsData "decimalStats" STRUCT 6 (write_sub "*hive_metastore.DecimalColumnStatsData" (DecimalColumnStatsData_Write (Some v)))))%go.
Definition ColumnStatisticsData_ReadField6 (fuel : nat) : wColumnStatisticsData -> MF P wColumnStatisticsData :=
  assign (read_sub "*hive_metastore.DecimalColumnStatsData" (DecimalColumnStatsData_Read fuel NewDecimalColumnStatsData))%go (fun v => ColumnStatisticsData_set_DecimalStats (Some v)).
Definition ColumnStatisticsData_writeField7 (p : wColumnStatisticsData) : M P unit :=
  (opt (wColumnStatisticsData_DateStats p) (fun v =>
    write_field T_ColumnStatisticsData "dateStats" STRUCT 7 (write_sub "*hive_metastore.DateColumnStatsData" (DateColumnStatsData_Write (Some v)))))%go.
Definition ColumnStatisticsData_ReadField7 (fuel : nat) : wColumnStatisticsData -> MF P wColumnStatisticsData :=
  assign (read_sub "*hive_metastore.DateColumnStatsData" (DateColumnStatsData_Read fuel NewDateColumnStatsData))%go (fun v => ColumnStatisticsData_set_DateStats (Some v)).
Definition ColumnStatisticsData_writeField8 (p : wColumnStatisticsData) : M P unit :=
  (opt (wColumnStatisticsData_TimestampStats p) (fun v =>
    write_field T_ColumnStatisticsData "timestampStats" STRUCT 8 (write_sub "*hive_metastore.TimestampColumnStatsData" (TimestampColumnStatsData_Write (Some v)))))%go.
Definition ColumnStatisticsData_ReadField8 (fuel : nat) : wColumnStatisticsData -> MF P wColumnStatisticsData :=
  assign (read_sub "*hive_metastore.TimestampColumnStatsData" (TimestampColumnStatsData_Read fuel NewTimestampColumnStatsData))%go (fun v => ColumnStatisticsData_set_TimestampStats (Some v)).
Definition ColumnStatisticsData_CountSetFields (p : option wColumnStatisticsData) : Z :=
  match p with
  | None => 0
  | Some p => (if bool_decide (is_Some (wColumnStatisticsData_BooleanStats p)) then 1 else 0) + (if bool_decide (is_Some (wColumnStatisticsData_LongStats p)) then 1 else 0) + (if bool_decide (is_Some (wColumnStatisticsData_DoubleStats p)) then 1 else 0) + (if bool_decide (is_Some (wColumnStatisticsData_StringStats p)) then 1 else 0) + (if bool_decide (is_Some (wColumnStatisticsData_BinaryStats p)) then 1 else 0) + (if bool_decide (is_Some (wColumnStatisticsData_DecimalStats p)) then 1 else 0) + (if bool_decide (is_Some (wColumnStatisticsData_DateStats p)) then 1 else 0) + (if bool_decide (is_Some (wColumnStatisticsData_TimestampStats p)) then 1 else 0)
  end.
Definition ColumnStatisticsData_Write (p : option wColumnStatisticsData) : M P unit :=
  write_union T_ColumnStatisticsData "ColumnStatisticsData" (ColumnStatisticsData_CountSetFields p) ((fun p => [ColumnStatisticsData_writeField1 p; ColumnStatisticsData_writeField2 p; ColumnStatisticsData_writeField3 p; ColumnStatisticsData_writeField4 p; ColumnStatisticsData_writeField5 p; ColumnStatisticsData_writeField6 p; ColumnStatisticsData_writeField7 p; ColumnStatisticsData_writeField8 p]) <$> p).
Definition ColumnStatisticsData_switch (fuel : nat) : switch wColumnStatisticsData := fun fieldId =>
  match fieldId with
  | 1 => Some (STRUCT, ColumnStatisticsData_ReadField1 fuel)
  | 2 => Some (STRUCT, ColumnStatisticsData_ReadField2 fuel)
  | 3 => Some (STRUCT, ColumnStatisticsData_ReadField3 fuel)
  | 4 => Some (STRUCT, ColumnStatisticsData_ReadField4 fuel)
  | 5 => Some (STRUCT, ColumnStatisticsData_ReadField5 fuel)
  | 6 => Some (STRUCT, ColumnStatisticsData_ReadField6 fuel)
  | 7 => Some (STRUCT, ColumnStatisticsData_ReadField7 fuel)
  | 8 => Some (STRUCT, ColumnStatisticsData_ReadField8 fuel)
  | _ => None
  end.
Definition ColumnStatisticsData_Read (fuel : nat) : wColumnStatisticsData -> MF P wColumnStatisticsData :=
  read_struct T_ColumnStatisticsData [] (ColumnStatisticsData_switch fuel) fuel.

(** ** ColumnStatisticsObj *)

Local Abbreviation T_ColumnStatisticsObj := "*hive_metastore.ColumnStatisticsObj".
Definition ColumnStatisticsObj_set_ColName v '(mk_wColumnStatisticsObj _ x2 x3) : wColumnStatisticsObj :=
  mk_wColumnStatisticsObj v x2 x3.
Definition ColumnStatisticsObj_set_ColType v '(mk_wColumnStatisticsObj x1 _ x3) : wColumnStatisticsObj :=
  mk_wColumnStatisticsObj x1 v x3.
Definition ColumnStatisticsObj_set_StatsData v '(mk_wColumnStatisticsObj x1 x2 _) : wColumnStatisticsObj :=
  mk_wColumnStatisticsObj x1 x2 v.

Definition ColumnStatisticsObj_writeField1 (p : wColumnStatisticsObj) : M P unit :=
  (write_field T_ColumnStatisticsObj "colName" STRING 1 (write_scalar T_ColumnStatisticsObj "colName" 1 (WriteString (wColumnStatisticsObj_ColName p))))%go.
Definition ColumnStatisticsObj_ReadField1 : wColumnStatisticsObj -> MF P wColumnStatisticsObj :=
  assign (read_scalar 1 ReadString)%go ColumnStatisticsObj_set_ColName.
Definition ColumnStatisticsObj_writeField2 (p : wColumnStatisticsObj) : M P unit :=
  (write_field T_ColumnStatisticsObj "colType" STRING 2 (write_scalar T_ColumnStatisticsObj "colType" 2 (WriteString (wColumnStatisticsObj_ColType p))))%go.
Definition ColumnStatisticsObj_ReadField2 : wColumnStatisticsObj -> MF P wColumnStatisticsObj :=
  assign (read_scalar 2 ReadString)%go ColumnStatisticsObj_set_ColType.
Definition ColumnStatisticsObj_writeField3 (p : wColumnStatisticsObj) : M P unit :=
  (write_field T_ColumnStatisticsObj "statsData" STRUCT 3 (write_sub "*hive_metastore.ColumnStatisticsData" (ColumnStatisticsData_Write (wColumnStatisticsObj_StatsData p))))%go.
Definition ColumnStatisticsObj_ReadField3 (fuel : nat) : wColumnStatisticsObj -> MF P wColumnStatisticsObj :=
  assign (read_sub "*hive_metastore.ColumnStatisticsData" (ColumnStatisticsData_Read fuel NewColumnStatisticsData))%go (fun v => ColumnStatisticsObj_set_StatsData (Some v)).
Definition ColumnStatisticsObj_Write (p : option wColumnStatisticsObj) : M P unit :=
  write_struct T_ColumnStatisticsObj "ColumnStatisticsObj" ((fun p => [ColumnStatisticsObj_writeField1 p;
     ColumnStatisticsObj_writeField2 p; ColumnStatisticsObj_writeField3 p]) <$> p).
Definition ColumnStatisticsObj_switch (fuel : nat) : switch wColumnStatisticsObj := fun fieldId =>
  match fieldId with
  | 1 => Some (STRING, ColumnStatisticsObj_ReadField1)
  | 2 => Some (STRING, ColumnStatisticsObj_ReadField2)
  | 3 => Some (STRUCT, ColumnStatisticsObj_ReadField3 fuel)
  | _ => None
  end.
Definition ColumnStatisticsObj_Read (fuel : nat) : wColumnStatisticsObj -> MF P wColumnStatisticsObj :=
  read_struct T_ColumnStatisticsObj [(1, "ColName"); (2, "ColType");
     (3, "StatsData")] (ColumnStatisticsObj_switch fuel) fuel.

(** ** TableStatsRequest *)

Local Abbreviation T_TableStatsRequest := "*hive_metastore.TableStatsRequest".
Definition TableStatsRequest_set_DbName v '(mk_wTableStatsRequest _ x2 x3 x4 x5 x6 x7) : wTableStatsRequest :=
  mk_wTableStatsRequest v x2 x3 x4 x5 x6 x7.
Definition TableStatsRequest_set_TblName v '(mk_wTableStatsRequest x1 _ x3 x4 x5 x6 x7) : wTableStatsRequest :=
  mk_wTableStatsRequest x1 v x3 x4 x5 x6 x7.
Definition TableStatsRequest_set_ColNames v '(mk_wTableStatsRequest x1 x2 _ x4 x5 x6 x7) : wTableStatsRequest :=
  mk_wTableStatsRequest x1 x2 v x4 x5 x6 x7.
Definition TableStatsRequest_set_CatName v '(mk_wTableStatsRequest x1 x2 x3 _ x5 x6 x7) : wTableStatsRequest :=
  mk_wTableStatsRequest x1 x2 x3 v x5 x6 x7.
Definition TableStatsRequest_set_ValidWriteIdList v '(mk_wTableStatsRequest x1 x2 x3 x4 _ x6 x7) : wTableStatsRequest :=
  mk_wTableStatsRequest x1 x2 x3 x4 v x6 x7.
Definition TableStatsRequest_set_Engine v '(mk_wTableStatsRequest x1 x2 x3 x4 x5 _ x7) : wTableStatsRequest :=
  mk_wTableStatsRequest x1 x2 x3 x4 x5 v x7.
Definition TableStatsRequest_set_ID v '(mk_wTableStatsRequest x1 x2 x3 x4 x5 x6 _) : wTableStatsRequest :=
  mk_wTableStatsRequest x1 x2 x3 x4 x5 x6 v.

Definition TableStatsRequest_writeField1 (p : wTableStatsRequest) : M P unit :=
  (write_field T_TableStatsRequest "dbName" STRING 1 (write_scalar T_TableStatsRequest "dbName" 1 (WriteString (wTableStatsRequest_DbName p))))%go.
Definition TableStatsRequest_ReadField1 : wTableStatsRequest -> MF P wTableStatsRequest :=
  assign (read_scalar 1 ReadString)%go TableStatsRequest_set_DbName.
Definition TableStatsRequest_writeField2 (p : wTableStatsRequest) : M P unit :=
  (write_field T_TableStatsRequest "tblName" STRING 2 (write_scalar T_TableStatsRequest "tblName" 2 (WriteString (wTableStatsRequest_TblName p))))%go.
Definition TableStatsRequest_ReadField2 : wTableStatsRequest -> MF P wTableStatsRequest :=
  assign (read_scalar 2 ReadString)%go TableStatsRequest_set_TblName.
Definition TableStatsRequest_writeField3 (p : wTableStatsRequest) : M P unit :=
  (write_field T_TableStatsRequest "colNames" LIST 3 (write_strings T_TableStatsRequest (wTableStatsRequest_ColNames p)))%go.
Definition TableStatsRequest_ReadField3 : wTableStatsRequest -> MF P wTableStatsRequest :=
  assign (read_strings)%go TableStatsRequest_set_ColNames.
Definition TableStatsRequest_writeField4 (p : wTableStatsRequest) : M P unit :=
  (opt (wTableStatsRequest_CatName p) (fun v =>
    write_field T_TableStatsRequest "catName" STRING 4 (write_scalar T_TableStatsRequest "catName" 4 (WriteString v))))%go.
Definition TableStatsRequest_ReadField4 : wTableStatsRequest -> MF P wTableStatsRequest :=
  assign (read_scalar 4 ReadString)%go (fun v => TableStatsRequest_set_CatName (Some v)).
Definition TableStatsRequest_writeField5 (p : wTableStatsRequest) : M P unit :=
  (opt (wTableStatsRequest_ValidWriteIdList p) (fun v =>
    write_field T_TableStatsRequest "validWriteIdList" STRING 5 (write_scalar T_TableStatsRequest "validWriteIdList" 5 (WriteString v))))%go.
Definition TableStatsRequest_ReadField5 : wTableStatsRequest -> MF P wTableStatsRequest :=
  assign (read_scalar 5 ReadString)%go (fun v => TableStatsRequest_set_ValidWriteIdList (Some v)).
Definition TableStatsRequest_writeField6 (p : wTableStatsRequest) : M P unit :=
  (when (negb (String.eqb (wTableStatsRequest_Engine p) "hive"))
    (write_field T_TableStatsRequest "engine" STRING 6 (write_scalar T_TableStatsRequest "engine" 6 (WriteString (wTableStatsRequest_Engine p)))))%go.
Definition TableStatsRequest_ReadField6 : wTableStatsRequest -> MF P wTableStatsRequest :=
  assign (read_scalar 6 ReadString)%go TableStatsRequest_set_Engine.
Definition TableStatsRequest_writeField7 (p : wTableStatsRequest) : M P unit :=
  (when (negb (wTableStatsRequest_ID p =? (-1)))
    (write_field T_TableStatsRequest "id" I64 7 (write_scalar T_TableStatsRequest "id" 7 (WriteI64 (wTableStatsRequest_ID p)))))%go.
Definition TableStatsRequest_ReadField7 : wTableStatsRequest -> MF P wTableStatsRequest :=
  assign (read_scalar 7 ReadI64)%go TableStatsRequest_set_ID.
Definition TableStatsRequest_Write (p : option wTableStatsRequest) : M P unit :=
  write_struct T_TableStatsRequest "TableStatsRequest" ((fun p => [TableStatsRequest_writeField1 p;
     TableStatsRequest_writeField2 p; TableStatsRequest_writeField3 p; TableStatsRequest_writeField4 p;
     TableStatsRequest_writeField5 p; TableStatsRequest_writeField6 p; TableStatsRequest_writeField7 p]) <$> p).
Definition TableStatsRequest_switch : switch wTableStatsRequest := fun fieldId =>
  match fieldId with
  | 1 => Some (STRING, TableStatsRequest_ReadField1)
  | 2 => Some (STRING, TableStatsRequest_ReadField2)
  | 3 => Some (LIST, TableStatsRequest_ReadField3)
  | 4 => Some (STRING, TableStatsRequest_ReadField4)
  | 5 => Some (STRING, TableStatsRequest_ReadField5)
  | 6 => Some (STRING, TableStatsRequest_ReadField6)
  | 7 => Some (I64, TableStatsRequest_ReadField7)
  | _ => None
  end.
Definition TableStatsRequest_Read (fuel : nat) : wTableStatsRequest -> MF P wTableStatsRequest :=
  read_struct T_TableStatsRequest [(1, "DbName"); (2, "TblName"); (3, "ColNames")] TableStatsRequest_switch fuel.

(** ** TableStatsResult_ *)

Local Abbreviation T_TableStatsResult_ := "*hive_metastore.TableStatsResult_".
Definition TableStatsResult__set_TableStats v '(mk_wTableStatsResult_ _ x2) : wTableStatsResult_ :=
  mk_wTableStatsResult_ v x2.
Definition TableStatsResult__set_IsStatsCompliant v '(mk_wTableStatsResult_ x1 _) : wTableStatsResult_ :=
  mk_wTableStatsResult_ x1 v.

Definition TableStatsResult__writeField1 (p : wTableStatsResult_) : M P unit :=
  (write_field T_TableStatsResult_ "tableStats" LIST 1 (write_list STRUCT (fun v => write_sub "*hive_metastore.ColumnStatisticsObj" (ColumnStatisticsObj_Write v)) (wTableStatsResult__TableStats p)))%go.
Definition TableStatsResult__ReadField1 (fuel : nat) : wTableStatsResult_ -> MF P wTableStatsResult_ :=
  assign (read_list (v <-- read_sub "*hive_metastore.ColumnStatisticsObj" (ColumnStatisticsObj_Read fuel NewColumnStatisticsObj);; liftF (ret (Some v))))%go TableStatsResult__set_TableStats.
Definition TableStatsResult__writeField2 (p : wTableStatsResult_) : M P unit :=
  (opt (wTableStatsResult__IsStatsCompliant p) (fun v =>
    write_field T_TableStatsResult_ "isStatsCompliant" BOOL 2 (write_scalar T_TableStatsResult_ "isStatsCompliant" 2 (WriteBool v))))%go.
Definition TableStatsResult__ReadField2 : wTableStatsResult_ -> MF P wTableStatsResult_ :=
  assign (read_scalar 2 ReadBool)%go (fun v => TableStatsResult__set_IsStatsCompliant (Some v)).
Definition TableStatsResult__Write (p : option wTableStatsResult_) : M P unit :=
  write_struct T_TableStatsResult_ "TableStatsResult" ((fun p => [TableStatsResult__writeField1 p;
     TableStatsResult__writeField2 p]) <$> p).
Definition TableStatsResult__switch (fuel : nat) : switch wTableStatsResult_ := fun fieldId =>
  match fieldId with
  | 1 => Some (LIST, TableStatsResult__ReadField1 fuel)
  | 2 => Some (BOOL, TableStatsResult__ReadField2)
  | _ => None
  end.
Definition TableStatsResult__Read (fuel : nat) : wTableStatsResult_ -> MF P wTableStatsResult_ :=
  read_struct T_TableStatsResult_ [(1, "TableStats")] (TableStatsResult__switch fuel) fuel.
End codec.
