(* ===== verification/CodecStatsFacts.v ===== *)
(** * CodecStatsFacts: what the codecs of CodecStats write, and that they read it back *)

From S2P Require Import Prelude Errors GoMonad Types Transport Wire Thrift ThriftFacts CodecStats.

Section facts.
Context {P : Type} {TP : TProtocol P} {TL : TProtocolLaws P} {MR : MapRange} {SB : Substructs P} {SL : SubstructLaws P}.

(** ** Decimal *)

Definition Decimal_wire (p : wDecimal) : list (list wfield) :=
  [[(1, STRING, [KBinary (elems (wDecimal_Unscaled p))])];
   [(3, I16, [KI16 (wDecimal_Scale p)])]].
Definition Decimal_toks (p : option wDecimal) : list tok :=
  struct_toks (match p with Some p => concat (Decimal_wire p) | None => [] end).
Definition Decimal_canon (p : wDecimal) : wDecimal :=
  mk_wDecimal (Some (elems (wDecimal_Unscaled p)))
    (wDecimal_Scale p).

Lemma Decimal_writes strict d p : (1 <= d)%nat -> 
  writes strict d (Decimal_Write p) (Decimal_toks p).
Proof. enter_struct. unfold Decimal_wire, Decimal_writeField1, Decimal_writeField3. write_fields. Qed.
Lemma Decimal_runs d fuel p : (0 <= d)%nat -> (3 <= fuel)%nat -> 
  exists ids, runs d Decimal_switch (concat (Decimal_wire p)) NewDecimal (Decimal_canon p) ids /\ 3 ∈ ids /\ 1 ∈ ids.
Proof.
  intros Hd Hf. unfold Decimal_wire. eexists.
  split.
  { cbn [concat]. run_one.
    run_one.
    run_end. }
  split_and?; set_solver.
Qed.
Lemma Decimal_reads d fuel p : (1 <= d)%nat -> (3 <= fuel)%nat -> 
  reads d (Decimal_Read fuel NewDecimal) (Decimal_toks (Some p)) (Decimal_canon p).
Proof. struct_reads Decimal_runs Decimal_wire. Qed.
#[local] Hint Resolve Decimal_writes Decimal_reads : wire.

(** ** Date *)

Definition Date_wire (p : wDate) : list (list wfield) :=
  [[(1, I64, [KI64 (wDate_DaysSinceEpoch p)])]].
Definition Date_toks (p : option wDate) : list tok :=
  struct_toks (match p with Some p => concat (Date_wire p) | None => [] end).
Definition Date_canon (p : wDate) : wDate :=
  mk_wDate (wDate_DaysSinceEpoch p).

Lemma Date_writes strict d p : (1 <= d)%nat -> 
  writes strict d (Date_Write p) (Date_toks p).
Proof. enter_struct. unfold Date_wire, Date_writeField1. write_fields. Qed.
Lemma Date_runs d fuel p : (0 <= d)%nat -> (2 <= fuel)%nat -> 
  exists ids, runs d Date_switch (concat (Date_wire p)) NewDate (Date_canon p) ids /\ 1 ∈ ids.
Proof.
  intros Hd Hf. unfold Date_wire. eexists.
  split.
  { cbn [concat]. run_one.
    run_end. }
  split_and?; set_solver.
Qed.
Lemma Date_reads d fuel p : (1 <= d)%nat -> (2 <= fuel)%nat -> 
  reads d (Date_Read fuel NewDate) (Date_toks (Some p)) (Date_canon p).
Proof. struct_reads Date_runs Date_wire. Qed.
#[local] Hint Resolve Date_writes Date_reads : wire.

(** ** Timestamp *)

Definition Timestamp_wire (p : wTimestamp) : list (list wfield) :=
  [[(1, I64, [KI64 (wTimestamp_SecondsSinceEpoch p)])]].
Definition Timestamp_toks (p : option wTimestamp) : list tok :=
  struct_toks (match p with Some p => concat (Timestamp_wire p) | None => [] end).
Definition Timestamp_canon (p : wTimestamp) : wTimestamp :=
  mk_wTimestamp (wTimestamp_SecondsSinceEpoch p).

Lemma Timestamp_writes strict d p : (1 <= d)%nat -> 
  writes strict d (Timestamp_Write p) (Timestamp_toks p).
Proof. enter_struct. unfold Timestamp_wire, Timestamp_writeField1. write_fields. Qed.
Lemma Timestamp_runs d fuel p : (0 <= d)%nat -> (2 <= fuel)%nat -> 
  exists ids, runs d Timestamp_switch (concat (Timestamp_wire p)) NewTimestamp (Timestamp_canon p) ids /\ 1 ∈ ids.
Proof.
  intros Hd Hf. unfold Timestamp_wire. eexists.
  split.
  { cbn [concat]. run_one.
    run_end. }
  split_and?; set_solver.
Qed.
Lemma Timestamp_reads d fuel p : (1 <= d)%nat -> (2 <= fuel)%nat -> 
  reads d (Timestamp_Read fuel NewTimestamp) (Timestamp_toks (Some p)) (Timestamp_canon p).
Proof. struct_reads Timestamp_runs Timestamp_wire. Qed.
#[local] Hint Resolve Timestamp_writes Timestamp_reads : wire.

(** ** BooleanColumnStatsData *)

Definition BooleanColumnStatsData_wire (p : wBooleanColumnStatsData) : list (list wfield) :=
  [[(1, I64, [KI64 (wBooleanColumnStatsData_NumTrues p)])];
   [(2, I64, [KI64 (wBooleanColumnStatsData_NumFalses p)])];
   [(3, I64, [KI64 (wBooleanColumnStatsData_NumNulls p)])];
   when_part (bool_decide (is_Some (wBooleanColumnStatsData_BitVectors p))) (4, STRING, [KBinary (elems (wBooleanColumnStatsData_BitVectors p))])].
Definition BooleanColumnStatsData_toks (p : option wBooleanColumnStatsData) : list tok :=
  struct_toks (match p with Some p => concat (BooleanColumnStatsData_wire p) | None => [] end).
Definition BooleanColumnStatsData_canon (p : wBooleanColumnStatsData) : wBooleanColumnStatsData :=
  mk_wBooleanColumnStatsData (wBooleanColumnStatsData_NumTrues p)
    (wBooleanColumnStatsData_NumFalses p)
    (wBooleanColumnStatsData_NumNulls p)
    (wBooleanColumnStatsData_BitVectors p).

Lemma BooleanColumnStatsData_writes strict d p : (1 <= d)%nat -> 
  writes strict d (BooleanColumnStatsData_Write p) (BooleanColumnStatsData_toks p).
Proof. enter_struct. unfold BooleanColumnStatsData_wire, BooleanColumnStatsData_writeField1, BooleanColumnStatsData_writeField2, BooleanColumnStatsData_writeField3, BooleanColumnStatsData_writeField4. write_fields. Qed.
Lemma BooleanColumnStatsData_runs d fuel p : (0 <= d)%nat -> (5 <= fuel)%nat -> 
  exists ids, runs d BooleanColumnStatsData_switch (concat (BooleanColumnStatsData_wire p)) NewBooleanColumnStatsData (BooleanColumnStatsData_canon p) ids /\ 1 ∈ ids /\ 2 ∈ ids /\ 3 ∈ ids.
Proof.
  intros Hd Hf. unfold BooleanColumnStatsData_wire. eexists.
  split.
  { cbn [concat]. run_one.
    run_one.
    run_one.
    run_slice_same BooleanColumnStatsData_set_BitVectors.
    run_end. }
  split_and?; set_solver.
Qed.
Lemma BooleanColumnStatsData_reads d fuel p : (1 <= d)%nat -> (5 <= fuel)%nat -> 
  reads d (BooleanColumnStatsData_Read fuel NewBooleanColumnStatsData) (BooleanColumnStatsData_toks (Some p)) (BooleanColumnStatsData_canon p).
Proof. struct_reads BooleanColumnStatsData_runs BooleanColumnStatsData_wire. Qed.
#[local] Hint Resolve BooleanColumnStatsData_writes BooleanColumnStatsData_reads : wire.

(** ** LongColumnStatsData *)

Definition LongColumnStatsData_wire (p : wLongColumnStatsData) : list (list wfield) :=
  [opt_part (wLongColumnStatsData_LowValue p) (fun v => (1, I64, [KI64 v]));
   opt_part (wLongColumnStatsData_HighValue p) (fun v => (2, I64, [KI64 v]));
   [(3, I64, [KI64 (wLongColumnStatsData_NumNulls p)])];
   [(4, I64, [KI64 (wLongColumnStatsData_NumDVs p)])];
   when_part (bool_decide (is_Some (wLongColumnStatsData_BitVectors p))) (5, STRING, [KBinary (elems (wLongColumnStatsData_BitVectors p))]);
   when_part (bool_decide (is_Some (wLongColumnStatsData_Histogram p))) (6, STRING, [KBinary (elems (wLongColumnStatsData_Histogram p))])].
Definition LongColumnStatsData_toks (p : option wLongColumnStatsData) : list tok :=
  struct_toks (match p with Some p => concat (LongColumnStatsData_wire p) | None => [] end).
Definition LongColumnStatsData_canon (p : wLongColumnStatsData) : wLongColumnStatsData :=
  mk_wLongColumnStatsData (wLongColumnStatsData_LowValue p)
    (wLongColumnStatsData_HighValue p)
    (wLongColumnStatsData_NumNulls p)
    (wLongColumnStatsData_NumDVs p)
    (wLongColumnStatsData_BitVectors p)
    (wLongColumnStatsData_Histogram p).

Lemma LongColumnStatsData_writes strict d p : (1 <= d)%nat -> 
  writes strict d (LongColumnStatsData_Write p) (LongColumnStatsData_toks p).
Proof. enter_struct. unfold LongColumnStatsData_wire, LongColumnStatsData_writeField1, LongColumnStatsData_writeField2, LongColumnStatsData_writeField3, LongColumnStatsData_writeField4, LongColumnStatsData_writeField5, LongColumnStatsData_writeField6. write_fields. Qed.
Lemma LongColumnStatsData_runs d fuel p : (0 <= d)%nat -> (7 <= fuel)%nat -> 
  exists ids, runs d LongColumnStatsData_switch (concat (LongColumnStatsData_wire p)) NewLongColumnStatsData (LongColumnStatsData_canon p) ids /\ 3 ∈ ids /\ 4 ∈ ids.
Proof.
  intros Hd Hf. unfold LongColumnStatsData_wire. eexists.
  split.
  { cbn [concat]. run_opt_same LongColumnStatsData_set_LowValue.
    run_opt_same LongColumnStatsData_set_HighValue.
    run_one.
    run_one.
    run_slice_same LongColumnStatsData_set_BitVectors.
    run_slice_same LongColumnStatsData_set_Histogram.
    run_end. }
  split_and?; set_solver.
Qed.
Lemma LongColumnStatsData_reads d fuel p : (1 <= d)%nat -> (7 <= fuel)%nat -> 
  reads d (LongColumnStatsData_Read fuel NewLongColumnStatsData) (LongColumnStatsData_toks (Some p)) (LongColumnStatsData_canon p).
Proof. struct_reads LongColumnStatsData_runs LongColumnStatsData_wire. Qed.
#[local] Hint Resolve LongColumnStatsData_writes LongColumnStatsData_reads : wire.

(** ** DoubleColumnStatsData *)

Definition DoubleColumnStatsData_wire (p : wDoubleColumnStatsData) : list (list wfield) :=
  [opt_part (wDoubleColumnStatsData_LowValue p) (fun v => (1, DOUBLE, [KDouble v]));
   opt_part (wDoubleColumnStatsData_HighValue p) (fun v => (2, DOUBLE, [KDouble v]));
   [(3, I64, [KI64 (wDoubleColumnStatsData_NumNulls p)])];
   [(4, I64, [KI64 (wDoubleColumnStatsData_NumDVs p)])];
   when_part (bool_decide (is_Some (wDoubleColumnStatsData_BitVectors p))) (5, STRING, [KBinary (elems (wDoubleColumnStatsData_BitVectors p))]);
   when_part (bool_decide (is_Some (wDoubleColumnStatsData_Histogram p))) (6, STRING, [KBinary (elems (wDoubleColumnStatsData_Histogram p))])].
Definition DoubleColumnStatsData_toks (p : option wDoubleColumnStatsData) : list tok :=
  struct_toks (match p with Some p => concat (DoubleColumnStatsData_wire p) | None => [] end).
Definition DoubleColumnStatsData_canon (p : wDoubleColumnStatsData) : wDoubleColumnStatsData :=
  mk_wDoubleColumnStatsData (wDoubleColumnStatsData_LowValue p)
    (wDoubleColumnStatsData_HighValue p)
    (wDoubleColumnStatsData_NumNulls p)
    (wDoubleColumnStatsData_NumDVs p)
    (wDoubleColumnStatsData_BitVectors p)
    (wDoubleColumnStatsData_Histogram p).

Lemma DoubleColumnStatsData_writes strict d p : (1 <= d)%nat -> 
  writes strict d (DoubleColumnStatsData_Write p) (DoubleColumnStatsData_toks p).
Proof. enter_struct. unfold DoubleColumnStatsData_wire, DoubleColumnStatsData_writeField1, DoubleColumnStatsData_writeField2, DoubleColumnStatsData_writeField3, DoubleColumnStatsData_writeField4, DoubleColumnStatsData_writeField5, DoubleColumnStatsData_writeField6. write_fields. Qed.
Lemma DoubleColumnStatsData_runs d fuel p : (0 <= d)%nat -> (7 <= fuel)%nat -> 
  exists ids, runs d DoubleColumnStatsData_switch (concat (DoubleColumnStatsData_wire p)) NewDoubleColumnStatsData (DoubleColumnStatsData_canon p) ids /\ 3 ∈ ids /\ 4 ∈ ids.
Proof.
  intros Hd Hf. unfold DoubleColumnStatsData_wire. eexists.
  split.
  { cbn [concat]. run_opt_same DoubleColumnStatsData_set_LowValue.
    run_opt_same DoubleColumnStatsData_set_HighValue.
    run_one.
    run_one.
    run_slice_same DoubleColumnStatsData_set_BitVectors.
    run_slice_same DoubleColumnStatsData_set_Histogram.
    run_end. }
  split_and?; set_solver.
Qed.
Lemma DoubleColumnStatsData_reads d fuel p : (1 <= d)%nat -> (7 <= fuel)%nat -> 
  reads d (DoubleColumnStatsData_Read fuel NewDoubleColumnStatsData) (DoubleColumnStatsData_toks (Some p)) (DoubleColumnStatsData_canon p).
Proof. struct_reads DoubleColumnStatsData_runs DoubleColumnStatsData_wire. Qed.
#[local] Hint Resolve DoubleColumnStatsData_writes DoubleColumnStatsData_reads : wire.

(** ** StringColumnStatsData *)

Definition StringColumnStatsData_wire (p : wStringColumnStatsData) : list (list wfield) :=
  [[(1, I64, [KI64 (wStringColumnStatsData_MaxColLen p)])];
   [(2, DOUBLE, [KDouble (wStringColumnStatsData_AvgColLen p)])];
   [(3, I64, [KI64 (wStringColumnStatsData_NumNulls p)])];
   [(4, I64, [KI64 (wStringColumnStatsData_NumDVs p)])];
   when_part (bool_decide (is_Some (wStringColumnStatsData_BitVectors p))) (5, STRING, [KBinary (elems (wStringColumnStatsData_BitVectors p))])].
Definition StringColumnStatsData_toks (p : option wStringColumnStatsData) : list tok :=
  struct_toks (match p with Some p => concat (StringColumnStatsData_wire p) | None => [] end).
Definition StringColumnStatsData_canon (p : wStringColumnStatsData) : wStringColumnStatsData :=
  mk_wStringColumnStatsData (wStringColumnStatsData_MaxColLen p)
    (wStringColumnStatsData_AvgColLen p)
    (wStringColumnStatsData_NumNulls p)
    (wStringColumnStatsData_NumDVs p)
    (wStringColumnStatsData_BitVectors p).

Lemma StringColumnStatsData_writes strict d p : (1 <= d)%nat -> 
  writes strict d (StringColumnStatsData_Write p) (StringColumnStatsData_toks p).
Proof. enter_struct. unfold StringColumnStatsData_wire, StringColumnStatsData_writeField1, StringColumnStatsData_writeField2, StringColumnStatsData_writeField3, StringColumnStatsData_writeField4, StringColumnStatsData_writeField5. write_fields. Qed.
Lemma StringColumnStatsData_runs d fuel p : (0 <= d)%nat -> (6 <= fuel)%nat -> 
  exists ids, runs d StringColumnStatsData_switch (concat (StringColumnStatsData_wire p)) NewStringColumnStatsData (StringColumnStatsData_canon p) ids /\ 1 ∈ ids /\ 2 ∈ ids /\ 3 ∈ ids /\ 4 ∈ ids.
Proof.
  intros Hd Hf. unfold StringColumnStatsData_wire. eexists.
  split.
  { cbn [concat]. run_one.
    run_one.
    run_one.
    run_one.
    run_slice_same StringColumnStatsData_set_BitVectors.
    run_end. }
  split_and?; set_solver.
Qed.
Lemma StringColumnStatsData_reads d fuel p : (1 <= d)%nat -> (6 <= fuel)%nat -> 
  reads d (StringColumnStatsData_Read fuel NewStringColumnStatsData) (StringColumnStatsData_toks (Some p)) (StringColumnStatsData_canon p).
Proof. struct_reads StringColumnStatsData_runs StringColumnStatsData_wire. Qed.
#[local] Hint Resolve StringColumnStatsData_writes StringColumnStatsData_reads : wire.

(** ** BinaryColumnStatsData *)

Definition BinaryColumnStatsData_wire (p : wBinaryColumnStatsData) : list (list wfield) :=
  [[(1, I64, [KI64 (wBinaryColumnStatsData_MaxColLen p)])];
   [(2, DOUBLE, [KDouble (wBinaryColumnStatsData_AvgColLen p)])];
   [(3, I64, [KI64 (wBinaryColumnStatsData_NumNulls p)])];
   when_part (bool_decide (is_Some (wBinaryColumnStatsData_BitVectors p))) (4, STRING, [KBinary (elems (wBinaryColumnStatsData_BitVectors p))])].
Definition BinaryColumnStatsData_toks (p : option wBinaryColumnStatsData) : list tok :=
  struct_toks (match p with Some p => concat (BinaryColumnStatsData_wire p) | None => [] end).
Definition BinaryColumnStatsData_canon (p : wBinaryColumnStatsData) : wBinaryColumnStatsData :=
  mk_wBinaryColumnStatsData (wBinaryColumnStatsData_MaxColLen p)
    (wBinaryColumnStatsData_AvgColLen p)
    (wBinaryColumnStatsData_NumNulls p)
    (wBinaryColumnStatsData_BitVectors p).

Lemma BinaryColumnStatsData_writes strict d p : (1 <= d)%nat -> 
  writes strict d (BinaryColumnStatsData_Write p) (BinaryColumnStatsData_toks p).
Proof. enter_struct. unfold BinaryColumnStatsData_wire, BinaryColumnStatsData_writeField1, BinaryColumnStatsData_writeField2, BinaryColumnStatsData_writeField3, BinaryColumnStatsData_writeField4. write_fields. Qed.
Lemma BinaryColumnStatsData_runs d fuel p : (0 <= d)%nat -> (5 <= fuel)%nat -> 
  exists ids, runs d BinaryColumnStatsData_switch (concat (BinaryColumnStatsData_wire p)) NewBinaryColumnStatsData (BinaryColumnStatsData_canon p) ids /\ 1 ∈ ids /\ 2 ∈ ids /\ 3 ∈ ids.
Proof.
  intros Hd Hf. unfold BinaryColumnStatsData_wire. eexists.
  split.
  { cbn [concat]. run_one.
    run_one.
    run_one.
    run_slice_same BinaryColumnStatsData_set_BitVectors.
    run_end. }
  split_and?; set_solver.
Qed.
Lemma BinaryColumnStatsData_reads d fuel p : (1 <= d)%nat -> (5 <= fuel)%nat -> 
  reads d (BinaryColumnStatsData_Read fuel NewBinaryColumnStatsData) (BinaryColumnStatsData_toks (Some p)) (BinaryColumnStatsData_canon p).
Proof. struct_reads BinaryColumnStatsData_runs BinaryColumnStatsData_wire. Qed.
#[local] Hint Resolve BinaryColumnStatsData_writes BinaryColumnStatsData_reads : wire.

(** ** DecimalColumnStatsData *)

Definition DecimalColumnStatsData_wire (p : wDecimalColumnStatsData) : list (list wfield) :=
  [opt_part (wDecimalColumnStatsData_LowValue p) (fun v => (1, STRUCT, Decimal_toks (Some v)));
   opt_part (wDecimalColumnStatsData_HighValue p) (fun v => (2, STRUCT, Decimal_toks (Some v)));
   [(3, I64, [KI64 (wDecimalColumnStatsData_NumNulls p)])];
   [(4, I64, [KI64 (wDecimalColumnStatsData_NumDVs p)])];
   when_part (bool_decide (is_Some (wDecimalColumnStatsData_BitVectors p))) (5, STRING, [KBinary (elems (wDecimalColumnStatsData_BitVectors p))]);
   when_part (bool_decide (is_Some (wDecimalColumnStatsData_Histogram p))) (6, STRING, [KBinary (elems (wDecimalColumnStatsData_Histogram p))])].
Definition DecimalColumnStatsData_toks (p : option wDecimalColumnStatsData) : list tok :=
  struct_toks (match p with Some p => concat (DecimalColumnStatsData_wire p) | None => [] end).
Definition DecimalColumnStatsData_canon (p : wDecimalColumnStatsData) : wDecimalColumnStatsData :=
  mk_wDecimalColumnStatsData (Decimal_canon <$> wDecimalColumnStatsData_LowValue p)
    (Decimal_canon <$> wDecimalColumnStatsData_HighValue p)
    (wDecimalColumnStatsData_NumNulls p)
    (wDecimalColumnStatsData_NumDVs p)
    (wDecimalColumnStatsData_BitVectors p)
    (wDecimalColumnStatsData_Histogram p).

Lemma DecimalColumnStatsData_writes strict d p : (2 <= d)%nat -> 
  writes strict d (DecimalColumnStatsData_Write p) (DecimalColumnStatsData_toks p).
Proof. enter_struct. unfold DecimalColumnStatsData_wire, DecimalColumnStatsData_writeField1, DecimalColumnStatsData_writeField2, DecimalColumnStatsData_writeField3, DecimalColumnStatsData_writeField4, DecimalColumnStatsData_writeField5, DecimalColumnStatsData_writeField6. write_fields. Qed.
Lemma DecimalColumnStatsData_runs d fuel p : (1 <= d)%nat -> (7 <= fuel)%nat -> 
  exists ids, runs d (DecimalColumnStatsData_switch fuel) (concat (DecimalColumnStatsData_wire p)) NewDecimalColumnStatsData (DecimalColumnStatsData_canon p) ids /\ 3 ∈ ids /\ 4 ∈ ids.
Proof.
  intros Hd Hf. unfold DecimalColumnStatsData_wire. eexists.
  split.
  { cbn [concat]. run_opt DecimalColumnStatsData_set_LowValue Decimal_canon.
    run_opt DecimalColumnStatsData_set_HighValue Decimal_canon.
    run_one.
    run_one.
    run_slice_same DecimalColumnStatsData_set_BitVectors.
    run_slice_same DecimalColumnStatsData_set_Histogram.
    run_end. }
  split_and?; set_solver.
Qed.
Lemma DecimalColumnStatsData_reads d fuel p : (2 <= d)%nat -> (7 <= fuel)%nat -> 
  reads d (DecimalColumnStatsData_Read fuel NewDecimalColumnStatsData) (DecimalColumnStatsData_toks (Some p)) (DecimalColumnStatsData_canon p).
Proof. struct_reads DecimalColumnStatsData_runs DecimalColumnStatsData_wire. Qed.
#[local] Hint Resolve DecimalColumnStatsData_writes DecimalColumnStatsData_reads : wire.

(** ** DateColumnStatsData *)

Definition DateColumnStatsData_wire (p : wDateColumnStatsData) : list (list wfield) :=
  [opt_part (wDateColumnStatsData_LowValue p) (fun v => (1, STRUCT, Date_toks (Some v)));
   opt_part (wDateColumnStatsData_HighValue p) (fun v => (2, STRUCT, Date_toks (Some v)));
   [(3, I64, [KI64 (wDateColumnStatsData_NumNulls p)])];
   [(4, I64, [KI64 (wDateColumnStatsData_NumDVs p)])];
   when_part (bool_decide (is_Some (wDateColumnStatsData_BitVectors p))) (5, STRING, [KBinary (elems (wDateColumnStatsData_BitVectors p))]);
   when_part (bool_decide (is_Some (wDateColumnStatsData_Histogram p))) (6, STRING, [KBinary (elems (wDateColumnStatsData_Histogram p))])].
Definition DateColumnStatsData_toks (p : option wDateColumnStatsData) : list tok :=
  struct_toks (match p with Some p => concat (DateColumnStatsData_wire p) | None => [] end).
Definition DateColumnStatsData_canon (p : wDateColumnStatsData) : wDateColumnStatsData :=
  mk_wDateColumnStatsData (Date_canon <$> wDateColumnStatsData_LowValue p)
    (Date_canon <$> wDateColumnStatsData_HighValue p)
    (wDateColumnStatsData_NumNulls p)
    (wDateColumnStatsData_NumDVs p)
    (wDateColumnStatsData_BitVectors p)
    (wDateColumnStatsData_Histogram p).

Lemma DateColumnStatsData_writes strict d p : (2 <= d)%nat -> 
  writes strict d (DateColumnStatsData_Write p) (DateColumnStatsData_toks p).
Proof. enter_struct. unfold DateColumnStatsData_wire, DateColumnStatsData_writeField1, DateColumnStatsData_writeField2, DateColumnStatsData_writeField3, DateColumnStatsData_writeField4, DateColumnStatsData_writeField5, DateColumnStatsData_writeField6. write_fields. Qed.
Lemma DateColumnStatsData_runs d fuel p : (1 <= d)%nat -> (7 <= fuel)%nat -> 
  exists ids, runs d (DateColumnStatsData_switch fuel) (concat (DateColumnStatsData_wire p)) NewDateColumnStatsData (DateColumnStatsData_canon p) ids /\ 3 ∈ ids /\ 4 ∈ ids.
Proof.
  intros Hd Hf. unfold DateColumnStatsData_wire. eexists.
  split.
  { cbn [concat]. run_opt DateColumnStatsData_set_LowValue Date_canon.
    run_opt DateColumnStatsData_set_HighValue Date_canon.
    run_one.
    run_one.
    run_slice_same DateColumnStatsData_set_BitVectors.
    run_slice_same DateColumnStatsData_set_Histogram.
    run_end. }
  split_and?; set_solver.
Qed.
Lemma DateColumnStatsData_reads d fuel p : (2 <= d)%nat -> (7 <= fuel)%nat -> 
  reads d (DateColumnStatsData_Read fuel NewDateColumnStatsData) (DateColumnStatsData_toks (Some p)) (DateColumnStatsData_canon p).
Proof. struct_reads DateColumnStatsData_runs DateColumnStatsData_wire. Qed.
#[local] Hint Resolve DateColumnStatsData_writes DateColumnStatsData_reads : wire.

(** ** TimestampColumnStatsData *)

Definition TimestampColumnStatsData_wire (p : wTimestampColumnStatsData) : list (list wfield) :=
  [opt_part (wTimestampColumnStatsData_LowValue p) (fun v => (1, STRUCT, Timestamp_toks (Some v)));
   opt_part (wTimestampColumnStatsData_HighValue p) (fun v => (2, STRUCT, Timestamp_toks (Some v)));
   [(3, I64, [KI64 (wTimestampColumnStatsData_NumNulls p)])];
   [(4, I64, [KI64 (wTimestampColumnStatsData_NumDVs p)])];
   when_part (bool_decide (is_Some (wTimestampColumnStatsData_BitVectors p))) (5, STRING, [KBinary (elems (wTimestampColumnStatsData_BitVectors p))]);
   when_part (bool_decide (is_Some (wTimestampColumnStatsData_Histogram p))) (6, STRING, [KBinary (elems (wTimestampColumnStatsData_Histogram p))])].
Definition TimestampColumnStatsData_toks (p : option wTimestampColumnStatsData) : list tok :=
  struct_toks (match p with Some p => concat (TimestampColumnStatsData_wire p) | None => [] end).
Definition TimestampColumnStatsData_canon (p : wTimestampColumnStatsData) : wTimestampColumnStatsData :=
  mk_wTimestampColumnStatsData (Timestamp_canon <$> wTimestampColumnStatsData_LowValue p)
    (Timestamp_canon <$> wTimestampColumnStatsData_HighValue p)
    (wTimestampColumnStatsData_NumNulls p)
    (wTimestampColumnStatsData_NumDVs p)
    (wTimestampColumnStatsData_BitVectors p)
    (wTimestampColumnStatsData_Histogram p).

Lemma TimestampColumnStatsData_writes strict d p : (2 <= d)%nat -> 
  writes strict d (TimestampColumnStatsData_Write p) (TimestampColumnStatsData_toks p).
Proof. enter_struct. unfold TimestampColumnStatsData_wire, TimestampColumnStatsData_writeField1, TimestampColumnStatsData_writeField2, TimestampColumnStatsData_writeField3, TimestampColumnStatsData_writeField4, TimestampColumnStatsData_writeField5, TimestampColumnStatsData_writeField6. write_fields. Qed.
Lemma TimestampColumnStatsData_runs d fuel p : (1 <= d)%nat -> (7 <= fuel)%nat -> 
  exists ids, runs d (TimestampColumnStatsData_switch fuel) (concat (TimestampColumnStatsData_wire p)) NewTimestampColumnStatsData (TimestampColumnStatsData_canon p) ids /\ 3 ∈ ids /\ 4 ∈ ids.
Proof.
  intros Hd Hf. unfold TimestampColumnStatsData_wire. eexists.
  split.
  { cbn [concat]. run_opt TimestampColumnStatsData_set_LowValue Timestamp_canon.
    run_opt TimestampColumnStatsData_set_HighValue Timestamp_canon.
    run_one.
    run_one.
    run_slice_same TimestampColumnStatsData_set_BitVectors.
    run_slice_same TimestampColumnStatsData_set_Histogram.
    run_end. }
  split_and?; set_solver.
Qed.
Lemma TimestampColumnStatsData_reads d fuel p : (2 <= d)%nat -> (7 <= fuel)%nat -> 
  reads d (TimestampColumnStatsData_Read fuel NewTimestampColumnStatsData) (TimestampColumnStatsData_toks (Some p)) (TimestampColumnStatsData_canon p).
Proof. struct_reads TimestampColumnStatsData_runs TimestampColumnStatsData_wire. Qed.
#[local] Hint Resolve TimestampColumnStatsData_writes TimestampColumnStatsData_reads : wire.

(** ** ColumnStatisticsData *)

Definition ColumnStatisticsData_wire (p : wColumnStatisticsData) : list (list wfield) :=
  [opt_part (wColumnStatisticsData_BooleanStats p) (fun v => (1, STRUCT, BooleanColumnStatsData_toks (Some v)));
   opt_part (wColumnStatisticsData_LongStats p) (fun v => (2, STRUCT, LongColumnStatsData_toks (Some v)));
   opt_part (wColumnStatisticsData_DoubleStats p) (fun v => (3, STRUCT, DoubleColumnStatsData_toks (Some v)));
   opt_part (wColumnStatisticsData_StringStats p) (fun v => (4, STRUCT, StringColumnStatsData_toks (Some v)));
   opt_part (wColumnStatisticsData_BinaryStats p) (fun v => (5, STRUCT, BinaryColumnStatsData_toks (Some v)));
   opt_part (wColumnStatisticsData_DecimalStats p) (fun v => (6, STRUCT, DecimalColumnStatsData_toks (Some v)));
   opt_part (wColumnStatisticsData_DateStats p) (fun v => (7, STRUCT, DateColumnStatsData_toks (Some v)));
   opt_part (wColumnStatisticsData_TimestampStats p) (fun v => (8, STRUCT, TimestampColumnStatsData_toks (Some v)))].
Definition ColumnStatisticsData_toks (p : option wColumnStatisticsData) : list tok :=
  struct_toks (match p with Some p => concat (ColumnStatisticsData_wire p) | None => [] end).
Definition ColumnStatisticsData_canon (p : wColumnStatisticsData) : wColumnStatisticsData :=
  mk_wColumnStatisticsData (BooleanColumnStatsData_canon <$> wColumnStatisticsData_BooleanStats p)
    (LongColumnStatsData_canon <$> wColumnStatisticsData_LongStats p)
    (DoubleColumnStatsData_canon <$> wColumnStatisticsData_DoubleStats p)
    (StringColumnStatsData_canon <$> wColumnStatisticsData_StringStats p)
    (BinaryColumnStatsData_canon <$> wColumnStatisticsData_BinaryStats p)
    (DecimalColumnStatsData_canon <$> wColumnStatisticsData_DecimalStats p)
    (DateColumnStatsData_canon <$> wColumnStatisticsData_DateStats p)
    (TimestampColumnStatsData_canon <$> wColumnStatisticsData_TimestampStats p).
Definition ColumnStatisticsData_ok (p : wColumnStatisticsData) : Prop :=
  ColumnStatisticsData_CountSetFields (Some p) = 1.

Lemma ColumnStatisticsData_writes strict d p : (3 <= d)%nat -> (strict -> exists v, p = Some v /\ ColumnStatisticsData_ok v) -> 
  writes strict d (ColumnStatisticsData_Write p) (ColumnStatisticsData_toks p).
Proof.
  intros Hd Hv. destruct d as [|d]; [lia|]. destruct p as [p|]; [|apply writes_union_nil; intros Hs;
     by destruct (Hv Hs) as (? & ? & _)].
  assert (strict -> ColumnStatisticsData_ok p) as Hok by (intros Hs;
     by destruct (Hv Hs) as (? & [= <-] & ?)). clear Hv. unfold ColumnStatisticsData_ok in Hok.
  apply writes_union; [intros Hs; specialize (Hok Hs);
     by destruct_and? Hok|]. unfold ColumnStatisticsData_wire, ColumnStatisticsData_writeField1, ColumnStatisticsData_writeField2, ColumnStatisticsData_writeField3, ColumnStatisticsData_writeField4, ColumnStatisticsData_writeField5, ColumnStatisticsData_writeField6, ColumnStatisticsData_writeField7, ColumnStatisticsData_writeField8. write_fields.
Qed.
Lemma ColumnStatisticsData_runs d fuel p : (2 <= d)%nat -> (9 <= fuel)%nat -> 
  exists ids, runs d (ColumnStatisticsData_switch fuel) (concat (ColumnStatisticsData_wire p)) NewColumnStatisticsData (ColumnStatisticsData_canon p) ids.
Proof.
  intros Hd Hf. unfold ColumnStatisticsData_wire. eexists.
  cbn [concat]. run_opt ColumnStatisticsData_set_BooleanStats BooleanColumnStatsData_canon.
  run_opt ColumnStatisticsData_set_LongStats LongColumnStatsData_canon.
  run_opt ColumnStatisticsData_set_DoubleStats DoubleColumnStatsData_canon.
  run_opt ColumnStatisticsData_set_StringStats StringColumnStatsData_canon.
  run_opt ColumnStatisticsData_set_BinaryStats BinaryColumnStatsData_canon.
  run_opt ColumnStatisticsData_set_DecimalStats DecimalColumnStatsData_canon.
  run_opt ColumnStatisticsData_set_DateStats DateColumnStatsData_canon.
  run_opt ColumnStatisticsData_set_TimestampStats TimestampColumnStatsData_canon.
  run_end.
Qed.
Lemma ColumnStatisticsData_reads d fuel p : (3 <= d)%nat -> (9 <= fuel)%nat -> 
  reads d (ColumnStatisticsData_Read fuel NewColumnStatisticsData) (ColumnStatisticsData_toks (Some p)) (ColumnStatisticsData_canon p).
Proof. struct_reads ColumnStatisticsData_runs ColumnStatisticsData_wire. Qed.
#[local] Hint Resolve ColumnStatisticsData_writes ColumnStatisticsData_reads : wire.

(** ** ColumnStatisticsObj *)

Definition ColumnStatisticsObj_wire (p : wColumnStatisticsObj) : list (list wfield) :=
  [[(1, STRING, [KString (wColumnStatisticsObj_ColName p)])];
   [(2, STRING, [KString (wColumnStatisticsObj_ColType p)])];
   [(3, STRUCT, ColumnStatisticsData_toks (wColumnStatisticsObj_StatsData p))]].
Definition ColumnStatisticsObj_toks (p : option wColumnStatisticsObj) : list tok :=
  struct_toks (match p with Some p => concat (ColumnStatisticsObj_wire p) | None => [] end).
Definition ColumnStatisticsObj_canon (p : wColumnStatisticsObj) : wColumnStatisticsObj :=
  mk_wColumnStatisticsObj (wColumnStatisticsObj_ColName p)
    (wColumnStatisticsObj_ColType p)
    (ColumnStatisticsData_canon <$> wColumnStatisticsObj_StatsData p).
Definition ColumnStatisticsObj_ok (p : wColumnStatisticsObj) : Prop :=
  exists v, wColumnStatisticsObj_StatsData p = Some v /\ ColumnStatisticsData_ok v.
Definition ColumnStatisticsObj_full (p : wColumnStatisticsObj) : Prop :=
  exists v, wColumnStatisticsObj_StatsData p = Some v /\ True.

Lemma ColumnStatisticsObj_writes strict d p : (4 <= d)%nat -> (strict -> forall p0, p = Some p0 -> ColumnStatisticsObj_ok p0) -> 
  writes strict d (ColumnStatisticsObj_Write p) (ColumnStatisticsObj_toks p).
Proof. enter_valid ColumnStatisticsObj_ok. unfold ColumnStatisticsObj_wire, ColumnStatisticsObj_writeField1, ColumnStatisticsObj_writeField2, ColumnStatisticsObj_writeField3. write_fields. Qed.
Lemma ColumnStatisticsObj_runs d fuel p : (3 <= d)%nat -> (9 <= fuel)%nat -> ColumnStatisticsObj_full p -> 
  exists ids, runs d (ColumnStatisticsObj_switch fuel) (concat (ColumnStatisticsObj_wire p)) NewColumnStatisticsObj (ColumnStatisticsObj_canon p) ids /\ 1 ∈ ids /\ 2 ∈ ids /\ 3 ∈ ids.
Proof.
  intros Hd Hf Hfull. unfold ColumnStatisticsObj_wire, ColumnStatisticsObj_canon. unfold ColumnStatisticsObj_full in Hfull. destruct_and? Hfull. eexists.
  split.
  { cbn [concat]. run_one.
    run_one.
    run_there ColumnStatisticsData_canon.
    run_end. }
  split_and?; set_solver.
Qed.
Lemma ColumnStatisticsObj_reads d fuel p : (4 <= d)%nat -> (9 <= fuel)%nat -> ColumnStatisticsObj_full p -> 
  reads d (ColumnStatisticsObj_Read fuel NewColumnStatisticsObj) (ColumnStatisticsObj_toks (Some p)) (ColumnStatisticsObj_canon p).
Proof. struct_reads ColumnStatisticsObj_runs ColumnStatisticsObj_wire. Qed.
#[local] Hint Resolve ColumnStatisticsObj_writes ColumnStatisticsObj_reads : wire.

(** ** TableStatsRequest *)

Definition TableStatsRequest_wire (p : wTableStatsRequest) : list (list wfield) :=
  [[(1, STRING, [KString (wTableStatsRequest_DbName p)])];
   [(2, STRING, [KString (wTableStatsRequest_TblName p)])];
   [(3, LIST, strings_toks (wTableStatsRequest_ColNames p))];
   opt_part (wTableStatsRequest_CatName p) (fun v => (4, STRING, [KString v]));
   opt_part (wTableStatsRequest_ValidWriteIdList p) (fun v => (5, STRING, [KString v]));
   when_part (negb (String.eqb (wTableStatsRequest_Engine p) "hive")) (6, STRING, [KString (wTableStatsRequest_Engine p)]);
   when_part (negb (wTableStatsRequest_ID p =? (-1))) (7, I64, [KI64 (wTableStatsRequest_ID p)])].
Definition TableStatsRequest_toks (p : option wTableStatsRequest) : list tok :=
  struct_toks (match p with Some p => concat (TableStatsRequest_wire p) | None => [] end).
Definition TableStatsRequest_canon (p : wTableStatsRequest) : wTableStatsRequest :=
  mk_wTableStatsRequest (wTableStatsRequest_DbName p)
    (wTableStatsRequest_TblName p)
    (own_strings (wTableStatsRequest_ColNames p))
    (wTableStatsRequest_CatName p)
    (wTableStatsRequest_ValidWriteIdList p)
    (wTableStatsRequest_Engine p)
    (wTableStatsRequest_ID p).

Lemma TableStatsRequest_writes strict d p : (1 <= d)%nat -> 
  writes strict d (TableStatsRequest_Write p) (TableStatsRequest_toks p).
Proof. enter_struct. unfold TableStatsRequest_wire, TableStatsRequest_writeField1, TableStatsRequest_writeField2, TableStatsRequest_writeField3, TableStatsRequest_writeField4, TableStatsRequest_writeField5, TableStatsRequest_writeField6, TableStatsRequest_writeField7. write_fields. Qed.
Lemma TableStatsRequest_runs d fuel p : (0 <= d)%nat -> (8 <= fuel)%nat -> 
  exists ids, runs d TableStatsRequest_switch (concat (TableStatsRequest_wire p)) NewTableStatsRequest (TableStatsRequest_canon p) ids /\ 1 ∈ ids /\ 2 ∈ ids /\ 3 ∈ ids.
Proof.
  intros Hd Hf. unfold TableStatsRequest_wire. eexists.
  split.
  { cbn [concat]. run_one.
    run_one.
    run_one.
    run_opt_same TableStatsRequest_set_CatName.
    run_opt_same TableStatsRequest_set_ValidWriteIdList.
    run_when TableStatsRequest_set_Engine (wTableStatsRequest_Engine p) "hive".
    run_when TableStatsRequest_set_ID (wTableStatsRequest_ID p) (-1).
    run_end. }
  split_and?; set_solver.
Qed.
Lemma TableStatsRequest_reads d fuel p : (1 <= d)%nat -> (8 <= fuel)%nat -> 
  reads d (TableStatsRequest_Read fuel NewTableStatsRequest) (TableStatsRequest_toks (Some p)) (TableStatsRequest_canon p).
Proof. struct_reads TableStatsRequest_runs TableStatsRequest_wire. Qed.
#[local] Hint Resolve TableStatsRequest_writes TableStatsRequest_reads : wire.

(** ** TableStatsResult_ *)

Definition TableStatsResult__wire (p : wTableStatsResult_) : list (list wfield) :=
  [[(1, LIST, list_toks STRUCT ColumnStatisticsObj_toks (wTableStatsResult__TableStats p))];
   opt_part (wTableStatsResult__IsStatsCompliant p) (fun v => (2, BOOL, [KBool v]))].
Definition TableStatsResult__toks (p : option wTableStatsResult_) : list tok :=
  struct_toks (match p with Some p => concat (TableStatsResult__wire p) | None => [] end).
Definition TableStatsResult__canon (p : wTableStatsResult_) : wTableStatsResult_ :=
  mk_wTableStatsResult_ (Some (map (fun v => Some (ColumnStatisticsObj_canon (default NewColumnStatisticsObj v))) (elems (wTableStatsResult__TableStats p))))
    (wTableStatsResult__IsStatsCompliant p).
Definition TableStatsResult__ok (p : wTableStatsResult_) : Prop :=
  Forall (fun o => forall v, o = Some v -> ColumnStatisticsObj_ok v) (elems (wTableStatsResult__TableStats p)).
Definition TableStatsResult__full (p : wTableStatsResult_) : Prop :=
  Forall (fun o => exists v, o = Some v /\ ColumnStatisticsObj_full v) (elems (wTableStatsResult__TableStats p)).

Lemma TableStatsResult__writes strict d p : (5 <= d)%nat -> (strict -> forall p0, p = Some p0 -> TableStatsResult__ok p0) -> 
  writes strict d (TableStatsResult__Write p) (TableStatsResult__toks p).
Proof. enter_valid TableStatsResult__ok. unfold TableStatsResult__wire, TableStatsResult__writeField1, TableStatsResult__writeField2. write_fields. Qed.
Lemma TableStatsResult__runs d fuel p : (4 <= d)%nat -> (9 <= fuel)%nat -> TableStatsResult__full p -> 
  exists ids, runs d (TableStatsResult__switch fuel) (concat (TableStatsResult__wire p)) NewTableStatsResult_ (TableStatsResult__canon p) ids /\ 1 ∈ ids.
Proof.
  intros Hd Hf Hfull. unfold TableStatsResult__wire. unfold TableStatsResult__full in Hfull. destruct_and? Hfull. eexists.
  split.
  { cbn [concat]. run_full_in (fun v => Some (ColumnStatisticsObj_canon (default NewColumnStatisticsObj v))).
    run_opt_same TableStatsResult__set_IsStatsCompliant.
    run_end. }
  split_and?; set_solver.
Qed.
Lemma TableStatsResult__reads d fuel p : (5 <= d)%nat -> (9 <= fuel)%nat -> TableStatsResult__full p -> 
  reads d (TableStatsResult__Read fuel NewTableStatsResult_) (TableStatsResult__toks (Some p)) (TableStatsResult__canon p).
Proof. struct_reads TableStatsResult__runs TableStatsResult__wire. Qed.
#[local] Hint Resolve TableStatsResult__writes TableStatsResult__reads : wire.
End facts.

#[export] Hint Resolve Decimal_writes Decimal_reads Date_writes Date_reads Timestamp_writes Timestamp_reads
  BooleanColumnStatsData_writes BooleanColumnStatsData_reads LongColumnStatsData_writes
  LongColumnStatsData_reads DoubleColumnStatsData_writes DoubleColumnStatsData_reads
  StringColumnStatsData_writes StringColumnStatsData_reads BinaryColumnStatsData_writes
  BinaryColumnStatsData_reads DecimalColumnStatsData_writes DecimalColumnStatsData_reads
  DateColumnStatsData_writes DateColumnStatsData_reads TimestampColumnStatsData_writes
  TimestampColumnStatsData_reads ColumnStatisticsData_writes ColumnStatisticsData_reads
  ColumnStatisticsObj_writes ColumnStatisticsObj_reads TableStatsRequest_writes TableStatsRequest_reads
  TableStatsResult__writes TableStatsResult__reads : wire.
