(* ===== verification/CodecReq.v ===== *)
(** * CodecReq: the generated Write and Read of the other requests and answers

    As CodecTable, for the structs the calls on catalogs, tables and partitions send
    and receive, and commit_txn. *)

From S2P Require Import Prelude Errors GoMonad Types Transport Wire Thrift CodecTable.

Record wAlterPartitionsResponse := mk_wAlterPartitionsResponse {}.
Definition NewAlterPartitionsResponse : wAlterPartitionsResponse := mk_wAlterPartitionsResponse.

Record wDropPartitionsResult_ := mk_wDropPartitionsResult_ {
  wDropPartitionsResult__Partitions : slice (option wPartition);
}.
Definition NewDropPartitionsResult_ : wDropPartitionsResult_ := mk_wDropPartitionsResult_ None.

Section codec.
Context {P : Type} {TP : TProtocol P} {MR : MapRange} {SB : Substructs P}.

(** ** GetCatalogRequest *)

Local Abbreviation T_GetCatalogRequest := "*hive_metastore.GetCatalogRequest".
Definition GetCatalogRequest_set_Name v (_ : wGetCatalogRequest) : wGetCatalogRequest := mk_wGetCatalogRequest v.

Definition GetCatalogRequest_writeField1 (p : wGetCatalogRequest) : M P unit :=
  (write_field T_GetCatalogRequest "name" STRING 1 (write_scalar T_GetCatalogRequest "name" 1 (WriteString (wGetCatalogRequest_Name p))))%go.
Definition GetCatalogRequest_ReadField1 : wGetCatalogRequest -> MF P wGetCatalogRequest :=
  assign (read_scalar 1 ReadString)%go GetCatalogRequest_set_Name.
Definition GetCatalogRequest_Write (p : option wGetCatalogRequest) : M P unit :=
  write_struct T_GetCatalogRequest "GetCatalogRequest" ((fun p => [GetCatalogRequest_writeField1 p]) <$> p).
Definition GetCatalogRequest_switch : switch wGetCatalogRequest := fun fieldId =>
  match fieldId with
  | 1 => Some (STRING, GetCatalogRequest_ReadField1)
  | _ => None
  end.
Definition GetCatalogRequest_Read (fuel : nat) : wGetCatalogRequest -> MF P wGetCatalogRequest :=
  read_struct T_GetCatalogRequest [] GetCatalogRequest_switch fuel.

(** ** GetCatalogResponse *)

Local Abbreviation T_GetCatalogResponse := "*hive_metastore.GetCatalogResponse".
Definition GetCatalogResponse_set_Catalog v (_ : wGetCatalogResponse) : wGetCatalogResponse := mk_wGetCatalogResponse v.

Definition GetCatalogResponse_writeField1 (p : wGetCatalogResponse) : M P unit :=
  (opt (wGetCatalogResponse_Catalog p) (fun v =>
    write_field T_GetCatalogResponse "catalog" STRUCT 1 (write_sub "*hive_metastore.Catalog" (Catalog_Write (Some v)))))%go.
Definition GetCatalogResponse_ReadField1 (fuel : nat) : wGetCatalogResponse -> MF P wGetCatalogResponse :=
  assign (read_sub "*hive_metastore.Catalog" (Catalog_Read fuel NewCatalog))%go (fun v => GetCatalogResponse_set_Catalog (Some v)).
Definition GetCatalogResponse_Write (p : option wGetCatalogResponse) : M P unit :=
  write_struct T_GetCatalogResponse "GetCatalogResponse" ((fun p => [GetCatalogResponse_writeField1 p]) <$> p).
Definition GetCatalogResponse_switch (fuel : nat) : switch wGetCatalogResponse := fun fieldId =>
  match fieldId with
  | 1 => Some (STRUCT, GetCatalogResponse_ReadField1 fuel)
  | _ => None
  end.
Definition GetCatalogResponse_Read (fuel : nat) : wGetCatalogResponse -> MF P wGetCatalogResponse :=
  read_struct T_GetCatalogResponse [] (GetCatalogResponse_switch fuel) fuel.

(** ** GetCatalogsResponse *)

Local Abbreviation T_GetCatalogsResponse := "*hive_metastore.GetCatalogsResponse".
Definition GetCatalogsResponse_set_Names v (_ : wGetCatalogsResponse) : wGetCatalogsResponse := mk_wGetCatalogsResponse v.

Definition GetCatalogsResponse_writeField1 (p : wGetCatalogsResponse) : M P unit :=
  (write_field T_GetCatalogsResponse "names" LIST 1 (write_strings T_GetCatalogsResponse (wGetCatalogsResponse_Names p)))%go.
Definition GetCatalogsResponse_ReadField1 : wGetCatalogsResponse -> MF P wGetCatalogsResponse :=
  assign (read_strings)%go GetCatalogsResponse_set_Names.
Definition GetCatalogsResponse_Write (p : option wGetCatalogsResponse) : M P unit :=
  write_struct T_GetCatalogsResponse "GetCatalogsResponse" ((fun p => [GetCatalogsResponse_writeField1 p]) <$> p).
Definition GetCatalogsResponse_switch : switch wGetCatalogsResponse := fun fieldId =>
  match fieldId with
  | 1 => Some (LIST, GetCatalogsResponse_ReadField1)
  | _ => None
  end.
Definition GetCatalogsResponse_Read (fuel : nat) : wGetCatalogsResponse -> MF P wGetCatalogsResponse :=
  read_struct T_GetCatalogsResponse [] GetCatalogsResponse_switch fuel.

(** ** CreateCatalogRequest *)

Local Abbreviation T_CreateCatalogRequest := "*hive_metastore.CreateCatalogRequest".
Definition CreateCatalogRequest_set_Catalog v (_ : wCreateCatalogRequest) : wCreateCatalogRequest := mk_wCreateCatalogRequest v.

Definition CreateCatalogRequest_writeField1 (p : wCreateCatalogRequest) : M P unit :=
  (opt (wCreateCatalogRequest_Catalog p) (fun v =>
    write_field T_CreateCatalogRequest "catalog" STRUCT 1 (write_sub "*hive_metastore.Catalog" (Catalog_Write (Some v)))))%go.
Definition CreateCatalogRequest_ReadField1 (fuel : nat) : wCreateCatalogRequest -> MF P wCreateCatalogRequest :=
  assign (read_sub "*hive_metastore.Catalog" (Catalog_Read fuel NewCatalog))%go (fun v => CreateCatalogRequest_set_Catalog (Some v)).
Definition CreateCatalogRequest_Write (p : option wCreateCatalogRequest) : M P unit :=
  write_struct T_CreateCatalogRequest "CreateCatalogRequest" ((fun p => [CreateCatalogRequest_writeField1 p]) <$> p).
Definition CreateCatalogRequest_switch (fuel : nat) : switch wCreateCatalogRequest := fun fieldId =>
  match fieldId with
  | 1 => Some (STRUCT, CreateCatalogRequest_ReadField1 fuel)
  | _ => None
  end.
Definition CreateCatalogRequest_Read (fuel : nat) : wCreateCatalogRequest -> MF P wCreateCatalogRequest :=
  read_struct T_CreateCatalogRequest [] (CreateCatalogRequest_switch fuel) fuel.

(** ** DropCatalogRequest *)

Local Abbreviation T_DropCatalogRequest := "*hive_metastore.DropCatalogRequest".
Definition DropCatalogRequest_set_Name v '(mk_wDropCatalogRequest _ x2) : wDropCatalogRequest :=
  mk_wDropCatalogRequest v x2.
Definition DropCatalogRequest_set_IfExists v '(mk_wDropCatalogRequest x1 _) : wDropCatalogRequest :=
  mk_wDropCatalogRequest x1 v.

Definition DropCatalogRequest_writeField1 (p : wDropCatalogRequest) : M P unit :=
  (write_field T_DropCatalogRequest "name" STRING 1 (write_scalar T_DropCatalogRequest "name" 1 (WriteString (wDropCatalogRequest_Name p))))%go.
Definition DropCatalogRequest_ReadField1 : wDropCatalogRequest -> MF P wDropCatalogRequest :=
  assign (read_scalar 1 ReadString)%go DropCatalogRequest_set_Name.
Definition DropCatalogRequest_writeField2 (p : wDropCatalogRequest) : M P unit :=
  (when (negb (Bool.eqb (wDropCatalogRequest_IfExists p) true))
    (write_field T_DropCatalogRequest "ifExists" BOOL 2 (write_scalar T_DropCatalogRequest "ifExists" 2 (WriteBool (wDropCatalogRequest_IfExists p)))))%go.
Definition DropCatalogRequest_ReadField2 : wDropCatalogRequest -> MF P wDropCatalogRequest :=
  assign (read_scalar 2 ReadBool)%go DropCatalogRequest_set_IfExists.
Definition DropCatalogRequest_Write (p : option wDropCatalogRequest) : M P unit :=
  write_struct T_DropCatalogRequest "DropCatalogRequest" ((fun p => [DropCatalogRequest_writeField1 p;
     DropCatalogRequest_writeField2 p]) <$> p).
Definition DropCatalogRequest_switch : switch wDropCatalogRequest := fun fieldId =>
  match fieldId with
  | 1 => Some (STRING, DropCatalogRequest_ReadField1)
  | 2 => Some (BOOL, DropCatalogRequest_ReadField2)
  | _ => None
  end.
Definition DropCatalogRequest_Read (fuel : nat) : wDropCatalogRequest -> MF P wDropCatalogRequest :=
  read_struct T_DropCatalogRequest [] DropCatalogRequest_switch fuel.

(** ** GetTableRequest *)

Local Abbreviation T_GetTableRequest := "*hive_metastore.GetTableRequest".
Definition GetTableRequest_set_DbName v '(mk_wGetTableRequest _ x2 x3 x4 x5 x6 x7 x8 x9 x10) : wGetTableRequest :=
  mk_wGetTableRequest v x2 x3 x4 x5 x6 x7 x8 x9 x10.
Definition GetTableRequest_set_TblName v '(mk_wGetTableRequest x1 _ x3 x4 x5 x6 x7 x8 x9 x10) : wGetTableRequest :=
  mk_wGetTableRequest x1 v x3 x4 x5 x6 x7 x8 x9 x10.
Definition GetTableRequest_set_Capabilities v '(mk_wGetTableRequest x1 x2 _ x4 x5 x6 x7 x8 x9 x10) : wGetTableRequest :=
  mk_wGetTableRequest x1 x2 v x4 x5 x6 x7 x8 x9 x10.
Definition GetTableRequest_set_CatName v '(mk_wGetTableRequest x1 x2 x3 _ x5 x6 x7 x8 x9 x10) : wGetTableRequest :=
  mk_wGetTableRequest x1 x2 x3 v x5 x6 x7 x8 x9 x10.
Definition GetTableRequest_set_ValidWriteIdList v '(mk_wGetTableRequest x1 x2 x3 x4 _ x6 x7 x8 x9 x10) : wGetTableRequest :=
  mk_wGetTableRequest x1 x2 x3 x4 v x6 x7 x8 x9 x10.
Definition GetTableRequest_set_GetColumnStats v '(mk_wGetTableRequest x1 x2 x3 x4 x5 _ x7 x8 x9 x10) : wGetTableRequest :=
  mk_wGetTableRequest x1 x2 x3 x4 x5 v x7 x8 x9 x10.
Definition GetTableRequest_set_ProcessorCapabilities v '(mk_wGetTableRequest x1 x2 x3 x4 x5 x6 _ x8 x9 x10) : wGetTableRequest :=
  mk_wGetTableRequest x1 x2 x3 x4 x5 x6 v x8 x9 x10.
Definition GetTableRequest_set_ProcessorIdentifier v '(mk_wGetTableRequest x1 x2 x3 x4 x5 x6 x7 _ x9 x10) : wGetTableRequest :=
  mk_wGetTableRequest x1 x2 x3 x4 x5 x6 x7 v x9 x10.
Definition GetTableRequest_set_Engine v '(mk_wGetTableRequest x1 x2 x3 x4 x5 x6 x7 x8 _ x10) : wGetTableRequest :=
  mk_wGetTableRequest x1 x2 x3 x4 x5 x6 x7 x8 v x10.
Definition GetTableRequest_set_ID v '(mk_wGetTableRequest x1 x2 x3 x4 x5 x6 x7 x8 x9 _) : wGetTableRequest :=
  mk_wGetTableRequest x1 x2 x3 x4 x5 x6 x7 x8 x9 v.

Definition GetTableRequest_writeField1 (p : wGetTableRequest) : M P unit :=
  (write_field T_GetTableRequest "dbName" STRING 1 (write_scalar T_GetTableRequest "dbName" 1 (WriteString (wGetTableRequest_DbName p))))%go.
Definition GetTableRequest_ReadField1 : wGetTableRequest -> MF P wGetTableRequest :=
  assign (read_scalar 1 ReadString)%go GetTableRequest_set_DbName.
Definition GetTableRequest_writeField2 (p : wGetTableRequest) : M P unit :=
  (write_field T_GetTableRequest "tblName" STRING 2 (write_scalar T_GetTableRequest "tblName" 2 (WriteString (wGetTableRequest_TblName p))))%go.
Definition GetTableRequest_ReadField2 : wGetTableRequest -> MF P wGetTableRequest :=
  assign (read_scalar 2 ReadString)%go GetTableRequest_set_TblName.
Definition GetTableRequest_writeField3 (p : wGetTableRequest) : M P unit :=
  (opt (wGetTableRequest_Capabilities p) (fun v =>
    write_field T_GetTableRequest "capabilities" STRUCT 3 (write_sub "*hive_metastore.ClientCapabilities" (sub_Write "ClientCapabilities" (Some v)))))%go.
Definition GetTableRequest_ReadField3 (fuel : nat) : wGetTableRequest -> MF P wGetTableRequest :=
  assign (read_sub "*hive_metastore.ClientCapabilities" (sub_Read "ClientCapabilities" fuel))%go (fun v => GetTableRequest_set_Capabilities (Some v)).
Definition GetTableRequest_writeField4 (p : wGetTableRequest) : M P unit :=
  (opt (wGetTableRequest_CatName p) (fun v =>
    write_field T_GetTableRequest "catName" STRING 4 (write_scalar T_GetTableRequest "catName" 4 (WriteString v))))%go.
Definition GetTableRequest_ReadField4 : wGetTableRequest -> MF P wGetTableRequest :=
  assign (read_scalar 4 ReadString)%go (fun v => GetTableRequest_set_CatName (Some v)).
Definition GetTableRequest_writeField6 (p : wGetTableRequest) : M P unit :=
  (opt (wGetTableRequest_ValidWriteIdList p) (fun v =>
    write_field T_GetTableRequest "validWriteIdList" STRING 6 (write_scalar T_GetTableRequest "validWriteIdList" 6 (WriteString v))))%go.
Definition GetTableRequest_ReadField6 : wGetTableRequest -> MF P wGetTableRequest :=
  assign (read_scalar 6 ReadString)%go (fun v => GetTableRequest_set_ValidWriteIdList (Some v)).
Definition GetTableRequest_writeField7 (p : wGetTableRequest) : M P unit :=
  (opt (wGetTableRequest_GetColumnStats p) (fun v =>
    write_field T_GetTableRequest "getColumnStats" BOOL 7 (write_scalar T_GetTableRequest "getColumnStats" 7 (WriteBool v))))%go.
Definition GetTableRequest_ReadField7 : wGetTableRequest -> MF P wGetTableRequest :=
  assign (read_scalar 7 ReadBool)%go (fun v => GetTableRequest_set_GetColumnStats (Some v)).
Definition GetTableRequest_writeField8 (p : wGetTableRequest) : M P unit :=
  (when (bool_decide (is_Some (wGetTableRequest_ProcessorCapabilities p)))
    (write_field T_GetTableRequest "processorCapabilities" LIST 8 (write_strings T_GetTableRequest (wGetTableRequest_ProcessorCapabilities p))))%go.
Definition GetTableRequest_ReadField8 : wGetTableRequest -> MF P wGetTableRequest :=
  assign (read_strings)%go GetTableRequest_set_ProcessorCapabilities.
Definition GetTableRequest_writeField9 (p : wGetTableRequest) : M P unit :=
  (opt (wGetTableRequest_ProcessorIdentifier p) (fun v =>
    write_field T_GetTableRequest "processorIdentifier" STRING 9 (write_scalar T_GetTableRequest "processorIdentifier" 9 (WriteString v))))%go.
Definition GetTableRequest_ReadField9 : wGetTableRequest -> MF P wGetTableRequest :=
  assign (read_scalar 9 ReadString)%go (fun v => GetTableRequest_set_ProcessorIdentifier (Some v)).
Definition GetTableRequest_writeField10 (p : wGetTableRequest) : M P unit :=
  (when (negb (String.eqb (wGetTableRequest_Engine p) "hive"))
    (write_field T_GetTableRequest "engine" STRING 10 (write_scalar T_GetTableRequest "engine" 10 (WriteString (wGetTableRequest_Engine p)))))%go.
Definition GetTableRequest_ReadField10 : wGetTableRequest -> MF P wGetTableRequest :=
  assign (read_scalar 10 ReadString)%go GetTableRequest_set_Engine.
Definition GetTableRequest_writeField11 (p : wGetTableRequest) : M P unit :=
  (when (negb (wGetTableRequest_ID p =? (-1)))
    (write_field T_GetTableRequest "id" I64 11 (write_scalar T_GetTableRequest "id" 11 (WriteI64 (wGetTableRequest_ID p)))))%go.
Definition GetTableRequest_ReadField11 : wGetTableRequest -> MF P wGetTableRequest :=
  assign (read_scalar 11 ReadI64)%go GetTableRequest_set_ID.
Definition GetTableRequest_Write (p : option wGetTableRequest) : M P unit :=
  write_struct T_GetTableRequest "GetTableRequest" ((fun p => [GetTableRequest_writeField1 p;
     GetTableRequest_writeField2 p; GetTableRequest_writeField3 p; GetTableRequest_writeField4 p;
     GetTableRequest_writeField6 p; GetTableRequest_writeField7 p; GetTableRequest_writeField8 p;
     GetTableRequest_writeField9 p; GetTableRequest_writeField10 p; GetTableRequest_writeField11 p]) <$> p).
Definition GetTableRequest_switch (fuel : nat) : switch wGetTableRequest := fun fieldId =>
  match fieldId with
  | 1 => Some (STRING, GetTableRequest_ReadField1)
  | 2 => Some (STRING, GetTableRequest_ReadField2)
  | 3 => Some (STRUCT, GetTableRequest_ReadField3 fuel)
  | 4 => Some (STRING, GetTableRequest_ReadField4)
  | 6 => Some (STRING, GetTableRequest_ReadField6)
  | 7 => Some (BOOL, GetTableRequest_ReadField7)
  | 8 => Some (LIST, GetTableRequest_ReadField8)
  | 9 => Some (STRING, GetTableRequest_ReadField9)
  | 10 => Some (STRING, GetTableRequest_ReadField10)
  | 11 => Some (I64, GetTableRequest_ReadField11)
  | _ => None
  end.
Definition GetTableRequest_Read (fuel : nat) : wGetTableRequest -> MF P wGetTableRequest :=
  read_struct T_GetTableRequest [(1, "DbName"); (2, "TblName")] (GetTableRequest_switch fuel) fuel.

(** ** GetTableResult_ *)

Local Abbreviation T_GetTableResult_ := "*hive_metastore.GetTableResult_".
Definition GetTableResult__set_Table v '(mk_wGetTableResult_ _ x2) : wGetTableResult_ :=
  mk_wGetTableResult_ v x2.
Definition GetTableResult__set_IsStatsCompliant v '(mk_wGetTableResult_ x1 _) : wGetTableResult_ :=
  mk_wGetTableResult_ x1 v.

Definition GetTableResult__writeField1 (p : wGetTableResult_) : M P unit :=
  (write_field T_GetTableResult_ "table" STRUCT 1 (write_sub "*hive_metastore.Table" (Table_Write (wGetTableResult__Table p))))%go.
Definition GetTableResult__ReadField1 (fuel : nat) : wGetTableResult_ -> MF P wGetTableResult_ :=
  assign (read_sub "*hive_metastore.Table" (Table_Read fuel NewTable))%go (fun v => GetTableResult__set_Table (Some v)).
Definition GetTableResult__writeField2 (p : wGetTableResult_) : M P unit :=
  (opt (wGetTableResult__IsStatsCompliant p) (fun v =>
    write_field T_GetTableResult_ "isStatsCompliant" BOOL 2 (write_scalar T_GetTableResult_ "isStatsCompliant" 2 (WriteBool v))))%go.
Definition GetTableResult__ReadField2 : wGetTableResult_ -> MF P wGetTableResult_ :=
  assign (read_scalar 2 ReadBool)%go (fun v => GetTableResult__set_IsStatsCompliant (Some v)).
Definition GetTableResult__Write (p : option wGetTableResult_) : M P unit :=
  write_struct T_GetTableResult_ "GetTableResult" ((fun p => [GetTableResult__writeField1 p;
     GetTableResult__writeField2 p]) <$> p).
Definition GetTableResult__switch (fuel : nat) : switch wGetTableResult_ := fun fieldId =>
  match fieldId with
  | 1 => Some (STRUCT, GetTableResult__ReadField1 fuel)
  | 2 => Some (BOOL, GetTableResult__ReadField2)
  | _ => None
  end.
Definition GetTableResult__Read (fuel : nat) : wGetTableResult_ -> MF P wGetTableResult_ :=
  read_struct T_GetTableResult_ [(1, "Table")] (GetTableResult__switch fuel) fuel.

(** ** GetTablesRequest *)

Local Abbreviation T_GetTablesRequest := "*hive_metastore.GetTablesRequest".
Definition GetTablesRequest_set_DbName v '(mk_wGetTablesRequest _ x2 x3 x4 x5 x6 x7 x8) : wGetTablesRequest :=
  mk_wGetTablesRequest v x2 x3 x4 x5 x6 x7 x8.
Definition GetTablesRequest_set_TblNames v '(mk_wGetTablesRequest x1 _ x3 x4 x5 x6 x7 x8) : wGetTablesRequest :=
  mk_wGetTablesRequest x1 v x3 x4 x5 x6 x7 x8.
Definition GetTablesRequest_set_Capabilities v '(mk_wGetTablesRequest x1 x2 _ x4 x5 x6 x7 x8) : wGetTablesRequest :=
  mk_wGetTablesRequest x1 x2 v x4 x5 x6 x7 x8.
Definition GetTablesRequest_set_CatName v '(mk_wGetTablesRequest x1 x2 x3 _ x5 x6 x7 x8) : wGetTablesRequest :=
  mk_wGetTablesRequest x1 x2 x3 v x5 x6 x7 x8.
Definition GetTablesRequest_set_ProcessorCapabilities v '(mk_wGetTablesRequest x1 x2 x3 x4 _ x6 x7 x8) : wGetTablesRequest :=
  mk_wGetTablesRequest x1 x2 x3 x4 v x6 x7 x8.
Definition GetTablesRequest_set_ProcessorIdentifier v '(mk_wGetTablesRequest x1 x2 x3 x4 x5 _ x7 x8) : wGetTablesRequest :=
  mk_wGetTablesRequest x1 x2 x3 x4 x5 v x7 x8.
Definition GetTablesRequest_set_ProjectionSpec v '(mk_wGetTablesRequest x1 x2 x3 x4 x5 x6 _ x8) : wGetTablesRequest :=
  mk_wGetTablesRequest x1 x2 x3 x4 x5 x6 v x8.
Definition GetTablesRequest_set_TablesPattern v '(mk_wGetTablesRequest x1 x2 x3 x4 x5 x6 x7 _) : wGetTablesRequest :=
  mk_wGetTablesRequest x1 x2 x3 x4 x5 x6 x7 v.

Definition GetTablesRequest_writeField1 (p : wGetTablesRequest) : M P unit :=
  (write_field T_GetTablesRequest "dbName" STRING 1 (write_scalar T_GetTablesRequest "dbName" 1 (WriteString (wGetTablesRequest_DbName p))))%go.
Definition GetTablesRequest_ReadField1 : wGetTablesRequest -> MF P wGetTablesRequest :=
  assign (read_scalar 1 ReadString)%go GetTablesRequest_set_DbName.
Definition GetTablesRequest_writeField2 (p : wGetTablesRequest) : M P unit :=
  (when (bool_decide (is_Some (wGetTablesRequest_TblNames p)))
    (write_field T_GetTablesRequest "tblNames" LIST 2 (write_strings T_GetTablesRequest (wGetTablesRequest_TblNames p))))%go.
Definition GetTablesRequest_ReadField2 : wGetTablesRequest -> MF P wGetTablesRequest :=
  assign (read_strings)%go GetTablesRequest_set_TblNames.
Definition GetTablesRequest_writeField3 (p : wGetTablesRequest) : M P unit :=
  (opt (wGetTablesRequest_Capabilities p) (fun v =>
    write_field T_GetTablesRequest "capabilities" STRUCT 3 (write_sub "*hive_metastore.ClientCapabilities" (sub_Write "ClientCapabilities" (Some v)))))%go.
Definition GetTablesRequest_ReadField3 (fuel : nat) : wGetTablesRequest -> MF P wGetTablesRequest :=
  assign (read_sub "*hive_metastore.ClientCapabilities" (sub_Read "ClientCapabilities" fuel))%go (fun v => GetTablesRequest_set_Capabilities (Some v)).
Definition GetTablesRequest_writeField4 (p : wGetTablesRequest) : M P unit :=
  (opt (wGetTablesRequest_CatName p) (fun v =>
    write_field T_GetTablesRequest "catName" STRING 4 (write_scalar T_GetTablesRequest "catName" 4 (WriteString v))))%go.
Definition GetTablesRequest_ReadField4 : wGetTablesRequest -> MF P wGetTablesRequest :=
  assign (read_scalar 4 ReadString)%go (fun v => GetTablesRequest_set_CatName (Some v)).
Definition GetTablesRequest_writeField5 (p : wGetTablesRequest) : M P unit :=
  (when (bool_decide (is_Some (wGetTablesRequest_ProcessorCapabilities p)))
    (write_field T_GetTablesRequest "processorCapabilities" LIST 5 (write_strings T_GetTablesRequest (wGetTablesRequest_ProcessorCapabilities p))))%go.
Definition GetTablesRequest_ReadField5 : wGetTablesRequest -> MF P wGetTablesRequest :=
  assign (read_strings)%go GetTablesRequest_set_ProcessorCapabilities.
Definition GetTablesRequest_writeField6 (p : wGetTablesRequest) : M P unit :=
  (opt (wGetTablesRequest_ProcessorIdentifier p) (fun v =>
    write_field T_GetTablesRequest "processorIdentifier" STRING 6 (write_scalar T_GetTablesRequest "processorIdentifier" 6 (WriteString v))))%go.
Definition GetTablesRequest_ReadField6 : wGetTablesRequest -> MF P wGetTablesRequest :=
  assign (read_scalar 6 ReadString)%go (fun v => GetTablesRequest_set_ProcessorIdentifier (Some v)).
Definition GetTablesRequest_writeField7 (p : wGetTablesRequest) : M P unit :=
  (opt (wGetTablesRequest_ProjectionSpec p) (fun v =>
    write_field T_GetTablesRequest "projectionSpec" STRUCT 7 (write_sub "*hive_metastore.GetProjectionsSpec" (sub_Write "GetProjectionsSpec" (Some v)))))%go.
Definition GetTablesRequest_ReadField7 (fuel : nat) : wGetTablesRequest -> MF P wGetTablesRequest :=
  assign (read_sub "*hive_metastore.GetProjectionsSpec" (sub_Read "GetProjectionsSpec" fuel))%go (fun v => GetTablesRequest_set_ProjectionSpec (Some v)).
Definition GetTablesRequest_writeField8 (p : wGetTablesRequest) : M P unit :=
  (opt (wGetTablesRequest_TablesPattern p) (fun v =>
    write_field T_GetTablesRequest "tablesPattern" STRING 8 (write_scalar T_GetTablesRequest "tablesPattern" 8 (WriteString v))))%go.
Definition GetTablesRequest_ReadField8 : wGetTablesRequest -> MF P wGetTablesRequest :=
  assign (read_scalar 8 ReadString)%go (fun v => GetTablesRequest_set_TablesPattern (Some v)).
Definition GetTablesRequest_Write (p : option wGetTablesRequest) : M P unit :=
  write_struct T_GetTablesRequest "GetTablesRequest" ((fun p => [GetTablesRequest_writeField1 p;
     GetTablesRequest_writeField2 p; GetTablesRequest_writeField3 p; GetTablesRequest_writeField4 p;
     GetTablesRequest_writeField5 p; GetTablesRequest_writeField6 p; GetTablesRequest_writeField7 p;
     GetTablesRequest_writeField8 p]) <$> p).
Definition GetTablesRequest_switch (fuel : nat) : switch wGetTablesRequest := fun fieldId =>
  match fieldId with
  | 1 => Some (STRING, GetTablesRequest_ReadField1)
  | 2 => Some (LIST, GetTablesRequest_ReadField2)
  | 3 => Some (STRUCT, GetTablesRequest_ReadField3 fuel)
  | 4 => Some (STRING, GetTablesRequest_ReadField4)
  | 5 => Some (LIST, GetTablesRequest_ReadField5)
  | 6 => Some (STRING, GetTablesRequest_ReadField6)
  | 7 => Some (STRUCT, GetTablesRequest_ReadField7 fuel)
  | 8 => Some (STRING, GetTablesRequest_ReadField8)
  | _ => None
  end.
Definition GetTablesRequest_Read (fuel : nat) : wGetTablesRequest -> MF P wGetTablesRequest :=
  read_struct T_GetTablesRequest [(1, "DbName")] (GetTablesRequest_switch fuel) fuel.

(** ** GetTablesResult_ *)

Local Abbreviation T_GetTablesResult_ := "*hive_metastore.GetTablesResult_".
Definition GetTablesResult__set_Tables v (_ : wGetTablesResult_) : wGetTablesResult_ := mk_wGetTablesResult_ v.

Definition GetTablesResult__writeField1 (p : wGetTablesResult_) : M P unit :=
  (write_field T_GetTablesResult_ "tables" LIST 1 (write_list STRUCT (fun v => write_sub "*hive_metastore.Table" (Table_Write v)) (wGetTablesResult__Tables p)))%go.
Definition GetTablesResult__ReadField1 (fuel : nat) : wGetTablesResult_ -> MF P wGetTablesResult_ :=
  assign (read_list (v <-- read_sub "*hive_metastore.Table" (Table_Read fuel NewTable);;
     liftF (ret (Some v))))%go GetTablesResult__set_Tables.
Definition GetTablesResult__Write (p : option wGetTablesResult_) : M P unit :=
  write_struct T_GetTablesResult_ "GetTablesResult" ((fun p => [GetTablesResult__writeField1 p]) <$> p).
Definition GetTablesResult__switch (fuel : nat) : switch wGetTablesResult_ := fun fieldId =>
  match fieldId with
  | 1 => Some (LIST, GetTablesResult__ReadField1 fuel)
  | _ => None
  end.
Definition GetTablesResult__Read (fuel : nat) : wGetTablesResult_ -> MF P wGetTablesResult_ :=
  read_struct T_GetTablesResult_ [(1, "Tables")] (GetTablesResult__switch fuel) fuel.

(** ** PartitionsRequest *)

Local Abbreviation T_PartitionsRequest := "*hive_metastore.PartitionsRequest".
Definition PartitionsRequest_set_CatName v '(mk_wPartitionsRequest _ x2 x3 x4 x5 x6 x7 x8 x9) : wPartitionsRequest :=
  mk_wPartitionsRequest v x2 x3 x4 x5 x6 x7 x8 x9.
Definition PartitionsRequest_set_DbName v '(mk_wPartitionsRequest x1 _ x3 x4 x5 x6 x7 x8 x9) : wPartitionsRequest :=
  mk_wPartitionsRequest x1 v x3 x4 x5 x6 x7 x8 x9.
Definition PartitionsRequest_set_TblName v '(mk_wPartitionsRequest x1 x2 _ x4 x5 x6 x7 x8 x9) : wPartitionsRequest :=
  mk_wPartitionsRequest x1 x2 v x4 x5 x6 x7 x8 x9.
Definition PartitionsRequest_set_MaxParts v '(mk_wPartitionsRequest x1 x2 x3 _ x5 x6 x7 x8 x9) : wPartitionsRequest :=
  mk_wPartitionsRequest x1 x2 x3 v x5 x6 x7 x8 x9.
Definition PartitionsRequest_set_ValidWriteIdList v '(mk_wPartitionsRequest x1 x2 x3 x4 _ x6 x7 x8 x9) : wPartitionsRequest :=
  mk_wPartitionsRequest x1 x2 x3 x4 v x6 x7 x8 x9.
Definition PartitionsRequest_set_ID v '(mk_wPartitionsRequest x1 x2 x3 x4 x5 _ x7 x8 x9) : wPartitionsRequest :=
  mk_wPartitionsRequest x1 x2 x3 x4 x5 v x7 x8 x9.
Definition PartitionsRequest_set_SkipColumnSchemaForPartition v '(mk_wPartitionsRequest x1 x2 x3 x4 x5 x6 _ x8 x9) : wPartitionsRequest :=
  mk_wPartitionsRequest x1 x2 x3 x4 x5 x6 v x8 x9.
Definition PartitionsRequest_set_IncludeParamKeyPattern v '(mk_wPartitionsRequest x1 x2 x3 x4 x5 x6 x7 _ x9) : wPartitionsRequest :=
  mk_wPartitionsRequest x1 x2 x3 x4 x5 x6 x7 v x9.
Definition PartitionsRequest_set_ExcludeParamKeyPattern v '(mk_wPartitionsRequest x1 x2 x3 x4 x5 x6 x7 x8 _) : wPartitionsRequest :=
  mk_wPartitionsRequest x1 x2 x3 x4 x5 x6 x7 x8 v.

Definition PartitionsRequest_writeField1 (p : wPartitionsRequest) : M P unit :=
  (opt (wPartitionsRequest_CatName p) (fun v =>
    write_field T_PartitionsRequest "catName" STRING 1 (write_scalar T_PartitionsRequest "catName" 1 (WriteString v))))%go.
Definition PartitionsRequest_ReadField1 : wPartitionsRequest -> MF P wPartitionsRequest :=
  assign (read_scalar 1 ReadString)%go (fun v => PartitionsRequest_set_CatName (Some v)).
Definition PartitionsRequest_writeField2 (p : wPartitionsRequest) : M P unit :=
  (write_field T_PartitionsRequest "dbName" STRING 2 (write_scalar T_PartitionsRequest "dbName" 2 (WriteString (wPartitionsRequest_DbName p))))%go.
Definition PartitionsRequest_ReadField2 : wPartitionsRequest -> MF P wPartitionsRequest :=
  assign (read_scalar 2 ReadString)%go PartitionsRequest_set_DbName.
Definition PartitionsRequest_writeField3 (p : wPartitionsRequest) : M P unit :=
  (write_field T_PartitionsRequest "tblName" STRING 3 (write_scalar T_PartitionsRequest "tblName" 3 (WriteString (wPartitionsRequest_TblName p))))%go.
Definition PartitionsRequest_ReadField3 : wPartitionsRequest -> MF P wPartitionsRequest :=
  assign (read_scalar 3 ReadString)%go PartitionsRequest_set_TblName.
Definition PartitionsRequest_writeField4 (p : wPartitionsRequest) : M P unit :=
  (when (negb (wPartitionsRequest_MaxParts p =? (-1)))
    (write_field T_PartitionsRequest "maxParts" I16 4 (write_scalar T_PartitionsRequest "maxParts" 4 (WriteI16 (wPartitionsRequest_MaxParts p)))))%go.
Definition PartitionsRequest_ReadField4 : wPartitionsRequest -> MF P wPartitionsRequest :=
  assign (read_scalar 4 ReadI16)%go PartitionsRequest_set_MaxParts.
Definition PartitionsRequest_writeField5 (p : wPartitionsRequest) : M P unit :=
  (opt (wPartitionsRequest_ValidWriteIdList p) (fun v =>
    write_field T_PartitionsRequest "validWriteIdList" STRING 5 (write_scalar T_PartitionsRequest "validWriteIdList" 5 (WriteString v))))%go.
Definition PartitionsRequest_ReadField5 : wPartitionsRequest -> MF P wPartitionsRequest :=
  assign (read_scalar 5 ReadString)%go (fun v => PartitionsRequest_set_ValidWriteIdList (Some v)).
Definition PartitionsRequest_writeField6 (p : wPartitionsRequest) : M P unit :=
  (when (negb (wPartitionsRequest_ID p =? (-1)))
    (write_field T_PartitionsRequest "id" I64 6 (write_scalar T_PartitionsRequest "id" 6 (WriteI64 (wPartitionsRequest_ID p)))))%go.
Definition PartitionsRequest_ReadField6 : wPartitionsRequest -> MF P wPartitionsRequest :=
  assign (read_scalar 6 ReadI64)%go PartitionsRequest_set_ID.
Definition PartitionsRequest_writeField7 (p : wPartitionsRequest) : M P unit :=
  (opt (wPartitionsRequest_SkipColumnSchemaForPartition p) (fun v =>
    write_field T_PartitionsRequest "skipColumnSchemaForPartition" BOOL 7 (write_scalar T_PartitionsRequest "skipColumnSchemaForPartition" 7 (WriteBool v))))%go.
Definition PartitionsRequest_ReadField7 : wPartitionsRequest -> MF P wPartitionsRequest :=
  assign (read_scalar 7 ReadBool)%go (fun v => PartitionsRequest_set_SkipColumnSchemaForPartition (Some v)).
Definition PartitionsRequest_writeField8 (p : wPartitionsRequest) : M P unit :=
  (opt (wPartitionsRequest_IncludeParamKeyPattern p) (fun v =>
    write_field T_PartitionsRequest "includeParamKeyPattern" STRING 8 (write_scalar T_PartitionsRequest "includeParamKeyPattern" 8 (WriteString v))))%go.
Definition PartitionsRequest_ReadField8 : wPartitionsRequest -> MF P wPartitionsRequest :=
  assign (read_scalar 8 ReadString)%go (fun v => PartitionsRequest_set_IncludeParamKeyPattern (Some v)).
Definition PartitionsRequest_writeField9 (p : wPartitionsRequest) : M P unit :=
  (opt (wPartitionsRequest_ExcludeParamKeyPattern p) (fun v =>
    write_field T_PartitionsRequest "excludeParamKeyPattern" STRING 9 (write_scalar T_PartitionsRequest "excludeParamKeyPattern" 9 (WriteString v))))%go.
Definition PartitionsRequest_ReadField9 : wPartitionsRequest -> MF P wPartitionsRequest :=
  assign (read_scalar 9 ReadString)%go (fun v => PartitionsRequest_set_ExcludeParamKeyPattern (Some v)).
Definition PartitionsRequest_Write (p : option wPartitionsRequest) : M P unit :=
  write_struct T_PartitionsRequest "PartitionsRequest" ((fun p => [PartitionsRequest_writeField1 p;
     PartitionsRequest_writeField2 p; PartitionsRequest_writeField3 p; PartitionsRequest_writeField4 p;
     PartitionsRequest_writeField5 p; PartitionsRequest_writeField6 p; PartitionsRequest_writeField7 p;
     PartitionsRequest_writeField8 p; PartitionsRequest_writeField9 p]) <$> p).
Definition PartitionsRequest_switch : switch wPartitionsRequest := fun fieldId =>
  match fieldId with
  | 1 => Some (STRING, PartitionsRequest_ReadField1)
  | 2 => Some (STRING, PartitionsRequest_ReadField2)
  | 3 => Some (STRING, PartitionsRequest_ReadField3)
  | 4 => Some (I16, PartitionsRequest_ReadField4)
  | 5 => Some (STRING, PartitionsRequest_ReadField5)
  | 6 => Some (I64, PartitionsRequest_ReadField6)
  | 7 => Some (BOOL, PartitionsRequest_ReadField7)
  | 8 => Some (STRING, PartitionsRequest_ReadField8)
  | 9 => Some (STRING, PartitionsRequest_ReadField9)
  | _ => None
  end.
Definition PartitionsRequest_Read (fuel : nat) : wPartitionsRequest -> MF P wPartitionsRequest :=
  read_struct T_PartitionsRequest [(2, "DbName"); (3, "TblName")] PartitionsRequest_switch fuel.

(** ** PartitionsResponse *)

Local Abbreviation T_PartitionsResponse := "*hive_metastore.PartitionsResponse".
Definition PartitionsResponse_set_Partitions v (_ : wPartitionsResponse) : wPartitionsResponse := mk_wPartitionsResponse v.

Definition PartitionsResponse_writeField1 (p : wPartitionsResponse) : M P unit :=
  (write_field T_PartitionsResponse "partitions" LIST 1 (write_list STRUCT (fun v => write_sub "*hive_metastore.Partition" (Partition_Write v)) (wPartitionsResponse_Partitions p)))%go.
Definition PartitionsResponse_ReadField1 (fuel : nat) : wPartitionsResponse -> MF P wPartitionsResponse :=
  assign (read_list (v <-- read_sub "*hive_metastore.Partition" (Partition_Read fuel NewPartition);;
     liftF (ret (Some v))))%go PartitionsResponse_set_Partitions.
Definition PartitionsResponse_Write (p : option wPartitionsResponse) : M P unit :=
  write_struct T_PartitionsResponse "PartitionsResponse" ((fun p => [PartitionsResponse_writeField1 p]) <$> p).
Definition PartitionsResponse_switch (fuel : nat) : switch wPartitionsResponse := fun fieldId =>
  match fieldId with
  | 1 => Some (LIST, PartitionsResponse_ReadField1 fuel)
  | _ => None
  end.
Definition PartitionsResponse_Read (fuel : nat) : wPartitionsResponse -> MF P wPartitionsResponse :=
  read_struct T_PartitionsResponse [(1, "Partitions")] (PartitionsResponse_switch fuel) fuel.

(** ** AddPartitionsRequest *)

Local Abbreviation T_AddPartitionsRequest := "*hive_metastore.AddPartitionsRequest".
Definition AddPartitionsRequest_set_DbName v '(mk_wAddPartitionsRequest _ x2 x3 x4 x5 x6 x7 x8 x9 x10) : wAddPartitionsRequest :=
  mk_wAddPartitionsRequest v x2 x3 x4 x5 x6 x7 x8 x9 x10.
Definition AddPartitionsRequest_set_TblName v '(mk_wAddPartitionsRequest x1 _ x3 x4 x5 x6 x7 x8 x9 x10) : wAddPartitionsRequest :=
  mk_wAddPartitionsRequest x1 v x3 x4 x5 x6 x7 x8 x9 x10.
Definition AddPartitionsRequest_set_Parts v '(mk_wAddPartitionsRequest x1 x2 _ x4 x5 x6 x7 x8 x9 x10) : wAddPartitionsRequest :=
  mk_wAddPartitionsRequest x1 x2 v x4 x5 x6 x7 x8 x9 x10.
Definition AddPartitionsRequest_set_IfNotExists v '(mk_wAddPartitionsRequest x1 x2 x3 _ x5 x6 x7 x8 x9 x10) : wAddPartitionsRequest :=
  mk_wAddPartitionsRequest x1 x2 x3 v x5 x6 x7 x8 x9 x10.
Definition AddPartitionsRequest_set_NeedResult_ v '(mk_wAddPartitionsRequest x1 x2 x3 x4 _ x6 x7 x8 x9 x10) : wAddPartitionsRequest :=
  mk_wAddPartitionsRequest x1 x2 x3 x4 v x6 x7 x8 x9 x10.
Definition AddPartitionsRequest_set_CatName v '(mk_wAddPartitionsRequest x1 x2 x3 x4 x5 _ x7 x8 x9 x10) : wAddPartitionsRequest :=
  mk_wAddPartitionsRequest x1 x2 x3 x4 x5 v x7 x8 x9 x10.
Definition AddPartitionsRequest_set_ValidWriteIdList v '(mk_wAddPartitionsRequest x1 x2 x3 x4 x5 x6 _ x8 x9 x10) : wAddPartitionsRequest :=
  mk_wAddPartitionsRequest x1 x2 x3 x4 x5 x6 v x8 x9 x10.
Definition AddPartitionsRequest_set_SkipColumnSchemaForPartition v '(mk_wAddPartitionsRequest x1 x2 x3 x4 x5 x6 x7 _ x9 x10) : wAddPartitionsRequest :=
  mk_wAddPartitionsRequest x1 x2 x3 x4 x5 x6 x7 v x9 x10.
Definition AddPartitionsRequest_set_PartitionColSchema v '(mk_wAddPartitionsRequest x1 x2 x3 x4 x5 x6 x7 x8 _ x10) : wAddPartitionsRequest :=
  mk_wAddPartitionsRequest x1 x2 x3 x4 x5 x6 x7 x8 v x10.
Definition AddPartitionsRequest_set_EnvironmentContext v '(mk_wAddPartitionsRequest x1 x2 x3 x4 x5 x6 x7 x8 x9 _) : wAddPartitionsRequest :=
  mk_wAddPartitionsRequest x1 x2 x3 x4 x5 x6 x7 x8 x9 v.

Definition AddPartitionsRequest_writeField1 (p : wAddPartitionsRequest) : M P unit :=
  (write_field T_AddPartitionsRequest "dbName" STRING 1 (write_scalar T_AddPartitionsRequest "dbName" 1 (WriteString (wAddPartitionsRequest_DbName p))))%go.
Definition AddPartitionsRequest_ReadField1 : wAddPartitionsRequest -> MF P wAddPartitionsRequest :=
  assign (read_scalar 1 ReadString)%go AddPartitionsRequest_set_DbName.
Definition AddPartitionsRequest_writeField2 (p : wAddPartitionsRequest) : M P unit :=
  (write_field T_AddPartitionsRequest "tblName" STRING 2 (write_scalar T_AddPartitionsRequest "tblName" 2 (WriteString (wAddPartitionsRequest_TblName p))))%go.
Definition AddPartitionsRequest_ReadField2 : wAddPartitionsRequest -> MF P wAddPartitionsRequest :=
  assign (read_scalar 2 ReadString)%go AddPartitionsRequest_set_TblName.
Definition AddPartitionsRequest_writeField3 (p : wAddPartitionsRequest) : M P unit :=
  (write_field T_AddPartitionsRequest "parts" LIST 3 (write_list STRUCT (fun v => write_sub "*hive_metastore.Partition" (Partition_Write v)) (wAddPartitionsRequest_Parts p)))%go.
Definition AddPartitionsRequest_ReadField3 (fuel : nat) : wAddPartitionsRequest -> MF P wAddPartitionsRequest :=
  assign (read_list (v <-- read_sub "*hive_metastore.Partition" (Partition_Read fuel NewPartition);;
     liftF (ret (Some v))))%go AddPartitionsRequest_set_Parts.
Definition AddPartitionsRequest_writeField4 (p : wAddPartitionsRequest) : M P unit :=
  (write_field T_AddPartitionsRequest "ifNotExists" BOOL 4 (write_scalar T_AddPartitionsRequest "ifNotExists" 4 (WriteBool (wAddPartitionsRequest_IfNotExists p))))%go.
Definition AddPartitionsRequest_ReadField4 : wAddPartitionsRequest -> MF P wAddPartitionsRequest :=
  assign (read_scalar 4 ReadBool)%go AddPartitionsRequest_set_IfNotExists.
Definition AddPartitionsRequest_writeField5 (p : wAddPartitionsRequest) : M P unit :=
  (when (negb (Bool.eqb (wAddPartitionsRequest_NeedResult_ p) true))
    (write_field T_AddPartitionsRequest "needResult" BOOL 5 (write_scalar T_AddPartitionsRequest "needResult" 5 (WriteBool (wAddPartitionsRequest_NeedResult_ p)))))%go.
Definition AddPartitionsRequest_ReadField5 : wAddPartitionsRequest -> MF P wAddPartitionsRequest :=
  assign (read_scalar 5 ReadBool)%go AddPartitionsRequest_set_NeedResult_.
Definition AddPartitionsRequest_writeField6 (p : wAddPartitionsRequest) : M P unit :=
  (opt (wAddPartitionsRequest_CatName p) (fun v =>
    write_field T_AddPartitionsRequest "catName" STRING 6 (write_scalar T_AddPartitionsRequest "catName" 6 (WriteString v))))%go.
Definition AddPartitionsRequest_ReadField6 : wAddPartitionsRequest -> MF P wAddPartitionsRequest :=
  assign (read_scalar 6 ReadString)%go (fun v => AddPartitionsRequest_set_CatName (Some v)).
Definition AddPartitionsRequest_writeField7 (p : wAddPartitionsRequest) : M P unit :=
  (opt (wAddPartitionsRequest_ValidWriteIdList p) (fun v =>
    write_field T_AddPartitionsRequest "validWriteIdList" STRING 7 (write_scalar T_AddPartitionsRequest "validWriteIdList" 7 (WriteString v))))%go.
Definition AddPartitionsRequest_ReadField7 : wAddPartitionsRequest -> MF P wAddPartitionsRequest :=
  assign (read_scalar 7 ReadString)%go (fun v => AddPartitionsRequest_set_ValidWriteIdList (Some v)).
Definition AddPartitionsRequest_writeField8 (p : wAddPartitionsRequest) : M P unit :=
  (opt (wAddPartitionsRequest_SkipColumnSchemaForPartition p) (fun v =>
    write_field T_AddPartitionsRequest "skipColumnSchemaForPartition" BOOL 8 (write_scalar T_AddPartitionsRequest "skipColumnSchemaForPartition" 8 (WriteBool v))))%go.
Definition AddPartitionsRequest_ReadField8 : wAddPartitionsRequest -> MF P wAddPartitionsRequest :=
  assign (read_scalar 8 ReadBool)%go (fun v => AddPartitionsRequest_set_SkipColumnSchemaForPartition (Some v)).
Definition AddPartitionsRequest_writeField9 (p : wAddPartitionsRequest) : M P unit :=
  (when (bool_decide (is_Some (wAddPartitionsRequest_PartitionColSchema p)))
    (write_field T_AddPartitionsRequest "partitionColSchema" LIST 9 (write_list STRUCT (fun v => write_sub "*hive_metastore.FieldSchema" (FieldSchema_Write v)) (wAddPartitionsRequest_PartitionColSchema p))))%go.
Definition AddPartitionsRequest_ReadField9 (fuel : nat) : wAddPartitionsRequest -> MF P wAddPartitionsRequest :=
  assign (read_list (v <-- read_sub "*hive_metastore.FieldSchema" (FieldSchema_Read fuel NewFieldSchema);;
     liftF (ret (Some v))))%go AddPartitionsRequest_set_PartitionColSchema.
Definition AddPartitionsRequest_writeField10 (p : wAddPartitionsRequest) : M P unit :=
  (opt (wAddPartitionsRequest_EnvironmentContext p) (fun v =>
    write_field T_AddPartitionsRequest "environmentContext" STRUCT 10 (write_sub "*hive_metastore.EnvironmentContext" (sub_Write "EnvironmentContext" (Some v)))))%go.
Definition AddPartitionsRequest_ReadField10 (fuel : nat) : wAddPartitionsRequest -> MF P wAddPartitionsRequest :=
  assign (read_sub "*hive_metastore.EnvironmentContext" (sub_Read "EnvironmentContext" fuel))%go (fun v => AddPartitionsRequest_set_EnvironmentContext (Some v)).
Definition AddPartitionsRequest_Write (p : option wAddPartitionsRequest) : M P unit :=
  write_struct T_AddPartitionsRequest "AddPartitionsRequest" ((fun p => [AddPartitionsRequest_writeField1 p;
     AddPartitionsRequest_writeField2 p; AddPartitionsRequest_writeField3 p; AddPartitionsRequest_writeField4 p;
     AddPartitionsRequest_writeField5 p; AddPartitionsRequest_writeField6 p; AddPartitionsRequest_writeField7 p;
     AddPartitionsRequest_writeField8 p; AddPartitionsRequest_writeField9 p;
     AddPartitionsRequest_writeField10 p]) <$> p).
Definition AddPartitionsRequest_switch (fuel : nat) : switch wAddPartitionsRequest := fun fieldId =>
  match fieldId with
  | 1 => Some (STRING, AddPartitionsRequest_ReadField1)
  | 2 => Some (STRING, AddPartitionsRequest_ReadField2)
  | 3 => Some (LIST, AddPartitionsRequest_ReadField3 fuel)
  | 4 => Some (BOOL, AddPartitionsRequest_ReadField4)
  | 5 => Some (BOOL, AddPartitionsRequest_ReadField5)
  | 6 => Some (STRING, AddPartitionsRequest_ReadField6)
  | 7 => Some (STRING, AddPartitionsRequest_ReadField7)
  | 8 => Some (BOOL, AddPartitionsRequest_ReadField8)
  | 9 => Some (LIST, AddPartitionsRequest_ReadField9 fuel)
  | 10 => Some (STRUCT, AddPartitionsRequest_ReadField10 fuel)
  | _ => None
  end.
Definition AddPartitionsRequest_Read (fuel : nat) : wAddPartitionsRequest -> MF P wAddPartitionsRequest :=
  read_struct T_AddPartitionsRequest [(1, "DbName"); (2, "TblName"); (3, "Parts");
     (4, "IfNotExists")] (AddPartitionsRequest_switch fuel) fuel.

(** ** AddPartitionsResult_ *)

Local Abbreviation T_AddPartitionsResult_ := "*hive_metastore.AddPartitionsResult_".
Definition AddPartitionsResult__set_Partitions v '(mk_wAddPartitionsResult_ _ x2 x3) : wAddPartitionsResult_ :=
  mk_wAddPartitionsResult_ v x2 x3.
Definition AddPartitionsResult__set_IsStatsCompliant v '(mk_wAddPartitionsResult_ x1 _ x3) : wAddPartitionsResult_ :=
  mk_wAddPartitionsResult_ x1 v x3.
Definition AddPartitionsResult__set_PartitionColSchema v '(mk_wAddPartitionsResult_ x1 x2 _) : wAddPartitionsResult_ :=
  mk_wAddPartitionsResult_ x1 x2 v.

Definition AddPartitionsResult__writeField1 (p : wAddPartitionsResult_) : M P unit :=
  (when (bool_decide (is_Some (wAddPartitionsResult__Partitions p)))
    (write_field T_AddPartitionsResult_ "partitions" LIST 1 (write_list STRUCT (fun v => write_sub "*hive_metastore.Partition" (Partition_Write v)) (wAddPartitionsResult__Partitions p))))%go.
Definition AddPartitionsResult__ReadField1 (fuel : nat) : wAddPartitionsResult_ -> MF P wAddPartitionsResult_ :=
  assign (read_list (v <-- read_sub "*hive_metastore.Partition" (Partition_Read fuel NewPartition);;
     liftF (ret (Some v))))%go AddPartitionsResult__set_Partitions.
Definition AddPartitionsResult__writeField2 (p : wAddPartitionsResult_) : M P unit :=
  (opt (wAddPartitionsResult__IsStatsCompliant p) (fun v =>
    write_field T_AddPartitionsResult_ "isStatsCompliant" BOOL 2 (write_scalar T_AddPartitionsResult_ "isStatsCompliant" 2 (WriteBool v))))%go.
Definition AddPartitionsResult__ReadField2 : wAddPartitionsResult_ -> MF P wAddPartitionsResult_ :=
  assign (read_scalar 2 ReadBool)%go (fun v => AddPartitionsResult__set_IsStatsCompliant (Some v)).
Definition AddPartitionsResult__writeField3 (p : wAddPartitionsResult_) : M P unit :=
  (when (bool_decide (is_Some (wAddPartitionsResult__PartitionColSchema p)))
    (write_field T_AddPartitionsResult_ "partitionColSchema" LIST 3 (write_list STRUCT (fun v => write_sub "*hive_metastore.FieldSchema" (FieldSchema_Write v)) (wAddPartitionsResult__PartitionColSchema p))))%go.
Definition AddPartitionsResult__ReadField3 (fuel : nat) : wAddPartitionsResult_ -> MF P wAddPartitionsResult_ :=
  assign (read_list (v <-- read_sub "*hive_metastore.FieldSchema" (FieldSchema_Read fuel NewFieldSchema);;
     liftF (ret (Some v))))%go AddPartitionsResult__set_PartitionColSchema.
Definition AddPartitionsResult__Write (p : option wAddPartitionsResult_) : M P unit :=
  write_struct T_AddPartitionsResult_ "AddPartitionsResult" ((fun p => [AddPartitionsResult__writeField1 p;
     AddPartitionsResult__writeField2 p; AddPartitionsResult__writeField3 p]) <$> p).
Definition AddPartitionsResult__switch (fuel : nat) : switch wAddPartitionsResult_ := fun fieldId =>
  match fieldId with
  | 1 => Some (LIST, AddPartitionsResult__ReadField1 fuel)
  | 2 => Some (BOOL, AddPartitionsResult__ReadField2)
  | 3 => Some (LIST, AddPartitionsResult__ReadField3 fuel)
  | _ => None
  end.
Definition AddPartitionsResult__Read (fuel : nat) : wAddPartitionsResult_ -> MF P wAddPartitionsResult_ :=
  read_struct T_AddPartitionsResult_ [] (AddPartitionsResult__switch fuel) fuel.

(** ** AlterPartitionsRequest *)

Local Abbreviation T_AlterPartitionsRequest := "*hive_metastore.AlterPartitionsRequest".
Definition AlterPartitionsRequest_set_CatName v '(mk_wAlterPartitionsRequest _ x2 x3 x4 x5 x6 x7 x8 x9) : wAlterPartitionsRequest :=
  mk_wAlterPartitionsRequest v x2 x3 x4 x5 x6 x7 x8 x9.
Definition AlterPartitionsRequest_set_DbName v '(mk_wAlterPartitionsRequest x1 _ x3 x4 x5 x6 x7 x8 x9) : wAlterPartitionsRequest :=
  mk_wAlterPartitionsRequest x1 v x3 x4 x5 x6 x7 x8 x9.
Definition AlterPartitionsRequest_set_TableName v '(mk_wAlterPartitionsRequest x1 x2 _ x4 x5 x6 x7 x8 x9) : wAlterPartitionsRequest :=
  mk_wAlterPartitionsRequest x1 x2 v x4 x5 x6 x7 x8 x9.
Definition AlterPartitionsRequest_set_Partitions v '(mk_wAlterPartitionsRequest x1 x2 x3 _ x5 x6 x7 x8 x9) : wAlterPartitionsRequest :=
  mk_wAlterPartitionsRequest x1 x2 x3 v x5 x6 x7 x8 x9.
Definition AlterPartitionsRequest_set_EnvironmentContext v '(mk_wAlterPartitionsRequest x1 x2 x3 x4 _ x6 x7 x8 x9) : wAlterPartitionsRequest :=
  mk_wAlterPartitionsRequest x1 x2 x3 x4 v x6 x7 x8 x9.
Definition AlterPartitionsRequest_set_WriteId v '(mk_wAlterPartitionsRequest x1 x2 x3 x4 x5 _ x7 x8 x9) : wAlterPartitionsRequest :=
  mk_wAlterPartitionsRequest x1 x2 x3 x4 x5 v x7 x8 x9.
Definition AlterPartitionsRequest_set_ValidWriteIdList v '(mk_wAlterPartitionsRequest x1 x2 x3 x4 x5 x6 _ x8 x9) : wAlterPartitionsRequest :=
  mk_wAlterPartitionsRequest x1 x2 x3 x4 x5 x6 v x8 x9.
Definition AlterPartitionsRequest_set_SkipColumnSchemaForPartition v '(mk_wAlterPartitionsRequest x1 x2 x3 x4 x5 x6 x7 _ x9) : wAlterPartitionsRequest :=
  mk_wAlterPartitionsRequest x1 x2 x3 x4 x5 x6 x7 v x9.
Definition AlterPartitionsRequest_set_PartitionColSchema v '(mk_wAlterPartitionsRequest x1 x2 x3 x4 x5 x6 x7 x8 _) : wAlterPartitionsRequest :=
  mk_wAlterPartitionsRequest x1 x2 x3 x4 x5 x6 x7 x8 v.

Definition AlterPartitionsRequest_writeField1 (p : wAlterPartitionsRequest) : M P unit :=
  (opt (wAlterPartitionsRequest_CatName p) (fun v =>
    write_field T_AlterPartitionsRequest "catName" STRING 1 (write_scalar T_AlterPartitionsRequest "catName" 1 (WriteString v))))%go.
Definition AlterPartitionsRequest_ReadField1 : wAlterPartitionsRequest -> MF P wAlterPartitionsRequest :=
  assign (read_scalar 1 ReadString)%go (fun v => AlterPartitionsRequest_set_CatName (Some v)).
Definition AlterPartitionsRequest_writeField2 (p : wAlterPartitionsRequest) : M P unit :=
  (write_field T_AlterPartitionsRequest "dbName" STRING 2 (write_scalar T_AlterPartitionsRequest "dbName" 2 (WriteString (wAlterPartitionsRequest_DbName p))))%go.
Definition AlterPartitionsRequest_ReadField2 : wAlterPartitionsRequest -> MF P wAlterPartitionsRequest :=
  assign (read_scalar 2 ReadString)%go AlterPartitionsRequest_set_DbName.
Definition AlterPartitionsRequest_writeField3 (p : wAlterPartitionsRequest) : M P unit :=
  (write_field T_AlterPartitionsRequest "tableName" STRING 3 (write_scalar T_AlterPartitionsRequest "tableName" 3 (WriteString (wAlterPartitionsRequest_TableName p))))%go.
Definition AlterPartitionsRequest_ReadField3 : wAlterPartitionsRequest -> MF P wAlterPartitionsRequest :=
  assign (read_scalar 3 ReadString)%go AlterPartitionsRequest_set_TableName.
Definition AlterPartitionsRequest_writeField4 (p : wAlterPartitionsRequest) : M P unit :=
  (write_field T_AlterPartitionsRequest "partitions" LIST 4 (write_list STRUCT (fun v => write_sub "*hive_metastore.Partition" (Partition_Write v)) (wAlterPartitionsRequest_Partitions p)))%go.
Definition AlterPartitionsRequest_ReadField4 (fuel : nat) : wAlterPartitionsRequest -> MF P wAlterPartitionsRequest :=
  assign (read_list (v <-- read_sub "*hive_metastore.Partition" (Partition_Read fuel NewPartition);;
     liftF (ret (Some v))))%go AlterPartitionsRequest_set_Partitions.
Definition AlterPartitionsRequest_writeField5 (p : wAlterPartitionsRequest) : M P unit :=
  (opt (wAlterPartitionsRequest_EnvironmentContext p) (fun v =>
    write_field T_AlterPartitionsRequest "environmentContext" STRUCT 5 (write_sub "*hive_metastore.EnvironmentContext" (sub_Write "EnvironmentContext" (Some v)))))%go.
Definition AlterPartitionsRequest_ReadField5 (fuel : nat) : wAlterPartitionsRequest -> MF P wAlterPartitionsRequest :=
  assign (read_sub "*hive_metastore.EnvironmentContext" (sub_Read "EnvironmentContext" fuel))%go (fun v => AlterPartitionsRequest_set_EnvironmentContext (Some v)).
Definition AlterPartitionsRequest_writeField6 (p : wAlterPartitionsRequest) : M P unit :=
  (when (negb (wAlterPartitionsRequest_WriteId p =? (-1)))
    (write_field T_AlterPartitionsRequest "writeId" I64 6 (write_scalar T_AlterPartitionsRequest "writeId" 6 (WriteI64 (wAlterPartitionsRequest_WriteId p)))))%go.
Definition AlterPartitionsRequest_ReadField6 : wAlterPartitionsRequest -> MF P wAlterPartitionsRequest :=
  assign (read_scalar 6 ReadI64)%go AlterPartitionsRequest_set_WriteId.
Definition AlterPartitionsRequest_writeField7 (p : wAlterPartitionsRequest) : M P unit :=
  (opt (wAlterPartitionsRequest_ValidWriteIdList p) (fun v =>
    write_field T_AlterPartitionsRequest "validWriteIdList" STRING 7 (write_scalar T_AlterPartitionsRequest "validWriteIdList" 7 (WriteString v))))%go.
Definition AlterPartitionsRequest_ReadField7 : wAlterPartitionsRequest -> MF P wAlterPartitionsRequest :=
  assign (read_scalar 7 ReadString)%go (fun v => AlterPartitionsRequest_set_ValidWriteIdList (Some v)).
Definition AlterPartitionsRequest_writeField8 (p : wAlterPartitionsRequest) : M P unit :=
  (opt (wAlterPartitionsRequest_SkipColumnSchemaForPartition p) (fun v =>
    write_field T_AlterPartitionsRequest "skipColumnSchemaForPartition" BOOL 8 (write_scalar T_AlterPartitionsRequest "skipColumnSchemaForPartition" 8 (WriteBool v))))%go.
Definition AlterPartitionsRequest_ReadField8 : wAlterPartitionsRequest -> MF P wAlterPartitionsRequest :=
  assign (read_scalar 8 ReadBool)%go (fun v => AlterPartitionsRequest_set_SkipColumnSchemaForPartition (Some v)).
Definition AlterPartitionsRequest_writeField9 (p : wAlterPartitionsRequest) : M P unit :=
  (when (bool_decide (is_Some (wAlterPartitionsRequest_PartitionColSchema p)))
    (write_field T_AlterPartitionsRequest "partitionColSchema" LIST 9 (write_list STRUCT (fun v => write_sub "*hive_metastore.FieldSchema" (FieldSchema_Write v)) (wAlterPartitionsRequest_PartitionColSchema p))))%go.
Definition AlterPartitionsRequest_ReadField9 (fuel : nat) : wAlterPartitionsRequest -> MF P wAlterPartitionsRequest :=
  assign (read_list (v <-- read_sub "*hive_metastore.FieldSchema" (FieldSchema_Read fuel NewFieldSchema);;
     liftF (ret (Some v))))%go AlterPartitionsRequest_set_PartitionColSchema.
Definition AlterPartitionsRequest_Write (p : option wAlterPartitionsRequest) : M P unit :=
  write_struct T_AlterPartitionsRequest "AlterPartitionsRequest" ((fun p => [AlterPartitionsRequest_writeField1 p;
     AlterPartitionsRequest_writeField2 p; AlterPartitionsRequest_writeField3 p;
     AlterPartitionsRequest_writeField4 p; AlterPartitionsRequest_writeField5 p;
     AlterPartitionsRequest_writeField6 p; AlterPartitionsRequest_writeField7 p;
     AlterPartitionsRequest_writeField8 p; AlterPartitionsRequest_writeField9 p]) <$> p).
Definition AlterPartitionsRequest_switch (fuel : nat) : switch wAlterPartitionsRequest := fun fieldId =>
  match fieldId with
  | 1 => Some (STRING, AlterPartitionsRequest_ReadField1)
  | 2 => Some (STRING, AlterPartitionsRequest_ReadField2)
  | 3 => Some (STRING, AlterPartitionsRequest_ReadField3)
  | 4 => Some (LIST, AlterPartitionsRequest_ReadField4 fuel)
  | 5 => Some (STRUCT, AlterPartitionsRequest_ReadField5 fuel)
  | 6 => Some (I64, AlterPartitionsRequest_ReadField6)
  | 7 => Some (STRING, AlterPartitionsRequest_ReadField7)
  | 8 => Some (BOOL, AlterPartitionsRequest_ReadField8)
  | 9 => Some (LIST, AlterPartitionsRequest_ReadField9 fuel)
  | _ => None
  end.
Definition AlterPartitionsRequest_Read (fuel : nat) : wAlterPartitionsRequest -> MF P wAlterPartitionsRequest :=
  read_struct T_AlterPartitionsRequest [(2, "DbName"); (3, "TableName");
     (4, "Partitions")] (AlterPartitionsRequest_switch fuel) fuel.

(** ** AlterPartitionsResponse *)

Local Abbreviation T_AlterPartitionsResponse := "*hive_metastore.AlterPartitionsResponse".
Definition AlterPartitionsResponse_Write (p : option wAlterPartitionsResponse) : M P unit :=
  write_struct T_AlterPartitionsResponse "AlterPartitionsResponse" ((fun _ => []) <$> p).
Definition AlterPartitionsResponse_switch : switch (P := P) wAlterPartitionsResponse := fun _ => None.
Definition AlterPartitionsResponse_Read (fuel : nat) : wAlterPartitionsResponse -> MF P wAlterPartitionsResponse :=
  read_struct T_AlterPartitionsResponse [] AlterPartitionsResponse_switch fuel.

(** ** RequestPartsSpec *)

Local Abbreviation T_RequestPartsSpec := "*hive_metastore.RequestPartsSpec".
Definition RequestPartsSpec_set_Names v '(mk_wRequestPartsSpec _ x2) : wRequestPartsSpec :=
  mk_wRequestPartsSpec v x2.
Definition RequestPartsSpec_set_Exprs v '(mk_wRequestPartsSpec x1 _) : wRequestPartsSpec :=
  mk_wRequestPartsSpec x1 v.

Definition RequestPartsSpec_writeField1 (p : wRequestPartsSpec) : M P unit :=
  (when (bool_decide (is_Some (wRequestPartsSpec_Names p)))
    (write_field T_RequestPartsSpec "names" LIST 1 (write_strings T_RequestPartsSpec (wRequestPartsSpec_Names p))))%go.
Definition RequestPartsSpec_ReadField1 : wRequestPartsSpec -> MF P wRequestPartsSpec :=
  assign (read_strings)%go RequestPartsSpec_set_Names.
Definition RequestPartsSpec_writeField2 (p : wRequestPartsSpec) : M P unit :=
  (when (bool_decide (is_Some (wRequestPartsSpec_Exprs p)))
    (write_field T_RequestPartsSpec "exprs" LIST 2 (write_list STRUCT (fun v => write_sub "*hive_metastore.DropPartitionsExpr" (sub_Write "DropPartitionsExpr" v)) (wRequestPartsSpec_Exprs p))))%go.
Definition RequestPartsSpec_ReadField2 (fuel : nat) : wRequestPartsSpec -> MF P wRequestPartsSpec :=
  assign (read_list (v <-- read_sub "*hive_metastore.DropPartitionsExpr" (sub_Read "DropPartitionsExpr" fuel);;
     liftF (ret (Some v))))%go RequestPartsSpec_set_Exprs.
Definition RequestPartsSpec_CountSetFields (p : option wRequestPartsSpec) : Z :=
  match p with
  | None => 0
  | Some p => (if bool_decide (is_Some (wRequestPartsSpec_Names p)) then 1 else 0) + (if bool_decide (is_Some (wRequestPartsSpec_Exprs p)) then 1 else 0)
  end.
Definition RequestPartsSpec_Write (p : option wRequestPartsSpec) : M P unit :=
  write_union T_RequestPartsSpec "RequestPartsSpec" (RequestPartsSpec_CountSetFields p) ((fun p => [RequestPartsSpec_writeField1 p; RequestPartsSpec_writeField2 p]) <$> p).
Definition RequestPartsSpec_switch (fuel : nat) : switch wRequestPartsSpec := fun fieldId =>
  match fieldId with
  | 1 => Some (LIST, RequestPartsSpec_ReadField1)
  | 2 => Some (LIST, RequestPartsSpec_ReadField2 fuel)
  | _ => None
  end.
Definition RequestPartsSpec_Read (fuel : nat) : wRequestPartsSpec -> MF P wRequestPartsSpec :=
  read_struct T_RequestPartsSpec [] (RequestPartsSpec_switch fuel) fuel.

(** ** DropPartitionsRequest *)

Local Abbreviation T_DropPartitionsRequest := "*hive_metastore.DropPartitionsRequest".
Definition DropPartitionsRequest_set_DbName v '(mk_wDropPartitionsRequest _ x2 x3 x4 x5 x6 x7 x8 x9 x10) : wDropPartitionsRequest :=
  mk_wDropPartitionsRequest v x2 x3 x4 x5 x6 x7 x8 x9 x10.
Definition DropPartitionsRequest_set_TblName v '(mk_wDropPartitionsRequest x1 _ x3 x4 x5 x6 x7 x8 x9 x10) : wDropPartitionsRequest :=
  mk_wDropPartitionsRequest x1 v x3 x4 x5 x6 x7 x8 x9 x10.
Definition DropPartitionsRequest_set_Parts v '(mk_wDropPartitionsRequest x1 x2 _ x4 x5 x6 x7 x8 x9 x10) : wDropPartitionsRequest :=
  mk_wDropPartitionsRequest x1 x2 v x4 x5 x6 x7 x8 x9 x10.
Definition DropPartitionsRequest_set_DeleteData v '(mk_wDropPartitionsRequest x1 x2 x3 _ x5 x6 x7 x8 x9 x10) : wDropPartitionsRequest :=
  mk_wDropPartitionsRequest x1 x2 x3 v x5 x6 x7 x8 x9 x10.
Definition DropPartitionsRequest_set_IfExists v '(mk_wDropPartitionsRequest x1 x2 x3 x4 _ x6 x7 x8 x9 x10) : wDropPartitionsRequest :=
  mk_wDropPartitionsRequest x1 x2 x3 x4 v x6 x7 x8 x9 x10.
Definition DropPartitionsRequest_set_IgnoreProtection v '(mk_wDropPartitionsRequest x1 x2 x3 x4 x5 _ x7 x8 x9 x10) : wDropPartitionsRequest :=
  mk_wDropPartitionsRequest x1 x2 x3 x4 x5 v x7 x8 x9 x10.
Definition DropPartitionsRequest_set_EnvironmentContext v '(mk_wDropPartitionsRequest x1 x2 x3 x4 x5 x6 _ x8 x9 x10) : wDropPartitionsRequest :=
  mk_wDropPartitionsRequest x1 x2 x3 x4 x5 x6 v x8 x9 x10.
Definition DropPartitionsRequest_set_NeedResult_ v '(mk_wDropPartitionsRequest x1 x2 x3 x4 x5 x6 x7 _ x9 x10) : wDropPartitionsRequest :=
  mk_wDropPartitionsRequest x1 x2 x3 x4 x5 x6 x7 v x9 x10.
Definition DropPartitionsRequest_set_CatName v '(mk_wDropPartitionsRequest x1 x2 x3 x4 x5 x6 x7 x8 _ x10) : wDropPartitionsRequest :=
  mk_wDropPartitionsRequest x1 x2 x3 x4 x5 x6 x7 x8 v x10.
Definition DropPartitionsRequest_set_SkipColumnSchemaForPartition v '(mk_wDropPartitionsRequest x1 x2 x3 x4 x5 x6 x7 x8 x9 _) : wDropPartitionsRequest :=
  mk_wDropPartitionsRequest x1 x2 x3 x4 x5 x6 x7 x8 x9 v.

Definition DropPartitionsRequest_writeField1 (p : wDropPartitionsRequest) : M P unit :=
  (write_field T_DropPartitionsRequest "dbName" STRING 1 (write_scalar T_DropPartitionsRequest "dbName" 1 (WriteString (wDropPartitionsRequest_DbName p))))%go.
Definition DropPartitionsRequest_ReadField1 : wDropPartitionsRequest -> MF P wDropPartitionsRequest :=
  assign (read_scalar 1 ReadString)%go DropPartitionsRequest_set_DbName.
Definition DropPartitionsRequest_writeField2 (p : wDropPartitionsRequest) : M P unit :=
  (write_field T_DropPartitionsRequest "tblName" STRING 2 (write_scalar T_DropPartitionsRequest "tblName" 2 (WriteString (wDropPartitionsRequest_TblName p))))%go.
Definition DropPartitionsRequest_ReadField2 : wDropPartitionsRequest -> MF P wDropPartitionsRequest :=
  assign (read_scalar 2 ReadString)%go DropPartitionsRequest_set_TblName.
Definition DropPartitionsRequest_writeField3 (p : wDropPartitionsRequest) : M P unit :=
  (write_field T_DropPartitionsRequest "parts" STRUCT 3 (write_sub "*hive_metastore.RequestPartsSpec" (RequestPartsSpec_Write (wDropPartitionsRequest_Parts p))))%go.
Definition DropPartitionsRequest_ReadField3 (fuel : nat) : wDropPartitionsRequest -> MF P wDropPartitionsRequest :=
  assign (read_sub "*hive_metastore.RequestPartsSpec" (RequestPartsSpec_Read fuel NewRequestPartsSpec))%go (fun v => DropPartitionsRequest_set_Parts (Some v)).
Definition DropPartitionsRequest_writeField4 (p : wDropPartitionsRequest) : M P unit :=
  (opt (wDropPartitionsRequest_DeleteData p) (fun v =>
    write_field T_DropPartitionsRequest "deleteData" BOOL 4 (write_scalar T_DropPartitionsRequest "deleteData" 4 (WriteBool v))))%go.
Definition DropPartitionsRequest_ReadField4 : wDropPartitionsRequest -> MF P wDropPartitionsRequest :=
  assign (read_scalar 4 ReadBool)%go (fun v => DropPartitionsRequest_set_DeleteData (Some v)).
Definition DropPartitionsRequest_writeField5 (p : wDropPartitionsRequest) : M P unit :=
  (when (negb (Bool.eqb (wDropPartitionsRequest_IfExists p) true))
    (write_field T_DropPartitionsRequest "ifExists" BOOL 5 (write_scalar T_DropPartitionsRequest "ifExists" 5 (WriteBool (wDropPartitionsRequest_IfExists p)))))%go.
Definition DropPartitionsRequest_ReadField5 : wDropPartitionsRequest -> MF P wDropPartitionsRequest :=
  assign (read_scalar 5 ReadBool)%go DropPartitionsRequest_set_IfExists.
Definition DropPartitionsRequest_writeField6 (p : wDropPartitionsRequest) : M P unit :=
  (opt (wDropPartitionsRequest_IgnoreProtection p) (fun v =>
    write_field T_DropPartitionsRequest "ignoreProtection" BOOL 6 (write_scalar T_DropPartitionsRequest "ignoreProtection" 6 (WriteBool v))))%go.
Definition DropPartitionsRequest_ReadField6 : wDropPartitionsRequest -> MF P wDropPartitionsRequest :=
  assign (read_scalar 6 ReadBool)%go (fun v => DropPartitionsRequest_set_IgnoreProtection (Some v)).
Definition DropPartitionsRequest_writeField7 (p : wDropPartitionsRequest) : M P unit :=
  (opt (wDropPartitionsRequest_EnvironmentContext p) (fun v =>
    write_field T_DropPartitionsRequest "environmentContext" STRUCT 7 (write_sub "*hive_metastore.EnvironmentContext" (sub_Write "EnvironmentContext" (Some v)))))%go.
Definition DropPartitionsRequest_ReadField7 (fuel : nat) : wDropPartitionsRequest -> MF P wDropPartitionsRequest :=
  assign (read_sub "*hive_metastore.EnvironmentContext" (sub_Read "EnvironmentContext" fuel))%go (fun v => DropPartitionsRequest_set_EnvironmentContext (Some v)).
Definition DropPartitionsRequest_writeField8 (p : wDropPartitionsRequest) : M P unit :=
  (when (negb (Bool.eqb (wDropPartitionsRequest_NeedResult_ p) true))
    (write_field T_DropPartitionsRequest "needResult" BOOL 8 (write_scalar T_DropPartitionsRequest "needResult" 8 (WriteBool (wDropPartitionsRequest_NeedResult_ p)))))%go.
Definition DropPartitionsRequest_ReadField8 : wDropPartitionsRequest -> MF P wDropPartitionsRequest :=
  assign (read_scalar 8 ReadBool)%go DropPartitionsRequest_set_NeedResult_.
Definition DropPartitionsRequest_writeField9 (p : wDropPartitionsRequest) : M P unit :=
  (opt (wDropPartitionsRequest_CatName p) (fun v =>
    write_field T_DropPartitionsRequest "catName" STRING 9 (write_scalar T_DropPartitionsRequest "catName" 9 (WriteString v))))%go.
Definition DropPartitionsRequest_ReadField9 : wDropPartitionsRequest -> MF P wDropPartitionsRequest :=
  assign (read_scalar 9 ReadString)%go (fun v => DropPartitionsRequest_set_CatName (Some v)).
Definition DropPartitionsRequest_writeField10 (p : wDropPartitionsRequest) : M P unit :=
  (opt (wDropPartitionsRequest_SkipColumnSchemaForPartition p) (fun v =>
    write_field T_DropPartitionsRequest "skipColumnSchemaForPartition" BOOL 10 (write_scalar T_DropPartitionsRequest "skipColumnSchemaForPartition" 10 (WriteBool v))))%go.
Definition DropPartitionsRequest_ReadField10 : wDropPartitionsRequest -> MF P wDropPartitionsRequest :=
  assign (read_scalar 10 ReadBool)%go (fun v => DropPartitionsRequest_set_SkipColumnSchemaForPartition (Some v)).
Definition DropPartitionsRequest_Write (p : option wDropPartitionsRequest) : M P unit :=
  write_struct T_DropPartitionsRequest "DropPartitionsRequest" ((fun p => [DropPartitionsRequest_writeField1 p;
     DropPartitionsRequest_writeField2 p; DropPartitionsRequest_writeField3 p; DropPartitionsRequest_writeField4 p;
     DropPartitionsRequest_writeField5 p; DropPartitionsRequest_writeField6 p; DropPartitionsRequest_writeField7 p;
     DropPartitionsRequest_writeField8 p; DropPartitionsRequest_writeField9 p;
     DropPartitionsRequest_writeField10 p]) <$> p).
Definition DropPartitionsRequest_switch (fuel : nat) : switch wDropPartitionsRequest := fun fieldId =>
  match fieldId with
  | 1 => Some (STRING, DropPartitionsRequest_ReadField1)
  | 2 => Some (STRING, DropPartitionsRequest_ReadField2)
  | 3 => Some (STRUCT, DropPartitionsRequest_ReadField3 fuel)
  | 4 => Some (BOOL, DropPartitionsRequest_ReadField4)
  | 5 => Some (BOOL, DropPartitionsRequest_ReadField5)
  | 6 => Some (BOOL, DropPartitionsRequest_ReadField6)
  | 7 => Some (STRUCT, DropPartitionsRequest_ReadField7 fuel)
  | 8 => Some (BOOL, DropPartitionsRequest_ReadField8)
  | 9 => Some (STRING, DropPartitionsRequest_ReadField9)
  | 10 => Some (BOOL, DropPartitionsRequest_ReadField10)
  | _ => None
  end.
Definition DropPartitionsRequest_Read (fuel : nat) : wDropPartitionsRequest -> MF P wDropPartitionsRequest :=
  read_struct T_DropPartitionsRequest [(1, "DbName"); (2, "TblName");
     (3, "Parts")] (DropPartitionsRequest_switch fuel) fuel.

(** ** DropPartitionsResult_ *)

Local Abbreviation T_DropPartitionsResult_ := "*hive_metastore.DropPartitionsResult_".
Definition DropPartitionsResult__set_Partitions v (_ : wDropPartitionsResult_) : wDropPartitionsResult_ := mk_wDropPartitionsResult_ v.

Definition DropPartitionsResult__writeField1 (p : wDropPartitionsResult_) : M P unit :=
  (when (bool_decide (is_Some (wDropPartitionsResult__Partitions p)))
    (write_field T_DropPartitionsResult_ "partitions" LIST 1 (write_list STRUCT (fun v => write_sub "*hive_metastore.Partition" (Partition_Write v)) (wDropPartitionsResult__Partitions p))))%go.
Definition DropPartitionsResult__ReadField1 (fuel : nat) : wDropPartitionsResult_ -> MF P wDropPartitionsResult_ :=
  assign (read_list (v <-- read_sub "*hive_metastore.Partition" (Partition_Read fuel NewPartition);;
     liftF (ret (Some v))))%go DropPartitionsResult__set_Partitions.
Definition DropPartitionsResult__Write (p : option wDropPartitionsResult_) : M P unit :=
  write_struct T_DropPartitionsResult_ "DropPartitionsResult" ((fun p => [DropPartitionsResult__writeField1 p]) <$> p).
Definition DropPartitionsResult__switch (fuel : nat) : switch wDropPartitionsResult_ := fun fieldId =>
  match fieldId with
  | 1 => Some (LIST, DropPartitionsResult__ReadField1 fuel)
  | _ => None
  end.
Definition DropPartitionsResult__Read (fuel : nat) : wDropPartitionsResult_ -> MF P wDropPartitionsResult_ :=
  read_struct T_DropPartitionsResult_ [] (DropPartitionsResult__switch fuel) fuel.

(** ** GetPartitionsByNamesRequest *)

Local Abbreviation T_GetPartitionsByNamesRequest := "*hive_metastore.GetPartitionsByNamesRequest".
Definition GetPartitionsByNamesRequest_set_DbName v '(mk_wGetPartitionsByNamesRequest _ x2 x3 x4 x5 x6 x7 x8 x9 x10 x11 x12 x13) : wGetPartitionsByNamesRequest :=
  mk_wGetPartitionsByNamesRequest v x2 x3 x4 x5 x6 x7 x8 x9 x10 x11 x12 x13.
Definition GetPartitionsByNamesRequest_set_TblName v '(mk_wGetPartitionsByNamesRequest x1 _ x3 x4 x5 x6 x7 x8 x9 x10 x11 x12 x13) : wGetPartitionsByNamesRequest :=
  mk_wGetPartitionsByNamesRequest x1 v x3 x4 x5 x6 x7 x8 x9 x10 x11 x12 x13.
Definition GetPartitionsByNamesRequest_set_Names v '(mk_wGetPartitionsByNamesRequest x1 x2 _ x4 x5 x6 x7 x8 x9 x10 x11 x12 x13) : wGetPartitionsByNamesRequest :=
  mk_wGetPartitionsByNamesRequest x1 x2 v x4 x5 x6 x7 x8 x9 x10 x11 x12 x13.
Definition GetPartitionsByNamesRequest_set_GetColStats v '(mk_wGetPartitionsByNamesRequest x1 x2 x3 _ x5 x6 x7 x8 x9 x10 x11 x12 x13) : wGetPartitionsByNamesRequest :=
  mk_wGetPartitionsByNamesRequest x1 x2 x3 v x5 x6 x7 x8 x9 x10 x11 x12 x13.
Definition GetPartitionsByNamesRequest_set_ProcessorCapabilities v '(mk_wGetPartitionsByNamesRequest x1 x2 x3 x4 _ x6 x7 x8 x9 x10 x11 x12 x13) : wGetPartitionsByNamesRequest :=
  mk_wGetPartitionsByNamesRequest x1 x2 x3 x4 v x6 x7 x8 x9 x10 x11 x12 x13.
Definition GetPartitionsByNamesRequest_set_ProcessorIdentifier v '(mk_wGetPartitionsByNamesRequest x1 x2 x3 x4 x5 _ x7 x8 x9 x10 x11 x12 x13) : wGetPartitionsByNamesRequest :=
  mk_wGetPartitionsByNamesRequest x1 x2 x3 x4 x5 v x7 x8 x9 x10 x11 x12 x13.
Definition GetPartitionsByNamesRequest_set_Engine v '(mk_wGetPartitionsByNamesRequest x1 x2 x3 x4 x5 x6 _ x8 x9 x10 x11 x12 x13) : wGetPartitionsByNamesRequest :=
  mk_wGetPartitionsByNamesRequest x1 x2 x3 x4 x5 x6 v x8 x9 x10 x11 x12 x13.
Definition GetPartitionsByNamesRequest_set_ValidWriteIdList v '(mk_wGetPartitionsByNamesRequest x1 x2 x3 x4 x5 x6 x7 _ x9 x10 x11 x12 x13) : wGetPartitionsByNamesRequest :=
  mk_wGetPartitionsByNamesRequest x1 x2 x3 x4 x5 x6 x7 v x9 x10 x11 x12 x13.
Definition GetPartitionsByNamesRequest_set_GetFileMetadata v '(mk_wGetPartitionsByNamesRequest x1 x2 x3 x4 x5 x6 x7 x8 _ x10 x11 x12 x13) : wGetPartitionsByNamesRequest :=
  mk_wGetPartitionsByNamesRequest x1 x2 x3 x4 x5 x6 x7 x8 v x10 x11 x12 x13.
Definition GetPartitionsByNamesRequest_set_ID v '(mk_wGetPartitionsByNamesRequest x1 x2 x3 x4 x5 x6 x7 x8 x9 _ x11 x12 x13) : wGetPartitionsByNamesRequest :=
  mk_wGetPartitionsByNamesRequest x1 x2 x3 x4 x5 x6 x7 x8 x9 v x11 x12 x13.
Definition GetPartitionsByNamesRequest_set_SkipColumnSchemaForPartition v '(mk_wGetPartitionsByNamesRequest x1 x2 x3 x4 x5 x6 x7 x8 x9 x10 _ x12 x13) : wGetPartitionsByNamesRequest :=
  mk_wGetPartitionsByNamesRequest x1 x2 x3 x4 x5 x6 x7 x8 x9 x10 v x12 x13.
Definition GetPartitionsByNamesRequest_set_IncludeParamKeyPattern v '(mk_wGetPartitionsByNamesRequest x1 x2 x3 x4 x5 x6 x7 x8 x9 x10 x11 _ x13) : wGetPartitionsByNamesRequest :=
  mk_wGetPartitionsByNamesRequest x1 x2 x3 x4 x5 x6 x7 x8 x9 x10 x11 v x13.
Definition GetPartitionsByNamesRequest_set_ExcludeParamKeyPattern v '(mk_wGetPartitionsByNamesRequest x1 x2 x3 x4 x5 x6 x7 x8 x9 x10 x11 x12 _) : wGetPartitionsByNamesRequest :=
  mk_wGetPartitionsByNamesRequest x1 x2 x3 x4 x5 x6 x7 x8 x9 x10 x11 x12 v.

Definition GetPartitionsByNamesRequest_writeField1 (p : wGetPartitionsByNamesRequest) : M P unit :=
  (write_field T_GetPartitionsByNamesRequest "db_name" STRING 1 (write_scalar T_GetPartitionsByNamesRequest "db_name" 1 (WriteString (wGetPartitionsByNamesRequest_DbName p))))%go.
Definition GetPartitionsByNamesRequest_ReadField1 : wGetPartitionsByNamesRequest -> MF P wGetPartitionsByNamesRequest :=
  assign (read_scalar 1 ReadString)%go GetPartitionsByNamesRequest_set_DbName.
Definition GetPartitionsByNamesRequest_writeField2 (p : wGetPartitionsByNamesRequest) : M P unit :=
  (write_field T_GetPartitionsByNamesRequest "tbl_name" STRING 2 (write_scalar T_GetPartitionsByNamesRequest "tbl_name" 2 (WriteString (wGetPartitionsByNamesRequest_TblName p))))%go.
Definition GetPartitionsByNamesRequest_ReadField2 : wGetPartitionsByNamesRequest -> MF P wGetPartitionsByNamesRequest :=
  assign (read_scalar 2 ReadString)%go GetPartitionsByNamesRequest_set_TblName.
Definition GetPartitionsByNamesRequest_writeField3 (p : wGetPartitionsByNamesRequest) : M P unit :=
  (when (bool_decide (is_Some (wGetPartitionsByNamesRequest_Names p)))
    (write_field T_GetPartitionsByNamesRequest "names" LIST 3 (write_strings T_GetPartitionsByNamesRequest (wGetPartitionsByNamesRequest_Names p))))%go.
Definition GetPartitionsByNamesRequest_ReadField3 : wGetPartitionsByNamesRequest -> MF P wGetPartitionsByNamesRequest :=
  assign (read_strings)%go GetPartitionsByNamesRequest_set_Names.
Definition GetPartitionsByNamesRequest_writeField4 (p : wGetPartitionsByNamesRequest) : M P unit :=
  (opt (wGetPartitionsByNamesRequest_GetColStats p) (fun v =>
    write_field T_GetPartitionsByNamesRequest "get_col_stats" BOOL 4 (write_scalar T_GetPartitionsByNamesRequest "get_col_stats" 4 (WriteBool v))))%go.
Definition GetPartitionsByNamesRequest_ReadField4 : wGetPartitionsByNamesRequest -> MF P wGetPartitionsByNamesRequest :=
  assign (read_scalar 4 ReadBool)%go (fun v => GetPartitionsByNamesRequest_set_GetColStats (Some v)).
Definition GetPartitionsByNamesRequest_writeField5 (p : wGetPartitionsByNamesRequest) : M P unit :=
  (when (bool_decide (is_Some (wGetPartitionsByNamesRequest_ProcessorCapabilities p)))
    (write_field T_GetPartitionsByNamesRequest "processorCapabilities" LIST 5 (write_strings T_GetPartitionsByNamesRequest (wGetPartitionsByNamesRequest_ProcessorCapabilities p))))%go.
Definition GetPartitionsByNamesRequest_ReadField5 : wGetPartitionsByNamesRequest -> MF P wGetPartitionsByNamesRequest :=
  assign (read_strings)%go GetPartitionsByNamesRequest_set_ProcessorCapabilities.
Definition GetPartitionsByNamesRequest_writeField6 (p : wGetPartitionsByNamesRequest) : M P unit :=
  (opt (wGetPartitionsByNamesRequest_ProcessorIdentifier p) (fun v =>
    write_field T_GetPartitionsByNamesRequest "processorIdentifier" STRING 6 (write_scalar T_GetPartitionsByNamesRequest "processorIdentifier" 6 (WriteString v))))%go.
Definition GetPartitionsByNamesRequest_ReadField6 : wGetPartitionsByNamesRequest -> MF P wGetPartitionsByNamesRequest :=
  assign (read_scalar 6 ReadString)%go (fun v => GetPartitionsByNamesRequest_set_ProcessorIdentifier (Some v)).
Definition GetPartitionsByNamesRequest_writeField7 (p : wGetPartitionsByNamesRequest) : M P unit :=
  (when (negb (String.eqb (wGetPartitionsByNamesRequest_Engine p) "hive"))
    (write_field T_GetPartitionsByNamesRequest "engine" STRING 7 (write_scalar T_GetPartitionsByNamesRequest "engine" 7 (WriteString (wGetPartitionsByNamesRequest_Engine p)))))%go.
Definition GetPartitionsByNamesRequest_ReadField7 : wGetPartitionsByNamesRequest -> MF P wGetPartitionsByNamesRequest :=
  assign (read_scalar 7 ReadString)%go GetPartitionsByNamesRequest_set_Engine.
Definition GetPartitionsByNamesRequest_writeField8 (p : wGetPartitionsByNamesRequest) : M P unit :=
  (opt (wGetPartitionsByNamesRequest_ValidWriteIdList p) (fun v =>
    write_field T_GetPartitionsByNamesRequest "validWriteIdList" STRING 8 (write_scalar T_GetPartitionsByNamesRequest "validWriteIdList" 8 (WriteString v))))%go.
Definition GetPartitionsByNamesRequest_ReadField8 : wGetPartitionsByNamesRequest -> MF P wGetPartitionsByNamesRequest :=
  assign (read_scalar 8 ReadString)%go (fun v => GetPartitionsByNamesRequest_set_ValidWriteIdList (Some v)).
Definition GetPartitionsByNamesRequest_writeField9 (p : wGetPartitionsByNamesRequest) : M P unit :=
  (opt (wGetPartitionsByNamesRequest_GetFileMetadata p) (fun v =>
    write_field T_GetPartitionsByNamesRequest "getFileMetadata" BOOL 9 (write_scalar T_GetPartitionsByNamesRequest "getFileMetadata" 9 (WriteBool v))))%go.
Definition GetPartitionsByNamesRequest_ReadField9 : wGetPartitionsByNamesRequest -> MF P wGetPartitionsByNamesRequest :=
  assign (read_scalar 9 ReadBool)%go (fun v => GetPartitionsByNamesRequest_set_GetFileMetadata (Some v)).
Definition GetPartitionsByNamesRequest_writeField10 (p : wGetPartitionsByNamesRequest) : M P unit :=
  (when (negb (wGetPartitionsByNamesRequest_ID p =? (-1)))
    (write_field T_GetPartitionsByNamesRequest "id" I64 10 (write_scalar T_GetPartitionsByNamesRequest "id" 10 (WriteI64 (wGetPartitionsByNamesRequest_ID p)))))%go.
Definition GetPartitionsByNamesRequest_ReadField10 : wGetPartitionsByNamesRequest -> MF P wGetPartitionsByNamesRequest :=
  assign (read_scalar 10 ReadI64)%go GetPartitionsByNamesRequest_set_ID.
Definition GetPartitionsByNamesRequest_writeField11 (p : wGetPartitionsByNamesRequest) : M P unit :=
  (opt (wGetPartitionsByNamesRequest_SkipColumnSchemaForPartition p) (fun v =>
    write_field T_GetPartitionsByNamesRequest "skipColumnSchemaForPartition" BOOL 11 (write_scalar T_GetPartitionsByNamesRequest "skipColumnSchemaForPartition" 11 (WriteBool v))))%go.
Definition GetPartitionsByNamesRequest_ReadField11 : wGetPartitionsByNamesRequest -> MF P wGetPartitionsByNamesRequest :=
  assign (read_scalar 11 ReadBool)%go (fun v => GetPartitionsByNamesRequest_set_SkipColumnSchemaForPartition (Some v)).
Definition GetPartitionsByNamesRequest_writeField12 (p : wGetPartitionsByNamesRequest) : M P unit :=
  (opt (wGetPartitionsByNamesRequest_IncludeParamKeyPattern p) (fun v =>
    write_field T_GetPartitionsByNamesRequest "includeParamKeyPattern" STRING 12 (write_scalar T_GetPartitionsByNamesRequest "includeParamKeyPattern" 12 (WriteString v))))%go.
Definition GetPartitionsByNamesRequest_ReadField12 : wGetPartitionsByNamesRequest -> MF P wGetPartitionsByNamesRequest :=
  assign (read_scalar 12 ReadString)%go (fun v => GetPartitionsByNamesRequest_set_IncludeParamKeyPattern (Some v)).
Definition GetPartitionsByNamesRequest_writeField13 (p : wGetPartitionsByNamesRequest) : M P unit :=
  (opt (wGetPartitionsByNamesRequest_ExcludeParamKeyPattern p) (fun v =>
    write_field T_GetPartitionsByNamesRequest "excludeParamKeyPattern" STRING 13 (write_scalar T_GetPartitionsByNamesRequest "excludeParamKeyPattern" 13 (WriteString v))))%go.
Definition GetPartitionsByNamesRequest_ReadField13 : wGetPartitionsByNamesRequest -> MF P wGetPartitionsByNamesRequest :=
  assign (read_scalar 13 ReadString)%go (fun v => GetPartitionsByNamesRequest_set_ExcludeParamKeyPattern (Some v)).
Definition GetPartitionsByNamesRequest_Write (p : option wGetPartitionsByNamesRequest) : M P unit :=
  write_struct T_GetPartitionsByNamesRequest "GetPartitionsByNamesRequest" ((fun p => [GetPartitionsByNamesRequest_writeField1 p; GetPartitionsByNamesRequest_writeField2 p; GetPartitionsByNamesRequest_writeField3 p; GetPartitionsByNamesRequest_writeField4 p; GetPartitionsByNamesRequest_writeField5 p; GetPartitionsByNamesRequest_writeField6 p; GetPartitionsByNamesRequest_writeField7 p; GetPartitionsByNamesRequest_writeField8 p; GetPartitionsByNamesRequest_writeField9 p; GetPartitionsByNamesRequest_writeField10 p; GetPartitionsByNamesRequest_writeField11 p; GetPartitionsByNamesRequest_writeField12 p; GetPartitionsByNamesRequest_writeField13 p]) <$> p).
Definition GetPartitionsByNamesRequest_switch : switch wGetPartitionsByNamesRequest := fun fieldId =>
  match fieldId with
  | 1 => Some (STRING, GetPartitionsByNamesRequest_ReadField1)
  | 2 => Some (STRING, GetPartitionsByNamesRequest_ReadField2)
  | 3 => Some (LIST, GetPartitionsByNamesRequest_ReadField3)
  | 4 => Some (BOOL, GetPartitionsByNamesRequest_ReadField4)
  | 5 => Some (LIST, GetPartitionsByNamesRequest_ReadField5)
  | 6 => Some (STRING, GetPartitionsByNamesRequest_ReadField6)
  | 7 => Some (STRING, GetPartitionsByNamesRequest_ReadField7)
  | 8 => Some (STRING, GetPartitionsByNamesRequest_ReadField8)
  | 9 => Some (BOOL, GetPartitionsByNamesRequest_ReadField9)
  | 10 => Some (I64, GetPartitionsByNamesRequest_ReadField10)
  | 11 => Some (BOOL, GetPartitionsByNamesRequest_ReadField11)
  | 12 => Some (STRING, GetPartitionsByNamesRequest_ReadField12)
  | 13 => Some (STRING, GetPartitionsByNamesRequest_ReadField13)
  | _ => None
  end.
Definition GetPartitionsByNamesRequest_Read (fuel : nat) : wGetPartitionsByNamesRequest -> MF P wGetPartitionsByNamesRequest :=
  read_struct T_GetPartitionsByNamesRequest [(1, "DbName"); (2, "TblName")] GetPartitionsByNamesRequest_switch fuel.

(** ** GetPartitionsByNamesResult_ *)

Local Abbreviation T_GetPartitionsByNamesResult_ := "*hive_metastore.GetPartitionsByNamesResult_".
Definition GetPartitionsByNamesResult__set_Partitions v '(mk_wGetPartitionsByNamesResult_ _ x2) : wGetPartitionsByNamesResult_ :=
  mk_wGetPartitionsByNamesResult_ v x2.
Definition GetPartitionsByNamesResult__set_Dictionary v '(mk_wGetPartitionsByNamesResult_ x1 _) : wGetPartitionsByNamesResult_ :=
  mk_wGetPartitionsByNamesResult_ x1 v.

Definition GetPartitionsByNamesResult__writeField1 (p : wGetPartitionsByNamesResult_) : M P unit :=
  (write_field T_GetPartitionsByNamesResult_ "partitions" LIST 1 (write_list STRUCT (fun v => write_sub "*hive_metastore.Partition" (Partition_Write v)) (wGetPartitionsByNamesResult__Partitions p)))%go.
Definition GetPartitionsByNamesResult__ReadField1 (fuel : nat) : wGetPartitionsByNamesResult_ -> MF P wGetPartitionsByNamesResult_ :=
  assign (read_list (v <-- read_sub "*hive_metastore.Partition" (Partition_Read fuel NewPartition);;
     liftF (ret (Some v))))%go GetPartitionsByNamesResult__set_Partitions.
Definition GetPartitionsByNamesResult__writeField2 (p : wGetPartitionsByNamesResult_) : M P unit :=
  (opt (wGetPartitionsByNamesResult__Dictionary p) (fun v =>
    write_field T_GetPartitionsByNamesResult_ "dictionary" STRUCT 2 (write_sub "*hive_metastore.ObjectDictionary" (sub_Write "ObjectDictionary" (Some v)))))%go.
Definition GetPartitionsByNamesResult__ReadField2 (fuel : nat) : wGetPartitionsByNamesResult_ -> MF P wGetPartitionsByNamesResult_ :=
  assign (read_sub "*hive_metastore.ObjectDictionary" (sub_Read "ObjectDictionary" fuel))%go (fun v => GetPartitionsByNamesResult__set_Dictionary (Some v)).
Definition GetPartitionsByNamesResult__Write (p : option wGetPartitionsByNamesResult_) : M P unit :=
  write_struct T_GetPartitionsByNamesResult_ "GetPartitionsByNamesResult" ((fun p => [GetPartitionsByNamesResult__writeField1 p; GetPartitionsByNamesResult__writeField2 p]) <$> p).
Definition GetPartitionsByNamesResult__switch (fuel : nat) : switch wGetPartitionsByNamesResult_ := fun fieldId =>
  match fieldId with
  | 1 => Some (LIST, GetPartitionsByNamesResult__ReadField1 fuel)
  | 2 => Some (STRUCT, GetPartitionsByNamesResult__ReadField2 fuel)
  | _ => None
  end.
Definition GetPartitionsByNamesResult__Read (fuel : nat) : wGetPartitionsByNamesResult_ -> MF P wGetPartitionsByNamesResult_ :=
  read_struct T_GetPartitionsByNamesResult_ [(1, "Partitions")] (GetPartitionsByNamesResult__switch fuel) fuel.

(** ** GetPartitionNamesPsRequest *)

Local Abbreviation T_GetPartitionNamesPsRequest := "*hive_metastore.GetPartitionNamesPsRequest".
Definition GetPartitionNamesPsRequest_set_CatName v '(mk_wGetPartitionNamesPsRequest _ x2 x3 x4 x5 x6 x7) : wGetPartitionNamesPsRequest :=
  mk_wGetPartitionNamesPsRequest v x2 x3 x4 x5 x6 x7.
Definition GetPartitionNamesPsRequest_set_DbName v '(mk_wGetPartitionNamesPsRequest x1 _ x3 x4 x5 x6 x7) : wGetPartitionNamesPsRequest :=
  mk_wGetPartitionNamesPsRequest x1 v x3 x4 x5 x6 x7.
Definition GetPartitionNamesPsRequest_set_TblName v '(mk_wGetPartitionNamesPsRequest x1 x2 _ x4 x5 x6 x7) : wGetPartitionNamesPsRequest :=
  mk_wGetPartitionNamesPsRequest x1 x2 v x4 x5 x6 x7.
Definition GetPartitionNamesPsRequest_set_PartValues v '(mk_wGetPartitionNamesPsRequest x1 x2 x3 _ x5 x6 x7) : wGetPartitionNamesPsRequest :=
  mk_wGetPartitionNamesPsRequest x1 x2 x3 v x5 x6 x7.
Definition GetPartitionNamesPsRequest_set_MaxParts v '(mk_wGetPartitionNamesPsRequest x1 x2 x3 x4 _ x6 x7) : wGetPartitionNamesPsRequest :=
  mk_wGetPartitionNamesPsRequest x1 x2 x3 x4 v x6 x7.
Definition GetPartitionNamesPsRequest_set_ValidWriteIdList v '(mk_wGetPartitionNamesPsRequest x1 x2 x3 x4 x5 _ x7) : wGetPartitionNamesPsRequest :=
  mk_wGetPartitionNamesPsRequest x1 x2 x3 x4 x5 v x7.
Definition GetPartitionNamesPsRequest_set_ID v '(mk_wGetPartitionNamesPsRequest x1 x2 x3 x4 x5 x6 _) : wGetPartitionNamesPsRequest :=
  mk_wGetPartitionNamesPsRequest x1 x2 x3 x4 x5 x6 v.

Definition GetPartitionNamesPsRequest_writeField1 (p : wGetPartitionNamesPsRequest) : M P unit :=
  (opt (wGetPartitionNamesPsRequest_CatName p) (fun v =>
    write_field T_GetPartitionNamesPsRequest "catName" STRING 1 (write_scalar T_GetPartitionNamesPsRequest "catName" 1 (WriteString v))))%go.
Definition GetPartitionNamesPsRequest_ReadField1 : wGetPartitionNamesPsRequest -> MF P wGetPartitionNamesPsRequest :=
  assign (read_scalar 1 ReadString)%go (fun v => GetPartitionNamesPsRequest_set_CatName (Some v)).
Definition GetPartitionNamesPsRequest_writeField2 (p : wGetPartitionNamesPsRequest) : M P unit :=
  (write_field T_GetPartitionNamesPsRequest "dbName" STRING 2 (write_scalar T_GetPartitionNamesPsRequest "dbName" 2 (WriteString (wGetPartitionNamesPsRequest_DbName p))))%go.
Definition GetPartitionNamesPsRequest_ReadField2 : wGetPartitionNamesPsRequest -> MF P wGetPartitionNamesPsRequest :=
  assign (read_scalar 2 ReadString)%go GetPartitionNamesPsRequest_set_DbName.
Definition GetPartitionNamesPsRequest_writeField3 (p : wGetPartitionNamesPsRequest) : M P unit :=
  (write_field T_GetPartitionNamesPsRequest "tblName" STRING 3 (write_scalar T_GetPartitionNamesPsRequest "tblName" 3 (WriteString (wGetPartitionNamesPsRequest_TblName p))))%go.
Definition GetPartitionNamesPsRequest_ReadField3 : wGetPartitionNamesPsRequest -> MF P wGetPartitionNamesPsRequest :=
  assign (read_scalar 3 ReadString)%go GetPartitionNamesPsRequest_set_TblName.
Definition GetPartitionNamesPsRequest_writeField4 (p : wGetPartitionNamesPsRequest) : M P unit :=
  (when (bool_decide (is_Some (wGetPartitionNamesPsRequest_PartValues p)))
    (write_field T_GetPartitionNamesPsRequest "partValues" LIST 4 (write_strings T_GetPartitionNamesPsRequest (wGetPartitionNamesPsRequest_PartValues p))))%go.
Definition GetPartitionNamesPsRequest_ReadField4 : wGetPartitionNamesPsRequest -> MF P wGetPartitionNamesPsRequest :=
  assign (read_strings)%go GetPartitionNamesPsRequest_set_PartValues.
Definition GetPartitionNamesPsRequest_writeField5 (p : wGetPartitionNamesPsRequest) : M P unit :=
  (when (negb (wGetPartitionNamesPsRequest_MaxParts p =? (-1)))
    (write_field T_GetPartitionNamesPsRequest "maxParts" I16 5 (write_scalar T_GetPartitionNamesPsRequest "maxParts" 5 (WriteI16 (wGetPartitionNamesPsRequest_MaxParts p)))))%go.
Definition GetPartitionNamesPsRequest_ReadField5 : wGetPartitionNamesPsRequest -> MF P wGetPartitionNamesPsRequest :=
  assign (read_scalar 5 ReadI16)%go GetPartitionNamesPsRequest_set_MaxParts.
Definition GetPartitionNamesPsRequest_writeField6 (p : wGetPartitionNamesPsRequest) : M P unit :=
  (opt (wGetPartitionNamesPsRequest_ValidWriteIdList p) (fun v =>
    write_field T_GetPartitionNamesPsRequest "validWriteIdList" STRING 6 (write_scalar T_GetPartitionNamesPsRequest "validWriteIdList" 6 (WriteString v))))%go.
Definition GetPartitionNamesPsRequest_ReadField6 : wGetPartitionNamesPsRequest -> MF P wGetPartitionNamesPsRequest :=
  assign (read_scalar 6 ReadString)%go (fun v => GetPartitionNamesPsRequest_set_ValidWriteIdList (Some v)).
Definition GetPartitionNamesPsRequest_writeField7 (p : wGetPartitionNamesPsRequest) : M P unit :=
  (when (negb (wGetPartitionNamesPsRequest_ID p =? (-1)))
    (write_field T_GetPartitionNamesPsRequest "id" I64 7 (write_scalar T_GetPartitionNamesPsRequest "id" 7 (WriteI64 (wGetPartitionNamesPsRequest_ID p)))))%go.
Definition GetPartitionNamesPsRequest_ReadField7 : wGetPartitionNamesPsRequest -> MF P wGetPartitionNamesPsRequest :=
  assign (read_scalar 7 ReadI64)%go GetPartitionNamesPsRequest_set_ID.
Definition GetPartitionNamesPsRequest_Write (p : option wGetPartitionNamesPsRequest) : M P unit :=
  write_struct T_GetPartitionNamesPsRequest "GetPartitionNamesPsRequest" ((fun p => [GetPartitionNamesPsRequest_writeField1 p; GetPartitionNamesPsRequest_writeField2 p; GetPartitionNamesPsRequest_writeField3 p; GetPartitionNamesPsRequest_writeField4 p; GetPartitionNamesPsRequest_writeField5 p; GetPartitionNamesPsRequest_writeField6 p; GetPartitionNamesPsRequest_writeField7 p]) <$> p).
Definition GetPartitionNamesPsRequest_switch : switch wGetPartitionNamesPsRequest := fun fieldId =>
  match fieldId with
  | 1 => Some (STRING, GetPartitionNamesPsRequest_ReadField1)
  | 2 => Some (STRING, GetPartitionNamesPsRequest_ReadField2)
  | 3 => Some (STRING, GetPartitionNamesPsRequest_ReadField3)
  | 4 => Some (LIST, GetPartitionNamesPsRequest_ReadField4)
  | 5 => Some (I16, GetPartitionNamesPsRequest_ReadField5)
  | 6 => Some (STRING, GetPartitionNamesPsRequest_ReadField6)
  | 7 => Some (I64, GetPartitionNamesPsRequest_ReadField7)
  | _ => None
  end.
Definition GetPartitionNamesPsRequest_Read (fuel : nat) : wGetPartitionNamesPsRequest -> MF P wGetPartitionNamesPsRequest :=
  read_struct T_GetPartitionNamesPsRequest [(2, "DbName"); (3, "TblName")] GetPartitionNamesPsRequest_switch fuel.

(** ** GetPartitionNamesPsResponse *)

Local Abbreviation T_GetPartitionNamesPsResponse := "*hive_metastore.GetPartitionNamesPsResponse".
Definition GetPartitionNamesPsResponse_set_Names v (_ : wGetPartitionNamesPsResponse) : wGetPartitionNamesPsResponse := mk_wGetPartitionNamesPsResponse v.

Definition GetPartitionNamesPsResponse_writeField1 (p : wGetPartitionNamesPsResponse) : M P unit :=
  (write_field T_GetPartitionNamesPsResponse "names" LIST 1 (write_strings T_GetPartitionNamesPsResponse (wGetPartitionNamesPsResponse_Names p)))%go.
Definition GetPartitionNamesPsResponse_ReadField1 : wGetPartitionNamesPsResponse -> MF P wGetPartitionNamesPsResponse :=
  assign (read_strings)%go GetPartitionNamesPsResponse_set_Names.
Definition GetPartitionNamesPsResponse_Write (p : option wGetPartitionNamesPsResponse) : M P unit :=
  write_struct T_GetPartitionNamesPsResponse "GetPartitionNamesPsResponse" ((fun p => [GetPartitionNamesPsResponse_writeField1 p]) <$> p).
Definition GetPartitionNamesPsResponse_switch : switch wGetPartitionNamesPsResponse := fun fieldId =>
  match fieldId with
  | 1 => Some (LIST, GetPartitionNamesPsResponse_ReadField1)
  | _ => None
  end.
Definition GetPartitionNamesPsResponse_Read (fuel : nat) : wGetPartitionNamesPsResponse -> MF P wGetPartitionNamesPsResponse :=
  read_struct T_GetPartitionNamesPsResponse [(1, "Names")] GetPartitionNamesPsResponse_switch fuel.

(** ** CommitTxnRequest *)

Local Abbreviation T_CommitTxnRequest := "*hive_metastore.CommitTxnRequest".
Definition CommitTxnRequest_set_Txnid v '(mk_wCommitTxnRequest _ x2 x3 x4 x5 x6 x7) : wCommitTxnRequest :=
  mk_wCommitTxnRequest v x2 x3 x4 x5 x6 x7.
Definition CommitTxnRequest_set_ReplPolicy v '(mk_wCommitTxnRequest x1 _ x3 x4 x5 x6 x7) : wCommitTxnRequest :=
  mk_wCommitTxnRequest x1 v x3 x4 x5 x6 x7.
Definition CommitTxnRequest_set_WriteEventInfos v '(mk_wCommitTxnRequest x1 x2 _ x4 x5 x6 x7) : wCommitTxnRequest :=
  mk_wCommitTxnRequest x1 x2 v x4 x5 x6 x7.
Definition CommitTxnRequest_set_ReplLastIdInfo v '(mk_wCommitTxnRequest x1 x2 x3 _ x5 x6 x7) : wCommitTxnRequest :=
  mk_wCommitTxnRequest x1 x2 x3 v x5 x6 x7.
Definition CommitTxnRequest_set_KeyValue v '(mk_wCommitTxnRequest x1 x2 x3 x4 _ x6 x7) : wCommitTxnRequest :=
  mk_wCommitTxnRequest x1 x2 x3 x4 v x6 x7.
Definition CommitTxnRequest_set_ExclWriteEnabled v '(mk_wCommitTxnRequest x1 x2 x3 x4 x5 _ x7) : wCommitTxnRequest :=
  mk_wCommitTxnRequest x1 x2 x3 x4 x5 v x7.
Definition CommitTxnRequest_set_TxnType v '(mk_wCommitTxnRequest x1 x2 x3 x4 x5 x6 _) : wCommitTxnRequest :=
  mk_wCommitTxnRequest x1 x2 x3 x4 x5 x6 v.

Definition CommitTxnRequest_writeField1 (p : wCommitTxnRequest) : M P unit :=
  (write_field T_CommitTxnRequest "txnid" I64 1 (write_scalar T_CommitTxnRequest "txnid" 1 (WriteI64 (wCommitTxnRequest_Txnid p))))%go.
Definition CommitTxnRequest_ReadField1 : wCommitTxnRequest -> MF P wCommitTxnRequest :=
  assign (read_scalar 1 ReadI64)%go CommitTxnRequest_set_Txnid.
Definition CommitTxnRequest_writeField2 (p : wCommitTxnRequest) : M P unit :=
  (opt (wCommitTxnRequest_ReplPolicy p) (fun v =>
    write_field T_CommitTxnRequest "replPolicy" STRING 2 (write_scalar T_CommitTxnRequest "replPolicy" 2 (WriteString v))))%go.
Definition CommitTxnRequest_ReadField2 : wCommitTxnRequest -> MF P wCommitTxnRequest :=
  assign (read_scalar 2 ReadString)%go (fun v => CommitTxnRequest_set_ReplPolicy (Some v)).
Definition CommitTxnRequest_writeField3 (p : wCommitTxnRequest) : M P unit :=
  (when (bool_decide (is_Some (wCommitTxnRequest_WriteEventInfos p)))
    (write_field T_CommitTxnRequest "writeEventInfos" LIST 3 (write_list STRUCT (fun v => write_sub "*hive_metastore.WriteEventInfo" (sub_Write "WriteEventInfo" v)) (wCommitTxnRequest_WriteEventInfos p))))%go.
Definition CommitTxnRequest_ReadField3 (fuel : nat) : wCommitTxnRequest -> MF P wCommitTxnRequest :=
  assign (read_list (v <-- read_sub "*hive_metastore.WriteEventInfo" (sub_Read "WriteEventInfo" fuel);;
     liftF (ret (Some v))))%go CommitTxnRequest_set_WriteEventInfos.
Definition CommitTxnRequest_writeField4 (p : wCommitTxnRequest) : M P unit :=
  (opt (wCommitTxnRequest_ReplLastIdInfo p) (fun v =>
    write_field T_CommitTxnRequest "replLastIdInfo" STRUCT 4 (write_sub "*hive_metastore.ReplLastIdInfo" (sub_Write "ReplLastIdInfo" (Some v)))))%go.
Definition CommitTxnRequest_ReadField4 (fuel : nat) : wCommitTxnRequest -> MF P wCommitTxnRequest :=
  assign (read_sub "*hive_metastore.ReplLastIdInfo" (sub_Read "ReplLastIdInfo" fuel))%go (fun v => CommitTxnRequest_set_ReplLastIdInfo (Some v)).
Definition CommitTxnRequest_writeField5 (p : wCommitTxnRequest) : M P unit :=
  (opt (wCommitTxnRequest_KeyValue p) (fun v =>
    write_field T_CommitTxnRequest "keyValue" STRUCT 5 (write_sub "*hive_metastore.CommitTxnKeyValue" (sub_Write "CommitTxnKeyValue" (Some v)))))%go.
Definition CommitTxnRequest_ReadField5 (fuel : nat) : wCommitTxnRequest -> MF P wCommitTxnRequest :=
  assign (read_sub "*hive_metastore.CommitTxnKeyValue" (sub_Read "CommitTxnKeyValue" fuel))%go (fun v => CommitTxnRequest_set_KeyValue (Some v)).
Definition CommitTxnRequest_writeField6 (p : wCommitTxnRequest) : M P unit :=
  (when (negb (Bool.eqb (wCommitTxnRequest_ExclWriteEnabled p) true))
    (write_field T_CommitTxnRequest "exclWriteEnabled" BOOL 6 (write_scalar T_CommitTxnRequest "exclWriteEnabled" 6 (WriteBool (wCommitTxnRequest_ExclWriteEnabled p)))))%go.
Definition CommitTxnRequest_ReadField6 : wCommitTxnRequest -> MF P wCommitTxnRequest :=
  assign (read_scalar 6 ReadBool)%go CommitTxnRequest_set_ExclWriteEnabled.
Definition CommitTxnRequest_writeField7 (p : wCommitTxnRequest) : M P unit :=
  (opt (wCommitTxnRequest_TxnType p) (fun v =>
    write_field T_CommitTxnRequest "txn_type" I32 7 (write_scalar T_CommitTxnRequest "txn_type" 7 (WriteI32 (int32 v)))))%go.
Definition CommitTxnRequest_ReadField7 : wCommitTxnRequest -> MF P wCommitTxnRequest :=
  assign (read_scalar 7 ReadI32)%go (fun v => CommitTxnRequest_set_TxnType (Some v)).
Definition CommitTxnRequest_Write (p : option wCommitTxnRequest) : M P unit :=
  write_struct T_CommitTxnRequest "CommitTxnRequest" ((fun p => [CommitTxnRequest_writeField1 p;
     CommitTxnRequest_writeField2 p; CommitTxnRequest_writeField3 p; CommitTxnRequest_writeField4 p;
     CommitTxnRequest_writeField5 p; CommitTxnRequest_writeField6 p; CommitTxnRequest_writeField7 p]) <$> p).
Definition CommitTxnRequest_switch (fuel : nat) : switch wCommitTxnRequest := fun fieldId =>
  match fieldId with
  | 1 => Some (I64, CommitTxnRequest_ReadField1)
  | 2 => Some (STRING, CommitTxnRequest_ReadField2)
  | 3 => Some (LIST, CommitTxnRequest_ReadField3 fuel)
  | 4 => Some (STRUCT, CommitTxnRequest_ReadField4 fuel)
  | 5 => Some (STRUCT, CommitTxnRequest_ReadField5 fuel)
  | 6 => Some (BOOL, CommitTxnRequest_ReadField6)
  | 7 => Some (I32, CommitTxnRequest_ReadField7)
  | _ => None
  end.
Definition CommitTxnRequest_Read (fuel : nat) : wCommitTxnRequest -> MF P wCommitTxnRequest :=
  read_struct T_CommitTxnRequest [(1, "Txnid")] (CommitTxnRequest_switch fuel) fuel.
End codec.
