(* ===== verification/CodecReqFacts.v ===== *)
(** * CodecReqFacts: what the codecs of CodecReq write, and that they read it back *)

From S2P Require Import Prelude Errors GoMonad Types Transport Wire Thrift ThriftFacts CodecTable CodecTableFacts CodecReq.

Section facts.
Context {P : Type} {TP : TProtocol P} {TL : TProtocolLaws P} {MR : MapRange} {SB : Substructs P} {SL : SubstructLaws P}.

Definition Table_own (p : option wTable) : wTable := match p with Some p => Table_canon p | None => NewTable end.
Lemma Table_own_reads d fuel p : (3 <= d)%nat -> (S sub_depth <= d)%nat -> (29 <= fuel)%nat -> (sub_fuel <= fuel)%nat -> 
  reads d (Table_Read fuel NewTable) (Table_toks p) (Table_own p).
Proof.
  intros Hd Hs Hf Hsf. destruct p as [p|]; [by apply Table_reads|]. destruct d as [|d]; [lia|].
  apply (reads_struct d _ _ _ fuel [] NewTable NewTable []); [constructor|simpl; lia|constructor].
Qed.
#[local] Hint Resolve Table_own_reads : wire.

Definition Partition_own (p : option wPartition) : wPartition := match p with Some p => Partition_canon p | None => NewPartition end.
Lemma Partition_own_reads d fuel p : (3 <= d)%nat -> (S sub_depth <= d)%nat -> (14 <= fuel)%nat -> (sub_fuel <= fuel)%nat -> 
  reads d (Partition_Read fuel NewPartition) (Partition_toks p) (Partition_own p).
Proof.
  intros Hd Hs Hf Hsf. destruct p as [p|]; [by apply Partition_reads|]. destruct d as [|d]; [lia|].
  apply (reads_struct d _ _ _ fuel [] NewPartition NewPartition []); [constructor|simpl; lia|constructor].
Qed.
#[local] Hint Resolve Partition_own_reads : wire.

(** ** GetCatalogRequest *)

Definition GetCatalogRequest_wire (p : wGetCatalogRequest) : list (list wfield) :=
  [[(1, STRING, [KString (wGetCatalogRequest_Name p)])]].
Definition GetCatalogRequest_toks (p : option wGetCatalogRequest) : list tok :=
  struct_toks (match p with Some p => concat (GetCatalogRequest_wire p) | None => [] end).
Definition GetCatalogRequest_canon (p : wGetCatalogRequest) : wGetCatalogRequest :=
  mk_wGetCatalogRequest (wGetCatalogRequest_Name p).

Lemma GetCatalogRequest_writes strict d p : (1 <= d)%nat -> 
  writes strict d (GetCatalogRequest_Write p) (GetCatalogRequest_toks p).
Proof. enter_struct. unfold GetCatalogRequest_wire, GetCatalogRequest_writeField1. write_fields. Qed.
Lemma GetCatalogRequest_runs d fuel p : (0 <= d)%nat -> (2 <= fuel)%nat -> 
  exists ids, runs d GetCatalogRequest_switch (concat (GetCatalogRequest_wire p)) NewGetCatalogRequest (GetCatalogRequest_canon p) ids.
Proof.
  intros Hd Hf. unfold GetCatalogRequest_wire. eexists.
  cbn [concat]. run_one.
  run_end.
Qed.
Lemma GetCatalogRequest_reads d fuel p : (1 <= d)%nat -> (2 <= fuel)%nat -> 
  reads d (GetCatalogRequest_Read fuel NewGetCatalogRequest) (GetCatalogRequest_toks (Some p)) (GetCatalogRequest_canon p).
Proof. struct_reads GetCatalogRequest_runs GetCatalogRequest_wire. Qed.
#[local] Hint Resolve GetCatalogRequest_writes GetCatalogRequest_reads : wire.

(** ** GetCatalogResponse *)

Definition GetCatalogResponse_wire (p : wGetCatalogResponse) : list (list wfield) :=
  [opt_part (wGetCatalogResponse_Catalog p) (fun v => (1, STRUCT, Catalog_toks (Some v)))].
Definition GetCatalogResponse_toks (p : option wGetCatalogResponse) : list tok :=
  struct_toks (match p with Some p => concat (GetCatalogResponse_wire p) | None => [] end).
Definition GetCatalogResponse_canon (p : wGetCatalogResponse) : wGetCatalogResponse :=
  mk_wGetCatalogResponse (Catalog_canon <$> wGetCatalogResponse_Catalog p).

Lemma GetCatalogResponse_writes strict d p : (2 <= d)%nat -> 
  writes strict d (GetCatalogResponse_Write p) (GetCatalogResponse_toks p).
Proof. enter_struct. unfold GetCatalogResponse_wire, GetCatalogResponse_writeField1. write_fields. Qed.
Lemma GetCatalogResponse_runs d fuel p : (1 <= d)%nat -> (6 <= fuel)%nat -> 
  exists ids, runs d (GetCatalogResponse_switch fuel) (concat (GetCatalogResponse_wire p)) NewGetCatalogResponse (GetCatalogResponse_canon p) ids.
Proof.
  intros Hd Hf. unfold GetCatalogResponse_wire. eexists.
  cbn [concat]. run_opt GetCatalogResponse_set_Catalog Catalog_canon.
  run_end.
Qed.
Lemma GetCatalogResponse_reads d fuel p : (2 <= d)%nat -> (6 <= fuel)%nat -> 
  reads d (GetCatalogResponse_Read fuel NewGetCatalogResponse) (GetCatalogResponse_toks (Some p)) (GetCatalogResponse_canon p).
Proof. struct_reads GetCatalogResponse_runs GetCatalogResponse_wire. Qed.
#[local] Hint Resolve GetCatalogResponse_writes GetCatalogResponse_reads : wire.

(** ** GetCatalogsResponse *)

Definition GetCatalogsResponse_wire (p : wGetCatalogsResponse) : list (list wfield) :=
  [[(1, LIST, strings_toks (wGetCatalogsResponse_Names p))]].
Definition GetCatalogsResponse_toks (p : option wGetCatalogsResponse) : list tok :=
  struct_toks (match p with Some p => concat (GetCatalogsResponse_wire p) | None => [] end).
Definition GetCatalogsResponse_canon (p : wGetCatalogsResponse) : wGetCatalogsResponse :=
  mk_wGetCatalogsResponse (own_strings (wGetCatalogsResponse_Names p)).

Lemma GetCatalogsResponse_writes strict d p : (1 <= d)%nat -> 
  writes strict d (GetCatalogsResponse_Write p) (GetCatalogsResponse_toks p).
Proof. enter_struct. unfold GetCatalogsResponse_wire, GetCatalogsResponse_writeField1. write_fields. Qed.
Lemma GetCatalogsResponse_runs d fuel p : (0 <= d)%nat -> (2 <= fuel)%nat -> 
  exists ids, runs d GetCatalogsResponse_switch (concat (GetCatalogsResponse_wire p)) NewGetCatalogsResponse (GetCatalogsResponse_canon p) ids.
Proof.
  intros Hd Hf. unfold GetCatalogsResponse_wire. eexists.
  cbn [concat]. run_one.
  run_end.
Qed.
Lemma GetCatalogsResponse_reads d fuel p : (1 <= d)%nat -> (2 <= fuel)%nat -> 
  reads d (GetCatalogsResponse_Read fuel NewGetCatalogsResponse) (GetCatalogsResponse_toks (Some p)) (GetCatalogsResponse_canon p).
Proof. struct_reads GetCatalogsResponse_runs GetCatalogsResponse_wire. Qed.
#[local] Hint Resolve GetCatalogsResponse_writes GetCatalogsResponse_reads : wire.

(** ** CreateCatalogRequest *)

Definition CreateCatalogRequest_wire (p : wCreateCatalogRequest) : list (list wfield) :=
  [opt_part (wCreateCatalogRequest_Catalog p) (fun v => (1, STRUCT, Catalog_toks (Some v)))].
Definition CreateCatalogRequest_toks (p : option wCreateCatalogRequest) : list tok :=
  struct_toks (match p with Some p => concat (CreateCatalogRequest_wire p) | None => [] end).
Definition CreateCatalogRequest_canon (p : wCreateCatalogRequest) : wCreateCatalogRequest :=
  mk_wCreateCatalogRequest (Catalog_canon <$> wCreateCatalogRequest_Catalog p).

Lemma CreateCatalogRequest_writes strict d p : (2 <= d)%nat -> 
  writes strict d (CreateCatalogRequest_Write p) (CreateCatalogRequest_toks p).
Proof. enter_struct. unfold CreateCatalogRequest_wire, CreateCatalogRequest_writeField1. write_fields. Qed.
Lemma CreateCatalogRequest_runs d fuel p : (1 <= d)%nat -> (6 <= fuel)%nat -> 
  exists ids, runs d (CreateCatalogRequest_switch fuel) (concat (CreateCatalogRequest_wire p)) NewCreateCatalogRequest (CreateCatalogRequest_canon p) ids.
Proof.
  intros Hd Hf. unfold CreateCatalogRequest_wire. eexists.
  cbn [concat]. run_opt CreateCatalogRequest_set_Catalog Catalog_canon.
  run_end.
Qed.
Lemma CreateCatalogRequest_reads d fuel p : (2 <= d)%nat -> (6 <= fuel)%nat -> 
  reads d (CreateCatalogRequest_Read fuel NewCreateCatalogRequest) (CreateCatalogRequest_toks (Some p)) (CreateCatalogRequest_canon p).
Proof. struct_reads CreateCatalogRequest_runs CreateCatalogRequest_wire. Qed.
#[local] Hint Resolve CreateCatalogRequest_writes CreateCatalogRequest_reads : wire.

(** ** DropCatalogRequest *)

Definition DropCatalogRequest_wire (p : wDropCatalogRequest) : list (list wfield) :=
  [[(1, STRING, [KString (wDropCatalogRequest_Name p)])];
   when_part (negb (Bool.eqb (wDropCatalogRequest_IfExists p) true)) (2, BOOL, [KBool (wDropCatalogRequest_IfExists p)])].
Definition DropCatalogRequest_toks (p : option wDropCatalogRequest) : list tok :=
  struct_toks (match p with Some p => concat (DropCatalogRequest_wire p) | None => [] end).
Definition DropCatalogRequest_canon (p : wDropCatalogRequest) : wDropCatalogRequest :=
  mk_wDropCatalogRequest (wDropCatalogRequest_Name p)
    (wDropCatalogRequest_IfExists p).

Lemma DropCatalogRequest_writes strict d p : (1 <= d)%nat -> 
  writes strict d (DropCatalogRequest_Write p) (DropCatalogRequest_toks p).
Proof. enter_struct. unfold DropCatalogRequest_wire, DropCatalogRequest_writeField1, DropCatalogRequest_writeField2. write_fields. Qed.
Lemma DropCatalogRequest_runs d fuel p : (0 <= d)%nat -> (3 <= fuel)%nat -> 
  exists ids, runs d DropCatalogRequest_switch (concat (DropCatalogRequest_wire p)) NewDropCatalogRequest (DropCatalogRequest_canon p) ids.
Proof.
  intros Hd Hf. unfold DropCatalogRequest_wire. eexists.
  cbn [concat]. run_one.
  run_when DropCatalogRequest_set_IfExists (wDropCatalogRequest_IfExists p) true.
  run_end.
Qed.
Lemma DropCatalogRequest_reads d fuel p : (1 <= d)%nat -> (3 <= fuel)%nat -> 
  reads d (DropCatalogRequest_Read fuel NewDropCatalogRequest) (DropCatalogRequest_toks (Some p)) (DropCatalogRequest_canon p).
Proof. struct_reads DropCatalogRequest_runs DropCatalogRequest_wire. Qed.
#[local] Hint Resolve DropCatalogRequest_writes DropCatalogRequest_reads : wire.

(** ** GetTableRequest *)

Definition GetTableRequest_wire (p : wGetTableRequest) : list (list wfield) :=
  [[(1, STRING, [KString (wGetTableRequest_DbName p)])];
   [(2, STRING, [KString (wGetTableRequest_TblName p)])];
   opt_part (wGetTableRequest_Capabilities p) (fun v => (3, STRUCT, sub_toks "ClientCapabilities" (Some v)));
   opt_part (wGetTableRequest_CatName p) (fun v => (4, STRING, [KString v]));
   opt_part (wGetTableRequest_ValidWriteIdList p) (fun v => (6, STRING, [KString v]));
   opt_part (wGetTableRequest_GetColumnStats p) (fun v => (7, BOOL, [KBool v]));
   when_part (bool_decide (is_Some (wGetTableRequest_ProcessorCapabilities p))) (8, LIST, strings_toks (wGetTableRequest_ProcessorCapabilities p));
   opt_part (wGetTableRequest_ProcessorIdentifier p) (fun v => (9, STRING, [KString v]));
   when_part (negb (String.eqb (wGetTableRequest_Engine p) "hive")) (10, STRING, [KString (wGetTableRequest_Engine p)]);
   when_part (negb (wGetTableRequest_ID p =? (-1))) (11, I64, [KI64 (wGetTableRequest_ID p)])].
Definition GetTableRequest_toks (p : option wGetTableRequest) : list tok :=
  struct_toks (match p with Some p => concat (GetTableRequest_wire p) | None => [] end).
Definition GetTableRequest_canon (p : wGetTableRequest) : wGetTableRequest :=
  mk_wGetTableRequest (wGetTableRequest_DbName p)
    (wGetTableRequest_TblName p)
    (wGetTableRequest_Capabilities p)
    (wGetTableRequest_CatName p)
    (wGetTableRequest_ValidWriteIdList p)
    (wGetTableRequest_GetColumnStats p)
    (wGetTableRequest_ProcessorCapabilities p)
    (wGetTableRequest_ProcessorIdentifier p)
    (wGetTableRequest_Engine p)
    (wGetTableRequest_ID p).

Lemma GetTableRequest_writes strict d p : (1 <= d)%nat -> (S sub_depth <= d)%nat -> 
  writes strict d (GetTableRequest_Write p) (GetTableRequest_toks p).
Proof. enter_struct. unfold GetTableRequest_wire, GetTableRequest_writeField1, GetTableRequest_writeField2, GetTableRequest_writeField3, GetTableRequest_writeField4, GetTableRequest_writeField6, GetTableRequest_writeField7, GetTableRequest_writeField8, GetTableRequest_writeField9, GetTableRequest_writeField10, GetTableRequest_writeField11. write_fields. Qed.
Lemma GetTableRequest_runs d fuel p : (0 <= d)%nat -> (sub_depth <= d)%nat -> (11 <= fuel)%nat -> (sub_fuel <= fuel)%nat -> 
  exists ids, runs d (GetTableRequest_switch fuel) (concat (GetTableRequest_wire p)) NewGetTableRequest (GetTableRequest_canon p) ids /\ 1 ∈ ids /\ 2 ∈ ids.
Proof.
  intros Hd Hsub Hf Hsf. unfold GetTableRequest_wire. eexists.
  split.
  { cbn [concat]. run_one.
    run_one.
    run_opt_same GetTableRequest_set_Capabilities.
    run_opt_same GetTableRequest_set_CatName.
    run_opt_same GetTableRequest_set_ValidWriteIdList.
    run_opt_same GetTableRequest_set_GetColumnStats.
    run_slice_same GetTableRequest_set_ProcessorCapabilities.
    run_opt_same GetTableRequest_set_ProcessorIdentifier.
    run_when GetTableRequest_set_Engine (wGetTableRequest_Engine p) "hive".
    run_when GetTableRequest_set_ID (wGetTableRequest_ID p) (-1).
    run_end. }
  split_and?; set_solver.
Qed.
Lemma GetTableRequest_reads d fuel p : (1 <= d)%nat -> (S sub_depth <= d)%nat -> (11 <= fuel)%nat -> (sub_fuel <= fuel)%nat -> 
  reads d (GetTableRequest_Read fuel NewGetTableRequest) (GetTableRequest_toks (Some p)) (GetTableRequest_canon p).
Proof. struct_reads GetTableRequest_runs GetTableRequest_wire. Qed.
#[local] Hint Resolve GetTableRequest_writes GetTableRequest_reads : wire.

(** ** GetTableResult_ *)

Definition GetTableResult__wire (p : wGetTableResult_) : list (list wfield) :=
  [[(1, STRUCT, Table_toks (wGetTableResult__Table p))];
   opt_part (wGetTableResult__IsStatsCompliant p) (fun v => (2, BOOL, [KBool v]))].
Definition GetTableResult__toks (p : option wGetTableResult_) : list tok :=
  struct_toks (match p with Some p => concat (GetTableResult__wire p) | None => [] end).
Definition GetTableResult__canon (p : wGetTableResult_) : wGetTableResult_ :=
  mk_wGetTableResult_ (Some (Table_own (wGetTableResult__Table p)))
    (wGetTableResult__IsStatsCompliant p).
Definition GetTableResult__ok (p : wGetTableResult_) : Prop :=
  forall v, wGetTableResult__Table p = Some v -> Table_ok v.

Lemma GetTableResult__writes strict d p : (4 <= d)%nat -> (2 + sub_depth <= d)%nat -> (strict -> forall p0, p = Some p0 -> GetTableResult__ok p0) -> 
  writes strict d (GetTableResult__Write p) (GetTableResult__toks p).
Proof. enter_valid GetTableResult__ok. unfold GetTableResult__wire, GetTableResult__writeField1, GetTableResult__writeField2. write_fields. Qed.
Lemma GetTableResult__runs d fuel p : (3 <= d)%nat -> (S sub_depth <= d)%nat -> (29 <= fuel)%nat -> (sub_fuel <= fuel)%nat -> 
  exists ids, runs d (GetTableResult__switch fuel) (concat (GetTableResult__wire p)) NewGetTableResult_ (GetTableResult__canon p) ids /\ 1 ∈ ids.
Proof.
  intros Hd Hsub Hf Hsf. unfold GetTableResult__wire. eexists.
  split.
  { cbn [concat]. run_one.
    run_opt_same GetTableResult__set_IsStatsCompliant.
    run_end. }
  split_and?; set_solver.
Qed.
Lemma GetTableResult__reads d fuel p : (4 <= d)%nat -> (2 + sub_depth <= d)%nat -> (29 <= fuel)%nat -> (sub_fuel <= fuel)%nat -> 
  reads d (GetTableResult__Read fuel NewGetTableResult_) (GetTableResult__toks (Some p)) (GetTableResult__canon p).
Proof. struct_reads GetTableResult__runs GetTableResult__wire. Qed.
#[local] Hint Resolve GetTableResult__writes GetTableResult__reads : wire.

(** ** GetTablesRequest *)

Definition GetTablesRequest_wire (p : wGetTablesRequest) : list (list wfield) :=
  [[(1, STRING, [KString (wGetTablesRequest_DbName p)])];
   when_part (bool_decide (is_Some (wGetTablesRequest_TblNames p))) (2, LIST, strings_toks (wGetTablesRequest_TblNames p));
   opt_part (wGetTablesRequest_Capabilities p) (fun v => (3, STRUCT, sub_toks "ClientCapabilities" (Some v)));
   opt_part (wGetTablesRequest_CatName p) (fun v => (4, STRING, [KString v]));
   when_part (bool_decide (is_Some (wGetTablesRequest_ProcessorCapabilities p))) (5, LIST, strings_toks (wGetTablesRequest_ProcessorCapabilities p));
   opt_part (wGetTablesRequest_ProcessorIdentifier p) (fun v => (6, STRING, [KString v]));
   opt_part (wGetTablesRequest_ProjectionSpec p) (fun v => (7, STRUCT, sub_toks "GetProjectionsSpec" (Some v)));
   opt_part (wGetTablesRequest_TablesPattern p) (fun v => (8, STRING, [KString v]))].
Definition GetTablesRequest_toks (p : option wGetTablesRequest) : list tok :=
  struct_toks (match p with Some p => concat (GetTablesRequest_wire p) | None => [] end).
Definition GetTablesRequest_canon (p : wGetTablesRequest) : wGetTablesRequest :=
  mk_wGetTablesRequest (wGetTablesRequest_DbName p)
    (wGetTablesRequest_TblNames p)
    (wGetTablesRequest_Capabilities p)
    (wGetTablesRequest_CatName p)
    (wGetTablesRequest_ProcessorCapabilities p)
    (wGetTablesRequest_ProcessorIdentifier p)
    (wGetTablesRequest_ProjectionSpec p)
    (wGetTablesRequest_TablesPattern p).

Lemma GetTablesRequest_writes strict d p : (1 <= d)%nat -> (S sub_depth <= d)%nat -> 
  writes strict d (GetTablesRequest_Write p) (GetTablesRequest_toks p).
Proof. enter_struct. unfold GetTablesRequest_wire, GetTablesRequest_writeField1, GetTablesRequest_writeField2, GetTablesRequest_writeField3, GetTablesRequest_writeField4, GetTablesRequest_writeField5, GetTablesRequest_writeField6, GetTablesRequest_writeField7, GetTablesRequest_writeField8. write_fields. Qed.
Lemma GetTablesRequest_runs d fuel p : (0 <= d)%nat -> (sub_depth <= d)%nat -> (9 <= fuel)%nat -> (sub_fuel <= fuel)%nat -> 
  exists ids, runs d (GetTablesRequest_switch fuel) (concat (GetTablesRequest_wire p)) NewGetTablesRequest (GetTablesRequest_canon p) ids /\ 1 ∈ ids.
Proof.
  intros Hd Hsub Hf Hsf. unfold GetTablesRequest_wire. eexists.
  split.
  { cbn [concat]. run_one.
    run_slice_same GetTablesRequest_set_TblNames.
    run_opt_same GetTablesRequest_set_Capabilities.
    run_opt_same GetTablesRequest_set_CatName.
    run_slice_same GetTablesRequest_set_ProcessorCapabilities.
    run_opt_same GetTablesRequest_set_ProcessorIdentifier.
    run_opt_same GetTablesRequest_set_ProjectionSpec.
    run_opt_same GetTablesRequest_set_TablesPattern.
    run_end. }
  split_and?; set_solver.
Qed.
Lemma GetTablesRequest_reads d fuel p : (1 <= d)%nat -> (S sub_depth <= d)%nat -> (9 <= fuel)%nat -> (sub_fuel <= fuel)%nat -> 
  reads d (GetTablesRequest_Read fuel NewGetTablesRequest) (GetTablesRequest_toks (Some p)) (GetTablesRequest_canon p).
Proof. struct_reads GetTablesRequest_runs GetTablesRequest_wire. Qed.
#[local] Hint Resolve GetTablesRequest_writes GetTablesRequest_reads : wire.

(** ** GetTablesResult_ *)

Definition GetTablesResult__wire (p : wGetTablesResult_) : list (list wfield) :=
  [[(1, LIST, list_toks STRUCT Table_toks (wGetTablesResult__Tables p))]].
Definition GetTablesResult__toks (p : option wGetTablesResult_) : list tok :=
  struct_toks (match p with Some p => concat (GetTablesResult__wire p) | None => [] end).
Definition GetTablesResult__canon (p : wGetTablesResult_) : wGetTablesResult_ :=
  mk_wGetTablesResult_ (Some (map (fun v => Some (Table_own v)) (elems (wGetTablesResult__Tables p)))).
Definition GetTablesResult__ok (p : wGetTablesResult_) : Prop :=
  Forall (fun o => forall v, o = Some v -> Table_ok v) (elems (wGetTablesResult__Tables p)).

Lemma GetTablesResult__writes strict d p : (4 <= d)%nat -> (2 + sub_depth <= d)%nat -> (strict -> forall p0, p = Some p0 -> GetTablesResult__ok p0) -> 
  writes strict d (GetTablesResult__Write p) (GetTablesResult__toks p).
Proof. enter_valid GetTablesResult__ok. unfold GetTablesResult__wire, GetTablesResult__writeField1. write_fields. Qed.
Lemma GetTablesResult__runs d fuel p : (3 <= d)%nat -> (S sub_depth <= d)%nat -> (29 <= fuel)%nat -> (sub_fuel <= fuel)%nat -> 
  exists ids, runs d (GetTablesResult__switch fuel) (concat (GetTablesResult__wire p)) NewGetTablesResult_ (GetTablesResult__canon p) ids /\ 1 ∈ ids.
Proof.
  intros Hd Hsub Hf Hsf. unfold GetTablesResult__wire. eexists.
  split.
  { cbn [concat]. run_one.
    run_end. }
  split_and?; set_solver.
Qed.
Lemma GetTablesResult__reads d fuel p : (4 <= d)%nat -> (2 + sub_depth <= d)%nat -> (29 <= fuel)%nat -> (sub_fuel <= fuel)%nat -> 
  reads d (GetTablesResult__Read fuel NewGetTablesResult_) (GetTablesResult__toks (Some p)) (GetTablesResult__canon p).
Proof. struct_reads GetTablesResult__runs GetTablesResult__wire. Qed.
#[local] Hint Resolve GetTablesResult__writes GetTablesResult__reads : wire.

(** ** PartitionsRequest *)

Definition PartitionsRequest_wire (p : wPartitionsRequest) : list (list wfield) :=
  [opt_part (wPartitionsRequest_CatName p) (fun v => (1, STRING, [KString v]));
   [(2, STRING, [KString (wPartitionsRequest_DbName p)])];
   [(3, STRING, [KString (wPartitionsRequest_TblName p)])];
   when_part (negb (wPartitionsRequest_MaxParts p =? (-1))) (4, I16, [KI16 (wPartitionsRequest_MaxParts p)]);
   opt_part (wPartitionsRequest_ValidWriteIdList p) (fun v => (5, STRING, [KString v]));
   when_part (negb (wPartitionsRequest_ID p =? (-1))) (6, I64, [KI64 (wPartitionsRequest_ID p)]);
   opt_part (wPartitionsRequest_SkipColumnSchemaForPartition p) (fun v => (7, BOOL, [KBool v]));
   opt_part (wPartitionsRequest_IncludeParamKeyPattern p) (fun v => (8, STRING, [KString v]));
   opt_part (wPartitionsRequest_ExcludeParamKeyPattern p) (fun v => (9, STRING, [KString v]))].
Definition PartitionsRequest_toks (p : option wPartitionsRequest) : list tok :=
  struct_toks (match p with Some p => concat (PartitionsRequest_wire p) | None => [] end).
Definition PartitionsRequest_canon (p : wPartitionsRequest) : wPartitionsRequest :=
  mk_wPartitionsRequest (wPartitionsRequest_CatName p)
    (wPartitionsRequest_DbName p)
    (wPartitionsRequest_TblName p)
    (wPartitionsRequest_MaxParts p)
    (wPartitionsRequest_ValidWriteIdList p)
    (wPartitionsRequest_ID p)
    (wPartitionsRequest_SkipColumnSchemaForPartition p)
    (wPartitionsRequest_IncludeParamKeyPattern p)
    (wPartitionsRequest_ExcludeParamKeyPattern p).

Lemma PartitionsRequest_writes strict d p : (1 <= d)%nat -> 
  writes strict d (PartitionsRequest_Write p) (PartitionsRequest_toks p).
Proof. enter_struct. unfold PartitionsRequest_wire, PartitionsRequest_writeField1, PartitionsRequest_writeField2, PartitionsRequest_writeField3, PartitionsRequest_writeField4, PartitionsRequest_writeField5, PartitionsRequest_writeField6, PartitionsRequest_writeField7, PartitionsRequest_writeField8, PartitionsRequest_writeField9. write_fields. Qed.
Lemma PartitionsRequest_runs d fuel p : (0 <= d)%nat -> (10 <= fuel)%nat -> 
  exists ids, runs d PartitionsRequest_switch (concat (PartitionsRequest_wire p)) NewPartitionsRequest (PartitionsRequest_canon p) ids /\ 2 ∈ ids /\ 3 ∈ ids.
Proof.
  intros Hd Hf. unfold PartitionsRequest_wire. eexists.
  split.
  { cbn [concat]. run_opt_same PartitionsRequest_set_CatName.
    run_one.
    run_one.
    run_when PartitionsRequest_set_MaxParts (wPartitionsRequest_MaxParts p) (-1).
    run_opt_same PartitionsRequest_set_ValidWriteIdList.
    run_when PartitionsRequest_set_ID (wPartitionsRequest_ID p) (-1).
    run_opt_same PartitionsRequest_set_SkipColumnSchemaForPartition.
    run_opt_same PartitionsRequest_set_IncludeParamKeyPattern.
    run_opt_same PartitionsRequest_set_ExcludeParamKeyPattern.
    run_end. }
  split_and?; set_solver.
Qed.
Lemma PartitionsRequest_reads d fuel p : (1 <= d)%nat -> (10 <= fuel)%nat -> 
  reads d (PartitionsRequest_Read fuel NewPartitionsRequest) (PartitionsRequest_toks (Some p)) (PartitionsRequest_canon p).
Proof. struct_reads PartitionsRequest_runs PartitionsRequest_wire. Qed.
#[local] Hint Resolve PartitionsRequest_writes PartitionsRequest_reads : wire.

(** ** PartitionsResponse *)

Definition PartitionsResponse_wire (p : wPartitionsResponse) : list (list wfield) :=
  [[(1, LIST, list_toks STRUCT Partition_toks (wPartitionsResponse_Partitions p))]].
Definition PartitionsResponse_toks (p : option wPartitionsResponse) : list tok :=
  struct_toks (match p with Some p => concat (PartitionsResponse_wire p) | None => [] end).
Definition PartitionsResponse_canon (p : wPartitionsResponse) : wPartitionsResponse :=
  mk_wPartitionsResponse (Some (map (fun v => Some (Partition_own v)) (elems (wPartitionsResponse_Partitions p)))).
Definition PartitionsResponse_ok (p : wPartitionsResponse) : Prop :=
  Forall (fun o => forall v, o = Some v -> Partition_ok v) (elems (wPartitionsResponse_Partitions p)).

Lemma PartitionsResponse_writes strict d p : (4 <= d)%nat -> (2 + sub_depth <= d)%nat -> (strict -> forall p0, p = Some p0 -> PartitionsResponse_ok p0) -> 
  writes strict d (PartitionsResponse_Write p) (PartitionsResponse_toks p).
Proof. enter_valid PartitionsResponse_ok. unfold PartitionsResponse_wire, PartitionsResponse_writeField1. write_fields. Qed.
Lemma PartitionsResponse_runs d fuel p : (3 <= d)%nat -> (S sub_depth <= d)%nat -> (14 <= fuel)%nat -> (sub_fuel <= fuel)%nat -> 
  exists ids, runs d (PartitionsResponse_switch fuel) (concat (PartitionsResponse_wire p)) NewPartitionsResponse (PartitionsResponse_canon p) ids /\ 1 ∈ ids.
Proof.
  intros Hd Hsub Hf Hsf. unfold PartitionsResponse_wire. eexists.
  split.
  { cbn [concat]. run_one.
    run_end. }
  split_and?; set_solver.
Qed.
Lemma PartitionsResponse_reads d fuel p : (4 <= d)%nat -> (2 + sub_depth <= d)%nat -> (14 <= fuel)%nat -> (sub_fuel <= fuel)%nat -> 
  reads d (PartitionsResponse_Read fuel NewPartitionsResponse) (PartitionsResponse_toks (Some p)) (PartitionsResponse_canon p).
Proof. struct_reads PartitionsResponse_runs PartitionsResponse_wire. Qed.
#[local] Hint Resolve PartitionsResponse_writes PartitionsResponse_reads : wire.

(** ** AddPartitionsRequest *)

Definition AddPartitionsRequest_wire (p : wAddPartitionsRequest) : list (list wfield) :=
  [[(1, STRING, [KString (wAddPartitionsRequest_DbName p)])];
   [(2, STRING, [KString (wAddPartitionsRequest_TblName p)])];
   [(3, LIST, list_toks STRUCT Partition_toks (wAddPartitionsRequest_Parts p))];
   [(4, BOOL, [KBool (wAddPartitionsRequest_IfNotExists p)])];
   when_part (negb (Bool.eqb (wAddPartitionsRequest_NeedResult_ p) true)) (5, BOOL, [KBool (wAddPartitionsRequest_NeedResult_ p)]);
   opt_part (wAddPartitionsRequest_CatName p) (fun v => (6, STRING, [KString v]));
   opt_part (wAddPartitionsRequest_ValidWriteIdList p) (fun v => (7, STRING, [KString v]));
   opt_part (wAddPartitionsRequest_SkipColumnSchemaForPartition p) (fun v => (8, BOOL, [KBool v]));
   when_part (bool_decide (is_Some (wAddPartitionsRequest_PartitionColSchema p))) (9, LIST, list_toks STRUCT FieldSchema_toks (wAddPartitionsRequest_PartitionColSchema p));
   opt_part (wAddPartitionsRequest_EnvironmentContext p) (fun v => (10, STRUCT, sub_toks "EnvironmentContext" (Some v)))].
Definition AddPartitionsRequest_toks (p : option wAddPartitionsRequest) : list tok :=
  struct_toks (match p with Some p => concat (AddPartitionsRequest_wire p) | None => [] end).
Definition AddPartitionsRequest_canon (p : wAddPartitionsRequest) : wAddPartitionsRequest :=
  mk_wAddPartitionsRequest (wAddPartitionsRequest_DbName p)
    (wAddPartitionsRequest_TblName p)
    (Some (map (fun v => Some (Partition_own v)) (elems (wAddPartitionsRequest_Parts p))))
    (wAddPartitionsRequest_IfNotExists p)
    (wAddPartitionsRequest_NeedResult_ p)
    (wAddPartitionsRequest_CatName p)
    (wAddPartitionsRequest_ValidWriteIdList p)
    (wAddPartitionsRequest_SkipColumnSchemaForPartition p)
    (map (fun v => Some (FieldSchema_own v)) <$> wAddPartitionsRequest_PartitionColSchema p)
    (wAddPartitionsRequest_EnvironmentContext p).
Definition AddPartitionsRequest_ok (p : wAddPartitionsRequest) : Prop :=
  Forall (fun o => forall v, o = Some v -> Partition_ok v) (elems (wAddPartitionsRequest_Parts p)).

Lemma AddPartitionsRequest_writes strict d p : (4 <= d)%nat -> (2 + sub_depth <= d)%nat -> (strict -> forall p0, p = Some p0 -> AddPartitionsRequest_ok p0) -> 
  writes strict d (AddPartitionsRequest_Write p) (AddPartitionsRequest_toks p).
Proof. enter_valid AddPartitionsRequest_ok. unfold AddPartitionsRequest_wire, AddPartitionsRequest_writeField1, AddPartitionsRequest_writeField2, AddPartitionsRequest_writeField3, AddPartitionsRequest_writeField4, AddPartitionsRequest_writeField5, AddPartitionsRequest_writeField6, AddPartitionsRequest_writeField7, AddPartitionsRequest_writeField8, AddPartitionsRequest_writeField9, AddPartitionsRequest_writeField10. write_fields. Qed.
Lemma AddPartitionsRequest_runs d fuel p : (3 <= d)%nat -> (S sub_depth <= d)%nat -> (14 <= fuel)%nat -> (sub_fuel <= fuel)%nat -> 
  exists ids, runs d (AddPartitionsRequest_switch fuel) (concat (AddPartitionsRequest_wire p)) NewAddPartitionsRequest (AddPartitionsRequest_canon p) ids /\ 1 ∈ ids /\ 2 ∈ ids /\ 3 ∈ ids /\ 4 ∈ ids.
Proof.
  intros Hd Hsub Hf Hsf. unfold AddPartitionsRequest_wire. eexists.
  split.
  { cbn [concat]. run_one.
    run_one.
    run_one.
    run_one.
    run_when AddPartitionsRequest_set_NeedResult_ (wAddPartitionsRequest_NeedResult_ p) true.
    run_opt_same AddPartitionsRequest_set_CatName.
    run_opt_same AddPartitionsRequest_set_ValidWriteIdList.
    run_opt_same AddPartitionsRequest_set_SkipColumnSchemaForPartition.
    run_slice AddPartitionsRequest_set_PartitionColSchema (map (fun v => Some (FieldSchema_own v))).
    run_opt_same AddPartitionsRequest_set_EnvironmentContext.
    run_end. }
  split_and?; set_solver.
Qed.
Lemma AddPartitionsRequest_reads d fuel p : (4 <= d)%nat -> (2 + sub_depth <= d)%nat -> (14 <= fuel)%nat -> (sub_fuel <= fuel)%nat -> 
  reads d (AddPartitionsRequest_Read fuel NewAddPartitionsRequest) (AddPartitionsRequest_toks (Some p)) (AddPartitionsRequest_canon p).
Proof. struct_reads AddPartitionsRequest_runs AddPartitionsRequest_wire. Qed.
#[local] Hint Resolve AddPartitionsRequest_writes AddPartitionsRequest_reads : wire.

(** ** AddPartitionsResult_ *)

Definition AddPartitionsResult__wire (p : wAddPartitionsResult_) : list (list wfield) :=
  [when_part (bool_decide (is_Some (wAddPartitionsResult__Partitions p))) (1, LIST, list_toks STRUCT Partition_toks (wAddPartitionsResult__Partitions p));
   opt_part (wAddPartitionsResult__IsStatsCompliant p) (fun v => (2, BOOL, [KBool v]));
   when_part (bool_decide (is_Some (wAddPartitionsResult__PartitionColSchema p))) (3, LIST, list_toks STRUCT FieldSchema_toks (wAddPartitionsResult__PartitionColSchema p))].
Definition AddPartitionsResult__toks (p : option wAddPartitionsResult_) : list tok :=
  struct_toks (match p with Some p => concat (AddPartitionsResult__wire p) | None => [] end).
Definition AddPartitionsResult__canon (p : wAddPartitionsResult_) : wAddPartitionsResult_ :=
  mk_wAddPartitionsResult_ (map (fun v => Some (Partition_own v)) <$> wAddPartitionsResult__Partitions p)
    (wAddPartitionsResult__IsStatsCompliant p)
    (map (fun v => Some (FieldSchema_own v)) <$> wAddPartitionsResult__PartitionColSchema p).
Definition AddPartitionsResult__ok (p : wAddPartitionsResult_) : Prop :=
  Forall (fun o => forall v, o = Some v -> Partition_ok v) (elems (wAddPartitionsResult__Partitions p)).

Lemma AddPartitionsResult__writes strict d p : (4 <= d)%nat -> (2 + sub_depth <= d)%nat -> (strict -> forall p0, p = Some p0 -> AddPartitionsResult__ok p0) -> 
  writes strict d (AddPartitionsResult__Write p) (AddPartitionsResult__toks p).
Proof. enter_valid AddPartitionsResult__ok. unfold AddPartitionsResult__wire, AddPartitionsResult__writeField1, AddPartitionsResult__writeField2, AddPartitionsResult__writeField3. write_fields. Qed.
Lemma AddPartitionsResult__runs d fuel p : (3 <= d)%nat -> (S sub_depth <= d)%nat -> (14 <= fuel)%nat -> (sub_fuel <= fuel)%nat -> 
  exists ids, runs d (AddPartitionsResult__switch fuel) (concat (AddPartitionsResult__wire p)) NewAddPartitionsResult_ (AddPartitionsResult__canon p) ids.
Proof.
  intros Hd Hsub Hf Hsf. unfold AddPartitionsResult__wire. eexists.
  cbn [concat]. run_slice AddPartitionsResult__set_Partitions (map (fun v => Some (Partition_own v))).
  run_opt_same AddPartitionsResult__set_IsStatsCompliant.
  run_slice AddPartitionsResult__set_PartitionColSchema (map (fun v => Some (FieldSchema_own v))).
  run_end.
Qed.
Lemma AddPartitionsResult__reads d fuel p : (4 <= d)%nat -> (2 + sub_depth <= d)%nat -> (14 <= fuel)%nat -> (sub_fuel <= fuel)%nat -> 
  reads d (AddPartitionsResult__Read fuel NewAddPartitionsResult_) (AddPartitionsResult__toks (Some p)) (AddPartitionsResult__canon p).
Proof. struct_reads AddPartitionsResult__runs AddPartitionsResult__wire. Qed.
#[local] Hint Resolve AddPartitionsResult__writes AddPartitionsResult__reads : wire.

(** ** AlterPartitionsRequest *)

Definition AlterPartitionsRequest_wire (p : wAlterPartitionsRequest) : list (list wfield) :=
  [opt_part (wAlterPartitionsRequest_CatName p) (fun v => (1, STRING, [KString v]));
   [(2, STRING, [KString (wAlterPartitionsRequest_DbName p)])];
   [(3, STRING, [KString (wAlterPartitionsRequest_TableName p)])];
   [(4, LIST, list_toks STRUCT Partition_toks (wAlterPartitionsRequest_Partitions p))];
   opt_part (wAlterPartitionsRequest_EnvironmentContext p) (fun v => (5, STRUCT, sub_toks "EnvironmentContext" (Some v)));
   when_part (negb (wAlterPartitionsRequest_WriteId p =? (-1))) (6, I64, [KI64 (wAlterPartitionsRequest_WriteId p)]);
   opt_part (wAlterPartitionsRequest_ValidWriteIdList p) (fun v => (7, STRING, [KString v]));
   opt_part (wAlterPartitionsRequest_SkipColumnSchemaForPartition p) (fun v => (8, BOOL, [KBool v]));
   when_part (bool_decide (is_Some (wAlterPartitionsRequest_PartitionColSchema p))) (9, LIST, list_toks STRUCT FieldSchema_toks (wAlterPartitionsRequest_PartitionColSchema p))].
Definition AlterPartitionsRequest_toks (p : option wAlterPartitionsRequest) : list tok :=
  struct_toks (match p with Some p => concat (AlterPartitionsRequest_wire p) | None => [] end).
Definition AlterPartitionsRequest_canon (p : wAlterPartitionsRequest) : wAlterPartitionsRequest :=
  mk_wAlterPartitionsRequest (wAlterPartitionsRequest_CatName p)
    (wAlterPartitionsRequest_DbName p)
    (wAlterPartitionsRequest_TableName p)
    (Some (map (fun v => Some (Partition_own v)) (elems (wAlterPartitionsRequest_Partitions p))))
    (wAlterPartitionsRequest_EnvironmentContext p)
    (wAlterPartitionsRequest_WriteId p)
    (wAlterPartitionsRequest_ValidWriteIdList p)
    (wAlterPartitionsRequest_SkipColumnSchemaForPartition p)
    (map (fun v => Some (FieldSchema_own v)) <$> wAlterPartitionsRequest_PartitionColSchema p).
Definition AlterPartitionsRequest_ok (p : wAlterPartitionsRequest) : Prop :=
  Forall (fun o => forall v, o = Some v -> Partition_ok v) (elems (wAlterPartitionsRequest_Partitions p)).

Lemma AlterPartitionsRequest_writes strict d p : (4 <= d)%nat -> (2 + sub_depth <= d)%nat -> (strict -> forall p0, p = Some p0 -> AlterPartitionsRequest_ok p0) -> 
  writes strict d (AlterPartitionsRequest_Write p) (AlterPartitionsRequest_toks p).
Proof. enter_valid AlterPartitionsRequest_ok. unfold AlterPartitionsRequest_wire, AlterPartitionsRequest_writeField1, AlterPartitionsRequest_writeField2, AlterPartitionsRequest_writeField3, AlterPartitionsRequest_writeField4, AlterPartitionsRequest_writeField5, AlterPartitionsRequest_writeField6, AlterPartitionsRequest_writeField7, AlterPartitionsRequest_writeField8, AlterPartitionsRequest_writeField9. write_fields. Qed.
Lemma AlterPartitionsRequest_runs d fuel p : (3 <= d)%nat -> (S sub_depth <= d)%nat -> (14 <= fuel)%nat -> (sub_fuel <= fuel)%nat -> 
  exists ids, runs d (AlterPartitionsRequest_switch fuel) (concat (AlterPartitionsRequest_wire p)) NewAlterPartitionsRequest (AlterPartitionsRequest_canon p) ids /\ 2 ∈ ids /\ 3 ∈ ids /\ 4 ∈ ids.
Proof.
  intros Hd Hsub Hf Hsf. unfold AlterPartitionsRequest_wire. eexists.
  split.
  { cbn [concat]. run_opt_same AlterPartitionsRequest_set_CatName.
    run_one.
    run_one.
    run_one.
    run_opt_same AlterPartitionsRequest_set_EnvironmentContext.
    run_when AlterPartitionsRequest_set_WriteId (wAlterPartitionsRequest_WriteId p) (-1).
    run_opt_same AlterPartitionsRequest_set_ValidWriteIdList.
    run_opt_same AlterPartitionsRequest_set_SkipColumnSchemaForPartition.
    run_slice AlterPartitionsRequest_set_PartitionColSchema (map (fun v => Some (FieldSchema_own v))).
    run_end. }
  split_and?; set_solver.
Qed.
Lemma AlterPartitionsRequest_reads d fuel p : (4 <= d)%nat -> (2 + sub_depth <= d)%nat -> (14 <= fuel)%nat -> (sub_fuel <= fuel)%nat -> 
  reads d (AlterPartitionsRequest_Read fuel NewAlterPartitionsRequest) (AlterPartitionsRequest_toks (Some p)) (AlterPartitionsRequest_canon p).
Proof. struct_reads AlterPartitionsRequest_runs AlterPartitionsRequest_wire. Qed.
#[local] Hint Resolve AlterPartitionsRequest_writes AlterPartitionsRequest_reads : wire.

(** ** AlterPartitionsResponse *)

Definition AlterPartitionsResponse_wire (p : wAlterPartitionsResponse) : list (list wfield) :=
  [].
Definition AlterPartitionsResponse_toks (p : option wAlterPartitionsResponse) : list tok :=
  struct_toks (match p with Some p => concat (AlterPartitionsResponse_wire p) | None => [] end).
Definition AlterPartitionsResponse_canon (_ : wAlterPartitionsResponse) : wAlterPartitionsResponse := mk_wAlterPartitionsResponse.

Lemma AlterPartitionsResponse_writes strict d p : (1 <= d)%nat -> 
  writes strict d (AlterPartitionsResponse_Write p) (AlterPartitionsResponse_toks p).
Proof. enter_struct. unfold AlterPartitionsResponse_wire. write_fields. Qed.
Lemma AlterPartitionsResponse_runs d fuel p : (0 <= d)%nat -> (1 <= fuel)%nat -> 
  exists ids, runs d AlterPartitionsResponse_switch (concat (AlterPartitionsResponse_wire p)) NewAlterPartitionsResponse (AlterPartitionsResponse_canon p) ids.
Proof.
  intros Hd Hf. exists []. destruct p. constructor.
Qed.
Lemma AlterPartitionsResponse_reads d fuel p : (1 <= d)%nat -> (1 <= fuel)%nat -> 
  reads d (AlterPartitionsResponse_Read fuel NewAlterPartitionsResponse) (AlterPartitionsResponse_toks (Some p)) (AlterPartitionsResponse_canon p).
Proof. struct_reads AlterPartitionsResponse_runs AlterPartitionsResponse_wire. Qed.
#[local] Hint Resolve AlterPartitionsResponse_writes AlterPartitionsResponse_reads : wire.

(** ** RequestPartsSpec *)

Definition RequestPartsSpec_wire (p : wRequestPartsSpec) : list (list wfield) :=
  [when_part (bool_decide (is_Some (wRequestPartsSpec_Names p))) (1, LIST, strings_toks (wRequestPartsSpec_Names p));
   when_part (bool_decide (is_Some (wRequestPartsSpec_Exprs p))) (2, LIST, list_toks STRUCT (sub_toks "DropPartitionsExpr") (wRequestPartsSpec_Exprs p))].
Definition RequestPartsSpec_toks (p : option wRequestPartsSpec) : list tok :=
  struct_toks (match p with Some p => concat (RequestPartsSpec_wire p) | None => [] end).
Definition RequestPartsSpec_canon (p : wRequestPartsSpec) : wRequestPartsSpec :=
  mk_wRequestPartsSpec (wRequestPartsSpec_Names p)
    (map (fun v => Some (default EmptyString v)) <$> wRequestPartsSpec_Exprs p).
Definition RequestPartsSpec_ok (p : wRequestPartsSpec) : Prop :=
  RequestPartsSpec_CountSetFields (Some p) = 1.
Definition RequestPartsSpec_full (p : wRequestPartsSpec) : Prop :=
  Forall (fun o => exists v, o = Some v /\ True) (elems (wRequestPartsSpec_Exprs p)).

Lemma RequestPartsSpec_writes strict d p : (1 <= d)%nat -> (S sub_depth <= d)%nat -> (strict -> exists v, p = Some v /\ RequestPartsSpec_ok v) -> 
  writes strict d (RequestPartsSpec_Write p) (RequestPartsSpec_toks p).
Proof.
  intros Hd Hsub Hv. destruct d as [|d]; [lia|]. destruct p as [p|]; [|apply writes_union_nil; intros Hs;
     by destruct (Hv Hs) as (? & ? & _)].
  assert (strict -> RequestPartsSpec_ok p) as Hok by (intros Hs;
     by destruct (Hv Hs) as (? & [= <-] & ?)). clear Hv. unfold RequestPartsSpec_ok in Hok.
  apply writes_union; [intros Hs; specialize (Hok Hs);
     by destruct_and? Hok|]. unfold RequestPartsSpec_wire, RequestPartsSpec_writeField1, RequestPartsSpec_writeField2. write_fields.
Qed.
Lemma RequestPartsSpec_runs d fuel p : (0 <= d)%nat -> (sub_depth <= d)%nat -> (3 <= fuel)%nat -> (sub_fuel <= fuel)%nat -> RequestPartsSpec_full p -> 
  exists ids, runs d (RequestPartsSpec_switch fuel) (concat (RequestPartsSpec_wire p)) NewRequestPartsSpec (RequestPartsSpec_canon p) ids.
Proof.
  intros Hd Hsub Hf Hsf Hfull. unfold RequestPartsSpec_wire. unfold RequestPartsSpec_full in Hfull. destruct_and? Hfull. eexists.
  cbn [concat]. run_slice_same RequestPartsSpec_set_Names.
  run_slice_full_in RequestPartsSpec_set_Exprs (fun v => Some (default EmptyString v)).
  run_end.
Qed.
Lemma RequestPartsSpec_reads d fuel p : (1 <= d)%nat -> (S sub_depth <= d)%nat -> (3 <= fuel)%nat -> (sub_fuel <= fuel)%nat -> RequestPartsSpec_full p -> 
  reads d (RequestPartsSpec_Read fuel NewRequestPartsSpec) (RequestPartsSpec_toks (Some p)) (RequestPartsSpec_canon p).
Proof. struct_reads RequestPartsSpec_runs RequestPartsSpec_wire. Qed.
#[local] Hint Resolve RequestPartsSpec_writes RequestPartsSpec_reads : wire.

(** ** DropPartitionsRequest *)

Definition DropPartitionsRequest_wire (p : wDropPartitionsRequest) : list (list wfield) :=
  [[(1, STRING, [KString (wDropPartitionsRequest_DbName p)])];
   [(2, STRING, [KString (wDropPartitionsRequest_TblName p)])];
   [(3, STRUCT, RequestPartsSpec_toks (wDropPartitionsRequest_Parts p))];
   opt_part (wDropPartitionsRequest_DeleteData p) (fun v => (4, BOOL, [KBool v]));
   when_part (negb (Bool.eqb (wDropPartitionsRequest_IfExists p) true)) (5, BOOL, [KBool (wDropPartitionsRequest_IfExists p)]);
   opt_part (wDropPartitionsRequest_IgnoreProtection p) (fun v => (6, BOOL, [KBool v]));
   opt_part (wDropPartitionsRequest_EnvironmentContext p) (fun v => (7, STRUCT, sub_toks "EnvironmentContext" (Some v)));
   when_part (negb (Bool.eqb (wDropPartitionsRequest_NeedResult_ p) true)) (8, BOOL, [KBool (wDropPartitionsRequest_NeedResult_ p)]);
   opt_part (wDropPartitionsRequest_CatName p) (fun v => (9, STRING, [KString v]));
   opt_part (wDropPartitionsRequest_SkipColumnSchemaForPartition p) (fun v => (10, BOOL, [KBool v]))].
Definition DropPartitionsRequest_toks (p : option wDropPartitionsRequest) : list tok :=
  struct_toks (match p with Some p => concat (DropPartitionsRequest_wire p) | None => [] end).
Definition DropPartitionsRequest_canon (p : wDropPartitionsRequest) : wDropPartitionsRequest :=
  mk_wDropPartitionsRequest (wDropPartitionsRequest_DbName p)
    (wDropPartitionsRequest_TblName p)
    (RequestPartsSpec_canon <$> wDropPartitionsRequest_Parts p)
    (wDropPartitionsRequest_DeleteData p)
    (wDropPartitionsRequest_IfExists p)
    (wDropPartitionsRequest_IgnoreProtection p)
    (wDropPartitionsRequest_EnvironmentContext p)
    (wDropPartitionsRequest_NeedResult_ p)
    (wDropPartitionsRequest_CatName p)
    (wDropPartitionsRequest_SkipColumnSchemaForPartition p).
Definition DropPartitionsRequest_ok (p : wDropPartitionsRequest) : Prop :=
  exists v, wDropPartitionsRequest_Parts p = Some v /\ RequestPartsSpec_ok v.
Definition DropPartitionsRequest_full (p : wDropPartitionsRequest) : Prop :=
  exists v, wDropPartitionsRequest_Parts p = Some v /\ RequestPartsSpec_full v.

Lemma DropPartitionsRequest_writes strict d p : (2 <= d)%nat -> (2 + sub_depth <= d)%nat -> (strict -> forall p0, p = Some p0 -> DropPartitionsRequest_ok p0) -> 
  writes strict d (DropPartitionsRequest_Write p) (DropPartitionsRequest_toks p).
Proof. enter_valid DropPartitionsRequest_ok. unfold DropPartitionsRequest_wire, DropPartitionsRequest_writeField1, DropPartitionsRequest_writeField2, DropPartitionsRequest_writeField3, DropPartitionsRequest_writeField4, DropPartitionsRequest_writeField5, DropPartitionsRequest_writeField6, DropPartitionsRequest_writeField7, DropPartitionsRequest_writeField8, DropPartitionsRequest_writeField9, DropPartitionsRequest_writeField10. write_fields. Qed.
Lemma DropPartitionsRequest_runs d fuel p : (1 <= d)%nat -> (S sub_depth <= d)%nat -> (11 <= fuel)%nat -> (sub_fuel <= fuel)%nat -> DropPartitionsRequest_full p -> 
  exists ids, runs d (DropPartitionsRequest_switch fuel) (concat (DropPartitionsRequest_wire p)) NewDropPartitionsRequest (DropPartitionsRequest_canon p) ids /\ 1 ∈ ids /\ 2 ∈ ids /\ 3 ∈ ids.
Proof.
  intros Hd Hsub Hf Hsf Hfull. unfold DropPartitionsRequest_wire, DropPartitionsRequest_canon. unfold DropPartitionsRequest_full in Hfull. destruct_and? Hfull. eexists.
  split.
  { cbn [concat]. run_one.
    run_one.
    run_there RequestPartsSpec_canon.
    run_opt_same DropPartitionsRequest_set_DeleteData.
    run_when DropPartitionsRequest_set_IfExists (wDropPartitionsRequest_IfExists p) true.
    run_opt_same DropPartitionsRequest_set_IgnoreProtection.
    run_opt_same DropPartitionsRequest_set_EnvironmentContext.
    run_when DropPartitionsRequest_set_NeedResult_ (wDropPartitionsRequest_NeedResult_ p) true.
    run_opt_same DropPartitionsRequest_set_CatName.
    run_opt_same DropPartitionsRequest_set_SkipColumnSchemaForPartition.
    run_end. }
  split_and?; set_solver.
Qed.
Lemma DropPartitionsRequest_reads d fuel p : (2 <= d)%nat -> (2 + sub_depth <= d)%nat -> (11 <= fuel)%nat -> (sub_fuel <= fuel)%nat -> DropPartitionsRequest_full p -> 
  reads d (DropPartitionsRequest_Read fuel NewDropPartitionsRequest) (DropPartitionsRequest_toks (Some p)) (DropPartitionsRequest_canon p).
Proof. struct_reads DropPartitionsRequest_runs DropPartitionsRequest_wire. Qed.
#[local] Hint Resolve DropPartitionsRequest_writes DropPartitionsRequest_reads : wire.

(** ** DropPartitionsResult_ *)

Definition DropPartitionsResult__wire (p : wDropPartitionsResult_) : list (list wfield) :=
  [when_part (bool_decide (is_Some (wDropPartitionsResult__Partitions p))) (1, LIST, list_toks STRUCT Partition_toks (wDropPartitionsResult__Partitions p))].
Definition DropPartitionsResult__toks (p : option wDropPartitionsResult_) : list tok :=
  struct_toks (match p with Some p => concat (DropPartitionsResult__wire p) | None => [] end).
Definition DropPartitionsResult__canon (p : wDropPartitionsResult_) : wDropPartitionsResult_ :=
  mk_wDropPartitionsResult_ (map (fun v => Some (Partition_own v)) <$> wDropPartitionsResult__Partitions p).
Definition DropPartitionsResult__ok (p : wDropPartitionsResult_) : Prop :=
  Forall (fun o => forall v, o = Some v -> Partition_ok v) (elems (wDropPartitionsResult__Partitions p)).

Lemma DropPartitionsResult__writes strict d p : (4 <= d)%nat -> (2 + sub_depth <= d)%nat -> (strict -> forall p0, p = Some p0 -> DropPartitionsResult__ok p0) -> 
  writes strict d (DropPartitionsResult__Write p) (DropPartitionsResult__toks p).
Proof. enter_valid DropPartitionsResult__ok. unfold DropPartitionsResult__wire, DropPartitionsResult__writeField1. write_fields. Qed.
Lemma DropPartitionsResult__runs d fuel p : (3 <= d)%nat -> (S sub_depth <= d)%nat -> (14 <= fuel)%nat -> (sub_fuel <= fuel)%nat -> 
  exists ids, runs d (DropPartitionsResult__switch fuel) (concat (DropPartitionsResult__wire p)) NewDropPartitionsResult_ (DropPartitionsResult__canon p) ids.
Proof.
  intros Hd Hsub Hf Hsf. unfold DropPartitionsResult__wire. eexists.
  cbn [concat]. run_slice DropPartitionsResult__set_Partitions (map (fun v => Some (Partition_own v))).
  run_end.
Qed.
Lemma DropPartitionsResult__reads d fuel p : (4 <= d)%nat -> (2 + sub_depth <= d)%nat -> (14 <= fuel)%nat -> (sub_fuel <= fuel)%nat -> 
  reads d (DropPartitionsResult__Read fuel NewDropPartitionsResult_) (DropPartitionsResult__toks (Some p)) (DropPartitionsResult__canon p).
Proof. struct_reads DropPartitionsResult__runs DropPartitionsResult__wire. Qed.
#[local] Hint Resolve DropPartitionsResult__writes DropPartitionsResult__reads : wire.

(** ** GetPartitionsByNamesRequest *)

Definition GetPartitionsByNamesRequest_wire (p : wGetPartitionsByNamesRequest) : list (list wfield) :=
  [[(1, STRING, [KString (wGetPartitionsByNamesRequest_DbName p)])];
   [(2, STRING, [KString (wGetPartitionsByNamesRequest_TblName p)])];
   when_part (bool_decide (is_Some (wGetPartitionsByNamesRequest_Names p))) (3, LIST, strings_toks (wGetPartitionsByNamesRequest_Names p));
   opt_part (wGetPartitionsByNamesRequest_GetColStats p) (fun v => (4, BOOL, [KBool v]));
   when_part (bool_decide (is_Some (wGetPartitionsByNamesRequest_ProcessorCapabilities p))) (5, LIST, strings_toks (wGetPartitionsByNamesRequest_ProcessorCapabilities p));
   opt_part (wGetPartitionsByNamesRequest_ProcessorIdentifier p) (fun v => (6, STRING, [KString v]));
   when_part (negb (String.eqb (wGetPartitionsByNamesRequest_Engine p) "hive")) (7, STRING, [KString (wGetPartitionsByNamesRequest_Engine p)]);
   opt_part (wGetPartitionsByNamesRequest_ValidWriteIdList p) (fun v => (8, STRING, [KString v]));
   opt_part (wGetPartitionsByNamesRequest_GetFileMetadata p) (fun v => (9, BOOL, [KBool v]));
   when_part (negb (wGetPartitionsByNamesRequest_ID p =? (-1))) (10, I64, [KI64 (wGetPartitionsByNamesRequest_ID p)]);
   opt_part (wGetPartitionsByNamesRequest_SkipColumnSchemaForPartition p) (fun v => (11, BOOL, [KBool v]));
   opt_part (wGetPartitionsByNamesRequest_IncludeParamKeyPattern p) (fun v => (12, STRING, [KString v]));
   opt_part (wGetPartitionsByNamesRequest_ExcludeParamKeyPattern p) (fun v => (13, STRING, [KString v]))].
Definition GetPartitionsByNamesRequest_toks (p : option wGetPartitionsByNamesRequest) : list tok :=
  struct_toks (match p with Some p => concat (GetPartitionsByNamesRequest_wire p) | None => [] end).
Definition GetPartitionsByNamesRequest_canon (p : wGetPartitionsByNamesRequest) : wGetPartitionsByNamesRequest :=
  mk_wGetPartitionsByNamesRequest (wGetPartitionsByNamesRequest_DbName p)
    (wGetPartitionsByNamesRequest_TblName p)
    (wGetPartitionsByNamesRequest_Names p)
    (wGetPartitionsByNamesRequest_GetColStats p)
    (wGetPartitionsByNamesRequest_ProcessorCapabilities p)
    (wGetPartitionsByNamesRequest_ProcessorIdentifier p)
    (wGetPartitionsByNamesRequest_Engine p)
    (wGetPartitionsByNamesRequest_ValidWriteIdList p)
    (wGetPartitionsByNamesRequest_GetFileMetadata p)
    (wGetPartitionsByNamesRequest_ID p)
    (wGetPartitionsByNamesRequest_SkipColumnSchemaForPartition p)
    (wGetPartitionsByNamesRequest_IncludeParamKeyPattern p)
    (wGetPartitionsByNamesRequest_ExcludeParamKeyPattern p).

Lemma GetPartitionsByNamesRequest_writes strict d p : (1 <= d)%nat -> 
  writes strict d (GetPartitionsByNamesRequest_Write p) (GetPartitionsByNamesRequest_toks p).
Proof. enter_struct. unfold GetPartitionsByNamesRequest_wire, GetPartitionsByNamesRequest_writeField1, GetPartitionsByNamesRequest_writeField2, GetPartitionsByNamesRequest_writeField3, GetPartitionsByNamesRequest_writeField4, GetPartitionsByNamesRequest_writeField5, GetPartitionsByNamesRequest_writeField6, GetPartitionsByNamesRequest_writeField7, GetPartitionsByNamesRequest_writeField8, GetPartitionsByNamesRequest_writeField9, GetPartitionsByNamesRequest_writeField10, GetPartitionsByNamesRequest_writeField11, GetPartitionsByNamesRequest_writeField12, GetPartitionsByNamesRequest_writeField13. write_fields. Qed.
Lemma GetPartitionsByNamesRequest_runs d fuel p : (0 <= d)%nat -> (14 <= fuel)%nat -> 
  exists ids, runs d GetPartitionsByNamesRequest_switch (concat (GetPartitionsByNamesRequest_wire p)) NewGetPartitionsByNamesRequest (GetPartitionsByNamesRequest_canon p) ids /\ 1 ∈ ids /\ 2 ∈ ids.
Proof.
  intros Hd Hf. unfold GetPartitionsByNamesRequest_wire. eexists.
  split.
  { cbn [concat]. run_one.
    run_one.
    run_slice_same GetPartitionsByNamesRequest_set_Names.
    run_opt_same GetPartitionsByNamesRequest_set_GetColStats.
    run_slice_same GetPartitionsByNamesRequest_set_ProcessorCapabilities.
    run_opt_same GetPartitionsByNamesRequest_set_ProcessorIdentifier.
    run_when GetPartitionsByNamesRequest_set_Engine (wGetPartitionsByNamesRequest_Engine p) "hive".
    run_opt_same GetPartitionsByNamesRequest_set_ValidWriteIdList.
    run_opt_same GetPartitionsByNamesRequest_set_GetFileMetadata.
    run_when GetPartitionsByNamesRequest_set_ID (wGetPartitionsByNamesRequest_ID p) (-1).
    run_opt_same GetPartitionsByNamesRequest_set_SkipColumnSchemaForPartition.
    run_opt_same GetPartitionsByNamesRequest_set_IncludeParamKeyPattern.
    run_opt_same GetPartitionsByNamesRequest_set_ExcludeParamKeyPattern.
    run_end. }
  split_and?; set_solver.
Qed.
Lemma GetPartitionsByNamesRequest_reads d fuel p : (1 <= d)%nat -> (14 <= fuel)%nat -> 
  reads d (GetPartitionsByNamesRequest_Read fuel NewGetPartitionsByNamesRequest) (GetPartitionsByNamesRequest_toks (Some p)) (GetPartitionsByNamesRequest_canon p).
Proof. struct_reads GetPartitionsByNamesRequest_runs GetPartitionsByNamesRequest_wire. Qed.
#[local] Hint Resolve GetPartitionsByNamesRequest_writes GetPartitionsByNamesRequest_reads : wire.

(** ** GetPartitionsByNamesResult_ *)

Definition GetPartitionsByNamesResult__wire (p : wGetPartitionsByNamesResult_) : list (list wfield) :=
  [[(1, LIST, list_toks STRUCT Partition_toks (wGetPartitionsByNamesResult__Partitions p))];
   opt_part (wGetPartitionsByNamesResult__Dictionary p) (fun v => (2, STRUCT, sub_toks "ObjectDictionary" (Some v)))].
Definition GetPartitionsByNamesResult__toks (p : option wGetPartitionsByNamesResult_) : list tok :=
  struct_toks (match p with Some p => concat (GetPartitionsByNamesResult__wire p) | None => [] end).
Definition GetPartitionsByNamesResult__canon (p : wGetPartitionsByNamesResult_) : wGetPartitionsByNamesResult_ :=
  mk_wGetPartitionsByNamesResult_ (Some (map (fun v => Some (Partition_own v)) (elems (wGetPartitionsByNamesResult__Partitions p))))
    (wGetPartitionsByNamesResult__Dictionary p).
Definition GetPartitionsByNamesResult__ok (p : wGetPartitionsByNamesResult_) : Prop :=
  Forall (fun o => forall v, o = Some v -> Partition_ok v) (elems (wGetPartitionsByNamesResult__Partitions p)).

Lemma GetPartitionsByNamesResult__writes strict d p : (4 <= d)%nat -> (2 + sub_depth <= d)%nat -> (strict -> forall p0, p = Some p0 -> GetPartitionsByNamesResult__ok p0) -> 
  writes strict d (GetPartitionsByNamesResult__Write p) (GetPartitionsByNamesResult__toks p).
Proof. enter_valid GetPartitionsByNamesResult__ok. unfold GetPartitionsByNamesResult__wire, GetPartitionsByNamesResult__writeField1, GetPartitionsByNamesResult__writeField2. write_fields. Qed.
Lemma GetPartitionsByNamesResult__runs d fuel p : (3 <= d)%nat -> (S sub_depth <= d)%nat -> (14 <= fuel)%nat -> (sub_fuel <= fuel)%nat -> 
  exists ids, runs d (GetPartitionsByNamesResult__switch fuel) (concat (GetPartitionsByNamesResult__wire p)) NewGetPartitionsByNamesResult_ (GetPartitionsByNamesResult__canon p) ids /\ 1 ∈ ids.
Proof.
  intros Hd Hsub Hf Hsf. unfold GetPartitionsByNamesResult__wire. eexists.
  split.
  { cbn [concat]. run_one.
    run_opt_same GetPartitionsByNamesResult__set_Dictionary.
    run_end. }
  split_and?; set_solver.
Qed.
Lemma GetPartitionsByNamesResult__reads d fuel p : (4 <= d)%nat -> (2 + sub_depth <= d)%nat -> (14 <= fuel)%nat -> (sub_fuel <= fuel)%nat -> 
  reads d (GetPartitionsByNamesResult__Read fuel NewGetPartitionsByNamesResult_) (GetPartitionsByNamesResult__toks (Some p)) (GetPartitionsByNamesResult__canon p).
Proof. struct_reads GetPartitionsByNamesResult__runs GetPartitionsByNamesResult__wire. Qed.
#[local] Hint Resolve GetPartitionsByNamesResult__writes GetPartitionsByNamesResult__reads : wire.

(** ** GetPartitionNamesPsRequest *)

Definition GetPartitionNamesPsRequest_wire (p : wGetPartitionNamesPsRequest) : list (list wfield) :=
  [opt_part (wGetPartitionNamesPsRequest_CatName p) (fun v => (1, STRING, [KString v]));
   [(2, STRING, [KString (wGetPartitionNamesPsRequest_DbName p)])];
   [(3, STRING, [KString (wGetPartitionNamesPsRequest_TblName p)])];
   when_part (bool_decide (is_Some (wGetPartitionNamesPsRequest_PartValues p))) (4, LIST, strings_toks (wGetPartitionNamesPsRequest_PartValues p));
   when_part (negb (wGetPartitionNamesPsRequest_MaxParts p =? (-1))) (5, I16, [KI16 (wGetPartitionNamesPsRequest_MaxParts p)]);
   opt_part (wGetPartitionNamesPsRequest_ValidWriteIdList p) (fun v => (6, STRING, [KString v]));
   when_part (negb (wGetPartitionNamesPsRequest_ID p =? (-1))) (7, I64, [KI64 (wGetPartitionNamesPsRequest_ID p)])].
Definition GetPartitionNamesPsRequest_toks (p : option wGetPartitionNamesPsRequest) : list tok :=
  struct_toks (match p with Some p => concat (GetPartitionNamesPsRequest_wire p) | None => [] end).
Definition GetPartitionNamesPsRequest_canon (p : wGetPartitionNamesPsRequest) : wGetPartitionNamesPsRequest :=
  mk_wGetPartitionNamesPsRequest (wGetPartitionNamesPsRequest_CatName p)
    (wGetPartitionNamesPsRequest_DbName p)
    (wGetPartitionNamesPsRequest_TblName p)
    (wGetPartitionNamesPsRequest_PartValues p)
    (wGetPartitionNamesPsRequest_MaxParts p)
    (wGetPartitionNamesPsRequest_ValidWriteIdList p)
    (wGetPartitionNamesPsRequest_ID p).

Lemma GetPartitionNamesPsRequest_writes strict d p : (1 <= d)%nat -> 
  writes strict d (GetPartitionNamesPsRequest_Write p) (GetPartitionNamesPsRequest_toks p).
Proof. enter_struct. unfold GetPartitionNamesPsRequest_wire, GetPartitionNamesPsRequest_writeField1, GetPartitionNamesPsRequest_writeField2, GetPartitionNamesPsRequest_writeField3, GetPartitionNamesPsRequest_writeField4, GetPartitionNamesPsRequest_writeField5, GetPartitionNamesPsRequest_writeField6, GetPartitionNamesPsRequest_writeField7. write_fields. Qed.
Lemma GetPartitionNamesPsRequest_runs d fuel p : (0 <= d)%nat -> (8 <= fuel)%nat -> 
  exists ids, runs d GetPartitionNamesPsRequest_switch (concat (GetPartitionNamesPsRequest_wire p)) NewGetPartitionNamesPsRequest (GetPartitionNamesPsRequest_canon p) ids /\ 2 ∈ ids /\ 3 ∈ ids.
Proof.
  intros Hd Hf. unfold GetPartitionNamesPsRequest_wire. eexists.
  split.
  { cbn [concat]. run_opt_same GetPartitionNamesPsRequest_set_CatName.
    run_one.
    run_one.
    run_slice_same GetPartitionNamesPsRequest_set_PartValues.
    run_when GetPartitionNamesPsRequest_set_MaxParts (wGetPartitionNamesPsRequest_MaxParts p) (-1).
    run_opt_same GetPartitionNamesPsRequest_set_ValidWriteIdList.
    run_when GetPartitionNamesPsRequest_set_ID (wGetPartitionNamesPsRequest_ID p) (-1).
    run_end. }
  split_and?; set_solver.
Qed.
Lemma GetPartitionNamesPsRequest_reads d fuel p : (1 <= d)%nat -> (8 <= fuel)%nat -> 
  reads d (GetPartitionNamesPsRequest_Read fuel NewGetPartitionNamesPsRequest) (GetPartitionNamesPsRequest_toks (Some p)) (GetPartitionNamesPsRequest_canon p).
Proof. struct_reads GetPartitionNamesPsRequest_runs GetPartitionNamesPsRequest_wire. Qed.
#[local] Hint Resolve GetPartitionNamesPsRequest_writes GetPartitionNamesPsRequest_reads : wire.

(** ** GetPartitionNamesPsResponse *)

Definition GetPartitionNamesPsResponse_wire (p : wGetPartitionNamesPsResponse) : list (list wfield) :=
  [[(1, LIST, strings_toks (wGetPartitionNamesPsResponse_Names p))]].
Definition GetPartitionNamesPsResponse_toks (p : option wGetPartitionNamesPsResponse) : list tok :=
  struct_toks (match p with Some p => concat (GetPartitionNamesPsResponse_wire p) | None => [] end).
Definition GetPartitionNamesPsResponse_canon (p : wGetPartitionNamesPsResponse) : wGetPartitionNamesPsResponse :=
  mk_wGetPartitionNamesPsResponse (own_strings (wGetPartitionNamesPsResponse_Names p)).

Lemma GetPartitionNamesPsResponse_writes strict d p : (1 <= d)%nat -> 
  writes strict d (GetPartitionNamesPsResponse_Write p) (GetPartitionNamesPsResponse_toks p).
Proof. enter_struct. unfold GetPartitionNamesPsResponse_wire, GetPartitionNamesPsResponse_writeField1. write_fields. Qed.
Lemma GetPartitionNamesPsResponse_runs d fuel p : (0 <= d)%nat -> (2 <= fuel)%nat -> 
  exists ids, runs d GetPartitionNamesPsResponse_switch (concat (GetPartitionNamesPsResponse_wire p)) NewGetPartitionNamesPsResponse (GetPartitionNamesPsResponse_canon p) ids /\ 1 ∈ ids.
Proof.
  intros Hd Hf. unfold GetPartitionNamesPsResponse_wire. eexists.
  split.
  { cbn [concat]. run_one.
    run_end. }
  split_and?; set_solver.
Qed.
Lemma GetPartitionNamesPsResponse_reads d fuel p : (1 <= d)%nat -> (2 <= fuel)%nat -> 
  reads d (GetPartitionNamesPsResponse_Read fuel NewGetPartitionNamesPsResponse) (GetPartitionNamesPsResponse_toks (Some p)) (GetPartitionNamesPsResponse_canon p).
Proof. struct_reads GetPartitionNamesPsResponse_runs GetPartitionNamesPsResponse_wire. Qed.
#[local] Hint Resolve GetPartitionNamesPsResponse_writes GetPartitionNamesPsResponse_reads : wire.

(** ** CommitTxnRequest *)

Definition CommitTxnRequest_wire (p : wCommitTxnRequest) : list (list wfield) :=
  [[(1, I64, [KI64 (wCommitTxnRequest_Txnid p)])];
   opt_part (wCommitTxnRequest_ReplPolicy p) (fun v => (2, STRING, [KString v]));
   when_part (bool_decide (is_Some (wCommitTxnRequest_WriteEventInfos p))) (3, LIST, list_toks STRUCT (sub_toks "WriteEventInfo") (wCommitTxnRequest_WriteEventInfos p));
   opt_part (wCommitTxnRequest_ReplLastIdInfo p) (fun v => (4, STRUCT, sub_toks "ReplLastIdInfo" (Some v)));
   opt_part (wCommitTxnRequest_KeyValue p) (fun v => (5, STRUCT, sub_toks "CommitTxnKeyValue" (Some v)));
   when_part (negb (Bool.eqb (wCommitTxnRequest_ExclWriteEnabled p) true)) (6, BOOL, [KBool (wCommitTxnRequest_ExclWriteEnabled p)]);
   opt_part (wCommitTxnRequest_TxnType p) (fun v => (7, I32, [KI32 (int32 v)]))].
Definition CommitTxnRequest_toks (p : option wCommitTxnRequest) : list tok :=
  struct_toks (match p with Some p => concat (CommitTxnRequest_wire p) | None => [] end).
Definition CommitTxnRequest_canon (p : wCommitTxnRequest) : wCommitTxnRequest :=
  mk_wCommitTxnRequest (wCommitTxnRequest_Txnid p)
    (wCommitTxnRequest_ReplPolicy p)
    (map (fun v => Some (default EmptyString v)) <$> wCommitTxnRequest_WriteEventInfos p)
    (wCommitTxnRequest_ReplLastIdInfo p)
    (wCommitTxnRequest_KeyValue p)
    (wCommitTxnRequest_ExclWriteEnabled p)
    (int32 <$> wCommitTxnRequest_TxnType p).
Definition CommitTxnRequest_full (p : wCommitTxnRequest) : Prop :=
  Forall (fun o => exists v, o = Some v /\ True) (elems (wCommitTxnRequest_WriteEventInfos p)).

Lemma CommitTxnRequest_writes strict d p : (1 <= d)%nat -> (S sub_depth <= d)%nat -> 
  writes strict d (CommitTxnRequest_Write p) (CommitTxnRequest_toks p).
Proof. enter_struct. unfold CommitTxnRequest_wire, CommitTxnRequest_writeField1, CommitTxnRequest_writeField2, CommitTxnRequest_writeField3, CommitTxnRequest_writeField4, CommitTxnRequest_writeField5, CommitTxnRequest_writeField6, CommitTxnRequest_writeField7. write_fields. Qed.
Lemma CommitTxnRequest_runs d fuel p : (0 <= d)%nat -> (sub_depth <= d)%nat -> (8 <= fuel)%nat -> (sub_fuel <= fuel)%nat -> CommitTxnRequest_full p -> 
  exists ids, runs d (CommitTxnRequest_switch fuel) (concat (CommitTxnRequest_wire p)) NewCommitTxnRequest (CommitTxnRequest_canon p) ids /\ 1 ∈ ids.
Proof.
  intros Hd Hsub Hf Hsf Hfull. unfold CommitTxnRequest_wire. unfold CommitTxnRequest_full in Hfull. destruct_and? Hfull. eexists.
  split.
  { cbn [concat]. run_one.
    run_opt_same CommitTxnRequest_set_ReplPolicy.
    run_slice_full_in CommitTxnRequest_set_WriteEventInfos (fun v => Some (default EmptyString v)).
    run_opt_same CommitTxnRequest_set_ReplLastIdInfo.
    run_opt_same CommitTxnRequest_set_KeyValue.
    run_when CommitTxnRequest_set_ExclWriteEnabled (wCommitTxnRequest_ExclWriteEnabled p) true.
    run_opt CommitTxnRequest_set_TxnType int32.
    run_end. }
  split_and?; set_solver.
Qed.
Lemma CommitTxnRequest_reads d fuel p : (1 <= d)%nat -> (S sub_depth <= d)%nat -> (8 <= fuel)%nat -> (sub_fuel <= fuel)%nat -> CommitTxnRequest_full p -> 
  reads d (CommitTxnRequest_Read fuel NewCommitTxnRequest) (CommitTxnRequest_toks (Some p)) (CommitTxnRequest_canon p).
Proof. struct_reads CommitTxnRequest_runs CommitTxnRequest_wire. Qed.
#[local] Hint Resolve CommitTxnRequest_writes CommitTxnRequest_reads : wire.
End facts.

#[export] Hint Resolve Table_own_reads Partition_own_reads GetCatalogRequest_writes GetCatalogRequest_reads
  GetCatalogResponse_writes GetCatalogResponse_reads GetCatalogsResponse_writes GetCatalogsResponse_reads
  CreateCatalogRequest_writes CreateCatalogRequest_reads DropCatalogRequest_writes DropCatalogRequest_reads
  GetTableRequest_writes GetTableRequest_reads GetTableResult__writes GetTableResult__reads
  GetTablesRequest_writes GetTablesRequest_reads GetTablesResult__writes GetTablesResult__reads
  PartitionsRequest_writes PartitionsRequest_reads PartitionsResponse_writes PartitionsResponse_reads
  AddPartitionsRequest_writes AddPartitionsRequest_reads AddPartitionsResult__writes
  AddPartitionsResult__reads AlterPartitionsRequest_writes AlterPartitionsRequest_reads
  AlterPartitionsResponse_writes AlterPartitionsResponse_reads RequestPartsSpec_writes RequestPartsSpec_reads
  DropPartitionsRequest_writes DropPartitionsRequest_reads DropPartitionsResult__writes
  DropPartitionsResult__reads GetPartitionsByNamesRequest_writes GetPartitionsByNamesRequest_reads
  GetPartitionsByNamesResult__writes GetPartitionsByNamesResult__reads GetPartitionNamesPsRequest_writes
  GetPartitionNamesPsRequest_reads GetPartitionNamesPsResponse_writes GetPartitionNamesPsResponse_reads
  CommitTxnRequest_writes CommitTxnRequest_reads : wire.
