(* ===== verification/CodecAcid.v ===== *)
(** * CodecAcid: the generated Write and Read of locks, transactions, notifications

    As CodecTable, for the requests and answers of the transaction, lock and
    notification calls; here fields can be required. *)

From S2P Require Import Prelude Errors GoMonad Types Transport Wire Thrift.

Section codec.
Context {P : Type} {TP : TProtocol P} {MR : MapRange} {SB : Substructs P}.

(** ** LockComponent *)

Local Abbreviation T_LockComponent := "*hive_metastore.LockComponent".
Definition LockComponent_set_Type v '(mk_wLockComponent _ x2 x3 x4 x5 x6 x7 x8) : wLockComponent :=
  mk_wLockComponent v x2 x3 x4 x5 x6 x7 x8.
Definition LockComponent_set_Level v '(mk_wLockComponent x1 _ x3 x4 x5 x6 x7 x8) : wLockComponent :=
  mk_wLockComponent x1 v x3 x4 x5 x6 x7 x8.
Definition LockComponent_set_Dbname v '(mk_wLockComponent x1 x2 _ x4 x5 x6 x7 x8) : wLockComponent :=
  mk_wLockComponent x1 x2 v x4 x5 x6 x7 x8.
Definition LockComponent_set_Tablename v '(mk_wLockComponent x1 x2 x3 _ x5 x6 x7 x8) : wLockComponent :=
  mk_wLockComponent x1 x2 x3 v x5 x6 x7 x8.
Definition LockComponent_set_Partitionname v '(mk_wLockComponent x1 x2 x3 x4 _ x6 x7 x8) : wLockComponent :=
  mk_wLockComponent x1 x2 x3 x4 v x6 x7 x8.
Definition LockComponent_set_OperationType v '(mk_wLockComponent x1 x2 x3 x4 x5 _ x7 x8) : wLockComponent :=
  mk_wLockComponent x1 x2 x3 x4 x5 v x7 x8.
Definition LockComponent_set_IsTransactional v '(mk_wLockComponent x1 x2 x3 x4 x5 x6 _ x8) : wLockComponent :=
  mk_wLockComponent x1 x2 x3 x4 x5 x6 v x8.
Definition LockComponent_set_IsDynamicPartitionWrite v '(mk_wLockComponent x1 x2 x3 x4 x5 x6 x7 _) : wLockComponent :=
  mk_wLockComponent x1 x2 x3 x4 x5 x6 x7 v.

Definition LockComponent_writeField1 (p : wLockComponent) : M P unit :=
  (write_field T_LockComponent "type" I32 1 (write_scalar T_LockComponent "type" 1 (WriteI32 (int32 (wLockComponent_Type p)))))%go.
Definition LockComponent_ReadField1 : wLockComponent -> MF P wLockComponent :=
  assign (read_scalar 1 ReadI32)%go LockComponent_set_Type.
Definition LockComponent_writeField2 (p : wLockComponent) : M P unit :=
  (write_field T_LockComponent "level" I32 2 (write_scalar T_LockComponent "level" 2 (WriteI32 (int32 (wLockComponent_Level p)))))%go.
Definition LockComponent_ReadField2 : wLockComponent -> MF P wLockComponent :=
  assign (read_scalar 2 ReadI32)%go LockComponent_set_Level.
Definition LockComponent_writeField3 (p : wLockComponent) : M P unit :=
  (write_field T_LockComponent "dbname" STRING 3 (write_scalar T_LockComponent "dbname" 3 (WriteString (wLockComponent_Dbname p))))%go.
Definition LockComponent_ReadField3 : wLockComponent -> MF P wLockComponent :=
  assign (read_scalar 3 ReadString)%go LockComponent_set_Dbname.
Definition LockComponent_writeField4 (p : wLockComponent) : M P unit :=
  (opt (wLockComponent_Tablename p) (fun v =>
    write_field T_LockComponent "tablename" STRING 4 (write_scalar T_LockComponent "tablename" 4 (WriteString v))))%go.
Definition LockComponent_ReadField4 : wLockComponent -> MF P wLockComponent :=
  assign (read_scalar 4 ReadString)%go (fun v => LockComponent_set_Tablename (Some v)).
Definition LockComponent_writeField5 (p : wLockComponent) : M P unit :=
  (opt (wLockComponent_Partitionname p) (fun v =>
    write_field T_LockComponent "partitionname" STRING 5 (write_scalar T_LockComponent "partitionname" 5 (WriteString v))))%go.
Definition LockComponent_ReadField5 : wLockComponent -> MF P wLockComponent :=
  assign (read_scalar 5 ReadString)%go (fun v => LockComponent_set_Partitionname (Some v)).
Definition LockComponent_writeField6 (p : wLockComponent) : M P unit :=
  (when (negb (wLockComponent_OperationType p =? 5))
    (write_field T_LockComponent "operationType" I32 6 (write_scalar T_LockComponent "operationType" 6 (WriteI32 (int32 (wLockComponent_OperationType p))))))%go.
Definition LockComponent_ReadField6 : wLockComponent -> MF P wLockComponent :=
  assign (read_scalar 6 ReadI32)%go LockComponent_set_OperationType.
Definition LockComponent_writeField7 (p : wLockComponent) : M P unit :=
  (when (negb (Bool.eqb (wLockComponent_IsTransactional p) false))
    (write_field T_LockComponent "isTransactional" BOOL 7 (write_scalar T_LockComponent "isTransactional" 7 (WriteBool (wLockComponent_IsTransactional p)))))%go.
Definition LockComponent_ReadField7 : wLockComponent -> MF P wLockComponent :=
  assign (read_scalar 7 ReadBool)%go LockComponent_set_IsTransactional.
Definition LockComponent_writeField8 (p : wLockComponent) : M P unit :=
  (when (negb (Bool.eqb (wLockComponent_IsDynamicPartitionWrite p) false))
    (write_field T_LockComponent "isDynamicPartitionWrite" BOOL 8 (write_scalar T_LockComponent "isDynamicPartitionWrite" 8 (WriteBool (wLockComponent_IsDynamicPartitionWrite p)))))%go.
Definition LockComponent_ReadField8 : wLockComponent -> MF P wLockComponent :=
  assign (read_scalar 8 ReadBool)%go LockComponent_set_IsDynamicPartitionWrite.
Definition LockComponent_Write (p : option wLockComponent) : M P unit :=
  write_struct T_LockComponent "LockComponent" ((fun p => [LockComponent_writeField1 p; LockComponent_writeField2 p; LockComponent_writeField3 p; LockComponent_writeField4 p; LockComponent_writeField5 p; LockComponent_writeField6 p; LockComponent_writeField7 p; LockComponent_writeField8 p]) <$> p).
Definition LockComponent_switch : switch wLockComponent := fun fieldId =>
  match fieldId with
  | 1 => Some (I32, LockComponent_ReadField1)
  | 2 => Some (I32, LockComponent_ReadField2)
  | 3 => Some (STRING, LockComponent_ReadField3)
  | 4 => Some (STRING, LockComponent_ReadField4)
  | 5 => Some (STRING, LockComponent_ReadField5)
  | 6 => Some (I32, LockComponent_ReadField6)
  | 7 => Some (BOOL, LockComponent_ReadField7)
  | 8 => Some (BOOL, LockComponent_ReadField8)
  | _ => None
  end.
Definition LockComponent_Read (fuel : nat) : wLockComponent -> MF P wLockComponent :=
  read_struct T_LockComponent [(1, "Type"); (2, "Level"); (3, "Dbname")] LockComponent_switch fuel.

(** ** LockRequest *)

Local Abbreviation T_LockRequest := "*hive_metastore.LockRequest".
Definition LockRequest_set_Component v '(mk_wLockRequest _ x2 x3 x4 x5 x6 x7 x8) : wLockRequest :=
  mk_wLockRequest v x2 x3 x4 x5 x6 x7 x8.
Definition LockRequest_set_Txnid v '(mk_wLockRequest x1 _ x3 x4 x5 x6 x7 x8) : wLockRequest :=
  mk_wLockRequest x1 v x3 x4 x5 x6 x7 x8.
Definition LockRequest_set_User v '(mk_wLockRequest x1 x2 _ x4 x5 x6 x7 x8) : wLockRequest :=
  mk_wLockRequest x1 x2 v x4 x5 x6 x7 x8.
Definition LockRequest_set_Hostname v '(mk_wLockRequest x1 x2 x3 _ x5 x6 x7 x8) : wLockRequest :=
  mk_wLockRequest x1 x2 x3 v x5 x6 x7 x8.
Definition LockRequest_set_AgentInfo v '(mk_wLockRequest x1 x2 x3 x4 _ x6 x7 x8) : wLockRequest :=
  mk_wLockRequest x1 x2 x3 x4 v x6 x7 x8.
Definition LockRequest_set_ZeroWaitReadEnabled v '(mk_wLockRequest x1 x2 x3 x4 x5 _ x7 x8) : wLockRequest :=
  mk_wLockRequest x1 x2 x3 x4 x5 v x7 x8.
Definition LockRequest_set_ExclusiveCTAS v '(mk_wLockRequest x1 x2 x3 x4 x5 x6 _ x8) : wLockRequest :=
  mk_wLockRequest x1 x2 x3 x4 x5 x6 v x8.
Definition LockRequest_set_LocklessReadsEnabled v '(mk_wLockRequest x1 x2 x3 x4 x5 x6 x7 _) : wLockRequest :=
  mk_wLockRequest x1 x2 x3 x4 x5 x6 x7 v.

Definition LockRequest_writeField1 (p : wLockRequest) : M P unit :=
  (write_field T_LockRequest "component" LIST 1 (write_list STRUCT (fun v => write_sub "*hive_metastore.LockComponent" (LockComponent_Write v)) (wLockRequest_Component p)))%go.
Definition LockRequest_ReadField1 (fuel : nat) : wLockRequest -> MF P wLockRequest :=
  assign (read_list (v <-- read_sub "*hive_metastore.LockComponent" (LockComponent_Read fuel NewLockComponent);; liftF (ret (Some v))))%go LockRequest_set_Component.
Definition LockRequest_writeField2 (p : wLockRequest) : M P unit :=
  (opt (wLockRequest_Txnid p) (fun v =>
    write_field T_LockRequest "txnid" I64 2 (write_scalar T_LockRequest "txnid" 2 (WriteI64 v))))%go.
Definition LockRequest_ReadField2 : wLockRequest -> MF P wLockRequest :=
  assign (read_scalar 2 ReadI64)%go (fun v => LockRequest_set_Txnid (Some v)).
Definition LockRequest_writeField3 (p : wLockRequest) : M P unit :=
  (write_field T_LockRequest "user" STRING 3 (write_scalar T_LockRequest "user" 3 (WriteString (wLockRequest_User p))))%go.
Definition LockRequest_ReadField3 : wLockRequest -> MF P wLockRequest :=
  assign (read_scalar 3 ReadString)%go LockRequest_set_User.
Definition LockRequest_writeField4 (p : wLockRequest) : M P unit :=
  (write_field T_LockRequest "hostname" STRING 4 (write_scalar T_LockRequest "hostname" 4 (WriteString (wLockRequest_Hostname p))))%go.
Definition LockRequest_ReadField4 : wLockRequest -> MF P wLockRequest :=
  assign (read_scalar 4 ReadString)%go LockRequest_set_Hostname.
Definition LockRequest_writeField5 (p : wLockRequest) : M P unit :=
  (when (negb (String.eqb (wLockRequest_AgentInfo p) "Unknown"))
    (write_field T_LockRequest "agentInfo" STRING 5 (write_scalar T_LockRequest "agentInfo" 5 (WriteString (wLockRequest_AgentInfo p)))))%go.
Definition LockRequest_ReadField5 : wLockRequest -> MF P wLockRequest :=
  assign (read_scalar 5 ReadString)%go LockRequest_set_AgentInfo.
Definition LockRequest_writeField6 (p : wLockRequest) : M P unit :=
  (when (negb (Bool.eqb (wLockRequest_ZeroWaitReadEnabled p) false))
    (write_field T_LockRequest "zeroWaitReadEnabled" BOOL 6 (write_scalar T_LockRequest "zeroWaitReadEnabled" 6 (WriteBool (wLockRequest_ZeroWaitReadEnabled p)))))%go.
Definition LockRequest_ReadField6 : wLockRequest -> MF P wLockRequest :=
  assign (read_scalar 6 ReadBool)%go LockRequest_set_ZeroWaitReadEnabled.
Definition LockRequest_writeField7 (p : wLockRequest) : M P unit :=
  (when (negb (Bool.eqb (wLockRequest_ExclusiveCTAS p) false))
    (write_field T_LockRequest "exclusiveCTAS" BOOL 7 (write_scalar T_LockRequest "exclusiveCTAS" 7 (WriteBool (wLockRequest_ExclusiveCTAS p)))))%go.
Definition LockRequest_ReadField7 : wLockRequest -> MF P wLockRequest :=
  assign (read_scalar 7 ReadBool)%go LockRequest_set_ExclusiveCTAS.
Definition LockRequest_writeField8 (p : wLockRequest) : M P unit :=
  (when (negb (Bool.eqb (wLockRequest_LocklessReadsEnabled p) false))
    (write_field T_LockRequest "locklessReadsEnabled" BOOL 8 (write_scalar T_LockRequest "locklessReadsEnabled" 8 (WriteBool (wLockRequest_LocklessReadsEnabled p)))))%go.
Definition LockRequest_ReadField8 : wLockRequest -> MF P wLockRequest :=
  assign (read_scalar 8 ReadBool)%go LockRequest_set_LocklessReadsEnabled.
Definition LockRequest_Write (p : option wLockRequest) : M P unit :=
  write_struct T_LockRequest "LockRequest" ((fun p => [LockRequest_writeField1 p; LockRequest_writeField2 p; LockRequest_writeField3 p; LockRequest_writeField4 p; LockRequest_writeField5 p; LockRequest_writeField6 p; LockRequest_writeField7 p; LockRequest_writeField8 p]) <$> p).
Definition LockRequest_switch (fuel : nat) : switch wLockRequest := fun fieldId =>
  match fieldId with
  | 1 => Some (LIST, LockRequest_ReadField1 fuel)
  | 2 => Some (I64, LockRequest_ReadField2)
  | 3 => Some (STRING, LockRequest_ReadField3)
  | 4 => Some (STRING, LockRequest_ReadField4)
  | 5 => Some (STRING, LockRequest_ReadField5)
  | 6 => Some (BOOL, LockRequest_ReadField6)
  | 7 => Some (BOOL, LockRequest_ReadField7)
  | 8 => Some (BOOL, LockRequest_ReadField8)
  | _ => None
  end.
Definition LockRequest_Read (fuel : nat) : wLockRequest -> MF P wLockRequest :=
  read_struct T_LockRequest [(1, "Component"); (3, "User"); (4, "Hostname")] (LockRequest_switch fuel) fuel.

(** ** LockResponse *)

Local Abbreviation T_LockResponse := "*hive_metastore.LockResponse".
Definition LockResponse_set_Lockid v '(mk_wLockResponse _ x2 x3) : wLockResponse :=
  mk_wLockResponse v x2 x3.
Definition LockResponse_set_State v '(mk_wLockResponse x1 _ x3) : wLockResponse :=
  mk_wLockResponse x1 v x3.
Definition LockResponse_set_ErrorMessage v '(mk_wLockResponse x1 x2 _) : wLockResponse :=
  mk_wLockResponse x1 x2 v.

Definition LockResponse_writeField1 (p : wLockResponse) : M P unit :=
  (write_field T_LockResponse "lockid" I64 1 (write_scalar T_LockResponse "lockid" 1 (WriteI64 (wLockResponse_Lockid p))))%go.
Definition LockResponse_ReadField1 : wLockResponse -> MF P wLockResponse :=
  assign (read_scalar 1 ReadI64)%go LockResponse_set_Lockid.
Definition LockResponse_writeField2 (p : wLockResponse) : M P unit :=
  (write_field T_LockResponse "state" I32 2 (write_scalar T_LockResponse "state" 2 (WriteI32 (int32 (wLockResponse_State p)))))%go.
Definition LockResponse_ReadField2 : wLockResponse -> MF P wLockResponse :=
  assign (read_scalar 2 ReadI32)%go LockResponse_set_State.
Definition LockResponse_writeField3 (p : wLockResponse) : M P unit :=
  (opt (wLockResponse_ErrorMessage p) (fun v =>
    write_field T_LockResponse "errorMessage" STRING 3 (write_scalar T_LockResponse "errorMessage" 3 (WriteString v))))%go.
Definition LockResponse_ReadField3 : wLockResponse -> MF P wLockResponse :=
  assign (read_scalar 3 ReadString)%go (fun v => LockResponse_set_ErrorMessage (Some v)).
Definition LockResponse_Write (p : option wLockResponse) : M P unit :=
  write_struct T_LockResponse "LockResponse" ((fun p => [LockResponse_writeField1 p; LockResponse_writeField2 p; LockResponse_writeField3 p]) <$> p).
Definition LockResponse_switch : switch wLockResponse := fun fieldId =>
  match fieldId with
  | 1 => Some (I64, LockResponse_ReadField1)
  | 2 => Some (I32, LockResponse_ReadField2)
  | 3 => Some (STRING, LockResponse_ReadField3)
  | _ => None
  end.
Definition LockResponse_Read (fuel : nat) : wLockResponse -> MF P wLockResponse :=
  read_struct T_LockResponse [(1, "Lockid"); (2, "State")] LockResponse_switch fuel.

(** ** CheckLockRequest *)

Local Abbreviation T_CheckLockRequest := "*hive_metastore.CheckLockRequest".
Definition CheckLockRequest_set_Lockid v '(mk_wCheckLockRequest _ x2 x3) : wCheckLockRequest :=
  mk_wCheckLockRequest v x2 x3.
Definition CheckLockRequest_set_Txnid v '(mk_wCheckLockRequest x1 _ x3) : wCheckLockRequest :=
  mk_wCheckLockRequest x1 v x3.
Definition CheckLockRequest_set_ElapsedMs v '(mk_wCheckLockRequest x1 x2 _) : wCheckLockRequest :=
  mk_wCheckLockRequest x1 x2 v.

Definition CheckLockRequest_writeField1 (p : wCheckLockRequest) : M P unit :=
  (write_field T_CheckLockRequest "lockid" I64 1 (write_scalar T_CheckLockRequest "lockid" 1 (WriteI64 (wCheckLockRequest_Lockid p))))%go.
Definition CheckLockRequest_ReadField1 : wCheckLockRequest -> MF P wCheckLockRequest :=
  assign (read_scalar 1 ReadI64)%go CheckLockRequest_set_Lockid.
Definition CheckLockRequest_writeField2 (p : wCheckLockRequest) : M P unit :=
  (opt (wCheckLockRequest_Txnid p) (fun v =>
    write_field T_CheckLockRequest "txnid" I64 2 (write_scalar T_CheckLockRequest "txnid" 2 (WriteI64 v))))%go.
Definition CheckLockRequest_ReadField2 : wCheckLockRequest -> MF P wCheckLockRequest :=
  assign (read_scalar 2 ReadI64)%go (fun v => CheckLockRequest_set_Txnid (Some v)).
Definition CheckLockRequest_writeField3 (p : wCheckLockRequest) : M P unit :=
  (opt (wCheckLockRequest_ElapsedMs p) (fun v =>
    write_field T_CheckLockRequest "elapsed_ms" I64 3 (write_scalar T_CheckLockRequest "elapsed_ms" 3 (WriteI64 v))))%go.
Definition CheckLockRequest_ReadField3 : wCheckLockRequest -> MF P wCheckLockRequest :=
  assign (read_scalar 3 ReadI64)%go (fun v => CheckLockRequest_set_ElapsedMs (Some v)).
Definition CheckLockRequest_Write (p : option wCheckLockRequest) : M P unit :=
  write_struct T_CheckLockRequest "CheckLockRequest" ((fun p => [CheckLockRequest_writeField1 p; CheckLockRequest_writeField2 p; CheckLockRequest_writeField3 p]) <$> p).
Definition CheckLockRequest_switch : switch wCheckLockRequest := fun fieldId =>
  match fieldId with
  | 1 => Some (I64, CheckLockRequest_ReadField1)
  | 2 => Some (I64, CheckLockRequest_ReadField2)
  | 3 => Some (I64, CheckLockRequest_ReadField3)
  | _ => None
  end.
Definition CheckLockRequest_Read (fuel : nat) : wCheckLockRequest -> MF P wCheckLockRequest :=
  read_struct T_CheckLockRequest [(1, "Lockid")] CheckLockRequest_switch fuel.

(** ** UnlockRequest *)

Local Abbreviation T_UnlockRequest := "*hive_metastore.UnlockRequest".
Definition UnlockRequest_set_Lockid v (_ : wUnlockRequest) : wUnlockRequest := mk_wUnlockRequest v.

Definition UnlockRequest_writeField1 (p : wUnlockRequest) : M P unit :=
  (write_field T_UnlockRequest "lockid" I64 1 (write_scalar T_UnlockRequest "lockid" 1 (WriteI64 (wUnlockRequest_Lockid p))))%go.
Definition UnlockRequest_ReadField1 : wUnlockRequest -> MF P wUnlockRequest :=
  assign (read_scalar 1 ReadI64)%go UnlockRequest_set_Lockid.
Definition UnlockRequest_Write (p : option wUnlockRequest) : M P unit :=
  write_struct T_UnlockRequest "UnlockRequest" ((fun p => [UnlockRequest_writeField1 p]) <$> p).
Definition UnlockRequest_switch : switch wUnlockRequest := fun fieldId =>
  match fieldId with
  | 1 => Some (I64, UnlockRequest_ReadField1)
  | _ => None
  end.
Definition UnlockRequest_Read (fuel : nat) : wUnlockRequest -> MF P wUnlockRequest :=
  read_struct T_UnlockRequest [(1, "Lockid")] UnlockRequest_switch fuel.

(** ** OpenTxnRequest *)

Local Abbreviation T_OpenTxnRequest := "*hive_metastore.OpenTxnRequest".
Definition OpenTxnRequest_set_NumTxns v '(mk_wOpenTxnRequest _ x2 x3 x4 x5 x6 x7) : wOpenTxnRequest :=
  mk_wOpenTxnRequest v x2 x3 x4 x5 x6 x7.
Definition OpenTxnRequest_set_User v '(mk_wOpenTxnRequest x1 _ x3 x4 x5 x6 x7) : wOpenTxnRequest :=
  mk_wOpenTxnRequest x1 v x3 x4 x5 x6 x7.
Definition OpenTxnRequest_set_Hostname v '(mk_wOpenTxnRequest x1 x2 _ x4 x5 x6 x7) : wOpenTxnRequest :=
  mk_wOpenTxnRequest x1 x2 v x4 x5 x6 x7.
Definition OpenTxnRequest_set_AgentInfo v '(mk_wOpenTxnRequest x1 x2 x3 _ x5 x6 x7) : wOpenTxnRequest :=
  mk_wOpenTxnRequest x1 x2 x3 v x5 x6 x7.
Definition OpenTxnRequest_set_ReplPolicy v '(mk_wOpenTxnRequest x1 x2 x3 x4 _ x6 x7) : wOpenTxnRequest :=
  mk_wOpenTxnRequest x1 x2 x3 x4 v x6 x7.
Definition OpenTxnRequest_set_ReplSrcTxnIds v '(mk_wOpenTxnRequest x1 x2 x3 x4 x5 _ x7) : wOpenTxnRequest :=
  mk_wOpenTxnRequest x1 x2 x3 x4 x5 v x7.
Definition OpenTxnRequest_set_TxnType v '(mk_wOpenTxnRequest x1 x2 x3 x4 x5 x6 _) : wOpenTxnRequest :=
  mk_wOpenTxnRequest x1 x2 x3 x4 x5 x6 v.

Definition OpenTxnRequest_writeField1 (p : wOpenTxnRequest) : M P unit :=
  (write_field T_OpenTxnRequest "num_txns" I32 1 (write_scalar T_OpenTxnRequest "num_txns" 1 (WriteI32 (wOpenTxnRequest_NumTxns p))))%go.
Definition OpenTxnRequest_ReadField1 : wOpenTxnRequest -> MF P wOpenTxnRequest :=
  assign (read_scalar 1 ReadI32)%go OpenTxnRequest_set_NumTxns.
Definition OpenTxnRequest_writeField2 (p : wOpenTxnRequest) : M P unit :=
  (write_field T_OpenTxnRequest "user" STRING 2 (write_scalar T_OpenTxnRequest "user" 2 (WriteString (wOpenTxnRequest_User p))))%go.
Definition OpenTxnRequest_ReadField2 : wOpenTxnRequest -> MF P wOpenTxnRequest :=
  assign (read_scalar 2 ReadString)%go OpenTxnRequest_set_User.
Definition OpenTxnRequest_writeField3 (p : wOpenTxnRequest) : M P unit :=
  (write_field T_OpenTxnRequest "hostname" STRING 3 (write_scalar T_OpenTxnRequest "hostname" 3 (WriteString (wOpenTxnRequest_Hostname p))))%go.
Definition OpenTxnRequest_ReadField3 : wOpenTxnRequest -> MF P wOpenTxnRequest :=
  assign (read_scalar 3 ReadString)%go OpenTxnRequest_set_Hostname.
Definition OpenTxnRequest_writeField4 (p : wOpenTxnRequest) : M P unit :=
  (when (negb (String.eqb (wOpenTxnRequest_AgentInfo p) "Unknown"))
    (write_field T_OpenTxnRequest "agentInfo" STRING 4 (write_scalar T_OpenTxnRequest "agentInfo" 4 (WriteString (wOpenTxnRequest_AgentInfo p)))))%go.
Definition OpenTxnRequest_ReadField4 : wOpenTxnRequest -> MF P wOpenTxnRequest :=
  assign (read_scalar 4 ReadString)%go OpenTxnRequest_set_AgentInfo.
Definition OpenTxnRequest_writeField5 (p : wOpenTxnRequest) : M P unit :=
  (opt (wOpenTxnRequest_ReplPolicy p) (fun v =>
    write_field T_OpenTxnRequest "replPolicy" STRING 5 (write_scalar T_OpenTxnRequest "replPolicy" 5 (WriteString v))))%go.
Definition OpenTxnRequest_ReadField5 : wOpenTxnRequest -> MF P wOpenTxnRequest :=
  assign (read_scalar 5 ReadString)%go (fun v => OpenTxnRequest_set_ReplPolicy (Some v)).
Definition OpenTxnRequest_writeField6 (p : wOpenTxnRequest) : M P unit :=
  (when (bool_decide (is_Some (wOpenTxnRequest_ReplSrcTxnIds p)))
    (write_field T_OpenTxnRequest "replSrcTxnIds" LIST 6 (write_list I64 (fun v => write_scalar T_OpenTxnRequest "" 0 (WriteI64 v)) (wOpenTxnRequest_ReplSrcTxnIds p))))%go.
Definition OpenTxnRequest_ReadField6 : wOpenTxnRequest -> MF P wOpenTxnRequest :=
  assign (read_list (read_scalar 0 ReadI64))%go OpenTxnRequest_set_ReplSrcTxnIds.
Definition OpenTxnRequest_writeField7 (p : wOpenTxnRequest) : M P unit :=
  (when (negb (wOpenTxnRequest_TxnType p =? 0))
    (write_field T_OpenTxnRequest "txn_type" I32 7 (write_scalar T_OpenTxnRequest "txn_type" 7 (WriteI32 (int32 (wOpenTxnRequest_TxnType p))))))%go.
Definition OpenTxnRequest_ReadField7 : wOpenTxnRequest -> MF P wOpenTxnRequest :=
  assign (read_scalar 7 ReadI32)%go OpenTxnRequest_set_TxnType.
Definition OpenTxnRequest_Write (p : option wOpenTxnRequest) : M P unit :=
  write_struct T_OpenTxnRequest "OpenTxnRequest" ((fun p => [OpenTxnRequest_writeField1 p; OpenTxnRequest_writeField2 p; OpenTxnRequest_writeField3 p; OpenTxnRequest_writeField4 p; OpenTxnRequest_writeField5 p; OpenTxnRequest_writeField6 p; OpenTxnRequest_writeField7 p]) <$> p).
Definition OpenTxnRequest_switch : switch wOpenTxnRequest := fun fieldId =>
  match fieldId with
  | 1 => Some (I32, OpenTxnRequest_ReadField1)
  | 2 => Some (STRING, OpenTxnRequest_ReadField2)
  | 3 => Some (STRING, OpenTxnRequest_ReadField3)
  | 4 => Some (STRING, OpenTxnRequest_ReadField4)
  | 5 => Some (STRING, OpenTxnRequest_ReadField5)
  | 6 => Some (LIST, OpenTxnRequest_ReadField6)
  | 7 => Some (I32, OpenTxnRequest_ReadField7)
  | _ => None
  end.
Definition OpenTxnRequest_Read (fuel : nat) : wOpenTxnRequest -> MF P wOpenTxnRequest :=
  read_struct T_OpenTxnRequest [(1, "NumTxns"); (2, "User"); (3, "Hostname")] OpenTxnRequest_switch fuel.

(** ** OpenTxnsResponse *)

Local Abbreviation T_OpenTxnsResponse := "*hive_metastore.OpenTxnsResponse".
Definition OpenTxnsResponse_set_TxnIds v (_ : wOpenTxnsResponse) : wOpenTxnsResponse := mk_wOpenTxnsResponse v.

Definition OpenTxnsResponse_writeField1 (p : wOpenTxnsResponse) : M P unit :=
  (write_field T_OpenTxnsResponse "txn_ids" LIST 1 (write_list I64 (fun v => write_scalar T_OpenTxnsResponse "" 0 (WriteI64 v)) (wOpenTxnsResponse_TxnIds p)))%go.
Definition OpenTxnsResponse_ReadField1 : wOpenTxnsResponse -> MF P wOpenTxnsResponse :=
  assign (read_list (read_scalar 0 ReadI64))%go OpenTxnsResponse_set_TxnIds.
Definition OpenTxnsResponse_Write (p : option wOpenTxnsResponse) : M P unit :=
  write_struct T_OpenTxnsResponse "OpenTxnsResponse" ((fun p => [OpenTxnsResponse_writeField1 p]) <$> p).
Definition OpenTxnsResponse_switch : switch wOpenTxnsResponse := fun fieldId =>
  match fieldId with
  | 1 => Some (LIST, OpenTxnsResponse_ReadField1)
  | _ => None
  end.
Definition OpenTxnsResponse_Read (fuel : nat) : wOpenTxnsResponse -> MF P wOpenTxnsResponse :=
  read_struct T_OpenTxnsResponse [(1, "TxnIds")] OpenTxnsResponse_switch fuel.

(** ** AbortTxnRequest *)

Local Abbreviation T_AbortTxnRequest := "*hive_metastore.AbortTxnRequest".
Definition AbortTxnRequest_set_Txnid v '(mk_wAbortTxnRequest _ x2 x3 x4) : wAbortTxnRequest :=
  mk_wAbortTxnRequest v x2 x3 x4.
Definition AbortTxnRequest_set_ReplPolicy v '(mk_wAbortTxnRequest x1 _ x3 x4) : wAbortTxnRequest :=
  mk_wAbortTxnRequest x1 v x3 x4.
Definition AbortTxnRequest_set_TxnType v '(mk_wAbortTxnRequest x1 x2 _ x4) : wAbortTxnRequest :=
  mk_wAbortTxnRequest x1 x2 v x4.
Definition AbortTxnRequest_set_ErrorCode v '(mk_wAbortTxnRequest x1 x2 x3 _) : wAbortTxnRequest :=
  mk_wAbortTxnRequest x1 x2 x3 v.

Definition AbortTxnRequest_writeField1 (p : wAbortTxnRequest) : M P unit :=
  (write_field T_AbortTxnRequest "txnid" I64 1 (write_scalar T_AbortTxnRequest "txnid" 1 (WriteI64 (wAbortTxnRequest_Txnid p))))%go.
Definition AbortTxnRequest_ReadField1 : wAbortTxnRequest -> MF P wAbortTxnRequest :=
  assign (read_scalar 1 ReadI64)%go AbortTxnRequest_set_Txnid.
Definition AbortTxnRequest_writeField2 (p : wAbortTxnRequest) : M P unit :=
  (opt (wAbortTxnRequest_ReplPolicy p) (fun v =>
    write_field T_AbortTxnRequest "replPolicy" STRING 2 (write_scalar T_AbortTxnRequest "replPolicy" 2 (WriteString v))))%go.
Definition AbortTxnRequest_ReadField2 : wAbortTxnRequest -> MF P wAbortTxnRequest :=
  assign (read_scalar 2 ReadString)%go (fun v => AbortTxnRequest_set_ReplPolicy (Some v)).
Definition AbortTxnRequest_writeField3 (p : wAbortTxnRequest) : M P unit :=
  (opt (wAbortTxnRequest_TxnType p) (fun v =>
    write_field T_AbortTxnRequest "txn_type" I32 3 (write_scalar T_AbortTxnRequest "txn_type" 3 (WriteI32 (int32 v)))))%go.
Definition AbortTxnRequest_ReadField3 : wAbortTxnRequest -> MF P wAbortTxnRequest :=
  assign (read_scalar 3 ReadI32)%go (fun v => AbortTxnRequest_set_TxnType (Some v)).
Definition AbortTxnRequest_writeField4 (p : wAbortTxnRequest) : M P unit :=
  (opt (wAbortTxnRequest_ErrorCode p) (fun v =>
    write_field T_AbortTxnRequest "errorCode" I64 4 (write_scalar T_AbortTxnRequest "errorCode" 4 (WriteI64 v))))%go.
Definition AbortTxnRequest_ReadField4 : wAbortTxnRequest -> MF P wAbortTxnRequest :=
  assign (read_scalar 4 ReadI64)%go (fun v => AbortTxnRequest_set_ErrorCode (Some v)).
Definition AbortTxnRequest_Write (p : option wAbortTxnRequest) : M P unit :=
  write_struct T_AbortTxnRequest "AbortTxnRequest" ((fun p => [AbortTxnRequest_writeField1 p; AbortTxnRequest_writeField2 p; AbortTxnRequest_writeField3 p; AbortTxnRequest_writeField4 p]) <$> p).
Definition AbortTxnRequest_switch : switch wAbortTxnRequest := fun fieldId =>
  match fieldId with
  | 1 => Some (I64, AbortTxnRequest_ReadField1)
  | 2 => Some (STRING, AbortTxnRequest_ReadField2)
  | 3 => Some (I32, AbortTxnRequest_ReadField3)
  | 4 => Some (I64, AbortTxnRequest_ReadField4)
  | _ => None
  end.
Definition AbortTxnRequest_Read (fuel : nat) : wAbortTxnRequest -> MF P wAbortTxnRequest :=
  read_struct T_AbortTxnRequest [(1, "Txnid")] AbortTxnRequest_switch fuel.

(** ** HeartbeatRequest *)

Local Abbreviation T_HeartbeatRequest := "*hive_metastore.HeartbeatRequest".
Definition HeartbeatRequest_set_Lockid v '(mk_wHeartbeatRequest _ x2) : wHeartbeatRequest :=
  mk_wHeartbeatRequest v x2.
Definition HeartbeatRequest_set_Txnid v '(mk_wHeartbeatRequest x1 _) : wHeartbeatRequest :=
  mk_wHeartbeatRequest x1 v.

Definition HeartbeatRequest_writeField1 (p : wHeartbeatRequest) : M P unit :=
  (opt (wHeartbeatRequest_Lockid p) (fun v =>
    write_field T_HeartbeatRequest "lockid" I64 1 (write_scalar T_HeartbeatRequest "lockid" 1 (WriteI64 v))))%go.
Definition HeartbeatRequest_ReadField1 : wHeartbeatRequest -> MF P wHeartbeatRequest :=
  assign (read_scalar 1 ReadI64)%go (fun v => HeartbeatRequest_set_Lockid (Some v)).
Definition HeartbeatRequest_writeField2 (p : wHeartbeatRequest) : M P unit :=
  (opt (wHeartbeatRequest_Txnid p) (fun v =>
    write_field T_HeartbeatRequest "txnid" I64 2 (write_scalar T_HeartbeatRequest "txnid" 2 (WriteI64 v))))%go.
Definition HeartbeatRequest_ReadField2 : wHeartbeatRequest -> MF P wHeartbeatRequest :=
  assign (read_scalar 2 ReadI64)%go (fun v => HeartbeatRequest_set_Txnid (Some v)).
Definition HeartbeatRequest_Write (p : option wHeartbeatRequest) : M P unit :=
  write_struct T_HeartbeatRequest "HeartbeatRequest" ((fun p => [HeartbeatRequest_writeField1 p; HeartbeatRequest_writeField2 p]) <$> p).
Definition HeartbeatRequest_switch : switch wHeartbeatRequest := fun fieldId =>
  match fieldId with
  | 1 => Some (I64, HeartbeatRequest_ReadField1)
  | 2 => Some (I64, HeartbeatRequest_ReadField2)
  | _ => None
  end.
Definition HeartbeatRequest_Read (fuel : nat) : wHeartbeatRequest -> MF P wHeartbeatRequest :=
  read_struct T_HeartbeatRequest [] HeartbeatRequest_switch fuel.

(** ** NotificationEvent *)

Local Abbreviation T_NotificationEvent := "*hive_metastore.NotificationEvent".
Definition NotificationEvent_set_EventId v '(mk_wNotificationEvent _ x2 x3 x4 x5 x6 x7 x8) : wNotificationEvent :=
  mk_wNotificationEvent v x2 x3 x4 x5 x6 x7 x8.
Definition NotificationEvent_set_EventTime v '(mk_wNotificationEvent x1 _ x3 x4 x5 x6 x7 x8) : wNotificationEvent :=
  mk_wNotificationEvent x1 v x3 x4 x5 x6 x7 x8.
Definition NotificationEvent_set_EventType v '(mk_wNotificationEvent x1 x2 _ x4 x5 x6 x7 x8) : wNotificationEvent :=
  mk_wNotificationEvent x1 x2 v x4 x5 x6 x7 x8.
Definition NotificationEvent_set_DbName v '(mk_wNotificationEvent x1 x2 x3 _ x5 x6 x7 x8) : wNotificationEvent :=
  mk_wNotificationEvent x1 x2 x3 v x5 x6 x7 x8.
Definition NotificationEvent_set_TableName v '(mk_wNotificationEvent x1 x2 x3 x4 _ x6 x7 x8) : wNotificationEvent :=
  mk_wNotificationEvent x1 x2 x3 x4 v x6 x7 x8.
Definition NotificationEvent_set_Message v '(mk_wNotificationEvent x1 x2 x3 x4 x5 _ x7 x8) : wNotificationEvent :=
  mk_wNotificationEvent x1 x2 x3 x4 x5 v x7 x8.
Definition NotificationEvent_set_MessageFormat v '(mk_wNotificationEvent x1 x2 x3 x4 x5 x6 _ x8) : wNotificationEvent :=
  mk_wNotificationEvent x1 x2 x3 x4 x5 x6 v x8.
Definition NotificationEvent_set_CatName v '(mk_wNotificationEvent x1 x2 x3 x4 x5 x6 x7 _) : wNotificationEvent :=
  mk_wNotificationEvent x1 x2 x3 x4 x5 x6 x7 v.

Definition NotificationEvent_writeField1 (p : wNotificationEvent) : M P unit :=
  (write_field T_NotificationEvent "eventId" I64 1 (write_scalar T_NotificationEvent "eventId" 1 (WriteI64 (wNotificationEvent_EventId p))))%go.
Definition NotificationEvent_ReadField1 : wNotificationEvent -> MF P wNotificationEvent :=
  assign (read_scalar 1 ReadI64)%go NotificationEvent_set_EventId.
Definition NotificationEvent_writeField2 (p : wNotificationEvent) : M P unit :=
  (write_field T_NotificationEvent "eventTime" I32 2 (write_scalar T_NotificationEvent "eventTime" 2 (WriteI32 (wNotificationEvent_EventTime p))))%go.
Definition NotificationEvent_ReadField2 : wNotificationEvent -> MF P wNotificationEvent :=
  assign (read_scalar 2 ReadI32)%go NotificationEvent_set_EventTime.
Definition NotificationEvent_writeField3 (p : wNotificationEvent) : M P unit :=
  (write_field T_NotificationEvent "eventType" STRING 3 (write_scalar T_NotificationEvent "eventType" 3 (WriteString (wNotificationEvent_EventType p))))%go.
Definition NotificationEvent_ReadField3 : wNotificationEvent -> MF P wNotificationEvent :=
  assign (read_scalar 3 ReadString)%go NotificationEvent_set_EventType.
Definition NotificationEvent_writeField4 (p : wNotificationEvent) : M P unit :=
  (opt (wNotificationEvent_DbName p) (fun v =>
    write_field T_NotificationEvent "dbName" STRING 4 (write_scalar T_NotificationEvent "dbName" 4 (WriteString v))))%go.
Definition NotificationEvent_ReadField4 : wNotificationEvent -> MF P wNotificationEvent :=
  assign (read_scalar 4 ReadString)%go (fun v => NotificationEvent_set_DbName (Some v)).
Definition NotificationEvent_writeField5 (p : wNotificationEvent) : M P unit :=
  (opt (wNotificationEvent_TableName p) (fun v =>
    write_field T_NotificationEvent "tableName" STRING 5 (write_scalar T_NotificationEvent "tableName" 5 (WriteString v))))%go.
Definition NotificationEvent_ReadField5 : wNotificationEvent -> MF P wNotificationEvent :=
  assign (read_scalar 5 ReadString)%go (fun v => NotificationEvent_set_TableName (Some v)).
Definition NotificationEvent_writeField6 (p : wNotificationEvent) : M P unit :=
  (write_field T_NotificationEvent "message" STRING 6 (write_scalar T_NotificationEvent "message" 6 (WriteString (wNotificationEvent_Message p))))%go.
Definition NotificationEvent_ReadField6 : wNotificationEvent -> MF P wNotificationEvent :=
  assign (read_scalar 6 ReadString)%go NotificationEvent_set_Message.
Definition NotificationEvent_writeField7 (p : wNotificationEvent) : M P unit :=
  (opt (wNotificationEvent_MessageFormat p) (fun v =>
    write_field T_NotificationEvent "messageFormat" STRING 7 (write_scalar T_NotificationEvent "messageFormat" 7 (WriteString v))))%go.
Definition NotificationEvent_ReadField7 : wNotificationEvent -> MF P wNotificationEvent :=
  assign (read_scalar 7 ReadString)%go (fun v => NotificationEvent_set_MessageFormat (Some v)).
Definition NotificationEvent_writeField8 (p : wNotificationEvent) : M P unit :=
  (opt (wNotificationEvent_CatName p) (fun v =>
    write_field T_NotificationEvent "catName" STRING 8 (write_scalar T_NotificationEvent "catName" 8 (WriteString v))))%go.
Definition NotificationEvent_ReadField8 : wNotificationEvent -> MF P wNotificationEvent :=
  assign (read_scalar 8 ReadString)%go (fun v => NotificationEvent_set_CatName (Some v)).
Definition NotificationEvent_Write (p : option wNotificationEvent) : M P unit :=
  write_struct T_NotificationEvent "NotificationEvent" ((fun p => [NotificationEvent_writeField1 p; NotificationEvent_writeField2 p; NotificationEvent_writeField3 p; NotificationEvent_writeField4 p; NotificationEvent_writeField5 p; NotificationEvent_writeField6 p; NotificationEvent_writeField7 p; NotificationEvent_writeField8 p]) <$> p).
Definition NotificationEvent_switch : switch wNotificationEvent := fun fieldId =>
  match fieldId with
  | 1 => Some (I64, NotificationEvent_ReadField1)
  | 2 => Some (I32, NotificationEvent_ReadField2)
  | 3 => Some (STRING, NotificationEvent_ReadField3)
  | 4 => Some (STRING, NotificationEvent_ReadField4)
  | 5 => Some (STRING, NotificationEvent_ReadField5)
  | 6 => Some (STRING, NotificationEvent_ReadField6)
  | 7 => Some (STRING, NotificationEvent_ReadField7)
  | 8 => Some (STRING, NotificationEvent_ReadField8)
  | _ => None
  end.
Definition NotificationEvent_Read (fuel : nat) : wNotificationEvent -> MF P wNotificationEvent :=
  read_struct T_NotificationEvent [(1, "EventId"); (2, "EventTime"); (3, "EventType"); (6, "Message")] NotificationEvent_switch fuel.

(** ** NotificationEventRequest *)

Local Abbreviation T_NotificationEventRequest := "*hive_metastore.NotificationEventRequest".
Definition NotificationEventRequest_set_LastEvent v '(mk_wNotificationEventRequest _ x2 x3 x4 x5 x6 x7) : wNotificationEventRequest :=
  mk_wNotificationEventRequest v x2 x3 x4 x5 x6 x7.
Definition NotificationEventRequest_set_MaxEvents v '(mk_wNotificationEventRequest x1 _ x3 x4 x5 x6 x7) : wNotificationEventRequest :=
  mk_wNotificationEventRequest x1 v x3 x4 x5 x6 x7.
Definition NotificationEventRequest_set_EventTypeSkipList v '(mk_wNotificationEventRequest x1 x2 _ x4 x5 x6 x7) : wNotificationEventRequest :=
  mk_wNotificationEventRequest x1 x2 v x4 x5 x6 x7.
Definition NotificationEventRequest_set_CatName v '(mk_wNotificationEventRequest x1 x2 x3 _ x5 x6 x7) : wNotificationEventRequest :=
  mk_wNotificationEventRequest x1 x2 x3 v x5 x6 x7.
Definition NotificationEventRequest_set_DbName v '(mk_wNotificationEventRequest x1 x2 x3 x4 _ x6 x7) : wNotificationEventRequest :=
  mk_wNotificationEventRequest x1 x2 x3 x4 v x6 x7.
Definition NotificationEventRequest_set_TableNames v '(mk_wNotificationEventRequest x1 x2 x3 x4 x5 _ x7) : wNotificationEventRequest :=
  mk_wNotificationEventRequest x1 x2 x3 x4 x5 v x7.
Definition NotificationEventRequest_set_EventTypeList v '(mk_wNotificationEventRequest x1 x2 x3 x4 x5 x6 _) : wNotificationEventRequest :=
  mk_wNotificationEventRequest x1 x2 x3 x4 x5 x6 v.

Definition NotificationEventRequest_writeField1 (p : wNotificationEventRequest) : M P unit :=
  (write_field T_NotificationEventRequest "lastEvent" I64 1 (write_scalar T_NotificationEventRequest "lastEvent" 1 (WriteI64 (wNotificationEventRequest_LastEvent p))))%go.
Definition NotificationEventRequest_ReadField1 : wNotificationEventRequest -> MF P wNotificationEventRequest :=
  assign (read_scalar 1 ReadI64)%go NotificationEventRequest_set_LastEvent.
Definition NotificationEventRequest_writeField2 (p : wNotificationEventRequest) : M P unit :=
  (opt (wNotificationEventRequest_MaxEvents p) (fun v =>
    write_field T_NotificationEventRequest "maxEvents" I32 2 (write_scalar T_NotificationEventRequest "maxEvents" 2 (WriteI32 v))))%go.
Definition NotificationEventRequest_ReadField2 : wNotificationEventRequest -> MF P wNotificationEventRequest :=
  assign (read_scalar 2 ReadI32)%go (fun v => NotificationEventRequest_set_MaxEvents (Some v)).
Definition NotificationEventRequest_writeField3 (p : wNotificationEventRequest) : M P unit :=
  (when (bool_decide (is_Some (wNotificationEventRequest_EventTypeSkipList p)))
    (write_field T_NotificationEventRequest "eventTypeSkipList" LIST 3 (write_strings T_NotificationEventRequest (wNotificationEventRequest_EventTypeSkipList p))))%go.
Definition NotificationEventRequest_ReadField3 : wNotificationEventRequest -> MF P wNotificationEventRequest :=
  assign (read_strings)%go NotificationEventRequest_set_EventTypeSkipList.
Definition NotificationEventRequest_writeField4 (p : wNotificationEventRequest) : M P unit :=
  (opt (wNotificationEventRequest_CatName p) (fun v =>
    write_field T_NotificationEventRequest "catName" STRING 4 (write_scalar T_NotificationEventRequest "catName" 4 (WriteString v))))%go.
Definition NotificationEventRequest_ReadField4 : wNotificationEventRequest -> MF P wNotificationEventRequest :=
  assign (read_scalar 4 ReadString)%go (fun v => NotificationEventRequest_set_CatName (Some v)).
Definition NotificationEventRequest_writeField5 (p : wNotificationEventRequest) : M P unit :=
  (opt (wNotificationEventRequest_DbName p) (fun v =>
    write_field T_NotificationEventRequest "dbName" STRING 5 (write_scalar T_NotificationEventRequest "dbName" 5 (WriteString v))))%go.
Definition NotificationEventRequest_ReadField5 : wNotificationEventRequest -> MF P wNotificationEventRequest :=
  assign (read_scalar 5 ReadString)%go (fun v => NotificationEventRequest_set_DbName (Some v)).
Definition NotificationEventRequest_writeField6 (p : wNotificationEventRequest) : M P unit :=
  (when (bool_decide (is_Some (wNotificationEventRequest_TableNames p)))
    (write_field T_NotificationEventRequest "tableNames" LIST 6 (write_strings T_NotificationEventRequest (wNotificationEventRequest_TableNames p))))%go.
Definition NotificationEventRequest_ReadField6 : wNotificationEventRequest -> MF P wNotificationEventRequest :=
  assign (read_strings)%go NotificationEventRequest_set_TableNames.
Definition NotificationEventRequest_writeField7 (p : wNotificationEventRequest) : M P unit :=
  (when (bool_decide (is_Some (wNotificationEventRequest_EventTypeList p)))
    (write_field T_NotificationEventRequest "eventTypeList" LIST 7 (write_strings T_NotificationEventRequest (wNotificationEventRequest_EventTypeList p))))%go.
Definition NotificationEventRequest_ReadField7 : wNotificationEventRequest -> MF P wNotificationEventRequest :=
  assign (read_strings)%go NotificationEventRequest_set_EventTypeList.
Definition NotificationEventRequest_Write (p : option wNotificationEventRequest) : M P unit :=
  write_struct T_NotificationEventRequest "NotificationEventRequest" ((fun p => [NotificationEventRequest_writeField1 p; NotificationEventRequest_writeField2 p; NotificationEventRequest_writeField3 p; NotificationEventRequest_writeField4 p; NotificationEventRequest_writeField5 p; NotificationEventRequest_writeField6 p; NotificationEventRequest_writeField7 p]) <$> p).
Definition NotificationEventRequest_switch : switch wNotificationEventRequest := fun fieldId =>
  match fieldId with
  | 1 => Some (I64, NotificationEventRequest_ReadField1)
  | 2 => Some (I32, NotificationEventRequest_ReadField2)
  | 3 => Some (LIST, NotificationEventRequest_ReadField3)
  | 4 => Some (STRING, NotificationEventRequest_ReadField4)
  | 5 => Some (STRING, NotificationEventRequest_ReadField5)
  | 6 => Some (LIST, NotificationEventRequest_ReadField6)
  | 7 => Some (LIST, NotificationEventRequest_ReadField7)
  | _ => None
  end.
Definition NotificationEventRequest_Read (fuel : nat) : wNotificationEventRequest -> MF P wNotificationEventRequest :=
  read_struct T_NotificationEventRequest [(1, "LastEvent")] NotificationEventRequest_switch fuel.

(** ** NotificationEventResponse *)

Local Abbreviation T_NotificationEventResponse := "*hive_metastore.NotificationEventResponse".
Definition NotificationEventResponse_set_Events v (_ : wNotificationEventResponse) : wNotificationEventResponse := mk_wNotificationEventResponse v.

Definition NotificationEventResponse_writeField1 (p : wNotificationEventResponse) : M P unit :=
  (write_field T_NotificationEventResponse "events" LIST 1 (write_list STRUCT (fun v => write_sub "*hive_metastore.NotificationEvent" (NotificationEvent_Write v)) (wNotificationEventResponse_Events p)))%go.
Definition NotificationEventResponse_ReadField1 (fuel : nat) : wNotificationEventResponse -> MF P wNotificationEventResponse :=
  assign (read_list (v <-- read_sub "*hive_metastore.NotificationEvent" (NotificationEvent_Read fuel NewNotificationEvent);; liftF (ret (Some v))))%go NotificationEventResponse_set_Events.
Definition NotificationEventResponse_Write (p : option wNotificationEventResponse) : M P unit :=
  write_struct T_NotificationEventResponse "NotificationEventResponse" ((fun p => [NotificationEventResponse_writeField1 p]) <$> p).
Definition NotificationEventResponse_switch (fuel : nat) : switch wNotificationEventResponse := fun fieldId =>
  match fieldId with
  | 1 => Some (LIST, NotificationEventResponse_ReadField1 fuel)
  | _ => None
  end.
Definition NotificationEventResponse_Read (fuel : nat) : wNotificationEventResponse -> MF P wNotificationEventResponse :=
  read_struct T_NotificationEventResponse [(1, "Events")] (NotificationEventResponse_switch fuel) fuel.

(** ** CurrentNotificationEventId *)

Local Abbreviation T_CurrentNotificationEventId := "*hive_metastore.CurrentNotificationEventId".
Definition CurrentNotificationEventId_set_EventId v (_ : wCurrentNotificationEventId) : wCurrentNotificationEventId := mk_wCurrentNotificationEventId v.

Definition CurrentNotificationEventId_writeField1 (p : wCurrentNotificationEventId) : M P unit :=
  (write_field T_CurrentNotificationEventId "eventId" I64 1 (write_scalar T_CurrentNotificationEventId "eventId" 1 (WriteI64 (wCurrentNotificationEventId_EventId p))))%go.
Definition CurrentNotificationEventId_ReadField1 : wCurrentNotificationEventId -> MF P wCurrentNotificationEventId :=
  assign (read_scalar 1 ReadI64)%go CurrentNotificationEventId_set_EventId.
Definition CurrentNotificationEventId_Write (p : option wCurrentNotificationEventId) : M P unit :=
  write_struct T_CurrentNotificationEventId "CurrentNotificationEventId" ((fun p => [CurrentNotificationEventId_writeField1 p]) <$> p).
Definition CurrentNotificationEventId_switch : switch wCurrentNotificationEventId := fun fieldId =>
  match fieldId with
  | 1 => Some (I64, CurrentNotificationEventId_ReadField1)
  | _ => None
  end.
Definition CurrentNotificationEventId_Read (fuel : nat) : wCurrentNotificationEventId -> MF P wCurrentNotificationEventId :=
  read_struct T_CurrentNotificationEventId [(1, "EventId")] CurrentNotificationEventId_switch fuel.
End codec.
