(* ===== verification/CodecAcidFacts.v ===== *)
(** * CodecAcidFacts: what the codecs of CodecAcid write, and that they read it back *)

From S2P Require Import Prelude Errors GoMonad Types Transport Client TxnOps Wire Thrift ThriftFacts CodecTable CodecTableFacts DeepCopy CodecAcid.

Section facts.
Context {P : Type} {TP : TProtocol P} {TL : TProtocolLaws P} {MR : MapRange} {SB : Substructs P} {SL : SubstructLaws P}.

(** ** LockComponent *)

Definition LockComponent_wire (p : wLockComponent) : list (list wfield) :=
  [[(1, I32, [KI32 (int32 (wLockComponent_Type p))])];
   [(2, I32, [KI32 (int32 (wLockComponent_Level p))])];
   [(3, STRING, [KString (wLockComponent_Dbname p)])];
   opt_part (wLockComponent_Tablename p) (fun v => (4, STRING, [KString v]));
   opt_part (wLockComponent_Partitionname p) (fun v => (5, STRING, [KString v]));
   when_part (negb (wLockComponent_OperationType p =? 5)) (6, I32, [KI32 (int32 (wLockComponent_OperationType p))]);
   when_part (negb (Bool.eqb (wLockComponent_IsTransactional p) false)) (7, BOOL, [KBool (wLockComponent_IsTransactional p)]);
   when_part (negb (Bool.eqb (wLockComponent_IsDynamicPartitionWrite p) false)) (8, BOOL, [KBool (wLockComponent_IsDynamicPartitionWrite p)])].
Definition LockComponent_toks (p : option wLockComponent) : list tok :=
  struct_toks (match p with Some p => concat (LockComponent_wire p) | None => [] end).
Definition LockComponent_canon (p : wLockComponent) : wLockComponent :=
  mk_wLockComponent (int32 (wLockComponent_Type p))
    (int32 (wLockComponent_Level p))
    (wLockComponent_Dbname p)
    (wLockComponent_Tablename p)
    (wLockComponent_Partitionname p)
    (int32 (wLockComponent_OperationType p))
    (wLockComponent_IsTransactional p)
    (wLockComponent_IsDynamicPartitionWrite p).

Lemma LockComponent_writes strict d p : (1 <= d)%nat -> 
  writes strict d (LockComponent_Write p) (LockComponent_toks p).
Proof. enter_struct. unfold LockComponent_wire, LockComponent_writeField1, LockComponent_writeField2, LockComponent_writeField3, LockComponent_writeField4, LockComponent_writeField5, LockComponent_writeField6, LockComponent_writeField7, LockComponent_writeField8. write_fields. Qed.
Lemma LockComponent_runs d fuel p : (0 <= d)%nat -> (9 <= fuel)%nat -> 
  exists ids, runs d LockComponent_switch (concat (LockComponent_wire p)) NewLockComponent (LockComponent_canon p) ids /\ 1 ∈ ids /\ 2 ∈ ids /\ 3 ∈ ids.
Proof.
  intros Hd Hf. unfold LockComponent_wire. eexists.
  split.
  { cbn [concat]. run_one.
    run_one.
    run_one.
    run_opt_same LockComponent_set_Tablename.
    run_opt_same LockComponent_set_Partitionname.
    run_when LockComponent_set_OperationType (int32 (wLockComponent_OperationType p)) 5.
    run_when LockComponent_set_IsTransactional (wLockComponent_IsTransactional p) false.
    run_when LockComponent_set_IsDynamicPartitionWrite (wLockComponent_IsDynamicPartitionWrite p) false.
  run_end. }
  split_and?; set_solver.
Qed.
Lemma LockComponent_reads d fuel p : (1 <= d)%nat -> (9 <= fuel)%nat -> 
  reads d (LockComponent_Read fuel NewLockComponent) (LockComponent_toks (Some p)) (LockComponent_canon p).
Proof. struct_reads LockComponent_runs LockComponent_wire. Qed.
#[local] Hint Resolve LockComponent_writes LockComponent_reads : wire.

(** ** LockRequest *)

Definition LockRequest_wire (p : wLockRequest) : list (list wfield) :=
  [[(1, LIST, list_toks STRUCT LockComponent_toks (wLockRequest_Component p))];
   opt_part (wLockRequest_Txnid p) (fun v => (2, I64, [KI64 v]));
   [(3, STRING, [KString (wLockRequest_User p)])];
   [(4, STRING, [KString (wLockRequest_Hostname p)])];
   when_part (negb (String.eqb (wLockRequest_AgentInfo p) "Unknown")) (5, STRING, [KString (wLockRequest_AgentInfo p)]);
   when_part (negb (Bool.eqb (wLockRequest_ZeroWaitReadEnabled p) false)) (6, BOOL, [KBool (wLockRequest_ZeroWaitReadEnabled p)]);
   when_part (negb (Bool.eqb (wLockRequest_ExclusiveCTAS p) false)) (7, BOOL, [KBool (wLockRequest_ExclusiveCTAS p)]);
   when_part (negb (Bool.eqb (wLockRequest_LocklessReadsEnabled p) false)) (8, BOOL, [KBool (wLockRequest_LocklessReadsEnabled p)])].
Definition LockRequest_toks (p : option wLockRequest) : list tok :=
  struct_toks (match p with Some p => concat (LockRequest_wire p) | None => [] end).
Definition LockRequest_canon (p : wLockRequest) : wLockRequest :=
  mk_wLockRequest (Some (map (fun v => Some (LockComponent_canon (default NewLockComponent v))) (elems (wLockRequest_Component p))))
    (wLockRequest_Txnid p)
    (wLockRequest_User p)
    (wLockRequest_Hostname p)
    (wLockRequest_AgentInfo p)
    (wLockRequest_ZeroWaitReadEnabled p)
    (wLockRequest_ExclusiveCTAS p)
    (wLockRequest_LocklessReadsEnabled p).
Definition LockRequest_full (p : wLockRequest) : Prop := Forall is_Some (elems (wLockRequest_Component p)).

Lemma LockRequest_writes strict d p : (2 <= d)%nat -> 
  writes strict d (LockRequest_Write p) (LockRequest_toks p).
Proof. enter_struct. unfold LockRequest_wire, LockRequest_writeField1, LockRequest_writeField2, LockRequest_writeField3, LockRequest_writeField4, LockRequest_writeField5, LockRequest_writeField6, LockRequest_writeField7, LockRequest_writeField8. write_fields. Qed.
Lemma LockRequest_runs d fuel p : (1 <= d)%nat -> (9 <= fuel)%nat -> LockRequest_full p -> 
  exists ids, runs d (LockRequest_switch fuel) (concat (LockRequest_wire p)) NewLockRequest (LockRequest_canon p) ids /\ 1 ∈ ids /\ 3 ∈ ids /\ 4 ∈ ids.
Proof.
  intros Hd Hf Hfull. unfold LockRequest_full in Hfull. unfold LockRequest_wire. eexists.
  split.
  { cbn [concat]. run_full (fun v => Some (LockComponent_canon (default NewLockComponent v))).
    run_opt_same LockRequest_set_Txnid.
    run_one.
    run_one.
    run_when LockRequest_set_AgentInfo (wLockRequest_AgentInfo p) "Unknown".
    run_when LockRequest_set_ZeroWaitReadEnabled (wLockRequest_ZeroWaitReadEnabled p) false.
    run_when LockRequest_set_ExclusiveCTAS (wLockRequest_ExclusiveCTAS p) false.
    run_when LockRequest_set_LocklessReadsEnabled (wLockRequest_LocklessReadsEnabled p) false.
  run_end. }
  split_and?; set_solver.
Qed.
Lemma LockRequest_reads d fuel p : (2 <= d)%nat -> (9 <= fuel)%nat -> LockRequest_full p -> 
  reads d (LockRequest_Read fuel NewLockRequest) (LockRequest_toks (Some p)) (LockRequest_canon p).
Proof. struct_reads LockRequest_runs LockRequest_wire. Qed.
#[local] Hint Resolve LockRequest_writes LockRequest_reads : wire.

(** ** LockResponse *)

Definition LockResponse_wire (p : wLockResponse) : list (list wfield) :=
  [[(1, I64, [KI64 (wLockResponse_Lockid p)])];
   [(2, I32, [KI32 (int32 (wLockResponse_State p))])];
   opt_part (wLockResponse_ErrorMessage p) (fun v => (3, STRING, [KString v]))].
Definition LockResponse_toks (p : option wLockResponse) : list tok :=
  struct_toks (match p with Some p => concat (LockResponse_wire p) | None => [] end).
Definition LockResponse_canon (p : wLockResponse) : wLockResponse :=
  mk_wLockResponse (wLockResponse_Lockid p)
    (int32 (wLockResponse_State p))
    (wLockResponse_ErrorMessage p).

Lemma LockResponse_writes strict d p : (1 <= d)%nat -> 
  writes strict d (LockResponse_Write p) (LockResponse_toks p).
Proof. enter_struct. unfold LockResponse_wire, LockResponse_writeField1, LockResponse_writeField2, LockResponse_writeField3. write_fields. Qed.
Lemma LockResponse_runs d fuel p : (0 <= d)%nat -> (4 <= fuel)%nat -> 
  exists ids, runs d LockResponse_switch (concat (LockResponse_wire p)) NewLockResponse (LockResponse_canon p) ids /\ 1 ∈ ids /\ 2 ∈ ids.
Proof.
  intros Hd Hf. unfold LockResponse_wire. eexists.
  split.
  { cbn [concat]. run_one.
    run_one.
    run_opt_same LockResponse_set_ErrorMessage.
  run_end. }
  split_and?; set_solver.
Qed.
Lemma LockResponse_reads d fuel p : (1 <= d)%nat -> (4 <= fuel)%nat -> 
  reads d (LockResponse_Read fuel NewLockResponse) (LockResponse_toks (Some p)) (LockResponse_canon p).
Proof. struct_reads LockResponse_runs LockResponse_wire. Qed.
#[local] Hint Resolve LockResponse_writes LockResponse_reads : wire.

(** ** CheckLockRequest *)

Definition CheckLockRequest_wire (p : wCheckLockRequest) : list (list wfield) :=
  [[(1, I64, [KI64 (wCheckLockRequest_Lockid p)])];
   opt_part (wCheckLockRequest_Txnid p) (fun v => (2, I64, [KI64 v]));
   opt_part (wCheckLockRequest_ElapsedMs p) (fun v => (3, I64, [KI64 v]))].
Definition CheckLockRequest_toks (p : option wCheckLockRequest) : list tok :=
  struct_toks (match p with Some p => concat (CheckLockRequest_wire p) | None => [] end).
Definition CheckLockRequest_canon (p : wCheckLockRequest) : wCheckLockRequest :=
  mk_wCheckLockRequest (wCheckLockRequest_Lockid p)
    (wCheckLockRequest_Txnid p)
    (wCheckLockRequest_ElapsedMs p).

Lemma CheckLockRequest_writes strict d p : (1 <= d)%nat -> 
  writes strict d (CheckLockRequest_Write p) (CheckLockRequest_toks p).
Proof. enter_struct. unfold CheckLockRequest_wire, CheckLockRequest_writeField1, CheckLockRequest_writeField2, CheckLockRequest_writeField3. write_fields. Qed.
Lemma CheckLockRequest_runs d fuel p : (0 <= d)%nat -> (4 <= fuel)%nat -> 
  exists ids, runs d CheckLockRequest_switch (concat (CheckLockRequest_wire p)) NewCheckLockRequest (CheckLockRequest_canon p) ids /\ 1 ∈ ids.
Proof.
  intros Hd Hf. unfold CheckLockRequest_wire. eexists.
  split.
  { cbn [concat]. run_one.
    run_opt_same CheckLockRequest_set_Txnid.
    run_opt_same CheckLockRequest_set_ElapsedMs.
  run_end. }
  split_and?; set_solver.
Qed.
Lemma CheckLockRequest_reads d fuel p : (1 <= d)%nat -> (4 <= fuel)%nat -> 
  reads d (CheckLockRequest_Read fuel NewCheckLockRequest) (CheckLockRequest_toks (Some p)) (CheckLockRequest_canon p).
Proof. struct_reads CheckLockRequest_runs CheckLockRequest_wire. Qed.
#[local] Hint Resolve CheckLockRequest_writes CheckLockRequest_reads : wire.

(** ** UnlockRequest *)

Definition UnlockRequest_wire (p : wUnlockRequest) : list (list wfield) :=
  [[(1, I64, [KI64 (wUnlockRequest_Lockid p)])]].
Definition UnlockRequest_toks (p : option wUnlockRequest) : list tok :=
  struct_toks (match p with Some p => concat (UnlockRequest_wire p) | None => [] end).
Definition UnlockRequest_canon (p : wUnlockRequest) : wUnlockRequest :=
  mk_wUnlockRequest (wUnlockRequest_Lockid p).

Lemma UnlockRequest_writes strict d p : (1 <= d)%nat -> 
  writes strict d (UnlockRequest_Write p) (UnlockRequest_toks p).
Proof. enter_struct. unfold UnlockRequest_wire, UnlockRequest_writeField1. write_fields. Qed.
Lemma UnlockRequest_runs d fuel p : (0 <= d)%nat -> (2 <= fuel)%nat -> 
  exists ids, runs d UnlockRequest_switch (concat (UnlockRequest_wire p)) NewUnlockRequest (UnlockRequest_canon p) ids /\ 1 ∈ ids.
Proof.
  intros Hd Hf. unfold UnlockRequest_wire. eexists.
  split.
  { cbn [concat]. run_one.
  run_end. }
  split_and?; set_solver.
Qed.
Lemma UnlockRequest_reads d fuel p : (1 <= d)%nat -> (2 <= fuel)%nat -> 
  reads d (UnlockRequest_Read fuel NewUnlockRequest) (UnlockRequest_toks (Some p)) (UnlockRequest_canon p).
Proof. struct_reads UnlockRequest_runs UnlockRequest_wire. Qed.
#[local] Hint Resolve UnlockRequest_writes UnlockRequest_reads : wire.

(** ** OpenTxnRequest *)

Definition OpenTxnRequest_wire (p : wOpenTxnRequest) : list (list wfield) :=
  [[(1, I32, [KI32 (wOpenTxnRequest_NumTxns p)])];
   [(2, STRING, [KString (wOpenTxnRequest_User p)])];
   [(3, STRING, [KString (wOpenTxnRequest_Hostname p)])];
   when_part (negb (String.eqb (wOpenTxnRequest_AgentInfo p) "Unknown")) (4, STRING, [KString (wOpenTxnRequest_AgentInfo p)]);
   opt_part (wOpenTxnRequest_ReplPolicy p) (fun v => (5, STRING, [KString v]));
   when_part (bool_decide (is_Some (wOpenTxnRequest_ReplSrcTxnIds p))) (6, LIST, list_toks I64 (fun v => [KI64 v]) (wOpenTxnRequest_ReplSrcTxnIds p));
   when_part (negb (wOpenTxnRequest_TxnType p =? 0)) (7, I32, [KI32 (int32 (wOpenTxnRequest_TxnType p))])].
Definition OpenTxnRequest_toks (p : option wOpenTxnRequest) : list tok :=
  struct_toks (match p with Some p => concat (OpenTxnRequest_wire p) | None => [] end).
Definition OpenTxnRequest_canon (p : wOpenTxnRequest) : wOpenTxnRequest :=
  mk_wOpenTxnRequest (wOpenTxnRequest_NumTxns p)
    (wOpenTxnRequest_User p)
    (wOpenTxnRequest_Hostname p)
    (wOpenTxnRequest_AgentInfo p)
    (wOpenTxnRequest_ReplPolicy p)
    (wOpenTxnRequest_ReplSrcTxnIds p)
    (int32 (wOpenTxnRequest_TxnType p)).

Lemma OpenTxnRequest_writes strict d p : (1 <= d)%nat -> 
  writes strict d (OpenTxnRequest_Write p) (OpenTxnRequest_toks p).
Proof. enter_struct. unfold OpenTxnRequest_wire, OpenTxnRequest_writeField1, OpenTxnRequest_writeField2, OpenTxnRequest_writeField3, OpenTxnRequest_writeField4, OpenTxnRequest_writeField5, OpenTxnRequest_writeField6, OpenTxnRequest_writeField7. write_fields. Qed.
Lemma OpenTxnRequest_runs d fuel p : (0 <= d)%nat -> (8 <= fuel)%nat -> 
  exists ids, runs d OpenTxnRequest_switch (concat (OpenTxnRequest_wire p)) NewOpenTxnRequest (OpenTxnRequest_canon p) ids /\ 1 ∈ ids /\ 2 ∈ ids /\ 3 ∈ ids.
Proof.
  intros Hd Hf. unfold OpenTxnRequest_wire. eexists.
  split.
  { cbn [concat]. run_one.
    run_one.
    run_one.
    run_when OpenTxnRequest_set_AgentInfo (wOpenTxnRequest_AgentInfo p) "Unknown".
    run_opt_same OpenTxnRequest_set_ReplPolicy.
    run_slice_same OpenTxnRequest_set_ReplSrcTxnIds.
    run_when OpenTxnRequest_set_TxnType (int32 (wOpenTxnRequest_TxnType p)) 0.
  run_end. }
  split_and?; set_solver.
Qed.
Lemma OpenTxnRequest_reads d fuel p : (1 <= d)%nat -> (8 <= fuel)%nat -> 
  reads d (OpenTxnRequest_Read fuel NewOpenTxnRequest) (OpenTxnRequest_toks (Some p)) (OpenTxnRequest_canon p).
Proof. struct_reads OpenTxnRequest_runs OpenTxnRequest_wire. Qed.
#[local] Hint Resolve OpenTxnRequest_writes OpenTxnRequest_reads : wire.

(** ** OpenTxnsResponse *)

Definition OpenTxnsResponse_wire (p : wOpenTxnsResponse) : list (list wfield) :=
  [[(1, LIST, list_toks I64 (fun v => [KI64 v]) (wOpenTxnsResponse_TxnIds p))]].
Definition OpenTxnsResponse_toks (p : option wOpenTxnsResponse) : list tok :=
  struct_toks (match p with Some p => concat (OpenTxnsResponse_wire p) | None => [] end).
Definition OpenTxnsResponse_canon (p : wOpenTxnsResponse) : wOpenTxnsResponse :=
  mk_wOpenTxnsResponse (Some (elems (wOpenTxnsResponse_TxnIds p))).

Lemma OpenTxnsResponse_writes strict d p : (1 <= d)%nat -> 
  writes strict d (OpenTxnsResponse_Write p) (OpenTxnsResponse_toks p).
Proof. enter_struct. unfold OpenTxnsResponse_wire, OpenTxnsResponse_writeField1. write_fields. Qed.
Lemma OpenTxnsResponse_runs d fuel p : (0 <= d)%nat -> (2 <= fuel)%nat -> 
  exists ids, runs d OpenTxnsResponse_switch (concat (OpenTxnsResponse_wire p)) NewOpenTxnsResponse (OpenTxnsResponse_canon p) ids /\ 1 ∈ ids.
Proof.
  intros Hd Hf. unfold OpenTxnsResponse_wire. eexists.
  split.
  { cbn [concat]. run_one.
  run_end. }
  split_and?; set_solver.
Qed.
Lemma OpenTxnsResponse_reads d fuel p : (1 <= d)%nat -> (2 <= fuel)%nat -> 
  reads d (OpenTxnsResponse_Read fuel NewOpenTxnsResponse) (OpenTxnsResponse_toks (Some p)) (OpenTxnsResponse_canon p).
Proof. struct_reads OpenTxnsResponse_runs OpenTxnsResponse_wire. Qed.
#[local] Hint Resolve OpenTxnsResponse_writes OpenTxnsResponse_reads : wire.

(** ** AbortTxnRequest *)

Definition AbortTxnRequest_wire (p : wAbortTxnRequest) : list (list wfield) :=
  [[(1, I64, [KI64 (wAbortTxnRequest_Txnid p)])];
   opt_part (wAbortTxnRequest_ReplPolicy p) (fun v => (2, STRING, [KString v]));
   opt_part (wAbortTxnRequest_TxnType p) (fun v => (3, I32, [KI32 (int32 v)]));
   opt_part (wAbortTxnRequest_ErrorCode p) (fun v => (4, I64, [KI64 v]))].
Definition AbortTxnRequest_toks (p : option wAbortTxnRequest) : list tok :=
  struct_toks (match p with Some p => concat (AbortTxnRequest_wire p) | None => [] end).
Definition AbortTxnRequest_canon (p : wAbortTxnRequest) : wAbortTxnRequest :=
  mk_wAbortTxnRequest (wAbortTxnRequest_Txnid p)
    (wAbortTxnRequest_ReplPolicy p)
    (int32 <$> wAbortTxnRequest_TxnType p)
    (wAbortTxnRequest_ErrorCode p).

Lemma AbortTxnRequest_writes strict d p : (1 <= d)%nat -> 
  writes strict d (AbortTxnRequest_Write p) (AbortTxnRequest_toks p).
Proof. enter_struct. unfold AbortTxnRequest_wire, AbortTxnRequest_writeField1, AbortTxnRequest_writeField2, AbortTxnRequest_writeField3, AbortTxnRequest_writeField4. write_fields. Qed.
Lemma AbortTxnRequest_runs d fuel p : (0 <= d)%nat -> (5 <= fuel)%nat -> 
  exists ids, runs d AbortTxnRequest_switch (concat (AbortTxnRequest_wire p)) NewAbortTxnRequest (AbortTxnRequest_canon p) ids /\ 1 ∈ ids.
Proof.
  intros Hd Hf. unfold AbortTxnRequest_wire. eexists.
  split.
  { cbn [concat]. run_one.
    run_opt_same AbortTxnRequest_set_ReplPolicy.
    run_opt AbortTxnRequest_set_TxnType int32.
    run_opt_same AbortTxnRequest_set_ErrorCode.
  run_end. }
  split_and?; set_solver.
Qed.
Lemma AbortTxnRequest_reads d fuel p : (1 <= d)%nat -> (5 <= fuel)%nat -> 
  reads d (AbortTxnRequest_Read fuel NewAbortTxnRequest) (AbortTxnRequest_toks (Some p)) (AbortTxnRequest_canon p).
Proof. struct_reads AbortTxnRequest_runs AbortTxnRequest_wire. Qed.
#[local] Hint Resolve AbortTxnRequest_writes AbortTxnRequest_reads : wire.

(** ** HeartbeatRequest *)

Definition HeartbeatRequest_wire (p : wHeartbeatRequest) : list (list wfield) :=
  [opt_part (wHeartbeatRequest_Lockid p) (fun v => (1, I64, [KI64 v]));
   opt_part (wHeartbeatRequest_Txnid p) (fun v => (2, I64, [KI64 v]))].
Definition HeartbeatRequest_toks (p : option wHeartbeatRequest) : list tok :=
  struct_toks (match p with Some p => concat (HeartbeatRequest_wire p) | None => [] end).
Definition HeartbeatRequest_canon (p : wHeartbeatRequest) : wHeartbeatRequest :=
  mk_wHeartbeatRequest (wHeartbeatRequest_Lockid p)
    (wHeartbeatRequest_Txnid p).

Lemma HeartbeatRequest_writes strict d p : (1 <= d)%nat -> 
  writes strict d (HeartbeatRequest_Write p) (HeartbeatRequest_toks p).
Proof. enter_struct. unfold HeartbeatRequest_wire, HeartbeatRequest_writeField1, HeartbeatRequest_writeField2. write_fields. Qed.
Lemma HeartbeatRequest_runs d fuel p : (0 <= d)%nat -> (3 <= fuel)%nat -> 
  exists ids, runs d HeartbeatRequest_switch (concat (HeartbeatRequest_wire p)) NewHeartbeatRequest (HeartbeatRequest_canon p) ids.
Proof.
  intros Hd Hf. unfold HeartbeatRequest_wire. eexists.
  cbn [concat]. run_opt_same HeartbeatRequest_set_Lockid.
  run_opt_same HeartbeatRequest_set_Txnid.
  run_end.
Qed.
Lemma HeartbeatRequest_reads d fuel p : (1 <= d)%nat -> (3 <= fuel)%nat -> 
  reads d (HeartbeatRequest_Read fuel NewHeartbeatRequest) (HeartbeatRequest_toks (Some p)) (HeartbeatRequest_canon p).
Proof. struct_reads HeartbeatRequest_runs HeartbeatRequest_wire. Qed.
#[local] Hint Resolve HeartbeatRequest_writes HeartbeatRequest_reads : wire.

(** ** NotificationEvent *)

Definition NotificationEvent_wire (p : wNotificationEvent) : list (list wfield) :=
  [[(1, I64, [KI64 (wNotificationEvent_EventId p)])];
   [(2, I32, [KI32 (wNotificationEvent_EventTime p)])];
   [(3, STRING, [KString (wNotificationEvent_EventType p)])];
   opt_part (wNotificationEvent_DbName p) (fun v => (4, STRING, [KString v]));
   opt_part (wNotificationEvent_TableName p) (fun v => (5, STRING, [KString v]));
   [(6, STRING, [KString (wNotificationEvent_Message p)])];
   opt_part (wNotificationEvent_MessageFormat p) (fun v => (7, STRING, [KString v]));
   opt_part (wNotificationEvent_CatName p) (fun v => (8, STRING, [KString v]))].
Definition NotificationEvent_toks (p : option wNotificationEvent) : list tok :=
  struct_toks (match p with Some p => concat (NotificationEvent_wire p) | None => [] end).
Definition NotificationEvent_canon (p : wNotificationEvent) : wNotificationEvent :=
  mk_wNotificationEvent (wNotificationEvent_EventId p)
    (wNotificationEvent_EventTime p)
    (wNotificationEvent_EventType p)
    (wNotificationEvent_DbName p)
    (wNotificationEvent_TableName p)
    (wNotificationEvent_Message p)
    (wNotificationEvent_MessageFormat p)
    (wNotificationEvent_CatName p).

Lemma NotificationEvent_writes strict d p : (1 <= d)%nat -> 
  writes strict d (NotificationEvent_Write p) (NotificationEvent_toks p).
Proof. enter_struct. unfold NotificationEvent_wire, NotificationEvent_writeField1, NotificationEvent_writeField2, NotificationEvent_writeField3, NotificationEvent_writeField4, NotificationEvent_writeField5, NotificationEvent_writeField6, NotificationEvent_writeField7, NotificationEvent_writeField8. write_fields. Qed.
Lemma NotificationEvent_runs d fuel p : (0 <= d)%nat -> (9 <= fuel)%nat -> 
  exists ids, runs d NotificationEvent_switch (concat (NotificationEvent_wire p)) NewNotificationEvent (NotificationEvent_canon p) ids /\ 1 ∈ ids /\ 2 ∈ ids /\ 3 ∈ ids /\ 6 ∈ ids.
Proof.
  intros Hd Hf. unfold NotificationEvent_wire. eexists.
  split.
  { cbn [concat]. run_one.
    run_one.
    run_one.
    run_opt_same NotificationEvent_set_DbName.
    run_opt_same NotificationEvent_set_TableName.
    run_one.
    run_opt_same NotificationEvent_set_MessageFormat.
    run_opt_same NotificationEvent_set_CatName.
  run_end. }
  split_and?; set_solver.
Qed.
Lemma NotificationEvent_reads d fuel p : (1 <= d)%nat -> (9 <= fuel)%nat -> 
  reads d (NotificationEvent_Read fuel NewNotificationEvent) (NotificationEvent_toks (Some p)) (NotificationEvent_canon p).
Proof. struct_reads NotificationEvent_runs NotificationEvent_wire. Qed.
#[local] Hint Resolve NotificationEvent_writes NotificationEvent_reads : wire.

(** ** NotificationEventRequest *)

Definition NotificationEventRequest_wire (p : wNotificationEventRequest) : list (list wfield) :=
  [[(1, I64, [KI64 (wNotificationEventRequest_LastEvent p)])];
   opt_part (wNotificationEventRequest_MaxEvents p) (fun v => (2, I32, [KI32 v]));
   when_part (bool_decide (is_Some (wNotificationEventRequest_EventTypeSkipList p))) (3, LIST, strings_toks (wNotificationEventRequest_EventTypeSkipList p));
   opt_part (wNotificationEventRequest_CatName p) (fun v => (4, STRING, [KString v]));
   opt_part (wNotificationEventRequest_DbName p) (fun v => (5, STRING, [KString v]));
   when_part (bool_decide (is_Some (wNotificationEventRequest_TableNames p))) (6, LIST, strings_toks (wNotificationEventRequest_TableNames p));
   when_part (bool_decide (is_Some (wNotificationEventRequest_EventTypeList p))) (7, LIST, strings_toks (wNotificationEventRequest_EventTypeList p))].
Definition NotificationEventRequest_toks (p : option wNotificationEventRequest) : list tok :=
  struct_toks (match p with Some p => concat (NotificationEventRequest_wire p) | None => [] end).
Definition NotificationEventRequest_canon (p : wNotificationEventRequest) : wNotificationEventRequest :=
  mk_wNotificationEventRequest (wNotificationEventRequest_LastEvent p)
    (wNotificationEventRequest_MaxEvents p)
    (wNotificationEventRequest_EventTypeSkipList p)
    (wNotificationEventRequest_CatName p)
    (wNotificationEventRequest_DbName p)
    (wNotificationEventRequest_TableNames p)
    (wNotificationEventRequest_EventTypeList p).

Lemma NotificationEventRequest_writes strict d p : (1 <= d)%nat -> 
  writes strict d (NotificationEventRequest_Write p) (NotificationEventRequest_toks p).
Proof. enter_struct. unfold NotificationEventRequest_wire, NotificationEventRequest_writeField1, NotificationEventRequest_writeField2, NotificationEventRequest_writeField3, NotificationEventRequest_writeField4, NotificationEventRequest_writeField5, NotificationEventRequest_writeField6, NotificationEventRequest_writeField7. write_fields. Qed.
Lemma NotificationEventRequest_runs d fuel p : (0 <= d)%nat -> (8 <= fuel)%nat -> 
  exists ids, runs d NotificationEventRequest_switch (concat (NotificationEventRequest_wire p)) NewNotificationEventRequest (NotificationEventRequest_canon p) ids /\ 1 ∈ ids.
Proof.
  intros Hd Hf. unfold NotificationEventRequest_wire. eexists.
  split.
  { cbn [concat]. run_one.
    run_opt_same NotificationEventRequest_set_MaxEvents.
    run_slice_same NotificationEventRequest_set_EventTypeSkipList.
    run_opt_same NotificationEventRequest_set_CatName.
    run_opt_same NotificationEventRequest_set_DbName.
    run_slice_same NotificationEventRequest_set_TableNames.
    run_slice_same NotificationEventRequest_set_EventTypeList.
  run_end. }
  split_and?; set_solver.
Qed.
Lemma NotificationEventRequest_reads d fuel p : (1 <= d)%nat -> (8 <= fuel)%nat -> 
  reads d (NotificationEventRequest_Read fuel NewNotificationEventRequest) (NotificationEventRequest_toks (Some p)) (NotificationEventRequest_canon p).
Proof. struct_reads NotificationEventRequest_runs NotificationEventRequest_wire. Qed.
#[local] Hint Resolve NotificationEventRequest_writes NotificationEventRequest_reads : wire.

(** ** NotificationEventResponse *)

Definition NotificationEventResponse_wire (p : wNotificationEventResponse) : list (list wfield) :=
  [[(1, LIST, list_toks STRUCT NotificationEvent_toks (wNotificationEventResponse_Events p))]].
Definition NotificationEventResponse_toks (p : option wNotificationEventResponse) : list tok :=
  struct_toks (match p with Some p => concat (NotificationEventResponse_wire p) | None => [] end).
Definition NotificationEventResponse_canon (p : wNotificationEventResponse) : wNotificationEventResponse :=
  mk_wNotificationEventResponse (Some (map (fun v => Some (NotificationEvent_canon (default NewNotificationEvent v))) (elems (wNotificationEventResponse_Events p)))).
Definition NotificationEventResponse_full (p : wNotificationEventResponse) : Prop := Forall is_Some (elems (wNotificationEventResponse_Events p)).

Lemma NotificationEventResponse_writes strict d p : (2 <= d)%nat -> 
  writes strict d (NotificationEventResponse_Write p) (NotificationEventResponse_toks p).
Proof. enter_struct. unfold NotificationEventResponse_wire, NotificationEventResponse_writeField1. write_fields. Qed.
Lemma NotificationEventResponse_runs d fuel p : (1 <= d)%nat -> (9 <= fuel)%nat -> NotificationEventResponse_full p -> 
  exists ids, runs d (NotificationEventResponse_switch fuel) (concat (NotificationEventResponse_wire p)) NewNotificationEventResponse (NotificationEventResponse_canon p) ids /\ 1 ∈ ids.
Proof.
  intros Hd Hf Hfull. unfold NotificationEventResponse_full in Hfull. unfold NotificationEventResponse_wire. eexists.
  split.
  { cbn [concat]. run_full (fun v => Some (NotificationEvent_canon (default NewNotificationEvent v))).
  run_end. }
  split_and?; set_solver.
Qed.
Lemma NotificationEventResponse_reads d fuel p : (2 <= d)%nat -> (9 <= fuel)%nat -> NotificationEventResponse_full p -> 
  reads d (NotificationEventResponse_Read fuel NewNotificationEventResponse) (NotificationEventResponse_toks (Some p)) (NotificationEventResponse_canon p).
Proof. struct_reads NotificationEventResponse_runs NotificationEventResponse_wire. Qed.
#[local] Hint Resolve NotificationEventResponse_writes NotificationEventResponse_reads : wire.

(** ** CurrentNotificationEventId *)

Definition CurrentNotificationEventId_wire (p : wCurrentNotificationEventId) : list (list wfield) :=
  [[(1, I64, [KI64 (wCurrentNotificationEventId_EventId p)])]].
Definition CurrentNotificationEventId_toks (p : option wCurrentNotificationEventId) : list tok :=
  struct_toks (match p with Some p => concat (CurrentNotificationEventId_wire p) | None => [] end).
Definition CurrentNotificationEventId_canon (p : wCurrentNotificationEventId) : wCurrentNotificationEventId :=
  mk_wCurrentNotificationEventId (wCurrentNotificationEventId_EventId p).

Lemma CurrentNotificationEventId_writes strict d p : (1 <= d)%nat -> 
  writes strict d (CurrentNotificationEventId_Write p) (CurrentNotificationEventId_toks p).
Proof. enter_struct. unfold CurrentNotificationEventId_wire, CurrentNotificationEventId_writeField1. write_fields. Qed.
Lemma CurrentNotificationEventId_runs d fuel p : (0 <= d)%nat -> (2 <= fuel)%nat -> 
  exists ids, runs d CurrentNotificationEventId_switch (concat (CurrentNotificationEventId_wire p)) NewCurrentNotificationEventId (CurrentNotificationEventId_canon p) ids /\ 1 ∈ ids.
Proof.
  intros Hd Hf. unfold CurrentNotificationEventId_wire. eexists.
  split.
  { cbn [concat]. run_one.
  run_end. }
  split_and?; set_solver.
Qed.
Lemma CurrentNotificationEventId_reads d fuel p : (1 <= d)%nat -> (2 <= fuel)%nat -> 
  reads d (CurrentNotificationEventId_Read fuel NewCurrentNotificationEventId) (CurrentNotificationEventId_toks (Some p)) (CurrentNotificationEventId_canon p).
Proof. struct_reads CurrentNotificationEventId_runs CurrentNotificationEventId_wire. Qed.
#[local] Hint Resolve CurrentNotificationEventId_writes CurrentNotificationEventId_reads : wire.

(** ** What the client sends, the server receives *)

(** Every component of a request the client builds is there. *)
Lemma newLockRequest_full req : LockRequest_full (newLockRequest req).
Proof. apply Forall_map, Forall_true. by eexists. Qed.

Lemma newLockComponent_canon lc : in_int32 (LockComponent_Type lc) -> in_int32 (LockComponent_Level lc) ->
  LockComponent_canon (newLockComponent lc) = newLockComponent lc.
Proof.
  intros H1 H2. unfold LockComponent_canon. simpl. rewrite !int32_id by done.
  assert (int32 (lockOperationType (LockComponent_Type lc)) = lockOperationType (LockComponent_Type lc)) as ->.
  { unfold lockOperationType. repeat case_match; reflexivity. }
  done.
Qed.

Lemma newLockRequest_canon req :
  Forall (fun lc => in_int32 (LockComponent_Type lc) /\ in_int32 (LockComponent_Level lc)) (LockRequest_Components req) ->
  LockRequest_canon (newLockRequest req) = newLockRequest req.
Proof.
  intros Hc. unfold LockRequest_canon, newLockRequest. simpl. f_equal. f_equal. rewrite map_map.
  induction Hc as [|lc l [H1 H2] _ IH]; cbn [map]; [done|]. f_equal; [|exact IH].
  cbn [default]. f_equal. by apply newLockComponent_canon.
Qed.

(** A lock request arrives as it was built: for every request of the caller,
    what the client encodes is never refused by the codec (no component is nil, no
    required field is missing), and the metastore decodes exactly the struct the
    client made, component by component, whatever fields it adds; while a request
    or an answer that lacks a required field is an error naming such a field, not a
    struct with a zero in it. *)
Theorem lock_request_delivered req p n fuel :
  Forall (fun lc => in_int32 (LockComponent_Type lc) /\ in_int32 (LockComponent_Level lc)) (LockRequest_Components req) ->
  (9 <= fuel)%nat -> holds p (2 + n) [] -> Forall fits (LockRequest_toks (Some (newLockRequest req))) ->
  (exists p1 p2, LockRequest_Write (Some (newLockRequest req)) p = (p1, inr tt) /\
     LockRequest_Read fuel NewLockRequest p1 = Some (p2, inr (newLockRequest req)) /\ holds p2 (2 + n) []) /\
  (forall fs x ids q l, runs 1 LockResponse_switch fs NewLockResponse x ids -> 2 ∉ ids -> (length fs < fuel)%nat ->
     holds q (2 + n) (struct_toks fs ++ l) -> Forall fits (struct_toks fs) ->
     exists q' name, name ∈ ["Lockid"; "State"] /\
       LockResponse_Read fuel NewLockResponse q =
         Some (q', inl (EProtocol ("Required field " +:+ name +:+ " is not set")
                          (Some (EText ("Required field " +:+ name +:+ " is not set")))))).
Proof.
  intros Hc Hf Hp Hfit. split.
  - pose proof (LockRequest_writes True 2 (Some (newLockRequest req)) ltac:(lia) p n [] Hp) as Hw.
    destruct (LockRequest_Write (Some (newLockRequest req)) p) as [p1 [e|[]]]; [by edestruct Hw|]. exists p1.
    pose proof (LockRequest_reads 2 fuel (newLockRequest req) ltac:(lia) Hf (newLockRequest_full req) p1 n []) as Hr.
    rewrite app_nil_r in Hr. specialize (Hr Hw).
    destruct (LockRequest_Read fuel NewLockRequest p1) as [[p2 [e|x]]|]; [done| |done]. exists p2.
    destruct Hr as [-> Hr]. by rewrite newLockRequest_canon.
  - intros fs x ids q l Hr Hnot Hl Hq Hfs.
    destruct (reads_struct_missing 1 "*hive_metastore.LockResponse" [(1, "Lockid"); (2, "State")] LockResponse_switch
                fuel fs NewLockResponse x ids q n l Hr Hl) as (q' & name & text & -> & Hn & He); [|done|done|].
    { exists (2, "State"). split; [set_solver|done]. }
    exists q', name. split; [exact Hn|exact He].
Qed.
End facts.

#[export] Hint Resolve LockComponent_writes LockComponent_reads LockRequest_writes LockRequest_reads
  LockResponse_writes LockResponse_reads CheckLockRequest_writes CheckLockRequest_reads UnlockRequest_writes
  UnlockRequest_reads OpenTxnRequest_writes OpenTxnRequest_reads OpenTxnsResponse_writes
  OpenTxnsResponse_reads AbortTxnRequest_writes AbortTxnRequest_reads HeartbeatRequest_writes
  HeartbeatRequest_reads NotificationEvent_writes NotificationEvent_reads NotificationEventRequest_writes
  NotificationEventRequest_reads NotificationEventResponse_writes NotificationEventResponse_reads
  CurrentNotificationEventId_writes CurrentNotificationEventId_reads : wire.

Import Queue.

Example lock_request_delivered_witness :
  let req := mkLockRequest [mkLockComponent LockTypeExclWrite 1 "db" "t" ""] 7 "me" "host" in
  exists p1 p2, LockRequest_Write (P := Queue.queue) (Some (newLockRequest req)) (Queue.mkQueue [] 64) = (p1, inr tt) /\
    LockRequest_Read 64 NewLockRequest p1 = Some (p2, inr (newLockRequest req)) /\ holds p2 64 [].
Proof.
  apply (lock_request_delivered (P := Queue.queue) (mkLockRequest [mkLockComponent LockTypeExclWrite 1 "db" "t" ""] 7 "me" "host")
    (Queue.mkQueue [] 64) 62 64);
    [repeat constructor; vm_compute; discriminate|lia|by split|by apply Forall_true].
Defined.
