(* ===== verification/Krb.v ===== *)
(** * Krb: the Kerberos session and tokens of internal/transport/gssapi.go

    The shared credentials ([KerberosSession]), and the encodings the GSSAPI
    mechanism reads and writes itself: the GSS-API context token, its DER
    wrapper, the rotation of a wrap token, the authenticator's checksum. *)

From Stdlib Require Import Strings.Byte.
From S2P Require Import Prelude Errors GoMonad Wire Types Uri Transport.

Definition kerr (text : string) : goerr := EText ("hms: kerberos: " +:+ text).
(** [fmt.Errorf("hms: kerberos: ...: %w", err)] *)
Definition kwrap (text : string) (e : goerr) : goerr := EWrap ("hms: kerberos: " +:+ text +:+ ": " +:+ error_text e) e.

(** ** The session *)

(** [once] of Close: not called, running, over. *)
Inductive once_state := OnceFresh | OnceRunning | OnceDone.

#[export] Instance once_state_eq_dec : EqDecision once_state.
Proof. solve_decision. Defined.

(** [ks_destroyed] counts the runs of the initiator's Destroy. *)
Record KerberosSession := mkSession {
  ks_once : once_state;
  ks_closed : bool;
  ks_pending : Z;
  ks_destroyOnce : bool;
  ks_destroyed : nat;
}.

Definition new_session : KerberosSession := mkSession OnceFresh false 0 false 0.

Definition set_once (o : once_state) (s : KerberosSession) : KerberosSession :=
  mkSession o (ks_closed s) (ks_pending s) (ks_destroyOnce s) (ks_destroyed s).

Definition destroy (s : KerberosSession) : KerberosSession :=
  if ks_destroyOnce s then s
  else mkSession (ks_once s) (ks_closed s) (ks_pending s) true (S (ks_destroyed s)).

(** The critical section of Close: whether nothing is pending. *)
Definition close_lock (s : KerberosSession) : KerberosSession * bool :=
  (mkSession (ks_once s) true (ks_pending s) (ks_destroyOnce s) (ks_destroyed s), ks_pending s =? 0).

Definition begin (s : KerberosSession) : KerberosSession * bool :=
  if ks_closed s then (s, false)
  else (mkSession (ks_once s) (ks_closed s) (ks_pending s + 1) (ks_destroyOnce s) (ks_destroyed s), true).

(** The critical section of end: whether this was the last one of a closed session. *)
Definition end_lock (s : KerberosSession) : KerberosSession * bool :=
  let pending := ks_pending s - 1 in
  (mkSession (ks_once s) (ks_closed s) pending (ks_destroyOnce s) (ks_destroyed s),
   ks_closed s && (pending =? 0)).

Definition end_ (s : KerberosSession) : KerberosSession :=
  let '(s, last) := end_lock s in if last then destroy s else s.

Definition Close (s : KerberosSession) : KerberosSession :=
  match ks_once s with
  | OnceFresh =>
      let '(s, idle) := close_lock (set_once OnceRunning s) in
      set_once OnceDone (if idle then destroy s else s)
  | _ => s
  end.

(** ** The session under concurrency *)

(** A goroutine on the session: in no call, in Close, or acquiring a ticket. *)
Inductive spc :=
  | SRest
  | SCloseLock | SCloseDestroy | SCloseDone
  | SAcquiring | SEndDestroy.

#[export] Instance spc_eq_dec : EqDecision spc.
Proof. solve_decision. Defined.

(** [true]: Close; [false]: serviceTicket. Only read at rest. *)
Definition session_step (closing : bool) (p : spc) (s : KerberosSession) : option (spc * KerberosSession) :=
  match p with
  | SRest =>
      if closing then
        match ks_once s with
        | OnceFresh => Some (SCloseLock, set_once OnceRunning s)
        | OnceRunning => None
        | OnceDone => Some (SRest, s)
        end
      else let '(s, ok) := begin s in Some (if ok then SAcquiring else SRest, s)
  | SCloseLock => let '(s, idle) := close_lock s in Some (if idle then SCloseDestroy else SCloseDone, s)
  | SCloseDestroy => Some (SCloseDone, destroy s)
  | SCloseDone => Some (SRest, set_once OnceDone s)
  | SAcquiring => let '(s, last) := end_lock s in Some (if last then SEndDestroy else SRest, s)
  | SEndDestroy => Some (SRest, destroy s)
  end.

Record session_sys := mkSessionSys { ss_session : KerberosSession; ss_threads : list spc }.

Inductive session_reachable (n : nat) : session_sys -> Prop :=
  | session_init : session_reachable n (mkSessionSys new_session (replicate n SRest))
  | session_next s ts t p c p' s' :
      session_reachable n (mkSessionSys s ts) -> ts !! t = Some p -> session_step c p s = Some (p', s') ->
      session_reachable n (mkSessionSys s' (<[t := p']> ts)).

(** ** Octets *)

Definition PutUint16 (n : Z) : bytes := [byte_of_Z (Z.shiftr n 8); byte_of_Z n].
Definition Uint16 (b : bytes) : Z :=
  match b with [b0; b1] => Z.lor (Z_of_byte b1) (Z.shiftl (Z_of_byte b0) 8) | _ => 0 end.
(** [binary.LittleEndian.PutUint32] *)
Definition PutUint32LE (n : Z) : bytes := rev (PutUint32 n).

#[export] Instance byte_eq_dec : EqDecision byte := Byte.byte_eq_dec.

(** ** The authenticator's checksum *)

Definition gssChecksum (contextFlags : list Z) : bytes :=
  PutUint32LE 16 ++ replicate 16 x00 ++ PutUint32LE (fold_left Z.lor contextFlags 0).

(** ** DER and the context token *)

Definition asn1AppTag0 : byte := byte_of_Z 96.

Definition malformed_token : goerr := kerr "malformed GSS-API token".

(** The length octets after [n] of the long form, big end first. *)
Definition der_long (l : bytes) : Z := fold_left (fun len c => Z.lor (Z.shiftl len 8) (Z_of_byte c)) l 0.

(** [b[start : start+length]], once [length] is known to be there. *)
Definition der_slice (b : bytes) (start : nat) (len : Z) : goerr + bytes :=
  if (len <? 0) || (Z.of_nat (length b) - Z.of_nat start <? len) then inl malformed_token
  else inr (take (Z.to_nat len) (drop start b)).

Definition derContent (b : bytes) : goerr + bytes :=
  match b with
  | _ :: l :: rest =>
      let len := Z_of_byte l in
      if 127 <? len then
        let n := Z.land len 127 in
        if (n =? 0) || (4 <? n) || (Z.of_nat (length b) <? 2 + n) then inl malformed_token
        else der_slice b (2 + Z.to_nat n) (der_long (take (Z.to_nat n) rest))
      else der_slice b 2 len
  | _ => inl malformed_token
  end.

Definition tokIDAPReq : byte * byte := (byte_of_Z 1, byte_of_Z 0).
Definition tokIDAPRep : byte * byte := (byte_of_Z 2, byte_of_Z 0).
Definition tokIDKRBError : byte * byte := (byte_of_Z 3, byte_of_Z 0).

Section tokens.
(** The DER bytes of the KRB5 mechanism's OID, or the error of marshalling it, and
    gokrb5's [asn1tools.AddASNAppTag(b, 0)]. *)
Context (oid : goerr + bytes) (AddASNAppTag : bytes -> bytes).

Definition krb5Token (tokID : byte * byte) (msg : bytes) : goerr + bytes :=
  match oid with
  | inl e => inl (kwrap "marshalling the KRB5 mechanism OID" e)
  | inr oid => inr (AddASNAppTag (oid ++ [fst tokID; snd tokID] ++ msg))
  end.

Definition parseKrb5Token (b : bytes) : goerr + (byte * byte) * bytes :=
  if bool_decide (length b < 2)%nat || negb (Byte.eqb (hd x00 b) asn1AppTag0)
  then inl (kerr "the server did not return a GSS-API context token")
  else
    match derContent b with
    | inl e => inl e
    | inr body =>
        match oid with
        | inl e => inl (kwrap "marshalling the KRB5 mechanism OID" e)
        | inr oid =>
            if bool_decide (length body < length oid + 2)%nat || negb (bool_decide (take (length oid) body = oid))
            then inl (kerr "the server's token is not a Kerberos 5 mechanism token")
            else match drop (length oid) body with
                 | b0 :: b1 :: msg => inr ((b0, b1), msg)
                 | _ => inl (kerr "the server's token is not a Kerberos 5 mechanism token")
                 end
        end
    end.
End tokens.

(** ** Wrap tokens *)

(** [gssapi.HdrLen] *)
Definition HdrLen : nat := 16.

Definition unrotateWrapToken (b : bytes) : goerr + bytes :=
  if bool_decide (length b < HdrLen)%nat then inl (kerr "wrap token shorter than its header")
  else
    let data := drop HdrLen b in
    let hdr := take 6 b ++ PutUint16 0 ++ take 8 (drop 8 b) in
    match data with
    | [] => inr hdr
    | _ => let rrc := Z.to_nat (Uint16 (take 2 (drop 6 b)) mod Z.of_nat (length data)) in
           inr (hdr ++ drop rrc data ++ take rrc data)
    end.

(** ** Names and paths *)

Definition defaultServiceClass : string := "hive".

Definition servicePrincipal (hostPort override : string) : goerr + string :=
  if negb (String.eqb override "") then inr override
  else
    let host := match SplitHostPort hostPort with inr (h, _) => h | inl _ => hostPort end in
    if String.eqb host "" then inl (kerr "no endpoint host to build the service principal from")
    else inr (defaultServiceClass +:+ "/" +:+ host).

Definition splitPrincipal (principal defaultRealm : string) : string * string :=
  let '(user, realm, found) := cut "@" principal in
  if negb found || String.eqb realm "" then (user, defaultRealm) else (user, realm).

Definition is_letter (c : ascii) : bool :=
  let n := N_of_ascii c in ((97 <=? n) && (n <=? 122) || (65 <=? n) && (n <=? 90))%N.
Fixpoint all_letters (s : string) : bool :=
  match s with EmptyString => true | String c s => is_letter c && all_letters s end.
Definition isCCacheType (s : string) : bool := negb (String.eqb s "") && all_letters s.

(** [strings.EqualFold(kind, "FILE")], [kind] being letters. *)
Definition fold_letter (c : ascii) : ascii :=
  let n := N_of_ascii c in if ((65 <=? n) && (n <=? 90))%N then ascii_of_N (n + 32) else c.
Fixpoint fold_case (s : string) : string :=
  match s with EmptyString => EmptyString | String c s => String (fold_letter c) (fold_case s) end.

(** [env] and [uid]: KRB5CCNAME's value and the process's user id. *)
Definition defaultCCachePath (env : string) (uid : Z) : goerr + string :=
  if String.eqb env "" then inr ("/tmp/krb5cc_" +:+ Itoa uid)
  else
    let '(kind, rest, found) := cut ":" env in
    if negb found || negb (isCCacheType kind) then inr env
    else if negb (String.eqb (fold_case kind) "file") then
      inl (kerr ("KRB5CCNAME names credential cache type " +:+ go_quote kind +:+
                 ", which this client cannot read; use a FILE: cache, or name one with WithKerberos"))
    else inr rest.
