(* ===== verification/KrbFacts.v ===== *)
(** * KrbFacts: the session is destroyed once, when nobody uses it; the token
    encodings read back *)

From Stdlib Require Import Strings.Byte.
From S2P Require Import Prelude Errors GoMonad Wire Types Uri Transport Krb.

(** ** The session *)

Definition acquiring (p : spc) : Z := match p with SAcquiring => 1 | _ => 0 end.
Definition in_close (p : spc) : Z := match p with SCloseLock | SCloseDestroy | SCloseDone => 1 | _ => 0 end.
Definition destroying (p : spc) : Z := match p with SCloseDestroy | SEndDestroy => 1 | _ => 0 end.
Definition before_close (p : spc) : Z := match p with SCloseLock => 1 | _ => 0 end.

Record session_inv (s : KerberosSession) (ts : list spc) : Prop := {
  si_pending : ks_pending s = total acquiring ts;
  si_once : total in_close ts = if decide (ks_once s = OnceRunning) then 1 else 0;
  si_closed : ks_closed s = true <-> ks_once s <> OnceFresh /\ total before_close ts = 0;
  si_count : ks_destroyed s = (if ks_destroyOnce s then 1 else 0)%nat;
  si_idle : ks_destroyOnce s = true \/ 0 < total destroying ts -> ks_closed s = true /\ ks_pending s = 0;
  si_last : ks_closed s = true -> ks_pending s = 0 -> ks_destroyOnce s = true \/ 0 < total destroying ts;
}.

Lemma before_le_in ts : total before_close ts <= total in_close ts.
Proof. unfold total. induction ts as [|[] ts IH]; simpl; lia. Qed.

Lemma session_inv_step c p s p' s' ts t :
  session_inv s ts -> ts !! t = Some p -> session_step c p s = Some (p', s') -> session_inv s' (<[t := p']> ts).
Proof.
  intros [I1 I2 I3 I4 I5 I6] Ht Hs.
  pose proof (total_le acquiring ts t p ltac:(by intros []) Ht) as L1.
  pose proof (total_le in_close ts t p ltac:(by intros []) Ht) as L2.
  pose proof (total_le before_close ts t p ltac:(by intros []) Ht) as L3.
  pose proof (total_le destroying ts t p ltac:(by intros []) Ht) as L4.
  pose proof (total_nonneg acquiring ts ltac:(by intros [])) as N1.
  pose proof (total_nonneg before_close ts ltac:(by intros [])) as N3.
  pose proof (total_nonneg destroying ts ltac:(by intros [])) as N4. pose proof (before_le_in ts) as Lb.
  assert (forall f, total f (<[t := p']> ts) = total f ts - f p + f p') as Hins by (intros; by apply total_insert).
  destruct s as [[] [] pend [] cnt], p; simpl in *; try destruct c; simplify_eq/=;
    split; rewrite ?Hins; simpl in *;
    repeat match goal with |- context [?a =? ?b] => destruct (Z.eqb_spec a b) end;
    simpl; try done; try lia; try (split; intros; intuition (done || lia)).
Qed.

Lemma session_inv_reachable n s : session_reachable n s -> session_inv (ss_session s) (ss_threads s).
Proof.
  induction 1; simpl in *; [|by eapply session_inv_step].
  split; simpl; rewrite ?total_replicate by done; try done; intuition (done || lia).
Qed.

(** C32: the shared Kerberos credentials are destroyed exactly once and never
    under a user: whatever the schedule of Close and ticket acquisitions, Destroy
    runs at most once, and only on a closed session when no acquisition is
    running, abandoned ones included; after Close no acquisition starts; and once
    every goroutine is at rest on a closed session, Destroy has run. *)
Theorem session_destroyed_once n s :
  session_reachable n s ->
  let k := ss_session s in
  (ks_destroyed k <= 1)%nat /\
  (ks_destroyed k = 1%nat -> ks_closed k = true /\ SAcquiring ∉ ss_threads s) /\
  (ks_closed k = true -> begin k = (k, false)) /\
  (ks_closed k = true -> Forall (fun p => p = SRest) (ss_threads s) -> ks_destroyed k = 1%nat).
Proof.
  intros Hr k. destruct (session_inv_reachable n s Hr) as [I1 I2 I3 I4 I5 I6]. fold k in I1, I2, I3, I4, I5, I6.
  split_and!.
  - rewrite I4. destruct (ks_destroyOnce k); lia.
  - intros Hd. rewrite I4 in Hd. destruct (ks_destroyOnce k); [|done].
    destruct (I5 (or_introl eq_refl)) as [Hc Hp]. split; [done|]. rewrite list_elem_of_lookup. intros [t Ht].
    pose proof (total_zero acquiring (ss_threads s) t _ ltac:(by intros []) ltac:(lia) Ht). done.
  - intros Hc. unfold begin. by rewrite Hc.
  - intros Hc Hrest. assert (forall f, f SRest = 0 -> total f (ss_threads s) = 0) as H0.
    { intros f Hf. unfold total. clear -Hrest Hf. induction Hrest as [|p ts -> _ IH]; simpl; [done|]. by rewrite Hf, IH. }
    assert (ks_pending k = 0) as Hp by (rewrite I1; by apply H0).
    rewrite I4. destruct (I6 Hc Hp) as [->|H]; [done|]. rewrite (H0 destroying eq_refl) in H. lia.
Qed.

(** Close while a ticket is being acquired: the acquisition's end destroys. *)
Example session_destroyed_once_witness :
  exists s, session_reachable 2 s /\ ks_destroyed (ss_session s) = 1%nat /\ ss_threads s = [SRest; SRest].
Proof.
  pose proof (session_init 2) as H0.
  pose proof (session_next 2 _ _ 0 _ false _ _ H0 eq_refl eq_refl) as H1.
  pose proof (session_next 2 _ _ 1 _ true _ _ H1 eq_refl eq_refl) as H2.
  pose proof (session_next 2 _ _ 1 _ true _ _ H2 eq_refl eq_refl) as H3.
  pose proof (session_next 2 _ _ 1 _ true _ _ H3 eq_refl eq_refl) as H4.
  pose proof (session_next 2 _ _ 0 _ true _ _ H4 eq_refl eq_refl) as H5.
  pose proof (session_next 2 _ _ 0 _ true _ _ H5 eq_refl eq_refl) as Hr.
  eexists. split; [exact Hr|]. split; [|done].
  destruct (session_destroyed_once 2 _ Hr) as (_ & _ & _ & H). apply H; [done|repeat constructor].
Defined.

(** ** Octets *)

Lemma length_PutUint16 n : length (PutUint16 n) = 2%nat.
Proof. done. Qed.

Lemma Uint16_PutUint16 n : 0 <= n < 2 ^ 16 -> Uint16 (PutUint16 n) = n.
Proof.
  intros Hn. unfold Uint16, PutUint16.
  rewrite Z.lor_comm, (lor_add _ _ 8), !byte_of_Z_mod, Z.shiftr_div_pow2 by (done || apply Z_of_byte_range).
  change 256 with (2 ^ 8).
  rewrite (Z.mod_small (n / 2 ^ 8)) by (split; [apply Z.div_pos; lia|apply Z.div_lt_upper_bound; lia]).
  pose proof (Z.div_mod n (2 ^ 8) ltac:(lia)). lia.
Qed.

(** ** DER *)

(** The [k] low octets of [n], big end first; the shortest definite length. *)
Fixpoint der_octets (k : nat) (n : Z) : bytes :=
  match k with O => [] | S k => byte_of_Z (Z.shiftr n (8 * Z.of_nat k)) :: der_octets k n end.
Definition der_length (n : Z) : bytes :=
  if n <? 128 then [byte_of_Z n]
  else let k := Z.log2 n / 8 + 1 in byte_of_Z (128 + k) :: der_octets (Z.to_nat k) n.

Lemma length_der_octets k n : length (der_octets k n) = k.
Proof. induction k; simpl; congruence. Qed.

Lemma der_long_octets k n acc : 0 <= n ->
  fold_left (fun len c => Z.lor (Z.shiftl len 8) (Z_of_byte c)) (der_octets k n) acc =
  acc * 2 ^ (8 * Z.of_nat k) + n mod 2 ^ (8 * Z.of_nat k).
Proof.
  intros Hn. revert acc. induction k as [|k IH]; intros acc; cbn [der_octets fold_left].
  - change (8 * Z.of_nat 0) with 0. rewrite Z.pow_0_r, Z.mod_1_r. lia.
  - rewrite IH, (lor_add _ _ 8), byte_of_Z_mod, Z.shiftr_div_pow2 by (lia || apply Z_of_byte_range).
    replace (8 * Z.of_nat (S k)) with (8 * Z.of_nat k + 8) by lia. rewrite Z.pow_add_r by lia.
    pose proof (Z.pow_pos_nonneg 2 (8 * Z.of_nat k) ltac:(lia) ltac:(lia)) as Hpos.
    rewrite (Z.rem_mul_r n (2 ^ (8 * Z.of_nat k)) (2 ^ 8)) by lia. change (2 ^ 8) with 256. ring.
Qed.

Lemma der_slice_app b hdr body rest :
  b = hdr ++ body ++ rest -> der_slice b (length hdr) (Z.of_nat (length body)) = inr body.
Proof.
  intros ->. unfold der_slice. rewrite !length_app.
  destruct (Z.ltb_spec (Z.of_nat (length body)) 0); [lia|].
  destruct (Z.ltb_spec (Z.of_nat (length hdr + (length body + length rest)) - Z.of_nat (length hdr)) (Z.of_nat (length body)));
    [lia|]. simpl. by rewrite Nat2Z.id, drop_app_length, take_app_length.
Qed.

Lemma derContent_der tag body rest : Z.of_nat (length body) < 2 ^ 32 ->
  derContent (tag :: der_length (Z.of_nat (length body)) ++ body ++ rest) = inr body.
Proof.
  intros Hb. set (n := Z.of_nat (length body)) in *. unfold der_length.
  destruct (Z.ltb_spec n 128) as [Hs|Hs]; cbn [app derContent].
  - rewrite byte_of_Z_mod, Z.mod_small by lia. destruct (Z.ltb_spec 127 n); [lia|].
    by apply (der_slice_app _ [tag; byte_of_Z n] body rest).
  - assert (7 <= Z.log2 n < 32) as [Hl1 Hl2].
    { split; [apply Z.log2_le_pow2; lia|apply Z.log2_lt_pow2; lia]. }
    set (k := Z.log2 n / 8 + 1).
    assert (1 <= k <= 4) as Hk by (unfold k; split; [|]; pose proof (Z.div_mod (Z.log2 n) 8); pose proof (Z.mod_pos_bound (Z.log2 n) 8); lia).
    assert (n < 2 ^ (8 * k)) as Hnk.
    { apply Z.log2_lt_pow2; [lia|]. unfold k. pose proof (Z.div_mod (Z.log2 n) 8). pose proof (Z.mod_pos_bound (Z.log2 n) 8). lia. }
    rewrite byte_of_Z_mod, Z.mod_small by lia. destruct (Z.ltb_spec 127 (128 + k)); [|lia].
    assert (Z.land (128 + k) 127 = k) as ->.
    { replace 127 with (Z.ones 7) by done. rewrite Z.land_ones by lia. change (128 + k) with (1 * 2 ^ 7 + k).
      rewrite Z.add_comm, Z.mod_add by lia. apply Z.mod_small. lia. }
    destruct (Z.eqb_spec k 0); [lia|]. destruct (Z.ltb_spec 4 k); [lia|].
    assert (length (tag :: byte_of_Z (128 + k) :: der_octets (Z.to_nat k) n ++ body ++ rest)
              = (2 + Z.to_nat k + (length body + length rest))%nat) as Hlen.
    { simpl. rewrite !length_app, length_der_octets. lia. }
    rewrite Hlen. destruct (Z.ltb_spec (Z.of_nat (2 + Z.to_nat k + (length body + length rest))) (2 + k)); [lia|]. simpl orb. cbv iota.
    rewrite take_app_length' by (symmetry; apply length_der_octets). unfold der_long.
    rewrite der_long_octets, Z2Nat.id, Z.mod_small by lia. simpl (0 * _ + n).
    replace (2 + Z.to_nat k)%nat with (length (tag :: byte_of_Z (128 + k) :: der_octets (Z.to_nat k) n))
      by (simpl; by rewrite length_der_octets).
    by apply (der_slice_app _ _ body rest).
Qed.

(** What is accepted lies inside the token: the content follows a header of two
    to six octets. *)
Lemma derContent_inside b c : derContent b = inr c ->
  exists hdr rest, b = hdr ++ c ++ rest /\ (2 <= length hdr <= 6)%nat.
Proof.
  assert (forall start len, der_slice b start len = inr c -> (2 <= start <= 6)%nat -> (start <= length b)%nat ->
    exists hdr rest, b = hdr ++ c ++ rest /\ (2 <= length hdr <= 6)%nat) as Hsl.
  { intros start len. unfold der_slice. destruct ((len <? 0) || _); [done|]. intros [= <-] Hst Hlb.
    exists (take start b), (drop (Z.to_nat len) (drop start b)). rewrite take_drop, take_drop. split; [done|].
    rewrite length_take. lia. }
  unfold derContent. destruct b as [|b0 [|l rest]]; [done|done|].
  destruct (127 <? Z_of_byte l) eqn:E; [|intros H; apply (Hsl _ _ H); simpl; lia].
  destruct (Z.eqb_spec (Z.land (Z_of_byte l) 127) 0); [done|]. destruct (Z.ltb_spec 4 (Z.land (Z_of_byte l) 127)); [done|].
  destruct (Z.ltb_spec (Z.of_nat (length (b0 :: l :: rest))) (2 + Z.land (Z_of_byte l) 127)); [done|]. simpl orb. cbv iota.
  assert (0 <= Z.land (Z_of_byte l) 127) by (apply Z.land_nonneg; lia).
  intros Hs. apply (Hsl _ _ Hs); simpl in *; lia.
Qed.

(** ** Round trips *)

(** What krb5Token builds, parseKrb5Token takes apart: with the OID's DER and a
    gokrb5 that prepends the DER header of [APPLICATION 0], the token identifier
    and the message come back, for every message under 4 GiB; and whatever bytes a
    server sends, derContent only ever answers octets from inside them, after a
    header of two to six. *)
Theorem context_token_roundtrip oid AddASNAppTag tokID msg :
  (forall b, Z.of_nat (length b) < 2 ^ 32 -> AddASNAppTag b = asn1AppTag0 :: der_length (Z.of_nat (length b)) ++ b) ->
  Z.of_nat (length oid + 2 + length msg) < 2 ^ 32 ->
  (exists token, krb5Token (inr oid) AddASNAppTag tokID msg = inr token /\
                 parseKrb5Token (inr oid) token = inr (tokID, msg)) /\
  (forall b c, derContent b = inr c -> exists hdr rest, b = hdr ++ c ++ rest /\ (2 <= length hdr <= 6)%nat).
Proof.
  intros Htag Hlen. split; [|exact derContent_inside].
  unfold krb5Token. set (body := oid ++ [fst tokID; snd tokID] ++ msg). eexists. split; [done|].
  assert (Z.of_nat (length body) < 2 ^ 32) as Hb by (unfold body; rewrite !length_app; simpl in *; lia).
  rewrite (Htag body Hb). unfold parseKrb5Token.
  rewrite bool_decide_eq_false_2 by (unfold der_length; destruct (_ <? 128); simpl; lia).
  cbn [hd orb]. change (Byte.eqb asn1AppTag0 asn1AppTag0) with true. simpl negb. cbv iota.
  pose proof (derContent_der asn1AppTag0 body [] Hb) as Hd. rewrite app_nil_r in Hd. rewrite Hd. unfold body.
  rewrite bool_decide_eq_false_2 by (rewrite !length_app; simpl; lia).
  rewrite take_app_length, bool_decide_eq_true_2, drop_app_length by done. simpl. by destruct tokID.
Qed.

Definition krb5_oid : bytes := map byte_of_Z [6; 9; 42; 134; 72; 134; 247; 18; 1; 2; 2].
Definition der_app_tag (b : bytes) : bytes := asn1AppTag0 :: der_length (Z.of_nat (length b)) ++ b.

Example context_token_roundtrip_witness :
  exists token, krb5Token (inr krb5_oid) der_app_tag tokIDAPReq (replicate 200 x61) = inr token /\
    length token = 216%nat /\ parseKrb5Token (inr krb5_oid) token = inr (tokIDAPReq, replicate 200 x61).
Proof.
  destruct (context_token_roundtrip krb5_oid der_app_tag tokIDAPReq (replicate 200 x61)) as [(token & H1 & H2) _];
    [done|vm_compute; done|].
  exists token. split; [exact H1|]. split; [|exact H2]. vm_compute in H1. injection H1 as <-. vm_compute. reflexivity.
Defined.

(** The rotation RFC 4121 lets a sender make: the data of a token with RRC zero
    rotated right by [rrc] octets, and [rrc] noted in the header. *)
Definition rotateWrapToken (rrc : Z) (hdr data : bytes) : bytes :=
  let k := (length data - Z.to_nat (rrc mod Z.of_nat (length data)))%nat in
  take 6 hdr ++ PutUint16 rrc ++ drop 8 hdr ++ drop k data ++ take k data.

(** A wrap token is read the same whatever rotation its sender chose:
    unrotateWrapToken undoes a rotation by any 16-bit count, larger than the data
    included, and clears the count; anything shorter than a header is refused. *)
Theorem unrotate_inverse rrc hdr data :
  length hdr = HdrLen -> 0 <= rrc < 2 ^ 16 ->
  unrotateWrapToken (rotateWrapToken rrc hdr data) = inr (take 6 hdr ++ PutUint16 0 ++ drop 8 hdr ++ data) /\
  (forall b, (length b < HdrLen)%nat -> exists e, unrotateWrapToken b = inl e).
Proof.
  intros Hh Hr. split.
  2: { intros b Hb. unfold unrotateWrapToken. rewrite bool_decide_eq_true_2 by done. by eexists. }
  unfold rotateWrapToken. set (k := (length data - Z.to_nat (rrc mod Z.of_nat (length data)))%nat).
  set (rot := drop k data ++ take k data). unfold HdrLen in *.
  assert (exists a b c, hdr = a ++ b ++ c /\ length a = 6%nat /\ length b = 2%nat /\ length c = 8%nat) as (a & b & c & -> & Ha & Hb & Hc).
  { exists (take 6 hdr), (take 2 (drop 6 hdr)), (drop 8 hdr). rewrite !length_take, !length_drop. split; [|lia].
    rewrite <- (take_drop 6 hdr) at 1. f_equal. by rewrite <- (take_drop 2 (drop 6 hdr)) at 1; rewrite drop_drop. }
  rewrite take_app_length' by done. rewrite (app_assoc a b c), (drop_app_length' (a ++ b) c) by (rewrite length_app; lia).
  assert (length rot = length data) as Hrot by (unfold rot; rewrite length_app, length_take, length_drop; lia).
  unfold unrotateWrapToken. rewrite bool_decide_eq_false_2 by (rewrite !length_app, length_PutUint16; unfold HdrLen; lia).
  replace (drop HdrLen _) with rot.
  2: { rewrite !app_assoc, drop_app_length'; [done|]. rewrite !length_app, length_PutUint16. unfold HdrLen. lia. }
  rewrite take_app_length' by done.
  replace (take 8 (drop 8 _)) with c.
  2: { rewrite (app_assoc a), (drop_app_length' (a ++ PutUint16 rrc)) by (rewrite length_app, length_PutUint16; lia).
       by rewrite take_app_length'. }
  replace (take 2 (drop 6 _)) with (PutUint16 rrc) by (rewrite drop_app_length' by done; by rewrite take_app_length').
  rewrite Uint16_PutUint16 by done.
  destruct data as [|d0 data0]; [unfold rot; rewrite drop_nil, take_nil; simpl; by rewrite !app_nil_r|].
  set (data := d0 :: data0) in *.
  assert (0 <= rrc mod Z.of_nat (length data) < Z.of_nat (length data)) as Hm by (apply Z.mod_pos_bound; simpl; lia).
  destruct rot eqn:E; [simpl in Hrot; lia|]. rewrite Hrot, <- E.
  replace (Z.to_nat (rrc mod Z.of_nat (length data))) with (length (drop k data)) by (rewrite length_drop; unfold k; lia).
  unfold rot. rewrite drop_app_length, take_app_length, take_drop, <- !app_assoc. done.
Qed.

Example unrotate_inverse_witness :
  unrotateWrapToken (rotateWrapToken 12 (replicate 16 x05) [x01; x02; x03; x04; x05]) =
    inr (replicate 6 x05 ++ [x00; x00] ++ replicate 8 x05 ++ [x01; x02; x03; x04; x05]).
Proof. apply (unrotate_inverse 12 (replicate 16 x05) [x01; x02; x03; x04; x05]); [done|lia]. Defined.
