(* ===== verification/Gssapi.v ===== *)
(** * Gssapi: the SASL GSSAPI mechanism of internal/transport/gssapi.go

    The handshake of [gssapiMech] over the operations of gokrb5, which are a
    class: what a service ticket, an AP_REQ or a checksum is made of is that
    library's business. The world of a mechanism is whatever those operations
    and the call's context read and change. *)

From Stdlib Require Import Strings.Byte.
From S2P Require Import Prelude Errors GoMonad Wire Types Uri Transport Sasl Krb.

(** ** gokrb5's data *)

(** [types.EncryptionKey] *)
Record EncryptionKey := mkKey { KeyType : Z; KeyValue : bytes }.
(** [types.Checksum] *)
Record Checksum := mkChecksum { CksumType : Z; CksumValue : bytes }.

(** [types.Authenticator], of which the client sets the checksum and the time
    and reads the rest; times are nanoseconds since the epoch. *)
Record Authenticator (I : Type) := mkAuth {
  au_ident : I; au_Cksum : Checksum; au_CTime : Z; au_Cusec : Z; au_SeqNumber : Z }.
Arguments mkAuth {I}. Arguments au_ident {I}. Arguments au_Cksum {I}.
Arguments au_CTime {I}. Arguments au_Cusec {I}. Arguments au_SeqNumber {I}.

(** [messages.EncAPRepPart] *)
Record EncAPRepPart := mkEncAPRep { er_CTime : Z; er_Cusec : Z; er_Subkey : EncryptionKey }.

(** [gssapi.WrapToken] *)
Record WrapToken := mkWrapToken {
  wt_Flags : Z; wt_EC : Z; wt_RRC : Z; wt_SndSeqNum : Z; wt_Payload : bytes; wt_CheckSum : bytes }.

(** The two sizes of an [etype.EType] the client asks for. *)
Record EType := mkEType { GetConfounderByteSize : Z; GetHMACBitLength : Z }.

(** A call that may panic, with the panic's text. *)
Inductive outcome (A : Type) := Returned (r : goerr + A) | Panicked (text : string).
Arguments Returned {A}. Arguments Panicked {A}.

(** What [serviceTicket]'s select sees first: the exchange over, or the context. *)
Inductive acquisition (A : Type) := Acquired (o : outcome A) | Abandoned (ctxerr : goerr).
Arguments Acquired {A}. Arguments Abandoned {A}.

(** The numbers of RFC 4120 and RFC 4121. *)
Definition keyusage_AP_REP_ENCPART : Z := 12.
Definition keyusage_GSSAPI_ACCEPTOR_SEAL : Z := 22.
Definition keyusage_GSSAPI_INITIATOR_SEAL : Z := 24.
Definition chksumtype_GSSAPI : Z := 32771.
Definition APOptionMutualRequired : Z := 2.
Definition ContextFlagMutual : Z := 2.
Definition ContextFlagInteg : Z := 16.

(** ** gokrb5's operations *)

Class GoKrb5 (W : Type) := {
  Ticket : Type;
  CName : Type;
  Identity : Type;
  APReq : Type;
  EncryptedData : Type;
  (** the initiator *)
  k_Credentials : W -> string * CName;
  k_ServiceTicket : string -> W -> W * acquisition (Ticket * EncryptionKey);
  (** types and messages *)
  k_NewAuthenticator : string -> CName -> M W (Authenticator Identity);
  k_NewAPReq : Ticket -> EncryptionKey -> Authenticator Identity -> M W APReq;
  k_SetFlag : Z -> APReq -> APReq;
  k_APReq_Marshal : APReq -> goerr + bytes;
  k_KRBError : bytes -> goerr + string;
  k_APRep : bytes -> goerr + EncryptedData;
  k_Cipher : EncryptedData -> bytes;
  k_EncAPRepPart : bytes -> goerr + EncAPRepPart;
  (** crypto *)
  k_GetEtype : Z -> goerr + EType;
  k_DecryptEncPart : EncryptedData -> EncryptionKey -> Z -> outcome bytes;
  (** gssapi *)
  k_SetCheckSum : WrapToken -> EncryptionKey -> Z -> goerr + WrapToken;
  k_WrapToken_Marshal : WrapToken -> goerr + bytes;
  k_WrapToken_Unmarshal : bytes -> bool -> goerr + WrapToken;
  k_Verify : WrapToken -> EncryptionKey -> Z -> goerr + bool;
  (** the DER of the mechanism's OID, and asn1tools *)
  k_oid : goerr + bytes;
  k_AddASNAppTag : bytes -> bytes;
}.

(** ** The mechanism *)

Definition qopAuth : Z := 1.
Definition wrapFlagSentByAcceptor : Z := 1.
Definition wrapFlagSealed : Z := 2.
Definition wrapFlagAcceptorSubkey : Z := 4.
Definition gssContextFlags : list Z := [ContextFlagMutual; ContextFlagInteg].

Inductive gssStage := gssStageAPReq | gssStageAPRep | gssStageSecLayer | gssStageDone.

#[export] Instance gssStage_eq_dec : EqDecision gssStage.
Proof. solve_decision. Defined.

Record gssapiMech (W I : Type) := mkGss {
  gm_world : W;
  gm_session : KerberosSession;
  gm_spn : string;
  gm_stage : gssStage;
  gm_auth : Authenticator I;
  gm_sessionKey : EncryptionKey;
  gm_ctxKey : EncryptionKey;
  gm_acceptorSubkey : bool;
  gm_sendSeq : Z;
}.
Arguments mkGss {W I}. Arguments gm_world {W I}. Arguments gm_session {W I}. Arguments gm_spn {W I}.
Arguments gm_stage {W I}. Arguments gm_auth {W I}. Arguments gm_sessionKey {W I}.
Arguments gm_ctxKey {W I}. Arguments gm_acceptorSubkey {W I}. Arguments gm_sendSeq {W I}.

(** [uint64] *)
Definition uint64 (z : Z) : Z := z mod 2 ^ 64.

(** [%02x] of an octet. *)
Definition lower_hex (n : N) : ascii := ascii_of_N (if (n <? 10)%N then 48 + n else 87 + n).
Definition hex02 (b : byte) : string :=
  let n := to_N b in String (lower_hex (n / 16)) (String (lower_hex (n mod 16)) EmptyString).

(** [t.Truncate(time.Second)] *)
Definition TruncateSecond (t : Z) : Z := t - t mod 1000000000.

(** [if err != nil { return fmt.Errorf("hms: kerberos: <text>: %w", err) }] *)
Definition wrapping {A} (text : string) (r : goerr + A) : goerr + A :=
  match r with inl e => inl (kwrap text e) | inr a => inr a end.

Section mechanism.
Context {W : Type} {KR : GoKrb5 W}.
Local Abbreviation Mech := (gssapiMech W Identity).
Implicit Types m : Mech.

Definition set_world (w : W) m : Mech :=
  mkGss w (gm_session m) (gm_spn m) (gm_stage m) (gm_auth m) (gm_sessionKey m) (gm_ctxKey m) (gm_acceptorSubkey m) (gm_sendSeq m).
Definition set_session (s : KerberosSession) m : Mech :=
  mkGss (gm_world m) s (gm_spn m) (gm_stage m) (gm_auth m) (gm_sessionKey m) (gm_ctxKey m) (gm_acceptorSubkey m) (gm_sendSeq m).
Definition set_stage (st : gssStage) m : Mech :=
  mkGss (gm_world m) (gm_session m) (gm_spn m) st (gm_auth m) (gm_sessionKey m) (gm_ctxKey m) (gm_acceptorSubkey m) (gm_sendSeq m).
Definition set_auth (a : Authenticator Identity) (seq : Z) m : Mech :=
  mkGss (gm_world m) (gm_session m) (gm_spn m) (gm_stage m) a (gm_sessionKey m) (gm_ctxKey m) (gm_acceptorSubkey m) seq.
Definition set_sessionKey (k : EncryptionKey) m : Mech :=
  mkGss (gm_world m) (gm_session m) (gm_spn m) (gm_stage m) (gm_auth m) k (gm_ctxKey m) (gm_acceptorSubkey m) (gm_sendSeq m).
Definition set_ctxKey (k : EncryptionKey) (acceptor : bool) m : Mech :=
  mkGss (gm_world m) (gm_session m) (gm_spn m) (gm_stage m) (gm_auth m) (gm_sessionKey m) k acceptor (gm_sendSeq m).
Definition set_sendSeq (seq : Z) m : Mech :=
  mkGss (gm_world m) (gm_session m) (gm_spn m) (gm_stage m) (gm_auth m) (gm_sessionKey m) (gm_ctxKey m) (gm_acceptorSubkey m) seq.

(** A call that does not touch the mechanism, or only its world. *)
Definition pure {A} (r : goerr + A) : M Mech A := fun m => (m, r).
Definition in_world {A} (f : M W A) : M Mech A := fun m =>
  let '(w, r) := f (gm_world m) in (set_world w m, r).
Definition get_mech : M Mech Mech := fun m => (m, inr m).

(** *** The service ticket *)

(** The acquisition's own goroutine runs [end] when the exchange is over; one
    that is abandoned is still pending when the call returns. *)
Definition serviceTicket : M Mech (Ticket * EncryptionKey) := fun m =>
  let '(s, ok) := begin (gm_session m) in
  if negb ok then (m, inl (kerr "the client is closed"))
  else
    let no_ticket e := kwrap ("no service ticket for " +:+ gm_spn m) e in
    let '(w, got) := k_ServiceTicket (gm_spn m) (gm_world m) in
    match got with
    | Abandoned e => (set_session s (set_world w m), inl e)
    | Acquired o =>
        (set_session (end_ s) (set_world w m),
         match o with
         | Panicked text => inl (no_ticket (kerr ("malformed reply from the KDC: " +:+ text)))
         | Returned (inl e) => inl (no_ticket e)
         | Returned (inr tk) => inr tk
         end)
    end.

(** *** The AP_REQ *)

Definition stamp (a : Authenticator Identity) : Authenticator Identity :=
  mkAuth (au_ident a) (mkChecksum chksumtype_GSSAPI (gssChecksum gssContextFlags))
    (TruncateSecond (au_CTime a)) (au_Cusec a) (au_SeqNumber a).

Definition initialToken : M Mech bytes :=
  (tk <- serviceTicket;;
   modify (set_sessionKey (snd tk));;;
   m <- get_mech;;
   let '(realm, cname) := k_Credentials (gm_world m) in
   auth0 <- (fun m => let '(m, r) := in_world (k_NewAuthenticator realm cname) m in
                      (m, wrapping "building the authenticator" r));;
   let auth := stamp auth0 in
   apReq0 <- (fun m => let '(m, r) := in_world (k_NewAPReq (fst tk) (snd tk) auth) m in
                       (m, wrapping "building the AP_REQ" r));;
   let apReq := k_SetFlag APOptionMutualRequired apReq0 in
   if au_SeqNumber auth <? 0 then throw (kerr "negative authenticator sequence number")
   else modify (set_auth auth (au_SeqNumber auth));;;
        b <- pure (wrapping "marshalling the AP_REQ" (k_APReq_Marshal apReq));;
        pure (krb5Token k_oid k_AddASNAppTag tokIDAPReq b))%go.

(** *** The AP_REP *)

Definition decryptEncPart (ed : EncryptedData) (key : EncryptionKey) (usage : Z) : goerr + bytes :=
  match k_GetEtype (KeyType key) with
  | inl e => inl (kwrap ("unsupported encryption type " +:+ Itoa (KeyType key)) e)
  | inr et =>
      let minLen := GetConfounderByteSize et + Z.quot (GetHMACBitLength et) 8 in
      let n := Z.of_nat (length (k_Cipher ed)) in
      if n <? minLen then
        inl (kerr ("ciphertext of " +:+ Itoa n +:+ " bytes is shorter than encryption type " +:+
                   Itoa (KeyType key) +:+ "'s minimum of " +:+ Itoa minLen))
      else match k_DecryptEncPart ed key usage with
           | Panicked text => inl (kerr ("malformed ciphertext: " +:+ text))
           | Returned r => r
           end
  end.

Definition token_eqb (a b : byte * byte) : bool := Byte.eqb (fst a) (fst b) && Byte.eqb (snd a) (snd b).

(** [enc.Subkey.KeyType != 0 && len(enc.Subkey.KeyValue) > 0] *)
Definition has_subkey (enc : EncAPRepPart) : bool :=
  negb (KeyType (er_Subkey enc) =? 0) && bool_decide (0 < length (KeyValue (er_Subkey enc)))%nat.

(** The checks of verifyAPRep on the decrypted part, for the mechanism's
    authenticator, and the key it installs. *)
Definition acceptAPRep (enc : EncAPRepPart) : M Mech unit := fun m =>
  if negb (er_CTime enc =? au_CTime (gm_auth m)) || negb (er_Cusec enc =? au_Cusec (gm_auth m))
  then (m, inl (kerr "mutual authentication failed: the AP_REP does not echo the authenticator's timestamp"))
  else if has_subkey enc then (set_ctxKey (er_Subkey enc) true m, inr tt)
  else (set_ctxKey (gm_sessionKey m) (gm_acceptorSubkey m) m, inr tt).

Definition verifyAPRep (token : bytes) : M Mech unit :=
  (t <- pure (parseKrb5Token k_oid token);;
   let '(tokID, msg) := t in
   if token_eqb tokID tokIDKRBError then
     match k_KRBError msg with
     | inl e => throw (kwrap "the server rejected the AP_REQ with an unreadable error" e)
     | inr text => throw (kerr ("the server rejected the AP_REQ: " +:+ go_quote text))
     end
   else if negb (token_eqb tokID tokIDAPRep) then
     throw (kerr ("expected an AP_REP from the server, got token 0x" +:+ hex02 (fst tokID) +:+ hex02 (snd tokID)))
   else
     encPart <- pure (wrapping "could not parse the AP_REP" (k_APRep msg));;
     m <- get_mech;;
     plain <- pure (wrapping "could not decrypt the AP_REP"
                      (decryptEncPart encPart (gm_sessionKey m) keyusage_AP_REP_ENCPART));;
     enc <- pure (wrapping "could not parse the AP_REP" (k_EncAPRepPart plain));;
     acceptAPRep enc)%go.

(** *** The security layer *)

Definition checksumLen (key : EncryptionKey) : goerr + Z :=
  match k_GetEtype (KeyType key) with
  | inl e => inl (kwrap ("unsupported encryption type " +:+ Itoa (KeyType key)) e)
  | inr et =>
      let bits := GetHMACBitLength et in
      if (bits <? 0) || (65535 <? Z.quot bits 8)
      then inl (kerr ("implausible checksum length " +:+ Itoa bits +:+ " bits"))
      else inr (Z.quot bits 8)
  end.

Definition wrap (payload : bytes) : M Mech bytes :=
  (m <- get_mech;;
   sumLen <- pure (checksumLen (gm_ctxKey m));;
   let tokenFlags := if gm_acceptorSubkey m then Z.lor 0 wrapFlagAcceptorSubkey else 0 in
   token <- pure (wrapping "signing a wrap token"
                    (k_SetCheckSum (mkWrapToken tokenFlags sumLen 0 (gm_sendSeq m) payload [])
                       (gm_ctxKey m) keyusage_GSSAPI_INITIATOR_SEAL));;
   modify (fun m => set_sendSeq (uint64 (gm_sendSeq m + 1)) m);;;
   pure (wrapping "marshalling a wrap token" (k_WrapToken_Marshal token)))%go.

Definition unwrap (b : bytes) : M Mech bytes :=
  (normalized <- pure (unrotateWrapToken b);;
   token <- pure (wrapping "the server sent a malformed wrap token" (k_WrapToken_Unmarshal normalized true));;
   if Z.land (wt_Flags token) wrapFlagSentByAcceptor =? 0 then
     throw (kerr "the server sent a wrap token marked as coming from the initiator")
   else if negb (Z.land (wt_Flags token) wrapFlagSealed =? 0) then
     throw (kerr "the server sent an encrypted wrap token; only integrity protection is supported")
   else
     m <- get_mech;;
     ok <- pure (wrapping "the server's wrap token failed verification"
                   (k_Verify token (gm_ctxKey m) keyusage_GSSAPI_ACCEPTOR_SEAL));;
     if negb ok then throw (kerr "the server's wrap token failed verification")
     else ret (wt_Payload token))%go.

Definition selectSecurityLayer (challenge : bytes) : M Mech bytes :=
  (offer <- unwrap challenge;;
   if negb (bool_decide (length offer = 4%nat)) then
     throw (kerr ("security layer offer is " +:+ Itoa (Z.of_nat (length offer)) +:+ " bytes, want 4"))
   else if Z.land (Z_of_byte (hd x00 offer)) qopAuth =? 0 then
     throw (kerr ("the server offers security layers 0x" +:+ hex02 (hd x00 offer) +:+ " but not auth; " +:+
                  "set the metastore's hadoop.rpc.protection to authentication"))
   else wrap [byte_of_Z qopAuth; x00; x00; x00])%go.

(** *** The rounds *)

Definition Step (challenge : option bytes) : M Mech (bytes * bool) := fun m =>
  let challenge := default [] challenge in
  match gm_stage m with
  | gssStageAPReq =>
      (token <- initialToken;; modify (set_stage gssStageAPRep);;; ret (token, false))%go m
  | gssStageAPRep =>
      (verifyAPRep challenge;;; modify (set_stage gssStageSecLayer);;; ret ([], false))%go m
  | gssStageSecLayer =>
      (token <- selectSecurityLayer challenge;; modify (set_stage gssStageDone);;; ret (token, true))%go m
  | gssStageDone =>
      (m, inl (EText "hms: sasl gssapi: unexpected challenge after the handshake completed"))
  end.

Definition Complete m : bool := bool_decide (gm_stage m = gssStageDone).

#[export] Instance gss_mech : saslMech Mech := {|
  Sasl.Name := fun _ => "GSSAPI"; Sasl.Step := Step; Sasl.Complete := Complete |}.

(** *** Construction *)

(** The zero values of a mechanism just built; [zero] is Authenticator{}. *)
Definition zero_key : EncryptionKey := mkKey 0 [].
Definition new_gssapiMech (w : W) (session : KerberosSession) (spn : string) (zero : Authenticator Identity) : Mech :=
  mkGss w session spn gssStageAPReq zero zero_key zero_key false 0.

Definition NewSaslGSSAPI {T} (inner : T) (hostPort servicePrincipal_ : string) (session : option KerberosSession)
    (w : W) (zero : Authenticator Identity) : goerr + saslTransport T Mech :=
  match servicePrincipal hostPort servicePrincipal_ with
  | inl e => inl e
  | inr spn =>
      match session with
      | None => inl (kerr "no session; build one with NewKerberosSession and set KerberosConfig.Session")
      | Some session => inr (mkSasl inner (new_gssapiMech w session spn zero) [] [] false)
      end
  end.
End mechanism.

(** ** Loading credentials *)

Record KerberosConfig := mkKrbConfig {
  kc_Principal : string; kc_Keytab : string; kc_CCache : string; kc_Krb5Conf : string;
  kc_ServicePrincipal : string; kc_Session : option KerberosSession;
}.

(** gokrb5's loaders over the file system; [ki] is what a client holds. *)
Class KrbLoaders := {
  KrbConf : Type; Keytab : Type; CCacheFile : Type; KrbClient : Type;
  l_Load : string -> goerr + KrbConf;
  l_DefaultRealm : KrbConf -> string;
  l_LoadKeytab : string -> goerr + Keytab;
  l_LoadCCache : string -> goerr + CCacheFile;
  l_NewWithKeytab : string -> string -> Keytab -> KrbConf -> KrbClient;
  l_NewFromCCache : CCacheFile -> KrbConf -> goerr + KrbClient;
}.

Section loading.
Context {KL : KrbLoaders}.
(** [os.Getenv] and [os.Getuid()]. *)
Context (Getenv : string -> string) (uid : Z).

Definition confPath (cfg : KerberosConfig) : string :=
  let p := kc_Krb5Conf cfg in
  let p := if String.eqb p "" then Getenv "KRB5_CONFIG" else p in
  if String.eqb p "" then "/etc/krb5.conf" else p.

Definition newKrbClient (cfg : KerberosConfig) : goerr + KrbClient :=
  match l_Load (confPath cfg) with
  | inl e => inl (kwrap ("loading " +:+ confPath cfg) e)
  | inr krbConf =>
      if negb (String.eqb (kc_Keytab cfg) "") then
        match l_LoadKeytab (kc_Keytab cfg) with
        | inl e => inl (kwrap ("loading keytab " +:+ kc_Keytab cfg) e)
        | inr kt =>
            let '(user, realm) := splitPrincipal (kc_Principal cfg) (l_DefaultRealm krbConf) in
            if String.eqb user "" then inl (kerr "a client principal is required when a keytab is used")
            else inr (l_NewWithKeytab user realm kt krbConf)
        end
      else
        match (if String.eqb (kc_CCache cfg) "" then defaultCCachePath (Getenv "KRB5CCNAME") uid
               else inr (kc_CCache cfg)) with
        | inl e => inl e
        | inr path =>
            match l_LoadCCache path with
            | inl e => inl (kwrap ("loading credential cache " +:+ path) e)
            | inr cc => wrapping ("reading credential cache " +:+ path) (l_NewFromCCache cc krbConf)
            end
        end
  end.

(** Without the test hook [newInitiator]. *)
Definition NewKerberosSession (cfg : KerberosConfig) : goerr + KerberosSession * KrbClient :=
  match newKrbClient cfg with inl e => inl e | inr cl => inr (new_session, cl) end.

(** The session left behind, when one was built. *)
Definition Validate (cfg : KerberosConfig) : option KerberosSession * option goerr :=
  match NewKerberosSession cfg with
  | inl e => (None, Some e)
  | inr (s, _) => (Some (Close s), None)
  end.
End loading.
