(* ===== verification/GssFacts.v ===== *)
(** * GssFacts: what a GSSAPI handshake that succeeds has checked *)

From Stdlib Require Import Strings.Byte.
From S2P Require Import Prelude Errors GoMonad Wire Types Uri Transport Sasl SaslFacts SaslTotal Krb Gssapi.

Lemma bind_inr {S A B} (m : M S A) (k : A -> M S B) s s' b :
  bind m k s = (s', inr b) -> exists s1 a, m s = (s1, inr a) /\ k a s1 = (s', inr b).
Proof. unfold bind. destruct (m s) as [s1 [e|a]]; [done|]. eauto. Qed.

Lemma wrapping_inr {A} text (r : goerr + A) a : wrapping text r = inr a -> r = inr a.
Proof. by destruct r. Qed.

Lemma token_eqb_eq a b : token_eqb a b = true -> a = b.
Proof.
  destruct a as [a1 a2], b as [b1 b2]. unfold token_eqb. simpl. intros [H1 H2]%andb_true_iff.
  apply Byte.byte_dec_bl in H1, H2. by subst.
Qed.

(** One bind of a computation known to have succeeded. *)
Ltac step_ok H a Ha :=
  let s1 := fresh "m" in apply bind_inr in H as (s1 & a & Ha & H).
(** The same for a step that leaves the mechanism alone. *)
Ltac pure_ok H a Ha :=
  let s1 := fresh "m" in apply bind_inr in H as (s1 & a & Ha & H);
  unfold pure, get_mech in Ha; injection Ha as <- Ha; try apply wrapping_inr in Ha.

Section facts.
Context {W : Type} {KR : GoKrb5 W}.
Local Abbreviation Mech := (gssapiMech W Identity).
Implicit Types m : Mech.

(** [token] is the AP_REQ a mechanism standing where [m0] did sends: on a live session,
    for the ticket acquired for its principal, with the authenticator made for the
    credentials' owner, its time cut to the second and its checksum asking for mutual
    authentication and integrity, and with the option that requires the server to
    authenticate itself. [m] has the ticket's key and that authenticator. *)
Definition requested m0 m (token : bytes) : Prop :=
  ks_closed (gm_session m0) = false /\ gm_spn m = gm_spn m0 /\
  exists w ticket w1 auth0 w2 req b oid,
    k_ServiceTicket (gm_spn m0) (gm_world m0) = (w, Acquired (Returned (inr (ticket, gm_sessionKey m)))) /\
    k_NewAuthenticator (fst (k_Credentials w)) (snd (k_Credentials w)) w = (w1, inr auth0) /\
    gm_auth m = mkAuth (au_ident auth0)
      (mkChecksum 32771 ([x10; x00; x00; x00] ++ repeat x00 16 ++ [x12; x00; x00; x00]))
      (au_CTime auth0 - au_CTime auth0 mod 1000000000) (au_Cusec auth0) (au_SeqNumber auth0) /\
    0 <= au_SeqNumber (gm_auth m) /\
    k_NewAPReq ticket (gm_sessionKey m) (gm_auth m) w1 = (w2, inr req) /\
    k_APReq_Marshal (k_SetFlag 2 req) = inr b /\
    k_oid = inr oid /\ token = k_AddASNAppTag (oid ++ [x01; x00] ++ b).

(** [token] proves that its sender holds the session key of [m]'s ticket: what it
    encrypts under that key is the time of [m]'s authenticator. *)
Definition authenticated m (token : bytes) : Prop :=
  exists msg ed plain enc,
    parseKrb5Token k_oid token = inr ((x02, x00), msg) /\ k_APRep msg = inr ed /\
    k_DecryptEncPart ed (gm_sessionKey m) 12 = Returned (inr plain) /\
    k_EncAPRepPart plain = inr enc /\
    er_CTime enc = au_CTime (gm_auth m) /\ er_Cusec enc = au_Cusec (gm_auth m) /\
    gm_ctxKey m = (if has_subkey enc then er_Subkey enc else gm_sessionKey m).

(** [token] is a wrap token of the acceptor, verified under the context key, not
    sealed, whose four octets offer to go on without a security layer. *)
Definition offered m (token : bytes) : Prop :=
  exists normalized wt,
    unrotateWrapToken token = inr normalized /\ k_WrapToken_Unmarshal normalized true = inr wt /\
    k_Verify wt (gm_ctxKey m) 22 = inr true /\
    Z.testbit (wt_Flags wt) 0 = true /\ Z.testbit (wt_Flags wt) 1 = false /\
    length (wt_Payload wt) = 4%nat /\ Z.testbit (Z_of_byte (hd x00 (wt_Payload wt))) 0 = true.

(** [token] is the choice of no layer, signed under the context key with the
    authenticator's sequence number. *)
Definition answered m (token : bytes) : Prop :=
  exists flags sumLen wt,
    checksumLen (gm_ctxKey m) = inr sumLen /\
    flags = (if gm_acceptorSubkey m then 4 else 0) /\
    k_SetCheckSum (mkWrapToken flags sumLen 0 (au_SeqNumber (gm_auth m)) [x01; x00; x00; x00] [])
      (gm_ctxKey m) 24 = inr wt /\
    k_WrapToken_Marshal wt = inr token.

Lemma land_pow2_testbit n k : 0 <= k -> (Z.land n (2 ^ k) =? 0) = negb (Z.testbit n k).
Proof.
  intros Hk. destruct (Z.testbit n k) eqn:E; simpl.
  - apply Z.eqb_neq. intros H. apply (f_equal (fun z => Z.testbit z k)) in H.
    rewrite Z.land_spec, E, Z.pow2_bits_true, Z.bits_0 in H by done. done.
  - apply Z.eqb_eq, Z.bits_inj'. intros i Hi. rewrite Z.land_spec, Z.pow2_bits_eqb, Z.bits_0 by done.
    destruct (Z.eqb_spec k i) as [->|]; [by rewrite E|by rewrite andb_false_r].
Qed.

Lemma initialToken_ok m m' token : initialToken m = (m', inr token) ->
  requested m m' token /\ gm_stage m' = gm_stage m /\ gm_sendSeq m' = au_SeqNumber (gm_auth m') /\
  gm_acceptorSubkey m' = gm_acceptorSubkey m.
Proof.
  unfold initialToken. intros H. step_ok H tk Ht. unfold serviceTicket, begin in Ht.
  destruct (ks_closed (gm_session m)) eqn:Ec; [done|]. simpl in Ht.
  destruct (k_ServiceTicket (gm_spn m) (gm_world m)) as [w [[r|text]|e]] eqn:Ek; [|done|done].
  destruct r as [e|tk']; [done|]. injection Ht as <- ->.
  step_ok H u Hu. injection Hu as <- <-. pure_ok H m1 Hm1. subst m1.
  cbn [gm_world set_sessionKey] in H. rewrite (surjective_pairing (k_Credentials w)) in H.
  step_ok H auth0 Ha. unfold in_world in Ha. destruct (k_NewAuthenticator _ _ _) as [w1 r1] eqn:Eau.
  injection Ha as <- Ha. step_ok H req Hr. unfold in_world in Hr. destruct (k_NewAPReq _ _ _ _) as [w2 r2] eqn:Ereq.
  injection Hr as <- Hr. cbv zeta in H. destruct (Z.ltb_spec (au_SeqNumber (stamp auth0)) 0); [done|].
  step_ok H u Hu. injection Hu as <- <-. pure_ok H b Hb. unfold pure in H. injection H as <- Htok.
  apply wrapping_inr in Ha as ->. apply wrapping_inr in Hr as ->.
  unfold requested. simpl. split_and!; try done. destruct tk as [ticket key].
  unfold krb5Token in Htok. destruct k_oid as [e|oid] eqn:Eo; [done|]. injection Htok as <-. by eexists w, ticket, _, auth0, _, req, b, oid.
Qed.

Lemma decryptEncPart_ok ed key usage plain :
  decryptEncPart ed key usage = inr plain -> k_DecryptEncPart ed key usage = Returned (inr plain).
Proof.
  unfold decryptEncPart. destruct (k_GetEtype (KeyType key)); [done|]. cbv zeta. destruct (_ <? _); [done|].
  destruct (k_DecryptEncPart ed key usage); [by intros ->|done].
Qed.

(** Verifying changes the context key only. *)
Definition only_ctxKey m m' : Prop := exists k b, m' = set_ctxKey k b m.

Lemma verifyAPRep_ok m m' token : verifyAPRep token m = (m', inr tt) ->
  authenticated m' token /\ only_ctxKey m m'.
Proof.
  unfold verifyAPRep. intros H. pure_ok H t Ht. destruct t as [tokID msg].
  destruct (token_eqb tokID tokIDKRBError); [by destruct (k_KRBError msg)|].
  destruct (token_eqb tokID tokIDAPRep) eqn:Eid; [|done]. apply token_eqb_eq in Eid as ->. simpl in H.
  pure_ok H ed Hed. pure_ok H m1 Hm1. subst m1. pure_ok H plain Hp. apply decryptEncPart_ok in Hp.
  pure_ok H enc He. unfold acceptAPRep in H.
  destruct (Z.eqb_spec (er_CTime enc) (au_CTime (gm_auth m))) as [Hc|]; [|done].
  destruct (Z.eqb_spec (er_Cusec enc) (au_Cusec (gm_auth m))) as [Hu|]; [|done]. simpl in H.
  split; [exists msg, ed, plain, enc|]; destruct (has_subkey enc) eqn:Es; injection H as <-;
    simpl; rewrite ?Es; first [by split_and!|by eexists _, _].
Qed.

Lemma unwrap_ok m m' token p : unwrap token m = (m', inr p) ->
  m' = m /\ exists normalized wt,
    unrotateWrapToken token = inr normalized /\ k_WrapToken_Unmarshal normalized true = inr wt /\
    k_Verify wt (gm_ctxKey m) keyusage_GSSAPI_ACCEPTOR_SEAL = inr true /\
    Z.testbit (wt_Flags wt) 0 = true /\ Z.testbit (wt_Flags wt) 1 = false /\ p = wt_Payload wt.
Proof.
  unfold unwrap. intros H. pure_ok H normalized Hn. pure_ok H wt Hw.
  pose proof (land_pow2_testbit (wt_Flags wt) 0 ltac:(lia)) as H0. pose proof (land_pow2_testbit (wt_Flags wt) 1 ltac:(lia)) as H1.
  change (2 ^ 0) with wrapFlagSentByAcceptor in H0. change (2 ^ 1) with wrapFlagSealed in H1. rewrite H0, H1 in H.
  destruct (Z.testbit (wt_Flags wt) 0) eqn:E0; [|done]. destruct (Z.testbit (wt_Flags wt) 1) eqn:E1; [done|]. cbn [negb] in H.
  pure_ok H m1 Hm1. subst m1. pure_ok H ok Hok. destruct ok; [|done]. injection H as <- <-.
  split; [done|]. exists normalized, wt. by split_and!.
Qed.

Lemma wrap_ok m m' payload token : wrap payload m = (m', inr token) ->
  m' = set_sendSeq (uint64 (gm_sendSeq m + 1)) m /\ exists sumLen wt,
    checksumLen (gm_ctxKey m) = inr sumLen /\
    k_SetCheckSum (mkWrapToken (if gm_acceptorSubkey m then wrapFlagAcceptorSubkey else 0) sumLen 0 (gm_sendSeq m) payload [])
      (gm_ctxKey m) keyusage_GSSAPI_INITIATOR_SEAL = inr wt /\
    k_WrapToken_Marshal wt = inr token.
Proof.
  unfold wrap. intros H. pure_ok H m1 Hm1. subst m1. pure_ok H sumLen Hl. cbv zeta in H. pure_ok H wt Hw.
  step_ok H u Hu. injection Hu as <- <-. unfold pure in H. injection H as <- H. apply wrapping_inr in H.
  split; [done|]. by exists sumLen, wt.
Qed.

Lemma selectSecurityLayer_ok m m' challenge token : selectSecurityLayer challenge m = (m', inr token) ->
  m' = set_sendSeq (uint64 (gm_sendSeq m + 1)) m /\ offered m challenge /\
  (gm_sendSeq m = au_SeqNumber (gm_auth m) -> answered m token).
Proof.
  unfold selectSecurityLayer. intros H. step_ok H offer Ho.
  apply unwrap_ok in Ho as (-> & normalized & wt & H1 & H2 & H3 & H4 & H5 & ->).
  case_bool_decide as Hl; [|done]. simpl in H.
  pose proof (land_pow2_testbit (Z_of_byte (hd x00 (wt_Payload wt))) 0 ltac:(lia)) as Hq.
  change (2 ^ 0) with qopAuth in Hq. rewrite Hq in H.
  destruct (Z.testbit (Z_of_byte (hd x00 (wt_Payload wt))) 0) eqn:Eq; [|done]. simpl negb in H. cbv iota in H.
  apply wrap_ok in H as (-> & sumLen & wt' & H6 & H7 & H8). split; [done|]. split.
  - exists normalized, wt. by split_and!.
  - intros Hs. rewrite Hs in H7. by eexists _, sumLen, wt'.
Qed.

(** C6: a GSSAPI connection that opens is mutually authenticated, on any server and
    any network: OpenContext succeeds only after exactly three frames, OK, OK and
    COMPLETE. What the client wrote is START "GSSAPI", an AP_REQ, an empty response and
    its choice of no security layer as COMPLETE. The AP_REQ is the one for the ticket
    acquired for the service principal, with the mutual-required option and an
    authenticator stamped in whole seconds whose checksum asks for mutual
    authentication and integrity; the first frame is an AP_REP that decrypts under
    that ticket's session key and echoes that very authenticator's time; the second is
    a wrap token verified under the key the AP_REP established, offering to run without
    a security layer; and the choice is signed under that key with the
    authenticator's sequence number. No round can be skipped or repeated. *)
Theorem gss_mutual_authentication {AG : AppendGrowth} quote fuel (s s' : saslTransport stream Mech) :
  gm_stage (sa_mech s) = gssStageAPReq -> (length (s_in (sa_inner s)) + 5 < fuel)%nat ->
  OpenContext quote fuel s = Some (s', inr tt) ->
  exists apReq apRep offer chosen final,
    s_in (sa_inner s) = negotiation_frame saslOK apRep ++ negotiation_frame saslOK offer ++
      negotiation_frame saslComplete final ++ s_in (sa_inner s') /\
    s_out (sa_inner s') = s_out (sa_inner s) ++ negotiation_frame saslStart (String.list_byte_of_string "GSSAPI") ++
      negotiation_frame saslOK apReq ++ negotiation_frame saslOK [] ++ negotiation_frame saslComplete chosen /\
    requested (sa_mech s) (sa_mech s') apReq /\ authenticated (sa_mech s') apRep /\
    offered (sa_mech s') offer /\ answered (sa_mech s') chosen /\
    Complete (sa_mech s') = true /\ sa_open s' = true.
Proof.
  intros Hst Hf H. apply open_ok in H as (k & [apReq d] & t & Hk & Hi0 & Ho0 & H).
  unfold Sasl.Step, gss_mech, Step in Hk. rewrite Hst in Hk. step_ok Hk tok Htok. injection Hk as <- -> <-.
  apply initialToken_ok in Htok as (Hacq & Hst1 & Hseq & _). rename m into m1.
  cbn [fst snd statusFor] in Ho0, H. apply negotiate_ok in H as (n1 & st1 & apRep & t1 & -> & Hr1 & H); [|simpl; by rewrite Hi0].
  destruct H as [(_ & Hc & _)|(-> & _ & k & rd1 & t2 & Hk & Hi2 & Ho2 & H)]; [done|].
  unfold Sasl.Step, gss_mech, Step in Hk. cbn [sa_mech set_inner set_mech gm_stage set_stage default] in Hk.
  step_ok Hk u Hv. destruct u. injection Hk as <- <-. apply verifyAPRep_ok in Hv as [Hauth [ck [b ->]]]. unfold id in Hauth.
  cbn [fst snd statusFor] in Ho2, H. destruct Hr1 as (Hi1 & Ho1 & _). cbn [sa_inner set_inner set_mech] in Hi1, Ho1.
  apply negotiate_ok in H as (n2 & st2 & offer & t3 & -> & Hr3 & H).
  2: { simpl. rewrite Hi2. apply (f_equal length) in Hi1. rewrite Hi0, length_app in Hi1. lia. }
  destruct H as [(_ & Hc & _)|(-> & _ & k & rd2 & t4 & Hk & Hi4 & Ho4 & H)]; [done|].
  unfold Sasl.Step, gss_mech, Step in Hk. cbn [sa_mech set_inner set_mech gm_stage set_stage default] in Hk.
  step_ok Hk chosen Hsel. injection Hk as <- <-. apply selectSecurityLayer_ok in Hsel as (-> & Hoff & Hans).
  cbn [fst snd statusFor] in Ho4, H. destruct Hr3 as (Hi3 & Ho3 & _). cbn [sa_inner set_inner set_mech] in Hi3, Ho3.
  apply negotiate_ok in H as (n3 & st3 & final & t5 & -> & Hr5 & H).
  2: { simpl. rewrite Hi4. apply (f_equal length) in Hi1, Hi3. rewrite Hi0, length_app in Hi1.
       rewrite Hi2, length_app in Hi3. lia. }
  destruct H as [(-> & _ & ->)|(_ & Hfin & _)]; [|done]. destruct Hr5 as (Hi5 & Ho5 & _).
  cbn [sa_inner set_inner set_mech] in Hi5, Ho5.
  exists apReq, apRep, offer, chosen, final. cbn [sa_inner sa_mech set_inner set_open set_mech] in *.
  split_and!; try done.
  - by rewrite <- Hi0, Hi1, <- Hi2, Hi3, <- Hi4, Hi5.
  - rewrite Ho5, Ho4, Ho3, Ho2, Ho1, Ho0. by rewrite <- !app_assoc.
  - by apply Hans.
Qed.
End facts.

(** ** A small Kerberos

    One key byte is a key; encryption prepends it, a checksum is the key byte and
    the usage; times and numbers are single octets. *)

Module Toy.
Definition key : EncryptionKey := mkKey 17 [x4b].
Definition subkey : EncryptionKey := mkKey 17 [x53].
Definition sum (k : EncryptionKey) (usage : Z) : bytes := [byte_of_Z usage; hd x00 (KeyValue k)].

Definition Marshal (t : WrapToken) : bytes :=
  [x05; x04; byte_of_Z (wt_Flags t); xff] ++ PutUint16 (wt_EC t) ++ PutUint16 (wt_RRC t) ++
  [x00; x00; x00; x00] ++ PutUint32 (wt_SndSeqNum t) ++ wt_Payload t ++ wt_CheckSum t.
Definition Unmarshal (b : bytes) (fromAcceptor : bool) : goerr + WrapToken :=
  let data := drop HdrLen b in
  let n := (length data - 2)%nat in
  inr (mkWrapToken (Z_of_byte (nth 2 b x00)) 2 0 (Uint32 (take 4 (drop 12 b))) (take n data) (drop n data)).

#[export] Instance krb : GoKrb5 unit := {|
  Ticket := unit; CName := unit; Identity := unit; APReq := Authenticator unit; EncryptedData := bytes;
  k_Credentials := fun _ => ("EXAMPLE.COM", tt);
  k_ServiceTicket := fun spn w => (w, Acquired (Returned (inr (tt, key))));
  k_NewAuthenticator := fun _ _ => ret (mkAuth tt (mkChecksum 0 []) 5000000123 7 9);
  k_NewAPReq := fun _ _ a => ret a;
  k_SetFlag := fun _ r => r;
  k_APReq_Marshal := fun a => inr [byte_of_Z (au_CTime a / 1000000000); byte_of_Z (au_Cusec a)];
  k_KRBError := fun _ => inr "KRB_AP_ERR_SKEW";
  k_APRep := inr;
  k_Cipher := fun ed => ed;
  k_EncAPRepPart := fun b => match b with
    | [sec; usec] => inr (mkEncAPRep (Z_of_byte sec * 1000000000) (Z_of_byte usec) (mkKey 0 []))
    | [sec; usec; k] => inr (mkEncAPRep (Z_of_byte sec * 1000000000) (Z_of_byte usec) (mkKey 17 [k]))
    | _ => inl (EText "asn1")
    end;
  k_GetEtype := fun t => if t =? 17 then inr (mkEType 1 16) else inl (EText "unknown");
  k_DecryptEncPart := fun ed k _ => match ed with
    | [] => Panicked "slice bounds out of range"
    | b :: plain => if Byte.eqb b (hd x00 (KeyValue k)) then Returned (inr plain) else Returned (inl (EText "integrity"))
    end;
  k_SetCheckSum := fun t k usage =>
    inr (mkWrapToken (wt_Flags t) (wt_EC t) (wt_RRC t) (wt_SndSeqNum t) (wt_Payload t) (sum k usage));
  k_WrapToken_Marshal := fun t => inr (Marshal t);
  k_WrapToken_Unmarshal := Unmarshal;
  k_Verify := fun t k usage => inr (bool_decide (wt_CheckSum t = sum k usage));
  k_oid := inr [x06; x01; x2a];
  k_AddASNAppTag := fun b => x60 :: byte_of_Z (Z.of_nat (length b)) :: b;
|}.

(** A server that has the ticket's key: it echoes the time with a subkey, and
    offers every layer in a token rotated by two. *)
Definition apRep : bytes := [x60; x09; x06; x01; x2a; x02; x00; x4b; x05; x07; x53].
Definition offer : bytes :=
  [x05; x04; x05; xff; x00; x02; x00; x02; x00; x00; x00; x00; x00; x00; x00; x01] ++ [x16; x53; x07; x00; x00; x00].

Definition mech0 : gssapiMech unit unit :=
  new_gssapiMech tt new_session "hive/ms" (mkAuth tt (mkChecksum 0 []) 0 0 0).
Definition client (server : bytes) : saslTransport stream (gssapiMech unit unit) :=
  mkSasl (mkStream server [2; 0; 40]%nat [] false) mech0 [] [] false.
Definition run (server : bytes) := @OpenContext stream _ _ gss_mech demo_growth (fun _ => "") 100 (client server).
Definition honest : bytes :=
  negotiation_frame saslOK apRep ++ negotiation_frame saslOK offer ++ negotiation_frame saslComplete [] ++ [x2b].
Definition opened : saslTransport stream (gssapiMech unit unit) :=
  match run honest with Some (s, inr _) => s | _ => client [] end.
End Toy.

Example gss_mutual_authentication_witness :
  @OpenContext stream (gssapiMech unit unit) _ (gss_mech (KR := Toy.krb)) demo_growth (fun _ => "") 100 (Toy.client Toy.honest) =
    Some (Toy.opened, inr tt) /\
  exists apRep, authenticated (KR := Toy.krb) (sa_mech Toy.opened) apRep /\ gm_ctxKey (sa_mech Toy.opened) = Toy.subkey.
Proof.
  assert (@OpenContext stream (gssapiMech unit unit) _ (gss_mech (KR := Toy.krb)) demo_growth (fun _ => "") 100 (Toy.client Toy.honest) =
          Some (Toy.opened, inr tt)) as H by (vm_compute; reflexivity).
  split; [exact H|].
  destruct (gss_mutual_authentication (KR := Toy.krb) (AG := demo_growth) (fun _ => "") 100 (Toy.client Toy.honest) Toy.opened)
    as (_ & apRep & _ & _ & _ & _ & _ & _ & Ha & _); [reflexivity|vm_compute; lia|exact H|].
  exists apRep. split; [exact Ha|vm_compute; reflexivity].
Defined.

(** Servers that do not know the key, that answer COMPLETE at once, or that stop. *)
Example gss_impostors :
  let err r := match r with Some (_, inl e) => error_text e | _ => EmptyString end in
  err (Toy.run (negotiation_frame saslComplete [])) =
    "hms: sasl GSSAPI: server completed before the mechanism finished" /\
  err (Toy.run (negotiation_frame saslOK (take 7 Toy.apRep ++ [x4c; x05; x07; x53]))) =
    "hms: kerberos: could not decrypt the AP_REP: integrity" /\
  err (Toy.run (negotiation_frame saslOK (take 7 Toy.apRep ++ [x4b; x06; x07; x53]))) =
    "hms: kerberos: mutual authentication failed: the AP_REP does not echo the authenticator's timestamp" /\
  err (Toy.run (negotiation_frame saslOK ([x60; x06] ++ take 5 (drop 2 Toy.apRep) ++ [x4b]))) =
    "hms: kerberos: could not decrypt the AP_REP: hms: kerberos: ciphertext of 1 bytes is shorter than encryption type 17's minimum of 3" /\
  err (Toy.run (negotiation_frame saslOK Toy.apRep)) = "EOF".
Proof. vm_compute. by split_and!. Qed.
