(* ===== verification/Deadline.v ===== *)
(** * Deadline: who sets a connection's deadline (ctxclient.go, and the handshake of binary.go)

    A connection is used by one thing at a time: the SASL handshake of DialBinary,
    then one ContextClient.Call after another. Each sets the socket's deadline,
    arranges for the cancellation of its context to move it to now, and takes that
    arrangement back when it returns; but the callback of [context.AfterFunc] runs
    on a goroutine of its own. *)

From S2P Require Import Prelude Errors.

(** ** Uses of a connection *)

(** [u_call]: ContextClient.Call; otherwise DialBinary's handshake, whose timeout
    is [ConnectTimeout]. Times are nanoseconds. *)
Record use := mkUse { u_call : bool; u_ctxDeadline : option Z; u_timeout : Z }.

(** [deadline, ok := ctx.Deadline(); if !ok && timeout > 0 { ... }]; [None] is the
    zero time. *)
Definition use_deadline (u : use) (now : Z) : option Z :=
  match u_ctxDeadline u with
  | Some d => Some d
  | None => if 0 <? u_timeout u then Some (now + u_timeout u) else None
  end.

(** Where a use is: about to set its deadline, to register the callback, in the
    inner call or handshake, about to stop the callback, waiting for it, about to
    clear the deadline, over. *)
Inductive upc := UStart | UArm | UInner | UStop | UWait | UClear | UEnd.

(** The callback: not registered, registered, started, past its SetDeadline, over
    ([fired] closed), or stopped before it started. *)
Inductive callback := CbNone | CbArmed | CbStarted | CbFlipped | CbDone | CbStopped.

#[export] Instance upc_eq_dec : EqDecision upc.
Proof. solve_decision. Defined.
#[export] Instance callback_eq_dec : EqDecision callback.
Proof. solve_decision. Defined.

Record slot := mkSlot { sl_use : use; sl_pc : upc; sl_cb : callback; sl_own : option Z; sl_cancelled : bool }.

(** The clock, the socket's deadline, and the uses so far. *)
Record dstate := mkD { d_now : Z; d_deadline : option Z; d_slots : list slot }.

Definition d_init (now : Z) : dstate := mkD now None [].

(** ** Steps *)

(** The statements of Call, and of DialBinary around its handshake. *)
Definition use_step (now : Z) (deadline : option Z) (s : slot) : option (option Z * slot) :=
  let u := sl_use s in
  match sl_pc s with
  | UStart =>
      let d := use_deadline u now in
      Some (match d with
            | Some _ => d
            | None => if u_call u then None else deadline
            end, mkSlot u UArm (sl_cb s) d (sl_cancelled s))
  | UArm => Some (deadline, mkSlot u UInner CbArmed (sl_own s) (sl_cancelled s))
  | UInner => Some (deadline, mkSlot u UStop (sl_cb s) (sl_own s) (sl_cancelled s))
  | UStop =>
      match sl_cb s with
      | CbArmed => Some (deadline, mkSlot u (if u_call u then UEnd else UClear) CbStopped (sl_own s) (sl_cancelled s))
      | cb => Some (deadline, mkSlot u (if u_call u then UWait else UClear) cb (sl_own s) (sl_cancelled s))
      end
  | UWait => match sl_cb s with
             | CbDone => Some (deadline, mkSlot u UEnd CbDone (sl_own s) (sl_cancelled s))
             | _ => None
             end
  | UClear => Some (None, mkSlot u UEnd (sl_cb s) (sl_own s) (sl_cancelled s))
  | UEnd => None
  end.

(** The callback's goroutine: it starts once the context is done. *)
Definition callback_step (now : Z) (deadline : option Z) (s : slot) : option (option Z * slot) :=
  let with_cb cb := mkSlot (sl_use s) (sl_pc s) cb (sl_own s) (sl_cancelled s) in
  match sl_cb s with
  | CbArmed => if sl_cancelled s then Some (deadline, with_cb CbStarted) else None
  | CbStarted => Some (Some now, with_cb CbFlipped)
  | CbFlipped => Some (deadline, with_cb CbDone)
  | _ => None
  end.

(** Time passes; a context ends (by its deadline too); a new use begins, once those
    before it are over, and only the first may be a handshake; a use or a callback makes a step. *)
Inductive devent := ETick (dt : nat) | ECancel (i : nat) | EUse (u : use) | ERun (i : nat) | ECallback (i : nat).

Definition at_slot (i : nat) (f : Z -> option Z -> slot -> option (option Z * slot)) (d : dstate) : option dstate :=
  match d_slots d !! i with
  | None => None
  | Some s => match f (d_now d) (d_deadline d) s with
              | None => None
              | Some (dl, s) => Some (mkD (d_now d) dl (<[i := s]> (d_slots d)))
              end
  end.

Definition dstep (e : devent) (d : dstate) : option dstate :=
  match e with
  | ETick dt => Some (mkD (d_now d + Z.of_nat dt) (d_deadline d) (d_slots d))
  | ECancel i => at_slot i (fun _ dl s => Some (dl, mkSlot (sl_use s) (sl_pc s) (sl_cb s) (sl_own s) true)) d
  | EUse u =>
      if forallb (fun s => bool_decide (sl_pc s = UEnd)) (d_slots d) &&
         match d_slots d with [] => true | _ => u_call u end
      then Some (mkD (d_now d) (d_deadline d) (d_slots d ++ [mkSlot u UStart CbNone None false]))
      else None
  | ERun i => at_slot i use_step d
  | ECallback i => at_slot i callback_step d
  end.

Inductive dreachable (now0 : Z) : dstate -> Prop :=
  | dr_init : dreachable now0 (d_init now0)
  | dr_step e d d' : dreachable now0 d -> dstep e d = Some d' -> dreachable now0 d'.

(** The error Call reports: the context's, once it has one. *)
Definition call_result {A} (meta : A) (err ctxErr : option goerr) : A * option goerr :=
  match err, ctxErr with
  | Some _, Some e => (meta, Some e)
  | _, _ => (meta, err)
  end.

(** ** The invariant *)

Definition flipped (now : Z) (dl : option Z) : Prop := exists t, dl = Some t /\ t <= now.

(** A handshake that is over and whose callback has moved the deadline. *)
Definition stray (s : slot) : Prop :=
  u_call (sl_use s) = false /\ sl_pc s = UEnd /\ (sl_cb s = CbFlipped \/ sl_cb s = CbDone).

Definition slot_wf (s : slot) : Prop :=
  (sl_cb s = CbNone <-> sl_pc s = UStart \/ sl_pc s = UArm) /\
  (sl_pc s = UEnd -> u_call (sl_use s) = true -> sl_cb s = CbStopped \/ sl_cb s = CbDone) /\
  (sl_pc s = UWait -> u_call (sl_use s) = true /\ (sl_cb s = CbStarted \/ sl_cb s = CbFlipped \/ sl_cb s = CbDone)) /\
  (sl_pc s = UClear -> u_call (sl_use s) = false) /\
  (sl_pc s = UInner \/ sl_pc s = UStop -> sl_cb s <> CbStopped) /\
  (sl_pc s = UClear \/ sl_pc s = UEnd -> sl_cb s <> CbArmed) /\
  (sl_cb s = CbStarted \/ sl_cb s = CbFlipped \/ sl_cb s = CbDone -> sl_cancelled s = true).

(** In the inner call: the deadline is the call's own, or its own cancellation or a
    handshake's callback moved it into the past. *)
Definition owned (d : dstate) (s : slot) : Prop :=
  sl_pc s = UArm \/ sl_pc s = UInner \/ sl_pc s = UStop ->
  u_call (sl_use s) = true ->
  d_deadline d = sl_own s \/
  flipped (d_now d) (d_deadline d) /\ (sl_cancelled s = true \/ exists j s', d_slots d !! j = Some s' /\ stray s').

Record dinv (d : dstate) : Prop := {
  di_wf : forall i s, d_slots d !! i = Some s -> slot_wf s;
  di_last : forall i s, d_slots d !! i = Some s -> S i <> length (d_slots d) -> sl_pc s = UEnd;
  di_owned : forall i s, d_slots d !! i = Some s -> owned d s;
}.

Lemma stray_insert (slots : list slot) i s s' :
  slots !! i = Some s -> (stray s -> stray s') ->
  (exists j q, slots !! j = Some q /\ stray q) -> exists j q, <[i := s']> slots !! j = Some q /\ stray q.
Proof.
  intros Hi Hs (j & q & Hj & Hq). destruct (decide (j = i)) as [->|].
  - rewrite Hi in Hj. injection Hj as <-. exists i, s'. rewrite list_lookup_insert_eq by by eapply lookup_lt_Some.
    split; [done|by apply Hs].
  - exists j, q. by rewrite list_lookup_insert_ne by done.
Qed.

(** A step of one slot keeps the invariant when it keeps that slot's part, and the
    deadline of the others. *)
Lemma dinv_insert d i s s' dl :
  dinv d -> d_slots d !! i = Some s -> slot_wf s' -> (sl_pc s = UEnd -> sl_pc s' = UEnd) ->
  let d' := mkD (d_now d) dl (<[i := s']> (d_slots d)) in
  (owned d s -> owned d' s') -> (forall k q, k <> i -> d_slots d !! k = Some q -> owned d q -> owned d' q) -> dinv d'.
Proof.
  intros [Hwf Hlast Hown] Hi Hs' Hpc d' Ho Hoth. split; simpl; intros k q; destruct (decide (k = i)) as [->|Hne];
    rewrite ?list_lookup_insert_eq by (by eapply lookup_lt_Some); rewrite ?list_lookup_insert_ne by done;
    rewrite ?length_insert; intros Hk; try (injection Hk as <-); eauto.
Qed.

Lemma owned_same d i s s' : d_slots d !! i = Some s -> (stray s -> stray s') ->
  forall q, owned d q -> owned (mkD (d_now d) (d_deadline d) (<[i := s']> (d_slots d))) q.
Proof.
  intros Hi Hs q Ho Hpc Hcall. destruct (Ho Hpc Hcall) as [H|[H [Hc|Hj]]]; [by left|right; split; [done|by left]|].
  right. split; [done|]. right. by eapply stray_insert.
Qed.

(** Other slots than the last are over. *)
Lemma over_elsewhere d i k s q : dinv d -> d_slots d !! i = Some s -> d_slots d !! k = Some q -> k <> i ->
  sl_pc s <> UEnd -> sl_pc q = UEnd.
Proof.
  intros Hd Hi Hk Hne Hpc. destruct (decide (S i = length (d_slots d))) as [Hl|Hl]; [|by pose proof (di_last d Hd i s Hi Hl)].
  apply (di_last d Hd k q Hk). lia.
Qed.

Lemma owned_over d q : sl_pc q = UEnd -> owned d q.
Proof. intros Hq [H|[H|H]]; congruence. Qed.

Lemma dinv_run d i d' : dinv d -> at_slot i use_step d = Some d' -> dinv d'.
Proof.
  intros Hd. unfold at_slot. destruct (d_slots d !! i) as [s|] eqn:Hi; [|done].
  pose proof (di_wf d Hd i s Hi) as (W1 & W2 & W3 & W4 & W5 & W7 & W6). pose proof (di_owned d Hd i s Hi) as Ho.
  destruct (use_step (d_now d) (d_deadline d) s) as [[dl s']|] eqn:E; [|done]. intros [= <-].
  assert (sl_pc s <> UEnd) as Hend by (intros Hp; unfold use_step in E; by rewrite Hp in E).
  assert (stray s -> stray s') as Hst by (by intros (_ & Hp & _)).
  apply (dinv_insert d i s s' dl Hd Hi).
  - unfold slot_wf. clear Hst. unfold use_step in E; destruct s as [u pc cb own cn]; simpl in *.
    destruct pc; try done; try (destruct cb; try done; destruct (u_call u) eqn:Eu);
      injection E as <- <-; simpl; rewrite ?Eu; intuition (try congruence).
  - done.
  - intros _ Hpc Hcall.
    assert (d_deadline d = sl_own s /\ dl = sl_own s' \/ sl_pc s = UStart /\ dl = sl_own s' \/
            (sl_pc s = UArm \/ sl_pc s = UInner \/ sl_pc s = UStop) /\ dl = d_deadline d /\ sl_own s' = sl_own s /\
            sl_cancelled s' = sl_cancelled s /\ sl_use s' = sl_use s) as Hcase.
    { unfold use_step in E; destruct s as [u pc cb own cn]; simpl in *.
      destruct pc; try done; try (destruct cb; try done); injection E as <- <-; simpl in *;
        try (destruct (u_call u), Hpc as [Hpc|[Hpc|Hpc]]; by discriminate Hpc);
        try (by destruct Hpc as [Hpc|[Hpc|Hpc]]); try (right; right; by split_and!; auto);
        rewrite Hcall; right; left; by destruct (use_deadline u (d_now d)). }
    destruct Hcase as [[_ H]|[[_ H]|(Hin & -> & Ho' & Hc' & Hu')]]; [by left|by left|].
    apply (owned_same d i s s' Hi Hst s'); [|done|done]. intros _ _. rewrite Ho', Hc'. apply Ho; [done|congruence].
  - intros k q Hk Hq _. apply owned_over. by apply (over_elsewhere d i k _ q Hd Hi Hq Hk).
Qed.

Lemma dinv_callback d i d' : dinv d -> at_slot i callback_step d = Some d' -> dinv d'.
Proof.
  intros Hd. unfold at_slot. destruct (d_slots d !! i) as [s|] eqn:Hi; [|done].
  pose proof (di_wf d Hd i s Hi) as (W1 & W2 & W3 & W4 & W5 & W7 & W6). pose proof (di_owned d Hd i s Hi) as Ho.
  destruct (callback_step (d_now d) (d_deadline d) s) as [[dl s']|] eqn:E; [|done]. intros [= <-].
  assert (sl_cancelled s = true) as Hcn.
  { unfold callback_step in E. destruct (sl_cb s) eqn:Ecb; try done; [by destruct (sl_cancelled s)|by apply W6; auto..]. }
  assert (sl_use s' = sl_use s /\ sl_pc s' = sl_pc s /\ sl_own s' = sl_own s /\ sl_cancelled s' = true /\
    (dl = d_deadline d \/ dl = Some (d_now d)) /\
    (sl_cb s = CbArmed /\ sl_cb s' = CbStarted \/ sl_cb s = CbStarted /\ sl_cb s' = CbFlipped \/
     sl_cb s = CbFlipped /\ sl_cb s' = CbDone)) as (Hu & Hpc & Hown & Hcn' & Hdl & Hcb).
  { unfold callback_step in E. destruct (sl_cb s); try done; [destruct (sl_cancelled s); [|done]|..];
      injection E as <- <-; simpl; split_and!; auto 6. }
  assert (stray s -> stray s') as Hst.
  { intros (H1 & H2 & H3). unfold stray. rewrite Hu, Hpc. split_and!; [done|done|].
    destruct Hcb as [[H4 H5]|[[H4 H5]|[H4 H5]]]; rewrite H4 in H3; destruct H3; try done. by right. }
  apply (dinv_insert d i s s' dl Hd Hi); [|congruence|..].
  - unfold slot_wf. rewrite Hu, Hpc, Hcn'.
    destruct Hcb as [[H1 H2]|[[H1 H2]|[H1 H2]]]; rewrite H1 in *; rewrite H2; intuition congruence.
  - intros _ Hin Hcall. destruct Hdl as [-> | ->].
    + apply (owned_same d i s s' Hi Hst s'); [|done|done]. intros _ _. rewrite Hown, Hcn'. rewrite Hpc, Hu in *.
      destruct (Ho Hin Hcall) as [H|[H _]]; [by left|right; split; [done|by left]].
    + right. split; [|by left]. exists (d_now d). simpl. split; [done|lia].
  - intros k q Hk Hq Hqo Hin Hcall. destruct Hdl as [-> | ->].
    + by apply (owned_same d i s s' Hi Hst q Hqo).
    + right. split; [exists (d_now d); simpl; split; [done|lia]|]. right. exists i, s'. simpl.
      rewrite list_lookup_insert_eq by by eapply lookup_lt_Some. split; [done|]. unfold stray. rewrite Hu, Hpc.
      destruct (decide (sl_pc s = UEnd)) as [Hend|Hend].
      * destruct (u_call (sl_use s)) eqn:Eu; [destruct (W2 Hend eq_refl), Hcb as [[H1 _]|[[H1 _]|[H1 _]]]; congruence|].
        split_and!; [done|done|]. destruct Hcb as [[H1 H2]|[[H1 H2]|[H1 H2]]]; [|by left|by right].
        by destruct (W7 (or_intror Hend)).
      * pose proof (over_elsewhere d i k s q Hd Hi Hq Hk Hend). destruct Hin as [H'|[H'|H']]; congruence.
Qed.

Lemma dreachable_inv now0 d : dreachable now0 d -> dinv d.
Proof.
  induction 1 as [|e d d' _ IH Hs]; [by split|]. destruct e as [dt|i|u|i|i]; simpl in Hs.
  - injection Hs as <-. destruct IH as [Hw Hl Ho]. split; simpl; [exact Hw|exact Hl|].
    intros i s Hi Hpc Hcall. destruct (Ho i s Hi Hpc Hcall) as [H|[(t & Ht & Hle) H]]; [by left|].
    right. split; [|done]. exists t. simpl. split; [done|lia].
  - unfold at_slot in Hs. destruct (d_slots d !! i) as [s|] eqn:Hi; [|done]. injection Hs as <-.
    apply (dinv_insert d i s _ _ IH Hi); [|done|..]; simpl.
    + pose proof (di_wf d IH i s Hi) as (W1 & W2 & W3 & W4 & W5 & W7 & W6). unfold slot_wf; simpl. by split_and!.
    + intros Ho Hpc Hcall. destruct (Ho Hpc Hcall) as [H|[H _]]; [by left|]. right. split; [done|by left].
    + intros k q _ _ Hq. by apply (owned_same d i s).
  - destruct (_ && _) eqn:Ef; [|done]. injection Hs as <-.
    assert (forall i s, d_slots d !! i = Some s -> sl_pc s = UEnd) as Hall.
    { apply andb_true_iff in Ef as [Ef _]. intros i s Hi. apply (bool_decide_eq_true (sl_pc s = UEnd)).
      apply (proj1 (forallb_forall _ _) Ef). apply list_elem_of_In. by eapply list_elem_of_lookup_2. }
    split; simpl; intros i s Hi; apply lookup_app_Some in Hi as [Hi|[Hlen Hi]].
    + by apply (di_wf d IH i).
    + apply list_lookup_singleton_Some in Hi as [_ <-]. unfold slot_wf; simpl. intuition congruence.
    + intros _. by eapply Hall.
    + apply list_lookup_singleton_Some in Hi as [Hi _]. rewrite length_app. simpl. lia.
    + apply owned_over. by eapply Hall.
    + apply list_lookup_singleton_Some in Hi as [_ <-]. intros [H|[H|H]]; discriminate H.
  - by eapply dinv_run.
  - by eapply dinv_callback.
Qed.

(** ** Runs *)

Abbreviation drun := (orun dstep).

Lemma drun_reachable now0 es d d' : dreachable now0 d -> drun es d = Some d' -> dreachable now0 d'.
Proof. intros Hd. by apply orun_inv; [intros e s s' Hs; by apply dr_step|]. Qed.

(** One step of slot [i], on the slot itself. *)
Lemma at_slot_some d i s f dl s' : d_slots d !! i = Some s -> f (d_now d) (d_deadline d) s = Some (dl, s') ->
  at_slot i f d = Some (mkD (d_now d) dl (<[i := s']> (d_slots d))).
Proof. intros Hi Hf. unfold at_slot. by rewrite Hi, Hf. Qed.

(** A call waiting for a callback that has started waits for at most two of its steps. *)
Lemma wait_ends d i s : d_slots d !! i = Some s -> sl_pc s = UWait ->
  sl_cb s = CbStarted \/ sl_cb s = CbFlipped \/ sl_cb s = CbDone ->
  exists n d' s', drun (repeat (ECallback i) n ++ [ERun i]) d = Some d' /\ (n <= 2)%nat /\
    d_slots d' !! i = Some s' /\ sl_pc s' = UEnd.
Proof.
  intros Hi Hpc Hcb. pose proof (lookup_lt_Some _ _ _ Hi) as Hlt. destruct s as [u pc cb own cn]; simpl in *. subst pc.
  destruct Hcb as [->|[->| ->]]; [exists 2%nat|exists 1%nat|exists 0%nat]; simpl;
    repeat (erewrite at_slot_some by (simpl; first [exact Hi|by apply list_lookup_insert_eq; rewrite ?length_insert]
                                      || reflexivity); simpl; rewrite ?list_insert_insert_eq);
    do 2 eexists; (split; [reflexivity|]); (split; [lia|]); simpl;
    (split; [by apply list_lookup_insert_eq|done]).
Qed.

(** C19: whatever the interleaving of a connection's calls, of the clock, of
    cancellations and of the callbacks' goroutines: while a call runs its inner call,
    the socket's deadline is the one that call set, or it is in the past, and then the
    call's own context ended or the callback of a dial handshake that is over moved it;
    once a call has returned, its callback makes no step any more; the wait for a
    callback that stop found started ends within two of its steps; and once a dial
    handshake has called stop, a callback that had not started never will. *)
Theorem deadline_owned now0 d i s :
  dreachable now0 d -> d_slots d !! i = Some s ->
  (u_call (sl_use s) = true ->
     (sl_pc s = UInner ->
        d_deadline d = sl_own s \/
        flipped (d_now d) (d_deadline d) /\ (sl_cancelled s = true \/ exists j s', d_slots d !! j = Some s' /\ stray s')) /\
     (sl_pc s = UEnd -> callback_step (d_now d) (d_deadline d) s = None) /\
     (sl_pc s = UWait -> exists n d' s', drun (repeat (ECallback i) n ++ [ERun i]) d = Some d' /\ (n <= 2)%nat /\
        d_slots d' !! i = Some s' /\ sl_pc s' = UEnd)) /\
  (u_call (sl_use s) = false -> sl_pc s = UClear \/ sl_pc s = UEnd ->
     sl_cb s = CbStarted \/ sl_cb s = CbFlipped \/ sl_cb s = CbDone \/
     (sl_cb s = CbStopped /\ callback_step (d_now d) (d_deadline d) s = None)).
Proof.
  intros Hd Hi. apply dreachable_inv in Hd. destruct (di_wf d Hd i s Hi) as (W1 & W2 & W3 & _ & _ & W7 & _). split.
  - intros Hcall. split_and!.
    + intros Hpc. apply (di_owned d Hd i s Hi); auto.
    + intros Hpc. unfold callback_step. by destruct (W2 Hpc Hcall) as [-> | ->].
    + intros Hpc. apply (wait_ends d i s Hi Hpc). by apply W3.
  - intros _ Hpc. specialize (W7 Hpc). unfold callback_step. destruct (sl_cb s); try done; auto 6.
    destruct (proj1 W1 eq_refl), Hpc; congruence.
Qed.

(** Two calls: the first is cancelled in flight, so its return waits for its
    callback; the second then runs under its own deadline. *)
Definition demo_call : use := mkUse true None 30.
Definition demo_events : list devent :=
  [EUse demo_call; ERun 0; ERun 0; ETick 5; ECancel 0; ECallback 0; ERun 0; ERun 0; ECallback 0; ETick 1; ECallback 0;
   ERun 0; EUse demo_call; ERun 1; ERun 1].

Lemma deadline_owned_witness :
  exists d s, drun demo_events (d_init 100) = Some d /\ d_slots d !! 1%nat = Some s /\ sl_pc s = UInner /\
    (d_deadline d = sl_own s \/
     flipped (d_now d) (d_deadline d) /\ (sl_cancelled s = true \/ exists j s', d_slots d !! j = Some s' /\ stray s')) /\
    d_deadline d = Some 136.
Proof.
  set (d := mkD 106 (Some 136) [mkSlot demo_call UEnd CbDone (Some 130) true;
                                mkSlot demo_call UInner CbArmed (Some 136) false]).
  set (s := mkSlot demo_call UInner CbArmed (Some 136) false).
  assert (drun demo_events (d_init 100) = Some d) as Hr by reflexivity.
  destruct (deadline_owned 100 d 1 s (drun_reachable 100 demo_events _ d (dr_init 100) Hr) eq_refl) as (H & _).
  destruct (H eq_refl) as (H1 & _). exists d, s. split_and!; [done..| |done]. by apply H1.
Defined.

(** The dial handshake does not wait for its callback: here it is cancelled as it
    succeeds, its callback runs only after the next call has set its deadline, and
    that call, whose context is not done, finds its deadline already past. *)
Example handshake_flips_next_call :
  exists d s, drun [EUse (mkUse false None 10); ERun 0; ERun 0; ECancel 0; ECallback 0; ERun 0; ERun 0; ERun 0;
                    EUse demo_call; ERun 1; ERun 1; ECallback 0; ETick 1] (d_init 100) = Some d /\
    d_slots d !! 1%nat = Some s /\ sl_pc s = UInner /\ sl_cancelled s = false /\ sl_own s = Some 130 /\
    d_deadline d = Some 100 /\ flipped (d_now d) (d_deadline d).
Proof.
  exists (mkD 101 (Some 100) [mkSlot (mkUse false None 10) UEnd CbFlipped (Some 110) true;
                              mkSlot demo_call UInner CbArmed (Some 130) false]), (mkSlot demo_call UInner CbArmed (Some 130) false).
  repeat (split; [reflexivity|]). exists 100. split; [reflexivity|by apply Z.leb_le].
Qed.
