(* ===== verification/Budget.v ===== *)
(** * Budget: internal/transport/budget.go

    The cap on the bytes of one reply, for any inner transport. *)

From Stdlib Require Import Strings.Byte.
From S2P Require Import Prelude Errors GoMonad Wire Types Transport.

Definition DefaultMaxResponseBytes : Z := 104857600.

Record budgetTransport (T : Type) := mkBudget { bt_inner : T; bt_limit : Z; bt_read : Z }.
Arguments mkBudget {T}. Arguments bt_inner {T}. Arguments bt_limit {T}. Arguments bt_read {T}.

(** [io.ByteReader] of the inner transport, when it has one. *)
Class ByteReader (T : Type) := { ReadByte_of : option (M T byte) }.

(** [io.ByteWriter] and [io.StringWriter], likewise. *)
Class ByteWriter (T : Type) := { WriteByte_of : option (byte -> M T unit) }.
Class StringWriter (T : Type) := { WriteString_of : option (string -> M T unit) }.
(** [thrift.PropagateTConfiguration], for some configuration. *)
Class Configurable (C T : Type) := { PropagateTConfiguration : C -> T -> T }.

Section budget.
Context {T : Type} {TT : TTransport T} {BR : ByteReader T}.
Implicit Types b : budgetTransport T.

Definition newBudgetTransport (t : T) (limit : Z) : budgetTransport T :=
  mkBudget t (if limit <=? 0 then DefaultMaxResponseBytes else limit) 0.

Definition maxMessageSize (limit : Z) : Z :=
  int32 (Z.min (if limit <=? 0 then DefaultMaxResponseBytes else limit) MaxInt32).

Definition errTooLarge b : goerr :=
  let text := "hms: response exceeds " +:+ Itoa (bt_limit b) +:+ " bytes (see WithMaxResponseBytes)" in
  EProtocol text (Some (EText text)).

Definition advance (t : T) (n : Z) b : budgetTransport T := mkBudget t (bt_limit b) (int64 (bt_read b + n)).

(** [Read(p)] with [n = len(p)]. *)
Definition Read (n : nat) b : budgetTransport T * (bytes * option goerr) :=
  let left := bt_limit b - bt_read b in
  if left <=? 0 then (b, ([], Some (errTooLarge b)))
  else
    let n := if left <? Z.of_nat n then Z.to_nat left else n in
    let '(t, (p, err)) := t_Read n (bt_inner b) in
    (advance t (Z.of_nat (length p)) b, (p, err)).

Definition ReadByte (fuel : nat) : MF (budgetTransport T) byte := fun b =>
  if bt_limit b <=? bt_read b then Some (b, inl (errTooLarge b))
  else
    match ReadByte_of (T := T) with
    | None =>
        match ReadFull fuel 1 [] (bt_inner b) with
        | None => None
        | Some (t, inr p) => Some (advance t 1 b, inr (hd x00 p))
        | Some (t, inl e) => Some (advance t 0 b, inl e)
        end
    | Some read =>
        match read (bt_inner b) with
        | (t, inr c) => Some (advance t 1 b, inr c)
        | (t, inl e) => Some (advance t 0 b, inl e)
        end
    end.

Definition Flush : M (budgetTransport T) unit := fun b =>
  let '(t, r) := t_Flush (bt_inner b) in (mkBudget t (bt_limit b) 0, r).

(** The embedded transport's own methods. *)
Definition through {A} (m : M T A) : M (budgetTransport T) A := fun b =>
  let '(t, r) := m (bt_inner b) in (mkBudget t (bt_limit b) (bt_read b), r).

Definition WriteByte {BW : ByteWriter T} (c : byte) : M (budgetTransport T) unit :=
  match WriteByte_of with
  | Some write => through (write c)
  | None => through (t_Write [c])
  end.

(** [io.WriteString] *)
Definition WriteString {SW : StringWriter T} (s : string) : M (budgetTransport T) unit :=
  match WriteString_of with
  | Some write => through (write s)
  | None => through (t_Write (String.list_byte_of_string s))
  end.

Definition SetTConfiguration {C} {CF : Configurable C T} (cfg : C) b : budgetTransport T :=
  mkBudget (PropagateTConfiguration cfg (bt_inner b)) (bt_limit b) (bt_read b).

(** [uint64] and [min] as in Go. *)
Definition RemainingBytes b : Z :=
  Z.min (Z.max (bt_limit b - bt_read b) 0) (t_RemainingBytes (bt_inner b)).
End budget.

(** ** The cap holds *)

(** A read of the reply: [Read] of so many bytes, or [ReadByte]. *)
Inductive read_op := OpRead (n : nat) | OpReadByte.

Section facts.
Context {T : Type} {TT : TTransport T} {BR : ByteReader T}.
(** [io.Reader]'s contract. *)
Hypothesis reader : forall n t, (length (fst (snd (t_Read n t))) <= n)%nat.
Implicit Types b : budgetTransport T.

(** The bytes one operation returned, and what it leaves. *)
Definition step (fuel : nat) (o : read_op) b : option (budgetTransport T * bytes) :=
  match o with
  | OpRead n => let '(b, (p, _)) := Read n b in Some (b, p)
  | OpReadByte => match ReadByte fuel b with
                  | Some (b, inr c) => Some (b, [c])
                  | Some (b, inl _) => Some (b, [])
                  | None => None
                  end
  end.

Fixpoint read_ops (fuel : nat) (ops : list read_op) b : option (budgetTransport T * bytes) :=
  match ops with
  | [] => Some (b, [])
  | o :: ops =>
      match step fuel o b with
      | Some (b, p) => match read_ops fuel ops b with Some (b, q) => Some (b, p ++ q) | None => None end
      | None => None
      end
  end.

(** Within a limit of int64 range. *)
Definition within b : Prop := 0 <= bt_read b <= bt_limit b /\ in_int64 (bt_limit b).

Lemma advance_within t n b : within b -> 0 <= n -> bt_read b + n <= bt_limit b ->
  bt_read (advance t n b) = bt_read b + n /\ within (advance t n b).
Proof.
  intros [H1 H2] Hn Hl. unfold within, advance; simpl.
  rewrite int64_id by (unfold in_int64, MinInt64, MaxInt64 in *; lia). split_and!; [done|lia|lia|done..].
Qed.

Lemma step_within fuel o b b' p : within b -> step fuel o b = Some (b', p) ->
  within b' /\ bt_limit b' = bt_limit b /\ bt_read b' = bt_read b + Z.of_nat (length p).
Proof using reader.
  intros Hb. destruct o as [n|]; cbn [step].
  - unfold Read. destruct (Z.leb_spec (bt_limit b - bt_read b) 0).
    { intros [= <- <-]. simpl. split_and!; [done|done|lia]. }
    set (m := if bt_limit b - bt_read b <? Z.of_nat n then Z.to_nat (bt_limit b - bt_read b) else n).
    assert (Z.of_nat m <= bt_limit b - bt_read b) as Hm.
    { unfold m. destruct (Z.ltb_spec (bt_limit b - bt_read b) (Z.of_nat n)); lia. }
    pose proof (reader m (bt_inner b)) as Hr. destruct (t_Read m (bt_inner b)) as [t [q e]] eqn:Et. rewrite ?Et in Hr. simpl in Hr.
    intros [= <- <-]. destruct (advance_within t (Z.of_nat (length q)) b Hb) as [-> Hw]; [lia|lia|].
    by split_and!.
  - unfold ReadByte. destruct (Z.leb_spec (bt_limit b) (bt_read b)).
    { intros [= <- <-]. simpl. split_and!; [done|done|lia]. }
    assert (forall t, bt_read (advance t 1 b) = bt_read b + 1 /\ within (advance t 1 b)) as H1
      by (intros t; apply advance_within; [done|lia|lia]).
    assert (forall t, bt_read (advance t 0 b) = bt_read b + 0 /\ within (advance t 0 b)) as H0
      by (intros t; apply advance_within; [done|lia|lia]).
    destruct (ReadByte_of (T := T)) as [read|].
    + destruct (read (bt_inner b)) as [t [e|c]]; intros [= <- <-];
        [destruct (H0 t) as [-> ?]|destruct (H1 t) as [-> ?]]; by split_and!.
    + destruct (ReadFull fuel 1 [] (bt_inner b)) as [[t [e|q]]|]; [| |done]; intros [= <- <-];
        [destruct (H0 t) as [-> ?]|destruct (H1 t) as [-> ?]]; by split_and!.
Qed.

Lemma read_ops_within fuel ops : forall b b' p, within b -> read_ops fuel ops b = Some (b', p) ->
  within b' /\ bt_limit b' = bt_limit b /\ bt_read b' = bt_read b + Z.of_nat (length p).
Proof using reader.
  induction ops as [|o ops IH]; intros b b' p Hb; cbn [read_ops].
  - intros [= <- <-]. simpl. split_and!; [done|done|lia].
  - destruct (step fuel o b) as [[b1 q]|] eqn:Es; [|done].
    destruct (read_ops fuel ops b1) as [[b2 q2]|] eqn:Er; [|done]. intros [= <- <-].
    destruct (step_within _ _ _ _ _ Hb Es) as (H1 & H2 & H3).
    destruct (IH _ _ _ H1 Er) as (H4 & H5 & H6). split_and!; [done|congruence|]. rewrite length_app. lia.
Qed.
End facts.

(** C39: a reply can never take more than its budget: from a Flush on, whatever
    mix of Read and ReadByte the protocol makes and whatever the server streams,
    the bytes handed out never exceed the limit; at the limit every further read
    fails with the size error and does not touch the connection; below it a read
    that fits is exactly the inner transport's; RemainingBytes never promises more
    than is left; and the next Flush restores the whole budget. *)
Theorem budget_enforced {T} {TT : TTransport T} {BR : ByteReader T} fuel ops t limit t0 read0 b p :
  (forall n t, (length (fst (snd (t_Read n t))) <= n)%nat) ->
  0 < limit <= MaxInt64 ->
  t_Flush t0 = (t, inr tt) ->
  read_ops fuel ops (fst (Flush (mkBudget t0 limit read0))) = Some (b, p) ->
  let left := limit - Z.of_nat (length p) in
  0 <= left /\ bt_limit b = limit /\ RemainingBytes b <= left /\
  (if left =? 0
   then (forall n, Read n b = (b, ([], Some (errTooLarge b)))) /\ ReadByte fuel b = Some (b, inl (errTooLarge b))
   else forall n, Z.of_nat n <= left ->
     snd (Read n b) = snd (t_Read n (bt_inner b)) /\ bt_inner (fst (Read n b)) = fst (t_Read n (bt_inner b))) /\
  bt_read (fst (Flush b)) = 0.
Proof.
  intros Hrd Hl Hf Hr left. unfold Flush in Hr at 1. cbn [bt_inner bt_limit] in Hr. rewrite Hf in Hr. cbn [fst] in Hr.
  destruct (read_ops_within Hrd fuel ops (mkBudget t limit 0) b p) as ([H1 H2] & H3 & H4); [|done|].
  { unfold within; simpl. unfold in_int64, MinInt64, MaxInt64 in *. lia. }
  cbn [bt_limit bt_read] in H3, H4. split_and!.
  - lia.
  - done.
  - unfold RemainingBytes. lia.
  - unfold left. destruct (Z.eqb_spec (limit - Z.of_nat (length p)) 0) as [He|He].
    + unfold Read, ReadByte. destruct (Z.leb_spec (bt_limit b - bt_read b) 0); [|lia].
      destruct (Z.leb_spec (bt_limit b) (bt_read b)); [done|lia].
    + intros n Hn. unfold Read. destruct (Z.leb_spec (bt_limit b - bt_read b) 0); [lia|].
      destruct (Z.ltb_spec (bt_limit b - bt_read b) (Z.of_nat n)); [lia|].
      by destruct (t_Read n (bt_inner b)) as [t1 [q e]].
  - unfold Flush. by destruct (t_Flush (bt_inner b)).
Qed.

Definition no_byte_reader : ByteReader stream := {| ReadByte_of := None |}.

Lemma stream_reader n (t : stream) : (length (fst (snd (t_Read n t))) <= n)%nat.
Proof.
  simpl. unfold stream_read. destruct n as [|n]; [simpl; lia|]. destruct (s_in t) as [|x l]; [simpl; lia|].
  cbn [fst snd]. rewrite length_take. lia.
Qed.

Example budget_enforced_witness :
  let t := mkStream [x01; x02; x03; x04] [9%nat; 9%nat] [] true in
  match @read_ops stream _ no_byte_reader 5 [OpReadByte; OpRead 10] (fst (Flush (mkBudget t 3 0))) with
  | Some (b, p) => p = [x01; x02; x03] /\ Read 10 b = (b, ([], Some (errTooLarge b)))
  | None => False
  end.
Proof.
  cbn zeta. set (t := mkStream [x01; x02; x03; x04] [9%nat; 9%nat] [] true).
  destruct (@read_ops stream _ no_byte_reader 5 [OpReadByte; OpRead 10] (fst (Flush (mkBudget t 3 0)))) as [[b p]|] eqn:E;
    [|vm_compute in E; discriminate E].
  destruct (@budget_enforced stream _ no_byte_reader 5 [OpReadByte; OpRead 10] t 3 t 0 b p stream_reader)
    as (_ & _ & _ & H & _); [split; [reflexivity|discriminate]|reflexivity|exact E|].
  assert (option_map snd (Some (b, p)) = Some [x01; x02; x03]) as Hp by (rewrite <- E; vm_compute; reflexivity).
  injection Hp as ->.
  split; [reflexivity|]. exact (proj1 H 10%nat).
Defined.
