(* ===== verification/Dial.v ===== *)
(** * Dial: internal/transport/binary.go, and how conn.go configures it

    [DialBinary] over the socket's operations ([GoNet]), thrift's TSocket (a
    [TTransport] over the same world) and gokrb5. The socket of one dial is part of
    the world [W]; the KDC's side of it, [KW], is the Kerberos mechanism's. *)

From Stdlib Require Import Strings.Byte.
From S2P Require Import Prelude Errors GoMonad Wire Options Types Uri Transport Sasl SaslFacts Krb Gssapi GssFacts Deadline Budget.

(** ** Configuration *)

(** [tls.Config]: the two fields read here, and the rest. *)
Record tlsConfig := mkTLS { tls_ServerName : string; tls_InsecureSkipVerify : bool; tls_rest : string }.

Record BinaryConfig := mkBinaryConfig {
  bc_Timeout : Z; bc_ConnectTimeout : Z; bc_TLS : option tlsConfig; bc_PlainUser : string; bc_PlainPassword : string;
  bc_Kerberos : option KerberosConfig; bc_MaxResponseBytes : Z;
}.

(** conn.go: krbConfig, given the client's session. *)
Definition krbConfig (cfg : config) (session : option KerberosSession) : option KerberosConfig :=
  if negb (cfg_kerberos cfg) then None
  else Some (mkKrbConfig (cfg_krbPrincipal cfg) (cfg_krbKeytab cfg) (cfg_krbCCache cfg) (cfg_krbConf cfg)
               (cfg_krbService cfg) session).

(** conn.go, newConn: the literal passed to DialBinary; [tls_of] is the object a
    *tls.Config points to. *)
Definition binaryConfig (tls_of : string -> tlsConfig) (cfg : config) (session : option KerberosSession) : BinaryConfig := {|
  bc_Timeout := cfg_timeout cfg; bc_ConnectTimeout := cfg_connectTimeout cfg;
  bc_TLS := tls_of <$> cfg_tlsConfig cfg; bc_PlainUser := cfg_plainUser cfg; bc_PlainPassword := cfg_plainPassword cfg;
  bc_Kerberos := krbConfig cfg session; bc_MaxResponseBytes := cfg_maxResponseBytes cfg |}.

(** ** The socket's operations *)

(** [net.Dialer{Timeout}.DialContext], [tls.Client] and [HandshakeContext] under a
    timeout, [SetDeadline], [Close], [context.AfterFunc] moving the deadline and its
    [stop], the clock, and the caller's context. *)
Class GoNet (W : Type) := {
  n_ctxDeadline : option Z;
  n_ctxErr : W -> option goerr;
  n_now : W -> Z;
  n_Dial : Z -> string -> M W unit;
  n_Handshake : tlsConfig -> option Z -> M W unit;
  n_SetDeadline : option Z -> W -> W;
  n_Close : W -> W;
  n_AfterFunc : W -> W;
  n_stop : W -> W;
}.

(** [thrift.TConfiguration] *)
Record TConfiguration := mkTConfiguration { SocketTimeout : Z; ConnectTimeout : Z; MaxMessageSize : Z }.

(** [thrift.NewTBufferedTransport] *)
Record buffered (T : Type) := mkBuffered { bf_inner : T; bf_size : Z }.
Arguments mkBuffered {T}. Arguments bf_inner {T}. Arguments bf_size {T}.

Definition bufferSize : Z := 8192.

Definition exclusive : goerr := EText "hms: WithPlainAuth and WithKerberos are mutually exclusive".

(** The ServerName a TLS connection verifies. *)
Definition tlsFor (hostPort : string) (tls : tlsConfig) : tlsConfig :=
  if String.eqb (tls_ServerName tls) "" && negb (tls_InsecureSkipVerify tls) then
    let host := match SplitHostPort hostPort with inr (host, _) => host | inl _ => hostPort end in
    mkTLS host (tls_InsecureSkipVerify tls) (tls_rest tls)
  else tls.

Section dial.
Context {W KW : Type} {NET : GoNet W} {TT : TTransport W} {KR : GoKrb5 KW} {AG : AppendGrowth} (quote : bytes -> string).
Local Abbreviation Mech := (gssapiMech KW Identity).

(** The transport below the buffer. *)
Inductive transport :=
  | TSocket (w : W)
  | TPlain (s : saslTransport W plainMech)
  | TKerberos (s : saslTransport W Mech).

Definition world_of (t : transport) : W :=
  match t with TSocket w => w | TPlain s => sa_inner s | TKerberos s => sa_inner s end.

Record Conn := mkConn { cn_trans : budgetTransport (buffered transport); cn_tcfg : TConfiguration; cn_timeout : Z }.

(** A failed dial, with what it leaves, or a connection. *)
Inductive dialed := Failed (t : transport) (err : goerr) | Dialed (c : Conn).

(** ** The steps *)

(** Dialing, then TLS; the socket of a failed TLS handshake is closed. *)
Definition secure (hostPort : string) (cfg : BinaryConfig) : M W unit := fun w =>
  match bc_TLS cfg with
  | None => (w, inr tt)
  | Some tls =>
      let timeout := if 0 <? bc_ConnectTimeout cfg then Some (bc_ConnectTimeout cfg) else None in
      match n_Handshake (tlsFor hostPort tls) timeout w with
      | (w, inl err) => (n_Close w, inl err)
      | (w, inr _) => (w, inr tt)
      end
  end.

(** The SASL handshake, bound to the caller's context. *)
Definition handshake {K} {KM : saslMech K} (fuel : nat) (connectTimeout : Z) (s : saslTransport W K) :
    option (saslTransport W K * option goerr) :=
  let w := sa_inner s in
  let deadline := use_deadline (mkUse false n_ctxDeadline connectTimeout) (n_now w) in
  let w := match deadline with Some _ => n_SetDeadline deadline w | None => w end in
  match OpenContext quote fuel (set_inner (n_AfterFunc w) s) with
  | None => None
  | Some (s, r) =>
      let w := n_SetDeadline None (n_stop (sa_inner s)) in
      match r with
      | inr _ => Some (set_inner w s, None)
      | inl err =>
          let w := n_Close w in
          Some (set_inner w s, Some (match n_ctxErr w with Some e => e | None => err end))
      end
  end.

Definition finish (cfg : BinaryConfig) (tcfg : TConfiguration) (t : transport) (err : option goerr) : dialed :=
  match err with
  | Some err => Failed t err
  | None => Dialed (mkConn (newBudgetTransport (mkBuffered t bufferSize) (bc_MaxResponseBytes cfg)) tcfg (bc_Timeout cfg))
  end.

(** What follows the dial and TLS: the mechanism and its handshake. [kw] and [zero]
    are the world and the zero authenticator of a new mechanism. *)
Definition authenticate (fuel : nat) (kw : KW) (zero : Authenticator Identity) (hostPort : string) (cfg : BinaryConfig)
    (w : W) : option dialed :=
  let tcfg := mkTConfiguration 0 (bc_ConnectTimeout cfg) (maxMessageSize (bc_MaxResponseBytes cfg)) in
  match bc_Kerberos cfg with
  | Some k =>
      match NewSaslGSSAPI w hostPort (kc_ServicePrincipal k) (kc_Session k) kw zero with
      | inl err => Some (Failed (TSocket (n_Close w)) err)
      | inr s =>
          '(s, err) ← handshake (KM := gss_mech) fuel (bc_ConnectTimeout cfg) s;
          Some (finish cfg tcfg (TKerberos s) err)
      end
  | None =>
      if negb (String.eqb (bc_PlainUser cfg) "") then
        '(s, err) ← handshake fuel (bc_ConnectTimeout cfg) (NewSaslPlain w (bc_PlainUser cfg) (bc_PlainPassword cfg));
        Some (finish cfg tcfg (TPlain s) err)
      else Some (finish cfg tcfg (TSocket w) None)
  end.

Definition DialBinary (fuel : nat) (kw : KW) (zero : Authenticator Identity) (hostPort : string) (cfg : BinaryConfig)
    (w : W) : option dialed :=
  if negb (String.eqb (bc_PlainUser cfg) "") && bool_decide (is_Some (bc_Kerberos cfg))
  then Some (Failed (TSocket w) exclusive)
  else
    match n_Dial (bc_ConnectTimeout cfg) hostPort w with
    | (w, inl err) => Some (Failed (TSocket w) err)
    | (w, inr _) =>
        match secure hostPort cfg w with
        | (w, inl err) => Some (Failed (TSocket w) err)
        | (w, inr _) => authenticate fuel kw zero hostPort cfg w
        end
    end.
End dial.
Arguments TSocket {W KW KR}. Arguments TPlain {W KW KR}. Arguments TKerberos {W KW KR}.
Arguments Failed {W KW KR}. Arguments Dialed {W KW KR}.
Arguments world_of {W KW KR}. Arguments cn_trans {W KW KR}. Arguments cn_tcfg {W KW KR}. Arguments cn_timeout {W KW KR}.

(** ** What a dial leaves *)

Lemma maxMessageSize_value limit :
  let l := if limit <=? 0 then DefaultMaxResponseBytes else limit in
  maxMessageSize limit = Z.min l MaxInt32 /\ 0 < maxMessageSize limit <= l.
Proof.
  unfold maxMessageSize, DefaultMaxResponseBytes, MaxInt32. destruct (Z.leb_spec limit 0);
    rewrite int32_id by (unfold in_int32, MinInt32, MaxInt32; lia); lia.
Qed.

Lemma tlsFor_verifies hostPort tls h p : SplitHostPort hostPort = inr (h, p) -> h <> EmptyString ->
  tls_InsecureSkipVerify (tlsFor hostPort tls) = tls_InsecureSkipVerify tls /\
  (tls_InsecureSkipVerify tls = false ->
   tls_ServerName (tlsFor hostPort tls) = (if String.eqb (tls_ServerName tls) "" then h else tls_ServerName tls)).
Proof.
  intros Hs Hh. unfold tlsFor. rewrite Hs. destruct (String.eqb (tls_ServerName tls) "");
    destruct (tls_InsecureSkipVerify tls) eqn:E; simpl; by rewrite ?E.
Qed.

Section facts.
Context {W KW : Type} {NET : GoNet W} {TT : TTransport W} {KR : GoKrb5 KW} {AG : AppendGrowth} (quote : bytes -> string).

(** The socket after the handshake: deadline clear, and closed if it failed. *)
Definition shaken {K} {KM : saslMech K} (s : saslTransport W K) (err : option goerr) : Prop :=
  exists w, match err with
            | None => sa_inner s = n_SetDeadline None (n_stop w) /\ sa_open s = true /\ Sasl.Complete (sa_mech s) = true
            | Some e => sa_inner s = n_Close (n_SetDeadline None (n_stop w)) /\
                        (forall ce, n_ctxErr (sa_inner s) = Some ce -> e = ce)
            end.

Lemma handshake_shaken {K} {KM : saslMech K} fuel timeout (s s' : saslTransport W K) err :
  handshake quote fuel timeout s = Some (s', err) -> shaken s' err.
Proof.
  unfold handshake. destruct (OpenContext _ _ _) as [[s1 r]|] eqn:E; [|done]. apply OpenContext_opens in E.
  destruct r as [e|[]]; intros [= <- <-]; exists (sa_inner s1); simpl.
  - split; [done|]. by intros ce ->.
  - by destruct E.
Qed.

(** The three ways to authenticate. *)
Definition authenticated_as (cfg : BinaryConfig) (t : transport (W := W) (KW := KW)) : Prop :=
  match t with
  | TSocket _ => bc_Kerberos cfg = None /\ bc_PlainUser cfg = EmptyString
  | TPlain s => bc_Kerberos cfg = None /\ bc_PlainUser cfg <> EmptyString /\ shaken s None
  | TKerberos s => is_Some (bc_Kerberos cfg) /\ bc_PlainUser cfg = EmptyString /\ shaken (KM := gss_mech) s None
  end.

(** A failure past the dial: the socket is closed last, and a finished context's
    error replaces a failed handshake's. *)
Definition closed_with (t : transport (W := W) (KW := KW)) (e : goerr) : Prop :=
  exists w, world_of t = n_Close w /\
    match t with TSocket _ => True | _ => forall ce, n_ctxErr (world_of t) = Some ce -> e = ce end.

Lemma shaken_closed {K} {KM : saslMech K} (s : saslTransport W K) (t : transport) e :
  shaken s (Some e) -> world_of t = sa_inner s -> closed_with t e.
Proof.
  intros (w & Hs & Hc) Hw. exists (n_SetDeadline None (n_stop w)). rewrite Hw. split; [done|].
  by destruct t.
Qed.

Lemma authenticate_outcome fuel kw zero hostPort cfg w r :
  bc_PlainUser cfg = EmptyString \/ bc_Kerberos cfg = None ->
  authenticate quote fuel kw zero hostPort cfg w = Some r ->
  match r with
  | Failed t e => closed_with t e
  | Dialed c => authenticated_as cfg (bf_inner (bt_inner (cn_trans c))) /\
                bt_read (cn_trans c) = 0 /\ cn_timeout c = bc_Timeout cfg /\ SocketTimeout (cn_tcfg c) = 0 /\
                MaxMessageSize (cn_tcfg c) <= bt_limit (cn_trans c)
  end.
Proof.
  intros Hx. unfold authenticate. destruct (bc_Kerberos cfg) as [k|] eqn:Ek.
  - destruct (NewSaslGSSAPI _ _ _ _ _ _) as [e|s] eqn:En; [intros [= <-]; by exists w|].
    destruct (handshake _ _ _ _) as [[s' err]|] eqn:Eh; [|done]. intros [= <-].
    apply handshake_shaken in Eh. destruct err as [e|].
    + by apply (shaken_closed (KM := gss_mech) s').
    + simpl. destruct Hx; [|done]. split_and!; try done. apply maxMessageSize_value.
  - destruct (String.eqb_spec (bc_PlainUser cfg) "") as [Hp|Hp]; simpl.
    + intros [= <-]. simpl. split_and!; try done. apply maxMessageSize_value.
    + destruct (handshake _ _ _ _) as [[s' err]|] eqn:Eh; [|done]. intros [= <-].
      apply handshake_shaken in Eh. destruct err as [e|].
      * by apply (shaken_closed s').
      * simpl. split_and!; try done. apply maxMessageSize_value.
Qed.

(** C7: DialBinary never leaks a socket and never hands out a half-open one. When it
    fails, either both identities were configured and nothing was dialed, or the dial
    itself failed with that error, or the socket was dialed and closing it is the last
    thing done to it (and a handshake that failed under a finished context reports that
    context's error). When it succeeds, a TLS handshake was made if one was asked for,
    the transport is the one the configured identity calls for, a SASL handshake has
    completed on both sides and left the deadline cleared for ContextClient, thrift's
    own timeout is off, and no single string may exceed the reply's budget. *)
Theorem dial_leaves_no_socket fuel kw zero hostPort cfg w r :
  DialBinary quote fuel kw zero hostPort cfg w = Some r ->
  match r with
  | Failed t e =>
      (bc_PlainUser cfg <> EmptyString /\ is_Some (bc_Kerberos cfg) /\ t = TSocket w /\ e = exclusive) \/
      (exists w', n_Dial (bc_ConnectTimeout cfg) hostPort w = (w', inl e) /\ t = TSocket w') \/
      (exists w', n_Dial (bc_ConnectTimeout cfg) hostPort w = (w', inr tt) /\ closed_with t e)
  | Dialed c =>
      let t := bf_inner (bt_inner (cn_trans c)) in
      (exists w', n_Dial (bc_ConnectTimeout cfg) hostPort w = (w', inr tt) /\
         forall tls, bc_TLS cfg = Some tls -> exists timeout w'', n_Handshake (tlsFor hostPort tls) timeout w' = (w'', inr tt)) /\
      authenticated_as cfg t /\
      bt_read (cn_trans c) = 0 /\ cn_timeout c = bc_Timeout cfg /\ SocketTimeout (cn_tcfg c) = 0 /\
      MaxMessageSize (cn_tcfg c) <= bt_limit (cn_trans c)
  end.
Proof.
  unfold DialBinary. intros H.
  destruct (negb (String.eqb (bc_PlainUser cfg) "") && bool_decide (is_Some (bc_Kerberos cfg))) eqn:Ex.
  { injection H as <-. apply andb_true_iff in Ex as [Hp Hk]. apply bool_decide_eq_true in Hk. left.
    split_and!; try done. by destruct (String.eqb_spec (bc_PlainUser cfg) ""). }
  assert (bc_PlainUser cfg = EmptyString \/ bc_Kerberos cfg = None) as Hx.
  { destruct (String.eqb_spec (bc_PlainUser cfg) ""); [by left|right]. by destruct (bc_Kerberos cfg); [|]. }
  clear Ex. destruct (n_Dial _ _ w) as [w1 [e|[]]] eqn:Ed; [injection H as <-; right; left; eauto|].
  unfold secure in H. destruct (bc_TLS cfg) as [tls|] eqn:Et.
  1: destruct (n_Handshake _ _ w1) as [w2 [e|[]]] eqn:Eh;
       [injection H as <-; right; right; exists w1; split; [done|by exists w2]|].
  all: pose proof (authenticate_outcome _ _ _ _ _ _ _ Hx H) as Ho; destruct r as [t e|c];
    [right; right; by exists w1|]; destruct Ho as (Ha & Hr); cbv zeta; split; [|done]; exists w1; split; [done|].
  - intros ? [= <-]. eauto.
  - done.
Qed.
End facts.

(** ** A network *)

Module Net.
Inductive event := EvDial (addr : string) | EvTLS (name : string) | EvDeadline (d : option Z) | EvArm | EvStop | EvClose.

(** The peer's bytes, whether the caller's context is done, and what was done to
    the socket, latest first. *)
Record net := mkNet { nt_peer : stream; nt_ctx : option goerr; nt_log : list event }.

Definition add (e : event) (n : net) : net := mkNet (nt_peer n) (nt_ctx n) (e :: nt_log n).
Definition on_peer {A} (f : stream -> stream * A) (n : net) : net * A :=
  let '(s, a) := f (nt_peer n) in (mkNet s (nt_ctx n) (nt_log n), a).

#[export] Instance trans : TTransport net := {|
  t_Read := fun k => on_peer (t_Read k);
  t_Write := fun b => on_peer (t_Write b);
  t_Flush := ret tt;
  t_IsOpen := fun _ => true;
  t_Open := ret tt;
  t_Close := fun n => (add EvClose n, inr tt);
  t_RemainingBytes := fun _ => 2 ^ 64 - 1 |}.

#[export] Instance ops : GoNet net := {|
  n_ctxDeadline := None;
  n_ctxErr := nt_ctx;
  n_now := fun _ => 100;
  n_Dial := fun _ addr n => if String.eqb addr "down:1" then (n, inl (EText "refused")) else (add (EvDial addr) n, inr tt);
  n_Handshake := fun tls _ n =>
    (add (EvTLS (tls_ServerName tls)) n, if String.eqb (tls_rest tls) "untrusted" then inl (ETLS "unknown authority") else inr tt);
  n_SetDeadline := fun d => add (EvDeadline d);
  n_Close := add EvClose;
  n_AfterFunc := add EvArm;
  n_stop := add EvStop |}.

Definition cfg (user : string) (tls : option string) : BinaryConfig :=
  mkBinaryConfig 30 10 (mkTLS "" false <$> tls) user "secret" None 0.
Definition peer (server : bytes) (ctx : option goerr) : net := mkNet (mkStream server [2; 0; 40]%nat [] true) ctx [].
End Net.

#[local] Existing Instance Net.trans.
#[local] Existing Instance Net.ops.
Local Abbreviation net_dial := (DialBinary (KR := Toy.krb) (AG := demo_growth) (fun _ => "no") 20 tt (mkAuth tt (mkChecksum 0 []) 0 0 0)).

Definition net_log {KW} {KR : GoKrb5 KW} (c : Conn (W := Net.net) (KW := KW)) : list Net.event :=
  Net.nt_log (world_of (bf_inner (bt_inner (cn_trans c)))).
Lemma dialed_log {KW} {KR : GoKrb5 KW} (r : option (dialed (W := Net.net) (KW := KW))) l :
  match r with Some (Dialed c) => Some (net_log c) | _ => None end = Some l ->
  exists c, r = Some (Dialed c) /\ net_log c = l.
Proof. destruct r as [[?|c]|]; [done| |done]. intros [= <-]. by exists c. Qed.

Example dial_leaves_no_socket_witness :
  exists c, net_dial "ms:9083" (Net.cfg "me" (Some "ca")) (Net.peer (negotiation_frame saslComplete [] ++ [x01]) None) = Some (Dialed c) /\
    authenticated_as (KR := Toy.krb) (Net.cfg "me" (Some "ca")) (bf_inner (bt_inner (cn_trans c))) /\
    MaxMessageSize (cn_tcfg c) <= bt_limit (cn_trans c) /\
    net_log c = [Net.EvDeadline None; Net.EvStop; Net.EvArm; Net.EvDeadline (Some 110); Net.EvTLS "ms"; Net.EvDial "ms:9083"].
Proof.
  destruct (dialed_log (net_dial "ms:9083" (Net.cfg "me" (Some "ca")) (Net.peer (negotiation_frame saslComplete [] ++ [x01]) None))
              [Net.EvDeadline None; Net.EvStop; Net.EvArm; Net.EvDeadline (Some 110); Net.EvTLS "ms"; Net.EvDial "ms:9083"])
    as (c & E & Hl); [vm_compute; reflexivity|].
  exists c. split; [exact E|].
  destruct (dial_leaves_no_socket (KR := Toy.krb) (AG := demo_growth) _ _ _ _ _ _ _ _ E) as (_ & Ha & _ & _ & _ & Hm).
  split; [exact Ha|]. split; [exact Hm|exact Hl].
Defined.

(** Each way to fail, with what was done to the socket. *)
Example dial_failures :
  let out r := match r with Some (Failed t e) => (Net.nt_log (world_of t), error_text e) | _ => ([], "?") end in
  let dial cfg peer := out (net_dial "ms:9083" cfg peer) in
  out (net_dial "down:1" (Net.cfg "me" None) (Net.peer [] None)) = ([], "refused") /\
  dial (mkBinaryConfig 30 10 None "me" "" (Some (mkKrbConfig "" "" "" "" "" None)) 0) (Net.peer [] None) =
    ([], "hms: WithPlainAuth and WithKerberos are mutually exclusive") /\
  dial (Net.cfg "" (Some "untrusted")) (Net.peer [] None) = ([Net.EvClose; Net.EvTLS "ms"; Net.EvDial "ms:9083"], error_text (ETLS "unknown authority")) /\
  dial (mkBinaryConfig 30 10 None "" "" (Some (mkKrbConfig "" "" "" "" "" None)) 0) (Net.peer [] None) =
    ([Net.EvClose; Net.EvDial "ms:9083"], "hms: kerberos: no session; build one with NewKerberosSession and set KerberosConfig.Session") /\
  dial (Net.cfg "me" None) (Net.peer (negotiation_frame saslBad [x6e; x6f]) None) =
    ([Net.EvClose; Net.EvDeadline None; Net.EvStop; Net.EvArm; Net.EvDeadline (Some 110); Net.EvDial "ms:9083"],
     "hms: sasl PLAIN rejected: no") /\
  snd (dial (Net.cfg "me" None) (Net.peer (negotiation_frame saslBad [x6e; x6f]) (Some ECanceled))) = error_text ECanceled.
Proof. vm_compute. by split_and!. Qed.
