(* ===== verification/Http.v ===== *)
(** * Http: internal/transport/http.go and version.go

    Requests carry one value per header; reply bodies are capped. thrift's
    THttpClient is a class; net/http's Header, and its key canonicalization, are
    modelled. *)

From Stdlib Require Import Strings.Byte.
From S2P Require Import Prelude Errors GoMonad Wire Options Types Uri Transport Thrift Budget Dial.

(** ** net/http *)

Section canonical.
Local Open Scope N_scope.

Definition is_upper (c : ascii) : bool := let n := N_of_ascii c in (65 <=? n) && (n <=? 90).
Definition is_lower (c : ascii) : bool := let n := N_of_ascii c in (97 <=? n) && (n <=? 122).
Definition is_digit (c : ascii) : bool := let n := N_of_ascii c in (48 <=? n) && (n <=? 57).
(** [!#$%&'*+-.^_`|~] *)
Definition is_tchar_mark (c : ascii) : bool :=
  existsb (N.eqb (N_of_ascii c)) [33; 35; 36; 37; 38; 39; 42; 43; 45; 46; 94; 95; 96; 124; 126].
Definition validHeaderFieldByte (c : ascii) : bool := is_upper c || is_lower c || is_digit c || is_tchar_mark c.
Definition to_upper (c : ascii) : ascii := if is_lower c then ascii_of_N (N_of_ascii c - 32) else c.
Definition to_lower (c : ascii) : ascii := if is_upper c then ascii_of_N (N_of_ascii c + 32) else c.

Fixpoint canonicalize (upper : bool) (s : string) : string :=
  match s with
  | EmptyString => EmptyString
  | String c s => String (if upper then to_upper c else to_lower c) (canonicalize (N.eqb (N_of_ascii c) 45) s)
  end.
End canonical.

(** [textproto.CanonicalMIMEHeaderKey] *)
Definition canonicalKey (s : string) : string :=
  if forallb validHeaderFieldByte (String.list_ascii_of_string s) then canonicalize true s else s.

(** [http.Header], by canonical key. *)
Local Abbreviation header := (gmap string (list string)).
Definition Header_Add (k v : string) (h : header) : header :=
  <[canonicalKey k := default [] (h !! canonicalKey k) ++ [v]]> h.
Definition Header_Del (k : string) (h : header) : header := delete (canonicalKey k) h.

(** ** thrift.THttpClient *)

(** [h_New url client] is NewTHttpClientWithOptions and the type assertion. *)
Class THttp (H C : Type) := {
  h_New : string -> C -> goerr + H;
  h_SetHeader : string -> string -> H -> H;
  h_DelHeader : string -> H -> H;
  h_Header : H -> header;
}.
(** [SetHeader] has Header.Add's semantics. *)
Class THttpLaws (H C : Type) {TH : THttp H C} := {
  h_Set_law k v h : h_Header (h_SetHeader k v h) = Header_Add k v (h_Header h);
  h_Del_law k h : h_Header (h_DelHeader k h) = Header_Del k (h_Header h);
}.

(** ** The HTTP client *)

(** What a client sends through: one of the caller's, http.DefaultTransport, its
    clone under a TLS configuration, or a [capBody]. *)
Inductive roundTripper :=
  | RTCaller (name : string) | RTDefault | RTClone (tls : option tlsConfig) | capBody (rt : roundTripper) (limit : Z).
Inductive redirectPolicy := refuseRedirect | CallerPolicy (name : string).

(** [http.Client]; its cookie jar is the rest. *)
Record httpClient := mkHttpClient {
  hc_Timeout : Z; hc_Transport : option roundTripper; hc_CheckRedirect : option redirectPolicy; hc_Jar : option string }.

Record HTTPConfig := mkHTTPConfig {
  ht_Client : option httpClient; ht_Timeout : Z; ht_TLS : option tlsConfig; ht_BearerToken : string; ht_User : string;
  ht_Headers : gomap string; ht_UserAgent : string; ht_MaxResponseBytes : Z }.

Definition responseCap (limit : Z) : Z :=
  let limit := if limit <=? 0 then DefaultMaxResponseBytes else limit in
  if limit =? MaxInt64 then limit else int64 (limit + 1).

Definition hardenClient (cfg : HTTPConfig) : httpClient :=
  let hc := match ht_Client cfg with
            | Some hc => hc
            | None => mkHttpClient (ht_Timeout cfg) (Some (RTClone (ht_TLS cfg))) None None
            end in
  let policy := match hc_CheckRedirect hc with None => refuseRedirect | Some p => p end in
  let rt := match hc_Transport hc with None => RTDefault | Some rt => rt end in
  mkHttpClient (hc_Timeout hc) (Some (capBody rt (responseCap (ht_MaxResponseBytes cfg)))) (Some policy) (hc_Jar hc).

(** The error of a refused redirect; [redacted] is [req.URL.Redacted()]. *)
Definition errRedirect : goerr := EText "hms: the metastore answered with a redirect, which is refused".
Definition refuse (redacted : string) : goerr :=
  EWrap (error_text errRedirect +:+ " (to " +:+ redacted +:+ ")") errRedirect.

(** [osUser] is [user.Current()]. *)
Definition userOrDefault (osUser : option string) (u : string) : string :=
  if negb (String.eqb u "") then u
  else match osUser with
       | Some name => if negb (String.eqb name "") then name else "hms-client-go"
       | None => "hms-client-go"
       end.

Section new.
Context {H : Type} {TH : THttp H httpClient} {MR : MapRange}.

Definition setHeader (k v : string) (h : H) : H := h_SetHeader k v (h_DelHeader k h).

(** The headers the library sets itself. *)
Definition defaults (osUser : option string) (cfg : HTTPConfig) : list (string * string) :=
  [("Content-Type", "application/x-thrift"); ("Accept", "application/x-thrift")] ++
  (if negb (String.eqb (ht_UserAgent cfg) "") then [("User-Agent", ht_UserAgent cfg)] else []) ++
  (if negb (String.eqb (ht_BearerToken cfg) "") then [("Authorization", "Bearer " +:+ ht_BearerToken cfg)]
   else [("x-actor-username", userOrDefault osUser (ht_User cfg))]).

Definition setHeaders (l : list (string * string)) (h : H) : H := fold_left (fun h kv => setHeader (fst kv) (snd kv) h) l h.

(** The connection: the transport below the protocol, and the largest string. *)
Definition NewHTTP (osUser : option string) (rawURL : string) (cfg : HTTPConfig) : goerr + (budgetTransport H * Z) :=
  match h_New rawURL (hardenClient cfg) with
  | inl err => inl err
  | inr h =>
      let h := setHeaders (defaults osUser cfg) h in
      let h := setHeaders (range (entries (ht_Headers cfg))) h in
      inr (newBudgetTransport h (ht_MaxResponseBytes cfg), maxMessageSize (ht_MaxResponseBytes cfg))
  end.
End new.

(** ** Capped bodies *)

(** [io.LimitReader(body, limit)], as a transport that only reads. *)
Record cappedBody (T : Type) := mkCapped { cb_Reader : T; cb_left : Z }.
Arguments mkCapped {T}. Arguments cb_Reader {T}. Arguments cb_left {T}.

Definition capped_read {T} {TT : TTransport T} (n : nat) (c : cappedBody T) : cappedBody T * (bytes * option goerr) :=
  if cb_left c <=? 0 then (c, ([], Some EEOF))
  else
    let n := if cb_left c <? Z.of_nat n then Z.to_nat (cb_left c) else n in
    let '(t, (p, err)) := t_Read n (cb_Reader c) in
    (mkCapped t (int64 (cb_left c - Z.of_nat (length p))), (p, err)).

#[export] Instance capped_transport {T} {TT : TTransport T} : TTransport (cappedBody T) :=
  let on {A} (m : M T A) : M (cappedBody T) A := fun c =>
    let '(t, r) := m (cb_Reader c) in (mkCapped t (cb_left c), r) in
  {| t_Read := capped_read;
     t_Write := fun b => on (t_Write b); t_Flush := on t_Flush; t_IsOpen := fun c => t_IsOpen (cb_Reader c);
     t_Open := on t_Open; t_Close := on t_Close; t_RemainingBytes := fun c => t_RemainingBytes (cb_Reader c) |}.

(** [capBody.RoundTrip], on the body a round trip answers with. *)
Definition RoundTrip {T W} (rt : W -> W * (goerr + option T)) (limit : Z) (w : W) : W * (goerr + option (cappedBody T)) :=
  match rt w with
  | (w, inl err) => (w, inl err)
  | (w, inr body) => (w, inr ((fun b => mkCapped b limit) <$> body))
  end.

(** ** version.go *)

(** [debug.BuildInfo]: the main module's path and version, and the dependencies'. *)
Record BuildInfo := mkBuildInfo { bi_Main : string * string; bi_Deps : list (string * string) }.

Definition modulePath : string := "github.com/slachiewicz/hms-client-go".

Definition moduleVersion (info : option BuildInfo) : string :=
  match info with
  | None => "devel"
  | Some info =>
      match List.find (fun dep => String.eqb (fst dep) modulePath) (bi_Deps info) with
      | Some dep => snd dep
      | None =>
          if String.eqb (fst (bi_Main info)) modulePath && negb (String.eqb (snd (bi_Main info)) "")
          then snd (bi_Main info) else "devel"
      end
  end.

Definition userAgent (info : option BuildInfo) : string := "hms-client-go/" +:+ moduleVersion info.

(** conn.go, newConn: the literal passed to NewHTTP. *)
Definition httpConfig (tls_of : string -> tlsConfig) (client_of : string -> httpClient) (info : option BuildInfo)
    (cfg : config) : HTTPConfig := {|
  ht_Client := client_of <$> cfg_httpClient cfg; ht_Timeout := cfg_timeout cfg; ht_TLS := tls_of <$> cfg_tlsConfig cfg;
  ht_BearerToken := cfg_bearerToken cfg; ht_User := cfg_user cfg; ht_Headers := cfg_httpHeaders cfg;
  ht_UserAgent := userAgent info; ht_MaxResponseBytes := cfg_maxResponseBytes cfg |}.

(** ** Headers *)

(** The last value a list sets under [k]'s canonical key. *)
Definition last_for (k : string) : list (string * string) -> option string :=
  fold_right (fun kv o => match o with
                          | Some v => Some v
                          | None => if decide (canonicalKey kv.1 = canonicalKey k) then Some kv.2 else None
                          end) None.

Lemma last_for_Some k l v : last_for k l = Some v -> exists k', In (k', v) l /\ canonicalKey k' = canonicalKey k.
Proof.
  induction l as [|[k1 v1] l IH]; simpl; [done|]. destruct (last_for k l) as [v2|].
  - intros [= ->]. destruct (IH eq_refl) as (k' & ? & ?). eauto.
  - case_decide; [|done]. intros [= ->]. eauto.
Qed.

Lemma last_for_None k l : last_for k l = None <-> forall k' v, In (k', v) l -> canonicalKey k' <> canonicalKey k.
Proof.
  induction l as [|[k1 v1] l IH]; simpl; [split; [done|done]|]. destruct (last_for k l) as [v2|] eqn:E.
  - split; [done|]. intros H. destruct (last_for_Some _ _ _ E) as (k' & Hin & Hk). destruct (H k' v2); auto.
  - case_decide as Hk; split; try done.
    + intros H. destruct (H k1 v1); auto.
    + intros _ k' v [[= <- <-]|Hin]; [done|]. by eapply IH.
Qed.

Section headers.
Context {H : Type} {TH : THttp H httpClient} {TL : THttpLaws H httpClient} {MR : MapRange}.

Lemma setHeader_lookup k v h k' :
  h_Header (setHeader k v h) !! canonicalKey k' =
  (if decide (canonicalKey k = canonicalKey k') then Some [v] else h_Header h !! canonicalKey k').
Proof.
  unfold setHeader. rewrite h_Set_law, h_Del_law. unfold Header_Add, Header_Del. rewrite lookup_delete_eq. simpl.
  case_decide as E; [rewrite E; apply lookup_insert_eq|]. by rewrite lookup_insert_ne, lookup_delete_ne.
Qed.

Lemma setHeaders_lookup l : forall h k, h_Header (setHeaders l h) !! canonicalKey k =
  match last_for k l with Some v => Some [v] | None => h_Header h !! canonicalKey k end.
Proof.
  induction l as [|[k1 v1] l IH]; intros h k; [done|]. simpl. unfold setHeaders in *. simpl. rewrite IH.
  destruct (last_for k l); [done|]. rewrite setHeader_lookup. by case_decide.
Qed.

(** The caller's entries, in whatever order the map is walked. *)
Lemma last_for_range k (m : gmap string string) :
  match last_for k (range m) with
  | Some v => exists k', m !! k' = Some v /\ canonicalKey k' = canonicalKey k
  | None => forall k' v, m !! k' = Some v -> canonicalKey k' <> canonicalKey k
  end.
Proof.
  assert (forall k' v, In (k', v) (range m) <-> m !! k' = Some v) as Hin.
  { intros k' v. rewrite <- list_elem_of_In, range_perm. apply elem_of_map_to_list. }
  destruct (last_for k (range m)) as [v|] eqn:E.
  - destruct (last_for_Some _ _ _ E) as (k' & Hk & Hc). exists k'. by rewrite <- Hin.
  - intros k' v Hk. rewrite last_for_None in E. apply (E k' v). by apply Hin.
Qed.

(** The defaults collide with each other in no case. *)
Lemma last_for_defaults osUser cfg k v : In (k, v) (defaults osUser cfg) -> last_for k (defaults osUser cfg) = Some v.
Proof.
  unfold defaults. destruct (String.eqb (ht_UserAgent cfg) ""), (String.eqb (ht_BearerToken cfg) "");
    generalize (ht_UserAgent cfg) (userOrDefault osUser (ht_User cfg)) ("Bearer " +:+ ht_BearerToken cfg);
    intros a b c Hin; cbn [negb app] in *; repeat (destruct Hin as [[= <- <-]|Hin]; [by vm_compute|]); done.
Qed.

(** NewHTTP sends one value per header name, whatever the spelling of the names and
    whatever order Go walks the caller's map in: a name the caller's headers
    cover carries exactly one of the caller's values for it, and nothing else; otherwise
    a library default (Content-Type, Accept, User-Agent, Authorization or
    x-actor-username) is sent alone; and a name neither covers is left as thrift's client
    set it. *)
Theorem http_headers osUser rawURL cfg h0 b m k :
  h_New rawURL (hardenClient cfg) = inr h0 -> NewHTTP osUser rawURL cfg = inr (b, m) ->
  let values := h_Header (bt_inner b) !! canonicalKey k in
  (exists k' v, entries (ht_Headers cfg) !! k' = Some v /\ canonicalKey k' = canonicalKey k /\ values = Some [v]) \/
  ((forall k' v, entries (ht_Headers cfg) !! k' = Some v -> canonicalKey k' <> canonicalKey k) /\
   ((exists k' v, In (k', v) (defaults osUser cfg) /\ canonicalKey k' = canonicalKey k /\ values = Some [v]) \/
    ((forall k' v, In (k', v) (defaults osUser cfg) -> canonicalKey k' <> canonicalKey k) /\
     values = h_Header h0 !! canonicalKey k))).
Proof.
  intros Hh. unfold NewHTTP. rewrite Hh. intros E.
  apply (f_equal (fun r : goerr + (budgetTransport H * Z) => match r with inr (b, _) => bt_inner b | inl _ => h0 end)) in E.
  cbn [newBudgetTransport bt_inner] in E. rewrite <- E, !setHeaders_lookup. pose proof (last_for_range k (entries (ht_Headers cfg))) as Hr.
  destruct (last_for k (range _)) as [v|]; [destruct Hr as (k' & H1 & H2); left; by exists k', v|].
  right. split; [done|]. destruct (last_for k (defaults osUser cfg)) as [v|] eqn:Ed.
  - left. destruct (last_for_Some _ _ _ Ed) as (k' & H1 & H2). by exists k', v.
  - right. split; [|done]. by apply last_for_None.
Qed.
End headers.

(** A thrift client that is only its headers. *)
Definition demo_http : THttp header httpClient := {|
  h_New := fun url _ => if String.eqb url "" then inl (EText "empty url") else inr {["Content-Type" := ["application/x-thrift"]]};
  h_SetHeader := Header_Add; h_DelHeader := Header_Del; h_Header := fun h => h |}.
Definition demo_http_laws : @THttpLaws _ _ demo_http := @Build_THttpLaws _ _ demo_http (fun _ _ _ => eq_refl) (fun _ _ => eq_refl).
Definition demo_range : MapRange := {| range := map_to_list; range_perm := fun m => reflexivity _ |}.
Definition demo_cfg (token : string) : HTTPConfig :=
  mkHTTPConfig None 30 None token "" (Some {["authorization" := "Basic x"; "X-Gateway" := "knox"]}) "hms-client-go/devel" 0.
Definition demo_headers (token : string) : option header :=
  match @NewHTTP _ demo_http demo_range (Some "me") "http://ms" (demo_cfg token) with
  | inr (b, _) => Some (bt_inner b) | inl _ => None end.

(** The caller's Authorization, in lower case, replaces the token's. *)
Lemma http_headers_witness :
  exists b m, @NewHTTP _ demo_http demo_range (Some "me") "http://ms" (demo_cfg "token") = inr (b, m) /\
    bt_inner b !! canonicalKey "Authorization" = Some ["Basic x"] /\
    ((exists k' v, entries (ht_Headers (demo_cfg "token")) !! k' = Some v /\ canonicalKey k' = "X-Gateway" /\
        bt_inner b !! "X-Gateway" = Some [v]) \/
     (forall k' v, entries (ht_Headers (demo_cfg "token")) !! k' = Some v -> canonicalKey k' <> canonicalKey "X-Gateway")).
Proof.
  assert (match @NewHTTP _ demo_http demo_range (Some "me") "http://ms" (demo_cfg "token") with
          | inr (b, _) => bt_inner b !! canonicalKey "Authorization" | inl _ => None end = Some ["Basic x"]) as Ha
    by (vm_compute; reflexivity).
  destruct (@NewHTTP _ demo_http demo_range (Some "me") "http://ms" (demo_cfg "token")) as [e|[b m]] eqn:E; [discriminate Ha|].
  exists b, m. split; [reflexivity|]. split; [exact Ha|].
  destruct (@http_headers _ demo_http demo_http_laws demo_range (Some "me") "http://ms" (demo_cfg "token") _ b m "X-Gateway" eq_refl E)
    as [Hl|[Hr _]]; [by left|by right].
Defined.

Example demo_headers_values :
  map_to_list <$> demo_headers "" =
    Some [("Content-Type", ["application/x-thrift"]); ("User-Agent", ["hms-client-go/devel"]);
          ("Accept", ["application/x-thrift"]); ("Authorization", ["Basic x"]); ("X-Gateway", ["knox"]);
          ("X-Actor-Username", ["me"])].
Proof. vm_compute. reflexivity. Qed.

(** ** The cap is never seen through the budget *)

Section capped.
Context {T : Type} {TT : TTransport T}.
Hypothesis reader : forall n t, (length (fst (snd (t_Read n t))) <= n)%nat.
Local Instance plain_byte_reader : ByteReader T := {| ReadByte_of := None |}.
Local Instance capped_byte_reader : ByteReader (cappedBody T) := {| ReadByte_of := None |}.
Implicit Types (t : T) (b : budgetTransport T) (c : budgetTransport (cappedBody T)).

(** The same reply, once over the body itself and once over its capped form. *)
Definition capped_as (cap : Z) c b : Prop :=
  bt_limit c = bt_limit b /\ bt_read c = bt_read b /\ bt_inner c = mkCapped (bt_inner b) (cap - bt_read b) /\
  within b /\ bt_limit b <= cap <= MaxInt64.

Lemma capped_read_same n t left : 0 < left <= MaxInt64 -> Z.of_nat n <= left ->
  t_Read n (mkCapped t left) =
  (mkCapped (fst (t_Read n t)) (left - Z.of_nat (length (fst (snd (t_Read n t))))), snd (t_Read n t)).
Proof.
  intros Hl Hn. simpl. unfold capped_read. simpl. destruct (Z.leb_spec left 0); [lia|].
  destruct (Z.ltb_spec left (Z.of_nat n)); [lia|]. pose proof (reader n t) as Hr.
  destruct (t_Read n t) as [t' [p e]]. simpl in *. f_equal. f_equal. apply int64_id.
  unfold in_int64, MinInt64, MaxInt64 in *. lia.
Qed.

Lemma ReadFull_capped fuel : forall t left, 0 < left <= MaxInt64 ->
  ReadFull fuel 1 [] (mkCapped t left) =
  match ReadFull fuel 1 [] t with
  | Some (t', inr p) => Some (mkCapped t' (left - 1), inr p)
  | Some (t', inl e) => Some (mkCapped t' left, inl e)
  | None => None
  end.
Proof using reader.
  induction fuel as [|fuel IH]; intros t left Hl; cbn [ReadFull]; [done|].
  rewrite capped_read_same by lia. pose proof (reader 1 t) as Hr. destruct (t_Read 1 t) as [t' [p e]]. simpl in Hr. cbn [fst snd].
  destruct p as [|x [|y p]]; simpl in Hr; [|done|lia]. simpl. rewrite Z.sub_0_r.
  destruct e as [[]|]; try done. by apply IH.
Qed.

Lemma capped_step cap fuel o c b : capped_as cap c b ->
  match step fuel o c, step fuel o b with
  | Some (c', p), Some (b', q) => p = q /\ capped_as cap c' b'
  | None, None => True
  | _, _ => False
  end /\
  match o with
  | OpRead n => snd (Budget.Read n c) = snd (Budget.Read n b)
  | OpReadByte => option_map snd (ReadByte fuel c) = option_map snd (ReadByte fuel b)
  end.
Proof using reader.
  intros Hc. pose proof Hc as (Hlim & Hrd & Hin & Hw & Hcap). pose proof Hw as [Hr Hi].
  assert (forall t n, 0 <= n -> bt_read b + n <= bt_limit b ->
            capped_as cap (advance (mkCapped t (cap - bt_read b - n)) n c) (advance t n b)) as Hadv.
  { intros t n Hn Hle. destruct (advance_within t n b Hw Hn Hle) as [E Hw']. split; [exact Hlim|].
    split; [simpl; by rewrite Hrd|]. split; [|by split].
    change (bt_inner (advance (mkCapped t (cap - bt_read b - n)) n c)) with (mkCapped t (cap - bt_read b - n)).
    rewrite E. simpl. f_equal. lia. }
  assert (errTooLarge c = errTooLarge b) as Het by (unfold errTooLarge; by rewrite Hlim).
  destruct o as [n|]; cbn [step].
  - unfold Budget.Read. rewrite Het, Hlim, Hrd, Hin. destruct (Z.leb_spec (bt_limit b - bt_read b) 0); [by split|].
    set (k := if bt_limit b - bt_read b <? Z.of_nat n then Z.to_nat (bt_limit b - bt_read b) else n).
    assert (Z.of_nat k <= bt_limit b - bt_read b) as Hk
      by (unfold k; destruct (Z.ltb_spec (bt_limit b - bt_read b) (Z.of_nat n)); lia).
    rewrite capped_read_same by lia. pose proof (reader k (bt_inner b)) as Hlen.
    destruct (t_Read k (bt_inner b)) as [t [p e]]. simpl in Hlen. cbn [fst snd]. split; [|done]. split; [done|]. apply Hadv; lia.
  - unfold ReadByte. rewrite Het, Hlim, Hrd, Hin. destruct (Z.leb_spec (bt_limit b) (bt_read b)); [by split|].
    cbn [ReadByte_of plain_byte_reader capped_byte_reader]. rewrite ReadFull_capped by lia.
    destruct (ReadFull fuel 1 [] (bt_inner b)) as [[t [e|p]]|]; [| |done].
    + split; [|done]. split; [done|]. rewrite <- (Z.sub_0_r (cap - bt_read b)). apply Hadv; lia.
    + split; [|done]. split; [done|]. apply Hadv; lia.
Qed.

Lemma capped_ops cap fuel ops : forall c b, capped_as cap c b ->
  match read_ops fuel ops c, read_ops fuel ops b with
  | Some (c', p), Some (b', q) => p = q /\ capped_as cap c' b'
  | None, None => True
  | _, _ => False
  end.
Proof using reader.
  induction ops as [|o ops IH]; intros c b Hc; cbn [read_ops]; [done|].
  destruct (capped_step cap fuel o c b Hc) as [Hs _].
  destruct (step fuel o c) as [[c1 p]|], (step fuel o b) as [[b1 q]|]; try done. destruct Hs as [-> Hc1].
  specialize (IH _ _ Hc1). destruct (read_ops fuel ops c1) as [[c2 p2]|], (read_ops fuel ops b1) as [[b2 q2]|]; try done.
  by destruct IH as [-> ?].
Qed.

Lemma responseCap_range limit : in_int64 limit ->
  let l := bt_limit (newBudgetTransport tt limit) in
  0 < l <= responseCap limit /\ responseCap limit <= MaxInt64 /\ (l < MaxInt64 -> responseCap limit = l + 1).
Proof.
  unfold in_int64, responseCap, DefaultMaxResponseBytes, MinInt64, MaxInt64. intros Hl. simpl. cbv zeta.
  destruct (Z.leb_spec limit 0).
  - split_and!; try done.
  - destruct (Z.eqb_spec limit 9223372036854775807); [lia|]. rewrite int64_id; [lia|].
    unfold in_int64, MinInt64, MaxInt64. lia.
Qed.

(** C21: the cap NewHTTP puts on a reply's body never shows through the reply's budget:
    for every configured limit (zero, negative and the largest int64 included), every
    body and every mix of reads the protocol makes, the budget over the capped body
    hands out the same bytes as over the body itself, and the next read, byte or longer,
    answers the same bytes and the same error, so a reply over the limit is always
    reported by the budget's size error, never by the cap's silent end. *)
Theorem http_cap_invisible fuel ops t limit :
  in_int64 limit ->
  let c := newBudgetTransport (mkCapped t (responseCap limit)) limit in
  let b := newBudgetTransport t limit in
  match read_ops fuel ops c, read_ops fuel ops b with
  | Some (c', p), Some (b', q) =>
      p = q /\ (forall n, snd (Budget.Read n c') = snd (Budget.Read n b')) /\
      option_map snd (ReadByte fuel c') = option_map snd (ReadByte fuel b')
  | None, None => True
  | _, _ => False
  end.
Proof using reader.
  intros Hl c b. destruct (responseCap_range limit Hl) as (H1 & H2 & _). cbn [newBudgetTransport bt_limit] in H1.
  assert (capped_as (responseCap limit) c b) as Hc.
  { unfold capped_as, within, c, b. cbn [newBudgetTransport bt_limit bt_read bt_inner]. rewrite Z.sub_0_r.
    unfold in_int64, MinInt64, MaxInt64 in *. split_and!; try done; lia. }
  pose proof (capped_ops _ fuel ops c b Hc) as Ho.
  destruct (read_ops fuel ops c) as [[c' p]|], (read_ops fuel ops b) as [[b' q]|]; try done.
  destruct Ho as [-> Hc']. split_and!; [done| |].
  - intros n. by destruct (capped_step _ fuel (OpRead n) c' b' Hc').
  - by destruct (capped_step _ fuel OpReadByte c' b' Hc').
Qed.
End capped.

Lemma http_cap_invisible_witness :
  let t := mkStream [x01; x02; x03; x04; x05] [1%nat; 0%nat] [] true in
  let over {T} {TT : TTransport T} (t : T) :=
    @read_ops T TT {| ReadByte_of := None |} 5 [OpReadByte; OpRead 10; OpRead 10] (newBudgetTransport t 3) in
  in_int64 3 /\ responseCap 3 = 4 /\
  match over (mkCapped t (responseCap 3)), over t with
  | Some (c', p), Some (b', q) => p = q /\ p = [x01; x02; x03] /\ snd (Budget.Read 9 c') = snd (Budget.Read 9 b')
  | _, _ => False
  end.
Proof.
  cbn zeta. split; [by vm_compute|]. split; [reflexivity|].
  pose proof (@http_cap_invisible stream _ stream_reader 5 [OpReadByte; OpRead 10; OpRead 10]
    (mkStream [x01; x02; x03; x04; x05] [1%nat; 0%nat] [] true) 3 ltac:(by vm_compute)) as H. cbn zeta in H.
  assert (match @read_ops stream _ {| ReadByte_of := None |} 5 [OpReadByte; OpRead 10; OpRead 10]
                  (newBudgetTransport (mkStream [x01; x02; x03; x04; x05] [1%nat; 0%nat] [] true) 3) with
          | Some (_, q) => q | None => [] end = [x01; x02; x03]) as Hq by (vm_compute; reflexivity).
  destruct (read_ops _ _ (newBudgetTransport (mkCapped _ _) 3)) as [[c' p]|],
    (read_ops _ _ (newBudgetTransport (mkStream _ _ _ _) 3)) as [[b' q]|]; try done.
  destruct H as (-> & H & _). split; [done|]. split; [exact Hq|exact (H 9%nat)].
Defined.
