(* ===== verification/FakeAcid.v ===== *)
(** * FakeAcid: hmstest/acid.go

    The fake metastore's transactions and locks: one function per RPC handler, on
    the table [acidState] its mutex guards. *)

From S2P Require Import Prelude Errors GoMonad Wire Types TxnOps.

Inductive txnStatus := txnStatusOpen | txnStatusAborted.
#[export] Instance txnStatus_eq_dec : EqDecision txnStatus.
Proof. solve_decision. Defined.

Definition LockType_EXCLUSIVE : Z := wLockType_EXCLUSIVE.

Record lockEntry := mkLockEntry { components : slice (option wLockComponent); state : Z }.

Record acidState := mkAcid {
  nextTxn : Z; nextLock : Z; txns : gmap Z txnStatus; locks : gmap Z lockEntry }.

Definition newAcidState : acidState := mkAcid 0 0 ∅ ∅.

(** The components of a request. The decoder never hands a handler a nil one. *)
Definition comps (s : slice (option wLockComponent)) : list wLockComponent := omap id (elems s).

Definition NoSuchTxn (id : Z) : goerr := EThrift NoSuchTxnException ("No such transaction " +:+ Itoa id).
Definition TxnAborted (id : Z) : goerr :=
  EThrift TxnAbortedException ("Transaction " +:+ Itoa id +:+ " already aborted").
Definition NoSuchLock (id : Z) : goerr := EThrift NoSuchLockException ("No such lock " +:+ Itoa id).

(** [for i := range ids { a.nextTxn++; a.txns[a.nextTxn] = open; ids[i] = ... }] *)
Fixpoint alloc_txns (n : nat) (a : acidState) : acidState * list Z :=
  match n with
  | O => (a, [])
  | S n =>
      let id := int64 (nextTxn a + 1) in
      let '(a, ids) := alloc_txns n (mkAcid id (nextLock a) (<[id := txnStatusOpen]> (txns a)) (locks a)) in
      (a, id :: ids)
  end.

Definition OpenTxns (req : wOpenTxnRequest) : M acidState wOpenTxnsResponse := fun a =>
  let n := if wOpenTxnRequest_NumTxns req <? 1 then 1 else wOpenTxnRequest_NumTxns req in
  let '(a, ids) := alloc_txns (Z.to_nat n) a in (a, inr (mk_wOpenTxnsResponse (Some ids))).

Definition CommitTxn (req : wCommitTxnRequest) : M acidState unit := fun a =>
  let id := wCommitTxnRequest_Txnid req in
  match txns a !! id with
  | None => (a, inl (NoSuchTxn id))
  | Some txnStatusAborted => (a, inl (TxnAborted id))
  | Some txnStatusOpen => (mkAcid (nextTxn a) (nextLock a) (delete id (txns a)) (locks a), inr tt)
  end.

Definition AbortTxn (req : wAbortTxnRequest) : M acidState unit := fun a =>
  let id := wAbortTxnRequest_Txnid req in
  match txns a !! id with
  | None => (a, inl (NoSuchTxn id))
  | Some _ => (mkAcid (nextTxn a) (nextLock a) (<[id := txnStatusAborted]> (txns a)) (locks a), inr tt)
  end.

Definition check_txn (txnid : option Z) (a : acidState) : option goerr :=
  match txnid with
  | None => None
  | Some id => match txns a !! id with
               | None => Some (NoSuchTxn id)
               | Some txnStatusAborted => Some (TxnAborted id)
               | Some txnStatusOpen => None
               end
  end.
Definition check_lock_id (lockid : option Z) (a : acidState) : option goerr :=
  match lockid with
  | None => None
  | Some id => match locks a !! id with None => Some (NoSuchLock id) | Some _ => None end
  end.

Definition Heartbeat (req : wHeartbeatRequest) : M acidState unit := fun a =>
  match check_txn (wHeartbeatRequest_Txnid req) a with
  | Some e => (a, inl e)
  | None => match check_lock_id (wHeartbeatRequest_Lockid req) a with
            | Some e => (a, inl e)
            | None => (a, inr tt)
            end
  end.

(** ** Locks *)

Definition lockDepth (c : wLockComponent) : Z :=
  if wLockComponent_Level c =? LockLevel_DB then 1
  else if wLockComponent_Level c =? LockLevel_TABLE then 2 else 3.

Definition lockName (p : option string) : string := default "" p.

Definition lockOverlaps (a b : wLockComponent) : bool :=
  if negb (String.eqb (wLockComponent_Dbname a) (wLockComponent_Dbname b)) then false
  else
    let depth := Z.min (lockDepth a) (lockDepth b) in
    if (2 <=? depth) &&
       negb (String.eqb (lockName (wLockComponent_Tablename a)) (lockName (wLockComponent_Tablename b)))
    then false
    else if (3 <=? depth) &&
       negb (String.eqb (lockName (wLockComponent_Partitionname a)) (lockName (wLockComponent_Partitionname b)))
    then false
    else true.

Definition exclusive_overlap (existing comp : wLockComponent) : bool :=
  (wLockComponent_Type existing =? LockType_EXCLUSIVE) && lockOverlaps existing comp.

Definition hasExclusiveConflict (a : acidState) (comp : wLockComponent) : bool :=
  existsb (fun '(_, entry) =>
    (state entry =? LockState_ACQUIRED) &&
    existsb (fun existing => exclusive_overlap existing comp) (comps (components entry)))
    (map_to_list (locks a)).

Definition unset_operation (req : wLockRequest) (txnid : Z) : goerr :=
  EText ("unexpected DataOperationType: UNSET agentInfo=" +:+ wLockRequest_AgentInfo req +:+ " txnid:" +:+ Itoa txnid).

Definition grant (req : wLockRequest) : M acidState wLockResponse := fun a =>
  let state := if existsb (hasExclusiveConflict a) (comps (wLockRequest_Component req))
               then LockState_WAITING else LockState_ACQUIRED in
  let id := int64 (nextLock a + 1) in
  (mkAcid (nextTxn a) id (txns a) (<[id := mkLockEntry (wLockRequest_Component req) state]> (locks a)),
   inr (mk_wLockResponse id state None)).

Definition Lock (req : wLockRequest) : M acidState wLockResponse := fun a =>
  match wLockRequest_Txnid req with
  | Some txnid =>
      if existsb (fun c => wLockComponent_OperationType c =? DataOperationType_UNSET)
           (comps (wLockRequest_Component req))
      then (a, inl (unset_operation req txnid)) else grant req a
  | None => grant req a
  end.

Definition CheckLock (req : wCheckLockRequest) : M acidState wLockResponse := fun a =>
  let id := wCheckLockRequest_Lockid req in
  match locks a !! id with
  | None => (a, inl (NoSuchLock id))
  | Some entry => (a, inr (mk_wLockResponse id (state entry) None))
  end.

Definition Unlock (req : wUnlockRequest) : M acidState unit := fun a =>
  let id := wUnlockRequest_Lockid req in
  match locks a !! id with
  | None => (a, inl (NoSuchLock id))
  | Some _ => (mkAcid (nextTxn a) (nextLock a) (txns a) (delete id (locks a)), inr tt)
  end.

(** ** Executions *)

Inductive acid_request :=
  | ROpenTxns (req : wOpenTxnRequest) | RCommitTxn (req : wCommitTxnRequest) | RAbortTxn (req : wAbortTxnRequest)
  | RHeartbeat (req : wHeartbeatRequest) | RLock (req : wLockRequest) | RCheckLock (req : wCheckLockRequest)
  | RUnlock (req : wUnlockRequest).

Definition serve (r : acid_request) (a : acidState) : acidState :=
  match r with
  | ROpenTxns req => fst (OpenTxns req a)
  | RCommitTxn req => fst (CommitTxn req a)
  | RAbortTxn req => fst (AbortTxn req a)
  | RHeartbeat req => fst (Heartbeat req a)
  | RLock req => fst (Lock req a)
  | RCheckLock req => fst (CheckLock req a)
  | RUnlock req => fst (Unlock req a)
  end.

(** Ids are int64: executions that have not run out of them. *)
Definition ids_left (r : acid_request) (a : acidState) : Prop :=
  match r with
  | ROpenTxns req => nextTxn a + Z.max 1 (wOpenTxnRequest_NumTxns req) <= MaxInt64
  | RLock _ => nextLock a + 1 <= MaxInt64
  | _ => True
  end.

Inductive acid_reachable : acidState -> Prop :=
  | acid_init : acid_reachable newAcidState
  | acid_step a r : acid_reachable a -> ids_left r a -> acid_reachable (serve r a).

(** Executions from the start, with the id of every lock granted so far, the released
    ones included. *)
Definition granted (r : acid_request) (a : acidState) : list Z :=
  match r with
  | RLock req => match Lock req a with (_, inr resp) => [wLockResponse_Lockid resp] | (_, inl _) => [] end
  | _ => []
  end.

Inductive acid_run : list Z -> acidState -> Prop :=
  | run_start : acid_run [] newAcidState
  | run_step ids a r : acid_run ids a -> ids_left r a -> acid_run (granted r a ++ ids) (serve r a).

Lemma acid_run_reachable ids a : acid_run ids a -> acid_reachable a.
Proof. induction 1; by constructor. Qed.

(** ** The invariant *)

Record acid_wf (a : acidState) : Prop := {
  wf_next : 0 <= nextTxn a <= MaxInt64 /\ 0 <= nextLock a <= MaxInt64;
  wf_txns : forall id st, txns a !! id = Some st -> 1 <= id <= nextTxn a;
  wf_locks : forall id e, locks a !! id = Some e -> 1 <= id <= nextLock a;
  wf_exclusive : forall i j e f, i < j -> locks a !! i = Some e -> locks a !! j = Some f ->
    state e = LockState_ACQUIRED -> state f = LockState_ACQUIRED ->
    forall c d, In c (comps (components e)) -> In d (comps (components f)) -> exclusive_overlap c d = false;
}.

Lemma alloc_txns_spec n : forall a, 0 <= nextTxn a -> nextTxn a + Z.of_nat n <= MaxInt64 ->
  let '(a', ids) := alloc_txns n a in
  nextTxn a' = nextTxn a + Z.of_nat n /\ nextLock a' = nextLock a /\ locks a' = locks a /\
  (forall id, In id ids <-> nextTxn a < id <= nextTxn a') /\
  forall id, txns a' !! id = if decide (nextTxn a < id <= nextTxn a') then Some txnStatusOpen else txns a !! id.
Proof.
  induction n as [|n IH]; intros a H0 Hn.
  - simpl. split_and!; [lia|done|done|intros; simpl; lia|]. intros id. by case_decide; [lia|].
  - cbn [alloc_txns]. rewrite (int64_id (nextTxn a + 1)) by (unfold in_int64, MinInt64, MaxInt64 in *; lia).
    set (a1 := mkAcid _ _ _ _). specialize (IH a1). destruct (alloc_txns n a1) as [a' ids].
    destruct IH as (H1 & H2 & H3 & H4 & H5); [simpl; lia|simpl; lia|]. simpl in *.
    split_and!; [lia|done|done|intros id; simpl; rewrite H4; lia|].
    intros id. rewrite H5, H1. repeat case_decide; try lia; try done.
    + assert (id = nextTxn a + 1) as -> by lia. apply lookup_insert_eq.
    + apply lookup_insert_ne. lia.
Qed.

Lemma alloc_txns_length n : forall a, length (snd (alloc_txns n a)) = n.
Proof.
  induction n as [|n IH]; intros a; [done|]. cbn [alloc_txns].
  specialize (IH (mkAcid (int64 (nextTxn a + 1)) (nextLock a)
    (<[int64 (nextTxn a + 1) := txnStatusOpen]> (txns a)) (locks a))).
  destruct (alloc_txns n _) as [a' ids]. simpl in *. by rewrite IH.
Qed.

Lemma hasExclusiveConflict_false a cs : existsb (hasExclusiveConflict a) cs = false ->
  forall id e, locks a !! id = Some e -> state e = LockState_ACQUIRED ->
  forall c d, In c (comps (components e)) -> In d cs -> exclusive_overlap c d = false.
Proof.
  intros Hc id e He Ha c d Hin Hd. destruct (exclusive_overlap c d) eqn:E; [|done].
  assert (existsb (hasExclusiveConflict a) cs = true) as Ht; [|congruence].
  apply existsb_exists. exists d. split; [done|]. apply existsb_exists. exists (id, e). split.
  - apply list_elem_of_In. by apply elem_of_map_to_list.
  - rewrite Ha, Z.eqb_refl. simpl. apply existsb_exists. by exists c.
Qed.

Lemma grant_wf req a : acid_wf a -> nextLock a + 1 <= MaxInt64 -> acid_wf (fst (grant req a)).
Proof.
  intros [[H1 H2] Ht Hl He] Hids. unfold grant. rewrite int64_id by (unfold in_int64, MinInt64, MaxInt64 in *; lia).
  set (a' := mkAcid _ _ _ _). cbn [fst]. split; unfold a'; cbn [nextTxn nextLock txns locks].
  - lia.
  - done.
  - intros id e. rewrite lookup_insert. case_decide; [subst; lia|]. intros Hid%Hl. lia.
  - intros i j e f Hij. rewrite !lookup_insert. repeat case_decide; subst; try lia.
    + intros _ Hj%Hl. lia.
    + intros Hi [= <-] Hae Haf c d Hc Hd. simpl in *.
      destruct (existsb (hasExclusiveConflict a) (comps (wLockRequest_Component req))) eqn:Ex; [done|].
      by eapply hasExclusiveConflict_false.
    + intros. by eapply (He i j).
Qed.

Lemma acid_wf_step r a : acid_wf a -> ids_left r a -> acid_wf (serve r a).
Proof.
  intros Hwf Hids. pose proof Hwf as [[H1 H2] Ht Hl He].
  destruct r as [req|req|req|req|req|req|req]; cbn [serve ids_left] in *.
  - unfold OpenTxns. pose proof (alloc_txns_spec (Z.to_nat (if wOpenTxnRequest_NumTxns req <? 1 then 1
                                                            else wOpenTxnRequest_NumTxns req)) a) as Hs.
    destruct (alloc_txns _ a) as [a' ids]. cbn [fst].
    destruct Hs as (E1 & E2 & E3 & _ & E5); [lia|destruct (Z.ltb_spec (wOpenTxnRequest_NumTxns req) 1); lia|].
    split; [destruct (Z.ltb_spec (wOpenTxnRequest_NumTxns req) 1); lia| |rewrite E2, E3; done|rewrite E3; done].
    intros id st. rewrite E5. case_decide; [lia|]. intros Hid%Ht. lia.
  - unfold CommitTxn. destruct (txns a !! wCommitTxnRequest_Txnid req) as [[]|]; try done.
    split; simpl; [done| |done|done]. intros id st [_ Hid]%lookup_delete_Some. by eapply Ht.
  - unfold AbortTxn. destruct (txns a !! wAbortTxnRequest_Txnid req) as [st0|] eqn:E; [|done].
    split; simpl; [done| |done|done]. intros id st. rewrite lookup_insert.
    case_decide; [subst; intros _; by eapply Ht|apply Ht].
  - unfold Heartbeat. by repeat case_match.
  - unfold Lock. destruct (wLockRequest_Txnid req); [case_match; [done|]|]; by apply grant_wf.
  - unfold CheckLock. by case_match.
  - unfold Unlock. destruct (locks a !! wUnlockRequest_Lockid req); [|done].
    split; simpl; [done|done| |].
    + intros id e [_ Hid]%lookup_delete_Some. by eapply Hl.
    + intros i j e f Hij [_ Hi]%lookup_delete_Some [_ Hj]%lookup_delete_Some. by eapply (He i j).
Qed.

Lemma acid_wf_reachable a : acid_reachable a -> acid_wf a.
Proof.
  induction 1; [|by apply acid_wf_step].
  split; simpl; [unfold MaxInt64; lia|intros id st; by rewrite lookup_empty|intros id e; by rewrite lookup_empty|].
  intros i j e f _. by rewrite lookup_empty.
Qed.

(** ** The properties *)

(** The locks a request leaves: a granted one, at an id above all others; or none new. *)
Lemma serve_locks r a : acid_wf a -> ids_left r a ->
  nextLock a <= nextLock (serve r a) /\ (forall id, In id (granted r a) -> nextLock a < id <= nextLock (serve r a)) /\
  (forall id e, locks (serve r a) !! id = Some e -> In id (granted r a) \/ locks a !! id = Some e).
Proof.
  intros [[H1 H2] Ht Hl He] Hids. destruct r as [req|req|req|req|req|req|req]; cbn [serve ids_left granted] in *.
  - unfold OpenTxns. pose proof (alloc_txns_spec (Z.to_nat (if wOpenTxnRequest_NumTxns req <? 1 then 1
                                                            else wOpenTxnRequest_NumTxns req)) a) as Hs.
    destruct (alloc_txns _ a) as [a' ids]. cbn [fst].
    destruct Hs as (_ & -> & -> & _); [lia|destruct (Z.ltb_spec (wOpenTxnRequest_NumTxns req) 1); lia|]. by split_and!; [|done|right].
  - unfold CommitTxn. destruct (txns a !! wCommitTxnRequest_Txnid req) as [[]|]; by split_and!; [|done|right].
  - unfold AbortTxn. destruct (txns a !! wAbortTxnRequest_Txnid req); by split_and!; [|done|right].
  - unfold Heartbeat. repeat case_match; by split_and!; [|done|right].
  - assert (fst (Lock req a) = a /\ granted (RLock req) a = [] \/
            Lock req a = grant req a) as [[E Eg]|E].
    { cbn [granted]. unfold Lock. destruct (wLockRequest_Txnid req); [|by right]. case_match; [by left|by right]. }
    + cbn [granted] in Eg. rewrite E, Eg. by split_and!; [|done|right].
    + rewrite E. unfold grant. rewrite int64_id by (unfold in_int64, MinInt64, MaxInt64 in *; lia). simpl.
      split_and!; [lia|intros id [<-|[]]; lia|]. intros id e [[<- _]|[_ Hid]]%lookup_insert_Some; [by left; left|by right].
  - unfold CheckLock. case_match; by split_and!; [|done|right].
  - unfold Unlock. destruct (locks a !! wUnlockRequest_Lockid req); [|by split_and!; [|done|right]].
    simpl. split_and!; [done|done|]. intros id e [_ Hid]%lookup_delete_Some. by right.
Qed.

(** Every id granted so far is at most [nextLock], and every lock of the table was granted. *)
Lemma acid_run_ids ids a : acid_run ids a ->
  (forall id, In id ids -> id <= nextLock a) /\ (forall id e, locks a !! id = Some e -> In id ids).
Proof.
  induction 1 as [|ids a r Hr [IH1 IH2] Hids].
  - split; [done|]. intros id e. simpl. by rewrite lookup_empty.
  - destruct (serve_locks r a (acid_wf_reachable a (acid_run_reachable _ _ Hr)) Hids) as (H1 & H2 & H3). split.
    + intros id [Hg|Hi]%in_app_or; [destruct (H2 id Hg); lia|]. specialize (IH1 id Hi). lia.
    + intros id e He. apply in_or_app. apply H3 in He as [Hg|He]; [by left|right]. by eapply IH2.
Qed.

(** What the decision of [grant] means. *)
Lemma conflict_spec a cs : existsb (hasExclusiveConflict a) cs = false <->
  forall id e c d, locks a !! id = Some e -> state e = LockState_ACQUIRED -> In c (comps (components e)) ->
    In d cs -> wLockComponent_Type c = LockType_EXCLUSIVE -> lockOverlaps c d = false.
Proof.
  assert (forall c d, wLockComponent_Type c = LockType_EXCLUSIVE -> exclusive_overlap c d = lockOverlaps c d) as Hex.
  { intros c d Hc. unfold exclusive_overlap. by rewrite Hc, Z.eqb_refl. }
  split.
  - intros Ex id e c d Hid Hse Hc Hd Ht. rewrite <- Hex by done. by eapply hasExclusiveConflict_false.
  - intros Hno. destruct (existsb (hasExclusiveConflict a) cs) eqn:Ex; [exfalso|done].
    apply existsb_exists in Ex as (d & Hd & Hx). apply existsb_exists in Hx as ([id e] & Hin & Hb).
    apply andb_prop in Hb as [Hs Hc]. apply Z.eqb_eq in Hs. apply existsb_exists in Hc as (c & Hc & Ho).
    apply andb_prop in Ho as [Ht Ho]. apply Z.eqb_eq in Ht.
    rewrite (Hno id e c d) in Ho; try done. apply elem_of_map_to_list. by apply list_elem_of_In.
Qed.

(** C40: the fake's lock table never grants what an EXCLUSIVE lock forbids: after any
    requests, of two acquired locks no component of the later one overlaps an EXCLUSIVE
    component of the earlier one, at any mix of database, table and partition levels.
    A Lock is refused, changing nothing, exactly when it is in a transaction and one of
    its components has no operation type. Otherwise it gets an id that no lock was ever
    given before, released locks included; it is stored under that id, with its
    components and the state answered, and no other lock or transaction changes; and
    that state is ACQUIRED exactly when no acquired EXCLUSIVE lock overlaps it, and
    WAITING otherwise. Ids are int64, and the one to give is supposed not to overflow. *)
Theorem lock_table_exclusive ids a (req : wLockRequest) :
  acid_run ids a -> nextLock a + 1 <= MaxInt64 ->
  (forall i j e f c d, i < j -> locks a !! i = Some e -> locks a !! j = Some f ->
     state e = LockState_ACQUIRED -> state f = LockState_ACQUIRED ->
     In c (comps (components e)) -> In d (comps (components f)) ->
     wLockComponent_Type c = LockType_EXCLUSIVE -> lockOverlaps c d = false) /\
  let untyped := wLockRequest_Txnid req <> None /\
    exists c, In c (comps (wLockRequest_Component req)) /\ wLockComponent_OperationType c = DataOperationType_UNSET in
  match Lock req a with
  | (a', inr r) =>
      let id := wLockResponse_Lockid r in
      ~ untyped /\ ~ In id ids /\
      locks a' !! id = Some (mkLockEntry (wLockRequest_Component req) (wLockResponse_State r)) /\
      (forall j, j <> id -> locks a' !! j = locks a !! j) /\ txns a' = txns a /\ nextTxn a' = nextTxn a /\
      (wLockResponse_State r = LockState_ACQUIRED \/ wLockResponse_State r = LockState_WAITING) /\
      (wLockResponse_State r = LockState_ACQUIRED <->
         forall id e c d, locks a !! id = Some e -> state e = LockState_ACQUIRED -> In c (comps (components e)) ->
           In d (comps (wLockRequest_Component req)) -> wLockComponent_Type c = LockType_EXCLUSIVE ->
           lockOverlaps c d = false)
  | (a', inl _) => a' = a /\ untyped
  end.
Proof.
  intros Hr Hid. pose proof (acid_wf_reachable a (acid_run_reachable _ _ Hr)) as [[_ Hn] _ _ He]. split.
  { intros i j e f c d Hij Hi Hj Hse Hsf Hc Hd Ht. specialize (He i j e f Hij Hi Hj Hse Hsf c d Hc Hd).
    unfold exclusive_overlap in He. by rewrite Ht, Z.eqb_refl in He. }
  intros untyped. assert (Lock req a = grant req a /\ ~ untyped \/ (exists e, Lock req a = (a, inl e)) /\ untyped) as [[-> Hu]|[[e ->] Hu]]; [|idtac|done].
  { unfold untyped, Lock. destruct (wLockRequest_Txnid req) as [t|]; [|left; by split; [|intros []]].
    destruct (existsb _ _) eqn:Ex; [right|left].
    - split; [by eexists|]. split; [done|]. apply existsb_exists in Ex as (c & Hc & Ho). exists c. split; [done|]. by apply Z.eqb_eq.
    - split; [done|]. intros (_ & c & Hc & Ho). apply Z.eqb_eq in Ho.
      assert (existsb (fun c => wLockComponent_OperationType c =? DataOperationType_UNSET) (comps (wLockRequest_Component req)) = true) by
        (apply existsb_exists; by exists c). congruence. }
  unfold grant. rewrite int64_id by (unfold in_int64, MinInt64, MaxInt64 in *; lia). cbn [wLockResponse_Lockid wLockResponse_State locks txns nextTxn].
  split_and!; [done| |by rewrite lookup_insert_eq|intros j Hj; by rewrite lookup_insert_ne|done|done|by case_match; [right|left]|].
  - intros Hin. apply (proj1 (acid_run_ids _ _ Hr)) in Hin. lia.
  - rewrite <- conflict_spec. by destruct (existsb _ _).
Qed.

(** Later states. *)
Inductive acid_later (a : acidState) : acidState -> Prop :=
  | later_now : acid_later a a
  | later_step b r : acid_later a b -> ids_left r b -> acid_later a (serve r b).

Lemma acid_later_wf a b : acid_wf a -> acid_later a b -> acid_wf b.
Proof. intros Ha. induction 1; [done|]. by apply acid_wf_step. Qed.

(** A used id that is unknown, or aborted, stays so. *)
Lemma serve_txns r a id : acid_wf a -> ids_left r a -> id <= nextTxn a ->
  id <= nextTxn (serve r a) /\
  (txns a !! id = None -> txns (serve r a) !! id = None) /\
  (txns a !! id = Some txnStatusAborted -> txns (serve r a) !! id = Some txnStatusAborted).
Proof.
  intros [[H1 H2] Ht Hl He] Hids Hid. destruct r as [req|req|req|req|req|req|req]; cbn [serve ids_left] in *.
  - unfold OpenTxns. pose proof (alloc_txns_spec (Z.to_nat (if wOpenTxnRequest_NumTxns req <? 1 then 1
                                                            else wOpenTxnRequest_NumTxns req)) a) as Hs.
    destruct (alloc_txns _ a) as [a' ids]. cbn [fst].
    destruct Hs as (E1 & E2 & E3 & _ & E5); [lia|destruct (Z.ltb_spec (wOpenTxnRequest_NumTxns req) 1); lia|].
    rewrite E5. rewrite decide_False by lia. split_and!; [lia|done|done].
  - unfold CommitTxn. destruct (txns a !! wCommitTxnRequest_Txnid req) as [[]|] eqn:E; try done.
    simpl. split; [done|]. rewrite lookup_delete. case_decide; [subst|done]. rewrite E. done.
  - unfold AbortTxn. destruct (txns a !! wAbortTxnRequest_Txnid req) as [st0|] eqn:E; [|done].
    simpl. split; [done|]. rewrite lookup_insert. case_decide; [subst|done]. rewrite E. by split.
  - unfold Heartbeat. by repeat case_match.
  - unfold Lock, grant. by repeat case_match.
  - unfold CheckLock. by case_match.
  - unfold Unlock. by case_match.
Qed.

Lemma later_txns a b id : acid_wf a -> acid_later a b -> id <= nextTxn a ->
  id <= nextTxn b /\
  (txns a !! id = None -> txns b !! id = None) /\
  (txns a !! id = Some txnStatusAborted -> txns b !! id = Some txnStatusAborted).
Proof.
  intros Hwf Hl Hid. induction Hl as [|b r Hl IH Hids]; [done|]. destruct IH as (H1 & H2 & H3).
  destruct (serve_txns r b id (acid_later_wf _ _ Hwf Hl) Hids H1) as (H4 & H5 & H6).
  split_and!; [done|auto|auto].
Qed.

(** A transaction of the fake ends once: open_txns answers fresh consecutive
    ids, never used before, all open; commit_txn succeeds exactly for an open one;
    whatever requests follow, a committed id is unknown for ever to every later
    commit or abort, and an aborted one can never be committed. *)
Theorem txn_ends_once a b (open_req : wOpenTxnRequest) (commit_req : wCommitTxnRequest) (abort_req : wAbortTxnRequest) :
  acid_reachable a -> ids_left (ROpenTxns open_req) a ->
  match OpenTxns open_req a with
  | (a', inr r) =>
      let ids := elems (wOpenTxnsResponse_TxnIds r) in
      Z.of_nat (length ids) = Z.max 1 (wOpenTxnRequest_NumTxns open_req) /\
      forall id, In id ids -> txns a !! id = None /\ nextTxn a < id /\ txns a' !! id = Some txnStatusOpen
  | (_, inl _) => False
  end /\
  (let id := wCommitTxnRequest_Txnid commit_req in
   match CommitTxn commit_req a with
   | (a', inr _) => txns a !! id = Some txnStatusOpen /\
       (acid_later a' b -> CommitTxn commit_req b = (b, inl (NoSuchTxn id)))
   | (a', inl _) => a' = a /\ txns a !! id <> Some txnStatusOpen
   end) /\
  (let id := wAbortTxnRequest_Txnid abort_req in
   match AbortTxn abort_req a with
   | (a', inr _) => acid_later a' b -> wCommitTxnRequest_Txnid commit_req = id ->
                    CommitTxn commit_req b = (b, inl (TxnAborted id))
   | (a', inl e) => a' = a /\ e = NoSuchTxn id /\ txns a !! id = None
   end).
Proof.
  intros Hr Hids. pose proof (acid_wf_reachable a Hr) as Hwf. pose proof Hwf as [[H1 _] Ht _ _]. split_and!.
  - unfold OpenTxns. cbn [ids_left] in Hids.
    set (n := Z.to_nat (if wOpenTxnRequest_NumTxns open_req <? 1 then 1 else wOpenTxnRequest_NumTxns open_req)).
    assert (Z.of_nat n = Z.max 1 (wOpenTxnRequest_NumTxns open_req)) as Hn.
    { unfold n. destruct (Z.ltb_spec (wOpenTxnRequest_NumTxns open_req) 1); lia. }
    pose proof (alloc_txns_spec n a) as Hs. pose proof (alloc_txns_length n a) as Hlen.
    destruct (alloc_txns n a) as [a' ids]. destruct Hs as (E1 & _ & _ & E4 & E5); [lia|lia|].
    simpl in *. split; [lia|]. intros id Hin. apply E4 in Hin. rewrite E5, decide_True by lia.
    split_and!; [|lia|done]. destruct (txns a !! id) as [st|] eqn:E; [|done]. apply Ht in E. lia.
  - cbv zeta. unfold CommitTxn at 1. destruct (txns a !! wCommitTxnRequest_Txnid commit_req) as [[]|] eqn:E; try done.
    split; [done|]. intros Hl. pose proof (Ht _ _ E).
    set (a' := mkAcid _ _ _ _) in Hl. assert (acid_wf a') as Hwf'.
    { pose proof (acid_wf_step (RCommitTxn commit_req) a Hwf I) as Hs. cbn [serve] in Hs. unfold CommitTxn in Hs.
      by rewrite E in Hs. }
    destruct (later_txns a' b (wCommitTxnRequest_Txnid commit_req) Hwf' Hl) as (_ & Hg & _); [simpl; lia|].
    unfold CommitTxn. rewrite Hg; [done|]. apply lookup_delete_eq.
  - cbv zeta. unfold AbortTxn. destruct (txns a !! wAbortTxnRequest_Txnid abort_req) as [st|] eqn:E; [|done].
    intros Hl Hc. pose proof (Ht _ _ E).
    set (a' := mkAcid _ _ _ _) in Hl. assert (acid_wf a') as Hwf'.
    { pose proof (acid_wf_step (RAbortTxn abort_req) a Hwf I) as Hs. cbn [serve] in Hs. unfold AbortTxn in Hs.
      by rewrite E in Hs. }
    destruct (later_txns a' b (wAbortTxnRequest_Txnid abort_req) Hwf' Hl) as (_ & _ & Hg); [simpl; lia|].
    unfold CommitTxn. rewrite Hc, Hg; [done|]. apply lookup_insert_eq.
Qed.

(** Two tables locked EXCLUSIVE, then a request for the first one's database. *)
Definition demo_component (level : Z) (tbl : string) : wLockComponent :=
  mk_wLockComponent LockType_EXCLUSIVE level "db" (Some tbl) None 3 true false.
Definition demo_lock (c : wLockComponent) : wLockRequest :=
  mk_wLockRequest (Some [Some c]) (Some 1) "me" "here" "" false false false.
Definition demo_acid : acidState :=
  serve (RLock (demo_lock (demo_component 2 "b"))) (serve (RLock (demo_lock (demo_component 2 "a")))
    (serve (ROpenTxns (mk_wOpenTxnRequest 1 "me" "here" "" None None 0)) newAcidState)).

Lemma demo_acid_reachable : acid_reachable demo_acid.
Proof.
  unfold demo_acid. repeat (apply acid_step; [|vm_compute; discriminate]). apply acid_init.
Qed.

(** Lock 2 was released; the id it had is not given again. *)
Definition demo_unlocked : acidState := serve (RUnlock (mk_wUnlockRequest 2)) demo_acid.
Lemma demo_unlocked_run : acid_run [2; 1] demo_unlocked.
Proof.
  assert (forall ids a r ids', acid_run ids a -> ids_left r a -> granted r a ++ ids = ids' -> acid_run ids' (serve r a)) as H.
  { intros ids a r ids' Ha Hl <-. by apply run_step. }
  unfold demo_unlocked, demo_acid.
  apply (H [2; 1]); [|exact I|reflexivity]. apply (H [1]); [|vm_compute; discriminate|vm_compute; reflexivity].
  apply (H []); [|vm_compute; discriminate|vm_compute; reflexivity].
  apply (H []); [apply run_start|vm_compute; discriminate|reflexivity].
Qed.

Example lock_table_exclusive_witness :
  match Lock (demo_lock (demo_component 1 "x")) demo_unlocked with
  | (a', inr r) => wLockResponse_State r = LockState_WAITING /\ wLockResponse_Lockid r = 3 /\
      locks a' !! 3 = Some (mkLockEntry (Some [Some (demo_component 1 "x")]) LockState_WAITING) /\ locks a' !! 2 = None /\
      ~ In (wLockResponse_Lockid r) [2; 1]
  | (_, inl _) => False
  end.
Proof.
  pose proof (lock_table_exclusive [2; 1] demo_unlocked (demo_lock (demo_component 1 "x")) demo_unlocked_run) as H.
  destruct H as [_ H]; [vm_compute; discriminate|].
  assert (match Lock (demo_lock (demo_component 1 "x")) demo_unlocked with
          | (a', inr r) => (wLockResponse_State r, wLockResponse_Lockid r, locks a' !! 3, locks a' !! 2)
          | (_, inl _) => (0, 0, None, None) end =
          (LockState_WAITING, 3, Some (mkLockEntry (Some [Some (demo_component 1 "x")]) LockState_WAITING), None)) as Hw
    by (vm_compute; reflexivity).
  destruct (Lock (demo_lock (demo_component 1 "x")) demo_unlocked) as [a' [e|r]]; [discriminate Hw|].
  injection Hw as H1 H2 H3 H4. destruct H as (_ & H5 & _).
  exact (conj H1 (conj H2 (conj H3 (conj H4 H5)))).
Defined.

Example txn_ends_once_witness :
  match CommitTxn (mk_wCommitTxnRequest 1 None None None None false None) demo_acid with
  | (a', inr _) => CommitTxn (mk_wCommitTxnRequest 1 None None None None false None) a' = (a', inl (NoSuchTxn 1))
  | (_, inl _) => False
  end.
Proof.
  pose proof (txn_ends_once demo_acid (fst (CommitTxn (mk_wCommitTxnRequest 1 None None None None false None) demo_acid))
    (mk_wOpenTxnRequest 1 "me" "here" "" None None 0) (mk_wCommitTxnRequest 1 None None None None false None)
    (mk_wAbortTxnRequest 1 None None None) demo_acid_reachable) as H.
  destruct H as (_ & H & _); [vm_compute; discriminate|].
  assert (match snd (CommitTxn (mk_wCommitTxnRequest 1 None None None None false None) demo_acid) with
          | inr _ => true | inl _ => false end = true) as Hw by (vm_compute; reflexivity).
  destruct (CommitTxn (mk_wCommitTxnRequest 1 None None None None false None) demo_acid) as [a' [e|r]]; [discriminate Hw|].
  exact (proj2 H (later_now a')).
Defined.
