(* ===== verification/Fake.v ===== *)
(** * Fake: hmstest/handler.go

    The in-process fake metastore of package hmstest: its store and the handler
    of every RPC, for the three versions it emulates. Each handler takes the
    store's mutex for its whole body, so it is one step. Names of recorded calls
    are kept; the recorded arguments, which only tests read, are not. *)

From stdpp Require Import sorting.
From S2P Require Import Prelude Errors GoMonad Wire Types Uri Convert FakeAcid.

Inductive Version := Hive23 | Hive31 | Hive40.
#[export] Instance Version_eq_dec : EqDecision Version.
Proof. solve_decision. Defined.

(** ** The store *)

Record Store := mkStore {
  Catalogs : gmap string wCatalog;
  Databases : gmap string wDatabase;
  Tables : gmap string wTable;
  Partitions : gmap string (list wPartition);
  ColumnStats : gmap string (gmap string (list wColumnStatisticsObj));
  Config : gmap string string;
  Events : list wNotificationEvent;
  Acid : acidState;
}.

Definition NewStore : Store := {|
  Catalogs := {["hive" := mk_wCatalog "hive" None "/user/hive/warehouse" None None]};
  Databases := ∅; Tables := ∅; Partitions := ∅; ColumnStats := ∅; Config := ∅; Events := [];
  Acid := newAcidState |}.

Definition set_Catalogs (x : gmap string wCatalog) (s : Store) : Store :=
  mkStore x (Databases s) (Tables s) (Partitions s) (ColumnStats s) (Config s) (Events s) (Acid s).
Definition set_Databases (x : gmap string wDatabase) (s : Store) : Store :=
  mkStore (Catalogs s) x (Tables s) (Partitions s) (ColumnStats s) (Config s) (Events s) (Acid s).
Definition set_Tables (x : gmap string wTable) (s : Store) : Store :=
  mkStore (Catalogs s) (Databases s) x (Partitions s) (ColumnStats s) (Config s) (Events s) (Acid s).
Definition set_Partitions (x : gmap string (list wPartition)) (s : Store) : Store :=
  mkStore (Catalogs s) (Databases s) (Tables s) x (ColumnStats s) (Config s) (Events s) (Acid s).
Definition set_Events (x : list wNotificationEvent) (s : Store) : Store :=
  mkStore (Catalogs s) (Databases s) (Tables s) (Partitions s) (ColumnStats s) (Config s) x (Acid s).
Definition set_Acid (x : acidState) (s : Store) : Store :=
  mkStore (Catalogs s) (Databases s) (Tables s) (Partitions s) (ColumnStats s) (Config s) (Events s) x.

(** The server: its version, its store, the calls recorded, and what [now32]
    answers. *)
Record fake := mkFake { f_v : Version; f_store : Store; f_calls : list string; f_now : Z }.

Definition record (name : string) : M fake unit :=
  modify (fun f => mkFake (f_v f) (f_store f) (f_calls f ++ [name]) (f_now f)).
Definition store : M fake Store := fun f => (f, inr (f_store f)).
Definition version : M fake Version := fun f => (f, inr (f_v f)).
Definition now32 : M fake Z := fun f => (f, inr (f_now f)).
Definition update (g : Store -> Store) : M fake unit :=
  modify (fun f => mkFake (f_v f) (g (f_store f)) (f_calls f) (f_now f)).
Definition lift {A} (r : goerr + A) : M fake A := fun f => (f, r).

Definition quoted (s : string) : string := String "034"%char (s +:+ String "034"%char EmptyString).

(** [id] is the length of the log plus one, as [int64]. *)
Definition newEvent (now : Z) (events : list wNotificationEvent) (eventType db tbl : string) : wNotificationEvent :=
  let body := "{" +:+ quoted "db" +:+ ":" +:+ quoted db +:+
              (if String.eqb tbl "" then "" else "," +:+ quoted "table" +:+ ":" +:+ quoted tbl) +:+ "}" in
  mk_wNotificationEvent (int64 (Z.of_nat (length events) + 1)) now eventType (Some db)
    (if String.eqb tbl "" then None else Some tbl) body (Some "json-0.2") None.
Definition recordEvent (eventType db tbl : string) : M fake unit :=
  (t <- now32;;
   update (fun s => set_Events (Events s ++ [newEvent t (Events s) eventType db tbl]) s))%go.

(** ** Names *)

Definition meta (msg : string) : goerr := EThrift MetaException msg.
Definition no_such (msg : string) : goerr := EThrift NoSuchObjectException msg.
Definition exists_already (msg : string) : goerr := EThrift AlreadyExistsException msg.

Definition cat (v : Version) (catName : option string) : goerr + string :=
  match catName with
  | None => inr "hive"
  | Some c => if decide (v = Hive23) then inl (meta "unexpected catName") else inr c
  end.

Definition splitCatDB (name : string) : string * string :=
  match strip_prefix "@" name with
  | None => ("hive", name)
  | Some rest =>
      let '(c, d, ok) := cut "#" rest in
      if ok : bool then (c, d) else ("hive", name)
  end.

Definition HasPrefix (p s : string) : bool := match strip_prefix p s with Some _ => true | None => false end.

Definition resolveDB (v : Version) (name : string) : goerr + (string * string) :=
  if decide (v = Hive23) then
    if HasPrefix "@" name then inl (meta "unexpected catalog qualifier") else inr (splitCatDB name)
  else inr (splitCatDB name).

Definition dbKey (catName db : string) : string := catName +:+ "." +:+ db.
Definition tblKey (catName db tbl : string) : string := catName +:+ "." +:+ db +:+ "." +:+ tbl.

(** [slices.Sort] on strings: byte order. *)
Definition string_le (a b : string) : Prop := String.leb a b = true.
#[export] Instance string_le_dec : RelDecision string_le.
Proof. intros a b. unfold string_le. apply _. Defined.
Definition sort_names (l : list string) : list string := merge_sort string_le l.

(** A decoded list holds no nil pointer. *)
Definition deref {A} (s : slice (option A)) : list A := omap id (elems s).
Definition refs {A} (l : list A) : slice (option A) := Some (map Some l).
(** What [var out []*T] is once [l] was appended to it: nil, when that is nothing. *)
Definition appended {A} (l : list A) : slice (option A) := match l with [] => None | _ => refs l end.

(** ** Partitions *)

Definition values (p : wPartition) : list string := elems (wPartition_Values p).

Fixpoint find_index {A} (f : A -> bool) (l : list A) : option nat :=
  match l with
  | [] => None
  | x :: l => if f x then Some O else option_map S (find_index f l)
  end.

(** [-1] is [None]. *)
Definition findPartition (parts : list wPartition) (vs : list string) : option nat :=
  find_index (fun p => bool_decide (values p = vs)) parts.

Definition truncateParts {A} (parts : list A) (maxParts : Z) : list A :=
  if (0 <=? maxParts) && (maxParts <? Z.of_nat (length parts)) then take (Z.to_nat maxParts) parts else parts.

Definition key_names (tbl : wTable) : list string := map wFieldSchema_Name (deref (wTable_PartitionKeys tbl)).

Fixpoint name_segments (keys vs : list string) : list string :=
  match keys with
  | [] => []
  | k :: keys => (k +:+ "=" +:+ hd "" vs) :: name_segments keys (tl vs)
  end.
Definition partitionName (tbl : wTable) (p : wPartition) : string :=
  String.concat "/" (name_segments (key_names tbl) (values p)).

Definition partitionsMatchingNames (tbl : wTable) (parts : list wPartition) (names : list string) : list wPartition :=
  List.filter (fun p => existsb (String.eqb (partitionName tbl p)) names) parts.

Fixpoint partitionMatchesPartialValues (vs partialValues : list string) : bool :=
  match partialValues with
  | [] => true
  | v :: partialValues =>
      (String.eqb v "" || match vs with [] => false | w :: _ => String.eqb w v end)
      && partitionMatchesPartialValues (tl vs) partialValues
  end.
Definition partitionsMatchingPartialValues (parts : list wPartition) (partialValues : list string) : list wPartition :=
  List.filter (fun p => partitionMatchesPartialValues (values p) partialValues) parts.

(** ** Partition filters *)

(** Go's [\s]: tab, newline, form feed, carriage return, space. *)
Definition is_space (c : ascii) : bool :=
  existsb (fun n => Nat.eqb (nat_of_ascii c) n) [9; 10; 12; 13; 32]%nat.
Fixpoint skip_spaces (s : string) : string :=
  match s with String c s' => if is_space c then skip_spaces s' else s | EmptyString => EmptyString end.

(** What follows a match of [(?i)\s+and\s+] at the start of [s]. A run of spaces
    is taken whole: what must follow it is not a space. *)
Definition lower (c : ascii) : ascii :=
  let n := nat_of_ascii c in if (Nat.leb 65 n && Nat.leb n 90)%bool then ascii_of_nat (n + 32) else c.
Definition and_at (s : string) : option string :=
  match s with
  | String c _ =>
      if is_space c then
        match skip_spaces s with
        | String a (String n (String d (String sp rest))) =>
            if (Ascii.eqb (lower a) "a" && Ascii.eqb (lower n) "n" && Ascii.eqb (lower d) "d" && is_space sp)%bool
            then Some (skip_spaces rest) else None
        | _ => None
        end
      else None
  | EmptyString => None
  end.

(** [filterAndSplit.Split(s, -1)], [acc] reversed being the current piece. Each
    step drops at least one byte, so the length of [s] is enough fuel. *)
Fixpoint and_split (fuel : nat) (acc : string) (s : string) : list string :=
  match fuel with
  | O => [String.rev acc]
  | S fuel =>
      match s with
      | EmptyString => [String.rev acc]
      | String c s' =>
          match and_at s with
          | Some rest => String.rev acc :: and_split fuel EmptyString rest
          | None => and_split fuel (String c acc) s'
          end
      end
  end.
Definition filterAndSplit (s : string) : list string := and_split (String.length s) EmptyString s.

(** The value between two quotes, when there is one and no quote inside it. *)
Definition unquote (raw : string) : option string :=
  match raw with
  | String q rest =>
      if Ascii.eqb q "'" then
        match String.rev rest with
        | String q' inner =>
            if Ascii.eqb q' "'" then
              if contains_byte "'" inner then None else Some (String.rev inner)
            else None
        | EmptyString => None
        end
      else None
  | EmptyString => None
  end.

Definition parseFilterEqTerm (term : string) : option (string * string) :=
  let '(before, after, ok) := cut "=" term in
  if ok : bool then
    let key := TrimSpace before in
    if String.eqb key "" then None
    else option_map (pair key) (unquote (TrimSpace after))
  else None.

Definition unsupported_filter (filter : string) : goerr :=
  meta ("unsupported partition filter (only " +:+ quoted "key = 'value'" +:+ " terms joined by " +:+ quoted "and"
        +:+ " are supported): " +:+ filter).

Fixpoint filter_terms (filter : string) (terms : list string) (out : gmap string string)
    : goerr + gmap string string :=
  match terms with
  | [] => inr out
  | term :: terms =>
      match parseFilterEqTerm term with
      | Some (k, v) => filter_terms filter terms (<[k := v]> out)
      | None => inl (unsupported_filter filter)
      end
  end.
Definition parsePartitionFilter (filter : string) : goerr + gmap string string :=
  let filter := TrimSpace filter in
  if String.eqb filter "" then inr ∅ else filter_terms filter (filterAndSplit filter) ∅.

Definition term_matches (keys vs : list string) (k v : string) : bool :=
  match find_index (String.eqb k) keys with
  | Some i => match vs !! i with Some w => String.eqb w v | None => false end
  | None => false
  end.
Definition partitionMatchesFilterTerms (tbl : wTable) (p : wPartition) (terms : gmap string string) : bool :=
  forallb (fun '(k, v) => term_matches (key_names tbl) (values p) k v) (map_to_list terms).

(** ** The handlers *)

Section handlers.
(** [path.Match], on globs other than "" and "*". *)
Context (path_Match : string -> string -> bool).
Local Open Scope go_scope.

Definition SetUgi (user : string) (groups : slice string) : M fake (slice string) :=
  record "set_ugi";;; ret groups.
(** [fb303.FbStatus_ALIVE] *)
Definition GetStatus : M fake Z := record "getStatus";;; ret 2.
Definition versionString (v : Version) : string :=
  match v with Hive23 | Hive31 => "3.0" | Hive40 => "4.0.1" end.
Definition GetVersion : M fake string := record "getVersion";;; v <- version;; ret (versionString v).
Definition GetConfigValue (name defaultValue : string) : M fake string :=
  record "get_config_value";;; s <- store;; ret (default defaultValue (Config s !! name)).

(** *** Catalogs *)

Definition GetCatalogs : M fake wGetCatalogsResponse :=
  record "get_catalogs";;; s <- store;;
  ret (mk_wGetCatalogsResponse (Some (sort_names (map fst (map_to_list (Catalogs s)))))).

Definition catalog_missing (name : string) : goerr := no_such ("catalog " +:+ name +:+ " not found").

Definition GetCatalog (req : wGetCatalogRequest) : M fake wGetCatalogResponse :=
  record "get_catalog";;; s <- store;;
  match Catalogs s !! wGetCatalogRequest_Name req with
  | None => throw (catalog_missing (wGetCatalogRequest_Name req))
  | Some c => ret (mk_wGetCatalogResponse (Some c))
  end.

(** [if stored.CreateTime == nil || *stored.CreateTime == 0] *)
Definition create_time (t : option Z) (now : Z) : option Z :=
  match t with Some t => Some (if t =? 0 then now else t) | None => Some now end.

(** The request's catalog is not nil on the wire. *)
Definition CreateCatalog (req : wCreateCatalogRequest) : M fake unit :=
  record "create_catalog";;; s <- store;; now <- now32;;
  match wCreateCatalogRequest_Catalog req with
  | None => throw nil_dereference
  | Some c =>
      let name := wCatalog_Name c in
      match Catalogs s !! name with
      | Some _ => throw (exists_already ("catalog " +:+ name +:+ " already exists"))
      | None =>
          update (set_Catalogs (<[name := mk_wCatalog name (wCatalog_Description c) (wCatalog_LocationUri c)
                                            (create_time (wCatalog_CreateTime c) now) (wCatalog_Parameters c)]> (Catalogs s)))
      end
  end.

Definition DropCatalog (req : wDropCatalogRequest) : M fake unit :=
  record "drop_catalog";;; s <- store;;
  match Catalogs s !! wDropCatalogRequest_Name req with
  | None => throw (catalog_missing (wDropCatalogRequest_Name req))
  | Some _ => update (set_Catalogs (delete (wDropCatalogRequest_Name req) (Catalogs s)))
  end.

(** *** Databases *)

Definition database_missing (db : string) : goerr := no_such ("database " +:+ db +:+ " not found").

(** The names of the databases a test keeps, under a key prefix. *)
Definition database_names (prefix : string) (keep : string -> bool) (s : Store) : slice string :=
  match List.filter keep (map (fun kd => wDatabase_Name (snd kd))
          (List.filter (fun kd => HasPrefix prefix (fst kd)) (map_to_list (Databases s)))) with
  | [] => None
  | l => Some (sort_names l)
  end.

Definition GetAllDatabases : M fake (slice string) :=
  record "get_all_databases";;; s <- store;; ret (database_names "hive." (fun _ => true) s).

Definition GetDatabases (pattern : string) : M fake (slice string) :=
  record "get_databases";;; v <- version;; cd <- lift (resolveDB v pattern);; s <- store;;
  ret (database_names (fst cd +:+ ".")
         (fun name => (String.eqb (snd cd) "" || String.eqb (snd cd) "*" || path_Match (snd cd) name)%bool) s).

Definition GetDatabase (name : string) : M fake wDatabase :=
  record "get_database";;; v <- version;; cd <- lift (resolveDB v name);; s <- store;;
  match Databases s !! dbKey (fst cd) (snd cd) with
  | None => throw (database_missing (snd cd))
  | Some d => ret d
  end.

Definition stored_database (name : string) (created : option Z) (db : wDatabase) : wDatabase :=
  mk_wDatabase name (wDatabase_Description db) (wDatabase_LocationUri db) (wDatabase_Parameters db)
    (wDatabase_Privileges db) (wDatabase_OwnerName db) (wDatabase_OwnerType db) (wDatabase_CatalogName db) created
    (wDatabase_ManagedLocationUri db) (wDatabase_Type db) (wDatabase_ConnectorName db) (wDatabase_RemoteDbname db).

Definition CreateDatabase (db : option wDatabase) : M fake unit :=
  record "create_database";;;
  match db with
  | None => throw nil_dereference
  | Some db =>
      if String.eqb (wDatabase_LocationUri db) "" then
        throw (meta "java.lang.IllegalArgumentException: Can not create a Path from an empty string")
      else
        v <- version;; cd <- lift (resolveDB v (wDatabase_Name db));;
        let name := snd cd in
        let catName := match wDatabase_CatalogName db with
                       | Some c => if String.eqb c "" then fst cd else c
                       | None => fst cd
                       end in
        s <- store;; now <- now32;;
        let key := dbKey catName name in
        match Databases s !! key with
        | Some _ => throw (exists_already ("database " +:+ name +:+ " already exists"))
        | None =>
            update (set_Databases (<[key := stored_database name (create_time (wDatabase_CreateTime db) now) db]>
                                     (Databases s)));;;
            recordEvent "CREATE_DATABASE" name ""
        end
  end.

Definition AlterDatabase (name : string) (db : option wDatabase) : M fake unit :=
  record "alter_database";;; v <- version;; cd <- lift (resolveDB v name);; s <- store;;
  let key := dbKey (fst cd) (snd cd) in
  match Databases s !! key, db with
  | None, _ => throw (database_missing (snd cd))
  | Some _, None => throw nil_dereference
  | Some _, Some db =>
      update (set_Databases (<[key := stored_database (snd cd) (wDatabase_CreateTime db) db]> (Databases s)))
  end.

Definition table_keys (prefix : string) (s : Store) : list string :=
  List.filter (HasPrefix prefix) (map fst (map_to_list (Tables s))).

Definition DropDatabase (name : string) (deleteData cascade : bool) : M fake unit :=
  record "drop_database";;; v <- version;; cd <- lift (resolveDB v name);; s <- store;;
  let db := snd cd in
  let key := dbKey (fst cd) db in
  match Databases s !! key with
  | None =>
      if decide (v = Hive31) then throw (meta "java.lang.NullPointerException") else throw (database_missing db)
  | Some _ =>
      let tblKeys := table_keys (key +:+ ".") s in
      if match tblKeys with [] => false | _ => negb cascade end
      then throw (EThrift InvalidOperationException ("database " +:+ db +:+ " is not empty"))
      else
        update (fun s => fold_left (fun s tk => set_Partitions (delete tk (Partitions s)) (set_Tables (delete tk (Tables s)) s))
                           tblKeys s);;;
        update (fun s => set_Databases (delete key (Databases s)) s);;;
        recordEvent "DROP_DATABASE" db ""
  end.

(** *** Tables *)

Definition table_missing (db tbl : string) : goerr := no_such ("table " +:+ db +:+ "." +:+ tbl +:+ " not found").

Definition GetAllTables (dbName : string) : M fake (slice string) :=
  record "get_all_tables";;; v <- version;; cd <- lift (resolveDB v dbName);; s <- store;;
  let prefix := dbKey (fst cd) (snd cd) +:+ "." in
  match map (fun kt => wTable_TableName (snd kt))
          (List.filter (fun kt => HasPrefix prefix (fst kt)) (map_to_list (Tables s))) with
  | [] => ret None
  | l => ret (Some (sort_names l))
  end.

Definition unexpected (field : string) : goerr := meta ("unexpected non-default field " +:+ field).

Definition GetTableReq (req : wGetTableRequest) : M fake wGetTableResult_ :=
  record "get_table_req";;; v <- version;; catName <- lift (cat v (wGetTableRequest_CatName req));;
  if negb (String.eqb (wGetTableRequest_Engine req) "hive") then throw (unexpected "Engine")
  else if negb (wGetTableRequest_ID req =? -1) then throw (unexpected "ID")
  else
    s <- store;;
    match Tables s !! tblKey catName (wGetTableRequest_DbName req) (wGetTableRequest_TblName req) with
    | None => throw (table_missing (wGetTableRequest_DbName req) (wGetTableRequest_TblName req))
    | Some t => ret (mk_wGetTableResult_ (Some t) None)
    end.

Definition GetTableObjectsByNameReq (req : wGetTablesRequest) : M fake wGetTablesResult_ :=
  record "get_table_objects_by_name_req";;; v <- version;; catName <- lift (cat v (wGetTablesRequest_CatName req));;
  s <- store;;
  ret (mk_wGetTablesResult_
         (refs (omap (fun name => Tables s !! tblKey catName (wGetTablesRequest_DbName req) name)
                  (elems (wGetTablesRequest_TblNames req))))).

Definition set_table_create_time (t : Z) (x : wTable) : wTable :=
  mk_wTable (wTable_TableName x) (wTable_DbName x) (wTable_Owner x) t (wTable_LastAccessTime x) (wTable_Retention x)
    (wTable_Sd x) (wTable_PartitionKeys x) (wTable_Parameters x) (wTable_ViewOriginalText x)
    (wTable_ViewExpandedText x) (wTable_TableType x) (wTable_Privileges x) (wTable_Temporary x)
    (wTable_RewriteEnabled x) (wTable_CreationMetadata x) (wTable_CatName x) (wTable_OwnerType x) (wTable_WriteId x)
    (wTable_IsStatsCompliant x) (wTable_ColStats x) (wTable_AccessType x) (wTable_RequiredReadCapabilities x)
    (wTable_RequiredWriteCapabilities x) (wTable_ID x) (wTable_FileMetadata x) (wTable_Dictionary x) (wTable_TxnId x).

Definition CreateTable (tbl : option wTable) : M fake unit :=
  record "create_table";;;
  match tbl with
  | None => throw nil_dereference
  | Some tbl =>
      v <- version;; catName <- lift (cat v (wTable_CatName tbl));; s <- store;; now <- now32;;
      let key := tblKey catName (wTable_DbName tbl) (wTable_TableName tbl) in
      match Tables s !! key with
      | Some _ => throw (exists_already ("table " +:+ wTable_TableName tbl +:+ " already exists"))
      | None =>
          let stored := if wTable_CreateTime tbl =? 0 then set_table_create_time now tbl else tbl in
          update (set_Tables (<[key := stored]> (Tables s)));;;
          recordEvent "CREATE_TABLE" (wTable_DbName tbl) (wTable_TableName tbl)
      end
  end.

Definition AlterTable (dbName tblName : string) (newTbl : option wTable) : M fake unit :=
  record "alter_table";;; v <- version;; cd <- lift (resolveDB v dbName);; s <- store;;
  let key := tblKey (fst cd) (snd cd) tblName in
  match Tables s !! key, newTbl with
  | None, _ => throw (meta ("table " +:+ snd cd +:+ "." +:+ tblName +:+ " not found"))
  | Some _, None => throw nil_dereference
  | Some _, Some t =>
      update (set_Tables (<[tblKey (fst cd) (snd cd) (wTable_TableName t) := t]> (delete key (Tables s))));;;
      recordEvent "ALTER_TABLE" (snd cd) (wTable_TableName t)
  end.

Definition DropTable (dbName name : string) (deleteData : bool) : M fake unit :=
  record "drop_table";;; v <- version;; cd <- lift (resolveDB v dbName);; s <- store;;
  let key := tblKey (fst cd) (snd cd) name in
  match Tables s !! key with
  | None => throw (table_missing (snd cd) name)
  | Some _ =>
      update (fun s => set_Partitions (delete key (Partitions s)) (set_Tables (delete key (Tables s)) s));;;
      recordEvent "DROP_TABLE" (snd cd) name
  end.

(** *** Partitions *)

Definition parts_of (key : string) (s : Store) : list wPartition := default [] (Partitions s !! key).

(** [key], the table and its partitions, or the NoSuchObjectException. *)
Definition with_table {A} (catName db tbl : string) (k : string -> wTable -> list wPartition -> M fake A) : M fake A :=
  s <- store;;
  let key := tblKey catName db tbl in
  match Tables s !! key with
  | None => throw (table_missing db tbl)
  | Some t => k key t (parts_of key s)
  end.

Definition GetPartitions (dbName tblName : string) (maxParts : Z) : M fake (slice (option wPartition)) :=
  record "get_partitions";;; v <- version;; cd <- lift (resolveDB v dbName);;
  with_table (fst cd) (snd cd) tblName (fun _ _ ps => ret (refs (truncateParts ps maxParts))).

Definition GetPartitionsReq (req : wPartitionsRequest) : M fake wPartitionsResponse :=
  record "get_partitions_req";;; v <- version;; catName <- lift (cat v (wPartitionsRequest_CatName req));;
  if negb (wPartitionsRequest_ID req =? -1) then throw (unexpected "ID")
  else with_table catName (wPartitionsRequest_DbName req) (wPartitionsRequest_TblName req) (fun _ _ ps =>
         ret (mk_wPartitionsResponse (refs (truncateParts ps (wPartitionsRequest_MaxParts req))))).

Definition GetPartitionNames (dbName tblName : string) (maxParts : Z) : M fake (slice string) :=
  record "get_partition_names";;; v <- version;; cd <- lift (resolveDB v dbName);;
  with_table (fst cd) (snd cd) tblName (fun _ t ps => ret (Some (map (partitionName t) (truncateParts ps maxParts)))).

(** The [for _, p := range req.Parts] loop: [existing] and [added]. *)
Fixpoint add_loop (ifNotExists : bool) (now : Z) (ps existing added : list wPartition)
    : goerr + (list wPartition * list wPartition) :=
  match ps with
  | [] => inr (existing, added)
  | p :: ps =>
      match findPartition existing (values p) with
      | Some _ => if ifNotExists then add_loop ifNotExists now ps existing added
                  else inl (exists_already "partition already exists")
      | None =>
          let stored := if wPartition_CreateTime p =? 0
            then mk_wPartition (wPartition_Values p) (wPartition_DbName p) (wPartition_TableName p) now
                   (wPartition_LastAccessTime p) (wPartition_Sd p) (wPartition_Parameters p) (wPartition_Privileges p)
                   (wPartition_CatName p) (wPartition_WriteId p) (wPartition_IsStatsCompliant p) (wPartition_ColStats p)
                   (wPartition_FileMetadata p)
            else p in
          add_loop ifNotExists now ps (existing ++ [stored]) (added ++ [stored])
      end
  end.

Definition AddPartitionsReq (req : wAddPartitionsRequest) : M fake wAddPartitionsResult_ :=
  record "add_partitions_req";;; v <- version;; catName <- lift (cat v (wAddPartitionsRequest_CatName req));;
  s <- store;; now <- now32;;
  let key := tblKey catName (wAddPartitionsRequest_DbName req) (wAddPartitionsRequest_TblName req) in
  match Tables s !! key with
  | None => throw (meta ("table " +:+ wAddPartitionsRequest_DbName req +:+ "." +:+ wAddPartitionsRequest_TblName req
                         +:+ " not found"))
  | Some _ =>
      ea <- lift (add_loop (wAddPartitionsRequest_IfNotExists req) now (deref (wAddPartitionsRequest_Parts req))
                    (parts_of key s) []);;
      update (set_Partitions (<[key := fst ea]> (Partitions s)));;;
      (match snd ea with
       | [] => ret tt
       | _ => recordEvent "ADD_PARTITION" (wAddPartitionsRequest_DbName req) (wAddPartitionsRequest_TblName req)
       end);;;
      ret (mk_wAddPartitionsResult_ (refs (snd ea)) None None)
  end.

(** The first loop of applyAlterPartitions: every index, before anything moves. *)
Fixpoint alter_indexes (existing parts : list wPartition) : option (list nat) :=
  match parts with
  | [] => Some []
  | np :: parts =>
      match findPartition existing (values np) with
      | None => None
      | Some i => option_map (cons i) (alter_indexes existing parts)
      end
  end.

Definition applyAlterPartitions (catName db tbl : string) (parts : list wPartition) : M fake unit :=
  s <- store;;
  let key := tblKey catName db tbl in
  match Tables s !! key with
  | None => throw (meta ("table " +:+ db +:+ "." +:+ tbl +:+ " not found"))
  | Some _ =>
      match alter_indexes (parts_of key s) parts with
      | None => throw (EThrift InvalidOperationException "partition not found")
      | Some idxs =>
          let existing := fold_left (fun l ip => <[fst ip := snd ip]> l) (zip idxs parts) (parts_of key s) in
          update (set_Partitions (<[key := existing]> (Partitions s)))
      end
  end.

Definition AlterPartitions (dbName tblName : string) (parts : slice (option wPartition)) : M fake unit :=
  record "alter_partitions";;; v <- version;; cd <- lift (resolveDB v dbName);;
  applyAlterPartitions (fst cd) (snd cd) tblName (deref parts).

Definition AlterPartitionsReq (req : wAlterPartitionsRequest) : M fake unit :=
  record "alter_partitions_req";;; v <- version;; catName <- lift (cat v (wAlterPartitionsRequest_CatName req));;
  if negb (wAlterPartitionsRequest_WriteId req =? -1) then throw (unexpected "WriteId")
  else applyAlterPartitions catName (wAlterPartitionsRequest_DbName req) (wAlterPartitionsRequest_TableName req)
         (deref (wAlterPartitionsRequest_Partitions req)).

Definition DropPartition (dbName tblName : string) (partVals : slice string) (deleteData : bool) : M fake bool :=
  record "drop_partition";;; v <- version;; cd <- lift (resolveDB v dbName);; s <- store;;
  let key := tblKey (fst cd) (snd cd) tblName in
  match findPartition (parts_of key s) (elems partVals) with
  | None => throw (no_such "partition not found")
  | Some i =>
      update (set_Partitions (<[key := delete i (parts_of key s)]> (Partitions s)));;;
      recordEvent "DROP_PARTITION" (snd cd) tblName;;; ret true
  end.

(** [existing = append(existing[:i], existing[i+1:]...)] on the first [m] cells of
    the backing array: the cells after [i] move down one, and the last keeps what
    it held. *)
Definition remove_in_place (i m : nat) (arr : list wPartition) : list wPartition :=
  take i arr ++ take (m - S i) (drop (S i) arr) ++ drop (m - 1) arr.

(** The loop over req.Parts.Names: the array, and the length of [existing], it
    reaches; [false] when a name is missing. *)
Fixpoint drop_names (tbl : wTable) (names : list string) (arr : list wPartition) (m : nat)
    : list wPartition * nat * bool :=
  match names with
  | [] => (arr, m, true)
  | name :: names =>
      match find_index (fun p => String.eqb (partitionName tbl p) name) (take m arr) with
      | None => (arr, m, false)
      | Some i => drop_names tbl names (remove_in_place i m arr) (m - 1)
      end
  end.

(** What is checked before the store is looked at. *)
Definition drop_request_error (req : wDropPartitionsRequest) : option goerr :=
  if bool_decide (is_Some (wDropPartitionsRequest_IgnoreProtection req)) then Some (unexpected "IgnoreProtection")
  else if bool_decide (is_Some (wDropPartitionsRequest_EnvironmentContext req)) then Some (unexpected "EnvironmentContext")
  else if bool_decide (is_Some (wDropPartitionsRequest_SkipColumnSchemaForPartition req))
  then Some (unexpected "SkipColumnSchemaForPartition")
  else if wDropPartitionsRequest_NeedResult_ req then Some (unexpected "NeedResult_")
  else match wDropPartitionsRequest_Parts req with
       | None => Some (unexpected "Parts.Exprs")
       | Some spec => match elems (wRequestPartsSpec_Exprs spec) with
                      | [] => None
                      | _ => Some (unexpected "Parts.Exprs")
                      end
       end.

(** When a name is missing the store keeps its own slice, of the old length, over
    the array the loop has already moved. *)
Definition DropPartitionsReq (req : wDropPartitionsRequest) : M fake unit :=
  record "drop_partitions_req";;; v <- version;; catName <- lift (cat v (wDropPartitionsRequest_CatName req));;
  match drop_request_error req with
  | Some e => throw e
  | None =>
      with_table catName (wDropPartitionsRequest_DbName req) (wDropPartitionsRequest_TblName req) (fun key t ps =>
        let names := match wDropPartitionsRequest_Parts req with
                     | Some spec => elems (wRequestPartsSpec_Names spec)
                     | None => []
                     end in
        let '(arr, m, ok) := drop_names t names ps (length ps) in
        if ok : bool then
          update (fun s => set_Partitions (<[key := take m arr]> (Partitions s)) s);;;
          recordEvent "DROP_PARTITION" (wDropPartitionsRequest_DbName req) (wDropPartitionsRequest_TblName req)
        else
          update (fun s => set_Partitions (match Partitions s !! key with
                                           | Some _ => <[key := arr]> (Partitions s)
                                           | None => Partitions s
                                           end) s);;;
          throw (no_such "Some partitions to drop are missing"))
  end.

Definition GetPartitionsByNames (dbName tblName : string) (names : slice string) : M fake (slice (option wPartition)) :=
  record "get_partitions_by_names";;; v <- version;; cd <- lift (resolveDB v dbName);;
  with_table (fst cd) (snd cd) tblName (fun _ t ps => ret (appended (partitionsMatchingNames t ps (elems names)))).

Definition GetPartitionsByNamesReq (req : wGetPartitionsByNamesRequest) : M fake wGetPartitionsByNamesResult_ :=
  record "get_partitions_by_names_req";;;
  if negb (String.eqb (wGetPartitionsByNamesRequest_Engine req) "hive") then throw (unexpected "Engine")
  else if negb (wGetPartitionsByNamesRequest_ID req =? -1) then throw (unexpected "ID")
  else
    v <- version;; cd <- lift (resolveDB v (wGetPartitionsByNamesRequest_DbName req));;
    with_table (fst cd) (snd cd) (wGetPartitionsByNamesRequest_TblName req) (fun _ t ps =>
      ret (mk_wGetPartitionsByNamesResult_
             (appended (partitionsMatchingNames t ps (elems (wGetPartitionsByNamesRequest_Names req)))) None)).

Definition GetPartitionsByFilter (dbName tblName filter : string) (maxParts : Z) : M fake (slice (option wPartition)) :=
  record "get_partitions_by_filter";;; v <- version;; cd <- lift (resolveDB v dbName);;
  terms <- lift (parsePartitionFilter filter);;
  with_table (fst cd) (snd cd) tblName (fun _ t ps =>
    ret (refs (truncateParts (List.filter (fun p => partitionMatchesFilterTerms t p terms) ps) maxParts))).

Definition GetPartitionNamesPs (dbName tblName : string) (partVals : slice string) (maxParts : Z) : M fake (slice string) :=
  record "get_partition_names_ps";;; v <- version;; cd <- lift (resolveDB v dbName);;
  with_table (fst cd) (snd cd) tblName (fun _ t ps =>
    ret (Some (map (partitionName t) (truncateParts (partitionsMatchingPartialValues ps (elems partVals)) maxParts)))).

Definition GetPartitionNamesPsReq (req : wGetPartitionNamesPsRequest) : M fake wGetPartitionNamesPsResponse :=
  record "get_partition_names_ps_req";;; v <- version;;
  catName <- lift (cat v (wGetPartitionNamesPsRequest_CatName req));;
  if negb (wGetPartitionNamesPsRequest_ID req =? -1) then throw (unexpected "ID")
  else with_table catName (wGetPartitionNamesPsRequest_DbName req) (wGetPartitionNamesPsRequest_TblName req) (fun _ t ps =>
         ret (mk_wGetPartitionNamesPsResponse
                (Some (map (partitionName t)
                         (truncateParts (partitionsMatchingPartialValues ps (elems (wGetPartitionNamesPsRequest_PartValues req)))
                            (wGetPartitionNamesPsRequest_MaxParts req)))))).

(** *** Notifications and statistics *)

Definition GetCurrentNotificationEventId : M fake wCurrentNotificationEventId :=
  record "get_current_notificationEventId";;; s <- store;;
  ret (mk_wCurrentNotificationEventId
         (match list.last (Events s) with Some e => wNotificationEvent_EventId e | None => 0 end)).

(** The loop over the log: [out] so far, and the limit when there is one. *)
Fixpoint next_events (lastEvent : Z) (want : option (list string)) (limit : option Z)
    (events out : list wNotificationEvent) : list wNotificationEvent :=
  match events with
  | [] => out
  | e :: events =>
      if wNotificationEvent_EventId e <=? lastEvent then next_events lastEvent want limit events out
      else if match want with
              | Some l => negb (existsb (String.eqb (wNotificationEvent_EventType e)) l)
              | None => false
              end
      then next_events lastEvent want limit events out
      else
        let out := out ++ [e] in
        if match limit with Some n => (0 <? n) && (n <=? Z.of_nat (length out)) | None => false end
        then out else next_events lastEvent want limit events out
  end.

Definition GetNextNotification (req : wNotificationEventRequest) : M fake wNotificationEventResponse :=
  record "get_next_notification";;; v <- version;; s <- store;;
  let types := elems (wNotificationEventRequest_EventTypeList req) in
  let want := if decide (v = Hive40) then match types with [] => None | _ => Some types end else None in
  match next_events (wNotificationEventRequest_LastEvent req) want (wNotificationEventRequest_MaxEvents req) (Events s) [] with
  | [] => ret (mk_wNotificationEventResponse None)
  | l => ret (mk_wNotificationEventResponse (refs l))
  end.

Definition GetTableStatisticsReq (req : wTableStatsRequest) : M fake wTableStatsResult_ :=
  record "get_table_statistics_req";;; v <- version;; catName <- lift (cat v (wTableStatsRequest_CatName req));;
  let engine := if decide (v = Hive40) then wTableStatsRequest_Engine req else "hive" in
  if negb (wTableStatsRequest_ID req =? -1) then throw (unexpected "ID")
  else with_table catName (wTableStatsRequest_DbName req) (wTableStatsRequest_TblName req) (fun key _ _ =>
    s <- store;;
    let stats := default [] (default ∅ (ColumnStats s !! key) !! engine) in
    match List.filter (fun o => existsb (String.eqb (wColumnStatisticsObj_ColName o)) (elems (wTableStatsRequest_ColNames req))) stats with
    | [] => ret (mk_wTableStatsResult_ None None)
    | l => ret (mk_wTableStatsResult_ (refs l) None)
    end).

(** *** Transactions and locks, under their own mutex *)

Definition on_acid {A} (name : string) (m : M acidState A) : M fake A :=
  record name;;; s <- store;;
  (fun f => let '(a, r) := m (Acid s) in (fst (update (set_Acid a) f), r)).

End handlers.

(** ** Seeding (hmstest/server.go) *)

Definition seed_cat (c : option string) : string :=
  match c with Some c => if String.eqb c "" then "hive" else c | None => "hive" end.
Definition SeedTable (t : wTable) (s : Store) : Store :=
  set_Tables (<[tblKey (seed_cat (wTable_CatName t)) (wTable_DbName t) (wTable_TableName t) := t]> (Tables s)) s.
Definition SeedPartitions (catName dbName tblName : string) (parts : list wPartition) (s : Store) : Store :=
  set_Partitions (<[tblKey (if String.eqb catName "" then "hive" else catName) dbName tblName := parts]> (Partitions s)) s.
Definition SeedDatabase (db : wDatabase) (s : Store) : Store :=
  set_Databases (<[dbKey (seed_cat (wDatabase_CatalogName db)) (wDatabase_Name db) := db]> (Databases s)) s.
Definition SeedColumnStatsForEngine (db tbl engine : string) (stats : list wColumnStatisticsObj) (s : Store) : Store :=
  let key := tblKey "hive" db tbl in
  mkStore (Catalogs s) (Databases s) (Tables s) (Partitions s)
    (<[key := <[engine := stats]> (default ∅ (ColumnStats s !! key))]> (ColumnStats s)) (Config s) (Events s) (Acid s).
Definition SeedColumnStats (db tbl : string) (stats : list wColumnStatisticsObj) (s : Store) : Store :=
  SeedColumnStatsForEngine db tbl "hive" stats s.

(** ** The server's methods (hmstest/server.go) *)

Definition removedRPCs (v : Version) : list string :=
  match v with
  | Hive23 =>
      ["get_catalogs"; "get_catalog"; "create_catalog"; "drop_catalog"; "alter_partitions_req"; "get_partitions_req";
       "get_partitions_by_names_req"; "get_partition_names_ps_req"]
  | Hive31 =>
      ["alter_partitions_req"; "get_partitions_req"; "get_partitions_by_names_req"; "get_partition_names_ps_req"]
  | Hive40 => []
  end.
