(* ===== verification/FakeFacts.v ===== *)
(** * FakeFacts: the fake metastore's partition drop

    hmstest's DropPartitionsReq edits the table's partitions in place; here is what
    that comes to. *)

From S2P Require Import Prelude Errors GoMonad Wire FakeAcid Fake.

(** What dropping by name means: the first partition of each name goes, or nothing
    when a name has none. *)
Fixpoint drop_ref (tbl : wTable) (names : list string) (ps : list wPartition) : option (list wPartition) :=
  match names with
  | [] => Some ps
  | name :: names =>
      match find_index (fun p => String.eqb (partitionName tbl p) name) ps with
      | None => None
      | Some i => drop_ref tbl names (delete i ps)
      end
  end.

Lemma find_index_lt {A} (f : A -> bool) l i : find_index f l = Some i -> (i < length l)%nat.
Proof.
  revert i. induction l as [|x l IH]; simpl; intros i; [done|].
  destruct (f x); [intros [= <-]; lia|]. destruct (find_index f l) as [j|]; [|done].
  intros [= <-]. specialize (IH j eq_refl). lia.
Qed.

Lemma remove_in_place_length i m arr : (i < m)%nat -> (m <= length arr)%nat ->
  length (remove_in_place i m arr) = length arr.
Proof. intros Hi Hm. unfold remove_in_place. rewrite !length_app, !length_take, !length_drop. lia. Qed.

Lemma remove_in_place_take i m arr : (i < m)%nat -> (m <= length arr)%nat ->
  take (m - 1) (remove_in_place i m arr) = delete i (take m arr).
Proof.
  intros Hi Hm. unfold remove_in_place.
  rewrite app_assoc, take_app_length' by (rewrite length_app, !length_take, length_drop; lia).
  by rewrite delete_take_drop, take_take, Nat.min_l, skipn_firstn_comm by lia.
Qed.

Lemma drop_names_ref tbl names arr m : (m <= length arr)%nat ->
  let '(arr', m', ok) := drop_names tbl names arr m in
  length arr' = length arr /\
  drop_ref tbl names (take m arr) = if ok : bool then Some (take m' arr') else None.
Proof.
  revert arr m. induction names as [|n names IH]; intros arr m Hm; simpl; [done|].
  destruct (find_index _ (take m arr)) as [i|] eqn:Ei; [|done].
  apply find_index_lt in Ei. rewrite length_take in Ei.
  specialize (IH (remove_in_place i m arr) (m - 1)%nat). rewrite remove_in_place_length, remove_in_place_take in IH by lia.
  apply IH. lia.
Qed.

(** The store a failed drop leaves: the table's entry, if any, over the moved array. *)
Lemma moved_length key arr s : length arr = length (parts_of key s) ->
  length (parts_of key (set_Partitions (match Partitions s !! key with
                                        | Some _ => <[key := arr]> (Partitions s)
                                        | None => Partitions s
                                        end) s)) = length (parts_of key s).
Proof.
  unfold parts_of. simpl. destruct (Partitions s !! key) eqn:E; simpl; intros H; [by rewrite lookup_insert_eq|by rewrite E].
Qed.

Lemma drop_request_parts req : drop_request_error req = None -> is_Some (wDropPartitionsRequest_Parts req).
Proof.
  unfold drop_request_error. repeat case_bool_decide; try done.
  by destruct (wDropPartitionsRequest_NeedResult_ req), (wDropPartitionsRequest_Parts req).
Qed.

(** Dropping partitions by name on the fake: a request with a field this client
    never sets is refused before the store is looked at; with every name present
    the in-place edits leave exactly the partitions that taking each name out
    would, and one DROP_PARTITION event is recorded; with a name missing the
    answer is NoSuchObjectException, no event is recorded, and the table keeps as
    many partition entries as it had, whatever req.IfExists says. *)
Theorem drop_partitions_contract req (f : fake) :
  match cat (f_v f) (wDropPartitionsRequest_CatName req) with
  | inl e => snd (DropPartitionsReq req f) = inl e /\ f_store (fst (DropPartitionsReq req f)) = f_store f
  | inr c =>
      let db := wDropPartitionsRequest_DbName req in
      let tbl := wDropPartitionsRequest_TblName req in
      let key := tblKey c db tbl in
      let names := elems (default None (wRequestPartsSpec_Names <$> wDropPartitionsRequest_Parts req)) in
      let s := f_store f in
      let '(f', r) := DropPartitionsReq req f in
      match drop_request_error req, Tables s !! key with
      | Some e, _ => r = inl e /\ f_store f' = s
      | None, None => r = inl (table_missing db tbl) /\ f_store f' = s
      | None, Some t =>
          match drop_ref t names (parts_of key s) with
          | Some ps => r = inr tt /\ Partitions (f_store f') = <[key := ps]> (Partitions s) /\
                       length (Events (f_store f')) = S (length (Events s))
          | None => r = inl (no_such "Some partitions to drop are missing") /\
                    Events (f_store f') = Events s /\
                    length (parts_of key (f_store f')) = length (parts_of key s)
          end
      end
  end.
Proof.
  destruct (cat (f_v f) (wDropPartitionsRequest_CatName req)) as [e|c] eqn:Hc.
  { unfold DropPartitionsReq, bind, record, modify, version, lift. simpl. by rewrite Hc. }
  cbv zeta. unfold DropPartitionsReq, bind, record, modify, version, lift. simpl. rewrite Hc.
  destruct (drop_request_error req) as [e|] eqn:Ee; [done|].
  unfold with_table, bind, store. simpl. destruct (Tables (f_store f) !! tblKey c _ _) as [t|]; [|done].
  set (ps := parts_of _ _). pose proof (drop_request_parts req Ee) as [spec Hspec]. rewrite Hspec. simpl.
  pose proof (drop_names_ref t (elems (wRequestPartsSpec_Names spec)) ps _ (le_n _)) as H. rewrite firstn_all in H.
  destruct (drop_names _ _ _ _) as [[arr m] [|]]; destruct H as [Hlen ->]; simpl.
  - split_and!; [done|done|]. rewrite length_app. simpl. lia.
  - split_and!; [done|done|]. by apply moved_length.
Qed.

(** A missing name after a present one corrupts the table: dropping p=0 and then a
    partition that is not there leaves p=1 twice and p=0 lost. *)
Definition demo_table : wTable :=
  {| wTable_TableName := "t"; wTable_DbName := "db"; wTable_Owner := ""; wTable_CreateTime := 0;
     wTable_LastAccessTime := 0; wTable_Retention := 0; wTable_Sd := None;
     wTable_PartitionKeys := Some [Some (mk_wFieldSchema "p" "int" "")]; wTable_Parameters := None;
     wTable_ViewOriginalText := ""; wTable_ViewExpandedText := ""; wTable_TableType := "";
     wTable_Privileges := None; wTable_Temporary := false; wTable_RewriteEnabled := None;
     wTable_CreationMetadata := None; wTable_CatName := None; wTable_OwnerType := 1; wTable_WriteId := -1;
     wTable_IsStatsCompliant := None; wTable_ColStats := None; wTable_AccessType := None;
     wTable_RequiredReadCapabilities := None; wTable_RequiredWriteCapabilities := None; wTable_ID := None;
     wTable_FileMetadata := None; wTable_Dictionary := None; wTable_TxnId := None |}.
Definition demo_part (v : string) : wPartition :=
  {| wPartition_Values := Some [v]; wPartition_DbName := "db"; wPartition_TableName := "t";
     wPartition_CreateTime := 0; wPartition_LastAccessTime := 0; wPartition_Sd := None;
     wPartition_Parameters := None; wPartition_Privileges := None; wPartition_CatName := None;
     wPartition_WriteId := -1; wPartition_IsStatsCompliant := None; wPartition_ColStats := None;
     wPartition_FileMetadata := None |}.
Definition demo_store : Store :=
  SeedPartitions "" "db" "t" [demo_part "0"; demo_part "1"] (SeedTable demo_table NewStore).
Definition demo_drop (names : list string) : wDropPartitionsRequest :=
  {| wDropPartitionsRequest_DbName := "db"; wDropPartitionsRequest_TblName := "t";
     wDropPartitionsRequest_Parts := Some (mk_wRequestPartsSpec (Some names) None);
     wDropPartitionsRequest_DeleteData := None; wDropPartitionsRequest_IfExists := true;
     wDropPartitionsRequest_IgnoreProtection := None; wDropPartitionsRequest_EnvironmentContext := None;
     wDropPartitionsRequest_NeedResult_ := false; wDropPartitionsRequest_CatName := None;
     wDropPartitionsRequest_SkipColumnSchemaForPartition := None |}.

(** A missing name after a present one, with IfExists: the call fails, where the
    method's comment says the name is skipped, and the table is left with p=1
    twice and p=0 gone, though the call dropped nothing it announced. *)
Example drop_partitions_corrupts :
  let '(f', r) := DropPartitionsReq (demo_drop ["p=0"; "p=9"]) (mkFake Hive31 demo_store [] 0) in
  r = inl (no_such "Some partitions to drop are missing") /\
  map values (parts_of "hive.db.t" (f_store f')) = [["1"]; ["1"]] /\
  Events (f_store f') = [].
Proof. vm_compute. done. Qed.

(** A renamed table leaves its partitions behind, for the next table of its old name. *)
Example rename_strands_partitions :
  let renamed := {| wTable_TableName := "u"; wTable_DbName := "db"; wTable_Owner := ""; wTable_CreateTime := 0;
     wTable_LastAccessTime := 0; wTable_Retention := 0; wTable_Sd := None;
     wTable_PartitionKeys := wTable_PartitionKeys demo_table; wTable_Parameters := None;
     wTable_ViewOriginalText := ""; wTable_ViewExpandedText := ""; wTable_TableType := "";
     wTable_Privileges := None; wTable_Temporary := false; wTable_RewriteEnabled := None;
     wTable_CreationMetadata := None; wTable_CatName := None; wTable_OwnerType := 1; wTable_WriteId := -1;
     wTable_IsStatsCompliant := None; wTable_ColStats := None; wTable_AccessType := None;
     wTable_RequiredReadCapabilities := None; wTable_RequiredWriteCapabilities := None; wTable_ID := None;
     wTable_FileMetadata := None; wTable_Dictionary := None; wTable_TxnId := None |} in
  let '(f1, r1) := AlterTable "db" "t" (Some renamed) (mkFake Hive31 demo_store [] 0) in
  let '(f2, r2) := CreateTable (Some demo_table) f1 in
  r1 = inr tt /\ snd (GetPartitions "db" "u" (-1) f1) = inr (Some []) /\
  r2 = inr tt /\ snd (GetPartitions "db" "t" (-1) f2) = inr (Some [Some (demo_part "0"); Some (demo_part "1")]).
Proof. vm_compute. done. Qed.
