(* ===== verification/FakeServer.v ===== *)
(** * FakeServer: hmstest/server.go

    The fake's network side: the goroutine that accepts, one goroutine per
    connection, and any number of goroutines that call Stop. A step is one access to
    what they share (the mutex, [stopped], the listener, [conns], the wait group,
    [failNext], a socket); an execution is any interleaving. And [NewServer]. *)

From S2P Require Import Prelude Errors GoMonad Wire Types Fake.

(** ** State *)

(** Connections are numbered as they are accepted. *)
Abbreviation cid := nat (only parsing).

Inductive owner := OwnServe | OwnStop (i : nat).

(** [sv_dropped] and [sv_served] count the failures injected and the methods run. *)
Record server := mkServer {
  sv_failNext : Z; sv_mu : option owner; sv_stopped : bool; sv_listening : bool; sv_conns : gset cid; sv_wg : Z;
  sv_panics : list string; sv_dropped : Z; sv_served : Z }.

(** [serve]: in Accept; with a new conn, mu to take; holding mu; about to close a
    rejected conn; with the conn stored; about to unlock; returned. *)
Inductive serve_pc :=
  | VAccept | VGot (c : cid) | VLocked (c : cid) | VReject (c : cid) | VStored (c : cid) | VUnlock | VExit.

(** [Stop]: not called; holding mu; about to unlock, having set [stopped]; about to
    close the listener; in Range, past [seen]; in Wait; returned; returned at once. *)
Inductive stop_pc := TRest | TLocked | TUnlock | TListener | TRange (seen : gset cid) | TWait | TDone | TReturned.

(** [handleConn]: not started; reading a message header; about to load [failNext];
    about to swap it; about to close the conn instead of serving; in a method;
    recovering from its panic; about to close, to delete, to leave the group; over. *)
Inductive handler_pc :=
  | HNone | HRead | HLoad | HSwap (cur : Z) | HInjected | HRun | HPanicked (msg : string) | HClose | HDelete | HLeave | HOver.

#[export] Instance serve_pc_eq_dec : EqDecision serve_pc.
Proof. solve_decision. Defined.
#[export] Instance stop_pc_eq_dec : EqDecision stop_pc.
Proof. solve_decision. Defined.
#[export] Instance handler_pc_eq_dec : EqDecision handler_pc.
Proof. solve_decision. Defined.

Record hconn := mkHconn { h_open : bool; h_pc : handler_pc }.

Record system := mkSystem { sy_srv : server; sy_serve : serve_pc; sy_stops : list stop_pc; sy_conns : list hconn }.

(** ** Updates *)

Definition set_failNext (n : Z) (s : server) : server :=
  mkServer n (sv_mu s) (sv_stopped s) (sv_listening s) (sv_conns s) (sv_wg s) (sv_panics s) (sv_dropped s + 1) (sv_served s).
Definition set_mu (m : option owner) (s : server) : server :=
  mkServer (sv_failNext s) m (sv_stopped s) (sv_listening s) (sv_conns s) (sv_wg s) (sv_panics s) (sv_dropped s) (sv_served s).
Definition set_stopped (s : server) : server :=
  mkServer (sv_failNext s) (sv_mu s) true (sv_listening s) (sv_conns s) (sv_wg s) (sv_panics s) (sv_dropped s) (sv_served s).
Definition close_listener (s : server) : server :=
  mkServer (sv_failNext s) (sv_mu s) (sv_stopped s) false (sv_conns s) (sv_wg s) (sv_panics s) (sv_dropped s) (sv_served s).
Definition set_conns (cs : gset cid) (s : server) : server :=
  mkServer (sv_failNext s) (sv_mu s) (sv_stopped s) (sv_listening s) cs (sv_wg s) (sv_panics s) (sv_dropped s) (sv_served s).
Definition wg_add (d : Z) (s : server) : server :=
  mkServer (sv_failNext s) (sv_mu s) (sv_stopped s) (sv_listening s) (sv_conns s) (sv_wg s + d) (sv_panics s) (sv_dropped s) (sv_served s).
Definition recordPanic (msg : string) (s : server) : server :=
  mkServer (sv_failNext s) (sv_mu s) (sv_stopped s) (sv_listening s) (sv_conns s) (sv_wg s) (sv_panics s ++ [msg]) (sv_dropped s) (sv_served s).
Definition run_method (s : server) : server :=
  mkServer (sv_failNext s) (sv_mu s) (sv_stopped s) (sv_listening s) (sv_conns s) (sv_wg s) (sv_panics s) (sv_dropped s) (sv_served s + 1).

Definition close_conn (c : cid) (cs : list hconn) : list hconn := alter (fun h => mkHconn false (h_pc h)) c cs.
Definition start_handler (c : cid) (cs : list hconn) : list hconn := alter (fun h => mkHconn (h_open h) HRead) c cs.

(** ** Steps *)

(** What the environment decides: a conn arrives, or a message; a read fails because
    this side closed the conn, or because the client hung up or its bytes are no message;
    how [Process] ends; which key Range visits next. *)
Inductive choice := Go | Arrives | Message | ReadFails | HangsUp | Processed (ok : bool) (err : option goerr) | Panics (msg : string) | Visit (c : cid).

(** The end of the loop in handleConn; [abandoned] is [errors.Is(err, thrift.ErrAbandonRequest)]. *)
Definition ends (abandoned : goerr -> bool) (ok : bool) (err : option goerr) : bool :=
  match err with
  | None => negb ok
  | Some e =>
      if abandoned e then true
      else if existsb (fun n => match n with ETransport _ _ => true | _ => false end) (nodes e) then true
      else match as_app e with
           | Some (t, _) => if decide (t = UNKNOWN_METHOD) then false else negb ok
           | None => negb ok
           end
  end.

Definition lock_free (s : server) : bool := match sv_mu s with None => true | Some _ => false end.

Definition serve_step (c : choice) (y : system) : option system :=
  let s := sy_srv y in
  let go s pc cs := Some (mkSystem s pc (sy_stops y) cs) in
  match sy_serve y, c with
  | VAccept, Arrives => if sv_listening s then go s (VGot (length (sy_conns y))) (sy_conns y ++ [mkHconn true HNone]) else None
  | VAccept, Go => if sv_listening s then None else go s VExit (sy_conns y)
  | VGot k, Go => if lock_free s then go (set_mu (Some OwnServe) s) (VLocked k) (sy_conns y) else None
  | VLocked k, Go =>
      if sv_stopped s then go (set_mu None s) (VReject k) (sy_conns y)
      else go (set_conns ({[k]} ∪ sv_conns s) s) (VStored k) (sy_conns y)
  | VReject k, Go => go s VExit (close_conn k (sy_conns y))
  | VStored k, Go => go (wg_add 1 s) VUnlock (start_handler k (sy_conns y))
  | VUnlock, Go => go (set_mu None s) VAccept (sy_conns y)
  | _, _ => None
  end.

Definition stop_step (i : nat) (p : stop_pc) (c : choice) (y : system) : option system :=
  let s := sy_srv y in
  let go s p cs := Some (mkSystem s (sy_serve y) (<[i := p]> (sy_stops y)) cs) in
  match p, c with
  | TRest, Go => if lock_free s then go (set_mu (Some (OwnStop i)) s) TLocked (sy_conns y) else None
  | TLocked, Go =>
      if sv_stopped s then go (set_mu None s) TReturned (sy_conns y) else go (set_stopped s) TUnlock (sy_conns y)
  | TUnlock, Go => go (set_mu None s) TListener (sy_conns y)
  | TListener, Go => go (close_listener s) (TRange ∅) (sy_conns y)
  | TRange seen, Visit k =>
      if decide (k ∈ sv_conns s /\ k ∉ seen) then go s (TRange ({[k]} ∪ seen)) (close_conn k (sy_conns y)) else None
  | TRange seen, Go => if decide (sv_conns s ⊆ seen) then go s TWait (sy_conns y) else None
  | TWait, Go => if sv_wg s =? 0 then go s TDone (sy_conns y) else None
  | _, _ => None
  end.

Section handler.
Context (abandoned : goerr -> bool).

(** A handler's step on its conn and the server. *)
Definition handler_step (k : cid) (h : hconn) (c : choice) (s : server) : option (hconn * server) :=
  let at_ pc := mkHconn (h_open h) pc in
  match h_pc h, c with
  | HRead, Message => Some (at_ HLoad, s)
  | HRead, HangsUp => Some (at_ HClose, s)
  | HRead, ReadFails => if h_open h then None else Some (at_ HClose, s)
  | HLoad, Go => if sv_failNext s <=? 0 then Some (at_ HRun, run_method s) else Some (at_ (HSwap (sv_failNext s)), s)
  | HSwap cur, Go =>
      if sv_failNext s =? cur then Some (at_ HInjected, set_failNext (cur - 1) s) else Some (at_ HLoad, s)
  | HInjected, Go => Some (mkHconn false HClose, s)
  | HRun, Processed ok err => Some (at_ (if ends abandoned ok err then HClose else HRead), s)
  | HRun, Panics msg => Some (at_ (HPanicked msg), s)
  | HPanicked msg, Go => Some (at_ HClose, recordPanic msg s)
  | HClose, Go => Some (mkHconn false HDelete, s)
  | HDelete, Go => Some (at_ HLeave, set_conns (sv_conns s ∖ {[k]}) s)
  | HLeave, Go => Some (at_ HOver, wg_add (-1) s)
  | _, _ => None
  end.

Inductive who := WServe | WStop (i : nat) | WHandler (k : cid).

Definition sys_step (w : who) (c : choice) (y : system) : option system :=
  match w with
  | WServe => serve_step c y
  | WStop i => p ← sy_stops y !! i; stop_step i p c y
  | WHandler k =>
      h ← sy_conns y !! k;
      '(h, s) ← handler_step k h c (sy_srv y);
      Some (mkSystem s (sy_serve y) (sy_stops y) (<[k := h]> (sy_conns y)))
  end.

(** [n] failures to inject, and so many goroutines that may call Stop. *)
Definition server_init (n : Z) : server := mkServer n None false true ∅ 0 [] 0 0.
Definition sys_init (n : Z) (stops : nat) : system := mkSystem (server_init n) VAccept (replicate stops TRest) [].

Inductive server_reachable (n : Z) (stops : nat) : system -> Prop :=
  | sr_init : server_reachable n stops (sys_init n stops)
  | sr_step w c y y' : server_reachable n stops y -> sys_step w c y = Some y' -> server_reachable n stops y'.

End handler.

Abbreviation sys_run abandoned := (orun (fun wc => sys_step abandoned (fst wc) (snd wc))).

(** ** The mutex *)

Definition serve_holds (p : serve_pc) : bool := match p with VLocked _ | VStored _ | VUnlock => true | _ => false end.
Definition stop_holds (p : stop_pc) : bool := match p with TLocked | TUnlock => true | _ => false end.
(** The Stop that set [stopped]. *)
Definition first_stop (p : stop_pc) : bool := match p with TUnlock | TListener | TRange _ | TWait | TDone => true | _ => false end.
Definition past_listener (p : stop_pc) : bool := match p with TRange _ | TWait | TDone => true | _ => false end.

Record mutex_ok (y : system) : Prop := {
  mx_serve : serve_holds (sy_serve y) = true <-> sv_mu (sy_srv y) = Some OwnServe;
  mx_stop : forall i p, sy_stops y !! i = Some p -> stop_holds p = true <-> sv_mu (sy_srv y) = Some (OwnStop i);
  mx_stored : sv_stopped (sy_srv y) = true -> match sy_serve y with VStored _ | VUnlock => False | _ => True end;
  mx_first : forall i p, sy_stops y !! i = Some p -> first_stop p = true -> sv_stopped (sy_srv y) = true;
  mx_listener : forall i p, sy_stops y !! i = Some p -> past_listener p = true -> sv_listening (sy_srv y) = false;
}.

Section inv.
Context (abandoned : goerr -> bool) (n : Z) (stops : nat).
Local Abbreviation reachable := (server_reachable abandoned n stops).

Lemma handler_frame k h c s h' s' : handler_step abandoned k h c s = Some (h', s') ->
  sv_mu s' = sv_mu s /\ sv_stopped s' = sv_stopped s /\ sv_listening s' = sv_listening s /\
  sv_conns s' = (if decide (h_pc h = HDelete) then sv_conns s ∖ {[k]} else sv_conns s) /\ h_pc h <> HNone /\ h_pc h <> HOver /\
  h_pc h' <> HNone /\ (h_open h' = true -> h_open h = true).
Proof.
  unfold handler_step. destruct (h_pc h) eqn:E, c; try done; intros Hs;
    repeat match type of Hs with context [if ?b then _ else _] => destruct b end;
    try done; injection Hs as <- <-; simpl; split_and!; try done; by repeat case_match.
Qed.

(** What a step of Stop does to its own slot and to the rest. *)
Lemma stops_lookup (l : list stop_pc) i p j q q' : l !! i = Some p ->
  <[i := q]> l !! j = Some q' -> (j = i /\ q' = q) \/ (j <> i /\ l !! j = Some q').
Proof.
  intros Hi. destruct (decide (j = i)) as [->|Hne].
  - rewrite list_lookup_insert_eq by by eapply lookup_lt_Some. intros [= <-]. by left.
  - rewrite list_lookup_insert_ne by done. by right.
Qed.

Lemma mutex_serve c y y' : mutex_ok y -> serve_step c y = Some y' -> mutex_ok y'.
Proof.
  intros [H1 H2 H3 H4 H5]. unfold serve_step, lock_free.
  destruct (sy_serve y) eqn:Ep, c; try done; intros Hs;
    repeat match type of Hs with
           | context [if sv_stopped ?s then _ else _] => destruct (sv_stopped s) eqn:?
           | context [if sv_listening ?s then _ else _] => destruct (sv_listening s) eqn:?
           | context [match sv_mu ?s with _ => _ end] => destruct (sv_mu s) eqn:?
           end; try done; injection Hs as <-;
    (split; simpl in *; [intuition congruence|intros i p Hi; specialize (H2 i p Hi); intuition congruence|..]); try done.
  all: try (intros Hst; first [congruence|by destruct (H3 Hst)]).
  all: intros i p Hi Hf; first [specialize (H5 i p Hi Hf); congruence|specialize (H4 i p Hi Hf); congruence].
Qed.

Lemma mutex_stop i p c y y' : mutex_ok y -> sy_stops y !! i = Some p -> stop_step i p c y = Some y' -> mutex_ok y'.
Proof.
  intros [H1 H2 H3 H4 H5] Hi. pose proof (H2 i p Hi) as Hown. pose proof (H4 i p Hi) as Hfirst. pose proof (H5 i p Hi) as Hlis.
  unfold stop_step, lock_free.
  destruct p, c; try done; intros Hs;
    repeat match type of Hs with
           | context [if sv_stopped ?s then _ else _] => destruct (sv_stopped s) eqn:?
           | context [match sv_mu ?s with _ => _ end] => destruct (sv_mu s) eqn:?
           | context [if ?b then _ else _] => destruct b
           end; try done; injection Hs as <-; simpl in Hown, Hfirst, Hlis;
    (split; simpl;
     [|intros j q Hj; destruct (stops_lookup _ _ _ _ _ _ Hi Hj) as [[-> ->]|[Hne Hj']]; [|specialize (H2 j q Hj')]; simpl
      |
      |intros j q Hj Hf; destruct (stops_lookup _ _ _ _ _ _ Hi Hj) as [[-> ->]|[Hne Hj']]; [|specialize (H4 j q Hj' Hf)]
      |intros j q Hj Hf; destruct (stops_lookup _ _ _ _ _ _ Hi Hj) as [[-> ->]|[Hne Hj']]; [|specialize (H5 j q Hj' Hf)]]);
    try done; try (by intuition congruence).
  all: try (intros _; destruct (sy_serve y); try done; simpl in H1; intuition congruence).
Qed.

Lemma server_mutex y : reachable y -> mutex_ok y.
Proof.
  induction 1 as [|w c y y' _ IH Hs].
  - split; simpl; try done.
    + intros i p Hi. apply lookup_replicate in Hi as [-> _]. simpl. done.
    + intros i p Hi. by apply lookup_replicate in Hi as [-> _].
    + intros i p Hi. by apply lookup_replicate in Hi as [-> _].
  - destruct w as [|i|k]; simpl in Hs.
    + by eapply mutex_serve.
    + destruct (sy_stops y !! i) as [p|] eqn:Ei; [|done]. by eapply mutex_stop.
    + destruct (sy_conns y !! k) as [h|] eqn:Ek; [|done]. simpl in Hs.
      destruct (handler_step _ _ _ _ _) as [[h' s']|] eqn:Eh; [|done]. injection Hs as <-.
      apply handler_frame in Eh as (E1 & E2 & E3 & _). destruct IH as [H1 H2 H3 H4 H5].
      split; simpl; rewrite ?E1, ?E2, ?E3; done.
Qed.

(** ** The sockets *)

Lemma alter_lookup (f : hconn -> hconn) k (l : list hconn) j h' : alter f k l !! j = Some h' ->
  exists h, l !! j = Some h /\ h' = (if decide (j = k) then f h else h).
Proof.
  destruct (decide (j = k)) as [->|Hne].
  - rewrite list_lookup_alter_eq. destruct (l !! k) as [h|]; [|done]. intros [= <-]. by exists h.
  - rewrite list_lookup_alter_ne by done. intros ->. by exists h'.
Qed.

Definition in_loop (p : handler_pc) : bool := match p with HNone | HLeave | HOver => false | _ => true end.
Definition past_close (p : handler_pc) : bool := match p with HDelete | HLeave | HOver => true | _ => false end.
Definition serve_conn (p : serve_pc) : option cid :=
  match p with VGot k | VLocked k | VReject k | VStored k => Some k | _ => None end.
Definition waiting (p : stop_pc) : bool := match p with TWait | TDone => true | _ => false end.

Record conns_ok (y : system) : Prop := {
  cn_serve : forall k, serve_conn (sy_serve y) = Some k -> h_pc <$> sy_conns y !! k = Some HNone;
  cn_none : forall k h, sy_conns y !! k = Some h -> h_pc h = HNone -> h_open h = true -> serve_conn (sy_serve y) = Some k;
  cn_vstored : forall k, sy_serve y = VStored k -> k ∈ sv_conns (sy_srv y);
  cn_stored : forall k h, sy_conns y !! k = Some h -> in_loop (h_pc h) = true -> k ∈ sv_conns (sy_srv y);
  cn_closed : forall k h, sy_conns y !! k = Some h -> past_close (h_pc h) = true -> h_open h = false;
  cn_range : forall i seen k h, sy_stops y !! i = Some (TRange seen) -> k ∈ seen -> sy_conns y !! k = Some h -> h_open h = false;
  cn_wait : forall i p k h, sy_stops y !! i = Some p -> waiting p = true -> sy_conns y !! k = Some h -> h_pc h <> HNone ->
    h_open h = false;
}.

(** Only a socket closed, or a handler started, and not once a Stop waits. *)
Lemma conns_close k y srv srv' : conns_ok y -> sv_conns srv' = sv_conns srv -> sy_srv y = srv ->
  conns_ok (mkSystem srv' (sy_serve y) (sy_stops y) (close_conn k (sy_conns y))).
Proof.
  intros [H1 H2 H3 H4 H5 H6 H7] Hc <-. unfold close_conn. split; simpl; rewrite ?Hc.
  - intros j Hj. specialize (H1 j Hj). destruct (sy_conns y !! j) as [h|] eqn:E; [|done].
    destruct (decide (j = k)) as [->|]; [rewrite list_lookup_alter_eq, E|rewrite list_lookup_alter_ne, E by done]; done.
  - intros j h Hj. apply alter_lookup in Hj as (h0 & Hj & ->). case_decide; [done|]. by apply H2.
  - done.
  - intros j h Hj. apply alter_lookup in Hj as (h0 & Hj & ->). specialize (H4 j h0 Hj). by case_decide.
  - intros j h Hj. apply alter_lookup in Hj as (h0 & Hj & ->). specialize (H5 j h0 Hj). by case_decide.
  - intros i seen j h Hi Hin Hj. apply alter_lookup in Hj as (h0 & Hj & ->). specialize (H6 i seen j h0 Hi Hin Hj). by case_decide.
  - intros i p j h Hi Hp Hj Hh. apply alter_lookup in Hj as (h0 & Hj & ->). case_decide; [done|]. by eapply H7.
Qed.

Lemma conns_pc y srv pc : conns_ok y -> sv_conns srv = sv_conns (sy_srv y) -> serve_conn pc = serve_conn (sy_serve y) ->
  (forall k, pc <> VStored k) -> conns_ok (mkSystem srv pc (sy_stops y) (sy_conns y)).
Proof.
  intros [H1 H2 H3 H4 H5 H6 H7] Hc Hp Hn. split; simpl; rewrite ?Hc, ?Hp; try done. intros k Hk. by destruct (Hn k).
Qed.

Lemma waiting_stopped y i p : mutex_ok y -> sy_stops y !! i = Some p -> waiting p = true -> sv_stopped (sy_srv y) = true.
Proof. intros Hm Hi Hp. apply (mx_first y Hm i p Hi). by destruct p. Qed.

(** A new connection: only while the listener is open. *)
Lemma conns_arrive y : mutex_ok y -> conns_ok y -> sv_listening (sy_srv y) = true -> serve_conn (sy_serve y) = None ->
  conns_ok (mkSystem (sy_srv y) (VGot (length (sy_conns y))) (sy_stops y) (sy_conns y ++ [mkHconn true HNone])).
Proof.
  intros Hm [H1 H2 H3 H4 H5 H6 H7] Hl Hs.
  assert (forall k h, (sy_conns y ++ [mkHconn true HNone]) !! k = Some h ->
            sy_conns y !! k = Some h \/ (k = length (sy_conns y) /\ h = mkHconn true HNone)) as Happ.
  { intros k h [Hk|[Hk Hh]]%lookup_app_Some; [by left|right]. apply list_lookup_singleton_Some in Hh as [? <-].
    split; [lia|done]. }
  split; simpl.
  - intros k [= <-]. by rewrite lookup_app_r, Nat.sub_diag by done.
  - intros k h [Hk|[-> ->]]%Happ; [|done]. intros Hn Ho. pose proof (H2 k h Hk Hn Ho). congruence.
  - done.
  - intros k h [Hk|[-> ->]]%Happ; [by eapply H4|done].
  - intros k h [Hk|[-> ->]]%Happ; [by eapply H5|done].
  - intros i seen k h Hi Hin [Hk|[-> ->]]%Happ; [by eapply H6|].
    pose proof (mx_listener y Hm i _ Hi eq_refl). congruence.
  - intros i p k h Hi Hp [Hk|[-> ->]]%Happ; [by eapply H7|done].
Qed.

(** A handler starts: never once a Stop waits. *)
Lemma conns_start k y srv : mutex_ok y -> conns_ok y -> sy_serve y = VStored k -> sv_conns srv = sv_conns (sy_srv y) ->
  conns_ok (mkSystem srv VUnlock (sy_stops y) (start_handler k (sy_conns y))).
Proof.
  intros Hm [H1 H2 H3 H4 H5 H6 H7] Hs Hc. unfold start_handler. split; simpl; rewrite ?Hc.
  - done.
  - intros j h Hj. apply alter_lookup in Hj as (h0 & Hj & ->). case_decide as Hk; [done|]. intros Hn Ho.
    pose proof (H2 j h0 Hj Hn Ho) as E. rewrite Hs in E. injection E as ->. done.
  - done.
  - intros j h Hj. apply alter_lookup in Hj as (h0 & Hj & ->). case_decide as Hk; [intros _; subst; by apply H3|by eapply H4].
  - intros j h Hj. apply alter_lookup in Hj as (h0 & Hj & ->). case_decide; [done|by eapply H5].
  - intros i seen j h Hi Hin Hj. apply alter_lookup in Hj as (h0 & Hj & ->). specialize (H6 i seen j h0 Hi Hin Hj). by case_decide.
  - intros i p j h Hi Hp. pose proof (mx_stored y Hm (waiting_stopped y i p Hm Hi Hp)) as E. by rewrite Hs in E.
Qed.

Lemma conns_serve c y y' : mutex_ok y -> conns_ok y -> serve_step c y = Some y' -> conns_ok y'.
Proof.
  intros Hm Hc. unfold serve_step, lock_free.
  destruct (sy_serve y) as [|k|k|k|k| |] eqn:Ep, c; try done; intros Hs;
    repeat match type of Hs with
           | context [if sv_stopped ?s then _ else _] => destruct (sv_stopped s) eqn:?
           | context [if sv_listening ?s then _ else _] => destruct (sv_listening s) eqn:?
           | context [match sv_mu ?s with _ => _ end] => destruct (sv_mu s) eqn:?
           end; try done; injection Hs as <-.
  all: try (by apply conns_pc; rewrite ?Ep).
  - apply conns_arrive; rewrite ?Ep; done.
  - destruct Hc as [H1 H2 H3 H4 H5 H6 H7]. rewrite Ep in *. split; simpl; try done.
    + intros j [= <-]. set_solver.
    + intros j h Hj Hl. specialize (H4 j h Hj Hl). set_solver.
  - pose proof (conns_close k y _ (sy_srv y) Hc eq_refl eq_refl) as [H1 H2 H3 H4 H5 H6 H7]. rewrite Ep in *. split; simpl in *; try done.
    intros j h Hj Hn Ho. specialize (H2 j h Hj Hn Ho). injection H2 as <-. unfold close_conn in Hj.
    apply alter_lookup in Hj as (h0 & _ & ->). by case_decide.
  - by apply conns_start.
Qed.

Lemma conns_stop i p c y y' : conns_ok y -> sy_stops y !! i = Some p -> stop_step i p c y = Some y' -> conns_ok y'.
Proof.
  intros Hc Hi. unfold stop_step, lock_free.
  assert (forall srv q, sv_conns srv = sv_conns (sy_srv y) ->
            match q with TRange _ | TWait => False | TDone => p = TWait | _ => True end ->
            conns_ok (mkSystem srv (sy_serve y) (<[i := q]> (sy_stops y)) (sy_conns y))) as Hplain.
  { intros srv q Hs Hq. destruct Hc as [H1 H2 H3 H4 H5 H6 H7]. split; simpl; rewrite ?Hs; try done.
    - intros j seen k h Hj. destruct (stops_lookup _ _ _ _ _ _ Hi Hj) as [[-> <-]|[_ Hj']]; [done|by eapply H6].
    - intros j r k h Hj Hr. destruct (stops_lookup _ _ _ _ _ _ Hi Hj) as [[-> ->]|[_ Hj']]; [|by eapply H7].
      destruct q; try done. subst. by eapply H7. }
  destruct p as [| | | |seen| | |], c as [| | | | | | |k]; try done; intros Hs;
    repeat match type of Hs with
           | context [if sv_stopped ?s then _ else _] => destruct (sv_stopped s) eqn:?
           | context [match sv_mu ?s with _ => _ end] => destruct (sv_mu s) eqn:?
           | context [if sv_wg ?s =? 0 then _ else _] => destruct (sv_wg s =? 0)
           | context [if decide ?P then _ else _] => destruct (decide P) as [HP|]
           end; try done; injection Hs as <-; try (by apply Hplain).
  - (* the listener closed: Range starts *)
    destruct Hc as [H1 H2 H3 H4 H5 H6 H7]. split; simpl; try done.
    + intros j seen k h Hj Hin. destruct (stops_lookup _ _ _ _ _ _ Hi Hj) as [[-> [= ->]]|[_ Hj']]; [set_solver|by eapply H6].
    + intros j r k h Hj Hr. destruct (stops_lookup _ _ _ _ _ _ Hi Hj) as [[-> ->]|[_ Hj']]; [done|by eapply H7].
  - (* Range is over *)
    destruct Hc as [H1 H2 H3 H4 H5 H6 H7]. split; simpl; try done.
    + intros j seen' k h Hj. destruct (stops_lookup _ _ _ _ _ _ Hi Hj) as [[-> [=]]|[_ Hj']]. by eapply H6.
    + intros j r k h Hj Hr Hk Hn. destruct (stops_lookup _ _ _ _ _ _ Hi Hj) as [[-> ->]|[_ Hj']]; [|by eapply H7].
      destruct (in_loop (h_pc h)) eqn:El.
      * eapply (H6 i seen k h Hi); [|done]. apply HP. by eapply H4.
      * eapply H5; [done|]. by destruct (h_pc h).
  - (* a visit *)
    pose proof (conns_close k y _ (sy_srv y) Hc eq_refl eq_refl) as [H1 H2 H3 H4 H5 H6 H7]. split; simpl in *; try done.
    + intros j seen' m h Hj Hin Hm. destruct (stops_lookup _ _ _ _ _ _ Hi Hj) as [[-> [= ->]]|[_ Hj']]; [|by eapply H6].
      destruct (decide (m = k)) as [->|Hne]; [|eapply (H6 i seen m h Hi); [set_solver|done]].
      unfold close_conn in Hm. apply alter_lookup in Hm as (h0 & _ & ->). by case_decide.
    + intros j r m h Hj Hr. destruct (stops_lookup _ _ _ _ _ _ Hi Hj) as [[-> ->]|[_ Hj']]; [done|by eapply H7].
Qed.

Lemma conns_handler k c y h h' s' : conns_ok y -> sy_conns y !! k = Some h ->
  handler_step abandoned k h c (sy_srv y) = Some (h', s') ->
  conns_ok (mkSystem s' (sy_serve y) (sy_stops y) (<[k := h']> (sy_conns y))).
Proof.
  intros [H1 H2 H3 H4 H5 H6 H7] Hk Hs. pose proof (handler_frame _ _ _ _ _ _ Hs) as (_ & _ & _ & Ec & Hn & Ho & Hn' & Hop).
  assert (forall j g, <[k := h']> (sy_conns y) !! j = Some g -> (j = k /\ g = h') \/ (j <> k /\ sy_conns y !! j = Some g)) as Hins.
  { intros j g. destruct (decide (j = k)) as [->|Hne].
    - rewrite list_lookup_insert_eq by by eapply lookup_lt_Some. intros [= <-]. by left.
    - rewrite list_lookup_insert_ne by done. by right. }
  assert (forall j, j <> k -> j ∈ sv_conns (sy_srv y) -> j ∈ sv_conns s') as Hkeep
    by (intros j Hj Hin; rewrite Ec; destruct (decide (h_pc h = HDelete)); clear Ec; set_solver).
  split; simpl.
  - intros j Hj. specialize (H1 j Hj). destruct (decide (j = k)) as [->|Hne]; [|by rewrite list_lookup_insert_ne].
    rewrite Hk in H1. by injection H1.
  - intros j g [[-> ->]|[Hne Hj]]%Hins; [done|by apply H2].
  - intros j Hj. apply Hkeep; [|by apply H3]. intros ->. specialize (H1 k). rewrite Hj, Hk in H1. specialize (H1 eq_refl). by injection H1.
  - intros j g [[-> ->]|[Hne Hj]]%Hins; [|intros Hl; apply Hkeep; [done|by eapply H4]].
    intros Hl. assert (in_loop (h_pc h) = true /\ h_pc h <> HDelete) as [Hin Hd].
    { unfold handler_step in Hs. destruct (h_pc h) eqn:E, c; try done; try (injection Hs as <- <-; done). }
    rewrite Ec, decide_False by done. by eapply H4.
  - intros j g [[-> ->]|[Hne Hj]]%Hins; [|by eapply H5]. intros Hp. specialize (H5 k h Hk).
    unfold handler_step in Hs. destruct (h_pc h) eqn:E, c; try done;
      repeat match type of Hs with context [if ?b then _ else _] => destruct b end; try done; injection Hs as <- <-; try done; by apply H5.
  - intros i seen j g Hi Hin [[-> ->]|[Hne Hj]]%Hins; [|by eapply H6]. specialize (H6 i seen k h Hi Hin Hk).
    destruct (h_open h'); [|done]. by rewrite Hop in H6.
  - intros i p j g Hi Hp [[-> ->]|[Hne Hj]]%Hins; [|by eapply H7]. intros _. specialize (H7 i p k h Hi Hp Hk Hn).
    destruct (h_open h'); [|done]. by rewrite Hop in H7.
Qed.

Lemma sockets_inv y : reachable y -> conns_ok y.
Proof.
  induction 1 as [|w c y y' Hr IH Hs].
  - by split.
  - pose proof (server_mutex y Hr) as Hm. destruct w as [|i|k]; simpl in Hs.
    + by eapply conns_serve.
    + destruct (sy_stops y !! i) as [p|] eqn:Ei; [|done]. by eapply conns_stop.
    + destruct (sy_conns y !! k) as [h|] eqn:Ek; [|done]. simpl in Hs.
      destruct (handler_step _ _ _ _ _) as [[h' s']|] eqn:Eh; [|done]. injection Hs as <-. by eapply conns_handler.
Qed.

(** ** The wait group *)

Definition running (p : handler_pc) : bool := match p with HNone | HOver => false | _ => true end.
Definition run_weight (h : hconn) : Z := if running (h_pc h) then 1 else 0.

Record group_ok (y : system) : Prop := {
  gr_wg : sv_wg (sy_srv y) = total run_weight (sy_conns y);
  gr_done : forall i k h, sy_stops y !! i = Some TDone -> sy_conns y !! k = Some h -> h_pc h = HNone \/ h_pc h = HOver;
}.

Lemma alter_insert (f : hconn -> hconn) k (l : list hconn) h : l !! k = Some h -> alter f k l = <[k := f h]> l.
Proof. revert k. induction l as [|x l IH]; intros [|k]; simpl; try done; [by intros [= ->]|intros Hk]. f_equal. by apply IH. Qed.

Lemma total_alter (f : hconn -> hconn) k (l : list hconn) h : l !! k = Some h ->
  total run_weight (alter f k l) = total run_weight l - run_weight h + run_weight (f h).
Proof. intros Hk. rewrite (alter_insert f k l h Hk). by apply total_insert. Qed.

Lemma total_close k (l : list hconn) : total run_weight (close_conn k l) = total run_weight l.
Proof.
  unfold close_conn. destruct (l !! k) as [h|] eqn:E; [rewrite (total_alter _ k l h E); unfold run_weight; simpl; lia|].
  f_equal. apply list_eq. intros j. destruct (decide (j = k)) as [->|]; [by rewrite list_lookup_alter_eq, E|by rewrite list_lookup_alter_ne].
Qed.

Lemma total_snoc (l : list hconn) h : total run_weight (l ++ [h]) = total run_weight l + run_weight h.
Proof. unfold total. induction l as [|x l IH]; simpl; [lia|]. rewrite IH. lia. Qed.

Lemma group_serve c y y' : mutex_ok y -> conns_ok y -> group_ok y -> serve_step c y = Some y' -> group_ok y'.
Proof.
  intros Hm Hc [H1 H2]. unfold serve_step, lock_free.
  destruct (sy_serve y) as [|k|k|k|k| |] eqn:Ep, c; try done; intros Hs;
    repeat match type of Hs with
           | context [if sv_stopped ?s then _ else _] => destruct (sv_stopped s) eqn:?
           | context [if sv_listening ?s then _ else _] => destruct (sv_listening s) eqn:?
           | context [match sv_mu ?s with _ => _ end] => destruct (sv_mu s) eqn:?
           end; try done; injection Hs as <-; try (by split).
  - split; simpl; [rewrite total_snoc, H1; change (run_weight (mkHconn true HNone)) with 0; lia|].
    intros i k h Hi [Hk|[_ Hh]]%lookup_app_Some; [by eapply H2|]. apply list_lookup_singleton_Some in Hh as [_ <-]. by left.
  - split; simpl; [by rewrite total_close|]. intros i j h Hi Hj.
    unfold close_conn in Hj. apply alter_lookup in Hj as (h0 & Hj & ->). specialize (H2 i j h0 Hi Hj). by case_decide.
  - pose proof (cn_serve y Hc k) as Hk. rewrite Ep in Hk. specialize (Hk eq_refl).
    destruct (sy_conns y !! k) as [h|] eqn:Ek; [|done]. injection Hk as Hk. split; simpl.
    + unfold start_handler. rewrite (total_alter _ k _ h Ek), H1. unfold run_weight. rewrite Hk. simpl. lia.
    + intros i j g Hi. pose proof (mx_stored y Hm (waiting_stopped y i _ Hm Hi eq_refl)) as E. by rewrite Ep in E.
Qed.

Lemma group_stop i p c y y' : group_ok y -> sy_stops y !! i = Some p -> stop_step i p c y = Some y' -> group_ok y'.
Proof.
  intros [H1 H2] Hi. unfold stop_step, lock_free.
  destruct p as [| | | |seen| | |], c as [| | | | | | |k]; try done; intros Hs;
    repeat match type of Hs with
           | context [if sv_stopped ?s then _ else _] => destruct (sv_stopped s) eqn:?
           | context [match sv_mu ?s with _ => _ end] => destruct (sv_mu s) eqn:?
           | context [if sv_wg ?s =? 0 then _ else _] => destruct (Z.eqb_spec (sv_wg s) 0) as [Hz|]
           | context [if decide ?P then _ else _] => destruct (decide P) as [HP|]
           end; try done; injection Hs as <-;
    (split; simpl; [by rewrite ?total_close|]); intros j m h Hj Hm;
    destruct (stops_lookup _ _ _ _ _ _ Hi Hj) as [[-> [=]]|[_ Hj']];
    try (unfold close_conn in Hm; apply alter_lookup in Hm as (h0 & Hm & ->); specialize (H2 _ _ _ Hj' Hm); by case_decide);
    try (by eapply H2).
  assert (run_weight h = 0) as Hw.
  { apply (total_zero run_weight (sy_conns y) m); [intros g; unfold run_weight; by destruct (running _)|congruence|done]. }
  unfold run_weight in Hw. destruct (h_pc h); try done; auto.
Qed.

Lemma handler_weight k h c s h' s' : handler_step abandoned k h c s = Some (h', s') ->
  sv_wg s' = sv_wg s - run_weight h + run_weight h'.
Proof.
  unfold handler_step, run_weight. destruct (h_pc h) eqn:E, c; try done; intros Hs;
    repeat match type of Hs with context [if ?b then _ else _] => destruct b end; try done; injection Hs as <- <-; simpl; lia.
Qed.

Lemma group_inv y : reachable y -> group_ok y.
Proof.
  induction 1 as [|w c y y' Hr IH Hs]; [by split|]. destruct w as [|i|k]; simpl in Hs.
  - eapply group_serve; [by apply server_mutex|by apply sockets_inv|done..].
  - destruct (sy_stops y !! i) as [p|] eqn:Ei; [|done]. by eapply group_stop.
  - destruct (sy_conns y !! k) as [h|] eqn:Ek; [|done]. simpl in Hs.
    destruct (handler_step _ _ _ _ _) as [[h' s']|] eqn:Eh; [|done]. injection Hs as <-. destruct IH as [H1 H2]. split; simpl.
    + rewrite (handler_weight _ _ _ _ _ _ Eh), H1, (total_insert _ _ _ h _ Ek). lia.
    + intros i j g Hi Hj. apply handler_frame in Eh as (_ & _ & _ & _ & Hn & Ho & _).
      specialize (H2 i k h Hi Ek). tauto.
Qed.

(** ** Injected failures *)

Record fail_ok (y : system) : Prop := {
  fl_sum : sv_failNext (sy_srv y) + sv_dropped (sy_srv y) = n;
  fl_dropped : 0 <= sv_dropped (sy_srv y) <= Z.max n 0;
  fl_served : 0 <= sv_served (sy_srv y);
  fl_after : 0 < sv_served (sy_srv y) -> sv_failNext (sy_srv y) <= 0;
  fl_swap : forall k h cur, sy_conns y !! k = Some h -> h_pc h = HSwap cur -> 0 < cur;
}.

Lemma fail_same y y' : fail_ok y ->
  sv_failNext (sy_srv y') = sv_failNext (sy_srv y) -> sv_dropped (sy_srv y') = sv_dropped (sy_srv y) ->
  sv_served (sy_srv y') = sv_served (sy_srv y) ->
  (forall k h cur, sy_conns y' !! k = Some h -> h_pc h = HSwap cur -> exists h', sy_conns y !! k = Some h' /\ h_pc h' = HSwap cur) ->
  fail_ok y'.
Proof.
  intros [H1 H2 H3 H4 H5] E1 E2 E3 Hh. split; rewrite ?E1, ?E2, ?E3; try done.
  intros k h cur Hk Hp. destruct (Hh k h cur Hk Hp) as (h' & Hk' & Hp'). by eapply H5.
Qed.

Lemma swaps_close j l k h cur : close_conn j l !! k = Some h -> h_pc h = HSwap cur ->
  exists h', l !! k = Some h' /\ h_pc h' = HSwap cur.
Proof. unfold close_conn. intros Hk Hp. apply alter_lookup in Hk as (h0 & Hk & ->). exists h0. split; [done|]. by case_decide. Qed.
Lemma swaps_start j l k h cur : start_handler j l !! k = Some h -> h_pc h = HSwap cur ->
  exists h', l !! k = Some h' /\ h_pc h' = HSwap cur.
Proof. unfold start_handler. intros Hk Hp. apply alter_lookup in Hk as (h0 & Hk & ->). exists h0. split; [done|]. by case_decide. Qed.
Lemma swaps_snoc l k h cur : (l ++ [mkHconn true HNone]) !! k = Some h -> h_pc h = HSwap cur ->
  exists h', l !! k = Some h' /\ h_pc h' = HSwap cur.
Proof. intros [Hk|[_ Hk]]%lookup_app_Some Hp; [by exists h|]. apply list_lookup_singleton_Some in Hk as [_ <-]. done. Qed.

Lemma fail_handler k c y h h' s' : fail_ok y -> sy_conns y !! k = Some h ->
  handler_step abandoned k h c (sy_srv y) = Some (h', s') ->
  fail_ok (mkSystem s' (sy_serve y) (sy_stops y) (<[k := h']> (sy_conns y))).
Proof.
  intros [H1 H2 H3 H4 H5] Hk Hs.
  assert (forall cur, h_pc h' = HSwap cur -> 0 < cur) as Hcur.
  { intros cur. unfold handler_step in Hs. destruct (h_pc h) eqn:E, c; try done;
      repeat match type of Hs with context [if ?a <=? ?b then _ else _] => destruct (Z.leb_spec a b)
                                 | context [if ?b then _ else _] => destruct b end;
      try done; injection Hs as <- <-; simpl; try done; intros [= <-]; lia. }
  assert (forall cur, h_pc h = HSwap cur -> 0 < cur) as Hold by (intros cur; by apply (H5 k)).
  split; simpl.
  5: { intros j g cur Hj. destruct (decide (j = k)) as [->|Hne].
       - rewrite list_lookup_insert_eq in Hj by by eapply lookup_lt_Some. injection Hj as <-. apply Hcur.
       - rewrite list_lookup_insert_ne in Hj by done. by eapply H5. }
  all: unfold handler_step in Hs; destruct (h_pc h) eqn:E, c; try done;
    repeat match type of Hs with context [if ?a <=? ?b then _ else _] => destruct (Z.leb_spec a b)
                               | context [if ?a =? ?b then _ else _] => destruct (Z.eqb_spec a b)
                               | context [if ?b then _ else _] => destruct b end;
    try done; injection Hs as <- <-; simpl; try done; try lia; try (specialize (Hold _ eq_refl); lia).
Qed.

Lemma fail_inv y : reachable y -> fail_ok y.
Proof.
  induction 1 as [|w c y y' Hr IH Hs]; [split; simpl; try done; lia|]. destruct w as [|i|k]; simpl in Hs.
  - unfold serve_step, lock_free in Hs. destruct (sy_serve y), c; try done;
      repeat match type of Hs with
             | context [if sv_stopped ?s then _ else _] => destruct (sv_stopped s)
             | context [if sv_listening ?s then _ else _] => destruct (sv_listening s)
             | context [match sv_mu ?s with _ => _ end] => destruct (sv_mu s)
             end; try done; injection Hs as <-; apply (fail_same y); try done; simpl; eauto using swaps_close, swaps_start, swaps_snoc.
  - destruct (sy_stops y !! i) as [p|] eqn:Ei; [|done]. simpl in Hs. unfold stop_step, lock_free in Hs. destruct p, c; try done;
      repeat match type of Hs with
             | context [if sv_stopped ?s then _ else _] => destruct (sv_stopped s)
             | context [match sv_mu ?s with _ => _ end] => destruct (sv_mu s)
             | context [if ?b then _ else _] => destruct b
             end; try done; injection Hs as <-; apply (fail_same y); try done; simpl; eauto using swaps_close.
  - destruct (sy_conns y !! k) as [h|] eqn:Ek; [|done]. simpl in Hs.
    destruct (handler_step _ _ _ _ _) as [[h' s']|] eqn:Eh; [|done]. injection Hs as <-. by eapply fail_handler.
Qed.
End inv.

Lemma sys_run_reachable abandoned n stops l y y' : server_reachable abandoned n stops y ->
  sys_run abandoned l y = Some y' -> server_reachable abandoned n stops y'.
Proof. intros Hy. by apply orun_inv; [intros [w c] s s' Hs; by apply sr_step|]. Qed.

(** ** Handlers end *)

Section live.
Context (abandoned : goerr -> bool).

Definition hstep (k : cid) (c : choice) (hs : hconn * server) : option (hconn * server) := handler_step abandoned k (fst hs) c (snd hs).

(** Steps that wait for no client: the server's own, reads of a conn it closed, and the
    end of the methods in progress, with the answers [answer] says. *)
Definition server_side (answer : cid -> bool * option goerr) (wc : who * choice) : Prop :=
  match wc with
  | (_, Go) | (_, Visit _) | (WHandler _, ReadFails) => True
  | (WHandler k, Processed ok err) => answer k = (ok, err)
  | _ => False
  end.

(** From anywhere, on a conn this side has closed. *)
Definition finishing (ok : bool) (err : option goerr) (h : hconn) (s : server) : list choice :=
  let close := [Go; Go; Go] in
  let run := Processed ok err :: (if ends abandoned ok err then close else ReadFails :: close) in
  let swap := Go :: Go :: close in
  let load := if sv_failNext s <=? 0 then Go :: run else Go :: swap in
  match h_pc h with
  | HNone | HOver => []
  | HRead => ReadFails :: close
  | HLoad => load
  | HSwap cur => if sv_failNext s =? cur then swap else Go :: load
  | HInjected => Go :: close
  | HRun => run
  | HPanicked _ => Go :: close
  | HClose => close
  | HDelete => [Go; Go]
  | HLeave => [Go]
  end.

Lemma finishing_side answer k h s : forall ok err, answer k = (ok, err) ->
  Forall (server_side answer) (map (pair (WHandler k)) (finishing ok err h s)).
Proof.
  intros ok err Ha. unfold finishing. destruct (h_pc h); repeat case_match; repeat constructor; done.
Qed.

Lemma handler_finishes k ok err h s : running (h_pc h) = true -> h_open h = false ->
  exists h' s', orun (hstep k) (finishing ok err h s) (h, s) = Some (h', s') /\ h_pc h' = HOver.
Proof.
  destruct h as [o p]. simpl. intros Hr ->. destruct p as [| | |cur| | |msg| | | |]; try done; unfold finishing; simpl.
  all: try (by do 2 eexists).
  - destruct (sv_failNext s <=? 0) eqn:E; cbn -[Z.leb Z.eqb ends]; rewrite E; cbn -[Z.leb Z.eqb ends].
    + destruct (ends abandoned ok err); by do 2 eexists.
    + rewrite Z.eqb_refl. by do 2 eexists.
  - destruct (Z.eqb_spec (sv_failNext s) cur) as [E|E]; cbn -[Z.leb Z.eqb ends].
    + rewrite (proj2 (Z.eqb_eq _ _) E). by do 2 eexists.
    + rewrite (proj2 (Z.eqb_neq _ _) E). cbn -[Z.leb Z.eqb ends].
      destruct (sv_failNext s <=? 0) eqn:E'; cbn -[Z.leb Z.eqb ends]; rewrite E'; cbn -[Z.leb Z.eqb ends].
      * destruct (ends abandoned ok err); by do 2 eexists.
      * rewrite Z.eqb_refl. by do 2 eexists.
  - destruct (ends abandoned ok err); by do 2 eexists.
Qed.

Lemma sys_handler_run k cs : forall y h h' s', sy_conns y !! k = Some h ->
  orun (hstep k) cs (h, sy_srv y) = Some (h', s') ->
  sys_run abandoned (map (pair (WHandler k)) cs) y = Some (mkSystem s' (sy_serve y) (sy_stops y) (<[k := h']> (sy_conns y))).
Proof.
  induction cs as [|c cs IH]; intros y h h' s' Hk; simpl.
  - intros [= <- <-]. simpl. rewrite list_insert_id by done. by destruct y.
  - unfold hstep at 1. simpl. destruct (handler_step abandoned k h c (sy_srv y)) as [[h1 s1]|] eqn:E; [|done]. intros Hr.
    simpl. rewrite Hk. simpl. rewrite E. simpl.
    rewrite (IH (mkSystem s1 (sy_serve y) (sy_stops y) (<[k := h1]> (sy_conns y))) h1 h' s'); [simpl|simpl; apply list_lookup_insert_eq; by eapply lookup_lt_Some|done].
    by rewrite list_insert_insert_eq.
Qed.

Lemma wait_runs n stops answer i : forall (m : nat) y, server_reachable abandoned n stops y -> sy_stops y !! i = Some TWait ->
  total run_weight (sy_conns y) = Z.of_nat m ->
  exists l y', Forall (server_side answer) l /\ sys_run abandoned l y = Some y' /\ sy_stops y' !! i = Some TDone.
Proof.
  induction m as [|m IH]; intros y Hr Hi Hm.
  - pose proof (gr_wg y (group_inv _ _ _ y Hr)) as Hw. exists [(WStop i, Go)]. simpl. rewrite Hi. simpl.
    rewrite Hw, Hm. simpl. eexists. split; [by repeat constructor|]. split; [reflexivity|]. simpl. apply list_lookup_insert_eq. by eapply lookup_lt_Some.
  - destruct (total_pos run_weight (sy_conns y)) as (k & h & Hk & Hpos); [lia|].
    assert (running (h_pc h) = true) as Hrun by (unfold run_weight in Hpos; by destruct (running (h_pc h))).
    assert (h_open h = false) as Hopen.
    { apply (cn_wait y (sockets_inv _ _ _ y Hr) i TWait k h Hi eq_refl Hk). intros E. by rewrite E in Hrun. }
    destruct (answer k) as [ok err] eqn:Ea.
    destruct (handler_finishes k ok err h (sy_srv y) Hrun Hopen) as (h' & s' & Hf & Hp).
    pose proof (sys_handler_run k _ y h h' s' Hk Hf) as Hs.
    destruct (IH _ (sys_run_reachable _ _ _ _ _ _ Hr Hs)) as (l & y' & Hside & Hl & Hd); [done| |].
    + simpl. rewrite (total_insert _ _ _ h _ Hk). unfold run_weight. rewrite Hp, Hrun. simpl.
      change (total (fun h0 => if running (h_pc h0) then 1 else 0) (sy_conns y)) with (total run_weight (sy_conns y)). lia.
    + eexists (_ ++ l), y'. split; [|split; [|done]].
      * apply Forall_app. split; [by apply finishing_side|done].
      * erewrite orun_app by exact Hs. exact Hl.
Qed.
End live.

(** ** The theorems *)

(** C34: when the Stop that stopped the server returns, whatever the interleaving with
    clients that connect, with requests in flight, with handlers that panic and with
    other Stops: the listener is closed, every connection that got a handler is closed
    and its handler over, and a connection without one is closed too, except one that
    the accept loop has in hand and is about to reject; that loop never handles
    another connection. *)
Theorem stop_complete abandoned n stops y i :
  server_reachable abandoned n stops y -> sy_stops y !! i = Some TDone ->
  sv_listening (sy_srv y) = false /\ sv_wg (sy_srv y) = 0 /\
  (forall k h, sy_conns y !! k = Some h ->
     (h_pc h = HOver /\ h_open h = false) \/
     (h_pc h = HNone /\ (h_open h = false \/ serve_conn (sy_serve y) = Some k))) /\
  (forall k, sy_serve y <> VStored k).
Proof.
  intros Hr Hi. pose proof (server_mutex _ _ _ y Hr) as Hm. pose proof (sockets_inv _ _ _ y Hr) as Hc. pose proof (group_inv _ _ _ y Hr) as Hg.
  split_and!.
  - by eapply (mx_listener y Hm).
  - rewrite (gr_wg y Hg). assert (forall l, (forall k h, l !! k = Some h -> h_pc h = HNone \/ h_pc h = HOver) -> total run_weight l = 0) as Ht.
    { induction l as [|x l IH]; intros Hl; [done|]. unfold total in *. simpl. rewrite IH by (intros k; apply (Hl (S k))).
      unfold run_weight. by destruct (Hl 0%nat x eq_refl) as [-> | ->]. }
    apply Ht. intros k h. by apply (gr_done y Hg i).
  - intros k h Hk. destruct (gr_done y Hg i k h Hi Hk) as [Hp|Hp].
    + right. split; [done|]. destruct (h_open h) eqn:Ho; [right|by left]. by eapply (cn_none y Hc).
    + left. split; [done|]. eapply (cn_closed y Hc); [done|]. by rewrite Hp.
  - intros k Hk. pose proof (mx_stored y Hm (waiting_stopped y i _ Hm Hi eq_refl)) as E. by rewrite Hk in E.
Qed.

(** C36: WithFailNext(n) drops exactly the first n requests: however the connections'
    goroutines interleave, no more than n are ever dropped, and a method runs only once
    n were; a negative n drops none. *)
Theorem fail_next_exact abandoned n stops y :
  server_reachable abandoned n stops y ->
  0 <= sv_dropped (sy_srv y) <= Z.max n 0 /\ (0 < sv_served (sy_srv y) -> sv_dropped (sy_srv y) = Z.max n 0).
Proof. intros Hr. destruct (fail_inv _ _ _ y Hr) as [H1 H2 H3 H4 _]. split; [done|]. intros Hs. specialize (H4 Hs). lia. Qed.

(** C35: Stop's Wait ends, and no client can hold it up: in every reachable state in
    which a Stop waits, every connection that has a handler is closed on this side; and
    from there, however many handlers are reading, about to drop a request, in a method
    or recovering from a panic, steps of the server alone let that Stop return: its own,
    reads failing because the connection was closed here, and the methods in progress
    returning, whatever they answer. No message, no arrival and no client that hangs up
    is needed. *)
Theorem stop_returns abandoned n stops y i (answer : cid -> bool * option goerr) :
  server_reachable abandoned n stops y -> sy_stops y !! i = Some TWait ->
  (forall k h, sy_conns y !! k = Some h -> h_pc h <> HNone -> h_open h = false) /\
  exists l y', Forall (server_side answer) l /\ sys_run abandoned l y = Some y' /\ sy_stops y' !! i = Some TDone.
Proof.
  intros Hr Hi. split; [intros k h; by apply (cn_wait y (sockets_inv _ _ _ y Hr) i TWait)|].
  apply (wait_runs abandoned n stops answer i (Z.to_nat (total run_weight (sy_conns y)))); [done..|].
  rewrite Z2Nat.id; [done|]. apply total_nonneg. intros h. unfold run_weight. by destruct (running _).
Qed.

(** ** A run *)

(** One failure to inject. Two connections: the first's request is dropped, the
    second's method panics while Stop waits. A third arrives just before Stop. *)
Definition never_abandoned (e : goerr) : bool := false.
Definition demo_accept : list (who * choice) := (WServe, Arrives) :: replicate 4 (WServe, Go).
Definition demo_until_wait : list (who * choice) :=
  demo_accept ++ [(WHandler 0, Message); (WHandler 0, Go); (WHandler 0, Go); (WHandler 0, Go)] ++
  demo_accept ++ [(WHandler 1, Message); (WHandler 1, Go); (WServe, Arrives)] ++
  replicate 4 (WStop 0, Go) ++ [(WStop 0, Visit 0); (WStop 0, Visit 1); (WStop 0, Go)].
Definition demo_stop : list (who * choice) :=
  demo_until_wait ++ [(WHandler 1, Panics "nil handler"); (WHandler 1, Go); (WHandler 1, Go); (WHandler 1, Go); (WHandler 1, Go)] ++
  replicate 3 (WHandler 0, Go) ++ [(WStop 0, Go)].

(** What is looked at in the end. *)
Definition observe (y : option system) : option (stop_pc * Z * Z * list string * option cid * list bool) :=
  match y with
  | Some y =>
      match sy_stops y !! 0%nat with
      | Some p => Some (p, sv_dropped (sy_srv y), sv_served (sy_srv y), sv_panics (sy_srv y), serve_conn (sy_serve y),
                        map h_open (sy_conns y))
      | None => None
      end
  | None => None
  end.

Lemma stop_complete_witness :
  exists y, sys_run never_abandoned demo_stop (sys_init 1 2) = Some y /\ sy_stops y !! 0%nat = Some TDone /\
    sv_listening (sy_srv y) = false /\ sv_wg (sy_srv y) = 0 /\
    (forall k h, sy_conns y !! k = Some h ->
       (h_pc h = HOver /\ h_open h = false) \/
       (h_pc h = HNone /\ (h_open h = false \/ serve_conn (sy_serve y) = Some k))) /\
    (forall k, sy_serve y <> VStored k).
Proof.
  assert (observe (sys_run never_abandoned demo_stop (sys_init 1 2)) =
          Some (TDone, 1, 1, ["nil handler"], Some 2%nat, [false; false; true])) as Ho by (vm_compute; reflexivity).
  destruct (sys_run never_abandoned demo_stop (sys_init 1 2)) as [y|] eqn:E; [|discriminate Ho].
  exists y. split; [reflexivity|].
  assert (sy_stops y !! 0%nat = Some TDone) as Hd by (simpl in Ho; destruct (sy_stops y !! 0%nat); congruence).
  split; [exact Hd|].
  exact (stop_complete never_abandoned 1 2 y 0 (sys_run_reachable _ _ _ _ _ _ (sr_init _ 1 2) E) Hd).
Defined.

Lemma fail_next_exact_witness :
  exists y, sys_run never_abandoned demo_stop (sys_init 1 2) = Some y /\ sv_served (sy_srv y) = 1 /\
    0 <= sv_dropped (sy_srv y) <= 1 /\ sv_dropped (sy_srv y) = 1.
Proof.
  assert (match sys_run never_abandoned demo_stop (sys_init 1 2) with Some y => sv_served (sy_srv y) | None => 0 end = 1) as Ho
    by (vm_compute; reflexivity).
  destruct (sys_run never_abandoned demo_stop (sys_init 1 2)) as [y|] eqn:E; [|discriminate Ho].
  destruct (fail_next_exact never_abandoned 1 2 y (sys_run_reachable _ _ _ _ _ _ (sr_init _ 1 2) E)) as [H1 H2].
  exists y. split; [reflexivity|]. split; [exact Ho|]. split; [exact H1|]. apply H2. rewrite Ho. reflexivity.
Defined.

(** The method in progress answers; its conn is read again, and that read fails. *)
Lemma stop_returns_witness :
  exists y l y', sys_run never_abandoned demo_until_wait (sys_init 1 2) = Some y /\ sy_stops y !! 0%nat = Some TWait /\
    Forall (server_side (fun _ => (true, None))) l /\ sys_run never_abandoned l y = Some y' /\ sy_stops y' !! 0%nat = Some TDone.
Proof.
  assert (match sys_run never_abandoned demo_until_wait (sys_init 1 2) with Some y => sy_stops y !! 0%nat | None => None end = Some TWait)
    as Ho by (vm_compute; reflexivity).
  destruct (sys_run never_abandoned demo_until_wait (sys_init 1 2)) as [y|] eqn:E; [|discriminate Ho].
  destruct (stop_returns never_abandoned 1 2 y 0 (fun _ => (true, None)) (sys_run_reachable _ _ _ _ _ _ (sr_init _ 1 2) E) Ho)
    as (_ & l & y' & Hside & Hl & Hd).
  exists y, l, y'. split; [reflexivity|]. split; [exact Ho|]. split; [exact Hside|]. split; [exact Hl|exact Hd].
Defined.

(** Stop has returned and a connection is still open: the accept loop, which Stop does
    not wait for, holds it and has yet to take the mutex. *)
Example stop_before_reject :
  observe (sys_run never_abandoned demo_stop (sys_init 1 2)) =
    Some (TDone, 1, 1, ["nil handler"], Some 2%nat, [false; false; true]).
Proof. vm_compute. reflexivity. Qed.
