(* ===== verification/EndToEnd.v ===== *)
(** * EndToEnd: the client's calls against the fake metastore

    The fake server as the client's RPCs ([fakeRpcs]): what hmstest's processor
    does with a handler (methods its version lacks answer UNKNOWN_METHOD, an
    undeclared error becomes a TApplicationException), the Thrift encoding itself
    being taken as lossless. *)

From S2P Require Import Prelude Errors GoMonad Wire Options Conn Types Uri Convert Client DbOps TableOps PartitionOps TxnOps ConvertFacts FakeAcid Fake FakeFacts.

(** ** The server as RPCs *)

Definition undeclared (name : string) (e : goerr) : goerr :=
  match e with
  | EText t => EApp INTERNAL_ERROR ("Internal error processing " +:+ name +:+ ": " +:+ t)
  | e => e
  end.

(** One method of the processor. *)
Definition method {A} (name : string) (m : M fake A) : M fake A := fun f =>
  if existsb (String.eqb name) (removedRPCs (f_v f))
  then (f, inl (EApp UNKNOWN_METHOD ("Unknown function " +:+ name)))
  else let '(f, r) := m f in (f, match r with inl e => inl (undeclared name e) | inr a => inr a end).

Definition fakeRpcs (path_Match : string -> string -> bool) : rpcs fake := {|
  Conn.getCatalogs := method "get_catalogs" GetCatalogs;
  Conn.getCatalog := fun r => method "get_catalog" (GetCatalog r);
  Conn.createCatalog := fun r => method "create_catalog" (CreateCatalog r);
  Conn.dropCatalog := fun r => method "drop_catalog" (DropCatalog r);
  Conn.getAllDatabases := method "get_all_databases" GetAllDatabases;
  Conn.getDatabases := fun p => method "get_databases" (GetDatabases path_Match p);
  Conn.getDatabase := fun n => method "get_database" (GetDatabase n);
  Conn.createDatabase := fun d => method "create_database" (CreateDatabase d);
  Conn.dropDatabase := fun n d c => method "drop_database" (DropDatabase n d c);
  Conn.getAllTables := fun d => method "get_all_tables" (GetAllTables d);
  Conn.getTableReq := fun r => method "get_table_req" (GetTableReq r);
  Conn.getTableObjectsByNameReq := fun r => method "get_table_objects_by_name_req" (GetTableObjectsByNameReq r);
  Conn.createTable := fun t => method "create_table" (CreateTable t);
  Conn.alterTable := fun d n t => method "alter_table" (AlterTable d n t);
  Conn.dropTable := fun d n dd => method "drop_table" (DropTable d n dd);
  Conn.getPartitions := fun d t n => method "get_partitions" (GetPartitions d t n);
  Conn.getPartitionsReq := fun r => method "get_partitions_req" (GetPartitionsReq r);
  Conn.getPartitionNames := fun d t n => method "get_partition_names" (GetPartitionNames d t n);
  Conn.addPartitionsReq := fun r => method "add_partitions_req" (AddPartitionsReq r);
  Conn.alterPartitions := fun d t ps => method "alter_partitions" (AlterPartitions d t ps);
  Conn.alterPartitionsReq := fun r => method "alter_partitions_req" (AlterPartitionsReq r);
  Conn.dropPartition := fun d t vs dd => method "drop_partition" (DropPartition d t vs dd);
  Conn.dropPartitionsReq := fun r => method "drop_partitions_req" (DropPartitionsReq r);
  Conn.getConfigValue := fun n d => method "get_config_value" (GetConfigValue n d);
  Conn.getStatus := method "getStatus" GetStatus;
  Conn.getVersion := method "getVersion" GetVersion;
  Conn.setUgi := fun _ u gs => method "set_ugi" (SetUgi u gs);
  Conn.alterDatabase := fun n d => method "alter_database" (AlterDatabase n d);
  Conn.getPartitionsByNames := fun d t ns => method "get_partitions_by_names" (GetPartitionsByNames d t ns);
  Conn.getPartitionsByNamesReq := fun r => method "get_partitions_by_names_req" (GetPartitionsByNamesReq r);
  Conn.getPartitionsByFilter := fun d t f n => method "get_partitions_by_filter" (GetPartitionsByFilter d t f n);
  Conn.getPartitionNamesPs := fun d t vs n => method "get_partition_names_ps" (GetPartitionNamesPs d t vs n);
  Conn.getPartitionNamesPsReq := fun r => method "get_partition_names_ps_req" (GetPartitionNamesPsReq r);
  Conn.getNextNotification := fun r => method "get_next_notification" (GetNextNotification r);
  Conn.getCurrentNotificationEventId := method "get_current_notificationEventId" GetCurrentNotificationEventId;
  Conn.getTableStatisticsReq := fun r => method "get_table_statistics_req" (GetTableStatisticsReq r);
  Conn.openTxns := fun r => method "open_txns" (on_acid "open_txns" (OpenTxns r));
  Conn.commitTxn := fun r => method "commit_txn" (on_acid "commit_txn" (CommitTxn r));
  Conn.abortTxn := fun r => method "abort_txn" (on_acid "abort_txn" (AbortTxn r));
  Conn.heartbeat := fun r => method "heartbeat" (on_acid "heartbeat" (Heartbeat r));
  Conn.lock := fun r => method "lock" (bind (on_acid "lock" (Lock r)) (fun x => ret (Some x)));
  Conn.checkLock := fun r => method "check_lock" (bind (on_acid "check_lock" (CheckLock r)) (fun x => ret (Some x)));
  Conn.unlock := fun r => method "unlock" (on_acid "unlock" (Unlock r)) |}.

(** ** Catalogs on the wire *)

Section calls.
Context (path_Match : string -> string -> bool) {cp : DeepCopy}.

(** A conn to the fake, whose catalog cache is empty or right. *)
Definition conn_ok {L} (b : bst fake L) : Prop :=
  rpc (b_conn b) = fakeRpcs path_Match /\
  match catalogs (b_conn b) with
  | catalogUnknown => True
  | catalogYes => f_v (b_world b) <> Hive23
  | catalogNo => f_v (b_world b) = Hive23
  end.

(** Everything but the conn's caches and the list of recorded calls is the same. *)
Definition same_server {L} (b b' : bst fake L) : Prop :=
  f_v (b_world b') = f_v (b_world b) /\ f_store (b_world b') = f_store (b_world b) /\
  f_now (b_world b') = f_now (b_world b) /\ b_loc b' = b_loc b.

Definition has_catalogs (v : Version) : bool := bool_decide (v <> Hive23).

Lemma fake_supportsCatalogs {L} (b : bst fake L) : conn_ok b -> exists b',
  supportsCatalogs b = (b', inr (has_catalogs (f_v (b_world b)))) /\ conn_ok b' /\ same_server b b'.
Proof.
  intros [Hr Hc]. unfold supportsCatalogs, has_catalogs. destruct (catalogs (b_conn b)) eqn:Ec.
  - unfold rpcM. rewrite Hr. simpl. unfold method. destruct (f_v (b_world b)) eqn:Ev; simpl;
      (eexists; split; [reflexivity|]; split; [split; simpl; [done|congruence]|by split_and!]).
  - exists b. rewrite bool_decide_eq_true_2 by done. split; [done|]. by repeat split; try rewrite Ec.
  - exists b. rewrite bool_decide_eq_false_2 by (intros H; by apply H). split; [done|]. by repeat split; try rewrite Ec.
Qed.

Lemma same_server_trans {L} (a b c : bst fake L) : same_server a b -> same_server b c -> same_server a c.
Proof. intros (H1 & H2 & H3 & H4) (H5 & H6 & H7 & H8). split_and!; congruence. Qed.

(** What an effective catalog is on the wire to a server of version [v]; [None] is
    the [ErrNotSupported] of a server without catalogs. *)
Definition wire_cat (v : Version) (effective : string) : option (option string) :=
  if has_catalogs v then Some (Some effective)
  else if String.eqb effective defaultCatalog then Some None else None.

Lemma fake_resolve {L} cfg sc opts (b : bst fake L) : conn_ok b -> exists b',
  resolveCatFor cfg sc opts b =
    (b', match wire_cat (f_v (b_world b)) (effectiveCatalog cfg sc opts) with
         | Some c => inr c
         | None => inl (ESentinel ErrNotSupported)
         end) /\ conn_ok b' /\ same_server b b'.
Proof.
  intros Hok. destruct (fake_supportsCatalogs b Hok) as (b' & Hs & Hok' & Hsame). exists b'. split; [|done].
  unfold resolveCatFor, bind. rewrite Hs. unfold wire_cat.
  destruct (has_catalogs (f_v (b_world b))), (String.eqb_spec (effectiveCatalog cfg sc opts) defaultCatalog) as [E|E];
    simpl; by rewrite ?E.
Qed.

(** The server reads back the catalog the client resolved. *)
Lemma cat_wire v effective c : wire_cat v effective = Some c -> cat v c = inr effective.
Proof.
  unfold wire_cat, has_catalogs, cat. case_bool_decide as Hv.
  - intros [= <-]. by rewrite decide_False.
  - destruct (String.eqb_spec effective defaultCatalog) as [->|]; [|done]. by intros [= <-].
Qed.

Lemma strip_prefix_app p s : strip_prefix p (p +:+ s) = Some s.
Proof. induction p as [|a p IH]; simpl; [done|]. by rewrite Ascii.eqb_refl. Qed.

Lemma cut_app sep a b : contains_byte sep a = false -> cut sep (a +:+ String sep b) = (a, b, true).
Proof.
  induction a as [|c a IH]; simpl; intros H.
  - by rewrite Ascii.eqb_refl.
  - apply orb_false_iff in H as [Hc Ha]. by rewrite Hc, (IH Ha).
Qed.

Lemma resolveDB_wire v effective c name :
  wire_cat v effective = Some c -> contains_byte "#" effective = false -> HasPrefix "@" name = false ->
  resolveDB v (qualifyDBName c name) = inr (effective, name).
Proof.
  intros Hw Hh Hn. pose proof (cat_wire _ _ _ Hw) as Hcat.
  assert (splitCatDB name = ("hive", name)) as Hplain.
  { unfold splitCatDB. unfold HasPrefix in Hn. by destruct (strip_prefix "@" name). }
  unfold resolveDB, qualifyDBName. unfold wire_cat, has_catalogs in Hw. case_bool_decide as Hv.
  - injection Hw as <-. rewrite decide_False by done.
    destruct (String.eqb_spec effective defaultCatalog) as [->|Hd]; [by rewrite Hplain|].
    unfold splitCatDB. change ("@" +:+ effective +:+ "#" +:+ name) with ("@" +:+ (effective +:+ String "#" name)).
    by rewrite strip_prefix_app, cut_app.
  - destruct (String.eqb_spec effective defaultCatalog) as [->|]; [|done]. injection Hw as <-.
    assert (v = Hive23) as -> by (destruct v; [done|by destruct Hv|by destruct Hv]).
    rewrite decide_True by done. by rewrite Hn, Hplain.
Qed.

(** One RPC of a body on the fake. *)
Lemma rpcM_fake {L A} (g : rpcs fake -> M fake A) name (m : M fake A) (b : bst fake L) :
  conn_ok b -> g (fakeRpcs path_Match) = method name m ->
  existsb (String.eqb name) (removedRPCs (f_v (b_world b))) = false ->
  rpcM g b = (let '(f, r) := m (b_world b) in
              (set_world f b, match r with inl e => inl (undeclared name e) | inr a => inr a end)).
Proof.
  intros [Hr _] Hg Hn. unfold rpcM. rewrite Hr, Hg. unfold method. rewrite Hn. by destruct (m (b_world b)) as [f [e|a]].
Qed.

(** ** The table handlers, as the client's calls reach them *)

Definition stored_table (now : Z) (t : wTable) : wTable :=
  if wTable_CreateTime t =? 0 then set_table_create_time now t else t.

Lemma run_CreateTable t c f : cat (f_v f) (wTable_CatName t) = inr c ->
  let key := tblKey c (wTable_DbName t) (wTable_TableName t) in
  exists f', f_v f' = f_v f /\ f_now f' = f_now f /\
    match Tables (f_store f) !! key with
    | Some _ => Fake.CreateTable (Some t) f =
                  (f', inl (exists_already ("table " +:+ wTable_TableName t +:+ " already exists"))) /\
                f_store f' = f_store f
    | None => Fake.CreateTable (Some t) f = (f', inr tt) /\
              Tables (f_store f') = <[key := stored_table (f_now f) t]> (Tables (f_store f)) /\
              Partitions (f_store f') = Partitions (f_store f)
    end.
Proof.
  intros Hc key. unfold Fake.CreateTable, bind, record, modify, version, lift, store, now32. simpl. rewrite Hc. fold key.
  destruct (Tables (f_store f) !! key); eexists; (split; [|split; [|split; [reflexivity|]]]); simpl; try done.
Qed.

Lemma run_GetTableReq db tbl (wc : option string) c f : cat (f_v f) wc = inr c ->
  exists f', f_v f' = f_v f /\ f_now f' = f_now f /\ f_store f' = f_store f /\
    Fake.GetTableReq (newGetTableRequest db tbl wc) f =
      (f', match Tables (f_store f) !! tblKey c db tbl with
           | Some t => inr (mk_wGetTableResult_ (Some t) None)
           | None => inl (table_missing db tbl)
           end).
Proof.
  intros Hc. unfold Fake.GetTableReq, bind, record, modify, version, lift, store. simpl. rewrite Hc.
  eexists (mkFake _ _ _ _). split_and!; [..|by destruct (Tables (f_store f) !! tblKey c db tbl)]; done.
Qed.

Lemma run_DropTable dbName db c tbl dd f : resolveDB (f_v f) dbName = inr (c, db) ->
  let key := tblKey c db tbl in
  exists f', f_v f' = f_v f /\ f_now f' = f_now f /\
    match Tables (f_store f) !! key with
    | None => Fake.DropTable dbName tbl dd f = (f', inl (table_missing db tbl)) /\ f_store f' = f_store f
    | Some _ => Fake.DropTable dbName tbl dd f = (f', inr tt) /\
                Tables (f_store f') = delete key (Tables (f_store f)) /\
                Partitions (f_store f') = delete key (Partitions (f_store f))
    end.
Proof.
  intros Hc key. unfold Fake.DropTable, bind, record, modify, version, lift, store. simpl. rewrite Hc. simpl. fold key.
  destruct (Tables (f_store f) !! key); eexists; (split; [|split; [|split; [reflexivity|]]]); simpl; try done.
Qed.

(** ** Bodies on the fake *)

Lemma conn_ok_world {L} (b : bst fake L) f : conn_ok b -> f_v f = f_v (b_world b) -> conn_ok (set_world f b).
Proof. intros [Hr Hc] Hv. split; [done|]. simpl. rewrite Hv. done. Qed.

(** create_table: what it leaves, on a free name and on a taken one. *)
Lemma create_table_fake {L} cfg tb c (b : bst fake L) :
  let effective := effectiveCatalog cfg (Table_CatalogName tb) [] in
  let key := tblKey effective (Table_DatabaseName tb) (Table_TableName tb) in
  let s := f_store (b_world b) in
  conn_ok b -> wire_cat (f_v (b_world b)) effective = Some c ->
  exists b', conn_ok b' /\ f_v (b_world b') = f_v (b_world b) /\
    match Tables s !! key with
    | Some _ => (exists e, create_table_body cfg tb b = (b', inl e) /\ classify e = ErrAlreadyExists) /\
                f_store (b_world b') = s
    | None => create_table_body cfg tb b = (b', inr tt) /\
              Tables (f_store (b_world b')) =
                <[key := stored_table (f_now (b_world b)) (fillTable NewTable tb c)]> (Tables s)
    end.
Proof.
  intros effective key s Hok Hw.
  destruct (fake_resolve cfg (Table_CatalogName tb) [] b Hok) as (b1 & H1 & Hok1 & Hv & Hs & Hn & _).
  fold effective in H1. rewrite Hw in H1. unfold create_table_body, bind. rewrite H1.
  rewrite (rpcM_fake _ "create_table" (Fake.CreateTable (tableToThrift (Some tb) c)) b1 Hok1 eq_refl) by (destruct (f_v (b_world b1)); reflexivity).
  destruct (run_CreateTable (fillTable NewTable tb c) effective (b_world b1)) as (f' & Hfv & Hfn & Hrun).
  { rewrite Hv. simpl. by apply cat_wire. }
  simpl tableToThrift. simpl wTable_DbName in Hrun. simpl wTable_TableName in Hrun. fold key in Hrun.
  rewrite Hs, Hn in Hrun. fold s in Hrun.
  exists (set_world f' b1). split; [apply conn_ok_world; [done|by rewrite Hfv]|]. split; [simpl; congruence|].
  destruct (Tables s !! key).
  - destruct Hrun as [Hrun Hst]. rewrite Hrun. split; [|simpl; congruence]. eexists. by split.
  - destruct Hrun as (Hrun & Hst & _). by rewrite Hrun.
Qed.

Lemma get_table_fake cfg db tbl opts c (b : bst fake (option Table)) :
  let effective := effectiveCatalog cfg "" opts in
  let s := f_store (b_world b) in
  conn_ok b -> wire_cat (f_v (b_world b)) effective = Some c ->
  exists b', conn_ok b' /\ f_v (b_world b') = f_v (b_world b) /\ f_store (b_world b') = s /\
    match Tables s !! tblKey effective db tbl with
    | Some t => get_table_body cfg db tbl opts b = (b', inr tt) /\ b_loc b' = tableFromThrift (Some t)
    | None => exists e, get_table_body cfg db tbl opts b = (b', inl e) /\ not_found e = true
    end.
Proof.
  intros effective s Hok Hw.
  destruct (fake_resolve cfg "" opts b Hok) as (b1 & H1 & Hok1 & Hv & Hs & Hn & _).
  fold effective in H1. rewrite Hw in H1. unfold get_table_body, resolveCat, bind. rewrite H1.
  rewrite (rpcM_fake _ "get_table_req" (Fake.GetTableReq (newGetTableRequest db tbl c)) b1 Hok1 eq_refl) by (destruct (f_v (b_world b1)); reflexivity).
  destruct (run_GetTableReq db tbl c effective (b_world b1)) as (f' & Hfv & Hfn & Hfs & Hrun).
  { rewrite Hv. by apply cat_wire. }
  rewrite Hrun, Hs. fold s. destruct (Tables s !! tblKey effective db tbl) as [t|].
  - exists (set_loc (tableFromThrift (Some t)) (set_world f' b1)). split_and!.
    + by apply (conn_ok_world b1 f').
    + unfold s. simpl. congruence.
    + unfold s. simpl. congruence.
    + done.
    + done.
  - exists (set_world f' b1). split_and!; [by apply conn_ok_world|unfold s; simpl; congruence|unfold s; simpl; congruence|].
    eexists. by split.
Qed.

Lemma drop_table_fake {L} cfg db tbl dd (ifExists : bool) opts c (b : bst fake L) :
  let effective := effectiveCatalog cfg "" opts in
  let key := tblKey effective db tbl in
  let s := f_store (b_world b) in
  conn_ok b -> wire_cat (f_v (b_world b)) effective = Some c ->
  contains_byte "#" effective = false -> HasPrefix "@" db = false ->
  exists b', conn_ok b' /\ f_v (b_world b') = f_v (b_world b) /\
    match Tables s !! key with
    | Some _ => drop_table_body cfg db tbl dd ifExists opts b = (b', inr tt) /\
                Tables (f_store (b_world b')) = delete key (Tables s)
    | None => f_store (b_world b') = s /\
              if ifExists then drop_table_body cfg db tbl dd ifExists opts b = (b', inr tt)
              else exists e, drop_table_body cfg db tbl dd ifExists opts b = (b', inl e) /\ not_found e = true
    end.
Proof.
  intros effective key s Hok Hw Hh Hp.
  destruct (fake_resolve cfg "" opts b Hok) as (b1 & H1 & Hok1 & Hv & Hs & Hn & _).
  fold effective in H1. rewrite Hw in H1. unfold drop_table_body, resolveCat, bind, if_exists, catch. rewrite H1.
  rewrite (rpcM_fake _ "drop_table" (Fake.DropTable (qualifyDBName c db) tbl dd) b1 Hok1 eq_refl) by (destruct (f_v (b_world b1)); reflexivity).
  destruct (run_DropTable (qualifyDBName c db) db effective tbl dd (b_world b1)) as (f' & Hfv & Hfn & Hrun).
  { rewrite Hv. by apply resolveDB_wire. }
  fold key in Hrun. rewrite Hs in Hrun. fold s in Hrun.
  exists (set_world f' b1). split; [by apply conn_ok_world|]. split; [unfold s; simpl; congruence|].
  destruct (Tables s !! key).
  - destruct Hrun as (Hrun & Hst & _). by rewrite Hrun.
  - destruct Hrun as (Hrun & Hst). rewrite Hrun. split; [exact Hst|].
    destruct ifExists; [done|]. eexists. by split.
Qed.

(** The same conn and world, with other captured variables. *)
Definition with_loc {L L'} (l : L') (b : bst fake L) : bst fake L' := mkBst (b_conn b) (b_world b) (b_roots b) l.

Lemma conn_ok_with_loc {L L'} (l : L') (b : bst fake L) : conn_ok b -> conn_ok (with_loc l b).
Proof. done. Qed.

(** ** The properties *)

(** The life of a table, end to end, on every version of the fake and in every
    catalog: on a server without catalogs a non-default one is refused with
    [ErrNotSupported] and nothing is stored; otherwise creating a table under a
    free name succeeds, reading it back gives the exported form of exactly what
    the converters sent (its create time filled in), creating it again is
    [ErrAlreadyExists], dropping it leaves every table as it was before, reading
    it then is [ErrNotFound], and dropping it again succeeds with ifExists. *)
Theorem fake_table_lifecycle cfg tb opts dd (b : bst fake unit) :
  let effective := effectiveCatalog cfg (Table_CatalogName tb) [] in
  let db := Table_DatabaseName tb in
  let name := Table_TableName tb in
  let stored c := stored_table (f_now (b_world b)) (fillTable NewTable tb c) in
  conn_ok b -> effectiveCatalog cfg "" opts = effective ->
  contains_byte "#" effective = false -> HasPrefix "@" db = false ->
  Tables (f_store (b_world b)) !! tblKey effective db name = None ->
  match wire_cat (f_v (b_world b)) effective with
  | None => exists b', create_table_body cfg tb b = (b', inl (ESentinel ErrNotSupported)) /\
                       f_store (b_world b') = f_store (b_world b)
  | Some c => exists b1 b2 b3 b4 b5 b6 e1 e2,
      create_table_body cfg tb b = (b1, inr tt) /\
      get_table_body cfg db name opts (with_loc None b1) = (b2, inr tt) /\ b_loc b2 = tableFromThrift (Some (stored c)) /\
      create_table_body cfg tb (with_loc tt b2) = (b3, inl e1) /\ classify e1 = ErrAlreadyExists /\
      drop_table_body cfg db name dd false opts b3 = (b4, inr tt) /\
      Tables (f_store (b_world b4)) = Tables (f_store (b_world b)) /\
      get_table_body cfg db name opts (with_loc None b4) = (b5, inl e2) /\ not_found e2 = true /\
      drop_table_body cfg db name dd true opts (with_loc tt b5) = (b6, inr tt)
  end.
Proof.
  intros effective db name stored Hok Heff Hh Hp Hfree.
  destruct (wire_cat (f_v (b_world b)) effective) as [c|] eqn:Hw.
  2: { destruct (fake_resolve cfg (Table_CatalogName tb) [] b Hok) as (b' & H1 & _ & _ & Hs & _). exists b'.
       fold effective in H1. rewrite Hw in H1. unfold create_table_body, bind. by rewrite H1. }
  destruct (create_table_fake cfg tb c b Hok Hw) as (b1 & Hok1 & Hv1 & Hc1).
  fold effective db name in Hc1. rewrite Hfree in Hc1. destruct Hc1 as [Hc1 Ht1]. fold (stored c) in Ht1.
  destruct (get_table_fake cfg db name opts c (with_loc None b1) Hok1) as (b2 & Hok2 & Hv2 & Hs2 & Hg2).
  { rewrite Heff. simpl. by rewrite Hv1. }
  rewrite Heff in Hg2. simpl in Hg2, Hs2, Hv2. rewrite Ht1, lookup_insert_eq in Hg2. destruct Hg2 as [Hg2 Hl2].
  destruct (create_table_fake cfg tb c (with_loc tt b2) Hok2) as (b3 & Hok3 & Hv3 & Hc3).
  { simpl. by rewrite Hv2, Hv1. }
  simpl in Hc3, Hv3. fold effective db name in Hc3. rewrite Hs2, Ht1, lookup_insert_eq in Hc3.
  destruct Hc3 as [(e1 & Hc3 & He1) Hs3].
  destruct (drop_table_fake cfg db name dd false opts c b3 Hok3) as (b4 & Hok4 & Hv4 & Hd4); [|by rewrite Heff|done|].
  { by rewrite Heff, Hv3, Hv2, Hv1. }
  rewrite Heff, Hs3, Ht1, lookup_insert_eq in Hd4. destruct Hd4 as [Hd4 Ht4].
  rewrite delete_insert_id in Ht4 by done.
  destruct (get_table_fake cfg db name opts c (with_loc None b4) Hok4) as (b5 & Hok5 & Hv5 & Hs5 & Hg5).
  { rewrite Heff. simpl. by rewrite Hv4, Hv3, Hv2, Hv1. }
  rewrite Heff in Hg5. simpl in Hg5, Hs5, Hv5. rewrite Ht4, Hfree in Hg5. destruct Hg5 as (e2 & Hg5 & He2).
  destruct (drop_table_fake cfg db name dd true opts c (with_loc tt b5) Hok5) as (b6 & _ & _ & Hd6); [|by rewrite Heff|done|].
  { rewrite Heff. simpl. by rewrite Hv5, Hv4, Hv3, Hv2, Hv1. }
  rewrite Heff in Hd6. simpl in Hd6. rewrite Hs5, Ht4, Hfree in Hd6. destruct Hd6 as [_ Hd6].
  exists b1, b2, b3, b4, b5, b6, e1, e2. by split_and!.
Qed.

(** get_partitions and get_partitions_req of the fake answer the same list. *)
Lemma run_with_table {A} catName db tbl (k : string -> wTable -> list wPartition -> M fake A) f :
  with_table catName db tbl k f =
    match Tables (f_store f) !! tblKey catName db tbl with
    | None => (f, inl (table_missing db tbl))
    | Some t => k (tblKey catName db tbl) t (parts_of (tblKey catName db tbl) (f_store f)) f
    end.
Proof. unfold with_table, bind, store. by destruct (Tables (f_store f) !! tblKey catName db tbl). Qed.

Lemma run_GetPartitionsReq db tbl wc c mp f : cat (f_v f) wc = inr c ->
  exists f', f_v f' = f_v f /\ f_store f' = f_store f /\
    Fake.GetPartitionsReq (newPartitionsRequest db tbl wc mp) f =
      (f', match Tables (f_store f) !! tblKey c db tbl with
           | None => inl (table_missing db tbl)
           | Some _ => inr (mk_wPartitionsResponse (refs (truncateParts (parts_of (tblKey c db tbl) (f_store f)) mp)))
           end).
Proof.
  intros Hc. unfold Fake.GetPartitionsReq, bind, record, modify, version, lift. simpl. rewrite Hc, run_with_table. simpl.
  by destruct (Tables (f_store f) !! tblKey c db tbl); eexists (mkFake _ _ _ _).
Qed.

Lemma run_GetPartitions dbName db tbl c mp f : resolveDB (f_v f) dbName = inr (c, db) ->
  exists f', f_v f' = f_v f /\ f_store f' = f_store f /\
    Fake.GetPartitions dbName tbl mp f =
      (f', match Tables (f_store f) !! tblKey c db tbl with
           | None => inl (table_missing db tbl)
           | Some _ => inr (refs (truncateParts (parts_of (tblKey c db tbl) (f_store f)) mp))
           end).
Proof.
  intros Hc. unfold Fake.GetPartitions, bind, record, modify, version, lift. simpl. rewrite Hc. simpl.
  rewrite run_with_table. simpl.
  by destruct (Tables (f_store f) !! tblKey c db tbl); eexists (mkFake _ _ _ _).
Qed.

(** Both forms of GetPartitions' request. *)
Definition partitions_answer (key db tbl : string) (mp : Z) (s : Store) : goerr + slice (option wPartition) :=
  match Tables s !! key with
  | None => inl (table_missing db tbl)
  | Some _ => inr (refs (truncateParts (parts_of key s) mp))
  end.

Lemma conn_ok_markLegacy {L} (b : bst fake L) m : conn_ok b -> conn_ok (set_conn (markLegacy (b_conn b) m) b).
Proof. done. Qed.

Lemma legacy_form db tbl c effective mp (b : bst fake (slice (option Partition))) :
  conn_ok b -> resolveDB (f_v (b_world b)) (qualifyDBName c db) = inr (effective, db) ->
  exists b', conn_ok b' /\ f_store (b_world b') = f_store (b_world b) /\ b_loc b' = b_loc b /\
    rpcM (fun r => getPartitions r (qualifyDBName c db) tbl mp) b =
      (b', partitions_answer (tblKey effective db tbl) db tbl mp (f_store (b_world b))).
Proof.
  intros Hok Hr. rewrite (rpcM_fake _ "get_partitions" (Fake.GetPartitions (qualifyDBName c db) tbl mp) b Hok eq_refl)
    by (destruct (f_v (b_world b)); reflexivity).
  destruct (run_GetPartitions (qualifyDBName c db) db tbl effective mp (b_world b) Hr) as (f' & Hv & Hs & Hrun).
  rewrite Hrun. exists (set_world f' b). split_and!; [by apply conn_ok_world|done|done|].
  unfold partitions_answer. by destruct (Tables _ !! _).
Qed.

Lemma request_form db tbl c effective mp (b : bst fake (slice (option Partition))) :
  conn_ok b -> cat (f_v (b_world b)) c = inr effective ->
  exists b', conn_ok b' /\ f_v (b_world b') = f_v (b_world b) /\ f_store (b_world b') = f_store (b_world b) /\
    b_loc b' = b_loc b /\ fallback (b_conn b') = fallback (b_conn b) /\
    rpcM (fun r => getPartitionsReq r (newPartitionsRequest db tbl c mp)) b =
      (b', match f_v (b_world b) with
           | Hive40 => match partitions_answer (tblKey effective db tbl) db tbl mp (f_store (b_world b)) with
                       | inl e => inl e
                       | inr ps => inr (mk_wPartitionsResponse ps)
                       end
           | _ => inl (EApp UNKNOWN_METHOD ("Unknown function " +:+ "get_partitions_req"))
           end).
Proof.
  intros Hok Hc. destruct (f_v (b_world b)) eqn:Ev.
  1, 2: exists b; split_and!; try done; unfold rpcM; destruct Hok as [Hr _]; rewrite Hr; simpl; unfold method;
    rewrite Ev; simpl; by destruct b.
  rewrite (rpcM_fake _ "get_partitions_req" (Fake.GetPartitionsReq (newPartitionsRequest db tbl c mp)) b Hok eq_refl)
    by (rewrite Ev; reflexivity).
  rewrite <- Ev in Hc. destruct (run_GetPartitionsReq db tbl c effective mp (b_world b) Hc) as (f' & Hv & Hs & Hrun).
  rewrite Hrun. exists (set_world f' b). split_and!; [by apply conn_ok_world|simpl; congruence|done|done|done|].
  unfold partitions_answer. by destruct (Tables _ !! _).
Qed.

(** What both forms come to for get_partitions' body. *)
Definition listed (out : slice (option Partition)) (key db tbl : string) (s : Store)
    (res : bst fake (slice (option Partition)) * (goerr + unit)) : Prop :=
  conn_ok (fst res) /\ f_store (b_world (fst res)) = s /\
  match Tables s !! key with
  | Some _ => snd res = inr tt /\ b_loc (fst res) = out
  | None => snd res = inl (table_missing db tbl)
  end.

Lemma legacy_listed db tbl c effective mp (b : bst fake (slice (option Partition))) out :
  conn_ok b -> resolveDB (f_v (b_world b)) (qualifyDBName c db) = inr (effective, db) ->
  let key := tblKey effective db tbl in
  partitionsFromThrift 0 (refs (truncateParts (parts_of key (f_store (b_world b))) mp)) = inr out ->
  listed out key db tbl (f_store (b_world b))
    (bind (rpcM (fun r => getPartitions r (qualifyDBName c db) tbl mp)) (fun parts =>
       bind (DbOps.lift (partitionsFromThrift 0 parts)) (fun ps => assign (fun _ => ps))) b).
Proof.
  intros Hok Hdb key Hout. destruct (legacy_form db tbl c effective mp b Hok Hdb) as (b3 & Hok3 & Hs3 & _ & H3).
  unfold listed, bind. rewrite H3. unfold partitions_answer. fold key.
  destruct (Tables (f_store (b_world b)) !! key); [|done]. unfold DbOps.lift. by rewrite Hout.
Qed.

Lemma body_listed cfg db tbl mp opts c (b : bst fake (slice (option Partition))) out :
  let effective := effectiveCatalog cfg "" opts in
  let key := tblKey effective db tbl in
  conn_ok b -> wire_cat (f_v (b_world b)) effective = Some c ->
  contains_byte "#" effective = false -> HasPrefix "@" db = false ->
  partitionsFromThrift 0 (refs (truncateParts (parts_of key (f_store (b_world b))) mp)) = inr out ->
  listed out key db tbl (f_store (b_world b)) (get_partitions_body cfg db tbl mp opts b).
Proof.
  intros effective key Hok Hw Hh Hp Hout.
  destruct (fake_resolve cfg "" opts b Hok) as (b1 & H1 & Hok1 & Hv & Hs & _ & _).
  fold effective in H1. rewrite Hw in H1. unfold get_partitions_body, resolveCat, bind at 1. rewrite H1.
  rewrite <- Hs, <- Hv in *.
  pose proof (resolveDB_wire _ _ _ _ Hw Hh Hp) as Hdb.
  unfold tryReq. destruct (useLegacy (b_conn b1) "get_partitions_req"); [by apply legacy_listed|].
  destruct (request_form db tbl c effective mp b1 Hok1 (cat_wire _ _ _ Hw)) as (b2 & Hok2 & Hv2 & Hs2 & _ & _ & H2).
  fold key in H2. unfold bind at 1. rewrite H2. rewrite <- Hs2, <- Hv2 in *.
  destruct (f_v (b_world b2)) eqn:Ev; cbn [isUnknownMethod as_app as_find];
    try (apply (legacy_listed db tbl c effective mp (set_conn (markLegacy (b_conn b2) "get_partitions_req") b2) out);
         [done|simpl; by rewrite Ev|exact Hout]).
  unfold partitions_answer, listed. destruct (Tables (f_store (b_world b2)) !! key); [|done].
  simpl. unfold bind, DbOps.lift. by rewrite Hout.
Qed.

(** C22: listing partitions gives the same answer on every version: whether the
    server has get_partitions_req or the client falls back to get_partitions, on
    this call or since an earlier one, the caller gets the exported form of the
    table's stored partitions, the first [maxParts] of them (all, when it is
    negative), or [ErrNotFound] when there is no such table; and the server's
    store is left alone. The conn is one to the fake whose record of catalog support, if
    it has one, is right; the server has the catalog; the catalog holds no '#' and the
    database has no leading '@', with which the legacy method's qualified name would not
    read back; and the stored partitions can be exported. *)
Theorem fake_partitions_uniform cfg db tbl mp opts c (b : bst fake (slice (option Partition))) out :
  let effective := effectiveCatalog cfg "" opts in
  let key := tblKey effective db tbl in
  let s := f_store (b_world b) in
  conn_ok b -> wire_cat (f_v (b_world b)) effective = Some c ->
  contains_byte "#" effective = false -> HasPrefix "@" db = false ->
  partitionsFromThrift 0 (refs (truncateParts (parts_of key s) mp)) = inr out ->
  exists b', conn_ok b' /\ f_store (b_world b') = s /\
    match Tables s !! key with
    | Some _ => get_partitions_body cfg db tbl mp opts b = (b', inr tt) /\ b_loc b' = out
    | None => exists e, get_partitions_body cfg db tbl mp opts b = (b', inl e) /\ not_found e = true
    end.
Proof.
  intros effective key s Hok Hw Hh Hp Hout.
  destruct (body_listed cfg db tbl mp opts c b out Hok Hw Hh Hp Hout) as (Hok' & Hs' & H).
  destruct (get_partitions_body cfg db tbl mp opts b) as [b' r]. exists b'. split; [done|]. split; [done|].
  fold effective key s in H. destruct (Tables s !! key); [by destruct H as [<- ?]|].
  exists (table_missing db tbl). simpl in H. by rewrite H.
Qed.
End calls.

(** ** A concrete server *)

Definition demo_conn : conn fake := mkConn (ret tt) (fakeRpcs (fun _ _ => false)) ∅ catalogUnknown.
Definition demo_bst {L} (v : Version) (s : Store) (l : L) : bst fake L :=
  mkBst demo_conn (mkFake v s [] 1700000000) ∅ l.
Definition demo_created : Table :=
  mkTable "" "db" "new" "me" 1 zeroTime zeroTime 0 None None None "" "" "" None.

Lemma fake_table_lifecycle_witness :
  let cp := idCopy in
  let b := demo_bst Hive40 demo_store tt in
  exists b1 b2 b3 b4 b5 e1 e2,
    create_table_body newConfig demo_created b = (b1, inr tt) /\
    get_table_body newConfig "db" "new" [] (with_loc None b1) = (b2, inr tt) /\
    create_table_body newConfig demo_created (with_loc tt b2) = (b3, inl e1) /\
    drop_table_body newConfig "db" "new" true false [] b3 = (b4, inr tt) /\
    Tables (f_store (b_world b4)) = Tables (f_store (b_world b)) /\
    get_table_body newConfig "db" "new" [] (with_loc None b4) = (b5, inl e2) /\ not_found e2 = true.
Proof.
  destruct (@fake_table_lifecycle (fun _ _ => false) idCopy newConfig demo_created [] true
    (demo_bst Hive40 demo_store tt) (conj eq_refl I) eq_refl eq_refl eq_refl ltac:(vm_compute; reflexivity))
    as (b1 & b2 & b3 & b4 & b5 & b6 & e1 & e2 & H1 & H2 & _ & H3 & _ & H4 & H5 & H6 & H7 & _).
  exists b1, b2, b3, b4, b5, e1, e2. exact (conj H1 (conj H2 (conj H3 (conj H4 (conj H5 (conj H6 H7)))))).
Defined.

Definition demo_listed : slice (option Partition) :=
  match @partitionsFromThrift idCopy 0 (refs [demo_part "0"]) with inr ps => ps | inl _ => None end.

Lemma fake_partitions_uniform_witness :
  let cp := idCopy in
  exists b', conn_ok (fun _ _ => false) b' /\ f_store (b_world b') = demo_store /\
    get_partitions_body newConfig "db" "t" 1 [] (demo_bst Hive31 demo_store None) = (b', inr tt) /\
    b_loc b' = demo_listed.
Proof.
  destruct (@fake_partitions_uniform (fun _ _ => false) idCopy newConfig "db" "t" 1 [] (Some "hive")
    (demo_bst Hive31 demo_store None) demo_listed (conj eq_refl I) eq_refl eq_refl eq_refl ltac:(vm_compute; reflexivity))
    as (b' & Hok & Hs & H).
  match type of H with context [match ?x with _ => _ end] => assert (x = Some demo_table) as Ht by (vm_compute; reflexivity) end.
  rewrite Ht in H. destruct H as [Hr Hl].
  exists b'. exact (conj Hok (conj Hs (conj Hr Hl))).
Defined.
