(* ===== verification/TableStore.v ===== *)
(** * TableStore: the client as an atomic store of tables

    An abstract store of tables ([shelf]), the calls a program makes on it and what it is
    told ([reply]), and the simulation: any sequence of calls of a client of an unreliable
    metastore is a run of that store ([client_refines_store]). The metastore is the fake
    of hmstest behind a network that may lose a request, or the reply to one that was
    carried out. *)

From stdpp Require Import sorting.
From S2P Require Import Prelude Errors Cluster GoMonad Wire Options Conn Types Uri Convert PartName Client Demo ClientFacts Failover DbOps TableOps ConvertFacts FakeAcid Fake FakeFacts EndToEnd.

(** ** The abstract store *)

(** A table is named by its catalog, its database and its own name. *)
Abbreviation table_id := (string * string * string)%type.
Abbreviation shelf := (gmap (string * string * string) Table).

Inductive request :=
  | CreateReq (table : Table)
  | GetReq (dbName tableName : string) (opts : list CatalogOption)
  | ListReq (dbName : string) (opts : list CatalogOption)
  | AlterReq (dbName tableName : string) (newTable : Table) (opts : list CatalogOption)
  | DropReq (dbName tableName : string) (deleteData ifExists : bool) (opts : list CatalogOption).

(** [Unknown] is ErrUnavailable: the caller cannot tell whether a change was made. *)
Inductive reply :=
  | Done
  | Found (table : Table)
  | Names (names : list string)
  | Refused (k : sentinel)
  | Unknown.

(** A read leaves the store alone. *)
Definition writes (q : request) : bool :=
  match q with GetReq _ _ _ | ListReq _ _ => false | _ => true end.

Definition catalog_of (cfg : config) (q : request) : string :=
  match q with
  | CreateReq t => effectiveCatalog cfg (Table_CatalogName t) []
  | AlterReq _ _ t opts => effectiveCatalog cfg (Table_CatalogName t) opts
  | GetReq _ _ opts | ListReq _ opts | DropReq _ _ _ _ opts => effectiveCatalog cfg "" opts
  end.
Definition database_of (q : request) : string :=
  match q with
  | CreateReq t => Table_DatabaseName t
  | GetReq db _ _ | ListReq db _ | AlterReq db _ _ _ | DropReq db _ _ _ _ => db
  end.

(** What is carried between client and server: a table and an answer with one in the form
    they arrive in, and the tables that can be sent at all. *)
Class Carrier := {
  carry : wTable -> wTable;
  carriable : wTable -> Prop;
  carry_result : wGetTableResult_ -> wGetTableResult_;
  carry_catalogs : wGetCatalogsResponse -> wGetCatalogsResponse;
  carry_TableName t : wTable_TableName (carry t) = wTable_TableName t;
  carry_DbName t : wTable_DbName (carry t) = wTable_DbName t;
  carry_CatName t : wTable_CatName (carry t) = wTable_CatName t;
  carry_result_Table r t : wGetTableResult__Table r = Some t -> wGetTableResult__Table (carry_result r) = Some (carry t);
}.

Section spec.
Context {CA : Carrier} {cp : DeepCopy} (cfg : config) (v : Version).

(** The table a caller sees where the server keeps [t]. *)
Definition exported (t : wTable) : Table := let t := carry t in tableFill (storageFromThrift (wTable_Sd t)) t.
(** What the store keeps of a table created at [now], and of one put in place of another. *)
Definition created (now : Z) (t : Table) (cat : option string) : Table :=
  exported (stored_table now (carry (fillTable NewTable t cat))).
Definition altered (t : Table) (cat : option string) : Table :=
  exported (carry (fillTable (rawTableOrNew (Table_raw t)) t cat)).

(** The names the store has in a database, in order. *)
Definition listing (m : shelf) (cat db : string) (l : list string) : Prop :=
  StronglySorted string_le l /\ NoDup l /\ forall name, name ∈ l <-> is_Some (m !! (cat, db, name)).

(** One call, carried out: [wire] is the catalog as the server is told it. *)
Inductive carried_out (wire : option string) (cat : string) : request -> shelf -> reply -> shelf -> Prop :=
  | create_new t m now : m !! (cat, Table_DatabaseName t, Table_TableName t) = None ->
      carried_out wire cat (CreateReq t) m Done
        (<[(cat, Table_DatabaseName t, Table_TableName t) := created now t wire]> m)
  | create_taken t m : is_Some (m !! (cat, Table_DatabaseName t, Table_TableName t)) ->
      carried_out wire cat (CreateReq t) m (Refused ErrAlreadyExists) m
  | get_found db name opts m t : m !! (cat, db, name) = Some t -> carried_out wire cat (GetReq db name opts) m (Found t) m
  | get_missing db name opts m : m !! (cat, db, name) = None ->
      carried_out wire cat (GetReq db name opts) m (Refused ErrNotFound) m
  | list_names db opts m l : listing m cat db l -> carried_out wire cat (ListReq db opts) m (Names l) m
  | alter_present db name t opts m : is_Some (m !! (cat, db, name)) ->
      carried_out wire cat (AlterReq db name t opts) m Done
        (<[(cat, db, Table_TableName t) := altered t wire]> (delete (cat, db, name) m))
  | alter_missing db name t opts m : m !! (cat, db, name) = None ->
      carried_out wire cat (AlterReq db name t opts) m (Refused ErrMeta) m
  | drop_present db name dd ie opts m : is_Some (m !! (cat, db, name)) ->
      carried_out wire cat (DropReq db name dd ie opts) m Done (delete (cat, db, name) m)
  | drop_missing db name dd ie opts m : m !! (cat, db, name) = None ->
      carried_out wire cat (DropReq db name dd ie opts) m (if ie : bool then Done else Refused ErrNotFound) m.

(** One call, on a server of version [v]: refused without catalogs, carried out, or of
    unknown outcome, which only a write may have changed anything in. *)
Definition store_step (q : request) (m : shelf) (r : reply) (m' : shelf) : Prop :=
  match wire_cat v (catalog_of cfg q) with
  | None => m' = m /\ (r = Refused ErrNotSupported \/ r = Unknown)
  | Some wire =>
      carried_out wire (catalog_of cfg q) q m r m' \/
      (r = Unknown /\ (m' = m \/ (writes q = true /\ exists r', carried_out wire (catalog_of cfg q) q m r' m')))
  end.

Inductive store_run : shelf -> list (request * reply) -> shelf -> Prop :=
  | run_done m : store_run m [] m
  | run_call q r m m1 h m' : store_step q m r m1 -> store_run m1 h m' -> store_run m ((q, r) :: h) m'.

(** A read that is carried out leaves the store alone. *)
Lemma read_keeps wire cat q m r m' : writes q = false -> carried_out wire cat q m r m' -> m' = m.
Proof. intros Hw H. by destruct H. Qed.
End spec.

(** ** The calls, as the caller sees them *)

Section calls.
Context {W : Type} {U : UrlLib} {UL : UnicodeLower} {cp : DeepCopy} (env : Env W).

Definition err_reply (e : goerr) : reply :=
  if unavailable e then Unknown else Refused (classify e).

(** A nil table without an error would be nothing at all. *)
Definition perform (q : request) (s : St W) : St W * reply :=
  match q with
  | CreateReq t => let '(s, err) := TableOps.CreateTable env t s in (s, from_option err_reply Done err)
  | GetReq db name opts =>
      let '(s, (t, err)) := TableOps.GetTable env db name opts s in
      (s, from_option err_reply (from_option Found (Refused ErrMeta) t) err)
  | ListReq db opts =>
      let '(s, (l, err)) := TableOps.GetAllTables env db opts s in (s, from_option err_reply (Names (elems l)) err)
  | AlterReq db name t opts => let '(s, err) := TableOps.AlterTable env db name t opts s in (s, from_option err_reply Done err)
  | DropReq db name dd ie opts => let '(s, err) := TableOps.DropTable env db name dd ie opts s in (s, from_option err_reply Done err)
  end.

(** What happens on a client: a call; a tick of the recovery probe; time passing, and one
    caller's context giving way to another's. *)
Inductive event := Call (q : request) | Probe | Elapse (f : W -> W).

Fixpoint play (es : list event) (s : St W) : St W * list (request * reply) :=
  match es with
  | [] => (s, [])
  | Call q :: es => let '(s, r) := perform q s in let '(s, h) := play es s in (s, (q, r) :: h)
  | Probe :: es => play es (recoveryProbe_tick env s)
  | Elapse f :: es => play es (set_w (f (st_world s)) s)
  end.
End calls.

(** ** The metastore behind an unreliable network *)

(** Same version, same store; the clock and the record of calls may differ. *)
Definition near (f f' : fake) : Prop := f_v f' = f_v f /\ f_store f' = f_store f.

Lemma near_refl f : near f f.
Proof. by split. Qed.
Lemma near_trans f1 f2 f3 : near f1 f2 -> near f2 f3 -> near f1 f3.
Proof. unfold near. intros [] []. split; congruence. Qed.

(** [m] of the fake, carried out on a store at some time. *)
Definition runs {A} (m : M fake A) (v : Version) (st st' : Store) (r : goerr + A) : Prop :=
  exists f, f_v f = v /\ f_store f = st /\ f_store (fst (m f)) = st' /\ snd (m f) = r.

Section network.
Context {CA : Carrier} (path_Match : string -> string -> bool) {W : Type} (srv : W -> fake) (sound : W -> Prop).

Definition store_of (w : W) : Store := f_store (srv w).
Definition version_of (w : W) : Version := f_v (srv w).

(** [w] is sound, with a server of version [v]. *)
Definition serves (v : Version) (w : W) : Prop := sound w /\ version_of w = v.

(** From [w] to [w'] nothing happened on the server. *)
Definition still (w w' : W) : Prop := near (srv w) (srv w') /\ (sound w -> sound w').

Lemma still_serves v w w' : still w w' -> serves v w -> serves v w'.
Proof. unfold serves, version_of. intros [[Hv _] Hs] [H <-]. split; [by apply Hs|done]. Qed.
Lemma still_store w w' : still w w' -> store_of w' = store_of w.
Proof. by intros [[_ H] _]. Qed.

(** What becomes of a request: it is answered, or lost, or carried out with its reply lost. *)
Definition lossy {A} (m : M W A) (m0 : M fake A) : Prop := forall w, sound w ->
  let '(w', r) := m w in
  serves (version_of w) w' /\
  (runs m0 (version_of w) (store_of w) (store_of w') r \/
   exists e, r = inl e /\ unavailable e = true /\
     (store_of w' = store_of w \/ exists r', runs m0 (version_of w) (store_of w) (store_of w') r')).

Lemma lossy_ext {A} (m : M W A) (m0 m1 : M fake A) : (forall f, m0 f = m1 f) -> lossy m m0 -> lossy m m1.
Proof.
  intros E H w Hw. assert (forall v st st' r, runs m0 v st st' r -> runs m1 v st st' r) as Hr.
  { intros v st st' r (f & ?). exists f. by rewrite <- E. }
  specialize (H w Hw). destruct (m w) as [w' r]. destruct H as [Hs [H|(e & -> & Hu & H)]]; (split; [done|]); [by left; apply Hr|].
  right. exists e. split_and!; [done|done|]. destruct H as [H|[r' H]]; [by left|right; exists r'; by apply Hr].
Qed.

(** The RPCs the calls of [request] and the probe make. *)
Record lossy_rpcs (r : rpcs W) : Prop := {
  lossy_getCatalogs : lossy (getCatalogs r) (map_answer carry_catalogs (getCatalogs (fakeRpcs path_Match)));
  lossy_getAllTables db : lossy (getAllTables r db) (getAllTables (fakeRpcs path_Match) db);
  lossy_getTableReq q : lossy (getTableReq r q) (map_answer carry_result (getTableReq (fakeRpcs path_Match) q));
  lossy_createTable t : carriable t -> lossy (createTable r (Some t)) (createTable (fakeRpcs path_Match) (Some (carry t)));
  lossy_alterTable db n t : carriable t ->
    lossy (alterTable r db n (Some t)) (alterTable (fakeRpcs path_Match) db n (Some (carry t)));
  lossy_dropTable db n d : lossy (dropTable r db n d) (dropTable (fakeRpcs path_Match) db n d);
  lossy_getStatus : lossy (getStatus r) (getStatus (fakeRpcs path_Match));
}.

(** A conn to the server: its RPCs, a close that leaves the server alone, and a catalog
    cache that is empty or right. *)
Record linked (v : Version) (cn : conn W) : Prop := {
  li_rpcs : lossy_rpcs (rpc cn);
  li_close w : still w (fst (close cn w));
  li_cache : match catalogs cn with
             | catalogUnknown => True
             | catalogYes => v <> Hive23
             | catalogNo => v = Hive23
             end;
}.

(** What of a body's run is seen of the store: what it leaves and answers. *)
Definition sat {L A} (v : Version) (m : M (bst W L) A) (Q : Store -> Store -> L -> goerr + A -> Prop) : Prop :=
  forall b, linked v (b_conn b) -> serves v (b_world b) ->
  let '(b', r) := m b in
  linked v (b_conn b') /\ serves v (b_world b') /\
  Q (store_of (b_world b)) (store_of (b_world b')) (b_loc b') r.

(** A request whose answer did not come: it may have been carried out, if it [may] change
    the store as [E] says. *)
Definition in_doubt (E : Store -> Store -> Prop) (st st' : Store) {A} (r : goerr + A) : Prop :=
  (st' = st \/ E st st') /\ exists e, r = inl e /\ unavailable e = true.

Lemma sat_rpc {L A} v (g : rpcs W -> M W A) (m0 : M fake A) :
  (forall r, lossy_rpcs r -> lossy (g r) m0) ->
  sat (L := L) v (rpcM g) (fun st st' _ r =>
    runs m0 v st st' r \/ in_doubt (fun st st' => exists r', runs m0 v st st' r') st st' r).
Proof.
  intros Hg b Hc [Hb Hv]. unfold rpcM. pose proof (Hg _ (li_rpcs _ _ Hc) (b_world b) Hb) as H.
  destruct (g (rpc (b_conn b)) (b_world b)) as [w' r]. rewrite Hv in H. destruct H as [Hv' H]. split; [done|]. split; [done|].
  simpl. destruct H as [H|(e & -> & Hu & H)]; [by left|]. right. split; [done|]. by exists e.
Qed.

Lemma sat_weaken {L A} v (m : M (bst W L) A) (Q R : Store -> Store -> L -> goerr + A -> Prop) :
  sat v m Q -> (forall st st' l r, Q st st' l r -> R st st' l r) -> sat v m R.
Proof.
  intros Hm H b Hc Hv. specialize (Hm b Hc Hv). destruct (m b) as [b' r]. destruct Hm as (? & ? & ?). split_and!; auto.
Qed.

(** After a step that leaves the store alone. *)
Lemma sat_then {L A B} v (m : M (bst W L) A) (k : A -> M (bst W L) B) (P : goerr + A -> Prop) Q :
  sat v m (fun st st' _ r => st' = st /\ P r) ->
  (forall st l e, P (inl e) -> Q st st l (inl e)) -> (forall a, P (inr a) -> sat v (k a) Q) ->
  sat v (bind m k) Q.
Proof.
  intros Hm He Hk b Hc Hv. unfold bind. specialize (Hm b Hc Hv). destruct (m b) as [b1 [e|a]]; destruct Hm as (Hc1 & Hv1 & Hs & HP).
  - rewrite Hs. auto.
  - specialize (Hk a HP b1 Hc1 Hv1). by rewrite <- Hs.
Qed.

(** Before an assignment of the answer. *)
Lemma sat_assign {L A} v (m : M (bst W L) A) (f : A -> L) (Q : Store -> Store -> goerr + A -> Prop) :
  sat v m (fun st st' _ r => Q st st' r) ->
  sat v (bind m (fun a => assign (fun _ => f a))) (fun st st' l r =>
    exists r0, Q st st' r0 /\ match r0 with inl e => r = inl e | inr a => r = inr tt /\ l = f a end).
Proof.
  intros Hm b Hc Hv. unfold bind. specialize (Hm b Hc Hv). destruct (m b) as [b1 [e|a]]; destruct Hm as (Hc1 & Hv1 & HQ).
  - split_and!; [done|done|]. by exists (inl e).
  - split_and!; [done|done|]. by exists (inr a).
Qed.

Lemma sat_if_exists {L} v ie (m : M (bst W L) unit) (Q : Store -> Store -> goerr + unit -> Prop) :
  sat v m (fun st st' _ r => Q st st' r) ->
  sat v (if_exists ie m) (fun st st' _ r => exists r0, Q st st' r0 /\
    r = match r0 with inl e => if ie && not_found e then inr tt else inl e | inr _ => inr tt end).
Proof.
  intros Hm b Hc Hv. unfold if_exists, catch. specialize (Hm b Hc Hv). destruct (m b) as [b1 [e|[]]]; destruct Hm as (Hc1 & Hv1 & HQ).
  - destruct (ie && not_found e) eqn:E; (split_and!; [done|done|]); exists (inl e); by rewrite E.
  - split_and!; [done|done|]. by exists (inr tt).
Qed.

(** *** Catalogs *)

Lemma unavailable_known e : unavailable e = true -> isUnknownMethod e = false.
Proof.
  unfold unavailable, classify. intros H%bool_decide_eq_true. destruct (isUnknownMethod e) eqn:E; [|done].
  by repeat case_match.
Qed.

Lemma runs_getCatalogs v st st' r : runs (map_answer carry_catalogs (getCatalogs (fakeRpcs path_Match))) v st st' r ->
  st' = st /\ match r with
              | inr _ => v <> Hive23
              | inl e => v = Hive23 /\ isUnknownMethod e = true
              end.
Proof.
  intros (f & Hv & Hs & H1 & H2). simpl in H1, H2. unfold map_answer, bind, method in H1, H2.
  destruct (f_v f) eqn:Ev; subst v; simpl in H1, H2; subst; by split.
Qed.

Lemma sat_supportsCatalogs {L} v : sat (L := L) v supportsCatalogs (fun st st' _ r =>
  st' = st /\ match r with inr b => b = has_catalogs v | inl e => unavailable e = true end).
Proof.
  intros b Hc Hv. unfold supportsCatalogs, has_catalogs. pose proof (li_cache _ _ Hc) as Hk.
  destruct (catalogs (b_conn b)) eqn:Ec.
  - pose proof (sat_rpc (L := L) v getCatalogs _ lossy_getCatalogs b Hc Hv) as H.
    destruct (rpcM getCatalogs b) as [b1 [e|r]]; destruct H as (Hc1 & Hv1 & H).
    + destruct H as [H|[Hst (e' & [= <-] & Hu)]].
      * apply runs_getCatalogs in H as [Hst [-> He]]. rewrite He. split_and!; [|done|done|done].
        destruct Hc1 as [H1 H2 _]. by split.
      * rewrite (unavailable_known e Hu). split_and!; [done|done| |done].
        destruct Hst as [Hst|(r' & Hst)]; [done|]. by apply runs_getCatalogs in Hst as [? _].
    + destruct H as [H|[_ (e' & Hr & _)]]; [|done]. apply runs_getCatalogs in H as [Hst Hne]. split_and!; [|done|done|].
      * destruct Hc1 as [H1 H2 _]. by split.
      * by rewrite bool_decide_eq_true_2.
  - split_and!; [done|done|done|]. by rewrite bool_decide_eq_true_2.
  - split_and!; [done|done|done|]. rewrite bool_decide_eq_false_2; [done|]. by intros H.
Qed.

Lemma sat_resolve {L} v cfg sc opts : sat (L := L) v (resolveCatFor cfg sc opts) (fun st st' _ r =>
  st' = st /\ match r with
              | inr c => wire_cat v (effectiveCatalog cfg sc opts) = Some c
              | inl e => unavailable e = true \/
                         (e = ESentinel ErrNotSupported /\ wire_cat v (effectiveCatalog cfg sc opts) = None)
              end).
Proof.
  intros b Hc Hv. unfold resolveCatFor, bind. pose proof (sat_supportsCatalogs (L := L) v b Hc Hv) as H.
  destruct (supportsCatalogs b) as [b1 [e|ok]]; destruct H as (Hc1 & Hv1 & Hs & Hr); [by split_and!; auto|]. subst ok.
  unfold wire_cat. destruct (String.eqb_spec (effectiveCatalog cfg sc opts) defaultCatalog) as [->|];
    destruct (has_catalogs v); simpl; (split_and!; [done|done|done|]); auto.
Qed.
End network.

(** ** The store the server keeps *)

(** Names the server's keys tell apart. *)
Definition plain (s : string) : Prop := contains_byte "." s = false /\ contains_byte "#" s = false /\ HasPrefix "@" s = false.

Lemma tblKey_inj c d n c' d' n' : plain c -> plain d -> plain c' -> plain d' ->
  tblKey c d n = tblKey c' d' n' -> (c, d, n) = (c', d', n').
Proof.
  intros (Hc & _) (Hd & _) (Hc' & _) (Hd' & _) H.
  assert (forall a b x y, contains_byte "." a = false -> contains_byte "." b = false ->
    a +:+ "." +:+ x = b +:+ "." +:+ y -> a = b /\ x = y) as Hsep.
  { intros a b x y Ha Hb E. pose proof (cut_app "." a x Ha) as E1. pose proof (cut_app "." b y Hb) as E2.
    change (String "." x) with ("." +:+ x) in E1. change (String "." y) with ("." +:+ y) in E2. rewrite E, E2 in E1. by injection E1. }
  apply Hsep in H as [-> H]; [|done|done]. by apply Hsep in H as [-> ->].
Qed.

(** The abstract store and the server's tables. *)
Record shelved `{Carrier, DeepCopy} (m : shelf) (T : gmap string wTable) : Prop := {
  sh_get c d n : plain c -> plain d -> m !! (c, d, n) = exported <$> T !! tblKey c d n;
  sh_keys k t : T !! k = Some t -> exists c d, plain c /\ plain d /\ k = tblKey c d (wTable_TableName t);
}.

Section shelved.
Context {CA : Carrier} {cp : DeepCopy}.

Lemma shelved_insert m T c d n t : wTable_TableName t = n -> plain c -> plain d -> shelved m T ->
  shelved (<[(c, d, n) := exported t]> m) (<[tblKey c d n := t]> T).
Proof.
  intros <- Hc Hd [Hg Hk]. split.
  - intros c' d' n' Hc' Hd'. destruct (decide ((c, d, wTable_TableName t) = (c', d', n'))) as [[= <- <- <-]|Hne].
    + by rewrite lookup_insert_eq, lookup_insert_eq.
    + rewrite lookup_insert_ne, lookup_insert_ne; [by apply Hg| |done]. intros E. by apply Hne, tblKey_inj.
  - intros k x. rewrite lookup_insert_Some. intros [[<- <-]|[_ H]]; [by exists c, d|by apply Hk].
Qed.

Lemma shelved_delete m T c d n : plain c -> plain d -> shelved m T ->
  shelved (delete (c, d, n) m) (delete (tblKey c d n) T).
Proof.
  intros Hc Hd [Hg Hk]. split.
  - intros c' d' n' Hc' Hd'. destruct (decide ((c, d, n) = (c', d', n'))) as [[= <- <- <-]|Hne].
    + by rewrite lookup_delete_eq, lookup_delete_eq.
    + rewrite lookup_delete_ne, lookup_delete_ne; [by apply Hg| |done]. intros E. by apply Hne, tblKey_inj.
  - intros k x. rewrite lookup_delete_Some. intros [_ H]. by apply Hk.
Qed.

(** *** Names in order *)

#[export] Instance string_le_total : Total string_le.
Proof. intros a b. apply String.leb_total. Qed.
#[export] Instance string_le_trans : Transitive string_le.
Proof.
  intros a b c. unfold string_le, String.leb.
  destruct (String.compare a b) eqn:E1; [by apply String.compare_eq_iff in E1 as ->| |done].
  destruct (String.compare b c) eqn:E2; [apply String.compare_eq_iff in E2 as ->; by rewrite E1| |done].
  by rewrite (compare_trans a b c).
Qed.

Lemma prefix_app p s x : HasPrefix p (p +:+ s) = true /\ (HasPrefix p x = true -> exists y, x = p +:+ y).
Proof.
  split; [unfold HasPrefix; by rewrite strip_prefix_app|]. unfold HasPrefix. revert x.
  induction p as [|a p IH]; intros x; simpl; [by exists x|]. destruct x as [|b x]; [done|].
  destruct (Ascii.eqb_spec a b) as [->|]; [|done]. intros H. destruct (IH x H) as (y & ->). by exists y.
Qed.

(** The tables a database's prefix selects. *)
Definition selected_names (c d : string) (T : gmap string wTable) : list string :=
  map (fun kt => wTable_TableName (snd kt)) (List.filter (fun kt => HasPrefix (dbKey c d +:+ ".") (fst kt)) (map_to_list T)).

Lemma dbKey_tblKey c d n : dbKey c d +:+ "." +:+ n = tblKey c d n.
Proof. unfold dbKey, tblKey. by rewrite !string_app_assoc. Qed.

Lemma selected_elem m T c d k t : plain c -> plain d -> shelved m T ->
  (k, t) ∈ List.filter (fun kt => HasPrefix (dbKey c d +:+ ".") (fst kt)) (map_to_list T) <->
  T !! k = Some t /\ k = tblKey c d (wTable_TableName t).
Proof.
  intros Hc Hd [_ Hk]. rewrite list_elem_of_In, filter_In, <- list_elem_of_In, elem_of_map_to_list. simpl. split.
  - intros [Ht Hp]. split; [done|]. destruct (Hk k t Ht) as (c' & d' & Hc' & Hd' & E).
    apply (prefix_app _ "") in Hp as (y & Ey). rewrite string_app_assoc, dbKey_tblKey in Ey.
    rewrite E in Ey |- *. by apply tblKey_inj in Ey as [= -> -> _].
  - intros [Ht E]. split; [done|]. rewrite E, <- dbKey_tblKey, <- string_app_assoc. by apply (prefix_app _ _ "").
Qed.

Lemma selected_listing m T c d : plain c -> plain d -> shelved m T -> listing m c d (sort_names (selected_names c d T)).
Proof.
  intros Hc Hd H. pose proof (fun k t => selected_elem m T c d k t Hc Hd H) as Hel.
  unfold listing, sort_names, selected_names. split; [|split].
  - apply StronglySorted_merge_sort; apply _.
  - rewrite merge_sort_Permutation. apply NoDup_fmap_2_strong.
    + intros [k t] [k' t'] [H1 ->]%Hel [H2 ->]%Hel E. simpl in E. rewrite E in H1 |- *. congruence.
    + apply NoDup_ListNoDup, List.NoDup_filter, NoDup_ListNoDup, NoDup_map_to_list.
  - intros name. rewrite merge_sort_Permutation, list_elem_of_fmap, (sh_get _ _ H c d name Hc Hd). split.
    + intros ([k t] & -> & [Ht ->]%Hel). simpl. rewrite Ht. by eexists.
    + destruct (T !! tblKey c d name) as [t|] eqn:Ht; [|by intros []]. intros _.
      destruct (sh_keys _ _ H _ _ Ht) as (c' & d' & Hc' & Hd' & E).
      pose proof E as E'. apply tblKey_inj in E' as [= <- <- ->]; [|done..]. exists (tblKey c d (wTable_TableName t), t).
      split; [done|]. by apply Hel.
Qed.
End shelved.

(** ** Each RPC, carried out *)

Section carried.
Context {CA : Carrier} (path_Match : string -> string -> bool) {cp : DeepCopy} (cfg : config) (v : Version).
Local Abbreviation rpcs := (fakeRpcs path_Match).

Definition answer_reply {A} (said : A -> reply) (r : goerr + A) : reply :=
  match r with inl e => err_reply e | inr a => said a end.

(** An RPC does to the store what a request says, whatever the clock. *)
Definition carries {A} (m0 : M fake A) (said : A -> reply) (wire : option string) (q : request) : Prop :=
  forall st st' r, runs m0 v st st' r ->
  (writes q = false -> st' = st) /\
  forall m, shelved m (Tables st) ->
  exists m', shelved m' (Tables st') /\ carried_out wire (catalog_of cfg q) q m (answer_reply said r) m'.

Lemma runs_method {A} name (m : M fake A) st st' r : existsb (String.eqb name) (removedRPCs v) = false ->
  runs (method name m) v st st' r ->
  exists f, f_v f = v /\ f_store f = st /\ f_store (fst (m f)) = st' /\
    r = match snd (m f) with inl e => inl (undeclared name e) | inr a => inr a end.
Proof.
  intros Hn (f & Hv & Hs & H1 & H2). exists f. unfold method in H1, H2. rewrite Hv, Hn in H1, H2.
  by destruct (m f) as [f' [e|a]].
Qed.

(** Names the server understands, and a table that can be sent. *)
Definition plain_request (q : request) : Prop :=
  plain (catalog_of cfg q) /\ plain (database_of q) /\
  match q with
  | CreateReq t => forall wire, carriable (fillTable NewTable t wire)
  | AlterReq _ _ t _ => forall wire, carriable (fillTable (rawTableOrNew (Table_raw t)) t wire)
  | _ => True
  end.

Section one.
Context (wire : option string) (q : request).
Hypothesis Hwire : wire_cat v (catalog_of cfg q) = Some wire.
Hypothesis Hplain : plain_request q.

Lemma plain_db : resolveDB v (qualifyDBName wire (database_of q)) = inr (catalog_of cfg q, database_of q).
Proof. destruct Hplain as ((_ & Hc & _) & (_ & _ & Hd) & _). by apply resolveDB_wire. Qed.
End one.

Lemma carries_create t wire : let q := CreateReq t in
  wire_cat v (catalog_of cfg q) = Some wire -> plain_request q ->
  carries (createTable rpcs (Some (carry (fillTable NewTable t wire)))) (fun _ => Done) wire q.
Proof.
  intros q Hw (Hc & Hd & _) st st' r (f & Hv & Hs & H1 & ->)%runs_method; [|by destruct v]. split; [done|]. intros m Hm.
  destruct (run_CreateTable (carry (fillTable NewTable t wire)) (catalog_of cfg q) f) as (f' & _ & _ & Hrun).
  { rewrite Hv, carry_CatName. by apply cat_wire. }
  rewrite Hs, carry_DbName, carry_TableName in Hrun. pose proof (sh_get _ _ Hm (catalog_of cfg q) (Table_DatabaseName t) (Table_TableName t) Hc Hd) as Hg.
  change (wTable_DbName (fillTable NewTable t wire)) with (Table_DatabaseName t) in Hrun.
  change (wTable_TableName (fillTable NewTable t wire)) with (Table_TableName t) in Hrun.
  destruct (Tables st !! tblKey _ (Table_DatabaseName t) (Table_TableName t)) as [x|].
  - destruct Hrun as [Hrun Hst]. rewrite Hrun in H1 |- *. simpl in H1. exists m. split; [by rewrite <- H1, Hst|].
    apply create_taken. eexists. exact Hg.
  - destruct Hrun as (Hrun & Ht & _). rewrite Hrun in H1 |- *. simpl in H1.
    exists (<[(catalog_of cfg q, Table_DatabaseName t, Table_TableName t) := created (f_now f) t wire]> m). split; [|by apply create_new].
    rewrite <- H1, Ht. apply shelved_insert; [|done|done|done]. by unfold stored_table; case_match; simpl; rewrite carry_TableName.
Qed.

Lemma carries_get db name opts wire : let q := GetReq db name opts in
  wire_cat v (catalog_of cfg q) = Some wire -> plain_request q ->
  carries (map_answer carry_result (getTableReq rpcs (newGetTableRequest db name wire)))
    (fun res => from_option Found (Refused ErrMeta) (tableFromThrift (wGetTableResult__Table res))) wire q.
Proof.
  intros q Hw (Hc & Hd & _) st st' r H.
  assert (exists f, f_v f = v /\ f_store f = st /\ f_store (fst (Fake.GetTableReq (newGetTableRequest db name wire) f)) = st' /\
    r = match snd (Fake.GetTableReq (newGetTableRequest db name wire) f) with
        | inl e => inl (undeclared "get_table_req" e)
        | inr a => inr (carry_result a)
        end) as (f & Hv & Hs & H1 & ->).
  { destruct H as (f & Hv & Hs & H1 & H2). exists f. simpl in H1, H2. unfold map_answer, bind, method in H1, H2.
    replace (existsb _ _) with false in H1, H2 by (rewrite Hv; by destruct v).
    by destruct (Fake.GetTableReq _ f) as [f' [e|a]]. }
  destruct (run_GetTableReq db name wire (catalog_of cfg q) f) as (f' & _ & _ & Hst & Hrun); [rewrite Hv; by apply cat_wire|].
  rewrite Hrun in H1 |- *. rewrite Hs in Hst |- *. simpl in H1. rewrite <- H1, Hst. split; [done|]. intros m Hm. exists m. split; [done|].
  pose proof (sh_get _ _ Hm (catalog_of cfg q) db name Hc Hd) as Hg. simpl in Hg.
  destruct (Tables st !! tblKey _ db name) as [x|]; [|by apply get_missing]. simpl.
  rewrite (carry_result_Table _ x) by done. by apply get_found.
Qed.

Lemma run_GetAllTables dbName db c f : resolveDB (f_v f) dbName = inr (c, db) ->
  exists f', f_store f' = f_store f /\
    Fake.GetAllTables dbName f =
      (f', inr (match selected_names c db (Tables (f_store f)) with [] => None | l => Some (sort_names l) end)).
Proof.
  intros Hc. unfold Fake.GetAllTables, bind, record, modify, version, lift, store. simpl. rewrite Hc. simpl.
  unfold selected_names. eexists (mkFake _ _ _ _). case_match; by split.
Qed.

Lemma carries_list db opts wire : let q := ListReq db opts in
  wire_cat v (catalog_of cfg q) = Some wire -> plain_request q ->
  carries (getAllTables rpcs (qualifyDBName wire db)) (fun l => Names (elems l)) wire q.
Proof.
  intros q Hw Hp st st' r (f & Hv & Hs & H1 & ->)%runs_method; [|by destruct v].
  pose proof (plain_db wire q Hw Hp) as Hr. change (database_of q) with db in Hr. rewrite <- Hv in Hr. destruct Hp as (Hc & Hd & _).
  destruct (run_GetAllTables _ _ _ f Hr) as (f' & Hst & Hrun). rewrite Hs in Hst, Hrun. rewrite Hrun in H1 |- *. simpl in H1.
  rewrite <- H1, Hst. split; [done|]. intros m Hm. exists m. split; [done|]. simpl. apply list_names.
  pose proof (selected_listing m (Tables st) _ _ Hc Hd Hm) as Hl. simpl in Hl. by destruct (selected_names _ _ _).
Qed.

Lemma run_AlterTable dbName db c name t f : resolveDB (f_v f) dbName = inr (c, db) ->
  exists f',
    match Tables (f_store f) !! tblKey c db name with
    | None => Fake.AlterTable dbName name (Some t) f =
                (f', inl (meta ("table " +:+ db +:+ "." +:+ name +:+ " not found"))) /\ f_store f' = f_store f
    | Some _ => Fake.AlterTable dbName name (Some t) f = (f', inr tt) /\
                Tables (f_store f') = <[tblKey c db (wTable_TableName t) := t]> (delete (tblKey c db name) (Tables (f_store f)))
    end.
Proof.
  intros Hc. unfold Fake.AlterTable, bind, record, modify, version, lift, store. simpl. rewrite Hc. simpl.
  destruct (Tables (f_store f) !! tblKey c db name); by eexists.
Qed.

Lemma carries_alter db name t opts wire : let q := AlterReq db name t opts in
  wire_cat v (catalog_of cfg q) = Some wire -> plain_request q ->
  carries (alterTable rpcs (qualifyDBName wire db) name (Some (carry (fillTable (rawTableOrNew (Table_raw t)) t wire)))) (fun _ => Done) wire q.
Proof.
  intros q Hw Hp st st' r (f & Hv & Hs & H1 & ->)%runs_method; [|by destruct v]. split; [done|]. intros m Hm.
  pose proof (plain_db wire q Hw Hp) as Hr. change (database_of q) with db in Hr. rewrite <- Hv in Hr. destruct Hp as (Hc & Hd & _).
  set (x := carry _) in *. assert (wTable_TableName x = Table_TableName t) as Hx by apply carry_TableName.
  destruct (run_AlterTable _ _ _ name x f Hr) as (f' & Hrun). rewrite Hs, Hx in Hrun.
  pose proof (sh_get _ _ Hm (catalog_of cfg q) db name Hc Hd) as Hg.
  destruct (Tables st !! tblKey (catalog_of cfg q) db name) as [y|]; destruct Hrun as [Hrun Hst]; rewrite Hrun in H1 |- *; simpl in H1.
  - eexists. split; [|apply alter_present; eexists; exact Hg].
    rewrite <- H1, Hst. apply shelved_insert; [done|done|done|]. by apply shelved_delete.
  - exists m. split; [by rewrite <- H1, Hst|]. by apply alter_missing.
Qed.

Lemma carries_drop db name dd opts wire : let q := DropReq db name dd false opts in
  wire_cat v (catalog_of cfg q) = Some wire -> plain_request q ->
  carries (dropTable rpcs (qualifyDBName wire db) name dd) (fun _ => Done) wire q.
Proof.
  intros q Hw Hp st st' r (f & Hv & Hs & H1 & ->)%runs_method; [|by destruct v]. split; [done|]. intros m Hm.
  pose proof (plain_db wire q Hw Hp) as Hr. change (database_of q) with db in Hr. rewrite <- Hv in Hr. destruct Hp as (Hc & Hd & _).
  destruct (run_DropTable _ _ _ name dd f Hr) as (f' & _ & _ & Hrun). rewrite Hs in Hrun.
  pose proof (sh_get _ _ Hm (catalog_of cfg q) db name Hc Hd) as Hg.
  destruct (Tables st !! tblKey (catalog_of cfg q) db name) as [y|].
  - destruct Hrun as (Hrun & Hst & _). rewrite Hrun in H1 |- *. simpl in H1.
    eexists. split; [|apply drop_present; eexists; exact Hg]. rewrite <- H1, Hst. by apply shelved_delete.
  - destruct Hrun as [Hrun Hst]. rewrite Hrun in H1 |- *. simpl in H1. exists m. split; [by rewrite <- H1, Hst|].
    by apply (drop_missing wire (catalog_of cfg q) db name dd false).
Qed.
End carried.

(** ** Each call's body *)

Section bodies.
Context {CA : Carrier} (path_Match : string -> string -> bool) {cp : DeepCopy} {W : Type} (srv : W -> fake) (sound : W -> Prop) (cfg : config) (v : Version).
Local Abbreviation rpcs := (fakeRpcs path_Match).

Definition outcome {L} (ok : L -> reply) (l : L) (err : option goerr) : reply := from_option err_reply (ok l) err.

(** What a body leaves and answers is a step of the abstract store. *)
Definition obeys {L} (q : request) (ok : L -> reply) (st st' : Store) (l : L) (r : goerr + unit) : Prop :=
  (writes q = false -> st' = st) /\
  forall m, shelved m (Tables st) ->
  exists m', shelved m' (Tables st') /\ store_step cfg v q m (outcome ok l (err_of r)) m'.

Lemma err_reply_unavailable e : unavailable e = true -> err_reply e = Unknown.
Proof. unfold err_reply. by intros ->. Qed.

Lemma step_unknown q m : store_step cfg v q m Unknown m.
Proof. unfold store_step. case_match; auto. Qed.

Lemma obeys_unavailable {L} q (ok : L -> reply) st l e : unavailable e = true -> obeys q ok st st l (inl e).
Proof.
  intros Hu. split; [done|]. intros m Hm. exists m. split; [done|]. simpl. rewrite err_reply_unavailable by done. apply step_unknown.
Qed.

Lemma obeys_unsupported {L} q (ok : L -> reply) st l :
  wire_cat v (catalog_of cfg q) = None -> obeys q ok st st l (inl (ESentinel ErrNotSupported)).
Proof.
  intros Hw. split; [done|]. intros m Hm. exists m. split; [done|]. unfold store_step. rewrite Hw. split; [done|]. by left.
Qed.

(** The answer of an RPC that carries the request out, or is in doubt. *)
Definition answered_or_lost {A} (m0 : M fake A) (st st' : Store) (r : goerr + A) : Prop :=
  runs m0 v st st' r \/ in_doubt (fun st st' => exists r', runs m0 v st st' r') st st' r.

Lemma obeys_rpc {L A} q (ok : L -> reply) (m0 : M fake A) said wire st st' r0 l r :
  wire_cat v (catalog_of cfg q) = Some wire -> carries cfg v m0 said wire q -> answered_or_lost m0 st st' r0 ->
  match r0 with inl e => r = inl e | inr a => r = inr tt /\ ok l = said a end ->
  obeys q ok st st' l r.
Proof.
  intros Hw Hc [H|[Hst (e & -> & Hu)]] Hr.
  - destruct (Hc _ _ _ H) as [Hk Hm]. split; [done|]. intros m Hs. destruct (Hm m Hs) as (m' & Hs' & Hd). exists m'. split; [done|].
    unfold store_step. rewrite Hw. left. destruct r0 as [e|a]; [by rewrite Hr|]. destruct Hr as [-> Hok]. unfold outcome. simpl. by rewrite Hok.
  - rewrite Hr. destruct Hst as [->|(r' & H)]; [by apply obeys_unavailable|].
    destruct (Hc _ _ _ H) as [Hk Hm]. split; [done|]. intros m Hs. destruct (Hm m Hs) as (m' & Hs' & Hd). exists m'. split; [done|].
    unfold outcome, store_step. simpl. rewrite Hw, err_reply_unavailable by done. right. split; [done|].
    destruct (writes q) eqn:Ew; [right; split; [done|by eexists]|]. left. by eapply read_keeps.
Qed.

(** Every body resolves its catalog first. *)
Lemma sat_resolved {L} q sc opts (k : option string -> M (bst W L) unit) (ok : L -> reply) :
  effectiveCatalog cfg sc opts = catalog_of cfg q ->
  (forall wire, wire_cat v (catalog_of cfg q) = Some wire -> sat path_Match srv sound v (k wire) (obeys q ok)) ->
  sat path_Match srv sound v (bind (resolveCatFor cfg sc opts) k) (obeys q ok).
Proof.
  intros He Hk. eapply sat_then; [apply sat_resolve|..]; rewrite ?He.
  - intros st l e [Hu|[-> Hw]]; [by apply obeys_unavailable|by apply obeys_unsupported].
  - intros wire Hw. by apply Hk.
Qed.

Lemma sat_create t : plain_request cfg (CreateReq t) ->
  sat path_Match srv sound v (create_table_body (L := unit) cfg t) (obeys (CreateReq t) (fun _ => Done)).
Proof.
  intros Hp. apply sat_resolved; [done|]. intros wire Hw. eapply sat_weaken; [by apply sat_rpc; intros r Hr; apply (lossy_createTable _ _ _ _ Hr), Hp|].
  intros st st' l r H. eapply obeys_rpc; [done|by apply carries_create|exact H|]. by destruct r as [e|[]].
Qed.

Lemma sat_alter db name t opts : plain_request cfg (AlterReq db name t opts) ->
  sat path_Match srv sound v (alter_table_body (L := unit) cfg db name t opts) (obeys (AlterReq db name t opts) (fun _ => Done)).
Proof.
  intros Hp. apply sat_resolved; [done|]. intros wire Hw. eapply sat_weaken; [by apply sat_rpc; intros r Hr; apply (lossy_alterTable _ _ _ _ Hr), Hp|].
  intros st st' l r H. eapply obeys_rpc; [done|by apply carries_alter|exact H|]. by destruct r as [e|[]].
Qed.

Definition found (t : option Table) : reply := from_option Found (Refused ErrMeta) t.

Lemma sat_get db name opts : plain_request cfg (GetReq db name opts) ->
  sat path_Match srv sound v (get_table_body cfg db name opts) (obeys (GetReq db name opts) found).
Proof.
  intros Hp. apply sat_resolved; [done|]. intros wire Hw.
  eapply sat_weaken; [apply sat_assign; by apply sat_rpc; intros r Hr; apply (lossy_getTableReq _ _ _ _ Hr)|].
  intros st st' l r (r0 & H & Hr). eapply obeys_rpc; [done|by apply carries_get|exact H|]. destruct r0 as [e|a]; [done|]. by destruct Hr as [-> ->].
Qed.

Lemma sat_list db opts : plain_request cfg (ListReq db opts) ->
  sat path_Match srv sound v
    (bind (resolveCat cfg opts) (fun cat => bind (rpcM (fun r => getAllTables r (qualifyDBName cat db))) (fun list => assign (fun _ => list))))
    (obeys (ListReq db opts) (fun l => Names (elems l))).
Proof.
  intros Hp. apply sat_resolved; [done|]. intros wire Hw.
  eapply sat_weaken; [apply sat_assign; by apply sat_rpc; intros r Hr; apply (lossy_getAllTables _ _ _ _ Hr)|].
  intros st st' l r (r0 & H & Hr). eapply obeys_rpc; [done|by apply carries_list|exact H|]. destruct r0 as [e|a]; [done|]. by destruct Hr as [-> ->].
Qed.

Local Ltac sentinels :=
  repeat match goal with
  | |- context [bool_decide (?a = ?b)] => first [change (bool_decide (a = b)) with true|change (bool_decide (a = b)) with false]
  end.

(** With ifExists, a missing table is no error. *)
Lemma carried_if_exists wire c db name dd opts m r m' :
  carried_out wire c (DropReq db name dd false opts) m r m' ->
  carried_out wire c (DropReq db name dd true opts) m (match r with Refused ErrNotFound => Done | r => r end) m'.
Proof.
  intros H. inversion H; subst; [by apply drop_present|]. by apply (drop_missing wire c db name dd true).
Qed.

Lemma step_if_exists db name dd opts m r m' : store_step cfg v (DropReq db name dd false opts) m r m' ->
  store_step cfg v (DropReq db name dd true opts) m (match r with Refused ErrNotFound => Done | r => r end) m'.
Proof.
  unfold store_step. cbn [catalog_of]. destruct (wire_cat v _).
  - intros [H|[-> Hd]]; [left; by apply carried_if_exists|]. right. split; [done|].
    destruct Hd as [|(_ & r' & H)]; [by left|]. right. split; [done|]. eexists. by eapply carried_if_exists.
  - intros [-> [->| ->]]; auto.
Qed.

Lemma obeys_if_exists db name dd opts st st' l (r : goerr + unit) : obeys (DropReq db name dd false opts) (fun _ : unit => Done) st st' l r ->
  obeys (DropReq db name dd true opts) (fun _ => Done) st st' l (match r with inl e => if not_found e then inr tt else inl e | inr _ => inr tt end).
Proof.
  intros [_ H]. split; [done|]. intros m Hm. destruct (H m Hm) as (m' & Hm' & Hs). exists m'. split; [done|].
  apply step_if_exists in Hs. destruct r as [e|[]]; [|exact Hs]. unfold outcome in *. simpl in *.
  unfold err_reply, unavailable, not_found in *. destruct (classify e) eqn:E; sentinels; cbn; rewrite ?E; sentinels; exact Hs.
Qed.

Lemma sat_drop db name dd ie opts : plain_request cfg (DropReq db name dd ie opts) ->
  sat path_Match srv sound v (drop_table_body (L := unit) cfg db name dd ie opts) (obeys (DropReq db name dd ie opts) (fun _ => Done)).
Proof.
  intros Hp. apply sat_resolved; [done|]. intros wire Hw.
  eapply sat_weaken; [apply sat_if_exists; by apply sat_rpc; intros r Hr; apply (lossy_dropTable _ _ _ _ Hr)|].
  intros st st' [] r (r0 & H & ->).
  assert (obeys (DropReq db name dd false opts) (fun _ => Done) st st' tt r0) as Hf.
  { eapply obeys_rpc; [done|by apply carries_drop|exact H|]. by destruct r0 as [e|[]]. }
  destruct ie; [exact (obeys_if_exists db name dd opts st st' tt r0 Hf)|]. by destruct r0 as [e|[]].
Qed.
End bodies.

(** ** The retry loop *)

(** An environment whose dials reach the server or fail as those of unreachable hosts do,
    and that otherwise leaves it alone. *)
Class Serves {CA : Carrier} (path_Match : string -> string -> bool) {W} (srv : W -> fake) (sound : W -> Prop) (v : Version) {U : UrlLib} (env : Env W) : Prop := {
  sv_draw w : still srv sound w (fst (env_draw env w));
  sv_dial ep cfg krb w : serves srv sound v w ->
    let '(w', r) := newConn_raw env ep cfg krb w in
    still srv sound w w' /\ match r with inr cn => linked path_Match srv sound v cn | inl e => unavailable e = true end;
}.

Lemma join_unavailable_class last : (forall e, last = Some e -> unavailable e = true) ->
  exists e, errors_Join [Some (ESentinel ErrUnavailable); last] = Some e /\ unavailable e = true.
Proof.
  intros H. destruct last as [e|]; [|by eexists]. specialize (H e eq_refl).
  exists (EJoin [ESentinel ErrUnavailable; e]). split; [done|]. unfold unavailable in *. apply bool_decide_eq_true in H as Hu.
  apply bool_decide_eq_true. transitivity (classify e); [|done].
  apply (classify_prefix e _ [EJoin [ESentinel ErrUnavailable; e]; ESentinel ErrUnavailable]); [by simpl; rewrite app_nil_r|done|].
  intros s Hs. unfold in_pre in Hs. simpl in Hs. rewrite orb_false_r in Hs. apply bool_decide_eq_true in Hs. congruence.
Qed.

Lemma wrap_unavailable op e : unavailable e = true -> exists e', wrapError op (Some e) = Some e' /\ unavailable e' = true.
Proof.
  intros H. destruct (wrapError_spec op e) as (e' & He & _ & _ & _ & _ & _ & Hc & _). exists e'. split; [done|].
  unfold unavailable in *. by rewrite Hc.
Qed.

Section loop.
Context {CA : Carrier} (path_Match : string -> string -> bool) {W : Type} (srv : W -> fake) (sound : W -> Prop) (v : Version) {U : UrlLib} (env : Env W).
Context {SV : Serves path_Match srv sound v env} (n : nat) (cfg : config).
Hypothesis Htries : 1 <= cfg_maxRetries cfg.
Implicit Types s : St W.
Local Abbreviation linked := (linked path_Match srv sound v).
Local Abbreviation stored s := (store_of srv (st_world s)).

(** A client of the server, with [k] of its conns on loan. *)
Record serving (k : nat -> Z) s : Prop := {
  sr_pools : settled n k s;
  sr_cfg : c_cfg (st_client s) = cfg;
  sr_conns j : (j < n)%nat -> Forall linked (idle_of j s);
  sr_serves : serves srv sound v (st_world s);
}.

(** What leaves pools and server alone keeps a client serving. *)
Lemma serving_same k s s' : serving k s -> same_pools s s' -> wf n (c_cluster (st_client s')) ->
  serves srv sound v (st_world s') -> serving k s'.
Proof.
  intros [Q T C V] P Hw Hv. split; [by apply (settled_same n k s)| | |done].
  - destruct P as (_ & -> & _). exact T.
  - intros j Hj. rewrite (same_idle _ _ _ P). auto.
Qed.
Lemma serving_log k s l m a : serving k s -> serving k (log l m a s).
Proof. intros S. apply (serving_same k s); [done|done|apply S|apply S]. Qed.

Lemma serving_observe k s op idx a d e : serving k s -> serving k (observe op idx a d e s) /\ stored (observe op idx a d e s) = stored s.
Proof.
  intros S. destruct (observe_fields op idx a d e s) as [Hw Hc]. rewrite Hw. split; [|done].
  apply (serving_same k s); [done|by apply same_client|rewrite Hc; apply S|rewrite Hw; apply S].
Qed.

Lemma serving_markFailed s idx reason : serving none s ->
  serving none (markFailed env idx reason s) /\ stored (markFailed env idx reason s) = stored s.
Proof.
  intros S. assert (still srv sound (st_world s) (st_world (markFailed env idx reason s))) as Hn.
  { unfold markFailed. pose proof (sv_draw (st_world s)) as H. destruct (env_draw env (st_world s)). by destruct (MarkFailed _ _ _ _) as [[] c]. }
  split; [|by eapply still_store]. apply (serving_same none s); [done|apply same_markFailed| |by eapply still_serves, S].
  apply (inv_markFailed env n idx reason s), S.
Qed.

Lemma serving_markHealthy s idx reason : serving none s ->
  serving none (markHealthy env idx reason s) /\ stored (markHealthy env idx reason s) = stored s.
Proof.
  intros S. assert (st_world (markHealthy env idx reason s) = st_world s) as Hw by (unfold markHealthy; by destruct (MarkHealthy _ _ _) as [[] c]).
  rewrite Hw. split; [|done]. apply (serving_same none s); [done|apply same_markHealthy| |rewrite Hw; apply S].
  apply (inv_markHealthy env n idx reason s), S.
Qed.

Lemma serving_pick s s' r : serving none s -> pick env s = (s', r) ->
  serving none s' /\ st_world s' = st_world s /\ (forall idx, r = Some idx -> (idx < n)%nat).
Proof.
  intros S E. pose proof (inv_pick _ _ _ _ _ (q_inv _ _ _ (sr_pools _ _ S)) E) as I.
  assert (st_world s' = st_world s) as Hw by (unfold pick in E; destruct (Pick _ _); by injection E as <- <-).
  split_and!; [|done|intros idx ->; eapply pick_lt; [apply S|exact E]].
  apply (serving_same none s); [done|by eapply same_pick|apply I|rewrite Hw; apply S].
Qed.

Lemma serving_acquire s idx s' r : serving none s -> (idx < n)%nat -> acquire env idx s = (s', r) ->
  stored s' = stored s /\
  match r with
  | inr cn => serving (one idx) s' /\ linked cn
  | inl e => serving none s' /\ unavailable e = true
  end.
Proof.
  intros S Hi Ha. pose proof (acquire_settled _ _ _ _ _ _ (sr_pools _ _ S) Hi Ha) as Q'.
  apply (acquire_acquired _ n) in Ha as [F K Hidle Hfrom]; [|apply S|done].
  assert (forall r', dials env idx s s' r' -> still srv sound (st_world s) (st_world s') /\
    match r' with inr cn => linked cn | inl e => unavailable e = true end) as Hdial.
  { intros r' Hd. unfold dials in Hd.
    pose proof (sv_dial (c_endpoints (st_client s) !!! idx) (c_cfg (st_client s)) (c_krbSession (st_client s)) _ (sr_serves _ _ S)) as H.
    by rewrite Hd in H. }
  assert (forall k, settled n k s' -> still srv sound (st_world s) (st_world s') -> serving k s') as Hsv.
  { intros k Qk Hn. split; [done|rewrite (fx_cfg _ _ F); apply S| |by eapply still_serves, S].
    intros j Hj. apply (Forall_sub _ _ (idle_of j s)); [by apply Hidle|by apply S]. }
  destruct r as [e|cn]; destruct Hfrom as [H|H].
  - destruct H as (_ & -> & Hw). split_and!; [by rewrite Hw|apply Hsv; [done|by rewrite Hw]|done].
  - apply Hdial in H as [Hn He]. split_and!; [by eapply still_store|by apply Hsv|done].
  - destruct H as (Hin & Hw). split_and!; [by rewrite Hw|apply Hsv; [done|by rewrite Hw]|].
    pose proof (sr_conns _ _ S idx Hi) as H. rewrite list.Forall_forall in H. by apply H.
  - apply Hdial in H as [Hn Hl]. split_and!; [by eapply still_store|by apply Hsv|done].
Qed.

Lemma serving_discard s idx cn reason : serving (one idx) s -> (idx < n)%nat -> linked cn ->
  serving none (discardWith idx cn reason s) /\ stored (discardWith idx cn reason s) = stored s.
Proof.
  intros S Hi Hl. pose proof (fun j => discard_idle n idx cn reason s j (q_inv _ _ _ (sr_pools _ _ S)) Hi) as Hd. cbv zeta in Hd.
  destruct (Hd 0%nat) as (_ & F & _ & Hw). pose proof (li_close _ _ _ _ _ Hl (st_world s)) as Hn. rewrite <- Hw in Hn.
  split; [|by eapply still_store]. split; [apply discardWith_settled; [apply S|done]|rewrite (fx_cfg _ _ F); apply S| |by eapply still_serves, S].
  intros j Hj. destruct (Hd j) as (-> & _). by apply S.
Qed.

Lemma serving_release s idx cn : serving (one idx) s -> (idx < n)%nat -> linked cn ->
  serving none (release idx cn s) /\ stored (release idx cn s) = stored s.
Proof.
  intros S Hi Hl. pose proof (release_settled n idx cn s (sr_pools _ _ S) Hi) as Q. unfold release in *.
  destruct (c_closed (st_client s)); [by apply serving_discard|].
  destruct (negb (idle_full idx s)); [|by apply serving_discard]. split; [|done]. split; [done|apply S| |apply S].
  intros j Hj. unfold idle_of. rewrite st_client_log. destruct (decide (j = idx)) as [->|].
  - rewrite (pool_upd_eq n) by (try apply S; done). apply Forall_app. split; [by apply S|by constructor].
  - rewrite pool_upd_ne by done. by apply S.
Qed.

Lemma sat_run {L} (fn : M (bst W L) unit) Q k s cn l : sat path_Match srv sound v fn Q -> serving k s -> linked cn ->
  exists s' cn' l' r, run_fn fn cn l s = (s', cn', l', err_of r) /\ serving k s' /\ linked cn' /\ Q (stored s) (stored s') l' r.
Proof.
  intros Hf S Hl. specialize (Hf (mkBst cn (st_world s) (c_warehouseRoots (st_client s)) l) Hl (sr_serves _ _ S)).
  destruct (fn _) as [b r] eqn:E. destruct Hf as (Hl' & Hv & HQ).
  destruct (run_fn_fields fn cn l s b r E) as (s' & -> & Hw & P & K). exists s', (b_conn b), (b_loc b), r. split_and!; [done| |done|by rewrite Hw].
  apply (serving_same k s); [done|done|rewrite K; apply S|by rewrite Hw].
Qed.

(** What a call comes to: what its body says of the store and answers, or nothing and
    ErrUnavailable. *)
Definition ended {L} (op : string) (Q : Store -> Store -> L -> goerr + unit -> Prop) (st : Store) (res : St W * (L * option goerr)) : Prop :=
  let '(s', (l', err)) := res in
  serving none s' /\
  ((exists r, Q st (stored s') l' r /\ err = wrapError op (err_of r)) \/
   (stored s' = st /\ exists e, err = Some e /\ unavailable e = true)).

Lemma ended_unavailable {L} op (Q : Store -> Store -> L -> goerr + unit -> Prop) s l e :
  serving none s -> unavailable e = true -> ended op Q (stored s) (s, (l, wrapError op (Some e))).
Proof. intros S Hu. destruct (wrap_unavailable op e Hu) as (e' & -> & Hu'). split; [done|]. right. split; [done|]. by exists e'. Qed.

(** What comes after the body, its conn put back or closed. *)
Lemma after_ended {L} op idem (Q : Store -> Store -> L -> goerr + unit -> Prop) idx cn r last s st l :
  (idem = true -> forall st st' l e, Q st st' l (inl e) -> unavailable e = true -> st' = st) ->
  serving (one idx) s -> (idx < n)%nat -> linked cn -> Q st (stored s) l r ->
  match after_fn env op idem idx cn (err_of r) last s with
  | (s', inl err) => ended op Q st (s', (l, err))
  | (s', inr last) => serving none s' /\ stored s' = st /\ exists e, last = Some e /\ unavailable e = true
  end.
Proof.
  intros Hidem S Hi Hl HQ.
  assert (forall s', serving none s' -> stored s' = stored s -> ended op Q st (s', (l, wrapError op (err_of r)))) as Hend.
  { intros s' S' Hs. split; [done|]. left. exists r. by rewrite Hs. }
  destruct r as [e|[]]; cbn [err_of after_fn].
  2: { destruct (serving_release s idx cn S Hi Hl) as [S1 H1]. destruct (serving_markHealthy _ idx op S1) as [S2 H2]. apply Hend; [done|congruence]. }
  destruct (unavailable e) eqn:Eu.
  - destruct (serving_discard s idx cn "unavailable" S Hi Hl) as [S1 H1]. fold (discard idx cn s) in S1, H1.
    destruct (env_ctxErr env _); [by apply Hend|]. destruct (serving_markFailed _ idx op S1) as [S2 H2].
    destruct idem eqn:Ei; [|by apply Hend; [|congruence]]. split; [by apply serving_log|]. split; [|by exists e].
    rewrite <- (Hidem eq_refl _ _ _ _ HQ Eu), <- H1. exact H2.
  - destruct (isProtocolError e).
    + destruct (serving_discard s idx cn "protocol error" S Hi Hl) as [S1 H1]. destruct (serving_markHealthy _ idx op S1) as [S2 H2].
      apply Hend; [done|congruence].
    + destruct (serving_release s idx cn S Hi Hl) as [S1 H1]. destruct (serving_markHealthy _ idx op S1) as [S2 H2].
      apply Hend; [done|congruence].
Qed.

Lemma loop_ended {L} op idem (fn : M (bst W L) unit) Q m : sat path_Match srv sound v fn Q ->
  (idem = true -> forall st st' l e, Q st st' l (inl e) -> unavailable e = true -> st' = st) ->
  forall attempt last l s, serving none s -> (forall e, last = Some e -> unavailable e = true) ->
  m <> 0%nat \/ is_Some last -> ended op Q (stored s) (do_loop env op idem fn m attempt last l s).
Proof.
  intros Hf Hidem. induction m as [|m IH]; intros attempt last l s S Hlast Hm; cbn [do_loop].
  { destruct Hm as [?|[e ->]]; [done|]. by apply ended_unavailable; [|apply Hlast]. }
  destruct (pick env s) as [s0 [idx|]] eqn:Ep; destruct (serving_pick _ _ _ S Ep) as (S0 & Hw0 & Hi); rewrite <- Hw0.
  2: { destruct (join_unavailable_class last Hlast) as (e & -> & He). by apply ended_unavailable. }
  specialize (Hi idx eq_refl). destruct (acquire env idx s0) as [s1 [e|cn]] eqn:Ea;
    destruct (serving_acquire s0 idx s1 _ S0 Hi Ea) as (H1 & S1 & Hr); rewrite <- H1.
  - set (s2 := observe _ _ _ _ _ _). destruct (serving_observe none s1 op idx attempt (elapsed env s0 s1) (Some e) S1) as [S2 H2].
    fold s2 in S2, H2. rewrite <- H2. destruct (_ || _); [by apply ended_unavailable|].
    destruct (serving_markFailed s2 idx "dial" S2) as [S3 H3]. rewrite <- H3.
    change (stored (markFailed env idx "dial" s2)) with (stored (retry_log op idx e (markFailed env idx "dial" s2))).
    apply IH; [by apply serving_log|by intros ? [= <-]|right; by eexists].
  - destruct (sat_run fn Q _ s1 cn l Hf S1 Hr) as (s2 & cn' & l' & r & -> & S2 & Hl' & HQ).
    set (s3 := observe _ _ _ _ _ _). destruct (serving_observe (one idx) s2 op idx attempt (elapsed env s1 s2) (err_of r) S2) as [S3 H3].
    fold s3 in S3, H3. rewrite <- H3 in HQ. pose proof (after_ended op idem Q idx cn' r last s3 (stored s1) l' Hidem S3 Hi Hl' HQ) as Haf.
    destruct (after_fn env op idem idx cn' (err_of r) last s3) as [s4 [err|last']]; [exact Haf|].
    destruct Haf as (S4 & H4 & e & -> & He). rewrite <- H4. apply IH; [done|by intros ? [= <-]|right; by eexists].
Qed.

Lemma do_ended {L} op idem (fn : M (bst W L) unit) Q l s : sat path_Match srv sound v fn Q ->
  (idem = true -> forall st st' l e, Q st st' l (inl e) -> unavailable e = true -> st' = st) ->
  serving none s -> ended op Q (stored s) (do env op idem fn l s).
Proof.
  intros Hf Hidem S. apply loop_ended; [done|done|done|done|]. left. rewrite (sr_cfg _ _ S). lia.
Qed.

(** *** The recovery probe *)

Lemma serving_close k s cn : serving k s -> linked cn -> serving k (close_conn cn s) /\ stored (close_conn cn s) = stored s.
Proof.
  intros S Hl. assert (st_world (close_conn cn s) = fst (close cn (st_world s))) as Hw by (unfold close_conn, closeErr; by destruct (close cn _)).
  pose proof (li_close _ _ _ _ _ Hl (st_world s)) as Hn. rewrite <- Hw in Hn. split; [|by eapply still_store].
  apply (serving_same k s); [done|apply same_close_conn|apply wf_close_conn, S|by eapply still_serves, S].
Qed.

Lemma serving_loan s idx : serving none s -> (idx < n)%nat -> serving (one idx) (upd_pool idx (live_add 1) s).
Proof.
  intros S Hi. split; [|apply S| |apply S].
  - eapply settled_ext; [|apply (live_settled n none idx 1 s (sr_pools _ _ S) Hi)]. intros j _. unfold none, one. simpl. case_decide; lia.
  - intros j Hj. rewrite (idle_live_add n) by (try apply S; done). by apply S.
Qed.

(** The pool half of a successful probe: [live] is counted, and the conn parked or closed. *)
Lemma serving_park s idx cn : serving none s -> (idx < n)%nat -> linked cn -> c_closed (st_client s) = false ->
  let s1 := upd_pool idx (live_add 1) s in
  let s' := if negb (idle_full idx s1) then upd_pool idx (send_idle cn) s1 else upd_pool idx (live_add (-1)) (close_conn cn s1) in
  serving none s' /\ stored s' = stored s.
Proof.
  intros S Hi Hl Hc s1 s'. assert (serving (one idx) s1) as S1 by by apply serving_loan.
  change (stored s) with (stored s1). unfold s'. destruct (negb (idle_full idx s1)) eqn:Ef.
  - destruct (serving_release s1 idx cn S1 Hi Hl) as [S2 H2]. unfold release in S2, H2.
    change (c_closed (st_client s1)) with (c_closed (st_client s)) in S2, H2. rewrite Hc, Ef in S2, H2.
    split; [|exact H2]. apply (serving_same none _ _ S2); [done|apply S2|apply S2].
  - destruct (serving_discard s1 idx cn "pool full" S1 Hi Hl) as [S2 H2]. unfold discardWith in S2, H2.
    split; [|exact H2]. apply (serving_same none _ _ S2); [done|apply S2|apply S2].
Qed.

Lemma lossy_status cn w : linked cn -> serves srv sound v w ->
  let '(w', _) := getStatus (rpc cn) w in serves srv sound v w' /\ store_of srv w' = store_of srv w.
Proof.
  intros Hl [Hb <-]. pose proof (lossy_getStatus _ _ _ _ (li_rpcs _ _ _ _ _ Hl) w Hb) as H.
  assert (forall st' r, runs (getStatus (fakeRpcs path_Match)) (version_of srv w) (store_of srv w) st' r -> st' = store_of srv w) as Hk.
  { intros st' r (f & Hf & Hs & H1 & H2). simpl in H1. unfold method in H1. rewrite <- Hs, <- H1. by destruct (f_v f). }
  destruct (getStatus (rpc cn) w) as [w' r]. destruct H as [Hv' [H|(e & _ & _ & [H|[r' H]])]]; (split; [done|]); [by eapply Hk|done|by eapply Hk].
Qed.

Lemma serving_probe_one s idx : serving none s -> (idx < n)%nat -> c_closed (st_client s) = false ->
  serving none (probe_one env idx s) /\ stored (probe_one env idx s) = stored s /\ c_closed (st_client (probe_one env idx s)) = false.
Proof.
  intros S Hi Hc. unfold probe_one.
  destruct (newConn env _ _ _ s) as [s1 r] eqn:En. apply (newConn_dials env idx s) in En as (Hd & P & K).
  pose proof (sv_dial (c_endpoints (st_client s) !!! idx) (c_cfg (st_client s)) (c_krbSession (st_client s)) _ (sr_serves _ _ S)) as H.
  unfold dials in Hd. rewrite Hd in H. destruct H as [Hn Hr].
  assert (serving none s1) as S1 by (apply (serving_same none s); [done|done|rewrite K; apply S|by eapply still_serves, S]).
  assert (c_closed (st_client s1) = false) as Hc1 by (destruct P as (_ & _ & -> & _); done).
  pose proof (still_store _ _ _ _ Hn) as H1. destruct r as [e|cn]; [split_and!; [by apply serving_log|done|done]|].
  pose proof (lossy_status cn (st_world s1) Hr (sr_serves _ _ S1)) as Hg. destruct (getStatus (rpc cn) (st_world s1)) as [w r].
  destruct Hg as [Hv Hs]. assert (serving none (set_w w s1)) as S2 by (apply (serving_same none s1); [done|done|apply S1|exact Hv]).
  destruct r as [e|z].
  - destruct (serving_close none (set_w w s1) cn S2 Hr) as [S3 H3]. split_and!; [by apply serving_log|simpl in *; congruence|].
    destruct (same_close_conn cn (set_w w s1)) as (_ & _ & Hx & _). simpl. by rewrite Hx.
  - set (s2 := log LevelDebug "probe succeeded" _ _). destruct (serving_markHealthy s2 idx "probe") as [S3 H3]; [by apply serving_log|].
    assert (c_closed (st_client (markHealthy env idx "probe" s2)) = false) as Hc3
      by (destruct (same_markHealthy env idx "probe" s2) as (_ & _ & -> & _); done).
    rewrite Hc3. destruct (serving_park _ idx cn S3 Hi Hr Hc3) as [S4 H4]. split_and!; [exact S4|simpl in *; congruence|].
    destruct (negb _); [done|]. destruct (same_close_conn cn (upd_pool idx (live_add 1) (markHealthy env idx "probe" s2))) as (_ & _ & Hx & _).
    simpl in *. by rewrite Hx.
Qed.

Lemma serving_tick s : serving none s -> serving none (recoveryProbe_tick env s) /\ stored (recoveryProbe_tick env s) = stored s.
Proof.
  intros S. unfold recoveryProbe_tick, probeCooling. destruct (c_closed (st_client s)) eqn:Hc; [done|].
  assert (Forall (fun idx => (idx < n)%nat) (Cooling (c_cluster (st_client s)) (env_now env (st_world s)))) as Hlt.
  { apply list.Forall_forall. intros idx. unfold Cooling. rewrite list_elem_of_filter, list_elem_of_In, in_seq.
    pose proof (wf_cool _ _ (inv_wf _ _ (q_inv _ _ _ (sr_pools _ _ S)))). lia. }
  revert Hlt. generalize (Cooling (c_cluster (st_client s)) (env_now env (st_world s))) as l. intros l. revert s S Hc.
  induction l as [|idx l IH]; intros s0 S Hc Hlt; [done|]. apply list.Forall_cons in Hlt as [Hi Hlt]. cbn [foldl].
  destruct (serving_probe_one s0 idx S Hi Hc) as (S1 & H1 & Hc1). destruct (IH _ S1 Hc1 Hlt) as [S2 H2]. split; [done|congruence].
Qed.
End loop.

(** ** The simulation *)

Lemma err_reply_wrapped op e e' : wrapError op (Some e) = Some e' -> err_reply e' = err_reply e.
Proof.
  intros H. destruct (wrapError_spec op e) as (e'' & He & _ & _ & _ & _ & _ & Hc & _). rewrite He in H. injection H as <-.
  unfold err_reply, unavailable. by rewrite Hc.
Qed.

Section simulation.
Context {CA : Carrier} (path_Match : string -> string -> bool) {cp : DeepCopy} {UL : UnicodeLower} {W : Type} (srv : W -> fake) (sound : W -> Prop) (v : Version)
  {U : UrlLib} (env : Env W) {SV : Serves path_Match srv sound v env} (n : nat) (cfg : config).
Hypothesis Htries : 1 <= cfg_maxRetries cfg.
Implicit Types s : St W.
Local Abbreviation serving := (serving path_Match srv sound v n cfg none).
Local Abbreviation tables s := (Tables (store_of srv (st_world s))).

(** A call is a step of the abstract store. *)
Definition simulates (q : request) s (s' : St W) (r : reply) : Prop :=
  serving s' /\ forall m, shelved m (tables s) -> exists m', shelved m' (tables s') /\ store_step cfg v q m r m'.

Lemma do_simulates {L} op q (fn : M (bst W L) unit) (ok : L -> reply) l s :
  sat path_Match srv sound v fn (obeys cfg v q ok) -> serving s ->
  let '(s', (l', err)) := do env op (negb (writes q)) fn l s in simulates q s s' (outcome ok l' err).
Proof.
  intros Hf S. pose proof (do_ended path_Match srv sound v env n cfg Htries op (negb (writes q)) fn _ l s Hf) as H.
  destruct (do env op (negb (writes q)) fn l s) as [s' [l' err]]. destruct H as [S' H]; [|done|].
  { intros Hr st st' l0 e [Hk _] _. apply Hk. by destruct (writes q). }
  split; [done|]. intros m Hm. destruct H as [(r & [_ HQ] & ->)|(Hs & e & -> & He)].
  - destruct (HQ m Hm) as (m' & Hm' & Hst). exists m'. split; [done|]. destruct r as [e|[]]; [|exact Hst].
    unfold outcome in *. simpl err_of in *. destruct (wrapError_Some op e) as [e' He]. rewrite He. simpl in *. by rewrite (err_reply_wrapped op e e').
  - exists m. rewrite Hs. split; [done|]. unfold outcome. simpl. rewrite err_reply_unavailable by done. apply step_unknown.
Qed.

Lemma perform_simulates q s : serving s -> plain_request cfg q ->
  let '(s', r) := perform env q s in simulates q s s' r.
Proof.
  intros S Hp. pose proof (sr_cfg _ _ _ _ _ _ _ _ S) as Hcfg.
  destruct q as [t|db name opts|db opts|db name t opts|db name dd ie opts]; unfold perform.
  - unfold TableOps.CreateTable, call, cfg_of. rewrite Hcfg.
    pose proof (do_simulates "create_table" (CreateReq t) _ _ tt s (sat_create path_Match srv sound cfg v t Hp) S) as H.
    simpl negb in H. by destruct (do _ _ _ _ _ _) as [s' [[] err]].
  - unfold TableOps.GetTable, read, cfg_of. rewrite Hcfg.
    pose proof (do_simulates "get_table_req" (GetReq db name opts) _ _ None s (sat_get path_Match srv sound cfg v db name opts Hp) S) as H.
    simpl negb in H. by destruct (do _ _ _ _ _ _) as [s' [l err]].
  - unfold TableOps.GetAllTables, read, cfg_of. rewrite Hcfg.
    pose proof (do_simulates "get_all_tables" (ListReq db opts) _ _ None s (sat_list path_Match srv sound cfg v db opts Hp) S) as H.
    simpl negb in H. by destruct (do _ _ _ _ _ _) as [s' [l err]].
  - unfold TableOps.AlterTable, call, cfg_of. rewrite Hcfg.
    pose proof (do_simulates "alter_table" (AlterReq db name t opts) _ _ tt s (sat_alter path_Match srv sound cfg v db name t opts Hp) S) as H.
    simpl negb in H. by destruct (do _ _ _ _ _ _) as [s' [[] err]].
  - unfold TableOps.DropTable, call, cfg_of. rewrite Hcfg.
    pose proof (do_simulates "drop_table" (DropReq db name dd ie opts) _ _ tt s (sat_drop path_Match srv sound cfg v db name dd ie opts Hp) S) as H.
    simpl negb in H. by destruct (do _ _ _ _ _ _) as [s' [[] err]].
Qed.

(** Names of calls are plain, and passing time changes nothing on the server. *)
Definition fair (e : event (W := W)) : Prop :=
  match e with
  | Call q => plain_request cfg q
  | Probe => True
  | Elapse f => forall w, still srv sound w (f w)
  end.

Lemma play_simulates es : forall s m, Forall fair es -> serving s -> shelved m (tables s) ->
  let '(s', h) := play env es s in
  serving s' /\ exists m', shelved m' (tables s') /\ store_run cfg v m h m'.
Proof.
  induction es as [|e es IH]; intros s m Hf S Hm; cbn [play]; [split; [done|]; exists m; split; [done|constructor]|].
  apply list.Forall_cons in Hf as [He Hf]. destruct e as [q| |f].
  - pose proof (perform_simulates q s S He) as H. destruct (perform env q s) as [s1 r]. destruct H as [S1 H1].
    destruct (H1 m Hm) as (m1 & Hm1 & Hs). specialize (IH s1 m1 Hf S1 Hm1). destruct (play env es s1) as [s' h].
    destruct IH as (S' & m' & Hm' & Hr). split; [done|]. exists m'. split; [done|]. by eapply run_call.
  - destruct (serving_tick path_Match srv sound v env n cfg s S) as [S1 H1]. apply IH; [done|done|]. by rewrite H1.
  - apply IH; [done| |simpl; by rewrite (still_store _ _ _ _ (He (st_world s)))].
    apply (serving_same path_Match srv sound v n cfg none s); [done|done|apply S|]. eapply still_serves, S. apply He.
Qed.
End simulation.

(** ** The property *)

(** C1: the client is an atomic store of tables, whatever the network does: on a client of
    the fake metastore nobody else uses, with requests lost, replies lost, endpoints that
    cannot be dialed, recovery probes and time passing between calls, the replies to any
    sequence of CreateTable, GetTable, GetAllTables, AlterTable and DropTable calls are
    those of a run of the abstract store: each call is carried out once and answers as the
    store does, or fails with ErrUnavailable, having been carried out at most once if it
    writes and leaving the store alone if it reads; where the server has no catalogs and
    the call is for one other than the default, it is refused as ErrNotSupported, or
    fails with ErrUnavailable, and nothing is done. The store
    answers so: what was created is found as it was exported; a taken name makes CreateTable
    fail with ErrAlreadyExists; a missing one makes GetTable fail with ErrNotFound, and
    DropTable too unless it was given ifExists; AlterTable moves the table to the new
    table's name, replacing one that had it, and on a missing table fails with the general
    ErrMeta; names come sorted. It is supposed that catalogs and databases are plain names
    (no '.' or '#', no leading '@'), which the server's keys tell apart; that the tables
    sent can be carried; that a dial fails only as an unreachable host does and that neither
    dials nor the passing of time change the server, which also serves nobody else; that a
    lost request is not executed later; and that the client makes at least one attempt. *)
Theorem client_refines_store `{Carrier, DeepCopy, UnicodeLower, UrlLib} (path_Match : string -> string -> bool) {W} (srv : W -> fake)
    (sound : W -> Prop) (v : Version) (env : Env W) `{!Serves path_Match srv sound v env} (n : nat) (cfg : config) (es : list event)
    (s : St W) (m : shelf) :
  1 <= cfg_maxRetries cfg -> Forall (fair srv sound cfg) es ->
  serving path_Match srv sound v n cfg none s -> shelved m (Tables (store_of srv (st_world s))) ->
  let '(s', h) := play env es s in
  serving path_Match srv sound v n cfg none s' /\
  exists m', shelved m' (Tables (store_of srv (st_world s'))) /\ store_run cfg v m h m'.
Proof. intros Htries Hf S Hm. by apply (play_simulates path_Match srv sound v env n cfg Htries es s m). Qed.

(** *** A flaky network *)

Definition map_rpcs {W W'} (F : forall A, M W A -> M W' A) (rs : rpcs W) : rpcs W' := {|
  Conn.getCatalogs := F _ (Conn.getCatalogs rs);
  Conn.getCatalog := fun r => F _ (Conn.getCatalog rs r);
  Conn.createCatalog := fun r => F _ (Conn.createCatalog rs r);
  Conn.dropCatalog := fun r => F _ (Conn.dropCatalog rs r);
  Conn.getAllDatabases := F _ (Conn.getAllDatabases rs);
  Conn.getDatabases := fun p => F _ (Conn.getDatabases rs p);
  Conn.getDatabase := fun n => F _ (Conn.getDatabase rs n);
  Conn.createDatabase := fun d => F _ (Conn.createDatabase rs d);
  Conn.dropDatabase := fun n d c => F _ (Conn.dropDatabase rs n d c);
  Conn.getAllTables := fun d => F _ (Conn.getAllTables rs d);
  Conn.getTableReq := fun r => F _ (Conn.getTableReq rs r);
  Conn.getTableObjectsByNameReq := fun r => F _ (Conn.getTableObjectsByNameReq rs r);
  Conn.createTable := fun t => F _ (Conn.createTable rs t);
  Conn.alterTable := fun d n t => F _ (Conn.alterTable rs d n t);
  Conn.dropTable := fun d n dd => F _ (Conn.dropTable rs d n dd);
  Conn.getPartitions := fun d t n => F _ (Conn.getPartitions rs d t n);
  Conn.getPartitionsReq := fun r => F _ (Conn.getPartitionsReq rs r);
  Conn.getPartitionNames := fun d t n => F _ (Conn.getPartitionNames rs d t n);
  Conn.addPartitionsReq := fun r => F _ (Conn.addPartitionsReq rs r);
  Conn.alterPartitions := fun d t ps => F _ (Conn.alterPartitions rs d t ps);
  Conn.alterPartitionsReq := fun r => F _ (Conn.alterPartitionsReq rs r);
  Conn.dropPartition := fun d t vs dd => F _ (Conn.dropPartition rs d t vs dd);
  Conn.dropPartitionsReq := fun r => F _ (Conn.dropPartitionsReq rs r);
  Conn.getConfigValue := fun n d => F _ (Conn.getConfigValue rs n d);
  Conn.getStatus := F _ (Conn.getStatus rs);
  Conn.getVersion := F _ (Conn.getVersion rs);
  Conn.setUgi := fun t u gs => F _ (Conn.setUgi rs t u gs);
  Conn.alterDatabase := fun n d => F _ (Conn.alterDatabase rs n d);
  Conn.getPartitionsByNames := fun d t ns => F _ (Conn.getPartitionsByNames rs d t ns);
  Conn.getPartitionsByNamesReq := fun r => F _ (Conn.getPartitionsByNamesReq rs r);
  Conn.getPartitionsByFilter := fun d t f n => F _ (Conn.getPartitionsByFilter rs d t f n);
  Conn.getPartitionNamesPs := fun d t vs n => F _ (Conn.getPartitionNamesPs rs d t vs n);
  Conn.getPartitionNamesPsReq := fun r => F _ (Conn.getPartitionNamesPsReq rs r);
  Conn.getNextNotification := fun r => F _ (Conn.getNextNotification rs r);
  Conn.getCurrentNotificationEventId := F _ (Conn.getCurrentNotificationEventId rs);
  Conn.getTableStatisticsReq := fun r => F _ (Conn.getTableStatisticsReq rs r);
  Conn.openTxns := fun r => F _ (Conn.openTxns rs r);
  Conn.commitTxn := fun r => F _ (Conn.commitTxn rs r);
  Conn.abortTxn := fun r => F _ (Conn.abortTxn rs r);
  Conn.heartbeat := fun r => F _ (Conn.heartbeat rs r);
  Conn.lock := fun r => F _ (Conn.lock rs r);
  Conn.checkLock := fun r => F _ (Conn.checkLock rs r);
  Conn.unlock := fun r => F _ (Conn.unlock rs r) |}.

(** Nothing happens to a table on its way. *)
Definition as_is : Carrier.
Proof. refine {| carry := fun t => t; carriable := fun _ => True; carry_result := fun r => r; carry_catalogs := fun r => r |}; done. Defined.
#[local] Existing Instance as_is.

Inductive fate := Fine | LostRequest | LostReply.
Record flaky_world := mkFlaky { fw_srv : fake; fw_fates : list fate }.

Definition timed_out : goerr := ETransport "i/o timeout" (Some EDeadlineExceeded).
Definition flaky A (m : M fake A) : M flaky_world A := fun w =>
  match fw_fates w with
  | [] => let '(f, r) := m (fw_srv w) in (mkFlaky f [], r)
  | Fine :: rest => let '(f, r) := m (fw_srv w) in (mkFlaky f rest, r)
  | LostRequest :: rest => (mkFlaky (fw_srv w) rest, inl timed_out)
  | LostReply :: rest => let '(f, _) := m (fw_srv w) in (mkFlaky f rest, inl timed_out)
  end.
Definition flakyRpcs : rpcs flaky_world := map_rpcs flaky (fakeRpcs (fun _ _ => false)).

Definition flakyDial (host : string) : M flaky_world (tconn flaky_world) := fun w =>
  match strip_prefix "down" host with
  | Some _ => (w, inl (refused host))
  | None => (w, inr (mkTconn (ret tt) flakyRpcs))
  end.
Definition flakyEnv : Env flaky_world := {|
  env_ctxErr := fun _ => None;
  env_ctxDeadline := fun _ => false;
  env_now := fun w => f_now (fw_srv w) * Second;
  env_draw := fun w => (w, Some (Second / 2));
  env_shuffle := fun _ _ => None;
  env_osUser := fun _ => Some "me";
  env_dialHook := fun w => w;
  env_DialBinary := fun host _ _ => flakyDial host;
  env_NewHTTP := fun url _ => flakyDial url;
  env_krbValidate := fun _ _ => None;
  env_NewKerberosSession := fun _ => ret tt;
  env_wait := fun _ s => (s, SelDone) |}.

Definition anywhere (w : flaky_world) : Prop := True.

(** A handler keeps what holds of the server. *)
Definition keeps (I : fake -> Prop) {A} (m : M fake A) : Prop := forall f, I f -> I (fst (m f)).
Lemma keeps_bind I {A B} (m : M fake A) (k : A -> M fake B) : keeps I m -> (forall a, keeps I (k a)) -> keeps I (bind m k).
Proof. intros Hm Hk f Hf. unfold bind. specialize (Hm f Hf). destruct (m f) as [f' [e|a]]; [done|]. by apply Hk. Qed.
Lemma keeps_method I {A} name (m : M fake A) : keeps I m -> keeps I (method name m).
Proof. intros Hm f Hf. unfold method. case_match; [done|]. specialize (Hm f Hf). by destruct (m f). Qed.

Lemma flaky_lossy {A} (m : M fake A) : (forall v, keeps (fun f => f_v f = v) m) -> lossy fw_srv anywhere (flaky A m) m.
Proof.
  intros Hm w _. unfold flaky. pose proof (Hm _ (fw_srv w) eq_refl) as Hv.
  assert (runs m (version_of fw_srv w) (store_of fw_srv w) (f_store (fst (m (fw_srv w)))) (snd (m (fw_srv w)))) as Hr
    by by exists (fw_srv w).
  destruct (fw_fates w) as [|[] rest]; destruct (m (fw_srv w)) as [f r]; simpl in *; (split; [done|]).
  - by left.
  - by left.
  - right. exists timed_out. split_and!; [done|done|by left].
  - right. exists timed_out. split_and!; [done|done|right; by exists r].
Qed.

Ltac keep := repeat first [apply keeps_bind; [|intros ?] | solve [intros ??; done] | case_match ].

Lemma flaky_rpcs : lossy_rpcs (fun _ _ => false) fw_srv anywhere flakyRpcs.
Proof.
  split; intros; try (eapply lossy_ext; [intros f; apply map_answer_id|]); apply flaky_lossy; intros v; apply keeps_method.
  - unfold Fake.GetCatalogs. keep.
  - unfold Fake.GetAllTables. keep.
  - unfold Fake.GetTableReq. keep.
  - unfold Fake.CreateTable. keep.
  - unfold Fake.AlterTable. keep.
  - unfold Fake.DropTable. keep.
  - unfold Fake.GetStatus. keep.
Qed.

#[export] Instance flaky_serves v : @Serves _ (fun _ _ => false) flaky_world fw_srv anywhere v demoUrl flakyEnv.
Proof.
  split; [by intros w|]. intros ep cfg krb w Hv. unfold newConn_raw, bind, modify, dial, catch. cbn [env_dialHook flakyEnv].
  assert (forall host, let '(w', r) := flakyDial host w in w' = w /\
    match r with inr tc => tc = mkTconn (ret tt) flakyRpcs | inl e => unavailable e = true end) as Hd
    by (intros host; unfold flakyDial; by destruct (strip_prefix "down" host)).
  assert (forall tc, tc = mkTconn (ret tt) flakyRpcs ->
    linked (fun _ _ => false) fw_srv anywhere v (mkConn (t_close tc) (t_client tc) ∅ catalogUnknown)) as Hl.
  { intros tc ->. split; [exact flaky_rpcs|by intros w'|done]. }
  set (d := if String.eqb _ _ then _ else _).
  assert (exists host, d = flakyDial host) as [host Hh] by (unfold d; case_match; by eexists). clearbody d. subst d.
  specialize (Hd host). destruct (flakyDial host w) as [w1 [e|tc]]; destruct Hd as [-> Hr]; [by split|].
  destruct (String.eqb _ _ && _); [|split; [done|by apply Hl]].
  assert (exists f, method "set_ugi" (SetUgi (cfg_ugiUser cfg) (cfg_userGroups cfg)) (fw_srv w) = (f, inr (cfg_userGroups cfg)) /\
    near (fw_srv w) f) as (f & Hm & Hn) by (unfold method; destruct (f_v (fw_srv w)) eqn:E; eexists; (split; [reflexivity|by split])).
  unfold get, ret. subst tc. simpl. unfold flaky. rewrite Hm.
  destruct (fw_fates w) as [|[] rest]; simpl; (split; [done|]); try done; by apply (Hl (mkTconn (ret tt) flakyRpcs)).
Qed.

Lemma shelved_empty `{Carrier, DeepCopy} : shelved ∅ ∅.
Proof. split; [by intros c d name _ _; rewrite !lookup_empty|by intros k t; rewrite lookup_empty]. Qed.

(** A client of a fresh server, before it has dialed; the first of its endpoints is down. *)
Definition flaky_start (fates : list fate) : St flaky_world :=
  mkSt (initial_client demo_cfg None demo_eps (fun _ => None)) (mkFlaky (mkFake Hive40 NewStore [] 1700000000) fates) [] [].

Lemma flaky_start_serving fates : serving (fun _ _ => false) fw_srv anywhere Hive40 2 demo_cfg none (flaky_start fates).
Proof.
  split; [by apply (initial_quiet demo_cfg None demo_eps)|done| |done].
  intros j Hj. unfold flaky_start. by rewrite (initial_idle demo_cfg None demo_eps).
Qed.

(** The reply to the first CreateTable is lost after the table was created. *)
Definition flaky_events : list (event (W := flaky_world)) :=
  [Call (CreateReq demo_created);
   Elapse (fun w => mkFlaky (mkFake (f_v (fw_srv w)) (f_store (fw_srv w)) [] (f_now (fw_srv w) + 60)) (fw_fates w));
   Probe;
   Call (CreateReq demo_created);
   Call (GetReq "db" "new" []);
   Call (ListReq "db" []);
   Call (DropReq "db" "new" true false []);
   Call (GetReq "db" "new" [])].

Lemma client_refines_store_witness :
  let cp := idCopy in
  let '(s', h) := @play flaky_world demoUrl idCopy flakyEnv flaky_events (flaky_start [Fine; Fine; LostReply]) in
  map snd h = [Unknown; Refused ErrAlreadyExists; Found (created 1700000000 demo_created (Some "hive")); Names ["new"];
               Done; Refused ErrNotFound] /\
  exists m', store_run demo_cfg Hive40 ∅ h m'.
Proof.
  intros cp.
  pose proof (@client_refines_store as_is idCopy asciiLower demoUrl (fun _ _ => false) flaky_world fw_srv anywhere Hive40 flakyEnv _ 2 demo_cfg flaky_events
    (flaky_start [Fine; Fine; LostReply]) ∅) as H.
  assert (map snd (snd (@play flaky_world demoUrl idCopy flakyEnv flaky_events (flaky_start [Fine; Fine; LostReply]))) =
    [Unknown; Refused ErrAlreadyExists; Found (created 1700000000 demo_created (Some "hive")); Names ["new"]; Done; Refused ErrNotFound])
    as Hr by (vm_compute; reflexivity).
  destruct (play _ _ _) as [s' h]. destruct H as (_ & m' & _ & Hrun).
  - vm_compute; discriminate.
  - repeat constructor; try (vm_compute; reflexivity).
  - apply flaky_start_serving.
  - apply shelved_empty.
  - exact (conj Hr (ex_intro _ m' Hrun)).
Defined.
