(* ===== verification/FakeStart.v ===== *)
(** * FakeStart: NewServer of hmstest/server.go

    What a new fake serves: the methods of the generated processor less those its
    version lacks and those an option takes away; its store, seeded so that databases
    have a warehouse to live in; and how many requests it will drop. *)

From S2P Require Import Prelude Errors GoMonad Wire Options Conn Types Uri Convert PartName Client DbOps ConvertFacts OpsFacts Fake FakeServer EndToEnd.

(** ** The processor's methods *)

(** fb303's processor, which NewThriftHiveMetastoreProcessor extends. *)
Definition facebookProcessorMap : list string :=
  ["getName"; "getVersion"; "getStatus"; "getStatusDetails"; "getCounters"; "getCounter"; "setOption"; "getOption";
   "getOptions"; "getCpuProfile"; "aliveSince"; "reinitialize"; "shutdown"].

Definition metastoreProcessorMap : list string :=
  ["abort_Compactions"; "getMetaConf"; "setMetaConf"; "create_catalog"; "alter_catalog"; "get_catalog";
   "get_catalogs"; "drop_catalog"; "create_database"; "create_database_req"; "get_database"; "get_database_req";
   "drop_database"; "drop_database_req"; "get_databases"; "get_all_databases"; "get_databases_req";
   "alter_database"; "alter_database_req"; "create_dataconnector_req"; "get_dataconnector_req";
   "drop_dataconnector_req"; "get_dataconnectors"; "alter_dataconnector_req"; "get_type"; "create_type";
   "drop_type"; "get_type_all"; "get_fields"; "get_fields_with_environment_context"; "get_fields_req";
   "get_schema"; "get_schema_with_environment_context"; "get_schema_req"; "create_table";
   "create_table_with_environment_context"; "create_table_with_constraints"; "create_table_req"; "drop_constraint";
   "add_primary_key"; "add_foreign_key"; "add_unique_constraint"; "add_not_null_constraint";
   "add_default_constraint"; "add_check_constraint"; "translate_table_dryrun"; "drop_table";
   "drop_table_with_environment_context"; "drop_table_req"; "truncate_table"; "truncate_table_req"; "get_tables";
   "get_tables_by_type"; "get_all_materialized_view_objects_for_rewriting"; "get_materialized_views_for_rewriting";
   "get_table_meta"; "get_all_tables"; "get_tables_ext"; "get_table_req"; "get_table_objects_by_name_req";
   "get_materialization_invalidation_info"; "update_creation_metadata"; "get_table_names_by_filter"; "alter_table";
   "alter_table_with_environment_context"; "alter_table_with_cascade"; "alter_table_req"; "add_partition";
   "add_partition_with_environment_context"; "add_partitions"; "add_partitions_pspec"; "append_partition";
   "add_partitions_req"; "append_partition_with_environment_context"; "append_partition_req";
   "append_partition_by_name"; "append_partition_by_name_with_environment_context"; "drop_partition";
   "drop_partition_with_environment_context"; "drop_partition_req"; "drop_partition_by_name";
   "drop_partition_by_name_with_environment_context"; "drop_partitions_req"; "get_partition"; "get_partition_req";
   "exchange_partition"; "exchange_partitions"; "get_partition_with_auth"; "get_partition_by_name";
   "get_partitions"; "get_partitions_req"; "get_partitions_with_auth"; "get_partitions_pspec";
   "get_partition_names"; "fetch_partition_names_req"; "get_partition_values"; "get_partitions_ps";
   "get_partitions_ps_with_auth"; "get_partitions_ps_with_auth_req"; "get_partition_names_ps";
   "get_partition_names_ps_req"; "get_partition_names_req"; "get_partitions_by_filter";
   "get_partitions_by_filter_req"; "get_part_specs_by_filter"; "get_partitions_by_expr";
   "get_partitions_spec_by_expr"; "get_num_partitions_by_filter"; "get_partitions_by_names";
   "get_partitions_by_names_req"; "get_properties"; "set_properties"; "alter_partition"; "alter_partitions";
   "alter_partitions_with_environment_context"; "alter_partitions_req"; "alter_partition_with_environment_context";
   "rename_partition"; "rename_partition_req"; "partition_name_has_valid_characters"; "get_config_value";
   "partition_name_to_vals"; "partition_name_to_spec"; "markPartitionForEvent"; "isPartitionMarkedForEvent";
   "get_primary_keys"; "get_foreign_keys"; "get_unique_constraints"; "get_not_null_constraints";
   "get_default_constraints"; "get_check_constraints"; "get_all_table_constraints";
   "update_table_column_statistics"; "update_partition_column_statistics"; "update_table_column_statistics_req";
   "update_partition_column_statistics_req"; "update_transaction_statistics"; "get_table_column_statistics";
   "get_partition_column_statistics"; "get_table_statistics_req"; "get_partitions_statistics_req";
   "get_aggr_stats_for"; "set_aggr_stats_for"; "delete_partition_column_statistics";
   "delete_table_column_statistics"; "delete_column_statistics_req"; "create_function"; "drop_function";
   "alter_function"; "get_functions"; "get_functions_req"; "get_function"; "get_all_functions"; "create_role";
   "drop_role"; "get_role_names"; "grant_role"; "revoke_role"; "list_roles"; "grant_revoke_role";
   "get_principals_in_role"; "get_role_grants_for_principal"; "get_privilege_set"; "list_privileges";
   "grant_privileges"; "revoke_privileges"; "grant_revoke_privileges"; "refresh_privileges"; "set_ugi";
   "get_delegation_token"; "renew_delegation_token"; "cancel_delegation_token"; "add_token"; "remove_token";
   "get_token"; "get_all_token_identifiers"; "add_master_key"; "update_master_key"; "remove_master_key";
   "get_master_keys"; "get_open_txns"; "get_open_txns_info"; "open_txns"; "abort_txn"; "abort_txns"; "commit_txn";
   "get_latest_txnid_in_conflict"; "repl_tbl_writeid_state"; "get_valid_write_ids"; "add_write_ids_to_min_history";
   "allocate_table_write_ids"; "get_max_allocated_table_write_id"; "seed_write_id"; "seed_txn_id"; "lock";
   "check_lock"; "unlock"; "show_locks"; "heartbeat"; "heartbeat_txn_range"; "compact"; "compact2"; "show_compact";
   "submit_for_cleanup"; "add_dynamic_partitions"; "find_next_compact"; "find_next_compact2";
   "update_compactor_state"; "find_columns_with_stats"; "mark_cleaned"; "mark_compacted"; "mark_failed";
   "mark_refused"; "update_compaction_metrics_data"; "remove_compaction_metrics_data"; "set_hadoop_jobid";
   "get_latest_committed_compaction_info"; "get_next_notification"; "get_current_notificationEventId";
   "get_notification_events_count"; "fire_listener_event"; "flushCache"; "add_write_notification_log";
   "add_write_notification_log_in_batch"; "cm_recycle"; "get_file_metadata_by_expr"; "get_file_metadata";
   "put_file_metadata"; "clear_file_metadata"; "cache_file_metadata"; "get_metastore_db_uuid";
   "create_resource_plan"; "get_resource_plan"; "get_active_resource_plan"; "get_all_resource_plans";
   "alter_resource_plan"; "validate_resource_plan"; "drop_resource_plan"; "create_wm_trigger"; "alter_wm_trigger";
   "drop_wm_trigger"; "get_triggers_for_resourceplan"; "create_wm_pool"; "alter_wm_pool"; "drop_wm_pool";
   "create_or_update_wm_mapping"; "drop_wm_mapping"; "create_or_drop_wm_trigger_to_pool_mapping"; "create_ischema";
   "alter_ischema"; "get_ischema"; "drop_ischema"; "add_schema_version"; "get_schema_version";
   "get_schema_latest_version"; "get_schema_all_versions"; "drop_schema_version"; "get_schemas_by_cols";
   "map_schema_version_to_serde"; "set_schema_version_state"; "add_serde"; "get_serde";
   "get_lock_materialization_rebuild"; "heartbeat_lock_materialization_rebuild"; "add_runtime_stats";
   "get_runtime_stats"; "get_partitions_with_specs"; "scheduled_query_poll"; "scheduled_query_maintenance";
   "scheduled_query_progress"; "get_scheduled_query"; "add_replication_metrics"; "get_replication_metrics";
   "get_open_txns_req"; "create_stored_procedure"; "get_stored_procedure"; "drop_stored_procedure";
   "get_all_stored_procedures"; "find_package"; "add_package"; "get_all_packages"; "drop_package";
   "get_all_write_event_info"; "get_replayed_txns_for_policy"].

(** [proc.ProcessorMap()]'s keys. *)
Definition ProcessorMap : gset string := list_to_set (facebookProcessorMap ++ metastoreProcessorMap).

(** ** Options *)

Record fakeConfig := mkFakeConfig { fc_without : list string; fc_failNext : Z }.
Definition fakeOption : Type := fakeConfig -> fakeConfig.

Definition WithoutRPC (names : list string) : fakeOption := fun c => mkFakeConfig (fc_without c ++ names) (fc_failNext c).
Definition WithFailNext (n : Z) : fakeOption := fun c => mkFakeConfig (fc_without c) n.

Definition clampInt32 (n : Z) : Z :=
  let n := if MaxInt32 <? n then MaxInt32 else n in
  let n := if n <? MinInt32 then MinInt32 else n in
  int32 n.

(** ** NewServer *)

(** [for _, name := range names { if _, ok := m[name]; !ok { return err }; delete(m, name) }] *)
Fixpoint delete_methods (from : string) (names : list string) (m : gset string) : goerr + gset string :=
  match names with
  | [] => inr m
  | name :: names =>
      if decide (name ∈ m) then delete_methods from names (m ∖ {[name]})
      else inl (EText ("hmstest: RPC " +:+ go_quote name +:+ " not found in processor map (" +:+ from +:+ ")"))
  end.

Definition fake_warehouse : string := "file:///tmp/hms-warehouse".

(** [store.Config[...] = ...], and [store.Catalogs["hive"].LocationUri = ...]. *)
Definition seed_warehouse (v : Version) (s : Store) : Store :=
  match v with
  | Hive23 =>
      mkStore (Catalogs s) (Databases s) (Tables s) (Partitions s) (ColumnStats s)
        (<["hive.metastore.warehouse.dir" := fake_warehouse]> (Config s)) (Events s) (Acid s)
  | _ =>
      set_Catalogs (alter (fun c => mk_wCatalog (wCatalog_Name c) (wCatalog_Description c) fake_warehouse
                                      (wCatalog_CreateTime c) (wCatalog_Parameters c)) "hive" (Catalogs s)) s
  end.

Record newServer := mkNewServer { ns_fake : fake; ns_methods : gset string; ns_failNext : Z }.

(** [listen] is the error of [net.Listen], if any; [now] what [now32] will answer. *)
Definition NewServer (listen : option goerr) (now : Z) (v : Version) (opts : list fakeOption) : goerr + newServer :=
  let cfg := fold_left (fun c o => o c) opts (mkFakeConfig [] 0) in
  match delete_methods "version table" (removedRPCs v) ProcessorMap with
  | inl e => inl e
  | inr m =>
      match delete_methods "WithoutRPC" (fc_without cfg) m with
      | inl e => inl e
      | inr m =>
          match listen with
          | Some e => inl e
          | None => inr (mkNewServer (mkFake v (seed_warehouse v NewStore) [] now) m (clampInt32 (fc_failNext cfg)))
          end
      end
  end.

(** ** What it serves *)

Lemma clampInt32_range n : in_int32 (clampInt32 n) /\ (in_int32 n -> clampInt32 n = n) /\ (0 <= n -> 0 <= clampInt32 n).
Proof.
  unfold clampInt32, in_int32, MaxInt32, MinInt32.
  destruct (Z.ltb_spec 2147483647 n);
    [destruct (Z.ltb_spec 2147483647 (-2147483648)); [lia|]|destruct (Z.ltb_spec n (-2147483648))];
    rewrite int32_id by (unfold in_int32, MinInt32, MaxInt32; lia); lia.
Qed.

Lemma delete_methods_spec from names m :
  match delete_methods from names m with
  | inr m' => NoDup names /\ (forall x, x ∈ names -> x ∈ m) /\ (forall x, x ∈ m' <-> x ∈ m /\ x ∉ names)
  | inl _ => ~ (NoDup names /\ forall x, x ∈ names -> x ∈ m)
  end.
Proof.
  revert m. induction names as [|n names IH]; intros m; simpl.
  - split_and!; [constructor|set_solver..].
  - destruct (decide (n ∈ m)) as [Hn|Hn].
    + specialize (IH (m ∖ {[n]})). destruct (delete_methods from names (m ∖ {[n]})) as [e|m'].
      * intros [Hd Hall]. apply list.NoDup_cons in Hd as [Hnin Hd]. apply IH. split; [done|].
        intros x Hx. specialize (Hall x). set_solver.
      * destruct IH as (Hd & Hall & Hm). split_and!.
        -- apply list.NoDup_cons. split; [|done]. intros Hin. specialize (Hall n Hin). set_solver.
        -- intros x Hx. apply elem_of_cons in Hx as [->|Hx]; [done|]. specialize (Hall x Hx). set_solver.
        -- intros x. rewrite Hm. set_solver.
    + intros [_ Hall]. apply Hn, Hall. set_solver.
Qed.

(** The version tables name methods of the processor, each once. *)
Lemma version_table_sound v : NoDup (removedRPCs v) /\ forall x, x ∈ removedRPCs v -> x ∈ ProcessorMap.
Proof.
  assert (bool_decide (NoDup (removedRPCs v)) &&
          forallb (fun x => existsb (String.eqb x) (facebookProcessorMap ++ metastoreProcessorMap)) (removedRPCs v) = true) as H
    by (destruct v; vm_compute; reflexivity).
  apply andb_true_iff in H as [H1 H2]. split; [by apply bool_decide_eq_true in H1|]. intros x Hx.
  unfold ProcessorMap. apply elem_of_list_to_set. rewrite forallb_forall in H2.
  specialize (H2 x (proj1 (list_elem_of_In _ _) Hx)). apply existsb_exists in H2 as (y & Hy & E).
  apply String.eqb_eq in E as ->. by apply list_elem_of_In.
Qed.

Lemma removed_of_version v : exists m, delete_methods "version table" (removedRPCs v) ProcessorMap = inr m /\
  forall x, x ∈ m <-> x ∈ ProcessorMap /\ x ∉ removedRPCs v.
Proof.
  pose proof (delete_methods_spec "version table" (removedRPCs v) ProcessorMap) as H. pose proof (version_table_sound v) as Hv.
  destruct (delete_methods _ _ _) as [e|m]; [by destruct H|]. exists m. by destruct H as (_ & _ & H).
Qed.

(** NewServer refuses exactly the method lists that would hide a typo. For every
    version and any options, given a listener it starts unless WithoutRPC names some
    method twice, or one the generated processor has not or the version already lacks;
    then it answers exactly the processor's methods less the version's and the
    options', holds no table, database or event, and will drop the number of requests
    WithFailNext last gave, clamped to an int32. *)
Theorem new_server_methods now v opts :
  let cfg := fold_left (fun c (o : fakeOption) => o c) opts (mkFakeConfig [] 0) in
  match NewServer None now v opts with
  | inr srv =>
      NoDup (fc_without cfg) /\ (forall x, x ∈ fc_without cfg -> x ∈ ProcessorMap /\ x ∉ removedRPCs v) /\
      (forall x, x ∈ ns_methods srv <-> x ∈ ProcessorMap /\ x ∉ removedRPCs v /\ x ∉ fc_without cfg) /\
      ns_failNext srv = clampInt32 (fc_failNext cfg) /\ f_v (ns_fake srv) = v /\ f_calls (ns_fake srv) = [] /\
      Tables (f_store (ns_fake srv)) = ∅ /\ Databases (f_store (ns_fake srv)) = ∅ /\ Events (f_store (ns_fake srv)) = []
  | inl _ => ~ (NoDup (fc_without cfg) /\ forall x, x ∈ fc_without cfg -> x ∈ ProcessorMap /\ x ∉ removedRPCs v)
  end.
Proof.
  intros cfg. unfold NewServer. fold cfg. destruct (removed_of_version v) as (m & -> & Hm).
  pose proof (delete_methods_spec "WithoutRPC" (fc_without cfg) m) as H.
  destruct (delete_methods "WithoutRPC" _ m) as [e|m'].
  - intros [Hd Hall]. apply H. split; [done|]. intros x Hx. apply Hm. by apply Hall.
  - destruct H as (Hd & Hall & Hm'). split; [exact Hd|]. split; [|split].
    + intros x Hx. apply Hm. exact (Hall x Hx).
    + intros x. cbn [ns_methods]. rewrite Hm', Hm. tauto.
    + cbn [ns_failNext ns_fake f_v f_calls f_store]. split; [reflexivity|]. split; [reflexivity|]. split; [reflexivity|].
      destruct v; cbn [seed_warehouse Tables Databases Events set_Catalogs]; repeat split.
Qed.

(** ** A database on a new server *)

Section fresh.
Context {UL : UnicodeLower} {cp : DeepCopy} (path_Match : string -> string -> bool).

Lemma fresh_warehouse {L} v c (b : bst fake L) : conn_ok path_Match b -> f_v (b_world b) = v ->
  f_store (b_world b) = seed_warehouse v NewStore -> b_roots b = ∅ -> wire_cat v "hive" = Some c ->
  exists b', warehouseRoot c b = (b', inr fake_warehouse) /\ conn_ok path_Match b' /\ f_v (b_world b') = v /\
    f_store (b_world b') = seed_warehouse v NewStore /\ f_now (b_world b') = f_now (b_world b).
Proof.
  intros Hok Hv Hs Hr Hw. unfold warehouseRoot, bind, get_roots. rewrite Hr, lookup_empty.
  assert (TrimRight "/" fake_warehouse = fake_warehouse) as Ht by (vm_compute; reflexivity).
  destruct (decide (v = Hive23)) as [->|Hn].
  - injection Hw as <-.
    rewrite (rpcM_fake path_Match _ "get_config_value" (GetConfigValue "hive.metastore.warehouse.dir" "") b Hok eq_refl)
      by (rewrite Hv; reflexivity).
    unfold GetConfigValue, bind, record, modify, store. cbn [f_store]. rewrite Hs.
    change (default "" (Config (seed_warehouse Hive23 NewStore) !! "hive.metastore.warehouse.dir")) with fake_warehouse.
    unfold ret. rewrite Ht. eexists. split; [reflexivity|]. simpl. by split_and!; [apply conn_ok_world|..].
  - assert (c = Some "hive") as -> by (destruct v; [done|by injection Hw..]).
    assert (Catalogs (seed_warehouse v NewStore) !! "hive" = Some (mk_wCatalog "hive" None fake_warehouse None None)) as Hcat
      by (destruct v; [done|reflexivity..]).
    rewrite (rpcM_fake path_Match _ "get_catalog" (GetCatalog (mk_wGetCatalogRequest "hive")) b Hok eq_refl)
      by (rewrite Hv; destruct v; [done|reflexivity..]).
    unfold GetCatalog, bind, record, modify, store. cbn [f_store wGetCatalogRequest_Name]. rewrite Hs, Hcat.
    unfold ret. cbn [wGetCatalogResponse_Catalog wCatalog_LocationUri]. rewrite Ht. eexists. split; [reflexivity|]. simpl.
    by split_and!; [apply conn_ok_world|..].
Qed.

(** create_database on a free name, at a location. *)
Lemma run_CreateDatabase d c f : wDatabase_LocationUri d <> "" -> resolveDB (f_v f) (wDatabase_Name d) = inr ("hive", wDatabase_Name d) ->
  wDatabase_CatalogName d = c -> c = None \/ c = Some "hive" ->
  Databases (f_store f) !! dbKey "hive" (wDatabase_Name d) = None ->
  exists f', Fake.CreateDatabase (Some d) f = (f', inr tt) /\
    Databases (f_store f') = <[dbKey "hive" (wDatabase_Name d) :=
      stored_database (wDatabase_Name d) (create_time (wDatabase_CreateTime d) (f_now f)) d]> (Databases (f_store f)).
Proof.
  intros Hl Hres Hcat Hc Hfree. unfold Fake.CreateDatabase, bind, record, modify. destruct (String.eqb_spec (wDatabase_LocationUri d) ""); [done|].
  unfold version, lift, store, now32. cbn [f_v f_store f_now]. rewrite Hres. cbn [fst snd].
  assert (match wDatabase_CatalogName d with Some c => if String.eqb c "" then "hive" else c | None => "hive" end = "hive") as ->
    by (rewrite Hcat; destruct Hc as [-> | ->]; reflexivity).
  rewrite Hfree. eexists. split; reflexivity.
Qed.

(** On a server just started, of every version, CreateDatabase without a location
    succeeds and the database is stored under the fake's warehouse with its name in
    lower case: from the configuration value on a server without catalogs, from the
    catalog's own location on one with them, where that value is deliberately unset. *)
Theorem fresh_server_database cfg now v db srv :
  NewServer None now v [] = inr srv ->
  effectiveCatalog cfg (Database_CatalogName db) [] = "hive" -> Database_LocationURI db = "" ->
  HasPrefix "@" (Database_Name db) = false ->
  exists b' d,
    create_database_body cfg db (mkBst (mkConn (ret tt) (fakeRpcs path_Match) ∅ catalogUnknown) (ns_fake srv) ∅ tt) = (b', inr tt) /\
    Databases (f_store (b_world b')) = {[dbKey "hive" (Database_Name db) := d]} /\
    wDatabase_Name d = Database_Name db /\
    wDatabase_LocationUri d = fake_warehouse +:+ "/" +:+ ToLower (Database_Name db) +:+ ".db".
Proof.
  intros Hsrv Heff Hloc Hpre.
  assert (ns_fake srv = mkFake v (seed_warehouse v NewStore) [] now) as ->.
  { unfold NewServer in Hsrv. destruct (delete_methods "version table" _ _) as [e|m]; [done|].
    cbn [fold_left fc_without delete_methods] in Hsrv. by injection Hsrv as <-. }
  set (b0 := mkBst _ _ _ _).
  assert (conn_ok path_Match b0) as Hok by done.
  destruct (fake_resolve path_Match cfg (Database_CatalogName db) [] b0 Hok) as (b1 & H1 & Hok1 & Hv1 & Hs1 & Hn1 & _).
  rewrite Heff in H1. change (f_v (b_world b0)) with v in H1, Hv1.
  pose proof (resolveCatFor_roots cfg (Database_CatalogName db) [] b0) as Hr. rewrite H1 in Hr. cbn [fst] in Hr.
  destruct (wire_cat v "hive") as [c|] eqn:Ew; [|by destruct v].
  destruct (fresh_warehouse v c b1 Hok1 Hv1 Hs1 Hr Ew) as (b2 & H2 & Hok2 & Hv2 & Hs2 & Hn2).
  unfold create_database_body, database_to_create, bind. rewrite H1, Hloc. change (String.eqb "" "") with true. cbv beta iota. rewrite H2.
  change (String.eqb fake_warehouse "") with false. cbv beta iota. unfold ret.
  set (d := fillDatabase NewDatabase (set_location (fake_warehouse +:+ "/" +:+ ToLower (Database_Name db) +:+ ".db") db) c).
  change (databaseToThrift (Some (set_location (fake_warehouse +:+ "/" +:+ ToLower (Database_Name db) +:+ ".db") db)) c) with (Some d).
  assert (c = None \/ c = Some "hive") as Hc by (destruct v; vm_compute in Ew; injection Ew as <-; auto).
  destruct (run_CreateDatabase d c (b_world b2)) as (f' & Hf & Hd); [done| |done|done|by rewrite Hs2; destruct v|].
  { rewrite Hv2. change (wDatabase_Name d) with (Database_Name db). unfold resolveDB, splitCatDB. rewrite Hpre.
    unfold HasPrefix in Hpre. destruct (strip_prefix "@" (Database_Name db)); [done|]. by case_decide. }
  rewrite (rpcM_fake path_Match _ "create_database" (Fake.CreateDatabase (Some d)) b2 Hok2 eq_refl) by (rewrite Hv2; by destruct v).
  rewrite Hf. eexists _, (stored_database (wDatabase_Name d) (create_time (wDatabase_CreateTime d) (f_now (b_world b2))) d).
  split; [reflexivity|]. split; [|split]; [|reflexivity..].
  cbn [b_world set_world]. rewrite Hd, Hs2. by destruct v.
Qed.
End fresh.

Lemma fresh_server_database_witness :
  let db := mkDatabase "" "Sales" "" "" None "" 0 zeroTime None in
  exists srv b' d, NewServer None 1700000000 Hive31 [] = inr srv /\
    @create_database_body fake asciiLower newConfig db
      (mkBst (mkConn (ret tt) (fakeRpcs (fun _ _ => false)) ∅ catalogUnknown) (ns_fake srv) ∅ tt) = (b', inr tt) /\
    Databases (f_store (b_world b')) = {[dbKey "hive" "Sales" := d]} /\
    wDatabase_LocationUri d = "file:///tmp/hms-warehouse/sales.db".
Proof.
  cbn zeta. pose proof (new_server_methods 1700000000 Hive31 []) as Hm. cbv beta zeta in Hm.
  destruct (NewServer None 1700000000 Hive31 []) as [e|srv] eqn:E.
  - exfalso. apply Hm. split; [apply NoDup_nil_2|]. intros x Hx. destruct (not_elem_of_nil x Hx).
  - destruct (@fresh_server_database asciiLower (fun _ _ => false) newConfig 1700000000 Hive31
      (mkDatabase "" "Sales" "" "" None "" 0 zeroTime None) srv E eq_refl eq_refl eq_refl) as (b' & d & H1 & H2 & _ & H3).
    exists srv, b', d. split; [reflexivity|]. split; [exact H1|]. split; [exact H2|exact H3].
Defined.
