(* ===== verification/Rpc.v ===== *)
(** * Rpc: remote calls, from stub to handler

    What the generated code of gen/ makes of an RPC, on both sides of a connection.
    The client's stub hands [thrift.TStandardClient] an argument struct to send and a
    result struct to fill, and looks at the result; the server's processor reads the
    arguments, runs a handler, and replies with a result struct that holds the
    answer or a declared exception, or with a TApplicationException. The shapes here
    are shared by all methods; RpcCatalog, RpcTable, RpcPartition and RpcTxn have
    the methods. *)

From S2P Require Import Prelude Errors GoMonad Types Transport Wire Thrift.

(** ** What the library does *)

(** [thrift.TStandardClient]'s Send and Recv, with the struct's Write and Read. *)
Class TStandardClient (P : Type) := {
  Send : string -> Z -> M P unit -> M P unit;
  Recv : forall {R}, string -> Z -> MF P R -> MF P R;
}.

(** TApplicationException's Write, and the errors of a processor. *)
Class TProcessorLib (P : Type) := {
  app_Write : app_type -> string -> M P unit;
  WrapTException : goerr -> goerr;
  (** [&thrift.ProcessorError{WriteError: w, EndpointError: e}] *)
  ProcessorError : goerr -> option goerr -> goerr;
  (** [errors.Is(err, thrift.ErrAbandonRequest)] *)
  abandoned : goerr -> bool;
}.

(** ** Exceptions on the wire

    The IDL's exceptions are structs of one string, all alike. *)

Record wException := mk_wException { wException_Message : string }.
Definition NewException : wException := mk_wException "".

(** The exception as a Go error. *)
Definition exn (k : thrift_exn) (v : wException) : goerr := EThrift k (wException_Message v).

Section exceptions.
Context {P : Type} {TP : TProtocol P}.

Local Abbreviation T_exn k := ("*hive_metastore." +:+ thrift_name k).

Definition Exception_writeField1 (k : thrift_exn) (p : wException) : M P unit :=
  write_field (T_exn k) "message" STRING 1 (write_scalar (T_exn k) "message" 1 (WriteString (wException_Message p))).
Definition Exception_ReadField1 : wException -> MF P wException :=
  assign (read_scalar 1 ReadString) (fun v _ => mk_wException v).
Definition Exception_Write (k : thrift_exn) (p : option wException) : M P unit :=
  write_struct (T_exn k) (thrift_name k) ((fun p => [Exception_writeField1 k p]) <$> p).
Definition Exception_switch : switch wException := fun fieldId =>
  match fieldId with
  | 1 => Some (STRING, Exception_ReadField1)
  | _ => None
  end.
Definition Exception_Read (k : thrift_exn) (fuel : nat) : wException -> MF P wException :=
  read_struct (T_exn k) [] Exception_switch fuel.
End exceptions.

(** ** The stub *)

(** [p.Client_().Call(ctx, method, args, result)], on the client's state. *)
Class TClient (P C : Type) := { Call : forall {R}, string -> M P unit -> MF P R -> MF C R }.

Section stub.
Context {C : Type}.

(** [switch { case _result.O1 != nil: return _r, _result.O1; ... }], then [k]. *)
Fixpoint exceptions {B} (os : list (option goerr)) (k : goerr + B) : goerr + B :=
  match os with
  | [] => k
  | Some e :: _ => inl e
  | None :: os => exceptions os k
  end.

(** [if _ret := _result.GetSuccess(); _ret != nil { return _ret, nil }], else a
    TApplicationException. *)
Definition success {B} (method : string) (o : option B) : goerr + B :=
  match o with
  | Some r => inr r
  | None => inl (EApp MISSING_RESULT (method +:+ " failed: unknown result"))
  end.

Definition stub {R B} (call : MF C R) (tail : R -> goerr + B) : MF C B := fun c =>
  match call c with
  | Some (c, inr r) => Some (c, tail r)
  | Some (c, inl e) => Some (c, inl e)
  | None => None
  end.
End stub.

(** ** The processor *)

(** [switch v := err2.(type)]: the dynamic type of the error itself, not of what it wraps. *)
Fixpoint type_switch {R} (cases : list (thrift_exn * (wException -> R))) (err2 : goerr) : option R :=
  match err2, cases with
  | EThrift k m, (k', f) :: cases => if decide (k = k') then Some (f (mk_wException m)) else type_switch cases err2
  | _, _ => None
  end.

(** The protocols of a connection and the server's state, and [(success, err)]. *)
Definition processed (P W : Type) : Type := P * P * W * (bool * option goerr).

Section processor.
Context {P W : Type} {TP : TProtocol P} {PL : TProcessorLib P}.
(** [context.Cause(ctx)]: the connectivity check cancels the context with a cause. *)
Context (cause : option goerr).

(** Every write is made, and the first error kept. *)
Fixpoint write_all (ws : list (M P unit)) (write_err : option goerr) (oprot : P) : P * option goerr :=
  match ws with
  | [] => (oprot, write_err)
  | w :: ws =>
      let '(oprot, r) := w oprot in
      write_all ws (match write_err, r with
                    | None, inl err2 => Some (WrapTException err2)
                    | _, _ => write_err
                    end) oprot
  end.

Definition write_message (name : string) (ty seqId : Z) (body : M P unit) : P -> P * option goerr :=
  write_all [WriteMessageBegin name ty seqId; body; WriteMessageEnd; Flush] None.

Definition isCanceled (e : goerr) : bool :=
  existsb (fun n => match n with ECanceled => true | _ => false end) (nodes e).

(** One method of the processor. [handler] is the server's method on the arguments;
    [declared] is the [switch v := err2.(type)], the result with the exception in its
    field; [answer] the result with the value. *)
Definition process {A T R} (name : string) (readArgs : MF P A) (handler : A -> M W T)
    (declared : goerr -> option R) (answer : T -> R) (writeResult : option R -> M P unit)
    (seqId : Z) (iprot oprot : P) (w : W) : option (processed P W) :=
  match readArgs iprot with
  | None => None
  | Some (iprot, inl err2) =>
      let '(iprot, _) := ReadMessageEnd iprot in
      let '(oprot, _) := write_message name EXCEPTION seqId (app_Write PROTOCOL_ERROR (error_text err2)) oprot in
      Some (iprot, oprot, w, (false, Some (WrapTException err2)))
  | Some (iprot, inr args) =>
      let '(iprot, _) := ReadMessageEnd iprot in
      let '(w, r) := handler args w in
      let err := match r with inl err2 => Some (WrapTException err2) | inr _ => None end in
      let reply ty body :=
        let '(oprot, write_err) := write_message name ty seqId body oprot in
        Some (iprot, oprot, w,
              match write_err with Some we => (false, Some (ProcessorError we err)) | None => (true, err) end) in
      match r with
      | inr retval => reply REPLY (writeResult (Some (answer retval)))
      | inl err2 =>
          match declared err2 with
          | Some result => reply REPLY (writeResult (Some result))
          | None =>
              let internal := reply EXCEPTION
                (app_Write INTERNAL_ERROR ("Internal error processing " +:+ name +:+ ": " +:+ error_text err2)) in
              let abandon e := Some (iprot, oprot, w, (false, Some (ProcessorError (WrapTException e) err))) in
              if abandoned err2 then abandon err2
              else match cause with
                   | Some err3 => if isCanceled err2 && abandoned err3 then abandon err3 else internal
                   | None => internal
                   end
          end
      end
  end.

(** A TProcessorFunction, and the processor map. *)
Definition processor_function : Type := Z -> P -> P -> W -> option (processed P W).
Definition processor_map : Type := list (string * processor_function).

Fixpoint GetProcessorFunction (m : processor_map) (name : string) : option processor_function :=
  match m with
  | [] => None
  | (n, f) :: m => if String.eqb n name then Some f else GetProcessorFunction m name
  end.

(** [delete(m, name)] *)
Definition delete_method (name : string) (m : processor_map) : processor_map :=
  List.filter (fun nf => negb (String.eqb nf.1 name)) m.

(** FacebookServiceProcessor.Process: one message. *)
Definition Process (m : processor_map) (iprot oprot : P) (w : W) : option (processed P W) :=
  match ReadMessageBegin iprot with
  | (iprot, inl err2) => Some (iprot, oprot, w, (false, Some (WrapTException err2)))
  | (iprot, inr (name, _, seqId)) =>
      match GetProcessorFunction m name with
      | Some f => f seqId iprot oprot w
      | None =>
          let '(iprot, _) := Skip STRUCT iprot in
          let '(iprot, _) := ReadMessageEnd iprot in
          let text := "Unknown function " +:+ name in
          let '(oprot, _) := write_message name EXCEPTION seqId (app_Write UNKNOWN_METHOD text) oprot in
          Some (iprot, oprot, w, (false, Some (EApp UNKNOWN_METHOD text)))
      end
  end.
End processor.

Arguments processor_function : clear implicits.
Arguments processor_map : clear implicits.

(** ** A client connected to a server *)

(** The two directions of the connection, the server's state, and the client's
    sequence number. *)
Record link (P W : Type) := mkLink { l_up : P; l_down : P; l_srv : W; l_seq : Z }.
Arguments mkLink {P W}. Arguments l_up {P W}. Arguments l_down {P W}. Arguments l_srv {P W}. Arguments l_seq {P W}.

(** A call: the request is sent, the loop of the server's connection processes it
    once, the reply is received. *)
Definition link_Call {P W R} {TS : TStandardClient P} (serve : P -> P -> W -> option (processed P W))
    (method : string) (args : M P unit) (result : MF P R) : MF (link P W) R := fun l =>
  let seqId := int32 (l_seq l + 1) in
  match Send method seqId args (l_up l) with
  | (up, inl e) => Some (mkLink up (l_down l) (l_srv l) seqId, inl e)
  | (up, inr _) =>
      match serve up (l_down l) (l_srv l) with
      | None => None
      | Some (up, down, srv, _) =>
          match Recv method seqId result down with
          | None => None
          | Some (down, r) => Some (mkLink up down srv seqId, r)
          end
      end
  end.

Definition link_client {P W} {TS : TStandardClient P} (serve : P -> P -> W -> option (processed P W)) : TClient P (link P W) :=
  {| Call := fun R => link_Call serve |}.
