(* ===== verification/RpcHandler.v ===== *)
(** * RpcHandler: the server's side of the generated interface

    The interface a processor hands its requests to, ThriftHiveMetastore of
    gen/hive_metastore/hive_metastore.go with the methods of fb303's FacebookService
    that it embeds: those the client calls. A pointer is an option, here and in what a
    handler answers. *)

From S2P Require Import Prelude Errors GoMonad Wire CodecReq.

Module Handler.

Record ThriftHiveMetastore (W : Type) := mkHandler {
  GetCatalogs : M W (option wGetCatalogsResponse);
  GetCatalog : option wGetCatalogRequest -> M W (option wGetCatalogResponse);
  CreateCatalog : option wCreateCatalogRequest -> M W unit;
  DropCatalog : option wDropCatalogRequest -> M W unit;
  GetAllDatabases : M W (slice string);
  GetDatabases : string -> M W (slice string);
  GetDatabase : string -> M W (option wDatabase);
  CreateDatabase : option wDatabase -> M W unit;
  DropDatabase : string -> bool -> bool -> M W unit;
  GetAllTables : string -> M W (slice string);
  GetTableReq : option wGetTableRequest -> M W (option wGetTableResult_);
  GetTableObjectsByNameReq : option wGetTablesRequest -> M W (option wGetTablesResult_);
  CreateTable : option wTable -> M W unit;
  AlterTable : string -> string -> option wTable -> M W unit;
  DropTable : string -> string -> bool -> M W unit;
  GetPartitions : string -> string -> Z -> M W (slice (option wPartition));
  GetPartitionsReq : option wPartitionsRequest -> M W (option wPartitionsResponse);
  GetPartitionNames : string -> string -> Z -> M W (slice string);
  AddPartitionsReq : option wAddPartitionsRequest -> M W (option wAddPartitionsResult_);
  AlterPartitions : string -> string -> slice (option wPartition) -> M W unit;
  AlterPartitionsReq : option wAlterPartitionsRequest -> M W (option wAlterPartitionsResponse);
  DropPartition : string -> string -> slice string -> bool -> M W bool;
  DropPartitionsReq : option wDropPartitionsRequest -> M W (option wDropPartitionsResult_);
  GetConfigValue : string -> string -> M W string;
  GetStatus : M W Z;
  GetVersion : M W string;
  SetUgi : string -> slice string -> M W (slice string);
  AlterDatabase : string -> option wDatabase -> M W unit;
  GetPartitionsByNames : string -> string -> slice string -> M W (slice (option wPartition));
  GetPartitionsByNamesReq : option wGetPartitionsByNamesRequest -> M W (option wGetPartitionsByNamesResult_);
  GetPartitionsByFilter : string -> string -> string -> Z -> M W (slice (option wPartition));
  GetPartitionNamesPs : string -> string -> slice string -> Z -> M W (slice string);
  GetPartitionNamesPsReq : option wGetPartitionNamesPsRequest -> M W (option wGetPartitionNamesPsResponse);
  GetNextNotification : option wNotificationEventRequest -> M W (option wNotificationEventResponse);
  GetCurrentNotificationEventId : M W (option wCurrentNotificationEventId);
  GetTableStatisticsReq : option wTableStatsRequest -> M W (option wTableStatsResult_);
  OpenTxns : option wOpenTxnRequest -> M W (option wOpenTxnsResponse);
  CommitTxn : option wCommitTxnRequest -> M W unit;
  AbortTxn : option wAbortTxnRequest -> M W unit;
  Heartbeat : option wHeartbeatRequest -> M W unit;
  Lock : option wLockRequest -> M W (option wLockResponse);
  CheckLock : option wCheckLockRequest -> M W (option wLockResponse);
  Unlock : option wUnlockRequest -> M W unit;
}.

Arguments GetCatalogs {W}. Arguments GetCatalog {W}. Arguments CreateCatalog {W}. Arguments DropCatalog {W}.
Arguments GetAllDatabases {W}. Arguments GetDatabases {W}. Arguments GetDatabase {W}.
Arguments CreateDatabase {W}. Arguments DropDatabase {W}. Arguments GetAllTables {W}.
Arguments GetTableReq {W}. Arguments GetTableObjectsByNameReq {W}. Arguments CreateTable {W}.
Arguments AlterTable {W}. Arguments DropTable {W}. Arguments GetPartitions {W}.
Arguments GetPartitionsReq {W}. Arguments GetPartitionNames {W}. Arguments AddPartitionsReq {W}.
Arguments AlterPartitions {W}. Arguments AlterPartitionsReq {W}. Arguments DropPartition {W}.
Arguments DropPartitionsReq {W}. Arguments GetConfigValue {W}. Arguments GetStatus {W}.
Arguments GetVersion {W}. Arguments SetUgi {W}. Arguments AlterDatabase {W}.
Arguments GetPartitionsByNames {W}. Arguments GetPartitionsByNamesReq {W}.
Arguments GetPartitionsByFilter {W}. Arguments GetPartitionNamesPs {W}.
Arguments GetPartitionNamesPsReq {W}. Arguments GetNextNotification {W}.
Arguments GetCurrentNotificationEventId {W}. Arguments GetTableStatisticsReq {W}. Arguments OpenTxns {W}.
Arguments CommitTxn {W}. Arguments AbortTxn {W}. Arguments Heartbeat {W}. Arguments Lock {W}.
Arguments CheckLock {W}. Arguments Unlock {W}.

End Handler.
