(* ===== verification/RpcCatalog.v ===== *)
(** * RpcCatalog: the RPCs on catalogs, databases, configuration

    Of each, as gen/ has it: the argument and result structs with their Write and
    Read (the prefix ThriftHiveMetastore or FacebookService of their names left out),
    the client's stub, and the processor's method. *)

From S2P Require Import Prelude Errors GoMonad Types Transport Wire Thrift CodecTable CodecReq Rpc RpcHandler.

(** ** get_catalogs *)

Record wGetCatalogsArgs := mk_wGetCatalogsArgs {}.
Definition zero_GetCatalogsArgs : wGetCatalogsArgs := mk_wGetCatalogsArgs.
Record wGetCatalogsResult := mk_wGetCatalogsResult {
  wGetCatalogsResult_Success : option wGetCatalogsResponse;
  wGetCatalogsResult_O1 : option wException;
}.
Definition zero_GetCatalogsResult : wGetCatalogsResult := mk_wGetCatalogsResult None None.

(** ** get_catalog *)

Record wGetCatalogArgs := mk_wGetCatalogArgs {
  wGetCatalogArgs_CatName : option wGetCatalogRequest;
}.
Definition zero_GetCatalogArgs : wGetCatalogArgs := mk_wGetCatalogArgs None.
Record wGetCatalogResult := mk_wGetCatalogResult {
  wGetCatalogResult_Success : option wGetCatalogResponse;
  wGetCatalogResult_O1 : option wException;
  wGetCatalogResult_O2 : option wException;
}.
Definition zero_GetCatalogResult : wGetCatalogResult := mk_wGetCatalogResult None None None.

(** ** create_catalog *)

Record wCreateCatalogArgs := mk_wCreateCatalogArgs {
  wCreateCatalogArgs_Catalog : option wCreateCatalogRequest;
}.
Definition zero_CreateCatalogArgs : wCreateCatalogArgs := mk_wCreateCatalogArgs None.
Record wCreateCatalogResult := mk_wCreateCatalogResult {
  wCreateCatalogResult_O1 : option wException;
  wCreateCatalogResult_O2 : option wException;
  wCreateCatalogResult_O3 : option wException;
}.
Definition zero_CreateCatalogResult : wCreateCatalogResult := mk_wCreateCatalogResult None None None.

(** ** drop_catalog *)

Record wDropCatalogArgs := mk_wDropCatalogArgs {
  wDropCatalogArgs_CatName : option wDropCatalogRequest;
}.
Definition zero_DropCatalogArgs : wDropCatalogArgs := mk_wDropCatalogArgs None.
Record wDropCatalogResult := mk_wDropCatalogResult {
  wDropCatalogResult_O1 : option wException;
  wDropCatalogResult_O2 : option wException;
  wDropCatalogResult_O3 : option wException;
}.
Definition zero_DropCatalogResult : wDropCatalogResult := mk_wDropCatalogResult None None None.

(** ** get_all_databases *)

Record wGetAllDatabasesArgs := mk_wGetAllDatabasesArgs {}.
Definition zero_GetAllDatabasesArgs : wGetAllDatabasesArgs := mk_wGetAllDatabasesArgs.
Record wGetAllDatabasesResult := mk_wGetAllDatabasesResult {
  wGetAllDatabasesResult_Success : slice string;
  wGetAllDatabasesResult_O1 : option wException;
}.
Definition zero_GetAllDatabasesResult : wGetAllDatabasesResult := mk_wGetAllDatabasesResult None None.

(** ** get_databases *)

Record wGetDatabasesArgs := mk_wGetDatabasesArgs {
  wGetDatabasesArgs_Pattern : string;
}.
Definition zero_GetDatabasesArgs : wGetDatabasesArgs := mk_wGetDatabasesArgs EmptyString.
Record wGetDatabasesResult := mk_wGetDatabasesResult {
  wGetDatabasesResult_Success : slice string;
  wGetDatabasesResult_O1 : option wException;
}.
Definition zero_GetDatabasesResult : wGetDatabasesResult := mk_wGetDatabasesResult None None.

(** ** get_database *)

Record wGetDatabaseArgs := mk_wGetDatabaseArgs {
  wGetDatabaseArgs_Name : string;
}.
Definition zero_GetDatabaseArgs : wGetDatabaseArgs := mk_wGetDatabaseArgs EmptyString.
Record wGetDatabaseResult := mk_wGetDatabaseResult {
  wGetDatabaseResult_Success : option wDatabase;
  wGetDatabaseResult_O1 : option wException;
  wGetDatabaseResult_O2 : option wException;
}.
Definition zero_GetDatabaseResult : wGetDatabaseResult := mk_wGetDatabaseResult None None None.

(** ** create_database *)

Record wCreateDatabaseArgs := mk_wCreateDatabaseArgs {
  wCreateDatabaseArgs_Database : option wDatabase;
}.
Definition zero_CreateDatabaseArgs : wCreateDatabaseArgs := mk_wCreateDatabaseArgs None.
Record wCreateDatabaseResult := mk_wCreateDatabaseResult {
  wCreateDatabaseResult_O1 : option wException;
  wCreateDatabaseResult_O2 : option wException;
  wCreateDatabaseResult_O3 : option wException;
}.
Definition zero_CreateDatabaseResult : wCreateDatabaseResult := mk_wCreateDatabaseResult None None None.

(** ** drop_database *)

Record wDropDatabaseArgs := mk_wDropDatabaseArgs {
  wDropDatabaseArgs_Name : string;
  wDropDatabaseArgs_DeleteData : bool;
  wDropDatabaseArgs_Cascade : bool;
}.
Definition zero_DropDatabaseArgs : wDropDatabaseArgs := mk_wDropDatabaseArgs EmptyString false false.
Record wDropDatabaseResult := mk_wDropDatabaseResult {
  wDropDatabaseResult_O1 : option wException;
  wDropDatabaseResult_O2 : option wException;
  wDropDatabaseResult_O3 : option wException;
}.
Definition zero_DropDatabaseResult : wDropDatabaseResult := mk_wDropDatabaseResult None None None.

(** ** alter_database *)

Record wAlterDatabaseArgs := mk_wAlterDatabaseArgs {
  wAlterDatabaseArgs_Dbname : string;
  wAlterDatabaseArgs_Db : option wDatabase;
}.
Definition zero_AlterDatabaseArgs : wAlterDatabaseArgs := mk_wAlterDatabaseArgs EmptyString None.
Record wAlterDatabaseResult := mk_wAlterDatabaseResult {
  wAlterDatabaseResult_O1 : option wException;
  wAlterDatabaseResult_O2 : option wException;
}.
Definition zero_AlterDatabaseResult : wAlterDatabaseResult := mk_wAlterDatabaseResult None None.

(** ** get_config_value *)

Record wGetConfigValueArgs := mk_wGetConfigValueArgs {
  wGetConfigValueArgs_Name : string;
  wGetConfigValueArgs_DefaultValue : string;
}.
Definition zero_GetConfigValueArgs : wGetConfigValueArgs := mk_wGetConfigValueArgs EmptyString EmptyString.
Record wGetConfigValueResult := mk_wGetConfigValueResult {
  wGetConfigValueResult_Success : option string;
  wGetConfigValueResult_O1 : option wException;
}.
Definition zero_GetConfigValueResult : wGetConfigValueResult := mk_wGetConfigValueResult None None.

(** ** set_ugi *)

Record wSetUgiArgs := mk_wSetUgiArgs {
  wSetUgiArgs_UserName : string;
  wSetUgiArgs_GroupNames : slice string;
}.
Definition zero_SetUgiArgs : wSetUgiArgs := mk_wSetUgiArgs EmptyString None.
Record wSetUgiResult := mk_wSetUgiResult {
  wSetUgiResult_Success : slice string;
  wSetUgiResult_O1 : option wException;
}.
Definition zero_SetUgiResult : wSetUgiResult := mk_wSetUgiResult None None.

(** ** getStatus *)

Record wGetStatusArgs := mk_wGetStatusArgs {}.
Definition zero_GetStatusArgs : wGetStatusArgs := mk_wGetStatusArgs.
Record wGetStatusResult := mk_wGetStatusResult {
  wGetStatusResult_Success : option Z;
}.
Definition zero_GetStatusResult : wGetStatusResult := mk_wGetStatusResult None.

(** ** getVersion *)

Record wGetVersionArgs := mk_wGetVersionArgs {}.
Definition zero_GetVersionArgs : wGetVersionArgs := mk_wGetVersionArgs.
Record wGetVersionResult := mk_wGetVersionResult {
  wGetVersionResult_Success : option string;
}.
Definition zero_GetVersionResult : wGetVersionResult := mk_wGetVersionResult None.

Section codec.
Context {P : Type} {TP : TProtocol P} {MR : MapRange} {SB : Substructs P}.

(** ** get_catalogs *)

Local Abbreviation T_GetCatalogsArgs := "*hive_metastore.ThriftHiveMetastoreGetCatalogsArgs".
Definition GetCatalogsArgs_Write (p : option wGetCatalogsArgs) : M P unit :=
  write_struct T_GetCatalogsArgs "get_catalogs_args" ((fun _ => []) <$> p).
Definition GetCatalogsArgs_switch : switch (P := P) wGetCatalogsArgs := fun _ => None.
Definition GetCatalogsArgs_Read (fuel : nat) : wGetCatalogsArgs -> MF P wGetCatalogsArgs :=
  read_struct T_GetCatalogsArgs [] GetCatalogsArgs_switch fuel.

Local Abbreviation T_GetCatalogsResult := "*hive_metastore.ThriftHiveMetastoreGetCatalogsResult".
Definition GetCatalogsResult_set_Success v '(mk_wGetCatalogsResult _ x2) : wGetCatalogsResult :=
  mk_wGetCatalogsResult v x2.
Definition GetCatalogsResult_set_O1 v '(mk_wGetCatalogsResult x1 _) : wGetCatalogsResult :=
  mk_wGetCatalogsResult x1 v.

Definition GetCatalogsResult_writeField0 (p : wGetCatalogsResult) : M P unit :=
  (opt (wGetCatalogsResult_Success p) (fun v =>
    write_field T_GetCatalogsResult "success" STRUCT 0 (write_sub "*hive_metastore.GetCatalogsResponse" (GetCatalogsResponse_Write (Some v)))))%go.
Definition GetCatalogsResult_ReadField0 (fuel : nat) : wGetCatalogsResult -> MF P wGetCatalogsResult :=
  assign (read_sub "*hive_metastore.GetCatalogsResponse" (GetCatalogsResponse_Read fuel NewGetCatalogsResponse))%go (fun v => GetCatalogsResult_set_Success (Some v)).
Definition GetCatalogsResult_writeField1 (p : wGetCatalogsResult) : M P unit :=
  (opt (wGetCatalogsResult_O1 p) (fun v =>
    write_field T_GetCatalogsResult "o1" STRUCT 1 (write_sub "*hive_metastore.MetaException" (Exception_Write MetaException (Some v)))))%go.
Definition GetCatalogsResult_ReadField1 (fuel : nat) : wGetCatalogsResult -> MF P wGetCatalogsResult :=
  assign (read_sub "*hive_metastore.MetaException" (Exception_Read MetaException fuel NewException))%go (fun v => GetCatalogsResult_set_O1 (Some v)).
Definition GetCatalogsResult_Write (p : option wGetCatalogsResult) : M P unit :=
  write_struct T_GetCatalogsResult "get_catalogs_result" ((fun p => [GetCatalogsResult_writeField0 p;
     GetCatalogsResult_writeField1 p]) <$> p).
Definition GetCatalogsResult_switch (fuel : nat) : switch wGetCatalogsResult := fun fieldId =>
  match fieldId with
  | 0 => Some (STRUCT, GetCatalogsResult_ReadField0 fuel)
  | 1 => Some (STRUCT, GetCatalogsResult_ReadField1 fuel)
  | _ => None
  end.
Definition GetCatalogsResult_Read (fuel : nat) : wGetCatalogsResult -> MF P wGetCatalogsResult :=
  read_struct T_GetCatalogsResult [] (GetCatalogsResult_switch fuel) fuel.

(** ** get_catalog *)

Local Abbreviation T_GetCatalogArgs := "*hive_metastore.ThriftHiveMetastoreGetCatalogArgs".
Definition GetCatalogArgs_set_CatName v (_ : wGetCatalogArgs) : wGetCatalogArgs := mk_wGetCatalogArgs v.

Definition GetCatalogArgs_writeField1 (p : wGetCatalogArgs) : M P unit :=
  (opt (wGetCatalogArgs_CatName p) (fun v =>
    write_field T_GetCatalogArgs "catName" STRUCT 1 (write_sub "*hive_metastore.GetCatalogRequest" (GetCatalogRequest_Write (Some v)))))%go.
Definition GetCatalogArgs_ReadField1 (fuel : nat) : wGetCatalogArgs -> MF P wGetCatalogArgs :=
  assign (read_sub "*hive_metastore.GetCatalogRequest" (GetCatalogRequest_Read fuel NewGetCatalogRequest))%go (fun v => GetCatalogArgs_set_CatName (Some v)).
Definition GetCatalogArgs_Write (p : option wGetCatalogArgs) : M P unit :=
  write_struct T_GetCatalogArgs "get_catalog_args" ((fun p => [GetCatalogArgs_writeField1 p]) <$> p).
Definition GetCatalogArgs_switch (fuel : nat) : switch wGetCatalogArgs := fun fieldId =>
  match fieldId with
  | 1 => Some (STRUCT, GetCatalogArgs_ReadField1 fuel)
  | _ => None
  end.
Definition GetCatalogArgs_Read (fuel : nat) : wGetCatalogArgs -> MF P wGetCatalogArgs :=
  read_struct T_GetCatalogArgs [] (GetCatalogArgs_switch fuel) fuel.

Local Abbreviation T_GetCatalogResult := "*hive_metastore.ThriftHiveMetastoreGetCatalogResult".
Definition GetCatalogResult_set_Success v '(mk_wGetCatalogResult _ x2 x3) : wGetCatalogResult :=
  mk_wGetCatalogResult v x2 x3.
Definition GetCatalogResult_set_O1 v '(mk_wGetCatalogResult x1 _ x3) : wGetCatalogResult :=
  mk_wGetCatalogResult x1 v x3.
Definition GetCatalogResult_set_O2 v '(mk_wGetCatalogResult x1 x2 _) : wGetCatalogResult :=
  mk_wGetCatalogResult x1 x2 v.

Definition GetCatalogResult_writeField0 (p : wGetCatalogResult) : M P unit :=
  (opt (wGetCatalogResult_Success p) (fun v =>
    write_field T_GetCatalogResult "success" STRUCT 0 (write_sub "*hive_metastore.GetCatalogResponse" (GetCatalogResponse_Write (Some v)))))%go.
Definition GetCatalogResult_ReadField0 (fuel : nat) : wGetCatalogResult -> MF P wGetCatalogResult :=
  assign (read_sub "*hive_metastore.GetCatalogResponse" (GetCatalogResponse_Read fuel NewGetCatalogResponse))%go (fun v => GetCatalogResult_set_Success (Some v)).
Definition GetCatalogResult_writeField1 (p : wGetCatalogResult) : M P unit :=
  (opt (wGetCatalogResult_O1 p) (fun v =>
    write_field T_GetCatalogResult "o1" STRUCT 1 (write_sub "*hive_metastore.NoSuchObjectException" (Exception_Write NoSuchObjectException (Some v)))))%go.
Definition GetCatalogResult_ReadField1 (fuel : nat) : wGetCatalogResult -> MF P wGetCatalogResult :=
  assign (read_sub "*hive_metastore.NoSuchObjectException" (Exception_Read NoSuchObjectException fuel NewException))%go (fun v => GetCatalogResult_set_O1 (Some v)).
Definition GetCatalogResult_writeField2 (p : wGetCatalogResult) : M P unit :=
  (opt (wGetCatalogResult_O2 p) (fun v =>
    write_field T_GetCatalogResult "o2" STRUCT 2 (write_sub "*hive_metastore.MetaException" (Exception_Write MetaException (Some v)))))%go.
Definition GetCatalogResult_ReadField2 (fuel : nat) : wGetCatalogResult -> MF P wGetCatalogResult :=
  assign (read_sub "*hive_metastore.MetaException" (Exception_Read MetaException fuel NewException))%go (fun v => GetCatalogResult_set_O2 (Some v)).
Definition GetCatalogResult_Write (p : option wGetCatalogResult) : M P unit :=
  write_struct T_GetCatalogResult "get_catalog_result" ((fun p => [GetCatalogResult_writeField0 p;
     GetCatalogResult_writeField1 p; GetCatalogResult_writeField2 p]) <$> p).
Definition GetCatalogResult_switch (fuel : nat) : switch wGetCatalogResult := fun fieldId =>
  match fieldId with
  | 0 => Some (STRUCT, GetCatalogResult_ReadField0 fuel)
  | 1 => Some (STRUCT, GetCatalogResult_ReadField1 fuel)
  | 2 => Some (STRUCT, GetCatalogResult_ReadField2 fuel)
  | _ => None
  end.
Definition GetCatalogResult_Read (fuel : nat) : wGetCatalogResult -> MF P wGetCatalogResult :=
  read_struct T_GetCatalogResult [] (GetCatalogResult_switch fuel) fuel.

(** ** create_catalog *)

Local Abbreviation T_CreateCatalogArgs := "*hive_metastore.ThriftHiveMetastoreCreateCatalogArgs".
Definition CreateCatalogArgs_set_Catalog v (_ : wCreateCatalogArgs) : wCreateCatalogArgs := mk_wCreateCatalogArgs v.

Definition CreateCatalogArgs_writeField1 (p : wCreateCatalogArgs) : M P unit :=
  (opt (wCreateCatalogArgs_Catalog p) (fun v =>
    write_field T_CreateCatalogArgs "catalog" STRUCT 1 (write_sub "*hive_metastore.CreateCatalogRequest" (CreateCatalogRequest_Write (Some v)))))%go.
Definition CreateCatalogArgs_ReadField1 (fuel : nat) : wCreateCatalogArgs -> MF P wCreateCatalogArgs :=
  assign (read_sub "*hive_metastore.CreateCatalogRequest" (CreateCatalogRequest_Read fuel NewCreateCatalogRequest))%go (fun v => CreateCatalogArgs_set_Catalog (Some v)).
Definition CreateCatalogArgs_Write (p : option wCreateCatalogArgs) : M P unit :=
  write_struct T_CreateCatalogArgs "create_catalog_args" ((fun p => [CreateCatalogArgs_writeField1 p]) <$> p).
Definition CreateCatalogArgs_switch (fuel : nat) : switch wCreateCatalogArgs := fun fieldId =>
  match fieldId with
  | 1 => Some (STRUCT, CreateCatalogArgs_ReadField1 fuel)
  | _ => None
  end.
Definition CreateCatalogArgs_Read (fuel : nat) : wCreateCatalogArgs -> MF P wCreateCatalogArgs :=
  read_struct T_CreateCatalogArgs [] (CreateCatalogArgs_switch fuel) fuel.

Local Abbreviation T_CreateCatalogResult := "*hive_metastore.ThriftHiveMetastoreCreateCatalogResult".
Definition CreateCatalogResult_set_O1 v '(mk_wCreateCatalogResult _ x2 x3) : wCreateCatalogResult :=
  mk_wCreateCatalogResult v x2 x3.
Definition CreateCatalogResult_set_O2 v '(mk_wCreateCatalogResult x1 _ x3) : wCreateCatalogResult :=
  mk_wCreateCatalogResult x1 v x3.
Definition CreateCatalogResult_set_O3 v '(mk_wCreateCatalogResult x1 x2 _) : wCreateCatalogResult :=
  mk_wCreateCatalogResult x1 x2 v.

Definition CreateCatalogResult_writeField1 (p : wCreateCatalogResult) : M P unit :=
  (opt (wCreateCatalogResult_O1 p) (fun v =>
    write_field T_CreateCatalogResult "o1" STRUCT 1 (write_sub "*hive_metastore.AlreadyExistsException" (Exception_Write AlreadyExistsException (Some v)))))%go.
Definition CreateCatalogResult_ReadField1 (fuel : nat) : wCreateCatalogResult -> MF P wCreateCatalogResult :=
  assign (read_sub "*hive_metastore.AlreadyExistsException" (Exception_Read AlreadyExistsException fuel NewException))%go (fun v => CreateCatalogResult_set_O1 (Some v)).
Definition CreateCatalogResult_writeField2 (p : wCreateCatalogResult) : M P unit :=
  (opt (wCreateCatalogResult_O2 p) (fun v =>
    write_field T_CreateCatalogResult "o2" STRUCT 2 (write_sub "*hive_metastore.InvalidObjectException" (Exception_Write InvalidObjectException (Some v)))))%go.
Definition CreateCatalogResult_ReadField2 (fuel : nat) : wCreateCatalogResult -> MF P wCreateCatalogResult :=
  assign (read_sub "*hive_metastore.InvalidObjectException" (Exception_Read InvalidObjectException fuel NewException))%go (fun v => CreateCatalogResult_set_O2 (Some v)).
Definition CreateCatalogResult_writeField3 (p : wCreateCatalogResult) : M P unit :=
  (opt (wCreateCatalogResult_O3 p) (fun v =>
    write_field T_CreateCatalogResult "o3" STRUCT 3 (write_sub "*hive_metastore.MetaException" (Exception_Write MetaException (Some v)))))%go.
Definition CreateCatalogResult_ReadField3 (fuel : nat) : wCreateCatalogResult -> MF P wCreateCatalogResult :=
  assign (read_sub "*hive_metastore.MetaException" (Exception_Read MetaException fuel NewException))%go (fun v => CreateCatalogResult_set_O3 (Some v)).
Definition CreateCatalogResult_Write (p : option wCreateCatalogResult) : M P unit :=
  write_struct T_CreateCatalogResult "create_catalog_result" ((fun p => [CreateCatalogResult_writeField1 p;
     CreateCatalogResult_writeField2 p; CreateCatalogResult_writeField3 p]) <$> p).
Definition CreateCatalogResult_switch (fuel : nat) : switch wCreateCatalogResult := fun fieldId =>
  match fieldId with
  | 1 => Some (STRUCT, CreateCatalogResult_ReadField1 fuel)
  | 2 => Some (STRUCT, CreateCatalogResult_ReadField2 fuel)
  | 3 => Some (STRUCT, CreateCatalogResult_ReadField3 fuel)
  | _ => None
  end.
Definition CreateCatalogResult_Read (fuel : nat) : wCreateCatalogResult -> MF P wCreateCatalogResult :=
  read_struct T_CreateCatalogResult [] (CreateCatalogResult_switch fuel) fuel.

(** ** drop_catalog *)

Local Abbreviation T_DropCatalogArgs := "*hive_metastore.ThriftHiveMetastoreDropCatalogArgs".
Definition DropCatalogArgs_set_CatName v (_ : wDropCatalogArgs) : wDropCatalogArgs := mk_wDropCatalogArgs v.

Definition DropCatalogArgs_writeField1 (p : wDropCatalogArgs) : M P unit :=
  (opt (wDropCatalogArgs_CatName p) (fun v =>
    write_field T_DropCatalogArgs "catName" STRUCT 1 (write_sub "*hive_metastore.DropCatalogRequest" (DropCatalogRequest_Write (Some v)))))%go.
Definition DropCatalogArgs_ReadField1 (fuel : nat) : wDropCatalogArgs -> MF P wDropCatalogArgs :=
  assign (read_sub "*hive_metastore.DropCatalogRequest" (DropCatalogRequest_Read fuel NewDropCatalogRequest))%go (fun v => DropCatalogArgs_set_CatName (Some v)).
Definition DropCatalogArgs_Write (p : option wDropCatalogArgs) : M P unit :=
  write_struct T_DropCatalogArgs "drop_catalog_args" ((fun p => [DropCatalogArgs_writeField1 p]) <$> p).
Definition DropCatalogArgs_switch (fuel : nat) : switch wDropCatalogArgs := fun fieldId =>
  match fieldId with
  | 1 => Some (STRUCT, DropCatalogArgs_ReadField1 fuel)
  | _ => None
  end.
Definition DropCatalogArgs_Read (fuel : nat) : wDropCatalogArgs -> MF P wDropCatalogArgs :=
  read_struct T_DropCatalogArgs [] (DropCatalogArgs_switch fuel) fuel.

Local Abbreviation T_DropCatalogResult := "*hive_metastore.ThriftHiveMetastoreDropCatalogResult".
Definition DropCatalogResult_set_O1 v '(mk_wDropCatalogResult _ x2 x3) : wDropCatalogResult :=
  mk_wDropCatalogResult v x2 x3.
Definition DropCatalogResult_set_O2 v '(mk_wDropCatalogResult x1 _ x3) : wDropCatalogResult :=
  mk_wDropCatalogResult x1 v x3.
Definition DropCatalogResult_set_O3 v '(mk_wDropCatalogResult x1 x2 _) : wDropCatalogResult :=
  mk_wDropCatalogResult x1 x2 v.

Definition DropCatalogResult_writeField1 (p : wDropCatalogResult) : M P unit :=
  (opt (wDropCatalogResult_O1 p) (fun v =>
    write_field T_DropCatalogResult "o1" STRUCT 1 (write_sub "*hive_metastore.NoSuchObjectException" (Exception_Write NoSuchObjectException (Some v)))))%go.
Definition DropCatalogResult_ReadField1 (fuel : nat) : wDropCatalogResult -> MF P wDropCatalogResult :=
  assign (read_sub "*hive_metastore.NoSuchObjectException" (Exception_Read NoSuchObjectException fuel NewException))%go (fun v => DropCatalogResult_set_O1 (Some v)).
Definition DropCatalogResult_writeField2 (p : wDropCatalogResult) : M P unit :=
  (opt (wDropCatalogResult_O2 p) (fun v =>
    write_field T_DropCatalogResult "o2" STRUCT 2 (write_sub "*hive_metastore.InvalidOperationException" (Exception_Write InvalidOperationException (Some v)))))%go.
Definition DropCatalogResult_ReadField2 (fuel : nat) : wDropCatalogResult -> MF P wDropCatalogResult :=
  assign (read_sub "*hive_metastore.InvalidOperationException" (Exception_Read InvalidOperationException fuel NewException))%go (fun v => DropCatalogResult_set_O2 (Some v)).
Definition DropCatalogResult_writeField3 (p : wDropCatalogResult) : M P unit :=
  (opt (wDropCatalogResult_O3 p) (fun v =>
    write_field T_DropCatalogResult "o3" STRUCT 3 (write_sub "*hive_metastore.MetaException" (Exception_Write MetaException (Some v)))))%go.
Definition DropCatalogResult_ReadField3 (fuel : nat) : wDropCatalogResult -> MF P wDropCatalogResult :=
  assign (read_sub "*hive_metastore.MetaException" (Exception_Read MetaException fuel NewException))%go (fun v => DropCatalogResult_set_O3 (Some v)).
Definition DropCatalogResult_Write (p : option wDropCatalogResult) : M P unit :=
  write_struct T_DropCatalogResult "drop_catalog_result" ((fun p => [DropCatalogResult_writeField1 p;
     DropCatalogResult_writeField2 p; DropCatalogResult_writeField3 p]) <$> p).
Definition DropCatalogResult_switch (fuel : nat) : switch wDropCatalogResult := fun fieldId =>
  match fieldId with
  | 1 => Some (STRUCT, DropCatalogResult_ReadField1 fuel)
  | 2 => Some (STRUCT, DropCatalogResult_ReadField2 fuel)
  | 3 => Some (STRUCT, DropCatalogResult_ReadField3 fuel)
  | _ => None
  end.
Definition DropCatalogResult_Read (fuel : nat) : wDropCatalogResult -> MF P wDropCatalogResult :=
  read_struct T_DropCatalogResult [] (DropCatalogResult_switch fuel) fuel.

(** ** get_all_databases *)

Local Abbreviation T_GetAllDatabasesArgs := "*hive_metastore.ThriftHiveMetastoreGetAllDatabasesArgs".
Definition GetAllDatabasesArgs_Write (p : option wGetAllDatabasesArgs) : M P unit :=
  write_struct T_GetAllDatabasesArgs "get_all_databases_args" ((fun _ => []) <$> p).
Definition GetAllDatabasesArgs_switch : switch (P := P) wGetAllDatabasesArgs := fun _ => None.
Definition GetAllDatabasesArgs_Read (fuel : nat) : wGetAllDatabasesArgs -> MF P wGetAllDatabasesArgs :=
  read_struct T_GetAllDatabasesArgs [] GetAllDatabasesArgs_switch fuel.

Local Abbreviation T_GetAllDatabasesResult := "*hive_metastore.ThriftHiveMetastoreGetAllDatabasesResult".
Definition GetAllDatabasesResult_set_Success v '(mk_wGetAllDatabasesResult _ x2) : wGetAllDatabasesResult :=
  mk_wGetAllDatabasesResult v x2.
Definition GetAllDatabasesResult_set_O1 v '(mk_wGetAllDatabasesResult x1 _) : wGetAllDatabasesResult :=
  mk_wGetAllDatabasesResult x1 v.

Definition GetAllDatabasesResult_writeField0 (p : wGetAllDatabasesResult) : M P unit :=
  (when (bool_decide (is_Some (wGetAllDatabasesResult_Success p)))
    (write_field T_GetAllDatabasesResult "success" LIST 0 (write_strings T_GetAllDatabasesResult (wGetAllDatabasesResult_Success p))))%go.
Definition GetAllDatabasesResult_ReadField0 : wGetAllDatabasesResult -> MF P wGetAllDatabasesResult :=
  assign (read_strings)%go GetAllDatabasesResult_set_Success.
Definition GetAllDatabasesResult_writeField1 (p : wGetAllDatabasesResult) : M P unit :=
  (opt (wGetAllDatabasesResult_O1 p) (fun v =>
    write_field T_GetAllDatabasesResult "o1" STRUCT 1 (write_sub "*hive_metastore.MetaException" (Exception_Write MetaException (Some v)))))%go.
Definition GetAllDatabasesResult_ReadField1 (fuel : nat) : wGetAllDatabasesResult -> MF P wGetAllDatabasesResult :=
  assign (read_sub "*hive_metastore.MetaException" (Exception_Read MetaException fuel NewException))%go (fun v => GetAllDatabasesResult_set_O1 (Some v)).
Definition GetAllDatabasesResult_Write (p : option wGetAllDatabasesResult) : M P unit :=
  write_struct T_GetAllDatabasesResult "get_all_databases_result" ((fun p => [GetAllDatabasesResult_writeField0 p;
     GetAllDatabasesResult_writeField1 p]) <$> p).
Definition GetAllDatabasesResult_switch (fuel : nat) : switch wGetAllDatabasesResult := fun fieldId =>
  match fieldId with
  | 0 => Some (LIST, GetAllDatabasesResult_ReadField0)
  | 1 => Some (STRUCT, GetAllDatabasesResult_ReadField1 fuel)
  | _ => None
  end.
Definition GetAllDatabasesResult_Read (fuel : nat) : wGetAllDatabasesResult -> MF P wGetAllDatabasesResult :=
  read_struct T_GetAllDatabasesResult [] (GetAllDatabasesResult_switch fuel) fuel.

(** ** get_databases *)

Local Abbreviation T_GetDatabasesArgs := "*hive_metastore.ThriftHiveMetastoreGetDatabasesArgs".
Definition GetDatabasesArgs_set_Pattern v (_ : wGetDatabasesArgs) : wGetDatabasesArgs := mk_wGetDatabasesArgs v.

Definition GetDatabasesArgs_writeField1 (p : wGetDatabasesArgs) : M P unit :=
  (write_field T_GetDatabasesArgs "pattern" STRING 1 (write_scalar T_GetDatabasesArgs "pattern" 1 (WriteString (wGetDatabasesArgs_Pattern p))))%go.
Definition GetDatabasesArgs_ReadField1 : wGetDatabasesArgs -> MF P wGetDatabasesArgs :=
  assign (read_scalar 1 ReadString)%go GetDatabasesArgs_set_Pattern.
Definition GetDatabasesArgs_Write (p : option wGetDatabasesArgs) : M P unit :=
  write_struct T_GetDatabasesArgs "get_databases_args" ((fun p => [GetDatabasesArgs_writeField1 p]) <$> p).
Definition GetDatabasesArgs_switch : switch wGetDatabasesArgs := fun fieldId =>
  match fieldId with
  | 1 => Some (STRING, GetDatabasesArgs_ReadField1)
  | _ => None
  end.
Definition GetDatabasesArgs_Read (fuel : nat) : wGetDatabasesArgs -> MF P wGetDatabasesArgs :=
  read_struct T_GetDatabasesArgs [] GetDatabasesArgs_switch fuel.

Local Abbreviation T_GetDatabasesResult := "*hive_metastore.ThriftHiveMetastoreGetDatabasesResult".
Definition GetDatabasesResult_set_Success v '(mk_wGetDatabasesResult _ x2) : wGetDatabasesResult :=
  mk_wGetDatabasesResult v x2.
Definition GetDatabasesResult_set_O1 v '(mk_wGetDatabasesResult x1 _) : wGetDatabasesResult :=
  mk_wGetDatabasesResult x1 v.

Definition GetDatabasesResult_writeField0 (p : wGetDatabasesResult) : M P unit :=
  (when (bool_decide (is_Some (wGetDatabasesResult_Success p)))
    (write_field T_GetDatabasesResult "success" LIST 0 (write_strings T_GetDatabasesResult (wGetDatabasesResult_Success p))))%go.
Definition GetDatabasesResult_ReadField0 : wGetDatabasesResult -> MF P wGetDatabasesResult :=
  assign (read_strings)%go GetDatabasesResult_set_Success.
Definition GetDatabasesResult_writeField1 (p : wGetDatabasesResult) : M P unit :=
  (opt (wGetDatabasesResult_O1 p) (fun v =>
    write_field T_GetDatabasesResult "o1" STRUCT 1 (write_sub "*hive_metastore.MetaException" (Exception_Write MetaException (Some v)))))%go.
Definition GetDatabasesResult_ReadField1 (fuel : nat) : wGetDatabasesResult -> MF P wGetDatabasesResult :=
  assign (read_sub "*hive_metastore.MetaException" (Exception_Read MetaException fuel NewException))%go (fun v => GetDatabasesResult_set_O1 (Some v)).
Definition GetDatabasesResult_Write (p : option wGetDatabasesResult) : M P unit :=
  write_struct T_GetDatabasesResult "get_databases_result" ((fun p => [GetDatabasesResult_writeField0 p;
     GetDatabasesResult_writeField1 p]) <$> p).
Definition GetDatabasesResult_switch (fuel : nat) : switch wGetDatabasesResult := fun fieldId =>
  match fieldId with
  | 0 => Some (LIST, GetDatabasesResult_ReadField0)
  | 1 => Some (STRUCT, GetDatabasesResult_ReadField1 fuel)
  | _ => None
  end.
Definition GetDatabasesResult_Read (fuel : nat) : wGetDatabasesResult -> MF P wGetDatabasesResult :=
  read_struct T_GetDatabasesResult [] (GetDatabasesResult_switch fuel) fuel.

(** ** get_database *)

Local Abbreviation T_GetDatabaseArgs := "*hive_metastore.ThriftHiveMetastoreGetDatabaseArgs".
Definition GetDatabaseArgs_set_Name v (_ : wGetDatabaseArgs) : wGetDatabaseArgs := mk_wGetDatabaseArgs v.

Definition GetDatabaseArgs_writeField1 (p : wGetDatabaseArgs) : M P unit :=
  (write_field T_GetDatabaseArgs "name" STRING 1 (write_scalar T_GetDatabaseArgs "name" 1 (WriteString (wGetDatabaseArgs_Name p))))%go.
Definition GetDatabaseArgs_ReadField1 : wGetDatabaseArgs -> MF P wGetDatabaseArgs :=
  assign (read_scalar 1 ReadString)%go GetDatabaseArgs_set_Name.
Definition GetDatabaseArgs_Write (p : option wGetDatabaseArgs) : M P unit :=
  write_struct T_GetDatabaseArgs "get_database_args" ((fun p => [GetDatabaseArgs_writeField1 p]) <$> p).
Definition GetDatabaseArgs_switch : switch wGetDatabaseArgs := fun fieldId =>
  match fieldId with
  | 1 => Some (STRING, GetDatabaseArgs_ReadField1)
  | _ => None
  end.
Definition GetDatabaseArgs_Read (fuel : nat) : wGetDatabaseArgs -> MF P wGetDatabaseArgs :=
  read_struct T_GetDatabaseArgs [] GetDatabaseArgs_switch fuel.

Local Abbreviation T_GetDatabaseResult := "*hive_metastore.ThriftHiveMetastoreGetDatabaseResult".
Definition GetDatabaseResult_set_Success v '(mk_wGetDatabaseResult _ x2 x3) : wGetDatabaseResult :=
  mk_wGetDatabaseResult v x2 x3.
Definition GetDatabaseResult_set_O1 v '(mk_wGetDatabaseResult x1 _ x3) : wGetDatabaseResult :=
  mk_wGetDatabaseResult x1 v x3.
Definition GetDatabaseResult_set_O2 v '(mk_wGetDatabaseResult x1 x2 _) : wGetDatabaseResult :=
  mk_wGetDatabaseResult x1 x2 v.

Definition GetDatabaseResult_writeField0 (p : wGetDatabaseResult) : M P unit :=
  (opt (wGetDatabaseResult_Success p) (fun v =>
    write_field T_GetDatabaseResult "success" STRUCT 0 (write_sub "*hive_metastore.Database" (Database_Write (Some v)))))%go.
Definition GetDatabaseResult_ReadField0 (fuel : nat) : wGetDatabaseResult -> MF P wGetDatabaseResult :=
  assign (read_sub "*hive_metastore.Database" (Database_Read fuel NewDatabase))%go (fun v => GetDatabaseResult_set_Success (Some v)).
Definition GetDatabaseResult_writeField1 (p : wGetDatabaseResult) : M P unit :=
  (opt (wGetDatabaseResult_O1 p) (fun v =>
    write_field T_GetDatabaseResult "o1" STRUCT 1 (write_sub "*hive_metastore.NoSuchObjectException" (Exception_Write NoSuchObjectException (Some v)))))%go.
Definition GetDatabaseResult_ReadField1 (fuel : nat) : wGetDatabaseResult -> MF P wGetDatabaseResult :=
  assign (read_sub "*hive_metastore.NoSuchObjectException" (Exception_Read NoSuchObjectException fuel NewException))%go (fun v => GetDatabaseResult_set_O1 (Some v)).
Definition GetDatabaseResult_writeField2 (p : wGetDatabaseResult) : M P unit :=
  (opt (wGetDatabaseResult_O2 p) (fun v =>
    write_field T_GetDatabaseResult "o2" STRUCT 2 (write_sub "*hive_metastore.MetaException" (Exception_Write MetaException (Some v)))))%go.
Definition GetDatabaseResult_ReadField2 (fuel : nat) : wGetDatabaseResult -> MF P wGetDatabaseResult :=
  assign (read_sub "*hive_metastore.MetaException" (Exception_Read MetaException fuel NewException))%go (fun v => GetDatabaseResult_set_O2 (Some v)).
Definition GetDatabaseResult_Write (p : option wGetDatabaseResult) : M P unit :=
  write_struct T_GetDatabaseResult "get_database_result" ((fun p => [GetDatabaseResult_writeField0 p;
     GetDatabaseResult_writeField1 p; GetDatabaseResult_writeField2 p]) <$> p).
Definition GetDatabaseResult_switch (fuel : nat) : switch wGetDatabaseResult := fun fieldId =>
  match fieldId with
  | 0 => Some (STRUCT, GetDatabaseResult_ReadField0 fuel)
  | 1 => Some (STRUCT, GetDatabaseResult_ReadField1 fuel)
  | 2 => Some (STRUCT, GetDatabaseResult_ReadField2 fuel)
  | _ => None
  end.
Definition GetDatabaseResult_Read (fuel : nat) : wGetDatabaseResult -> MF P wGetDatabaseResult :=
  read_struct T_GetDatabaseResult [] (GetDatabaseResult_switch fuel) fuel.

(** ** create_database *)

Local Abbreviation T_CreateDatabaseArgs := "*hive_metastore.ThriftHiveMetastoreCreateDatabaseArgs".
Definition CreateDatabaseArgs_set_Database v (_ : wCreateDatabaseArgs) : wCreateDatabaseArgs := mk_wCreateDatabaseArgs v.

Definition CreateDatabaseArgs_writeField1 (p : wCreateDatabaseArgs) : M P unit :=
  (opt (wCreateDatabaseArgs_Database p) (fun v =>
    write_field T_CreateDatabaseArgs "database" STRUCT 1 (write_sub "*hive_metastore.Database" (Database_Write (Some v)))))%go.
Definition CreateDatabaseArgs_ReadField1 (fuel : nat) : wCreateDatabaseArgs -> MF P wCreateDatabaseArgs :=
  assign (read_sub "*hive_metastore.Database" (Database_Read fuel NewDatabase))%go (fun v => CreateDatabaseArgs_set_Database (Some v)).
Definition CreateDatabaseArgs_Write (p : option wCreateDatabaseArgs) : M P unit :=
  write_struct T_CreateDatabaseArgs "create_database_args" ((fun p => [CreateDatabaseArgs_writeField1 p]) <$> p).
Definition CreateDatabaseArgs_switch (fuel : nat) : switch wCreateDatabaseArgs := fun fieldId =>
  match fieldId with
  | 1 => Some (STRUCT, CreateDatabaseArgs_ReadField1 fuel)
  | _ => None
  end.
Definition CreateDatabaseArgs_Read (fuel : nat) : wCreateDatabaseArgs -> MF P wCreateDatabaseArgs :=
  read_struct T_CreateDatabaseArgs [] (CreateDatabaseArgs_switch fuel) fuel.

Local Abbreviation T_CreateDatabaseResult := "*hive_metastore.ThriftHiveMetastoreCreateDatabaseResult".
Definition CreateDatabaseResult_set_O1 v '(mk_wCreateDatabaseResult _ x2 x3) : wCreateDatabaseResult :=
  mk_wCreateDatabaseResult v x2 x3.
Definition CreateDatabaseResult_set_O2 v '(mk_wCreateDatabaseResult x1 _ x3) : wCreateDatabaseResult :=
  mk_wCreateDatabaseResult x1 v x3.
Definition CreateDatabaseResult_set_O3 v '(mk_wCreateDatabaseResult x1 x2 _) : wCreateDatabaseResult :=
  mk_wCreateDatabaseResult x1 x2 v.

Definition CreateDatabaseResult_writeField1 (p : wCreateDatabaseResult) : M P unit :=
  (opt (wCreateDatabaseResult_O1 p) (fun v =>
    write_field T_CreateDatabaseResult "o1" STRUCT 1 (write_sub "*hive_metastore.AlreadyExistsException" (Exception_Write AlreadyExistsException (Some v)))))%go.
Definition CreateDatabaseResult_ReadField1 (fuel : nat) : wCreateDatabaseResult -> MF P wCreateDatabaseResult :=
  assign (read_sub "*hive_metastore.AlreadyExistsException" (Exception_Read AlreadyExistsException fuel NewException))%go (fun v => CreateDatabaseResult_set_O1 (Some v)).
Definition CreateDatabaseResult_writeField2 (p : wCreateDatabaseResult) : M P unit :=
  (opt (wCreateDatabaseResult_O2 p) (fun v =>
    write_field T_CreateDatabaseResult "o2" STRUCT 2 (write_sub "*hive_metastore.InvalidObjectException" (Exception_Write InvalidObjectException (Some v)))))%go.
Definition CreateDatabaseResult_ReadField2 (fuel : nat) : wCreateDatabaseResult -> MF P wCreateDatabaseResult :=
  assign (read_sub "*hive_metastore.InvalidObjectException" (Exception_Read InvalidObjectException fuel NewException))%go (fun v => CreateDatabaseResult_set_O2 (Some v)).
Definition CreateDatabaseResult_writeField3 (p : wCreateDatabaseResult) : M P unit :=
  (opt (wCreateDatabaseResult_O3 p) (fun v =>
    write_field T_CreateDatabaseResult "o3" STRUCT 3 (write_sub "*hive_metastore.MetaException" (Exception_Write MetaException (Some v)))))%go.
Definition CreateDatabaseResult_ReadField3 (fuel : nat) : wCreateDatabaseResult -> MF P wCreateDatabaseResult :=
  assign (read_sub "*hive_metastore.MetaException" (Exception_Read MetaException fuel NewException))%go (fun v => CreateDatabaseResult_set_O3 (Some v)).
Definition CreateDatabaseResult_Write (p : option wCreateDatabaseResult) : M P unit :=
  write_struct T_CreateDatabaseResult "create_database_result" ((fun p => [CreateDatabaseResult_writeField1 p;
     CreateDatabaseResult_writeField2 p; CreateDatabaseResult_writeField3 p]) <$> p).
Definition CreateDatabaseResult_switch (fuel : nat) : switch wCreateDatabaseResult := fun fieldId =>
  match fieldId with
  | 1 => Some (STRUCT, CreateDatabaseResult_ReadField1 fuel)
  | 2 => Some (STRUCT, CreateDatabaseResult_ReadField2 fuel)
  | 3 => Some (STRUCT, CreateDatabaseResult_ReadField3 fuel)
  | _ => None
  end.
Definition CreateDatabaseResult_Read (fuel : nat) : wCreateDatabaseResult -> MF P wCreateDatabaseResult :=
  read_struct T_CreateDatabaseResult [] (CreateDatabaseResult_switch fuel) fuel.

(** ** drop_database *)

Local Abbreviation T_DropDatabaseArgs := "*hive_metastore.ThriftHiveMetastoreDropDatabaseArgs".
Definition DropDatabaseArgs_set_Name v '(mk_wDropDatabaseArgs _ x2 x3) : wDropDatabaseArgs :=
  mk_wDropDatabaseArgs v x2 x3.
Definition DropDatabaseArgs_set_DeleteData v '(mk_wDropDatabaseArgs x1 _ x3) : wDropDatabaseArgs :=
  mk_wDropDatabaseArgs x1 v x3.
Definition DropDatabaseArgs_set_Cascade v '(mk_wDropDatabaseArgs x1 x2 _) : wDropDatabaseArgs :=
  mk_wDropDatabaseArgs x1 x2 v.

Definition DropDatabaseArgs_writeField1 (p : wDropDatabaseArgs) : M P unit :=
  (write_field T_DropDatabaseArgs "name" STRING 1 (write_scalar T_DropDatabaseArgs "name" 1 (WriteString (wDropDatabaseArgs_Name p))))%go.
Definition DropDatabaseArgs_ReadField1 : wDropDatabaseArgs -> MF P wDropDatabaseArgs :=
  assign (read_scalar 1 ReadString)%go DropDatabaseArgs_set_Name.
Definition DropDatabaseArgs_writeField2 (p : wDropDatabaseArgs) : M P unit :=
  (write_field T_DropDatabaseArgs "deleteData" BOOL 2 (write_scalar T_DropDatabaseArgs "deleteData" 2 (WriteBool (wDropDatabaseArgs_DeleteData p))))%go.
Definition DropDatabaseArgs_ReadField2 : wDropDatabaseArgs -> MF P wDropDatabaseArgs :=
  assign (read_scalar 2 ReadBool)%go DropDatabaseArgs_set_DeleteData.
Definition DropDatabaseArgs_writeField3 (p : wDropDatabaseArgs) : M P unit :=
  (write_field T_DropDatabaseArgs "cascade" BOOL 3 (write_scalar T_DropDatabaseArgs "cascade" 3 (WriteBool (wDropDatabaseArgs_Cascade p))))%go.
Definition DropDatabaseArgs_ReadField3 : wDropDatabaseArgs -> MF P wDropDatabaseArgs :=
  assign (read_scalar 3 ReadBool)%go DropDatabaseArgs_set_Cascade.
Definition DropDatabaseArgs_Write (p : option wDropDatabaseArgs) : M P unit :=
  write_struct T_DropDatabaseArgs "drop_database_args" ((fun p => [DropDatabaseArgs_writeField1 p;
     DropDatabaseArgs_writeField2 p; DropDatabaseArgs_writeField3 p]) <$> p).
Definition DropDatabaseArgs_switch : switch wDropDatabaseArgs := fun fieldId =>
  match fieldId with
  | 1 => Some (STRING, DropDatabaseArgs_ReadField1)
  | 2 => Some (BOOL, DropDatabaseArgs_ReadField2)
  | 3 => Some (BOOL, DropDatabaseArgs_ReadField3)
  | _ => None
  end.
Definition DropDatabaseArgs_Read (fuel : nat) : wDropDatabaseArgs -> MF P wDropDatabaseArgs :=
  read_struct T_DropDatabaseArgs [] DropDatabaseArgs_switch fuel.

Local Abbreviation T_DropDatabaseResult := "*hive_metastore.ThriftHiveMetastoreDropDatabaseResult".
Definition DropDatabaseResult_set_O1 v '(mk_wDropDatabaseResult _ x2 x3) : wDropDatabaseResult :=
  mk_wDropDatabaseResult v x2 x3.
Definition DropDatabaseResult_set_O2 v '(mk_wDropDatabaseResult x1 _ x3) : wDropDatabaseResult :=
  mk_wDropDatabaseResult x1 v x3.
Definition DropDatabaseResult_set_O3 v '(mk_wDropDatabaseResult x1 x2 _) : wDropDatabaseResult :=
  mk_wDropDatabaseResult x1 x2 v.

Definition DropDatabaseResult_writeField1 (p : wDropDatabaseResult) : M P unit :=
  (opt (wDropDatabaseResult_O1 p) (fun v =>
    write_field T_DropDatabaseResult "o1" STRUCT 1 (write_sub "*hive_metastore.NoSuchObjectException" (Exception_Write NoSuchObjectException (Some v)))))%go.
Definition DropDatabaseResult_ReadField1 (fuel : nat) : wDropDatabaseResult -> MF P wDropDatabaseResult :=
  assign (read_sub "*hive_metastore.NoSuchObjectException" (Exception_Read NoSuchObjectException fuel NewException))%go (fun v => DropDatabaseResult_set_O1 (Some v)).
Definition DropDatabaseResult_writeField2 (p : wDropDatabaseResult) : M P unit :=
  (opt (wDropDatabaseResult_O2 p) (fun v =>
    write_field T_DropDatabaseResult "o2" STRUCT 2 (write_sub "*hive_metastore.InvalidOperationException" (Exception_Write InvalidOperationException (Some v)))))%go.
Definition DropDatabaseResult_ReadField2 (fuel : nat) : wDropDatabaseResult -> MF P wDropDatabaseResult :=
  assign (read_sub "*hive_metastore.InvalidOperationException" (Exception_Read InvalidOperationException fuel NewException))%go (fun v => DropDatabaseResult_set_O2 (Some v)).
Definition DropDatabaseResult_writeField3 (p : wDropDatabaseResult) : M P unit :=
  (opt (wDropDatabaseResult_O3 p) (fun v =>
    write_field T_DropDatabaseResult "o3" STRUCT 3 (write_sub "*hive_metastore.MetaException" (Exception_Write MetaException (Some v)))))%go.
Definition DropDatabaseResult_ReadField3 (fuel : nat) : wDropDatabaseResult -> MF P wDropDatabaseResult :=
  assign (read_sub "*hive_metastore.MetaException" (Exception_Read MetaException fuel NewException))%go (fun v => DropDatabaseResult_set_O3 (Some v)).
Definition DropDatabaseResult_Write (p : option wDropDatabaseResult) : M P unit :=
  write_struct T_DropDatabaseResult "drop_database_result" ((fun p => [DropDatabaseResult_writeField1 p;
     DropDatabaseResult_writeField2 p; DropDatabaseResult_writeField3 p]) <$> p).
Definition DropDatabaseResult_switch (fuel : nat) : switch wDropDatabaseResult := fun fieldId =>
  match fieldId with
  | 1 => Some (STRUCT, DropDatabaseResult_ReadField1 fuel)
  | 2 => Some (STRUCT, DropDatabaseResult_ReadField2 fuel)
  | 3 => Some (STRUCT, DropDatabaseResult_ReadField3 fuel)
  | _ => None
  end.
Definition DropDatabaseResult_Read (fuel : nat) : wDropDatabaseResult -> MF P wDropDatabaseResult :=
  read_struct T_DropDatabaseResult [] (DropDatabaseResult_switch fuel) fuel.

(** ** alter_database *)

Local Abbreviation T_AlterDatabaseArgs := "*hive_metastore.ThriftHiveMetastoreAlterDatabaseArgs".
Definition AlterDatabaseArgs_set_Dbname v '(mk_wAlterDatabaseArgs _ x2) : wAlterDatabaseArgs :=
  mk_wAlterDatabaseArgs v x2.
Definition AlterDatabaseArgs_set_Db v '(mk_wAlterDatabaseArgs x1 _) : wAlterDatabaseArgs :=
  mk_wAlterDatabaseArgs x1 v.

Definition AlterDatabaseArgs_writeField1 (p : wAlterDatabaseArgs) : M P unit :=
  (write_field T_AlterDatabaseArgs "dbname" STRING 1 (write_scalar T_AlterDatabaseArgs "dbname" 1 (WriteString (wAlterDatabaseArgs_Dbname p))))%go.
Definition AlterDatabaseArgs_ReadField1 : wAlterDatabaseArgs -> MF P wAlterDatabaseArgs :=
  assign (read_scalar 1 ReadString)%go AlterDatabaseArgs_set_Dbname.
Definition AlterDatabaseArgs_writeField2 (p : wAlterDatabaseArgs) : M P unit :=
  (opt (wAlterDatabaseArgs_Db p) (fun v =>
    write_field T_AlterDatabaseArgs "db" STRUCT 2 (write_sub "*hive_metastore.Database" (Database_Write (Some v)))))%go.
Definition AlterDatabaseArgs_ReadField2 (fuel : nat) : wAlterDatabaseArgs -> MF P wAlterDatabaseArgs :=
  assign (read_sub "*hive_metastore.Database" (Database_Read fuel NewDatabase))%go (fun v => AlterDatabaseArgs_set_Db (Some v)).
Definition AlterDatabaseArgs_Write (p : option wAlterDatabaseArgs) : M P unit :=
  write_struct T_AlterDatabaseArgs "alter_database_args" ((fun p => [AlterDatabaseArgs_writeField1 p;
     AlterDatabaseArgs_writeField2 p]) <$> p).
Definition AlterDatabaseArgs_switch (fuel : nat) : switch wAlterDatabaseArgs := fun fieldId =>
  match fieldId with
  | 1 => Some (STRING, AlterDatabaseArgs_ReadField1)
  | 2 => Some (STRUCT, AlterDatabaseArgs_ReadField2 fuel)
  | _ => None
  end.
Definition AlterDatabaseArgs_Read (fuel : nat) : wAlterDatabaseArgs -> MF P wAlterDatabaseArgs :=
  read_struct T_AlterDatabaseArgs [] (AlterDatabaseArgs_switch fuel) fuel.

Local Abbreviation T_AlterDatabaseResult := "*hive_metastore.ThriftHiveMetastoreAlterDatabaseResult".
Definition AlterDatabaseResult_set_O1 v '(mk_wAlterDatabaseResult _ x2) : wAlterDatabaseResult :=
  mk_wAlterDatabaseResult v x2.
Definition AlterDatabaseResult_set_O2 v '(mk_wAlterDatabaseResult x1 _) : wAlterDatabaseResult :=
  mk_wAlterDatabaseResult x1 v.

Definition AlterDatabaseResult_writeField1 (p : wAlterDatabaseResult) : M P unit :=
  (opt (wAlterDatabaseResult_O1 p) (fun v =>
    write_field T_AlterDatabaseResult "o1" STRUCT 1 (write_sub "*hive_metastore.MetaException" (Exception_Write MetaException (Some v)))))%go.
Definition AlterDatabaseResult_ReadField1 (fuel : nat) : wAlterDatabaseResult -> MF P wAlterDatabaseResult :=
  assign (read_sub "*hive_metastore.MetaException" (Exception_Read MetaException fuel NewException))%go (fun v => AlterDatabaseResult_set_O1 (Some v)).
Definition AlterDatabaseResult_writeField2 (p : wAlterDatabaseResult) : M P unit :=
  (opt (wAlterDatabaseResult_O2 p) (fun v =>
    write_field T_AlterDatabaseResult "o2" STRUCT 2 (write_sub "*hive_metastore.NoSuchObjectException" (Exception_Write NoSuchObjectException (Some v)))))%go.
Definition AlterDatabaseResult_ReadField2 (fuel : nat) : wAlterDatabaseResult -> MF P wAlterDatabaseResult :=
  assign (read_sub "*hive_metastore.NoSuchObjectException" (Exception_Read NoSuchObjectException fuel NewException))%go (fun v => AlterDatabaseResult_set_O2 (Some v)).
Definition AlterDatabaseResult_Write (p : option wAlterDatabaseResult) : M P unit :=
  write_struct T_AlterDatabaseResult "alter_database_result" ((fun p => [AlterDatabaseResult_writeField1 p;
     AlterDatabaseResult_writeField2 p]) <$> p).
Definition AlterDatabaseResult_switch (fuel : nat) : switch wAlterDatabaseResult := fun fieldId =>
  match fieldId with
  | 1 => Some (STRUCT, AlterDatabaseResult_ReadField1 fuel)
  | 2 => Some (STRUCT, AlterDatabaseResult_ReadField2 fuel)
  | _ => None
  end.
Definition AlterDatabaseResult_Read (fuel : nat) : wAlterDatabaseResult -> MF P wAlterDatabaseResult :=
  read_struct T_AlterDatabaseResult [] (AlterDatabaseResult_switch fuel) fuel.

(** ** get_config_value *)

Local Abbreviation T_GetConfigValueArgs := "*hive_metastore.ThriftHiveMetastoreGetConfigValueArgs".
Definition GetConfigValueArgs_set_Name v '(mk_wGetConfigValueArgs _ x2) : wGetConfigValueArgs :=
  mk_wGetConfigValueArgs v x2.
Definition GetConfigValueArgs_set_DefaultValue v '(mk_wGetConfigValueArgs x1 _) : wGetConfigValueArgs :=
  mk_wGetConfigValueArgs x1 v.

Definition GetConfigValueArgs_writeField1 (p : wGetConfigValueArgs) : M P unit :=
  (write_field T_GetConfigValueArgs "name" STRING 1 (write_scalar T_GetConfigValueArgs "name" 1 (WriteString (wGetConfigValueArgs_Name p))))%go.
Definition GetConfigValueArgs_ReadField1 : wGetConfigValueArgs -> MF P wGetConfigValueArgs :=
  assign (read_scalar 1 ReadString)%go GetConfigValueArgs_set_Name.
Definition GetConfigValueArgs_writeField2 (p : wGetConfigValueArgs) : M P unit :=
  (write_field T_GetConfigValueArgs "defaultValue" STRING 2 (write_scalar T_GetConfigValueArgs "defaultValue" 2 (WriteString (wGetConfigValueArgs_DefaultValue p))))%go.
Definition GetConfigValueArgs_ReadField2 : wGetConfigValueArgs -> MF P wGetConfigValueArgs :=
  assign (read_scalar 2 ReadString)%go GetConfigValueArgs_set_DefaultValue.
Definition GetConfigValueArgs_Write (p : option wGetConfigValueArgs) : M P unit :=
  write_struct T_GetConfigValueArgs "get_config_value_args" ((fun p => [GetConfigValueArgs_writeField1 p;
     GetConfigValueArgs_writeField2 p]) <$> p).
Definition GetConfigValueArgs_switch : switch wGetConfigValueArgs := fun fieldId =>
  match fieldId with
  | 1 => Some (STRING, GetConfigValueArgs_ReadField1)
  | 2 => Some (STRING, GetConfigValueArgs_ReadField2)
  | _ => None
  end.
Definition GetConfigValueArgs_Read (fuel : nat) : wGetConfigValueArgs -> MF P wGetConfigValueArgs :=
  read_struct T_GetConfigValueArgs [] GetConfigValueArgs_switch fuel.

Local Abbreviation T_GetConfigValueResult := "*hive_metastore.ThriftHiveMetastoreGetConfigValueResult".
Definition GetConfigValueResult_set_Success v '(mk_wGetConfigValueResult _ x2) : wGetConfigValueResult :=
  mk_wGetConfigValueResult v x2.
Definition GetConfigValueResult_set_O1 v '(mk_wGetConfigValueResult x1 _) : wGetConfigValueResult :=
  mk_wGetConfigValueResult x1 v.

Definition GetConfigValueResult_writeField0 (p : wGetConfigValueResult) : M P unit :=
  (opt (wGetConfigValueResult_Success p) (fun v =>
    write_field T_GetConfigValueResult "success" STRING 0 (write_scalar T_GetConfigValueResult "success" 0 (WriteString v))))%go.
Definition GetConfigValueResult_ReadField0 : wGetConfigValueResult -> MF P wGetConfigValueResult :=
  assign (read_scalar 0 ReadString)%go (fun v => GetConfigValueResult_set_Success (Some v)).
Definition GetConfigValueResult_writeField1 (p : wGetConfigValueResult) : M P unit :=
  (opt (wGetConfigValueResult_O1 p) (fun v =>
    write_field T_GetConfigValueResult "o1" STRUCT 1 (write_sub "*hive_metastore.ConfigValSecurityException" (Exception_Write ConfigValSecurityException (Some v)))))%go.
Definition GetConfigValueResult_ReadField1 (fuel : nat) : wGetConfigValueResult -> MF P wGetConfigValueResult :=
  assign (read_sub "*hive_metastore.ConfigValSecurityException" (Exception_Read ConfigValSecurityException fuel NewException))%go (fun v => GetConfigValueResult_set_O1 (Some v)).
Definition GetConfigValueResult_Write (p : option wGetConfigValueResult) : M P unit :=
  write_struct T_GetConfigValueResult "get_config_value_result" ((fun p => [GetConfigValueResult_writeField0 p;
     GetConfigValueResult_writeField1 p]) <$> p).
Definition GetConfigValueResult_switch (fuel : nat) : switch wGetConfigValueResult := fun fieldId =>
  match fieldId with
  | 0 => Some (STRING, GetConfigValueResult_ReadField0)
  | 1 => Some (STRUCT, GetConfigValueResult_ReadField1 fuel)
  | _ => None
  end.
Definition GetConfigValueResult_Read (fuel : nat) : wGetConfigValueResult -> MF P wGetConfigValueResult :=
  read_struct T_GetConfigValueResult [] (GetConfigValueResult_switch fuel) fuel.

(** ** set_ugi *)

Local Abbreviation T_SetUgiArgs := "*hive_metastore.ThriftHiveMetastoreSetUgiArgs".
Definition SetUgiArgs_set_UserName v '(mk_wSetUgiArgs _ x2) : wSetUgiArgs :=
  mk_wSetUgiArgs v x2.
Definition SetUgiArgs_set_GroupNames v '(mk_wSetUgiArgs x1 _) : wSetUgiArgs :=
  mk_wSetUgiArgs x1 v.

Definition SetUgiArgs_writeField1 (p : wSetUgiArgs) : M P unit :=
  (write_field T_SetUgiArgs "user_name" STRING 1 (write_scalar T_SetUgiArgs "user_name" 1 (WriteString (wSetUgiArgs_UserName p))))%go.
Definition SetUgiArgs_ReadField1 : wSetUgiArgs -> MF P wSetUgiArgs :=
  assign (read_scalar 1 ReadString)%go SetUgiArgs_set_UserName.
Definition SetUgiArgs_writeField2 (p : wSetUgiArgs) : M P unit :=
  (write_field T_SetUgiArgs "group_names" LIST 2 (write_strings T_SetUgiArgs (wSetUgiArgs_GroupNames p)))%go.
Definition SetUgiArgs_ReadField2 : wSetUgiArgs -> MF P wSetUgiArgs :=
  assign (read_strings)%go SetUgiArgs_set_GroupNames.
Definition SetUgiArgs_Write (p : option wSetUgiArgs) : M P unit :=
  write_struct T_SetUgiArgs "set_ugi_args" ((fun p => [SetUgiArgs_writeField1 p; SetUgiArgs_writeField2 p]) <$> p).
Definition SetUgiArgs_switch : switch wSetUgiArgs := fun fieldId =>
  match fieldId with
  | 1 => Some (STRING, SetUgiArgs_ReadField1)
  | 2 => Some (LIST, SetUgiArgs_ReadField2)
  | _ => None
  end.
Definition SetUgiArgs_Read (fuel : nat) : wSetUgiArgs -> MF P wSetUgiArgs :=
  read_struct T_SetUgiArgs [] SetUgiArgs_switch fuel.

Local Abbreviation T_SetUgiResult := "*hive_metastore.ThriftHiveMetastoreSetUgiResult".
Definition SetUgiResult_set_Success v '(mk_wSetUgiResult _ x2) : wSetUgiResult :=
  mk_wSetUgiResult v x2.
Definition SetUgiResult_set_O1 v '(mk_wSetUgiResult x1 _) : wSetUgiResult :=
  mk_wSetUgiResult x1 v.

Definition SetUgiResult_writeField0 (p : wSetUgiResult) : M P unit :=
  (when (bool_decide (is_Some (wSetUgiResult_Success p)))
    (write_field T_SetUgiResult "success" LIST 0 (write_strings T_SetUgiResult (wSetUgiResult_Success p))))%go.
Definition SetUgiResult_ReadField0 : wSetUgiResult -> MF P wSetUgiResult :=
  assign (read_strings)%go SetUgiResult_set_Success.
Definition SetUgiResult_writeField1 (p : wSetUgiResult) : M P unit :=
  (opt (wSetUgiResult_O1 p) (fun v =>
    write_field T_SetUgiResult "o1" STRUCT 1 (write_sub "*hive_metastore.MetaException" (Exception_Write MetaException (Some v)))))%go.
Definition SetUgiResult_ReadField1 (fuel : nat) : wSetUgiResult -> MF P wSetUgiResult :=
  assign (read_sub "*hive_metastore.MetaException" (Exception_Read MetaException fuel NewException))%go (fun v => SetUgiResult_set_O1 (Some v)).
Definition SetUgiResult_Write (p : option wSetUgiResult) : M P unit :=
  write_struct T_SetUgiResult "set_ugi_result" ((fun p => [SetUgiResult_writeField0 p;
     SetUgiResult_writeField1 p]) <$> p).
Definition SetUgiResult_switch (fuel : nat) : switch wSetUgiResult := fun fieldId =>
  match fieldId with
  | 0 => Some (LIST, SetUgiResult_ReadField0)
  | 1 => Some (STRUCT, SetUgiResult_ReadField1 fuel)
  | _ => None
  end.
Definition SetUgiResult_Read (fuel : nat) : wSetUgiResult -> MF P wSetUgiResult :=
  read_struct T_SetUgiResult [] (SetUgiResult_switch fuel) fuel.

(** ** getStatus *)

Local Abbreviation T_GetStatusArgs := "*fb303.FacebookServiceGetStatusArgs".
Definition GetStatusArgs_Write (p : option wGetStatusArgs) : M P unit :=
  write_struct T_GetStatusArgs "getStatus_args" ((fun _ => []) <$> p).
Definition GetStatusArgs_switch : switch (P := P) wGetStatusArgs := fun _ => None.
Definition GetStatusArgs_Read (fuel : nat) : wGetStatusArgs -> MF P wGetStatusArgs :=
  read_struct T_GetStatusArgs [] GetStatusArgs_switch fuel.

Local Abbreviation T_GetStatusResult := "*fb303.FacebookServiceGetStatusResult".
Definition GetStatusResult_set_Success v (_ : wGetStatusResult) : wGetStatusResult := mk_wGetStatusResult v.

Definition GetStatusResult_writeField0 (p : wGetStatusResult) : M P unit :=
  (opt (wGetStatusResult_Success p) (fun v =>
    write_field T_GetStatusResult "success" I32 0 (write_scalar T_GetStatusResult "success" 0 (WriteI32 (int32 v)))))%go.
Definition GetStatusResult_ReadField0 : wGetStatusResult -> MF P wGetStatusResult :=
  assign (read_scalar 0 ReadI32)%go (fun v => GetStatusResult_set_Success (Some v)).
Definition GetStatusResult_Write (p : option wGetStatusResult) : M P unit :=
  write_struct T_GetStatusResult "getStatus_result" ((fun p => [GetStatusResult_writeField0 p]) <$> p).
Definition GetStatusResult_switch : switch wGetStatusResult := fun fieldId =>
  match fieldId with
  | 0 => Some (I32, GetStatusResult_ReadField0)
  | _ => None
  end.
Definition GetStatusResult_Read (fuel : nat) : wGetStatusResult -> MF P wGetStatusResult :=
  read_struct T_GetStatusResult [] GetStatusResult_switch fuel.

(** ** getVersion *)

Local Abbreviation T_GetVersionArgs := "*fb303.FacebookServiceGetVersionArgs".
Definition GetVersionArgs_Write (p : option wGetVersionArgs) : M P unit :=
  write_struct T_GetVersionArgs "getVersion_args" ((fun _ => []) <$> p).
Definition GetVersionArgs_switch : switch (P := P) wGetVersionArgs := fun _ => None.
Definition GetVersionArgs_Read (fuel : nat) : wGetVersionArgs -> MF P wGetVersionArgs :=
  read_struct T_GetVersionArgs [] GetVersionArgs_switch fuel.

Local Abbreviation T_GetVersionResult := "*fb303.FacebookServiceGetVersionResult".
Definition GetVersionResult_set_Success v (_ : wGetVersionResult) : wGetVersionResult := mk_wGetVersionResult v.

Definition GetVersionResult_writeField0 (p : wGetVersionResult) : M P unit :=
  (opt (wGetVersionResult_Success p) (fun v =>
    write_field T_GetVersionResult "success" STRING 0 (write_scalar T_GetVersionResult "success" 0 (WriteString v))))%go.
Definition GetVersionResult_ReadField0 : wGetVersionResult -> MF P wGetVersionResult :=
  assign (read_scalar 0 ReadString)%go (fun v => GetVersionResult_set_Success (Some v)).
Definition GetVersionResult_Write (p : option wGetVersionResult) : M P unit :=
  write_struct T_GetVersionResult "getVersion_result" ((fun p => [GetVersionResult_writeField0 p]) <$> p).
Definition GetVersionResult_switch : switch wGetVersionResult := fun fieldId =>
  match fieldId with
  | 0 => Some (STRING, GetVersionResult_ReadField0)
  | _ => None
  end.
Definition GetVersionResult_Read (fuel : nat) : wGetVersionResult -> MF P wGetVersionResult :=
  read_struct T_GetVersionResult [] GetVersionResult_switch fuel.
End codec.

(** ** Stubs *)

Module Stub.
Section stub.
Context {P C : Type} {TP : TProtocol P} {MR : MapRange} {SB : Substructs P} {TC : TClient P C}.

Definition GetCatalogs (fuel : nat) : MF C wGetCatalogsResponse :=
  stub (Call "get_catalogs"
          (GetCatalogsArgs_Write (Some (mk_wGetCatalogsArgs)))
          (GetCatalogsResult_Read fuel zero_GetCatalogsResult))
    (fun _result =>
       exceptions [exn MetaException <$> wGetCatalogsResult_O1 _result]
         (success "get_catalogs" (wGetCatalogsResult_Success _result))).
Definition GetCatalog (fuel : nat) (catName : option wGetCatalogRequest) : MF C wGetCatalogResponse :=
  stub (Call "get_catalog"
          (GetCatalogArgs_Write (Some (mk_wGetCatalogArgs catName)))
          (GetCatalogResult_Read fuel zero_GetCatalogResult))
    (fun _result =>
       exceptions [exn NoSuchObjectException <$> wGetCatalogResult_O1 _result;
                   exn MetaException <$> wGetCatalogResult_O2 _result]
         (success "get_catalog" (wGetCatalogResult_Success _result))).
Definition CreateCatalog (fuel : nat) (catalog : option wCreateCatalogRequest) : MF C unit :=
  stub (Call "create_catalog"
          (CreateCatalogArgs_Write (Some (mk_wCreateCatalogArgs catalog)))
          (CreateCatalogResult_Read fuel zero_CreateCatalogResult))
    (fun _result =>
       exceptions [exn AlreadyExistsException <$> wCreateCatalogResult_O1 _result;
                   exn InvalidObjectException <$> wCreateCatalogResult_O2 _result;
                   exn MetaException <$> wCreateCatalogResult_O3 _result]
         (inr tt)).
Definition DropCatalog (fuel : nat) (catName : option wDropCatalogRequest) : MF C unit :=
  stub (Call "drop_catalog"
          (DropCatalogArgs_Write (Some (mk_wDropCatalogArgs catName)))
          (DropCatalogResult_Read fuel zero_DropCatalogResult))
    (fun _result =>
       exceptions [exn NoSuchObjectException <$> wDropCatalogResult_O1 _result;
                   exn InvalidOperationException <$> wDropCatalogResult_O2 _result;
                   exn MetaException <$> wDropCatalogResult_O3 _result]
         (inr tt)).
Definition GetAllDatabases (fuel : nat) : MF C (slice string) :=
  stub (Call "get_all_databases"
          (GetAllDatabasesArgs_Write (Some (mk_wGetAllDatabasesArgs)))
          (GetAllDatabasesResult_Read fuel zero_GetAllDatabasesResult))
    (fun _result =>
       exceptions [exn MetaException <$> wGetAllDatabasesResult_O1 _result]
         (inr (wGetAllDatabasesResult_Success _result))).
Definition GetDatabases (fuel : nat) (pattern : string) : MF C (slice string) :=
  stub (Call "get_databases"
          (GetDatabasesArgs_Write (Some (mk_wGetDatabasesArgs pattern)))
          (GetDatabasesResult_Read fuel zero_GetDatabasesResult))
    (fun _result =>
       exceptions [exn MetaException <$> wGetDatabasesResult_O1 _result]
         (inr (wGetDatabasesResult_Success _result))).
Definition GetDatabase (fuel : nat) (name : string) : MF C wDatabase :=
  stub (Call "get_database"
          (GetDatabaseArgs_Write (Some (mk_wGetDatabaseArgs name)))
          (GetDatabaseResult_Read fuel zero_GetDatabaseResult))
    (fun _result =>
       exceptions [exn NoSuchObjectException <$> wGetDatabaseResult_O1 _result;
                   exn MetaException <$> wGetDatabaseResult_O2 _result]
         (success "get_database" (wGetDatabaseResult_Success _result))).
Definition CreateDatabase (fuel : nat) (database : option wDatabase) : MF C unit :=
  stub (Call "create_database"
          (CreateDatabaseArgs_Write (Some (mk_wCreateDatabaseArgs database)))
          (CreateDatabaseResult_Read fuel zero_CreateDatabaseResult))
    (fun _result =>
       exceptions [exn AlreadyExistsException <$> wCreateDatabaseResult_O1 _result;
                   exn InvalidObjectException <$> wCreateDatabaseResult_O2 _result;
                   exn MetaException <$> wCreateDatabaseResult_O3 _result]
         (inr tt)).
Definition DropDatabase (fuel : nat) (name : string) (deleteData : bool) (cascade : bool) : MF C unit :=
  stub (Call "drop_database"
          (DropDatabaseArgs_Write (Some (mk_wDropDatabaseArgs name deleteData cascade)))
          (DropDatabaseResult_Read fuel zero_DropDatabaseResult))
    (fun _result =>
       exceptions [exn NoSuchObjectException <$> wDropDatabaseResult_O1 _result;
                   exn InvalidOperationException <$> wDropDatabaseResult_O2 _result;
                   exn MetaException <$> wDropDatabaseResult_O3 _result]
         (inr tt)).
Definition AlterDatabase (fuel : nat) (dbname : string) (db : option wDatabase) : MF C unit :=
  stub (Call "alter_database"
          (AlterDatabaseArgs_Write (Some (mk_wAlterDatabaseArgs dbname db)))
          (AlterDatabaseResult_Read fuel zero_AlterDatabaseResult))
    (fun _result =>
       exceptions [exn MetaException <$> wAlterDatabaseResult_O1 _result;
                   exn NoSuchObjectException <$> wAlterDatabaseResult_O2 _result]
         (inr tt)).
Definition GetConfigValue (fuel : nat) (name : string) (defaultValue : string) : MF C string :=
  stub (Call "get_config_value"
          (GetConfigValueArgs_Write (Some (mk_wGetConfigValueArgs name defaultValue)))
          (GetConfigValueResult_Read fuel zero_GetConfigValueResult))
    (fun _result =>
       exceptions [exn ConfigValSecurityException <$> wGetConfigValueResult_O1 _result]
         (inr (default EmptyString (wGetConfigValueResult_Success _result)))).
Definition SetUgi (fuel : nat) (user_name : string) (group_names : slice string) : MF C (slice string) :=
  stub (Call "set_ugi"
          (SetUgiArgs_Write (Some (mk_wSetUgiArgs user_name group_names)))
          (SetUgiResult_Read fuel zero_SetUgiResult))
    (fun _result =>
       exceptions [exn MetaException <$> wSetUgiResult_O1 _result]
         (inr (wSetUgiResult_Success _result))).
Definition GetStatus (fuel : nat) : MF C Z :=
  stub (Call "getStatus"
          (GetStatusArgs_Write (Some (mk_wGetStatusArgs)))
          (GetStatusResult_Read fuel zero_GetStatusResult))
    (fun _result =>
       inr (default 0 (wGetStatusResult_Success _result))).
Definition GetVersion (fuel : nat) : MF C string :=
  stub (Call "getVersion"
          (GetVersionArgs_Write (Some (mk_wGetVersionArgs)))
          (GetVersionResult_Read fuel zero_GetVersionResult))
    (fun _result =>
       inr (default EmptyString (wGetVersionResult_Success _result))).
End stub.
End Stub.

(** ** The processor *)

Module Processor.
Section processor.
Context {P W : Type} {TP : TProtocol P} {MR : MapRange} {SB : Substructs P} {PL : TProcessorLib P}.
Context (cause : option goerr) (handler : Handler.ThriftHiveMetastore W).

Definition GetCatalogs_declared : list (thrift_exn * (wException -> wGetCatalogsResult)) :=
  [(MetaException, fun v => GetCatalogsResult_set_O1 (Some v) zero_GetCatalogsResult)].
Definition GetCatalogs_answer : option wGetCatalogsResponse -> wGetCatalogsResult :=
  fun retval => GetCatalogsResult_set_Success retval zero_GetCatalogsResult.
Definition GetCatalogs (fuel : nat) : processor_function P W :=
  process cause "get_catalogs" (GetCatalogsArgs_Read fuel zero_GetCatalogsArgs)
    (fun args => Handler.GetCatalogs handler)
    (type_switch GetCatalogs_declared) GetCatalogs_answer GetCatalogsResult_Write.
Definition GetCatalog_declared : list (thrift_exn * (wException -> wGetCatalogResult)) :=
  [(NoSuchObjectException, fun v => GetCatalogResult_set_O1 (Some v) zero_GetCatalogResult);
   (MetaException, fun v => GetCatalogResult_set_O2 (Some v) zero_GetCatalogResult)].
Definition GetCatalog_answer : option wGetCatalogResponse -> wGetCatalogResult :=
  fun retval => GetCatalogResult_set_Success retval zero_GetCatalogResult.
Definition GetCatalog (fuel : nat) : processor_function P W :=
  process cause "get_catalog" (GetCatalogArgs_Read fuel zero_GetCatalogArgs)
    (fun args => Handler.GetCatalog handler (wGetCatalogArgs_CatName args))
    (type_switch GetCatalog_declared) GetCatalog_answer GetCatalogResult_Write.
Definition CreateCatalog_declared : list (thrift_exn * (wException -> wCreateCatalogResult)) :=
  [(AlreadyExistsException, fun v => CreateCatalogResult_set_O1 (Some v) zero_CreateCatalogResult);
   (InvalidObjectException, fun v => CreateCatalogResult_set_O2 (Some v) zero_CreateCatalogResult);
   (MetaException, fun v => CreateCatalogResult_set_O3 (Some v) zero_CreateCatalogResult)].
Definition CreateCatalog_answer : unit -> wCreateCatalogResult :=
  fun _ => zero_CreateCatalogResult.
Definition CreateCatalog (fuel : nat) : processor_function P W :=
  process cause "create_catalog" (CreateCatalogArgs_Read fuel zero_CreateCatalogArgs)
    (fun args => Handler.CreateCatalog handler (wCreateCatalogArgs_Catalog args))
    (type_switch CreateCatalog_declared) CreateCatalog_answer CreateCatalogResult_Write.
Definition DropCatalog_declared : list (thrift_exn * (wException -> wDropCatalogResult)) :=
  [(NoSuchObjectException, fun v => DropCatalogResult_set_O1 (Some v) zero_DropCatalogResult);
   (InvalidOperationException, fun v => DropCatalogResult_set_O2 (Some v) zero_DropCatalogResult);
   (MetaException, fun v => DropCatalogResult_set_O3 (Some v) zero_DropCatalogResult)].
Definition DropCatalog_answer : unit -> wDropCatalogResult :=
  fun _ => zero_DropCatalogResult.
Definition DropCatalog (fuel : nat) : processor_function P W :=
  process cause "drop_catalog" (DropCatalogArgs_Read fuel zero_DropCatalogArgs)
    (fun args => Handler.DropCatalog handler (wDropCatalogArgs_CatName args))
    (type_switch DropCatalog_declared) DropCatalog_answer DropCatalogResult_Write.
Definition GetAllDatabases_declared : list (thrift_exn * (wException -> wGetAllDatabasesResult)) :=
  [(MetaException, fun v => GetAllDatabasesResult_set_O1 (Some v) zero_GetAllDatabasesResult)].
Definition GetAllDatabases_answer : slice string -> wGetAllDatabasesResult :=
  fun retval => GetAllDatabasesResult_set_Success retval zero_GetAllDatabasesResult.
Definition GetAllDatabases (fuel : nat) : processor_function P W :=
  process cause "get_all_databases" (GetAllDatabasesArgs_Read fuel zero_GetAllDatabasesArgs)
    (fun args => Handler.GetAllDatabases handler)
    (type_switch GetAllDatabases_declared) GetAllDatabases_answer GetAllDatabasesResult_Write.
Definition GetDatabases_declared : list (thrift_exn * (wException -> wGetDatabasesResult)) :=
  [(MetaException, fun v => GetDatabasesResult_set_O1 (Some v) zero_GetDatabasesResult)].
Definition GetDatabases_answer : slice string -> wGetDatabasesResult :=
  fun retval => GetDatabasesResult_set_Success retval zero_GetDatabasesResult.
Definition GetDatabases (fuel : nat) : processor_function P W :=
  process cause "get_databases" (GetDatabasesArgs_Read fuel zero_GetDatabasesArgs)
    (fun args => Handler.GetDatabases handler (wGetDatabasesArgs_Pattern args))
    (type_switch GetDatabases_declared) GetDatabases_answer GetDatabasesResult_Write.
Definition GetDatabase_declared : list (thrift_exn * (wException -> wGetDatabaseResult)) :=
  [(NoSuchObjectException, fun v => GetDatabaseResult_set_O1 (Some v) zero_GetDatabaseResult);
   (MetaException, fun v => GetDatabaseResult_set_O2 (Some v) zero_GetDatabaseResult)].
Definition GetDatabase_answer : option wDatabase -> wGetDatabaseResult :=
  fun retval => GetDatabaseResult_set_Success retval zero_GetDatabaseResult.
Definition GetDatabase (fuel : nat) : processor_function P W :=
  process cause "get_database" (GetDatabaseArgs_Read fuel zero_GetDatabaseArgs)
    (fun args => Handler.GetDatabase handler (wGetDatabaseArgs_Name args))
    (type_switch GetDatabase_declared) GetDatabase_answer GetDatabaseResult_Write.
Definition CreateDatabase_declared : list (thrift_exn * (wException -> wCreateDatabaseResult)) :=
  [(AlreadyExistsException, fun v => CreateDatabaseResult_set_O1 (Some v) zero_CreateDatabaseResult);
   (InvalidObjectException, fun v => CreateDatabaseResult_set_O2 (Some v) zero_CreateDatabaseResult);
   (MetaException, fun v => CreateDatabaseResult_set_O3 (Some v) zero_CreateDatabaseResult)].
Definition CreateDatabase_answer : unit -> wCreateDatabaseResult :=
  fun _ => zero_CreateDatabaseResult.
Definition CreateDatabase (fuel : nat) : processor_function P W :=
  process cause "create_database" (CreateDatabaseArgs_Read fuel zero_CreateDatabaseArgs)
    (fun args => Handler.CreateDatabase handler (wCreateDatabaseArgs_Database args))
    (type_switch CreateDatabase_declared) CreateDatabase_answer CreateDatabaseResult_Write.
Definition DropDatabase_declared : list (thrift_exn * (wException -> wDropDatabaseResult)) :=
  [(NoSuchObjectException, fun v => DropDatabaseResult_set_O1 (Some v) zero_DropDatabaseResult);
   (InvalidOperationException, fun v => DropDatabaseResult_set_O2 (Some v) zero_DropDatabaseResult);
   (MetaException, fun v => DropDatabaseResult_set_O3 (Some v) zero_DropDatabaseResult)].
Definition DropDatabase_answer : unit -> wDropDatabaseResult :=
  fun _ => zero_DropDatabaseResult.
Definition DropDatabase (fuel : nat) : processor_function P W :=
  process cause "drop_database" (DropDatabaseArgs_Read fuel zero_DropDatabaseArgs)
    (fun args => Handler.DropDatabase handler (wDropDatabaseArgs_Name args) (wDropDatabaseArgs_DeleteData args) (wDropDatabaseArgs_Cascade args))
    (type_switch DropDatabase_declared) DropDatabase_answer DropDatabaseResult_Write.
Definition AlterDatabase_declared : list (thrift_exn * (wException -> wAlterDatabaseResult)) :=
  [(MetaException, fun v => AlterDatabaseResult_set_O1 (Some v) zero_AlterDatabaseResult);
   (NoSuchObjectException, fun v => AlterDatabaseResult_set_O2 (Some v) zero_AlterDatabaseResult)].
Definition AlterDatabase_answer : unit -> wAlterDatabaseResult :=
  fun _ => zero_AlterDatabaseResult.
Definition AlterDatabase (fuel : nat) : processor_function P W :=
  process cause "alter_database" (AlterDatabaseArgs_Read fuel zero_AlterDatabaseArgs)
    (fun args => Handler.AlterDatabase handler (wAlterDatabaseArgs_Dbname args) (wAlterDatabaseArgs_Db args))
    (type_switch AlterDatabase_declared) AlterDatabase_answer AlterDatabaseResult_Write.
Definition GetConfigValue_declared : list (thrift_exn * (wException -> wGetConfigValueResult)) :=
  [(ConfigValSecurityException, fun v => GetConfigValueResult_set_O1 (Some v) zero_GetConfigValueResult)].
Definition GetConfigValue_answer : string -> wGetConfigValueResult :=
  fun retval => GetConfigValueResult_set_Success (Some retval) zero_GetConfigValueResult.
Definition GetConfigValue (fuel : nat) : processor_function P W :=
  process cause "get_config_value" (GetConfigValueArgs_Read fuel zero_GetConfigValueArgs)
    (fun args => Handler.GetConfigValue handler (wGetConfigValueArgs_Name args) (wGetConfigValueArgs_DefaultValue args))
    (type_switch GetConfigValue_declared) GetConfigValue_answer GetConfigValueResult_Write.
Definition SetUgi_declared : list (thrift_exn * (wException -> wSetUgiResult)) :=
  [(MetaException, fun v => SetUgiResult_set_O1 (Some v) zero_SetUgiResult)].
Definition SetUgi_answer : slice string -> wSetUgiResult :=
  fun retval => SetUgiResult_set_Success retval zero_SetUgiResult.
Definition SetUgi (fuel : nat) : processor_function P W :=
  process cause "set_ugi" (SetUgiArgs_Read fuel zero_SetUgiArgs)
    (fun args => Handler.SetUgi handler (wSetUgiArgs_UserName args) (wSetUgiArgs_GroupNames args))
    (type_switch SetUgi_declared) SetUgi_answer SetUgiResult_Write.
Definition GetStatus_declared : list (thrift_exn * (wException -> wGetStatusResult)) :=
  [].
Definition GetStatus_answer : Z -> wGetStatusResult :=
  fun retval => GetStatusResult_set_Success (Some retval) zero_GetStatusResult.
Definition GetStatus (fuel : nat) : processor_function P W :=
  process cause "getStatus" (GetStatusArgs_Read fuel zero_GetStatusArgs)
    (fun args => Handler.GetStatus handler)
    (type_switch GetStatus_declared) GetStatus_answer GetStatusResult_Write.
Definition GetVersion_declared : list (thrift_exn * (wException -> wGetVersionResult)) :=
  [].
Definition GetVersion_answer : string -> wGetVersionResult :=
  fun retval => GetVersionResult_set_Success (Some retval) zero_GetVersionResult.
Definition GetVersion (fuel : nat) : processor_function P W :=
  process cause "getVersion" (GetVersionArgs_Read fuel zero_GetVersionArgs)
    (fun args => Handler.GetVersion handler)
    (type_switch GetVersion_declared) GetVersion_answer GetVersionResult_Write.
End processor.
End Processor.
