(* ===== verification/RpcTable.v ===== *)
(** * RpcTable: the RPCs on tables and statistics

    Of each, as gen/ has it: the argument and result structs with their Write and
    Read (the prefix ThriftHiveMetastore or FacebookService of their names left out),
    the client's stub, and the processor's method. *)

From S2P Require Import Prelude Errors GoMonad Types Transport Wire Thrift CodecTable CodecStats CodecReq Rpc RpcHandler.

(** ** get_all_tables *)

Record wGetAllTablesArgs := mk_wGetAllTablesArgs {
  wGetAllTablesArgs_DbName : string;
}.
Definition zero_GetAllTablesArgs : wGetAllTablesArgs := mk_wGetAllTablesArgs EmptyString.
Record wGetAllTablesResult := mk_wGetAllTablesResult {
  wGetAllTablesResult_Success : slice string;
  wGetAllTablesResult_O1 : option wException;
}.
Definition zero_GetAllTablesResult : wGetAllTablesResult := mk_wGetAllTablesResult None None.

(** ** get_table_req *)

Record wGetTableReqArgs := mk_wGetTableReqArgs {
  wGetTableReqArgs_Req : option wGetTableRequest;
}.
Definition zero_GetTableReqArgs : wGetTableReqArgs := mk_wGetTableReqArgs None.
Record wGetTableReqResult := mk_wGetTableReqResult {
  wGetTableReqResult_Success : option wGetTableResult_;
  wGetTableReqResult_O1 : option wException;
  wGetTableReqResult_O2 : option wException;
}.
Definition zero_GetTableReqResult : wGetTableReqResult := mk_wGetTableReqResult None None None.

(** ** get_table_objects_by_name_req *)

Record wGetTableObjectsByNameReqArgs := mk_wGetTableObjectsByNameReqArgs {
  wGetTableObjectsByNameReqArgs_Req : option wGetTablesRequest;
}.
Definition zero_GetTableObjectsByNameReqArgs : wGetTableObjectsByNameReqArgs := mk_wGetTableObjectsByNameReqArgs None.
Record wGetTableObjectsByNameReqResult := mk_wGetTableObjectsByNameReqResult {
  wGetTableObjectsByNameReqResult_Success : option wGetTablesResult_;
  wGetTableObjectsByNameReqResult_O1 : option wException;
  wGetTableObjectsByNameReqResult_O2 : option wException;
  wGetTableObjectsByNameReqResult_O3 : option wException;
}.
Definition zero_GetTableObjectsByNameReqResult : wGetTableObjectsByNameReqResult := mk_wGetTableObjectsByNameReqResult None None None None.

(** ** create_table *)

Record wCreateTableArgs := mk_wCreateTableArgs {
  wCreateTableArgs_Tbl : option wTable;
}.
Definition zero_CreateTableArgs : wCreateTableArgs := mk_wCreateTableArgs None.
Record wCreateTableResult := mk_wCreateTableResult {
  wCreateTableResult_O1 : option wException;
  wCreateTableResult_O2 : option wException;
  wCreateTableResult_O3 : option wException;
  wCreateTableResult_O4 : option wException;
}.
Definition zero_CreateTableResult : wCreateTableResult := mk_wCreateTableResult None None None None.

(** ** alter_table *)

Record wAlterTableArgs := mk_wAlterTableArgs {
  wAlterTableArgs_Dbname : string;
  wAlterTableArgs_TblName : string;
  wAlterTableArgs_NewTbl_ : option wTable;
}.
Definition zero_AlterTableArgs : wAlterTableArgs := mk_wAlterTableArgs EmptyString EmptyString None.
Record wAlterTableResult := mk_wAlterTableResult {
  wAlterTableResult_O1 : option wException;
  wAlterTableResult_O2 : option wException;
}.
Definition zero_AlterTableResult : wAlterTableResult := mk_wAlterTableResult None None.

(** ** drop_table *)

Record wDropTableArgs := mk_wDropTableArgs {
  wDropTableArgs_Dbname : string;
  wDropTableArgs_Name : string;
  wDropTableArgs_DeleteData : bool;
}.
Definition zero_DropTableArgs : wDropTableArgs := mk_wDropTableArgs EmptyString EmptyString false.
Record wDropTableResult := mk_wDropTableResult {
  wDropTableResult_O1 : option wException;
  wDropTableResult_O3 : option wException;
}.
Definition zero_DropTableResult : wDropTableResult := mk_wDropTableResult None None.

(** ** get_table_statistics_req *)

Record wGetTableStatisticsReqArgs := mk_wGetTableStatisticsReqArgs {
  wGetTableStatisticsReqArgs_Request : option wTableStatsRequest;
}.
Definition zero_GetTableStatisticsReqArgs : wGetTableStatisticsReqArgs := mk_wGetTableStatisticsReqArgs None.
Record wGetTableStatisticsReqResult := mk_wGetTableStatisticsReqResult {
  wGetTableStatisticsReqResult_Success : option wTableStatsResult_;
  wGetTableStatisticsReqResult_O1 : option wException;
  wGetTableStatisticsReqResult_O2 : option wException;
}.
Definition zero_GetTableStatisticsReqResult : wGetTableStatisticsReqResult := mk_wGetTableStatisticsReqResult None None None.

Section codec.
Context {P : Type} {TP : TProtocol P} {MR : MapRange} {SB : Substructs P}.

(** ** get_all_tables *)

Local Abbreviation T_GetAllTablesArgs := "*hive_metastore.ThriftHiveMetastoreGetAllTablesArgs".
Definition GetAllTablesArgs_set_DbName v (_ : wGetAllTablesArgs) : wGetAllTablesArgs := mk_wGetAllTablesArgs v.

Definition GetAllTablesArgs_writeField1 (p : wGetAllTablesArgs) : M P unit :=
  (write_field T_GetAllTablesArgs "db_name" STRING 1 (write_scalar T_GetAllTablesArgs "db_name" 1 (WriteString (wGetAllTablesArgs_DbName p))))%go.
Definition GetAllTablesArgs_ReadField1 : wGetAllTablesArgs -> MF P wGetAllTablesArgs :=
  assign (read_scalar 1 ReadString)%go GetAllTablesArgs_set_DbName.
Definition GetAllTablesArgs_Write (p : option wGetAllTablesArgs) : M P unit :=
  write_struct T_GetAllTablesArgs "get_all_tables_args" ((fun p => [GetAllTablesArgs_writeField1 p]) <$> p).
Definition GetAllTablesArgs_switch : switch wGetAllTablesArgs := fun fieldId =>
  match fieldId with
  | 1 => Some (STRING, GetAllTablesArgs_ReadField1)
  | _ => None
  end.
Definition GetAllTablesArgs_Read (fuel : nat) : wGetAllTablesArgs -> MF P wGetAllTablesArgs :=
  read_struct T_GetAllTablesArgs [] GetAllTablesArgs_switch fuel.

Local Abbreviation T_GetAllTablesResult := "*hive_metastore.ThriftHiveMetastoreGetAllTablesResult".
Definition GetAllTablesResult_set_Success v '(mk_wGetAllTablesResult _ x2) : wGetAllTablesResult :=
  mk_wGetAllTablesResult v x2.
Definition GetAllTablesResult_set_O1 v '(mk_wGetAllTablesResult x1 _) : wGetAllTablesResult :=
  mk_wGetAllTablesResult x1 v.

Definition GetAllTablesResult_writeField0 (p : wGetAllTablesResult) : M P unit :=
  (when (bool_decide (is_Some (wGetAllTablesResult_Success p)))
    (write_field T_GetAllTablesResult "success" LIST 0 (write_strings T_GetAllTablesResult (wGetAllTablesResult_Success p))))%go.
Definition GetAllTablesResult_ReadField0 : wGetAllTablesResult -> MF P wGetAllTablesResult :=
  assign (read_strings)%go GetAllTablesResult_set_Success.
Definition GetAllTablesResult_writeField1 (p : wGetAllTablesResult) : M P unit :=
  (opt (wGetAllTablesResult_O1 p) (fun v =>
    write_field T_GetAllTablesResult "o1" STRUCT 1 (write_sub "*hive_metastore.MetaException" (Exception_Write MetaException (Some v)))))%go.
Definition GetAllTablesResult_ReadField1 (fuel : nat) : wGetAllTablesResult -> MF P wGetAllTablesResult :=
  assign (read_sub "*hive_metastore.MetaException" (Exception_Read MetaException fuel NewException))%go (fun v => GetAllTablesResult_set_O1 (Some v)).
Definition GetAllTablesResult_Write (p : option wGetAllTablesResult) : M P unit :=
  write_struct T_GetAllTablesResult "get_all_tables_result" ((fun p => [GetAllTablesResult_writeField0 p;
     GetAllTablesResult_writeField1 p]) <$> p).
Definition GetAllTablesResult_switch (fuel : nat) : switch wGetAllTablesResult := fun fieldId =>
  match fieldId with
  | 0 => Some (LIST, GetAllTablesResult_ReadField0)
  | 1 => Some (STRUCT, GetAllTablesResult_ReadField1 fuel)
  | _ => None
  end.
Definition GetAllTablesResult_Read (fuel : nat) : wGetAllTablesResult -> MF P wGetAllTablesResult :=
  read_struct T_GetAllTablesResult [] (GetAllTablesResult_switch fuel) fuel.

(** ** get_table_req *)

Local Abbreviation T_GetTableReqArgs := "*hive_metastore.ThriftHiveMetastoreGetTableReqArgs".
Definition GetTableReqArgs_set_Req v (_ : wGetTableReqArgs) : wGetTableReqArgs := mk_wGetTableReqArgs v.

Definition GetTableReqArgs_writeField1 (p : wGetTableReqArgs) : M P unit :=
  (opt (wGetTableReqArgs_Req p) (fun v =>
    write_field T_GetTableReqArgs "req" STRUCT 1 (write_sub "*hive_metastore.GetTableRequest" (GetTableRequest_Write (Some v)))))%go.
Definition GetTableReqArgs_ReadField1 (fuel : nat) : wGetTableReqArgs -> MF P wGetTableReqArgs :=
  assign (read_sub "*hive_metastore.GetTableRequest" (GetTableRequest_Read fuel NewGetTableRequest))%go (fun v => GetTableReqArgs_set_Req (Some v)).
Definition GetTableReqArgs_Write (p : option wGetTableReqArgs) : M P unit :=
  write_struct T_GetTableReqArgs "get_table_req_args" ((fun p => [GetTableReqArgs_writeField1 p]) <$> p).
Definition GetTableReqArgs_switch (fuel : nat) : switch wGetTableReqArgs := fun fieldId =>
  match fieldId with
  | 1 => Some (STRUCT, GetTableReqArgs_ReadField1 fuel)
  | _ => None
  end.
Definition GetTableReqArgs_Read (fuel : nat) : wGetTableReqArgs -> MF P wGetTableReqArgs :=
  read_struct T_GetTableReqArgs [] (GetTableReqArgs_switch fuel) fuel.

Local Abbreviation T_GetTableReqResult := "*hive_metastore.ThriftHiveMetastoreGetTableReqResult".
Definition GetTableReqResult_set_Success v '(mk_wGetTableReqResult _ x2 x3) : wGetTableReqResult :=
  mk_wGetTableReqResult v x2 x3.
Definition GetTableReqResult_set_O1 v '(mk_wGetTableReqResult x1 _ x3) : wGetTableReqResult :=
  mk_wGetTableReqResult x1 v x3.
Definition GetTableReqResult_set_O2 v '(mk_wGetTableReqResult x1 x2 _) : wGetTableReqResult :=
  mk_wGetTableReqResult x1 x2 v.

Definition GetTableReqResult_writeField0 (p : wGetTableReqResult) : M P unit :=
  (opt (wGetTableReqResult_Success p) (fun v =>
    write_field T_GetTableReqResult "success" STRUCT 0 (write_sub "*hive_metastore.GetTableResult_" (GetTableResult__Write (Some v)))))%go.
Definition GetTableReqResult_ReadField0 (fuel : nat) : wGetTableReqResult -> MF P wGetTableReqResult :=
  assign (read_sub "*hive_metastore.GetTableResult_" (GetTableResult__Read fuel NewGetTableResult_))%go (fun v => GetTableReqResult_set_Success (Some v)).
Definition GetTableReqResult_writeField1 (p : wGetTableReqResult) : M P unit :=
  (opt (wGetTableReqResult_O1 p) (fun v =>
    write_field T_GetTableReqResult "o1" STRUCT 1 (write_sub "*hive_metastore.MetaException" (Exception_Write MetaException (Some v)))))%go.
Definition GetTableReqResult_ReadField1 (fuel : nat) : wGetTableReqResult -> MF P wGetTableReqResult :=
  assign (read_sub "*hive_metastore.MetaException" (Exception_Read MetaException fuel NewException))%go (fun v => GetTableReqResult_set_O1 (Some v)).
Definition GetTableReqResult_writeField2 (p : wGetTableReqResult) : M P unit :=
  (opt (wGetTableReqResult_O2 p) (fun v =>
    write_field T_GetTableReqResult "o2" STRUCT 2 (write_sub "*hive_metastore.NoSuchObjectException" (Exception_Write NoSuchObjectException (Some v)))))%go.
Definition GetTableReqResult_ReadField2 (fuel : nat) : wGetTableReqResult -> MF P wGetTableReqResult :=
  assign (read_sub "*hive_metastore.NoSuchObjectException" (Exception_Read NoSuchObjectException fuel NewException))%go (fun v => GetTableReqResult_set_O2 (Some v)).
Definition GetTableReqResult_Write (p : option wGetTableReqResult) : M P unit :=
  write_struct T_GetTableReqResult "get_table_req_result" ((fun p => [GetTableReqResult_writeField0 p;
     GetTableReqResult_writeField1 p; GetTableReqResult_writeField2 p]) <$> p).
Definition GetTableReqResult_switch (fuel : nat) : switch wGetTableReqResult := fun fieldId =>
  match fieldId with
  | 0 => Some (STRUCT, GetTableReqResult_ReadField0 fuel)
  | 1 => Some (STRUCT, GetTableReqResult_ReadField1 fuel)
  | 2 => Some (STRUCT, GetTableReqResult_ReadField2 fuel)
  | _ => None
  end.
Definition GetTableReqResult_Read (fuel : nat) : wGetTableReqResult -> MF P wGetTableReqResult :=
  read_struct T_GetTableReqResult [] (GetTableReqResult_switch fuel) fuel.

(** ** get_table_objects_by_name_req *)

Local Abbreviation T_GetTableObjectsByNameReqArgs := "*hive_metastore.ThriftHiveMetastoreGetTableObjectsByNameReqArgs".
Definition GetTableObjectsByNameReqArgs_set_Req v (_ : wGetTableObjectsByNameReqArgs) : wGetTableObjectsByNameReqArgs := mk_wGetTableObjectsByNameReqArgs v.

Definition GetTableObjectsByNameReqArgs_writeField1 (p : wGetTableObjectsByNameReqArgs) : M P unit :=
  (opt (wGetTableObjectsByNameReqArgs_Req p) (fun v =>
    write_field T_GetTableObjectsByNameReqArgs "req" STRUCT 1 (write_sub "*hive_metastore.GetTablesRequest" (GetTablesRequest_Write (Some v)))))%go.
Definition GetTableObjectsByNameReqArgs_ReadField1 (fuel : nat) : wGetTableObjectsByNameReqArgs -> MF P wGetTableObjectsByNameReqArgs :=
  assign (read_sub "*hive_metastore.GetTablesRequest" (GetTablesRequest_Read fuel NewGetTablesRequest))%go (fun v => GetTableObjectsByNameReqArgs_set_Req (Some v)).
Definition GetTableObjectsByNameReqArgs_Write (p : option wGetTableObjectsByNameReqArgs) : M P unit :=
  write_struct T_GetTableObjectsByNameReqArgs "get_table_objects_by_name_req_args" ((fun p => [GetTableObjectsByNameReqArgs_writeField1 p]) <$> p).
Definition GetTableObjectsByNameReqArgs_switch (fuel : nat) : switch wGetTableObjectsByNameReqArgs := fun fieldId =>
  match fieldId with
  | 1 => Some (STRUCT, GetTableObjectsByNameReqArgs_ReadField1 fuel)
  | _ => None
  end.
Definition GetTableObjectsByNameReqArgs_Read (fuel : nat) : wGetTableObjectsByNameReqArgs -> MF P wGetTableObjectsByNameReqArgs :=
  read_struct T_GetTableObjectsByNameReqArgs [] (GetTableObjectsByNameReqArgs_switch fuel) fuel.

Local Abbreviation T_GetTableObjectsByNameReqResult := "*hive_metastore.ThriftHiveMetastoreGetTableObjectsByNameReqResult".
Definition GetTableObjectsByNameReqResult_set_Success v '(mk_wGetTableObjectsByNameReqResult _ x2 x3 x4) : wGetTableObjectsByNameReqResult :=
  mk_wGetTableObjectsByNameReqResult v x2 x3 x4.
Definition GetTableObjectsByNameReqResult_set_O1 v '(mk_wGetTableObjectsByNameReqResult x1 _ x3 x4) : wGetTableObjectsByNameReqResult :=
  mk_wGetTableObjectsByNameReqResult x1 v x3 x4.
Definition GetTableObjectsByNameReqResult_set_O2 v '(mk_wGetTableObjectsByNameReqResult x1 x2 _ x4) : wGetTableObjectsByNameReqResult :=
  mk_wGetTableObjectsByNameReqResult x1 x2 v x4.
Definition GetTableObjectsByNameReqResult_set_O3 v '(mk_wGetTableObjectsByNameReqResult x1 x2 x3 _) : wGetTableObjectsByNameReqResult :=
  mk_wGetTableObjectsByNameReqResult x1 x2 x3 v.

Definition GetTableObjectsByNameReqResult_writeField0 (p : wGetTableObjectsByNameReqResult) : M P unit :=
  (opt (wGetTableObjectsByNameReqResult_Success p) (fun v =>
    write_field T_GetTableObjectsByNameReqResult "success" STRUCT 0 (write_sub "*hive_metastore.GetTablesResult_" (GetTablesResult__Write (Some v)))))%go.
Definition GetTableObjectsByNameReqResult_ReadField0 (fuel : nat) : wGetTableObjectsByNameReqResult -> MF P wGetTableObjectsByNameReqResult :=
  assign (read_sub "*hive_metastore.GetTablesResult_" (GetTablesResult__Read fuel NewGetTablesResult_))%go (fun v => GetTableObjectsByNameReqResult_set_Success (Some v)).
Definition GetTableObjectsByNameReqResult_writeField1 (p : wGetTableObjectsByNameReqResult) : M P unit :=
  (opt (wGetTableObjectsByNameReqResult_O1 p) (fun v =>
    write_field T_GetTableObjectsByNameReqResult "o1" STRUCT 1 (write_sub "*hive_metastore.MetaException" (Exception_Write MetaException (Some v)))))%go.
Definition GetTableObjectsByNameReqResult_ReadField1 (fuel : nat) : wGetTableObjectsByNameReqResult -> MF P wGetTableObjectsByNameReqResult :=
  assign (read_sub "*hive_metastore.MetaException" (Exception_Read MetaException fuel NewException))%go (fun v => GetTableObjectsByNameReqResult_set_O1 (Some v)).
Definition GetTableObjectsByNameReqResult_writeField2 (p : wGetTableObjectsByNameReqResult) : M P unit :=
  (opt (wGetTableObjectsByNameReqResult_O2 p) (fun v =>
    write_field T_GetTableObjectsByNameReqResult "o2" STRUCT 2 (write_sub "*hive_metastore.InvalidOperationException" (Exception_Write InvalidOperationException (Some v)))))%go.
Definition GetTableObjectsByNameReqResult_ReadField2 (fuel : nat) : wGetTableObjectsByNameReqResult -> MF P wGetTableObjectsByNameReqResult :=
  assign (read_sub "*hive_metastore.InvalidOperationException" (Exception_Read InvalidOperationException fuel NewException))%go (fun v => GetTableObjectsByNameReqResult_set_O2 (Some v)).
Definition GetTableObjectsByNameReqResult_writeField3 (p : wGetTableObjectsByNameReqResult) : M P unit :=
  (opt (wGetTableObjectsByNameReqResult_O3 p) (fun v =>
    write_field T_GetTableObjectsByNameReqResult "o3" STRUCT 3 (write_sub "*hive_metastore.UnknownDBException" (Exception_Write UnknownDBException (Some v)))))%go.
Definition GetTableObjectsByNameReqResult_ReadField3 (fuel : nat) : wGetTableObjectsByNameReqResult -> MF P wGetTableObjectsByNameReqResult :=
  assign (read_sub "*hive_metastore.UnknownDBException" (Exception_Read UnknownDBException fuel NewException))%go (fun v => GetTableObjectsByNameReqResult_set_O3 (Some v)).
Definition GetTableObjectsByNameReqResult_Write (p : option wGetTableObjectsByNameReqResult) : M P unit :=
  write_struct T_GetTableObjectsByNameReqResult "get_table_objects_by_name_req_result" ((fun p => [GetTableObjectsByNameReqResult_writeField0 p; GetTableObjectsByNameReqResult_writeField1 p; GetTableObjectsByNameReqResult_writeField2 p; GetTableObjectsByNameReqResult_writeField3 p]) <$> p).
Definition GetTableObjectsByNameReqResult_switch (fuel : nat) : switch wGetTableObjectsByNameReqResult := fun fieldId =>
  match fieldId with
  | 0 => Some (STRUCT, GetTableObjectsByNameReqResult_ReadField0 fuel)
  | 1 => Some (STRUCT, GetTableObjectsByNameReqResult_ReadField1 fuel)
  | 2 => Some (STRUCT, GetTableObjectsByNameReqResult_ReadField2 fuel)
  | 3 => Some (STRUCT, GetTableObjectsByNameReqResult_ReadField3 fuel)
  | _ => None
  end.
Definition GetTableObjectsByNameReqResult_Read (fuel : nat) : wGetTableObjectsByNameReqResult -> MF P wGetTableObjectsByNameReqResult :=
  read_struct T_GetTableObjectsByNameReqResult [] (GetTableObjectsByNameReqResult_switch fuel) fuel.

(** ** create_table *)

Local Abbreviation T_CreateTableArgs := "*hive_metastore.ThriftHiveMetastoreCreateTableArgs".
Definition CreateTableArgs_set_Tbl v (_ : wCreateTableArgs) : wCreateTableArgs := mk_wCreateTableArgs v.

Definition CreateTableArgs_writeField1 (p : wCreateTableArgs) : M P unit :=
  (opt (wCreateTableArgs_Tbl p) (fun v =>
    write_field T_CreateTableArgs "tbl" STRUCT 1 (write_sub "*hive_metastore.Table" (Table_Write (Some v)))))%go.
Definition CreateTableArgs_ReadField1 (fuel : nat) : wCreateTableArgs -> MF P wCreateTableArgs :=
  assign (read_sub "*hive_metastore.Table" (Table_Read fuel NewTable))%go (fun v => CreateTableArgs_set_Tbl (Some v)).
Definition CreateTableArgs_Write (p : option wCreateTableArgs) : M P unit :=
  write_struct T_CreateTableArgs "create_table_args" ((fun p => [CreateTableArgs_writeField1 p]) <$> p).
Definition CreateTableArgs_switch (fuel : nat) : switch wCreateTableArgs := fun fieldId =>
  match fieldId with
  | 1 => Some (STRUCT, CreateTableArgs_ReadField1 fuel)
  | _ => None
  end.
Definition CreateTableArgs_Read (fuel : nat) : wCreateTableArgs -> MF P wCreateTableArgs :=
  read_struct T_CreateTableArgs [] (CreateTableArgs_switch fuel) fuel.

Local Abbreviation T_CreateTableResult := "*hive_metastore.ThriftHiveMetastoreCreateTableResult".
Definition CreateTableResult_set_O1 v '(mk_wCreateTableResult _ x2 x3 x4) : wCreateTableResult :=
  mk_wCreateTableResult v x2 x3 x4.
Definition CreateTableResult_set_O2 v '(mk_wCreateTableResult x1 _ x3 x4) : wCreateTableResult :=
  mk_wCreateTableResult x1 v x3 x4.
Definition CreateTableResult_set_O3 v '(mk_wCreateTableResult x1 x2 _ x4) : wCreateTableResult :=
  mk_wCreateTableResult x1 x2 v x4.
Definition CreateTableResult_set_O4 v '(mk_wCreateTableResult x1 x2 x3 _) : wCreateTableResult :=
  mk_wCreateTableResult x1 x2 x3 v.

Definition CreateTableResult_writeField1 (p : wCreateTableResult) : M P unit :=
  (opt (wCreateTableResult_O1 p) (fun v =>
    write_field T_CreateTableResult "o1" STRUCT 1 (write_sub "*hive_metastore.AlreadyExistsException" (Exception_Write AlreadyExistsException (Some v)))))%go.
Definition CreateTableResult_ReadField1 (fuel : nat) : wCreateTableResult -> MF P wCreateTableResult :=
  assign (read_sub "*hive_metastore.AlreadyExistsException" (Exception_Read AlreadyExistsException fuel NewException))%go (fun v => CreateTableResult_set_O1 (Some v)).
Definition CreateTableResult_writeField2 (p : wCreateTableResult) : M P unit :=
  (opt (wCreateTableResult_O2 p) (fun v =>
    write_field T_CreateTableResult "o2" STRUCT 2 (write_sub "*hive_metastore.InvalidObjectException" (Exception_Write InvalidObjectException (Some v)))))%go.
Definition CreateTableResult_ReadField2 (fuel : nat) : wCreateTableResult -> MF P wCreateTableResult :=
  assign (read_sub "*hive_metastore.InvalidObjectException" (Exception_Read InvalidObjectException fuel NewException))%go (fun v => CreateTableResult_set_O2 (Some v)).
Definition CreateTableResult_writeField3 (p : wCreateTableResult) : M P unit :=
  (opt (wCreateTableResult_O3 p) (fun v =>
    write_field T_CreateTableResult "o3" STRUCT 3 (write_sub "*hive_metastore.MetaException" (Exception_Write MetaException (Some v)))))%go.
Definition CreateTableResult_ReadField3 (fuel : nat) : wCreateTableResult -> MF P wCreateTableResult :=
  assign (read_sub "*hive_metastore.MetaException" (Exception_Read MetaException fuel NewException))%go (fun v => CreateTableResult_set_O3 (Some v)).
Definition CreateTableResult_writeField4 (p : wCreateTableResult) : M P unit :=
  (opt (wCreateTableResult_O4 p) (fun v =>
    write_field T_CreateTableResult "o4" STRUCT 4 (write_sub "*hive_metastore.NoSuchObjectException" (Exception_Write NoSuchObjectException (Some v)))))%go.
Definition CreateTableResult_ReadField4 (fuel : nat) : wCreateTableResult -> MF P wCreateTableResult :=
  assign (read_sub "*hive_metastore.NoSuchObjectException" (Exception_Read NoSuchObjectException fuel NewException))%go (fun v => CreateTableResult_set_O4 (Some v)).
Definition CreateTableResult_Write (p : option wCreateTableResult) : M P unit :=
  write_struct T_CreateTableResult "create_table_result" ((fun p => [CreateTableResult_writeField1 p;
     CreateTableResult_writeField2 p; CreateTableResult_writeField3 p; CreateTableResult_writeField4 p]) <$> p).
Definition CreateTableResult_switch (fuel : nat) : switch wCreateTableResult := fun fieldId =>
  match fieldId with
  | 1 => Some (STRUCT, CreateTableResult_ReadField1 fuel)
  | 2 => Some (STRUCT, CreateTableResult_ReadField2 fuel)
  | 3 => Some (STRUCT, CreateTableResult_ReadField3 fuel)
  | 4 => Some (STRUCT, CreateTableResult_ReadField4 fuel)
  | _ => None
  end.
Definition CreateTableResult_Read (fuel : nat) : wCreateTableResult -> MF P wCreateTableResult :=
  read_struct T_CreateTableResult [] (CreateTableResult_switch fuel) fuel.

(** ** alter_table *)

Local Abbreviation T_AlterTableArgs := "*hive_metastore.ThriftHiveMetastoreAlterTableArgs".
Definition AlterTableArgs_set_Dbname v '(mk_wAlterTableArgs _ x2 x3) : wAlterTableArgs :=
  mk_wAlterTableArgs v x2 x3.
Definition AlterTableArgs_set_TblName v '(mk_wAlterTableArgs x1 _ x3) : wAlterTableArgs :=
  mk_wAlterTableArgs x1 v x3.
Definition AlterTableArgs_set_NewTbl_ v '(mk_wAlterTableArgs x1 x2 _) : wAlterTableArgs :=
  mk_wAlterTableArgs x1 x2 v.

Definition AlterTableArgs_writeField1 (p : wAlterTableArgs) : M P unit :=
  (write_field T_AlterTableArgs "dbname" STRING 1 (write_scalar T_AlterTableArgs "dbname" 1 (WriteString (wAlterTableArgs_Dbname p))))%go.
Definition AlterTableArgs_ReadField1 : wAlterTableArgs -> MF P wAlterTableArgs :=
  assign (read_scalar 1 ReadString)%go AlterTableArgs_set_Dbname.
Definition AlterTableArgs_writeField2 (p : wAlterTableArgs) : M P unit :=
  (write_field T_AlterTableArgs "tbl_name" STRING 2 (write_scalar T_AlterTableArgs "tbl_name" 2 (WriteString (wAlterTableArgs_TblName p))))%go.
Definition AlterTableArgs_ReadField2 : wAlterTableArgs -> MF P wAlterTableArgs :=
  assign (read_scalar 2 ReadString)%go AlterTableArgs_set_TblName.
Definition AlterTableArgs_writeField3 (p : wAlterTableArgs) : M P unit :=
  (opt (wAlterTableArgs_NewTbl_ p) (fun v =>
    write_field T_AlterTableArgs "new_tbl" STRUCT 3 (write_sub "*hive_metastore.Table" (Table_Write (Some v)))))%go.
Definition AlterTableArgs_ReadField3 (fuel : nat) : wAlterTableArgs -> MF P wAlterTableArgs :=
  assign (read_sub "*hive_metastore.Table" (Table_Read fuel NewTable))%go (fun v => AlterTableArgs_set_NewTbl_ (Some v)).
Definition AlterTableArgs_Write (p : option wAlterTableArgs) : M P unit :=
  write_struct T_AlterTableArgs "alter_table_args" ((fun p => [AlterTableArgs_writeField1 p;
     AlterTableArgs_writeField2 p; AlterTableArgs_writeField3 p]) <$> p).
Definition AlterTableArgs_switch (fuel : nat) : switch wAlterTableArgs := fun fieldId =>
  match fieldId with
  | 1 => Some (STRING, AlterTableArgs_ReadField1)
  | 2 => Some (STRING, AlterTableArgs_ReadField2)
  | 3 => Some (STRUCT, AlterTableArgs_ReadField3 fuel)
  | _ => None
  end.
Definition AlterTableArgs_Read (fuel : nat) : wAlterTableArgs -> MF P wAlterTableArgs :=
  read_struct T_AlterTableArgs [] (AlterTableArgs_switch fuel) fuel.

Local Abbreviation T_AlterTableResult := "*hive_metastore.ThriftHiveMetastoreAlterTableResult".
Definition AlterTableResult_set_O1 v '(mk_wAlterTableResult _ x2) : wAlterTableResult :=
  mk_wAlterTableResult v x2.
Definition AlterTableResult_set_O2 v '(mk_wAlterTableResult x1 _) : wAlterTableResult :=
  mk_wAlterTableResult x1 v.

Definition AlterTableResult_writeField1 (p : wAlterTableResult) : M P unit :=
  (opt (wAlterTableResult_O1 p) (fun v =>
    write_field T_AlterTableResult "o1" STRUCT 1 (write_sub "*hive_metastore.InvalidOperationException" (Exception_Write InvalidOperationException (Some v)))))%go.
Definition AlterTableResult_ReadField1 (fuel : nat) : wAlterTableResult -> MF P wAlterTableResult :=
  assign (read_sub "*hive_metastore.InvalidOperationException" (Exception_Read InvalidOperationException fuel NewException))%go (fun v => AlterTableResult_set_O1 (Some v)).
Definition AlterTableResult_writeField2 (p : wAlterTableResult) : M P unit :=
  (opt (wAlterTableResult_O2 p) (fun v =>
    write_field T_AlterTableResult "o2" STRUCT 2 (write_sub "*hive_metastore.MetaException" (Exception_Write MetaException (Some v)))))%go.
Definition AlterTableResult_ReadField2 (fuel : nat) : wAlterTableResult -> MF P wAlterTableResult :=
  assign (read_sub "*hive_metastore.MetaException" (Exception_Read MetaException fuel NewException))%go (fun v => AlterTableResult_set_O2 (Some v)).
Definition AlterTableResult_Write (p : option wAlterTableResult) : M P unit :=
  write_struct T_AlterTableResult "alter_table_result" ((fun p => [AlterTableResult_writeField1 p;
     AlterTableResult_writeField2 p]) <$> p).
Definition AlterTableResult_switch (fuel : nat) : switch wAlterTableResult := fun fieldId =>
  match fieldId with
  | 1 => Some (STRUCT, AlterTableResult_ReadField1 fuel)
  | 2 => Some (STRUCT, AlterTableResult_ReadField2 fuel)
  | _ => None
  end.
Definition AlterTableResult_Read (fuel : nat) : wAlterTableResult -> MF P wAlterTableResult :=
  read_struct T_AlterTableResult [] (AlterTableResult_switch fuel) fuel.

(** ** drop_table *)

Local Abbreviation T_DropTableArgs := "*hive_metastore.ThriftHiveMetastoreDropTableArgs".
Definition DropTableArgs_set_Dbname v '(mk_wDropTableArgs _ x2 x3) : wDropTableArgs :=
  mk_wDropTableArgs v x2 x3.
Definition DropTableArgs_set_Name v '(mk_wDropTableArgs x1 _ x3) : wDropTableArgs :=
  mk_wDropTableArgs x1 v x3.
Definition DropTableArgs_set_DeleteData v '(mk_wDropTableArgs x1 x2 _) : wDropTableArgs :=
  mk_wDropTableArgs x1 x2 v.

Definition DropTableArgs_writeField1 (p : wDropTableArgs) : M P unit :=
  (write_field T_DropTableArgs "dbname" STRING 1 (write_scalar T_DropTableArgs "dbname" 1 (WriteString (wDropTableArgs_Dbname p))))%go.
Definition DropTableArgs_ReadField1 : wDropTableArgs -> MF P wDropTableArgs :=
  assign (read_scalar 1 ReadString)%go DropTableArgs_set_Dbname.
Definition DropTableArgs_writeField2 (p : wDropTableArgs) : M P unit :=
  (write_field T_DropTableArgs "name" STRING 2 (write_scalar T_DropTableArgs "name" 2 (WriteString (wDropTableArgs_Name p))))%go.
Definition DropTableArgs_ReadField2 : wDropTableArgs -> MF P wDropTableArgs :=
  assign (read_scalar 2 ReadString)%go DropTableArgs_set_Name.
Definition DropTableArgs_writeField3 (p : wDropTableArgs) : M P unit :=
  (write_field T_DropTableArgs "deleteData" BOOL 3 (write_scalar T_DropTableArgs "deleteData" 3 (WriteBool (wDropTableArgs_DeleteData p))))%go.
Definition DropTableArgs_ReadField3 : wDropTableArgs -> MF P wDropTableArgs :=
  assign (read_scalar 3 ReadBool)%go DropTableArgs_set_DeleteData.
Definition DropTableArgs_Write (p : option wDropTableArgs) : M P unit :=
  write_struct T_DropTableArgs "drop_table_args" ((fun p => [DropTableArgs_writeField1 p;
     DropTableArgs_writeField2 p; DropTableArgs_writeField3 p]) <$> p).
Definition DropTableArgs_switch : switch wDropTableArgs := fun fieldId =>
  match fieldId with
  | 1 => Some (STRING, DropTableArgs_ReadField1)
  | 2 => Some (STRING, DropTableArgs_ReadField2)
  | 3 => Some (BOOL, DropTableArgs_ReadField3)
  | _ => None
  end.
Definition DropTableArgs_Read (fuel : nat) : wDropTableArgs -> MF P wDropTableArgs :=
  read_struct T_DropTableArgs [] DropTableArgs_switch fuel.

Local Abbreviation T_DropTableResult := "*hive_metastore.ThriftHiveMetastoreDropTableResult".
Definition DropTableResult_set_O1 v '(mk_wDropTableResult _ x2) : wDropTableResult :=
  mk_wDropTableResult v x2.
Definition DropTableResult_set_O3 v '(mk_wDropTableResult x1 _) : wDropTableResult :=
  mk_wDropTableResult x1 v.

Definition DropTableResult_writeField1 (p : wDropTableResult) : M P unit :=
  (opt (wDropTableResult_O1 p) (fun v =>
    write_field T_DropTableResult "o1" STRUCT 1 (write_sub "*hive_metastore.NoSuchObjectException" (Exception_Write NoSuchObjectException (Some v)))))%go.
Definition DropTableResult_ReadField1 (fuel : nat) : wDropTableResult -> MF P wDropTableResult :=
  assign (read_sub "*hive_metastore.NoSuchObjectException" (Exception_Read NoSuchObjectException fuel NewException))%go (fun v => DropTableResult_set_O1 (Some v)).
Definition DropTableResult_writeField2 (p : wDropTableResult) : M P unit :=
  (opt (wDropTableResult_O3 p) (fun v =>
    write_field T_DropTableResult "o3" STRUCT 2 (write_sub "*hive_metastore.MetaException" (Exception_Write MetaException (Some v)))))%go.
Definition DropTableResult_ReadField2 (fuel : nat) : wDropTableResult -> MF P wDropTableResult :=
  assign (read_sub "*hive_metastore.MetaException" (Exception_Read MetaException fuel NewException))%go (fun v => DropTableResult_set_O3 (Some v)).
Definition DropTableResult_Write (p : option wDropTableResult) : M P unit :=
  write_struct T_DropTableResult "drop_table_result" ((fun p => [DropTableResult_writeField1 p;
     DropTableResult_writeField2 p]) <$> p).
Definition DropTableResult_switch (fuel : nat) : switch wDropTableResult := fun fieldId =>
  match fieldId with
  | 1 => Some (STRUCT, DropTableResult_ReadField1 fuel)
  | 2 => Some (STRUCT, DropTableResult_ReadField2 fuel)
  | _ => None
  end.
Definition DropTableResult_Read (fuel : nat) : wDropTableResult -> MF P wDropTableResult :=
  read_struct T_DropTableResult [] (DropTableResult_switch fuel) fuel.

(** ** get_table_statistics_req *)

Local Abbreviation T_GetTableStatisticsReqArgs := "*hive_metastore.ThriftHiveMetastoreGetTableStatisticsReqArgs".
Definition GetTableStatisticsReqArgs_set_Request v (_ : wGetTableStatisticsReqArgs) : wGetTableStatisticsReqArgs := mk_wGetTableStatisticsReqArgs v.

Definition GetTableStatisticsReqArgs_writeField1 (p : wGetTableStatisticsReqArgs) : M P unit :=
  (opt (wGetTableStatisticsReqArgs_Request p) (fun v =>
    write_field T_GetTableStatisticsReqArgs "request" STRUCT 1 (write_sub "*hive_metastore.TableStatsRequest" (TableStatsRequest_Write (Some v)))))%go.
Definition GetTableStatisticsReqArgs_ReadField1 (fuel : nat) : wGetTableStatisticsReqArgs -> MF P wGetTableStatisticsReqArgs :=
  assign (read_sub "*hive_metastore.TableStatsRequest" (TableStatsRequest_Read fuel NewTableStatsRequest))%go (fun v => GetTableStatisticsReqArgs_set_Request (Some v)).
Definition GetTableStatisticsReqArgs_Write (p : option wGetTableStatisticsReqArgs) : M P unit :=
  write_struct T_GetTableStatisticsReqArgs "get_table_statistics_req_args" ((fun p => [GetTableStatisticsReqArgs_writeField1 p]) <$> p).
Definition GetTableStatisticsReqArgs_switch (fuel : nat) : switch wGetTableStatisticsReqArgs := fun fieldId =>
  match fieldId with
  | 1 => Some (STRUCT, GetTableStatisticsReqArgs_ReadField1 fuel)
  | _ => None
  end.
Definition GetTableStatisticsReqArgs_Read (fuel : nat) : wGetTableStatisticsReqArgs -> MF P wGetTableStatisticsReqArgs :=
  read_struct T_GetTableStatisticsReqArgs [] (GetTableStatisticsReqArgs_switch fuel) fuel.

Local Abbreviation T_GetTableStatisticsReqResult := "*hive_metastore.ThriftHiveMetastoreGetTableStatisticsReqResult".
Definition GetTableStatisticsReqResult_set_Success v '(mk_wGetTableStatisticsReqResult _ x2 x3) : wGetTableStatisticsReqResult :=
  mk_wGetTableStatisticsReqResult v x2 x3.
Definition GetTableStatisticsReqResult_set_O1 v '(mk_wGetTableStatisticsReqResult x1 _ x3) : wGetTableStatisticsReqResult :=
  mk_wGetTableStatisticsReqResult x1 v x3.
Definition GetTableStatisticsReqResult_set_O2 v '(mk_wGetTableStatisticsReqResult x1 x2 _) : wGetTableStatisticsReqResult :=
  mk_wGetTableStatisticsReqResult x1 x2 v.

Definition GetTableStatisticsReqResult_writeField0 (p : wGetTableStatisticsReqResult) : M P unit :=
  (opt (wGetTableStatisticsReqResult_Success p) (fun v =>
    write_field T_GetTableStatisticsReqResult "success" STRUCT 0 (write_sub "*hive_metastore.TableStatsResult_" (TableStatsResult__Write (Some v)))))%go.
Definition GetTableStatisticsReqResult_ReadField0 (fuel : nat) : wGetTableStatisticsReqResult -> MF P wGetTableStatisticsReqResult :=
  assign (read_sub "*hive_metastore.TableStatsResult_" (TableStatsResult__Read fuel NewTableStatsResult_))%go (fun v => GetTableStatisticsReqResult_set_Success (Some v)).
Definition GetTableStatisticsReqResult_writeField1 (p : wGetTableStatisticsReqResult) : M P unit :=
  (opt (wGetTableStatisticsReqResult_O1 p) (fun v =>
    write_field T_GetTableStatisticsReqResult "o1" STRUCT 1 (write_sub "*hive_metastore.NoSuchObjectException" (Exception_Write NoSuchObjectException (Some v)))))%go.
Definition GetTableStatisticsReqResult_ReadField1 (fuel : nat) : wGetTableStatisticsReqResult -> MF P wGetTableStatisticsReqResult :=
  assign (read_sub "*hive_metastore.NoSuchObjectException" (Exception_Read NoSuchObjectException fuel NewException))%go (fun v => GetTableStatisticsReqResult_set_O1 (Some v)).
Definition GetTableStatisticsReqResult_writeField2 (p : wGetTableStatisticsReqResult) : M P unit :=
  (opt (wGetTableStatisticsReqResult_O2 p) (fun v =>
    write_field T_GetTableStatisticsReqResult "o2" STRUCT 2 (write_sub "*hive_metastore.MetaException" (Exception_Write MetaException (Some v)))))%go.
Definition GetTableStatisticsReqResult_ReadField2 (fuel : nat) : wGetTableStatisticsReqResult -> MF P wGetTableStatisticsReqResult :=
  assign (read_sub "*hive_metastore.MetaException" (Exception_Read MetaException fuel NewException))%go (fun v => GetTableStatisticsReqResult_set_O2 (Some v)).
Definition GetTableStatisticsReqResult_Write (p : option wGetTableStatisticsReqResult) : M P unit :=
  write_struct T_GetTableStatisticsReqResult "get_table_statistics_req_result" ((fun p => [GetTableStatisticsReqResult_writeField0 p; GetTableStatisticsReqResult_writeField1 p; GetTableStatisticsReqResult_writeField2 p]) <$> p).
Definition GetTableStatisticsReqResult_switch (fuel : nat) : switch wGetTableStatisticsReqResult := fun fieldId =>
  match fieldId with
  | 0 => Some (STRUCT, GetTableStatisticsReqResult_ReadField0 fuel)
  | 1 => Some (STRUCT, GetTableStatisticsReqResult_ReadField1 fuel)
  | 2 => Some (STRUCT, GetTableStatisticsReqResult_ReadField2 fuel)
  | _ => None
  end.
Definition GetTableStatisticsReqResult_Read (fuel : nat) : wGetTableStatisticsReqResult -> MF P wGetTableStatisticsReqResult :=
  read_struct T_GetTableStatisticsReqResult [] (GetTableStatisticsReqResult_switch fuel) fuel.
End codec.

(** ** Stubs *)

Module Stub.
Section stub.
Context {P C : Type} {TP : TProtocol P} {MR : MapRange} {SB : Substructs P} {TC : TClient P C}.

Definition GetAllTables (fuel : nat) (db_name : string) : MF C (slice string) :=
  stub (Call "get_all_tables"
          (GetAllTablesArgs_Write (Some (mk_wGetAllTablesArgs db_name)))
          (GetAllTablesResult_Read fuel zero_GetAllTablesResult))
    (fun _result =>
       exceptions [exn MetaException <$> wGetAllTablesResult_O1 _result]
         (inr (wGetAllTablesResult_Success _result))).
Definition GetTableReq (fuel : nat) (req : option wGetTableRequest) : MF C wGetTableResult_ :=
  stub (Call "get_table_req"
          (GetTableReqArgs_Write (Some (mk_wGetTableReqArgs req)))
          (GetTableReqResult_Read fuel zero_GetTableReqResult))
    (fun _result =>
       exceptions [exn MetaException <$> wGetTableReqResult_O1 _result;
                   exn NoSuchObjectException <$> wGetTableReqResult_O2 _result]
         (success "get_table_req" (wGetTableReqResult_Success _result))).
Definition GetTableObjectsByNameReq (fuel : nat) (req : option wGetTablesRequest) : MF C wGetTablesResult_ :=
  stub (Call "get_table_objects_by_name_req"
          (GetTableObjectsByNameReqArgs_Write (Some (mk_wGetTableObjectsByNameReqArgs req)))
          (GetTableObjectsByNameReqResult_Read fuel zero_GetTableObjectsByNameReqResult))
    (fun _result =>
       exceptions [exn MetaException <$> wGetTableObjectsByNameReqResult_O1 _result;
                   exn InvalidOperationException <$> wGetTableObjectsByNameReqResult_O2 _result;
                   exn UnknownDBException <$> wGetTableObjectsByNameReqResult_O3 _result]
         (success "get_table_objects_by_name_req" (wGetTableObjectsByNameReqResult_Success _result))).
Definition CreateTable (fuel : nat) (tbl : option wTable) : MF C unit :=
  stub (Call "create_table"
          (CreateTableArgs_Write (Some (mk_wCreateTableArgs tbl)))
          (CreateTableResult_Read fuel zero_CreateTableResult))
    (fun _result =>
       exceptions [exn AlreadyExistsException <$> wCreateTableResult_O1 _result;
                   exn InvalidObjectException <$> wCreateTableResult_O2 _result;
                   exn MetaException <$> wCreateTableResult_O3 _result;
                   exn NoSuchObjectException <$> wCreateTableResult_O4 _result]
         (inr tt)).
Definition AlterTable (fuel : nat) (dbname : string) (tbl_name : string) (new_tbl : option wTable) : MF C unit :=
  stub (Call "alter_table"
          (AlterTableArgs_Write (Some (mk_wAlterTableArgs dbname tbl_name new_tbl)))
          (AlterTableResult_Read fuel zero_AlterTableResult))
    (fun _result =>
       exceptions [exn InvalidOperationException <$> wAlterTableResult_O1 _result;
                   exn MetaException <$> wAlterTableResult_O2 _result]
         (inr tt)).
Definition DropTable (fuel : nat) (dbname : string) (name : string) (deleteData : bool) : MF C unit :=
  stub (Call "drop_table"
          (DropTableArgs_Write (Some (mk_wDropTableArgs dbname name deleteData)))
          (DropTableResult_Read fuel zero_DropTableResult))
    (fun _result =>
       exceptions [exn NoSuchObjectException <$> wDropTableResult_O1 _result;
                   exn MetaException <$> wDropTableResult_O3 _result]
         (inr tt)).
Definition GetTableStatisticsReq (fuel : nat) (request : option wTableStatsRequest) : MF C wTableStatsResult_ :=
  stub (Call "get_table_statistics_req"
          (GetTableStatisticsReqArgs_Write (Some (mk_wGetTableStatisticsReqArgs request)))
          (GetTableStatisticsReqResult_Read fuel zero_GetTableStatisticsReqResult))
    (fun _result =>
       exceptions [exn NoSuchObjectException <$> wGetTableStatisticsReqResult_O1 _result;
                   exn MetaException <$> wGetTableStatisticsReqResult_O2 _result]
         (success "get_table_statistics_req" (wGetTableStatisticsReqResult_Success _result))).
End stub.
End Stub.

(** ** The processor *)

Module Processor.
Section processor.
Context {P W : Type} {TP : TProtocol P} {MR : MapRange} {SB : Substructs P} {PL : TProcessorLib P}.
Context (cause : option goerr) (handler : Handler.ThriftHiveMetastore W).

Definition GetAllTables_declared : list (thrift_exn * (wException -> wGetAllTablesResult)) :=
  [(MetaException, fun v => GetAllTablesResult_set_O1 (Some v) zero_GetAllTablesResult)].
Definition GetAllTables_answer : slice string -> wGetAllTablesResult :=
  fun retval => GetAllTablesResult_set_Success retval zero_GetAllTablesResult.
Definition GetAllTables (fuel : nat) : processor_function P W :=
  process cause "get_all_tables" (GetAllTablesArgs_Read fuel zero_GetAllTablesArgs)
    (fun args => Handler.GetAllTables handler (wGetAllTablesArgs_DbName args))
    (type_switch GetAllTables_declared) GetAllTables_answer GetAllTablesResult_Write.
Definition GetTableReq_declared : list (thrift_exn * (wException -> wGetTableReqResult)) :=
  [(MetaException, fun v => GetTableReqResult_set_O1 (Some v) zero_GetTableReqResult);
   (NoSuchObjectException, fun v => GetTableReqResult_set_O2 (Some v) zero_GetTableReqResult)].
Definition GetTableReq_answer : option wGetTableResult_ -> wGetTableReqResult :=
  fun retval => GetTableReqResult_set_Success retval zero_GetTableReqResult.
Definition GetTableReq (fuel : nat) : processor_function P W :=
  process cause "get_table_req" (GetTableReqArgs_Read fuel zero_GetTableReqArgs)
    (fun args => Handler.GetTableReq handler (wGetTableReqArgs_Req args))
    (type_switch GetTableReq_declared) GetTableReq_answer GetTableReqResult_Write.
Definition GetTableObjectsByNameReq_declared : list (thrift_exn * (wException -> wGetTableObjectsByNameReqResult)) :=
  [(MetaException, fun v => GetTableObjectsByNameReqResult_set_O1 (Some v) zero_GetTableObjectsByNameReqResult);
   (InvalidOperationException, fun v => GetTableObjectsByNameReqResult_set_O2 (Some v) zero_GetTableObjectsByNameReqResult);
   (UnknownDBException, fun v => GetTableObjectsByNameReqResult_set_O3 (Some v) zero_GetTableObjectsByNameReqResult)].
Definition GetTableObjectsByNameReq_answer : option wGetTablesResult_ -> wGetTableObjectsByNameReqResult :=
  fun retval => GetTableObjectsByNameReqResult_set_Success retval zero_GetTableObjectsByNameReqResult.
Definition GetTableObjectsByNameReq (fuel : nat) : processor_function P W :=
  process cause "get_table_objects_by_name_req" (GetTableObjectsByNameReqArgs_Read fuel zero_GetTableObjectsByNameReqArgs)
    (fun args => Handler.GetTableObjectsByNameReq handler (wGetTableObjectsByNameReqArgs_Req args))
    (type_switch GetTableObjectsByNameReq_declared) GetTableObjectsByNameReq_answer GetTableObjectsByNameReqResult_Write.
Definition CreateTable_declared : list (thrift_exn * (wException -> wCreateTableResult)) :=
  [(AlreadyExistsException, fun v => CreateTableResult_set_O1 (Some v) zero_CreateTableResult);
   (InvalidObjectException, fun v => CreateTableResult_set_O2 (Some v) zero_CreateTableResult);
   (MetaException, fun v => CreateTableResult_set_O3 (Some v) zero_CreateTableResult);
   (NoSuchObjectException, fun v => CreateTableResult_set_O4 (Some v) zero_CreateTableResult)].
Definition CreateTable_answer : unit -> wCreateTableResult :=
  fun _ => zero_CreateTableResult.
Definition CreateTable (fuel : nat) : processor_function P W :=
  process cause "create_table" (CreateTableArgs_Read fuel zero_CreateTableArgs)
    (fun args => Handler.CreateTable handler (wCreateTableArgs_Tbl args))
    (type_switch CreateTable_declared) CreateTable_answer CreateTableResult_Write.
Definition AlterTable_declared : list (thrift_exn * (wException -> wAlterTableResult)) :=
  [(InvalidOperationException, fun v => AlterTableResult_set_O1 (Some v) zero_AlterTableResult);
   (MetaException, fun v => AlterTableResult_set_O2 (Some v) zero_AlterTableResult)].
Definition AlterTable_answer : unit -> wAlterTableResult :=
  fun _ => zero_AlterTableResult.
Definition AlterTable (fuel : nat) : processor_function P W :=
  process cause "alter_table" (AlterTableArgs_Read fuel zero_AlterTableArgs)
    (fun args => Handler.AlterTable handler (wAlterTableArgs_Dbname args) (wAlterTableArgs_TblName args) (wAlterTableArgs_NewTbl_ args))
    (type_switch AlterTable_declared) AlterTable_answer AlterTableResult_Write.
Definition DropTable_declared : list (thrift_exn * (wException -> wDropTableResult)) :=
  [(NoSuchObjectException, fun v => DropTableResult_set_O1 (Some v) zero_DropTableResult);
   (MetaException, fun v => DropTableResult_set_O3 (Some v) zero_DropTableResult)].
Definition DropTable_answer : unit -> wDropTableResult :=
  fun _ => zero_DropTableResult.
Definition DropTable (fuel : nat) : processor_function P W :=
  process cause "drop_table" (DropTableArgs_Read fuel zero_DropTableArgs)
    (fun args => Handler.DropTable handler (wDropTableArgs_Dbname args) (wDropTableArgs_Name args) (wDropTableArgs_DeleteData args))
    (type_switch DropTable_declared) DropTable_answer DropTableResult_Write.
Definition GetTableStatisticsReq_declared : list (thrift_exn * (wException -> wGetTableStatisticsReqResult)) :=
  [(NoSuchObjectException, fun v => GetTableStatisticsReqResult_set_O1 (Some v) zero_GetTableStatisticsReqResult);
   (MetaException, fun v => GetTableStatisticsReqResult_set_O2 (Some v) zero_GetTableStatisticsReqResult)].
Definition GetTableStatisticsReq_answer : option wTableStatsResult_ -> wGetTableStatisticsReqResult :=
  fun retval => GetTableStatisticsReqResult_set_Success retval zero_GetTableStatisticsReqResult.
Definition GetTableStatisticsReq (fuel : nat) : processor_function P W :=
  process cause "get_table_statistics_req" (GetTableStatisticsReqArgs_Read fuel zero_GetTableStatisticsReqArgs)
    (fun args => Handler.GetTableStatisticsReq handler (wGetTableStatisticsReqArgs_Request args))
    (type_switch GetTableStatisticsReq_declared) GetTableStatisticsReq_answer GetTableStatisticsReqResult_Write.
End processor.
End Processor.
