(* ===== verification/RpcPartition.v ===== *)
(** * RpcPartition: the RPCs on partitions

    Of each, as gen/ has it: the argument and result structs with their Write and
    Read (the prefix ThriftHiveMetastore or FacebookService of their names left out),
    the client's stub, and the processor's method. *)

From S2P Require Import Prelude Errors GoMonad Types Transport Wire Thrift CodecTable CodecReq Rpc RpcHandler.

(** ** get_partitions *)

Record wGetPartitionsArgs := mk_wGetPartitionsArgs {
  wGetPartitionsArgs_DbName : string;
  wGetPartitionsArgs_TblName : string;
  wGetPartitionsArgs_MaxParts : Z;
}.
Definition zero_GetPartitionsArgs : wGetPartitionsArgs := mk_wGetPartitionsArgs EmptyString EmptyString 0.
Record wGetPartitionsResult := mk_wGetPartitionsResult {
  wGetPartitionsResult_Success : slice (option wPartition);
  wGetPartitionsResult_O1 : option wException;
  wGetPartitionsResult_O2 : option wException;
}.
Definition zero_GetPartitionsResult : wGetPartitionsResult := mk_wGetPartitionsResult None None None.

(** ** get_partitions_req *)

Record wGetPartitionsReqArgs := mk_wGetPartitionsReqArgs {
  wGetPartitionsReqArgs_Req : option wPartitionsRequest;
}.
Definition zero_GetPartitionsReqArgs : wGetPartitionsReqArgs := mk_wGetPartitionsReqArgs None.
Record wGetPartitionsReqResult := mk_wGetPartitionsReqResult {
  wGetPartitionsReqResult_Success : option wPartitionsResponse;
  wGetPartitionsReqResult_O1 : option wException;
  wGetPartitionsReqResult_O2 : option wException;
}.
Definition zero_GetPartitionsReqResult : wGetPartitionsReqResult := mk_wGetPartitionsReqResult None None None.

(** ** get_partition_names *)

Record wGetPartitionNamesArgs := mk_wGetPartitionNamesArgs {
  wGetPartitionNamesArgs_DbName : string;
  wGetPartitionNamesArgs_TblName : string;
  wGetPartitionNamesArgs_MaxParts : Z;
}.
Definition zero_GetPartitionNamesArgs : wGetPartitionNamesArgs := mk_wGetPartitionNamesArgs EmptyString EmptyString 0.
Record wGetPartitionNamesResult := mk_wGetPartitionNamesResult {
  wGetPartitionNamesResult_Success : slice string;
  wGetPartitionNamesResult_O1 : option wException;
  wGetPartitionNamesResult_O2 : option wException;
}.
Definition zero_GetPartitionNamesResult : wGetPartitionNamesResult := mk_wGetPartitionNamesResult None None None.

(** ** add_partitions_req *)

Record wAddPartitionsReqArgs := mk_wAddPartitionsReqArgs {
  wAddPartitionsReqArgs_Request : option wAddPartitionsRequest;
}.
Definition zero_AddPartitionsReqArgs : wAddPartitionsReqArgs := mk_wAddPartitionsReqArgs None.
Record wAddPartitionsReqResult := mk_wAddPartitionsReqResult {
  wAddPartitionsReqResult_Success : option wAddPartitionsResult_;
  wAddPartitionsReqResult_O1 : option wException;
  wAddPartitionsReqResult_O2 : option wException;
  wAddPartitionsReqResult_O3 : option wException;
}.
Definition zero_AddPartitionsReqResult : wAddPartitionsReqResult := mk_wAddPartitionsReqResult None None None None.

(** ** alter_partitions *)

Record wAlterPartitionsArgs := mk_wAlterPartitionsArgs {
  wAlterPartitionsArgs_DbName : string;
  wAlterPartitionsArgs_TblName : string;
  wAlterPartitionsArgs_NewParts_ : slice (option wPartition);
}.
Definition zero_AlterPartitionsArgs : wAlterPartitionsArgs := mk_wAlterPartitionsArgs EmptyString EmptyString None.
Record wAlterPartitionsResult := mk_wAlterPartitionsResult {
  wAlterPartitionsResult_O1 : option wException;
  wAlterPartitionsResult_O2 : option wException;
}.
Definition zero_AlterPartitionsResult : wAlterPartitionsResult := mk_wAlterPartitionsResult None None.

(** ** alter_partitions_req *)

Record wAlterPartitionsReqArgs := mk_wAlterPartitionsReqArgs {
  wAlterPartitionsReqArgs_Req : option wAlterPartitionsRequest;
}.
Definition zero_AlterPartitionsReqArgs : wAlterPartitionsReqArgs := mk_wAlterPartitionsReqArgs None.
Record wAlterPartitionsReqResult := mk_wAlterPartitionsReqResult {
  wAlterPartitionsReqResult_Success : option wAlterPartitionsResponse;
  wAlterPartitionsReqResult_O1 : option wException;
  wAlterPartitionsReqResult_O2 : option wException;
}.
Definition zero_AlterPartitionsReqResult : wAlterPartitionsReqResult := mk_wAlterPartitionsReqResult None None None.

(** ** drop_partition *)

Record wDropPartitionArgs := mk_wDropPartitionArgs {
  wDropPartitionArgs_DbName : string;
  wDropPartitionArgs_TblName : string;
  wDropPartitionArgs_PartVals : slice string;
  wDropPartitionArgs_DeleteData : bool;
}.
Definition zero_DropPartitionArgs : wDropPartitionArgs := mk_wDropPartitionArgs EmptyString EmptyString None false.
Record wDropPartitionResult := mk_wDropPartitionResult {
  wDropPartitionResult_Success : option bool;
  wDropPartitionResult_O1 : option wException;
  wDropPartitionResult_O2 : option wException;
}.
Definition zero_DropPartitionResult : wDropPartitionResult := mk_wDropPartitionResult None None None.

(** ** drop_partitions_req *)

Record wDropPartitionsReqArgs := mk_wDropPartitionsReqArgs {
  wDropPartitionsReqArgs_Req : option wDropPartitionsRequest;
}.
Definition zero_DropPartitionsReqArgs : wDropPartitionsReqArgs := mk_wDropPartitionsReqArgs None.
Record wDropPartitionsReqResult := mk_wDropPartitionsReqResult {
  wDropPartitionsReqResult_Success : option wDropPartitionsResult_;
  wDropPartitionsReqResult_O1 : option wException;
  wDropPartitionsReqResult_O2 : option wException;
}.
Definition zero_DropPartitionsReqResult : wDropPartitionsReqResult := mk_wDropPartitionsReqResult None None None.

(** ** get_partitions_by_names *)

Record wGetPartitionsByNamesArgs := mk_wGetPartitionsByNamesArgs {
  wGetPartitionsByNamesArgs_DbName : string;
  wGetPartitionsByNamesArgs_TblName : string;
  wGetPartitionsByNamesArgs_Names : slice string;
}.
Definition zero_GetPartitionsByNamesArgs : wGetPartitionsByNamesArgs := mk_wGetPartitionsByNamesArgs EmptyString EmptyString None.
Record wGetPartitionsByNamesResult := mk_wGetPartitionsByNamesResult {
  wGetPartitionsByNamesResult_Success : slice (option wPartition);
  wGetPartitionsByNamesResult_O1 : option wException;
  wGetPartitionsByNamesResult_O2 : option wException;
  wGetPartitionsByNamesResult_O3 : option wException;
}.
Definition zero_GetPartitionsByNamesResult : wGetPartitionsByNamesResult := mk_wGetPartitionsByNamesResult None None None None.

(** ** get_partitions_by_names_req *)

Record wGetPartitionsByNamesReqArgs := mk_wGetPartitionsByNamesReqArgs {
  wGetPartitionsByNamesReqArgs_Req : option wGetPartitionsByNamesRequest;
}.
Definition zero_GetPartitionsByNamesReqArgs : wGetPartitionsByNamesReqArgs := mk_wGetPartitionsByNamesReqArgs None.
Record wGetPartitionsByNamesReqResult := mk_wGetPartitionsByNamesReqResult {
  wGetPartitionsByNamesReqResult_Success : option wGetPartitionsByNamesResult_;
  wGetPartitionsByNamesReqResult_O1 : option wException;
  wGetPartitionsByNamesReqResult_O2 : option wException;
  wGetPartitionsByNamesReqResult_O3 : option wException;
}.
Definition zero_GetPartitionsByNamesReqResult : wGetPartitionsByNamesReqResult := mk_wGetPartitionsByNamesReqResult None None None None.

(** ** get_partitions_by_filter *)

Record wGetPartitionsByFilterArgs := mk_wGetPartitionsByFilterArgs {
  wGetPartitionsByFilterArgs_DbName : string;
  wGetPartitionsByFilterArgs_TblName : string;
  wGetPartitionsByFilterArgs_Filter : string;
  wGetPartitionsByFilterArgs_MaxParts : Z;
}.
Definition zero_GetPartitionsByFilterArgs : wGetPartitionsByFilterArgs := mk_wGetPartitionsByFilterArgs EmptyString EmptyString EmptyString 0.
Record wGetPartitionsByFilterResult := mk_wGetPartitionsByFilterResult {
  wGetPartitionsByFilterResult_Success : slice (option wPartition);
  wGetPartitionsByFilterResult_O1 : option wException;
  wGetPartitionsByFilterResult_O2 : option wException;
}.
Definition zero_GetPartitionsByFilterResult : wGetPartitionsByFilterResult := mk_wGetPartitionsByFilterResult None None None.

(** ** get_partition_names_ps *)

Record wGetPartitionNamesPsArgs := mk_wGetPartitionNamesPsArgs {
  wGetPartitionNamesPsArgs_DbName : string;
  wGetPartitionNamesPsArgs_TblName : string;
  wGetPartitionNamesPsArgs_PartVals : slice string;
  wGetPartitionNamesPsArgs_MaxParts : Z;
}.
Definition zero_GetPartitionNamesPsArgs : wGetPartitionNamesPsArgs := mk_wGetPartitionNamesPsArgs EmptyString EmptyString None 0.
Record wGetPartitionNamesPsResult := mk_wGetPartitionNamesPsResult {
  wGetPartitionNamesPsResult_Success : slice string;
  wGetPartitionNamesPsResult_O1 : option wException;
  wGetPartitionNamesPsResult_O2 : option wException;
}.
Definition zero_GetPartitionNamesPsResult : wGetPartitionNamesPsResult := mk_wGetPartitionNamesPsResult None None None.

(** ** get_partition_names_ps_req *)

Record wGetPartitionNamesPsReqArgs := mk_wGetPartitionNamesPsReqArgs {
  wGetPartitionNamesPsReqArgs_Req : option wGetPartitionNamesPsRequest;
}.
Definition zero_GetPartitionNamesPsReqArgs : wGetPartitionNamesPsReqArgs := mk_wGetPartitionNamesPsReqArgs None.
Record wGetPartitionNamesPsReqResult := mk_wGetPartitionNamesPsReqResult {
  wGetPartitionNamesPsReqResult_Success : option wGetPartitionNamesPsResponse;
  wGetPartitionNamesPsReqResult_O1 : option wException;
  wGetPartitionNamesPsReqResult_O2 : option wException;
}.
Definition zero_GetPartitionNamesPsReqResult : wGetPartitionNamesPsReqResult := mk_wGetPartitionNamesPsReqResult None None None.

Section codec.
Context {P : Type} {TP : TProtocol P} {MR : MapRange} {SB : Substructs P}.

(** ** get_partitions *)

Local Abbreviation T_GetPartitionsArgs := "*hive_metastore.ThriftHiveMetastoreGetPartitionsArgs".
Definition GetPartitionsArgs_set_DbName v '(mk_wGetPartitionsArgs _ x2 x3) : wGetPartitionsArgs :=
  mk_wGetPartitionsArgs v x2 x3.
Definition GetPartitionsArgs_set_TblName v '(mk_wGetPartitionsArgs x1 _ x3) : wGetPartitionsArgs :=
  mk_wGetPartitionsArgs x1 v x3.
Definition GetPartitionsArgs_set_MaxParts v '(mk_wGetPartitionsArgs x1 x2 _) : wGetPartitionsArgs :=
  mk_wGetPartitionsArgs x1 x2 v.

Definition GetPartitionsArgs_writeField1 (p : wGetPartitionsArgs) : M P unit :=
  (write_field T_GetPartitionsArgs "db_name" STRING 1 (write_scalar T_GetPartitionsArgs "db_name" 1 (WriteString (wGetPartitionsArgs_DbName p))))%go.
Definition GetPartitionsArgs_ReadField1 : wGetPartitionsArgs -> MF P wGetPartitionsArgs :=
  assign (read_scalar 1 ReadString)%go GetPartitionsArgs_set_DbName.
Definition GetPartitionsArgs_writeField2 (p : wGetPartitionsArgs) : M P unit :=
  (write_field T_GetPartitionsArgs "tbl_name" STRING 2 (write_scalar T_GetPartitionsArgs "tbl_name" 2 (WriteString (wGetPartitionsArgs_TblName p))))%go.
Definition GetPartitionsArgs_ReadField2 : wGetPartitionsArgs -> MF P wGetPartitionsArgs :=
  assign (read_scalar 2 ReadString)%go GetPartitionsArgs_set_TblName.
Definition GetPartitionsArgs_writeField3 (p : wGetPartitionsArgs) : M P unit :=
  (write_field T_GetPartitionsArgs "max_parts" I16 3 (write_scalar T_GetPartitionsArgs "max_parts" 3 (WriteI16 (wGetPartitionsArgs_MaxParts p))))%go.
Definition GetPartitionsArgs_ReadField3 : wGetPartitionsArgs -> MF P wGetPartitionsArgs :=
  assign (read_scalar 3 ReadI16)%go GetPartitionsArgs_set_MaxParts.
Definition GetPartitionsArgs_Write (p : option wGetPartitionsArgs) : M P unit :=
  write_struct T_GetPartitionsArgs "get_partitions_args" ((fun p => [GetPartitionsArgs_writeField1 p;
     GetPartitionsArgs_writeField2 p; GetPartitionsArgs_writeField3 p]) <$> p).
Definition GetPartitionsArgs_switch : switch wGetPartitionsArgs := fun fieldId =>
  match fieldId with
  | 1 => Some (STRING, GetPartitionsArgs_ReadField1)
  | 2 => Some (STRING, GetPartitionsArgs_ReadField2)
  | 3 => Some (I16, GetPartitionsArgs_ReadField3)
  | _ => None
  end.
Definition GetPartitionsArgs_Read (fuel : nat) : wGetPartitionsArgs -> MF P wGetPartitionsArgs :=
  read_struct T_GetPartitionsArgs [] GetPartitionsArgs_switch fuel.

Local Abbreviation T_GetPartitionsResult := "*hive_metastore.ThriftHiveMetastoreGetPartitionsResult".
Definition GetPartitionsResult_set_Success v '(mk_wGetPartitionsResult _ x2 x3) : wGetPartitionsResult :=
  mk_wGetPartitionsResult v x2 x3.
Definition GetPartitionsResult_set_O1 v '(mk_wGetPartitionsResult x1 _ x3) : wGetPartitionsResult :=
  mk_wGetPartitionsResult x1 v x3.
Definition GetPartitionsResult_set_O2 v '(mk_wGetPartitionsResult x1 x2 _) : wGetPartitionsResult :=
  mk_wGetPartitionsResult x1 x2 v.

Definition GetPartitionsResult_writeField0 (p : wGetPartitionsResult) : M P unit :=
  (when (bool_decide (is_Some (wGetPartitionsResult_Success p)))
    (write_field T_GetPartitionsResult "success" LIST 0 (write_list STRUCT (fun v => write_sub "*hive_metastore.Partition" (Partition_Write v)) (wGetPartitionsResult_Success p))))%go.
Definition GetPartitionsResult_ReadField0 (fuel : nat) : wGetPartitionsResult -> MF P wGetPartitionsResult :=
  assign (read_list (v <-- read_sub "*hive_metastore.Partition" (Partition_Read fuel NewPartition);;
     liftF (ret (Some v))))%go GetPartitionsResult_set_Success.
Definition GetPartitionsResult_writeField1 (p : wGetPartitionsResult) : M P unit :=
  (opt (wGetPartitionsResult_O1 p) (fun v =>
    write_field T_GetPartitionsResult "o1" STRUCT 1 (write_sub "*hive_metastore.NoSuchObjectException" (Exception_Write NoSuchObjectException (Some v)))))%go.
Definition GetPartitionsResult_ReadField1 (fuel : nat) : wGetPartitionsResult -> MF P wGetPartitionsResult :=
  assign (read_sub "*hive_metastore.NoSuchObjectException" (Exception_Read NoSuchObjectException fuel NewException))%go (fun v => GetPartitionsResult_set_O1 (Some v)).
Definition GetPartitionsResult_writeField2 (p : wGetPartitionsResult) : M P unit :=
  (opt (wGetPartitionsResult_O2 p) (fun v =>
    write_field T_GetPartitionsResult "o2" STRUCT 2 (write_sub "*hive_metastore.MetaException" (Exception_Write MetaException (Some v)))))%go.
Definition GetPartitionsResult_ReadField2 (fuel : nat) : wGetPartitionsResult -> MF P wGetPartitionsResult :=
  assign (read_sub "*hive_metastore.MetaException" (Exception_Read MetaException fuel NewException))%go (fun v => GetPartitionsResult_set_O2 (Some v)).
Definition GetPartitionsResult_Write (p : option wGetPartitionsResult) : M P unit :=
  write_struct T_GetPartitionsResult "get_partitions_result" ((fun p => [GetPartitionsResult_writeField0 p;
     GetPartitionsResult_writeField1 p; GetPartitionsResult_writeField2 p]) <$> p).
Definition GetPartitionsResult_switch (fuel : nat) : switch wGetPartitionsResult := fun fieldId =>
  match fieldId with
  | 0 => Some (LIST, GetPartitionsResult_ReadField0 fuel)
  | 1 => Some (STRUCT, GetPartitionsResult_ReadField1 fuel)
  | 2 => Some (STRUCT, GetPartitionsResult_ReadField2 fuel)
  | _ => None
  end.
Definition GetPartitionsResult_Read (fuel : nat) : wGetPartitionsResult -> MF P wGetPartitionsResult :=
  read_struct T_GetPartitionsResult [] (GetPartitionsResult_switch fuel) fuel.

(** ** get_partitions_req *)

Local Abbreviation T_GetPartitionsReqArgs := "*hive_metastore.ThriftHiveMetastoreGetPartitionsReqArgs".
Definition GetPartitionsReqArgs_set_Req v (_ : wGetPartitionsReqArgs) : wGetPartitionsReqArgs := mk_wGetPartitionsReqArgs v.

Definition GetPartitionsReqArgs_writeField1 (p : wGetPartitionsReqArgs) : M P unit :=
  (opt (wGetPartitionsReqArgs_Req p) (fun v =>
    write_field T_GetPartitionsReqArgs "req" STRUCT 1 (write_sub "*hive_metastore.PartitionsRequest" (PartitionsRequest_Write (Some v)))))%go.
Definition GetPartitionsReqArgs_ReadField1 (fuel : nat) : wGetPartitionsReqArgs -> MF P wGetPartitionsReqArgs :=
  assign (read_sub "*hive_metastore.PartitionsRequest" (PartitionsRequest_Read fuel NewPartitionsRequest))%go (fun v => GetPartitionsReqArgs_set_Req (Some v)).
Definition GetPartitionsReqArgs_Write (p : option wGetPartitionsReqArgs) : M P unit :=
  write_struct T_GetPartitionsReqArgs "get_partitions_req_args" ((fun p => [GetPartitionsReqArgs_writeField1 p]) <$> p).
Definition GetPartitionsReqArgs_switch (fuel : nat) : switch wGetPartitionsReqArgs := fun fieldId =>
  match fieldId with
  | 1 => Some (STRUCT, GetPartitionsReqArgs_ReadField1 fuel)
  | _ => None
  end.
Definition GetPartitionsReqArgs_Read (fuel : nat) : wGetPartitionsReqArgs -> MF P wGetPartitionsReqArgs :=
  read_struct T_GetPartitionsReqArgs [] (GetPartitionsReqArgs_switch fuel) fuel.

Local Abbreviation T_GetPartitionsReqResult := "*hive_metastore.ThriftHiveMetastoreGetPartitionsReqResult".
Definition GetPartitionsReqResult_set_Success v '(mk_wGetPartitionsReqResult _ x2 x3) : wGetPartitionsReqResult :=
  mk_wGetPartitionsReqResult v x2 x3.
Definition GetPartitionsReqResult_set_O1 v '(mk_wGetPartitionsReqResult x1 _ x3) : wGetPartitionsReqResult :=
  mk_wGetPartitionsReqResult x1 v x3.
Definition GetPartitionsReqResult_set_O2 v '(mk_wGetPartitionsReqResult x1 x2 _) : wGetPartitionsReqResult :=
  mk_wGetPartitionsReqResult x1 x2 v.

Definition GetPartitionsReqResult_writeField0 (p : wGetPartitionsReqResult) : M P unit :=
  (opt (wGetPartitionsReqResult_Success p) (fun v =>
    write_field T_GetPartitionsReqResult "success" STRUCT 0 (write_sub "*hive_metastore.PartitionsResponse" (PartitionsResponse_Write (Some v)))))%go.
Definition GetPartitionsReqResult_ReadField0 (fuel : nat) : wGetPartitionsReqResult -> MF P wGetPartitionsReqResult :=
  assign (read_sub "*hive_metastore.PartitionsResponse" (PartitionsResponse_Read fuel NewPartitionsResponse))%go (fun v => GetPartitionsReqResult_set_Success (Some v)).
Definition GetPartitionsReqResult_writeField1 (p : wGetPartitionsReqResult) : M P unit :=
  (opt (wGetPartitionsReqResult_O1 p) (fun v =>
    write_field T_GetPartitionsReqResult "o1" STRUCT 1 (write_sub "*hive_metastore.NoSuchObjectException" (Exception_Write NoSuchObjectException (Some v)))))%go.
Definition GetPartitionsReqResult_ReadField1 (fuel : nat) : wGetPartitionsReqResult -> MF P wGetPartitionsReqResult :=
  assign (read_sub "*hive_metastore.NoSuchObjectException" (Exception_Read NoSuchObjectException fuel NewException))%go (fun v => GetPartitionsReqResult_set_O1 (Some v)).
Definition GetPartitionsReqResult_writeField2 (p : wGetPartitionsReqResult) : M P unit :=
  (opt (wGetPartitionsReqResult_O2 p) (fun v =>
    write_field T_GetPartitionsReqResult "o2" STRUCT 2 (write_sub "*hive_metastore.MetaException" (Exception_Write MetaException (Some v)))))%go.
Definition GetPartitionsReqResult_ReadField2 (fuel : nat) : wGetPartitionsReqResult -> MF P wGetPartitionsReqResult :=
  assign (read_sub "*hive_metastore.MetaException" (Exception_Read MetaException fuel NewException))%go (fun v => GetPartitionsReqResult_set_O2 (Some v)).
Definition GetPartitionsReqResult_Write (p : option wGetPartitionsReqResult) : M P unit :=
  write_struct T_GetPartitionsReqResult "get_partitions_req_result" ((fun p => [GetPartitionsReqResult_writeField0 p;
     GetPartitionsReqResult_writeField1 p; GetPartitionsReqResult_writeField2 p]) <$> p).
Definition GetPartitionsReqResult_switch (fuel : nat) : switch wGetPartitionsReqResult := fun fieldId =>
  match fieldId with
  | 0 => Some (STRUCT, GetPartitionsReqResult_ReadField0 fuel)
  | 1 => Some (STRUCT, GetPartitionsReqResult_ReadField1 fuel)
  | 2 => Some (STRUCT, GetPartitionsReqResult_ReadField2 fuel)
  | _ => None
  end.
Definition GetPartitionsReqResult_Read (fuel : nat) : wGetPartitionsReqResult -> MF P wGetPartitionsReqResult :=
  read_struct T_GetPartitionsReqResult [] (GetPartitionsReqResult_switch fuel) fuel.

(** ** get_partition_names *)

Local Abbreviation T_GetPartitionNamesArgs := "*hive_metastore.ThriftHiveMetastoreGetPartitionNamesArgs".
Definition GetPartitionNamesArgs_set_DbName v '(mk_wGetPartitionNamesArgs _ x2 x3) : wGetPartitionNamesArgs :=
  mk_wGetPartitionNamesArgs v x2 x3.
Definition GetPartitionNamesArgs_set_TblName v '(mk_wGetPartitionNamesArgs x1 _ x3) : wGetPartitionNamesArgs :=
  mk_wGetPartitionNamesArgs x1 v x3.
Definition GetPartitionNamesArgs_set_MaxParts v '(mk_wGetPartitionNamesArgs x1 x2 _) : wGetPartitionNamesArgs :=
  mk_wGetPartitionNamesArgs x1 x2 v.

Definition GetPartitionNamesArgs_writeField1 (p : wGetPartitionNamesArgs) : M P unit :=
  (write_field T_GetPartitionNamesArgs "db_name" STRING 1 (write_scalar T_GetPartitionNamesArgs "db_name" 1 (WriteString (wGetPartitionNamesArgs_DbName p))))%go.
Definition GetPartitionNamesArgs_ReadField1 : wGetPartitionNamesArgs -> MF P wGetPartitionNamesArgs :=
  assign (read_scalar 1 ReadString)%go GetPartitionNamesArgs_set_DbName.
Definition GetPartitionNamesArgs_writeField2 (p : wGetPartitionNamesArgs) : M P unit :=
  (write_field T_GetPartitionNamesArgs "tbl_name" STRING 2 (write_scalar T_GetPartitionNamesArgs "tbl_name" 2 (WriteString (wGetPartitionNamesArgs_TblName p))))%go.
Definition GetPartitionNamesArgs_ReadField2 : wGetPartitionNamesArgs -> MF P wGetPartitionNamesArgs :=
  assign (read_scalar 2 ReadString)%go GetPartitionNamesArgs_set_TblName.
Definition GetPartitionNamesArgs_writeField3 (p : wGetPartitionNamesArgs) : M P unit :=
  (write_field T_GetPartitionNamesArgs "max_parts" I16 3 (write_scalar T_GetPartitionNamesArgs "max_parts" 3 (WriteI16 (wGetPartitionNamesArgs_MaxParts p))))%go.
Definition GetPartitionNamesArgs_ReadField3 : wGetPartitionNamesArgs -> MF P wGetPartitionNamesArgs :=
  assign (read_scalar 3 ReadI16)%go GetPartitionNamesArgs_set_MaxParts.
Definition GetPartitionNamesArgs_Write (p : option wGetPartitionNamesArgs) : M P unit :=
  write_struct T_GetPartitionNamesArgs "get_partition_names_args" ((fun p => [GetPartitionNamesArgs_writeField1 p;
     GetPartitionNamesArgs_writeField2 p; GetPartitionNamesArgs_writeField3 p]) <$> p).
Definition GetPartitionNamesArgs_switch : switch wGetPartitionNamesArgs := fun fieldId =>
  match fieldId with
  | 1 => Some (STRING, GetPartitionNamesArgs_ReadField1)
  | 2 => Some (STRING, GetPartitionNamesArgs_ReadField2)
  | 3 => Some (I16, GetPartitionNamesArgs_ReadField3)
  | _ => None
  end.
Definition GetPartitionNamesArgs_Read (fuel : nat) : wGetPartitionNamesArgs -> MF P wGetPartitionNamesArgs :=
  read_struct T_GetPartitionNamesArgs [] GetPartitionNamesArgs_switch fuel.

Local Abbreviation T_GetPartitionNamesResult := "*hive_metastore.ThriftHiveMetastoreGetPartitionNamesResult".
Definition GetPartitionNamesResult_set_Success v '(mk_wGetPartitionNamesResult _ x2 x3) : wGetPartitionNamesResult :=
  mk_wGetPartitionNamesResult v x2 x3.
Definition GetPartitionNamesResult_set_O1 v '(mk_wGetPartitionNamesResult x1 _ x3) : wGetPartitionNamesResult :=
  mk_wGetPartitionNamesResult x1 v x3.
Definition GetPartitionNamesResult_set_O2 v '(mk_wGetPartitionNamesResult x1 x2 _) : wGetPartitionNamesResult :=
  mk_wGetPartitionNamesResult x1 x2 v.

Definition GetPartitionNamesResult_writeField0 (p : wGetPartitionNamesResult) : M P unit :=
  (when (bool_decide (is_Some (wGetPartitionNamesResult_Success p)))
    (write_field T_GetPartitionNamesResult "success" LIST 0 (write_strings T_GetPartitionNamesResult (wGetPartitionNamesResult_Success p))))%go.
Definition GetPartitionNamesResult_ReadField0 : wGetPartitionNamesResult -> MF P wGetPartitionNamesResult :=
  assign (read_strings)%go GetPartitionNamesResult_set_Success.
Definition GetPartitionNamesResult_writeField1 (p : wGetPartitionNamesResult) : M P unit :=
  (opt (wGetPartitionNamesResult_O1 p) (fun v =>
    write_field T_GetPartitionNamesResult "o1" STRUCT 1 (write_sub "*hive_metastore.NoSuchObjectException" (Exception_Write NoSuchObjectException (Some v)))))%go.
Definition GetPartitionNamesResult_ReadField1 (fuel : nat) : wGetPartitionNamesResult -> MF P wGetPartitionNamesResult :=
  assign (read_sub "*hive_metastore.NoSuchObjectException" (Exception_Read NoSuchObjectException fuel NewException))%go (fun v => GetPartitionNamesResult_set_O1 (Some v)).
Definition GetPartitionNamesResult_writeField2 (p : wGetPartitionNamesResult) : M P unit :=
  (opt (wGetPartitionNamesResult_O2 p) (fun v =>
    write_field T_GetPartitionNamesResult "o2" STRUCT 2 (write_sub "*hive_metastore.MetaException" (Exception_Write MetaException (Some v)))))%go.
Definition GetPartitionNamesResult_ReadField2 (fuel : nat) : wGetPartitionNamesResult -> MF P wGetPartitionNamesResult :=
  assign (read_sub "*hive_metastore.MetaException" (Exception_Read MetaException fuel NewException))%go (fun v => GetPartitionNamesResult_set_O2 (Some v)).
Definition GetPartitionNamesResult_Write (p : option wGetPartitionNamesResult) : M P unit :=
  write_struct T_GetPartitionNamesResult "get_partition_names_result" ((fun p => [GetPartitionNamesResult_writeField0 p; GetPartitionNamesResult_writeField1 p; GetPartitionNamesResult_writeField2 p]) <$> p).
Definition GetPartitionNamesResult_switch (fuel : nat) : switch wGetPartitionNamesResult := fun fieldId =>
  match fieldId with
  | 0 => Some (LIST, GetPartitionNamesResult_ReadField0)
  | 1 => Some (STRUCT, GetPartitionNamesResult_ReadField1 fuel)
  | 2 => Some (STRUCT, GetPartitionNamesResult_ReadField2 fuel)
  | _ => None
  end.
Definition GetPartitionNamesResult_Read (fuel : nat) : wGetPartitionNamesResult -> MF P wGetPartitionNamesResult :=
  read_struct T_GetPartitionNamesResult [] (GetPartitionNamesResult_switch fuel) fuel.

(** ** add_partitions_req *)

Local Abbreviation T_AddPartitionsReqArgs := "*hive_metastore.ThriftHiveMetastoreAddPartitionsReqArgs".
Definition AddPartitionsReqArgs_set_Request v (_ : wAddPartitionsReqArgs) : wAddPartitionsReqArgs := mk_wAddPartitionsReqArgs v.

Definition AddPartitionsReqArgs_writeField1 (p : wAddPartitionsReqArgs) : M P unit :=
  (opt (wAddPartitionsReqArgs_Request p) (fun v =>
    write_field T_AddPartitionsReqArgs "request" STRUCT 1 (write_sub "*hive_metastore.AddPartitionsRequest" (AddPartitionsRequest_Write (Some v)))))%go.
Definition AddPartitionsReqArgs_ReadField1 (fuel : nat) : wAddPartitionsReqArgs -> MF P wAddPartitionsReqArgs :=
  assign (read_sub "*hive_metastore.AddPartitionsRequest" (AddPartitionsRequest_Read fuel NewAddPartitionsRequest))%go (fun v => AddPartitionsReqArgs_set_Request (Some v)).
Definition AddPartitionsReqArgs_Write (p : option wAddPartitionsReqArgs) : M P unit :=
  write_struct T_AddPartitionsReqArgs "add_partitions_req_args" ((fun p => [AddPartitionsReqArgs_writeField1 p]) <$> p).
Definition AddPartitionsReqArgs_switch (fuel : nat) : switch wAddPartitionsReqArgs := fun fieldId =>
  match fieldId with
  | 1 => Some (STRUCT, AddPartitionsReqArgs_ReadField1 fuel)
  | _ => None
  end.
Definition AddPartitionsReqArgs_Read (fuel : nat) : wAddPartitionsReqArgs -> MF P wAddPartitionsReqArgs :=
  read_struct T_AddPartitionsReqArgs [] (AddPartitionsReqArgs_switch fuel) fuel.

Local Abbreviation T_AddPartitionsReqResult := "*hive_metastore.ThriftHiveMetastoreAddPartitionsReqResult".
Definition AddPartitionsReqResult_set_Success v '(mk_wAddPartitionsReqResult _ x2 x3 x4) : wAddPartitionsReqResult :=
  mk_wAddPartitionsReqResult v x2 x3 x4.
Definition AddPartitionsReqResult_set_O1 v '(mk_wAddPartitionsReqResult x1 _ x3 x4) : wAddPartitionsReqResult :=
  mk_wAddPartitionsReqResult x1 v x3 x4.
Definition AddPartitionsReqResult_set_O2 v '(mk_wAddPartitionsReqResult x1 x2 _ x4) : wAddPartitionsReqResult :=
  mk_wAddPartitionsReqResult x1 x2 v x4.
Definition AddPartitionsReqResult_set_O3 v '(mk_wAddPartitionsReqResult x1 x2 x3 _) : wAddPartitionsReqResult :=
  mk_wAddPartitionsReqResult x1 x2 x3 v.

Definition AddPartitionsReqResult_writeField0 (p : wAddPartitionsReqResult) : M P unit :=
  (opt (wAddPartitionsReqResult_Success p) (fun v =>
    write_field T_AddPartitionsReqResult "success" STRUCT 0 (write_sub "*hive_metastore.AddPartitionsResult_" (AddPartitionsResult__Write (Some v)))))%go.
Definition AddPartitionsReqResult_ReadField0 (fuel : nat) : wAddPartitionsReqResult -> MF P wAddPartitionsReqResult :=
  assign (read_sub "*hive_metastore.AddPartitionsResult_" (AddPartitionsResult__Read fuel NewAddPartitionsResult_))%go (fun v => AddPartitionsReqResult_set_Success (Some v)).
Definition AddPartitionsReqResult_writeField1 (p : wAddPartitionsReqResult) : M P unit :=
  (opt (wAddPartitionsReqResult_O1 p) (fun v =>
    write_field T_AddPartitionsReqResult "o1" STRUCT 1 (write_sub "*hive_metastore.InvalidObjectException" (Exception_Write InvalidObjectException (Some v)))))%go.
Definition AddPartitionsReqResult_ReadField1 (fuel : nat) : wAddPartitionsReqResult -> MF P wAddPartitionsReqResult :=
  assign (read_sub "*hive_metastore.InvalidObjectException" (Exception_Read InvalidObjectException fuel NewException))%go (fun v => AddPartitionsReqResult_set_O1 (Some v)).
Definition AddPartitionsReqResult_writeField2 (p : wAddPartitionsReqResult) : M P unit :=
  (opt (wAddPartitionsReqResult_O2 p) (fun v =>
    write_field T_AddPartitionsReqResult "o2" STRUCT 2 (write_sub "*hive_metastore.AlreadyExistsException" (Exception_Write AlreadyExistsException (Some v)))))%go.
Definition AddPartitionsReqResult_ReadField2 (fuel : nat) : wAddPartitionsReqResult -> MF P wAddPartitionsReqResult :=
  assign (read_sub "*hive_metastore.AlreadyExistsException" (Exception_Read AlreadyExistsException fuel NewException))%go (fun v => AddPartitionsReqResult_set_O2 (Some v)).
Definition AddPartitionsReqResult_writeField3 (p : wAddPartitionsReqResult) : M P unit :=
  (opt (wAddPartitionsReqResult_O3 p) (fun v =>
    write_field T_AddPartitionsReqResult "o3" STRUCT 3 (write_sub "*hive_metastore.MetaException" (Exception_Write MetaException (Some v)))))%go.
Definition AddPartitionsReqResult_ReadField3 (fuel : nat) : wAddPartitionsReqResult -> MF P wAddPartitionsReqResult :=
  assign (read_sub "*hive_metastore.MetaException" (Exception_Read MetaException fuel NewException))%go (fun v => AddPartitionsReqResult_set_O3 (Some v)).
Definition AddPartitionsReqResult_Write (p : option wAddPartitionsReqResult) : M P unit :=
  write_struct T_AddPartitionsReqResult "add_partitions_req_result" ((fun p => [AddPartitionsReqResult_writeField0 p;
     AddPartitionsReqResult_writeField1 p; AddPartitionsReqResult_writeField2 p;
     AddPartitionsReqResult_writeField3 p]) <$> p).
Definition AddPartitionsReqResult_switch (fuel : nat) : switch wAddPartitionsReqResult := fun fieldId =>
  match fieldId with
  | 0 => Some (STRUCT, AddPartitionsReqResult_ReadField0 fuel)
  | 1 => Some (STRUCT, AddPartitionsReqResult_ReadField1 fuel)
  | 2 => Some (STRUCT, AddPartitionsReqResult_ReadField2 fuel)
  | 3 => Some (STRUCT, AddPartitionsReqResult_ReadField3 fuel)
  | _ => None
  end.
Definition AddPartitionsReqResult_Read (fuel : nat) : wAddPartitionsReqResult -> MF P wAddPartitionsReqResult :=
  read_struct T_AddPartitionsReqResult [] (AddPartitionsReqResult_switch fuel) fuel.

(** ** alter_partitions *)

Local Abbreviation T_AlterPartitionsArgs := "*hive_metastore.ThriftHiveMetastoreAlterPartitionsArgs".
Definition AlterPartitionsArgs_set_DbName v '(mk_wAlterPartitionsArgs _ x2 x3) : wAlterPartitionsArgs :=
  mk_wAlterPartitionsArgs v x2 x3.
Definition AlterPartitionsArgs_set_TblName v '(mk_wAlterPartitionsArgs x1 _ x3) : wAlterPartitionsArgs :=
  mk_wAlterPartitionsArgs x1 v x3.
Definition AlterPartitionsArgs_set_NewParts_ v '(mk_wAlterPartitionsArgs x1 x2 _) : wAlterPartitionsArgs :=
  mk_wAlterPartitionsArgs x1 x2 v.

Definition AlterPartitionsArgs_writeField1 (p : wAlterPartitionsArgs) : M P unit :=
  (write_field T_AlterPartitionsArgs "db_name" STRING 1 (write_scalar T_AlterPartitionsArgs "db_name" 1 (WriteString (wAlterPartitionsArgs_DbName p))))%go.
Definition AlterPartitionsArgs_ReadField1 : wAlterPartitionsArgs -> MF P wAlterPartitionsArgs :=
  assign (read_scalar 1 ReadString)%go AlterPartitionsArgs_set_DbName.
Definition AlterPartitionsArgs_writeField2 (p : wAlterPartitionsArgs) : M P unit :=
  (write_field T_AlterPartitionsArgs "tbl_name" STRING 2 (write_scalar T_AlterPartitionsArgs "tbl_name" 2 (WriteString (wAlterPartitionsArgs_TblName p))))%go.
Definition AlterPartitionsArgs_ReadField2 : wAlterPartitionsArgs -> MF P wAlterPartitionsArgs :=
  assign (read_scalar 2 ReadString)%go AlterPartitionsArgs_set_TblName.
Definition AlterPartitionsArgs_writeField3 (p : wAlterPartitionsArgs) : M P unit :=
  (write_field T_AlterPartitionsArgs "new_parts" LIST 3 (write_list STRUCT (fun v => write_sub "*hive_metastore.Partition" (Partition_Write v)) (wAlterPartitionsArgs_NewParts_ p)))%go.
Definition AlterPartitionsArgs_ReadField3 (fuel : nat) : wAlterPartitionsArgs -> MF P wAlterPartitionsArgs :=
  assign (read_list (v <-- read_sub "*hive_metastore.Partition" (Partition_Read fuel NewPartition);;
     liftF (ret (Some v))))%go AlterPartitionsArgs_set_NewParts_.
Definition AlterPartitionsArgs_Write (p : option wAlterPartitionsArgs) : M P unit :=
  write_struct T_AlterPartitionsArgs "alter_partitions_args" ((fun p => [AlterPartitionsArgs_writeField1 p;
     AlterPartitionsArgs_writeField2 p; AlterPartitionsArgs_writeField3 p]) <$> p).
Definition AlterPartitionsArgs_switch (fuel : nat) : switch wAlterPartitionsArgs := fun fieldId =>
  match fieldId with
  | 1 => Some (STRING, AlterPartitionsArgs_ReadField1)
  | 2 => Some (STRING, AlterPartitionsArgs_ReadField2)
  | 3 => Some (LIST, AlterPartitionsArgs_ReadField3 fuel)
  | _ => None
  end.
Definition AlterPartitionsArgs_Read (fuel : nat) : wAlterPartitionsArgs -> MF P wAlterPartitionsArgs :=
  read_struct T_AlterPartitionsArgs [] (AlterPartitionsArgs_switch fuel) fuel.

Local Abbreviation T_AlterPartitionsResult := "*hive_metastore.ThriftHiveMetastoreAlterPartitionsResult".
Definition AlterPartitionsResult_set_O1 v '(mk_wAlterPartitionsResult _ x2) : wAlterPartitionsResult :=
  mk_wAlterPartitionsResult v x2.
Definition AlterPartitionsResult_set_O2 v '(mk_wAlterPartitionsResult x1 _) : wAlterPartitionsResult :=
  mk_wAlterPartitionsResult x1 v.

Definition AlterPartitionsResult_writeField1 (p : wAlterPartitionsResult) : M P unit :=
  (opt (wAlterPartitionsResult_O1 p) (fun v =>
    write_field T_AlterPartitionsResult "o1" STRUCT 1 (write_sub "*hive_metastore.InvalidOperationException" (Exception_Write InvalidOperationException (Some v)))))%go.
Definition AlterPartitionsResult_ReadField1 (fuel : nat) : wAlterPartitionsResult -> MF P wAlterPartitionsResult :=
  assign (read_sub "*hive_metastore.InvalidOperationException" (Exception_Read InvalidOperationException fuel NewException))%go (fun v => AlterPartitionsResult_set_O1 (Some v)).
Definition AlterPartitionsResult_writeField2 (p : wAlterPartitionsResult) : M P unit :=
  (opt (wAlterPartitionsResult_O2 p) (fun v =>
    write_field T_AlterPartitionsResult "o2" STRUCT 2 (write_sub "*hive_metastore.MetaException" (Exception_Write MetaException (Some v)))))%go.
Definition AlterPartitionsResult_ReadField2 (fuel : nat) : wAlterPartitionsResult -> MF P wAlterPartitionsResult :=
  assign (read_sub "*hive_metastore.MetaException" (Exception_Read MetaException fuel NewException))%go (fun v => AlterPartitionsResult_set_O2 (Some v)).
Definition AlterPartitionsResult_Write (p : option wAlterPartitionsResult) : M P unit :=
  write_struct T_AlterPartitionsResult "alter_partitions_result" ((fun p => [AlterPartitionsResult_writeField1 p;
     AlterPartitionsResult_writeField2 p]) <$> p).
Definition AlterPartitionsResult_switch (fuel : nat) : switch wAlterPartitionsResult := fun fieldId =>
  match fieldId with
  | 1 => Some (STRUCT, AlterPartitionsResult_ReadField1 fuel)
  | 2 => Some (STRUCT, AlterPartitionsResult_ReadField2 fuel)
  | _ => None
  end.
Definition AlterPartitionsResult_Read (fuel : nat) : wAlterPartitionsResult -> MF P wAlterPartitionsResult :=
  read_struct T_AlterPartitionsResult [] (AlterPartitionsResult_switch fuel) fuel.

(** ** alter_partitions_req *)

Local Abbreviation T_AlterPartitionsReqArgs := "*hive_metastore.ThriftHiveMetastoreAlterPartitionsReqArgs".
Definition AlterPartitionsReqArgs_set_Req v (_ : wAlterPartitionsReqArgs) : wAlterPartitionsReqArgs := mk_wAlterPartitionsReqArgs v.

Definition AlterPartitionsReqArgs_writeField1 (p : wAlterPartitionsReqArgs) : M P unit :=
  (opt (wAlterPartitionsReqArgs_Req p) (fun v =>
    write_field T_AlterPartitionsReqArgs "req" STRUCT 1 (write_sub "*hive_metastore.AlterPartitionsRequest" (AlterPartitionsRequest_Write (Some v)))))%go.
Definition AlterPartitionsReqArgs_ReadField1 (fuel : nat) : wAlterPartitionsReqArgs -> MF P wAlterPartitionsReqArgs :=
  assign (read_sub "*hive_metastore.AlterPartitionsRequest" (AlterPartitionsRequest_Read fuel NewAlterPartitionsRequest))%go (fun v => AlterPartitionsReqArgs_set_Req (Some v)).
Definition AlterPartitionsReqArgs_Write (p : option wAlterPartitionsReqArgs) : M P unit :=
  write_struct T_AlterPartitionsReqArgs "alter_partitions_req_args" ((fun p => [AlterPartitionsReqArgs_writeField1 p]) <$> p).
Definition AlterPartitionsReqArgs_switch (fuel : nat) : switch wAlterPartitionsReqArgs := fun fieldId =>
  match fieldId with
  | 1 => Some (STRUCT, AlterPartitionsReqArgs_ReadField1 fuel)
  | _ => None
  end.
Definition AlterPartitionsReqArgs_Read (fuel : nat) : wAlterPartitionsReqArgs -> MF P wAlterPartitionsReqArgs :=
  read_struct T_AlterPartitionsReqArgs [] (AlterPartitionsReqArgs_switch fuel) fuel.

Local Abbreviation T_AlterPartitionsReqResult := "*hive_metastore.ThriftHiveMetastoreAlterPartitionsReqResult".
Definition AlterPartitionsReqResult_set_Success v '(mk_wAlterPartitionsReqResult _ x2 x3) : wAlterPartitionsReqResult :=
  mk_wAlterPartitionsReqResult v x2 x3.
Definition AlterPartitionsReqResult_set_O1 v '(mk_wAlterPartitionsReqResult x1 _ x3) : wAlterPartitionsReqResult :=
  mk_wAlterPartitionsReqResult x1 v x3.
Definition AlterPartitionsReqResult_set_O2 v '(mk_wAlterPartitionsReqResult x1 x2 _) : wAlterPartitionsReqResult :=
  mk_wAlterPartitionsReqResult x1 x2 v.

Definition AlterPartitionsReqResult_writeField0 (p : wAlterPartitionsReqResult) : M P unit :=
  (opt (wAlterPartitionsReqResult_Success p) (fun v =>
    write_field T_AlterPartitionsReqResult "success" STRUCT 0 (write_sub "*hive_metastore.AlterPartitionsResponse" (AlterPartitionsResponse_Write (Some v)))))%go.
Definition AlterPartitionsReqResult_ReadField0 (fuel : nat) : wAlterPartitionsReqResult -> MF P wAlterPartitionsReqResult :=
  assign (read_sub "*hive_metastore.AlterPartitionsResponse" (AlterPartitionsResponse_Read fuel NewAlterPartitionsResponse))%go (fun v => AlterPartitionsReqResult_set_Success (Some v)).
Definition AlterPartitionsReqResult_writeField1 (p : wAlterPartitionsReqResult) : M P unit :=
  (opt (wAlterPartitionsReqResult_O1 p) (fun v =>
    write_field T_AlterPartitionsReqResult "o1" STRUCT 1 (write_sub "*hive_metastore.InvalidOperationException" (Exception_Write InvalidOperationException (Some v)))))%go.
Definition AlterPartitionsReqResult_ReadField1 (fuel : nat) : wAlterPartitionsReqResult -> MF P wAlterPartitionsReqResult :=
  assign (read_sub "*hive_metastore.InvalidOperationException" (Exception_Read InvalidOperationException fuel NewException))%go (fun v => AlterPartitionsReqResult_set_O1 (Some v)).
Definition AlterPartitionsReqResult_writeField2 (p : wAlterPartitionsReqResult) : M P unit :=
  (opt (wAlterPartitionsReqResult_O2 p) (fun v =>
    write_field T_AlterPartitionsReqResult "o2" STRUCT 2 (write_sub "*hive_metastore.MetaException" (Exception_Write MetaException (Some v)))))%go.
Definition AlterPartitionsReqResult_ReadField2 (fuel : nat) : wAlterPartitionsReqResult -> MF P wAlterPartitionsReqResult :=
  assign (read_sub "*hive_metastore.MetaException" (Exception_Read MetaException fuel NewException))%go (fun v => AlterPartitionsReqResult_set_O2 (Some v)).
Definition AlterPartitionsReqResult_Write (p : option wAlterPartitionsReqResult) : M P unit :=
  write_struct T_AlterPartitionsReqResult "alter_partitions_req_result" ((fun p => [AlterPartitionsReqResult_writeField0 p; AlterPartitionsReqResult_writeField1 p; AlterPartitionsReqResult_writeField2 p]) <$> p).
Definition AlterPartitionsReqResult_switch (fuel : nat) : switch wAlterPartitionsReqResult := fun fieldId =>
  match fieldId with
  | 0 => Some (STRUCT, AlterPartitionsReqResult_ReadField0 fuel)
  | 1 => Some (STRUCT, AlterPartitionsReqResult_ReadField1 fuel)
  | 2 => Some (STRUCT, AlterPartitionsReqResult_ReadField2 fuel)
  | _ => None
  end.
Definition AlterPartitionsReqResult_Read (fuel : nat) : wAlterPartitionsReqResult -> MF P wAlterPartitionsReqResult :=
  read_struct T_AlterPartitionsReqResult [] (AlterPartitionsReqResult_switch fuel) fuel.

(** ** drop_partition *)

Local Abbreviation T_DropPartitionArgs := "*hive_metastore.ThriftHiveMetastoreDropPartitionArgs".
Definition DropPartitionArgs_set_DbName v '(mk_wDropPartitionArgs _ x2 x3 x4) : wDropPartitionArgs :=
  mk_wDropPartitionArgs v x2 x3 x4.
Definition DropPartitionArgs_set_TblName v '(mk_wDropPartitionArgs x1 _ x3 x4) : wDropPartitionArgs :=
  mk_wDropPartitionArgs x1 v x3 x4.
Definition DropPartitionArgs_set_PartVals v '(mk_wDropPartitionArgs x1 x2 _ x4) : wDropPartitionArgs :=
  mk_wDropPartitionArgs x1 x2 v x4.
Definition DropPartitionArgs_set_DeleteData v '(mk_wDropPartitionArgs x1 x2 x3 _) : wDropPartitionArgs :=
  mk_wDropPartitionArgs x1 x2 x3 v.

Definition DropPartitionArgs_writeField1 (p : wDropPartitionArgs) : M P unit :=
  (write_field T_DropPartitionArgs "db_name" STRING 1 (write_scalar T_DropPartitionArgs "db_name" 1 (WriteString (wDropPartitionArgs_DbName p))))%go.
Definition DropPartitionArgs_ReadField1 : wDropPartitionArgs -> MF P wDropPartitionArgs :=
  assign (read_scalar 1 ReadString)%go DropPartitionArgs_set_DbName.
Definition DropPartitionArgs_writeField2 (p : wDropPartitionArgs) : M P unit :=
  (write_field T_DropPartitionArgs "tbl_name" STRING 2 (write_scalar T_DropPartitionArgs "tbl_name" 2 (WriteString (wDropPartitionArgs_TblName p))))%go.
Definition DropPartitionArgs_ReadField2 : wDropPartitionArgs -> MF P wDropPartitionArgs :=
  assign (read_scalar 2 ReadString)%go DropPartitionArgs_set_TblName.
Definition DropPartitionArgs_writeField3 (p : wDropPartitionArgs) : M P unit :=
  (write_field T_DropPartitionArgs "part_vals" LIST 3 (write_strings T_DropPartitionArgs (wDropPartitionArgs_PartVals p)))%go.
Definition DropPartitionArgs_ReadField3 : wDropPartitionArgs -> MF P wDropPartitionArgs :=
  assign (read_strings)%go DropPartitionArgs_set_PartVals.
Definition DropPartitionArgs_writeField4 (p : wDropPartitionArgs) : M P unit :=
  (write_field T_DropPartitionArgs "deleteData" BOOL 4 (write_scalar T_DropPartitionArgs "deleteData" 4 (WriteBool (wDropPartitionArgs_DeleteData p))))%go.
Definition DropPartitionArgs_ReadField4 : wDropPartitionArgs -> MF P wDropPartitionArgs :=
  assign (read_scalar 4 ReadBool)%go DropPartitionArgs_set_DeleteData.
Definition DropPartitionArgs_Write (p : option wDropPartitionArgs) : M P unit :=
  write_struct T_DropPartitionArgs "drop_partition_args" ((fun p => [DropPartitionArgs_writeField1 p;
     DropPartitionArgs_writeField2 p; DropPartitionArgs_writeField3 p; DropPartitionArgs_writeField4 p]) <$> p).
Definition DropPartitionArgs_switch : switch wDropPartitionArgs := fun fieldId =>
  match fieldId with
  | 1 => Some (STRING, DropPartitionArgs_ReadField1)
  | 2 => Some (STRING, DropPartitionArgs_ReadField2)
  | 3 => Some (LIST, DropPartitionArgs_ReadField3)
  | 4 => Some (BOOL, DropPartitionArgs_ReadField4)
  | _ => None
  end.
Definition DropPartitionArgs_Read (fuel : nat) : wDropPartitionArgs -> MF P wDropPartitionArgs :=
  read_struct T_DropPartitionArgs [] DropPartitionArgs_switch fuel.

Local Abbreviation T_DropPartitionResult := "*hive_metastore.ThriftHiveMetastoreDropPartitionResult".
Definition DropPartitionResult_set_Success v '(mk_wDropPartitionResult _ x2 x3) : wDropPartitionResult :=
  mk_wDropPartitionResult v x2 x3.
Definition DropPartitionResult_set_O1 v '(mk_wDropPartitionResult x1 _ x3) : wDropPartitionResult :=
  mk_wDropPartitionResult x1 v x3.
Definition DropPartitionResult_set_O2 v '(mk_wDropPartitionResult x1 x2 _) : wDropPartitionResult :=
  mk_wDropPartitionResult x1 x2 v.

Definition DropPartitionResult_writeField0 (p : wDropPartitionResult) : M P unit :=
  (opt (wDropPartitionResult_Success p) (fun v =>
    write_field T_DropPartitionResult "success" BOOL 0 (write_scalar T_DropPartitionResult "success" 0 (WriteBool v))))%go.
Definition DropPartitionResult_ReadField0 : wDropPartitionResult -> MF P wDropPartitionResult :=
  assign (read_scalar 0 ReadBool)%go (fun v => DropPartitionResult_set_Success (Some v)).
Definition DropPartitionResult_writeField1 (p : wDropPartitionResult) : M P unit :=
  (opt (wDropPartitionResult_O1 p) (fun v =>
    write_field T_DropPartitionResult "o1" STRUCT 1 (write_sub "*hive_metastore.NoSuchObjectException" (Exception_Write NoSuchObjectException (Some v)))))%go.
Definition DropPartitionResult_ReadField1 (fuel : nat) : wDropPartitionResult -> MF P wDropPartitionResult :=
  assign (read_sub "*hive_metastore.NoSuchObjectException" (Exception_Read NoSuchObjectException fuel NewException))%go (fun v => DropPartitionResult_set_O1 (Some v)).
Definition DropPartitionResult_writeField2 (p : wDropPartitionResult) : M P unit :=
  (opt (wDropPartitionResult_O2 p) (fun v =>
    write_field T_DropPartitionResult "o2" STRUCT 2 (write_sub "*hive_metastore.MetaException" (Exception_Write MetaException (Some v)))))%go.
Definition DropPartitionResult_ReadField2 (fuel : nat) : wDropPartitionResult -> MF P wDropPartitionResult :=
  assign (read_sub "*hive_metastore.MetaException" (Exception_Read MetaException fuel NewException))%go (fun v => DropPartitionResult_set_O2 (Some v)).
Definition DropPartitionResult_Write (p : option wDropPartitionResult) : M P unit :=
  write_struct T_DropPartitionResult "drop_partition_result" ((fun p => [DropPartitionResult_writeField0 p;
     DropPartitionResult_writeField1 p; DropPartitionResult_writeField2 p]) <$> p).
Definition DropPartitionResult_switch (fuel : nat) : switch wDropPartitionResult := fun fieldId =>
  match fieldId with
  | 0 => Some (BOOL, DropPartitionResult_ReadField0)
  | 1 => Some (STRUCT, DropPartitionResult_ReadField1 fuel)
  | 2 => Some (STRUCT, DropPartitionResult_ReadField2 fuel)
  | _ => None
  end.
Definition DropPartitionResult_Read (fuel : nat) : wDropPartitionResult -> MF P wDropPartitionResult :=
  read_struct T_DropPartitionResult [] (DropPartitionResult_switch fuel) fuel.

(** ** drop_partitions_req *)

Local Abbreviation T_DropPartitionsReqArgs := "*hive_metastore.ThriftHiveMetastoreDropPartitionsReqArgs".
Definition DropPartitionsReqArgs_set_Req v (_ : wDropPartitionsReqArgs) : wDropPartitionsReqArgs := mk_wDropPartitionsReqArgs v.

Definition DropPartitionsReqArgs_writeField1 (p : wDropPartitionsReqArgs) : M P unit :=
  (opt (wDropPartitionsReqArgs_Req p) (fun v =>
    write_field T_DropPartitionsReqArgs "req" STRUCT 1 (write_sub "*hive_metastore.DropPartitionsRequest" (DropPartitionsRequest_Write (Some v)))))%go.
Definition DropPartitionsReqArgs_ReadField1 (fuel : nat) : wDropPartitionsReqArgs -> MF P wDropPartitionsReqArgs :=
  assign (read_sub "*hive_metastore.DropPartitionsRequest" (DropPartitionsRequest_Read fuel NewDropPartitionsRequest))%go (fun v => DropPartitionsReqArgs_set_Req (Some v)).
Definition DropPartitionsReqArgs_Write (p : option wDropPartitionsReqArgs) : M P unit :=
  write_struct T_DropPartitionsReqArgs "drop_partitions_req_args" ((fun p => [DropPartitionsReqArgs_writeField1 p]) <$> p).
Definition DropPartitionsReqArgs_switch (fuel : nat) : switch wDropPartitionsReqArgs := fun fieldId =>
  match fieldId with
  | 1 => Some (STRUCT, DropPartitionsReqArgs_ReadField1 fuel)
  | _ => None
  end.
Definition DropPartitionsReqArgs_Read (fuel : nat) : wDropPartitionsReqArgs -> MF P wDropPartitionsReqArgs :=
  read_struct T_DropPartitionsReqArgs [] (DropPartitionsReqArgs_switch fuel) fuel.

Local Abbreviation T_DropPartitionsReqResult := "*hive_metastore.ThriftHiveMetastoreDropPartitionsReqResult".
Definition DropPartitionsReqResult_set_Success v '(mk_wDropPartitionsReqResult _ x2 x3) : wDropPartitionsReqResult :=
  mk_wDropPartitionsReqResult v x2 x3.
Definition DropPartitionsReqResult_set_O1 v '(mk_wDropPartitionsReqResult x1 _ x3) : wDropPartitionsReqResult :=
  mk_wDropPartitionsReqResult x1 v x3.
Definition DropPartitionsReqResult_set_O2 v '(mk_wDropPartitionsReqResult x1 x2 _) : wDropPartitionsReqResult :=
  mk_wDropPartitionsReqResult x1 x2 v.

Definition DropPartitionsReqResult_writeField0 (p : wDropPartitionsReqResult) : M P unit :=
  (opt (wDropPartitionsReqResult_Success p) (fun v =>
    write_field T_DropPartitionsReqResult "success" STRUCT 0 (write_sub "*hive_metastore.DropPartitionsResult_" (DropPartitionsResult__Write (Some v)))))%go.
Definition DropPartitionsReqResult_ReadField0 (fuel : nat) : wDropPartitionsReqResult -> MF P wDropPartitionsReqResult :=
  assign (read_sub "*hive_metastore.DropPartitionsResult_" (DropPartitionsResult__Read fuel NewDropPartitionsResult_))%go (fun v => DropPartitionsReqResult_set_Success (Some v)).
Definition DropPartitionsReqResult_writeField1 (p : wDropPartitionsReqResult) : M P unit :=
  (opt (wDropPartitionsReqResult_O1 p) (fun v =>
    write_field T_DropPartitionsReqResult "o1" STRUCT 1 (write_sub "*hive_metastore.NoSuchObjectException" (Exception_Write NoSuchObjectException (Some v)))))%go.
Definition DropPartitionsReqResult_ReadField1 (fuel : nat) : wDropPartitionsReqResult -> MF P wDropPartitionsReqResult :=
  assign (read_sub "*hive_metastore.NoSuchObjectException" (Exception_Read NoSuchObjectException fuel NewException))%go (fun v => DropPartitionsReqResult_set_O1 (Some v)).
Definition DropPartitionsReqResult_writeField2 (p : wDropPartitionsReqResult) : M P unit :=
  (opt (wDropPartitionsReqResult_O2 p) (fun v =>
    write_field T_DropPartitionsReqResult "o2" STRUCT 2 (write_sub "*hive_metastore.MetaException" (Exception_Write MetaException (Some v)))))%go.
Definition DropPartitionsReqResult_ReadField2 (fuel : nat) : wDropPartitionsReqResult -> MF P wDropPartitionsReqResult :=
  assign (read_sub "*hive_metastore.MetaException" (Exception_Read MetaException fuel NewException))%go (fun v => DropPartitionsReqResult_set_O2 (Some v)).
Definition DropPartitionsReqResult_Write (p : option wDropPartitionsReqResult) : M P unit :=
  write_struct T_DropPartitionsReqResult "drop_partitions_req_result" ((fun p => [DropPartitionsReqResult_writeField0 p; DropPartitionsReqResult_writeField1 p; DropPartitionsReqResult_writeField2 p]) <$> p).
Definition DropPartitionsReqResult_switch (fuel : nat) : switch wDropPartitionsReqResult := fun fieldId =>
  match fieldId with
  | 0 => Some (STRUCT, DropPartitionsReqResult_ReadField0 fuel)
  | 1 => Some (STRUCT, DropPartitionsReqResult_ReadField1 fuel)
  | 2 => Some (STRUCT, DropPartitionsReqResult_ReadField2 fuel)
  | _ => None
  end.
Definition DropPartitionsReqResult_Read (fuel : nat) : wDropPartitionsReqResult -> MF P wDropPartitionsReqResult :=
  read_struct T_DropPartitionsReqResult [] (DropPartitionsReqResult_switch fuel) fuel.

(** ** get_partitions_by_names *)

Local Abbreviation T_GetPartitionsByNamesArgs := "*hive_metastore.ThriftHiveMetastoreGetPartitionsByNamesArgs".
Definition GetPartitionsByNamesArgs_set_DbName v '(mk_wGetPartitionsByNamesArgs _ x2 x3) : wGetPartitionsByNamesArgs :=
  mk_wGetPartitionsByNamesArgs v x2 x3.
Definition GetPartitionsByNamesArgs_set_TblName v '(mk_wGetPartitionsByNamesArgs x1 _ x3) : wGetPartitionsByNamesArgs :=
  mk_wGetPartitionsByNamesArgs x1 v x3.
Definition GetPartitionsByNamesArgs_set_Names v '(mk_wGetPartitionsByNamesArgs x1 x2 _) : wGetPartitionsByNamesArgs :=
  mk_wGetPartitionsByNamesArgs x1 x2 v.

Definition GetPartitionsByNamesArgs_writeField1 (p : wGetPartitionsByNamesArgs) : M P unit :=
  (write_field T_GetPartitionsByNamesArgs "db_name" STRING 1 (write_scalar T_GetPartitionsByNamesArgs "db_name" 1 (WriteString (wGetPartitionsByNamesArgs_DbName p))))%go.
Definition GetPartitionsByNamesArgs_ReadField1 : wGetPartitionsByNamesArgs -> MF P wGetPartitionsByNamesArgs :=
  assign (read_scalar 1 ReadString)%go GetPartitionsByNamesArgs_set_DbName.
Definition GetPartitionsByNamesArgs_writeField2 (p : wGetPartitionsByNamesArgs) : M P unit :=
  (write_field T_GetPartitionsByNamesArgs "tbl_name" STRING 2 (write_scalar T_GetPartitionsByNamesArgs "tbl_name" 2 (WriteString (wGetPartitionsByNamesArgs_TblName p))))%go.
Definition GetPartitionsByNamesArgs_ReadField2 : wGetPartitionsByNamesArgs -> MF P wGetPartitionsByNamesArgs :=
  assign (read_scalar 2 ReadString)%go GetPartitionsByNamesArgs_set_TblName.
Definition GetPartitionsByNamesArgs_writeField3 (p : wGetPartitionsByNamesArgs) : M P unit :=
  (write_field T_GetPartitionsByNamesArgs "names" LIST 3 (write_strings T_GetPartitionsByNamesArgs (wGetPartitionsByNamesArgs_Names p)))%go.
Definition GetPartitionsByNamesArgs_ReadField3 : wGetPartitionsByNamesArgs -> MF P wGetPartitionsByNamesArgs :=
  assign (read_strings)%go GetPartitionsByNamesArgs_set_Names.
Definition GetPartitionsByNamesArgs_Write (p : option wGetPartitionsByNamesArgs) : M P unit :=
  write_struct T_GetPartitionsByNamesArgs "get_partitions_by_names_args" ((fun p => [GetPartitionsByNamesArgs_writeField1 p; GetPartitionsByNamesArgs_writeField2 p; GetPartitionsByNamesArgs_writeField3 p]) <$> p).
Definition GetPartitionsByNamesArgs_switch : switch wGetPartitionsByNamesArgs := fun fieldId =>
  match fieldId with
  | 1 => Some (STRING, GetPartitionsByNamesArgs_ReadField1)
  | 2 => Some (STRING, GetPartitionsByNamesArgs_ReadField2)
  | 3 => Some (LIST, GetPartitionsByNamesArgs_ReadField3)
  | _ => None
  end.
Definition GetPartitionsByNamesArgs_Read (fuel : nat) : wGetPartitionsByNamesArgs -> MF P wGetPartitionsByNamesArgs :=
  read_struct T_GetPartitionsByNamesArgs [] GetPartitionsByNamesArgs_switch fuel.

Local Abbreviation T_GetPartitionsByNamesResult := "*hive_metastore.ThriftHiveMetastoreGetPartitionsByNamesResult".
Definition GetPartitionsByNamesResult_set_Success v '(mk_wGetPartitionsByNamesResult _ x2 x3 x4) : wGetPartitionsByNamesResult :=
  mk_wGetPartitionsByNamesResult v x2 x3 x4.
Definition GetPartitionsByNamesResult_set_O1 v '(mk_wGetPartitionsByNamesResult x1 _ x3 x4) : wGetPartitionsByNamesResult :=
  mk_wGetPartitionsByNamesResult x1 v x3 x4.
Definition GetPartitionsByNamesResult_set_O2 v '(mk_wGetPartitionsByNamesResult x1 x2 _ x4) : wGetPartitionsByNamesResult :=
  mk_wGetPartitionsByNamesResult x1 x2 v x4.
Definition GetPartitionsByNamesResult_set_O3 v '(mk_wGetPartitionsByNamesResult x1 x2 x3 _) : wGetPartitionsByNamesResult :=
  mk_wGetPartitionsByNamesResult x1 x2 x3 v.

Definition GetPartitionsByNamesResult_writeField0 (p : wGetPartitionsByNamesResult) : M P unit :=
  (when (bool_decide (is_Some (wGetPartitionsByNamesResult_Success p)))
    (write_field T_GetPartitionsByNamesResult "success" LIST 0 (write_list STRUCT (fun v => write_sub "*hive_metastore.Partition" (Partition_Write v)) (wGetPartitionsByNamesResult_Success p))))%go.
Definition GetPartitionsByNamesResult_ReadField0 (fuel : nat) : wGetPartitionsByNamesResult -> MF P wGetPartitionsByNamesResult :=
  assign (read_list (v <-- read_sub "*hive_metastore.Partition" (Partition_Read fuel NewPartition);;
     liftF (ret (Some v))))%go GetPartitionsByNamesResult_set_Success.
Definition GetPartitionsByNamesResult_writeField1 (p : wGetPartitionsByNamesResult) : M P unit :=
  (opt (wGetPartitionsByNamesResult_O1 p) (fun v =>
    write_field T_GetPartitionsByNamesResult "o1" STRUCT 1 (write_sub "*hive_metastore.MetaException" (Exception_Write MetaException (Some v)))))%go.
Definition GetPartitionsByNamesResult_ReadField1 (fuel : nat) : wGetPartitionsByNamesResult -> MF P wGetPartitionsByNamesResult :=
  assign (read_sub "*hive_metastore.MetaException" (Exception_Read MetaException fuel NewException))%go (fun v => GetPartitionsByNamesResult_set_O1 (Some v)).
Definition GetPartitionsByNamesResult_writeField2 (p : wGetPartitionsByNamesResult) : M P unit :=
  (opt (wGetPartitionsByNamesResult_O2 p) (fun v =>
    write_field T_GetPartitionsByNamesResult "o2" STRUCT 2 (write_sub "*hive_metastore.NoSuchObjectException" (Exception_Write NoSuchObjectException (Some v)))))%go.
Definition GetPartitionsByNamesResult_ReadField2 (fuel : nat) : wGetPartitionsByNamesResult -> MF P wGetPartitionsByNamesResult :=
  assign (read_sub "*hive_metastore.NoSuchObjectException" (Exception_Read NoSuchObjectException fuel NewException))%go (fun v => GetPartitionsByNamesResult_set_O2 (Some v)).
Definition GetPartitionsByNamesResult_writeField3 (p : wGetPartitionsByNamesResult) : M P unit :=
  (opt (wGetPartitionsByNamesResult_O3 p) (fun v =>
    write_field T_GetPartitionsByNamesResult "o3" STRUCT 3 (write_sub "*hive_metastore.InvalidObjectException" (Exception_Write InvalidObjectException (Some v)))))%go.
Definition GetPartitionsByNamesResult_ReadField3 (fuel : nat) : wGetPartitionsByNamesResult -> MF P wGetPartitionsByNamesResult :=
  assign (read_sub "*hive_metastore.InvalidObjectException" (Exception_Read InvalidObjectException fuel NewException))%go (fun v => GetPartitionsByNamesResult_set_O3 (Some v)).
Definition GetPartitionsByNamesResult_Write (p : option wGetPartitionsByNamesResult) : M P unit :=
  write_struct T_GetPartitionsByNamesResult "get_partitions_by_names_result" ((fun p => [GetPartitionsByNamesResult_writeField0 p; GetPartitionsByNamesResult_writeField1 p; GetPartitionsByNamesResult_writeField2 p; GetPartitionsByNamesResult_writeField3 p]) <$> p).
Definition GetPartitionsByNamesResult_switch (fuel : nat) : switch wGetPartitionsByNamesResult := fun fieldId =>
  match fieldId with
  | 0 => Some (LIST, GetPartitionsByNamesResult_ReadField0 fuel)
  | 1 => Some (STRUCT, GetPartitionsByNamesResult_ReadField1 fuel)
  | 2 => Some (STRUCT, GetPartitionsByNamesResult_ReadField2 fuel)
  | 3 => Some (STRUCT, GetPartitionsByNamesResult_ReadField3 fuel)
  | _ => None
  end.
Definition GetPartitionsByNamesResult_Read (fuel : nat) : wGetPartitionsByNamesResult -> MF P wGetPartitionsByNamesResult :=
  read_struct T_GetPartitionsByNamesResult [] (GetPartitionsByNamesResult_switch fuel) fuel.

(** ** get_partitions_by_names_req *)

Local Abbreviation T_GetPartitionsByNamesReqArgs := "*hive_metastore.ThriftHiveMetastoreGetPartitionsByNamesReqArgs".
Definition GetPartitionsByNamesReqArgs_set_Req v (_ : wGetPartitionsByNamesReqArgs) : wGetPartitionsByNamesReqArgs := mk_wGetPartitionsByNamesReqArgs v.

Definition GetPartitionsByNamesReqArgs_writeField1 (p : wGetPartitionsByNamesReqArgs) : M P unit :=
  (opt (wGetPartitionsByNamesReqArgs_Req p) (fun v =>
    write_field T_GetPartitionsByNamesReqArgs "req" STRUCT 1 (write_sub "*hive_metastore.GetPartitionsByNamesRequest" (GetPartitionsByNamesRequest_Write (Some v)))))%go.
Definition GetPartitionsByNamesReqArgs_ReadField1 (fuel : nat) : wGetPartitionsByNamesReqArgs -> MF P wGetPartitionsByNamesReqArgs :=
  assign (read_sub "*hive_metastore.GetPartitionsByNamesRequest" (GetPartitionsByNamesRequest_Read fuel NewGetPartitionsByNamesRequest))%go (fun v => GetPartitionsByNamesReqArgs_set_Req (Some v)).
Definition GetPartitionsByNamesReqArgs_Write (p : option wGetPartitionsByNamesReqArgs) : M P unit :=
  write_struct T_GetPartitionsByNamesReqArgs "get_partitions_by_names_req_args" ((fun p => [GetPartitionsByNamesReqArgs_writeField1 p]) <$> p).
Definition GetPartitionsByNamesReqArgs_switch (fuel : nat) : switch wGetPartitionsByNamesReqArgs := fun fieldId =>
  match fieldId with
  | 1 => Some (STRUCT, GetPartitionsByNamesReqArgs_ReadField1 fuel)
  | _ => None
  end.
Definition GetPartitionsByNamesReqArgs_Read (fuel : nat) : wGetPartitionsByNamesReqArgs -> MF P wGetPartitionsByNamesReqArgs :=
  read_struct T_GetPartitionsByNamesReqArgs [] (GetPartitionsByNamesReqArgs_switch fuel) fuel.

Local Abbreviation T_GetPartitionsByNamesReqResult := "*hive_metastore.ThriftHiveMetastoreGetPartitionsByNamesReqResult".
Definition GetPartitionsByNamesReqResult_set_Success v '(mk_wGetPartitionsByNamesReqResult _ x2 x3 x4) : wGetPartitionsByNamesReqResult :=
  mk_wGetPartitionsByNamesReqResult v x2 x3 x4.
Definition GetPartitionsByNamesReqResult_set_O1 v '(mk_wGetPartitionsByNamesReqResult x1 _ x3 x4) : wGetPartitionsByNamesReqResult :=
  mk_wGetPartitionsByNamesReqResult x1 v x3 x4.
Definition GetPartitionsByNamesReqResult_set_O2 v '(mk_wGetPartitionsByNamesReqResult x1 x2 _ x4) : wGetPartitionsByNamesReqResult :=
  mk_wGetPartitionsByNamesReqResult x1 x2 v x4.
Definition GetPartitionsByNamesReqResult_set_O3 v '(mk_wGetPartitionsByNamesReqResult x1 x2 x3 _) : wGetPartitionsByNamesReqResult :=
  mk_wGetPartitionsByNamesReqResult x1 x2 x3 v.

Definition GetPartitionsByNamesReqResult_writeField0 (p : wGetPartitionsByNamesReqResult) : M P unit :=
  (opt (wGetPartitionsByNamesReqResult_Success p) (fun v =>
    write_field T_GetPartitionsByNamesReqResult "success" STRUCT 0 (write_sub "*hive_metastore.GetPartitionsByNamesResult_" (GetPartitionsByNamesResult__Write (Some v)))))%go.
Definition GetPartitionsByNamesReqResult_ReadField0 (fuel : nat) : wGetPartitionsByNamesReqResult -> MF P wGetPartitionsByNamesReqResult :=
  assign (read_sub "*hive_metastore.GetPartitionsByNamesResult_" (GetPartitionsByNamesResult__Read fuel NewGetPartitionsByNamesResult_))%go (fun v => GetPartitionsByNamesReqResult_set_Success (Some v)).
Definition GetPartitionsByNamesReqResult_writeField1 (p : wGetPartitionsByNamesReqResult) : M P unit :=
  (opt (wGetPartitionsByNamesReqResult_O1 p) (fun v =>
    write_field T_GetPartitionsByNamesReqResult "o1" STRUCT 1 (write_sub "*hive_metastore.MetaException" (Exception_Write MetaException (Some v)))))%go.
Definition GetPartitionsByNamesReqResult_ReadField1 (fuel : nat) : wGetPartitionsByNamesReqResult -> MF P wGetPartitionsByNamesReqResult :=
  assign (read_sub "*hive_metastore.MetaException" (Exception_Read MetaException fuel NewException))%go (fun v => GetPartitionsByNamesReqResult_set_O1 (Some v)).
Definition GetPartitionsByNamesReqResult_writeField2 (p : wGetPartitionsByNamesReqResult) : M P unit :=
  (opt (wGetPartitionsByNamesReqResult_O2 p) (fun v =>
    write_field T_GetPartitionsByNamesReqResult "o2" STRUCT 2 (write_sub "*hive_metastore.NoSuchObjectException" (Exception_Write NoSuchObjectException (Some v)))))%go.
Definition GetPartitionsByNamesReqResult_ReadField2 (fuel : nat) : wGetPartitionsByNamesReqResult -> MF P wGetPartitionsByNamesReqResult :=
  assign (read_sub "*hive_metastore.NoSuchObjectException" (Exception_Read NoSuchObjectException fuel NewException))%go (fun v => GetPartitionsByNamesReqResult_set_O2 (Some v)).
Definition GetPartitionsByNamesReqResult_writeField3 (p : wGetPartitionsByNamesReqResult) : M P unit :=
  (opt (wGetPartitionsByNamesReqResult_O3 p) (fun v =>
    write_field T_GetPartitionsByNamesReqResult "o3" STRUCT 3 (write_sub "*hive_metastore.InvalidObjectException" (Exception_Write InvalidObjectException (Some v)))))%go.
Definition GetPartitionsByNamesReqResult_ReadField3 (fuel : nat) : wGetPartitionsByNamesReqResult -> MF P wGetPartitionsByNamesReqResult :=
  assign (read_sub "*hive_metastore.InvalidObjectException" (Exception_Read InvalidObjectException fuel NewException))%go (fun v => GetPartitionsByNamesReqResult_set_O3 (Some v)).
Definition GetPartitionsByNamesReqResult_Write (p : option wGetPartitionsByNamesReqResult) : M P unit :=
  write_struct T_GetPartitionsByNamesReqResult "get_partitions_by_names_req_result" ((fun p => [GetPartitionsByNamesReqResult_writeField0 p; GetPartitionsByNamesReqResult_writeField1 p; GetPartitionsByNamesReqResult_writeField2 p; GetPartitionsByNamesReqResult_writeField3 p]) <$> p).
Definition GetPartitionsByNamesReqResult_switch (fuel : nat) : switch wGetPartitionsByNamesReqResult := fun fieldId =>
  match fieldId with
  | 0 => Some (STRUCT, GetPartitionsByNamesReqResult_ReadField0 fuel)
  | 1 => Some (STRUCT, GetPartitionsByNamesReqResult_ReadField1 fuel)
  | 2 => Some (STRUCT, GetPartitionsByNamesReqResult_ReadField2 fuel)
  | 3 => Some (STRUCT, GetPartitionsByNamesReqResult_ReadField3 fuel)
  | _ => None
  end.
Definition GetPartitionsByNamesReqResult_Read (fuel : nat) : wGetPartitionsByNamesReqResult -> MF P wGetPartitionsByNamesReqResult :=
  read_struct T_GetPartitionsByNamesReqResult [] (GetPartitionsByNamesReqResult_switch fuel) fuel.

(** ** get_partitions_by_filter *)

Local Abbreviation T_GetPartitionsByFilterArgs := "*hive_metastore.ThriftHiveMetastoreGetPartitionsByFilterArgs".
Definition GetPartitionsByFilterArgs_set_DbName v '(mk_wGetPartitionsByFilterArgs _ x2 x3 x4) : wGetPartitionsByFilterArgs :=
  mk_wGetPartitionsByFilterArgs v x2 x3 x4.
Definition GetPartitionsByFilterArgs_set_TblName v '(mk_wGetPartitionsByFilterArgs x1 _ x3 x4) : wGetPartitionsByFilterArgs :=
  mk_wGetPartitionsByFilterArgs x1 v x3 x4.
Definition GetPartitionsByFilterArgs_set_Filter v '(mk_wGetPartitionsByFilterArgs x1 x2 _ x4) : wGetPartitionsByFilterArgs :=
  mk_wGetPartitionsByFilterArgs x1 x2 v x4.
Definition GetPartitionsByFilterArgs_set_MaxParts v '(mk_wGetPartitionsByFilterArgs x1 x2 x3 _) : wGetPartitionsByFilterArgs :=
  mk_wGetPartitionsByFilterArgs x1 x2 x3 v.

Definition GetPartitionsByFilterArgs_writeField1 (p : wGetPartitionsByFilterArgs) : M P unit :=
  (write_field T_GetPartitionsByFilterArgs "db_name" STRING 1 (write_scalar T_GetPartitionsByFilterArgs "db_name" 1 (WriteString (wGetPartitionsByFilterArgs_DbName p))))%go.
Definition GetPartitionsByFilterArgs_ReadField1 : wGetPartitionsByFilterArgs -> MF P wGetPartitionsByFilterArgs :=
  assign (read_scalar 1 ReadString)%go GetPartitionsByFilterArgs_set_DbName.
Definition GetPartitionsByFilterArgs_writeField2 (p : wGetPartitionsByFilterArgs) : M P unit :=
  (write_field T_GetPartitionsByFilterArgs "tbl_name" STRING 2 (write_scalar T_GetPartitionsByFilterArgs "tbl_name" 2 (WriteString (wGetPartitionsByFilterArgs_TblName p))))%go.
Definition GetPartitionsByFilterArgs_ReadField2 : wGetPartitionsByFilterArgs -> MF P wGetPartitionsByFilterArgs :=
  assign (read_scalar 2 ReadString)%go GetPartitionsByFilterArgs_set_TblName.
Definition GetPartitionsByFilterArgs_writeField3 (p : wGetPartitionsByFilterArgs) : M P unit :=
  (write_field T_GetPartitionsByFilterArgs "filter" STRING 3 (write_scalar T_GetPartitionsByFilterArgs "filter" 3 (WriteString (wGetPartitionsByFilterArgs_Filter p))))%go.
Definition GetPartitionsByFilterArgs_ReadField3 : wGetPartitionsByFilterArgs -> MF P wGetPartitionsByFilterArgs :=
  assign (read_scalar 3 ReadString)%go GetPartitionsByFilterArgs_set_Filter.
Definition GetPartitionsByFilterArgs_writeField4 (p : wGetPartitionsByFilterArgs) : M P unit :=
  (write_field T_GetPartitionsByFilterArgs "max_parts" I16 4 (write_scalar T_GetPartitionsByFilterArgs "max_parts" 4 (WriteI16 (wGetPartitionsByFilterArgs_MaxParts p))))%go.
Definition GetPartitionsByFilterArgs_ReadField4 : wGetPartitionsByFilterArgs -> MF P wGetPartitionsByFilterArgs :=
  assign (read_scalar 4 ReadI16)%go GetPartitionsByFilterArgs_set_MaxParts.
Definition GetPartitionsByFilterArgs_Write (p : option wGetPartitionsByFilterArgs) : M P unit :=
  write_struct T_GetPartitionsByFilterArgs "get_partitions_by_filter_args" ((fun p => [GetPartitionsByFilterArgs_writeField1 p; GetPartitionsByFilterArgs_writeField2 p; GetPartitionsByFilterArgs_writeField3 p; GetPartitionsByFilterArgs_writeField4 p]) <$> p).
Definition GetPartitionsByFilterArgs_switch : switch wGetPartitionsByFilterArgs := fun fieldId =>
  match fieldId with
  | 1 => Some (STRING, GetPartitionsByFilterArgs_ReadField1)
  | 2 => Some (STRING, GetPartitionsByFilterArgs_ReadField2)
  | 3 => Some (STRING, GetPartitionsByFilterArgs_ReadField3)
  | 4 => Some (I16, GetPartitionsByFilterArgs_ReadField4)
  | _ => None
  end.
Definition GetPartitionsByFilterArgs_Read (fuel : nat) : wGetPartitionsByFilterArgs -> MF P wGetPartitionsByFilterArgs :=
  read_struct T_GetPartitionsByFilterArgs [] GetPartitionsByFilterArgs_switch fuel.

Local Abbreviation T_GetPartitionsByFilterResult := "*hive_metastore.ThriftHiveMetastoreGetPartitionsByFilterResult".
Definition GetPartitionsByFilterResult_set_Success v '(mk_wGetPartitionsByFilterResult _ x2 x3) : wGetPartitionsByFilterResult :=
  mk_wGetPartitionsByFilterResult v x2 x3.
Definition GetPartitionsByFilterResult_set_O1 v '(mk_wGetPartitionsByFilterResult x1 _ x3) : wGetPartitionsByFilterResult :=
  mk_wGetPartitionsByFilterResult x1 v x3.
Definition GetPartitionsByFilterResult_set_O2 v '(mk_wGetPartitionsByFilterResult x1 x2 _) : wGetPartitionsByFilterResult :=
  mk_wGetPartitionsByFilterResult x1 x2 v.

Definition GetPartitionsByFilterResult_writeField0 (p : wGetPartitionsByFilterResult) : M P unit :=
  (when (bool_decide (is_Some (wGetPartitionsByFilterResult_Success p)))
    (write_field T_GetPartitionsByFilterResult "success" LIST 0 (write_list STRUCT (fun v => write_sub "*hive_metastore.Partition" (Partition_Write v)) (wGetPartitionsByFilterResult_Success p))))%go.
Definition GetPartitionsByFilterResult_ReadField0 (fuel : nat) : wGetPartitionsByFilterResult -> MF P wGetPartitionsByFilterResult :=
  assign (read_list (v <-- read_sub "*hive_metastore.Partition" (Partition_Read fuel NewPartition);;
     liftF (ret (Some v))))%go GetPartitionsByFilterResult_set_Success.
Definition GetPartitionsByFilterResult_writeField1 (p : wGetPartitionsByFilterResult) : M P unit :=
  (opt (wGetPartitionsByFilterResult_O1 p) (fun v =>
    write_field T_GetPartitionsByFilterResult "o1" STRUCT 1 (write_sub "*hive_metastore.MetaException" (Exception_Write MetaException (Some v)))))%go.
Definition GetPartitionsByFilterResult_ReadField1 (fuel : nat) : wGetPartitionsByFilterResult -> MF P wGetPartitionsByFilterResult :=
  assign (read_sub "*hive_metastore.MetaException" (Exception_Read MetaException fuel NewException))%go (fun v => GetPartitionsByFilterResult_set_O1 (Some v)).
Definition GetPartitionsByFilterResult_writeField2 (p : wGetPartitionsByFilterResult) : M P unit :=
  (opt (wGetPartitionsByFilterResult_O2 p) (fun v =>
    write_field T_GetPartitionsByFilterResult "o2" STRUCT 2 (write_sub "*hive_metastore.NoSuchObjectException" (Exception_Write NoSuchObjectException (Some v)))))%go.
Definition GetPartitionsByFilterResult_ReadField2 (fuel : nat) : wGetPartitionsByFilterResult -> MF P wGetPartitionsByFilterResult :=
  assign (read_sub "*hive_metastore.NoSuchObjectException" (Exception_Read NoSuchObjectException fuel NewException))%go (fun v => GetPartitionsByFilterResult_set_O2 (Some v)).
Definition GetPartitionsByFilterResult_Write (p : option wGetPartitionsByFilterResult) : M P unit :=
  write_struct T_GetPartitionsByFilterResult "get_partitions_by_filter_result" ((fun p => [GetPartitionsByFilterResult_writeField0 p; GetPartitionsByFilterResult_writeField1 p; GetPartitionsByFilterResult_writeField2 p]) <$> p).
Definition GetPartitionsByFilterResult_switch (fuel : nat) : switch wGetPartitionsByFilterResult := fun fieldId =>
  match fieldId with
  | 0 => Some (LIST, GetPartitionsByFilterResult_ReadField0 fuel)
  | 1 => Some (STRUCT, GetPartitionsByFilterResult_ReadField1 fuel)
  | 2 => Some (STRUCT, GetPartitionsByFilterResult_ReadField2 fuel)
  | _ => None
  end.
Definition GetPartitionsByFilterResult_Read (fuel : nat) : wGetPartitionsByFilterResult -> MF P wGetPartitionsByFilterResult :=
  read_struct T_GetPartitionsByFilterResult [] (GetPartitionsByFilterResult_switch fuel) fuel.

(** ** get_partition_names_ps *)

Local Abbreviation T_GetPartitionNamesPsArgs := "*hive_metastore.ThriftHiveMetastoreGetPartitionNamesPsArgs".
Definition GetPartitionNamesPsArgs_set_DbName v '(mk_wGetPartitionNamesPsArgs _ x2 x3 x4) : wGetPartitionNamesPsArgs :=
  mk_wGetPartitionNamesPsArgs v x2 x3 x4.
Definition GetPartitionNamesPsArgs_set_TblName v '(mk_wGetPartitionNamesPsArgs x1 _ x3 x4) : wGetPartitionNamesPsArgs :=
  mk_wGetPartitionNamesPsArgs x1 v x3 x4.
Definition GetPartitionNamesPsArgs_set_PartVals v '(mk_wGetPartitionNamesPsArgs x1 x2 _ x4) : wGetPartitionNamesPsArgs :=
  mk_wGetPartitionNamesPsArgs x1 x2 v x4.
Definition GetPartitionNamesPsArgs_set_MaxParts v '(mk_wGetPartitionNamesPsArgs x1 x2 x3 _) : wGetPartitionNamesPsArgs :=
  mk_wGetPartitionNamesPsArgs x1 x2 x3 v.

Definition GetPartitionNamesPsArgs_writeField1 (p : wGetPartitionNamesPsArgs) : M P unit :=
  (write_field T_GetPartitionNamesPsArgs "db_name" STRING 1 (write_scalar T_GetPartitionNamesPsArgs "db_name" 1 (WriteString (wGetPartitionNamesPsArgs_DbName p))))%go.
Definition GetPartitionNamesPsArgs_ReadField1 : wGetPartitionNamesPsArgs -> MF P wGetPartitionNamesPsArgs :=
  assign (read_scalar 1 ReadString)%go GetPartitionNamesPsArgs_set_DbName.
Definition GetPartitionNamesPsArgs_writeField2 (p : wGetPartitionNamesPsArgs) : M P unit :=
  (write_field T_GetPartitionNamesPsArgs "tbl_name" STRING 2 (write_scalar T_GetPartitionNamesPsArgs "tbl_name" 2 (WriteString (wGetPartitionNamesPsArgs_TblName p))))%go.
Definition GetPartitionNamesPsArgs_ReadField2 : wGetPartitionNamesPsArgs -> MF P wGetPartitionNamesPsArgs :=
  assign (read_scalar 2 ReadString)%go GetPartitionNamesPsArgs_set_TblName.
Definition GetPartitionNamesPsArgs_writeField3 (p : wGetPartitionNamesPsArgs) : M P unit :=
  (write_field T_GetPartitionNamesPsArgs "part_vals" LIST 3 (write_strings T_GetPartitionNamesPsArgs (wGetPartitionNamesPsArgs_PartVals p)))%go.
Definition GetPartitionNamesPsArgs_ReadField3 : wGetPartitionNamesPsArgs -> MF P wGetPartitionNamesPsArgs :=
  assign (read_strings)%go GetPartitionNamesPsArgs_set_PartVals.
Definition GetPartitionNamesPsArgs_writeField4 (p : wGetPartitionNamesPsArgs) : M P unit :=
  (write_field T_GetPartitionNamesPsArgs "max_parts" I16 4 (write_scalar T_GetPartitionNamesPsArgs "max_parts" 4 (WriteI16 (wGetPartitionNamesPsArgs_MaxParts p))))%go.
Definition GetPartitionNamesPsArgs_ReadField4 : wGetPartitionNamesPsArgs -> MF P wGetPartitionNamesPsArgs :=
  assign (read_scalar 4 ReadI16)%go GetPartitionNamesPsArgs_set_MaxParts.
Definition GetPartitionNamesPsArgs_Write (p : option wGetPartitionNamesPsArgs) : M P unit :=
  write_struct T_GetPartitionNamesPsArgs "get_partition_names_ps_args" ((fun p => [GetPartitionNamesPsArgs_writeField1 p; GetPartitionNamesPsArgs_writeField2 p; GetPartitionNamesPsArgs_writeField3 p; GetPartitionNamesPsArgs_writeField4 p]) <$> p).
Definition GetPartitionNamesPsArgs_switch : switch wGetPartitionNamesPsArgs := fun fieldId =>
  match fieldId with
  | 1 => Some (STRING, GetPartitionNamesPsArgs_ReadField1)
  | 2 => Some (STRING, GetPartitionNamesPsArgs_ReadField2)
  | 3 => Some (LIST, GetPartitionNamesPsArgs_ReadField3)
  | 4 => Some (I16, GetPartitionNamesPsArgs_ReadField4)
  | _ => None
  end.
Definition GetPartitionNamesPsArgs_Read (fuel : nat) : wGetPartitionNamesPsArgs -> MF P wGetPartitionNamesPsArgs :=
  read_struct T_GetPartitionNamesPsArgs [] GetPartitionNamesPsArgs_switch fuel.

Local Abbreviation T_GetPartitionNamesPsResult := "*hive_metastore.ThriftHiveMetastoreGetPartitionNamesPsResult".
Definition GetPartitionNamesPsResult_set_Success v '(mk_wGetPartitionNamesPsResult _ x2 x3) : wGetPartitionNamesPsResult :=
  mk_wGetPartitionNamesPsResult v x2 x3.
Definition GetPartitionNamesPsResult_set_O1 v '(mk_wGetPartitionNamesPsResult x1 _ x3) : wGetPartitionNamesPsResult :=
  mk_wGetPartitionNamesPsResult x1 v x3.
Definition GetPartitionNamesPsResult_set_O2 v '(mk_wGetPartitionNamesPsResult x1 x2 _) : wGetPartitionNamesPsResult :=
  mk_wGetPartitionNamesPsResult x1 x2 v.

Definition GetPartitionNamesPsResult_writeField0 (p : wGetPartitionNamesPsResult) : M P unit :=
  (when (bool_decide (is_Some (wGetPartitionNamesPsResult_Success p)))
    (write_field T_GetPartitionNamesPsResult "success" LIST 0 (write_strings T_GetPartitionNamesPsResult (wGetPartitionNamesPsResult_Success p))))%go.
Definition GetPartitionNamesPsResult_ReadField0 : wGetPartitionNamesPsResult -> MF P wGetPartitionNamesPsResult :=
  assign (read_strings)%go GetPartitionNamesPsResult_set_Success.
Definition GetPartitionNamesPsResult_writeField1 (p : wGetPartitionNamesPsResult) : M P unit :=
  (opt (wGetPartitionNamesPsResult_O1 p) (fun v =>
    write_field T_GetPartitionNamesPsResult "o1" STRUCT 1 (write_sub "*hive_metastore.MetaException" (Exception_Write MetaException (Some v)))))%go.
Definition GetPartitionNamesPsResult_ReadField1 (fuel : nat) : wGetPartitionNamesPsResult -> MF P wGetPartitionNamesPsResult :=
  assign (read_sub "*hive_metastore.MetaException" (Exception_Read MetaException fuel NewException))%go (fun v => GetPartitionNamesPsResult_set_O1 (Some v)).
Definition GetPartitionNamesPsResult_writeField2 (p : wGetPartitionNamesPsResult) : M P unit :=
  (opt (wGetPartitionNamesPsResult_O2 p) (fun v =>
    write_field T_GetPartitionNamesPsResult "o2" STRUCT 2 (write_sub "*hive_metastore.NoSuchObjectException" (Exception_Write NoSuchObjectException (Some v)))))%go.
Definition GetPartitionNamesPsResult_ReadField2 (fuel : nat) : wGetPartitionNamesPsResult -> MF P wGetPartitionNamesPsResult :=
  assign (read_sub "*hive_metastore.NoSuchObjectException" (Exception_Read NoSuchObjectException fuel NewException))%go (fun v => GetPartitionNamesPsResult_set_O2 (Some v)).
Definition GetPartitionNamesPsResult_Write (p : option wGetPartitionNamesPsResult) : M P unit :=
  write_struct T_GetPartitionNamesPsResult "get_partition_names_ps_result" ((fun p => [GetPartitionNamesPsResult_writeField0 p; GetPartitionNamesPsResult_writeField1 p; GetPartitionNamesPsResult_writeField2 p]) <$> p).
Definition GetPartitionNamesPsResult_switch (fuel : nat) : switch wGetPartitionNamesPsResult := fun fieldId =>
  match fieldId with
  | 0 => Some (LIST, GetPartitionNamesPsResult_ReadField0)
  | 1 => Some (STRUCT, GetPartitionNamesPsResult_ReadField1 fuel)
  | 2 => Some (STRUCT, GetPartitionNamesPsResult_ReadField2 fuel)
  | _ => None
  end.
Definition GetPartitionNamesPsResult_Read (fuel : nat) : wGetPartitionNamesPsResult -> MF P wGetPartitionNamesPsResult :=
  read_struct T_GetPartitionNamesPsResult [] (GetPartitionNamesPsResult_switch fuel) fuel.

(** ** get_partition_names_ps_req *)

Local Abbreviation T_GetPartitionNamesPsReqArgs := "*hive_metastore.ThriftHiveMetastoreGetPartitionNamesPsReqArgs".
Definition GetPartitionNamesPsReqArgs_set_Req v (_ : wGetPartitionNamesPsReqArgs) : wGetPartitionNamesPsReqArgs := mk_wGetPartitionNamesPsReqArgs v.

Definition GetPartitionNamesPsReqArgs_writeField1 (p : wGetPartitionNamesPsReqArgs) : M P unit :=
  (opt (wGetPartitionNamesPsReqArgs_Req p) (fun v =>
    write_field T_GetPartitionNamesPsReqArgs "req" STRUCT 1 (write_sub "*hive_metastore.GetPartitionNamesPsRequest" (GetPartitionNamesPsRequest_Write (Some v)))))%go.
Definition GetPartitionNamesPsReqArgs_ReadField1 (fuel : nat) : wGetPartitionNamesPsReqArgs -> MF P wGetPartitionNamesPsReqArgs :=
  assign (read_sub "*hive_metastore.GetPartitionNamesPsRequest" (GetPartitionNamesPsRequest_Read fuel NewGetPartitionNamesPsRequest))%go (fun v => GetPartitionNamesPsReqArgs_set_Req (Some v)).
Definition GetPartitionNamesPsReqArgs_Write (p : option wGetPartitionNamesPsReqArgs) : M P unit :=
  write_struct T_GetPartitionNamesPsReqArgs "get_partition_names_ps_req_args" ((fun p => [GetPartitionNamesPsReqArgs_writeField1 p]) <$> p).
Definition GetPartitionNamesPsReqArgs_switch (fuel : nat) : switch wGetPartitionNamesPsReqArgs := fun fieldId =>
  match fieldId with
  | 1 => Some (STRUCT, GetPartitionNamesPsReqArgs_ReadField1 fuel)
  | _ => None
  end.
Definition GetPartitionNamesPsReqArgs_Read (fuel : nat) : wGetPartitionNamesPsReqArgs -> MF P wGetPartitionNamesPsReqArgs :=
  read_struct T_GetPartitionNamesPsReqArgs [] (GetPartitionNamesPsReqArgs_switch fuel) fuel.

Local Abbreviation T_GetPartitionNamesPsReqResult := "*hive_metastore.ThriftHiveMetastoreGetPartitionNamesPsReqResult".
Definition GetPartitionNamesPsReqResult_set_Success v '(mk_wGetPartitionNamesPsReqResult _ x2 x3) : wGetPartitionNamesPsReqResult :=
  mk_wGetPartitionNamesPsReqResult v x2 x3.
Definition GetPartitionNamesPsReqResult_set_O1 v '(mk_wGetPartitionNamesPsReqResult x1 _ x3) : wGetPartitionNamesPsReqResult :=
  mk_wGetPartitionNamesPsReqResult x1 v x3.
Definition GetPartitionNamesPsReqResult_set_O2 v '(mk_wGetPartitionNamesPsReqResult x1 x2 _) : wGetPartitionNamesPsReqResult :=
  mk_wGetPartitionNamesPsReqResult x1 x2 v.

Definition GetPartitionNamesPsReqResult_writeField0 (p : wGetPartitionNamesPsReqResult) : M P unit :=
  (opt (wGetPartitionNamesPsReqResult_Success p) (fun v =>
    write_field T_GetPartitionNamesPsReqResult "success" STRUCT 0 (write_sub "*hive_metastore.GetPartitionNamesPsResponse" (GetPartitionNamesPsResponse_Write (Some v)))))%go.
Definition GetPartitionNamesPsReqResult_ReadField0 (fuel : nat) : wGetPartitionNamesPsReqResult -> MF P wGetPartitionNamesPsReqResult :=
  assign (read_sub "*hive_metastore.GetPartitionNamesPsResponse" (GetPartitionNamesPsResponse_Read fuel NewGetPartitionNamesPsResponse))%go (fun v => GetPartitionNamesPsReqResult_set_Success (Some v)).
Definition GetPartitionNamesPsReqResult_writeField1 (p : wGetPartitionNamesPsReqResult) : M P unit :=
  (opt (wGetPartitionNamesPsReqResult_O1 p) (fun v =>
    write_field T_GetPartitionNamesPsReqResult "o1" STRUCT 1 (write_sub "*hive_metastore.MetaException" (Exception_Write MetaException (Some v)))))%go.
Definition GetPartitionNamesPsReqResult_ReadField1 (fuel : nat) : wGetPartitionNamesPsReqResult -> MF P wGetPartitionNamesPsReqResult :=
  assign (read_sub "*hive_metastore.MetaException" (Exception_Read MetaException fuel NewException))%go (fun v => GetPartitionNamesPsReqResult_set_O1 (Some v)).
Definition GetPartitionNamesPsReqResult_writeField2 (p : wGetPartitionNamesPsReqResult) : M P unit :=
  (opt (wGetPartitionNamesPsReqResult_O2 p) (fun v =>
    write_field T_GetPartitionNamesPsReqResult "o2" STRUCT 2 (write_sub "*hive_metastore.NoSuchObjectException" (Exception_Write NoSuchObjectException (Some v)))))%go.
Definition GetPartitionNamesPsReqResult_ReadField2 (fuel : nat) : wGetPartitionNamesPsReqResult -> MF P wGetPartitionNamesPsReqResult :=
  assign (read_sub "*hive_metastore.NoSuchObjectException" (Exception_Read NoSuchObjectException fuel NewException))%go (fun v => GetPartitionNamesPsReqResult_set_O2 (Some v)).
Definition GetPartitionNamesPsReqResult_Write (p : option wGetPartitionNamesPsReqResult) : M P unit :=
  write_struct T_GetPartitionNamesPsReqResult "get_partition_names_ps_req_result" ((fun p => [GetPartitionNamesPsReqResult_writeField0 p; GetPartitionNamesPsReqResult_writeField1 p; GetPartitionNamesPsReqResult_writeField2 p]) <$> p).
Definition GetPartitionNamesPsReqResult_switch (fuel : nat) : switch wGetPartitionNamesPsReqResult := fun fieldId =>
  match fieldId with
  | 0 => Some (STRUCT, GetPartitionNamesPsReqResult_ReadField0 fuel)
  | 1 => Some (STRUCT, GetPartitionNamesPsReqResult_ReadField1 fuel)
  | 2 => Some (STRUCT, GetPartitionNamesPsReqResult_ReadField2 fuel)
  | _ => None
  end.
Definition GetPartitionNamesPsReqResult_Read (fuel : nat) : wGetPartitionNamesPsReqResult -> MF P wGetPartitionNamesPsReqResult :=
  read_struct T_GetPartitionNamesPsReqResult [] (GetPartitionNamesPsReqResult_switch fuel) fuel.
End codec.

(** ** Stubs *)

Module Stub.
Section stub.
Context {P C : Type} {TP : TProtocol P} {MR : MapRange} {SB : Substructs P} {TC : TClient P C}.

Definition GetPartitions (fuel : nat) (db_name : string) (tbl_name : string) (max_parts : Z) : MF C (slice (option wPartition)) :=
  stub (Call "get_partitions"
          (GetPartitionsArgs_Write (Some (mk_wGetPartitionsArgs db_name tbl_name max_parts)))
          (GetPartitionsResult_Read fuel zero_GetPartitionsResult))
    (fun _result =>
       exceptions [exn NoSuchObjectException <$> wGetPartitionsResult_O1 _result;
                   exn MetaException <$> wGetPartitionsResult_O2 _result]
         (inr (wGetPartitionsResult_Success _result))).
Definition GetPartitionsReq (fuel : nat) (req : option wPartitionsRequest) : MF C wPartitionsResponse :=
  stub (Call "get_partitions_req"
          (GetPartitionsReqArgs_Write (Some (mk_wGetPartitionsReqArgs req)))
          (GetPartitionsReqResult_Read fuel zero_GetPartitionsReqResult))
    (fun _result =>
       exceptions [exn NoSuchObjectException <$> wGetPartitionsReqResult_O1 _result;
                   exn MetaException <$> wGetPartitionsReqResult_O2 _result]
         (success "get_partitions_req" (wGetPartitionsReqResult_Success _result))).
Definition GetPartitionNames (fuel : nat) (db_name : string) (tbl_name : string) (max_parts : Z) : MF C (slice string) :=
  stub (Call "get_partition_names"
          (GetPartitionNamesArgs_Write (Some (mk_wGetPartitionNamesArgs db_name tbl_name max_parts)))
          (GetPartitionNamesResult_Read fuel zero_GetPartitionNamesResult))
    (fun _result =>
       exceptions [exn NoSuchObjectException <$> wGetPartitionNamesResult_O1 _result;
                   exn MetaException <$> wGetPartitionNamesResult_O2 _result]
         (inr (wGetPartitionNamesResult_Success _result))).
Definition AddPartitionsReq (fuel : nat) (request : option wAddPartitionsRequest) : MF C wAddPartitionsResult_ :=
  stub (Call "add_partitions_req"
          (AddPartitionsReqArgs_Write (Some (mk_wAddPartitionsReqArgs request)))
          (AddPartitionsReqResult_Read fuel zero_AddPartitionsReqResult))
    (fun _result =>
       exceptions [exn InvalidObjectException <$> wAddPartitionsReqResult_O1 _result;
                   exn AlreadyExistsException <$> wAddPartitionsReqResult_O2 _result;
                   exn MetaException <$> wAddPartitionsReqResult_O3 _result]
         (success "add_partitions_req" (wAddPartitionsReqResult_Success _result))).
Definition AlterPartitions (fuel : nat) (db_name : string) (tbl_name : string) (new_parts : slice (option wPartition)) : MF C unit :=
  stub (Call "alter_partitions"
          (AlterPartitionsArgs_Write (Some (mk_wAlterPartitionsArgs db_name tbl_name new_parts)))
          (AlterPartitionsResult_Read fuel zero_AlterPartitionsResult))
    (fun _result =>
       exceptions [exn InvalidOperationException <$> wAlterPartitionsResult_O1 _result;
                   exn MetaException <$> wAlterPartitionsResult_O2 _result]
         (inr tt)).
Definition AlterPartitionsReq (fuel : nat) (req : option wAlterPartitionsRequest) : MF C wAlterPartitionsResponse :=
  stub (Call "alter_partitions_req"
          (AlterPartitionsReqArgs_Write (Some (mk_wAlterPartitionsReqArgs req)))
          (AlterPartitionsReqResult_Read fuel zero_AlterPartitionsReqResult))
    (fun _result =>
       exceptions [exn InvalidOperationException <$> wAlterPartitionsReqResult_O1 _result;
                   exn MetaException <$> wAlterPartitionsReqResult_O2 _result]
         (success "alter_partitions_req" (wAlterPartitionsReqResult_Success _result))).
Definition DropPartition (fuel : nat) (db_name : string) (tbl_name : string) (part_vals : slice string) (deleteData : bool) : MF C bool :=
  stub (Call "drop_partition"
          (DropPartitionArgs_Write (Some (mk_wDropPartitionArgs db_name tbl_name part_vals deleteData)))
          (DropPartitionResult_Read fuel zero_DropPartitionResult))
    (fun _result =>
       exceptions [exn NoSuchObjectException <$> wDropPartitionResult_O1 _result;
                   exn MetaException <$> wDropPartitionResult_O2 _result]
         (inr (default false (wDropPartitionResult_Success _result)))).
Definition DropPartitionsReq (fuel : nat) (req : option wDropPartitionsRequest) : MF C wDropPartitionsResult_ :=
  stub (Call "drop_partitions_req"
          (DropPartitionsReqArgs_Write (Some (mk_wDropPartitionsReqArgs req)))
          (DropPartitionsReqResult_Read fuel zero_DropPartitionsReqResult))
    (fun _result =>
       exceptions [exn NoSuchObjectException <$> wDropPartitionsReqResult_O1 _result;
                   exn MetaException <$> wDropPartitionsReqResult_O2 _result]
         (success "drop_partitions_req" (wDropPartitionsReqResult_Success _result))).
Definition GetPartitionsByNames (fuel : nat) (db_name : string) (tbl_name : string) (names : slice string) : MF C (slice (option wPartition)) :=
  stub (Call "get_partitions_by_names"
          (GetPartitionsByNamesArgs_Write (Some (mk_wGetPartitionsByNamesArgs db_name tbl_name names)))
          (GetPartitionsByNamesResult_Read fuel zero_GetPartitionsByNamesResult))
    (fun _result =>
       exceptions [exn MetaException <$> wGetPartitionsByNamesResult_O1 _result;
                   exn NoSuchObjectException <$> wGetPartitionsByNamesResult_O2 _result;
                   exn InvalidObjectException <$> wGetPartitionsByNamesResult_O3 _result]
         (inr (wGetPartitionsByNamesResult_Success _result))).
Definition GetPartitionsByNamesReq (fuel : nat) (req : option wGetPartitionsByNamesRequest) : MF C wGetPartitionsByNamesResult_ :=
  stub (Call "get_partitions_by_names_req"
          (GetPartitionsByNamesReqArgs_Write (Some (mk_wGetPartitionsByNamesReqArgs req)))
          (GetPartitionsByNamesReqResult_Read fuel zero_GetPartitionsByNamesReqResult))
    (fun _result =>
       exceptions [exn MetaException <$> wGetPartitionsByNamesReqResult_O1 _result;
                   exn NoSuchObjectException <$> wGetPartitionsByNamesReqResult_O2 _result;
                   exn InvalidObjectException <$> wGetPartitionsByNamesReqResult_O3 _result]
         (success "get_partitions_by_names_req" (wGetPartitionsByNamesReqResult_Success _result))).
Definition GetPartitionsByFilter (fuel : nat) (db_name : string) (tbl_name : string) (filter_ : string) (max_parts : Z) : MF C (slice (option wPartition)) :=
  stub (Call "get_partitions_by_filter"
          (GetPartitionsByFilterArgs_Write (Some (mk_wGetPartitionsByFilterArgs db_name tbl_name filter_ max_parts)))
          (GetPartitionsByFilterResult_Read fuel zero_GetPartitionsByFilterResult))
    (fun _result =>
       exceptions [exn MetaException <$> wGetPartitionsByFilterResult_O1 _result;
                   exn NoSuchObjectException <$> wGetPartitionsByFilterResult_O2 _result]
         (inr (wGetPartitionsByFilterResult_Success _result))).
Definition GetPartitionNamesPs (fuel : nat) (db_name : string) (tbl_name : string) (part_vals : slice string) (max_parts : Z) : MF C (slice string) :=
  stub (Call "get_partition_names_ps"
          (GetPartitionNamesPsArgs_Write (Some (mk_wGetPartitionNamesPsArgs db_name tbl_name part_vals max_parts)))
          (GetPartitionNamesPsResult_Read fuel zero_GetPartitionNamesPsResult))
    (fun _result =>
       exceptions [exn MetaException <$> wGetPartitionNamesPsResult_O1 _result;
                   exn NoSuchObjectException <$> wGetPartitionNamesPsResult_O2 _result]
         (inr (wGetPartitionNamesPsResult_Success _result))).
Definition GetPartitionNamesPsReq (fuel : nat) (req : option wGetPartitionNamesPsRequest) : MF C wGetPartitionNamesPsResponse :=
  stub (Call "get_partition_names_ps_req"
          (GetPartitionNamesPsReqArgs_Write (Some (mk_wGetPartitionNamesPsReqArgs req)))
          (GetPartitionNamesPsReqResult_Read fuel zero_GetPartitionNamesPsReqResult))
    (fun _result =>
       exceptions [exn MetaException <$> wGetPartitionNamesPsReqResult_O1 _result;
                   exn NoSuchObjectException <$> wGetPartitionNamesPsReqResult_O2 _result]
         (success "get_partition_names_ps_req" (wGetPartitionNamesPsReqResult_Success _result))).
End stub.
End Stub.

(** ** The processor *)

Module Processor.
Section processor.
Context {P W : Type} {TP : TProtocol P} {MR : MapRange} {SB : Substructs P} {PL : TProcessorLib P}.
Context (cause : option goerr) (handler : Handler.ThriftHiveMetastore W).

Definition GetPartitions_declared : list (thrift_exn * (wException -> wGetPartitionsResult)) :=
  [(NoSuchObjectException, fun v => GetPartitionsResult_set_O1 (Some v) zero_GetPartitionsResult);
   (MetaException, fun v => GetPartitionsResult_set_O2 (Some v) zero_GetPartitionsResult)].
Definition GetPartitions_answer : slice (option wPartition) -> wGetPartitionsResult :=
  fun retval => GetPartitionsResult_set_Success retval zero_GetPartitionsResult.
Definition GetPartitions (fuel : nat) : processor_function P W :=
  process cause "get_partitions" (GetPartitionsArgs_Read fuel zero_GetPartitionsArgs)
    (fun args => Handler.GetPartitions handler (wGetPartitionsArgs_DbName args) (wGetPartitionsArgs_TblName args) (wGetPartitionsArgs_MaxParts args))
    (type_switch GetPartitions_declared) GetPartitions_answer GetPartitionsResult_Write.
Definition GetPartitionsReq_declared : list (thrift_exn * (wException -> wGetPartitionsReqResult)) :=
  [(NoSuchObjectException, fun v => GetPartitionsReqResult_set_O1 (Some v) zero_GetPartitionsReqResult);
   (MetaException, fun v => GetPartitionsReqResult_set_O2 (Some v) zero_GetPartitionsReqResult)].
Definition GetPartitionsReq_answer : option wPartitionsResponse -> wGetPartitionsReqResult :=
  fun retval => GetPartitionsReqResult_set_Success retval zero_GetPartitionsReqResult.
Definition GetPartitionsReq (fuel : nat) : processor_function P W :=
  process cause "get_partitions_req" (GetPartitionsReqArgs_Read fuel zero_GetPartitionsReqArgs)
    (fun args => Handler.GetPartitionsReq handler (wGetPartitionsReqArgs_Req args))
    (type_switch GetPartitionsReq_declared) GetPartitionsReq_answer GetPartitionsReqResult_Write.
Definition GetPartitionNames_declared : list (thrift_exn * (wException -> wGetPartitionNamesResult)) :=
  [(NoSuchObjectException, fun v => GetPartitionNamesResult_set_O1 (Some v) zero_GetPartitionNamesResult);
   (MetaException, fun v => GetPartitionNamesResult_set_O2 (Some v) zero_GetPartitionNamesResult)].
Definition GetPartitionNames_answer : slice string -> wGetPartitionNamesResult :=
  fun retval => GetPartitionNamesResult_set_Success retval zero_GetPartitionNamesResult.
Definition GetPartitionNames (fuel : nat) : processor_function P W :=
  process cause "get_partition_names" (GetPartitionNamesArgs_Read fuel zero_GetPartitionNamesArgs)
    (fun args => Handler.GetPartitionNames handler (wGetPartitionNamesArgs_DbName args) (wGetPartitionNamesArgs_TblName args) (wGetPartitionNamesArgs_MaxParts args))
    (type_switch GetPartitionNames_declared) GetPartitionNames_answer GetPartitionNamesResult_Write.
Definition AddPartitionsReq_declared : list (thrift_exn * (wException -> wAddPartitionsReqResult)) :=
  [(InvalidObjectException, fun v => AddPartitionsReqResult_set_O1 (Some v) zero_AddPartitionsReqResult);
   (AlreadyExistsException, fun v => AddPartitionsReqResult_set_O2 (Some v) zero_AddPartitionsReqResult);
   (MetaException, fun v => AddPartitionsReqResult_set_O3 (Some v) zero_AddPartitionsReqResult)].
Definition AddPartitionsReq_answer : option wAddPartitionsResult_ -> wAddPartitionsReqResult :=
  fun retval => AddPartitionsReqResult_set_Success retval zero_AddPartitionsReqResult.
Definition AddPartitionsReq (fuel : nat) : processor_function P W :=
  process cause "add_partitions_req" (AddPartitionsReqArgs_Read fuel zero_AddPartitionsReqArgs)
    (fun args => Handler.AddPartitionsReq handler (wAddPartitionsReqArgs_Request args))
    (type_switch AddPartitionsReq_declared) AddPartitionsReq_answer AddPartitionsReqResult_Write.
Definition AlterPartitions_declared : list (thrift_exn * (wException -> wAlterPartitionsResult)) :=
  [(InvalidOperationException, fun v => AlterPartitionsResult_set_O1 (Some v) zero_AlterPartitionsResult);
   (MetaException, fun v => AlterPartitionsResult_set_O2 (Some v) zero_AlterPartitionsResult)].
Definition AlterPartitions_answer : unit -> wAlterPartitionsResult :=
  fun _ => zero_AlterPartitionsResult.
Definition AlterPartitions (fuel : nat) : processor_function P W :=
  process cause "alter_partitions" (AlterPartitionsArgs_Read fuel zero_AlterPartitionsArgs)
    (fun args => Handler.AlterPartitions handler (wAlterPartitionsArgs_DbName args) (wAlterPartitionsArgs_TblName args) (wAlterPartitionsArgs_NewParts_ args))
    (type_switch AlterPartitions_declared) AlterPartitions_answer AlterPartitionsResult_Write.
Definition AlterPartitionsReq_declared : list (thrift_exn * (wException -> wAlterPartitionsReqResult)) :=
  [(InvalidOperationException, fun v => AlterPartitionsReqResult_set_O1 (Some v) zero_AlterPartitionsReqResult);
   (MetaException, fun v => AlterPartitionsReqResult_set_O2 (Some v) zero_AlterPartitionsReqResult)].
Definition AlterPartitionsReq_answer : option wAlterPartitionsResponse -> wAlterPartitionsReqResult :=
  fun retval => AlterPartitionsReqResult_set_Success retval zero_AlterPartitionsReqResult.
Definition AlterPartitionsReq (fuel : nat) : processor_function P W :=
  process cause "alter_partitions_req" (AlterPartitionsReqArgs_Read fuel zero_AlterPartitionsReqArgs)
    (fun args => Handler.AlterPartitionsReq handler (wAlterPartitionsReqArgs_Req args))
    (type_switch AlterPartitionsReq_declared) AlterPartitionsReq_answer AlterPartitionsReqResult_Write.
Definition DropPartition_declared : list (thrift_exn * (wException -> wDropPartitionResult)) :=
  [(NoSuchObjectException, fun v => DropPartitionResult_set_O1 (Some v) zero_DropPartitionResult);
   (MetaException, fun v => DropPartitionResult_set_O2 (Some v) zero_DropPartitionResult)].
Definition DropPartition_answer : bool -> wDropPartitionResult :=
  fun retval => DropPartitionResult_set_Success (Some retval) zero_DropPartitionResult.
Definition DropPartition (fuel : nat) : processor_function P W :=
  process cause "drop_partition" (DropPartitionArgs_Read fuel zero_DropPartitionArgs)
    (fun args => Handler.DropPartition handler (wDropPartitionArgs_DbName args) (wDropPartitionArgs_TblName args) (wDropPartitionArgs_PartVals args) (wDropPartitionArgs_DeleteData args))
    (type_switch DropPartition_declared) DropPartition_answer DropPartitionResult_Write.
Definition DropPartitionsReq_declared : list (thrift_exn * (wException -> wDropPartitionsReqResult)) :=
  [(NoSuchObjectException, fun v => DropPartitionsReqResult_set_O1 (Some v) zero_DropPartitionsReqResult);
   (MetaException, fun v => DropPartitionsReqResult_set_O2 (Some v) zero_DropPartitionsReqResult)].
Definition DropPartitionsReq_answer : option wDropPartitionsResult_ -> wDropPartitionsReqResult :=
  fun retval => DropPartitionsReqResult_set_Success retval zero_DropPartitionsReqResult.
Definition DropPartitionsReq (fuel : nat) : processor_function P W :=
  process cause "drop_partitions_req" (DropPartitionsReqArgs_Read fuel zero_DropPartitionsReqArgs)
    (fun args => Handler.DropPartitionsReq handler (wDropPartitionsReqArgs_Req args))
    (type_switch DropPartitionsReq_declared) DropPartitionsReq_answer DropPartitionsReqResult_Write.
Definition GetPartitionsByNames_declared : list (thrift_exn * (wException -> wGetPartitionsByNamesResult)) :=
  [(MetaException, fun v => GetPartitionsByNamesResult_set_O1 (Some v) zero_GetPartitionsByNamesResult);
   (NoSuchObjectException, fun v => GetPartitionsByNamesResult_set_O2 (Some v) zero_GetPartitionsByNamesResult);
   (InvalidObjectException, fun v => GetPartitionsByNamesResult_set_O3 (Some v) zero_GetPartitionsByNamesResult)].
Definition GetPartitionsByNames_answer : slice (option wPartition) -> wGetPartitionsByNamesResult :=
  fun retval => GetPartitionsByNamesResult_set_Success retval zero_GetPartitionsByNamesResult.
Definition GetPartitionsByNames (fuel : nat) : processor_function P W :=
  process cause "get_partitions_by_names" (GetPartitionsByNamesArgs_Read fuel zero_GetPartitionsByNamesArgs)
    (fun args => Handler.GetPartitionsByNames handler (wGetPartitionsByNamesArgs_DbName args) (wGetPartitionsByNamesArgs_TblName args) (wGetPartitionsByNamesArgs_Names args))
    (type_switch GetPartitionsByNames_declared) GetPartitionsByNames_answer GetPartitionsByNamesResult_Write.
Definition GetPartitionsByNamesReq_declared : list (thrift_exn * (wException -> wGetPartitionsByNamesReqResult)) :=
  [(MetaException, fun v => GetPartitionsByNamesReqResult_set_O1 (Some v) zero_GetPartitionsByNamesReqResult);
   (NoSuchObjectException, fun v => GetPartitionsByNamesReqResult_set_O2 (Some v) zero_GetPartitionsByNamesReqResult);
   (InvalidObjectException, fun v => GetPartitionsByNamesReqResult_set_O3 (Some v) zero_GetPartitionsByNamesReqResult)].
Definition GetPartitionsByNamesReq_answer : option wGetPartitionsByNamesResult_ -> wGetPartitionsByNamesReqResult :=
  fun retval => GetPartitionsByNamesReqResult_set_Success retval zero_GetPartitionsByNamesReqResult.
Definition GetPartitionsByNamesReq (fuel : nat) : processor_function P W :=
  process cause "get_partitions_by_names_req" (GetPartitionsByNamesReqArgs_Read fuel zero_GetPartitionsByNamesReqArgs)
    (fun args => Handler.GetPartitionsByNamesReq handler (wGetPartitionsByNamesReqArgs_Req args))
    (type_switch GetPartitionsByNamesReq_declared) GetPartitionsByNamesReq_answer GetPartitionsByNamesReqResult_Write.
Definition GetPartitionsByFilter_declared : list (thrift_exn * (wException -> wGetPartitionsByFilterResult)) :=
  [(MetaException, fun v => GetPartitionsByFilterResult_set_O1 (Some v) zero_GetPartitionsByFilterResult);
   (NoSuchObjectException, fun v => GetPartitionsByFilterResult_set_O2 (Some v) zero_GetPartitionsByFilterResult)].
Definition GetPartitionsByFilter_answer : slice (option wPartition) -> wGetPartitionsByFilterResult :=
  fun retval => GetPartitionsByFilterResult_set_Success retval zero_GetPartitionsByFilterResult.
Definition GetPartitionsByFilter (fuel : nat) : processor_function P W :=
  process cause "get_partitions_by_filter" (GetPartitionsByFilterArgs_Read fuel zero_GetPartitionsByFilterArgs)
    (fun args => Handler.GetPartitionsByFilter handler (wGetPartitionsByFilterArgs_DbName args) (wGetPartitionsByFilterArgs_TblName args) (wGetPartitionsByFilterArgs_Filter args) (wGetPartitionsByFilterArgs_MaxParts args))
    (type_switch GetPartitionsByFilter_declared) GetPartitionsByFilter_answer GetPartitionsByFilterResult_Write.
Definition GetPartitionNamesPs_declared : list (thrift_exn * (wException -> wGetPartitionNamesPsResult)) :=
  [(MetaException, fun v => GetPartitionNamesPsResult_set_O1 (Some v) zero_GetPartitionNamesPsResult);
   (NoSuchObjectException, fun v => GetPartitionNamesPsResult_set_O2 (Some v) zero_GetPartitionNamesPsResult)].
Definition GetPartitionNamesPs_answer : slice string -> wGetPartitionNamesPsResult :=
  fun retval => GetPartitionNamesPsResult_set_Success retval zero_GetPartitionNamesPsResult.
Definition GetPartitionNamesPs (fuel : nat) : processor_function P W :=
  process cause "get_partition_names_ps" (GetPartitionNamesPsArgs_Read fuel zero_GetPartitionNamesPsArgs)
    (fun args => Handler.GetPartitionNamesPs handler (wGetPartitionNamesPsArgs_DbName args) (wGetPartitionNamesPsArgs_TblName args) (wGetPartitionNamesPsArgs_PartVals args) (wGetPartitionNamesPsArgs_MaxParts args))
    (type_switch GetPartitionNamesPs_declared) GetPartitionNamesPs_answer GetPartitionNamesPsResult_Write.
Definition GetPartitionNamesPsReq_declared : list (thrift_exn * (wException -> wGetPartitionNamesPsReqResult)) :=
  [(MetaException, fun v => GetPartitionNamesPsReqResult_set_O1 (Some v) zero_GetPartitionNamesPsReqResult);
   (NoSuchObjectException, fun v => GetPartitionNamesPsReqResult_set_O2 (Some v) zero_GetPartitionNamesPsReqResult)].
Definition GetPartitionNamesPsReq_answer : option wGetPartitionNamesPsResponse -> wGetPartitionNamesPsReqResult :=
  fun retval => GetPartitionNamesPsReqResult_set_Success retval zero_GetPartitionNamesPsReqResult.
Definition GetPartitionNamesPsReq (fuel : nat) : processor_function P W :=
  process cause "get_partition_names_ps_req" (GetPartitionNamesPsReqArgs_Read fuel zero_GetPartitionNamesPsReqArgs)
    (fun args => Handler.GetPartitionNamesPsReq handler (wGetPartitionNamesPsReqArgs_Req args))
    (type_switch GetPartitionNamesPsReq_declared) GetPartitionNamesPsReq_answer GetPartitionNamesPsReqResult_Write.
End processor.
End Processor.
