(* ===== verification/RpcTxn.v ===== *)
(** * RpcTxn: the RPCs on transactions, locks, notifications

    Of each, as gen/ has it: the argument and result structs with their Write and
    Read (the prefix ThriftHiveMetastore or FacebookService of their names left out),
    the client's stub, and the processor's method. *)

From S2P Require Import Prelude Errors GoMonad Types Transport Wire Thrift CodecAcid CodecReq Rpc RpcHandler.

(** ** get_next_notification *)

Record wGetNextNotificationArgs := mk_wGetNextNotificationArgs {
  wGetNextNotificationArgs_Rqst : option wNotificationEventRequest;
}.
Definition zero_GetNextNotificationArgs : wGetNextNotificationArgs := mk_wGetNextNotificationArgs None.
Record wGetNextNotificationResult := mk_wGetNextNotificationResult {
  wGetNextNotificationResult_Success : option wNotificationEventResponse;
}.
Definition zero_GetNextNotificationResult : wGetNextNotificationResult := mk_wGetNextNotificationResult None.

(** ** get_current_notificationEventId *)

Record wGetCurrentNotificationEventIdArgs := mk_wGetCurrentNotificationEventIdArgs {}.
Definition zero_GetCurrentNotificationEventIdArgs : wGetCurrentNotificationEventIdArgs := mk_wGetCurrentNotificationEventIdArgs.
Record wGetCurrentNotificationEventIdResult := mk_wGetCurrentNotificationEventIdResult {
  wGetCurrentNotificationEventIdResult_Success : option wCurrentNotificationEventId;
}.
Definition zero_GetCurrentNotificationEventIdResult : wGetCurrentNotificationEventIdResult := mk_wGetCurrentNotificationEventIdResult None.

(** ** open_txns *)

Record wOpenTxnsArgs := mk_wOpenTxnsArgs {
  wOpenTxnsArgs_Rqst : option wOpenTxnRequest;
}.
Definition zero_OpenTxnsArgs : wOpenTxnsArgs := mk_wOpenTxnsArgs None.
Record wOpenTxnsResult := mk_wOpenTxnsResult {
  wOpenTxnsResult_Success : option wOpenTxnsResponse;
}.
Definition zero_OpenTxnsResult : wOpenTxnsResult := mk_wOpenTxnsResult None.

(** ** commit_txn *)

Record wCommitTxnArgs := mk_wCommitTxnArgs {
  wCommitTxnArgs_Rqst : option wCommitTxnRequest;
}.
Definition zero_CommitTxnArgs : wCommitTxnArgs := mk_wCommitTxnArgs None.
Record wCommitTxnResult := mk_wCommitTxnResult {
  wCommitTxnResult_O1 : option wException;
  wCommitTxnResult_O2 : option wException;
}.
Definition zero_CommitTxnResult : wCommitTxnResult := mk_wCommitTxnResult None None.

(** ** abort_txn *)

Record wAbortTxnArgs := mk_wAbortTxnArgs {
  wAbortTxnArgs_Rqst : option wAbortTxnRequest;
}.
Definition zero_AbortTxnArgs : wAbortTxnArgs := mk_wAbortTxnArgs None.
Record wAbortTxnResult := mk_wAbortTxnResult {
  wAbortTxnResult_O1 : option wException;
}.
Definition zero_AbortTxnResult : wAbortTxnResult := mk_wAbortTxnResult None.

(** ** heartbeat *)

Record wHeartbeatArgs := mk_wHeartbeatArgs {
  wHeartbeatArgs_Ids : option wHeartbeatRequest;
}.
Definition zero_HeartbeatArgs : wHeartbeatArgs := mk_wHeartbeatArgs None.
Record wHeartbeatResult := mk_wHeartbeatResult {
  wHeartbeatResult_O1 : option wException;
  wHeartbeatResult_O2 : option wException;
  wHeartbeatResult_O3 : option wException;
}.
Definition zero_HeartbeatResult : wHeartbeatResult := mk_wHeartbeatResult None None None.

(** ** lock *)

Record wLockArgs := mk_wLockArgs {
  wLockArgs_Rqst : option wLockRequest;
}.
Definition zero_LockArgs : wLockArgs := mk_wLockArgs None.
Record wLockResult := mk_wLockResult {
  wLockResult_Success : option wLockResponse;
  wLockResult_O1 : option wException;
  wLockResult_O2 : option wException;
}.
Definition zero_LockResult : wLockResult := mk_wLockResult None None None.

(** ** check_lock *)

Record wCheckLockArgs := mk_wCheckLockArgs {
  wCheckLockArgs_Rqst : option wCheckLockRequest;
}.
Definition zero_CheckLockArgs : wCheckLockArgs := mk_wCheckLockArgs None.
Record wCheckLockResult := mk_wCheckLockResult {
  wCheckLockResult_Success : option wLockResponse;
  wCheckLockResult_O1 : option wException;
  wCheckLockResult_O2 : option wException;
  wCheckLockResult_O3 : option wException;
}.
Definition zero_CheckLockResult : wCheckLockResult := mk_wCheckLockResult None None None None.

(** ** unlock *)

Record wUnlockArgs := mk_wUnlockArgs {
  wUnlockArgs_Rqst : option wUnlockRequest;
}.
Definition zero_UnlockArgs : wUnlockArgs := mk_wUnlockArgs None.
Record wUnlockResult := mk_wUnlockResult {
  wUnlockResult_O1 : option wException;
  wUnlockResult_O2 : option wException;
}.
Definition zero_UnlockResult : wUnlockResult := mk_wUnlockResult None None.

Section codec.
Context {P : Type} {TP : TProtocol P} {MR : MapRange} {SB : Substructs P}.

(** ** get_next_notification *)

Local Abbreviation T_GetNextNotificationArgs := "*hive_metastore.ThriftHiveMetastoreGetNextNotificationArgs".
Definition GetNextNotificationArgs_set_Rqst v (_ : wGetNextNotificationArgs) : wGetNextNotificationArgs := mk_wGetNextNotificationArgs v.

Definition GetNextNotificationArgs_writeField1 (p : wGetNextNotificationArgs) : M P unit :=
  (opt (wGetNextNotificationArgs_Rqst p) (fun v =>
    write_field T_GetNextNotificationArgs "rqst" STRUCT 1 (write_sub "*hive_metastore.NotificationEventRequest" (NotificationEventRequest_Write (Some v)))))%go.
Definition GetNextNotificationArgs_ReadField1 (fuel : nat) : wGetNextNotificationArgs -> MF P wGetNextNotificationArgs :=
  assign (read_sub "*hive_metastore.NotificationEventRequest" (NotificationEventRequest_Read fuel NewNotificationEventRequest))%go (fun v => GetNextNotificationArgs_set_Rqst (Some v)).
Definition GetNextNotificationArgs_Write (p : option wGetNextNotificationArgs) : M P unit :=
  write_struct T_GetNextNotificationArgs "get_next_notification_args" ((fun p => [GetNextNotificationArgs_writeField1 p]) <$> p).
Definition GetNextNotificationArgs_switch (fuel : nat) : switch wGetNextNotificationArgs := fun fieldId =>
  match fieldId with
  | 1 => Some (STRUCT, GetNextNotificationArgs_ReadField1 fuel)
  | _ => None
  end.
Definition GetNextNotificationArgs_Read (fuel : nat) : wGetNextNotificationArgs -> MF P wGetNextNotificationArgs :=
  read_struct T_GetNextNotificationArgs [] (GetNextNotificationArgs_switch fuel) fuel.

Local Abbreviation T_GetNextNotificationResult := "*hive_metastore.ThriftHiveMetastoreGetNextNotificationResult".
Definition GetNextNotificationResult_set_Success v (_ : wGetNextNotificationResult) : wGetNextNotificationResult := mk_wGetNextNotificationResult v.

Definition GetNextNotificationResult_writeField0 (p : wGetNextNotificationResult) : M P unit :=
  (opt (wGetNextNotificationResult_Success p) (fun v =>
    write_field T_GetNextNotificationResult "success" STRUCT 0 (write_sub "*hive_metastore.NotificationEventResponse" (NotificationEventResponse_Write (Some v)))))%go.
Definition GetNextNotificationResult_ReadField0 (fuel : nat) : wGetNextNotificationResult -> MF P wGetNextNotificationResult :=
  assign (read_sub "*hive_metastore.NotificationEventResponse" (NotificationEventResponse_Read fuel NewNotificationEventResponse))%go (fun v => GetNextNotificationResult_set_Success (Some v)).
Definition GetNextNotificationResult_Write (p : option wGetNextNotificationResult) : M P unit :=
  write_struct T_GetNextNotificationResult "get_next_notification_result" ((fun p => [GetNextNotificationResult_writeField0 p]) <$> p).
Definition GetNextNotificationResult_switch (fuel : nat) : switch wGetNextNotificationResult := fun fieldId =>
  match fieldId with
  | 0 => Some (STRUCT, GetNextNotificationResult_ReadField0 fuel)
  | _ => None
  end.
Definition GetNextNotificationResult_Read (fuel : nat) : wGetNextNotificationResult -> MF P wGetNextNotificationResult :=
  read_struct T_GetNextNotificationResult [] (GetNextNotificationResult_switch fuel) fuel.

(** ** get_current_notificationEventId *)

Local Abbreviation T_GetCurrentNotificationEventIdArgs := "*hive_metastore.ThriftHiveMetastoreGetCurrentNotificationEventIdArgs".
Definition GetCurrentNotificationEventIdArgs_Write (p : option wGetCurrentNotificationEventIdArgs) : M P unit :=
  write_struct T_GetCurrentNotificationEventIdArgs "get_current_notificationEventId_args" ((fun _ => []) <$> p).
Definition GetCurrentNotificationEventIdArgs_switch : switch (P := P) wGetCurrentNotificationEventIdArgs := fun _ => None.
Definition GetCurrentNotificationEventIdArgs_Read (fuel : nat) : wGetCurrentNotificationEventIdArgs -> MF P wGetCurrentNotificationEventIdArgs :=
  read_struct T_GetCurrentNotificationEventIdArgs [] GetCurrentNotificationEventIdArgs_switch fuel.

Local Abbreviation T_GetCurrentNotificationEventIdResult := "*hive_metastore.ThriftHiveMetastoreGetCurrentNotificationEventIdResult".
Definition GetCurrentNotificationEventIdResult_set_Success v (_ : wGetCurrentNotificationEventIdResult) : wGetCurrentNotificationEventIdResult := mk_wGetCurrentNotificationEventIdResult v.

Definition GetCurrentNotificationEventIdResult_writeField0 (p : wGetCurrentNotificationEventIdResult) : M P unit :=
  (opt (wGetCurrentNotificationEventIdResult_Success p) (fun v =>
    write_field T_GetCurrentNotificationEventIdResult "success" STRUCT 0 (write_sub "*hive_metastore.CurrentNotificationEventId" (CurrentNotificationEventId_Write (Some v)))))%go.
Definition GetCurrentNotificationEventIdResult_ReadField0 (fuel : nat) : wGetCurrentNotificationEventIdResult -> MF P wGetCurrentNotificationEventIdResult :=
  assign (read_sub "*hive_metastore.CurrentNotificationEventId" (CurrentNotificationEventId_Read fuel NewCurrentNotificationEventId))%go (fun v => GetCurrentNotificationEventIdResult_set_Success (Some v)).
Definition GetCurrentNotificationEventIdResult_Write (p : option wGetCurrentNotificationEventIdResult) : M P unit :=
  write_struct T_GetCurrentNotificationEventIdResult "get_current_notificationEventId_result" ((fun p => [GetCurrentNotificationEventIdResult_writeField0 p]) <$> p).
Definition GetCurrentNotificationEventIdResult_switch (fuel : nat) : switch wGetCurrentNotificationEventIdResult := fun fieldId =>
  match fieldId with
  | 0 => Some (STRUCT, GetCurrentNotificationEventIdResult_ReadField0 fuel)
  | _ => None
  end.
Definition GetCurrentNotificationEventIdResult_Read (fuel : nat) : wGetCurrentNotificationEventIdResult -> MF P wGetCurrentNotificationEventIdResult :=
  read_struct T_GetCurrentNotificationEventIdResult [] (GetCurrentNotificationEventIdResult_switch fuel) fuel.

(** ** open_txns *)

Local Abbreviation T_OpenTxnsArgs := "*hive_metastore.ThriftHiveMetastoreOpenTxnsArgs".
Definition OpenTxnsArgs_set_Rqst v (_ : wOpenTxnsArgs) : wOpenTxnsArgs := mk_wOpenTxnsArgs v.

Definition OpenTxnsArgs_writeField1 (p : wOpenTxnsArgs) : M P unit :=
  (opt (wOpenTxnsArgs_Rqst p) (fun v =>
    write_field T_OpenTxnsArgs "rqst" STRUCT 1 (write_sub "*hive_metastore.OpenTxnRequest" (OpenTxnRequest_Write (Some v)))))%go.
Definition OpenTxnsArgs_ReadField1 (fuel : nat) : wOpenTxnsArgs -> MF P wOpenTxnsArgs :=
  assign (read_sub "*hive_metastore.OpenTxnRequest" (OpenTxnRequest_Read fuel NewOpenTxnRequest))%go (fun v => OpenTxnsArgs_set_Rqst (Some v)).
Definition OpenTxnsArgs_Write (p : option wOpenTxnsArgs) : M P unit :=
  write_struct T_OpenTxnsArgs "open_txns_args" ((fun p => [OpenTxnsArgs_writeField1 p]) <$> p).
Definition OpenTxnsArgs_switch (fuel : nat) : switch wOpenTxnsArgs := fun fieldId =>
  match fieldId with
  | 1 => Some (STRUCT, OpenTxnsArgs_ReadField1 fuel)
  | _ => None
  end.
Definition OpenTxnsArgs_Read (fuel : nat) : wOpenTxnsArgs -> MF P wOpenTxnsArgs :=
  read_struct T_OpenTxnsArgs [] (OpenTxnsArgs_switch fuel) fuel.

Local Abbreviation T_OpenTxnsResult := "*hive_metastore.ThriftHiveMetastoreOpenTxnsResult".
Definition OpenTxnsResult_set_Success v (_ : wOpenTxnsResult) : wOpenTxnsResult := mk_wOpenTxnsResult v.

Definition OpenTxnsResult_writeField0 (p : wOpenTxnsResult) : M P unit :=
  (opt (wOpenTxnsResult_Success p) (fun v =>
    write_field T_OpenTxnsResult "success" STRUCT 0 (write_sub "*hive_metastore.OpenTxnsResponse" (OpenTxnsResponse_Write (Some v)))))%go.
Definition OpenTxnsResult_ReadField0 (fuel : nat) : wOpenTxnsResult -> MF P wOpenTxnsResult :=
  assign (read_sub "*hive_metastore.OpenTxnsResponse" (OpenTxnsResponse_Read fuel NewOpenTxnsResponse))%go (fun v => OpenTxnsResult_set_Success (Some v)).
Definition OpenTxnsResult_Write (p : option wOpenTxnsResult) : M P unit :=
  write_struct T_OpenTxnsResult "open_txns_result" ((fun p => [OpenTxnsResult_writeField0 p]) <$> p).
Definition OpenTxnsResult_switch (fuel : nat) : switch wOpenTxnsResult := fun fieldId =>
  match fieldId with
  | 0 => Some (STRUCT, OpenTxnsResult_ReadField0 fuel)
  | _ => None
  end.
Definition OpenTxnsResult_Read (fuel : nat) : wOpenTxnsResult -> MF P wOpenTxnsResult :=
  read_struct T_OpenTxnsResult [] (OpenTxnsResult_switch fuel) fuel.

(** ** commit_txn *)

Local Abbreviation T_CommitTxnArgs := "*hive_metastore.ThriftHiveMetastoreCommitTxnArgs".
Definition CommitTxnArgs_set_Rqst v (_ : wCommitTxnArgs) : wCommitTxnArgs := mk_wCommitTxnArgs v.

Definition CommitTxnArgs_writeField1 (p : wCommitTxnArgs) : M P unit :=
  (opt (wCommitTxnArgs_Rqst p) (fun v =>
    write_field T_CommitTxnArgs "rqst" STRUCT 1 (write_sub "*hive_metastore.CommitTxnRequest" (CommitTxnRequest_Write (Some v)))))%go.
Definition CommitTxnArgs_ReadField1 (fuel : nat) : wCommitTxnArgs -> MF P wCommitTxnArgs :=
  assign (read_sub "*hive_metastore.CommitTxnRequest" (CommitTxnRequest_Read fuel NewCommitTxnRequest))%go (fun v => CommitTxnArgs_set_Rqst (Some v)).
Definition CommitTxnArgs_Write (p : option wCommitTxnArgs) : M P unit :=
  write_struct T_CommitTxnArgs "commit_txn_args" ((fun p => [CommitTxnArgs_writeField1 p]) <$> p).
Definition CommitTxnArgs_switch (fuel : nat) : switch wCommitTxnArgs := fun fieldId =>
  match fieldId with
  | 1 => Some (STRUCT, CommitTxnArgs_ReadField1 fuel)
  | _ => None
  end.
Definition CommitTxnArgs_Read (fuel : nat) : wCommitTxnArgs -> MF P wCommitTxnArgs :=
  read_struct T_CommitTxnArgs [] (CommitTxnArgs_switch fuel) fuel.

Local Abbreviation T_CommitTxnResult := "*hive_metastore.ThriftHiveMetastoreCommitTxnResult".
Definition CommitTxnResult_set_O1 v '(mk_wCommitTxnResult _ x2) : wCommitTxnResult :=
  mk_wCommitTxnResult v x2.
Definition CommitTxnResult_set_O2 v '(mk_wCommitTxnResult x1 _) : wCommitTxnResult :=
  mk_wCommitTxnResult x1 v.

Definition CommitTxnResult_writeField1 (p : wCommitTxnResult) : M P unit :=
  (opt (wCommitTxnResult_O1 p) (fun v =>
    write_field T_CommitTxnResult "o1" STRUCT 1 (write_sub "*hive_metastore.NoSuchTxnException" (Exception_Write NoSuchTxnException (Some v)))))%go.
Definition CommitTxnResult_ReadField1 (fuel : nat) : wCommitTxnResult -> MF P wCommitTxnResult :=
  assign (read_sub "*hive_metastore.NoSuchTxnException" (Exception_Read NoSuchTxnException fuel NewException))%go (fun v => CommitTxnResult_set_O1 (Some v)).
Definition CommitTxnResult_writeField2 (p : wCommitTxnResult) : M P unit :=
  (opt (wCommitTxnResult_O2 p) (fun v =>
    write_field T_CommitTxnResult "o2" STRUCT 2 (write_sub "*hive_metastore.TxnAbortedException" (Exception_Write TxnAbortedException (Some v)))))%go.
Definition CommitTxnResult_ReadField2 (fuel : nat) : wCommitTxnResult -> MF P wCommitTxnResult :=
  assign (read_sub "*hive_metastore.TxnAbortedException" (Exception_Read TxnAbortedException fuel NewException))%go (fun v => CommitTxnResult_set_O2 (Some v)).
Definition CommitTxnResult_Write (p : option wCommitTxnResult) : M P unit :=
  write_struct T_CommitTxnResult "commit_txn_result" ((fun p => [CommitTxnResult_writeField1 p;
     CommitTxnResult_writeField2 p]) <$> p).
Definition CommitTxnResult_switch (fuel : nat) : switch wCommitTxnResult := fun fieldId =>
  match fieldId with
  | 1 => Some (STRUCT, CommitTxnResult_ReadField1 fuel)
  | 2 => Some (STRUCT, CommitTxnResult_ReadField2 fuel)
  | _ => None
  end.
Definition CommitTxnResult_Read (fuel : nat) : wCommitTxnResult -> MF P wCommitTxnResult :=
  read_struct T_CommitTxnResult [] (CommitTxnResult_switch fuel) fuel.

(** ** abort_txn *)

Local Abbreviation T_AbortTxnArgs := "*hive_metastore.ThriftHiveMetastoreAbortTxnArgs".
Definition AbortTxnArgs_set_Rqst v (_ : wAbortTxnArgs) : wAbortTxnArgs := mk_wAbortTxnArgs v.

Definition AbortTxnArgs_writeField1 (p : wAbortTxnArgs) : M P unit :=
  (opt (wAbortTxnArgs_Rqst p) (fun v =>
    write_field T_AbortTxnArgs "rqst" STRUCT 1 (write_sub "*hive_metastore.AbortTxnRequest" (AbortTxnRequest_Write (Some v)))))%go.
Definition AbortTxnArgs_ReadField1 (fuel : nat) : wAbortTxnArgs -> MF P wAbortTxnArgs :=
  assign (read_sub "*hive_metastore.AbortTxnRequest" (AbortTxnRequest_Read fuel NewAbortTxnRequest))%go (fun v => AbortTxnArgs_set_Rqst (Some v)).
Definition AbortTxnArgs_Write (p : option wAbortTxnArgs) : M P unit :=
  write_struct T_AbortTxnArgs "abort_txn_args" ((fun p => [AbortTxnArgs_writeField1 p]) <$> p).
Definition AbortTxnArgs_switch (fuel : nat) : switch wAbortTxnArgs := fun fieldId =>
  match fieldId with
  | 1 => Some (STRUCT, AbortTxnArgs_ReadField1 fuel)
  | _ => None
  end.
Definition AbortTxnArgs_Read (fuel : nat) : wAbortTxnArgs -> MF P wAbortTxnArgs :=
  read_struct T_AbortTxnArgs [] (AbortTxnArgs_switch fuel) fuel.

Local Abbreviation T_AbortTxnResult := "*hive_metastore.ThriftHiveMetastoreAbortTxnResult".
Definition AbortTxnResult_set_O1 v (_ : wAbortTxnResult) : wAbortTxnResult := mk_wAbortTxnResult v.

Definition AbortTxnResult_writeField1 (p : wAbortTxnResult) : M P unit :=
  (opt (wAbortTxnResult_O1 p) (fun v =>
    write_field T_AbortTxnResult "o1" STRUCT 1 (write_sub "*hive_metastore.NoSuchTxnException" (Exception_Write NoSuchTxnException (Some v)))))%go.
Definition AbortTxnResult_ReadField1 (fuel : nat) : wAbortTxnResult -> MF P wAbortTxnResult :=
  assign (read_sub "*hive_metastore.NoSuchTxnException" (Exception_Read NoSuchTxnException fuel NewException))%go (fun v => AbortTxnResult_set_O1 (Some v)).
Definition AbortTxnResult_Write (p : option wAbortTxnResult) : M P unit :=
  write_struct T_AbortTxnResult "abort_txn_result" ((fun p => [AbortTxnResult_writeField1 p]) <$> p).
Definition AbortTxnResult_switch (fuel : nat) : switch wAbortTxnResult := fun fieldId =>
  match fieldId with
  | 1 => Some (STRUCT, AbortTxnResult_ReadField1 fuel)
  | _ => None
  end.
Definition AbortTxnResult_Read (fuel : nat) : wAbortTxnResult -> MF P wAbortTxnResult :=
  read_struct T_AbortTxnResult [] (AbortTxnResult_switch fuel) fuel.

(** ** heartbeat *)

Local Abbreviation T_HeartbeatArgs := "*hive_metastore.ThriftHiveMetastoreHeartbeatArgs".
Definition HeartbeatArgs_set_Ids v (_ : wHeartbeatArgs) : wHeartbeatArgs := mk_wHeartbeatArgs v.

Definition HeartbeatArgs_writeField1 (p : wHeartbeatArgs) : M P unit :=
  (opt (wHeartbeatArgs_Ids p) (fun v =>
    write_field T_HeartbeatArgs "ids" STRUCT 1 (write_sub "*hive_metastore.HeartbeatRequest" (HeartbeatRequest_Write (Some v)))))%go.
Definition HeartbeatArgs_ReadField1 (fuel : nat) : wHeartbeatArgs -> MF P wHeartbeatArgs :=
  assign (read_sub "*hive_metastore.HeartbeatRequest" (HeartbeatRequest_Read fuel NewHeartbeatRequest))%go (fun v => HeartbeatArgs_set_Ids (Some v)).
Definition HeartbeatArgs_Write (p : option wHeartbeatArgs) : M P unit :=
  write_struct T_HeartbeatArgs "heartbeat_args" ((fun p => [HeartbeatArgs_writeField1 p]) <$> p).
Definition HeartbeatArgs_switch (fuel : nat) : switch wHeartbeatArgs := fun fieldId =>
  match fieldId with
  | 1 => Some (STRUCT, HeartbeatArgs_ReadField1 fuel)
  | _ => None
  end.
Definition HeartbeatArgs_Read (fuel : nat) : wHeartbeatArgs -> MF P wHeartbeatArgs :=
  read_struct T_HeartbeatArgs [] (HeartbeatArgs_switch fuel) fuel.

Local Abbreviation T_HeartbeatResult := "*hive_metastore.ThriftHiveMetastoreHeartbeatResult".
Definition HeartbeatResult_set_O1 v '(mk_wHeartbeatResult _ x2 x3) : wHeartbeatResult :=
  mk_wHeartbeatResult v x2 x3.
Definition HeartbeatResult_set_O2 v '(mk_wHeartbeatResult x1 _ x3) : wHeartbeatResult :=
  mk_wHeartbeatResult x1 v x3.
Definition HeartbeatResult_set_O3 v '(mk_wHeartbeatResult x1 x2 _) : wHeartbeatResult :=
  mk_wHeartbeatResult x1 x2 v.

Definition HeartbeatResult_writeField1 (p : wHeartbeatResult) : M P unit :=
  (opt (wHeartbeatResult_O1 p) (fun v =>
    write_field T_HeartbeatResult "o1" STRUCT 1 (write_sub "*hive_metastore.NoSuchLockException" (Exception_Write NoSuchLockException (Some v)))))%go.
Definition HeartbeatResult_ReadField1 (fuel : nat) : wHeartbeatResult -> MF P wHeartbeatResult :=
  assign (read_sub "*hive_metastore.NoSuchLockException" (Exception_Read NoSuchLockException fuel NewException))%go (fun v => HeartbeatResult_set_O1 (Some v)).
Definition HeartbeatResult_writeField2 (p : wHeartbeatResult) : M P unit :=
  (opt (wHeartbeatResult_O2 p) (fun v =>
    write_field T_HeartbeatResult "o2" STRUCT 2 (write_sub "*hive_metastore.NoSuchTxnException" (Exception_Write NoSuchTxnException (Some v)))))%go.
Definition HeartbeatResult_ReadField2 (fuel : nat) : wHeartbeatResult -> MF P wHeartbeatResult :=
  assign (read_sub "*hive_metastore.NoSuchTxnException" (Exception_Read NoSuchTxnException fuel NewException))%go (fun v => HeartbeatResult_set_O2 (Some v)).
Definition HeartbeatResult_writeField3 (p : wHeartbeatResult) : M P unit :=
  (opt (wHeartbeatResult_O3 p) (fun v =>
    write_field T_HeartbeatResult "o3" STRUCT 3 (write_sub "*hive_metastore.TxnAbortedException" (Exception_Write TxnAbortedException (Some v)))))%go.
Definition HeartbeatResult_ReadField3 (fuel : nat) : wHeartbeatResult -> MF P wHeartbeatResult :=
  assign (read_sub "*hive_metastore.TxnAbortedException" (Exception_Read TxnAbortedException fuel NewException))%go (fun v => HeartbeatResult_set_O3 (Some v)).
Definition HeartbeatResult_Write (p : option wHeartbeatResult) : M P unit :=
  write_struct T_HeartbeatResult "heartbeat_result" ((fun p => [HeartbeatResult_writeField1 p;
     HeartbeatResult_writeField2 p; HeartbeatResult_writeField3 p]) <$> p).
Definition HeartbeatResult_switch (fuel : nat) : switch wHeartbeatResult := fun fieldId =>
  match fieldId with
  | 1 => Some (STRUCT, HeartbeatResult_ReadField1 fuel)
  | 2 => Some (STRUCT, HeartbeatResult_ReadField2 fuel)
  | 3 => Some (STRUCT, HeartbeatResult_ReadField3 fuel)
  | _ => None
  end.
Definition HeartbeatResult_Read (fuel : nat) : wHeartbeatResult -> MF P wHeartbeatResult :=
  read_struct T_HeartbeatResult [] (HeartbeatResult_switch fuel) fuel.

(** ** lock *)

Local Abbreviation T_LockArgs := "*hive_metastore.ThriftHiveMetastoreLockArgs".
Definition LockArgs_set_Rqst v (_ : wLockArgs) : wLockArgs := mk_wLockArgs v.

Definition LockArgs_writeField1 (p : wLockArgs) : M P unit :=
  (opt (wLockArgs_Rqst p) (fun v =>
    write_field T_LockArgs "rqst" STRUCT 1 (write_sub "*hive_metastore.LockRequest" (LockRequest_Write (Some v)))))%go.
Definition LockArgs_ReadField1 (fuel : nat) : wLockArgs -> MF P wLockArgs :=
  assign (read_sub "*hive_metastore.LockRequest" (LockRequest_Read fuel NewLockRequest))%go (fun v => LockArgs_set_Rqst (Some v)).
Definition LockArgs_Write (p : option wLockArgs) : M P unit :=
  write_struct T_LockArgs "lock_args" ((fun p => [LockArgs_writeField1 p]) <$> p).
Definition LockArgs_switch (fuel : nat) : switch wLockArgs := fun fieldId =>
  match fieldId with
  | 1 => Some (STRUCT, LockArgs_ReadField1 fuel)
  | _ => None
  end.
Definition LockArgs_Read (fuel : nat) : wLockArgs -> MF P wLockArgs :=
  read_struct T_LockArgs [] (LockArgs_switch fuel) fuel.

Local Abbreviation T_LockResult := "*hive_metastore.ThriftHiveMetastoreLockResult".
Definition LockResult_set_Success v '(mk_wLockResult _ x2 x3) : wLockResult :=
  mk_wLockResult v x2 x3.
Definition LockResult_set_O1 v '(mk_wLockResult x1 _ x3) : wLockResult :=
  mk_wLockResult x1 v x3.
Definition LockResult_set_O2 v '(mk_wLockResult x1 x2 _) : wLockResult :=
  mk_wLockResult x1 x2 v.

Definition LockResult_writeField0 (p : wLockResult) : M P unit :=
  (opt (wLockResult_Success p) (fun v =>
    write_field T_LockResult "success" STRUCT 0 (write_sub "*hive_metastore.LockResponse" (LockResponse_Write (Some v)))))%go.
Definition LockResult_ReadField0 (fuel : nat) : wLockResult -> MF P wLockResult :=
  assign (read_sub "*hive_metastore.LockResponse" (LockResponse_Read fuel NewLockResponse))%go (fun v => LockResult_set_Success (Some v)).
Definition LockResult_writeField1 (p : wLockResult) : M P unit :=
  (opt (wLockResult_O1 p) (fun v =>
    write_field T_LockResult "o1" STRUCT 1 (write_sub "*hive_metastore.NoSuchTxnException" (Exception_Write NoSuchTxnException (Some v)))))%go.
Definition LockResult_ReadField1 (fuel : nat) : wLockResult -> MF P wLockResult :=
  assign (read_sub "*hive_metastore.NoSuchTxnException" (Exception_Read NoSuchTxnException fuel NewException))%go (fun v => LockResult_set_O1 (Some v)).
Definition LockResult_writeField2 (p : wLockResult) : M P unit :=
  (opt (wLockResult_O2 p) (fun v =>
    write_field T_LockResult "o2" STRUCT 2 (write_sub "*hive_metastore.TxnAbortedException" (Exception_Write TxnAbortedException (Some v)))))%go.
Definition LockResult_ReadField2 (fuel : nat) : wLockResult -> MF P wLockResult :=
  assign (read_sub "*hive_metastore.TxnAbortedException" (Exception_Read TxnAbortedException fuel NewException))%go (fun v => LockResult_set_O2 (Some v)).
Definition LockResult_Write (p : option wLockResult) : M P unit :=
  write_struct T_LockResult "lock_result" ((fun p => [LockResult_writeField0 p; LockResult_writeField1 p;
     LockResult_writeField2 p]) <$> p).
Definition LockResult_switch (fuel : nat) : switch wLockResult := fun fieldId =>
  match fieldId with
  | 0 => Some (STRUCT, LockResult_ReadField0 fuel)
  | 1 => Some (STRUCT, LockResult_ReadField1 fuel)
  | 2 => Some (STRUCT, LockResult_ReadField2 fuel)
  | _ => None
  end.
Definition LockResult_Read (fuel : nat) : wLockResult -> MF P wLockResult :=
  read_struct T_LockResult [] (LockResult_switch fuel) fuel.

(** ** check_lock *)

Local Abbreviation T_CheckLockArgs := "*hive_metastore.ThriftHiveMetastoreCheckLockArgs".
Definition CheckLockArgs_set_Rqst v (_ : wCheckLockArgs) : wCheckLockArgs := mk_wCheckLockArgs v.

Definition CheckLockArgs_writeField1 (p : wCheckLockArgs) : M P unit :=
  (opt (wCheckLockArgs_Rqst p) (fun v =>
    write_field T_CheckLockArgs "rqst" STRUCT 1 (write_sub "*hive_metastore.CheckLockRequest" (CheckLockRequest_Write (Some v)))))%go.
Definition CheckLockArgs_ReadField1 (fuel : nat) : wCheckLockArgs -> MF P wCheckLockArgs :=
  assign (read_sub "*hive_metastore.CheckLockRequest" (CheckLockRequest_Read fuel NewCheckLockRequest))%go (fun v => CheckLockArgs_set_Rqst (Some v)).
Definition CheckLockArgs_Write (p : option wCheckLockArgs) : M P unit :=
  write_struct T_CheckLockArgs "check_lock_args" ((fun p => [CheckLockArgs_writeField1 p]) <$> p).
Definition CheckLockArgs_switch (fuel : nat) : switch wCheckLockArgs := fun fieldId =>
  match fieldId with
  | 1 => Some (STRUCT, CheckLockArgs_ReadField1 fuel)
  | _ => None
  end.
Definition CheckLockArgs_Read (fuel : nat) : wCheckLockArgs -> MF P wCheckLockArgs :=
  read_struct T_CheckLockArgs [] (CheckLockArgs_switch fuel) fuel.

Local Abbreviation T_CheckLockResult := "*hive_metastore.ThriftHiveMetastoreCheckLockResult".
Definition CheckLockResult_set_Success v '(mk_wCheckLockResult _ x2 x3 x4) : wCheckLockResult :=
  mk_wCheckLockResult v x2 x3 x4.
Definition CheckLockResult_set_O1 v '(mk_wCheckLockResult x1 _ x3 x4) : wCheckLockResult :=
  mk_wCheckLockResult x1 v x3 x4.
Definition CheckLockResult_set_O2 v '(mk_wCheckLockResult x1 x2 _ x4) : wCheckLockResult :=
  mk_wCheckLockResult x1 x2 v x4.
Definition CheckLockResult_set_O3 v '(mk_wCheckLockResult x1 x2 x3 _) : wCheckLockResult :=
  mk_wCheckLockResult x1 x2 x3 v.

Definition CheckLockResult_writeField0 (p : wCheckLockResult) : M P unit :=
  (opt (wCheckLockResult_Success p) (fun v =>
    write_field T_CheckLockResult "success" STRUCT 0 (write_sub "*hive_metastore.LockResponse" (LockResponse_Write (Some v)))))%go.
Definition CheckLockResult_ReadField0 (fuel : nat) : wCheckLockResult -> MF P wCheckLockResult :=
  assign (read_sub "*hive_metastore.LockResponse" (LockResponse_Read fuel NewLockResponse))%go (fun v => CheckLockResult_set_Success (Some v)).
Definition CheckLockResult_writeField1 (p : wCheckLockResult) : M P unit :=
  (opt (wCheckLockResult_O1 p) (fun v =>
    write_field T_CheckLockResult "o1" STRUCT 1 (write_sub "*hive_metastore.NoSuchTxnException" (Exception_Write NoSuchTxnException (Some v)))))%go.
Definition CheckLockResult_ReadField1 (fuel : nat) : wCheckLockResult -> MF P wCheckLockResult :=
  assign (read_sub "*hive_metastore.NoSuchTxnException" (Exception_Read NoSuchTxnException fuel NewException))%go (fun v => CheckLockResult_set_O1 (Some v)).
Definition CheckLockResult_writeField2 (p : wCheckLockResult) : M P unit :=
  (opt (wCheckLockResult_O2 p) (fun v =>
    write_field T_CheckLockResult "o2" STRUCT 2 (write_sub "*hive_metastore.TxnAbortedException" (Exception_Write TxnAbortedException (Some v)))))%go.
Definition CheckLockResult_ReadField2 (fuel : nat) : wCheckLockResult -> MF P wCheckLockResult :=
  assign (read_sub "*hive_metastore.TxnAbortedException" (Exception_Read TxnAbortedException fuel NewException))%go (fun v => CheckLockResult_set_O2 (Some v)).
Definition CheckLockResult_writeField3 (p : wCheckLockResult) : M P unit :=
  (opt (wCheckLockResult_O3 p) (fun v =>
    write_field T_CheckLockResult "o3" STRUCT 3 (write_sub "*hive_metastore.NoSuchLockException" (Exception_Write NoSuchLockException (Some v)))))%go.
Definition CheckLockResult_ReadField3 (fuel : nat) : wCheckLockResult -> MF P wCheckLockResult :=
  assign (read_sub "*hive_metastore.NoSuchLockException" (Exception_Read NoSuchLockException fuel NewException))%go (fun v => CheckLockResult_set_O3 (Some v)).
Definition CheckLockResult_Write (p : option wCheckLockResult) : M P unit :=
  write_struct T_CheckLockResult "check_lock_result" ((fun p => [CheckLockResult_writeField0 p;
     CheckLockResult_writeField1 p; CheckLockResult_writeField2 p; CheckLockResult_writeField3 p]) <$> p).
Definition CheckLockResult_switch (fuel : nat) : switch wCheckLockResult := fun fieldId =>
  match fieldId with
  | 0 => Some (STRUCT, CheckLockResult_ReadField0 fuel)
  | 1 => Some (STRUCT, CheckLockResult_ReadField1 fuel)
  | 2 => Some (STRUCT, CheckLockResult_ReadField2 fuel)
  | 3 => Some (STRUCT, CheckLockResult_ReadField3 fuel)
  | _ => None
  end.
Definition CheckLockResult_Read (fuel : nat) : wCheckLockResult -> MF P wCheckLockResult :=
  read_struct T_CheckLockResult [] (CheckLockResult_switch fuel) fuel.

(** ** unlock *)

Local Abbreviation T_UnlockArgs := "*hive_metastore.ThriftHiveMetastoreUnlockArgs".
Definition UnlockArgs_set_Rqst v (_ : wUnlockArgs) : wUnlockArgs := mk_wUnlockArgs v.

Definition UnlockArgs_writeField1 (p : wUnlockArgs) : M P unit :=
  (opt (wUnlockArgs_Rqst p) (fun v =>
    write_field T_UnlockArgs "rqst" STRUCT 1 (write_sub "*hive_metastore.UnlockRequest" (UnlockRequest_Write (Some v)))))%go.
Definition UnlockArgs_ReadField1 (fuel : nat) : wUnlockArgs -> MF P wUnlockArgs :=
  assign (read_sub "*hive_metastore.UnlockRequest" (UnlockRequest_Read fuel NewUnlockRequest))%go (fun v => UnlockArgs_set_Rqst (Some v)).
Definition UnlockArgs_Write (p : option wUnlockArgs) : M P unit :=
  write_struct T_UnlockArgs "unlock_args" ((fun p => [UnlockArgs_writeField1 p]) <$> p).
Definition UnlockArgs_switch (fuel : nat) : switch wUnlockArgs := fun fieldId =>
  match fieldId with
  | 1 => Some (STRUCT, UnlockArgs_ReadField1 fuel)
  | _ => None
  end.
Definition UnlockArgs_Read (fuel : nat) : wUnlockArgs -> MF P wUnlockArgs :=
  read_struct T_UnlockArgs [] (UnlockArgs_switch fuel) fuel.

Local Abbreviation T_UnlockResult := "*hive_metastore.ThriftHiveMetastoreUnlockResult".
Definition UnlockResult_set_O1 v '(mk_wUnlockResult _ x2) : wUnlockResult :=
  mk_wUnlockResult v x2.
Definition UnlockResult_set_O2 v '(mk_wUnlockResult x1 _) : wUnlockResult :=
  mk_wUnlockResult x1 v.

Definition UnlockResult_writeField1 (p : wUnlockResult) : M P unit :=
  (opt (wUnlockResult_O1 p) (fun v =>
    write_field T_UnlockResult "o1" STRUCT 1 (write_sub "*hive_metastore.NoSuchLockException" (Exception_Write NoSuchLockException (Some v)))))%go.
Definition UnlockResult_ReadField1 (fuel : nat) : wUnlockResult -> MF P wUnlockResult :=
  assign (read_sub "*hive_metastore.NoSuchLockException" (Exception_Read NoSuchLockException fuel NewException))%go (fun v => UnlockResult_set_O1 (Some v)).
Definition UnlockResult_writeField2 (p : wUnlockResult) : M P unit :=
  (opt (wUnlockResult_O2 p) (fun v =>
    write_field T_UnlockResult "o2" STRUCT 2 (write_sub "*hive_metastore.TxnOpenException" (Exception_Write TxnOpenException (Some v)))))%go.
Definition UnlockResult_ReadField2 (fuel : nat) : wUnlockResult -> MF P wUnlockResult :=
  assign (read_sub "*hive_metastore.TxnOpenException" (Exception_Read TxnOpenException fuel NewException))%go (fun v => UnlockResult_set_O2 (Some v)).
Definition UnlockResult_Write (p : option wUnlockResult) : M P unit :=
  write_struct T_UnlockResult "unlock_result" ((fun p => [UnlockResult_writeField1 p;
     UnlockResult_writeField2 p]) <$> p).
Definition UnlockResult_switch (fuel : nat) : switch wUnlockResult := fun fieldId =>
  match fieldId with
  | 1 => Some (STRUCT, UnlockResult_ReadField1 fuel)
  | 2 => Some (STRUCT, UnlockResult_ReadField2 fuel)
  | _ => None
  end.
Definition UnlockResult_Read (fuel : nat) : wUnlockResult -> MF P wUnlockResult :=
  read_struct T_UnlockResult [] (UnlockResult_switch fuel) fuel.
End codec.

(** ** Stubs *)

Module Stub.
Section stub.
Context {P C : Type} {TP : TProtocol P} {MR : MapRange} {SB : Substructs P} {TC : TClient P C}.

Definition GetNextNotification (fuel : nat) (rqst : option wNotificationEventRequest) : MF C wNotificationEventResponse :=
  stub (Call "get_next_notification"
          (GetNextNotificationArgs_Write (Some (mk_wGetNextNotificationArgs rqst)))
          (GetNextNotificationResult_Read fuel zero_GetNextNotificationResult))
    (fun _result =>
       success "get_next_notification" (wGetNextNotificationResult_Success _result)).
Definition GetCurrentNotificationEventId (fuel : nat) : MF C wCurrentNotificationEventId :=
  stub (Call "get_current_notificationEventId"
          (GetCurrentNotificationEventIdArgs_Write (Some (mk_wGetCurrentNotificationEventIdArgs)))
          (GetCurrentNotificationEventIdResult_Read fuel zero_GetCurrentNotificationEventIdResult))
    (fun _result =>
       success "get_current_notificationEventId" (wGetCurrentNotificationEventIdResult_Success _result)).
Definition OpenTxns (fuel : nat) (rqst : option wOpenTxnRequest) : MF C wOpenTxnsResponse :=
  stub (Call "open_txns"
          (OpenTxnsArgs_Write (Some (mk_wOpenTxnsArgs rqst)))
          (OpenTxnsResult_Read fuel zero_OpenTxnsResult))
    (fun _result =>
       success "open_txns" (wOpenTxnsResult_Success _result)).
Definition CommitTxn (fuel : nat) (rqst : option wCommitTxnRequest) : MF C unit :=
  stub (Call "commit_txn"
          (CommitTxnArgs_Write (Some (mk_wCommitTxnArgs rqst)))
          (CommitTxnResult_Read fuel zero_CommitTxnResult))
    (fun _result =>
       exceptions [exn NoSuchTxnException <$> wCommitTxnResult_O1 _result;
                   exn TxnAbortedException <$> wCommitTxnResult_O2 _result]
         (inr tt)).
Definition AbortTxn (fuel : nat) (rqst : option wAbortTxnRequest) : MF C unit :=
  stub (Call "abort_txn"
          (AbortTxnArgs_Write (Some (mk_wAbortTxnArgs rqst)))
          (AbortTxnResult_Read fuel zero_AbortTxnResult))
    (fun _result =>
       exceptions [exn NoSuchTxnException <$> wAbortTxnResult_O1 _result]
         (inr tt)).
Definition Heartbeat (fuel : nat) (ids : option wHeartbeatRequest) : MF C unit :=
  stub (Call "heartbeat"
          (HeartbeatArgs_Write (Some (mk_wHeartbeatArgs ids)))
          (HeartbeatResult_Read fuel zero_HeartbeatResult))
    (fun _result =>
       exceptions [exn NoSuchLockException <$> wHeartbeatResult_O1 _result;
                   exn NoSuchTxnException <$> wHeartbeatResult_O2 _result;
                   exn TxnAbortedException <$> wHeartbeatResult_O3 _result]
         (inr tt)).
Definition Lock (fuel : nat) (rqst : option wLockRequest) : MF C wLockResponse :=
  stub (Call "lock"
          (LockArgs_Write (Some (mk_wLockArgs rqst)))
          (LockResult_Read fuel zero_LockResult))
    (fun _result =>
       exceptions [exn NoSuchTxnException <$> wLockResult_O1 _result;
                   exn TxnAbortedException <$> wLockResult_O2 _result]
         (success "lock" (wLockResult_Success _result))).
Definition CheckLock (fuel : nat) (rqst : option wCheckLockRequest) : MF C wLockResponse :=
  stub (Call "check_lock"
          (CheckLockArgs_Write (Some (mk_wCheckLockArgs rqst)))
          (CheckLockResult_Read fuel zero_CheckLockResult))
    (fun _result =>
       exceptions [exn NoSuchTxnException <$> wCheckLockResult_O1 _result;
                   exn TxnAbortedException <$> wCheckLockResult_O2 _result;
                   exn NoSuchLockException <$> wCheckLockResult_O3 _result]
         (success "check_lock" (wCheckLockResult_Success _result))).
Definition Unlock (fuel : nat) (rqst : option wUnlockRequest) : MF C unit :=
  stub (Call "unlock"
          (UnlockArgs_Write (Some (mk_wUnlockArgs rqst)))
          (UnlockResult_Read fuel zero_UnlockResult))
    (fun _result =>
       exceptions [exn NoSuchLockException <$> wUnlockResult_O1 _result;
                   exn TxnOpenException <$> wUnlockResult_O2 _result]
         (inr tt)).
End stub.
End Stub.

(** ** The processor *)

Module Processor.
Section processor.
Context {P W : Type} {TP : TProtocol P} {MR : MapRange} {SB : Substructs P} {PL : TProcessorLib P}.
Context (cause : option goerr) (handler : Handler.ThriftHiveMetastore W).

Definition GetNextNotification_declared : list (thrift_exn * (wException -> wGetNextNotificationResult)) :=
  [].
Definition GetNextNotification_answer : option wNotificationEventResponse -> wGetNextNotificationResult :=
  fun retval => GetNextNotificationResult_set_Success retval zero_GetNextNotificationResult.
Definition GetNextNotification (fuel : nat) : processor_function P W :=
  process cause "get_next_notification" (GetNextNotificationArgs_Read fuel zero_GetNextNotificationArgs)
    (fun args => Handler.GetNextNotification handler (wGetNextNotificationArgs_Rqst args))
    (type_switch GetNextNotification_declared) GetNextNotification_answer GetNextNotificationResult_Write.
Definition GetCurrentNotificationEventId_declared : list (thrift_exn * (wException -> wGetCurrentNotificationEventIdResult)) :=
  [].
Definition GetCurrentNotificationEventId_answer : option wCurrentNotificationEventId -> wGetCurrentNotificationEventIdResult :=
  fun retval => GetCurrentNotificationEventIdResult_set_Success retval zero_GetCurrentNotificationEventIdResult.
Definition GetCurrentNotificationEventId (fuel : nat) : processor_function P W :=
  process cause "get_current_notificationEventId" (GetCurrentNotificationEventIdArgs_Read fuel zero_GetCurrentNotificationEventIdArgs)
    (fun args => Handler.GetCurrentNotificationEventId handler)
    (type_switch GetCurrentNotificationEventId_declared) GetCurrentNotificationEventId_answer GetCurrentNotificationEventIdResult_Write.
Definition OpenTxns_declared : list (thrift_exn * (wException -> wOpenTxnsResult)) :=
  [].
Definition OpenTxns_answer : option wOpenTxnsResponse -> wOpenTxnsResult :=
  fun retval => OpenTxnsResult_set_Success retval zero_OpenTxnsResult.
Definition OpenTxns (fuel : nat) : processor_function P W :=
  process cause "open_txns" (OpenTxnsArgs_Read fuel zero_OpenTxnsArgs)
    (fun args => Handler.OpenTxns handler (wOpenTxnsArgs_Rqst args))
    (type_switch OpenTxns_declared) OpenTxns_answer OpenTxnsResult_Write.
Definition CommitTxn_declared : list (thrift_exn * (wException -> wCommitTxnResult)) :=
  [(NoSuchTxnException, fun v => CommitTxnResult_set_O1 (Some v) zero_CommitTxnResult);
   (TxnAbortedException, fun v => CommitTxnResult_set_O2 (Some v) zero_CommitTxnResult)].
Definition CommitTxn_answer : unit -> wCommitTxnResult :=
  fun _ => zero_CommitTxnResult.
Definition CommitTxn (fuel : nat) : processor_function P W :=
  process cause "commit_txn" (CommitTxnArgs_Read fuel zero_CommitTxnArgs)
    (fun args => Handler.CommitTxn handler (wCommitTxnArgs_Rqst args))
    (type_switch CommitTxn_declared) CommitTxn_answer CommitTxnResult_Write.
Definition AbortTxn_declared : list (thrift_exn * (wException -> wAbortTxnResult)) :=
  [(NoSuchTxnException, fun v => AbortTxnResult_set_O1 (Some v) zero_AbortTxnResult)].
Definition AbortTxn_answer : unit -> wAbortTxnResult :=
  fun _ => zero_AbortTxnResult.
Definition AbortTxn (fuel : nat) : processor_function P W :=
  process cause "abort_txn" (AbortTxnArgs_Read fuel zero_AbortTxnArgs)
    (fun args => Handler.AbortTxn handler (wAbortTxnArgs_Rqst args))
    (type_switch AbortTxn_declared) AbortTxn_answer AbortTxnResult_Write.
Definition Heartbeat_declared : list (thrift_exn * (wException -> wHeartbeatResult)) :=
  [(NoSuchLockException, fun v => HeartbeatResult_set_O1 (Some v) zero_HeartbeatResult);
   (NoSuchTxnException, fun v => HeartbeatResult_set_O2 (Some v) zero_HeartbeatResult);
   (TxnAbortedException, fun v => HeartbeatResult_set_O3 (Some v) zero_HeartbeatResult)].
Definition Heartbeat_answer : unit -> wHeartbeatResult :=
  fun _ => zero_HeartbeatResult.
Definition Heartbeat (fuel : nat) : processor_function P W :=
  process cause "heartbeat" (HeartbeatArgs_Read fuel zero_HeartbeatArgs)
    (fun args => Handler.Heartbeat handler (wHeartbeatArgs_Ids args))
    (type_switch Heartbeat_declared) Heartbeat_answer HeartbeatResult_Write.
Definition Lock_declared : list (thrift_exn * (wException -> wLockResult)) :=
  [(NoSuchTxnException, fun v => LockResult_set_O1 (Some v) zero_LockResult);
   (TxnAbortedException, fun v => LockResult_set_O2 (Some v) zero_LockResult)].
Definition Lock_answer : option wLockResponse -> wLockResult :=
  fun retval => LockResult_set_Success retval zero_LockResult.
Definition Lock (fuel : nat) : processor_function P W :=
  process cause "lock" (LockArgs_Read fuel zero_LockArgs)
    (fun args => Handler.Lock handler (wLockArgs_Rqst args))
    (type_switch Lock_declared) Lock_answer LockResult_Write.
Definition CheckLock_declared : list (thrift_exn * (wException -> wCheckLockResult)) :=
  [(NoSuchTxnException, fun v => CheckLockResult_set_O1 (Some v) zero_CheckLockResult);
   (TxnAbortedException, fun v => CheckLockResult_set_O2 (Some v) zero_CheckLockResult);
   (NoSuchLockException, fun v => CheckLockResult_set_O3 (Some v) zero_CheckLockResult)].
Definition CheckLock_answer : option wLockResponse -> wCheckLockResult :=
  fun retval => CheckLockResult_set_Success retval zero_CheckLockResult.
Definition CheckLock (fuel : nat) : processor_function P W :=
  process cause "check_lock" (CheckLockArgs_Read fuel zero_CheckLockArgs)
    (fun args => Handler.CheckLock handler (wCheckLockArgs_Rqst args))
    (type_switch CheckLock_declared) CheckLock_answer CheckLockResult_Write.
Definition Unlock_declared : list (thrift_exn * (wException -> wUnlockResult)) :=
  [(NoSuchLockException, fun v => UnlockResult_set_O1 (Some v) zero_UnlockResult);
   (TxnOpenException, fun v => UnlockResult_set_O2 (Some v) zero_UnlockResult)].
Definition Unlock_answer : unit -> wUnlockResult :=
  fun _ => zero_UnlockResult.
Definition Unlock (fuel : nat) : processor_function P W :=
  process cause "unlock" (UnlockArgs_Read fuel zero_UnlockArgs)
    (fun args => Handler.Unlock handler (wUnlockArgs_Rqst args))
    (type_switch Unlock_declared) Unlock_answer UnlockResult_Write.
End processor.
End Processor.
