(* ===== verification/CodecValues.v ===== *)
(** * CodecValues: an encoded struct is a value

    One that a peer which does not know it can skip. *)

From S2P Require Import Prelude Errors GoMonad Types Transport Wire Thrift ThriftFacts CodecTable CodecTableFacts CodecAcid CodecAcidFacts CodecStats CodecStatsFacts CodecReq CodecReqFacts.

Section facts.
Context {P : Type} {TP : TProtocol P} {TL : TProtocolLaws P} {MR : MapRange} {SB : Substructs P} {SL : SubstructLaws P}.

Lemma FieldSchema_value p : value 1 STRUCT (FieldSchema_toks p).
Proof. struct_is_value FieldSchema_toks FieldSchema_wire. Qed.
#[local] Hint Resolve FieldSchema_value : wire_value.
Lemma Order_value p : value 1 STRUCT (Order_toks p).
Proof. struct_is_value Order_toks Order_wire. Qed.
#[local] Hint Resolve Order_value : wire_value.
Lemma SerDeInfo_value p : value 2 STRUCT (SerDeInfo_toks p).
Proof. struct_is_value SerDeInfo_toks SerDeInfo_wire. Qed.
#[local] Hint Resolve SerDeInfo_value : wire_value.
Lemma SkewedInfo_value p : value 3 STRUCT (SkewedInfo_toks p).
Proof. struct_is_value SkewedInfo_toks SkewedInfo_wire. Qed.
#[local] Hint Resolve SkewedInfo_value : wire_value.
Lemma StorageDescriptor_value p : value 4 STRUCT (StorageDescriptor_toks p).
Proof. struct_is_value StorageDescriptor_toks StorageDescriptor_wire. Qed.
#[local] Hint Resolve StorageDescriptor_value : wire_value.
Lemma Catalog_value p : value 2 STRUCT (Catalog_toks p).
Proof. struct_is_value Catalog_toks Catalog_wire. Qed.
#[local] Hint Resolve Catalog_value : wire_value.
Lemma Database_value p : value (2 + sub_nest) STRUCT (Database_toks p).
Proof. struct_is_value Database_toks Database_wire. Qed.
#[local] Hint Resolve Database_value : wire_value.
Lemma Table_value p : value (5 + sub_nest) STRUCT (Table_toks p).
Proof. struct_is_value Table_toks Table_wire. Qed.
#[local] Hint Resolve Table_value : wire_value.
Lemma Partition_value p : value (5 + sub_nest) STRUCT (Partition_toks p).
Proof. struct_is_value Partition_toks Partition_wire. Qed.
#[local] Hint Resolve Partition_value : wire_value.
Lemma LockComponent_value p : value 1 STRUCT (LockComponent_toks p).
Proof. struct_is_value LockComponent_toks LockComponent_wire. Qed.
#[local] Hint Resolve LockComponent_value : wire_value.
Lemma LockRequest_value p : value 3 STRUCT (LockRequest_toks p).
Proof. struct_is_value LockRequest_toks LockRequest_wire. Qed.
#[local] Hint Resolve LockRequest_value : wire_value.
Lemma LockResponse_value p : value 1 STRUCT (LockResponse_toks p).
Proof. struct_is_value LockResponse_toks LockResponse_wire. Qed.
#[local] Hint Resolve LockResponse_value : wire_value.
Lemma CheckLockRequest_value p : value 1 STRUCT (CheckLockRequest_toks p).
Proof. struct_is_value CheckLockRequest_toks CheckLockRequest_wire. Qed.
#[local] Hint Resolve CheckLockRequest_value : wire_value.
Lemma UnlockRequest_value p : value 1 STRUCT (UnlockRequest_toks p).
Proof. struct_is_value UnlockRequest_toks UnlockRequest_wire. Qed.
#[local] Hint Resolve UnlockRequest_value : wire_value.
Lemma OpenTxnRequest_value p : value 2 STRUCT (OpenTxnRequest_toks p).
Proof. struct_is_value OpenTxnRequest_toks OpenTxnRequest_wire. Qed.
#[local] Hint Resolve OpenTxnRequest_value : wire_value.
Lemma OpenTxnsResponse_value p : value 2 STRUCT (OpenTxnsResponse_toks p).
Proof. struct_is_value OpenTxnsResponse_toks OpenTxnsResponse_wire. Qed.
#[local] Hint Resolve OpenTxnsResponse_value : wire_value.
Lemma AbortTxnRequest_value p : value 1 STRUCT (AbortTxnRequest_toks p).
Proof. struct_is_value AbortTxnRequest_toks AbortTxnRequest_wire. Qed.
#[local] Hint Resolve AbortTxnRequest_value : wire_value.
Lemma HeartbeatRequest_value p : value 1 STRUCT (HeartbeatRequest_toks p).
Proof. struct_is_value HeartbeatRequest_toks HeartbeatRequest_wire. Qed.
#[local] Hint Resolve HeartbeatRequest_value : wire_value.
Lemma NotificationEvent_value p : value 1 STRUCT (NotificationEvent_toks p).
Proof. struct_is_value NotificationEvent_toks NotificationEvent_wire. Qed.
#[local] Hint Resolve NotificationEvent_value : wire_value.
Lemma NotificationEventRequest_value p : value 2 STRUCT (NotificationEventRequest_toks p).
Proof. struct_is_value NotificationEventRequest_toks NotificationEventRequest_wire. Qed.
#[local] Hint Resolve NotificationEventRequest_value : wire_value.
Lemma NotificationEventResponse_value p : value 3 STRUCT (NotificationEventResponse_toks p).
Proof. struct_is_value NotificationEventResponse_toks NotificationEventResponse_wire. Qed.
#[local] Hint Resolve NotificationEventResponse_value : wire_value.
Lemma CurrentNotificationEventId_value p : value 1 STRUCT (CurrentNotificationEventId_toks p).
Proof. struct_is_value CurrentNotificationEventId_toks CurrentNotificationEventId_wire. Qed.
#[local] Hint Resolve CurrentNotificationEventId_value : wire_value.
Lemma Decimal_value p : value 1 STRUCT (Decimal_toks p).
Proof. struct_is_value Decimal_toks Decimal_wire. Qed.
#[local] Hint Resolve Decimal_value : wire_value.
Lemma Date_value p : value 1 STRUCT (Date_toks p).
Proof. struct_is_value Date_toks Date_wire. Qed.
#[local] Hint Resolve Date_value : wire_value.
Lemma Timestamp_value p : value 1 STRUCT (Timestamp_toks p).
Proof. struct_is_value Timestamp_toks Timestamp_wire. Qed.
#[local] Hint Resolve Timestamp_value : wire_value.
Lemma BooleanColumnStatsData_value p : value 1 STRUCT (BooleanColumnStatsData_toks p).
Proof. struct_is_value BooleanColumnStatsData_toks BooleanColumnStatsData_wire. Qed.
#[local] Hint Resolve BooleanColumnStatsData_value : wire_value.
Lemma LongColumnStatsData_value p : value 1 STRUCT (LongColumnStatsData_toks p).
Proof. struct_is_value LongColumnStatsData_toks LongColumnStatsData_wire. Qed.
#[local] Hint Resolve LongColumnStatsData_value : wire_value.
Lemma DoubleColumnStatsData_value p : value 1 STRUCT (DoubleColumnStatsData_toks p).
Proof. struct_is_value DoubleColumnStatsData_toks DoubleColumnStatsData_wire. Qed.
#[local] Hint Resolve DoubleColumnStatsData_value : wire_value.
Lemma StringColumnStatsData_value p : value 1 STRUCT (StringColumnStatsData_toks p).
Proof. struct_is_value StringColumnStatsData_toks StringColumnStatsData_wire. Qed.
#[local] Hint Resolve StringColumnStatsData_value : wire_value.
Lemma BinaryColumnStatsData_value p : value 1 STRUCT (BinaryColumnStatsData_toks p).
Proof. struct_is_value BinaryColumnStatsData_toks BinaryColumnStatsData_wire. Qed.
#[local] Hint Resolve BinaryColumnStatsData_value : wire_value.
Lemma DecimalColumnStatsData_value p : value 2 STRUCT (DecimalColumnStatsData_toks p).
Proof. struct_is_value DecimalColumnStatsData_toks DecimalColumnStatsData_wire. Qed.
#[local] Hint Resolve DecimalColumnStatsData_value : wire_value.
Lemma DateColumnStatsData_value p : value 2 STRUCT (DateColumnStatsData_toks p).
Proof. struct_is_value DateColumnStatsData_toks DateColumnStatsData_wire. Qed.
#[local] Hint Resolve DateColumnStatsData_value : wire_value.
Lemma TimestampColumnStatsData_value p : value 2 STRUCT (TimestampColumnStatsData_toks p).
Proof. struct_is_value TimestampColumnStatsData_toks TimestampColumnStatsData_wire. Qed.
#[local] Hint Resolve TimestampColumnStatsData_value : wire_value.
Lemma ColumnStatisticsData_value p : value 3 STRUCT (ColumnStatisticsData_toks p).
Proof. struct_is_value ColumnStatisticsData_toks ColumnStatisticsData_wire. Qed.
#[local] Hint Resolve ColumnStatisticsData_value : wire_value.
Lemma ColumnStatisticsObj_value p : value 4 STRUCT (ColumnStatisticsObj_toks p).
Proof. struct_is_value ColumnStatisticsObj_toks ColumnStatisticsObj_wire. Qed.
#[local] Hint Resolve ColumnStatisticsObj_value : wire_value.
Lemma TableStatsRequest_value p : value 2 STRUCT (TableStatsRequest_toks p).
Proof. struct_is_value TableStatsRequest_toks TableStatsRequest_wire. Qed.
#[local] Hint Resolve TableStatsRequest_value : wire_value.
Lemma TableStatsResult__value p : value 6 STRUCT (TableStatsResult__toks p).
Proof. struct_is_value TableStatsResult__toks TableStatsResult__wire. Qed.
#[local] Hint Resolve TableStatsResult__value : wire_value.
Lemma GetCatalogRequest_value p : value 1 STRUCT (GetCatalogRequest_toks p).
Proof. struct_is_value GetCatalogRequest_toks GetCatalogRequest_wire. Qed.
#[local] Hint Resolve GetCatalogRequest_value : wire_value.
Lemma GetCatalogResponse_value p : value 3 STRUCT (GetCatalogResponse_toks p).
Proof. struct_is_value GetCatalogResponse_toks GetCatalogResponse_wire. Qed.
#[local] Hint Resolve GetCatalogResponse_value : wire_value.
Lemma GetCatalogsResponse_value p : value 2 STRUCT (GetCatalogsResponse_toks p).
Proof. struct_is_value GetCatalogsResponse_toks GetCatalogsResponse_wire. Qed.
#[local] Hint Resolve GetCatalogsResponse_value : wire_value.
Lemma CreateCatalogRequest_value p : value 3 STRUCT (CreateCatalogRequest_toks p).
Proof. struct_is_value CreateCatalogRequest_toks CreateCatalogRequest_wire. Qed.
#[local] Hint Resolve CreateCatalogRequest_value : wire_value.
Lemma DropCatalogRequest_value p : value 1 STRUCT (DropCatalogRequest_toks p).
Proof. struct_is_value DropCatalogRequest_toks DropCatalogRequest_wire. Qed.
#[local] Hint Resolve DropCatalogRequest_value : wire_value.
Lemma GetTableRequest_value p : value (2 + sub_nest) STRUCT (GetTableRequest_toks p).
Proof. struct_is_value GetTableRequest_toks GetTableRequest_wire. Qed.
#[local] Hint Resolve GetTableRequest_value : wire_value.
Lemma GetTableResult__value p : value (6 + sub_nest) STRUCT (GetTableResult__toks p).
Proof. struct_is_value GetTableResult__toks GetTableResult__wire. Qed.
#[local] Hint Resolve GetTableResult__value : wire_value.
Lemma GetTablesRequest_value p : value (2 + sub_nest) STRUCT (GetTablesRequest_toks p).
Proof. struct_is_value GetTablesRequest_toks GetTablesRequest_wire. Qed.
#[local] Hint Resolve GetTablesRequest_value : wire_value.
Lemma GetTablesResult__value p : value (7 + sub_nest) STRUCT (GetTablesResult__toks p).
Proof. struct_is_value GetTablesResult__toks GetTablesResult__wire. Qed.
#[local] Hint Resolve GetTablesResult__value : wire_value.
Lemma PartitionsRequest_value p : value 1 STRUCT (PartitionsRequest_toks p).
Proof. struct_is_value PartitionsRequest_toks PartitionsRequest_wire. Qed.
#[local] Hint Resolve PartitionsRequest_value : wire_value.
Lemma PartitionsResponse_value p : value (7 + sub_nest) STRUCT (PartitionsResponse_toks p).
Proof. struct_is_value PartitionsResponse_toks PartitionsResponse_wire. Qed.
#[local] Hint Resolve PartitionsResponse_value : wire_value.
Lemma AddPartitionsRequest_value p : value (7 + sub_nest) STRUCT (AddPartitionsRequest_toks p).
Proof. struct_is_value AddPartitionsRequest_toks AddPartitionsRequest_wire. Qed.
#[local] Hint Resolve AddPartitionsRequest_value : wire_value.
Lemma AddPartitionsResult__value p : value (7 + sub_nest) STRUCT (AddPartitionsResult__toks p).
Proof. struct_is_value AddPartitionsResult__toks AddPartitionsResult__wire. Qed.
#[local] Hint Resolve AddPartitionsResult__value : wire_value.
Lemma AlterPartitionsRequest_value p : value (7 + sub_nest) STRUCT (AlterPartitionsRequest_toks p).
Proof. struct_is_value AlterPartitionsRequest_toks AlterPartitionsRequest_wire. Qed.
#[local] Hint Resolve AlterPartitionsRequest_value : wire_value.
Lemma AlterPartitionsResponse_value p : value 1 STRUCT (AlterPartitionsResponse_toks p).
Proof. struct_is_value AlterPartitionsResponse_toks AlterPartitionsResponse_wire. Qed.
#[local] Hint Resolve AlterPartitionsResponse_value : wire_value.
Lemma RequestPartsSpec_value p : value (2 + sub_nest) STRUCT (RequestPartsSpec_toks p).
Proof. struct_is_value RequestPartsSpec_toks RequestPartsSpec_wire. Qed.
#[local] Hint Resolve RequestPartsSpec_value : wire_value.
Lemma DropPartitionsRequest_value p : value (3 + sub_nest) STRUCT (DropPartitionsRequest_toks p).
Proof. struct_is_value DropPartitionsRequest_toks DropPartitionsRequest_wire. Qed.
#[local] Hint Resolve DropPartitionsRequest_value : wire_value.
Lemma DropPartitionsResult__value p : value (7 + sub_nest) STRUCT (DropPartitionsResult__toks p).
Proof. struct_is_value DropPartitionsResult__toks DropPartitionsResult__wire. Qed.
#[local] Hint Resolve DropPartitionsResult__value : wire_value.
Lemma GetPartitionsByNamesRequest_value p : value 2 STRUCT (GetPartitionsByNamesRequest_toks p).
Proof. struct_is_value GetPartitionsByNamesRequest_toks GetPartitionsByNamesRequest_wire. Qed.
#[local] Hint Resolve GetPartitionsByNamesRequest_value : wire_value.
Lemma GetPartitionsByNamesResult__value p : value (7 + sub_nest) STRUCT (GetPartitionsByNamesResult__toks p).
Proof. struct_is_value GetPartitionsByNamesResult__toks GetPartitionsByNamesResult__wire. Qed.
#[local] Hint Resolve GetPartitionsByNamesResult__value : wire_value.
Lemma GetPartitionNamesPsRequest_value p : value 2 STRUCT (GetPartitionNamesPsRequest_toks p).
Proof. struct_is_value GetPartitionNamesPsRequest_toks GetPartitionNamesPsRequest_wire. Qed.
#[local] Hint Resolve GetPartitionNamesPsRequest_value : wire_value.
Lemma GetPartitionNamesPsResponse_value p : value 2 STRUCT (GetPartitionNamesPsResponse_toks p).
Proof. struct_is_value GetPartitionNamesPsResponse_toks GetPartitionNamesPsResponse_wire. Qed.
#[local] Hint Resolve GetPartitionNamesPsResponse_value : wire_value.
Lemma CommitTxnRequest_value p : value (2 + sub_nest) STRUCT (CommitTxnRequest_toks p).
Proof. struct_is_value CommitTxnRequest_toks CommitTxnRequest_wire. Qed.
#[local] Hint Resolve CommitTxnRequest_value : wire_value.
End facts.

#[export] Hint Resolve FieldSchema_value Order_value SerDeInfo_value SkewedInfo_value StorageDescriptor_value
  Catalog_value Database_value Table_value Partition_value LockComponent_value LockRequest_value
  LockResponse_value CheckLockRequest_value UnlockRequest_value OpenTxnRequest_value OpenTxnsResponse_value
  AbortTxnRequest_value HeartbeatRequest_value NotificationEvent_value NotificationEventRequest_value
  NotificationEventResponse_value CurrentNotificationEventId_value Decimal_value Date_value Timestamp_value
  BooleanColumnStatsData_value LongColumnStatsData_value DoubleColumnStatsData_value
  StringColumnStatsData_value BinaryColumnStatsData_value DecimalColumnStatsData_value
  DateColumnStatsData_value TimestampColumnStatsData_value ColumnStatisticsData_value
  ColumnStatisticsObj_value TableStatsRequest_value TableStatsResult__value GetCatalogRequest_value
  GetCatalogResponse_value GetCatalogsResponse_value CreateCatalogRequest_value DropCatalogRequest_value
  GetTableRequest_value GetTableResult__value GetTablesRequest_value GetTablesResult__value
  PartitionsRequest_value PartitionsResponse_value AddPartitionsRequest_value AddPartitionsResult__value
  AlterPartitionsRequest_value AlterPartitionsResponse_value RequestPartsSpec_value
  DropPartitionsRequest_value DropPartitionsResult__value GetPartitionsByNamesRequest_value
  GetPartitionsByNamesResult__value GetPartitionNamesPsRequest_value GetPartitionNamesPsResponse_value
  CommitTxnRequest_value : wire_value.
