(* ===== verification/RpcFacts.v ===== *)
(** * RpcFacts: what a call comes to

    Laws of the library's side of a call, as messages of tokens; and that a call whose
    structs can be sent comes back with what the handler answered ([call_delivers]). *)

From S2P Require Import Prelude Errors GoMonad Types Transport Wire Thrift ThriftFacts Rpc.

(** ** Laws *)

Definition message (name : string) (ty seq : Z) (body : list tok) : list tok :=
  KMessage name ty seq :: body ++ [KMessageEnd].

(** Depths and fuel enough for any message: no struct here nests more than
    [msg_depth], or has more than [msg_fuel] fields. *)
Definition msg_depth {P} {TP : TProtocol P} {TL : TProtocolLaws P} {SB : Substructs P} {SL : SubstructLaws P} : nat := 8 + sub_depth.
Definition msg_fuel {P} {TP : TProtocol P} {TL : TProtocolLaws P} {SB : Substructs P} {SL : SubstructLaws P} : nat := 32 + sub_fuel.

(** Containers nested in a message. *)
Definition struct_nest {P} {TP : TProtocol P} {TL : TProtocolLaws P} {SB : Substructs P} {SL : SubstructLaws P} : nat := 12 + sub_nest.

(** The library's numbers of a TApplicationException's types. *)
Definition app_code (ty : app_type) : Z :=
  match ty with
  | UNKNOWN_METHOD => 1 | INVALID_MESSAGE_TYPE_EXCEPTION => 2 | WRONG_METHOD_NAME => 3 | BAD_SEQUENCE_ID => 4
  | PROTOCOL_ERROR => 7 | APP_OTHER id => id
  end.
Definition app_of (code : Z) : app_type :=
  match code with
  | 1 => UNKNOWN_METHOD | 2 => INVALID_MESSAGE_TYPE_EXCEPTION | 3 => WRONG_METHOD_NAME | 4 => BAD_SEQUENCE_ID
  | 7 => PROTOCOL_ERROR | id => APP_OTHER id
  end.

Class TRpcLaws (P : Type) {TP : TProtocol P} {TL : TProtocolLaws P} {TS : TStandardClient P} {PL : TProcessorLib P} := {
  fits_header name ty seq : fits (KMessage name ty seq);
  fits_end : fits KMessageEnd;
  app_toks : app_type -> string -> list tok;
  app_writes d ty text : writes True (S d) (app_Write ty text) (app_toks ty text);
  law_send d name seq w ts : writes True d w ts -> writes True d (Send name seq w) (message name CALL seq ts);
  law_reply {R} d name seq (r : MF P R) ts a : reads d r ts a -> reads d (Recv name seq r) (message name REPLY seq ts) a;
  (** A reply that is a TApplicationException is the call's error. *)
  law_exception {R} d name seq (r : MF P R) ty text p n l :
    (1 <= d)%nat -> app_of (app_code ty) = ty -> holds p (d + n) (message name EXCEPTION seq (app_toks ty text) ++ l) ->
    Forall fits (app_toks ty text) ->
    exists p', Recv name seq r p = Some (p', inl (EApp ty text)) /\ holds p' (d + n) l;
}.

(** ** Structs that can be sent *)

Section codecs.
Context {P : Type} {TP : TProtocol P} {TL : TProtocolLaws P} {SB : Substructs P} {SL : SubstructLaws P}.

(** A struct's Write and Read, what is written, and what is read back. *)
Record codec {A : Type} (write : option A -> M P unit) (read : nat -> MF P A) := mkCodec {
  c_ok : A -> Prop;
  c_toks : A -> list tok;
  c_canon : A -> A;
  c_writes d a : c_ok a -> (msg_depth <= d)%nat -> writes True d (write (Some a)) (c_toks a);
  c_value a : value struct_nest STRUCT (c_toks a);
  c_reads d fuel a : c_ok a -> (msg_depth <= d)%nat -> (msg_fuel <= fuel)%nat -> reads d (read fuel) (c_toks a) (c_canon a);
}.
Arguments mkCodec {A write read}. Arguments c_ok {A write read}. Arguments c_toks {A write read}. Arguments c_canon {A write read}.
Arguments c_writes {A write read}. Arguments c_value {A write read}. Arguments c_reads {A write read}.

(** [a] is valid and within the protocol's limits. *)
Definition sendable {A} {w : option A -> M P unit} {r : nat -> MF P A} (c : codec w r) (a : A) : Prop :=
  c_ok c a /\ Forall fits (c_toks c a).

(** *** Exceptions *)

Definition Exception_toks (p : option wException) : list tok :=
  struct_toks (match p with Some p => [(1, STRING, [KString (wException_Message p)])] | None => [] end).

Lemma Exception_writes strict d k p : (1 <= d)%nat -> writes strict d (Exception_Write k p) (Exception_toks p).
Proof.
  intros Hd. destruct d as [|d]; [lia|]. destruct p as [p|]; [|apply writes_struct_nil].
  unfold Exception_Write, Exception_toks.
  apply (writes_struct strict d _ _ _ [[(1, STRING, [KString (wException_Message p)])]]). unfold Exception_writeField1. write_fields.
Qed.
Lemma Exception_reads d fuel k p : (1 <= d)%nat -> (2 <= fuel)%nat ->
  reads d (Exception_Read k fuel NewException) (Exception_toks (Some p)) p.
Proof.
  intros Hd Hf. destruct d as [|d]; [lia|].
  apply (reads_struct d _ _ _ fuel [(1, STRING, [KString (wException_Message p)])] NewException p [1]); [|simpl; lia|constructor].
  eapply runs_one; [discriminate|reflexivity|]. destruct p as [m].
  refine (reads_assign _ _ _ _ _ _ _). read_value.
Qed.
End codecs.
Arguments mkCodec {P TP TL SB SL A write read}. Arguments c_ok {P TP TL SB SL A write read}. Arguments c_toks {P TP TL SB SL A write read}.
Arguments c_canon {P TP TL SB SL A write read}. Arguments c_writes {P TP TL SB SL A write read}.
Arguments c_value {P TP TL SB SL A write read}. Arguments c_reads {P TP TL SB SL A write read}.
#[export] Hint Resolve Exception_writes Exception_reads : wire.

Lemma Exception_value p : value 1 STRUCT (Exception_toks p).
Proof. destruct p as [p|]; apply value_struct; repeat constructor; done. Qed.
#[export] Hint Resolve Exception_value : wire_value.

(** ** A call *)

Section call.
Context {P W : Type} {TP : TProtocol P} {TL : TProtocolLaws P} {SB : Substructs P} {SL : SubstructLaws P}.
Context {TS : TStandardClient P} {PL : TProcessorLib P} {RL : TRpcLaws P}.
Context (cause : option goerr) (pm : processor_map P W).

(** Between two calls: nothing is on its way, and [n] structs more than any message
    needs may nest. *)
Definition idle (n : nat) (l : link P W) : Prop :=
  holds (l_up l) (msg_depth + n) [] /\ holds (l_down l) (msg_depth + n) [].

Definition given_up (e : goerr) : bool :=
  abandoned e || match cause with Some c => isCanceled e && abandoned c | None => false end.

(** What the processor replies: a TApplicationException, or a result. *)
Definition reply_of {T R} (name : string) (declared : goerr -> option R) (answer : T -> R) (r : goerr + T) : app_type * string + R :=
  match r with
  | inr v => inr (answer v)
  | inl e =>
      match declared e with
      | Some res => inr res
      | None => inl (INTERNAL_ERROR, "Internal error processing " +:+ name +:+ ": " +:+ error_text e)
      end
  end.

(** The reply fits, and the handler did not abandon the request. *)
Definition replies {T R} {w : option R -> M P unit} {rd : nat -> MF P R} (c : codec w rd)
    (declared : goerr -> option R) (answer : T -> R) (name : string) (r : goerr + T) : Prop :=
  match r with inl e => declared e = None -> given_up e = false | inr _ => True end /\
  match reply_of name declared answer r with
  | inr res => sendable c res
  | inl (ty, text) => Forall fits (app_toks ty text)
  end.

(** What the stub makes of it. *)
Definition seen {T R B} {w : option R -> M P unit} {rd : nat -> MF P R} (c : codec w rd)
    (declared : goerr -> option R) (answer : T -> R) (name : string) (tail : R -> goerr + B) (r : goerr + T) : goerr + B :=
  match reply_of name declared answer r with
  | inr res => tail (c_canon c res)
  | inl (ty, text) => inl (EApp ty text)
  end.

Lemma fits_message name ty seq ts : Forall fits ts -> Forall fits (message name ty seq ts).
Proof.
  intros H. constructor; [apply fits_header|]. apply Forall_app. split; [done|]. constructor; [apply fits_end|constructor].
Qed.

(** A write that fits succeeds. *)
Lemma writes_ok d n (m : M P unit) ts p l : writes True d m ts -> Forall fits ts -> holds p (d + n) l ->
  exists p', m p = (p', inr tt) /\ holds p' (d + n) (l ++ ts).
Proof.
  intros Hm Hf Hp. specialize (Hm p n l Hp). destruct (m p) as [p' [e|[]]]; [by destruct (Hm I)|by exists p'].
Qed.
Lemma reads_ok {A} d n (m : MF P A) ts a p l : reads d m ts a -> Forall fits ts -> holds p (d + n) (ts ++ l) ->
  exists p', m p = Some (p', inr a) /\ holds p' (d + n) l.
Proof.
  intros Hm Hf Hp. specialize (Hm p n l Hp). destruct (m p) as [[p' [e|a']]|]; [done| |done].
  destruct Hm as [-> Hm]. by exists p'.
Qed.

Lemma write_message_ok d n name ty seq body ts q l :
  writes True d body ts -> Forall fits ts -> holds q (d + n) l ->
  exists q', write_message name ty seq body q = (q', None) /\ holds q' (d + n) (l ++ message name ty seq ts).
Proof.
  intros Hb Hf Hq.
  destruct (writes_ok d n (WriteMessageBegin name ty seq) [KMessage name ty seq] q l) as (q1 & E1 & H1);
    [apply writes_tok; constructor|repeat constructor; apply fits_header|done|].
  destruct (writes_ok d n body ts q1 (l ++ [KMessage name ty seq])) as (q2 & E2 & H2); [done..|].
  destruct (writes_ok d n WriteMessageEnd [KMessageEnd] q2 ((l ++ [KMessage name ty seq]) ++ ts)) as (q3 & E3 & H3);
    [apply writes_tok; constructor|repeat constructor; apply fits_end|done|].
  destruct (law_flush q3 _ _ H3) as (q4 & E4 & H4).
  exists q4. unfold write_message. simpl. rewrite E1, E2, E3, E4. split; [done|].
  unfold message. by rewrite <- !app_assoc in H4.
Qed.

(** The end of a request is read, whatever comes after it. *)
Lemma read_end d n p l : holds p (d + n) (KMessageEnd :: l) -> exists p', ReadMessageEnd p = (p', inr tt) /\ holds p' (d + n) l.
Proof.
  intros Hp. pose proof (law_read unit _ _ _ p _ l r_message_end Hp) as H.
  destruct (ReadMessageEnd p) as [p' [e|[]]]; [destruct H; apply fits_end|destruct H; by exists p'].
Qed.

(** What the processor writes for a reply. *)
Definition reply_toks {R} {w : option R -> M P unit} {rd : nat -> MF P R} (c : codec w rd) (name : string) (seq : Z)
    (r : app_type * string + R) : list tok :=
  match r with
  | inl (ty, text) => message name EXCEPTION seq (app_toks ty text)
  | inr res => message name REPLY seq (c_toks c res)
  end.

Lemma process_replies {A T R} {wA : option A -> M P unit} {rA : nat -> MF P A} {wR : option R -> M P unit} {rR : nat -> MF P R}
    (ca : codec wA rA) (cr : codec wR rR) name handler (declared : goerr -> option R) (answer : T -> R)
    fuel seq n (a : A) (w : W) up down l :
  (msg_fuel <= fuel)%nat -> sendable ca a -> replies cr declared answer name (snd (handler (c_canon ca a) w)) ->
  holds up (msg_depth + n) (c_toks ca a ++ KMessageEnd :: l) -> holds down (msg_depth + n) [] ->
  exists up' down' err, process cause name (rA fuel) handler declared answer wR seq up down w =
      Some (up', down', fst (handler (c_canon ca a) w), (true, err)) /\
    holds up' (msg_depth + n) l /\
    holds down' (msg_depth + n) (reply_toks cr name seq (reply_of name declared answer (snd (handler (c_canon ca a) w)))).
Proof.
  intros Hfuel [Hok Hfit] Hrep Hup Hdown. unfold process.
  destruct (reads_ok _ n _ _ _ up _ (c_reads ca msg_depth fuel a Hok ltac:(lia) Hfuel) Hfit Hup) as (up1 & -> & Hup1).
  destruct (read_end _ _ _ _ Hup1) as (up2 & -> & Hup2).
  destruct (handler (c_canon ca a) w) as [w' r]. simpl in Hrep |- *. destruct Hrep as [Hgiven Hrep].
  assert (forall ty text, Forall fits (app_toks ty text) -> exists down',
      write_message name EXCEPTION seq (app_Write ty text) down = (down', None) /\
      holds down' (msg_depth + n) (message name EXCEPTION seq (app_toks ty text))) as Happ.
  { intros ty text Ht. exact (write_message_ok _ n name EXCEPTION seq _ _ down [] (app_writes (7 + sub_depth) ty text) Ht Hdown). }
  assert (forall res, sendable cr res -> exists down', write_message name REPLY seq (wR (Some res)) down = (down', None) /\
      holds down' (msg_depth + n) (message name REPLY seq (c_toks cr res))) as Hres.
  { intros res [Hro Hrf]. exact (write_message_ok _ n name REPLY seq _ _ down [] (c_writes cr msg_depth res Hro ltac:(lia)) Hrf Hdown). }
  destruct r as [e|v]; simpl in Hgiven, Hrep |- *.
  - destruct (declared e) as [res|]; [destruct (Hres res Hrep) as (down' & -> & Hd); by eauto 10|].
    specialize (Hgiven eq_refl). unfold given_up in Hgiven. apply orb_false_iff in Hgiven as [-> Hcause].
    destruct (Happ _ _ Hrep) as (down' & -> & Hd). destruct cause as [err3|]; [rewrite Hcause|]; by eauto 10.
  - destruct (Hres _ Hrep) as (down' & -> & Hd). by eauto 10.
Qed.

Lemma call_delivers {A T R B} {wA : option A -> M P unit} {rA : nat -> MF P A} {wR : option R -> M P unit} {rR : nat -> MF P R}
    (ca : codec wA rA) (cr : codec wR rR) name handler (declared : goerr -> option R) (answer : T -> R)
    fuel n (tail : R -> goerr + B) (a : A) (l : link P W) :
  GetProcessorFunction pm name = Some (process cause name (rA fuel) handler declared answer wR) ->
  (msg_fuel <= fuel)%nat -> sendable ca a -> idle n l ->
  replies cr declared answer name (snd (handler (c_canon ca a) (l_srv l))) ->
  exists l', stub (link_Call (Process pm) name (wA (Some a)) (rR fuel)) tail l =
      Some (l', seen cr declared answer name tail (snd (handler (c_canon ca a) (l_srv l)))) /\
    l_srv l' = fst (handler (c_canon ca a) (l_srv l)) /\ idle n l'.
Proof.
  intros Hpm Hfuel Hsend [Hup Hdown] Hrep. unfold stub, link_Call. destruct Hsend as [Hok Hfit].
  destruct (writes_ok _ n _ _ _ _ (law_send _ name (int32 (l_seq l + 1)) _ _ (c_writes ca msg_depth a Hok ltac:(lia)))
              (fits_message _ _ _ _ Hfit) Hup) as (up1 & -> & Hup1).
  unfold Process. change ([] ++ ?l) with l in Hup1. unfold message in Hup1. cbn [app] in Hup1.
  pose proof (law_read _ _ _ _ _ _ _ (r_message name CALL (int32 (l_seq l + 1))) Hup1) as H.
  destruct (ReadMessageBegin up1) as [up2 [e|h]]; [destruct H; apply fits_header|]. destruct H as [-> Hup2].
  rewrite Hpm. destruct (process_replies ca cr name handler declared answer fuel (int32 (l_seq l + 1)) n a (l_srv l) up2 (l_down l) [])
    as (up3 & down1 & err & -> & Hup3 & Hdown1); [done|by split|done|done|done|].
  destruct Hrep as [_ Hrep]. unfold seen. unfold reply_toks in Hdown1.
  assert (forall ty text, reply_of name declared answer (snd (handler (c_canon ca a) (l_srv l))) = inl (ty, text) -> ty = INTERNAL_ERROR) as Hty.
  { unfold reply_of. intros ty text. by repeat case_match; intros [=]. }
  destruct (reply_of _ _ _ _) as [[ty text]|res].
  - rewrite <- (app_nil_r (message _ _ _ _)) in Hdown1.
    destruct (law_exception msg_depth name _ (rR fuel) ty text down1 n [] ltac:(unfold msg_depth; lia) ltac:(by rewrite (Hty _ _ eq_refl)) Hdown1 Hrep) as (down2 & -> & Hd2). by eexists.
  - rewrite <- (app_nil_r (message _ _ _ _)) in Hdown1. destruct Hrep as [Hro Hrf].
    destruct (reads_ok _ n _ _ _ _ _ (law_reply _ name (int32 (l_seq l + 1)) _ _ _ (c_reads cr msg_depth fuel res Hro ltac:(lia) Hfuel))
                (fits_message _ _ _ _ Hrf) Hdown1) as (down2 & -> & Hd2).
    by eexists.
Qed.

(** *** As a method of the server *)

(** What a caller sees of a handler's answer, on a method that declares [ks]. *)
Definition outcome {T B} (name : string) (ks : list thrift_exn) (view : T -> goerr + B) (r : goerr + T) : goerr + B :=
  let internal e := EApp INTERNAL_ERROR ("Internal error processing " +:+ name +:+ ": " +:+ error_text e) in
  match r with
  | inr v => view v
  | inl e => inl (match e with EThrift k _ => if bool_decide (k ∈ ks) then e else internal e | _ => internal e end)
  end.

Lemma seen_outcome {T R B} {w : option R -> M P unit} {rd : nat -> MF P R} (c : codec w rd) cases (answer : T -> R) name
    (tail : R -> goerr + B) view r :
  (forall v, tail (c_canon c (answer v)) = view v) ->
  Forall (fun kf : thrift_exn * (wException -> R) => forall m, tail (c_canon c (kf.2 (mk_wException m))) = inl (EThrift kf.1 m)) cases ->
  seen c (type_switch cases) answer name tail r = outcome name cases.*1 view r.
Proof.
  intros Hv Hc. unfold seen, reply_of, outcome. destruct r as [e|v]; [|apply Hv].
  destruct e as [k m| | | | | | | | | | | | | | |]; try (by destruct cases).
  induction cases as [|[k' f] cases IH]; [by cbn|]. apply Forall_cons_1 in Hc as [Hf Hc]. simpl in Hf.
  cbn [type_switch]. change (((k', f) :: cases).*1) with (k' :: cases.*1).
  destruct (decide (k = k')) as [->|Hne].
  - rewrite bool_decide_eq_true_2 by left. apply Hf.
  - rewrite (IH Hc). do 2 f_equal. rewrite (bool_decide_ext (k ∈ cases.*1) (k ∈ k' :: cases.*1)); [done|].
    rewrite elem_of_cons. naive_solver.
Qed.

(** From a connection at rest, [call] comes back, the server having run [handler]
    once, with what [view] makes of its answer, and leaves the connection at rest; as
    long as the answer is one that [ok] says can be sent. *)
Definition delivers {T B} (n : nat) (call : MF (link P W) B) (handler : M W T) (ok : goerr + T -> Prop)
    (view : goerr + T -> goerr + B) : Prop :=
  forall l, idle n l -> ok (snd (handler (l_srv l))) ->
  exists l', call l = Some (l', view (snd (handler (l_srv l)))) /\ l_srv l' = fst (handler (l_srv l)) /\ idle n l'.

Lemma method_delivers {A T R B} {wA : option A -> M P unit} {rA : nat -> MF P A} {wR : option R -> M P unit} {rR : nat -> MF P R}
    (ca : codec wA rA) (cr : codec wR rR) name handler cases (answer : T -> R)
    fuel n (tail : R -> goerr + B) (a : A) view :
  GetProcessorFunction pm name = Some (process cause name (rA fuel) handler (type_switch cases) answer wR) ->
  (msg_fuel <= fuel)%nat -> sendable ca a ->
  (forall v, tail (c_canon cr (answer v)) = view v) ->
  Forall (fun kf : thrift_exn * (wException -> R) => forall m, tail (c_canon cr (kf.2 (mk_wException m))) = inl (EThrift kf.1 m)) cases ->
  delivers n (stub (link_Call (Process pm) name (wA (Some a)) (rR fuel)) tail) (handler (c_canon ca a))
    (replies cr (type_switch cases) answer name) (outcome name cases.*1 view).
Proof.
  intros Hpm Hfuel Ha Hv Hc l Hl Hok. rewrite <- (seen_outcome cr cases answer name tail view) by done.
  by apply call_delivers.
Qed.

(** A method the server does not have: UNKNOWN_METHOD, its state untouched, and the
    connection good for the next call. *)
Lemma method_unknown {A R B} {wA : option A -> M P unit} {rA : nat -> MF P A} (ca : codec wA rA)
    name n (result : MF P R) (tail : R -> goerr + B) (a : A) (l : link P W) :
  GetProcessorFunction pm name = None -> sendable ca a -> Forall fits (app_toks UNKNOWN_METHOD ("Unknown function " +:+ name)) ->
  (struct_nest <= skip_depth)%nat -> idle n l ->
  exists l', stub (link_Call (Process pm) name (wA (Some a)) result) tail l =
      Some (l', inl (EApp UNKNOWN_METHOD ("Unknown function " +:+ name))) /\ l_srv l' = l_srv l /\ idle n l'.
Proof.
  intros Hpm [Hok Hfit] Happ Hskip [Hup Hdown]. unfold stub, link_Call.
  destruct (writes_ok _ n _ _ _ _ (law_send _ name (int32 (l_seq l + 1)) _ _ (c_writes ca msg_depth a Hok ltac:(lia)))
              (fits_message _ _ _ _ Hfit) Hup) as (up1 & -> & Hup1).
  unfold Process. change ([] ++ ?l) with l in Hup1. unfold message in Hup1. cbn [app] in Hup1.
  pose proof (law_read _ _ _ _ _ _ _ (r_message name CALL (int32 (l_seq l + 1))) Hup1) as H.
  destruct (ReadMessageBegin up1) as [up2 [e|h]]; [destruct H; apply fits_header|]. destruct H as [-> Hup2]. rewrite Hpm.
  pose proof (law_skip _ _ _ _ _ _ (c_value ca a) Hskip Hup2) as H.
  destruct (Skip STRUCT up2) as [up3 [e|[]]]; [done|]. destruct (read_end msg_depth n _ _ H) as (up4 & -> & Hup4).
  destruct (write_message_ok _ n name EXCEPTION (int32 (l_seq l + 1)) _ _ (l_down l) []
              (app_writes (7 + sub_depth) UNKNOWN_METHOD ("Unknown function " +:+ name)) Happ Hdown) as (down1 & -> & Hd1).
  simpl app in Hd1. rewrite <- (app_nil_r (message _ _ _ _)) in Hd1.
  destruct (law_exception msg_depth name _ result UNKNOWN_METHOD ("Unknown function " +:+ name) down1 n [] ltac:(unfold msg_depth; lia) eq_refl Hd1 Happ) as (down2 & -> & Hd2).
  by eexists.
Qed.
End call.

(** A method of the processor, by the codecs of its arguments and result. *)
Ltac call_method ca cr :=
  let Hpm := fresh in let Ha := fresh in
  intros Hpm Ha;
  refine (method_delivers _ _ ca cr _ _ _ _ _ _ _ _ _ Hpm ltac:(assumption) Ha _ _);
  [intros; reflexivity|repeat (apply list.Forall_cons; split; [intros; reflexivity|]); constructor].

(** The codec of a struct: what makes it valid, its tokens and its lemmas. *)
Tactic Notation "codec_by" uconstr(ok) constr(toks) uconstr(canon) uconstr(wrt) uconstr(vle) uconstr(rds) :=
  refine (mkCodec ok (fun p => toks (Some p)) canon _ _ _); unfold msg_depth, msg_fuel, struct_nest;
  [ intros; apply wrt; first [lia|intros _ ? [= <-]; tauto]
  | intros; eapply value_le; [apply vle|lia]
  | intros; apply rds; first [lia|tauto] ].
