(* ===== verification/RpcCatalogFacts.v ===== *)
(** * RpcCatalogFacts: the calls of RpcCatalog, from stub to handler and back *)

From S2P Require Import Prelude Errors GoMonad Types Transport Wire Thrift ThriftFacts CodecTable CodecTableFacts CodecReq CodecReqFacts CodecValues Rpc RpcFacts RpcHandler RpcCatalog.

Section facts.
Context {P : Type} {TP : TProtocol P} {TL : TProtocolLaws P} {MR : MapRange} {SB : Substructs P} {SL : SubstructLaws P}.

(** ** get_catalogs *)

Definition GetCatalogsArgs_wire (p : wGetCatalogsArgs) : list (list wfield) :=
  [].
Definition GetCatalogsArgs_toks (p : option wGetCatalogsArgs) : list tok :=
  struct_toks (match p with Some p => concat (GetCatalogsArgs_wire p) | None => [] end).
Definition GetCatalogsArgs_canon (_ : wGetCatalogsArgs) : wGetCatalogsArgs := mk_wGetCatalogsArgs.

Lemma GetCatalogsArgs_writes strict d p : (1 <= d)%nat -> 
  writes strict d (GetCatalogsArgs_Write p) (GetCatalogsArgs_toks p).
Proof. enter_struct. unfold GetCatalogsArgs_wire. write_fields. Qed.
Lemma GetCatalogsArgs_runs d fuel p : (0 <= d)%nat -> (1 <= fuel)%nat -> 
  exists ids, runs d GetCatalogsArgs_switch (concat (GetCatalogsArgs_wire p)) zero_GetCatalogsArgs (GetCatalogsArgs_canon p) ids.
Proof.
  intros Hd Hf. exists []. destruct p. constructor.
Qed.
Lemma GetCatalogsArgs_reads d fuel p : (1 <= d)%nat -> (1 <= fuel)%nat -> 
  reads d (GetCatalogsArgs_Read fuel zero_GetCatalogsArgs) (GetCatalogsArgs_toks (Some p)) (GetCatalogsArgs_canon p).
Proof. struct_reads GetCatalogsArgs_runs GetCatalogsArgs_wire. Qed.
#[local] Hint Resolve GetCatalogsArgs_writes GetCatalogsArgs_reads : wire.
Lemma GetCatalogsArgs_value p : value 1 STRUCT (GetCatalogsArgs_toks p).
Proof. struct_is_value GetCatalogsArgs_toks GetCatalogsArgs_wire. Qed.
#[local] Hint Resolve GetCatalogsArgs_value : wire_value.
Definition GetCatalogsArgs_codec : codec GetCatalogsArgs_Write (fun fuel => GetCatalogsArgs_Read fuel zero_GetCatalogsArgs).
Proof. codec_by (fun _ => True) GetCatalogsArgs_toks GetCatalogsArgs_canon GetCatalogsArgs_writes GetCatalogsArgs_value GetCatalogsArgs_reads. Defined.

Definition GetCatalogsResult_wire (p : wGetCatalogsResult) : list (list wfield) :=
  [opt_part (wGetCatalogsResult_Success p) (fun v => (0, STRUCT, GetCatalogsResponse_toks (Some v)));
   opt_part (wGetCatalogsResult_O1 p) (fun v => (1, STRUCT, Exception_toks (Some v)))].
Definition GetCatalogsResult_toks (p : option wGetCatalogsResult) : list tok :=
  struct_toks (match p with Some p => concat (GetCatalogsResult_wire p) | None => [] end).
Definition GetCatalogsResult_canon (p : wGetCatalogsResult) : wGetCatalogsResult :=
  mk_wGetCatalogsResult (GetCatalogsResponse_canon <$> wGetCatalogsResult_Success p)
    (wGetCatalogsResult_O1 p).

Lemma GetCatalogsResult_writes strict d p : (2 <= d)%nat -> 
  writes strict d (GetCatalogsResult_Write p) (GetCatalogsResult_toks p).
Proof. enter_struct. unfold GetCatalogsResult_wire, GetCatalogsResult_writeField0, GetCatalogsResult_writeField1. write_fields. Qed.
Lemma GetCatalogsResult_runs d fuel p : (1 <= d)%nat -> (3 <= fuel)%nat -> 
  exists ids, runs d (GetCatalogsResult_switch fuel) (concat (GetCatalogsResult_wire p)) zero_GetCatalogsResult (GetCatalogsResult_canon p) ids.
Proof.
  intros Hd Hf. unfold GetCatalogsResult_wire. eexists.
  cbn [concat]. run_opt GetCatalogsResult_set_Success GetCatalogsResponse_canon.
  run_opt_same GetCatalogsResult_set_O1.
  run_end.
Qed.
Lemma GetCatalogsResult_reads d fuel p : (2 <= d)%nat -> (3 <= fuel)%nat -> 
  reads d (GetCatalogsResult_Read fuel zero_GetCatalogsResult) (GetCatalogsResult_toks (Some p)) (GetCatalogsResult_canon p).
Proof. struct_reads GetCatalogsResult_runs GetCatalogsResult_wire. Qed.
#[local] Hint Resolve GetCatalogsResult_writes GetCatalogsResult_reads : wire.
Lemma GetCatalogsResult_value p : value 3 STRUCT (GetCatalogsResult_toks p).
Proof. struct_is_value GetCatalogsResult_toks GetCatalogsResult_wire. Qed.
#[local] Hint Resolve GetCatalogsResult_value : wire_value.
Definition GetCatalogsResult_codec : codec GetCatalogsResult_Write (fun fuel => GetCatalogsResult_Read fuel zero_GetCatalogsResult).
Proof. codec_by (fun _ => True) GetCatalogsResult_toks GetCatalogsResult_canon GetCatalogsResult_writes GetCatalogsResult_value GetCatalogsResult_reads. Defined.

(** ** get_catalog *)

Definition GetCatalogArgs_wire (p : wGetCatalogArgs) : list (list wfield) :=
  [opt_part (wGetCatalogArgs_CatName p) (fun v => (1, STRUCT, GetCatalogRequest_toks (Some v)))].
Definition GetCatalogArgs_toks (p : option wGetCatalogArgs) : list tok :=
  struct_toks (match p with Some p => concat (GetCatalogArgs_wire p) | None => [] end).
Definition GetCatalogArgs_canon (p : wGetCatalogArgs) : wGetCatalogArgs :=
  mk_wGetCatalogArgs (GetCatalogRequest_canon <$> wGetCatalogArgs_CatName p).

Lemma GetCatalogArgs_writes strict d p : (2 <= d)%nat -> 
  writes strict d (GetCatalogArgs_Write p) (GetCatalogArgs_toks p).
Proof. enter_struct. unfold GetCatalogArgs_wire, GetCatalogArgs_writeField1. write_fields. Qed.
Lemma GetCatalogArgs_runs d fuel p : (1 <= d)%nat -> (2 <= fuel)%nat -> 
  exists ids, runs d (GetCatalogArgs_switch fuel) (concat (GetCatalogArgs_wire p)) zero_GetCatalogArgs (GetCatalogArgs_canon p) ids.
Proof.
  intros Hd Hf. unfold GetCatalogArgs_wire. eexists.
  cbn [concat]. run_opt GetCatalogArgs_set_CatName GetCatalogRequest_canon.
  run_end.
Qed.
Lemma GetCatalogArgs_reads d fuel p : (2 <= d)%nat -> (2 <= fuel)%nat -> 
  reads d (GetCatalogArgs_Read fuel zero_GetCatalogArgs) (GetCatalogArgs_toks (Some p)) (GetCatalogArgs_canon p).
Proof. struct_reads GetCatalogArgs_runs GetCatalogArgs_wire. Qed.
#[local] Hint Resolve GetCatalogArgs_writes GetCatalogArgs_reads : wire.
Lemma GetCatalogArgs_value p : value 2 STRUCT (GetCatalogArgs_toks p).
Proof. struct_is_value GetCatalogArgs_toks GetCatalogArgs_wire. Qed.
#[local] Hint Resolve GetCatalogArgs_value : wire_value.
Definition GetCatalogArgs_codec : codec GetCatalogArgs_Write (fun fuel => GetCatalogArgs_Read fuel zero_GetCatalogArgs).
Proof. codec_by (fun _ => True) GetCatalogArgs_toks GetCatalogArgs_canon GetCatalogArgs_writes GetCatalogArgs_value GetCatalogArgs_reads. Defined.

Definition GetCatalogResult_wire (p : wGetCatalogResult) : list (list wfield) :=
  [opt_part (wGetCatalogResult_Success p) (fun v => (0, STRUCT, GetCatalogResponse_toks (Some v)));
   opt_part (wGetCatalogResult_O1 p) (fun v => (1, STRUCT, Exception_toks (Some v)));
   opt_part (wGetCatalogResult_O2 p) (fun v => (2, STRUCT, Exception_toks (Some v)))].
Definition GetCatalogResult_toks (p : option wGetCatalogResult) : list tok :=
  struct_toks (match p with Some p => concat (GetCatalogResult_wire p) | None => [] end).
Definition GetCatalogResult_canon (p : wGetCatalogResult) : wGetCatalogResult :=
  mk_wGetCatalogResult (GetCatalogResponse_canon <$> wGetCatalogResult_Success p)
    (wGetCatalogResult_O1 p)
    (wGetCatalogResult_O2 p).

Lemma GetCatalogResult_writes strict d p : (3 <= d)%nat -> 
  writes strict d (GetCatalogResult_Write p) (GetCatalogResult_toks p).
Proof. enter_struct. unfold GetCatalogResult_wire, GetCatalogResult_writeField0, GetCatalogResult_writeField1, GetCatalogResult_writeField2. write_fields. Qed.
Lemma GetCatalogResult_runs d fuel p : (2 <= d)%nat -> (6 <= fuel)%nat -> 
  exists ids, runs d (GetCatalogResult_switch fuel) (concat (GetCatalogResult_wire p)) zero_GetCatalogResult (GetCatalogResult_canon p) ids.
Proof.
  intros Hd Hf. unfold GetCatalogResult_wire. eexists.
  cbn [concat]. run_opt GetCatalogResult_set_Success GetCatalogResponse_canon.
  run_opt_same GetCatalogResult_set_O1.
  run_opt_same GetCatalogResult_set_O2.
  run_end.
Qed.
Lemma GetCatalogResult_reads d fuel p : (3 <= d)%nat -> (6 <= fuel)%nat -> 
  reads d (GetCatalogResult_Read fuel zero_GetCatalogResult) (GetCatalogResult_toks (Some p)) (GetCatalogResult_canon p).
Proof. struct_reads GetCatalogResult_runs GetCatalogResult_wire. Qed.
#[local] Hint Resolve GetCatalogResult_writes GetCatalogResult_reads : wire.
Lemma GetCatalogResult_value p : value 4 STRUCT (GetCatalogResult_toks p).
Proof. struct_is_value GetCatalogResult_toks GetCatalogResult_wire. Qed.
#[local] Hint Resolve GetCatalogResult_value : wire_value.
Definition GetCatalogResult_codec : codec GetCatalogResult_Write (fun fuel => GetCatalogResult_Read fuel zero_GetCatalogResult).
Proof. codec_by (fun _ => True) GetCatalogResult_toks GetCatalogResult_canon GetCatalogResult_writes GetCatalogResult_value GetCatalogResult_reads. Defined.

(** ** create_catalog *)

Definition CreateCatalogArgs_wire (p : wCreateCatalogArgs) : list (list wfield) :=
  [opt_part (wCreateCatalogArgs_Catalog p) (fun v => (1, STRUCT, CreateCatalogRequest_toks (Some v)))].
Definition CreateCatalogArgs_toks (p : option wCreateCatalogArgs) : list tok :=
  struct_toks (match p with Some p => concat (CreateCatalogArgs_wire p) | None => [] end).
Definition CreateCatalogArgs_canon (p : wCreateCatalogArgs) : wCreateCatalogArgs :=
  mk_wCreateCatalogArgs (CreateCatalogRequest_canon <$> wCreateCatalogArgs_Catalog p).

Lemma CreateCatalogArgs_writes strict d p : (3 <= d)%nat -> 
  writes strict d (CreateCatalogArgs_Write p) (CreateCatalogArgs_toks p).
Proof. enter_struct. unfold CreateCatalogArgs_wire, CreateCatalogArgs_writeField1. write_fields. Qed.
Lemma CreateCatalogArgs_runs d fuel p : (2 <= d)%nat -> (6 <= fuel)%nat -> 
  exists ids, runs d (CreateCatalogArgs_switch fuel) (concat (CreateCatalogArgs_wire p)) zero_CreateCatalogArgs (CreateCatalogArgs_canon p) ids.
Proof.
  intros Hd Hf. unfold CreateCatalogArgs_wire. eexists.
  cbn [concat]. run_opt CreateCatalogArgs_set_Catalog CreateCatalogRequest_canon.
  run_end.
Qed.
Lemma CreateCatalogArgs_reads d fuel p : (3 <= d)%nat -> (6 <= fuel)%nat -> 
  reads d (CreateCatalogArgs_Read fuel zero_CreateCatalogArgs) (CreateCatalogArgs_toks (Some p)) (CreateCatalogArgs_canon p).
Proof. struct_reads CreateCatalogArgs_runs CreateCatalogArgs_wire. Qed.
#[local] Hint Resolve CreateCatalogArgs_writes CreateCatalogArgs_reads : wire.
Lemma CreateCatalogArgs_value p : value 4 STRUCT (CreateCatalogArgs_toks p).
Proof. struct_is_value CreateCatalogArgs_toks CreateCatalogArgs_wire. Qed.
#[local] Hint Resolve CreateCatalogArgs_value : wire_value.
Definition CreateCatalogArgs_codec : codec CreateCatalogArgs_Write (fun fuel => CreateCatalogArgs_Read fuel zero_CreateCatalogArgs).
Proof. codec_by (fun _ => True) CreateCatalogArgs_toks CreateCatalogArgs_canon CreateCatalogArgs_writes CreateCatalogArgs_value CreateCatalogArgs_reads. Defined.

Definition CreateCatalogResult_wire (p : wCreateCatalogResult) : list (list wfield) :=
  [opt_part (wCreateCatalogResult_O1 p) (fun v => (1, STRUCT, Exception_toks (Some v)));
   opt_part (wCreateCatalogResult_O2 p) (fun v => (2, STRUCT, Exception_toks (Some v)));
   opt_part (wCreateCatalogResult_O3 p) (fun v => (3, STRUCT, Exception_toks (Some v)))].
Definition CreateCatalogResult_toks (p : option wCreateCatalogResult) : list tok :=
  struct_toks (match p with Some p => concat (CreateCatalogResult_wire p) | None => [] end).
Definition CreateCatalogResult_canon (p : wCreateCatalogResult) : wCreateCatalogResult :=
  mk_wCreateCatalogResult (wCreateCatalogResult_O1 p)
    (wCreateCatalogResult_O2 p)
    (wCreateCatalogResult_O3 p).

Lemma CreateCatalogResult_writes strict d p : (2 <= d)%nat -> 
  writes strict d (CreateCatalogResult_Write p) (CreateCatalogResult_toks p).
Proof. enter_struct. unfold CreateCatalogResult_wire, CreateCatalogResult_writeField1, CreateCatalogResult_writeField2, CreateCatalogResult_writeField3. write_fields. Qed.
Lemma CreateCatalogResult_runs d fuel p : (1 <= d)%nat -> (4 <= fuel)%nat -> 
  exists ids, runs d (CreateCatalogResult_switch fuel) (concat (CreateCatalogResult_wire p)) zero_CreateCatalogResult (CreateCatalogResult_canon p) ids.
Proof.
  intros Hd Hf. unfold CreateCatalogResult_wire. eexists.
  cbn [concat]. run_opt_same CreateCatalogResult_set_O1.
  run_opt_same CreateCatalogResult_set_O2.
  run_opt_same CreateCatalogResult_set_O3.
  run_end.
Qed.
Lemma CreateCatalogResult_reads d fuel p : (2 <= d)%nat -> (4 <= fuel)%nat -> 
  reads d (CreateCatalogResult_Read fuel zero_CreateCatalogResult) (CreateCatalogResult_toks (Some p)) (CreateCatalogResult_canon p).
Proof. struct_reads CreateCatalogResult_runs CreateCatalogResult_wire. Qed.
#[local] Hint Resolve CreateCatalogResult_writes CreateCatalogResult_reads : wire.
Lemma CreateCatalogResult_value p : value 2 STRUCT (CreateCatalogResult_toks p).
Proof. struct_is_value CreateCatalogResult_toks CreateCatalogResult_wire. Qed.
#[local] Hint Resolve CreateCatalogResult_value : wire_value.
Definition CreateCatalogResult_codec : codec CreateCatalogResult_Write (fun fuel => CreateCatalogResult_Read fuel zero_CreateCatalogResult).
Proof. codec_by (fun _ => True) CreateCatalogResult_toks CreateCatalogResult_canon CreateCatalogResult_writes CreateCatalogResult_value CreateCatalogResult_reads. Defined.

(** ** drop_catalog *)

Definition DropCatalogArgs_wire (p : wDropCatalogArgs) : list (list wfield) :=
  [opt_part (wDropCatalogArgs_CatName p) (fun v => (1, STRUCT, DropCatalogRequest_toks (Some v)))].
Definition DropCatalogArgs_toks (p : option wDropCatalogArgs) : list tok :=
  struct_toks (match p with Some p => concat (DropCatalogArgs_wire p) | None => [] end).
Definition DropCatalogArgs_canon (p : wDropCatalogArgs) : wDropCatalogArgs :=
  mk_wDropCatalogArgs (DropCatalogRequest_canon <$> wDropCatalogArgs_CatName p).

Lemma DropCatalogArgs_writes strict d p : (2 <= d)%nat -> 
  writes strict d (DropCatalogArgs_Write p) (DropCatalogArgs_toks p).
Proof. enter_struct. unfold DropCatalogArgs_wire, DropCatalogArgs_writeField1. write_fields. Qed.
Lemma DropCatalogArgs_runs d fuel p : (1 <= d)%nat -> (3 <= fuel)%nat -> 
  exists ids, runs d (DropCatalogArgs_switch fuel) (concat (DropCatalogArgs_wire p)) zero_DropCatalogArgs (DropCatalogArgs_canon p) ids.
Proof.
  intros Hd Hf. unfold DropCatalogArgs_wire. eexists.
  cbn [concat]. run_opt DropCatalogArgs_set_CatName DropCatalogRequest_canon.
  run_end.
Qed.
Lemma DropCatalogArgs_reads d fuel p : (2 <= d)%nat -> (3 <= fuel)%nat -> 
  reads d (DropCatalogArgs_Read fuel zero_DropCatalogArgs) (DropCatalogArgs_toks (Some p)) (DropCatalogArgs_canon p).
Proof. struct_reads DropCatalogArgs_runs DropCatalogArgs_wire. Qed.
#[local] Hint Resolve DropCatalogArgs_writes DropCatalogArgs_reads : wire.
Lemma DropCatalogArgs_value p : value 2 STRUCT (DropCatalogArgs_toks p).
Proof. struct_is_value DropCatalogArgs_toks DropCatalogArgs_wire. Qed.
#[local] Hint Resolve DropCatalogArgs_value : wire_value.
Definition DropCatalogArgs_codec : codec DropCatalogArgs_Write (fun fuel => DropCatalogArgs_Read fuel zero_DropCatalogArgs).
Proof. codec_by (fun _ => True) DropCatalogArgs_toks DropCatalogArgs_canon DropCatalogArgs_writes DropCatalogArgs_value DropCatalogArgs_reads. Defined.

Definition DropCatalogResult_wire (p : wDropCatalogResult) : list (list wfield) :=
  [opt_part (wDropCatalogResult_O1 p) (fun v => (1, STRUCT, Exception_toks (Some v)));
   opt_part (wDropCatalogResult_O2 p) (fun v => (2, STRUCT, Exception_toks (Some v)));
   opt_part (wDropCatalogResult_O3 p) (fun v => (3, STRUCT, Exception_toks (Some v)))].
Definition DropCatalogResult_toks (p : option wDropCatalogResult) : list tok :=
  struct_toks (match p with Some p => concat (DropCatalogResult_wire p) | None => [] end).
Definition DropCatalogResult_canon (p : wDropCatalogResult) : wDropCatalogResult :=
  mk_wDropCatalogResult (wDropCatalogResult_O1 p)
    (wDropCatalogResult_O2 p)
    (wDropCatalogResult_O3 p).

Lemma DropCatalogResult_writes strict d p : (2 <= d)%nat -> 
  writes strict d (DropCatalogResult_Write p) (DropCatalogResult_toks p).
Proof. enter_struct. unfold DropCatalogResult_wire, DropCatalogResult_writeField1, DropCatalogResult_writeField2, DropCatalogResult_writeField3. write_fields. Qed.
Lemma DropCatalogResult_runs d fuel p : (1 <= d)%nat -> (4 <= fuel)%nat -> 
  exists ids, runs d (DropCatalogResult_switch fuel) (concat (DropCatalogResult_wire p)) zero_DropCatalogResult (DropCatalogResult_canon p) ids.
Proof.
  intros Hd Hf. unfold DropCatalogResult_wire. eexists.
  cbn [concat]. run_opt_same DropCatalogResult_set_O1.
  run_opt_same DropCatalogResult_set_O2.
  run_opt_same DropCatalogResult_set_O3.
  run_end.
Qed.
Lemma DropCatalogResult_reads d fuel p : (2 <= d)%nat -> (4 <= fuel)%nat -> 
  reads d (DropCatalogResult_Read fuel zero_DropCatalogResult) (DropCatalogResult_toks (Some p)) (DropCatalogResult_canon p).
Proof. struct_reads DropCatalogResult_runs DropCatalogResult_wire. Qed.
#[local] Hint Resolve DropCatalogResult_writes DropCatalogResult_reads : wire.
Lemma DropCatalogResult_value p : value 2 STRUCT (DropCatalogResult_toks p).
Proof. struct_is_value DropCatalogResult_toks DropCatalogResult_wire. Qed.
#[local] Hint Resolve DropCatalogResult_value : wire_value.
Definition DropCatalogResult_codec : codec DropCatalogResult_Write (fun fuel => DropCatalogResult_Read fuel zero_DropCatalogResult).
Proof. codec_by (fun _ => True) DropCatalogResult_toks DropCatalogResult_canon DropCatalogResult_writes DropCatalogResult_value DropCatalogResult_reads. Defined.

(** ** get_all_databases *)

Definition GetAllDatabasesArgs_wire (p : wGetAllDatabasesArgs) : list (list wfield) :=
  [].
Definition GetAllDatabasesArgs_toks (p : option wGetAllDatabasesArgs) : list tok :=
  struct_toks (match p with Some p => concat (GetAllDatabasesArgs_wire p) | None => [] end).
Definition GetAllDatabasesArgs_canon (_ : wGetAllDatabasesArgs) : wGetAllDatabasesArgs := mk_wGetAllDatabasesArgs.

Lemma GetAllDatabasesArgs_writes strict d p : (1 <= d)%nat -> 
  writes strict d (GetAllDatabasesArgs_Write p) (GetAllDatabasesArgs_toks p).
Proof. enter_struct. unfold GetAllDatabasesArgs_wire. write_fields. Qed.
Lemma GetAllDatabasesArgs_runs d fuel p : (0 <= d)%nat -> (1 <= fuel)%nat -> 
  exists ids, runs d GetAllDatabasesArgs_switch (concat (GetAllDatabasesArgs_wire p)) zero_GetAllDatabasesArgs (GetAllDatabasesArgs_canon p) ids.
Proof.
  intros Hd Hf. exists []. destruct p. constructor.
Qed.
Lemma GetAllDatabasesArgs_reads d fuel p : (1 <= d)%nat -> (1 <= fuel)%nat -> 
  reads d (GetAllDatabasesArgs_Read fuel zero_GetAllDatabasesArgs) (GetAllDatabasesArgs_toks (Some p)) (GetAllDatabasesArgs_canon p).
Proof. struct_reads GetAllDatabasesArgs_runs GetAllDatabasesArgs_wire. Qed.
#[local] Hint Resolve GetAllDatabasesArgs_writes GetAllDatabasesArgs_reads : wire.
Lemma GetAllDatabasesArgs_value p : value 1 STRUCT (GetAllDatabasesArgs_toks p).
Proof. struct_is_value GetAllDatabasesArgs_toks GetAllDatabasesArgs_wire. Qed.
#[local] Hint Resolve GetAllDatabasesArgs_value : wire_value.
Definition GetAllDatabasesArgs_codec : codec GetAllDatabasesArgs_Write (fun fuel => GetAllDatabasesArgs_Read fuel zero_GetAllDatabasesArgs).
Proof. codec_by (fun _ => True) GetAllDatabasesArgs_toks GetAllDatabasesArgs_canon GetAllDatabasesArgs_writes GetAllDatabasesArgs_value GetAllDatabasesArgs_reads. Defined.

Definition GetAllDatabasesResult_wire (p : wGetAllDatabasesResult) : list (list wfield) :=
  [when_part (bool_decide (is_Some (wGetAllDatabasesResult_Success p))) (0, LIST, strings_toks (wGetAllDatabasesResult_Success p));
   opt_part (wGetAllDatabasesResult_O1 p) (fun v => (1, STRUCT, Exception_toks (Some v)))].
Definition GetAllDatabasesResult_toks (p : option wGetAllDatabasesResult) : list tok :=
  struct_toks (match p with Some p => concat (GetAllDatabasesResult_wire p) | None => [] end).
Definition GetAllDatabasesResult_canon (p : wGetAllDatabasesResult) : wGetAllDatabasesResult :=
  mk_wGetAllDatabasesResult (wGetAllDatabasesResult_Success p)
    (wGetAllDatabasesResult_O1 p).

Lemma GetAllDatabasesResult_writes strict d p : (2 <= d)%nat -> 
  writes strict d (GetAllDatabasesResult_Write p) (GetAllDatabasesResult_toks p).
Proof. enter_struct. unfold GetAllDatabasesResult_wire, GetAllDatabasesResult_writeField0, GetAllDatabasesResult_writeField1. write_fields. Qed.
Lemma GetAllDatabasesResult_runs d fuel p : (1 <= d)%nat -> (3 <= fuel)%nat -> 
  exists ids, runs d (GetAllDatabasesResult_switch fuel) (concat (GetAllDatabasesResult_wire p)) zero_GetAllDatabasesResult (GetAllDatabasesResult_canon p) ids.
Proof.
  intros Hd Hf. unfold GetAllDatabasesResult_wire. eexists.
  cbn [concat]. run_slice_same GetAllDatabasesResult_set_Success.
  run_opt_same GetAllDatabasesResult_set_O1.
  run_end.
Qed.
Lemma GetAllDatabasesResult_reads d fuel p : (2 <= d)%nat -> (3 <= fuel)%nat -> 
  reads d (GetAllDatabasesResult_Read fuel zero_GetAllDatabasesResult) (GetAllDatabasesResult_toks (Some p)) (GetAllDatabasesResult_canon p).
Proof. struct_reads GetAllDatabasesResult_runs GetAllDatabasesResult_wire. Qed.
#[local] Hint Resolve GetAllDatabasesResult_writes GetAllDatabasesResult_reads : wire.
Lemma GetAllDatabasesResult_value p : value 2 STRUCT (GetAllDatabasesResult_toks p).
Proof. struct_is_value GetAllDatabasesResult_toks GetAllDatabasesResult_wire. Qed.
#[local] Hint Resolve GetAllDatabasesResult_value : wire_value.
Definition GetAllDatabasesResult_codec : codec GetAllDatabasesResult_Write (fun fuel => GetAllDatabasesResult_Read fuel zero_GetAllDatabasesResult).
Proof. codec_by (fun _ => True) GetAllDatabasesResult_toks GetAllDatabasesResult_canon GetAllDatabasesResult_writes GetAllDatabasesResult_value GetAllDatabasesResult_reads. Defined.

(** ** get_databases *)

Definition GetDatabasesArgs_wire (p : wGetDatabasesArgs) : list (list wfield) :=
  [[(1, STRING, [KString (wGetDatabasesArgs_Pattern p)])]].
Definition GetDatabasesArgs_toks (p : option wGetDatabasesArgs) : list tok :=
  struct_toks (match p with Some p => concat (GetDatabasesArgs_wire p) | None => [] end).
Definition GetDatabasesArgs_canon (p : wGetDatabasesArgs) : wGetDatabasesArgs :=
  mk_wGetDatabasesArgs (wGetDatabasesArgs_Pattern p).

Lemma GetDatabasesArgs_writes strict d p : (1 <= d)%nat -> 
  writes strict d (GetDatabasesArgs_Write p) (GetDatabasesArgs_toks p).
Proof. enter_struct. unfold GetDatabasesArgs_wire, GetDatabasesArgs_writeField1. write_fields. Qed.
Lemma GetDatabasesArgs_runs d fuel p : (0 <= d)%nat -> (2 <= fuel)%nat -> 
  exists ids, runs d GetDatabasesArgs_switch (concat (GetDatabasesArgs_wire p)) zero_GetDatabasesArgs (GetDatabasesArgs_canon p) ids.
Proof.
  intros Hd Hf. unfold GetDatabasesArgs_wire. eexists.
  cbn [concat]. run_one.
  run_end.
Qed.
Lemma GetDatabasesArgs_reads d fuel p : (1 <= d)%nat -> (2 <= fuel)%nat -> 
  reads d (GetDatabasesArgs_Read fuel zero_GetDatabasesArgs) (GetDatabasesArgs_toks (Some p)) (GetDatabasesArgs_canon p).
Proof. struct_reads GetDatabasesArgs_runs GetDatabasesArgs_wire. Qed.
#[local] Hint Resolve GetDatabasesArgs_writes GetDatabasesArgs_reads : wire.
Lemma GetDatabasesArgs_value p : value 1 STRUCT (GetDatabasesArgs_toks p).
Proof. struct_is_value GetDatabasesArgs_toks GetDatabasesArgs_wire. Qed.
#[local] Hint Resolve GetDatabasesArgs_value : wire_value.
Definition GetDatabasesArgs_codec : codec GetDatabasesArgs_Write (fun fuel => GetDatabasesArgs_Read fuel zero_GetDatabasesArgs).
Proof. codec_by (fun _ => True) GetDatabasesArgs_toks GetDatabasesArgs_canon GetDatabasesArgs_writes GetDatabasesArgs_value GetDatabasesArgs_reads. Defined.

Definition GetDatabasesResult_wire (p : wGetDatabasesResult) : list (list wfield) :=
  [when_part (bool_decide (is_Some (wGetDatabasesResult_Success p))) (0, LIST, strings_toks (wGetDatabasesResult_Success p));
   opt_part (wGetDatabasesResult_O1 p) (fun v => (1, STRUCT, Exception_toks (Some v)))].
Definition GetDatabasesResult_toks (p : option wGetDatabasesResult) : list tok :=
  struct_toks (match p with Some p => concat (GetDatabasesResult_wire p) | None => [] end).
Definition GetDatabasesResult_canon (p : wGetDatabasesResult) : wGetDatabasesResult :=
  mk_wGetDatabasesResult (wGetDatabasesResult_Success p)
    (wGetDatabasesResult_O1 p).

Lemma GetDatabasesResult_writes strict d p : (2 <= d)%nat -> 
  writes strict d (GetDatabasesResult_Write p) (GetDatabasesResult_toks p).
Proof. enter_struct. unfold GetDatabasesResult_wire, GetDatabasesResult_writeField0, GetDatabasesResult_writeField1. write_fields. Qed.
Lemma GetDatabasesResult_runs d fuel p : (1 <= d)%nat -> (3 <= fuel)%nat -> 
  exists ids, runs d (GetDatabasesResult_switch fuel) (concat (GetDatabasesResult_wire p)) zero_GetDatabasesResult (GetDatabasesResult_canon p) ids.
Proof.
  intros Hd Hf. unfold GetDatabasesResult_wire. eexists.
  cbn [concat]. run_slice_same GetDatabasesResult_set_Success.
  run_opt_same GetDatabasesResult_set_O1.
  run_end.
Qed.
Lemma GetDatabasesResult_reads d fuel p : (2 <= d)%nat -> (3 <= fuel)%nat -> 
  reads d (GetDatabasesResult_Read fuel zero_GetDatabasesResult) (GetDatabasesResult_toks (Some p)) (GetDatabasesResult_canon p).
Proof. struct_reads GetDatabasesResult_runs GetDatabasesResult_wire. Qed.
#[local] Hint Resolve GetDatabasesResult_writes GetDatabasesResult_reads : wire.
Lemma GetDatabasesResult_value p : value 2 STRUCT (GetDatabasesResult_toks p).
Proof. struct_is_value GetDatabasesResult_toks GetDatabasesResult_wire. Qed.
#[local] Hint Resolve GetDatabasesResult_value : wire_value.
Definition GetDatabasesResult_codec : codec GetDatabasesResult_Write (fun fuel => GetDatabasesResult_Read fuel zero_GetDatabasesResult).
Proof. codec_by (fun _ => True) GetDatabasesResult_toks GetDatabasesResult_canon GetDatabasesResult_writes GetDatabasesResult_value GetDatabasesResult_reads. Defined.

(** ** get_database *)

Definition GetDatabaseArgs_wire (p : wGetDatabaseArgs) : list (list wfield) :=
  [[(1, STRING, [KString (wGetDatabaseArgs_Name p)])]].
Definition GetDatabaseArgs_toks (p : option wGetDatabaseArgs) : list tok :=
  struct_toks (match p with Some p => concat (GetDatabaseArgs_wire p) | None => [] end).
Definition GetDatabaseArgs_canon (p : wGetDatabaseArgs) : wGetDatabaseArgs :=
  mk_wGetDatabaseArgs (wGetDatabaseArgs_Name p).

Lemma GetDatabaseArgs_writes strict d p : (1 <= d)%nat -> 
  writes strict d (GetDatabaseArgs_Write p) (GetDatabaseArgs_toks p).
Proof. enter_struct. unfold GetDatabaseArgs_wire, GetDatabaseArgs_writeField1. write_fields. Qed.
Lemma GetDatabaseArgs_runs d fuel p : (0 <= d)%nat -> (2 <= fuel)%nat -> 
  exists ids, runs d GetDatabaseArgs_switch (concat (GetDatabaseArgs_wire p)) zero_GetDatabaseArgs (GetDatabaseArgs_canon p) ids.
Proof.
  intros Hd Hf. unfold GetDatabaseArgs_wire. eexists.
  cbn [concat]. run_one.
  run_end.
Qed.
Lemma GetDatabaseArgs_reads d fuel p : (1 <= d)%nat -> (2 <= fuel)%nat -> 
  reads d (GetDatabaseArgs_Read fuel zero_GetDatabaseArgs) (GetDatabaseArgs_toks (Some p)) (GetDatabaseArgs_canon p).
Proof. struct_reads GetDatabaseArgs_runs GetDatabaseArgs_wire. Qed.
#[local] Hint Resolve GetDatabaseArgs_writes GetDatabaseArgs_reads : wire.
Lemma GetDatabaseArgs_value p : value 1 STRUCT (GetDatabaseArgs_toks p).
Proof. struct_is_value GetDatabaseArgs_toks GetDatabaseArgs_wire. Qed.
#[local] Hint Resolve GetDatabaseArgs_value : wire_value.
Definition GetDatabaseArgs_codec : codec GetDatabaseArgs_Write (fun fuel => GetDatabaseArgs_Read fuel zero_GetDatabaseArgs).
Proof. codec_by (fun _ => True) GetDatabaseArgs_toks GetDatabaseArgs_canon GetDatabaseArgs_writes GetDatabaseArgs_value GetDatabaseArgs_reads. Defined.

Definition GetDatabaseResult_wire (p : wGetDatabaseResult) : list (list wfield) :=
  [opt_part (wGetDatabaseResult_Success p) (fun v => (0, STRUCT, Database_toks (Some v)));
   opt_part (wGetDatabaseResult_O1 p) (fun v => (1, STRUCT, Exception_toks (Some v)));
   opt_part (wGetDatabaseResult_O2 p) (fun v => (2, STRUCT, Exception_toks (Some v)))].
Definition GetDatabaseResult_toks (p : option wGetDatabaseResult) : list tok :=
  struct_toks (match p with Some p => concat (GetDatabaseResult_wire p) | None => [] end).
Definition GetDatabaseResult_canon (p : wGetDatabaseResult) : wGetDatabaseResult :=
  mk_wGetDatabaseResult (Database_canon <$> wGetDatabaseResult_Success p)
    (wGetDatabaseResult_O1 p)
    (wGetDatabaseResult_O2 p).

Lemma GetDatabaseResult_writes strict d p : (2 <= d)%nat -> (2 + sub_depth <= d)%nat -> 
  writes strict d (GetDatabaseResult_Write p) (GetDatabaseResult_toks p).
Proof. enter_struct. unfold GetDatabaseResult_wire, GetDatabaseResult_writeField0, GetDatabaseResult_writeField1, GetDatabaseResult_writeField2. write_fields. Qed.
Lemma GetDatabaseResult_runs d fuel p : (1 <= d)%nat -> (S sub_depth <= d)%nat -> (14 <= fuel)%nat -> (sub_fuel <= fuel)%nat -> 
  exists ids, runs d (GetDatabaseResult_switch fuel) (concat (GetDatabaseResult_wire p)) zero_GetDatabaseResult (GetDatabaseResult_canon p) ids.
Proof.
  intros Hd Hsub Hf Hsf. unfold GetDatabaseResult_wire. eexists.
  cbn [concat]. run_opt GetDatabaseResult_set_Success Database_canon.
  run_opt_same GetDatabaseResult_set_O1.
  run_opt_same GetDatabaseResult_set_O2.
  run_end.
Qed.
Lemma GetDatabaseResult_reads d fuel p : (2 <= d)%nat -> (2 + sub_depth <= d)%nat -> (14 <= fuel)%nat -> (sub_fuel <= fuel)%nat -> 
  reads d (GetDatabaseResult_Read fuel zero_GetDatabaseResult) (GetDatabaseResult_toks (Some p)) (GetDatabaseResult_canon p).
Proof. struct_reads GetDatabaseResult_runs GetDatabaseResult_wire. Qed.
#[local] Hint Resolve GetDatabaseResult_writes GetDatabaseResult_reads : wire.
Lemma GetDatabaseResult_value p : value (3 + sub_nest) STRUCT (GetDatabaseResult_toks p).
Proof. struct_is_value GetDatabaseResult_toks GetDatabaseResult_wire. Qed.
#[local] Hint Resolve GetDatabaseResult_value : wire_value.
Definition GetDatabaseResult_codec : codec GetDatabaseResult_Write (fun fuel => GetDatabaseResult_Read fuel zero_GetDatabaseResult).
Proof. codec_by (fun _ => True) GetDatabaseResult_toks GetDatabaseResult_canon GetDatabaseResult_writes GetDatabaseResult_value GetDatabaseResult_reads. Defined.

(** ** create_database *)

Definition CreateDatabaseArgs_wire (p : wCreateDatabaseArgs) : list (list wfield) :=
  [opt_part (wCreateDatabaseArgs_Database p) (fun v => (1, STRUCT, Database_toks (Some v)))].
Definition CreateDatabaseArgs_toks (p : option wCreateDatabaseArgs) : list tok :=
  struct_toks (match p with Some p => concat (CreateDatabaseArgs_wire p) | None => [] end).
Definition CreateDatabaseArgs_canon (p : wCreateDatabaseArgs) : wCreateDatabaseArgs :=
  mk_wCreateDatabaseArgs (Database_canon <$> wCreateDatabaseArgs_Database p).

Lemma CreateDatabaseArgs_writes strict d p : (2 <= d)%nat -> (2 + sub_depth <= d)%nat -> 
  writes strict d (CreateDatabaseArgs_Write p) (CreateDatabaseArgs_toks p).
Proof. enter_struct. unfold CreateDatabaseArgs_wire, CreateDatabaseArgs_writeField1. write_fields. Qed.
Lemma CreateDatabaseArgs_runs d fuel p : (1 <= d)%nat -> (S sub_depth <= d)%nat -> (14 <= fuel)%nat -> (sub_fuel <= fuel)%nat -> 
  exists ids, runs d (CreateDatabaseArgs_switch fuel) (concat (CreateDatabaseArgs_wire p)) zero_CreateDatabaseArgs (CreateDatabaseArgs_canon p) ids.
Proof.
  intros Hd Hsub Hf Hsf. unfold CreateDatabaseArgs_wire. eexists.
  cbn [concat]. run_opt CreateDatabaseArgs_set_Database Database_canon.
  run_end.
Qed.
Lemma CreateDatabaseArgs_reads d fuel p : (2 <= d)%nat -> (2 + sub_depth <= d)%nat -> (14 <= fuel)%nat -> (sub_fuel <= fuel)%nat -> 
  reads d (CreateDatabaseArgs_Read fuel zero_CreateDatabaseArgs) (CreateDatabaseArgs_toks (Some p)) (CreateDatabaseArgs_canon p).
Proof. struct_reads CreateDatabaseArgs_runs CreateDatabaseArgs_wire. Qed.
#[local] Hint Resolve CreateDatabaseArgs_writes CreateDatabaseArgs_reads : wire.
Lemma CreateDatabaseArgs_value p : value (3 + sub_nest) STRUCT (CreateDatabaseArgs_toks p).
Proof. struct_is_value CreateDatabaseArgs_toks CreateDatabaseArgs_wire. Qed.
#[local] Hint Resolve CreateDatabaseArgs_value : wire_value.
Definition CreateDatabaseArgs_codec : codec CreateDatabaseArgs_Write (fun fuel => CreateDatabaseArgs_Read fuel zero_CreateDatabaseArgs).
Proof. codec_by (fun _ => True) CreateDatabaseArgs_toks CreateDatabaseArgs_canon CreateDatabaseArgs_writes CreateDatabaseArgs_value CreateDatabaseArgs_reads. Defined.

Definition CreateDatabaseResult_wire (p : wCreateDatabaseResult) : list (list wfield) :=
  [opt_part (wCreateDatabaseResult_O1 p) (fun v => (1, STRUCT, Exception_toks (Some v)));
   opt_part (wCreateDatabaseResult_O2 p) (fun v => (2, STRUCT, Exception_toks (Some v)));
   opt_part (wCreateDatabaseResult_O3 p) (fun v => (3, STRUCT, Exception_toks (Some v)))].
Definition CreateDatabaseResult_toks (p : option wCreateDatabaseResult) : list tok :=
  struct_toks (match p with Some p => concat (CreateDatabaseResult_wire p) | None => [] end).
Definition CreateDatabaseResult_canon (p : wCreateDatabaseResult) : wCreateDatabaseResult :=
  mk_wCreateDatabaseResult (wCreateDatabaseResult_O1 p)
    (wCreateDatabaseResult_O2 p)
    (wCreateDatabaseResult_O3 p).

Lemma CreateDatabaseResult_writes strict d p : (2 <= d)%nat -> 
  writes strict d (CreateDatabaseResult_Write p) (CreateDatabaseResult_toks p).
Proof. enter_struct. unfold CreateDatabaseResult_wire, CreateDatabaseResult_writeField1, CreateDatabaseResult_writeField2, CreateDatabaseResult_writeField3. write_fields. Qed.
Lemma CreateDatabaseResult_runs d fuel p : (1 <= d)%nat -> (4 <= fuel)%nat -> 
  exists ids, runs d (CreateDatabaseResult_switch fuel) (concat (CreateDatabaseResult_wire p)) zero_CreateDatabaseResult (CreateDatabaseResult_canon p) ids.
Proof.
  intros Hd Hf. unfold CreateDatabaseResult_wire. eexists.
  cbn [concat]. run_opt_same CreateDatabaseResult_set_O1.
  run_opt_same CreateDatabaseResult_set_O2.
  run_opt_same CreateDatabaseResult_set_O3.
  run_end.
Qed.
Lemma CreateDatabaseResult_reads d fuel p : (2 <= d)%nat -> (4 <= fuel)%nat -> 
  reads d (CreateDatabaseResult_Read fuel zero_CreateDatabaseResult) (CreateDatabaseResult_toks (Some p)) (CreateDatabaseResult_canon p).
Proof. struct_reads CreateDatabaseResult_runs CreateDatabaseResult_wire. Qed.
#[local] Hint Resolve CreateDatabaseResult_writes CreateDatabaseResult_reads : wire.
Lemma CreateDatabaseResult_value p : value 2 STRUCT (CreateDatabaseResult_toks p).
Proof. struct_is_value CreateDatabaseResult_toks CreateDatabaseResult_wire. Qed.
#[local] Hint Resolve CreateDatabaseResult_value : wire_value.
Definition CreateDatabaseResult_codec : codec CreateDatabaseResult_Write (fun fuel => CreateDatabaseResult_Read fuel zero_CreateDatabaseResult).
Proof. codec_by (fun _ => True) CreateDatabaseResult_toks CreateDatabaseResult_canon CreateDatabaseResult_writes CreateDatabaseResult_value CreateDatabaseResult_reads. Defined.

(** ** drop_database *)

Definition DropDatabaseArgs_wire (p : wDropDatabaseArgs) : list (list wfield) :=
  [[(1, STRING, [KString (wDropDatabaseArgs_Name p)])];
   [(2, BOOL, [KBool (wDropDatabaseArgs_DeleteData p)])];
   [(3, BOOL, [KBool (wDropDatabaseArgs_Cascade p)])]].
Definition DropDatabaseArgs_toks (p : option wDropDatabaseArgs) : list tok :=
  struct_toks (match p with Some p => concat (DropDatabaseArgs_wire p) | None => [] end).
Definition DropDatabaseArgs_canon (p : wDropDatabaseArgs) : wDropDatabaseArgs :=
  mk_wDropDatabaseArgs (wDropDatabaseArgs_Name p)
    (wDropDatabaseArgs_DeleteData p)
    (wDropDatabaseArgs_Cascade p).

Lemma DropDatabaseArgs_writes strict d p : (1 <= d)%nat -> 
  writes strict d (DropDatabaseArgs_Write p) (DropDatabaseArgs_toks p).
Proof. enter_struct. unfold DropDatabaseArgs_wire, DropDatabaseArgs_writeField1, DropDatabaseArgs_writeField2, DropDatabaseArgs_writeField3. write_fields. Qed.
Lemma DropDatabaseArgs_runs d fuel p : (0 <= d)%nat -> (4 <= fuel)%nat -> 
  exists ids, runs d DropDatabaseArgs_switch (concat (DropDatabaseArgs_wire p)) zero_DropDatabaseArgs (DropDatabaseArgs_canon p) ids.
Proof.
  intros Hd Hf. unfold DropDatabaseArgs_wire. eexists.
  cbn [concat]. run_one.
  run_one.
  run_one.
  run_end.
Qed.
Lemma DropDatabaseArgs_reads d fuel p : (1 <= d)%nat -> (4 <= fuel)%nat -> 
  reads d (DropDatabaseArgs_Read fuel zero_DropDatabaseArgs) (DropDatabaseArgs_toks (Some p)) (DropDatabaseArgs_canon p).
Proof. struct_reads DropDatabaseArgs_runs DropDatabaseArgs_wire. Qed.
#[local] Hint Resolve DropDatabaseArgs_writes DropDatabaseArgs_reads : wire.
Lemma DropDatabaseArgs_value p : value 1 STRUCT (DropDatabaseArgs_toks p).
Proof. struct_is_value DropDatabaseArgs_toks DropDatabaseArgs_wire. Qed.
#[local] Hint Resolve DropDatabaseArgs_value : wire_value.
Definition DropDatabaseArgs_codec : codec DropDatabaseArgs_Write (fun fuel => DropDatabaseArgs_Read fuel zero_DropDatabaseArgs).
Proof. codec_by (fun _ => True) DropDatabaseArgs_toks DropDatabaseArgs_canon DropDatabaseArgs_writes DropDatabaseArgs_value DropDatabaseArgs_reads. Defined.

Definition DropDatabaseResult_wire (p : wDropDatabaseResult) : list (list wfield) :=
  [opt_part (wDropDatabaseResult_O1 p) (fun v => (1, STRUCT, Exception_toks (Some v)));
   opt_part (wDropDatabaseResult_O2 p) (fun v => (2, STRUCT, Exception_toks (Some v)));
   opt_part (wDropDatabaseResult_O3 p) (fun v => (3, STRUCT, Exception_toks (Some v)))].
Definition DropDatabaseResult_toks (p : option wDropDatabaseResult) : list tok :=
  struct_toks (match p with Some p => concat (DropDatabaseResult_wire p) | None => [] end).
Definition DropDatabaseResult_canon (p : wDropDatabaseResult) : wDropDatabaseResult :=
  mk_wDropDatabaseResult (wDropDatabaseResult_O1 p)
    (wDropDatabaseResult_O2 p)
    (wDropDatabaseResult_O3 p).

Lemma DropDatabaseResult_writes strict d p : (2 <= d)%nat -> 
  writes strict d (DropDatabaseResult_Write p) (DropDatabaseResult_toks p).
Proof. enter_struct. unfold DropDatabaseResult_wire, DropDatabaseResult_writeField1, DropDatabaseResult_writeField2, DropDatabaseResult_writeField3. write_fields. Qed.
Lemma DropDatabaseResult_runs d fuel p : (1 <= d)%nat -> (4 <= fuel)%nat -> 
  exists ids, runs d (DropDatabaseResult_switch fuel) (concat (DropDatabaseResult_wire p)) zero_DropDatabaseResult (DropDatabaseResult_canon p) ids.
Proof.
  intros Hd Hf. unfold DropDatabaseResult_wire. eexists.
  cbn [concat]. run_opt_same DropDatabaseResult_set_O1.
  run_opt_same DropDatabaseResult_set_O2.
  run_opt_same DropDatabaseResult_set_O3.
  run_end.
Qed.
Lemma DropDatabaseResult_reads d fuel p : (2 <= d)%nat -> (4 <= fuel)%nat -> 
  reads d (DropDatabaseResult_Read fuel zero_DropDatabaseResult) (DropDatabaseResult_toks (Some p)) (DropDatabaseResult_canon p).
Proof. struct_reads DropDatabaseResult_runs DropDatabaseResult_wire. Qed.
#[local] Hint Resolve DropDatabaseResult_writes DropDatabaseResult_reads : wire.
Lemma DropDatabaseResult_value p : value 2 STRUCT (DropDatabaseResult_toks p).
Proof. struct_is_value DropDatabaseResult_toks DropDatabaseResult_wire. Qed.
#[local] Hint Resolve DropDatabaseResult_value : wire_value.
Definition DropDatabaseResult_codec : codec DropDatabaseResult_Write (fun fuel => DropDatabaseResult_Read fuel zero_DropDatabaseResult).
Proof. codec_by (fun _ => True) DropDatabaseResult_toks DropDatabaseResult_canon DropDatabaseResult_writes DropDatabaseResult_value DropDatabaseResult_reads. Defined.

(** ** alter_database *)

Definition AlterDatabaseArgs_wire (p : wAlterDatabaseArgs) : list (list wfield) :=
  [[(1, STRING, [KString (wAlterDatabaseArgs_Dbname p)])];
   opt_part (wAlterDatabaseArgs_Db p) (fun v => (2, STRUCT, Database_toks (Some v)))].
Definition AlterDatabaseArgs_toks (p : option wAlterDatabaseArgs) : list tok :=
  struct_toks (match p with Some p => concat (AlterDatabaseArgs_wire p) | None => [] end).
Definition AlterDatabaseArgs_canon (p : wAlterDatabaseArgs) : wAlterDatabaseArgs :=
  mk_wAlterDatabaseArgs (wAlterDatabaseArgs_Dbname p)
    (Database_canon <$> wAlterDatabaseArgs_Db p).

Lemma AlterDatabaseArgs_writes strict d p : (2 <= d)%nat -> (2 + sub_depth <= d)%nat -> 
  writes strict d (AlterDatabaseArgs_Write p) (AlterDatabaseArgs_toks p).
Proof. enter_struct. unfold AlterDatabaseArgs_wire, AlterDatabaseArgs_writeField1, AlterDatabaseArgs_writeField2. write_fields. Qed.
Lemma AlterDatabaseArgs_runs d fuel p : (1 <= d)%nat -> (S sub_depth <= d)%nat -> (14 <= fuel)%nat -> (sub_fuel <= fuel)%nat -> 
  exists ids, runs d (AlterDatabaseArgs_switch fuel) (concat (AlterDatabaseArgs_wire p)) zero_AlterDatabaseArgs (AlterDatabaseArgs_canon p) ids.
Proof.
  intros Hd Hsub Hf Hsf. unfold AlterDatabaseArgs_wire. eexists.
  cbn [concat]. run_one.
  run_opt AlterDatabaseArgs_set_Db Database_canon.
  run_end.
Qed.
Lemma AlterDatabaseArgs_reads d fuel p : (2 <= d)%nat -> (2 + sub_depth <= d)%nat -> (14 <= fuel)%nat -> (sub_fuel <= fuel)%nat -> 
  reads d (AlterDatabaseArgs_Read fuel zero_AlterDatabaseArgs) (AlterDatabaseArgs_toks (Some p)) (AlterDatabaseArgs_canon p).
Proof. struct_reads AlterDatabaseArgs_runs AlterDatabaseArgs_wire. Qed.
#[local] Hint Resolve AlterDatabaseArgs_writes AlterDatabaseArgs_reads : wire.
Lemma AlterDatabaseArgs_value p : value (3 + sub_nest) STRUCT (AlterDatabaseArgs_toks p).
Proof. struct_is_value AlterDatabaseArgs_toks AlterDatabaseArgs_wire. Qed.
#[local] Hint Resolve AlterDatabaseArgs_value : wire_value.
Definition AlterDatabaseArgs_codec : codec AlterDatabaseArgs_Write (fun fuel => AlterDatabaseArgs_Read fuel zero_AlterDatabaseArgs).
Proof. codec_by (fun _ => True) AlterDatabaseArgs_toks AlterDatabaseArgs_canon AlterDatabaseArgs_writes AlterDatabaseArgs_value AlterDatabaseArgs_reads. Defined.

Definition AlterDatabaseResult_wire (p : wAlterDatabaseResult) : list (list wfield) :=
  [opt_part (wAlterDatabaseResult_O1 p) (fun v => (1, STRUCT, Exception_toks (Some v)));
   opt_part (wAlterDatabaseResult_O2 p) (fun v => (2, STRUCT, Exception_toks (Some v)))].
Definition AlterDatabaseResult_toks (p : option wAlterDatabaseResult) : list tok :=
  struct_toks (match p with Some p => concat (AlterDatabaseResult_wire p) | None => [] end).
Definition AlterDatabaseResult_canon (p : wAlterDatabaseResult) : wAlterDatabaseResult :=
  mk_wAlterDatabaseResult (wAlterDatabaseResult_O1 p)
    (wAlterDatabaseResult_O2 p).

Lemma AlterDatabaseResult_writes strict d p : (2 <= d)%nat -> 
  writes strict d (AlterDatabaseResult_Write p) (AlterDatabaseResult_toks p).
Proof. enter_struct. unfold AlterDatabaseResult_wire, AlterDatabaseResult_writeField1, AlterDatabaseResult_writeField2. write_fields. Qed.
Lemma AlterDatabaseResult_runs d fuel p : (1 <= d)%nat -> (3 <= fuel)%nat -> 
  exists ids, runs d (AlterDatabaseResult_switch fuel) (concat (AlterDatabaseResult_wire p)) zero_AlterDatabaseResult (AlterDatabaseResult_canon p) ids.
Proof.
  intros Hd Hf. unfold AlterDatabaseResult_wire. eexists.
  cbn [concat]. run_opt_same AlterDatabaseResult_set_O1.
  run_opt_same AlterDatabaseResult_set_O2.
  run_end.
Qed.
Lemma AlterDatabaseResult_reads d fuel p : (2 <= d)%nat -> (3 <= fuel)%nat -> 
  reads d (AlterDatabaseResult_Read fuel zero_AlterDatabaseResult) (AlterDatabaseResult_toks (Some p)) (AlterDatabaseResult_canon p).
Proof. struct_reads AlterDatabaseResult_runs AlterDatabaseResult_wire. Qed.
#[local] Hint Resolve AlterDatabaseResult_writes AlterDatabaseResult_reads : wire.
Lemma AlterDatabaseResult_value p : value 2 STRUCT (AlterDatabaseResult_toks p).
Proof. struct_is_value AlterDatabaseResult_toks AlterDatabaseResult_wire. Qed.
#[local] Hint Resolve AlterDatabaseResult_value : wire_value.
Definition AlterDatabaseResult_codec : codec AlterDatabaseResult_Write (fun fuel => AlterDatabaseResult_Read fuel zero_AlterDatabaseResult).
Proof. codec_by (fun _ => True) AlterDatabaseResult_toks AlterDatabaseResult_canon AlterDatabaseResult_writes AlterDatabaseResult_value AlterDatabaseResult_reads. Defined.

(** ** get_config_value *)

Definition GetConfigValueArgs_wire (p : wGetConfigValueArgs) : list (list wfield) :=
  [[(1, STRING, [KString (wGetConfigValueArgs_Name p)])];
   [(2, STRING, [KString (wGetConfigValueArgs_DefaultValue p)])]].
Definition GetConfigValueArgs_toks (p : option wGetConfigValueArgs) : list tok :=
  struct_toks (match p with Some p => concat (GetConfigValueArgs_wire p) | None => [] end).
Definition GetConfigValueArgs_canon (p : wGetConfigValueArgs) : wGetConfigValueArgs :=
  mk_wGetConfigValueArgs (wGetConfigValueArgs_Name p)
    (wGetConfigValueArgs_DefaultValue p).

Lemma GetConfigValueArgs_writes strict d p : (1 <= d)%nat -> 
  writes strict d (GetConfigValueArgs_Write p) (GetConfigValueArgs_toks p).
Proof. enter_struct. unfold GetConfigValueArgs_wire, GetConfigValueArgs_writeField1, GetConfigValueArgs_writeField2. write_fields. Qed.
Lemma GetConfigValueArgs_runs d fuel p : (0 <= d)%nat -> (3 <= fuel)%nat -> 
  exists ids, runs d GetConfigValueArgs_switch (concat (GetConfigValueArgs_wire p)) zero_GetConfigValueArgs (GetConfigValueArgs_canon p) ids.
Proof.
  intros Hd Hf. unfold GetConfigValueArgs_wire. eexists.
  cbn [concat]. run_one.
  run_one.
  run_end.
Qed.
Lemma GetConfigValueArgs_reads d fuel p : (1 <= d)%nat -> (3 <= fuel)%nat -> 
  reads d (GetConfigValueArgs_Read fuel zero_GetConfigValueArgs) (GetConfigValueArgs_toks (Some p)) (GetConfigValueArgs_canon p).
Proof. struct_reads GetConfigValueArgs_runs GetConfigValueArgs_wire. Qed.
#[local] Hint Resolve GetConfigValueArgs_writes GetConfigValueArgs_reads : wire.
Lemma GetConfigValueArgs_value p : value 1 STRUCT (GetConfigValueArgs_toks p).
Proof. struct_is_value GetConfigValueArgs_toks GetConfigValueArgs_wire. Qed.
#[local] Hint Resolve GetConfigValueArgs_value : wire_value.
Definition GetConfigValueArgs_codec : codec GetConfigValueArgs_Write (fun fuel => GetConfigValueArgs_Read fuel zero_GetConfigValueArgs).
Proof. codec_by (fun _ => True) GetConfigValueArgs_toks GetConfigValueArgs_canon GetConfigValueArgs_writes GetConfigValueArgs_value GetConfigValueArgs_reads. Defined.

Definition GetConfigValueResult_wire (p : wGetConfigValueResult) : list (list wfield) :=
  [opt_part (wGetConfigValueResult_Success p) (fun v => (0, STRING, [KString v]));
   opt_part (wGetConfigValueResult_O1 p) (fun v => (1, STRUCT, Exception_toks (Some v)))].
Definition GetConfigValueResult_toks (p : option wGetConfigValueResult) : list tok :=
  struct_toks (match p with Some p => concat (GetConfigValueResult_wire p) | None => [] end).
Definition GetConfigValueResult_canon (p : wGetConfigValueResult) : wGetConfigValueResult :=
  mk_wGetConfigValueResult (wGetConfigValueResult_Success p)
    (wGetConfigValueResult_O1 p).

Lemma GetConfigValueResult_writes strict d p : (2 <= d)%nat -> 
  writes strict d (GetConfigValueResult_Write p) (GetConfigValueResult_toks p).
Proof. enter_struct. unfold GetConfigValueResult_wire, GetConfigValueResult_writeField0, GetConfigValueResult_writeField1. write_fields. Qed.
Lemma GetConfigValueResult_runs d fuel p : (1 <= d)%nat -> (3 <= fuel)%nat -> 
  exists ids, runs d (GetConfigValueResult_switch fuel) (concat (GetConfigValueResult_wire p)) zero_GetConfigValueResult (GetConfigValueResult_canon p) ids.
Proof.
  intros Hd Hf. unfold GetConfigValueResult_wire. eexists.
  cbn [concat]. run_opt_same GetConfigValueResult_set_Success.
  run_opt_same GetConfigValueResult_set_O1.
  run_end.
Qed.
Lemma GetConfigValueResult_reads d fuel p : (2 <= d)%nat -> (3 <= fuel)%nat -> 
  reads d (GetConfigValueResult_Read fuel zero_GetConfigValueResult) (GetConfigValueResult_toks (Some p)) (GetConfigValueResult_canon p).
Proof. struct_reads GetConfigValueResult_runs GetConfigValueResult_wire. Qed.
#[local] Hint Resolve GetConfigValueResult_writes GetConfigValueResult_reads : wire.
Lemma GetConfigValueResult_value p : value 2 STRUCT (GetConfigValueResult_toks p).
Proof. struct_is_value GetConfigValueResult_toks GetConfigValueResult_wire. Qed.
#[local] Hint Resolve GetConfigValueResult_value : wire_value.
Definition GetConfigValueResult_codec : codec GetConfigValueResult_Write (fun fuel => GetConfigValueResult_Read fuel zero_GetConfigValueResult).
Proof. codec_by (fun _ => True) GetConfigValueResult_toks GetConfigValueResult_canon GetConfigValueResult_writes GetConfigValueResult_value GetConfigValueResult_reads. Defined.

(** ** set_ugi *)

Definition SetUgiArgs_wire (p : wSetUgiArgs) : list (list wfield) :=
  [[(1, STRING, [KString (wSetUgiArgs_UserName p)])];
   [(2, LIST, strings_toks (wSetUgiArgs_GroupNames p))]].
Definition SetUgiArgs_toks (p : option wSetUgiArgs) : list tok :=
  struct_toks (match p with Some p => concat (SetUgiArgs_wire p) | None => [] end).
Definition SetUgiArgs_canon (p : wSetUgiArgs) : wSetUgiArgs :=
  mk_wSetUgiArgs (wSetUgiArgs_UserName p)
    (own_strings (wSetUgiArgs_GroupNames p)).

Lemma SetUgiArgs_writes strict d p : (1 <= d)%nat -> 
  writes strict d (SetUgiArgs_Write p) (SetUgiArgs_toks p).
Proof. enter_struct. unfold SetUgiArgs_wire, SetUgiArgs_writeField1, SetUgiArgs_writeField2. write_fields. Qed.
Lemma SetUgiArgs_runs d fuel p : (0 <= d)%nat -> (3 <= fuel)%nat -> 
  exists ids, runs d SetUgiArgs_switch (concat (SetUgiArgs_wire p)) zero_SetUgiArgs (SetUgiArgs_canon p) ids.
Proof.
  intros Hd Hf. unfold SetUgiArgs_wire. eexists.
  cbn [concat]. run_one.
  run_one.
  run_end.
Qed.
Lemma SetUgiArgs_reads d fuel p : (1 <= d)%nat -> (3 <= fuel)%nat -> 
  reads d (SetUgiArgs_Read fuel zero_SetUgiArgs) (SetUgiArgs_toks (Some p)) (SetUgiArgs_canon p).
Proof. struct_reads SetUgiArgs_runs SetUgiArgs_wire. Qed.
#[local] Hint Resolve SetUgiArgs_writes SetUgiArgs_reads : wire.
Lemma SetUgiArgs_value p : value 2 STRUCT (SetUgiArgs_toks p).
Proof. struct_is_value SetUgiArgs_toks SetUgiArgs_wire. Qed.
#[local] Hint Resolve SetUgiArgs_value : wire_value.
Definition SetUgiArgs_codec : codec SetUgiArgs_Write (fun fuel => SetUgiArgs_Read fuel zero_SetUgiArgs).
Proof. codec_by (fun _ => True) SetUgiArgs_toks SetUgiArgs_canon SetUgiArgs_writes SetUgiArgs_value SetUgiArgs_reads. Defined.

Definition SetUgiResult_wire (p : wSetUgiResult) : list (list wfield) :=
  [when_part (bool_decide (is_Some (wSetUgiResult_Success p))) (0, LIST, strings_toks (wSetUgiResult_Success p));
   opt_part (wSetUgiResult_O1 p) (fun v => (1, STRUCT, Exception_toks (Some v)))].
Definition SetUgiResult_toks (p : option wSetUgiResult) : list tok :=
  struct_toks (match p with Some p => concat (SetUgiResult_wire p) | None => [] end).
Definition SetUgiResult_canon (p : wSetUgiResult) : wSetUgiResult :=
  mk_wSetUgiResult (wSetUgiResult_Success p)
    (wSetUgiResult_O1 p).

Lemma SetUgiResult_writes strict d p : (2 <= d)%nat -> 
  writes strict d (SetUgiResult_Write p) (SetUgiResult_toks p).
Proof. enter_struct. unfold SetUgiResult_wire, SetUgiResult_writeField0, SetUgiResult_writeField1. write_fields. Qed.
Lemma SetUgiResult_runs d fuel p : (1 <= d)%nat -> (3 <= fuel)%nat -> 
  exists ids, runs d (SetUgiResult_switch fuel) (concat (SetUgiResult_wire p)) zero_SetUgiResult (SetUgiResult_canon p) ids.
Proof.
  intros Hd Hf. unfold SetUgiResult_wire. eexists.
  cbn [concat]. run_slice_same SetUgiResult_set_Success.
  run_opt_same SetUgiResult_set_O1.
  run_end.
Qed.
Lemma SetUgiResult_reads d fuel p : (2 <= d)%nat -> (3 <= fuel)%nat -> 
  reads d (SetUgiResult_Read fuel zero_SetUgiResult) (SetUgiResult_toks (Some p)) (SetUgiResult_canon p).
Proof. struct_reads SetUgiResult_runs SetUgiResult_wire. Qed.
#[local] Hint Resolve SetUgiResult_writes SetUgiResult_reads : wire.
Lemma SetUgiResult_value p : value 2 STRUCT (SetUgiResult_toks p).
Proof. struct_is_value SetUgiResult_toks SetUgiResult_wire. Qed.
#[local] Hint Resolve SetUgiResult_value : wire_value.
Definition SetUgiResult_codec : codec SetUgiResult_Write (fun fuel => SetUgiResult_Read fuel zero_SetUgiResult).
Proof. codec_by (fun _ => True) SetUgiResult_toks SetUgiResult_canon SetUgiResult_writes SetUgiResult_value SetUgiResult_reads. Defined.

(** ** getStatus *)

Definition GetStatusArgs_wire (p : wGetStatusArgs) : list (list wfield) :=
  [].
Definition GetStatusArgs_toks (p : option wGetStatusArgs) : list tok :=
  struct_toks (match p with Some p => concat (GetStatusArgs_wire p) | None => [] end).
Definition GetStatusArgs_canon (_ : wGetStatusArgs) : wGetStatusArgs := mk_wGetStatusArgs.

Lemma GetStatusArgs_writes strict d p : (1 <= d)%nat -> 
  writes strict d (GetStatusArgs_Write p) (GetStatusArgs_toks p).
Proof. enter_struct. unfold GetStatusArgs_wire. write_fields. Qed.
Lemma GetStatusArgs_runs d fuel p : (0 <= d)%nat -> (1 <= fuel)%nat -> 
  exists ids, runs d GetStatusArgs_switch (concat (GetStatusArgs_wire p)) zero_GetStatusArgs (GetStatusArgs_canon p) ids.
Proof.
  intros Hd Hf. exists []. destruct p. constructor.
Qed.
Lemma GetStatusArgs_reads d fuel p : (1 <= d)%nat -> (1 <= fuel)%nat -> 
  reads d (GetStatusArgs_Read fuel zero_GetStatusArgs) (GetStatusArgs_toks (Some p)) (GetStatusArgs_canon p).
Proof. struct_reads GetStatusArgs_runs GetStatusArgs_wire. Qed.
#[local] Hint Resolve GetStatusArgs_writes GetStatusArgs_reads : wire.
Lemma GetStatusArgs_value p : value 1 STRUCT (GetStatusArgs_toks p).
Proof. struct_is_value GetStatusArgs_toks GetStatusArgs_wire. Qed.
#[local] Hint Resolve GetStatusArgs_value : wire_value.
Definition GetStatusArgs_codec : codec GetStatusArgs_Write (fun fuel => GetStatusArgs_Read fuel zero_GetStatusArgs).
Proof. codec_by (fun _ => True) GetStatusArgs_toks GetStatusArgs_canon GetStatusArgs_writes GetStatusArgs_value GetStatusArgs_reads. Defined.

Definition GetStatusResult_wire (p : wGetStatusResult) : list (list wfield) :=
  [opt_part (wGetStatusResult_Success p) (fun v => (0, I32, [KI32 (int32 v)]))].
Definition GetStatusResult_toks (p : option wGetStatusResult) : list tok :=
  struct_toks (match p with Some p => concat (GetStatusResult_wire p) | None => [] end).
Definition GetStatusResult_canon (p : wGetStatusResult) : wGetStatusResult :=
  mk_wGetStatusResult (int32 <$> wGetStatusResult_Success p).

Lemma GetStatusResult_writes strict d p : (1 <= d)%nat -> 
  writes strict d (GetStatusResult_Write p) (GetStatusResult_toks p).
Proof. enter_struct. unfold GetStatusResult_wire, GetStatusResult_writeField0. write_fields. Qed.
Lemma GetStatusResult_runs d fuel p : (0 <= d)%nat -> (2 <= fuel)%nat -> 
  exists ids, runs d GetStatusResult_switch (concat (GetStatusResult_wire p)) zero_GetStatusResult (GetStatusResult_canon p) ids.
Proof.
  intros Hd Hf. unfold GetStatusResult_wire. eexists.
  cbn [concat]. run_opt GetStatusResult_set_Success int32.
  run_end.
Qed.
Lemma GetStatusResult_reads d fuel p : (1 <= d)%nat -> (2 <= fuel)%nat -> 
  reads d (GetStatusResult_Read fuel zero_GetStatusResult) (GetStatusResult_toks (Some p)) (GetStatusResult_canon p).
Proof. struct_reads GetStatusResult_runs GetStatusResult_wire. Qed.
#[local] Hint Resolve GetStatusResult_writes GetStatusResult_reads : wire.
Lemma GetStatusResult_value p : value 1 STRUCT (GetStatusResult_toks p).
Proof. struct_is_value GetStatusResult_toks GetStatusResult_wire. Qed.
#[local] Hint Resolve GetStatusResult_value : wire_value.
Definition GetStatusResult_codec : codec GetStatusResult_Write (fun fuel => GetStatusResult_Read fuel zero_GetStatusResult).
Proof. codec_by (fun _ => True) GetStatusResult_toks GetStatusResult_canon GetStatusResult_writes GetStatusResult_value GetStatusResult_reads. Defined.

(** ** getVersion *)

Definition GetVersionArgs_wire (p : wGetVersionArgs) : list (list wfield) :=
  [].
Definition GetVersionArgs_toks (p : option wGetVersionArgs) : list tok :=
  struct_toks (match p with Some p => concat (GetVersionArgs_wire p) | None => [] end).
Definition GetVersionArgs_canon (_ : wGetVersionArgs) : wGetVersionArgs := mk_wGetVersionArgs.

Lemma GetVersionArgs_writes strict d p : (1 <= d)%nat -> 
  writes strict d (GetVersionArgs_Write p) (GetVersionArgs_toks p).
Proof. enter_struct. unfold GetVersionArgs_wire. write_fields. Qed.
Lemma GetVersionArgs_runs d fuel p : (0 <= d)%nat -> (1 <= fuel)%nat -> 
  exists ids, runs d GetVersionArgs_switch (concat (GetVersionArgs_wire p)) zero_GetVersionArgs (GetVersionArgs_canon p) ids.
Proof.
  intros Hd Hf. exists []. destruct p. constructor.
Qed.
Lemma GetVersionArgs_reads d fuel p : (1 <= d)%nat -> (1 <= fuel)%nat -> 
  reads d (GetVersionArgs_Read fuel zero_GetVersionArgs) (GetVersionArgs_toks (Some p)) (GetVersionArgs_canon p).
Proof. struct_reads GetVersionArgs_runs GetVersionArgs_wire. Qed.
#[local] Hint Resolve GetVersionArgs_writes GetVersionArgs_reads : wire.
Lemma GetVersionArgs_value p : value 1 STRUCT (GetVersionArgs_toks p).
Proof. struct_is_value GetVersionArgs_toks GetVersionArgs_wire. Qed.
#[local] Hint Resolve GetVersionArgs_value : wire_value.
Definition GetVersionArgs_codec : codec GetVersionArgs_Write (fun fuel => GetVersionArgs_Read fuel zero_GetVersionArgs).
Proof. codec_by (fun _ => True) GetVersionArgs_toks GetVersionArgs_canon GetVersionArgs_writes GetVersionArgs_value GetVersionArgs_reads. Defined.

Definition GetVersionResult_wire (p : wGetVersionResult) : list (list wfield) :=
  [opt_part (wGetVersionResult_Success p) (fun v => (0, STRING, [KString v]))].
Definition GetVersionResult_toks (p : option wGetVersionResult) : list tok :=
  struct_toks (match p with Some p => concat (GetVersionResult_wire p) | None => [] end).
Definition GetVersionResult_canon (p : wGetVersionResult) : wGetVersionResult :=
  mk_wGetVersionResult (wGetVersionResult_Success p).

Lemma GetVersionResult_writes strict d p : (1 <= d)%nat -> 
  writes strict d (GetVersionResult_Write p) (GetVersionResult_toks p).
Proof. enter_struct. unfold GetVersionResult_wire, GetVersionResult_writeField0. write_fields. Qed.
Lemma GetVersionResult_runs d fuel p : (0 <= d)%nat -> (2 <= fuel)%nat -> 
  exists ids, runs d GetVersionResult_switch (concat (GetVersionResult_wire p)) zero_GetVersionResult (GetVersionResult_canon p) ids.
Proof.
  intros Hd Hf. unfold GetVersionResult_wire. eexists.
  cbn [concat]. run_opt_same GetVersionResult_set_Success.
  run_end.
Qed.
Lemma GetVersionResult_reads d fuel p : (1 <= d)%nat -> (2 <= fuel)%nat -> 
  reads d (GetVersionResult_Read fuel zero_GetVersionResult) (GetVersionResult_toks (Some p)) (GetVersionResult_canon p).
Proof. struct_reads GetVersionResult_runs GetVersionResult_wire. Qed.
#[local] Hint Resolve GetVersionResult_writes GetVersionResult_reads : wire.
Lemma GetVersionResult_value p : value 1 STRUCT (GetVersionResult_toks p).
Proof. struct_is_value GetVersionResult_toks GetVersionResult_wire. Qed.
#[local] Hint Resolve GetVersionResult_value : wire_value.
Definition GetVersionResult_codec : codec GetVersionResult_Write (fun fuel => GetVersionResult_Read fuel zero_GetVersionResult).
Proof. codec_by (fun _ => True) GetVersionResult_toks GetVersionResult_canon GetVersionResult_writes GetVersionResult_value GetVersionResult_reads. Defined.

End facts.

(** ** The calls *)

Section calls.
Context {P W : Type} {TP : TProtocol P} {TL : TProtocolLaws P} {MR : MapRange} {SB : Substructs P} {SL : SubstructLaws P}.
Context {TS : TStandardClient P} {PL : TProcessorLib P} {RL : TRpcLaws P}.
Context (cause : option goerr) (handler : Handler.ThriftHiveMetastore W) (pm : processor_map P W) (fuel : nat).
Context (Hfuel : (msg_fuel <= fuel)%nat).

Lemma GetCatalogs_delivers n :
  GetProcessorFunction pm "get_catalogs" = Some (Processor.GetCatalogs cause handler fuel) ->
  sendable GetCatalogsArgs_codec (mk_wGetCatalogsArgs) ->
  delivers n (Stub.GetCatalogs (TC := link_client (Process pm)) fuel) (Handler.GetCatalogs handler)
    (replies cause GetCatalogsResult_codec (type_switch Processor.GetCatalogs_declared) Processor.GetCatalogs_answer "get_catalogs")
    (outcome "get_catalogs" [MetaException] (fun v => success "get_catalogs" (GetCatalogsResponse_canon <$> v))).
Proof. call_method GetCatalogsArgs_codec GetCatalogsResult_codec. Qed.
Lemma GetCatalog_delivers n catName :
  GetProcessorFunction pm "get_catalog" = Some (Processor.GetCatalog cause handler fuel) ->
  sendable GetCatalogArgs_codec (mk_wGetCatalogArgs catName) ->
  delivers n (Stub.GetCatalog (TC := link_client (Process pm)) fuel catName) (Handler.GetCatalog handler (GetCatalogRequest_canon <$> catName))
    (replies cause GetCatalogResult_codec (type_switch Processor.GetCatalog_declared) Processor.GetCatalog_answer "get_catalog")
    (outcome "get_catalog" [NoSuchObjectException; MetaException] (fun v => success "get_catalog" (GetCatalogResponse_canon <$> v))).
Proof. call_method GetCatalogArgs_codec GetCatalogResult_codec. Qed.
Lemma CreateCatalog_delivers n catalog :
  GetProcessorFunction pm "create_catalog" = Some (Processor.CreateCatalog cause handler fuel) ->
  sendable CreateCatalogArgs_codec (mk_wCreateCatalogArgs catalog) ->
  delivers n (Stub.CreateCatalog (TC := link_client (Process pm)) fuel catalog) (Handler.CreateCatalog handler (CreateCatalogRequest_canon <$> catalog))
    (replies cause CreateCatalogResult_codec (type_switch Processor.CreateCatalog_declared) Processor.CreateCatalog_answer "create_catalog")
    (outcome "create_catalog" [AlreadyExistsException; InvalidObjectException; MetaException] (fun _ => inr tt)).
Proof. call_method CreateCatalogArgs_codec CreateCatalogResult_codec. Qed.
Lemma DropCatalog_delivers n catName :
  GetProcessorFunction pm "drop_catalog" = Some (Processor.DropCatalog cause handler fuel) ->
  sendable DropCatalogArgs_codec (mk_wDropCatalogArgs catName) ->
  delivers n (Stub.DropCatalog (TC := link_client (Process pm)) fuel catName) (Handler.DropCatalog handler (DropCatalogRequest_canon <$> catName))
    (replies cause DropCatalogResult_codec (type_switch Processor.DropCatalog_declared) Processor.DropCatalog_answer "drop_catalog")
    (outcome "drop_catalog" [NoSuchObjectException; InvalidOperationException; MetaException] (fun _ => inr tt)).
Proof. call_method DropCatalogArgs_codec DropCatalogResult_codec. Qed.
Lemma GetAllDatabases_delivers n :
  GetProcessorFunction pm "get_all_databases" = Some (Processor.GetAllDatabases cause handler fuel) ->
  sendable GetAllDatabasesArgs_codec (mk_wGetAllDatabasesArgs) ->
  delivers n (Stub.GetAllDatabases (TC := link_client (Process pm)) fuel) (Handler.GetAllDatabases handler)
    (replies cause GetAllDatabasesResult_codec (type_switch Processor.GetAllDatabases_declared) Processor.GetAllDatabases_answer "get_all_databases")
    (outcome "get_all_databases" [MetaException] (inr)).
Proof. call_method GetAllDatabasesArgs_codec GetAllDatabasesResult_codec. Qed.
Lemma GetDatabases_delivers n pattern :
  GetProcessorFunction pm "get_databases" = Some (Processor.GetDatabases cause handler fuel) ->
  sendable GetDatabasesArgs_codec (mk_wGetDatabasesArgs pattern) ->
  delivers n (Stub.GetDatabases (TC := link_client (Process pm)) fuel pattern) (Handler.GetDatabases handler pattern)
    (replies cause GetDatabasesResult_codec (type_switch Processor.GetDatabases_declared) Processor.GetDatabases_answer "get_databases")
    (outcome "get_databases" [MetaException] (inr)).
Proof. call_method GetDatabasesArgs_codec GetDatabasesResult_codec. Qed.
Lemma GetDatabase_delivers n name :
  GetProcessorFunction pm "get_database" = Some (Processor.GetDatabase cause handler fuel) ->
  sendable GetDatabaseArgs_codec (mk_wGetDatabaseArgs name) ->
  delivers n (Stub.GetDatabase (TC := link_client (Process pm)) fuel name) (Handler.GetDatabase handler name)
    (replies cause GetDatabaseResult_codec (type_switch Processor.GetDatabase_declared) Processor.GetDatabase_answer "get_database")
    (outcome "get_database" [NoSuchObjectException; MetaException] (fun v => success "get_database" (Database_canon <$> v))).
Proof. call_method GetDatabaseArgs_codec GetDatabaseResult_codec. Qed.
Lemma CreateDatabase_delivers n database :
  GetProcessorFunction pm "create_database" = Some (Processor.CreateDatabase cause handler fuel) ->
  sendable CreateDatabaseArgs_codec (mk_wCreateDatabaseArgs database) ->
  delivers n (Stub.CreateDatabase (TC := link_client (Process pm)) fuel database) (Handler.CreateDatabase handler (Database_canon <$> database))
    (replies cause CreateDatabaseResult_codec (type_switch Processor.CreateDatabase_declared) Processor.CreateDatabase_answer "create_database")
    (outcome "create_database" [AlreadyExistsException; InvalidObjectException; MetaException] (fun _ => inr tt)).
Proof. call_method CreateDatabaseArgs_codec CreateDatabaseResult_codec. Qed.
Lemma DropDatabase_delivers n name deleteData cascade :
  GetProcessorFunction pm "drop_database" = Some (Processor.DropDatabase cause handler fuel) ->
  sendable DropDatabaseArgs_codec (mk_wDropDatabaseArgs name deleteData cascade) ->
  delivers n (Stub.DropDatabase (TC := link_client (Process pm)) fuel name deleteData cascade) (Handler.DropDatabase handler name deleteData cascade)
    (replies cause DropDatabaseResult_codec (type_switch Processor.DropDatabase_declared) Processor.DropDatabase_answer "drop_database")
    (outcome "drop_database" [NoSuchObjectException; InvalidOperationException; MetaException] (fun _ => inr tt)).
Proof. call_method DropDatabaseArgs_codec DropDatabaseResult_codec. Qed.
Lemma AlterDatabase_delivers n dbname db :
  GetProcessorFunction pm "alter_database" = Some (Processor.AlterDatabase cause handler fuel) ->
  sendable AlterDatabaseArgs_codec (mk_wAlterDatabaseArgs dbname db) ->
  delivers n (Stub.AlterDatabase (TC := link_client (Process pm)) fuel dbname db) (Handler.AlterDatabase handler dbname (Database_canon <$> db))
    (replies cause AlterDatabaseResult_codec (type_switch Processor.AlterDatabase_declared) Processor.AlterDatabase_answer "alter_database")
    (outcome "alter_database" [MetaException; NoSuchObjectException] (fun _ => inr tt)).
Proof. call_method AlterDatabaseArgs_codec AlterDatabaseResult_codec. Qed.
Lemma GetConfigValue_delivers n name defaultValue :
  GetProcessorFunction pm "get_config_value" = Some (Processor.GetConfigValue cause handler fuel) ->
  sendable GetConfigValueArgs_codec (mk_wGetConfigValueArgs name defaultValue) ->
  delivers n (Stub.GetConfigValue (TC := link_client (Process pm)) fuel name defaultValue) (Handler.GetConfigValue handler name defaultValue)
    (replies cause GetConfigValueResult_codec (type_switch Processor.GetConfigValue_declared) Processor.GetConfigValue_answer "get_config_value")
    (outcome "get_config_value" [ConfigValSecurityException] (inr)).
Proof. call_method GetConfigValueArgs_codec GetConfigValueResult_codec. Qed.
Lemma SetUgi_delivers n user_name group_names :
  GetProcessorFunction pm "set_ugi" = Some (Processor.SetUgi cause handler fuel) ->
  sendable SetUgiArgs_codec (mk_wSetUgiArgs user_name group_names) ->
  delivers n (Stub.SetUgi (TC := link_client (Process pm)) fuel user_name group_names) (Handler.SetUgi handler user_name (own_strings (group_names)))
    (replies cause SetUgiResult_codec (type_switch Processor.SetUgi_declared) Processor.SetUgi_answer "set_ugi")
    (outcome "set_ugi" [MetaException] (inr)).
Proof. call_method SetUgiArgs_codec SetUgiResult_codec. Qed.
Lemma GetStatus_delivers n :
  GetProcessorFunction pm "getStatus" = Some (Processor.GetStatus cause handler fuel) ->
  sendable GetStatusArgs_codec (mk_wGetStatusArgs) ->
  delivers n (Stub.GetStatus (TC := link_client (Process pm)) fuel) (Handler.GetStatus handler)
    (replies cause GetStatusResult_codec (type_switch Processor.GetStatus_declared) Processor.GetStatus_answer "getStatus")
    (outcome "getStatus" [] (fun v => inr (int32 v))).
Proof. call_method GetStatusArgs_codec GetStatusResult_codec. Qed.
Lemma GetVersion_delivers n :
  GetProcessorFunction pm "getVersion" = Some (Processor.GetVersion cause handler fuel) ->
  sendable GetVersionArgs_codec (mk_wGetVersionArgs) ->
  delivers n (Stub.GetVersion (TC := link_client (Process pm)) fuel) (Handler.GetVersion handler)
    (replies cause GetVersionResult_codec (type_switch Processor.GetVersion_declared) Processor.GetVersion_answer "getVersion")
    (outcome "getVersion" [] (inr)).
Proof. call_method GetVersionArgs_codec GetVersionResult_codec. Qed.
End calls.
