(* ===== verification/RpcTableFacts.v ===== *)
(** * RpcTableFacts: the calls of RpcTable, from stub to handler and back *)

From S2P Require Import Prelude Errors GoMonad Types Transport Wire Thrift ThriftFacts CodecTable CodecTableFacts CodecStats CodecStatsFacts CodecReq CodecReqFacts CodecValues Rpc RpcFacts RpcHandler RpcTable.

Section facts.
Context {P : Type} {TP : TProtocol P} {TL : TProtocolLaws P} {MR : MapRange} {SB : Substructs P} {SL : SubstructLaws P}.

(** ** get_all_tables *)

Definition GetAllTablesArgs_wire (p : wGetAllTablesArgs) : list (list wfield) :=
  [[(1, STRING, [KString (wGetAllTablesArgs_DbName p)])]].
Definition GetAllTablesArgs_toks (p : option wGetAllTablesArgs) : list tok :=
  struct_toks (match p with Some p => concat (GetAllTablesArgs_wire p) | None => [] end).
Definition GetAllTablesArgs_canon (p : wGetAllTablesArgs) : wGetAllTablesArgs :=
  mk_wGetAllTablesArgs (wGetAllTablesArgs_DbName p).

Lemma GetAllTablesArgs_writes strict d p : (1 <= d)%nat -> 
  writes strict d (GetAllTablesArgs_Write p) (GetAllTablesArgs_toks p).
Proof. enter_struct. unfold GetAllTablesArgs_wire, GetAllTablesArgs_writeField1. write_fields. Qed.
Lemma GetAllTablesArgs_runs d fuel p : (0 <= d)%nat -> (2 <= fuel)%nat -> 
  exists ids, runs d GetAllTablesArgs_switch (concat (GetAllTablesArgs_wire p)) zero_GetAllTablesArgs (GetAllTablesArgs_canon p) ids.
Proof.
  intros Hd Hf. unfold GetAllTablesArgs_wire. eexists.
  cbn [concat]. run_one.
  run_end.
Qed.
Lemma GetAllTablesArgs_reads d fuel p : (1 <= d)%nat -> (2 <= fuel)%nat -> 
  reads d (GetAllTablesArgs_Read fuel zero_GetAllTablesArgs) (GetAllTablesArgs_toks (Some p)) (GetAllTablesArgs_canon p).
Proof. struct_reads GetAllTablesArgs_runs GetAllTablesArgs_wire. Qed.
#[local] Hint Resolve GetAllTablesArgs_writes GetAllTablesArgs_reads : wire.
Lemma GetAllTablesArgs_value p : value 1 STRUCT (GetAllTablesArgs_toks p).
Proof. struct_is_value GetAllTablesArgs_toks GetAllTablesArgs_wire. Qed.
#[local] Hint Resolve GetAllTablesArgs_value : wire_value.
Definition GetAllTablesArgs_codec : codec GetAllTablesArgs_Write (fun fuel => GetAllTablesArgs_Read fuel zero_GetAllTablesArgs).
Proof. codec_by (fun _ => True) GetAllTablesArgs_toks GetAllTablesArgs_canon GetAllTablesArgs_writes GetAllTablesArgs_value GetAllTablesArgs_reads. Defined.

Definition GetAllTablesResult_wire (p : wGetAllTablesResult) : list (list wfield) :=
  [when_part (bool_decide (is_Some (wGetAllTablesResult_Success p))) (0, LIST, strings_toks (wGetAllTablesResult_Success p));
   opt_part (wGetAllTablesResult_O1 p) (fun v => (1, STRUCT, Exception_toks (Some v)))].
Definition GetAllTablesResult_toks (p : option wGetAllTablesResult) : list tok :=
  struct_toks (match p with Some p => concat (GetAllTablesResult_wire p) | None => [] end).
Definition GetAllTablesResult_canon (p : wGetAllTablesResult) : wGetAllTablesResult :=
  mk_wGetAllTablesResult (wGetAllTablesResult_Success p)
    (wGetAllTablesResult_O1 p).

Lemma GetAllTablesResult_writes strict d p : (2 <= d)%nat -> 
  writes strict d (GetAllTablesResult_Write p) (GetAllTablesResult_toks p).
Proof. enter_struct. unfold GetAllTablesResult_wire, GetAllTablesResult_writeField0, GetAllTablesResult_writeField1. write_fields. Qed.
Lemma GetAllTablesResult_runs d fuel p : (1 <= d)%nat -> (3 <= fuel)%nat -> 
  exists ids, runs d (GetAllTablesResult_switch fuel) (concat (GetAllTablesResult_wire p)) zero_GetAllTablesResult (GetAllTablesResult_canon p) ids.
Proof.
  intros Hd Hf. unfold GetAllTablesResult_wire. eexists.
  cbn [concat]. run_slice_same GetAllTablesResult_set_Success.
  run_opt_same GetAllTablesResult_set_O1.
  run_end.
Qed.
Lemma GetAllTablesResult_reads d fuel p : (2 <= d)%nat -> (3 <= fuel)%nat -> 
  reads d (GetAllTablesResult_Read fuel zero_GetAllTablesResult) (GetAllTablesResult_toks (Some p)) (GetAllTablesResult_canon p).
Proof. struct_reads GetAllTablesResult_runs GetAllTablesResult_wire. Qed.
#[local] Hint Resolve GetAllTablesResult_writes GetAllTablesResult_reads : wire.
Lemma GetAllTablesResult_value p : value 2 STRUCT (GetAllTablesResult_toks p).
Proof. struct_is_value GetAllTablesResult_toks GetAllTablesResult_wire. Qed.
#[local] Hint Resolve GetAllTablesResult_value : wire_value.
Definition GetAllTablesResult_codec : codec GetAllTablesResult_Write (fun fuel => GetAllTablesResult_Read fuel zero_GetAllTablesResult).
Proof. codec_by (fun _ => True) GetAllTablesResult_toks GetAllTablesResult_canon GetAllTablesResult_writes GetAllTablesResult_value GetAllTablesResult_reads. Defined.

(** ** get_table_req *)

Definition GetTableReqArgs_wire (p : wGetTableReqArgs) : list (list wfield) :=
  [opt_part (wGetTableReqArgs_Req p) (fun v => (1, STRUCT, GetTableRequest_toks (Some v)))].
Definition GetTableReqArgs_toks (p : option wGetTableReqArgs) : list tok :=
  struct_toks (match p with Some p => concat (GetTableReqArgs_wire p) | None => [] end).
Definition GetTableReqArgs_canon (p : wGetTableReqArgs) : wGetTableReqArgs :=
  mk_wGetTableReqArgs (GetTableRequest_canon <$> wGetTableReqArgs_Req p).

Lemma GetTableReqArgs_writes strict d p : (2 <= d)%nat -> (2 + sub_depth <= d)%nat -> 
  writes strict d (GetTableReqArgs_Write p) (GetTableReqArgs_toks p).
Proof. enter_struct. unfold GetTableReqArgs_wire, GetTableReqArgs_writeField1. write_fields. Qed.
Lemma GetTableReqArgs_runs d fuel p : (1 <= d)%nat -> (S sub_depth <= d)%nat -> (11 <= fuel)%nat -> (sub_fuel <= fuel)%nat -> 
  exists ids, runs d (GetTableReqArgs_switch fuel) (concat (GetTableReqArgs_wire p)) zero_GetTableReqArgs (GetTableReqArgs_canon p) ids.
Proof.
  intros Hd Hsub Hf Hsf. unfold GetTableReqArgs_wire. eexists.
  cbn [concat]. run_opt GetTableReqArgs_set_Req GetTableRequest_canon.
  run_end.
Qed.
Lemma GetTableReqArgs_reads d fuel p : (2 <= d)%nat -> (2 + sub_depth <= d)%nat -> (11 <= fuel)%nat -> (sub_fuel <= fuel)%nat -> 
  reads d (GetTableReqArgs_Read fuel zero_GetTableReqArgs) (GetTableReqArgs_toks (Some p)) (GetTableReqArgs_canon p).
Proof. struct_reads GetTableReqArgs_runs GetTableReqArgs_wire. Qed.
#[local] Hint Resolve GetTableReqArgs_writes GetTableReqArgs_reads : wire.
Lemma GetTableReqArgs_value p : value (3 + sub_nest) STRUCT (GetTableReqArgs_toks p).
Proof. struct_is_value GetTableReqArgs_toks GetTableReqArgs_wire. Qed.
#[local] Hint Resolve GetTableReqArgs_value : wire_value.
Definition GetTableReqArgs_codec : codec GetTableReqArgs_Write (fun fuel => GetTableReqArgs_Read fuel zero_GetTableReqArgs).
Proof. codec_by (fun _ => True) GetTableReqArgs_toks GetTableReqArgs_canon GetTableReqArgs_writes GetTableReqArgs_value GetTableReqArgs_reads. Defined.

Definition GetTableReqResult_wire (p : wGetTableReqResult) : list (list wfield) :=
  [opt_part (wGetTableReqResult_Success p) (fun v => (0, STRUCT, GetTableResult__toks (Some v)));
   opt_part (wGetTableReqResult_O1 p) (fun v => (1, STRUCT, Exception_toks (Some v)));
   opt_part (wGetTableReqResult_O2 p) (fun v => (2, STRUCT, Exception_toks (Some v)))].
Definition GetTableReqResult_toks (p : option wGetTableReqResult) : list tok :=
  struct_toks (match p with Some p => concat (GetTableReqResult_wire p) | None => [] end).
Definition GetTableReqResult_canon (p : wGetTableReqResult) : wGetTableReqResult :=
  mk_wGetTableReqResult (GetTableResult__canon <$> wGetTableReqResult_Success p)
    (wGetTableReqResult_O1 p)
    (wGetTableReqResult_O2 p).
Definition GetTableReqResult_ok (p : wGetTableReqResult) : Prop :=
  forall v, wGetTableReqResult_Success p = Some v -> GetTableResult__ok v.

Lemma GetTableReqResult_writes strict d p : (5 <= d)%nat -> (3 + sub_depth <= d)%nat -> (strict -> forall p0, p = Some p0 -> GetTableReqResult_ok p0) -> 
  writes strict d (GetTableReqResult_Write p) (GetTableReqResult_toks p).
Proof. enter_valid GetTableReqResult_ok. unfold GetTableReqResult_wire, GetTableReqResult_writeField0, GetTableReqResult_writeField1, GetTableReqResult_writeField2. write_fields. Qed.
Lemma GetTableReqResult_runs d fuel p : (4 <= d)%nat -> (2 + sub_depth <= d)%nat -> (29 <= fuel)%nat -> (sub_fuel <= fuel)%nat -> 
  exists ids, runs d (GetTableReqResult_switch fuel) (concat (GetTableReqResult_wire p)) zero_GetTableReqResult (GetTableReqResult_canon p) ids.
Proof.
  intros Hd Hsub Hf Hsf. unfold GetTableReqResult_wire. eexists.
  cbn [concat]. run_opt GetTableReqResult_set_Success GetTableResult__canon.
  run_opt_same GetTableReqResult_set_O1.
  run_opt_same GetTableReqResult_set_O2.
  run_end.
Qed.
Lemma GetTableReqResult_reads d fuel p : (5 <= d)%nat -> (3 + sub_depth <= d)%nat -> (29 <= fuel)%nat -> (sub_fuel <= fuel)%nat -> 
  reads d (GetTableReqResult_Read fuel zero_GetTableReqResult) (GetTableReqResult_toks (Some p)) (GetTableReqResult_canon p).
Proof. struct_reads GetTableReqResult_runs GetTableReqResult_wire. Qed.
#[local] Hint Resolve GetTableReqResult_writes GetTableReqResult_reads : wire.
Lemma GetTableReqResult_value p : value (7 + sub_nest) STRUCT (GetTableReqResult_toks p).
Proof. struct_is_value GetTableReqResult_toks GetTableReqResult_wire. Qed.
#[local] Hint Resolve GetTableReqResult_value : wire_value.
Definition GetTableReqResult_codec : codec GetTableReqResult_Write (fun fuel => GetTableReqResult_Read fuel zero_GetTableReqResult).
Proof. codec_by (fun p => GetTableReqResult_ok p) GetTableReqResult_toks GetTableReqResult_canon GetTableReqResult_writes GetTableReqResult_value GetTableReqResult_reads. Defined.

(** ** get_table_objects_by_name_req *)

Definition GetTableObjectsByNameReqArgs_wire (p : wGetTableObjectsByNameReqArgs) : list (list wfield) :=
  [opt_part (wGetTableObjectsByNameReqArgs_Req p) (fun v => (1, STRUCT, GetTablesRequest_toks (Some v)))].
Definition GetTableObjectsByNameReqArgs_toks (p : option wGetTableObjectsByNameReqArgs) : list tok :=
  struct_toks (match p with Some p => concat (GetTableObjectsByNameReqArgs_wire p) | None => [] end).
Definition GetTableObjectsByNameReqArgs_canon (p : wGetTableObjectsByNameReqArgs) : wGetTableObjectsByNameReqArgs :=
  mk_wGetTableObjectsByNameReqArgs (GetTablesRequest_canon <$> wGetTableObjectsByNameReqArgs_Req p).

Lemma GetTableObjectsByNameReqArgs_writes strict d p : (2 <= d)%nat -> (2 + sub_depth <= d)%nat -> 
  writes strict d (GetTableObjectsByNameReqArgs_Write p) (GetTableObjectsByNameReqArgs_toks p).
Proof. enter_struct. unfold GetTableObjectsByNameReqArgs_wire, GetTableObjectsByNameReqArgs_writeField1. write_fields. Qed.
Lemma GetTableObjectsByNameReqArgs_runs d fuel p : (1 <= d)%nat -> (S sub_depth <= d)%nat -> (9 <= fuel)%nat -> (sub_fuel <= fuel)%nat -> 
  exists ids, runs d (GetTableObjectsByNameReqArgs_switch fuel) (concat (GetTableObjectsByNameReqArgs_wire p)) zero_GetTableObjectsByNameReqArgs (GetTableObjectsByNameReqArgs_canon p) ids.
Proof.
  intros Hd Hsub Hf Hsf. unfold GetTableObjectsByNameReqArgs_wire. eexists.
  cbn [concat]. run_opt GetTableObjectsByNameReqArgs_set_Req GetTablesRequest_canon.
  run_end.
Qed.
Lemma GetTableObjectsByNameReqArgs_reads d fuel p : (2 <= d)%nat -> (2 + sub_depth <= d)%nat -> (9 <= fuel)%nat -> (sub_fuel <= fuel)%nat -> 
  reads d (GetTableObjectsByNameReqArgs_Read fuel zero_GetTableObjectsByNameReqArgs) (GetTableObjectsByNameReqArgs_toks (Some p)) (GetTableObjectsByNameReqArgs_canon p).
Proof. struct_reads GetTableObjectsByNameReqArgs_runs GetTableObjectsByNameReqArgs_wire. Qed.
#[local] Hint Resolve GetTableObjectsByNameReqArgs_writes GetTableObjectsByNameReqArgs_reads : wire.
Lemma GetTableObjectsByNameReqArgs_value p : value (3 + sub_nest) STRUCT (GetTableObjectsByNameReqArgs_toks p).
Proof. struct_is_value GetTableObjectsByNameReqArgs_toks GetTableObjectsByNameReqArgs_wire. Qed.
#[local] Hint Resolve GetTableObjectsByNameReqArgs_value : wire_value.
Definition GetTableObjectsByNameReqArgs_codec : codec GetTableObjectsByNameReqArgs_Write (fun fuel => GetTableObjectsByNameReqArgs_Read fuel zero_GetTableObjectsByNameReqArgs).
Proof. codec_by (fun _ => True) GetTableObjectsByNameReqArgs_toks GetTableObjectsByNameReqArgs_canon GetTableObjectsByNameReqArgs_writes GetTableObjectsByNameReqArgs_value GetTableObjectsByNameReqArgs_reads. Defined.

Definition GetTableObjectsByNameReqResult_wire (p : wGetTableObjectsByNameReqResult) : list (list wfield) :=
  [opt_part (wGetTableObjectsByNameReqResult_Success p) (fun v => (0, STRUCT, GetTablesResult__toks (Some v)));
   opt_part (wGetTableObjectsByNameReqResult_O1 p) (fun v => (1, STRUCT, Exception_toks (Some v)));
   opt_part (wGetTableObjectsByNameReqResult_O2 p) (fun v => (2, STRUCT, Exception_toks (Some v)));
   opt_part (wGetTableObjectsByNameReqResult_O3 p) (fun v => (3, STRUCT, Exception_toks (Some v)))].
Definition GetTableObjectsByNameReqResult_toks (p : option wGetTableObjectsByNameReqResult) : list tok :=
  struct_toks (match p with Some p => concat (GetTableObjectsByNameReqResult_wire p) | None => [] end).
Definition GetTableObjectsByNameReqResult_canon (p : wGetTableObjectsByNameReqResult) : wGetTableObjectsByNameReqResult :=
  mk_wGetTableObjectsByNameReqResult (GetTablesResult__canon <$> wGetTableObjectsByNameReqResult_Success p)
    (wGetTableObjectsByNameReqResult_O1 p)
    (wGetTableObjectsByNameReqResult_O2 p)
    (wGetTableObjectsByNameReqResult_O3 p).
Definition GetTableObjectsByNameReqResult_ok (p : wGetTableObjectsByNameReqResult) : Prop :=
  forall v, wGetTableObjectsByNameReqResult_Success p = Some v -> GetTablesResult__ok v.

Lemma GetTableObjectsByNameReqResult_writes strict d p : (5 <= d)%nat -> (3 + sub_depth <= d)%nat -> (strict -> forall p0, p = Some p0 -> GetTableObjectsByNameReqResult_ok p0) -> 
  writes strict d (GetTableObjectsByNameReqResult_Write p) (GetTableObjectsByNameReqResult_toks p).
Proof. enter_valid GetTableObjectsByNameReqResult_ok. unfold GetTableObjectsByNameReqResult_wire, GetTableObjectsByNameReqResult_writeField0, GetTableObjectsByNameReqResult_writeField1, GetTableObjectsByNameReqResult_writeField2, GetTableObjectsByNameReqResult_writeField3. write_fields. Qed.
Lemma GetTableObjectsByNameReqResult_runs d fuel p : (4 <= d)%nat -> (2 + sub_depth <= d)%nat -> (29 <= fuel)%nat -> (sub_fuel <= fuel)%nat -> 
  exists ids, runs d (GetTableObjectsByNameReqResult_switch fuel) (concat (GetTableObjectsByNameReqResult_wire p)) zero_GetTableObjectsByNameReqResult (GetTableObjectsByNameReqResult_canon p) ids.
Proof.
  intros Hd Hsub Hf Hsf. unfold GetTableObjectsByNameReqResult_wire. eexists.
  cbn [concat]. run_opt GetTableObjectsByNameReqResult_set_Success GetTablesResult__canon.
  run_opt_same GetTableObjectsByNameReqResult_set_O1.
  run_opt_same GetTableObjectsByNameReqResult_set_O2.
  run_opt_same GetTableObjectsByNameReqResult_set_O3.
  run_end.
Qed.
Lemma GetTableObjectsByNameReqResult_reads d fuel p : (5 <= d)%nat -> (3 + sub_depth <= d)%nat -> (29 <= fuel)%nat -> (sub_fuel <= fuel)%nat -> 
  reads d (GetTableObjectsByNameReqResult_Read fuel zero_GetTableObjectsByNameReqResult) (GetTableObjectsByNameReqResult_toks (Some p)) (GetTableObjectsByNameReqResult_canon p).
Proof. struct_reads GetTableObjectsByNameReqResult_runs GetTableObjectsByNameReqResult_wire. Qed.
#[local] Hint Resolve GetTableObjectsByNameReqResult_writes GetTableObjectsByNameReqResult_reads : wire.
Lemma GetTableObjectsByNameReqResult_value p : value (8 + sub_nest) STRUCT (GetTableObjectsByNameReqResult_toks p).
Proof. struct_is_value GetTableObjectsByNameReqResult_toks GetTableObjectsByNameReqResult_wire. Qed.
#[local] Hint Resolve GetTableObjectsByNameReqResult_value : wire_value.
Definition GetTableObjectsByNameReqResult_codec : codec GetTableObjectsByNameReqResult_Write (fun fuel => GetTableObjectsByNameReqResult_Read fuel zero_GetTableObjectsByNameReqResult).
Proof. codec_by (fun p => GetTableObjectsByNameReqResult_ok p) GetTableObjectsByNameReqResult_toks GetTableObjectsByNameReqResult_canon GetTableObjectsByNameReqResult_writes GetTableObjectsByNameReqResult_value GetTableObjectsByNameReqResult_reads. Defined.

(** ** create_table *)

Definition CreateTableArgs_wire (p : wCreateTableArgs) : list (list wfield) :=
  [opt_part (wCreateTableArgs_Tbl p) (fun v => (1, STRUCT, Table_toks (Some v)))].
Definition CreateTableArgs_toks (p : option wCreateTableArgs) : list tok :=
  struct_toks (match p with Some p => concat (CreateTableArgs_wire p) | None => [] end).
Definition CreateTableArgs_canon (p : wCreateTableArgs) : wCreateTableArgs :=
  mk_wCreateTableArgs (Table_canon <$> wCreateTableArgs_Tbl p).
Definition CreateTableArgs_ok (p : wCreateTableArgs) : Prop :=
  forall v, wCreateTableArgs_Tbl p = Some v -> Table_ok v.

Lemma CreateTableArgs_writes strict d p : (4 <= d)%nat -> (2 + sub_depth <= d)%nat -> (strict -> forall p0, p = Some p0 -> CreateTableArgs_ok p0) -> 
  writes strict d (CreateTableArgs_Write p) (CreateTableArgs_toks p).
Proof. enter_valid CreateTableArgs_ok. unfold CreateTableArgs_wire, CreateTableArgs_writeField1. write_fields. Qed.
Lemma CreateTableArgs_runs d fuel p : (3 <= d)%nat -> (S sub_depth <= d)%nat -> (29 <= fuel)%nat -> (sub_fuel <= fuel)%nat -> 
  exists ids, runs d (CreateTableArgs_switch fuel) (concat (CreateTableArgs_wire p)) zero_CreateTableArgs (CreateTableArgs_canon p) ids.
Proof.
  intros Hd Hsub Hf Hsf. unfold CreateTableArgs_wire. eexists.
  cbn [concat]. run_opt CreateTableArgs_set_Tbl Table_canon.
  run_end.
Qed.
Lemma CreateTableArgs_reads d fuel p : (4 <= d)%nat -> (2 + sub_depth <= d)%nat -> (29 <= fuel)%nat -> (sub_fuel <= fuel)%nat -> 
  reads d (CreateTableArgs_Read fuel zero_CreateTableArgs) (CreateTableArgs_toks (Some p)) (CreateTableArgs_canon p).
Proof. struct_reads CreateTableArgs_runs CreateTableArgs_wire. Qed.
#[local] Hint Resolve CreateTableArgs_writes CreateTableArgs_reads : wire.
Lemma CreateTableArgs_value p : value (6 + sub_nest) STRUCT (CreateTableArgs_toks p).
Proof. struct_is_value CreateTableArgs_toks CreateTableArgs_wire. Qed.
#[local] Hint Resolve CreateTableArgs_value : wire_value.
Definition CreateTableArgs_codec : codec CreateTableArgs_Write (fun fuel => CreateTableArgs_Read fuel zero_CreateTableArgs).
Proof. codec_by (fun p => CreateTableArgs_ok p) CreateTableArgs_toks CreateTableArgs_canon CreateTableArgs_writes CreateTableArgs_value CreateTableArgs_reads. Defined.

Definition CreateTableResult_wire (p : wCreateTableResult) : list (list wfield) :=
  [opt_part (wCreateTableResult_O1 p) (fun v => (1, STRUCT, Exception_toks (Some v)));
   opt_part (wCreateTableResult_O2 p) (fun v => (2, STRUCT, Exception_toks (Some v)));
   opt_part (wCreateTableResult_O3 p) (fun v => (3, STRUCT, Exception_toks (Some v)));
   opt_part (wCreateTableResult_O4 p) (fun v => (4, STRUCT, Exception_toks (Some v)))].
Definition CreateTableResult_toks (p : option wCreateTableResult) : list tok :=
  struct_toks (match p with Some p => concat (CreateTableResult_wire p) | None => [] end).
Definition CreateTableResult_canon (p : wCreateTableResult) : wCreateTableResult :=
  mk_wCreateTableResult (wCreateTableResult_O1 p)
    (wCreateTableResult_O2 p)
    (wCreateTableResult_O3 p)
    (wCreateTableResult_O4 p).

Lemma CreateTableResult_writes strict d p : (2 <= d)%nat -> 
  writes strict d (CreateTableResult_Write p) (CreateTableResult_toks p).
Proof. enter_struct. unfold CreateTableResult_wire, CreateTableResult_writeField1, CreateTableResult_writeField2, CreateTableResult_writeField3, CreateTableResult_writeField4. write_fields. Qed.
Lemma CreateTableResult_runs d fuel p : (1 <= d)%nat -> (5 <= fuel)%nat -> 
  exists ids, runs d (CreateTableResult_switch fuel) (concat (CreateTableResult_wire p)) zero_CreateTableResult (CreateTableResult_canon p) ids.
Proof.
  intros Hd Hf. unfold CreateTableResult_wire. eexists.
  cbn [concat]. run_opt_same CreateTableResult_set_O1.
  run_opt_same CreateTableResult_set_O2.
  run_opt_same CreateTableResult_set_O3.
  run_opt_same CreateTableResult_set_O4.
  run_end.
Qed.
Lemma CreateTableResult_reads d fuel p : (2 <= d)%nat -> (5 <= fuel)%nat -> 
  reads d (CreateTableResult_Read fuel zero_CreateTableResult) (CreateTableResult_toks (Some p)) (CreateTableResult_canon p).
Proof. struct_reads CreateTableResult_runs CreateTableResult_wire. Qed.
#[local] Hint Resolve CreateTableResult_writes CreateTableResult_reads : wire.
Lemma CreateTableResult_value p : value 2 STRUCT (CreateTableResult_toks p).
Proof. struct_is_value CreateTableResult_toks CreateTableResult_wire. Qed.
#[local] Hint Resolve CreateTableResult_value : wire_value.
Definition CreateTableResult_codec : codec CreateTableResult_Write (fun fuel => CreateTableResult_Read fuel zero_CreateTableResult).
Proof. codec_by (fun _ => True) CreateTableResult_toks CreateTableResult_canon CreateTableResult_writes CreateTableResult_value CreateTableResult_reads. Defined.

(** ** alter_table *)

Definition AlterTableArgs_wire (p : wAlterTableArgs) : list (list wfield) :=
  [[(1, STRING, [KString (wAlterTableArgs_Dbname p)])];
   [(2, STRING, [KString (wAlterTableArgs_TblName p)])];
   opt_part (wAlterTableArgs_NewTbl_ p) (fun v => (3, STRUCT, Table_toks (Some v)))].
Definition AlterTableArgs_toks (p : option wAlterTableArgs) : list tok :=
  struct_toks (match p with Some p => concat (AlterTableArgs_wire p) | None => [] end).
Definition AlterTableArgs_canon (p : wAlterTableArgs) : wAlterTableArgs :=
  mk_wAlterTableArgs (wAlterTableArgs_Dbname p)
    (wAlterTableArgs_TblName p)
    (Table_canon <$> wAlterTableArgs_NewTbl_ p).
Definition AlterTableArgs_ok (p : wAlterTableArgs) : Prop :=
  forall v, wAlterTableArgs_NewTbl_ p = Some v -> Table_ok v.

Lemma AlterTableArgs_writes strict d p : (4 <= d)%nat -> (2 + sub_depth <= d)%nat -> (strict -> forall p0, p = Some p0 -> AlterTableArgs_ok p0) -> 
  writes strict d (AlterTableArgs_Write p) (AlterTableArgs_toks p).
Proof. enter_valid AlterTableArgs_ok. unfold AlterTableArgs_wire, AlterTableArgs_writeField1, AlterTableArgs_writeField2, AlterTableArgs_writeField3. write_fields. Qed.
Lemma AlterTableArgs_runs d fuel p : (3 <= d)%nat -> (S sub_depth <= d)%nat -> (29 <= fuel)%nat -> (sub_fuel <= fuel)%nat -> 
  exists ids, runs d (AlterTableArgs_switch fuel) (concat (AlterTableArgs_wire p)) zero_AlterTableArgs (AlterTableArgs_canon p) ids.
Proof.
  intros Hd Hsub Hf Hsf. unfold AlterTableArgs_wire. eexists.
  cbn [concat]. run_one.
  run_one.
  run_opt AlterTableArgs_set_NewTbl_ Table_canon.
  run_end.
Qed.
Lemma AlterTableArgs_reads d fuel p : (4 <= d)%nat -> (2 + sub_depth <= d)%nat -> (29 <= fuel)%nat -> (sub_fuel <= fuel)%nat -> 
  reads d (AlterTableArgs_Read fuel zero_AlterTableArgs) (AlterTableArgs_toks (Some p)) (AlterTableArgs_canon p).
Proof. struct_reads AlterTableArgs_runs AlterTableArgs_wire. Qed.
#[local] Hint Resolve AlterTableArgs_writes AlterTableArgs_reads : wire.
Lemma AlterTableArgs_value p : value (6 + sub_nest) STRUCT (AlterTableArgs_toks p).
Proof. struct_is_value AlterTableArgs_toks AlterTableArgs_wire. Qed.
#[local] Hint Resolve AlterTableArgs_value : wire_value.
Definition AlterTableArgs_codec : codec AlterTableArgs_Write (fun fuel => AlterTableArgs_Read fuel zero_AlterTableArgs).
Proof. codec_by (fun p => AlterTableArgs_ok p) AlterTableArgs_toks AlterTableArgs_canon AlterTableArgs_writes AlterTableArgs_value AlterTableArgs_reads. Defined.

Definition AlterTableResult_wire (p : wAlterTableResult) : list (list wfield) :=
  [opt_part (wAlterTableResult_O1 p) (fun v => (1, STRUCT, Exception_toks (Some v)));
   opt_part (wAlterTableResult_O2 p) (fun v => (2, STRUCT, Exception_toks (Some v)))].
Definition AlterTableResult_toks (p : option wAlterTableResult) : list tok :=
  struct_toks (match p with Some p => concat (AlterTableResult_wire p) | None => [] end).
Definition AlterTableResult_canon (p : wAlterTableResult) : wAlterTableResult :=
  mk_wAlterTableResult (wAlterTableResult_O1 p)
    (wAlterTableResult_O2 p).

Lemma AlterTableResult_writes strict d p : (2 <= d)%nat -> 
  writes strict d (AlterTableResult_Write p) (AlterTableResult_toks p).
Proof. enter_struct. unfold AlterTableResult_wire, AlterTableResult_writeField1, AlterTableResult_writeField2. write_fields. Qed.
Lemma AlterTableResult_runs d fuel p : (1 <= d)%nat -> (3 <= fuel)%nat -> 
  exists ids, runs d (AlterTableResult_switch fuel) (concat (AlterTableResult_wire p)) zero_AlterTableResult (AlterTableResult_canon p) ids.
Proof.
  intros Hd Hf. unfold AlterTableResult_wire. eexists.
  cbn [concat]. run_opt_same AlterTableResult_set_O1.
  run_opt_same AlterTableResult_set_O2.
  run_end.
Qed.
Lemma AlterTableResult_reads d fuel p : (2 <= d)%nat -> (3 <= fuel)%nat -> 
  reads d (AlterTableResult_Read fuel zero_AlterTableResult) (AlterTableResult_toks (Some p)) (AlterTableResult_canon p).
Proof. struct_reads AlterTableResult_runs AlterTableResult_wire. Qed.
#[local] Hint Resolve AlterTableResult_writes AlterTableResult_reads : wire.
Lemma AlterTableResult_value p : value 2 STRUCT (AlterTableResult_toks p).
Proof. struct_is_value AlterTableResult_toks AlterTableResult_wire. Qed.
#[local] Hint Resolve AlterTableResult_value : wire_value.
Definition AlterTableResult_codec : codec AlterTableResult_Write (fun fuel => AlterTableResult_Read fuel zero_AlterTableResult).
Proof. codec_by (fun _ => True) AlterTableResult_toks AlterTableResult_canon AlterTableResult_writes AlterTableResult_value AlterTableResult_reads. Defined.

(** ** drop_table *)

Definition DropTableArgs_wire (p : wDropTableArgs) : list (list wfield) :=
  [[(1, STRING, [KString (wDropTableArgs_Dbname p)])];
   [(2, STRING, [KString (wDropTableArgs_Name p)])];
   [(3, BOOL, [KBool (wDropTableArgs_DeleteData p)])]].
Definition DropTableArgs_toks (p : option wDropTableArgs) : list tok :=
  struct_toks (match p with Some p => concat (DropTableArgs_wire p) | None => [] end).
Definition DropTableArgs_canon (p : wDropTableArgs) : wDropTableArgs :=
  mk_wDropTableArgs (wDropTableArgs_Dbname p)
    (wDropTableArgs_Name p)
    (wDropTableArgs_DeleteData p).

Lemma DropTableArgs_writes strict d p : (1 <= d)%nat -> 
  writes strict d (DropTableArgs_Write p) (DropTableArgs_toks p).
Proof. enter_struct. unfold DropTableArgs_wire, DropTableArgs_writeField1, DropTableArgs_writeField2, DropTableArgs_writeField3. write_fields. Qed.
Lemma DropTableArgs_runs d fuel p : (0 <= d)%nat -> (4 <= fuel)%nat -> 
  exists ids, runs d DropTableArgs_switch (concat (DropTableArgs_wire p)) zero_DropTableArgs (DropTableArgs_canon p) ids.
Proof.
  intros Hd Hf. unfold DropTableArgs_wire. eexists.
  cbn [concat]. run_one.
  run_one.
  run_one.
  run_end.
Qed.
Lemma DropTableArgs_reads d fuel p : (1 <= d)%nat -> (4 <= fuel)%nat -> 
  reads d (DropTableArgs_Read fuel zero_DropTableArgs) (DropTableArgs_toks (Some p)) (DropTableArgs_canon p).
Proof. struct_reads DropTableArgs_runs DropTableArgs_wire. Qed.
#[local] Hint Resolve DropTableArgs_writes DropTableArgs_reads : wire.
Lemma DropTableArgs_value p : value 1 STRUCT (DropTableArgs_toks p).
Proof. struct_is_value DropTableArgs_toks DropTableArgs_wire. Qed.
#[local] Hint Resolve DropTableArgs_value : wire_value.
Definition DropTableArgs_codec : codec DropTableArgs_Write (fun fuel => DropTableArgs_Read fuel zero_DropTableArgs).
Proof. codec_by (fun _ => True) DropTableArgs_toks DropTableArgs_canon DropTableArgs_writes DropTableArgs_value DropTableArgs_reads. Defined.

Definition DropTableResult_wire (p : wDropTableResult) : list (list wfield) :=
  [opt_part (wDropTableResult_O1 p) (fun v => (1, STRUCT, Exception_toks (Some v)));
   opt_part (wDropTableResult_O3 p) (fun v => (2, STRUCT, Exception_toks (Some v)))].
Definition DropTableResult_toks (p : option wDropTableResult) : list tok :=
  struct_toks (match p with Some p => concat (DropTableResult_wire p) | None => [] end).
Definition DropTableResult_canon (p : wDropTableResult) : wDropTableResult :=
  mk_wDropTableResult (wDropTableResult_O1 p)
    (wDropTableResult_O3 p).

Lemma DropTableResult_writes strict d p : (2 <= d)%nat -> 
  writes strict d (DropTableResult_Write p) (DropTableResult_toks p).
Proof. enter_struct. unfold DropTableResult_wire, DropTableResult_writeField1, DropTableResult_writeField2. write_fields. Qed.
Lemma DropTableResult_runs d fuel p : (1 <= d)%nat -> (3 <= fuel)%nat -> 
  exists ids, runs d (DropTableResult_switch fuel) (concat (DropTableResult_wire p)) zero_DropTableResult (DropTableResult_canon p) ids.
Proof.
  intros Hd Hf. unfold DropTableResult_wire. eexists.
  cbn [concat]. run_opt_same DropTableResult_set_O1.
  run_opt_same DropTableResult_set_O3.
  run_end.
Qed.
Lemma DropTableResult_reads d fuel p : (2 <= d)%nat -> (3 <= fuel)%nat -> 
  reads d (DropTableResult_Read fuel zero_DropTableResult) (DropTableResult_toks (Some p)) (DropTableResult_canon p).
Proof. struct_reads DropTableResult_runs DropTableResult_wire. Qed.
#[local] Hint Resolve DropTableResult_writes DropTableResult_reads : wire.
Lemma DropTableResult_value p : value 2 STRUCT (DropTableResult_toks p).
Proof. struct_is_value DropTableResult_toks DropTableResult_wire. Qed.
#[local] Hint Resolve DropTableResult_value : wire_value.
Definition DropTableResult_codec : codec DropTableResult_Write (fun fuel => DropTableResult_Read fuel zero_DropTableResult).
Proof. codec_by (fun _ => True) DropTableResult_toks DropTableResult_canon DropTableResult_writes DropTableResult_value DropTableResult_reads. Defined.

(** ** get_table_statistics_req *)

Definition GetTableStatisticsReqArgs_wire (p : wGetTableStatisticsReqArgs) : list (list wfield) :=
  [opt_part (wGetTableStatisticsReqArgs_Request p) (fun v => (1, STRUCT, TableStatsRequest_toks (Some v)))].
Definition GetTableStatisticsReqArgs_toks (p : option wGetTableStatisticsReqArgs) : list tok :=
  struct_toks (match p with Some p => concat (GetTableStatisticsReqArgs_wire p) | None => [] end).
Definition GetTableStatisticsReqArgs_canon (p : wGetTableStatisticsReqArgs) : wGetTableStatisticsReqArgs :=
  mk_wGetTableStatisticsReqArgs (TableStatsRequest_canon <$> wGetTableStatisticsReqArgs_Request p).

Lemma GetTableStatisticsReqArgs_writes strict d p : (2 <= d)%nat -> 
  writes strict d (GetTableStatisticsReqArgs_Write p) (GetTableStatisticsReqArgs_toks p).
Proof. enter_struct. unfold GetTableStatisticsReqArgs_wire, GetTableStatisticsReqArgs_writeField1. write_fields. Qed.
Lemma GetTableStatisticsReqArgs_runs d fuel p : (1 <= d)%nat -> (8 <= fuel)%nat -> 
  exists ids, runs d (GetTableStatisticsReqArgs_switch fuel) (concat (GetTableStatisticsReqArgs_wire p)) zero_GetTableStatisticsReqArgs (GetTableStatisticsReqArgs_canon p) ids.
Proof.
  intros Hd Hf. unfold GetTableStatisticsReqArgs_wire. eexists.
  cbn [concat]. run_opt GetTableStatisticsReqArgs_set_Request TableStatsRequest_canon.
  run_end.
Qed.
Lemma GetTableStatisticsReqArgs_reads d fuel p : (2 <= d)%nat -> (8 <= fuel)%nat -> 
  reads d (GetTableStatisticsReqArgs_Read fuel zero_GetTableStatisticsReqArgs) (GetTableStatisticsReqArgs_toks (Some p)) (GetTableStatisticsReqArgs_canon p).
Proof. struct_reads GetTableStatisticsReqArgs_runs GetTableStatisticsReqArgs_wire. Qed.
#[local] Hint Resolve GetTableStatisticsReqArgs_writes GetTableStatisticsReqArgs_reads : wire.
Lemma GetTableStatisticsReqArgs_value p : value 3 STRUCT (GetTableStatisticsReqArgs_toks p).
Proof. struct_is_value GetTableStatisticsReqArgs_toks GetTableStatisticsReqArgs_wire. Qed.
#[local] Hint Resolve GetTableStatisticsReqArgs_value : wire_value.
Definition GetTableStatisticsReqArgs_codec : codec GetTableStatisticsReqArgs_Write (fun fuel => GetTableStatisticsReqArgs_Read fuel zero_GetTableStatisticsReqArgs).
Proof. codec_by (fun _ => True) GetTableStatisticsReqArgs_toks GetTableStatisticsReqArgs_canon GetTableStatisticsReqArgs_writes GetTableStatisticsReqArgs_value GetTableStatisticsReqArgs_reads. Defined.

Definition GetTableStatisticsReqResult_wire (p : wGetTableStatisticsReqResult) : list (list wfield) :=
  [opt_part (wGetTableStatisticsReqResult_Success p) (fun v => (0, STRUCT, TableStatsResult__toks (Some v)));
   opt_part (wGetTableStatisticsReqResult_O1 p) (fun v => (1, STRUCT, Exception_toks (Some v)));
   opt_part (wGetTableStatisticsReqResult_O2 p) (fun v => (2, STRUCT, Exception_toks (Some v)))].
Definition GetTableStatisticsReqResult_toks (p : option wGetTableStatisticsReqResult) : list tok :=
  struct_toks (match p with Some p => concat (GetTableStatisticsReqResult_wire p) | None => [] end).
Definition GetTableStatisticsReqResult_canon (p : wGetTableStatisticsReqResult) : wGetTableStatisticsReqResult :=
  mk_wGetTableStatisticsReqResult (TableStatsResult__canon <$> wGetTableStatisticsReqResult_Success p)
    (wGetTableStatisticsReqResult_O1 p)
    (wGetTableStatisticsReqResult_O2 p).
Definition GetTableStatisticsReqResult_ok (p : wGetTableStatisticsReqResult) : Prop :=
  forall v, wGetTableStatisticsReqResult_Success p = Some v -> TableStatsResult__ok v.
Definition GetTableStatisticsReqResult_full (p : wGetTableStatisticsReqResult) : Prop :=
  forall v, wGetTableStatisticsReqResult_Success p = Some v -> TableStatsResult__full v.

Lemma GetTableStatisticsReqResult_writes strict d p : (6 <= d)%nat -> (strict -> forall p0, p = Some p0 -> GetTableStatisticsReqResult_ok p0) -> 
  writes strict d (GetTableStatisticsReqResult_Write p) (GetTableStatisticsReqResult_toks p).
Proof. enter_valid GetTableStatisticsReqResult_ok. unfold GetTableStatisticsReqResult_wire, GetTableStatisticsReqResult_writeField0, GetTableStatisticsReqResult_writeField1, GetTableStatisticsReqResult_writeField2. write_fields. Qed.
Lemma GetTableStatisticsReqResult_runs d fuel p : (5 <= d)%nat -> (9 <= fuel)%nat -> GetTableStatisticsReqResult_full p -> 
  exists ids, runs d (GetTableStatisticsReqResult_switch fuel) (concat (GetTableStatisticsReqResult_wire p)) zero_GetTableStatisticsReqResult (GetTableStatisticsReqResult_canon p) ids.
Proof.
  intros Hd Hf Hfull. unfold GetTableStatisticsReqResult_wire. unfold GetTableStatisticsReqResult_full in Hfull. destruct_and? Hfull. eexists.
  cbn [concat]. run_opt GetTableStatisticsReqResult_set_Success TableStatsResult__canon.
  run_opt_same GetTableStatisticsReqResult_set_O1.
  run_opt_same GetTableStatisticsReqResult_set_O2.
  run_end.
Qed.
Lemma GetTableStatisticsReqResult_reads d fuel p : (6 <= d)%nat -> (9 <= fuel)%nat -> GetTableStatisticsReqResult_full p -> 
  reads d (GetTableStatisticsReqResult_Read fuel zero_GetTableStatisticsReqResult) (GetTableStatisticsReqResult_toks (Some p)) (GetTableStatisticsReqResult_canon p).
Proof. struct_reads GetTableStatisticsReqResult_runs GetTableStatisticsReqResult_wire. Qed.
#[local] Hint Resolve GetTableStatisticsReqResult_writes GetTableStatisticsReqResult_reads : wire.
Lemma GetTableStatisticsReqResult_value p : value 7 STRUCT (GetTableStatisticsReqResult_toks p).
Proof. struct_is_value GetTableStatisticsReqResult_toks GetTableStatisticsReqResult_wire. Qed.
#[local] Hint Resolve GetTableStatisticsReqResult_value : wire_value.
Definition GetTableStatisticsReqResult_codec : codec GetTableStatisticsReqResult_Write (fun fuel => GetTableStatisticsReqResult_Read fuel zero_GetTableStatisticsReqResult).
Proof. codec_by (fun p => GetTableStatisticsReqResult_ok p /\ GetTableStatisticsReqResult_full p) GetTableStatisticsReqResult_toks GetTableStatisticsReqResult_canon GetTableStatisticsReqResult_writes GetTableStatisticsReqResult_value GetTableStatisticsReqResult_reads. Defined.

End facts.

(** ** The calls *)

Section calls.
Context {P W : Type} {TP : TProtocol P} {TL : TProtocolLaws P} {MR : MapRange} {SB : Substructs P} {SL : SubstructLaws P}.
Context {TS : TStandardClient P} {PL : TProcessorLib P} {RL : TRpcLaws P}.
Context (cause : option goerr) (handler : Handler.ThriftHiveMetastore W) (pm : processor_map P W) (fuel : nat).
Context (Hfuel : (msg_fuel <= fuel)%nat).

Lemma GetAllTables_delivers n db_name :
  GetProcessorFunction pm "get_all_tables" = Some (Processor.GetAllTables cause handler fuel) ->
  sendable GetAllTablesArgs_codec (mk_wGetAllTablesArgs db_name) ->
  delivers n (Stub.GetAllTables (TC := link_client (Process pm)) fuel db_name) (Handler.GetAllTables handler db_name)
    (replies cause GetAllTablesResult_codec (type_switch Processor.GetAllTables_declared) Processor.GetAllTables_answer "get_all_tables")
    (outcome "get_all_tables" [MetaException] (inr)).
Proof. call_method GetAllTablesArgs_codec GetAllTablesResult_codec. Qed.
Lemma GetTableReq_delivers n req :
  GetProcessorFunction pm "get_table_req" = Some (Processor.GetTableReq cause handler fuel) ->
  sendable GetTableReqArgs_codec (mk_wGetTableReqArgs req) ->
  delivers n (Stub.GetTableReq (TC := link_client (Process pm)) fuel req) (Handler.GetTableReq handler (GetTableRequest_canon <$> req))
    (replies cause GetTableReqResult_codec (type_switch Processor.GetTableReq_declared) Processor.GetTableReq_answer "get_table_req")
    (outcome "get_table_req" [MetaException; NoSuchObjectException] (fun v => success "get_table_req" (GetTableResult__canon <$> v))).
Proof. call_method GetTableReqArgs_codec GetTableReqResult_codec. Qed.
Lemma GetTableObjectsByNameReq_delivers n req :
  GetProcessorFunction pm "get_table_objects_by_name_req" = Some (Processor.GetTableObjectsByNameReq cause handler fuel) ->
  sendable GetTableObjectsByNameReqArgs_codec (mk_wGetTableObjectsByNameReqArgs req) ->
  delivers n (Stub.GetTableObjectsByNameReq (TC := link_client (Process pm)) fuel req) (Handler.GetTableObjectsByNameReq handler (GetTablesRequest_canon <$> req))
    (replies cause GetTableObjectsByNameReqResult_codec (type_switch Processor.GetTableObjectsByNameReq_declared) Processor.GetTableObjectsByNameReq_answer "get_table_objects_by_name_req")
    (outcome "get_table_objects_by_name_req" [MetaException; InvalidOperationException; UnknownDBException] (fun v => success "get_table_objects_by_name_req" (GetTablesResult__canon <$> v))).
Proof. call_method GetTableObjectsByNameReqArgs_codec GetTableObjectsByNameReqResult_codec. Qed.
Lemma CreateTable_delivers n tbl :
  GetProcessorFunction pm "create_table" = Some (Processor.CreateTable cause handler fuel) ->
  sendable CreateTableArgs_codec (mk_wCreateTableArgs tbl) ->
  delivers n (Stub.CreateTable (TC := link_client (Process pm)) fuel tbl) (Handler.CreateTable handler (Table_canon <$> tbl))
    (replies cause CreateTableResult_codec (type_switch Processor.CreateTable_declared) Processor.CreateTable_answer "create_table")
    (outcome "create_table" [AlreadyExistsException; InvalidObjectException; MetaException; NoSuchObjectException] (fun _ => inr tt)).
Proof. call_method CreateTableArgs_codec CreateTableResult_codec. Qed.
Lemma AlterTable_delivers n dbname tbl_name new_tbl :
  GetProcessorFunction pm "alter_table" = Some (Processor.AlterTable cause handler fuel) ->
  sendable AlterTableArgs_codec (mk_wAlterTableArgs dbname tbl_name new_tbl) ->
  delivers n (Stub.AlterTable (TC := link_client (Process pm)) fuel dbname tbl_name new_tbl) (Handler.AlterTable handler dbname tbl_name (Table_canon <$> new_tbl))
    (replies cause AlterTableResult_codec (type_switch Processor.AlterTable_declared) Processor.AlterTable_answer "alter_table")
    (outcome "alter_table" [InvalidOperationException; MetaException] (fun _ => inr tt)).
Proof. call_method AlterTableArgs_codec AlterTableResult_codec. Qed.
Lemma DropTable_delivers n dbname name deleteData :
  GetProcessorFunction pm "drop_table" = Some (Processor.DropTable cause handler fuel) ->
  sendable DropTableArgs_codec (mk_wDropTableArgs dbname name deleteData) ->
  delivers n (Stub.DropTable (TC := link_client (Process pm)) fuel dbname name deleteData) (Handler.DropTable handler dbname name deleteData)
    (replies cause DropTableResult_codec (type_switch Processor.DropTable_declared) Processor.DropTable_answer "drop_table")
    (outcome "drop_table" [NoSuchObjectException; MetaException] (fun _ => inr tt)).
Proof. call_method DropTableArgs_codec DropTableResult_codec. Qed.
Lemma GetTableStatisticsReq_delivers n request :
  GetProcessorFunction pm "get_table_statistics_req" = Some (Processor.GetTableStatisticsReq cause handler fuel) ->
  sendable GetTableStatisticsReqArgs_codec (mk_wGetTableStatisticsReqArgs request) ->
  delivers n (Stub.GetTableStatisticsReq (TC := link_client (Process pm)) fuel request) (Handler.GetTableStatisticsReq handler (TableStatsRequest_canon <$> request))
    (replies cause GetTableStatisticsReqResult_codec (type_switch Processor.GetTableStatisticsReq_declared) Processor.GetTableStatisticsReq_answer "get_table_statistics_req")
    (outcome "get_table_statistics_req" [NoSuchObjectException; MetaException] (fun v => success "get_table_statistics_req" (TableStatsResult__canon <$> v))).
Proof. call_method GetTableStatisticsReqArgs_codec GetTableStatisticsReqResult_codec. Qed.
End calls.
