(* ===== verification/RpcPartitionFacts.v ===== *)
(** * RpcPartitionFacts: the calls of RpcPartition, from stub to handler and back *)

From S2P Require Import Prelude Errors GoMonad Types Transport Wire Thrift ThriftFacts CodecTable CodecTableFacts CodecReq CodecReqFacts CodecValues Rpc RpcFacts RpcHandler RpcPartition.

Section facts.
Context {P : Type} {TP : TProtocol P} {TL : TProtocolLaws P} {MR : MapRange} {SB : Substructs P} {SL : SubstructLaws P}.

(** ** get_partitions *)

Definition GetPartitionsArgs_wire (p : wGetPartitionsArgs) : list (list wfield) :=
  [[(1, STRING, [KString (wGetPartitionsArgs_DbName p)])];
   [(2, STRING, [KString (wGetPartitionsArgs_TblName p)])];
   [(3, I16, [KI16 (wGetPartitionsArgs_MaxParts p)])]].
Definition GetPartitionsArgs_toks (p : option wGetPartitionsArgs) : list tok :=
  struct_toks (match p with Some p => concat (GetPartitionsArgs_wire p) | None => [] end).
Definition GetPartitionsArgs_canon (p : wGetPartitionsArgs) : wGetPartitionsArgs :=
  mk_wGetPartitionsArgs (wGetPartitionsArgs_DbName p)
    (wGetPartitionsArgs_TblName p)
    (wGetPartitionsArgs_MaxParts p).

Lemma GetPartitionsArgs_writes strict d p : (1 <= d)%nat -> 
  writes strict d (GetPartitionsArgs_Write p) (GetPartitionsArgs_toks p).
Proof. enter_struct. unfold GetPartitionsArgs_wire, GetPartitionsArgs_writeField1, GetPartitionsArgs_writeField2, GetPartitionsArgs_writeField3. write_fields. Qed.
Lemma GetPartitionsArgs_runs d fuel p : (0 <= d)%nat -> (4 <= fuel)%nat -> 
  exists ids, runs d GetPartitionsArgs_switch (concat (GetPartitionsArgs_wire p)) zero_GetPartitionsArgs (GetPartitionsArgs_canon p) ids.
Proof.
  intros Hd Hf. unfold GetPartitionsArgs_wire. eexists.
  cbn [concat]. run_one.
  run_one.
  run_one.
  run_end.
Qed.
Lemma GetPartitionsArgs_reads d fuel p : (1 <= d)%nat -> (4 <= fuel)%nat -> 
  reads d (GetPartitionsArgs_Read fuel zero_GetPartitionsArgs) (GetPartitionsArgs_toks (Some p)) (GetPartitionsArgs_canon p).
Proof. struct_reads GetPartitionsArgs_runs GetPartitionsArgs_wire. Qed.
#[local] Hint Resolve GetPartitionsArgs_writes GetPartitionsArgs_reads : wire.
Lemma GetPartitionsArgs_value p : value 1 STRUCT (GetPartitionsArgs_toks p).
Proof. struct_is_value GetPartitionsArgs_toks GetPartitionsArgs_wire. Qed.
#[local] Hint Resolve GetPartitionsArgs_value : wire_value.
Definition GetPartitionsArgs_codec : codec GetPartitionsArgs_Write (fun fuel => GetPartitionsArgs_Read fuel zero_GetPartitionsArgs).
Proof. codec_by (fun _ => True) GetPartitionsArgs_toks GetPartitionsArgs_canon GetPartitionsArgs_writes GetPartitionsArgs_value GetPartitionsArgs_reads. Defined.

Definition GetPartitionsResult_wire (p : wGetPartitionsResult) : list (list wfield) :=
  [when_part (bool_decide (is_Some (wGetPartitionsResult_Success p))) (0, LIST, list_toks STRUCT Partition_toks (wGetPartitionsResult_Success p));
   opt_part (wGetPartitionsResult_O1 p) (fun v => (1, STRUCT, Exception_toks (Some v)));
   opt_part (wGetPartitionsResult_O2 p) (fun v => (2, STRUCT, Exception_toks (Some v)))].
Definition GetPartitionsResult_toks (p : option wGetPartitionsResult) : list tok :=
  struct_toks (match p with Some p => concat (GetPartitionsResult_wire p) | None => [] end).
Definition GetPartitionsResult_canon (p : wGetPartitionsResult) : wGetPartitionsResult :=
  mk_wGetPartitionsResult (map (fun v => Some (Partition_own v)) <$> wGetPartitionsResult_Success p)
    (wGetPartitionsResult_O1 p)
    (wGetPartitionsResult_O2 p).
Definition GetPartitionsResult_ok (p : wGetPartitionsResult) : Prop :=
  Forall (fun o => forall v, o = Some v -> Partition_ok v) (elems (wGetPartitionsResult_Success p)).

Lemma GetPartitionsResult_writes strict d p : (4 <= d)%nat -> (2 + sub_depth <= d)%nat -> (strict -> forall p0, p = Some p0 -> GetPartitionsResult_ok p0) -> 
  writes strict d (GetPartitionsResult_Write p) (GetPartitionsResult_toks p).
Proof. enter_valid GetPartitionsResult_ok. unfold GetPartitionsResult_wire, GetPartitionsResult_writeField0, GetPartitionsResult_writeField1, GetPartitionsResult_writeField2. write_fields. Qed.
Lemma GetPartitionsResult_runs d fuel p : (3 <= d)%nat -> (S sub_depth <= d)%nat -> (14 <= fuel)%nat -> (sub_fuel <= fuel)%nat -> 
  exists ids, runs d (GetPartitionsResult_switch fuel) (concat (GetPartitionsResult_wire p)) zero_GetPartitionsResult (GetPartitionsResult_canon p) ids.
Proof.
  intros Hd Hsub Hf Hsf. unfold GetPartitionsResult_wire. eexists.
  cbn [concat]. run_slice GetPartitionsResult_set_Success (map (fun v => Some (Partition_own v))).
  run_opt_same GetPartitionsResult_set_O1.
  run_opt_same GetPartitionsResult_set_O2.
  run_end.
Qed.
Lemma GetPartitionsResult_reads d fuel p : (4 <= d)%nat -> (2 + sub_depth <= d)%nat -> (14 <= fuel)%nat -> (sub_fuel <= fuel)%nat -> 
  reads d (GetPartitionsResult_Read fuel zero_GetPartitionsResult) (GetPartitionsResult_toks (Some p)) (GetPartitionsResult_canon p).
Proof. struct_reads GetPartitionsResult_runs GetPartitionsResult_wire. Qed.
#[local] Hint Resolve GetPartitionsResult_writes GetPartitionsResult_reads : wire.
Lemma GetPartitionsResult_value p : value (7 + sub_nest) STRUCT (GetPartitionsResult_toks p).
Proof. struct_is_value GetPartitionsResult_toks GetPartitionsResult_wire. Qed.
#[local] Hint Resolve GetPartitionsResult_value : wire_value.
Definition GetPartitionsResult_codec : codec GetPartitionsResult_Write (fun fuel => GetPartitionsResult_Read fuel zero_GetPartitionsResult).
Proof. codec_by (fun p => GetPartitionsResult_ok p) GetPartitionsResult_toks GetPartitionsResult_canon GetPartitionsResult_writes GetPartitionsResult_value GetPartitionsResult_reads. Defined.

(** ** get_partitions_req *)

Definition GetPartitionsReqArgs_wire (p : wGetPartitionsReqArgs) : list (list wfield) :=
  [opt_part (wGetPartitionsReqArgs_Req p) (fun v => (1, STRUCT, PartitionsRequest_toks (Some v)))].
Definition GetPartitionsReqArgs_toks (p : option wGetPartitionsReqArgs) : list tok :=
  struct_toks (match p with Some p => concat (GetPartitionsReqArgs_wire p) | None => [] end).
Definition GetPartitionsReqArgs_canon (p : wGetPartitionsReqArgs) : wGetPartitionsReqArgs :=
  mk_wGetPartitionsReqArgs (PartitionsRequest_canon <$> wGetPartitionsReqArgs_Req p).

Lemma GetPartitionsReqArgs_writes strict d p : (2 <= d)%nat -> 
  writes strict d (GetPartitionsReqArgs_Write p) (GetPartitionsReqArgs_toks p).
Proof. enter_struct. unfold GetPartitionsReqArgs_wire, GetPartitionsReqArgs_writeField1. write_fields. Qed.
Lemma GetPartitionsReqArgs_runs d fuel p : (1 <= d)%nat -> (10 <= fuel)%nat -> 
  exists ids, runs d (GetPartitionsReqArgs_switch fuel) (concat (GetPartitionsReqArgs_wire p)) zero_GetPartitionsReqArgs (GetPartitionsReqArgs_canon p) ids.
Proof.
  intros Hd Hf. unfold GetPartitionsReqArgs_wire. eexists.
  cbn [concat]. run_opt GetPartitionsReqArgs_set_Req PartitionsRequest_canon.
  run_end.
Qed.
Lemma GetPartitionsReqArgs_reads d fuel p : (2 <= d)%nat -> (10 <= fuel)%nat -> 
  reads d (GetPartitionsReqArgs_Read fuel zero_GetPartitionsReqArgs) (GetPartitionsReqArgs_toks (Some p)) (GetPartitionsReqArgs_canon p).
Proof. struct_reads GetPartitionsReqArgs_runs GetPartitionsReqArgs_wire. Qed.
#[local] Hint Resolve GetPartitionsReqArgs_writes GetPartitionsReqArgs_reads : wire.
Lemma GetPartitionsReqArgs_value p : value 2 STRUCT (GetPartitionsReqArgs_toks p).
Proof. struct_is_value GetPartitionsReqArgs_toks GetPartitionsReqArgs_wire. Qed.
#[local] Hint Resolve GetPartitionsReqArgs_value : wire_value.
Definition GetPartitionsReqArgs_codec : codec GetPartitionsReqArgs_Write (fun fuel => GetPartitionsReqArgs_Read fuel zero_GetPartitionsReqArgs).
Proof. codec_by (fun _ => True) GetPartitionsReqArgs_toks GetPartitionsReqArgs_canon GetPartitionsReqArgs_writes GetPartitionsReqArgs_value GetPartitionsReqArgs_reads. Defined.

Definition GetPartitionsReqResult_wire (p : wGetPartitionsReqResult) : list (list wfield) :=
  [opt_part (wGetPartitionsReqResult_Success p) (fun v => (0, STRUCT, PartitionsResponse_toks (Some v)));
   opt_part (wGetPartitionsReqResult_O1 p) (fun v => (1, STRUCT, Exception_toks (Some v)));
   opt_part (wGetPartitionsReqResult_O2 p) (fun v => (2, STRUCT, Exception_toks (Some v)))].
Definition GetPartitionsReqResult_toks (p : option wGetPartitionsReqResult) : list tok :=
  struct_toks (match p with Some p => concat (GetPartitionsReqResult_wire p) | None => [] end).
Definition GetPartitionsReqResult_canon (p : wGetPartitionsReqResult) : wGetPartitionsReqResult :=
  mk_wGetPartitionsReqResult (PartitionsResponse_canon <$> wGetPartitionsReqResult_Success p)
    (wGetPartitionsReqResult_O1 p)
    (wGetPartitionsReqResult_O2 p).
Definition GetPartitionsReqResult_ok (p : wGetPartitionsReqResult) : Prop :=
  forall v, wGetPartitionsReqResult_Success p = Some v -> PartitionsResponse_ok v.

Lemma GetPartitionsReqResult_writes strict d p : (5 <= d)%nat -> (3 + sub_depth <= d)%nat -> (strict -> forall p0, p = Some p0 -> GetPartitionsReqResult_ok p0) -> 
  writes strict d (GetPartitionsReqResult_Write p) (GetPartitionsReqResult_toks p).
Proof. enter_valid GetPartitionsReqResult_ok. unfold GetPartitionsReqResult_wire, GetPartitionsReqResult_writeField0, GetPartitionsReqResult_writeField1, GetPartitionsReqResult_writeField2. write_fields. Qed.
Lemma GetPartitionsReqResult_runs d fuel p : (4 <= d)%nat -> (2 + sub_depth <= d)%nat -> (14 <= fuel)%nat -> (sub_fuel <= fuel)%nat -> 
  exists ids, runs d (GetPartitionsReqResult_switch fuel) (concat (GetPartitionsReqResult_wire p)) zero_GetPartitionsReqResult (GetPartitionsReqResult_canon p) ids.
Proof.
  intros Hd Hsub Hf Hsf. unfold GetPartitionsReqResult_wire. eexists.
  cbn [concat]. run_opt GetPartitionsReqResult_set_Success PartitionsResponse_canon.
  run_opt_same GetPartitionsReqResult_set_O1.
  run_opt_same GetPartitionsReqResult_set_O2.
  run_end.
Qed.
Lemma GetPartitionsReqResult_reads d fuel p : (5 <= d)%nat -> (3 + sub_depth <= d)%nat -> (14 <= fuel)%nat -> (sub_fuel <= fuel)%nat -> 
  reads d (GetPartitionsReqResult_Read fuel zero_GetPartitionsReqResult) (GetPartitionsReqResult_toks (Some p)) (GetPartitionsReqResult_canon p).
Proof. struct_reads GetPartitionsReqResult_runs GetPartitionsReqResult_wire. Qed.
#[local] Hint Resolve GetPartitionsReqResult_writes GetPartitionsReqResult_reads : wire.
Lemma GetPartitionsReqResult_value p : value (8 + sub_nest) STRUCT (GetPartitionsReqResult_toks p).
Proof. struct_is_value GetPartitionsReqResult_toks GetPartitionsReqResult_wire. Qed.
#[local] Hint Resolve GetPartitionsReqResult_value : wire_value.
Definition GetPartitionsReqResult_codec : codec GetPartitionsReqResult_Write (fun fuel => GetPartitionsReqResult_Read fuel zero_GetPartitionsReqResult).
Proof. codec_by (fun p => GetPartitionsReqResult_ok p) GetPartitionsReqResult_toks GetPartitionsReqResult_canon GetPartitionsReqResult_writes GetPartitionsReqResult_value GetPartitionsReqResult_reads. Defined.

(** ** get_partition_names *)

Definition GetPartitionNamesArgs_wire (p : wGetPartitionNamesArgs) : list (list wfield) :=
  [[(1, STRING, [KString (wGetPartitionNamesArgs_DbName p)])];
   [(2, STRING, [KString (wGetPartitionNamesArgs_TblName p)])];
   [(3, I16, [KI16 (wGetPartitionNamesArgs_MaxParts p)])]].
Definition GetPartitionNamesArgs_toks (p : option wGetPartitionNamesArgs) : list tok :=
  struct_toks (match p with Some p => concat (GetPartitionNamesArgs_wire p) | None => [] end).
Definition GetPartitionNamesArgs_canon (p : wGetPartitionNamesArgs) : wGetPartitionNamesArgs :=
  mk_wGetPartitionNamesArgs (wGetPartitionNamesArgs_DbName p)
    (wGetPartitionNamesArgs_TblName p)
    (wGetPartitionNamesArgs_MaxParts p).

Lemma GetPartitionNamesArgs_writes strict d p : (1 <= d)%nat -> 
  writes strict d (GetPartitionNamesArgs_Write p) (GetPartitionNamesArgs_toks p).
Proof. enter_struct. unfold GetPartitionNamesArgs_wire, GetPartitionNamesArgs_writeField1, GetPartitionNamesArgs_writeField2, GetPartitionNamesArgs_writeField3. write_fields. Qed.
Lemma GetPartitionNamesArgs_runs d fuel p : (0 <= d)%nat -> (4 <= fuel)%nat -> 
  exists ids, runs d GetPartitionNamesArgs_switch (concat (GetPartitionNamesArgs_wire p)) zero_GetPartitionNamesArgs (GetPartitionNamesArgs_canon p) ids.
Proof.
  intros Hd Hf. unfold GetPartitionNamesArgs_wire. eexists.
  cbn [concat]. run_one.
  run_one.
  run_one.
  run_end.
Qed.
Lemma GetPartitionNamesArgs_reads d fuel p : (1 <= d)%nat -> (4 <= fuel)%nat -> 
  reads d (GetPartitionNamesArgs_Read fuel zero_GetPartitionNamesArgs) (GetPartitionNamesArgs_toks (Some p)) (GetPartitionNamesArgs_canon p).
Proof. struct_reads GetPartitionNamesArgs_runs GetPartitionNamesArgs_wire. Qed.
#[local] Hint Resolve GetPartitionNamesArgs_writes GetPartitionNamesArgs_reads : wire.
Lemma GetPartitionNamesArgs_value p : value 1 STRUCT (GetPartitionNamesArgs_toks p).
Proof. struct_is_value GetPartitionNamesArgs_toks GetPartitionNamesArgs_wire. Qed.
#[local] Hint Resolve GetPartitionNamesArgs_value : wire_value.
Definition GetPartitionNamesArgs_codec : codec GetPartitionNamesArgs_Write (fun fuel => GetPartitionNamesArgs_Read fuel zero_GetPartitionNamesArgs).
Proof. codec_by (fun _ => True) GetPartitionNamesArgs_toks GetPartitionNamesArgs_canon GetPartitionNamesArgs_writes GetPartitionNamesArgs_value GetPartitionNamesArgs_reads. Defined.

Definition GetPartitionNamesResult_wire (p : wGetPartitionNamesResult) : list (list wfield) :=
  [when_part (bool_decide (is_Some (wGetPartitionNamesResult_Success p))) (0, LIST, strings_toks (wGetPartitionNamesResult_Success p));
   opt_part (wGetPartitionNamesResult_O1 p) (fun v => (1, STRUCT, Exception_toks (Some v)));
   opt_part (wGetPartitionNamesResult_O2 p) (fun v => (2, STRUCT, Exception_toks (Some v)))].
Definition GetPartitionNamesResult_toks (p : option wGetPartitionNamesResult) : list tok :=
  struct_toks (match p with Some p => concat (GetPartitionNamesResult_wire p) | None => [] end).
Definition GetPartitionNamesResult_canon (p : wGetPartitionNamesResult) : wGetPartitionNamesResult :=
  mk_wGetPartitionNamesResult (wGetPartitionNamesResult_Success p)
    (wGetPartitionNamesResult_O1 p)
    (wGetPartitionNamesResult_O2 p).

Lemma GetPartitionNamesResult_writes strict d p : (2 <= d)%nat -> 
  writes strict d (GetPartitionNamesResult_Write p) (GetPartitionNamesResult_toks p).
Proof. enter_struct. unfold GetPartitionNamesResult_wire, GetPartitionNamesResult_writeField0, GetPartitionNamesResult_writeField1, GetPartitionNamesResult_writeField2. write_fields. Qed.
Lemma GetPartitionNamesResult_runs d fuel p : (1 <= d)%nat -> (4 <= fuel)%nat -> 
  exists ids, runs d (GetPartitionNamesResult_switch fuel) (concat (GetPartitionNamesResult_wire p)) zero_GetPartitionNamesResult (GetPartitionNamesResult_canon p) ids.
Proof.
  intros Hd Hf. unfold GetPartitionNamesResult_wire. eexists.
  cbn [concat]. run_slice_same GetPartitionNamesResult_set_Success.
  run_opt_same GetPartitionNamesResult_set_O1.
  run_opt_same GetPartitionNamesResult_set_O2.
  run_end.
Qed.
Lemma GetPartitionNamesResult_reads d fuel p : (2 <= d)%nat -> (4 <= fuel)%nat -> 
  reads d (GetPartitionNamesResult_Read fuel zero_GetPartitionNamesResult) (GetPartitionNamesResult_toks (Some p)) (GetPartitionNamesResult_canon p).
Proof. struct_reads GetPartitionNamesResult_runs GetPartitionNamesResult_wire. Qed.
#[local] Hint Resolve GetPartitionNamesResult_writes GetPartitionNamesResult_reads : wire.
Lemma GetPartitionNamesResult_value p : value 2 STRUCT (GetPartitionNamesResult_toks p).
Proof. struct_is_value GetPartitionNamesResult_toks GetPartitionNamesResult_wire. Qed.
#[local] Hint Resolve GetPartitionNamesResult_value : wire_value.
Definition GetPartitionNamesResult_codec : codec GetPartitionNamesResult_Write (fun fuel => GetPartitionNamesResult_Read fuel zero_GetPartitionNamesResult).
Proof. codec_by (fun _ => True) GetPartitionNamesResult_toks GetPartitionNamesResult_canon GetPartitionNamesResult_writes GetPartitionNamesResult_value GetPartitionNamesResult_reads. Defined.

(** ** add_partitions_req *)

Definition AddPartitionsReqArgs_wire (p : wAddPartitionsReqArgs) : list (list wfield) :=
  [opt_part (wAddPartitionsReqArgs_Request p) (fun v => (1, STRUCT, AddPartitionsRequest_toks (Some v)))].
Definition AddPartitionsReqArgs_toks (p : option wAddPartitionsReqArgs) : list tok :=
  struct_toks (match p with Some p => concat (AddPartitionsReqArgs_wire p) | None => [] end).
Definition AddPartitionsReqArgs_canon (p : wAddPartitionsReqArgs) : wAddPartitionsReqArgs :=
  mk_wAddPartitionsReqArgs (AddPartitionsRequest_canon <$> wAddPartitionsReqArgs_Request p).
Definition AddPartitionsReqArgs_ok (p : wAddPartitionsReqArgs) : Prop :=
  forall v, wAddPartitionsReqArgs_Request p = Some v -> AddPartitionsRequest_ok v.

Lemma AddPartitionsReqArgs_writes strict d p : (5 <= d)%nat -> (3 + sub_depth <= d)%nat -> (strict -> forall p0, p = Some p0 -> AddPartitionsReqArgs_ok p0) -> 
  writes strict d (AddPartitionsReqArgs_Write p) (AddPartitionsReqArgs_toks p).
Proof. enter_valid AddPartitionsReqArgs_ok. unfold AddPartitionsReqArgs_wire, AddPartitionsReqArgs_writeField1. write_fields. Qed.
Lemma AddPartitionsReqArgs_runs d fuel p : (4 <= d)%nat -> (2 + sub_depth <= d)%nat -> (14 <= fuel)%nat -> (sub_fuel <= fuel)%nat -> 
  exists ids, runs d (AddPartitionsReqArgs_switch fuel) (concat (AddPartitionsReqArgs_wire p)) zero_AddPartitionsReqArgs (AddPartitionsReqArgs_canon p) ids.
Proof.
  intros Hd Hsub Hf Hsf. unfold AddPartitionsReqArgs_wire. eexists.
  cbn [concat]. run_opt AddPartitionsReqArgs_set_Request AddPartitionsRequest_canon.
  run_end.
Qed.
Lemma AddPartitionsReqArgs_reads d fuel p : (5 <= d)%nat -> (3 + sub_depth <= d)%nat -> (14 <= fuel)%nat -> (sub_fuel <= fuel)%nat -> 
  reads d (AddPartitionsReqArgs_Read fuel zero_AddPartitionsReqArgs) (AddPartitionsReqArgs_toks (Some p)) (AddPartitionsReqArgs_canon p).
Proof. struct_reads AddPartitionsReqArgs_runs AddPartitionsReqArgs_wire. Qed.
#[local] Hint Resolve AddPartitionsReqArgs_writes AddPartitionsReqArgs_reads : wire.
Lemma AddPartitionsReqArgs_value p : value (8 + sub_nest) STRUCT (AddPartitionsReqArgs_toks p).
Proof. struct_is_value AddPartitionsReqArgs_toks AddPartitionsReqArgs_wire. Qed.
#[local] Hint Resolve AddPartitionsReqArgs_value : wire_value.
Definition AddPartitionsReqArgs_codec : codec AddPartitionsReqArgs_Write (fun fuel => AddPartitionsReqArgs_Read fuel zero_AddPartitionsReqArgs).
Proof. codec_by (fun p => AddPartitionsReqArgs_ok p) AddPartitionsReqArgs_toks AddPartitionsReqArgs_canon AddPartitionsReqArgs_writes AddPartitionsReqArgs_value AddPartitionsReqArgs_reads. Defined.

Definition AddPartitionsReqResult_wire (p : wAddPartitionsReqResult) : list (list wfield) :=
  [opt_part (wAddPartitionsReqResult_Success p) (fun v => (0, STRUCT, AddPartitionsResult__toks (Some v)));
   opt_part (wAddPartitionsReqResult_O1 p) (fun v => (1, STRUCT, Exception_toks (Some v)));
   opt_part (wAddPartitionsReqResult_O2 p) (fun v => (2, STRUCT, Exception_toks (Some v)));
   opt_part (wAddPartitionsReqResult_O3 p) (fun v => (3, STRUCT, Exception_toks (Some v)))].
Definition AddPartitionsReqResult_toks (p : option wAddPartitionsReqResult) : list tok :=
  struct_toks (match p with Some p => concat (AddPartitionsReqResult_wire p) | None => [] end).
Definition AddPartitionsReqResult_canon (p : wAddPartitionsReqResult) : wAddPartitionsReqResult :=
  mk_wAddPartitionsReqResult (AddPartitionsResult__canon <$> wAddPartitionsReqResult_Success p)
    (wAddPartitionsReqResult_O1 p)
    (wAddPartitionsReqResult_O2 p)
    (wAddPartitionsReqResult_O3 p).
Definition AddPartitionsReqResult_ok (p : wAddPartitionsReqResult) : Prop :=
  forall v, wAddPartitionsReqResult_Success p = Some v -> AddPartitionsResult__ok v.

Lemma AddPartitionsReqResult_writes strict d p : (5 <= d)%nat -> (3 + sub_depth <= d)%nat -> (strict -> forall p0, p = Some p0 -> AddPartitionsReqResult_ok p0) -> 
  writes strict d (AddPartitionsReqResult_Write p) (AddPartitionsReqResult_toks p).
Proof. enter_valid AddPartitionsReqResult_ok. unfold AddPartitionsReqResult_wire, AddPartitionsReqResult_writeField0, AddPartitionsReqResult_writeField1, AddPartitionsReqResult_writeField2, AddPartitionsReqResult_writeField3. write_fields. Qed.
Lemma AddPartitionsReqResult_runs d fuel p : (4 <= d)%nat -> (2 + sub_depth <= d)%nat -> (14 <= fuel)%nat -> (sub_fuel <= fuel)%nat -> 
  exists ids, runs d (AddPartitionsReqResult_switch fuel) (concat (AddPartitionsReqResult_wire p)) zero_AddPartitionsReqResult (AddPartitionsReqResult_canon p) ids.
Proof.
  intros Hd Hsub Hf Hsf. unfold AddPartitionsReqResult_wire. eexists.
  cbn [concat]. run_opt AddPartitionsReqResult_set_Success AddPartitionsResult__canon.
  run_opt_same AddPartitionsReqResult_set_O1.
  run_opt_same AddPartitionsReqResult_set_O2.
  run_opt_same AddPartitionsReqResult_set_O3.
  run_end.
Qed.
Lemma AddPartitionsReqResult_reads d fuel p : (5 <= d)%nat -> (3 + sub_depth <= d)%nat -> (14 <= fuel)%nat -> (sub_fuel <= fuel)%nat -> 
  reads d (AddPartitionsReqResult_Read fuel zero_AddPartitionsReqResult) (AddPartitionsReqResult_toks (Some p)) (AddPartitionsReqResult_canon p).
Proof. struct_reads AddPartitionsReqResult_runs AddPartitionsReqResult_wire. Qed.
#[local] Hint Resolve AddPartitionsReqResult_writes AddPartitionsReqResult_reads : wire.
Lemma AddPartitionsReqResult_value p : value (8 + sub_nest) STRUCT (AddPartitionsReqResult_toks p).
Proof. struct_is_value AddPartitionsReqResult_toks AddPartitionsReqResult_wire. Qed.
#[local] Hint Resolve AddPartitionsReqResult_value : wire_value.
Definition AddPartitionsReqResult_codec : codec AddPartitionsReqResult_Write (fun fuel => AddPartitionsReqResult_Read fuel zero_AddPartitionsReqResult).
Proof. codec_by (fun p => AddPartitionsReqResult_ok p) AddPartitionsReqResult_toks AddPartitionsReqResult_canon AddPartitionsReqResult_writes AddPartitionsReqResult_value AddPartitionsReqResult_reads. Defined.

(** ** alter_partitions *)

Definition AlterPartitionsArgs_wire (p : wAlterPartitionsArgs) : list (list wfield) :=
  [[(1, STRING, [KString (wAlterPartitionsArgs_DbName p)])];
   [(2, STRING, [KString (wAlterPartitionsArgs_TblName p)])];
   [(3, LIST, list_toks STRUCT Partition_toks (wAlterPartitionsArgs_NewParts_ p))]].
Definition AlterPartitionsArgs_toks (p : option wAlterPartitionsArgs) : list tok :=
  struct_toks (match p with Some p => concat (AlterPartitionsArgs_wire p) | None => [] end).
Definition AlterPartitionsArgs_canon (p : wAlterPartitionsArgs) : wAlterPartitionsArgs :=
  mk_wAlterPartitionsArgs (wAlterPartitionsArgs_DbName p)
    (wAlterPartitionsArgs_TblName p)
    (Some (map (fun v => Some (Partition_own v)) (elems (wAlterPartitionsArgs_NewParts_ p)))).
Definition AlterPartitionsArgs_ok (p : wAlterPartitionsArgs) : Prop :=
  Forall (fun o => forall v, o = Some v -> Partition_ok v) (elems (wAlterPartitionsArgs_NewParts_ p)).

Lemma AlterPartitionsArgs_writes strict d p : (4 <= d)%nat -> (2 + sub_depth <= d)%nat -> (strict -> forall p0, p = Some p0 -> AlterPartitionsArgs_ok p0) -> 
  writes strict d (AlterPartitionsArgs_Write p) (AlterPartitionsArgs_toks p).
Proof. enter_valid AlterPartitionsArgs_ok. unfold AlterPartitionsArgs_wire, AlterPartitionsArgs_writeField1, AlterPartitionsArgs_writeField2, AlterPartitionsArgs_writeField3. write_fields. Qed.
Lemma AlterPartitionsArgs_runs d fuel p : (3 <= d)%nat -> (S sub_depth <= d)%nat -> (14 <= fuel)%nat -> (sub_fuel <= fuel)%nat -> 
  exists ids, runs d (AlterPartitionsArgs_switch fuel) (concat (AlterPartitionsArgs_wire p)) zero_AlterPartitionsArgs (AlterPartitionsArgs_canon p) ids.
Proof.
  intros Hd Hsub Hf Hsf. unfold AlterPartitionsArgs_wire. eexists.
  cbn [concat]. run_one.
  run_one.
  run_one.
  run_end.
Qed.
Lemma AlterPartitionsArgs_reads d fuel p : (4 <= d)%nat -> (2 + sub_depth <= d)%nat -> (14 <= fuel)%nat -> (sub_fuel <= fuel)%nat -> 
  reads d (AlterPartitionsArgs_Read fuel zero_AlterPartitionsArgs) (AlterPartitionsArgs_toks (Some p)) (AlterPartitionsArgs_canon p).
Proof. struct_reads AlterPartitionsArgs_runs AlterPartitionsArgs_wire. Qed.
#[local] Hint Resolve AlterPartitionsArgs_writes AlterPartitionsArgs_reads : wire.
Lemma AlterPartitionsArgs_value p : value (7 + sub_nest) STRUCT (AlterPartitionsArgs_toks p).
Proof. struct_is_value AlterPartitionsArgs_toks AlterPartitionsArgs_wire. Qed.
#[local] Hint Resolve AlterPartitionsArgs_value : wire_value.
Definition AlterPartitionsArgs_codec : codec AlterPartitionsArgs_Write (fun fuel => AlterPartitionsArgs_Read fuel zero_AlterPartitionsArgs).
Proof. codec_by (fun p => AlterPartitionsArgs_ok p) AlterPartitionsArgs_toks AlterPartitionsArgs_canon AlterPartitionsArgs_writes AlterPartitionsArgs_value AlterPartitionsArgs_reads. Defined.

Definition AlterPartitionsResult_wire (p : wAlterPartitionsResult) : list (list wfield) :=
  [opt_part (wAlterPartitionsResult_O1 p) (fun v => (1, STRUCT, Exception_toks (Some v)));
   opt_part (wAlterPartitionsResult_O2 p) (fun v => (2, STRUCT, Exception_toks (Some v)))].
Definition AlterPartitionsResult_toks (p : option wAlterPartitionsResult) : list tok :=
  struct_toks (match p with Some p => concat (AlterPartitionsResult_wire p) | None => [] end).
Definition AlterPartitionsResult_canon (p : wAlterPartitionsResult) : wAlterPartitionsResult :=
  mk_wAlterPartitionsResult (wAlterPartitionsResult_O1 p)
    (wAlterPartitionsResult_O2 p).

Lemma AlterPartitionsResult_writes strict d p : (2 <= d)%nat -> 
  writes strict d (AlterPartitionsResult_Write p) (AlterPartitionsResult_toks p).
Proof. enter_struct. unfold AlterPartitionsResult_wire, AlterPartitionsResult_writeField1, AlterPartitionsResult_writeField2. write_fields. Qed.
Lemma AlterPartitionsResult_runs d fuel p : (1 <= d)%nat -> (3 <= fuel)%nat -> 
  exists ids, runs d (AlterPartitionsResult_switch fuel) (concat (AlterPartitionsResult_wire p)) zero_AlterPartitionsResult (AlterPartitionsResult_canon p) ids.
Proof.
  intros Hd Hf. unfold AlterPartitionsResult_wire. eexists.
  cbn [concat]. run_opt_same AlterPartitionsResult_set_O1.
  run_opt_same AlterPartitionsResult_set_O2.
  run_end.
Qed.
Lemma AlterPartitionsResult_reads d fuel p : (2 <= d)%nat -> (3 <= fuel)%nat -> 
  reads d (AlterPartitionsResult_Read fuel zero_AlterPartitionsResult) (AlterPartitionsResult_toks (Some p)) (AlterPartitionsResult_canon p).
Proof. struct_reads AlterPartitionsResult_runs AlterPartitionsResult_wire. Qed.
#[local] Hint Resolve AlterPartitionsResult_writes AlterPartitionsResult_reads : wire.
Lemma AlterPartitionsResult_value p : value 2 STRUCT (AlterPartitionsResult_toks p).
Proof. struct_is_value AlterPartitionsResult_toks AlterPartitionsResult_wire. Qed.
#[local] Hint Resolve AlterPartitionsResult_value : wire_value.
Definition AlterPartitionsResult_codec : codec AlterPartitionsResult_Write (fun fuel => AlterPartitionsResult_Read fuel zero_AlterPartitionsResult).
Proof. codec_by (fun _ => True) AlterPartitionsResult_toks AlterPartitionsResult_canon AlterPartitionsResult_writes AlterPartitionsResult_value AlterPartitionsResult_reads. Defined.

(** ** alter_partitions_req *)

Definition AlterPartitionsReqArgs_wire (p : wAlterPartitionsReqArgs) : list (list wfield) :=
  [opt_part (wAlterPartitionsReqArgs_Req p) (fun v => (1, STRUCT, AlterPartitionsRequest_toks (Some v)))].
Definition AlterPartitionsReqArgs_toks (p : option wAlterPartitionsReqArgs) : list tok :=
  struct_toks (match p with Some p => concat (AlterPartitionsReqArgs_wire p) | None => [] end).
Definition AlterPartitionsReqArgs_canon (p : wAlterPartitionsReqArgs) : wAlterPartitionsReqArgs :=
  mk_wAlterPartitionsReqArgs (AlterPartitionsRequest_canon <$> wAlterPartitionsReqArgs_Req p).
Definition AlterPartitionsReqArgs_ok (p : wAlterPartitionsReqArgs) : Prop :=
  forall v, wAlterPartitionsReqArgs_Req p = Some v -> AlterPartitionsRequest_ok v.

Lemma AlterPartitionsReqArgs_writes strict d p : (5 <= d)%nat -> (3 + sub_depth <= d)%nat -> (strict -> forall p0, p = Some p0 -> AlterPartitionsReqArgs_ok p0) -> 
  writes strict d (AlterPartitionsReqArgs_Write p) (AlterPartitionsReqArgs_toks p).
Proof. enter_valid AlterPartitionsReqArgs_ok. unfold AlterPartitionsReqArgs_wire, AlterPartitionsReqArgs_writeField1. write_fields. Qed.
Lemma AlterPartitionsReqArgs_runs d fuel p : (4 <= d)%nat -> (2 + sub_depth <= d)%nat -> (14 <= fuel)%nat -> (sub_fuel <= fuel)%nat -> 
  exists ids, runs d (AlterPartitionsReqArgs_switch fuel) (concat (AlterPartitionsReqArgs_wire p)) zero_AlterPartitionsReqArgs (AlterPartitionsReqArgs_canon p) ids.
Proof.
  intros Hd Hsub Hf Hsf. unfold AlterPartitionsReqArgs_wire. eexists.
  cbn [concat]. run_opt AlterPartitionsReqArgs_set_Req AlterPartitionsRequest_canon.
  run_end.
Qed.
Lemma AlterPartitionsReqArgs_reads d fuel p : (5 <= d)%nat -> (3 + sub_depth <= d)%nat -> (14 <= fuel)%nat -> (sub_fuel <= fuel)%nat -> 
  reads d (AlterPartitionsReqArgs_Read fuel zero_AlterPartitionsReqArgs) (AlterPartitionsReqArgs_toks (Some p)) (AlterPartitionsReqArgs_canon p).
Proof. struct_reads AlterPartitionsReqArgs_runs AlterPartitionsReqArgs_wire. Qed.
#[local] Hint Resolve AlterPartitionsReqArgs_writes AlterPartitionsReqArgs_reads : wire.
Lemma AlterPartitionsReqArgs_value p : value (8 + sub_nest) STRUCT (AlterPartitionsReqArgs_toks p).
Proof. struct_is_value AlterPartitionsReqArgs_toks AlterPartitionsReqArgs_wire. Qed.
#[local] Hint Resolve AlterPartitionsReqArgs_value : wire_value.
Definition AlterPartitionsReqArgs_codec : codec AlterPartitionsReqArgs_Write (fun fuel => AlterPartitionsReqArgs_Read fuel zero_AlterPartitionsReqArgs).
Proof. codec_by (fun p => AlterPartitionsReqArgs_ok p) AlterPartitionsReqArgs_toks AlterPartitionsReqArgs_canon AlterPartitionsReqArgs_writes AlterPartitionsReqArgs_value AlterPartitionsReqArgs_reads. Defined.

Definition AlterPartitionsReqResult_wire (p : wAlterPartitionsReqResult) : list (list wfield) :=
  [opt_part (wAlterPartitionsReqResult_Success p) (fun v => (0, STRUCT, AlterPartitionsResponse_toks (Some v)));
   opt_part (wAlterPartitionsReqResult_O1 p) (fun v => (1, STRUCT, Exception_toks (Some v)));
   opt_part (wAlterPartitionsReqResult_O2 p) (fun v => (2, STRUCT, Exception_toks (Some v)))].
Definition AlterPartitionsReqResult_toks (p : option wAlterPartitionsReqResult) : list tok :=
  struct_toks (match p with Some p => concat (AlterPartitionsReqResult_wire p) | None => [] end).
Definition AlterPartitionsReqResult_canon (p : wAlterPartitionsReqResult) : wAlterPartitionsReqResult :=
  mk_wAlterPartitionsReqResult (AlterPartitionsResponse_canon <$> wAlterPartitionsReqResult_Success p)
    (wAlterPartitionsReqResult_O1 p)
    (wAlterPartitionsReqResult_O2 p).

Lemma AlterPartitionsReqResult_writes strict d p : (2 <= d)%nat -> 
  writes strict d (AlterPartitionsReqResult_Write p) (AlterPartitionsReqResult_toks p).
Proof. enter_struct. unfold AlterPartitionsReqResult_wire, AlterPartitionsReqResult_writeField0, AlterPartitionsReqResult_writeField1, AlterPartitionsReqResult_writeField2. write_fields. Qed.
Lemma AlterPartitionsReqResult_runs d fuel p : (1 <= d)%nat -> (4 <= fuel)%nat -> 
  exists ids, runs d (AlterPartitionsReqResult_switch fuel) (concat (AlterPartitionsReqResult_wire p)) zero_AlterPartitionsReqResult (AlterPartitionsReqResult_canon p) ids.
Proof.
  intros Hd Hf. unfold AlterPartitionsReqResult_wire. eexists.
  cbn [concat]. run_opt AlterPartitionsReqResult_set_Success AlterPartitionsResponse_canon.
  run_opt_same AlterPartitionsReqResult_set_O1.
  run_opt_same AlterPartitionsReqResult_set_O2.
  run_end.
Qed.
Lemma AlterPartitionsReqResult_reads d fuel p : (2 <= d)%nat -> (4 <= fuel)%nat -> 
  reads d (AlterPartitionsReqResult_Read fuel zero_AlterPartitionsReqResult) (AlterPartitionsReqResult_toks (Some p)) (AlterPartitionsReqResult_canon p).
Proof. struct_reads AlterPartitionsReqResult_runs AlterPartitionsReqResult_wire. Qed.
#[local] Hint Resolve AlterPartitionsReqResult_writes AlterPartitionsReqResult_reads : wire.
Lemma AlterPartitionsReqResult_value p : value 2 STRUCT (AlterPartitionsReqResult_toks p).
Proof. struct_is_value AlterPartitionsReqResult_toks AlterPartitionsReqResult_wire. Qed.
#[local] Hint Resolve AlterPartitionsReqResult_value : wire_value.
Definition AlterPartitionsReqResult_codec : codec AlterPartitionsReqResult_Write (fun fuel => AlterPartitionsReqResult_Read fuel zero_AlterPartitionsReqResult).
Proof. codec_by (fun _ => True) AlterPartitionsReqResult_toks AlterPartitionsReqResult_canon AlterPartitionsReqResult_writes AlterPartitionsReqResult_value AlterPartitionsReqResult_reads. Defined.

(** ** drop_partition *)

Definition DropPartitionArgs_wire (p : wDropPartitionArgs) : list (list wfield) :=
  [[(1, STRING, [KString (wDropPartitionArgs_DbName p)])];
   [(2, STRING, [KString (wDropPartitionArgs_TblName p)])];
   [(3, LIST, strings_toks (wDropPartitionArgs_PartVals p))];
   [(4, BOOL, [KBool (wDropPartitionArgs_DeleteData p)])]].
Definition DropPartitionArgs_toks (p : option wDropPartitionArgs) : list tok :=
  struct_toks (match p with Some p => concat (DropPartitionArgs_wire p) | None => [] end).
Definition DropPartitionArgs_canon (p : wDropPartitionArgs) : wDropPartitionArgs :=
  mk_wDropPartitionArgs (wDropPartitionArgs_DbName p)
    (wDropPartitionArgs_TblName p)
    (own_strings (wDropPartitionArgs_PartVals p))
    (wDropPartitionArgs_DeleteData p).

Lemma DropPartitionArgs_writes strict d p : (1 <= d)%nat -> 
  writes strict d (DropPartitionArgs_Write p) (DropPartitionArgs_toks p).
Proof. enter_struct. unfold DropPartitionArgs_wire, DropPartitionArgs_writeField1, DropPartitionArgs_writeField2, DropPartitionArgs_writeField3, DropPartitionArgs_writeField4. write_fields. Qed.
Lemma DropPartitionArgs_runs d fuel p : (0 <= d)%nat -> (5 <= fuel)%nat -> 
  exists ids, runs d DropPartitionArgs_switch (concat (DropPartitionArgs_wire p)) zero_DropPartitionArgs (DropPartitionArgs_canon p) ids.
Proof.
  intros Hd Hf. unfold DropPartitionArgs_wire. eexists.
  cbn [concat]. run_one.
  run_one.
  run_one.
  run_one.
  run_end.
Qed.
Lemma DropPartitionArgs_reads d fuel p : (1 <= d)%nat -> (5 <= fuel)%nat -> 
  reads d (DropPartitionArgs_Read fuel zero_DropPartitionArgs) (DropPartitionArgs_toks (Some p)) (DropPartitionArgs_canon p).
Proof. struct_reads DropPartitionArgs_runs DropPartitionArgs_wire. Qed.
#[local] Hint Resolve DropPartitionArgs_writes DropPartitionArgs_reads : wire.
Lemma DropPartitionArgs_value p : value 2 STRUCT (DropPartitionArgs_toks p).
Proof. struct_is_value DropPartitionArgs_toks DropPartitionArgs_wire. Qed.
#[local] Hint Resolve DropPartitionArgs_value : wire_value.
Definition DropPartitionArgs_codec : codec DropPartitionArgs_Write (fun fuel => DropPartitionArgs_Read fuel zero_DropPartitionArgs).
Proof. codec_by (fun _ => True) DropPartitionArgs_toks DropPartitionArgs_canon DropPartitionArgs_writes DropPartitionArgs_value DropPartitionArgs_reads. Defined.

Definition DropPartitionResult_wire (p : wDropPartitionResult) : list (list wfield) :=
  [opt_part (wDropPartitionResult_Success p) (fun v => (0, BOOL, [KBool v]));
   opt_part (wDropPartitionResult_O1 p) (fun v => (1, STRUCT, Exception_toks (Some v)));
   opt_part (wDropPartitionResult_O2 p) (fun v => (2, STRUCT, Exception_toks (Some v)))].
Definition DropPartitionResult_toks (p : option wDropPartitionResult) : list tok :=
  struct_toks (match p with Some p => concat (DropPartitionResult_wire p) | None => [] end).
Definition DropPartitionResult_canon (p : wDropPartitionResult) : wDropPartitionResult :=
  mk_wDropPartitionResult (wDropPartitionResult_Success p)
    (wDropPartitionResult_O1 p)
    (wDropPartitionResult_O2 p).

Lemma DropPartitionResult_writes strict d p : (2 <= d)%nat -> 
  writes strict d (DropPartitionResult_Write p) (DropPartitionResult_toks p).
Proof. enter_struct. unfold DropPartitionResult_wire, DropPartitionResult_writeField0, DropPartitionResult_writeField1, DropPartitionResult_writeField2. write_fields. Qed.
Lemma DropPartitionResult_runs d fuel p : (1 <= d)%nat -> (4 <= fuel)%nat -> 
  exists ids, runs d (DropPartitionResult_switch fuel) (concat (DropPartitionResult_wire p)) zero_DropPartitionResult (DropPartitionResult_canon p) ids.
Proof.
  intros Hd Hf. unfold DropPartitionResult_wire. eexists.
  cbn [concat]. run_opt_same DropPartitionResult_set_Success.
  run_opt_same DropPartitionResult_set_O1.
  run_opt_same DropPartitionResult_set_O2.
  run_end.
Qed.
Lemma DropPartitionResult_reads d fuel p : (2 <= d)%nat -> (4 <= fuel)%nat -> 
  reads d (DropPartitionResult_Read fuel zero_DropPartitionResult) (DropPartitionResult_toks (Some p)) (DropPartitionResult_canon p).
Proof. struct_reads DropPartitionResult_runs DropPartitionResult_wire. Qed.
#[local] Hint Resolve DropPartitionResult_writes DropPartitionResult_reads : wire.
Lemma DropPartitionResult_value p : value 2 STRUCT (DropPartitionResult_toks p).
Proof. struct_is_value DropPartitionResult_toks DropPartitionResult_wire. Qed.
#[local] Hint Resolve DropPartitionResult_value : wire_value.
Definition DropPartitionResult_codec : codec DropPartitionResult_Write (fun fuel => DropPartitionResult_Read fuel zero_DropPartitionResult).
Proof. codec_by (fun _ => True) DropPartitionResult_toks DropPartitionResult_canon DropPartitionResult_writes DropPartitionResult_value DropPartitionResult_reads. Defined.

(** ** drop_partitions_req *)

Definition DropPartitionsReqArgs_wire (p : wDropPartitionsReqArgs) : list (list wfield) :=
  [opt_part (wDropPartitionsReqArgs_Req p) (fun v => (1, STRUCT, DropPartitionsRequest_toks (Some v)))].
Definition DropPartitionsReqArgs_toks (p : option wDropPartitionsReqArgs) : list tok :=
  struct_toks (match p with Some p => concat (DropPartitionsReqArgs_wire p) | None => [] end).
Definition DropPartitionsReqArgs_canon (p : wDropPartitionsReqArgs) : wDropPartitionsReqArgs :=
  mk_wDropPartitionsReqArgs (DropPartitionsRequest_canon <$> wDropPartitionsReqArgs_Req p).
Definition DropPartitionsReqArgs_ok (p : wDropPartitionsReqArgs) : Prop :=
  forall v, wDropPartitionsReqArgs_Req p = Some v -> DropPartitionsRequest_ok v.
Definition DropPartitionsReqArgs_full (p : wDropPartitionsReqArgs) : Prop :=
  forall v, wDropPartitionsReqArgs_Req p = Some v -> DropPartitionsRequest_full v.

Lemma DropPartitionsReqArgs_writes strict d p : (3 <= d)%nat -> (3 + sub_depth <= d)%nat -> (strict -> forall p0, p = Some p0 -> DropPartitionsReqArgs_ok p0) -> 
  writes strict d (DropPartitionsReqArgs_Write p) (DropPartitionsReqArgs_toks p).
Proof. enter_valid DropPartitionsReqArgs_ok. unfold DropPartitionsReqArgs_wire, DropPartitionsReqArgs_writeField1. write_fields. Qed.
Lemma DropPartitionsReqArgs_runs d fuel p : (2 <= d)%nat -> (2 + sub_depth <= d)%nat -> (11 <= fuel)%nat -> (sub_fuel <= fuel)%nat -> DropPartitionsReqArgs_full p -> 
  exists ids, runs d (DropPartitionsReqArgs_switch fuel) (concat (DropPartitionsReqArgs_wire p)) zero_DropPartitionsReqArgs (DropPartitionsReqArgs_canon p) ids.
Proof.
  intros Hd Hsub Hf Hsf Hfull. unfold DropPartitionsReqArgs_wire. unfold DropPartitionsReqArgs_full in Hfull. destruct_and? Hfull. eexists.
  cbn [concat]. run_opt DropPartitionsReqArgs_set_Req DropPartitionsRequest_canon.
  run_end.
Qed.
Lemma DropPartitionsReqArgs_reads d fuel p : (3 <= d)%nat -> (3 + sub_depth <= d)%nat -> (11 <= fuel)%nat -> (sub_fuel <= fuel)%nat -> DropPartitionsReqArgs_full p -> 
  reads d (DropPartitionsReqArgs_Read fuel zero_DropPartitionsReqArgs) (DropPartitionsReqArgs_toks (Some p)) (DropPartitionsReqArgs_canon p).
Proof. struct_reads DropPartitionsReqArgs_runs DropPartitionsReqArgs_wire. Qed.
#[local] Hint Resolve DropPartitionsReqArgs_writes DropPartitionsReqArgs_reads : wire.
Lemma DropPartitionsReqArgs_value p : value (4 + sub_nest) STRUCT (DropPartitionsReqArgs_toks p).
Proof. struct_is_value DropPartitionsReqArgs_toks DropPartitionsReqArgs_wire. Qed.
#[local] Hint Resolve DropPartitionsReqArgs_value : wire_value.
Definition DropPartitionsReqArgs_codec : codec DropPartitionsReqArgs_Write (fun fuel => DropPartitionsReqArgs_Read fuel zero_DropPartitionsReqArgs).
Proof. codec_by (fun p => DropPartitionsReqArgs_ok p /\ DropPartitionsReqArgs_full p) DropPartitionsReqArgs_toks DropPartitionsReqArgs_canon DropPartitionsReqArgs_writes DropPartitionsReqArgs_value DropPartitionsReqArgs_reads. Defined.

Definition DropPartitionsReqResult_wire (p : wDropPartitionsReqResult) : list (list wfield) :=
  [opt_part (wDropPartitionsReqResult_Success p) (fun v => (0, STRUCT, DropPartitionsResult__toks (Some v)));
   opt_part (wDropPartitionsReqResult_O1 p) (fun v => (1, STRUCT, Exception_toks (Some v)));
   opt_part (wDropPartitionsReqResult_O2 p) (fun v => (2, STRUCT, Exception_toks (Some v)))].
Definition DropPartitionsReqResult_toks (p : option wDropPartitionsReqResult) : list tok :=
  struct_toks (match p with Some p => concat (DropPartitionsReqResult_wire p) | None => [] end).
Definition DropPartitionsReqResult_canon (p : wDropPartitionsReqResult) : wDropPartitionsReqResult :=
  mk_wDropPartitionsReqResult (DropPartitionsResult__canon <$> wDropPartitionsReqResult_Success p)
    (wDropPartitionsReqResult_O1 p)
    (wDropPartitionsReqResult_O2 p).
Definition DropPartitionsReqResult_ok (p : wDropPartitionsReqResult) : Prop :=
  forall v, wDropPartitionsReqResult_Success p = Some v -> DropPartitionsResult__ok v.

Lemma DropPartitionsReqResult_writes strict d p : (5 <= d)%nat -> (3 + sub_depth <= d)%nat -> (strict -> forall p0, p = Some p0 -> DropPartitionsReqResult_ok p0) -> 
  writes strict d (DropPartitionsReqResult_Write p) (DropPartitionsReqResult_toks p).
Proof. enter_valid DropPartitionsReqResult_ok. unfold DropPartitionsReqResult_wire, DropPartitionsReqResult_writeField0, DropPartitionsReqResult_writeField1, DropPartitionsReqResult_writeField2. write_fields. Qed.
Lemma DropPartitionsReqResult_runs d fuel p : (4 <= d)%nat -> (2 + sub_depth <= d)%nat -> (14 <= fuel)%nat -> (sub_fuel <= fuel)%nat -> 
  exists ids, runs d (DropPartitionsReqResult_switch fuel) (concat (DropPartitionsReqResult_wire p)) zero_DropPartitionsReqResult (DropPartitionsReqResult_canon p) ids.
Proof.
  intros Hd Hsub Hf Hsf. unfold DropPartitionsReqResult_wire. eexists.
  cbn [concat]. run_opt DropPartitionsReqResult_set_Success DropPartitionsResult__canon.
  run_opt_same DropPartitionsReqResult_set_O1.
  run_opt_same DropPartitionsReqResult_set_O2.
  run_end.
Qed.
Lemma DropPartitionsReqResult_reads d fuel p : (5 <= d)%nat -> (3 + sub_depth <= d)%nat -> (14 <= fuel)%nat -> (sub_fuel <= fuel)%nat -> 
  reads d (DropPartitionsReqResult_Read fuel zero_DropPartitionsReqResult) (DropPartitionsReqResult_toks (Some p)) (DropPartitionsReqResult_canon p).
Proof. struct_reads DropPartitionsReqResult_runs DropPartitionsReqResult_wire. Qed.
#[local] Hint Resolve DropPartitionsReqResult_writes DropPartitionsReqResult_reads : wire.
Lemma DropPartitionsReqResult_value p : value (8 + sub_nest) STRUCT (DropPartitionsReqResult_toks p).
Proof. struct_is_value DropPartitionsReqResult_toks DropPartitionsReqResult_wire. Qed.
#[local] Hint Resolve DropPartitionsReqResult_value : wire_value.
Definition DropPartitionsReqResult_codec : codec DropPartitionsReqResult_Write (fun fuel => DropPartitionsReqResult_Read fuel zero_DropPartitionsReqResult).
Proof. codec_by (fun p => DropPartitionsReqResult_ok p) DropPartitionsReqResult_toks DropPartitionsReqResult_canon DropPartitionsReqResult_writes DropPartitionsReqResult_value DropPartitionsReqResult_reads. Defined.

(** ** get_partitions_by_names *)

Definition GetPartitionsByNamesArgs_wire (p : wGetPartitionsByNamesArgs) : list (list wfield) :=
  [[(1, STRING, [KString (wGetPartitionsByNamesArgs_DbName p)])];
   [(2, STRING, [KString (wGetPartitionsByNamesArgs_TblName p)])];
   [(3, LIST, strings_toks (wGetPartitionsByNamesArgs_Names p))]].
Definition GetPartitionsByNamesArgs_toks (p : option wGetPartitionsByNamesArgs) : list tok :=
  struct_toks (match p with Some p => concat (GetPartitionsByNamesArgs_wire p) | None => [] end).
Definition GetPartitionsByNamesArgs_canon (p : wGetPartitionsByNamesArgs) : wGetPartitionsByNamesArgs :=
  mk_wGetPartitionsByNamesArgs (wGetPartitionsByNamesArgs_DbName p)
    (wGetPartitionsByNamesArgs_TblName p)
    (own_strings (wGetPartitionsByNamesArgs_Names p)).

Lemma GetPartitionsByNamesArgs_writes strict d p : (1 <= d)%nat -> 
  writes strict d (GetPartitionsByNamesArgs_Write p) (GetPartitionsByNamesArgs_toks p).
Proof. enter_struct. unfold GetPartitionsByNamesArgs_wire, GetPartitionsByNamesArgs_writeField1, GetPartitionsByNamesArgs_writeField2, GetPartitionsByNamesArgs_writeField3. write_fields. Qed.
Lemma GetPartitionsByNamesArgs_runs d fuel p : (0 <= d)%nat -> (4 <= fuel)%nat -> 
  exists ids, runs d GetPartitionsByNamesArgs_switch (concat (GetPartitionsByNamesArgs_wire p)) zero_GetPartitionsByNamesArgs (GetPartitionsByNamesArgs_canon p) ids.
Proof.
  intros Hd Hf. unfold GetPartitionsByNamesArgs_wire. eexists.
  cbn [concat]. run_one.
  run_one.
  run_one.
  run_end.
Qed.
Lemma GetPartitionsByNamesArgs_reads d fuel p : (1 <= d)%nat -> (4 <= fuel)%nat -> 
  reads d (GetPartitionsByNamesArgs_Read fuel zero_GetPartitionsByNamesArgs) (GetPartitionsByNamesArgs_toks (Some p)) (GetPartitionsByNamesArgs_canon p).
Proof. struct_reads GetPartitionsByNamesArgs_runs GetPartitionsByNamesArgs_wire. Qed.
#[local] Hint Resolve GetPartitionsByNamesArgs_writes GetPartitionsByNamesArgs_reads : wire.
Lemma GetPartitionsByNamesArgs_value p : value 2 STRUCT (GetPartitionsByNamesArgs_toks p).
Proof. struct_is_value GetPartitionsByNamesArgs_toks GetPartitionsByNamesArgs_wire. Qed.
#[local] Hint Resolve GetPartitionsByNamesArgs_value : wire_value.
Definition GetPartitionsByNamesArgs_codec : codec GetPartitionsByNamesArgs_Write (fun fuel => GetPartitionsByNamesArgs_Read fuel zero_GetPartitionsByNamesArgs).
Proof. codec_by (fun _ => True) GetPartitionsByNamesArgs_toks GetPartitionsByNamesArgs_canon GetPartitionsByNamesArgs_writes GetPartitionsByNamesArgs_value GetPartitionsByNamesArgs_reads. Defined.

Definition GetPartitionsByNamesResult_wire (p : wGetPartitionsByNamesResult) : list (list wfield) :=
  [when_part (bool_decide (is_Some (wGetPartitionsByNamesResult_Success p))) (0, LIST, list_toks STRUCT Partition_toks (wGetPartitionsByNamesResult_Success p));
   opt_part (wGetPartitionsByNamesResult_O1 p) (fun v => (1, STRUCT, Exception_toks (Some v)));
   opt_part (wGetPartitionsByNamesResult_O2 p) (fun v => (2, STRUCT, Exception_toks (Some v)));
   opt_part (wGetPartitionsByNamesResult_O3 p) (fun v => (3, STRUCT, Exception_toks (Some v)))].
Definition GetPartitionsByNamesResult_toks (p : option wGetPartitionsByNamesResult) : list tok :=
  struct_toks (match p with Some p => concat (GetPartitionsByNamesResult_wire p) | None => [] end).
Definition GetPartitionsByNamesResult_canon (p : wGetPartitionsByNamesResult) : wGetPartitionsByNamesResult :=
  mk_wGetPartitionsByNamesResult (map (fun v => Some (Partition_own v)) <$> wGetPartitionsByNamesResult_Success p)
    (wGetPartitionsByNamesResult_O1 p)
    (wGetPartitionsByNamesResult_O2 p)
    (wGetPartitionsByNamesResult_O3 p).
Definition GetPartitionsByNamesResult_ok (p : wGetPartitionsByNamesResult) : Prop :=
  Forall (fun o => forall v, o = Some v -> Partition_ok v) (elems (wGetPartitionsByNamesResult_Success p)).

Lemma GetPartitionsByNamesResult_writes strict d p : (4 <= d)%nat -> (2 + sub_depth <= d)%nat -> (strict -> forall p0, p = Some p0 -> GetPartitionsByNamesResult_ok p0) -> 
  writes strict d (GetPartitionsByNamesResult_Write p) (GetPartitionsByNamesResult_toks p).
Proof. enter_valid GetPartitionsByNamesResult_ok. unfold GetPartitionsByNamesResult_wire, GetPartitionsByNamesResult_writeField0, GetPartitionsByNamesResult_writeField1, GetPartitionsByNamesResult_writeField2, GetPartitionsByNamesResult_writeField3. write_fields. Qed.
Lemma GetPartitionsByNamesResult_runs d fuel p : (3 <= d)%nat -> (S sub_depth <= d)%nat -> (14 <= fuel)%nat -> (sub_fuel <= fuel)%nat -> 
  exists ids, runs d (GetPartitionsByNamesResult_switch fuel) (concat (GetPartitionsByNamesResult_wire p)) zero_GetPartitionsByNamesResult (GetPartitionsByNamesResult_canon p) ids.
Proof.
  intros Hd Hsub Hf Hsf. unfold GetPartitionsByNamesResult_wire. eexists.
  cbn [concat]. run_slice GetPartitionsByNamesResult_set_Success (map (fun v => Some (Partition_own v))).
  run_opt_same GetPartitionsByNamesResult_set_O1.
  run_opt_same GetPartitionsByNamesResult_set_O2.
  run_opt_same GetPartitionsByNamesResult_set_O3.
  run_end.
Qed.
Lemma GetPartitionsByNamesResult_reads d fuel p : (4 <= d)%nat -> (2 + sub_depth <= d)%nat -> (14 <= fuel)%nat -> (sub_fuel <= fuel)%nat -> 
  reads d (GetPartitionsByNamesResult_Read fuel zero_GetPartitionsByNamesResult) (GetPartitionsByNamesResult_toks (Some p)) (GetPartitionsByNamesResult_canon p).
Proof. struct_reads GetPartitionsByNamesResult_runs GetPartitionsByNamesResult_wire. Qed.
#[local] Hint Resolve GetPartitionsByNamesResult_writes GetPartitionsByNamesResult_reads : wire.
Lemma GetPartitionsByNamesResult_value p : value (7 + sub_nest) STRUCT (GetPartitionsByNamesResult_toks p).
Proof. struct_is_value GetPartitionsByNamesResult_toks GetPartitionsByNamesResult_wire. Qed.
#[local] Hint Resolve GetPartitionsByNamesResult_value : wire_value.
Definition GetPartitionsByNamesResult_codec : codec GetPartitionsByNamesResult_Write (fun fuel => GetPartitionsByNamesResult_Read fuel zero_GetPartitionsByNamesResult).
Proof. codec_by (fun p => GetPartitionsByNamesResult_ok p) GetPartitionsByNamesResult_toks GetPartitionsByNamesResult_canon GetPartitionsByNamesResult_writes GetPartitionsByNamesResult_value GetPartitionsByNamesResult_reads. Defined.

(** ** get_partitions_by_names_req *)

Definition GetPartitionsByNamesReqArgs_wire (p : wGetPartitionsByNamesReqArgs) : list (list wfield) :=
  [opt_part (wGetPartitionsByNamesReqArgs_Req p) (fun v => (1, STRUCT, GetPartitionsByNamesRequest_toks (Some v)))].
Definition GetPartitionsByNamesReqArgs_toks (p : option wGetPartitionsByNamesReqArgs) : list tok :=
  struct_toks (match p with Some p => concat (GetPartitionsByNamesReqArgs_wire p) | None => [] end).
Definition GetPartitionsByNamesReqArgs_canon (p : wGetPartitionsByNamesReqArgs) : wGetPartitionsByNamesReqArgs :=
  mk_wGetPartitionsByNamesReqArgs (GetPartitionsByNamesRequest_canon <$> wGetPartitionsByNamesReqArgs_Req p).

Lemma GetPartitionsByNamesReqArgs_writes strict d p : (2 <= d)%nat -> 
  writes strict d (GetPartitionsByNamesReqArgs_Write p) (GetPartitionsByNamesReqArgs_toks p).
Proof. enter_struct. unfold GetPartitionsByNamesReqArgs_wire, GetPartitionsByNamesReqArgs_writeField1. write_fields. Qed.
Lemma GetPartitionsByNamesReqArgs_runs d fuel p : (1 <= d)%nat -> (14 <= fuel)%nat -> 
  exists ids, runs d (GetPartitionsByNamesReqArgs_switch fuel) (concat (GetPartitionsByNamesReqArgs_wire p)) zero_GetPartitionsByNamesReqArgs (GetPartitionsByNamesReqArgs_canon p) ids.
Proof.
  intros Hd Hf. unfold GetPartitionsByNamesReqArgs_wire. eexists.
  cbn [concat]. run_opt GetPartitionsByNamesReqArgs_set_Req GetPartitionsByNamesRequest_canon.
  run_end.
Qed.
Lemma GetPartitionsByNamesReqArgs_reads d fuel p : (2 <= d)%nat -> (14 <= fuel)%nat -> 
  reads d (GetPartitionsByNamesReqArgs_Read fuel zero_GetPartitionsByNamesReqArgs) (GetPartitionsByNamesReqArgs_toks (Some p)) (GetPartitionsByNamesReqArgs_canon p).
Proof. struct_reads GetPartitionsByNamesReqArgs_runs GetPartitionsByNamesReqArgs_wire. Qed.
#[local] Hint Resolve GetPartitionsByNamesReqArgs_writes GetPartitionsByNamesReqArgs_reads : wire.
Lemma GetPartitionsByNamesReqArgs_value p : value 3 STRUCT (GetPartitionsByNamesReqArgs_toks p).
Proof. struct_is_value GetPartitionsByNamesReqArgs_toks GetPartitionsByNamesReqArgs_wire. Qed.
#[local] Hint Resolve GetPartitionsByNamesReqArgs_value : wire_value.
Definition GetPartitionsByNamesReqArgs_codec : codec GetPartitionsByNamesReqArgs_Write (fun fuel => GetPartitionsByNamesReqArgs_Read fuel zero_GetPartitionsByNamesReqArgs).
Proof. codec_by (fun _ => True) GetPartitionsByNamesReqArgs_toks GetPartitionsByNamesReqArgs_canon GetPartitionsByNamesReqArgs_writes GetPartitionsByNamesReqArgs_value GetPartitionsByNamesReqArgs_reads. Defined.

Definition GetPartitionsByNamesReqResult_wire (p : wGetPartitionsByNamesReqResult) : list (list wfield) :=
  [opt_part (wGetPartitionsByNamesReqResult_Success p) (fun v => (0, STRUCT, GetPartitionsByNamesResult__toks (Some v)));
   opt_part (wGetPartitionsByNamesReqResult_O1 p) (fun v => (1, STRUCT, Exception_toks (Some v)));
   opt_part (wGetPartitionsByNamesReqResult_O2 p) (fun v => (2, STRUCT, Exception_toks (Some v)));
   opt_part (wGetPartitionsByNamesReqResult_O3 p) (fun v => (3, STRUCT, Exception_toks (Some v)))].
Definition GetPartitionsByNamesReqResult_toks (p : option wGetPartitionsByNamesReqResult) : list tok :=
  struct_toks (match p with Some p => concat (GetPartitionsByNamesReqResult_wire p) | None => [] end).
Definition GetPartitionsByNamesReqResult_canon (p : wGetPartitionsByNamesReqResult) : wGetPartitionsByNamesReqResult :=
  mk_wGetPartitionsByNamesReqResult (GetPartitionsByNamesResult__canon <$> wGetPartitionsByNamesReqResult_Success p)
    (wGetPartitionsByNamesReqResult_O1 p)
    (wGetPartitionsByNamesReqResult_O2 p)
    (wGetPartitionsByNamesReqResult_O3 p).
Definition GetPartitionsByNamesReqResult_ok (p : wGetPartitionsByNamesReqResult) : Prop :=
  forall v, wGetPartitionsByNamesReqResult_Success p = Some v -> GetPartitionsByNamesResult__ok v.

Lemma GetPartitionsByNamesReqResult_writes strict d p : (5 <= d)%nat -> (3 + sub_depth <= d)%nat -> (strict -> forall p0, p = Some p0 -> GetPartitionsByNamesReqResult_ok p0) -> 
  writes strict d (GetPartitionsByNamesReqResult_Write p) (GetPartitionsByNamesReqResult_toks p).
Proof. enter_valid GetPartitionsByNamesReqResult_ok. unfold GetPartitionsByNamesReqResult_wire, GetPartitionsByNamesReqResult_writeField0, GetPartitionsByNamesReqResult_writeField1, GetPartitionsByNamesReqResult_writeField2, GetPartitionsByNamesReqResult_writeField3. write_fields. Qed.
Lemma GetPartitionsByNamesReqResult_runs d fuel p : (4 <= d)%nat -> (2 + sub_depth <= d)%nat -> (14 <= fuel)%nat -> (sub_fuel <= fuel)%nat -> 
  exists ids, runs d (GetPartitionsByNamesReqResult_switch fuel) (concat (GetPartitionsByNamesReqResult_wire p)) zero_GetPartitionsByNamesReqResult (GetPartitionsByNamesReqResult_canon p) ids.
Proof.
  intros Hd Hsub Hf Hsf. unfold GetPartitionsByNamesReqResult_wire. eexists.
  cbn [concat]. run_opt GetPartitionsByNamesReqResult_set_Success GetPartitionsByNamesResult__canon.
  run_opt_same GetPartitionsByNamesReqResult_set_O1.
  run_opt_same GetPartitionsByNamesReqResult_set_O2.
  run_opt_same GetPartitionsByNamesReqResult_set_O3.
  run_end.
Qed.
Lemma GetPartitionsByNamesReqResult_reads d fuel p : (5 <= d)%nat -> (3 + sub_depth <= d)%nat -> (14 <= fuel)%nat -> (sub_fuel <= fuel)%nat -> 
  reads d (GetPartitionsByNamesReqResult_Read fuel zero_GetPartitionsByNamesReqResult) (GetPartitionsByNamesReqResult_toks (Some p)) (GetPartitionsByNamesReqResult_canon p).
Proof. struct_reads GetPartitionsByNamesReqResult_runs GetPartitionsByNamesReqResult_wire. Qed.
#[local] Hint Resolve GetPartitionsByNamesReqResult_writes GetPartitionsByNamesReqResult_reads : wire.
Lemma GetPartitionsByNamesReqResult_value p : value (8 + sub_nest) STRUCT (GetPartitionsByNamesReqResult_toks p).
Proof. struct_is_value GetPartitionsByNamesReqResult_toks GetPartitionsByNamesReqResult_wire. Qed.
#[local] Hint Resolve GetPartitionsByNamesReqResult_value : wire_value.
Definition GetPartitionsByNamesReqResult_codec : codec GetPartitionsByNamesReqResult_Write (fun fuel => GetPartitionsByNamesReqResult_Read fuel zero_GetPartitionsByNamesReqResult).
Proof. codec_by (fun p => GetPartitionsByNamesReqResult_ok p) GetPartitionsByNamesReqResult_toks GetPartitionsByNamesReqResult_canon GetPartitionsByNamesReqResult_writes GetPartitionsByNamesReqResult_value GetPartitionsByNamesReqResult_reads. Defined.

(** ** get_partitions_by_filter *)

Definition GetPartitionsByFilterArgs_wire (p : wGetPartitionsByFilterArgs) : list (list wfield) :=
  [[(1, STRING, [KString (wGetPartitionsByFilterArgs_DbName p)])];
   [(2, STRING, [KString (wGetPartitionsByFilterArgs_TblName p)])];
   [(3, STRING, [KString (wGetPartitionsByFilterArgs_Filter p)])];
   [(4, I16, [KI16 (wGetPartitionsByFilterArgs_MaxParts p)])]].
Definition GetPartitionsByFilterArgs_toks (p : option wGetPartitionsByFilterArgs) : list tok :=
  struct_toks (match p with Some p => concat (GetPartitionsByFilterArgs_wire p) | None => [] end).
Definition GetPartitionsByFilterArgs_canon (p : wGetPartitionsByFilterArgs) : wGetPartitionsByFilterArgs :=
  mk_wGetPartitionsByFilterArgs (wGetPartitionsByFilterArgs_DbName p)
    (wGetPartitionsByFilterArgs_TblName p)
    (wGetPartitionsByFilterArgs_Filter p)
    (wGetPartitionsByFilterArgs_MaxParts p).

Lemma GetPartitionsByFilterArgs_writes strict d p : (1 <= d)%nat -> 
  writes strict d (GetPartitionsByFilterArgs_Write p) (GetPartitionsByFilterArgs_toks p).
Proof. enter_struct. unfold GetPartitionsByFilterArgs_wire, GetPartitionsByFilterArgs_writeField1, GetPartitionsByFilterArgs_writeField2, GetPartitionsByFilterArgs_writeField3, GetPartitionsByFilterArgs_writeField4. write_fields. Qed.
Lemma GetPartitionsByFilterArgs_runs d fuel p : (0 <= d)%nat -> (5 <= fuel)%nat -> 
  exists ids, runs d GetPartitionsByFilterArgs_switch (concat (GetPartitionsByFilterArgs_wire p)) zero_GetPartitionsByFilterArgs (GetPartitionsByFilterArgs_canon p) ids.
Proof.
  intros Hd Hf. unfold GetPartitionsByFilterArgs_wire. eexists.
  cbn [concat]. run_one.
  run_one.
  run_one.
  run_one.
  run_end.
Qed.
Lemma GetPartitionsByFilterArgs_reads d fuel p : (1 <= d)%nat -> (5 <= fuel)%nat -> 
  reads d (GetPartitionsByFilterArgs_Read fuel zero_GetPartitionsByFilterArgs) (GetPartitionsByFilterArgs_toks (Some p)) (GetPartitionsByFilterArgs_canon p).
Proof. struct_reads GetPartitionsByFilterArgs_runs GetPartitionsByFilterArgs_wire. Qed.
#[local] Hint Resolve GetPartitionsByFilterArgs_writes GetPartitionsByFilterArgs_reads : wire.
Lemma GetPartitionsByFilterArgs_value p : value 1 STRUCT (GetPartitionsByFilterArgs_toks p).
Proof. struct_is_value GetPartitionsByFilterArgs_toks GetPartitionsByFilterArgs_wire. Qed.
#[local] Hint Resolve GetPartitionsByFilterArgs_value : wire_value.
Definition GetPartitionsByFilterArgs_codec : codec GetPartitionsByFilterArgs_Write (fun fuel => GetPartitionsByFilterArgs_Read fuel zero_GetPartitionsByFilterArgs).
Proof. codec_by (fun _ => True) GetPartitionsByFilterArgs_toks GetPartitionsByFilterArgs_canon GetPartitionsByFilterArgs_writes GetPartitionsByFilterArgs_value GetPartitionsByFilterArgs_reads. Defined.

Definition GetPartitionsByFilterResult_wire (p : wGetPartitionsByFilterResult) : list (list wfield) :=
  [when_part (bool_decide (is_Some (wGetPartitionsByFilterResult_Success p))) (0, LIST, list_toks STRUCT Partition_toks (wGetPartitionsByFilterResult_Success p));
   opt_part (wGetPartitionsByFilterResult_O1 p) (fun v => (1, STRUCT, Exception_toks (Some v)));
   opt_part (wGetPartitionsByFilterResult_O2 p) (fun v => (2, STRUCT, Exception_toks (Some v)))].
Definition GetPartitionsByFilterResult_toks (p : option wGetPartitionsByFilterResult) : list tok :=
  struct_toks (match p with Some p => concat (GetPartitionsByFilterResult_wire p) | None => [] end).
Definition GetPartitionsByFilterResult_canon (p : wGetPartitionsByFilterResult) : wGetPartitionsByFilterResult :=
  mk_wGetPartitionsByFilterResult (map (fun v => Some (Partition_own v)) <$> wGetPartitionsByFilterResult_Success p)
    (wGetPartitionsByFilterResult_O1 p)
    (wGetPartitionsByFilterResult_O2 p).
Definition GetPartitionsByFilterResult_ok (p : wGetPartitionsByFilterResult) : Prop :=
  Forall (fun o => forall v, o = Some v -> Partition_ok v) (elems (wGetPartitionsByFilterResult_Success p)).

Lemma GetPartitionsByFilterResult_writes strict d p : (4 <= d)%nat -> (2 + sub_depth <= d)%nat -> (strict -> forall p0, p = Some p0 -> GetPartitionsByFilterResult_ok p0) -> 
  writes strict d (GetPartitionsByFilterResult_Write p) (GetPartitionsByFilterResult_toks p).
Proof. enter_valid GetPartitionsByFilterResult_ok. unfold GetPartitionsByFilterResult_wire, GetPartitionsByFilterResult_writeField0, GetPartitionsByFilterResult_writeField1, GetPartitionsByFilterResult_writeField2. write_fields. Qed.
Lemma GetPartitionsByFilterResult_runs d fuel p : (3 <= d)%nat -> (S sub_depth <= d)%nat -> (14 <= fuel)%nat -> (sub_fuel <= fuel)%nat -> 
  exists ids, runs d (GetPartitionsByFilterResult_switch fuel) (concat (GetPartitionsByFilterResult_wire p)) zero_GetPartitionsByFilterResult (GetPartitionsByFilterResult_canon p) ids.
Proof.
  intros Hd Hsub Hf Hsf. unfold GetPartitionsByFilterResult_wire. eexists.
  cbn [concat]. run_slice GetPartitionsByFilterResult_set_Success (map (fun v => Some (Partition_own v))).
  run_opt_same GetPartitionsByFilterResult_set_O1.
  run_opt_same GetPartitionsByFilterResult_set_O2.
  run_end.
Qed.
Lemma GetPartitionsByFilterResult_reads d fuel p : (4 <= d)%nat -> (2 + sub_depth <= d)%nat -> (14 <= fuel)%nat -> (sub_fuel <= fuel)%nat -> 
  reads d (GetPartitionsByFilterResult_Read fuel zero_GetPartitionsByFilterResult) (GetPartitionsByFilterResult_toks (Some p)) (GetPartitionsByFilterResult_canon p).
Proof. struct_reads GetPartitionsByFilterResult_runs GetPartitionsByFilterResult_wire. Qed.
#[local] Hint Resolve GetPartitionsByFilterResult_writes GetPartitionsByFilterResult_reads : wire.
Lemma GetPartitionsByFilterResult_value p : value (7 + sub_nest) STRUCT (GetPartitionsByFilterResult_toks p).
Proof. struct_is_value GetPartitionsByFilterResult_toks GetPartitionsByFilterResult_wire. Qed.
#[local] Hint Resolve GetPartitionsByFilterResult_value : wire_value.
Definition GetPartitionsByFilterResult_codec : codec GetPartitionsByFilterResult_Write (fun fuel => GetPartitionsByFilterResult_Read fuel zero_GetPartitionsByFilterResult).
Proof. codec_by (fun p => GetPartitionsByFilterResult_ok p) GetPartitionsByFilterResult_toks GetPartitionsByFilterResult_canon GetPartitionsByFilterResult_writes GetPartitionsByFilterResult_value GetPartitionsByFilterResult_reads. Defined.

(** ** get_partition_names_ps *)

Definition GetPartitionNamesPsArgs_wire (p : wGetPartitionNamesPsArgs) : list (list wfield) :=
  [[(1, STRING, [KString (wGetPartitionNamesPsArgs_DbName p)])];
   [(2, STRING, [KString (wGetPartitionNamesPsArgs_TblName p)])];
   [(3, LIST, strings_toks (wGetPartitionNamesPsArgs_PartVals p))];
   [(4, I16, [KI16 (wGetPartitionNamesPsArgs_MaxParts p)])]].
Definition GetPartitionNamesPsArgs_toks (p : option wGetPartitionNamesPsArgs) : list tok :=
  struct_toks (match p with Some p => concat (GetPartitionNamesPsArgs_wire p) | None => [] end).
Definition GetPartitionNamesPsArgs_canon (p : wGetPartitionNamesPsArgs) : wGetPartitionNamesPsArgs :=
  mk_wGetPartitionNamesPsArgs (wGetPartitionNamesPsArgs_DbName p)
    (wGetPartitionNamesPsArgs_TblName p)
    (own_strings (wGetPartitionNamesPsArgs_PartVals p))
    (wGetPartitionNamesPsArgs_MaxParts p).

Lemma GetPartitionNamesPsArgs_writes strict d p : (1 <= d)%nat -> 
  writes strict d (GetPartitionNamesPsArgs_Write p) (GetPartitionNamesPsArgs_toks p).
Proof. enter_struct. unfold GetPartitionNamesPsArgs_wire, GetPartitionNamesPsArgs_writeField1, GetPartitionNamesPsArgs_writeField2, GetPartitionNamesPsArgs_writeField3, GetPartitionNamesPsArgs_writeField4. write_fields. Qed.
Lemma GetPartitionNamesPsArgs_runs d fuel p : (0 <= d)%nat -> (5 <= fuel)%nat -> 
  exists ids, runs d GetPartitionNamesPsArgs_switch (concat (GetPartitionNamesPsArgs_wire p)) zero_GetPartitionNamesPsArgs (GetPartitionNamesPsArgs_canon p) ids.
Proof.
  intros Hd Hf. unfold GetPartitionNamesPsArgs_wire. eexists.
  cbn [concat]. run_one.
  run_one.
  run_one.
  run_one.
  run_end.
Qed.
Lemma GetPartitionNamesPsArgs_reads d fuel p : (1 <= d)%nat -> (5 <= fuel)%nat -> 
  reads d (GetPartitionNamesPsArgs_Read fuel zero_GetPartitionNamesPsArgs) (GetPartitionNamesPsArgs_toks (Some p)) (GetPartitionNamesPsArgs_canon p).
Proof. struct_reads GetPartitionNamesPsArgs_runs GetPartitionNamesPsArgs_wire. Qed.
#[local] Hint Resolve GetPartitionNamesPsArgs_writes GetPartitionNamesPsArgs_reads : wire.
Lemma GetPartitionNamesPsArgs_value p : value 2 STRUCT (GetPartitionNamesPsArgs_toks p).
Proof. struct_is_value GetPartitionNamesPsArgs_toks GetPartitionNamesPsArgs_wire. Qed.
#[local] Hint Resolve GetPartitionNamesPsArgs_value : wire_value.
Definition GetPartitionNamesPsArgs_codec : codec GetPartitionNamesPsArgs_Write (fun fuel => GetPartitionNamesPsArgs_Read fuel zero_GetPartitionNamesPsArgs).
Proof. codec_by (fun _ => True) GetPartitionNamesPsArgs_toks GetPartitionNamesPsArgs_canon GetPartitionNamesPsArgs_writes GetPartitionNamesPsArgs_value GetPartitionNamesPsArgs_reads. Defined.

Definition GetPartitionNamesPsResult_wire (p : wGetPartitionNamesPsResult) : list (list wfield) :=
  [when_part (bool_decide (is_Some (wGetPartitionNamesPsResult_Success p))) (0, LIST, strings_toks (wGetPartitionNamesPsResult_Success p));
   opt_part (wGetPartitionNamesPsResult_O1 p) (fun v => (1, STRUCT, Exception_toks (Some v)));
   opt_part (wGetPartitionNamesPsResult_O2 p) (fun v => (2, STRUCT, Exception_toks (Some v)))].
Definition GetPartitionNamesPsResult_toks (p : option wGetPartitionNamesPsResult) : list tok :=
  struct_toks (match p with Some p => concat (GetPartitionNamesPsResult_wire p) | None => [] end).
Definition GetPartitionNamesPsResult_canon (p : wGetPartitionNamesPsResult) : wGetPartitionNamesPsResult :=
  mk_wGetPartitionNamesPsResult (wGetPartitionNamesPsResult_Success p)
    (wGetPartitionNamesPsResult_O1 p)
    (wGetPartitionNamesPsResult_O2 p).

Lemma GetPartitionNamesPsResult_writes strict d p : (2 <= d)%nat -> 
  writes strict d (GetPartitionNamesPsResult_Write p) (GetPartitionNamesPsResult_toks p).
Proof. enter_struct. unfold GetPartitionNamesPsResult_wire, GetPartitionNamesPsResult_writeField0, GetPartitionNamesPsResult_writeField1, GetPartitionNamesPsResult_writeField2. write_fields. Qed.
Lemma GetPartitionNamesPsResult_runs d fuel p : (1 <= d)%nat -> (4 <= fuel)%nat -> 
  exists ids, runs d (GetPartitionNamesPsResult_switch fuel) (concat (GetPartitionNamesPsResult_wire p)) zero_GetPartitionNamesPsResult (GetPartitionNamesPsResult_canon p) ids.
Proof.
  intros Hd Hf. unfold GetPartitionNamesPsResult_wire. eexists.
  cbn [concat]. run_slice_same GetPartitionNamesPsResult_set_Success.
  run_opt_same GetPartitionNamesPsResult_set_O1.
  run_opt_same GetPartitionNamesPsResult_set_O2.
  run_end.
Qed.
Lemma GetPartitionNamesPsResult_reads d fuel p : (2 <= d)%nat -> (4 <= fuel)%nat -> 
  reads d (GetPartitionNamesPsResult_Read fuel zero_GetPartitionNamesPsResult) (GetPartitionNamesPsResult_toks (Some p)) (GetPartitionNamesPsResult_canon p).
Proof. struct_reads GetPartitionNamesPsResult_runs GetPartitionNamesPsResult_wire. Qed.
#[local] Hint Resolve GetPartitionNamesPsResult_writes GetPartitionNamesPsResult_reads : wire.
Lemma GetPartitionNamesPsResult_value p : value 2 STRUCT (GetPartitionNamesPsResult_toks p).
Proof. struct_is_value GetPartitionNamesPsResult_toks GetPartitionNamesPsResult_wire. Qed.
#[local] Hint Resolve GetPartitionNamesPsResult_value : wire_value.
Definition GetPartitionNamesPsResult_codec : codec GetPartitionNamesPsResult_Write (fun fuel => GetPartitionNamesPsResult_Read fuel zero_GetPartitionNamesPsResult).
Proof. codec_by (fun _ => True) GetPartitionNamesPsResult_toks GetPartitionNamesPsResult_canon GetPartitionNamesPsResult_writes GetPartitionNamesPsResult_value GetPartitionNamesPsResult_reads. Defined.

(** ** get_partition_names_ps_req *)

Definition GetPartitionNamesPsReqArgs_wire (p : wGetPartitionNamesPsReqArgs) : list (list wfield) :=
  [opt_part (wGetPartitionNamesPsReqArgs_Req p) (fun v => (1, STRUCT, GetPartitionNamesPsRequest_toks (Some v)))].
Definition GetPartitionNamesPsReqArgs_toks (p : option wGetPartitionNamesPsReqArgs) : list tok :=
  struct_toks (match p with Some p => concat (GetPartitionNamesPsReqArgs_wire p) | None => [] end).
Definition GetPartitionNamesPsReqArgs_canon (p : wGetPartitionNamesPsReqArgs) : wGetPartitionNamesPsReqArgs :=
  mk_wGetPartitionNamesPsReqArgs (GetPartitionNamesPsRequest_canon <$> wGetPartitionNamesPsReqArgs_Req p).

Lemma GetPartitionNamesPsReqArgs_writes strict d p : (2 <= d)%nat -> 
  writes strict d (GetPartitionNamesPsReqArgs_Write p) (GetPartitionNamesPsReqArgs_toks p).
Proof. enter_struct. unfold GetPartitionNamesPsReqArgs_wire, GetPartitionNamesPsReqArgs_writeField1. write_fields. Qed.
Lemma GetPartitionNamesPsReqArgs_runs d fuel p : (1 <= d)%nat -> (8 <= fuel)%nat -> 
  exists ids, runs d (GetPartitionNamesPsReqArgs_switch fuel) (concat (GetPartitionNamesPsReqArgs_wire p)) zero_GetPartitionNamesPsReqArgs (GetPartitionNamesPsReqArgs_canon p) ids.
Proof.
  intros Hd Hf. unfold GetPartitionNamesPsReqArgs_wire. eexists.
  cbn [concat]. run_opt GetPartitionNamesPsReqArgs_set_Req GetPartitionNamesPsRequest_canon.
  run_end.
Qed.
Lemma GetPartitionNamesPsReqArgs_reads d fuel p : (2 <= d)%nat -> (8 <= fuel)%nat -> 
  reads d (GetPartitionNamesPsReqArgs_Read fuel zero_GetPartitionNamesPsReqArgs) (GetPartitionNamesPsReqArgs_toks (Some p)) (GetPartitionNamesPsReqArgs_canon p).
Proof. struct_reads GetPartitionNamesPsReqArgs_runs GetPartitionNamesPsReqArgs_wire. Qed.
#[local] Hint Resolve GetPartitionNamesPsReqArgs_writes GetPartitionNamesPsReqArgs_reads : wire.
Lemma GetPartitionNamesPsReqArgs_value p : value 3 STRUCT (GetPartitionNamesPsReqArgs_toks p).
Proof. struct_is_value GetPartitionNamesPsReqArgs_toks GetPartitionNamesPsReqArgs_wire. Qed.
#[local] Hint Resolve GetPartitionNamesPsReqArgs_value : wire_value.
Definition GetPartitionNamesPsReqArgs_codec : codec GetPartitionNamesPsReqArgs_Write (fun fuel => GetPartitionNamesPsReqArgs_Read fuel zero_GetPartitionNamesPsReqArgs).
Proof. codec_by (fun _ => True) GetPartitionNamesPsReqArgs_toks GetPartitionNamesPsReqArgs_canon GetPartitionNamesPsReqArgs_writes GetPartitionNamesPsReqArgs_value GetPartitionNamesPsReqArgs_reads. Defined.

Definition GetPartitionNamesPsReqResult_wire (p : wGetPartitionNamesPsReqResult) : list (list wfield) :=
  [opt_part (wGetPartitionNamesPsReqResult_Success p) (fun v => (0, STRUCT, GetPartitionNamesPsResponse_toks (Some v)));
   opt_part (wGetPartitionNamesPsReqResult_O1 p) (fun v => (1, STRUCT, Exception_toks (Some v)));
   opt_part (wGetPartitionNamesPsReqResult_O2 p) (fun v => (2, STRUCT, Exception_toks (Some v)))].
Definition GetPartitionNamesPsReqResult_toks (p : option wGetPartitionNamesPsReqResult) : list tok :=
  struct_toks (match p with Some p => concat (GetPartitionNamesPsReqResult_wire p) | None => [] end).
Definition GetPartitionNamesPsReqResult_canon (p : wGetPartitionNamesPsReqResult) : wGetPartitionNamesPsReqResult :=
  mk_wGetPartitionNamesPsReqResult (GetPartitionNamesPsResponse_canon <$> wGetPartitionNamesPsReqResult_Success p)
    (wGetPartitionNamesPsReqResult_O1 p)
    (wGetPartitionNamesPsReqResult_O2 p).

Lemma GetPartitionNamesPsReqResult_writes strict d p : (2 <= d)%nat -> 
  writes strict d (GetPartitionNamesPsReqResult_Write p) (GetPartitionNamesPsReqResult_toks p).
Proof. enter_struct. unfold GetPartitionNamesPsReqResult_wire, GetPartitionNamesPsReqResult_writeField0, GetPartitionNamesPsReqResult_writeField1, GetPartitionNamesPsReqResult_writeField2. write_fields. Qed.
Lemma GetPartitionNamesPsReqResult_runs d fuel p : (1 <= d)%nat -> (4 <= fuel)%nat -> 
  exists ids, runs d (GetPartitionNamesPsReqResult_switch fuel) (concat (GetPartitionNamesPsReqResult_wire p)) zero_GetPartitionNamesPsReqResult (GetPartitionNamesPsReqResult_canon p) ids.
Proof.
  intros Hd Hf. unfold GetPartitionNamesPsReqResult_wire. eexists.
  cbn [concat]. run_opt GetPartitionNamesPsReqResult_set_Success GetPartitionNamesPsResponse_canon.
  run_opt_same GetPartitionNamesPsReqResult_set_O1.
  run_opt_same GetPartitionNamesPsReqResult_set_O2.
  run_end.
Qed.
Lemma GetPartitionNamesPsReqResult_reads d fuel p : (2 <= d)%nat -> (4 <= fuel)%nat -> 
  reads d (GetPartitionNamesPsReqResult_Read fuel zero_GetPartitionNamesPsReqResult) (GetPartitionNamesPsReqResult_toks (Some p)) (GetPartitionNamesPsReqResult_canon p).
Proof. struct_reads GetPartitionNamesPsReqResult_runs GetPartitionNamesPsReqResult_wire. Qed.
#[local] Hint Resolve GetPartitionNamesPsReqResult_writes GetPartitionNamesPsReqResult_reads : wire.
Lemma GetPartitionNamesPsReqResult_value p : value 3 STRUCT (GetPartitionNamesPsReqResult_toks p).
Proof. struct_is_value GetPartitionNamesPsReqResult_toks GetPartitionNamesPsReqResult_wire. Qed.
#[local] Hint Resolve GetPartitionNamesPsReqResult_value : wire_value.
Definition GetPartitionNamesPsReqResult_codec : codec GetPartitionNamesPsReqResult_Write (fun fuel => GetPartitionNamesPsReqResult_Read fuel zero_GetPartitionNamesPsReqResult).
Proof. codec_by (fun _ => True) GetPartitionNamesPsReqResult_toks GetPartitionNamesPsReqResult_canon GetPartitionNamesPsReqResult_writes GetPartitionNamesPsReqResult_value GetPartitionNamesPsReqResult_reads. Defined.

End facts.

(** ** The calls *)

Section calls.
Context {P W : Type} {TP : TProtocol P} {TL : TProtocolLaws P} {MR : MapRange} {SB : Substructs P} {SL : SubstructLaws P}.
Context {TS : TStandardClient P} {PL : TProcessorLib P} {RL : TRpcLaws P}.
Context (cause : option goerr) (handler : Handler.ThriftHiveMetastore W) (pm : processor_map P W) (fuel : nat).
Context (Hfuel : (msg_fuel <= fuel)%nat).

Lemma GetPartitions_delivers n db_name tbl_name max_parts :
  GetProcessorFunction pm "get_partitions" = Some (Processor.GetPartitions cause handler fuel) ->
  sendable GetPartitionsArgs_codec (mk_wGetPartitionsArgs db_name tbl_name max_parts) ->
  delivers n (Stub.GetPartitions (TC := link_client (Process pm)) fuel db_name tbl_name max_parts) (Handler.GetPartitions handler db_name tbl_name max_parts)
    (replies cause GetPartitionsResult_codec (type_switch Processor.GetPartitions_declared) Processor.GetPartitions_answer "get_partitions")
    (outcome "get_partitions" [NoSuchObjectException; MetaException] (fun v => inr (map (fun v => Some (Partition_own v)) <$> v))).
Proof. call_method GetPartitionsArgs_codec GetPartitionsResult_codec. Qed.
Lemma GetPartitionsReq_delivers n req :
  GetProcessorFunction pm "get_partitions_req" = Some (Processor.GetPartitionsReq cause handler fuel) ->
  sendable GetPartitionsReqArgs_codec (mk_wGetPartitionsReqArgs req) ->
  delivers n (Stub.GetPartitionsReq (TC := link_client (Process pm)) fuel req) (Handler.GetPartitionsReq handler (PartitionsRequest_canon <$> req))
    (replies cause GetPartitionsReqResult_codec (type_switch Processor.GetPartitionsReq_declared) Processor.GetPartitionsReq_answer "get_partitions_req")
    (outcome "get_partitions_req" [NoSuchObjectException; MetaException] (fun v => success "get_partitions_req" (PartitionsResponse_canon <$> v))).
Proof. call_method GetPartitionsReqArgs_codec GetPartitionsReqResult_codec. Qed.
Lemma GetPartitionNames_delivers n db_name tbl_name max_parts :
  GetProcessorFunction pm "get_partition_names" = Some (Processor.GetPartitionNames cause handler fuel) ->
  sendable GetPartitionNamesArgs_codec (mk_wGetPartitionNamesArgs db_name tbl_name max_parts) ->
  delivers n (Stub.GetPartitionNames (TC := link_client (Process pm)) fuel db_name tbl_name max_parts) (Handler.GetPartitionNames handler db_name tbl_name max_parts)
    (replies cause GetPartitionNamesResult_codec (type_switch Processor.GetPartitionNames_declared) Processor.GetPartitionNames_answer "get_partition_names")
    (outcome "get_partition_names" [NoSuchObjectException; MetaException] (inr)).
Proof. call_method GetPartitionNamesArgs_codec GetPartitionNamesResult_codec. Qed.
Lemma AddPartitionsReq_delivers n request :
  GetProcessorFunction pm "add_partitions_req" = Some (Processor.AddPartitionsReq cause handler fuel) ->
  sendable AddPartitionsReqArgs_codec (mk_wAddPartitionsReqArgs request) ->
  delivers n (Stub.AddPartitionsReq (TC := link_client (Process pm)) fuel request) (Handler.AddPartitionsReq handler (AddPartitionsRequest_canon <$> request))
    (replies cause AddPartitionsReqResult_codec (type_switch Processor.AddPartitionsReq_declared) Processor.AddPartitionsReq_answer "add_partitions_req")
    (outcome "add_partitions_req" [InvalidObjectException; AlreadyExistsException; MetaException] (fun v => success "add_partitions_req" (AddPartitionsResult__canon <$> v))).
Proof. call_method AddPartitionsReqArgs_codec AddPartitionsReqResult_codec. Qed.
Lemma AlterPartitions_delivers n db_name tbl_name new_parts :
  GetProcessorFunction pm "alter_partitions" = Some (Processor.AlterPartitions cause handler fuel) ->
  sendable AlterPartitionsArgs_codec (mk_wAlterPartitionsArgs db_name tbl_name new_parts) ->
  delivers n (Stub.AlterPartitions (TC := link_client (Process pm)) fuel db_name tbl_name new_parts) (Handler.AlterPartitions handler db_name tbl_name (Some (map (fun v => Some (Partition_own v)) (elems (new_parts)))))
    (replies cause AlterPartitionsResult_codec (type_switch Processor.AlterPartitions_declared) Processor.AlterPartitions_answer "alter_partitions")
    (outcome "alter_partitions" [InvalidOperationException; MetaException] (fun _ => inr tt)).
Proof. call_method AlterPartitionsArgs_codec AlterPartitionsResult_codec. Qed.
Lemma AlterPartitionsReq_delivers n req :
  GetProcessorFunction pm "alter_partitions_req" = Some (Processor.AlterPartitionsReq cause handler fuel) ->
  sendable AlterPartitionsReqArgs_codec (mk_wAlterPartitionsReqArgs req) ->
  delivers n (Stub.AlterPartitionsReq (TC := link_client (Process pm)) fuel req) (Handler.AlterPartitionsReq handler (AlterPartitionsRequest_canon <$> req))
    (replies cause AlterPartitionsReqResult_codec (type_switch Processor.AlterPartitionsReq_declared) Processor.AlterPartitionsReq_answer "alter_partitions_req")
    (outcome "alter_partitions_req" [InvalidOperationException; MetaException] (fun v => success "alter_partitions_req" (AlterPartitionsResponse_canon <$> v))).
Proof. call_method AlterPartitionsReqArgs_codec AlterPartitionsReqResult_codec. Qed.
Lemma DropPartition_delivers n db_name tbl_name part_vals deleteData :
  GetProcessorFunction pm "drop_partition" = Some (Processor.DropPartition cause handler fuel) ->
  sendable DropPartitionArgs_codec (mk_wDropPartitionArgs db_name tbl_name part_vals deleteData) ->
  delivers n (Stub.DropPartition (TC := link_client (Process pm)) fuel db_name tbl_name part_vals deleteData) (Handler.DropPartition handler db_name tbl_name (own_strings (part_vals)) deleteData)
    (replies cause DropPartitionResult_codec (type_switch Processor.DropPartition_declared) Processor.DropPartition_answer "drop_partition")
    (outcome "drop_partition" [NoSuchObjectException; MetaException] (inr)).
Proof. call_method DropPartitionArgs_codec DropPartitionResult_codec. Qed.
Lemma DropPartitionsReq_delivers n req :
  GetProcessorFunction pm "drop_partitions_req" = Some (Processor.DropPartitionsReq cause handler fuel) ->
  sendable DropPartitionsReqArgs_codec (mk_wDropPartitionsReqArgs req) ->
  delivers n (Stub.DropPartitionsReq (TC := link_client (Process pm)) fuel req) (Handler.DropPartitionsReq handler (DropPartitionsRequest_canon <$> req))
    (replies cause DropPartitionsReqResult_codec (type_switch Processor.DropPartitionsReq_declared) Processor.DropPartitionsReq_answer "drop_partitions_req")
    (outcome "drop_partitions_req" [NoSuchObjectException; MetaException] (fun v => success "drop_partitions_req" (DropPartitionsResult__canon <$> v))).
Proof. call_method DropPartitionsReqArgs_codec DropPartitionsReqResult_codec. Qed.
Lemma GetPartitionsByNames_delivers n db_name tbl_name names :
  GetProcessorFunction pm "get_partitions_by_names" = Some (Processor.GetPartitionsByNames cause handler fuel) ->
  sendable GetPartitionsByNamesArgs_codec (mk_wGetPartitionsByNamesArgs db_name tbl_name names) ->
  delivers n (Stub.GetPartitionsByNames (TC := link_client (Process pm)) fuel db_name tbl_name names) (Handler.GetPartitionsByNames handler db_name tbl_name (own_strings (names)))
    (replies cause GetPartitionsByNamesResult_codec (type_switch Processor.GetPartitionsByNames_declared) Processor.GetPartitionsByNames_answer "get_partitions_by_names")
    (outcome "get_partitions_by_names" [MetaException; NoSuchObjectException; InvalidObjectException] (fun v => inr (map (fun v => Some (Partition_own v)) <$> v))).
Proof. call_method GetPartitionsByNamesArgs_codec GetPartitionsByNamesResult_codec. Qed.
Lemma GetPartitionsByNamesReq_delivers n req :
  GetProcessorFunction pm "get_partitions_by_names_req" = Some (Processor.GetPartitionsByNamesReq cause handler fuel) ->
  sendable GetPartitionsByNamesReqArgs_codec (mk_wGetPartitionsByNamesReqArgs req) ->
  delivers n (Stub.GetPartitionsByNamesReq (TC := link_client (Process pm)) fuel req) (Handler.GetPartitionsByNamesReq handler (GetPartitionsByNamesRequest_canon <$> req))
    (replies cause GetPartitionsByNamesReqResult_codec (type_switch Processor.GetPartitionsByNamesReq_declared) Processor.GetPartitionsByNamesReq_answer "get_partitions_by_names_req")
    (outcome "get_partitions_by_names_req" [MetaException; NoSuchObjectException; InvalidObjectException] (fun v => success "get_partitions_by_names_req" (GetPartitionsByNamesResult__canon <$> v))).
Proof. call_method GetPartitionsByNamesReqArgs_codec GetPartitionsByNamesReqResult_codec. Qed.
Lemma GetPartitionsByFilter_delivers n db_name tbl_name filter_ max_parts :
  GetProcessorFunction pm "get_partitions_by_filter" = Some (Processor.GetPartitionsByFilter cause handler fuel) ->
  sendable GetPartitionsByFilterArgs_codec (mk_wGetPartitionsByFilterArgs db_name tbl_name filter_ max_parts) ->
  delivers n (Stub.GetPartitionsByFilter (TC := link_client (Process pm)) fuel db_name tbl_name filter_ max_parts) (Handler.GetPartitionsByFilter handler db_name tbl_name filter_ max_parts)
    (replies cause GetPartitionsByFilterResult_codec (type_switch Processor.GetPartitionsByFilter_declared) Processor.GetPartitionsByFilter_answer "get_partitions_by_filter")
    (outcome "get_partitions_by_filter" [MetaException; NoSuchObjectException] (fun v => inr (map (fun v => Some (Partition_own v)) <$> v))).
Proof. call_method GetPartitionsByFilterArgs_codec GetPartitionsByFilterResult_codec. Qed.
Lemma GetPartitionNamesPs_delivers n db_name tbl_name part_vals max_parts :
  GetProcessorFunction pm "get_partition_names_ps" = Some (Processor.GetPartitionNamesPs cause handler fuel) ->
  sendable GetPartitionNamesPsArgs_codec (mk_wGetPartitionNamesPsArgs db_name tbl_name part_vals max_parts) ->
  delivers n (Stub.GetPartitionNamesPs (TC := link_client (Process pm)) fuel db_name tbl_name part_vals max_parts) (Handler.GetPartitionNamesPs handler db_name tbl_name (own_strings (part_vals)) max_parts)
    (replies cause GetPartitionNamesPsResult_codec (type_switch Processor.GetPartitionNamesPs_declared) Processor.GetPartitionNamesPs_answer "get_partition_names_ps")
    (outcome "get_partition_names_ps" [MetaException; NoSuchObjectException] (inr)).
Proof. call_method GetPartitionNamesPsArgs_codec GetPartitionNamesPsResult_codec. Qed.
Lemma GetPartitionNamesPsReq_delivers n req :
  GetProcessorFunction pm "get_partition_names_ps_req" = Some (Processor.GetPartitionNamesPsReq cause handler fuel) ->
  sendable GetPartitionNamesPsReqArgs_codec (mk_wGetPartitionNamesPsReqArgs req) ->
  delivers n (Stub.GetPartitionNamesPsReq (TC := link_client (Process pm)) fuel req) (Handler.GetPartitionNamesPsReq handler (GetPartitionNamesPsRequest_canon <$> req))
    (replies cause GetPartitionNamesPsReqResult_codec (type_switch Processor.GetPartitionNamesPsReq_declared) Processor.GetPartitionNamesPsReq_answer "get_partition_names_ps_req")
    (outcome "get_partition_names_ps_req" [MetaException; NoSuchObjectException] (fun v => success "get_partition_names_ps_req" (GetPartitionNamesPsResponse_canon <$> v))).
Proof. call_method GetPartitionNamesPsReqArgs_codec GetPartitionNamesPsReqResult_codec. Qed.
End calls.
