(* ===== verification/RpcTxnFacts.v ===== *)
(** * RpcTxnFacts: the calls of RpcTxn, from stub to handler and back *)

From S2P Require Import Prelude Errors GoMonad Types Transport Wire Thrift ThriftFacts CodecAcid CodecAcidFacts CodecReq CodecReqFacts CodecValues Rpc RpcFacts RpcHandler RpcTxn.

Section facts.
Context {P : Type} {TP : TProtocol P} {TL : TProtocolLaws P} {MR : MapRange} {SB : Substructs P} {SL : SubstructLaws P}.

(** ** get_next_notification *)

Definition GetNextNotificationArgs_wire (p : wGetNextNotificationArgs) : list (list wfield) :=
  [opt_part (wGetNextNotificationArgs_Rqst p) (fun v => (1, STRUCT, NotificationEventRequest_toks (Some v)))].
Definition GetNextNotificationArgs_toks (p : option wGetNextNotificationArgs) : list tok :=
  struct_toks (match p with Some p => concat (GetNextNotificationArgs_wire p) | None => [] end).
Definition GetNextNotificationArgs_canon (p : wGetNextNotificationArgs) : wGetNextNotificationArgs :=
  mk_wGetNextNotificationArgs (NotificationEventRequest_canon <$> wGetNextNotificationArgs_Rqst p).

Lemma GetNextNotificationArgs_writes strict d p : (2 <= d)%nat -> 
  writes strict d (GetNextNotificationArgs_Write p) (GetNextNotificationArgs_toks p).
Proof. enter_struct. unfold GetNextNotificationArgs_wire, GetNextNotificationArgs_writeField1. write_fields. Qed.
Lemma GetNextNotificationArgs_runs d fuel p : (1 <= d)%nat -> (8 <= fuel)%nat -> 
  exists ids, runs d (GetNextNotificationArgs_switch fuel) (concat (GetNextNotificationArgs_wire p)) zero_GetNextNotificationArgs (GetNextNotificationArgs_canon p) ids.
Proof.
  intros Hd Hf. unfold GetNextNotificationArgs_wire. eexists.
  cbn [concat]. run_opt GetNextNotificationArgs_set_Rqst NotificationEventRequest_canon.
  run_end.
Qed.
Lemma GetNextNotificationArgs_reads d fuel p : (2 <= d)%nat -> (8 <= fuel)%nat -> 
  reads d (GetNextNotificationArgs_Read fuel zero_GetNextNotificationArgs) (GetNextNotificationArgs_toks (Some p)) (GetNextNotificationArgs_canon p).
Proof. struct_reads GetNextNotificationArgs_runs GetNextNotificationArgs_wire. Qed.
#[local] Hint Resolve GetNextNotificationArgs_writes GetNextNotificationArgs_reads : wire.
Lemma GetNextNotificationArgs_value p : value 3 STRUCT (GetNextNotificationArgs_toks p).
Proof. struct_is_value GetNextNotificationArgs_toks GetNextNotificationArgs_wire. Qed.
#[local] Hint Resolve GetNextNotificationArgs_value : wire_value.
Definition GetNextNotificationArgs_codec : codec GetNextNotificationArgs_Write (fun fuel => GetNextNotificationArgs_Read fuel zero_GetNextNotificationArgs).
Proof. codec_by (fun _ => True) GetNextNotificationArgs_toks GetNextNotificationArgs_canon GetNextNotificationArgs_writes GetNextNotificationArgs_value GetNextNotificationArgs_reads. Defined.

Definition GetNextNotificationResult_wire (p : wGetNextNotificationResult) : list (list wfield) :=
  [opt_part (wGetNextNotificationResult_Success p) (fun v => (0, STRUCT, NotificationEventResponse_toks (Some v)))].
Definition GetNextNotificationResult_toks (p : option wGetNextNotificationResult) : list tok :=
  struct_toks (match p with Some p => concat (GetNextNotificationResult_wire p) | None => [] end).
Definition GetNextNotificationResult_canon (p : wGetNextNotificationResult) : wGetNextNotificationResult :=
  mk_wGetNextNotificationResult (NotificationEventResponse_canon <$> wGetNextNotificationResult_Success p).
Definition GetNextNotificationResult_full (p : wGetNextNotificationResult) : Prop :=
  forall v, wGetNextNotificationResult_Success p = Some v -> NotificationEventResponse_full v.

Lemma GetNextNotificationResult_writes strict d p : (3 <= d)%nat -> 
  writes strict d (GetNextNotificationResult_Write p) (GetNextNotificationResult_toks p).
Proof. enter_struct. unfold GetNextNotificationResult_wire, GetNextNotificationResult_writeField0. write_fields. Qed.
Lemma GetNextNotificationResult_runs d fuel p : (2 <= d)%nat -> (9 <= fuel)%nat -> GetNextNotificationResult_full p -> 
  exists ids, runs d (GetNextNotificationResult_switch fuel) (concat (GetNextNotificationResult_wire p)) zero_GetNextNotificationResult (GetNextNotificationResult_canon p) ids.
Proof.
  intros Hd Hf Hfull. unfold GetNextNotificationResult_wire. unfold GetNextNotificationResult_full in Hfull. destruct_and? Hfull. eexists.
  cbn [concat]. run_opt GetNextNotificationResult_set_Success NotificationEventResponse_canon.
  run_end.
Qed.
Lemma GetNextNotificationResult_reads d fuel p : (3 <= d)%nat -> (9 <= fuel)%nat -> GetNextNotificationResult_full p -> 
  reads d (GetNextNotificationResult_Read fuel zero_GetNextNotificationResult) (GetNextNotificationResult_toks (Some p)) (GetNextNotificationResult_canon p).
Proof. struct_reads GetNextNotificationResult_runs GetNextNotificationResult_wire. Qed.
#[local] Hint Resolve GetNextNotificationResult_writes GetNextNotificationResult_reads : wire.
Lemma GetNextNotificationResult_value p : value 4 STRUCT (GetNextNotificationResult_toks p).
Proof. struct_is_value GetNextNotificationResult_toks GetNextNotificationResult_wire. Qed.
#[local] Hint Resolve GetNextNotificationResult_value : wire_value.
Definition GetNextNotificationResult_codec : codec GetNextNotificationResult_Write (fun fuel => GetNextNotificationResult_Read fuel zero_GetNextNotificationResult).
Proof. codec_by (fun p => GetNextNotificationResult_full p) GetNextNotificationResult_toks GetNextNotificationResult_canon GetNextNotificationResult_writes GetNextNotificationResult_value GetNextNotificationResult_reads. Defined.

(** ** get_current_notificationEventId *)

Definition GetCurrentNotificationEventIdArgs_wire (p : wGetCurrentNotificationEventIdArgs) : list (list wfield) :=
  [].
Definition GetCurrentNotificationEventIdArgs_toks (p : option wGetCurrentNotificationEventIdArgs) : list tok :=
  struct_toks (match p with Some p => concat (GetCurrentNotificationEventIdArgs_wire p) | None => [] end).
Definition GetCurrentNotificationEventIdArgs_canon (_ : wGetCurrentNotificationEventIdArgs) : wGetCurrentNotificationEventIdArgs := mk_wGetCurrentNotificationEventIdArgs.

Lemma GetCurrentNotificationEventIdArgs_writes strict d p : (1 <= d)%nat -> 
  writes strict d (GetCurrentNotificationEventIdArgs_Write p) (GetCurrentNotificationEventIdArgs_toks p).
Proof. enter_struct. unfold GetCurrentNotificationEventIdArgs_wire. write_fields. Qed.
Lemma GetCurrentNotificationEventIdArgs_runs d fuel p : (0 <= d)%nat -> (1 <= fuel)%nat -> 
  exists ids, runs d GetCurrentNotificationEventIdArgs_switch (concat (GetCurrentNotificationEventIdArgs_wire p)) zero_GetCurrentNotificationEventIdArgs (GetCurrentNotificationEventIdArgs_canon p) ids.
Proof.
  intros Hd Hf. exists []. destruct p. constructor.
Qed.
Lemma GetCurrentNotificationEventIdArgs_reads d fuel p : (1 <= d)%nat -> (1 <= fuel)%nat -> 
  reads d (GetCurrentNotificationEventIdArgs_Read fuel zero_GetCurrentNotificationEventIdArgs) (GetCurrentNotificationEventIdArgs_toks (Some p)) (GetCurrentNotificationEventIdArgs_canon p).
Proof. struct_reads GetCurrentNotificationEventIdArgs_runs GetCurrentNotificationEventIdArgs_wire. Qed.
#[local] Hint Resolve GetCurrentNotificationEventIdArgs_writes GetCurrentNotificationEventIdArgs_reads : wire.
Lemma GetCurrentNotificationEventIdArgs_value p : value 1 STRUCT (GetCurrentNotificationEventIdArgs_toks p).
Proof. struct_is_value GetCurrentNotificationEventIdArgs_toks GetCurrentNotificationEventIdArgs_wire. Qed.
#[local] Hint Resolve GetCurrentNotificationEventIdArgs_value : wire_value.
Definition GetCurrentNotificationEventIdArgs_codec : codec GetCurrentNotificationEventIdArgs_Write (fun fuel => GetCurrentNotificationEventIdArgs_Read fuel zero_GetCurrentNotificationEventIdArgs).
Proof. codec_by (fun _ => True) GetCurrentNotificationEventIdArgs_toks GetCurrentNotificationEventIdArgs_canon GetCurrentNotificationEventIdArgs_writes GetCurrentNotificationEventIdArgs_value GetCurrentNotificationEventIdArgs_reads. Defined.

Definition GetCurrentNotificationEventIdResult_wire (p : wGetCurrentNotificationEventIdResult) : list (list wfield) :=
  [opt_part (wGetCurrentNotificationEventIdResult_Success p) (fun v => (0, STRUCT, CurrentNotificationEventId_toks (Some v)))].
Definition GetCurrentNotificationEventIdResult_toks (p : option wGetCurrentNotificationEventIdResult) : list tok :=
  struct_toks (match p with Some p => concat (GetCurrentNotificationEventIdResult_wire p) | None => [] end).
Definition GetCurrentNotificationEventIdResult_canon (p : wGetCurrentNotificationEventIdResult) : wGetCurrentNotificationEventIdResult :=
  mk_wGetCurrentNotificationEventIdResult (CurrentNotificationEventId_canon <$> wGetCurrentNotificationEventIdResult_Success p).

Lemma GetCurrentNotificationEventIdResult_writes strict d p : (2 <= d)%nat -> 
  writes strict d (GetCurrentNotificationEventIdResult_Write p) (GetCurrentNotificationEventIdResult_toks p).
Proof. enter_struct. unfold GetCurrentNotificationEventIdResult_wire, GetCurrentNotificationEventIdResult_writeField0. write_fields. Qed.
Lemma GetCurrentNotificationEventIdResult_runs d fuel p : (1 <= d)%nat -> (2 <= fuel)%nat -> 
  exists ids, runs d (GetCurrentNotificationEventIdResult_switch fuel) (concat (GetCurrentNotificationEventIdResult_wire p)) zero_GetCurrentNotificationEventIdResult (GetCurrentNotificationEventIdResult_canon p) ids.
Proof.
  intros Hd Hf. unfold GetCurrentNotificationEventIdResult_wire. eexists.
  cbn [concat]. run_opt GetCurrentNotificationEventIdResult_set_Success CurrentNotificationEventId_canon.
  run_end.
Qed.
Lemma GetCurrentNotificationEventIdResult_reads d fuel p : (2 <= d)%nat -> (2 <= fuel)%nat -> 
  reads d (GetCurrentNotificationEventIdResult_Read fuel zero_GetCurrentNotificationEventIdResult) (GetCurrentNotificationEventIdResult_toks (Some p)) (GetCurrentNotificationEventIdResult_canon p).
Proof. struct_reads GetCurrentNotificationEventIdResult_runs GetCurrentNotificationEventIdResult_wire. Qed.
#[local] Hint Resolve GetCurrentNotificationEventIdResult_writes GetCurrentNotificationEventIdResult_reads : wire.
Lemma GetCurrentNotificationEventIdResult_value p : value 2 STRUCT (GetCurrentNotificationEventIdResult_toks p).
Proof. struct_is_value GetCurrentNotificationEventIdResult_toks GetCurrentNotificationEventIdResult_wire. Qed.
#[local] Hint Resolve GetCurrentNotificationEventIdResult_value : wire_value.
Definition GetCurrentNotificationEventIdResult_codec : codec GetCurrentNotificationEventIdResult_Write (fun fuel => GetCurrentNotificationEventIdResult_Read fuel zero_GetCurrentNotificationEventIdResult).
Proof. codec_by (fun _ => True) GetCurrentNotificationEventIdResult_toks GetCurrentNotificationEventIdResult_canon GetCurrentNotificationEventIdResult_writes GetCurrentNotificationEventIdResult_value GetCurrentNotificationEventIdResult_reads. Defined.

(** ** open_txns *)

Definition OpenTxnsArgs_wire (p : wOpenTxnsArgs) : list (list wfield) :=
  [opt_part (wOpenTxnsArgs_Rqst p) (fun v => (1, STRUCT, OpenTxnRequest_toks (Some v)))].
Definition OpenTxnsArgs_toks (p : option wOpenTxnsArgs) : list tok :=
  struct_toks (match p with Some p => concat (OpenTxnsArgs_wire p) | None => [] end).
Definition OpenTxnsArgs_canon (p : wOpenTxnsArgs) : wOpenTxnsArgs :=
  mk_wOpenTxnsArgs (OpenTxnRequest_canon <$> wOpenTxnsArgs_Rqst p).

Lemma OpenTxnsArgs_writes strict d p : (2 <= d)%nat -> 
  writes strict d (OpenTxnsArgs_Write p) (OpenTxnsArgs_toks p).
Proof. enter_struct. unfold OpenTxnsArgs_wire, OpenTxnsArgs_writeField1. write_fields. Qed.
Lemma OpenTxnsArgs_runs d fuel p : (1 <= d)%nat -> (8 <= fuel)%nat -> 
  exists ids, runs d (OpenTxnsArgs_switch fuel) (concat (OpenTxnsArgs_wire p)) zero_OpenTxnsArgs (OpenTxnsArgs_canon p) ids.
Proof.
  intros Hd Hf. unfold OpenTxnsArgs_wire. eexists.
  cbn [concat]. run_opt OpenTxnsArgs_set_Rqst OpenTxnRequest_canon.
  run_end.
Qed.
Lemma OpenTxnsArgs_reads d fuel p : (2 <= d)%nat -> (8 <= fuel)%nat -> 
  reads d (OpenTxnsArgs_Read fuel zero_OpenTxnsArgs) (OpenTxnsArgs_toks (Some p)) (OpenTxnsArgs_canon p).
Proof. struct_reads OpenTxnsArgs_runs OpenTxnsArgs_wire. Qed.
#[local] Hint Resolve OpenTxnsArgs_writes OpenTxnsArgs_reads : wire.
Lemma OpenTxnsArgs_value p : value 3 STRUCT (OpenTxnsArgs_toks p).
Proof. struct_is_value OpenTxnsArgs_toks OpenTxnsArgs_wire. Qed.
#[local] Hint Resolve OpenTxnsArgs_value : wire_value.
Definition OpenTxnsArgs_codec : codec OpenTxnsArgs_Write (fun fuel => OpenTxnsArgs_Read fuel zero_OpenTxnsArgs).
Proof. codec_by (fun _ => True) OpenTxnsArgs_toks OpenTxnsArgs_canon OpenTxnsArgs_writes OpenTxnsArgs_value OpenTxnsArgs_reads. Defined.

Definition OpenTxnsResult_wire (p : wOpenTxnsResult) : list (list wfield) :=
  [opt_part (wOpenTxnsResult_Success p) (fun v => (0, STRUCT, OpenTxnsResponse_toks (Some v)))].
Definition OpenTxnsResult_toks (p : option wOpenTxnsResult) : list tok :=
  struct_toks (match p with Some p => concat (OpenTxnsResult_wire p) | None => [] end).
Definition OpenTxnsResult_canon (p : wOpenTxnsResult) : wOpenTxnsResult :=
  mk_wOpenTxnsResult (OpenTxnsResponse_canon <$> wOpenTxnsResult_Success p).

Lemma OpenTxnsResult_writes strict d p : (2 <= d)%nat -> 
  writes strict d (OpenTxnsResult_Write p) (OpenTxnsResult_toks p).
Proof. enter_struct. unfold OpenTxnsResult_wire, OpenTxnsResult_writeField0. write_fields. Qed.
Lemma OpenTxnsResult_runs d fuel p : (1 <= d)%nat -> (2 <= fuel)%nat -> 
  exists ids, runs d (OpenTxnsResult_switch fuel) (concat (OpenTxnsResult_wire p)) zero_OpenTxnsResult (OpenTxnsResult_canon p) ids.
Proof.
  intros Hd Hf. unfold OpenTxnsResult_wire. eexists.
  cbn [concat]. run_opt OpenTxnsResult_set_Success OpenTxnsResponse_canon.
  run_end.
Qed.
Lemma OpenTxnsResult_reads d fuel p : (2 <= d)%nat -> (2 <= fuel)%nat -> 
  reads d (OpenTxnsResult_Read fuel zero_OpenTxnsResult) (OpenTxnsResult_toks (Some p)) (OpenTxnsResult_canon p).
Proof. struct_reads OpenTxnsResult_runs OpenTxnsResult_wire. Qed.
#[local] Hint Resolve OpenTxnsResult_writes OpenTxnsResult_reads : wire.
Lemma OpenTxnsResult_value p : value 3 STRUCT (OpenTxnsResult_toks p).
Proof. struct_is_value OpenTxnsResult_toks OpenTxnsResult_wire. Qed.
#[local] Hint Resolve OpenTxnsResult_value : wire_value.
Definition OpenTxnsResult_codec : codec OpenTxnsResult_Write (fun fuel => OpenTxnsResult_Read fuel zero_OpenTxnsResult).
Proof. codec_by (fun _ => True) OpenTxnsResult_toks OpenTxnsResult_canon OpenTxnsResult_writes OpenTxnsResult_value OpenTxnsResult_reads. Defined.

(** ** commit_txn *)

Definition CommitTxnArgs_wire (p : wCommitTxnArgs) : list (list wfield) :=
  [opt_part (wCommitTxnArgs_Rqst p) (fun v => (1, STRUCT, CommitTxnRequest_toks (Some v)))].
Definition CommitTxnArgs_toks (p : option wCommitTxnArgs) : list tok :=
  struct_toks (match p with Some p => concat (CommitTxnArgs_wire p) | None => [] end).
Definition CommitTxnArgs_canon (p : wCommitTxnArgs) : wCommitTxnArgs :=
  mk_wCommitTxnArgs (CommitTxnRequest_canon <$> wCommitTxnArgs_Rqst p).
Definition CommitTxnArgs_full (p : wCommitTxnArgs) : Prop :=
  forall v, wCommitTxnArgs_Rqst p = Some v -> CommitTxnRequest_full v.

Lemma CommitTxnArgs_writes strict d p : (2 <= d)%nat -> (2 + sub_depth <= d)%nat -> 
  writes strict d (CommitTxnArgs_Write p) (CommitTxnArgs_toks p).
Proof. enter_struct. unfold CommitTxnArgs_wire, CommitTxnArgs_writeField1. write_fields. Qed.
Lemma CommitTxnArgs_runs d fuel p : (1 <= d)%nat -> (S sub_depth <= d)%nat -> (8 <= fuel)%nat -> (sub_fuel <= fuel)%nat -> CommitTxnArgs_full p -> 
  exists ids, runs d (CommitTxnArgs_switch fuel) (concat (CommitTxnArgs_wire p)) zero_CommitTxnArgs (CommitTxnArgs_canon p) ids.
Proof.
  intros Hd Hsub Hf Hsf Hfull. unfold CommitTxnArgs_wire. unfold CommitTxnArgs_full in Hfull. destruct_and? Hfull. eexists.
  cbn [concat]. run_opt CommitTxnArgs_set_Rqst CommitTxnRequest_canon.
  run_end.
Qed.
Lemma CommitTxnArgs_reads d fuel p : (2 <= d)%nat -> (2 + sub_depth <= d)%nat -> (8 <= fuel)%nat -> (sub_fuel <= fuel)%nat -> CommitTxnArgs_full p -> 
  reads d (CommitTxnArgs_Read fuel zero_CommitTxnArgs) (CommitTxnArgs_toks (Some p)) (CommitTxnArgs_canon p).
Proof. struct_reads CommitTxnArgs_runs CommitTxnArgs_wire. Qed.
#[local] Hint Resolve CommitTxnArgs_writes CommitTxnArgs_reads : wire.
Lemma CommitTxnArgs_value p : value (3 + sub_nest) STRUCT (CommitTxnArgs_toks p).
Proof. struct_is_value CommitTxnArgs_toks CommitTxnArgs_wire. Qed.
#[local] Hint Resolve CommitTxnArgs_value : wire_value.
Definition CommitTxnArgs_codec : codec CommitTxnArgs_Write (fun fuel => CommitTxnArgs_Read fuel zero_CommitTxnArgs).
Proof. codec_by (fun p => CommitTxnArgs_full p) CommitTxnArgs_toks CommitTxnArgs_canon CommitTxnArgs_writes CommitTxnArgs_value CommitTxnArgs_reads. Defined.

Definition CommitTxnResult_wire (p : wCommitTxnResult) : list (list wfield) :=
  [opt_part (wCommitTxnResult_O1 p) (fun v => (1, STRUCT, Exception_toks (Some v)));
   opt_part (wCommitTxnResult_O2 p) (fun v => (2, STRUCT, Exception_toks (Some v)))].
Definition CommitTxnResult_toks (p : option wCommitTxnResult) : list tok :=
  struct_toks (match p with Some p => concat (CommitTxnResult_wire p) | None => [] end).
Definition CommitTxnResult_canon (p : wCommitTxnResult) : wCommitTxnResult :=
  mk_wCommitTxnResult (wCommitTxnResult_O1 p)
    (wCommitTxnResult_O2 p).

Lemma CommitTxnResult_writes strict d p : (2 <= d)%nat -> 
  writes strict d (CommitTxnResult_Write p) (CommitTxnResult_toks p).
Proof. enter_struct. unfold CommitTxnResult_wire, CommitTxnResult_writeField1, CommitTxnResult_writeField2. write_fields. Qed.
Lemma CommitTxnResult_runs d fuel p : (1 <= d)%nat -> (3 <= fuel)%nat -> 
  exists ids, runs d (CommitTxnResult_switch fuel) (concat (CommitTxnResult_wire p)) zero_CommitTxnResult (CommitTxnResult_canon p) ids.
Proof.
  intros Hd Hf. unfold CommitTxnResult_wire. eexists.
  cbn [concat]. run_opt_same CommitTxnResult_set_O1.
  run_opt_same CommitTxnResult_set_O2.
  run_end.
Qed.
Lemma CommitTxnResult_reads d fuel p : (2 <= d)%nat -> (3 <= fuel)%nat -> 
  reads d (CommitTxnResult_Read fuel zero_CommitTxnResult) (CommitTxnResult_toks (Some p)) (CommitTxnResult_canon p).
Proof. struct_reads CommitTxnResult_runs CommitTxnResult_wire. Qed.
#[local] Hint Resolve CommitTxnResult_writes CommitTxnResult_reads : wire.
Lemma CommitTxnResult_value p : value 2 STRUCT (CommitTxnResult_toks p).
Proof. struct_is_value CommitTxnResult_toks CommitTxnResult_wire. Qed.
#[local] Hint Resolve CommitTxnResult_value : wire_value.
Definition CommitTxnResult_codec : codec CommitTxnResult_Write (fun fuel => CommitTxnResult_Read fuel zero_CommitTxnResult).
Proof. codec_by (fun _ => True) CommitTxnResult_toks CommitTxnResult_canon CommitTxnResult_writes CommitTxnResult_value CommitTxnResult_reads. Defined.

(** ** abort_txn *)

Definition AbortTxnArgs_wire (p : wAbortTxnArgs) : list (list wfield) :=
  [opt_part (wAbortTxnArgs_Rqst p) (fun v => (1, STRUCT, AbortTxnRequest_toks (Some v)))].
Definition AbortTxnArgs_toks (p : option wAbortTxnArgs) : list tok :=
  struct_toks (match p with Some p => concat (AbortTxnArgs_wire p) | None => [] end).
Definition AbortTxnArgs_canon (p : wAbortTxnArgs) : wAbortTxnArgs :=
  mk_wAbortTxnArgs (AbortTxnRequest_canon <$> wAbortTxnArgs_Rqst p).

Lemma AbortTxnArgs_writes strict d p : (2 <= d)%nat -> 
  writes strict d (AbortTxnArgs_Write p) (AbortTxnArgs_toks p).
Proof. enter_struct. unfold AbortTxnArgs_wire, AbortTxnArgs_writeField1. write_fields. Qed.
Lemma AbortTxnArgs_runs d fuel p : (1 <= d)%nat -> (5 <= fuel)%nat -> 
  exists ids, runs d (AbortTxnArgs_switch fuel) (concat (AbortTxnArgs_wire p)) zero_AbortTxnArgs (AbortTxnArgs_canon p) ids.
Proof.
  intros Hd Hf. unfold AbortTxnArgs_wire. eexists.
  cbn [concat]. run_opt AbortTxnArgs_set_Rqst AbortTxnRequest_canon.
  run_end.
Qed.
Lemma AbortTxnArgs_reads d fuel p : (2 <= d)%nat -> (5 <= fuel)%nat -> 
  reads d (AbortTxnArgs_Read fuel zero_AbortTxnArgs) (AbortTxnArgs_toks (Some p)) (AbortTxnArgs_canon p).
Proof. struct_reads AbortTxnArgs_runs AbortTxnArgs_wire. Qed.
#[local] Hint Resolve AbortTxnArgs_writes AbortTxnArgs_reads : wire.
Lemma AbortTxnArgs_value p : value 2 STRUCT (AbortTxnArgs_toks p).
Proof. struct_is_value AbortTxnArgs_toks AbortTxnArgs_wire. Qed.
#[local] Hint Resolve AbortTxnArgs_value : wire_value.
Definition AbortTxnArgs_codec : codec AbortTxnArgs_Write (fun fuel => AbortTxnArgs_Read fuel zero_AbortTxnArgs).
Proof. codec_by (fun _ => True) AbortTxnArgs_toks AbortTxnArgs_canon AbortTxnArgs_writes AbortTxnArgs_value AbortTxnArgs_reads. Defined.

Definition AbortTxnResult_wire (p : wAbortTxnResult) : list (list wfield) :=
  [opt_part (wAbortTxnResult_O1 p) (fun v => (1, STRUCT, Exception_toks (Some v)))].
Definition AbortTxnResult_toks (p : option wAbortTxnResult) : list tok :=
  struct_toks (match p with Some p => concat (AbortTxnResult_wire p) | None => [] end).
Definition AbortTxnResult_canon (p : wAbortTxnResult) : wAbortTxnResult :=
  mk_wAbortTxnResult (wAbortTxnResult_O1 p).

Lemma AbortTxnResult_writes strict d p : (2 <= d)%nat -> 
  writes strict d (AbortTxnResult_Write p) (AbortTxnResult_toks p).
Proof. enter_struct. unfold AbortTxnResult_wire, AbortTxnResult_writeField1. write_fields. Qed.
Lemma AbortTxnResult_runs d fuel p : (1 <= d)%nat -> (2 <= fuel)%nat -> 
  exists ids, runs d (AbortTxnResult_switch fuel) (concat (AbortTxnResult_wire p)) zero_AbortTxnResult (AbortTxnResult_canon p) ids.
Proof.
  intros Hd Hf. unfold AbortTxnResult_wire. eexists.
  cbn [concat]. run_opt_same AbortTxnResult_set_O1.
  run_end.
Qed.
Lemma AbortTxnResult_reads d fuel p : (2 <= d)%nat -> (2 <= fuel)%nat -> 
  reads d (AbortTxnResult_Read fuel zero_AbortTxnResult) (AbortTxnResult_toks (Some p)) (AbortTxnResult_canon p).
Proof. struct_reads AbortTxnResult_runs AbortTxnResult_wire. Qed.
#[local] Hint Resolve AbortTxnResult_writes AbortTxnResult_reads : wire.
Lemma AbortTxnResult_value p : value 2 STRUCT (AbortTxnResult_toks p).
Proof. struct_is_value AbortTxnResult_toks AbortTxnResult_wire. Qed.
#[local] Hint Resolve AbortTxnResult_value : wire_value.
Definition AbortTxnResult_codec : codec AbortTxnResult_Write (fun fuel => AbortTxnResult_Read fuel zero_AbortTxnResult).
Proof. codec_by (fun _ => True) AbortTxnResult_toks AbortTxnResult_canon AbortTxnResult_writes AbortTxnResult_value AbortTxnResult_reads. Defined.

(** ** heartbeat *)

Definition HeartbeatArgs_wire (p : wHeartbeatArgs) : list (list wfield) :=
  [opt_part (wHeartbeatArgs_Ids p) (fun v => (1, STRUCT, HeartbeatRequest_toks (Some v)))].
Definition HeartbeatArgs_toks (p : option wHeartbeatArgs) : list tok :=
  struct_toks (match p with Some p => concat (HeartbeatArgs_wire p) | None => [] end).
Definition HeartbeatArgs_canon (p : wHeartbeatArgs) : wHeartbeatArgs :=
  mk_wHeartbeatArgs (HeartbeatRequest_canon <$> wHeartbeatArgs_Ids p).

Lemma HeartbeatArgs_writes strict d p : (2 <= d)%nat -> 
  writes strict d (HeartbeatArgs_Write p) (HeartbeatArgs_toks p).
Proof. enter_struct. unfold HeartbeatArgs_wire, HeartbeatArgs_writeField1. write_fields. Qed.
Lemma HeartbeatArgs_runs d fuel p : (1 <= d)%nat -> (3 <= fuel)%nat -> 
  exists ids, runs d (HeartbeatArgs_switch fuel) (concat (HeartbeatArgs_wire p)) zero_HeartbeatArgs (HeartbeatArgs_canon p) ids.
Proof.
  intros Hd Hf. unfold HeartbeatArgs_wire. eexists.
  cbn [concat]. run_opt HeartbeatArgs_set_Ids HeartbeatRequest_canon.
  run_end.
Qed.
Lemma HeartbeatArgs_reads d fuel p : (2 <= d)%nat -> (3 <= fuel)%nat -> 
  reads d (HeartbeatArgs_Read fuel zero_HeartbeatArgs) (HeartbeatArgs_toks (Some p)) (HeartbeatArgs_canon p).
Proof. struct_reads HeartbeatArgs_runs HeartbeatArgs_wire. Qed.
#[local] Hint Resolve HeartbeatArgs_writes HeartbeatArgs_reads : wire.
Lemma HeartbeatArgs_value p : value 2 STRUCT (HeartbeatArgs_toks p).
Proof. struct_is_value HeartbeatArgs_toks HeartbeatArgs_wire. Qed.
#[local] Hint Resolve HeartbeatArgs_value : wire_value.
Definition HeartbeatArgs_codec : codec HeartbeatArgs_Write (fun fuel => HeartbeatArgs_Read fuel zero_HeartbeatArgs).
Proof. codec_by (fun _ => True) HeartbeatArgs_toks HeartbeatArgs_canon HeartbeatArgs_writes HeartbeatArgs_value HeartbeatArgs_reads. Defined.

Definition HeartbeatResult_wire (p : wHeartbeatResult) : list (list wfield) :=
  [opt_part (wHeartbeatResult_O1 p) (fun v => (1, STRUCT, Exception_toks (Some v)));
   opt_part (wHeartbeatResult_O2 p) (fun v => (2, STRUCT, Exception_toks (Some v)));
   opt_part (wHeartbeatResult_O3 p) (fun v => (3, STRUCT, Exception_toks (Some v)))].
Definition HeartbeatResult_toks (p : option wHeartbeatResult) : list tok :=
  struct_toks (match p with Some p => concat (HeartbeatResult_wire p) | None => [] end).
Definition HeartbeatResult_canon (p : wHeartbeatResult) : wHeartbeatResult :=
  mk_wHeartbeatResult (wHeartbeatResult_O1 p)
    (wHeartbeatResult_O2 p)
    (wHeartbeatResult_O3 p).

Lemma HeartbeatResult_writes strict d p : (2 <= d)%nat -> 
  writes strict d (HeartbeatResult_Write p) (HeartbeatResult_toks p).
Proof. enter_struct. unfold HeartbeatResult_wire, HeartbeatResult_writeField1, HeartbeatResult_writeField2, HeartbeatResult_writeField3. write_fields. Qed.
Lemma HeartbeatResult_runs d fuel p : (1 <= d)%nat -> (4 <= fuel)%nat -> 
  exists ids, runs d (HeartbeatResult_switch fuel) (concat (HeartbeatResult_wire p)) zero_HeartbeatResult (HeartbeatResult_canon p) ids.
Proof.
  intros Hd Hf. unfold HeartbeatResult_wire. eexists.
  cbn [concat]. run_opt_same HeartbeatResult_set_O1.
  run_opt_same HeartbeatResult_set_O2.
  run_opt_same HeartbeatResult_set_O3.
  run_end.
Qed.
Lemma HeartbeatResult_reads d fuel p : (2 <= d)%nat -> (4 <= fuel)%nat -> 
  reads d (HeartbeatResult_Read fuel zero_HeartbeatResult) (HeartbeatResult_toks (Some p)) (HeartbeatResult_canon p).
Proof. struct_reads HeartbeatResult_runs HeartbeatResult_wire. Qed.
#[local] Hint Resolve HeartbeatResult_writes HeartbeatResult_reads : wire.
Lemma HeartbeatResult_value p : value 2 STRUCT (HeartbeatResult_toks p).
Proof. struct_is_value HeartbeatResult_toks HeartbeatResult_wire. Qed.
#[local] Hint Resolve HeartbeatResult_value : wire_value.
Definition HeartbeatResult_codec : codec HeartbeatResult_Write (fun fuel => HeartbeatResult_Read fuel zero_HeartbeatResult).
Proof. codec_by (fun _ => True) HeartbeatResult_toks HeartbeatResult_canon HeartbeatResult_writes HeartbeatResult_value HeartbeatResult_reads. Defined.

(** ** lock *)

Definition LockArgs_wire (p : wLockArgs) : list (list wfield) :=
  [opt_part (wLockArgs_Rqst p) (fun v => (1, STRUCT, LockRequest_toks (Some v)))].
Definition LockArgs_toks (p : option wLockArgs) : list tok :=
  struct_toks (match p with Some p => concat (LockArgs_wire p) | None => [] end).
Definition LockArgs_canon (p : wLockArgs) : wLockArgs :=
  mk_wLockArgs (LockRequest_canon <$> wLockArgs_Rqst p).
Definition LockArgs_full (p : wLockArgs) : Prop :=
  forall v, wLockArgs_Rqst p = Some v -> LockRequest_full v.

Lemma LockArgs_writes strict d p : (3 <= d)%nat -> 
  writes strict d (LockArgs_Write p) (LockArgs_toks p).
Proof. enter_struct. unfold LockArgs_wire, LockArgs_writeField1. write_fields. Qed.
Lemma LockArgs_runs d fuel p : (2 <= d)%nat -> (9 <= fuel)%nat -> LockArgs_full p -> 
  exists ids, runs d (LockArgs_switch fuel) (concat (LockArgs_wire p)) zero_LockArgs (LockArgs_canon p) ids.
Proof.
  intros Hd Hf Hfull. unfold LockArgs_wire. unfold LockArgs_full in Hfull. destruct_and? Hfull. eexists.
  cbn [concat]. run_opt LockArgs_set_Rqst LockRequest_canon.
  run_end.
Qed.
Lemma LockArgs_reads d fuel p : (3 <= d)%nat -> (9 <= fuel)%nat -> LockArgs_full p -> 
  reads d (LockArgs_Read fuel zero_LockArgs) (LockArgs_toks (Some p)) (LockArgs_canon p).
Proof. struct_reads LockArgs_runs LockArgs_wire. Qed.
#[local] Hint Resolve LockArgs_writes LockArgs_reads : wire.
Lemma LockArgs_value p : value 4 STRUCT (LockArgs_toks p).
Proof. struct_is_value LockArgs_toks LockArgs_wire. Qed.
#[local] Hint Resolve LockArgs_value : wire_value.
Definition LockArgs_codec : codec LockArgs_Write (fun fuel => LockArgs_Read fuel zero_LockArgs).
Proof. codec_by (fun p => LockArgs_full p) LockArgs_toks LockArgs_canon LockArgs_writes LockArgs_value LockArgs_reads. Defined.

Definition LockResult_wire (p : wLockResult) : list (list wfield) :=
  [opt_part (wLockResult_Success p) (fun v => (0, STRUCT, LockResponse_toks (Some v)));
   opt_part (wLockResult_O1 p) (fun v => (1, STRUCT, Exception_toks (Some v)));
   opt_part (wLockResult_O2 p) (fun v => (2, STRUCT, Exception_toks (Some v)))].
Definition LockResult_toks (p : option wLockResult) : list tok :=
  struct_toks (match p with Some p => concat (LockResult_wire p) | None => [] end).
Definition LockResult_canon (p : wLockResult) : wLockResult :=
  mk_wLockResult (LockResponse_canon <$> wLockResult_Success p)
    (wLockResult_O1 p)
    (wLockResult_O2 p).

Lemma LockResult_writes strict d p : (2 <= d)%nat -> 
  writes strict d (LockResult_Write p) (LockResult_toks p).
Proof. enter_struct. unfold LockResult_wire, LockResult_writeField0, LockResult_writeField1, LockResult_writeField2. write_fields. Qed.
Lemma LockResult_runs d fuel p : (1 <= d)%nat -> (4 <= fuel)%nat -> 
  exists ids, runs d (LockResult_switch fuel) (concat (LockResult_wire p)) zero_LockResult (LockResult_canon p) ids.
Proof.
  intros Hd Hf. unfold LockResult_wire. eexists.
  cbn [concat]. run_opt LockResult_set_Success LockResponse_canon.
  run_opt_same LockResult_set_O1.
  run_opt_same LockResult_set_O2.
  run_end.
Qed.
Lemma LockResult_reads d fuel p : (2 <= d)%nat -> (4 <= fuel)%nat -> 
  reads d (LockResult_Read fuel zero_LockResult) (LockResult_toks (Some p)) (LockResult_canon p).
Proof. struct_reads LockResult_runs LockResult_wire. Qed.
#[local] Hint Resolve LockResult_writes LockResult_reads : wire.
Lemma LockResult_value p : value 2 STRUCT (LockResult_toks p).
Proof. struct_is_value LockResult_toks LockResult_wire. Qed.
#[local] Hint Resolve LockResult_value : wire_value.
Definition LockResult_codec : codec LockResult_Write (fun fuel => LockResult_Read fuel zero_LockResult).
Proof. codec_by (fun _ => True) LockResult_toks LockResult_canon LockResult_writes LockResult_value LockResult_reads. Defined.

(** ** check_lock *)

Definition CheckLockArgs_wire (p : wCheckLockArgs) : list (list wfield) :=
  [opt_part (wCheckLockArgs_Rqst p) (fun v => (1, STRUCT, CheckLockRequest_toks (Some v)))].
Definition CheckLockArgs_toks (p : option wCheckLockArgs) : list tok :=
  struct_toks (match p with Some p => concat (CheckLockArgs_wire p) | None => [] end).
Definition CheckLockArgs_canon (p : wCheckLockArgs) : wCheckLockArgs :=
  mk_wCheckLockArgs (CheckLockRequest_canon <$> wCheckLockArgs_Rqst p).

Lemma CheckLockArgs_writes strict d p : (2 <= d)%nat -> 
  writes strict d (CheckLockArgs_Write p) (CheckLockArgs_toks p).
Proof. enter_struct. unfold CheckLockArgs_wire, CheckLockArgs_writeField1. write_fields. Qed.
Lemma CheckLockArgs_runs d fuel p : (1 <= d)%nat -> (4 <= fuel)%nat -> 
  exists ids, runs d (CheckLockArgs_switch fuel) (concat (CheckLockArgs_wire p)) zero_CheckLockArgs (CheckLockArgs_canon p) ids.
Proof.
  intros Hd Hf. unfold CheckLockArgs_wire. eexists.
  cbn [concat]. run_opt CheckLockArgs_set_Rqst CheckLockRequest_canon.
  run_end.
Qed.
Lemma CheckLockArgs_reads d fuel p : (2 <= d)%nat -> (4 <= fuel)%nat -> 
  reads d (CheckLockArgs_Read fuel zero_CheckLockArgs) (CheckLockArgs_toks (Some p)) (CheckLockArgs_canon p).
Proof. struct_reads CheckLockArgs_runs CheckLockArgs_wire. Qed.
#[local] Hint Resolve CheckLockArgs_writes CheckLockArgs_reads : wire.
Lemma CheckLockArgs_value p : value 2 STRUCT (CheckLockArgs_toks p).
Proof. struct_is_value CheckLockArgs_toks CheckLockArgs_wire. Qed.
#[local] Hint Resolve CheckLockArgs_value : wire_value.
Definition CheckLockArgs_codec : codec CheckLockArgs_Write (fun fuel => CheckLockArgs_Read fuel zero_CheckLockArgs).
Proof. codec_by (fun _ => True) CheckLockArgs_toks CheckLockArgs_canon CheckLockArgs_writes CheckLockArgs_value CheckLockArgs_reads. Defined.

Definition CheckLockResult_wire (p : wCheckLockResult) : list (list wfield) :=
  [opt_part (wCheckLockResult_Success p) (fun v => (0, STRUCT, LockResponse_toks (Some v)));
   opt_part (wCheckLockResult_O1 p) (fun v => (1, STRUCT, Exception_toks (Some v)));
   opt_part (wCheckLockResult_O2 p) (fun v => (2, STRUCT, Exception_toks (Some v)));
   opt_part (wCheckLockResult_O3 p) (fun v => (3, STRUCT, Exception_toks (Some v)))].
Definition CheckLockResult_toks (p : option wCheckLockResult) : list tok :=
  struct_toks (match p with Some p => concat (CheckLockResult_wire p) | None => [] end).
Definition CheckLockResult_canon (p : wCheckLockResult) : wCheckLockResult :=
  mk_wCheckLockResult (LockResponse_canon <$> wCheckLockResult_Success p)
    (wCheckLockResult_O1 p)
    (wCheckLockResult_O2 p)
    (wCheckLockResult_O3 p).

Lemma CheckLockResult_writes strict d p : (2 <= d)%nat -> 
  writes strict d (CheckLockResult_Write p) (CheckLockResult_toks p).
Proof. enter_struct. unfold CheckLockResult_wire, CheckLockResult_writeField0, CheckLockResult_writeField1, CheckLockResult_writeField2, CheckLockResult_writeField3. write_fields. Qed.
Lemma CheckLockResult_runs d fuel p : (1 <= d)%nat -> (5 <= fuel)%nat -> 
  exists ids, runs d (CheckLockResult_switch fuel) (concat (CheckLockResult_wire p)) zero_CheckLockResult (CheckLockResult_canon p) ids.
Proof.
  intros Hd Hf. unfold CheckLockResult_wire. eexists.
  cbn [concat]. run_opt CheckLockResult_set_Success LockResponse_canon.
  run_opt_same CheckLockResult_set_O1.
  run_opt_same CheckLockResult_set_O2.
  run_opt_same CheckLockResult_set_O3.
  run_end.
Qed.
Lemma CheckLockResult_reads d fuel p : (2 <= d)%nat -> (5 <= fuel)%nat -> 
  reads d (CheckLockResult_Read fuel zero_CheckLockResult) (CheckLockResult_toks (Some p)) (CheckLockResult_canon p).
Proof. struct_reads CheckLockResult_runs CheckLockResult_wire. Qed.
#[local] Hint Resolve CheckLockResult_writes CheckLockResult_reads : wire.
Lemma CheckLockResult_value p : value 2 STRUCT (CheckLockResult_toks p).
Proof. struct_is_value CheckLockResult_toks CheckLockResult_wire. Qed.
#[local] Hint Resolve CheckLockResult_value : wire_value.
Definition CheckLockResult_codec : codec CheckLockResult_Write (fun fuel => CheckLockResult_Read fuel zero_CheckLockResult).
Proof. codec_by (fun _ => True) CheckLockResult_toks CheckLockResult_canon CheckLockResult_writes CheckLockResult_value CheckLockResult_reads. Defined.

(** ** unlock *)

Definition UnlockArgs_wire (p : wUnlockArgs) : list (list wfield) :=
  [opt_part (wUnlockArgs_Rqst p) (fun v => (1, STRUCT, UnlockRequest_toks (Some v)))].
Definition UnlockArgs_toks (p : option wUnlockArgs) : list tok :=
  struct_toks (match p with Some p => concat (UnlockArgs_wire p) | None => [] end).
Definition UnlockArgs_canon (p : wUnlockArgs) : wUnlockArgs :=
  mk_wUnlockArgs (UnlockRequest_canon <$> wUnlockArgs_Rqst p).

Lemma UnlockArgs_writes strict d p : (2 <= d)%nat -> 
  writes strict d (UnlockArgs_Write p) (UnlockArgs_toks p).
Proof. enter_struct. unfold UnlockArgs_wire, UnlockArgs_writeField1. write_fields. Qed.
Lemma UnlockArgs_runs d fuel p : (1 <= d)%nat -> (2 <= fuel)%nat -> 
  exists ids, runs d (UnlockArgs_switch fuel) (concat (UnlockArgs_wire p)) zero_UnlockArgs (UnlockArgs_canon p) ids.
Proof.
  intros Hd Hf. unfold UnlockArgs_wire. eexists.
  cbn [concat]. run_opt UnlockArgs_set_Rqst UnlockRequest_canon.
  run_end.
Qed.
Lemma UnlockArgs_reads d fuel p : (2 <= d)%nat -> (2 <= fuel)%nat -> 
  reads d (UnlockArgs_Read fuel zero_UnlockArgs) (UnlockArgs_toks (Some p)) (UnlockArgs_canon p).
Proof. struct_reads UnlockArgs_runs UnlockArgs_wire. Qed.
#[local] Hint Resolve UnlockArgs_writes UnlockArgs_reads : wire.
Lemma UnlockArgs_value p : value 2 STRUCT (UnlockArgs_toks p).
Proof. struct_is_value UnlockArgs_toks UnlockArgs_wire. Qed.
#[local] Hint Resolve UnlockArgs_value : wire_value.
Definition UnlockArgs_codec : codec UnlockArgs_Write (fun fuel => UnlockArgs_Read fuel zero_UnlockArgs).
Proof. codec_by (fun _ => True) UnlockArgs_toks UnlockArgs_canon UnlockArgs_writes UnlockArgs_value UnlockArgs_reads. Defined.

Definition UnlockResult_wire (p : wUnlockResult) : list (list wfield) :=
  [opt_part (wUnlockResult_O1 p) (fun v => (1, STRUCT, Exception_toks (Some v)));
   opt_part (wUnlockResult_O2 p) (fun v => (2, STRUCT, Exception_toks (Some v)))].
Definition UnlockResult_toks (p : option wUnlockResult) : list tok :=
  struct_toks (match p with Some p => concat (UnlockResult_wire p) | None => [] end).
Definition UnlockResult_canon (p : wUnlockResult) : wUnlockResult :=
  mk_wUnlockResult (wUnlockResult_O1 p)
    (wUnlockResult_O2 p).

Lemma UnlockResult_writes strict d p : (2 <= d)%nat -> 
  writes strict d (UnlockResult_Write p) (UnlockResult_toks p).
Proof. enter_struct. unfold UnlockResult_wire, UnlockResult_writeField1, UnlockResult_writeField2. write_fields. Qed.
Lemma UnlockResult_runs d fuel p : (1 <= d)%nat -> (3 <= fuel)%nat -> 
  exists ids, runs d (UnlockResult_switch fuel) (concat (UnlockResult_wire p)) zero_UnlockResult (UnlockResult_canon p) ids.
Proof.
  intros Hd Hf. unfold UnlockResult_wire. eexists.
  cbn [concat]. run_opt_same UnlockResult_set_O1.
  run_opt_same UnlockResult_set_O2.
  run_end.
Qed.
Lemma UnlockResult_reads d fuel p : (2 <= d)%nat -> (3 <= fuel)%nat -> 
  reads d (UnlockResult_Read fuel zero_UnlockResult) (UnlockResult_toks (Some p)) (UnlockResult_canon p).
Proof. struct_reads UnlockResult_runs UnlockResult_wire. Qed.
#[local] Hint Resolve UnlockResult_writes UnlockResult_reads : wire.
Lemma UnlockResult_value p : value 2 STRUCT (UnlockResult_toks p).
Proof. struct_is_value UnlockResult_toks UnlockResult_wire. Qed.
#[local] Hint Resolve UnlockResult_value : wire_value.
Definition UnlockResult_codec : codec UnlockResult_Write (fun fuel => UnlockResult_Read fuel zero_UnlockResult).
Proof. codec_by (fun _ => True) UnlockResult_toks UnlockResult_canon UnlockResult_writes UnlockResult_value UnlockResult_reads. Defined.

End facts.

(** ** The calls *)

Section calls.
Context {P W : Type} {TP : TProtocol P} {TL : TProtocolLaws P} {MR : MapRange} {SB : Substructs P} {SL : SubstructLaws P}.
Context {TS : TStandardClient P} {PL : TProcessorLib P} {RL : TRpcLaws P}.
Context (cause : option goerr) (handler : Handler.ThriftHiveMetastore W) (pm : processor_map P W) (fuel : nat).
Context (Hfuel : (msg_fuel <= fuel)%nat).

Lemma GetNextNotification_delivers n rqst :
  GetProcessorFunction pm "get_next_notification" = Some (Processor.GetNextNotification cause handler fuel) ->
  sendable GetNextNotificationArgs_codec (mk_wGetNextNotificationArgs rqst) ->
  delivers n (Stub.GetNextNotification (TC := link_client (Process pm)) fuel rqst) (Handler.GetNextNotification handler (NotificationEventRequest_canon <$> rqst))
    (replies cause GetNextNotificationResult_codec (type_switch Processor.GetNextNotification_declared) Processor.GetNextNotification_answer "get_next_notification")
    (outcome "get_next_notification" [] (fun v => success "get_next_notification" (NotificationEventResponse_canon <$> v))).
Proof. call_method GetNextNotificationArgs_codec GetNextNotificationResult_codec. Qed.
Lemma GetCurrentNotificationEventId_delivers n :
  GetProcessorFunction pm "get_current_notificationEventId" = Some (Processor.GetCurrentNotificationEventId cause handler fuel) ->
  sendable GetCurrentNotificationEventIdArgs_codec (mk_wGetCurrentNotificationEventIdArgs) ->
  delivers n (Stub.GetCurrentNotificationEventId (TC := link_client (Process pm)) fuel) (Handler.GetCurrentNotificationEventId handler)
    (replies cause GetCurrentNotificationEventIdResult_codec (type_switch Processor.GetCurrentNotificationEventId_declared) Processor.GetCurrentNotificationEventId_answer "get_current_notificationEventId")
    (outcome "get_current_notificationEventId" [] (fun v => success "get_current_notificationEventId" (CurrentNotificationEventId_canon <$> v))).
Proof. call_method GetCurrentNotificationEventIdArgs_codec GetCurrentNotificationEventIdResult_codec. Qed.
Lemma OpenTxns_delivers n rqst :
  GetProcessorFunction pm "open_txns" = Some (Processor.OpenTxns cause handler fuel) ->
  sendable OpenTxnsArgs_codec (mk_wOpenTxnsArgs rqst) ->
  delivers n (Stub.OpenTxns (TC := link_client (Process pm)) fuel rqst) (Handler.OpenTxns handler (OpenTxnRequest_canon <$> rqst))
    (replies cause OpenTxnsResult_codec (type_switch Processor.OpenTxns_declared) Processor.OpenTxns_answer "open_txns")
    (outcome "open_txns" [] (fun v => success "open_txns" (OpenTxnsResponse_canon <$> v))).
Proof. call_method OpenTxnsArgs_codec OpenTxnsResult_codec. Qed.
Lemma CommitTxn_delivers n rqst :
  GetProcessorFunction pm "commit_txn" = Some (Processor.CommitTxn cause handler fuel) ->
  sendable CommitTxnArgs_codec (mk_wCommitTxnArgs rqst) ->
  delivers n (Stub.CommitTxn (TC := link_client (Process pm)) fuel rqst) (Handler.CommitTxn handler (CommitTxnRequest_canon <$> rqst))
    (replies cause CommitTxnResult_codec (type_switch Processor.CommitTxn_declared) Processor.CommitTxn_answer "commit_txn")
    (outcome "commit_txn" [NoSuchTxnException; TxnAbortedException] (fun _ => inr tt)).
Proof. call_method CommitTxnArgs_codec CommitTxnResult_codec. Qed.
Lemma AbortTxn_delivers n rqst :
  GetProcessorFunction pm "abort_txn" = Some (Processor.AbortTxn cause handler fuel) ->
  sendable AbortTxnArgs_codec (mk_wAbortTxnArgs rqst) ->
  delivers n (Stub.AbortTxn (TC := link_client (Process pm)) fuel rqst) (Handler.AbortTxn handler (AbortTxnRequest_canon <$> rqst))
    (replies cause AbortTxnResult_codec (type_switch Processor.AbortTxn_declared) Processor.AbortTxn_answer "abort_txn")
    (outcome "abort_txn" [NoSuchTxnException] (fun _ => inr tt)).
Proof. call_method AbortTxnArgs_codec AbortTxnResult_codec. Qed.
Lemma Heartbeat_delivers n ids :
  GetProcessorFunction pm "heartbeat" = Some (Processor.Heartbeat cause handler fuel) ->
  sendable HeartbeatArgs_codec (mk_wHeartbeatArgs ids) ->
  delivers n (Stub.Heartbeat (TC := link_client (Process pm)) fuel ids) (Handler.Heartbeat handler (HeartbeatRequest_canon <$> ids))
    (replies cause HeartbeatResult_codec (type_switch Processor.Heartbeat_declared) Processor.Heartbeat_answer "heartbeat")
    (outcome "heartbeat" [NoSuchLockException; NoSuchTxnException; TxnAbortedException] (fun _ => inr tt)).
Proof. call_method HeartbeatArgs_codec HeartbeatResult_codec. Qed.
Lemma Lock_delivers n rqst :
  GetProcessorFunction pm "lock" = Some (Processor.Lock cause handler fuel) ->
  sendable LockArgs_codec (mk_wLockArgs rqst) ->
  delivers n (Stub.Lock (TC := link_client (Process pm)) fuel rqst) (Handler.Lock handler (LockRequest_canon <$> rqst))
    (replies cause LockResult_codec (type_switch Processor.Lock_declared) Processor.Lock_answer "lock")
    (outcome "lock" [NoSuchTxnException; TxnAbortedException] (fun v => success "lock" (LockResponse_canon <$> v))).
Proof. call_method LockArgs_codec LockResult_codec. Qed.
Lemma CheckLock_delivers n rqst :
  GetProcessorFunction pm "check_lock" = Some (Processor.CheckLock cause handler fuel) ->
  sendable CheckLockArgs_codec (mk_wCheckLockArgs rqst) ->
  delivers n (Stub.CheckLock (TC := link_client (Process pm)) fuel rqst) (Handler.CheckLock handler (CheckLockRequest_canon <$> rqst))
    (replies cause CheckLockResult_codec (type_switch Processor.CheckLock_declared) Processor.CheckLock_answer "check_lock")
    (outcome "check_lock" [NoSuchTxnException; TxnAbortedException; NoSuchLockException] (fun v => success "check_lock" (LockResponse_canon <$> v))).
Proof. call_method CheckLockArgs_codec CheckLockResult_codec. Qed.
Lemma Unlock_delivers n rqst :
  GetProcessorFunction pm "unlock" = Some (Processor.Unlock cause handler fuel) ->
  sendable UnlockArgs_codec (mk_wUnlockArgs rqst) ->
  delivers n (Stub.Unlock (TC := link_client (Process pm)) fuel rqst) (Handler.Unlock handler (UnlockRequest_canon <$> rqst))
    (replies cause UnlockResult_codec (type_switch Processor.Unlock_declared) Processor.Unlock_answer "unlock")
    (outcome "unlock" [NoSuchLockException; TxnOpenException] (fun _ => inr tt)).
Proof. call_method UnlockArgs_codec UnlockResult_codec. Qed.
End calls.
