(* ===== verification/RpcWire.v ===== *)
(** * RpcWire: the metastore behind its wire

    The processor with its methods ([NewThriftHiveMetastoreProcessor]), the client's
    func fields bound to the stubs of a connection ([bound], newConn's), and that
    every call of the client reaches any metastore and comes back ([delivered]). *)

From S2P Require Import Prelude Errors GoMonad Types Transport Wire Conn Thrift ThriftFacts CodecTable CodecTableFacts CodecStats CodecStatsFacts CodecReq CodecReqFacts CodecAcid CodecAcidFacts Rpc RpcHandler RpcCatalog RpcTable RpcPartition RpcTxn RpcFacts DeepCopy RpcCatalogFacts RpcTableFacts RpcPartitionFacts RpcTxnFacts.

(** ** The processor *)

Section processor.
Context {P W : Type} {TP : TProtocol P} {MR : MapRange} {SB : Substructs P} {PL : TProcessorLib P}.

(** The methods the client calls; the IDL has more. *)
Definition NewThriftHiveMetastoreProcessor (cause : option goerr) (handler : Handler.ThriftHiveMetastore W) (fuel : nat) : processor_map P W :=
  [("get_catalogs", RpcCatalog.Processor.GetCatalogs cause handler fuel);
   ("get_catalog", RpcCatalog.Processor.GetCatalog cause handler fuel);
   ("create_catalog", RpcCatalog.Processor.CreateCatalog cause handler fuel);
   ("drop_catalog", RpcCatalog.Processor.DropCatalog cause handler fuel);
   ("get_all_databases", RpcCatalog.Processor.GetAllDatabases cause handler fuel);
   ("get_databases", RpcCatalog.Processor.GetDatabases cause handler fuel);
   ("get_database", RpcCatalog.Processor.GetDatabase cause handler fuel);
   ("create_database", RpcCatalog.Processor.CreateDatabase cause handler fuel);
   ("drop_database", RpcCatalog.Processor.DropDatabase cause handler fuel);
   ("get_all_tables", RpcTable.Processor.GetAllTables cause handler fuel);
   ("get_table_req", RpcTable.Processor.GetTableReq cause handler fuel);
   ("get_table_objects_by_name_req", RpcTable.Processor.GetTableObjectsByNameReq cause handler fuel);
   ("create_table", RpcTable.Processor.CreateTable cause handler fuel);
   ("alter_table", RpcTable.Processor.AlterTable cause handler fuel);
   ("drop_table", RpcTable.Processor.DropTable cause handler fuel);
   ("get_partitions", RpcPartition.Processor.GetPartitions cause handler fuel);
   ("get_partitions_req", RpcPartition.Processor.GetPartitionsReq cause handler fuel);
   ("get_partition_names", RpcPartition.Processor.GetPartitionNames cause handler fuel);
   ("add_partitions_req", RpcPartition.Processor.AddPartitionsReq cause handler fuel);
   ("alter_partitions", RpcPartition.Processor.AlterPartitions cause handler fuel);
   ("alter_partitions_req", RpcPartition.Processor.AlterPartitionsReq cause handler fuel);
   ("drop_partition", RpcPartition.Processor.DropPartition cause handler fuel);
   ("drop_partitions_req", RpcPartition.Processor.DropPartitionsReq cause handler fuel);
   ("get_config_value", RpcCatalog.Processor.GetConfigValue cause handler fuel);
   ("getStatus", RpcCatalog.Processor.GetStatus cause handler fuel);
   ("getVersion", RpcCatalog.Processor.GetVersion cause handler fuel);
   ("set_ugi", RpcCatalog.Processor.SetUgi cause handler fuel);
   ("alter_database", RpcCatalog.Processor.AlterDatabase cause handler fuel);
   ("get_partitions_by_names", RpcPartition.Processor.GetPartitionsByNames cause handler fuel);
   ("get_partitions_by_names_req", RpcPartition.Processor.GetPartitionsByNamesReq cause handler fuel);
   ("get_partitions_by_filter", RpcPartition.Processor.GetPartitionsByFilter cause handler fuel);
   ("get_partition_names_ps", RpcPartition.Processor.GetPartitionNamesPs cause handler fuel);
   ("get_partition_names_ps_req", RpcPartition.Processor.GetPartitionNamesPsReq cause handler fuel);
   ("get_next_notification", RpcTxn.Processor.GetNextNotification cause handler fuel);
   ("get_current_notificationEventId", RpcTxn.Processor.GetCurrentNotificationEventId cause handler fuel);
   ("get_table_statistics_req", RpcTable.Processor.GetTableStatisticsReq cause handler fuel);
   ("open_txns", RpcTxn.Processor.OpenTxns cause handler fuel);
   ("commit_txn", RpcTxn.Processor.CommitTxn cause handler fuel);
   ("abort_txn", RpcTxn.Processor.AbortTxn cause handler fuel);
   ("heartbeat", RpcTxn.Processor.Heartbeat cause handler fuel);
   ("lock", RpcTxn.Processor.Lock cause handler fuel);
   ("check_lock", RpcTxn.Processor.CheckLock cause handler fuel);
   ("unlock", RpcTxn.Processor.Unlock cause handler fuel)].
End processor.

(** ** The client's func fields *)

Section bound.
Context {P C : Type} {TP : TProtocol P} {MR : MapRange} {SB : Substructs P} {TC : TClient P C} (fuel : nat).

(** A call of a stub; the fuel of its reads is never spent ([bound_runs]). *)
Definition run {A} (m : MF C A) : M C A := fun c =>
  match m c with Some r => r | None => (c, inl (EText "out of fuel")) end.

(** newConn's [g.GetCatalogs] and so on. *)
Definition bound : rpcs C := {|
  Conn.getCatalogs := run (RpcCatalog.Stub.GetCatalogs fuel);
  Conn.getCatalog := fun catName => run (RpcCatalog.Stub.GetCatalog fuel (Some catName));
  Conn.createCatalog := fun catalog => run (RpcCatalog.Stub.CreateCatalog fuel (Some catalog));
  Conn.dropCatalog := fun catName => run (RpcCatalog.Stub.DropCatalog fuel (Some catName));
  Conn.getAllDatabases := run (RpcCatalog.Stub.GetAllDatabases fuel);
  Conn.getDatabases := fun pattern => run (RpcCatalog.Stub.GetDatabases fuel pattern);
  Conn.getDatabase := fun name => run (RpcCatalog.Stub.GetDatabase fuel name);
  Conn.createDatabase := fun database => run (RpcCatalog.Stub.CreateDatabase fuel database);
  Conn.dropDatabase := fun name deleteData cascade => run (RpcCatalog.Stub.DropDatabase fuel name deleteData cascade);
  Conn.getAllTables := fun db_name => run (RpcTable.Stub.GetAllTables fuel db_name);
  Conn.getTableReq := fun req => run (RpcTable.Stub.GetTableReq fuel (Some req));
  Conn.getTableObjectsByNameReq := fun req => run (RpcTable.Stub.GetTableObjectsByNameReq fuel (Some req));
  Conn.createTable := fun tbl => run (RpcTable.Stub.CreateTable fuel tbl);
  Conn.alterTable := fun dbname tbl_name new_tbl => run (RpcTable.Stub.AlterTable fuel dbname tbl_name new_tbl);
  Conn.dropTable := fun dbname name deleteData => run (RpcTable.Stub.DropTable fuel dbname name deleteData);
  Conn.getPartitions := fun db_name tbl_name max_parts => run (RpcPartition.Stub.GetPartitions fuel db_name tbl_name max_parts);
  Conn.getPartitionsReq := fun req => run (RpcPartition.Stub.GetPartitionsReq fuel (Some req));
  Conn.getPartitionNames := fun db_name tbl_name max_parts => run (RpcPartition.Stub.GetPartitionNames fuel db_name tbl_name max_parts);
  Conn.addPartitionsReq := fun request => run (RpcPartition.Stub.AddPartitionsReq fuel (Some request));
  Conn.alterPartitions := fun db_name tbl_name new_parts => run (RpcPartition.Stub.AlterPartitions fuel db_name tbl_name new_parts);
  Conn.alterPartitionsReq := fun req => bind (run (RpcPartition.Stub.AlterPartitionsReq fuel (Some req))) (fun _ => ret tt);
  Conn.dropPartition := fun db_name tbl_name part_vals deleteData => run (RpcPartition.Stub.DropPartition fuel db_name tbl_name part_vals deleteData);
  Conn.dropPartitionsReq := fun req => bind (run (RpcPartition.Stub.DropPartitionsReq fuel (Some req))) (fun _ => ret tt);
  Conn.getConfigValue := fun name defaultValue => run (RpcCatalog.Stub.GetConfigValue fuel name defaultValue);
  Conn.getStatus := run (RpcCatalog.Stub.GetStatus fuel);
  Conn.getVersion := run (RpcCatalog.Stub.GetVersion fuel);
  Conn.setUgi := fun _ user_name group_names => run (RpcCatalog.Stub.SetUgi fuel user_name group_names);
  Conn.alterDatabase := fun dbname db => run (RpcCatalog.Stub.AlterDatabase fuel dbname db);
  Conn.getPartitionsByNames := fun db_name tbl_name names => run (RpcPartition.Stub.GetPartitionsByNames fuel db_name tbl_name names);
  Conn.getPartitionsByNamesReq := fun req => run (RpcPartition.Stub.GetPartitionsByNamesReq fuel (Some req));
  Conn.getPartitionsByFilter := fun db_name tbl_name filter_ max_parts => run (RpcPartition.Stub.GetPartitionsByFilter fuel db_name tbl_name filter_ max_parts);
  Conn.getPartitionNamesPs := fun db_name tbl_name part_vals max_parts => run (RpcPartition.Stub.GetPartitionNamesPs fuel db_name tbl_name part_vals max_parts);
  Conn.getPartitionNamesPsReq := fun req => run (RpcPartition.Stub.GetPartitionNamesPsReq fuel (Some req));
  Conn.getNextNotification := fun rqst => run (RpcTxn.Stub.GetNextNotification fuel (Some rqst));
  Conn.getCurrentNotificationEventId := run (RpcTxn.Stub.GetCurrentNotificationEventId fuel);
  Conn.getTableStatisticsReq := fun request => run (RpcTable.Stub.GetTableStatisticsReq fuel (Some request));
  Conn.openTxns := fun rqst => run (RpcTxn.Stub.OpenTxns fuel (Some rqst));
  Conn.commitTxn := fun rqst => run (RpcTxn.Stub.CommitTxn fuel (Some rqst));
  Conn.abortTxn := fun rqst => run (RpcTxn.Stub.AbortTxn fuel (Some rqst));
  Conn.heartbeat := fun ids => run (RpcTxn.Stub.Heartbeat fuel (Some ids));
  Conn.lock := fun rqst => bind (run (RpcTxn.Stub.Lock fuel (Some rqst))) (fun r => ret (Some r));
  Conn.checkLock := fun rqst => bind (run (RpcTxn.Stub.CheckLock fuel (Some rqst))) (fun r => ret (Some r));
  Conn.unlock := fun rqst => run (RpcTxn.Stub.Unlock fuel (Some rqst)) |}.
End bound.

(** ** Every call is delivered *)

Section delivered.
Context {P W : Type} {TP : TProtocol P} {TL : TProtocolLaws P} {MR : MapRange} {SB : Substructs P} {SL : SubstructLaws P}.
Context {TS : TStandardClient P} {PL : TProcessorLib P} {RL : TRpcLaws P}.
Context (cause : option goerr) (handler : Handler.ThriftHiveMetastore W) (fuel n : nat).

#[local] Instance wire : TClient P (link P W) := link_client (Process (NewThriftHiveMetastoreProcessor cause handler fuel)).

(** Of each of the client's RPCs: from a connection at rest its stub, given arguments
    that can be sent, makes the handler's method run once, on the canonical form of
    the arguments, and returns what that answered: the value in canonical form, an
    exception the method declares as that exception, any other error as a
    TApplicationException; and the connection is at rest again. *)
Record delivered : Prop := {
  d_GetCatalogs : sendable GetCatalogsArgs_codec (mk_wGetCatalogsArgs) ->
    delivers n (RpcCatalog.Stub.GetCatalogs fuel) (Handler.GetCatalogs handler)
      (replies cause GetCatalogsResult_codec (type_switch RpcCatalog.Processor.GetCatalogs_declared) RpcCatalog.Processor.GetCatalogs_answer "get_catalogs")
      (outcome "get_catalogs" [MetaException] (fun v => success "get_catalogs" (GetCatalogsResponse_canon <$> v)));
  d_GetCatalog : forall catName, sendable GetCatalogArgs_codec (mk_wGetCatalogArgs catName) ->
    delivers n (RpcCatalog.Stub.GetCatalog fuel catName) (Handler.GetCatalog handler (GetCatalogRequest_canon <$> catName))
      (replies cause GetCatalogResult_codec (type_switch RpcCatalog.Processor.GetCatalog_declared) RpcCatalog.Processor.GetCatalog_answer "get_catalog")
      (outcome "get_catalog" [NoSuchObjectException; MetaException] (fun v => success "get_catalog" (GetCatalogResponse_canon <$> v)));
  d_CreateCatalog : forall catalog, sendable CreateCatalogArgs_codec (mk_wCreateCatalogArgs catalog) ->
    delivers n (RpcCatalog.Stub.CreateCatalog fuel catalog) (Handler.CreateCatalog handler (CreateCatalogRequest_canon <$> catalog))
      (replies cause CreateCatalogResult_codec (type_switch RpcCatalog.Processor.CreateCatalog_declared) RpcCatalog.Processor.CreateCatalog_answer "create_catalog")
      (outcome "create_catalog" [AlreadyExistsException; InvalidObjectException; MetaException] (fun _ => inr tt));
  d_DropCatalog : forall catName, sendable DropCatalogArgs_codec (mk_wDropCatalogArgs catName) ->
    delivers n (RpcCatalog.Stub.DropCatalog fuel catName) (Handler.DropCatalog handler (DropCatalogRequest_canon <$> catName))
      (replies cause DropCatalogResult_codec (type_switch RpcCatalog.Processor.DropCatalog_declared) RpcCatalog.Processor.DropCatalog_answer "drop_catalog")
      (outcome "drop_catalog" [NoSuchObjectException; InvalidOperationException; MetaException] (fun _ => inr tt));
  d_GetAllDatabases : sendable GetAllDatabasesArgs_codec (mk_wGetAllDatabasesArgs) ->
    delivers n (RpcCatalog.Stub.GetAllDatabases fuel) (Handler.GetAllDatabases handler)
      (replies cause GetAllDatabasesResult_codec (type_switch RpcCatalog.Processor.GetAllDatabases_declared) RpcCatalog.Processor.GetAllDatabases_answer "get_all_databases")
      (outcome "get_all_databases" [MetaException] (inr));
  d_GetDatabases : forall pattern, sendable GetDatabasesArgs_codec (mk_wGetDatabasesArgs pattern) ->
    delivers n (RpcCatalog.Stub.GetDatabases fuel pattern) (Handler.GetDatabases handler pattern)
      (replies cause GetDatabasesResult_codec (type_switch RpcCatalog.Processor.GetDatabases_declared) RpcCatalog.Processor.GetDatabases_answer "get_databases")
      (outcome "get_databases" [MetaException] (inr));
  d_GetDatabase : forall name, sendable GetDatabaseArgs_codec (mk_wGetDatabaseArgs name) ->
    delivers n (RpcCatalog.Stub.GetDatabase fuel name) (Handler.GetDatabase handler name)
      (replies cause GetDatabaseResult_codec (type_switch RpcCatalog.Processor.GetDatabase_declared) RpcCatalog.Processor.GetDatabase_answer "get_database")
      (outcome "get_database" [NoSuchObjectException; MetaException] (fun v => success "get_database" (Database_canon <$> v)));
  d_CreateDatabase : forall database, sendable CreateDatabaseArgs_codec (mk_wCreateDatabaseArgs database) ->
    delivers n (RpcCatalog.Stub.CreateDatabase fuel database) (Handler.CreateDatabase handler (Database_canon <$> database))
      (replies cause CreateDatabaseResult_codec (type_switch RpcCatalog.Processor.CreateDatabase_declared) RpcCatalog.Processor.CreateDatabase_answer "create_database")
      (outcome "create_database" [AlreadyExistsException; InvalidObjectException; MetaException] (fun _ => inr tt));
  d_DropDatabase : forall name deleteData cascade, sendable DropDatabaseArgs_codec (mk_wDropDatabaseArgs name deleteData cascade) ->
    delivers n (RpcCatalog.Stub.DropDatabase fuel name deleteData cascade) (Handler.DropDatabase handler name deleteData cascade)
      (replies cause DropDatabaseResult_codec (type_switch RpcCatalog.Processor.DropDatabase_declared) RpcCatalog.Processor.DropDatabase_answer "drop_database")
      (outcome "drop_database" [NoSuchObjectException; InvalidOperationException; MetaException] (fun _ => inr tt));
  d_GetAllTables : forall db_name, sendable GetAllTablesArgs_codec (mk_wGetAllTablesArgs db_name) ->
    delivers n (RpcTable.Stub.GetAllTables fuel db_name) (Handler.GetAllTables handler db_name)
      (replies cause GetAllTablesResult_codec (type_switch RpcTable.Processor.GetAllTables_declared) RpcTable.Processor.GetAllTables_answer "get_all_tables")
      (outcome "get_all_tables" [MetaException] (inr));
  d_GetTableReq : forall req, sendable GetTableReqArgs_codec (mk_wGetTableReqArgs req) ->
    delivers n (RpcTable.Stub.GetTableReq fuel req) (Handler.GetTableReq handler (GetTableRequest_canon <$> req))
      (replies cause GetTableReqResult_codec (type_switch RpcTable.Processor.GetTableReq_declared) RpcTable.Processor.GetTableReq_answer "get_table_req")
      (outcome "get_table_req" [MetaException; NoSuchObjectException] (fun v => success "get_table_req" (GetTableResult__canon <$> v)));
  d_GetTableObjectsByNameReq : forall req, sendable GetTableObjectsByNameReqArgs_codec (mk_wGetTableObjectsByNameReqArgs req) ->
    delivers n (RpcTable.Stub.GetTableObjectsByNameReq fuel req) (Handler.GetTableObjectsByNameReq handler (GetTablesRequest_canon <$> req))
      (replies cause GetTableObjectsByNameReqResult_codec (type_switch RpcTable.Processor.GetTableObjectsByNameReq_declared) RpcTable.Processor.GetTableObjectsByNameReq_answer "get_table_objects_by_name_req")
      (outcome "get_table_objects_by_name_req" [MetaException; InvalidOperationException; UnknownDBException] (fun v => success "get_table_objects_by_name_req" (GetTablesResult__canon <$> v)));
  d_CreateTable : forall tbl, sendable CreateTableArgs_codec (mk_wCreateTableArgs tbl) ->
    delivers n (RpcTable.Stub.CreateTable fuel tbl) (Handler.CreateTable handler (Table_canon <$> tbl))
      (replies cause CreateTableResult_codec (type_switch RpcTable.Processor.CreateTable_declared) RpcTable.Processor.CreateTable_answer "create_table")
      (outcome "create_table" [AlreadyExistsException; InvalidObjectException; MetaException; NoSuchObjectException] (fun _ => inr tt));
  d_AlterTable : forall dbname tbl_name new_tbl, sendable AlterTableArgs_codec (mk_wAlterTableArgs dbname tbl_name new_tbl) ->
    delivers n (RpcTable.Stub.AlterTable fuel dbname tbl_name new_tbl) (Handler.AlterTable handler dbname tbl_name (Table_canon <$> new_tbl))
      (replies cause AlterTableResult_codec (type_switch RpcTable.Processor.AlterTable_declared) RpcTable.Processor.AlterTable_answer "alter_table")
      (outcome "alter_table" [InvalidOperationException; MetaException] (fun _ => inr tt));
  d_DropTable : forall dbname name deleteData, sendable DropTableArgs_codec (mk_wDropTableArgs dbname name deleteData) ->
    delivers n (RpcTable.Stub.DropTable fuel dbname name deleteData) (Handler.DropTable handler dbname name deleteData)
      (replies cause DropTableResult_codec (type_switch RpcTable.Processor.DropTable_declared) RpcTable.Processor.DropTable_answer "drop_table")
      (outcome "drop_table" [NoSuchObjectException; MetaException] (fun _ => inr tt));
  d_GetPartitions : forall db_name tbl_name max_parts, sendable GetPartitionsArgs_codec (mk_wGetPartitionsArgs db_name tbl_name max_parts) ->
    delivers n (RpcPartition.Stub.GetPartitions fuel db_name tbl_name max_parts) (Handler.GetPartitions handler db_name tbl_name max_parts)
      (replies cause GetPartitionsResult_codec (type_switch RpcPartition.Processor.GetPartitions_declared) RpcPartition.Processor.GetPartitions_answer "get_partitions")
      (outcome "get_partitions" [NoSuchObjectException; MetaException] (fun v => inr (map (fun v => Some (Partition_own v)) <$> v)));
  d_GetPartitionsReq : forall req, sendable GetPartitionsReqArgs_codec (mk_wGetPartitionsReqArgs req) ->
    delivers n (RpcPartition.Stub.GetPartitionsReq fuel req) (Handler.GetPartitionsReq handler (PartitionsRequest_canon <$> req))
      (replies cause GetPartitionsReqResult_codec (type_switch RpcPartition.Processor.GetPartitionsReq_declared) RpcPartition.Processor.GetPartitionsReq_answer "get_partitions_req")
      (outcome "get_partitions_req" [NoSuchObjectException; MetaException] (fun v => success "get_partitions_req" (PartitionsResponse_canon <$> v)));
  d_GetPartitionNames : forall db_name tbl_name max_parts, sendable GetPartitionNamesArgs_codec (mk_wGetPartitionNamesArgs db_name tbl_name max_parts) ->
    delivers n (RpcPartition.Stub.GetPartitionNames fuel db_name tbl_name max_parts) (Handler.GetPartitionNames handler db_name tbl_name max_parts)
      (replies cause GetPartitionNamesResult_codec (type_switch RpcPartition.Processor.GetPartitionNames_declared) RpcPartition.Processor.GetPartitionNames_answer "get_partition_names")
      (outcome "get_partition_names" [NoSuchObjectException; MetaException] (inr));
  d_AddPartitionsReq : forall request, sendable AddPartitionsReqArgs_codec (mk_wAddPartitionsReqArgs request) ->
    delivers n (RpcPartition.Stub.AddPartitionsReq fuel request) (Handler.AddPartitionsReq handler (AddPartitionsRequest_canon <$> request))
      (replies cause AddPartitionsReqResult_codec (type_switch RpcPartition.Processor.AddPartitionsReq_declared) RpcPartition.Processor.AddPartitionsReq_answer "add_partitions_req")
      (outcome "add_partitions_req" [InvalidObjectException; AlreadyExistsException; MetaException] (fun v => success "add_partitions_req" (AddPartitionsResult__canon <$> v)));
  d_AlterPartitions : forall db_name tbl_name new_parts, sendable AlterPartitionsArgs_codec (mk_wAlterPartitionsArgs db_name tbl_name new_parts) ->
    delivers n (RpcPartition.Stub.AlterPartitions fuel db_name tbl_name new_parts) (Handler.AlterPartitions handler db_name tbl_name (Some (map (fun v => Some (Partition_own v)) (elems (new_parts)))))
      (replies cause AlterPartitionsResult_codec (type_switch RpcPartition.Processor.AlterPartitions_declared) RpcPartition.Processor.AlterPartitions_answer "alter_partitions")
      (outcome "alter_partitions" [InvalidOperationException; MetaException] (fun _ => inr tt));
  d_AlterPartitionsReq : forall req, sendable AlterPartitionsReqArgs_codec (mk_wAlterPartitionsReqArgs req) ->
    delivers n (RpcPartition.Stub.AlterPartitionsReq fuel req) (Handler.AlterPartitionsReq handler (AlterPartitionsRequest_canon <$> req))
      (replies cause AlterPartitionsReqResult_codec (type_switch RpcPartition.Processor.AlterPartitionsReq_declared) RpcPartition.Processor.AlterPartitionsReq_answer "alter_partitions_req")
      (outcome "alter_partitions_req" [InvalidOperationException; MetaException] (fun v => success "alter_partitions_req" (AlterPartitionsResponse_canon <$> v)));
  d_DropPartition : forall db_name tbl_name part_vals deleteData, sendable DropPartitionArgs_codec (mk_wDropPartitionArgs db_name tbl_name part_vals deleteData) ->
    delivers n (RpcPartition.Stub.DropPartition fuel db_name tbl_name part_vals deleteData) (Handler.DropPartition handler db_name tbl_name (own_strings (part_vals)) deleteData)
      (replies cause DropPartitionResult_codec (type_switch RpcPartition.Processor.DropPartition_declared) RpcPartition.Processor.DropPartition_answer "drop_partition")
      (outcome "drop_partition" [NoSuchObjectException; MetaException] (inr));
  d_DropPartitionsReq : forall req, sendable DropPartitionsReqArgs_codec (mk_wDropPartitionsReqArgs req) ->
    delivers n (RpcPartition.Stub.DropPartitionsReq fuel req) (Handler.DropPartitionsReq handler (DropPartitionsRequest_canon <$> req))
      (replies cause DropPartitionsReqResult_codec (type_switch RpcPartition.Processor.DropPartitionsReq_declared) RpcPartition.Processor.DropPartitionsReq_answer "drop_partitions_req")
      (outcome "drop_partitions_req" [NoSuchObjectException; MetaException] (fun v => success "drop_partitions_req" (DropPartitionsResult__canon <$> v)));
  d_GetConfigValue : forall name defaultValue, sendable GetConfigValueArgs_codec (mk_wGetConfigValueArgs name defaultValue) ->
    delivers n (RpcCatalog.Stub.GetConfigValue fuel name defaultValue) (Handler.GetConfigValue handler name defaultValue)
      (replies cause GetConfigValueResult_codec (type_switch RpcCatalog.Processor.GetConfigValue_declared) RpcCatalog.Processor.GetConfigValue_answer "get_config_value")
      (outcome "get_config_value" [ConfigValSecurityException] (inr));
  d_GetStatus : sendable GetStatusArgs_codec (mk_wGetStatusArgs) ->
    delivers n (RpcCatalog.Stub.GetStatus fuel) (Handler.GetStatus handler)
      (replies cause GetStatusResult_codec (type_switch RpcCatalog.Processor.GetStatus_declared) RpcCatalog.Processor.GetStatus_answer "getStatus")
      (outcome "getStatus" [] (fun v => inr (int32 v)));
  d_GetVersion : sendable GetVersionArgs_codec (mk_wGetVersionArgs) ->
    delivers n (RpcCatalog.Stub.GetVersion fuel) (Handler.GetVersion handler)
      (replies cause GetVersionResult_codec (type_switch RpcCatalog.Processor.GetVersion_declared) RpcCatalog.Processor.GetVersion_answer "getVersion")
      (outcome "getVersion" [] (inr));
  d_SetUgi : forall user_name group_names, sendable SetUgiArgs_codec (mk_wSetUgiArgs user_name group_names) ->
    delivers n (RpcCatalog.Stub.SetUgi fuel user_name group_names) (Handler.SetUgi handler user_name (own_strings (group_names)))
      (replies cause SetUgiResult_codec (type_switch RpcCatalog.Processor.SetUgi_declared) RpcCatalog.Processor.SetUgi_answer "set_ugi")
      (outcome "set_ugi" [MetaException] (inr));
  d_AlterDatabase : forall dbname db, sendable AlterDatabaseArgs_codec (mk_wAlterDatabaseArgs dbname db) ->
    delivers n (RpcCatalog.Stub.AlterDatabase fuel dbname db) (Handler.AlterDatabase handler dbname (Database_canon <$> db))
      (replies cause AlterDatabaseResult_codec (type_switch RpcCatalog.Processor.AlterDatabase_declared) RpcCatalog.Processor.AlterDatabase_answer "alter_database")
      (outcome "alter_database" [MetaException; NoSuchObjectException] (fun _ => inr tt));
  d_GetPartitionsByNames : forall db_name tbl_name names, sendable GetPartitionsByNamesArgs_codec (mk_wGetPartitionsByNamesArgs db_name tbl_name names) ->
    delivers n (RpcPartition.Stub.GetPartitionsByNames fuel db_name tbl_name names) (Handler.GetPartitionsByNames handler db_name tbl_name (own_strings (names)))
      (replies cause GetPartitionsByNamesResult_codec (type_switch RpcPartition.Processor.GetPartitionsByNames_declared) RpcPartition.Processor.GetPartitionsByNames_answer "get_partitions_by_names")
      (outcome "get_partitions_by_names" [MetaException; NoSuchObjectException; InvalidObjectException] (fun v => inr (map (fun v => Some (Partition_own v)) <$> v)));
  d_GetPartitionsByNamesReq : forall req, sendable GetPartitionsByNamesReqArgs_codec (mk_wGetPartitionsByNamesReqArgs req) ->
    delivers n (RpcPartition.Stub.GetPartitionsByNamesReq fuel req) (Handler.GetPartitionsByNamesReq handler (GetPartitionsByNamesRequest_canon <$> req))
      (replies cause GetPartitionsByNamesReqResult_codec (type_switch RpcPartition.Processor.GetPartitionsByNamesReq_declared) RpcPartition.Processor.GetPartitionsByNamesReq_answer "get_partitions_by_names_req")
      (outcome "get_partitions_by_names_req" [MetaException; NoSuchObjectException; InvalidObjectException] (fun v => success "get_partitions_by_names_req" (GetPartitionsByNamesResult__canon <$> v)));
  d_GetPartitionsByFilter : forall db_name tbl_name filter_ max_parts, sendable GetPartitionsByFilterArgs_codec (mk_wGetPartitionsByFilterArgs db_name tbl_name filter_ max_parts) ->
    delivers n (RpcPartition.Stub.GetPartitionsByFilter fuel db_name tbl_name filter_ max_parts) (Handler.GetPartitionsByFilter handler db_name tbl_name filter_ max_parts)
      (replies cause GetPartitionsByFilterResult_codec (type_switch RpcPartition.Processor.GetPartitionsByFilter_declared) RpcPartition.Processor.GetPartitionsByFilter_answer "get_partitions_by_filter")
      (outcome "get_partitions_by_filter" [MetaException; NoSuchObjectException] (fun v => inr (map (fun v => Some (Partition_own v)) <$> v)));
  d_GetPartitionNamesPs : forall db_name tbl_name part_vals max_parts, sendable GetPartitionNamesPsArgs_codec (mk_wGetPartitionNamesPsArgs db_name tbl_name part_vals max_parts) ->
    delivers n (RpcPartition.Stub.GetPartitionNamesPs fuel db_name tbl_name part_vals max_parts) (Handler.GetPartitionNamesPs handler db_name tbl_name (own_strings (part_vals)) max_parts)
      (replies cause GetPartitionNamesPsResult_codec (type_switch RpcPartition.Processor.GetPartitionNamesPs_declared) RpcPartition.Processor.GetPartitionNamesPs_answer "get_partition_names_ps")
      (outcome "get_partition_names_ps" [MetaException; NoSuchObjectException] (inr));
  d_GetPartitionNamesPsReq : forall req, sendable GetPartitionNamesPsReqArgs_codec (mk_wGetPartitionNamesPsReqArgs req) ->
    delivers n (RpcPartition.Stub.GetPartitionNamesPsReq fuel req) (Handler.GetPartitionNamesPsReq handler (GetPartitionNamesPsRequest_canon <$> req))
      (replies cause GetPartitionNamesPsReqResult_codec (type_switch RpcPartition.Processor.GetPartitionNamesPsReq_declared) RpcPartition.Processor.GetPartitionNamesPsReq_answer "get_partition_names_ps_req")
      (outcome "get_partition_names_ps_req" [MetaException; NoSuchObjectException] (fun v => success "get_partition_names_ps_req" (GetPartitionNamesPsResponse_canon <$> v)));
  d_GetNextNotification : forall rqst, sendable GetNextNotificationArgs_codec (mk_wGetNextNotificationArgs rqst) ->
    delivers n (RpcTxn.Stub.GetNextNotification fuel rqst) (Handler.GetNextNotification handler (NotificationEventRequest_canon <$> rqst))
      (replies cause GetNextNotificationResult_codec (type_switch RpcTxn.Processor.GetNextNotification_declared) RpcTxn.Processor.GetNextNotification_answer "get_next_notification")
      (outcome "get_next_notification" [] (fun v => success "get_next_notification" (NotificationEventResponse_canon <$> v)));
  d_GetCurrentNotificationEventId : sendable GetCurrentNotificationEventIdArgs_codec (mk_wGetCurrentNotificationEventIdArgs) ->
    delivers n (RpcTxn.Stub.GetCurrentNotificationEventId fuel) (Handler.GetCurrentNotificationEventId handler)
      (replies cause GetCurrentNotificationEventIdResult_codec (type_switch RpcTxn.Processor.GetCurrentNotificationEventId_declared) RpcTxn.Processor.GetCurrentNotificationEventId_answer "get_current_notificationEventId")
      (outcome "get_current_notificationEventId" [] (fun v => success "get_current_notificationEventId" (CurrentNotificationEventId_canon <$> v)));
  d_GetTableStatisticsReq : forall request, sendable GetTableStatisticsReqArgs_codec (mk_wGetTableStatisticsReqArgs request) ->
    delivers n (RpcTable.Stub.GetTableStatisticsReq fuel request) (Handler.GetTableStatisticsReq handler (TableStatsRequest_canon <$> request))
      (replies cause GetTableStatisticsReqResult_codec (type_switch RpcTable.Processor.GetTableStatisticsReq_declared) RpcTable.Processor.GetTableStatisticsReq_answer "get_table_statistics_req")
      (outcome "get_table_statistics_req" [NoSuchObjectException; MetaException] (fun v => success "get_table_statistics_req" (TableStatsResult__canon <$> v)));
  d_OpenTxns : forall rqst, sendable OpenTxnsArgs_codec (mk_wOpenTxnsArgs rqst) ->
    delivers n (RpcTxn.Stub.OpenTxns fuel rqst) (Handler.OpenTxns handler (OpenTxnRequest_canon <$> rqst))
      (replies cause OpenTxnsResult_codec (type_switch RpcTxn.Processor.OpenTxns_declared) RpcTxn.Processor.OpenTxns_answer "open_txns")
      (outcome "open_txns" [] (fun v => success "open_txns" (OpenTxnsResponse_canon <$> v)));
  d_CommitTxn : forall rqst, sendable CommitTxnArgs_codec (mk_wCommitTxnArgs rqst) ->
    delivers n (RpcTxn.Stub.CommitTxn fuel rqst) (Handler.CommitTxn handler (CommitTxnRequest_canon <$> rqst))
      (replies cause CommitTxnResult_codec (type_switch RpcTxn.Processor.CommitTxn_declared) RpcTxn.Processor.CommitTxn_answer "commit_txn")
      (outcome "commit_txn" [NoSuchTxnException; TxnAbortedException] (fun _ => inr tt));
  d_AbortTxn : forall rqst, sendable AbortTxnArgs_codec (mk_wAbortTxnArgs rqst) ->
    delivers n (RpcTxn.Stub.AbortTxn fuel rqst) (Handler.AbortTxn handler (AbortTxnRequest_canon <$> rqst))
      (replies cause AbortTxnResult_codec (type_switch RpcTxn.Processor.AbortTxn_declared) RpcTxn.Processor.AbortTxn_answer "abort_txn")
      (outcome "abort_txn" [NoSuchTxnException] (fun _ => inr tt));
  d_Heartbeat : forall ids, sendable HeartbeatArgs_codec (mk_wHeartbeatArgs ids) ->
    delivers n (RpcTxn.Stub.Heartbeat fuel ids) (Handler.Heartbeat handler (HeartbeatRequest_canon <$> ids))
      (replies cause HeartbeatResult_codec (type_switch RpcTxn.Processor.Heartbeat_declared) RpcTxn.Processor.Heartbeat_answer "heartbeat")
      (outcome "heartbeat" [NoSuchLockException; NoSuchTxnException; TxnAbortedException] (fun _ => inr tt));
  d_Lock : forall rqst, sendable LockArgs_codec (mk_wLockArgs rqst) ->
    delivers n (RpcTxn.Stub.Lock fuel rqst) (Handler.Lock handler (LockRequest_canon <$> rqst))
      (replies cause LockResult_codec (type_switch RpcTxn.Processor.Lock_declared) RpcTxn.Processor.Lock_answer "lock")
      (outcome "lock" [NoSuchTxnException; TxnAbortedException] (fun v => success "lock" (LockResponse_canon <$> v)));
  d_CheckLock : forall rqst, sendable CheckLockArgs_codec (mk_wCheckLockArgs rqst) ->
    delivers n (RpcTxn.Stub.CheckLock fuel rqst) (Handler.CheckLock handler (CheckLockRequest_canon <$> rqst))
      (replies cause CheckLockResult_codec (type_switch RpcTxn.Processor.CheckLock_declared) RpcTxn.Processor.CheckLock_answer "check_lock")
      (outcome "check_lock" [NoSuchTxnException; TxnAbortedException; NoSuchLockException] (fun v => success "check_lock" (LockResponse_canon <$> v)));
  d_Unlock : forall rqst, sendable UnlockArgs_codec (mk_wUnlockArgs rqst) ->
    delivers n (RpcTxn.Stub.Unlock fuel rqst) (Handler.Unlock handler (UnlockRequest_canon <$> rqst))
      (replies cause UnlockResult_codec (type_switch RpcTxn.Processor.Unlock_declared) RpcTxn.Processor.Unlock_answer "unlock")
      (outcome "unlock" [NoSuchLockException; TxnOpenException] (fun _ => inr tt));
}.

Lemma delivered_holds : (msg_fuel <= fuel)%nat -> delivered.
Proof.
  intros Hfuel. constructor; intros; unfold wire.
  - by apply GetCatalogs_delivers.
  - by apply GetCatalog_delivers.
  - by apply CreateCatalog_delivers.
  - by apply DropCatalog_delivers.
  - by apply GetAllDatabases_delivers.
  - by apply GetDatabases_delivers.
  - by apply GetDatabase_delivers.
  - by apply CreateDatabase_delivers.
  - by apply DropDatabase_delivers.
  - by apply GetAllTables_delivers.
  - by apply GetTableReq_delivers.
  - by apply GetTableObjectsByNameReq_delivers.
  - by apply CreateTable_delivers.
  - by apply AlterTable_delivers.
  - by apply DropTable_delivers.
  - by apply GetPartitions_delivers.
  - by apply GetPartitionsReq_delivers.
  - by apply GetPartitionNames_delivers.
  - by apply AddPartitionsReq_delivers.
  - by apply AlterPartitions_delivers.
  - by apply AlterPartitionsReq_delivers.
  - by apply DropPartition_delivers.
  - by apply DropPartitionsReq_delivers.
  - by apply GetConfigValue_delivers.
  - by apply GetStatus_delivers.
  - by apply GetVersion_delivers.
  - by apply SetUgi_delivers.
  - by apply AlterDatabase_delivers.
  - by apply GetPartitionsByNames_delivers.
  - by apply GetPartitionsByNamesReq_delivers.
  - by apply GetPartitionsByFilter_delivers.
  - by apply GetPartitionNamesPs_delivers.
  - by apply GetPartitionNamesPsReq_delivers.
  - by apply GetNextNotification_delivers.
  - by apply GetCurrentNotificationEventId_delivers.
  - by apply GetTableStatisticsReq_delivers.
  - by apply OpenTxns_delivers.
  - by apply CommitTxn_delivers.
  - by apply AbortTxn_delivers.
  - by apply Heartbeat_delivers.
  - by apply Lock_delivers.
  - by apply CheckLock_delivers.
  - by apply Unlock_delivers.
Qed.
End delivered.

(** ** The queue of tokens, as a connection *)

Module QueueRpc.
Import Queue.

Definition app_Write (ty : app_type) (text : string) : M queue unit :=
  write_struct "TApplicationException" "TApplicationException"
    (Some [write_field "TApplicationException" "message" STRING 1 (write_scalar "TApplicationException" "message" 1 (WriteString text));
           write_field "TApplicationException" "type" I32 2 (write_scalar "TApplicationException" "type" 2 (WriteI32 (app_code ty)))]).
Definition app_switch : switch (P := queue) (app_type * string) := fun id =>
  match id with
  | 1 => Some (STRING, assign (read_scalar 1 ReadString) (fun s x => (fst x, s)))
  | 2 => Some (I32, assign (read_scalar 2 ReadI32) (fun c x => (app_of c, snd x)))
  | _ => None
  end.
Definition app_fields (ty : app_type) (text : string) : list wfield :=
  [(1, STRING, [KString text]); (2, I32, [KI32 (app_code ty)])].

#[export] Instance library : TProcessorLib queue := {|
  Rpc.app_Write := app_Write;
  WrapTException := fun e => e;
  ProcessorError := fun w _ => w;
  abandoned := fun _ => false;
|}.

Definition recv {R} (name : string) (seq : Z) (r : MF queue R) : MF queue R :=
  (h <-- liftF ReadMessageBegin;;
   let '(name', ty, seq') := h in
   if negb (String.eqb name name') then liftF (throw (EApp WRONG_METHOD_NAME name))
   else if negb (seq =? seq') then liftF (throw (EApp BAD_SEQUENCE_ID name))
   else if ty =? EXCEPTION then
     e <-- read_struct "TApplicationException" [] app_switch 3 (APP_OTHER 0, "");;
     _ <-- liftF ReadMessageEnd;; liftF (throw (EApp (fst e) (snd e)))
   else if negb (ty =? REPLY) then liftF (throw (EApp INVALID_MESSAGE_TYPE_EXCEPTION name))
   else a <-- r;; _ <-- liftF ReadMessageEnd;; liftF (ret a))%go.

#[export] Instance standard : TStandardClient queue := {|
  Send := fun name seq w => (WriteMessageBegin name CALL seq;;; w;;; WriteMessageEnd;;; Flush)%go;
  Recv := fun R => recv;
|}.

#[export] Instance rpc_laws : TRpcLaws queue.
Proof.
  refine {| app_toks := fun ty text => struct_toks (app_fields ty text) |}.
  - done.
  - done.
  - intros d ty text. apply (writes_struct True d _ _ _ [[(1, STRING, [KString text])]; [(2, I32, [KI32 (app_code ty)])]]). write_fields.
  - intros d name seq w ts Hw. apply (writes_bind _ d _ _ [KMessage name CALL seq]); [apply writes_tok; constructor|].
    intros _. apply writes_bind; [done|]. intros _. rewrite <- (app_nil_r [KMessageEnd]).
    apply writes_bind; [apply writes_tok; constructor|]. intros _. apply writes_ret.
  - intros R d name seq r ts a Hr. apply (reads_bind d _ _ [KMessage name REPLY seq] _ (name, REPLY, seq)).
    { apply reads_tok. constructor. }
    rewrite String.eqb_refl, Z.eqb_refl. cbn [negb]. change (REPLY =? EXCEPTION) with false. cbn iota.
    change (negb (REPLY =? REPLY)) with false. cbn iota.
    apply (reads_bind d _ _ ts [KMessageEnd] a); [done|]. rewrite <- (app_nil_r [KMessageEnd]).
    apply (reads_bind d _ _ _ _ tt); [apply reads_tok; constructor|]. apply reads_ret.
  - intros R d name seq r ty text p n l Hd Hty Hp _.
    assert (reads d (read_struct "TApplicationException" [] app_switch 3 (APP_OTHER 0, "")) (struct_toks (app_fields ty text)) (ty, text)) as Hr.
    { destruct d as [|d]; [lia|]. apply (reads_struct d _ _ _ 3 (app_fields ty text) _ _ [1; 2]); [|simpl; lia|constructor].
      apply (runs_app d _ [(1, STRING, [KString text])] [(2, I32, [KI32 (app_code ty)])] _ (APP_OTHER 0, text) _ [1] [2]).
      - eapply runs_one; [discriminate|reflexivity|]. refine (reads_assign _ _ _ _ _ _ _). read_value.
      - eapply runs_one; [discriminate|reflexivity|]. rewrite <- Hty at 2. refine (reads_assign _ _ _ _ _ _ _). read_value. }
    destruct p as [ts lv], Hp as [Hp Hn]. simpl in Hp, Hn. subst ts lv.
    unfold Recv, standard, recv. unfold bindF at 1, liftF at 1. cbn [ReadMessageBegin protocol pop q_toks].
    rewrite String.eqb_refl, Z.eqb_refl. change (EXCEPTION =? EXCEPTION) with true. cbn [negb].
    specialize (Hr (mkQueue (struct_toks (app_fields ty text) ++ [KMessageEnd] ++ l) (d + n)) n ([KMessageEnd] ++ l)).
    unfold bindF at 1. unfold message in *.
    match goal with |- context [read_struct _ _ _ _ _ ?q] =>
      replace q with (mkQueue (struct_toks (app_fields ty text) ++ [KMessageEnd] ++ l) (d + n)) by (f_equal; by rewrite <- app_assoc) end.
    destruct (read_struct _ _ _ _ _ _) as [[[ts lv] [e|x]]|]; [|destruct Hr as [-> [Hts Hlv]]; [done|]|by destruct Hr].
    + by destruct (Hr (conj eq_refl eq_refl)); apply Forall_true.
    + simpl in Hts, Hlv. subst ts lv. by eexists.
Defined.
End QueueRpc.
