(* ===== verification/FakeWire.v ===== *)
(** * FakeWire: the fake metastore behind its wire

    hmstest's handler as the generated interface wants it ([fakeHandler]), behind the
    processor of a server of some version ([fakeProcessor]); and that the client's
    func fields, over the connection, answer as [fakeRpcs] does, which EndToEnd and
    its theorems put in their place ([wire_agrees]). *)

From S2P Require Import Prelude Errors GoMonad Wire Types Transport Convert Uri Conn TableOps FakeAcid Fake FakeFacts EndToEnd Thrift ThriftFacts CodecTable CodecTableFacts DeepCopy CodecStats CodecStatsFacts CodecReq CodecReqFacts CodecAcid CodecAcidFacts Rpc RpcHandler RpcCatalog RpcTable RpcPartition RpcTxn RpcFacts RpcCatalogFacts RpcTableFacts RpcPartitionFacts RpcTxnFacts RpcWire.

(** ** The handler *)

Section handler.
Context (path_Match : string -> string -> bool).
Local Open Scope go_scope.

(** A request is used through its pointer. *)
Definition with_request {A B} (name : string) (req : option A) (h : A -> M fake B) : M fake B :=
  match req with Some req => h req | None => Fake.record name;;; throw nil_dereference end.

Definition fakeHandler : Handler.ThriftHiveMetastore fake := {|
  Handler.GetCatalogs := map_answer Some (Fake.GetCatalogs);
  Handler.GetCatalog := fun catName => with_request "get_catalog" catName (fun r => map_answer Some (Fake.GetCatalog r));
  Handler.CreateCatalog := fun catalog => with_request "create_catalog" catalog (fun r => Fake.CreateCatalog r);
  Handler.DropCatalog := fun catName => with_request "drop_catalog" catName (fun r => Fake.DropCatalog r);
  Handler.GetAllDatabases := Fake.GetAllDatabases;
  Handler.GetDatabases := fun pattern => Fake.GetDatabases path_Match pattern;
  Handler.GetDatabase := fun name => map_answer Some (Fake.GetDatabase name);
  Handler.CreateDatabase := fun database => Fake.CreateDatabase database;
  Handler.DropDatabase := fun name deleteData cascade => Fake.DropDatabase name deleteData cascade;
  Handler.GetAllTables := fun db_name => Fake.GetAllTables db_name;
  Handler.GetTableReq := fun req => with_request "get_table_req" req (fun r => map_answer Some (Fake.GetTableReq r));
  Handler.GetTableObjectsByNameReq := fun req => with_request "get_table_objects_by_name_req" req (fun r => map_answer Some (Fake.GetTableObjectsByNameReq r));
  Handler.CreateTable := fun tbl => Fake.CreateTable tbl;
  Handler.AlterTable := fun dbname tbl_name new_tbl => Fake.AlterTable dbname tbl_name new_tbl;
  Handler.DropTable := fun dbname name deleteData => Fake.DropTable dbname name deleteData;
  Handler.GetPartitions := fun db_name tbl_name max_parts => Fake.GetPartitions db_name tbl_name max_parts;
  Handler.GetPartitionsReq := fun req => with_request "get_partitions_req" req (fun r => map_answer Some (Fake.GetPartitionsReq r));
  Handler.GetPartitionNames := fun db_name tbl_name max_parts => Fake.GetPartitionNames db_name tbl_name max_parts;
  Handler.AddPartitionsReq := fun request => with_request "add_partitions_req" request (fun r => map_answer Some (Fake.AddPartitionsReq r));
  Handler.AlterPartitions := fun db_name tbl_name new_parts => Fake.AlterPartitions db_name tbl_name new_parts;
  Handler.AlterPartitionsReq := fun req => with_request "alter_partitions_req" req (fun r => map_answer (fun _ => Some NewAlterPartitionsResponse) (Fake.AlterPartitionsReq r));
  Handler.DropPartition := fun db_name tbl_name part_vals deleteData => Fake.DropPartition db_name tbl_name part_vals deleteData;
  Handler.DropPartitionsReq := fun req => with_request "drop_partitions_req" req (fun r => map_answer (fun _ => Some NewDropPartitionsResult_) (Fake.DropPartitionsReq r));
  Handler.GetConfigValue := fun name defaultValue => Fake.GetConfigValue name defaultValue;
  Handler.GetStatus := Fake.GetStatus;
  Handler.GetVersion := Fake.GetVersion;
  Handler.SetUgi := fun user_name group_names => Fake.SetUgi user_name group_names;
  Handler.AlterDatabase := fun dbname db => Fake.AlterDatabase dbname db;
  Handler.GetPartitionsByNames := fun db_name tbl_name names => Fake.GetPartitionsByNames db_name tbl_name names;
  Handler.GetPartitionsByNamesReq := fun req => with_request "get_partitions_by_names_req" req (fun r => map_answer Some (Fake.GetPartitionsByNamesReq r));
  Handler.GetPartitionsByFilter := fun db_name tbl_name filter_ max_parts => Fake.GetPartitionsByFilter db_name tbl_name filter_ max_parts;
  Handler.GetPartitionNamesPs := fun db_name tbl_name part_vals max_parts => Fake.GetPartitionNamesPs db_name tbl_name part_vals max_parts;
  Handler.GetPartitionNamesPsReq := fun req => with_request "get_partition_names_ps_req" req (fun r => map_answer Some (Fake.GetPartitionNamesPsReq r));
  Handler.GetNextNotification := fun rqst => with_request "get_next_notification" rqst (fun r => map_answer Some (Fake.GetNextNotification r));
  Handler.GetCurrentNotificationEventId := map_answer Some (Fake.GetCurrentNotificationEventId);
  Handler.GetTableStatisticsReq := fun request => with_request "get_table_statistics_req" request (fun r => map_answer Some (Fake.GetTableStatisticsReq r));
  Handler.OpenTxns := fun rqst => with_request "open_txns" rqst (fun r => map_answer Some (on_acid "open_txns" (FakeAcid.OpenTxns r)));
  Handler.CommitTxn := fun rqst => with_request "commit_txn" rqst (fun r => on_acid "commit_txn" (FakeAcid.CommitTxn r));
  Handler.AbortTxn := fun rqst => with_request "abort_txn" rqst (fun r => on_acid "abort_txn" (FakeAcid.AbortTxn r));
  Handler.Heartbeat := fun ids => with_request "heartbeat" ids (fun r => on_acid "heartbeat" (FakeAcid.Heartbeat r));
  Handler.Lock := fun rqst => with_request "lock" rqst (fun r => map_answer Some (on_acid "lock" (FakeAcid.Lock r)));
  Handler.CheckLock := fun rqst => with_request "check_lock" rqst (fun r => map_answer Some (on_acid "check_lock" (FakeAcid.CheckLock r)));
  Handler.Unlock := fun rqst => with_request "unlock" rqst (fun r => on_acid "unlock" (FakeAcid.Unlock r)) |}.
End handler.

(** ** The server *)

(** NewServer's processor: the methods its version lacks are deleted. *)
Definition fakeProcessor {P} {TP : TProtocol P} {MR : MapRange} {SB : Substructs P} {PL : TProcessorLib P}
    (cause : option goerr) (path_Match : string -> string -> bool) (fuel : nat) (v : Version) : processor_map P fake :=
  fold_left (fun m name => delete_method name m) (removedRPCs v)
    (NewThriftHiveMetastoreProcessor cause (fakeHandler path_Match) fuel).

Section lookup.
Context {P W : Type}.

Lemma GetProcessorFunction_delete name x (m : processor_map P W) :
  GetProcessorFunction (delete_method x m) name = if String.eqb name x then None else GetProcessorFunction m name.
Proof.
  unfold delete_method. induction m as [|[y f] m IH]; simpl; [by case_match|].
  destruct (String.eqb_spec y x) as [->|Hyx]; simpl.
  - rewrite IH. rewrite (String.eqb_sym x name). by destruct (String.eqb name x).
  - rewrite IH. destruct (String.eqb_spec y name) as [->|]; [|done]. by destruct (String.eqb_spec name x).
Qed.

Lemma GetProcessorFunction_deleted name removed : forall m : processor_map P W,
  GetProcessorFunction (fold_left (fun m name => delete_method name m) removed m) name =
  if existsb (String.eqb name) removed then None else GetProcessorFunction m name.
Proof.
  induction removed as [|x removed IH]; intros m; simpl; [done|]. rewrite IH, GetProcessorFunction_delete.
  by destruct (String.eqb name x), (existsb _ removed).
Qed.
End lookup.

(** ** Errors of the handlers

    A handler on a method that declares [ks] fails only with one of them, or with an
    error of plain text. *)

Definition declared_error (ks : list thrift_exn) (e : goerr) : Prop :=
  match e with EThrift k _ => k ∈ ks | EText _ => True | _ => False end.
Definition declares {S A} (ks : list thrift_exn) (m : M S A) : Prop :=
  forall s, match snd (m s) with inl e => declared_error ks e | inr _ => True end.

Section declares.
Context (ks : list thrift_exn).

Lemma declares_ret {S A} (a : A) : declares (S := S) ks (ret a).
Proof. done. Qed.
Lemma declares_throw {S A} e : declared_error ks e -> declares (S := S) (A := A) ks (throw e).
Proof. intros H s. exact H. Qed.
Lemma declares_bind {S A B} (m : M S A) (k : A -> M S B) :
  declares ks m -> (forall a, declares ks (k a)) -> declares ks (bind m k).
Proof. intros Hm Hk s. unfold bind. specialize (Hm s). destruct (m s) as [s' [e|a]]; [exact Hm|apply Hk]. Qed.
Lemma declares_lift {A} (r : goerr + A) : match r with inl e => declared_error ks e | inr _ => True end -> declares ks (Fake.lift r).
Proof. intros H s. exact H. Qed.
Lemma declares_version : declares ks version.
Proof. done. Qed.
Lemma declares_store : declares ks store.
Proof. done. Qed.
Lemma declares_now : declares ks now32.
Proof. done. Qed.
Lemma declares_record name : declares ks (Fake.record name).
Proof. done. Qed.
Lemma declares_update g : declares ks (update g).
Proof. done. Qed.
Lemma declares_event ty db tbl : declares ks (recordEvent ty db tbl).
Proof. done. Qed.
Lemma declares_cat v c : MetaException ∈ ks -> match cat v c with inl e => declared_error ks e | inr _ => True end.
Proof. unfold cat. intros H. by repeat case_match; simplify_eq. Qed.
Lemma declares_resolveDB v n : MetaException ∈ ks -> match resolveDB v n with inl e => declared_error ks e | inr _ => True end.
Proof. unfold resolveDB. intros H. by repeat case_match; simplify_eq. Qed.
Lemma declares_with_table {A} c db tbl (k : string -> wTable -> list wPartition -> M fake A) :
  NoSuchObjectException ∈ ks -> (forall key t ps, declares ks (k key t ps)) -> declares ks (with_table c db tbl k).
Proof.
  intros H Hk. apply declares_bind; [apply declares_store|]. intros s. cbv zeta. case_match; [apply Hk|by apply declares_throw].
Qed.
Lemma declares_acid {A} name (m : M acidState A) : declares ks m -> declares ks (on_acid name m).
Proof.
  intros H. unfold on_acid. apply declares_bind; [apply declares_record|]. intros _. apply declares_bind; [apply declares_store|].
  intros s f. specialize (H (Acid s)). by destruct (m (Acid s)).
Qed.
Lemma declares_filter filter : MetaException ∈ ks ->
  match parsePartitionFilter filter with inl e => declared_error ks e | inr _ => True end.
Proof.
  intros H. unfold parsePartitionFilter. destruct (String.eqb (TrimSpace filter) ""); [done|]. generalize (∅ : gmap string string).
  induction (filterAndSplit (TrimSpace filter)) as [|term terms IH]; intros out; simpl; [done|].
  destruct (parseFilterEqTerm term) as [[k w]|]; [apply IH|exact H].
Qed.
Lemma declares_add ifNotExists now ps : AlreadyExistsException ∈ ks -> forall existing added,
  match add_loop ifNotExists now ps existing added with inl e => declared_error ks e | inr _ => True end.
Proof.
  intros H. induction ps as [|p ps IH]; intros existing added; simpl; [done|]. destruct (findPartition existing (values p)); [destruct ifNotExists; [apply IH|exact H]|apply IH].
Qed.
Lemma declares_drop_request req e : drop_request_error req = Some e -> MetaException ∈ ks -> declared_error ks e.
Proof. unfold drop_request_error. intros. by repeat case_match; simplify_eq. Qed.
Lemma declares_check_txn id a e : check_txn id a = Some e ->
  NoSuchTxnException ∈ ks -> TxnAbortedException ∈ ks -> declared_error ks e.
Proof. unfold check_txn. intros. by repeat case_match; simplify_eq. Qed.
Lemma declares_check_lock_id id a e : check_lock_id id a = Some e -> NoSuchLockException ∈ ks -> declared_error ks e.
Proof. unfold check_lock_id. intros. by repeat case_match; simplify_eq. Qed.
End declares.

(** ** Agreement *)

Section agreement.
Context {P : Type} {TP : TProtocol P} {TL : TProtocolLaws P} {MR : MapRange} {SB : Substructs P} {SL : SubstructLaws P}.
Context {TS : TStandardClient P} {PL : TProcessorLib P} {RL : TRpcLaws P}.
Context (cause : option goerr) (path_Match : string -> string -> bool) (fuel n : nat) (v : Version).

#[local] Instance fakeWire : TClient P (link P fake) := link_client (Process (fakeProcessor cause path_Match fuel v)).

(** The reply to an answer fits the protocol's limits, its value being one the codec
    can write. *)
Definition can_reply {V T R} {w : option R -> M P unit} {rd : nat -> MF P R} (c : codec w rd)
    (cases : list (thrift_exn * (wException -> R))) (answer : T -> R) (wrap : V -> T) (r : goerr + V) : Prop :=
  match r with
  | inr a => sendable c (answer (wrap a))
  | inl (EApp ty text) => Forall fits (app_toks ty text)
  | inl e => forall res, type_switch cases e = Some res -> sendable c res
  end.

(** From a connection at rest to a fake of version [v], the call comes back with what
    [rpc] answers in the fake's state, its value seen through [view]; the fake is left
    as [rpc] leaves it, and the connection at rest. *)
Definition agrees {V B} (call : M (link P fake) B) (rpc : M fake V) (ok : goerr + V -> Prop) (view : V -> B) : Prop :=
  forall l, idle n l -> f_v (l_srv l) = v -> ok (snd (rpc (l_srv l))) ->
  exists l', call l = (l', match snd (rpc (l_srv l)) with inl e => inl e | inr a => inr (view a) end) /\
    l_srv l' = fst (rpc (l_srv l)) /\ idle n l'.

Lemma declared_switch {R} (cases : list (thrift_exn * (wException -> R))) k m : k ∈ cases.*1 ->
  exists res, type_switch cases (EThrift k m) = Some res.
Proof.
  induction cases as [|[k' f] cases IH]; [by intros ?%elem_of_nil|]. change (((k', f) :: cases).*1) with (k' :: cases.*1).
  intros H. cbn [type_switch]. case_decide as Hk; [by eexists|]. apply IH. by apply elem_of_cons in H as [->|].
Qed.

Context (Hplain : forall t, abandoned (EText t) = false).

(** What is asked of an answer makes its reply go through. *)
Lemma can_reply_replies {V T R} {w : option R -> M P unit} {rd : nat -> MF P R} (c : codec w rd) cases (answer : T -> R)
    (wrap : V -> T) name (r : goerr + V) :
  match r with inl e => declared_error cases.*1 e | inr _ => True end ->
  can_reply c cases answer wrap (match r with inl e => inl (undeclared name e) | inr a => inr a end) ->
  replies cause c (type_switch cases) answer name (match r with inl e => inl e | inr a => inr (wrap a) end).
Proof.
  intros Hd Hc. destruct r as [e|a]; [|by split]. destruct e as [k m| | | | | | | | | | | |t| | |]; try done.
  - apply (declared_switch cases k m) in Hd as [res Hres]. specialize (Hc res Hres). split; [by rewrite Hres|].
    unfold reply_of. by rewrite Hres.
  - assert (type_switch cases (EText t) = None) as Hres by (by destruct cases). split; [|unfold reply_of; by rewrite Hres].
    intros _. unfold given_up. rewrite Hplain. by destruct cause.
Qed.
Lemma outcome_undeclared {V T B} name ks (wrap : V -> T) (view0 : T -> goerr + B) (view : V -> B) (r : goerr + V) :
  match r with inl e => declared_error ks e | inr a => view0 (wrap a) = inr (view a) end ->
  outcome name ks view0 (match r with inl e => inl e | inr a => inr (wrap a) end) =
  match r with inl e => inl (undeclared name e) | inr a => inr (view a) end.
Proof.
  destruct r as [e|a]; simpl; [|done]. destruct e; try done. intros H. by rewrite bool_decide_eq_true_2.
Qed.

(** A method of the fake: what is sent is delivered where the version has it, and
    answered UNKNOWN_METHOD where it does not. *)
Lemma method_agrees {A T R B0 V B} {wA : option A -> M P unit} {rA : nat -> MF P A} {wR : option R -> M P unit} {rR : nat -> MF P R}
    (ca : codec wA rA) (cr : codec wR rR) name F h cases (answer : T -> R) (tail : R -> goerr + B0)
    (view0 : T -> goerr + B0) (a : A) (post : B0 -> B) (call : M (link P fake) B) (m : M fake V) (wrap : V -> T) (view : V -> B) :
  (forall x, existsb (String.eqb x) (removedRPCs v) = true -> Forall fits (app_toks UNKNOWN_METHOD ("Unknown function " +:+ x))) ->
  (struct_nest <= skip_depth)%nat -> sendable ca a ->
  GetProcessorFunction (NewThriftHiveMetastoreProcessor cause (fakeHandler path_Match) fuel) name = Some F ->
  (forall pm, GetProcessorFunction pm name = Some F ->
     delivers n (stub (link_Call (Process pm) name (wA (Some a)) (rR fuel)) tail) h
       (replies cause cr (type_switch cases) answer name) (outcome name cases.*1 view0)) ->
  (forall l, call l = match stub (link_Call (Process (fakeProcessor cause path_Match fuel v)) name (wA (Some a)) (rR fuel)) tail l with
                      | Some (l, inr b) => (l, inr (post b))
                      | Some (l, inl e) => (l, inl e)
                      | None => (l, inl (EText "out of fuel"))
                      end) ->
  (forall f, h f = map_answer wrap m f) ->
  declares cases.*1 m ->
  (forall f, match m f with
             | (_, inr x) => exists b, view0 (wrap x) = inr b /\ view x = post b
             | (_, inl _) => True
             end) ->
  agrees call (method name m) (can_reply cr cases answer wrap) view.
Proof.
  intros Hunknown Hskip Ha HF Hd Hcall Hh Hdecl Hview l Hl Hv Hok. rewrite Hcall. unfold method in *. rewrite Hv in *.
  assert (GetProcessorFunction (fakeProcessor cause path_Match fuel v) name =
          if existsb (String.eqb name) (removedRPCs v) then None else Some F) as Hpm
    by (rewrite <- HF; apply GetProcessorFunction_deleted).
  destruct (existsb (String.eqb name) (removedRPCs v)) eqn:Hr.
  - destruct (method_unknown (fakeProcessor cause path_Match fuel v) ca name n (rR fuel) tail a l Hpm Ha (Hunknown _ Hr) Hskip Hl)
      as (l' & -> & Hl' & Hidle). by exists l'.
  - specialize (Hd _ Hpm l Hl). specialize (Hdecl (l_srv l)). specialize (Hview (l_srv l)).
    rewrite Hh in Hd. unfold map_answer, bind, ret in Hd.
    destruct (m (l_srv l)) as [f r]. simpl in *.
    destruct r as [e|x]; simpl in *.
    + destruct Hd as (l' & -> & Hl' & Hidle); [by apply (can_reply_replies cr cases answer wrap name (inl e))|].
      exists l'. split; [|done]. unfold outcome in *. destruct e; try done. by rewrite bool_decide_eq_true_2.
    + destruct Hview as (b & Hb & Hpost). 
      destruct Hd as (l' & -> & Hl' & Hidle); [by apply (can_reply_replies cr cases answer wrap name (inr x))|].
      exists l'. split; [|done]. simpl. by rewrite Hb, Hpost.
Qed.

(** *** The methods *)

Context (Hfuel : (msg_fuel <= fuel)%nat) (Hskip : (struct_nest <= skip_depth)%nat).
Context (Hunknown : forall x, existsb (String.eqb x) (removedRPCs v) = true ->
                              Forall fits (app_toks UNKNOWN_METHOD ("Unknown function " +:+ x))).

Local Abbreviation bound := (bound fuel).

(** Of each of the client's RPCs: over the connection it answers as [fakeRpcs] does on
    the arguments in canonical form, with a value in canonical form. A table or a
    database is given, not nil, which the client never sends. *)
Record wire_agreement : Prop := {
  a_GetCatalogs : sendable GetCatalogsArgs_codec (mk_wGetCatalogsArgs) ->
    agrees (getCatalogs bound) (getCatalogs (fakeRpcs path_Match))
      (can_reply GetCatalogsResult_codec RpcCatalog.Processor.GetCatalogs_declared RpcCatalog.Processor.GetCatalogs_answer Some) GetCatalogsResponse_canon;
  a_GetCatalog : forall catName, sendable GetCatalogArgs_codec (mk_wGetCatalogArgs (Some catName)) ->
    agrees (getCatalog bound catName) (getCatalog (fakeRpcs path_Match) (GetCatalogRequest_canon catName))
      (can_reply GetCatalogResult_codec RpcCatalog.Processor.GetCatalog_declared RpcCatalog.Processor.GetCatalog_answer Some) GetCatalogResponse_canon;
  a_CreateCatalog : forall catalog, is_Some (wCreateCatalogRequest_Catalog catalog) -> sendable CreateCatalogArgs_codec (mk_wCreateCatalogArgs (Some catalog)) ->
    agrees (createCatalog bound catalog) (createCatalog (fakeRpcs path_Match) (CreateCatalogRequest_canon catalog))
      (can_reply CreateCatalogResult_codec RpcCatalog.Processor.CreateCatalog_declared RpcCatalog.Processor.CreateCatalog_answer id) id;
  a_DropCatalog : forall catName, sendable DropCatalogArgs_codec (mk_wDropCatalogArgs (Some catName)) ->
    agrees (dropCatalog bound catName) (dropCatalog (fakeRpcs path_Match) (DropCatalogRequest_canon catName))
      (can_reply DropCatalogResult_codec RpcCatalog.Processor.DropCatalog_declared RpcCatalog.Processor.DropCatalog_answer id) id;
  a_GetAllDatabases : sendable GetAllDatabasesArgs_codec (mk_wGetAllDatabasesArgs) ->
    agrees (getAllDatabases bound) (getAllDatabases (fakeRpcs path_Match))
      (can_reply GetAllDatabasesResult_codec RpcCatalog.Processor.GetAllDatabases_declared RpcCatalog.Processor.GetAllDatabases_answer id) id;
  a_GetDatabases : forall pattern, sendable GetDatabasesArgs_codec (mk_wGetDatabasesArgs pattern) ->
    agrees (getDatabases bound pattern) (getDatabases (fakeRpcs path_Match) pattern)
      (can_reply GetDatabasesResult_codec RpcCatalog.Processor.GetDatabases_declared RpcCatalog.Processor.GetDatabases_answer id) id;
  a_GetDatabase : forall name, sendable GetDatabaseArgs_codec (mk_wGetDatabaseArgs name) ->
    agrees (getDatabase bound name) (getDatabase (fakeRpcs path_Match) name)
      (can_reply GetDatabaseResult_codec RpcCatalog.Processor.GetDatabase_declared RpcCatalog.Processor.GetDatabase_answer Some) Database_canon;
  a_CreateDatabase : forall database, sendable CreateDatabaseArgs_codec (mk_wCreateDatabaseArgs (Some database)) ->
    agrees (createDatabase bound (Some database)) (createDatabase (fakeRpcs path_Match) (Some (Database_canon database)))
      (can_reply CreateDatabaseResult_codec RpcCatalog.Processor.CreateDatabase_declared RpcCatalog.Processor.CreateDatabase_answer id) id;
  a_DropDatabase : forall name deleteData cascade, sendable DropDatabaseArgs_codec (mk_wDropDatabaseArgs name deleteData cascade) ->
    agrees (dropDatabase bound name deleteData cascade) (dropDatabase (fakeRpcs path_Match) name deleteData cascade)
      (can_reply DropDatabaseResult_codec RpcCatalog.Processor.DropDatabase_declared RpcCatalog.Processor.DropDatabase_answer id) id;
  a_GetAllTables : forall db_name, sendable GetAllTablesArgs_codec (mk_wGetAllTablesArgs db_name) ->
    agrees (getAllTables bound db_name) (getAllTables (fakeRpcs path_Match) db_name)
      (can_reply GetAllTablesResult_codec RpcTable.Processor.GetAllTables_declared RpcTable.Processor.GetAllTables_answer id) id;
  a_GetTableReq : forall req, sendable GetTableReqArgs_codec (mk_wGetTableReqArgs (Some req)) ->
    agrees (getTableReq bound req) (getTableReq (fakeRpcs path_Match) (GetTableRequest_canon req))
      (can_reply GetTableReqResult_codec RpcTable.Processor.GetTableReq_declared RpcTable.Processor.GetTableReq_answer Some) GetTableResult__canon;
  a_GetTableObjectsByNameReq : forall req, sendable GetTableObjectsByNameReqArgs_codec (mk_wGetTableObjectsByNameReqArgs (Some req)) ->
    agrees (getTableObjectsByNameReq bound req) (getTableObjectsByNameReq (fakeRpcs path_Match) (GetTablesRequest_canon req))
      (can_reply GetTableObjectsByNameReqResult_codec RpcTable.Processor.GetTableObjectsByNameReq_declared RpcTable.Processor.GetTableObjectsByNameReq_answer Some) GetTablesResult__canon;
  a_CreateTable : forall tbl, sendable CreateTableArgs_codec (mk_wCreateTableArgs (Some tbl)) ->
    agrees (createTable bound (Some tbl)) (createTable (fakeRpcs path_Match) (Some (Table_canon tbl)))
      (can_reply CreateTableResult_codec RpcTable.Processor.CreateTable_declared RpcTable.Processor.CreateTable_answer id) id;
  a_AlterTable : forall dbname tbl_name new_tbl, sendable AlterTableArgs_codec (mk_wAlterTableArgs dbname tbl_name (Some new_tbl)) ->
    agrees (alterTable bound dbname tbl_name (Some new_tbl)) (alterTable (fakeRpcs path_Match) dbname tbl_name (Some (Table_canon new_tbl)))
      (can_reply AlterTableResult_codec RpcTable.Processor.AlterTable_declared RpcTable.Processor.AlterTable_answer id) id;
  a_DropTable : forall dbname name deleteData, sendable DropTableArgs_codec (mk_wDropTableArgs dbname name deleteData) ->
    agrees (dropTable bound dbname name deleteData) (dropTable (fakeRpcs path_Match) dbname name deleteData)
      (can_reply DropTableResult_codec RpcTable.Processor.DropTable_declared RpcTable.Processor.DropTable_answer id) id;
  a_GetPartitions : forall db_name tbl_name max_parts, sendable GetPartitionsArgs_codec (mk_wGetPartitionsArgs db_name tbl_name max_parts) ->
    agrees (getPartitions bound db_name tbl_name max_parts) (getPartitions (fakeRpcs path_Match) db_name tbl_name max_parts)
      (can_reply GetPartitionsResult_codec RpcPartition.Processor.GetPartitions_declared RpcPartition.Processor.GetPartitions_answer id) (fun v => map (fun v => Some (Partition_own v)) <$> v);
  a_GetPartitionsReq : forall req, sendable GetPartitionsReqArgs_codec (mk_wGetPartitionsReqArgs (Some req)) ->
    agrees (getPartitionsReq bound req) (getPartitionsReq (fakeRpcs path_Match) (PartitionsRequest_canon req))
      (can_reply GetPartitionsReqResult_codec RpcPartition.Processor.GetPartitionsReq_declared RpcPartition.Processor.GetPartitionsReq_answer Some) PartitionsResponse_canon;
  a_GetPartitionNames : forall db_name tbl_name max_parts, sendable GetPartitionNamesArgs_codec (mk_wGetPartitionNamesArgs db_name tbl_name max_parts) ->
    agrees (getPartitionNames bound db_name tbl_name max_parts) (getPartitionNames (fakeRpcs path_Match) db_name tbl_name max_parts)
      (can_reply GetPartitionNamesResult_codec RpcPartition.Processor.GetPartitionNames_declared RpcPartition.Processor.GetPartitionNames_answer id) id;
  a_AddPartitionsReq : forall request, sendable AddPartitionsReqArgs_codec (mk_wAddPartitionsReqArgs (Some request)) ->
    agrees (addPartitionsReq bound request) (addPartitionsReq (fakeRpcs path_Match) (AddPartitionsRequest_canon request))
      (can_reply AddPartitionsReqResult_codec RpcPartition.Processor.AddPartitionsReq_declared RpcPartition.Processor.AddPartitionsReq_answer Some) AddPartitionsResult__canon;
  a_AlterPartitions : forall db_name tbl_name new_parts, sendable AlterPartitionsArgs_codec (mk_wAlterPartitionsArgs db_name tbl_name new_parts) ->
    agrees (alterPartitions bound db_name tbl_name new_parts) (alterPartitions (fakeRpcs path_Match) db_name tbl_name (Some (map (fun v => Some (Partition_own v)) (elems (new_parts)))))
      (can_reply AlterPartitionsResult_codec RpcPartition.Processor.AlterPartitions_declared RpcPartition.Processor.AlterPartitions_answer id) id;
  a_AlterPartitionsReq : forall req, sendable AlterPartitionsReqArgs_codec (mk_wAlterPartitionsReqArgs (Some req)) ->
    agrees (alterPartitionsReq bound req) (alterPartitionsReq (fakeRpcs path_Match) (AlterPartitionsRequest_canon req))
      (can_reply AlterPartitionsReqResult_codec RpcPartition.Processor.AlterPartitionsReq_declared RpcPartition.Processor.AlterPartitionsReq_answer (fun _ => Some NewAlterPartitionsResponse)) id;
  a_DropPartition : forall db_name tbl_name part_vals deleteData, sendable DropPartitionArgs_codec (mk_wDropPartitionArgs db_name tbl_name part_vals deleteData) ->
    agrees (dropPartition bound db_name tbl_name part_vals deleteData) (dropPartition (fakeRpcs path_Match) db_name tbl_name (own_strings (part_vals)) deleteData)
      (can_reply DropPartitionResult_codec RpcPartition.Processor.DropPartition_declared RpcPartition.Processor.DropPartition_answer id) id;
  a_DropPartitionsReq : forall req, sendable DropPartitionsReqArgs_codec (mk_wDropPartitionsReqArgs (Some req)) ->
    agrees (dropPartitionsReq bound req) (dropPartitionsReq (fakeRpcs path_Match) (DropPartitionsRequest_canon req))
      (can_reply DropPartitionsReqResult_codec RpcPartition.Processor.DropPartitionsReq_declared RpcPartition.Processor.DropPartitionsReq_answer (fun _ => Some NewDropPartitionsResult_)) id;
  a_GetConfigValue : forall name defaultValue, sendable GetConfigValueArgs_codec (mk_wGetConfigValueArgs name defaultValue) ->
    agrees (getConfigValue bound name defaultValue) (getConfigValue (fakeRpcs path_Match) name defaultValue)
      (can_reply GetConfigValueResult_codec RpcCatalog.Processor.GetConfigValue_declared RpcCatalog.Processor.GetConfigValue_answer id) id;
  a_GetStatus : sendable GetStatusArgs_codec (mk_wGetStatusArgs) ->
    agrees (getStatus bound) (getStatus (fakeRpcs path_Match))
      (can_reply GetStatusResult_codec RpcCatalog.Processor.GetStatus_declared RpcCatalog.Processor.GetStatus_answer id) (fun v => int32 v);
  a_GetVersion : sendable GetVersionArgs_codec (mk_wGetVersionArgs) ->
    agrees (getVersion bound) (getVersion (fakeRpcs path_Match))
      (can_reply GetVersionResult_codec RpcCatalog.Processor.GetVersion_declared RpcCatalog.Processor.GetVersion_answer id) id;
  a_SetUgi : forall timeout user_name group_names, sendable SetUgiArgs_codec (mk_wSetUgiArgs user_name group_names) ->
    agrees (setUgi bound timeout user_name group_names) (setUgi (fakeRpcs path_Match) timeout user_name (own_strings (group_names)))
      (can_reply SetUgiResult_codec RpcCatalog.Processor.SetUgi_declared RpcCatalog.Processor.SetUgi_answer id) id;
  a_AlterDatabase : forall dbname db, sendable AlterDatabaseArgs_codec (mk_wAlterDatabaseArgs dbname (Some db)) ->
    agrees (alterDatabase bound dbname (Some db)) (alterDatabase (fakeRpcs path_Match) dbname (Some (Database_canon db)))
      (can_reply AlterDatabaseResult_codec RpcCatalog.Processor.AlterDatabase_declared RpcCatalog.Processor.AlterDatabase_answer id) id;
  a_GetPartitionsByNames : forall db_name tbl_name names, sendable GetPartitionsByNamesArgs_codec (mk_wGetPartitionsByNamesArgs db_name tbl_name names) ->
    agrees (getPartitionsByNames bound db_name tbl_name names) (getPartitionsByNames (fakeRpcs path_Match) db_name tbl_name (own_strings (names)))
      (can_reply GetPartitionsByNamesResult_codec RpcPartition.Processor.GetPartitionsByNames_declared RpcPartition.Processor.GetPartitionsByNames_answer id) (fun v => map (fun v => Some (Partition_own v)) <$> v);
  a_GetPartitionsByNamesReq : forall req, sendable GetPartitionsByNamesReqArgs_codec (mk_wGetPartitionsByNamesReqArgs (Some req)) ->
    agrees (getPartitionsByNamesReq bound req) (getPartitionsByNamesReq (fakeRpcs path_Match) (GetPartitionsByNamesRequest_canon req))
      (can_reply GetPartitionsByNamesReqResult_codec RpcPartition.Processor.GetPartitionsByNamesReq_declared RpcPartition.Processor.GetPartitionsByNamesReq_answer Some) GetPartitionsByNamesResult__canon;
  a_GetPartitionsByFilter : forall db_name tbl_name filter_ max_parts, sendable GetPartitionsByFilterArgs_codec (mk_wGetPartitionsByFilterArgs db_name tbl_name filter_ max_parts) ->
    agrees (getPartitionsByFilter bound db_name tbl_name filter_ max_parts) (getPartitionsByFilter (fakeRpcs path_Match) db_name tbl_name filter_ max_parts)
      (can_reply GetPartitionsByFilterResult_codec RpcPartition.Processor.GetPartitionsByFilter_declared RpcPartition.Processor.GetPartitionsByFilter_answer id) (fun v => map (fun v => Some (Partition_own v)) <$> v);
  a_GetPartitionNamesPs : forall db_name tbl_name part_vals max_parts, sendable GetPartitionNamesPsArgs_codec (mk_wGetPartitionNamesPsArgs db_name tbl_name part_vals max_parts) ->
    agrees (getPartitionNamesPs bound db_name tbl_name part_vals max_parts) (getPartitionNamesPs (fakeRpcs path_Match) db_name tbl_name (own_strings (part_vals)) max_parts)
      (can_reply GetPartitionNamesPsResult_codec RpcPartition.Processor.GetPartitionNamesPs_declared RpcPartition.Processor.GetPartitionNamesPs_answer id) id;
  a_GetPartitionNamesPsReq : forall req, sendable GetPartitionNamesPsReqArgs_codec (mk_wGetPartitionNamesPsReqArgs (Some req)) ->
    agrees (getPartitionNamesPsReq bound req) (getPartitionNamesPsReq (fakeRpcs path_Match) (GetPartitionNamesPsRequest_canon req))
      (can_reply GetPartitionNamesPsReqResult_codec RpcPartition.Processor.GetPartitionNamesPsReq_declared RpcPartition.Processor.GetPartitionNamesPsReq_answer Some) GetPartitionNamesPsResponse_canon;
  a_GetNextNotification : forall rqst, sendable GetNextNotificationArgs_codec (mk_wGetNextNotificationArgs (Some rqst)) ->
    agrees (getNextNotification bound rqst) (getNextNotification (fakeRpcs path_Match) (NotificationEventRequest_canon rqst))
      (can_reply GetNextNotificationResult_codec RpcTxn.Processor.GetNextNotification_declared RpcTxn.Processor.GetNextNotification_answer Some) NotificationEventResponse_canon;
  a_GetCurrentNotificationEventId : sendable GetCurrentNotificationEventIdArgs_codec (mk_wGetCurrentNotificationEventIdArgs) ->
    agrees (getCurrentNotificationEventId bound) (getCurrentNotificationEventId (fakeRpcs path_Match))
      (can_reply GetCurrentNotificationEventIdResult_codec RpcTxn.Processor.GetCurrentNotificationEventId_declared RpcTxn.Processor.GetCurrentNotificationEventId_answer Some) CurrentNotificationEventId_canon;
  a_GetTableStatisticsReq : forall request, sendable GetTableStatisticsReqArgs_codec (mk_wGetTableStatisticsReqArgs (Some request)) ->
    agrees (getTableStatisticsReq bound request) (getTableStatisticsReq (fakeRpcs path_Match) (TableStatsRequest_canon request))
      (can_reply GetTableStatisticsReqResult_codec RpcTable.Processor.GetTableStatisticsReq_declared RpcTable.Processor.GetTableStatisticsReq_answer Some) TableStatsResult__canon;
  a_OpenTxns : forall rqst, sendable OpenTxnsArgs_codec (mk_wOpenTxnsArgs (Some rqst)) ->
    agrees (openTxns bound rqst) (openTxns (fakeRpcs path_Match) (OpenTxnRequest_canon rqst))
      (can_reply OpenTxnsResult_codec RpcTxn.Processor.OpenTxns_declared RpcTxn.Processor.OpenTxns_answer Some) OpenTxnsResponse_canon;
  a_CommitTxn : forall rqst, sendable CommitTxnArgs_codec (mk_wCommitTxnArgs (Some rqst)) ->
    agrees (commitTxn bound rqst) (commitTxn (fakeRpcs path_Match) (CommitTxnRequest_canon rqst))
      (can_reply CommitTxnResult_codec RpcTxn.Processor.CommitTxn_declared RpcTxn.Processor.CommitTxn_answer id) id;
  a_AbortTxn : forall rqst, sendable AbortTxnArgs_codec (mk_wAbortTxnArgs (Some rqst)) ->
    agrees (abortTxn bound rqst) (abortTxn (fakeRpcs path_Match) (AbortTxnRequest_canon rqst))
      (can_reply AbortTxnResult_codec RpcTxn.Processor.AbortTxn_declared RpcTxn.Processor.AbortTxn_answer id) id;
  a_Heartbeat : forall ids, sendable HeartbeatArgs_codec (mk_wHeartbeatArgs (Some ids)) ->
    agrees (heartbeat bound ids) (heartbeat (fakeRpcs path_Match) (HeartbeatRequest_canon ids))
      (can_reply HeartbeatResult_codec RpcTxn.Processor.Heartbeat_declared RpcTxn.Processor.Heartbeat_answer id) id;
  a_Lock : forall rqst, sendable LockArgs_codec (mk_wLockArgs (Some rqst)) ->
    agrees (lock bound rqst) (lock (fakeRpcs path_Match) (LockRequest_canon rqst))
      (can_reply LockResult_codec RpcTxn.Processor.Lock_declared RpcTxn.Processor.Lock_answer id) (fmap LockResponse_canon);
  a_CheckLock : forall rqst, sendable CheckLockArgs_codec (mk_wCheckLockArgs (Some rqst)) ->
    agrees (checkLock bound rqst) (checkLock (fakeRpcs path_Match) (CheckLockRequest_canon rqst))
      (can_reply CheckLockResult_codec RpcTxn.Processor.CheckLock_declared RpcTxn.Processor.CheckLock_answer id) (fmap LockResponse_canon);
  a_Unlock : forall rqst, sendable UnlockArgs_codec (mk_wUnlockArgs (Some rqst)) ->
    agrees (unlock bound rqst) (unlock (fakeRpcs path_Match) (UnlockRequest_canon rqst))
      (can_reply UnlockResult_codec RpcTxn.Processor.Unlock_declared RpcTxn.Processor.Unlock_answer id) id;
}.

Lemma run_id {C A} (m : MF C A) c :
  run m c = match m c with Some (c, inr b) => (c, inr (id b)) | Some (c, inl e) => (c, inl e) | None => (c, inl (EText "out of fuel")) end.
Proof. unfold run. by destruct (m c) as [[c' [e|a]]|]. Qed.
Lemma run_bind {C A B} (m : MF C A) (post : A -> B) c :
  bind (run m) (fun b => ret (post b)) c =
  match m c with Some (c, inr b) => (c, inr (post b)) | Some (c, inl e) => (c, inl e) | None => (c, inl (EText "out of fuel")) end.
Proof. unfold run, bind, ret. by destruct (m c) as [[c' [e|a]]|]. Qed.

(** What the caller sees of any value, or of one behind a pointer. *)
Lemma every_value {V} (m : M fake V) (Q : V -> Prop) : (forall x, Q x) ->
  forall f, match m f with (_, inr x) => Q x | (_, inl _) => True end.
Proof. intros H f. by destruct (m f) as [f' [e|x]]. Qed.
Lemma every_some {V} (m : M fake V) (Q : option V -> Prop) : (forall x, Q (Some x)) ->
  forall f, match bind m (fun x => ret (Some x)) f with (_, inr x) => Q x | (_, inl _) => True end.
Proof. intros H f. unfold bind, ret. by destruct (m f) as [f' [e|x]]. Qed.

(** Walks a handler. *)
Ltac declare_error :=
  first [ exact I | eapply declares_drop_request; [eassumption|set_solver]
        | eapply declares_check_txn; [eassumption|set_solver..] | eapply declares_check_lock_id; [eassumption|set_solver]
        | simpl; set_solver ].
Ltac declare :=
  repeat first
    [ apply declares_ret | apply declares_record | apply declares_version | apply declares_store | apply declares_now
    | apply declares_update | apply declares_event
    | apply declares_with_table; [set_solver|intros ???]
    | apply declares_acid
    | apply declares_lift; first [apply declares_cat|apply declares_resolveDB|apply declares_filter|apply declares_add]; set_solver
    | apply declares_throw; declare_error
    | apply declares_bind; [|intros ?]
    | progress cbv zeta
    | lazymatch goal with |- declares _ (fun _ => _) => intros ?; simpl; repeat case_match; simplify_eq/=; declare_error end
    | lazymatch goal with |- declares _ (match _ with _ => _ end) => case_match end
    | lazymatch goal with |- declares _ ?m => let h := get_head m in unfold h end ].

Tactic Notation "agree" uconstr(lem) uconstr(ca) :=
  intros; eapply (method_agrees ca);
  [ exact Hunknown | exact Hskip | eassumption | reflexivity
  | intros ? Hpm; eapply lem; [exact Hfuel|exact Hpm|eassumption]
  | intros ?; first [apply run_id|apply run_bind]
  | intros ?; first [apply map_answer_id|reflexivity]
  | cbn [list_fmap fmap fst]; declare
  | first [eapply every_some|eapply every_value]; intros x; first [eexists; split; reflexivity|destruct x; eexists; split; reflexivity] ].

Lemma wire_agreement_holds : wire_agreement.
Proof.
  constructor.
  - agree GetCatalogs_delivers GetCatalogsArgs_codec.
  - agree GetCatalog_delivers GetCatalogArgs_codec.
  - agree CreateCatalog_delivers CreateCatalogArgs_codec.
  - agree DropCatalog_delivers DropCatalogArgs_codec.
  - agree GetAllDatabases_delivers GetAllDatabasesArgs_codec.
  - agree GetDatabases_delivers GetDatabasesArgs_codec.
  - agree GetDatabase_delivers GetDatabaseArgs_codec.
  - agree CreateDatabase_delivers CreateDatabaseArgs_codec.
  - agree DropDatabase_delivers DropDatabaseArgs_codec.
  - agree GetAllTables_delivers GetAllTablesArgs_codec.
  - agree GetTableReq_delivers GetTableReqArgs_codec.
  - agree GetTableObjectsByNameReq_delivers GetTableObjectsByNameReqArgs_codec.
  - agree CreateTable_delivers CreateTableArgs_codec.
  - agree AlterTable_delivers AlterTableArgs_codec.
  - agree DropTable_delivers DropTableArgs_codec.
  - agree GetPartitions_delivers GetPartitionsArgs_codec.
  - agree GetPartitionsReq_delivers GetPartitionsReqArgs_codec.
  - agree GetPartitionNames_delivers GetPartitionNamesArgs_codec.
  - agree AddPartitionsReq_delivers AddPartitionsReqArgs_codec.
  - agree AlterPartitions_delivers AlterPartitionsArgs_codec.
  - agree AlterPartitionsReq_delivers AlterPartitionsReqArgs_codec.
  - agree DropPartition_delivers DropPartitionArgs_codec.
  - agree DropPartitionsReq_delivers DropPartitionsReqArgs_codec.
  - agree GetConfigValue_delivers GetConfigValueArgs_codec.
  - agree GetStatus_delivers GetStatusArgs_codec.
  - agree GetVersion_delivers GetVersionArgs_codec.
  - agree SetUgi_delivers SetUgiArgs_codec.
  - agree AlterDatabase_delivers AlterDatabaseArgs_codec.
  - agree GetPartitionsByNames_delivers GetPartitionsByNamesArgs_codec.
  - agree GetPartitionsByNamesReq_delivers GetPartitionsByNamesReqArgs_codec.
  - agree GetPartitionsByFilter_delivers GetPartitionsByFilterArgs_codec.
  - agree GetPartitionNamesPs_delivers GetPartitionNamesPsArgs_codec.
  - agree GetPartitionNamesPsReq_delivers GetPartitionNamesPsReqArgs_codec.
  - agree GetNextNotification_delivers GetNextNotificationArgs_codec.
  - agree GetCurrentNotificationEventId_delivers GetCurrentNotificationEventIdArgs_codec.
  - agree GetTableStatisticsReq_delivers GetTableStatisticsReqArgs_codec.
  - agree OpenTxns_delivers OpenTxnsArgs_codec.
  - agree CommitTxn_delivers CommitTxnArgs_codec.
  - agree AbortTxn_delivers AbortTxnArgs_codec.
  - agree Heartbeat_delivers HeartbeatArgs_codec.
  - agree Lock_delivers LockArgs_codec.
  - agree CheckLock_delivers CheckLockArgs_codec.
  - agree Unlock_delivers UnlockArgs_codec.
Qed.
End agreement.

(** ** The properties *)

(** C10: the wire is transparent: between the client's stub of any of its 43 RPCs and
    a metastore's handler there are the generated encoders, the processor and the
    reply, and what comes of a call, from a connection at rest and with arguments that
    fit the protocol's limits, is that the handler's method runs once on the arguments
    in canonical form, and the stub returns what it answered: a value in canonical
    form, an exception the method declares as that exception, any other error as a
    TApplicationException; the connection is at rest again, good for the next call. *)
Theorem wire_delivers {P W : Type} {TP : TProtocol P} {TL : TProtocolLaws P} {MR : MapRange} {SB : Substructs P} {SL : SubstructLaws P}
    {TS : TStandardClient P} {PL : TProcessorLib P} {RL : TRpcLaws P}
    (cause : option goerr) (handler : Handler.ThriftHiveMetastore W) (fuel n : nat) :
  (msg_fuel <= fuel)%nat -> delivered cause handler fuel n.
Proof. apply delivered_holds. Qed.

(** C9: the fake metastore answers over its wire as the RPCs that stand for it in the
    theorems of EndToEnd: for each of the client's 43 func fields, at each version the
    fake emulates, what the bound stub returns is what [fakeRpcs] answers on the same
    arguments, arguments and answer in canonical form, with the fake left in the same
    state; a declared exception comes back as itself, any other error of a handler as
    the TApplicationException [undeclared] says, and a method the version lacks as
    UNKNOWN_METHOD, the connection surviving all of them. *)
Theorem wire_agrees {P : Type} {TP : TProtocol P} {TL : TProtocolLaws P} {MR : MapRange} {SB : Substructs P} {SL : SubstructLaws P}
    {TS : TStandardClient P} {PL : TProcessorLib P} {RL : TRpcLaws P}
    (cause : option goerr) (path_Match : string -> string -> bool) (fuel n : nat) (v : Version) :
  (forall t, abandoned (EText t) = false) ->
  (msg_fuel <= fuel)%nat -> (struct_nest <= skip_depth)%nat ->
  (forall x, existsb (String.eqb x) (removedRPCs v) = true -> Forall fits (app_toks UNKNOWN_METHOD ("Unknown function " +:+ x))) ->
  wire_agreement cause path_Match fuel n v.
Proof. apply wire_agreement_holds. Qed.

(** *** On the queue of tokens *)

Import Queue QueueRpc.

Definition demo_link (v : Version) : link queue fake :=
  mkLink (mkQueue [] 64) (mkQueue [] 64) (mkFake v demo_store [] 1700000000) 0.

Lemma demo_idle v : idle 55 (demo_link v).
Proof. repeat split. Qed.

Lemma wire_agrees_witness :
  (let req := newGetTableRequest "db" "t" (Some "hive") in
   exists l', getTableReq (bound (TC := fakeWire None (fun _ _ => false) 64 Hive40) 64) req (demo_link Hive40) =
     (l', inr (GetTableResult__canon (mk_wGetTableResult_ (Some demo_table) None)))) /\
  exists l', getCatalogs (bound (TC := fakeWire None (fun _ _ => false) 64 Hive23) 64) (demo_link Hive23) =
    (l', inl (EApp UNKNOWN_METHOD "Unknown function get_catalogs")) /\ l_srv l' = l_srv (demo_link Hive23).
Proof.
  assert (wire_agreement (P := queue) None (fun _ _ => false) 64 55 Hive40) as H40.
  { apply wire_agrees; [done|vm_compute; lia|vm_compute; lia|done]. }
  assert (wire_agreement (P := queue) None (fun _ _ => false) 64 55 Hive23) as H23.
  { apply wire_agrees; [done|vm_compute; lia|vm_compute; lia|]. intros x _. by apply Forall_true. }
  assert (snd (getTableReq (fakeRpcs (fun _ _ => false)) (GetTableRequest_canon (newGetTableRequest "db" "t" (Some "hive")))
                 (l_srv (demo_link Hive40))) = inr (mk_wGetTableResult_ (Some demo_table) None)) as Ht by (vm_compute; reflexivity).
  split.
  - destruct (a_GetTableReq _ _ _ _ _ H40 (newGetTableRequest "db" "t" (Some "hive"))) with (l := demo_link Hive40) as (l' & Hl' & _).
    + split; [done|by apply Forall_true].
    + apply demo_idle.
    + reflexivity.
    + rewrite Ht. split; [|by apply Forall_true]. by do 3 intros ? [= <-].
    + rewrite Ht in Hl'. by exists l'.
  - destruct (a_GetCatalogs _ _ _ _ _ H23) with (l := demo_link Hive23) as (l' & Hl' & Hs & _).
    + split; [done|by apply Forall_true].
    + apply demo_idle.
    + reflexivity.
    + by apply Forall_true.
    + by exists l'.
Defined.

(** A table that is not there. *)
Example wire_delivers_witness :
  let call := RpcTable.Stub.GetTableReq (TC := wire None (fakeHandler (fun _ _ => false)) 64) 64 in
  exists l', call (Some (newGetTableRequest "db" "missing" (Some "hive"))) (demo_link Hive40) =
    Some (l', inl (EThrift NoSuchObjectException "table db.missing not found")) /\ idle 55 l'.
Proof.
  assert (delivered (P := queue) None (fakeHandler (fun _ _ => false)) 64 55) as H by (apply wire_delivers; vm_compute; lia).
  assert (snd (Handler.GetTableReq (fakeHandler (fun _ _ => false))
                 (GetTableRequest_canon <$> Some (newGetTableRequest "db" "missing" (Some "hive"))) (l_srv (demo_link Hive40))) =
          inl (EThrift NoSuchObjectException "table db.missing not found")) as Ht by (vm_compute; reflexivity).
  destruct (d_GetTableReq _ _ _ _ H (Some (newGetTableRequest "db" "missing" (Some "hive")))) with (l := demo_link Hive40)
    as (l' & Hl' & _ & Hi).
  - split; [done|by apply Forall_true].
  - apply demo_idle.
  - rewrite Ht. split; [done|]. split; [done|by apply Forall_true].
  - rewrite Ht in Hl'. exists l'. exact (conj Hl' Hi).
Defined.
