(* ===== verification/TableWire.v ===== *)
(** * TableWire: the atomic store of tables, over the generated code

    A world where every conn is a connection to the fake's processor: the client's RPCs
    are the generated stubs, the fake answers behind the generated processor, and the
    network may lose a request or a reply, and with it the connection. The client still
    is an atomic store of tables ([client_over_wire_refines_store]); what the wire does to
    a table is its canonical form. *)

From S2P Require Import Prelude Errors Cluster GoMonad Wire Options Conn Types Transport Uri Convert PartName Client Demo ClientFacts Failover DbOps TableOps ConvertFacts FakeAcid Fake FakeFacts EndToEnd TableStore Thrift ThriftFacts CodecTable CodecTableFacts DeepCopy CodecStats CodecStatsFacts CodecReq CodecReqFacts CodecAcid CodecAcidFacts Rpc RpcHandler RpcCatalog RpcTable RpcPartition RpcTxn RpcFacts RpcCatalogFacts RpcTableFacts RpcPartitionFacts RpcTxnFacts RpcWire FakeWire.

(** ** What the codecs do to a table *)

Lemma own_locations_unique l : unique_keys (elems l) = true -> unique_keys (elems (own_locations l)) = true.
Proof.
  unfold own_locations. simpl. induction (elems l) as [|e es IH]; simpl; [done|].
  intros [H1 H2]%andb_true_iff. apply andb_true_iff. split; [|by apply IH].
  clear IH H2. induction es as [|e' es IH]; simpl in *; [done|]. apply andb_true_iff in H1 as [He H1]. apply andb_true_iff. split; [exact He|by apply IH].
Qed.

Lemma canon_ok t : Table_ok t -> Table_ok (Table_canon t).
Proof.
  intros H sd Hsd. simpl in Hsd. destruct (wTable_Sd t) as [sd0|] eqn:E; [|done]. injection Hsd as <-.
  intros sk Hsk. simpl in Hsk. destruct (wStorageDescriptor_SkewedInfo sd0) as [sk0|] eqn:E'; [|done]. injection Hsk as <-.
  apply own_locations_unique. exact (H sd0 E sk0 E').
Qed.

(** A table can be written unless two of its skewed values are equal, and it is read in
    canonical form. *)
Definition by_codecs : Carrier.
Proof.
  refine {| carry := Table_canon; carriable := Table_ok; carry_result := GetTableResult__canon; carry_catalogs := GetCatalogsResponse_canon |};
    [done..|]. intros r t H. simpl. by rewrite H.
Defined.

(** ** The network *)

Section wire.
Context {P : Type} {TP : TProtocol P} {TL : TProtocolLaws P} {MR : MapRange} {SB : Substructs P} {SL : SubstructLaws P}.
Context {TS : TStandardClient P} {PL : TProcessorLib P} {RL : TRpcLaws P}.
Context (cause : option goerr) (path_Match : string -> string -> bool) (fuel n : nat) (v : Version).

#[local] Existing Instance by_codecs.
#[local] Instance to_fake : TClient P (link P fake) := link_client (Process (fakeProcessor cause path_Match fuel v)).

(** A connection: its two protocols and its last sequence number. *)
Record wire_conn := mkWire { wc_up : P; wc_down : P; wc_seq : Z }.
Definition opened (f : fake) (c : wire_conn) : link P fake := mkLink (wc_up c) (wc_down c) f (wc_seq c).

(** The server; the open connections; the next one; what becomes of the requests to come. *)
Record wire_world := mkWorld {
  ww_srv : fake;
  ww_conns : gmap nat wire_conn;
  ww_next : nat;
  ww_fates : list fate;
}.

Definition broken_pipe : goerr := ETransport "write: broken pipe" None.

(** A call over connection [k]. One whose reply does not come leaves the connection
    unusable. *)
Definition over (k : nat) A (m : M (link P fake) A) : M wire_world A := fun w =>
  match ww_conns w !! k with
  | None => (w, inl broken_pipe)
  | Some c =>
      let lost f := mkWorld f (delete k (ww_conns w)) (ww_next w) (tl (ww_fates w)) in
      match hd Fine (ww_fates w) with
      | LostRequest => (lost (ww_srv w), inl timed_out)
      | LostReply => let '(l, _) := m (opened (ww_srv w) c) in (lost (l_srv l), inl timed_out)
      | Fine =>
          let '(l, r) := m (opened (ww_srv w) c) in
          (mkWorld (l_srv l) (<[k := mkWire (l_up l) (l_down l) (l_seq l)]> (ww_conns w)) (ww_next w) (tl (ww_fates w)), r)
      end
  end.

Definition wireRpcs (k : nat) : rpcs wire_world := map_rpcs (over k) (bound fuel).

(** Every table the server keeps can be sent, and every open connection is at rest. *)
Definition tables_ok (f : fake) : Prop := f_v f = v /\ map_Forall (fun _ t => Table_ok t) (Tables (f_store f)).
Record wire_sound (w : wire_world) : Prop := {
  ws_srv : tables_ok (ww_srv w);
  ws_conns : map_Forall (fun _ c => idle n (opened (ww_srv w) c)) (ww_conns w);
}.

Lemma still_sound f cs next fates w : wire_sound w -> tables_ok f -> map_Forall (fun _ c => idle n (opened f c)) cs ->
  serves ww_srv wire_sound (version_of ww_srv w) (mkWorld f cs next fates).
Proof. intros [[Hv _] _] Hf Hc. split; [by split|]. unfold version_of. simpl. destruct Hf. congruence. Qed.

Lemma over_lossy {A B} k (call : M (link P fake) B) (m : M fake A) ok (view : A -> B) :
  agrees n v call m ok view -> (forall f, tables_ok f -> ok (snd (m f))) -> keeps tables_ok m ->
  lossy ww_srv wire_sound (over k B call) (map_answer view m).
Proof.
  intros Ha Hok Hk w Hw. pose proof Hw as [Hs Hc]. unfold over. destruct (ww_conns w !! k) as [c|] eqn:E.
  2: { split; [by split|]. right. exists broken_pipe. split_and!; [done|done|by left]. }
  assert (forall f, map_Forall (fun _ c => idle n (opened f c)) (delete k (ww_conns w))) as Hdel
    by (intros f; by apply (map_Forall_delete (fun _ c => idle n (opened f c)))).
  destruct (Ha _ (Hc _ _ E) (proj1 Hs) (Hok _ Hs)) as (l & -> & Hl & Hidle). simpl in Hl.
  specialize (Hk _ Hs). rewrite <- Hl in Hk.
  assert (TableStore.runs (map_answer view m) (version_of ww_srv w) (store_of ww_srv w) (f_store (l_srv l))
            match snd (m (ww_srv w)) with inl e => inl e | inr a => inr (view a) end) as Hr.
  { exists (ww_srv w). unfold map_answer, bind, ret. rewrite Hl. by destruct (m (ww_srv w)) as [f [e|a]]. }
  destruct (hd Fine (ww_fates w)).
  - split; [|by left]. apply still_sound; [done|done|]. by apply map_Forall_insert_2.
  - split; [by apply still_sound|]. right. exists timed_out. split_and!; [done|done|by left].
  - split; [by apply still_sound|]. right. exists timed_out. split_and!; [done|done|right; by eexists].
Qed.

(** *** The handlers keep the tables such that they can be sent *)

Lemma keeps_update g : (forall s, map_Forall (fun _ t => Table_ok t) (Tables s) -> map_Forall (fun _ t => Table_ok t) (Tables (g s))) ->
  keeps tables_ok (update g).
Proof. intros Hg f [Hv Hf]. split; [done|]. by apply Hg. Qed.

(** What is read of the server satisfies what the server does. *)
Lemma keeps_store {A} (k : Store -> M fake A) :
  (forall s, map_Forall (fun _ t => Table_ok t) (Tables s) -> keeps tables_ok (k s)) -> keeps tables_ok (bind store k).
Proof. intros Hk f Hf. unfold bind, store. apply Hk; [apply Hf|done]. Qed.

Ltac keep_tables :=
  repeat first [apply keeps_store; intros ??|apply keeps_bind; [|intros ?]|solve [intros ??; done]|progress cbv zeta|case_match].

Lemma keeps_create t : Table_ok t -> keeps tables_ok (Fake.CreateTable (Some t)).
Proof.
  intros Ht. unfold Fake.CreateTable. keep_tables; apply keeps_update; intros s' _; simpl; by apply map_Forall_insert_2.
Qed.
Lemma keeps_alter db name t : Table_ok t -> keeps tables_ok (Fake.AlterTable db name (Some t)).
Proof.
  intros Ht. unfold Fake.AlterTable. keep_tables. apply keeps_update. intros s' _. simpl.
  apply map_Forall_insert_2; [done|]. by apply map_Forall_delete.
Qed.
Lemma keeps_drop db name dd : keeps tables_ok (Fake.DropTable db name dd).
Proof.
  unfold Fake.DropTable. keep_tables. apply keeps_update. intros s' Hs. simpl. by apply map_Forall_delete.
Qed.

(** *** The RPCs *)

Context (Hagree : wire_agreement cause path_Match fuel n v) (Hfits : forall t, fits t).

Lemma sendable_fits {A} {w : option A -> M P unit} {r : nat -> MF P A} (c : codec w r) a : c_ok c a -> sendable c a.
Proof. split; [done|]. by apply Forall_true. Qed.

Lemma can_reply_fits {V T R} {w : option R -> M P unit} {rd : nat -> MF P R} (c : codec w rd) cases (answer : T -> R) (wrap : V -> T) r :
  match r with inl _ => True | inr a => c_ok c (answer (wrap a)) end ->
  (forall e res, type_switch cases e = Some res -> c_ok c res) -> can_reply c cases answer wrap r.
Proof.
  intros Hr He. destruct r as [e|a]; [|by apply sendable_fits].
  destruct e; first [by apply Forall_true|intros res Hres; apply sendable_fits; by eapply He].
Qed.
Lemma can_reply_any {V T R} {w : option R -> M P unit} {rd : nat -> MF P R} (c : codec w rd) cases (answer : T -> R) (wrap : V -> T) r :
  (forall x, c_ok c x) -> can_reply c cases answer wrap r.
Proof. intros H. apply can_reply_fits; [by case_match|auto]. Qed.

Lemma get_table_answer q f r : snd (getTableReq (fakeRpcs path_Match) q f) = inr r ->
  exists k t, Tables (f_store f) !! k = Some t /\ r = mk_wGetTableResult_ (Some t) None.
Proof.
  simpl. unfold method. case_match; [done|]. unfold Fake.GetTableReq, Fake.record, bind, modify, version, store, Fake.lift, throw, ret. simpl.
  intros Hr. repeat case_match; simplify_eq/=; eauto.
Qed.
Lemma get_table_reply q f : tables_ok f ->
  can_reply GetTableReqResult_codec RpcTable.Processor.GetTableReq_declared RpcTable.Processor.GetTableReq_answer Some
    (snd (getTableReq (fakeRpcs path_Match) q f)).
Proof.
  intros [_ Hf]. apply can_reply_fits.
  - destruct (snd _) as [e|r] eqn:E; [done|]. apply get_table_answer in E as (k & t & Ht & ->).
    intros r [= <-] t' [= <-]. exact (Hf _ _ Ht).
  - intros e res. unfold RpcTable.Processor.GetTableReq_declared. simpl. intros H. repeat case_match; simplify_eq; by intros r.
Qed.

Lemma keeps_same {A} (m : M fake A) : (forall f, near f (fst (m f))) -> keeps tables_ok m.
Proof. intros Hn f [Hv Hf]. destruct (Hn f) as [Hv' Hs]. split; [congruence|by rewrite Hs]. Qed.

Lemma lossy_same {A} k (call : M (link P fake) A) (m : M fake A) ok :
  agrees n v call m ok id -> (forall f, tables_ok f -> ok (snd (m f))) -> keeps tables_ok m ->
  lossy ww_srv wire_sound (over k A call) m.
Proof. intros. eapply lossy_ext; [intros f; symmetry; apply map_answer_id|]. by eapply over_lossy. Qed.

Local Ltac agreed lem := eapply lem; [exact Hagree|apply sendable_fits; first [done|intros ? [= <-]; assumption]].
Local Ltac replies := intros ??; by apply can_reply_any.

Lemma wire_lossy_rpcs k : lossy_rpcs path_Match ww_srv wire_sound (wireRpcs k).
Proof.
  split.
  - eapply over_lossy; [agreed (a_GetCatalogs cause)|replies|]. apply keeps_method. unfold Fake.GetCatalogs. keep_tables.
  - intros db. eapply lossy_same; [agreed (a_GetAllTables cause)|replies|]. apply keeps_method. unfold Fake.GetAllTables. keep_tables.
  - intros q. destruct q. eapply over_lossy; [agreed (a_GetTableReq cause)|intros ??; by apply get_table_reply|].
    apply keeps_method. unfold Fake.GetTableReq. keep_tables.
  - intros t Ht. eapply lossy_same; [agreed (a_CreateTable cause)|replies|]. apply keeps_method. apply keeps_create. by apply canon_ok.
  - intros db name t Ht. eapply lossy_same; [agreed (a_AlterTable cause)|replies|]. apply keeps_method. apply keeps_alter. by apply canon_ok.
  - intros db name dd. eapply lossy_same; [agreed (a_DropTable cause)|replies|]. apply keeps_method. apply keeps_drop.
  - eapply lossy_ext; [|eapply over_lossy; [agreed (a_GetStatus cause)|replies|]].
    + intros f. unfold map_answer, bind. simpl. unfold method. by destruct (existsb _ _).
    + apply keeps_method. unfold Fake.GetStatus. keep_tables.
Qed.

(** *** Dialing *)

Context (fresh : P) (Hfresh : holds fresh (msg_depth + n) []).
Local Abbreviation still := (still ww_srv wire_sound).

Definition hang_up (k : nat) (w : wire_world) : wire_world :=
  mkWorld (ww_srv w) (delete k (ww_conns w)) (ww_next w) (ww_fates w).
(** A new connection, to the same server. *)
Definition connect : M wire_world (tconn wire_world) := fun w =>
  let k := ww_next w in
  (mkWorld (ww_srv w) (<[k := mkWire fresh fresh 0]> (ww_conns w)) (S k) (ww_fates w),
   inr (mkTconn (modify (hang_up k)) (wireRpcs k))).

Lemma still_refl w : still w w.
Proof. by split. Qed.
Lemma still_trans w1 w2 w3 : still w1 w2 -> still w2 w3 -> still w1 w3.
Proof. intros [N1 S1] [N2 S2]. split; [by eapply near_trans|auto]. Qed.

Lemma still_hang_up k w : still w (hang_up k w).
Proof. split; [done|]. intros [Hs Hc]. split; [done|]. by apply (map_Forall_delete (fun _ c => idle n (opened (ww_srv w) c))). Qed.

(** A dial that fails as those of unreachable hosts do, or connects. *)
Definition dialed (w : wire_world) (res : wire_world * (goerr + tconn wire_world)) : Prop :=
  (exists w' e, res = (w', inl e) /\ still w w' /\ unavailable e = true) \/ (exists w', res = connect w' /\ still w w').

(** The dialers reach the server or nothing; the clock, the random source and the hook
    leave the server and the connections alone. *)
Class Wired (env : Env wire_world) : Prop := {
  wd_draw w : still w (fst (env_draw env w));
  wd_hook w : still w (env_dialHook env w);
  wd_binary host cfg krb w : dialed w (env_DialBinary env host cfg krb w);
  wd_http url cfg w : dialed w (env_NewHTTP env url cfg w);
}.

Lemma still_connect w : still w (fst (connect w)).
Proof. split; [done|]. intros [Hs Hc]. split; [done|]. simpl. by apply map_Forall_insert_2. Qed.

Lemma wire_linked k : linked path_Match ww_srv wire_sound v (mkConn (modify (hang_up k)) (wireRpcs k) ∅ catalogUnknown).
Proof. split; [apply wire_lossy_rpcs|apply still_hang_up|done]. Qed.

(** set_ugi succeeds, unless its reply does not come. *)
Lemma wire_ugi k timeout user groups w : serves ww_srv wire_sound v w ->
  let '(w', r) := setUgi (wireRpcs k) timeout user groups w in
  still w w' /\ match r with inl e => unavailable e = true | inr _ => True end.
Proof.
  intros [Hw Hv].
  assert (lossy ww_srv wire_sound (setUgi (wireRpcs k) timeout user groups)
            (setUgi (fakeRpcs path_Match) timeout user (own_strings groups))) as H.
  { eapply lossy_same; [agreed (a_SetUgi cause)|replies|]. apply keeps_method. unfold SetUgi. keep_tables. }
  assert (forall st st' r, TableStore.runs (setUgi (fakeRpcs path_Match) timeout user (own_strings groups)) v st st' r ->
    st' = st /\ exists a, r = inr a) as Hr.
  { intros st st' r (f & Hf & <- & <- & <-). simpl. unfold method. destruct (f_v f); (split; [done|by eexists]). }
  specialize (H w Hw). rewrite Hv in H. destruct (setUgi _ _ _ _ w) as [w' r]. destruct H as [[Hw' Hv'] H].
  assert (forall st', st' = store_of ww_srv w -> store_of ww_srv w' = st' -> still w w') as Hst.
  { intros st' -> Hs. split; [|done]. split; [unfold version_of in *; congruence|done]. }
  destruct H as [H|(e & -> & Hu & H)].
  - apply Hr in H as [Hs [a ->]]. split; [by eapply Hst|done].
  - split; [|done]. destruct H as [H|[r' H]]; [by eapply Hst|]. apply Hr in H as [Hs _]. by eapply Hst.
Qed.

Lemma wired_serves {U : UrlLib} env `{!Wired env} : Serves path_Match ww_srv wire_sound v env.
Proof.
  split; [by apply wd_draw|]. intros ep cfg krb w Hw. unfold newConn_raw, bind at 1, modify at 1.
  assert (dialed (env_dialHook env w) (dial env ep cfg krb (env_dialHook env w))) as Hd
    by (unfold dial; case_match; [apply wd_binary|apply wd_http]).
  pose proof (wd_hook w) as Hh. set (w0 := env_dialHook env w) in *. unfold bind at 1.
  destruct Hd as [(w1 & e & -> & H1 & He)|(w1 & -> & H1)]; [split; [by eapply still_trans|done]|].
  pose proof (still_connect w1) as H2. unfold connect in *. simpl in H2. cbv beta iota zeta. set (k := ww_next w1) in *.
  set (w2 := mkWorld _ _ _ _) in *. assert (still w w2) as H by (eapply still_trans; [|exact H2]; by eapply still_trans).
  simpl t_client. simpl t_close. pose proof (wire_linked k) as Hl.
  destruct (_ && _); [|by split].
  unfold catch, bind, get. simpl.
  pose proof (wire_ugi k (ugiTimeout env cfg w2) (cfg_ugiUser cfg) (cfg_userGroups cfg) w2) as Hu.
  specialize (Hu (still_serves _ _ _ _ _ H Hw)). simpl in Hu.
  destruct (over _ _ _ w2) as [w3 [e|gs]]; destruct Hu as [H3 He]; simpl.
  - split; [|done]. eapply still_trans; [|apply still_hang_up]. by eapply still_trans.
  - split; [by eapply still_trans|done].
Qed.
End wire.
Arguments mkWire {P}. Arguments mkWorld {P}.
Arguments ww_srv {P}. Arguments ww_conns {P}. Arguments ww_next {P}. Arguments ww_fates {P}.

#[local] Existing Instance by_codecs.

(** ** The property *)

(** C2: the client is an atomic store of tables over the wire too: with the generated stubs
    of every conn behind the generated processor of the fake, over any protocol that
    carries every token, the replies to any sequence of table calls are those of a run of
    the abstract store, whose tables are in the canonical form the codecs give them. A
    request that is lost, or whose reply is, takes its connection with it; conns are then
    dialed anew, set_ugi included, and nothing is carried out twice. Plain names, the
    failures of dials, a server that serves nobody else and lost requests that are not
    executed later are supposed as for the store without the wire. *)
Theorem client_over_wire_refines_store {P : Type} {TP : TProtocol P} {TL : TProtocolLaws P} {MR : MapRange} {SB : Substructs P}
    {SL : SubstructLaws P} {TS : TStandardClient P} {PL : TProcessorLib P} {RL : TRpcLaws P} `{DeepCopy, UnicodeLower, UrlLib}
    (cause : option goerr) (path_Match : string -> string -> bool) (fuel n : nat) (v : Version) (fresh : P)
    (env : Env (wire_world (P := P))) `{!Wired cause path_Match fuel n v fresh env} (k : nat) (cfg : config) (es : list event)
    (s : St (wire_world (P := P))) (m : shelf) :
  (forall t, abandoned (EText t) = false) -> (msg_fuel <= fuel)%nat -> (struct_nest <= skip_depth)%nat ->
  (forall t, fits t) -> holds fresh (msg_depth + n) [] ->
  1 <= cfg_maxRetries cfg -> Forall (fair ww_srv (wire_sound n v) cfg) es ->
  serving path_Match ww_srv (wire_sound n v) v k cfg none s -> shelved m (Tables (store_of ww_srv (st_world s))) ->
  let '(s', h) := play env es s in
  serving path_Match ww_srv (wire_sound n v) v k cfg none s' /\
  exists m', shelved m' (Tables (store_of ww_srv (st_world s'))) /\ store_run cfg v m h m'.
Proof.
  intros Hplain Hfuel Hskip Hfits Hfresh Htries Hf S Hm.
  assert (wire_agreement cause path_Match fuel n v) as Ha by (apply wire_agreement_holds; [done..|]; intros; by apply Forall_true).
  pose proof (wired_serves cause path_Match fuel n v Ha Hfits fresh Hfresh env) as Hs.
  by apply (play_simulates path_Match ww_srv (wire_sound n v) v env k cfg Htries es s m).
Qed.

(** *** On queues of tokens *)

Import Queue QueueRpc.

Definition no_match (pattern name : string) : bool := false.
Local Abbreviation world := (wire_world (P := queue)).
Definition at_rest : queue := mkQueue [] 64.

Definition wireDial (host : string) : M world (tconn world) := fun w =>
  match strip_prefix "down" host with
  | Some _ => (w, inl (refused host))
  | None => connect None no_match 64 Hive40 at_rest w
  end.
Definition wireEnv : Env world := {|
  env_ctxErr := fun _ => None;
  env_ctxDeadline := fun _ => false;
  env_now := fun w => f_now (ww_srv w) * Second;
  env_draw := fun w => (w, Some (Second / 2));
  env_shuffle := fun _ _ => None;
  env_osUser := fun _ => Some "me";
  env_dialHook := fun w => w;
  env_DialBinary := fun host _ _ => wireDial host;
  env_NewHTTP := fun url _ => wireDial url;
  env_krbValidate := fun _ _ => None;
  env_NewKerberosSession := fun _ => ret tt;
  env_wait := fun _ s => (s, SelDone) |}.

#[local] Instance wireEnv_wired : Wired None no_match 64 55 Hive40 at_rest wireEnv.
Proof.
  assert (forall host w, dialed None no_match 64 55 Hive40 at_rest w (wireDial host w)) as Hd.
  { intros host w. unfold wireDial. destruct (strip_prefix "down" host); [left|right; by exists w].
    exists w, (refused host). split_and!; [done|done|by vm_compute]. }
  split; [intros w; apply still_refl|intros w; apply still_refl|intros host cfg krb w; apply Hd|intros url cfg w; apply Hd].
Qed.

(** A client of a fresh server, before it has dialed; the first of its endpoints is down. *)
Definition wire_start (fates : list fate) : St world :=
  mkSt (initial_client demo_cfg None demo_eps (fun _ => None)) (mkWorld (mkFake Hive40 NewStore [] 1700000000) ∅ 0 fates) [] [].

Lemma wire_start_serving fates : serving no_match ww_srv (wire_sound 55 Hive40) Hive40 2 demo_cfg none (wire_start fates).
Proof.
  split; [by apply (initial_quiet demo_cfg None demo_eps)|done| |].
  - intros j Hj. unfold wire_start. by rewrite (initial_idle demo_cfg None demo_eps).
  - split; [|done]. split; [split; [done|]|]; apply map_Forall_empty.
Qed.

Definition minute_later (w : world) : world :=
  mkWorld (mkFake (f_v (ww_srv w)) (f_store (ww_srv w)) [] (f_now (ww_srv w) + 60)) (ww_conns w) (ww_next w) (ww_fates w).

Lemma still_later w : still ww_srv (wire_sound 55 Hive40) w (minute_later w).
Proof. split; [by split|]. intros [Hs Hc]. by split. Qed.

(** The reply to the first CreateTable is lost after the table was created, and its
    connection with it; later, a request is lost. *)
Definition wire_events : list (event (W := world)) :=
  [TableStore.Call (CreateReq demo_created);
   Elapse minute_later;
   Probe;
   TableStore.Call (CreateReq demo_created);
   TableStore.Call (GetReq "db" "new" []);
   TableStore.Call (ListReq "db" []);
   TableStore.Call (DropReq "db" "new" true false []);
   Elapse minute_later;
   TableStore.Call (GetReq "db" "new" [])].
Definition wire_fates : list fate := [Fine; Fine; LostReply; Fine; Fine; Fine; Fine; Fine; Fine; LostRequest].

Lemma wire_events_fair : Forall (fair ww_srv (wire_sound 55 Hive40) demo_cfg) wire_events.
Proof.
  assert (plain "hive") by (repeat constructor). assert (plain "db") by (repeat constructor).
  unfold wire_events. repeat (apply list.Forall_cons; split); try apply list.Forall_nil; try exact I; try exact still_later.
  all: split; [done|split; [done|]]; try exact I; by intros wire sd [=].
Qed.

Lemma client_over_wire_refines_store_witness :
  let replies := [Unknown; Refused ErrAlreadyExists; Found (created 1700000000 demo_created (Some "hive")); Names ["new"]; Done; Unknown] in
  let '(s', h) := @play world demoUrl codecCopy wireEnv wire_events (wire_start wire_fates) in
  map snd h = replies /\ exists m', store_run demo_cfg Hive40 ∅ h m'.
Proof.
  intros replies.
  pose proof (@client_over_wire_refines_store queue _ _ _ _ _ _ _ _ codecCopy asciiLower demoUrl None no_match 64 55 Hive40 at_rest wireEnv
    wireEnv_wired 2 demo_cfg wire_events (wire_start wire_fates) ∅) as H.
  assert (map snd (snd (@play world demoUrl codecCopy wireEnv wire_events (wire_start wire_fates))) = replies) as Hr by (vm_compute; reflexivity).
  destruct (play _ _ _) as [s' h]. destruct H as (_ & m' & _ & Hrun).
  - done.
  - vm_compute. lia.
  - vm_compute. lia.
  - done.
  - done.
  - vm_compute. discriminate.
  - exact wire_events_fair.
  - apply wire_start_serving.
  - apply shelved_empty.
  - exact (conj Hr (ex_intro _ m' Hrun)).
Defined.
