(* ===== verification/Hmsrecord.v ===== *)
(** * Hmsrecord: internal/cmd/hmsrecord/main.go

    The recording proxy between metastore clients and a real metastore: what it
    records of the calls that pass, what it forwards, and its summary. The library's
    reader of TBinaryProtocol is a parameter: a program that reads from the client,
    as much as it likes, and may keep what it has read for its next call. *)

From Stdlib Require Import Strings.Byte.
From stdpp Require Import gmap sorting.
From S2P Require Import Prelude Errors GoMonad Types Transport Thrift.

(** ** What is recorded *)

Record call := mkCall {
  call_Time : Z;
  call_Client : string;
  call_Method : string;
  call_Type : string;
  call_SeqID : Z;
  call_Note : string;
}.

(** [*json.Encoder] over the output file, and the clock. *)
Class JsonEncoder (E : Type) := { Encode : call -> M E unit; time_Now : E -> Z }.

Record recorder (E : Type) := mkRecorder { rec_enc : E; rec_counts : gmap string Z }.
Arguments mkRecorder {E}. Arguments rec_enc {E}. Arguments rec_counts {E}.

Definition newRecorder {E} (out : E) : recorder E := mkRecorder out ∅.

Definition count (counts : gmap string Z) (name : string) : Z := default 0 (counts !! name).

(** A failed write is logged, and the call counted all the same. *)
Definition recorder_record {E} `{JsonEncoder E} (c : call) (r : recorder E) : recorder E :=
  let counts := if String.eqb (call_Method c) "" then rec_counts r
                else <[call_Method c := count (rec_counts r) (call_Method c) + 1]> (rec_counts r) in
  let '(enc, _) := Encode c (rec_enc r) in
  mkRecorder enc counts.

(** *** The summary *)

(** The comparison of [slices.SortFunc], negative when [a] comes first. *)
Definition compare_names (counts : gmap string Z) (a b : string) : Z :=
  let d := count counts b - count counts a in
  if negb (d =? 0) then d else if String.ltb a b then -1 else 1.
Definition before (counts : gmap string Z) (a b : string) : Prop := compare_names counts a b < 0.
Definition before_or_same (counts : gmap string Z) (a b : string) : Prop := before counts a b \/ a = b.
#[export] Instance before_or_same_dec counts : RelDecision (before_or_same counts).
Proof. intros a b. unfold before_or_same, before. apply _. Defined.

Definition sorted_names (counts : gmap string Z) : list string :=
  merge_sort (before_or_same counts) (map fst (map_to_list counts)).

Fixpoint spaces (n : nat) : string := match n with O => EmptyString | S n => String " " (spaces n) end.
(** ["%6d"] *)
Definition pad6 (n : Z) : string := let s := Itoa n in spaces (6 - String.length s) +:+ s.
Definition summary {E} (r : recorder E) : list string :=
  map (fun n => pad6 (count (rec_counts r) n) +:+ " " +:+ n) (sorted_names (rec_counts r)).

Definition ONEWAY : Z := 4.
Definition messageType (t : Z) : string :=
  if t =? CALL then "call"
  else if t =? ONEWAY then "oneway"
  else if t =? REPLY then "reply"
  else if t =? EXCEPTION then "exception"
  else "type-" +:+ Itoa t.

(** ** The streams *)

(** What a peer sends: chunks as they arrive, then an error for ever ([EEOF] when it
    hangs up). *)
Record stream := mkStream { s_chunks : list bytes; s_end : goerr }.
Definition unread (s : stream) : bytes := concat (s_chunks s).

(** [net.Conn.Read] into [k] bytes. *)
Definition conn_Read (k : nat) (s : stream) : stream * (bytes * option goerr) :=
  match s_chunks s with
  | [] => (s, ([], Some (s_end s)))
  | c :: cs =>
      if bool_decide (k < length c)%nat then (mkStream (drop k c :: cs) (s_end s), (take k c, None))
      else (mkStream cs (s_end s), (c, None))
  end.

(** What was written to a peer, and how much it still takes before its connection
    breaks ([None]: everything). *)
Record sink := mkSink { k_bytes : bytes; k_room : option nat }.

(** How many bytes of [p] are written, and an error when not all. *)
Definition conn_Write (p : bytes) (k : sink) : sink * (nat * option goerr) :=
  match k_room k with
  | Some r =>
      if bool_decide (r < length p)%nat
      then (mkSink (k_bytes k ++ take r p) (Some O), (r, Some (ENet "write: broken pipe" None)))
      else (mkSink (k_bytes k ++ p) (Some (r - length p)%nat), (length p, None))
  | None => (mkSink (k_bytes k ++ p) None, (length p, None))
  end.

(** The client, the server, and countingReader's [n]. *)
Record io := mkIo { i_client : stream; i_server : sink; i_n : Z }.

(** [io.TeeReader(client, server)]'s Read: what was read is written before it is
    returned. *)
Definition TeeReader_Read (k : nat) (w : io) : io * (bytes * option goerr) :=
  let '(client, (p, err)) := conn_Read k (i_client w) in
  match p with
  | [] => (mkIo client (i_server w) (i_n w), ([], err))
  | _ =>
      let '(server, (n, werr)) := conn_Write p (i_server w) in
      (mkIo client server (i_n w), match werr with Some e => (take n p, Some e) | None => (p, err) end)
  end.

Definition countingReader_Read (k : nat) (w : io) : io * (bytes * option goerr) :=
  let '(w, (p, err)) := TeeReader_Read k w in
  (mkIo (i_client w) (i_server w) (i_n w + Z.of_nat (length p)), (p, err)).

(** [io.Copy(server, client)], 32 KiB at a time. *)
Definition copy_buffer : nat := Z.to_nat 32768.
Fixpoint Copy (fuel : nat) (client : stream) (server : sink) : option (stream * sink) :=
  match fuel with
  | O => None
  | S fuel =>
      let '(client, (p, err)) := conn_Read copy_buffer client in
      let '(server, (_, werr)) := conn_Write p server in
      match werr, err with
      | None, None => Copy fuel client server
      | _, _ => Some (client, server)
      end
  end.

(** ** The library's reader *)

(** A program that reads. *)
Inductive prog (A : Type) :=
  | Done (a : A)
  | Read (k : nat) (rest : bytes -> option goerr -> prog A).
Arguments Done {A}. Arguments Read {A}.

Fixpoint pbind {A B} (p : prog A) (f : A -> prog B) : prog B :=
  match p with
  | Done a => f a
  | Read k rest => Read k (fun b e => pbind (rest b e) f)
  end.

(** Its reads go through the counting reader. *)
Fixpoint run {A} (p : prog A) (w : io) : io * A :=
  match p with
  | Done a => (w, a)
  | Read k rest => let '(w, (b, e)) := countingReader_Read k w in run (rest b e) w
  end.

Definition header : Type := string * Z * Z.

(** [thrift.NewTBinaryProtocolConf] over [thrift.NewStreamTransportR], with its
    buffer. *)
Class TBinaryReader (B : Type) := {
  proto_fresh : B;
  proto_ReadMessageBegin : B -> prog (B * (goerr + header));
  proto_Skip : B -> prog (B * (goerr + unit));
  proto_ReadMessageEnd : B -> prog (B * (goerr + unit));
  (** A TTransportException's. *)
  proto_TypeId : goerr -> Z;
}.

Section record.
Context {B : Type} {TB : TBinaryReader B} {E : Type} {JE : JsonEncoder E}.

Definition END_OF_FILE : Z := 4.
Definition isEOF (err : goerr) : bool :=
  match as_find (fun n => match n with ETransport _ _ => Some n | _ => None end) err with
  | Some te => proto_TypeId te =? END_OF_FILE
  | None => false
  end || existsb (fun n => match n with EEOF => true | _ => false end) (nodes err).

(** The three reads of one message: each is made when the ones before it were good. *)
Definition read_message (b : B) : prog (B * (goerr + header)) :=
  pbind (proto_ReadMessageBegin b) (fun '(b, r) =>
    match r with
    | inl e => Done (b, inl e)
    | inr h =>
        pbind (proto_Skip b) (fun '(b, r) =>
          match r with
          | inl e => Done (b, inl e)
          | inr _ => pbind (proto_ReadMessageEnd b) (fun '(b, r) =>
                       Done (b, match r with inl e => inl e | inr _ => inr h end))
          end)
    end).

Definition note_text (err : goerr) : string := "not TBinaryProtocol, proxying unrecorded: " +:+ error_text err.

Fixpoint record_loop (fuel : nat) (addr : string) (b : B) (w : io) (r : recorder E) : option (io * recorder E) :=
  match fuel with
  | O => None
  | S fuel' =>
      let '(w, (b, res)) := run (read_message b) (mkIo (i_client w) (i_server w) 0) in
      match res with
      | inl err =>
          if (0 <? i_n w) || negb (isEOF err) then
            let r := recorder_record (mkCall (time_Now (rec_enc r)) addr "" "" 0 (note_text err)) r in
            match Copy fuel (i_client w) (i_server w) with
            | Some (client, server) => Some (mkIo client server (i_n w), r)
            | None => None
            end
          else Some (w, r)
      | inr (name, typ, seq) =>
          record_loop fuel' addr b w (recorder_record (mkCall (time_Now (rec_enc r)) addr name (messageType typ) seq "") r)
      end
  end.

(** Enough for the reads of Copy and for a message a byte. *)
Definition record_fuel (client : stream) : nat := S (length (unread client) + length (s_chunks client)).

Definition record (client : stream) (server : sink) (addr : string) (r : recorder E) : option (io * recorder E) :=
  record_loop (record_fuel client) addr proto_fresh (mkIo client server 0) r.

(** *** A connection *)

(** The client's stream when the server hangs up after [n] of its chunks: [c.Close()]
    ends the read with net.ErrClosed. *)
Definition closed : goerr := ENet "use of closed network connection" None.
Definition cut (hangup : option nat) (client : stream) : stream :=
  match hangup with Some n => mkStream (take n (s_chunks client)) closed | None => client end.

(** [c] is what is written back to the client, [up] and [answers] the server's two
    directions. The two copies share nothing but the moment the server hangs up. *)
Definition proxy (dial : goerr + sink * stream) (hangup : option nat) (client : stream) (c : sink) (addr : string)
    (r : recorder E) : option (recorder E * option (sink * sink)) :=
  match dial with
  | inl _ => Some (r, None)
  | inr (up, answers) =>
      match record (cut hangup client) up addr r, Copy (S (length (unread answers) + length (s_chunks answers))) answers c with
      | Some (w, r), Some (_, c) => Some (r, Some (i_server w, c))
      | _, _ => None
      end
  end.
End record.

(** ** The streams, lemmas *)

(** [net.Conn.Read] gives at least a byte, or an error. *)
Definition live (s : stream) : Prop := Forall (fun c => c <> []) (s_chunks s).
(** Bytes and chunks still to come. *)
Definition weight (s : stream) : nat := (length (unread s) + length (s_chunks s))%nat.

Lemma conn_Read_spec k s :
  let '(s', (p, err)) := conn_Read k s in
  unread s = p ++ unread s' /\ s_end s' = s_end s /\ (length (s_chunks s') <= length (s_chunks s))%nat /\
  (live s -> live s') /\
  match err with
  | Some e => e = s_end s /\ unread s = [] /\ p = []
  | None => (0 < k)%nat -> (weight s' < weight s)%nat /\ (live s -> p <> [])
  end.
Proof.
  destruct s as [[|c cs] fin]; unfold conn_Read; simpl; [by split_and!|].
  case_bool_decide as Hk; unfold weight, unread; simpl.
  - split_and!; [|done|lia| |].
    + by rewrite app_assoc, take_drop.
    + intros [Hc Hcs]%Forall_cons_1. constructor; [|done]. intros Hd. apply (f_equal length) in Hd. rewrite length_drop in Hd. simpl in Hd. lia.
    + intros Hk0. rewrite !length_app, length_drop. split; [lia|]. intros _ Ht. apply (f_equal length) in Ht.
      rewrite length_take in Ht. simpl in Ht. lia.
  - split_and!; [done|done|lia|by intros [_ ?]%Forall_cons_1|]. intros _. rewrite !length_app. split; [lia|]. by intros [? _]%Forall_cons_1.
Qed.

(** With a server that takes everything, what a reader reads is what the server is
    sent, and what is counted. *)
Lemma countingReader_spec k w : k_room (i_server w) = None ->
  let '(w', (p, err)) := countingReader_Read k w in
  (i_client w', (p, err)) = conn_Read k (i_client w) /\
  i_server w' = mkSink (k_bytes (i_server w) ++ p) None /\ i_n w' = i_n w + Z.of_nat (length p).
Proof.
  intros Hr. unfold countingReader_Read, TeeReader_Read. destruct (conn_Read k (i_client w)) as [c [p err]].
  destruct p as [|x p]; unfold conn_Write; simpl.
  - split_and!; [done|by destruct (i_server w); simpl in *; subst; rewrite app_nil_r|done].
  - rewrite Hr. by split_and!.
Qed.

Record forwarded (w w' : io) (seen : bytes) : Prop := {
  fw_client : unread (i_client w) = seen ++ unread (i_client w');
  fw_server : i_server w' = mkSink (k_bytes (i_server w) ++ seen) None;
  fw_n : i_n w' = i_n w + Z.of_nat (length seen);
  fw_end : s_end (i_client w') = s_end (i_client w);
  fw_chunks : (length (s_chunks (i_client w')) <= length (s_chunks (i_client w)))%nat;
  fw_live : live (i_client w) -> live (i_client w');
}.

Lemma run_forwards {A} (p : prog A) : forall w, k_room (i_server w) = None -> exists seen, forwarded w (fst (run p w)) seen.
Proof.
  induction p as [a|k rest IH]; intros w Hr; simpl.
  - exists []. split; simpl; try done; [|lia]. destruct (i_server w); simpl in *; subst; by rewrite app_nil_r.
  - pose proof (countingReader_spec k w Hr) as Hc. pose proof (conn_Read_spec k (i_client w)) as Hs.
    destruct (countingReader_Read k w) as [w1 [b e]]. destruct Hc as (Hc & Hk & Hn). rewrite <- Hc in Hs. destruct Hs as (Hu & He & Hl & Hlive & _).
    destruct (IH b e w1) as [seen [F1 F2 F3 F4 F5 F6]]; [by rewrite Hk|]. exists (b ++ seen). split.
    + by rewrite Hu, F1, app_assoc.
    + rewrite F2, Hk. simpl. by rewrite <- app_assoc.
    + rewrite F3, Hn, length_app. lia.
    + congruence.
    + lia.
    + auto.
Qed.

Lemma run_pbind {A B} (p : prog A) (f : A -> prog B) : forall w, run (pbind p f) w = let '(w, a) := run p w in run (f a) w.
Proof.
  induction p as [a|k rest IH]; intros w; simpl; [done|]. destruct (countingReader_Read k w) as [w1 [b e]]. apply IH.
Qed.

(** io.Copy sends all that is left. *)
Lemma Copy_all fuel : forall s k, k_room k = None -> (weight s < fuel)%nat ->
  exists s', Copy fuel s k = Some (s', mkSink (k_bytes k ++ unread s) None) /\ unread s' = [] /\ s_end s' = s_end s.
Proof.
  induction fuel as [|fuel IH]; intros s k Hk Hw; [lia|]. simpl.
  pose proof (conn_Read_spec copy_buffer s) as Hs. destruct (conn_Read copy_buffer s) as [s1 [p err]].
  destruct Hs as (Hu & He & _ & _ & Herr). unfold conn_Write. rewrite Hk. destruct err as [e|].
  - destruct Herr as (_ & Hn & ->). exists s1. rewrite Hn. split_and!; [done| |done]. by rewrite Hn in Hu.
  - destruct Herr as [Hlt _]; [unfold copy_buffer; lia|].
    destruct (IH s1 (mkSink (k_bytes k ++ p) None)) as (s' & -> & Hs' & He'); [done|lia|].
    exists s'. split_and!; [|done|congruence]. simpl. by rewrite Hu, app_assoc.
Qed.

(** ** What the library promises of its reader

    Of each of its reads, on a server that takes everything and a live client. *)

Definition well (w : io) : Prop := k_room (i_server w) = None /\ live (i_client w).

Section reads.
Context {B A : Type} (held : B -> bytes).

(** It uses up bytes, at least [n] of them. *)
Definition uses_up (n : nat) (b : B) (op : prog (B * (goerr + A))) : Prop := forall w w' b' a, well w ->
  run op w = (w', (b', inr a)) ->
  exists m, (n <= length m)%nat /\ held b ++ unread (i_client w) = m ++ held b' ++ unread (i_client w').
(** It reports an end of file only where the client hung up. *)
Definition true_eof {TB : TBinaryReader B} (op : prog (B * (goerr + A))) : Prop := forall w w' b' e, well w ->
  run op w = (w', (b', inl e)) -> isEOF e = true -> unread (i_client w') = [].
(** It reads these bytes as [a], however they arrive, and what it reads beyond it
    keeps. *)
Definition parses (b : B) (op : prog (B * (goerr + A))) (m : bytes) (a : A) : Prop := forall w rest, well w ->
  held b ++ unread (i_client w) = m ++ rest ->
  exists w' b', run op w = (w', (b', inr a)) /\ held b' ++ unread (i_client w') = rest.
End reads.

(** [proto_held]: the bytes it has read and not yet used. *)
Class TBinaryLaws (B : Type) {TB : TBinaryReader B} := {
  proto_held : B -> bytes;
  header_bytes : header -> bytes -> Prop;
  body_bytes : bytes -> Prop;
  held_fresh : proto_held proto_fresh = [];
  law_begin_uses b : uses_up proto_held 1 b (proto_ReadMessageBegin b);
  law_skip_uses b : uses_up proto_held 0 b (proto_Skip b);
  law_end_uses b : uses_up proto_held 0 b (proto_ReadMessageEnd b);
  law_begin_eof b : true_eof (proto_ReadMessageBegin b);
  law_skip_eof b : true_eof (proto_Skip b);
  law_end_eof b : true_eof (proto_ReadMessageEnd b);
  law_begin b h m : header_bytes h m -> parses proto_held b (proto_ReadMessageBegin b) m h;
  law_skip_body b m : body_bytes m -> parses proto_held b (proto_Skip b) m tt;
  law_end b : parses proto_held b (proto_ReadMessageEnd b) [] tt;
  (** Between messages it reports the client's error. *)
  law_no_more b w : well w -> proto_held b ++ unread (i_client w) = [] ->
    exists w' b' e, run (proto_ReadMessageBegin b) w = (w', (b', inl e)) /\ isEOF e = isEOF (s_end (i_client w));
}.

Section message.
Context {B : Type} {TB : TBinaryReader B} {TL : TBinaryLaws B}.

(** The bytes of a message with this header. *)
Definition frame (h : header) (m : bytes) : Prop := exists m1 m2, header_bytes h m1 /\ body_bytes m2 /\ m = m1 ++ m2.

Lemma run_well {A} (p : prog A) w w' a : well w -> run p w = (w', a) -> well w'.
Proof.
  intros [Hr Hl] Hrun. destruct (run_forwards p w Hr) as [seen [_ F2 _ _ _ F6]]. rewrite Hrun in *. simpl in *.
  split; [by rewrite F2|auto].
Qed.

(** The three reads in turn. *)
Lemma read_message_run b w : run (read_message b) w =
  match run (proto_ReadMessageBegin b) w with
  | (w, (b, inl e)) => (w, (b, inl e))
  | (w, (b, inr h)) =>
      match run (proto_Skip b) w with
      | (w, (b, inl e)) => (w, (b, inl e))
      | (w, (b, inr _)) =>
          let '(w, (b, r)) := run (proto_ReadMessageEnd b) w in (w, (b, match r with inl e => inl e | inr _ => inr h end))
      end
  end.
Proof.
  unfold read_message. rewrite run_pbind. destruct (run (proto_ReadMessageBegin b) w) as [w1 [b1 [e|h]]]; [done|].
  rewrite run_pbind. destruct (run (proto_Skip b1) w1) as [w2 [b2 [e|u]]]; [done|].
  rewrite run_pbind. by destruct (run (proto_ReadMessageEnd b2) w2) as [w3 [b3 r]].
Qed.

Lemma message_uses b : uses_up proto_held 1 b (read_message b).
Proof.
  intros w w' b' h Hw. rewrite read_message_run. destruct (run (proto_ReadMessageBegin b) w) as [w1 [b1 [e|h1]]] eqn:E1; [done|].
  destruct (run (proto_Skip b1) w1) as [w2 [b2 [e|u]]] eqn:E2; [done|].
  destruct (run (proto_ReadMessageEnd b2) w2) as [w3 [b3 [e|u']]] eqn:E3; [done|]. intros [= <- <- <-].
  pose proof (run_well _ _ _ _ Hw E1) as Hw1. pose proof (run_well _ _ _ _ Hw1 E2) as Hw2.
  destruct (law_begin_uses b _ _ _ _ Hw E1) as (m1 & Hm1 & H1). destruct (law_skip_uses b1 _ _ _ _ Hw1 E2) as (m2 & _ & H2).
  destruct (law_end_uses b2 _ _ _ _ Hw2 E3) as (m3 & _ & H3).
  exists (m1 ++ m2 ++ m3). split; [rewrite length_app; lia|]. by rewrite H1, H2, H3, <- !app_assoc.
Qed.
Lemma message_eof b : true_eof (read_message b).
Proof.
  intros w w' b' e Hw. rewrite read_message_run. destruct (run (proto_ReadMessageBegin b) w) as [w1 [b1 [e1|h1]]] eqn:E1.
  { intros [= <- <- <-]. by apply (law_begin_eof b _ _ _ _ Hw E1). }
  pose proof (run_well _ _ _ _ Hw E1) as Hw1. destruct (run (proto_Skip b1) w1) as [w2 [b2 [e2|u]]] eqn:E2.
  { intros [= <- <- <-]. by apply (law_skip_eof b1 _ _ _ _ Hw1 E2). }
  pose proof (run_well _ _ _ _ Hw1 E2) as Hw2. destruct (run (proto_ReadMessageEnd b2) w2) as [w3 [b3 [e3|u']]] eqn:E3; [|done].
  intros [= <- <- <-]. by apply (law_end_eof b2 _ _ _ _ Hw2 E3).
Qed.
Lemma message_parses b h m : frame h m -> parses proto_held b (read_message b) m h.
Proof.
  intros (m1 & m2 & Hm1 & Hm2 & ->) w rest Hw Heq. rewrite <- app_assoc in Heq. rewrite read_message_run.
  destruct (law_begin b h m1 Hm1 w _ Hw Heq) as (w1 & b1 & E1 & H1). rewrite E1. pose proof (run_well _ _ _ _ Hw E1) as Hw1.
  destruct (law_skip_body b1 m2 Hm2 w1 _ Hw1 H1) as (w2 & b2 & E2 & H2). rewrite E2. pose proof (run_well _ _ _ _ Hw1 E2) as Hw2.
  destruct (law_end b2 w2 rest Hw2 H2) as (w3 & b3 & E3 & H3). rewrite E3. by exists w3, b3.
Qed.
Lemma message_no_more b w : well w -> proto_held b ++ unread (i_client w) = [] ->
  exists w' b' e, run (read_message b) w = (w', (b', inl e)) /\ isEOF e = isEOF (s_end (i_client w)).
Proof.
  intros Hw Heq. destruct (law_no_more b w Hw Heq) as (w' & b' & e & E & He). exists w', b', e. by rewrite read_message_run, E.
Qed.
End message.

Section facts.
Context {B : Type} {TB : TBinaryReader B} {TL : TBinaryLaws B} {E : Type} {JE : JsonEncoder E}.

(** One turn of the loop. *)
Lemma turn b w : k_room (i_server w) = None -> exists seen,
  forwarded (mkIo (i_client w) (i_server w) 0) (fst (run (read_message b) (mkIo (i_client w) (i_server w) 0))) seen.
Proof. intros Hr. by apply run_forwards. Qed.

Lemma record_loop_forwards fuel : forall addr b w (r : recorder E),
  k_room (i_server w) = None -> live (i_client w) ->
  (length (proto_held b) + weight (i_client w) < fuel)%nat ->
  exists w' r', record_loop fuel addr b w r = Some (w', r') /\
    k_bytes (i_server w') = k_bytes (i_server w) ++ unread (i_client w) /\ unread (i_client w') = [].
Proof.
  induction fuel as [|fuel IH]; intros addr b w r Hr Hlive Hfuel; [lia|]. cbn [record_loop].
  destruct (turn b w Hr) as [seen [F1 F2 F3 F4 F5 F6]]. simpl in F1, F2, F3, F4, F5, F6.
  destruct (run (read_message b) _) as [w1 [b1 res]] eqn:Erun. simpl in *. destruct res as [err|[[name typ] seq]].
  - destruct ((0 <? i_n w1) || negb (isEOF err)) eqn:Enote.
    + destruct (Copy_all (S fuel) (i_client w1) (i_server w1)) as (s' & Hcopy & Hs' & _); [by rewrite F2| |].
      { unfold weight in *. apply (f_equal length) in F1. rewrite length_app in F1. lia. }
      cbn [Copy] in Hcopy |- *. rewrite Hcopy. do 2 eexists. split; [done|]. simpl. split; [|done].
      rewrite F2, F1. simpl. by rewrite <- app_assoc.
    + apply orb_false_iff in Enote as [_ Heof]. apply negb_false_iff in Heof.
      assert (unread (i_client w1) = []) as Hu by (by eapply message_eof; [|exact Erun|]).
      do 2 eexists. split; [done|]. split; [|done]. rewrite F2, F1, Hu. simpl. by rewrite app_nil_r.
  - destruct (message_uses b (mkIo (i_client w) (i_server w) 0) _ _ _ (conj Hr Hlive) Erun) as (m & Hm & Heq). simpl in Heq.
    destruct (IH addr b1 w1 (recorder_record (mkCall (time_Now (rec_enc r)) addr name (messageType typ) seq "") r))
      as (w' & r' & Hloop & Hk & Hu).
    + by rewrite F2.
    + auto.
    + unfold weight in *. apply (f_equal length) in Heq. rewrite !length_app in Heq.
      lia.
    + do 2 eexists. split; [exact Hloop|]. split; [|done]. rewrite Hk, F2, F1. simpl. by rewrite <- app_assoc.
Qed.

Lemma record_forwards (client : stream) (server : sink) (addr : string) (r : recorder E) :
  k_room server = None -> live client ->
  exists w r', record client server addr r = Some (w, r') /\
    k_bytes (i_server w) = k_bytes server ++ unread client /\ unread (i_client w) = [].
Proof.
  intros Hr Hl. apply (record_loop_forwards _ addr proto_fresh (mkIo client server 0) r Hr Hl).
  rewrite held_fresh. unfold record_fuel, weight. simpl. lia.
Qed.

Lemma cut_live hangup client : live client -> live (cut hangup client).
Proof. destruct hangup; [|done]. unfold live. simpl. by apply Forall_take. Qed.

(** C37: the proxy forwards what it is sent, whatever it makes of it: for every stream of
    bytes, Thrift or not, in chunks of any size, a connection comes to an end with
    exactly those bytes, in order, written to the server, as far as the client's were
    read before the server hung up, and exactly the server's bytes to the client,
    provided that both take all that is written to them;
    when the server cannot be dialled nothing is recorded. *)
Theorem proxy_forwards (dial : goerr + sink * stream) hangup (client : stream) (c : sink) (addr : string) (r : recorder E) :
  live client -> k_room c = None ->
  match dial with
  | inl _ => proxy dial hangup client c addr r = Some (r, None)
  | inr (up, answers) => k_room up = None ->
      exists r' up' c', proxy dial hangup client c addr r = Some (r', Some (up', c')) /\
        k_bytes up' = k_bytes up ++ unread (cut hangup client) /\ k_bytes c' = k_bytes c ++ unread answers
  end.
Proof.
  intros Hl Hc. destruct dial as [e|[up answers]]; [done|]. intros Hup. unfold proxy.
  destruct (record_forwards (cut hangup client) up addr r Hup (cut_live _ _ Hl)) as (w & r' & -> & Hk & _).
  destruct (Copy_all (S (weight answers)) answers c Hc) as (s' & Hcopy & _); [lia|]. unfold weight in Hcopy. rewrite Hcopy.
  by do 3 eexists.
Qed.

(** *** What is recorded *)

Definition record_call (addr : string) (r : recorder E) (h : header) : recorder E :=
  let '(name, typ, seq) := h in
  recorder_record (mkCall (time_Now (rec_enc r)) addr name (messageType typ) seq "") r.

(** What the loop adds to the record for the end of a stream. *)
Definition record_end (addr : string) (err : goerr) (r : recorder E) : recorder E :=
  recorder_record (mkCall (time_Now (rec_enc r)) addr "" "" 0 (note_text err)) r.

Lemma record_loop_calls addr : forall hs ms, Forall2 frame hs ms -> forall fuel b w r,
  k_room (i_server w) = None -> live (i_client w) ->
  (length (proto_held b) + weight (i_client w) < fuel)%nat ->
  proto_held b ++ unread (i_client w) = concat ms ->
  exists w' r', record_loop fuel addr b w r = Some (w', r') /\
    if isEOF (s_end (i_client w)) then r' = fold_left (record_call addr) hs r
    else exists err, isEOF err = false /\ r' = record_end addr err (fold_left (record_call addr) hs r).
Proof.
  induction 1 as [|h m hs ms Hm _ IH]; intros fuel b w r Hr Hl Hfuel Heq; (destruct fuel as [|fuel]; [lia|]); cbn [record_loop].
  - destruct (message_no_more b (mkIo (i_client w) (i_server w) 0)) as (w' & b' & e & Hrun & He); [done..|].
    destruct (turn b w Hr) as [seen [F1 F2 F3 F4 F5 F6]]. rewrite Hrun in *. simpl in *.
    apply app_eq_nil in Heq as [_ Hnil]. rewrite Hnil in F1. symmetry in F1. apply app_eq_nil in F1 as [-> Hu].
    rewrite F3. simpl. rewrite <- He. destruct (isEOF e) eqn:Ee; simpl; [by do 2 eexists|].
    destruct (Copy_all (S fuel) (i_client w') (i_server w')) as (s' & Hcopy & _); [by rewrite F2| |].
    { unfold weight in *. rewrite Hu. simpl. lia. }
    cbn [Copy] in Hcopy. rewrite Hcopy. do 2 eexists. split; [done|]. by exists e.
  - destruct (message_parses b h m Hm (mkIo (i_client w) (i_server w) 0) (concat ms)) as (w' & b' & Hrun & Hrest); [done..|].
    destruct (turn b w Hr) as [seen [F1 F2 F3 F4 F5 F6]].
    destruct (message_uses b (mkIo (i_client w) (i_server w) 0) _ _ _ (conj Hr Hl) Hrun) as (m' & Hm' & Heq'). rewrite Hrun in *. simpl in *.
    destruct h as [[name typ] seq]. rewrite <- F4. apply (IH fuel b' w' _); [by rewrite F2|auto| |done].
    unfold weight in *. apply (f_equal length) in Heq'. rewrite !length_app in Heq'. lia.
Qed.

(** C38: the proxy records what passes: when the client sends messages, however their
    bytes are cut into chunks, and hangs up, exactly those messages are recorded, in
    order, each with its name, type and sequence id, and no note; but when the stream
    ends after them with any other error, a note that it is not TBinaryProtocol is
    added, though every message of it was. *)
Theorem record_calls (client : stream) (server : sink) (addr : string) (r : recorder E) hs ms :
  k_room server = None -> live client -> Forall2 frame hs ms -> unread client = concat ms ->
  exists w r', record client server addr r = Some (w, r') /\
    if isEOF (s_end client) then r' = fold_left (record_call addr) hs r
    else exists err, isEOF err = false /\ r' = record_end addr err (fold_left (record_call addr) hs r).
Proof.
  intros Hr Hl Hf Hu. apply (record_loop_calls addr hs ms Hf _ proto_fresh (mkIo client server 0) r Hr Hl).
  - rewrite held_fresh. unfold record_fuel, weight. simpl. lia.
  - by rewrite held_fresh.
Qed.
End facts.

(** ** The summary *)

Lemma before_spec counts a b : before counts a b <->
  count counts b < count counts a \/ (count counts a = count counts b /\ String.compare a b = Lt).
Proof.
  unfold before, compare_names, String.ltb. destruct (Z.eqb_spec (count counts b - count counts a) 0) as [Hd|Hd]; simpl.
  - destruct (String.compare a b); intuition (try lia; try done).
  - split; [lia|]. intros [?|[? _]]; lia.
Qed.
#[export] Instance before_or_same_trans counts : Transitive (before_or_same counts).
Proof.
  intros a b c [Hab|<-] Hbc; [|done]. destruct Hbc as [Hbc|<-]; [|by left]. left.
  rewrite before_spec in *. destruct Hab as [?|[? H1]], Hbc as [?|[? H2]]; try (left; lia).
  right. split; [lia|]. by eapply compare_trans.
Qed.
#[export] Instance before_or_same_total counts : Total (before_or_same counts).
Proof.
  intros a b. unfold before_or_same. rewrite !before_spec.
  destruct (Z.lt_trichotomy (count counts a) (count counts b)) as [?|[?|?]]; [right; left; left; lia| |left; left; left; lia].
  destruct (String.compare a b) eqn:Ec.
  - left. right. by apply String.compare_eq_iff.
  - left. left. right. by split.
  - right. left. right. split; [done|]. rewrite String.compare_antisym, Ec. done.
Qed.
#[export] Instance before_or_same_antisym counts : AntiSymm (=) (before_or_same counts).
Proof.
  intros a b [Hab|?] [Hba|?]; try done. rewrite before_spec in *. exfalso.
  destruct Hab as [?|[? H1]], Hba as [?|[? H2]]; try lia. rewrite String.compare_antisym, H1 in H2. done.
Qed.

(** How often a method is among the calls. *)
Definition times (n : string) (cs : list call) : Z :=
  Z.of_nat (length (List.filter (fun c => String.eqb (call_Method c) n) cs)).

(** [a] was called more often than [b], or as often and has the smaller name. *)
Definition listed_before (cs : list call) (a b : string) : Prop :=
  times b cs < times a cs \/ (times a cs = times b cs /\ String.compare a b = Lt).
#[export] Instance listed_before_antisym cs : AntiSymm (=) (listed_before cs).
Proof.
  intros a b [?|[? H1]] [?|[? H2]]; try lia. rewrite String.compare_antisym, H1 in H2. done.
Qed.

Lemma StronglySorted_strict {A} (R S : A -> A -> Prop) l : StronglySorted R l -> NoDup l ->
  (forall a b, a ∈ l -> b ∈ l -> a <> b -> R a b -> S a b) -> StronglySorted S l.
Proof.
  induction 1 as [|a l Hs IH Ha]; intros Hd HRS; constructor.
  - apply IH; [by inversion Hd|]. intros b c Hb Hc. apply HRS; by right.
  - assert (a ∉ l) as Hn by by inversion Hd. rewrite list.Forall_forall in *. intros b Hb.
    apply HRS; [left|by right| |by apply Ha]. by intros ->.
Qed.

Section summary.
Context {E : Type} {JE : JsonEncoder E}.

Definition record_all (cs : list call) (r : recorder E) : recorder E := fold_left (fun r c => recorder_record c r) cs r.

Lemma record_counts c (r : recorder E) n : n <> "" ->
  rec_counts (recorder_record c r) !! n =
  if String.eqb (call_Method c) n then Some (count (rec_counts r) n + 1) else rec_counts r !! n.
Proof.
  intros Hn. unfold recorder_record. destruct (Encode c (rec_enc r)) as [enc res]. simpl.
  destruct (String.eqb_spec (call_Method c) "") as [Ec|Ec].
  - destruct (String.eqb_spec (call_Method c) n); congruence.
  - destruct (String.eqb_spec (call_Method c) n) as [<-|Hne]; [by rewrite lookup_insert_eq|by rewrite lookup_insert_ne].
Qed.
Lemma record_unnamed c (r : recorder E) : rec_counts r !! "" = None -> rec_counts (recorder_record c r) !! "" = None.
Proof.
  intros Hr. unfold recorder_record. destruct (Encode c (rec_enc r)) as [enc res]. simpl.
  destruct (String.eqb_spec (call_Method c) ""); [done|]. by rewrite lookup_insert_ne.
Qed.

Lemma record_all_counts n cs : n <> "" -> forall r : recorder E,
  rec_counts (record_all cs r) !! n = if times n cs =? 0 then rec_counts r !! n else Some (count (rec_counts r) n + times n cs).
Proof.
  intros Hn. unfold record_all, times. induction cs as [|c cs IH]; intros r; simpl; [done|]. rewrite IH. unfold count at 1.
  rewrite !record_counts by done. destruct (String.eqb (call_Method c) n); simpl; [|done].
  generalize (length (List.filter (fun c => String.eqb (call_Method c) n) cs)) as k. intros k. rewrite Nat2Z.inj_succ.
  destruct (Z.eqb_spec (Z.of_nat k) 0); f_equal; lia.
Qed.
Lemma record_all_unnamed cs : forall r : recorder E, rec_counts r !! "" = None -> rec_counts (record_all cs r) !! "" = None.
Proof. induction cs as [|c cs IH]; intros r Hr; [done|]. by apply IH, record_unnamed. Qed.

(** The summary is right: after any calls, it has one line for each method among
    them, notes apart, with how often it was called; the lines are ordered by count,
    largest first, then by name, and no other order of those names is, so that neither
    the map's order nor the sort's algorithm shows. *)
Theorem summary_spec (out : E) (cs : list call) :
  let r := record_all cs (newRecorder out) in
  exists names, summary r = map (fun n => pad6 (times n cs) +:+ " " +:+ n) names /\ NoDup names /\
    (forall n, n ∈ names <-> n <> "" /\ exists c, c ∈ cs /\ call_Method c = n) /\
    StronglySorted (listed_before cs) names /\
    forall names', StronglySorted (listed_before cs) names' -> names' ≡ₚ names -> names' = names.
Proof.
  intros r. exists (sorted_names (rec_counts r)).
  assert (sorted_names (rec_counts r) ≡ₚ map fst (map_to_list (rec_counts r))) as Hperm by apply merge_sort_Permutation.
  assert (forall n, n ∈ sorted_names (rec_counts r) <-> is_Some (rec_counts r !! n)) as Hin.
  { intros n. rewrite Hperm, list_elem_of_fmap. split.
    - intros ([k v] & -> & Hkv%elem_of_map_to_list). by exists v.
    - intros [v Hv]. exists (n, v). split; [done|]. by apply elem_of_map_to_list. }
  assert (rec_counts r !! "" = None) as Hempty by by apply record_all_unnamed.
  assert (forall n, n <> "" -> rec_counts r !! n = if times n cs =? 0 then None else Some (times n cs)) as Hcount
    by (intros n Hn; unfold r; rewrite record_all_counts by done; done).
  assert (NoDup (sorted_names (rec_counts r))) as Hnodup by (rewrite Hperm; apply NoDup_fst_map_to_list).
  assert (forall n, n ∈ sorted_names (rec_counts r) -> count (rec_counts r) n = times n cs) as Htimes.
  { intros n [v Hv]%Hin. assert (n <> "") as Hne by congruence. unfold count. rewrite Hv. simpl. rewrite Hcount in Hv by done.
    destruct (times n cs =? 0); congruence. }
  assert (StronglySorted (listed_before cs) (sorted_names (rec_counts r))) as Hsorted.
  { apply (StronglySorted_strict (before_or_same (rec_counts r))); [apply StronglySorted_merge_sort; apply _|done|].
    intros a b Ha Hb Hab [Hbef|?]; [|done]. apply before_spec in Hbef. by rewrite !Htimes in Hbef. }
  split_and!.
  - unfold summary. apply map_ext_in. intros n Hn%list_elem_of_In. by rewrite Htimes.
  - done.
  - intros n. rewrite Hin. split.
    + intros [v Hv]. assert (n <> "") as Hne by congruence. split; [done|]. rewrite Hcount in Hv by done. unfold times in Hv.
      destruct (List.filter _ cs) as [|c l] eqn:El; [done|]. exists c.
      assert (In c (List.filter (fun c => String.eqb (call_Method c) n) cs)) as [Hc1 Hc2]%filter_In by (rewrite El; by left).
      split; [by apply list_elem_of_In|]. by apply String.eqb_eq.
    + intros [Hne (c & Hc & Hm)]. rewrite Hcount by done.
      assert (In c (List.filter (fun c => String.eqb (call_Method c) n) cs)) as Hf.
      { apply filter_In. split; [by apply list_elem_of_In|]. by apply String.eqb_eq. }
      unfold times. destruct (List.filter _ cs); [done|]. simpl. by eexists.
  - done.
  - intros names' Hs Hp. by apply (StronglySorted_unique (listed_before cs)).
Qed.
End summary.

(** ** A concrete reader

    Messages of two bytes, a name and a body, read 4096 bytes at a time into a buffer,
    as the library's reader does. *)

Module Pairs.

(** The next byte. *)
Definition next {A} (f : byte -> A) (b : bytes) : prog (bytes * (goerr + A)) :=
  match b with
  | x :: b => Done (b, inr (f x))
  | [] => Read 4096 (fun p err =>
            match err, p with
            | Some e, _ => Done ([], inl e)
            | None, x :: p => Done (p, inr (f x))
            | None, [] => Done ([], inl (EProtocol "no progress" None))
            end)
  end.
Definition named (x : byte) : header := (String (ascii_of_byte x) "", CALL, 0).

#[export] Instance reader : TBinaryReader bytes := {|
  proto_fresh := [];
  proto_ReadMessageBegin := next named;
  proto_Skip := next (fun _ => tt);
  proto_ReadMessageEnd := fun b => Done (b, inr tt);
  proto_TypeId := fun _ => 0;
|}.

Lemma next_spec {A} (f : byte -> A) b w : well w ->
  match b ++ unread (i_client w) with
  | x :: rest => exists w' b', run (next f b) w = (w', (b', inr (f x))) /\ b' ++ unread (i_client w') = rest
  | [] => exists w' b', run (next f b) w = (w', (b', inl (s_end (i_client w)))) /\ unread (i_client w') = []
  end.
Proof.
  intros [Hr Hl]. destruct b as [|x b]; [|by exists w, b]. simpl.
  pose proof (countingReader_spec 4096 w Hr) as Hc. pose proof (conn_Read_spec 4096 (i_client w)) as Hs.
  destruct (countingReader_Read 4096 w) as [w1 [p err]]. destruct Hc as (Hc & _). rewrite <- Hc in Hs.
  destruct Hs as (Hu & _ & _ & _ & Herr). destruct err as [e|].
  - destruct Herr as (-> & Hn & ->). rewrite Hn in *. by exists w1, [].
  - destruct Herr as [_ Hp]; [lia|]. specialize (Hp Hl). destruct p as [|x p]; [done|]. rewrite Hu. simpl. by exists w1, p.
Qed.

Lemma next_uses {A} (f : byte -> A) n b : (n <= 1)%nat -> uses_up (fun b => b) n b (next f b).
Proof.
  intros Hn w w' b' a Hw Hrun. pose proof (next_spec f b w Hw) as H. rewrite Hrun in H.
  destruct (b ++ unread (i_client w)) as [|x rest]; destruct H as (w1 & b1 & Heq & Hrest); [done|].
  injection Heq as <- <- _. exists [x]. split; [simpl; lia|]. by rewrite Hrest.
Qed.
Lemma next_eof {A} (f : byte -> A) b : true_eof (next f b).
Proof.
  intros w w' b' e Hw Hrun _. pose proof (next_spec f b w Hw) as H. rewrite Hrun in H.
  destruct (b ++ unread (i_client w)); destruct H as (w1 & b1 & Heq & Hu); [|done].
  by injection Heq as <- _ _.
Qed.
Lemma next_parses {A} (f : byte -> A) b x : parses (fun b => b) b (next f b) [x] (f x).
Proof. intros w rest Hw Heq. pose proof (next_spec f b w Hw) as H. by rewrite Heq in H. Qed.

#[export] Instance reader_laws : TBinaryLaws bytes.
Proof.
  refine {| proto_held := fun b => b; header_bytes := fun h m => exists x, m = [x] /\ h = named x;
            body_bytes := fun m => exists x, m = [x] |}.
  - done.
  - intros b. by apply next_uses.
  - intros b. apply next_uses. lia.
  - intros b w w' b' a _ [= <- <- <-]. by exists [].
  - intros b. apply next_eof.
  - intros b. apply next_eof.
  - intros b w w' b' e _ [=].
  - intros b h m (x & -> & ->). apply next_parses.
  - intros b m (x & ->). apply (next_parses (fun _ => tt)).
  - intros b w rest _ Heq. by exists w, b.
  - intros b w Hw Heq. pose proof (next_spec named b w Hw) as H. rewrite Heq in H.
    destruct H as (w' & b' & Hrun & _). by exists w', b', (s_end (i_client w)).
Defined.

Lemma pair_frame x y : frame (named x) [x; y].
Proof. exists [x], [y]. split; [by exists x|]. split; [by exists y|done]. Qed.

(** The calls written so far. *)
#[export] Instance log : JsonEncoder (list call) := {| Encode := fun c => modify (fun l => l ++ [c]); time_Now := fun l => Z.of_nat (length l) |}.
End Pairs.

Import Pairs.

Definition demo_up : sink := mkSink [] None.
(** Two messages, in three chunks. *)
Definition demo_client (fin : goerr) : stream := mkStream [String.list_byte_of_string "a1b"; String.list_byte_of_string "2"] fin.
Definition demo_recorder : recorder (list call) := newRecorder [].

Example proxy_forwards_witness :
  exists r' up' c', proxy (inr (demo_up, mkStream [String.list_byte_of_string "xy"] EEOF)) (Some 1%nat) (demo_client EEOF) demo_up "me" demo_recorder =
    Some (r', Some (up', c')) /\ k_bytes up' = String.list_byte_of_string "a1b" /\ k_bytes c' = String.list_byte_of_string "xy".
Proof.
  assert (live (demo_client EEOF)) as Hl by (repeat constructor; done).
  exact (proxy_forwards (inr (demo_up, mkStream [String.list_byte_of_string "xy"] EEOF)) (Some 1%nat) (demo_client EEOF) demo_up "me"
           demo_recorder Hl eq_refl eq_refl).
Defined.

Example record_calls_witness :
  exists w r', record (demo_client EEOF) demo_up "me" demo_recorder = Some (w, r') /\
    map call_Method (rec_enc r') = ["a"; "b"] /\ summary r' = ["     1 a"; "     1 b"].
Proof.
  destruct (record_calls (demo_client EEOF) demo_up "me" demo_recorder [("a", CALL, 0); ("b", CALL, 0)]
              [String.list_byte_of_string "a1"; String.list_byte_of_string "b2"]) as (w & r' & Hrun & Hr).
  - done.
  - repeat constructor; done.
  - apply Forall2_cons; [exact (pair_frame x61 x31)|]. apply Forall2_cons; [exact (pair_frame x62 x32)|]. apply Forall2_nil.
  - done.
  - exists w, r'. split; [exact Hrun|]. cbn [isEOF] in Hr. vm_compute in Hr. rewrite Hr. split; vm_compute; reflexivity.
Defined.

Definition recorded (client : stream) : list (string * string) :=
  match record client demo_up "me" demo_recorder with
  | Some (_, r) => map (fun c => (call_Method c, call_Note c)) (rec_enc r)
  | None => []
  end.

(** A server that hangs up between two messages leaves the note of a stream that is not
    Thrift, though each message of it was read. *)
Lemma server_hangup_noted :
  recorded (cut (Some 1%nat) (mkStream [String.list_byte_of_string "a1"; String.list_byte_of_string "b2"] EEOF)) =
  [("a", ""); ("", "not TBinaryProtocol, proxying unrecorded: use of closed network connection")].
Proof. vm_compute. reflexivity. Qed.

(** Whether a message cut short by the client's hanging up is noted depends on the
    chunks its bytes arrive in. *)
Lemma truncated_message_by_chunks :
  recorded (mkStream [String.list_byte_of_string "a1"; String.list_byte_of_string "b"] EEOF) = [("a", ""); ("", "not TBinaryProtocol, proxying unrecorded: EOF")] /\
  recorded (mkStream [String.list_byte_of_string "a1b"] EEOF) = [("a", "")].
Proof. split; vm_compute; reflexivity. Qed.
